(* ===== verification/_CoqProject ===== *)
-Q . S2P
Prelude.v
Words.v
Mutex.v
Bitmap.v
PageAlloc.v
Dll.v
Lists.v
Heap.v
Vspace.v
Space.v
KHeap.v
Strings.v
Format.v
Errno.v
Kernel.v
Sched.v
UserMem.v
Teardown.v
Vfs.v
Ext2.v
Loader.v
Proc.v
Start.v
Reap.v
Irq.v
Block.v
Cmdline.v
Pci.v
Ata.v
Tables.v
Boot.v
IdMap.v
Main.v
Kprintf.v
Ramfs.v
System.v
