(* ===== verification/Prelude.v ===== *)
(** * A verification library for the UlmerOS kernel

    UlmerOS (src/kernel) is a small kernel for x86: memory management, tasks and processes, a
    virtual file system with an ext2 driver, a program loader, and system calls.  This library
    translates its C code to functions of Rocq, one for each C function, and proves what they do.

    ** How code is modelled

    - A C function is a Rocq function with the name of the C function; the comment above it
      names the file under src/ and the lines.  Loops are [Fixpoint]s, over a list or with fuel;
      theorems about them show that the fuel the callers give is enough, so that [NoFuel] is not
      an outcome.
    - Calls end in [res]: [Ok], or [Stop] with a reason: [Panic] ([kpanic], or [assert] in a
      debug build), [Fault] (undefined behaviour), [Blocked] (asleep for ever), [NoFuel].
    - Integers are [Z] and are reduced to their width where the code's types do it (Words).
    - [Build] is the preprocessor's DEBUG; theorems hold for both builds unless they say which.
    - Objects in memory are found by address: each type has a finite map from addresses to
      records, and an access to an address without an object faults.  Addresses come from the
      allocator, through the interface [Kmalloc] and its laws [KmallocLaws] (Dll), which the
      kernel heap (KHeap) implements and the bump allocator of the examples as well.  The heap
      draws on the same physical pages as everything else ([PhysMem], Vspace); [KmallocFrame]
      says which of them are its own, that it neither needs nor changes any other, and that it
      grows into free pages only.
    - Memory that is not initialised is a parameter ([junk] and the like).
    - Drivers behind function pointers, and what a component does not see of another, are
      classes: [Kmalloc], [PhysMem], [HeapCfg], [BootHeap], [Drivers], [Writers], [BlockDevices],
      [DiskDrivers], [FileDrivers], [IrqDrivers], [BlockDrivers], [PciDrivers].  The hardware is as
      well: [Ports] (the input instructions), [PciBus], [AtaDisk], and [Others] for what runs
      while a task sleeps; what is written to ports is a log in the kernel's state.  Each driver
      keeps its objects in a part of the state that a class names ([Ext2State], [BlockState],
      [CmdState], [PciState], [AtaState], [RamfsState], [StartState]).  A theorem states what it
      needs of them as laws of a class or as hypotheses, and each has an instance for which its
      witness runs.
    - The calls of [debug] in the components are left out: what one of them does is in Kprintf,
      and it changes nothing that another component sees.  The TLB and the cache are not
      modelled.

    ** Files

    - Prelude: outcomes, the build, [kpanic] and [assert] (include/debug.h), tactics.
    - Words: machine words, bits, bit fields, little-endian fields.
    - Mutex: sched/mutex.c, sched/spinlock.c, arch atomic.c.  One task at a time as functions;
      in the Module [Interleaving] several tasks as a step relation, one step for each access to
      shared memory.
    - Bitmap (libutil/bitmap.c) and PageAlloc (mm/page.c): a set of bits, the physical pages.
    - Dll: doubly linked chains in a finite map, and the allocator interface.
    - Lists: libutil/list.c over a store; operations refine those on sequences.
    - Heap: the block algorithms that mm/heap.c and the boot heap (boot32/heap.c) share, over an
      interface to the break; KHeap: mm/heap.c on top of pages and address spaces.
    - Vspace: arch/x86_64/x86_64/vspace.c: page tables as a tree over physical pages; Space: the
      discipline "each page of a range has its own frame", shared by the users of Vspace.
    - Strings (libutil/string.c), Format (libutil/sprintf.c), Errno (include/errno.h).
    - Kernel: the state that the parts below share, the monad [K], and locks, lists and pages
      within it.
    - Sched: context.c, sched/sched.c, sched/task.c and the creation part of sched/tasklist.c.
    - UserMem: sched/userstack.c and mm/sbrk.c.  Teardown: the pages that deleting an address
      space (vspace.c) gives back.
    - Vfs: fs/vfs.c, fs/ffind.c, time/time.c.  Ext2: fs/ext2fs.c.
    - Loader: sched/loader.c and mm/pagefault.c.
    - Proc: sched/proc.c, the cleanup part of sched/tasklist.c, fs/fs_syscall.c.  Start: the start
      of a process from its file, and Reap: its end, with its stacks, its program, its address
      space and the allocator.
    - Irq: sched/interrupt.c, arch/x86-common/x86/irq.c, sched/syscalls.c.
    - Block: fs/blockdev.c, fs/blkdev_ops.c, fs/partscan.c, fs/ramdisk.c.
    - Cmdline: init/cmdline.c.
    - Pci: bus/pci.c, drivers/pc/pci.c.  Ata: drivers/pc/ata.c.
    - Kprintf: debug/kprintf.c, x86/bochs.c.  Ramfs: fs/ramfs.c.
    - Tables: the descriptor tables of both stages (boot32/gdt.c, boot32/gdt_long.c,
      x86_64/gdt.c, x86_64/idt.c) and the interrupt controllers.
    - Boot: the boot stage (arch/x86_64/boot32: mmap.c, boot32mem.c, paging.c, multiboot.c,
      main.c); IdMap: the page tables that its [paging_init] builds.
    - Main: the start of the kernel, from [amd64_main] (x86_64/main.c) over [kmain] to the first
      task (init/main.c, drivers/pc/init.c).
    - System: interrupts, processes, ext2 and block devices together.

    ** What the theorems show

    - Locks: mutual exclusion in every interleaving; and that a contended mutex is never free
      again.
    - Memory, from the bottom up: the bitmap is a set and its searches find the first fit; a
      page is given out once; the heap's blocks are disjoint, allocation and release do what
      malloc and free promise, and the break follows; mapping, unmapping and translation act as on
      a map from pages to frames; stacks are disjoint and loaded on demand; [sbrk] moves the
      break and unmaps what it leaves.
    - Data: lists refine sequences and are independent of each other; numbers print and parse
      back; [sprintf] prints the text that its format denotes.
    - Tasks: the queue is served round robin, every runnable task gets its turn, killed tasks
      leave; a process is started with the entry point, the break and the stack that its program
      file asks for, in fresh memory, and every way to fail gives its error; the cleanup task gives back what killed threads held, and
      with the last thread of a process the process's memory and pages, and nothing else.
    - Files: [ffind] walks the tree that the directories stand for; a read of an ext2 file equals
      a reference definition on the blocks of the inode; the entries of an ext2 directory are
      read back as they were written; descriptors are a table.
    - Programs: a page fault in a segment, a stack or the heap gives the page the content and the
      permissions it has to have.
    - Interrupts: drivers are called in the order of their subscription and the interrupt is
      acknowledged; system calls are dispatched.
    - Devices: a RAM disk reads as its content, and partitions as a part of their disk; the scan
      of the PCI bus finds the functions that answer; a read from an IDE disk gives the sectors
      that were asked for; the command line is parsed back.
    - Start: the bitmap of free pages says what the memory map of the boot loader says; the
      first page tables map what they are meant to below the first GiB; the tables describe the
      segments that the comments list, and the lines of the controllers lead to their handlers;
      [kmain] ends in the first of its three kernel tasks with the parameters of the command
      line in place; exactly the pages of the boot stage are given back.
    - Diagnostics: calls of [debug] print their lines in order.
    - All together: a program's [read] of a file of an ext2 file system on a RAM disk gives the
      bytes of the file, from the interrupt down to the disk and back.
    - Where the code does not do what it means to, a theorem says what it does.

    ** Fuel

    Walks along lists and heap chains follow at most one link more than there are items in
    memory ([walk_fuel]), which is enough since a chain visits an item once; [ffind] descends
    at most as often as the path has bytes; [read_loop] reads at least one byte in each turn;
    the number loops of [sprintf] and [utoa] have 65 turns, more than there are bits; the scheduler
    looks at each task of its queue once.  [delete_stack] is given a bound on the pages it looks
    at: its loop does not end before it has unmapped as many pages as were counted
    ([delete_stack_unmaps_counted] says when it does).

    ** Not modelled

    - Assembly: the entry code of the stages, the stubs of interrupts, the switch of the stacks;
      the loads of processor registers are values in the state where something depends on them.
    - serial.c and ps2kbd.c have no code; the idle task only halts the processor.
    - User programs (util).
    - Interleavings outside the mutex: each call above runs without being interrupted, except
      where a task waits for an interrupt (Ata). *)
From Stdlib Require Export ZArith Lia.
From stdpp Require Export base numbers gmap list strings sets fin_maps option functions.
#[global] Set Default Goal Selector "!".

Declare Scope ulmer_scope.
Delimit Scope ulmer_scope with ulmer.

(** ** Outcomes of a run *)

(** Why an execution does not return to its caller. *)
Inductive stop :=
| Panic     (** [kpanic], or [assert] in a DEBUG build: the core is halted *)
| Fault     (** undefined behaviour of C: a null or wild access, a division by zero *)
| Blocked   (** the calling task went to sleep on a mutex and is not woken *)
| NoFuel.   (** the bound given to a loop was reached *)

Inductive res (A : Type) :=
| Ok (a : A)
| Stop (w : stop).
Arguments Ok {A} a.
Arguments Stop {A} w.

#[global] Instance stop_eq_dec : EqDecision stop.
Proof. solve_decision. Defined.
#[global] Instance res_eq_dec `{EqDecision A} : EqDecision (res A).
Proof. solve_decision. Defined.

#[global] Instance res_ret : MRet res := @Ok.
#[global] Instance res_bind : MBind res := λ A B f m,
  match m with Ok a => f a | Stop w => Stop w end.
#[global] Instance res_fmap : FMap res := λ A B f m,
  match m with Ok a => Ok (f a) | Stop w => Stop w end.

(** The three laws of the monad, so that a sequence of calls can be regrouped. *)
Lemma res_bind_assoc {A B C} (m : res A) (f : A → res B) (g : B → res C) :
  (m ≫= f) ≫= g = m ≫= (λ a, f a ≫= g).
Proof. by destruct m. Qed.

Lemma bind_Ok {A B} (m : res A) (f : A → res B) b :
  m ≫= f = Ok b ↔ ∃ a, m = Ok a ∧ f a = Ok b.
Proof.
  destruct m as [a|w]; split; simpl; [eauto| | |].
  - by intros (? & [= ->] & ?).
  - done.
  - by intros (? & ? & ?).
Qed.

Definition of_option {A} (o : option A) : res A :=
  match o with Some a => Ok a | None => Stop Fault end.

Lemma of_option_Ok {A} (o : option A) a : of_option o = Ok a ↔ o = Some a.
Proof. by destruct o; split; intros [=->]. Qed.

(** ** The build configuration *)

(** [DEBUG] is the preprocessor symbol that CMake defines for a debug build: it turns
    [assert] (include/debug.h) from nothing into [kpanic]. *)
Class Build := { DEBUG : bool }.

(** The two builds, for concrete runs. *)
Definition debug_build : Build := {| DEBUG := true |}.
Definition release_build : Build := {| DEBUG := false |}.

(** [kpanic] (kernel/kernel/include/debug.h, lines 31-37). *)
Definition kpanic (x : bool) : res unit :=
  if x then Ok tt else Stop Panic.

(** [assert] (kernel/kernel/include/debug.h, lines 39-43). *)
Definition assert_ `{Build} (x : bool) : res unit :=
  if DEBUG then kpanic x else Ok tt.

Lemma kpanic_true : kpanic true = Ok tt.
Proof. done. Qed.

Lemma kpanic_Ok x u : kpanic x = Ok u ↔ x = true.
Proof. by destruct x, u. Qed.

Lemma assert_true `{Build} : assert_ true = Ok tt.
Proof. unfold assert_. by destruct DEBUG. Qed.

Lemma assert_holds `{Build} x : x = true → assert_ x = Ok tt.
Proof. intros ->. apply assert_true. Qed.

(** ** Tactics *)

(** Takes a successful sequence of calls apart: one equation per call. *)
Ltac bind_inv :=
  repeat match goal with
  | H : (_ ≫= _) = Ok _ |- _ =>
      let a := fresh "r" in let Ha := fresh "Hr" in
      apply bind_Ok in H; destruct H as (a & Ha & H)
  | H : mret _ = Ok _ |- _ => injection H as H; subst
  | H : Ok _ = Ok _ |- _ => injection H as H; subst
  | H : Stop _ = Ok _ |- _ => discriminate H
  | H : of_option _ = Ok _ |- _ => apply of_option_Ok in H
  | H : kpanic _ = Ok _ |- _ => apply kpanic_Ok in H
  | p : (_ * _)%type |- _ => destruct p
  | u : unit |- _ => destruct u
  end; simplify_eq/=.

Create HintDb ulmer.
Create Rewrite HintDb ulmer.
#[export] Hint Rewrite @res_bind_assoc : ulmer.
#[export] Hint Resolve assert_true : ulmer.

(** ** Arithmetic decisions of the code *)

(** Turns the boolean comparisons of a guard into facts [lia] reads. *)
Ltac zbool :=
  repeat match goal with
  | H : (_ <? _)%Z = true |- _ => apply Z.ltb_lt in H
  | H : (_ <? _)%Z = false |- _ => apply Z.ltb_ge in H
  | H : (_ <=? _)%Z = true |- _ => apply Z.leb_le in H
  | H : (_ <=? _)%Z = false |- _ => apply Z.leb_gt in H
  | H : (_ =? _)%Z = true |- _ => apply Z.eqb_eq in H
  | H : (_ =? _)%Z = false |- _ => apply Z.eqb_neq in H
  | H : negb _ = true |- _ => apply negb_true_iff in H
  | H : negb _ = false |- _ => apply negb_false_iff in H
  | H : (_ && _) = true |- _ => apply andb_true_iff in H; destruct H
  | H : (_ || _) = false |- _ => apply orb_false_iff in H; destruct H
  end.

(** Case analysis on the innermost comparison of the goal. *)
Ltac case_ltb :=
  match goal with
  | |- context [(?a <? ?b)%Z] => destruct (Z.ltb_spec a b)
  | |- context [(?a <=? ?b)%Z] => destruct (Z.leb_spec a b)
  | |- context [(?a =? ?b)%Z] => destruct (Z.eqb_spec a b)
  end.

(** [lia] with quotients and remainders replaced by their equations. *)
Ltac zdiv := Z.to_euclidean_division_equations; lia.

(** Splits on every comparison of the goal and closes the impossible cases. *)
Ltac zcases := repeat (case_ltb; simpl; try lia); try done.

(** ** Lists *)

(** The first element of a list that has a property. *)
Lemma list_first_split {A} (P : A → Prop) `{∀ x, Decision (P x)} (l : list A) :
  (∃ l1 x l2, l = l1 ++ x :: l2 ∧ P x ∧ ∀ y, y ∈ l1 → ¬ P y) ∨ ∀ y, y ∈ l → ¬ P y.
Proof.
  induction l as [|a l IH]; [right; by intros y ?%elem_of_nil|].
  destruct (decide (P a)) as [Ha|Ha]; [left; exists [], a, l; split_and!; [done..|by intros y ?%elem_of_nil]|].
  destruct IH as [(l1 & x & l2 & -> & Hx & Hl1)|Hl].
  - left. exists (a :: l1), x, l2. split_and!; [done..|]. by intros y [->|Hy]%elem_of_cons; [|apply Hl1].
  - right. by intros y [->|Hy]%elem_of_cons; [|apply Hl].
Qed.
