(* ===== verification/Words.v ===== *)
(** Machine words: the unsigned and signed types of libutil/include/util/types.h as
    integers reduced to their width, the bit operations of the code, bit-fields of a
    64-bit word, and little-endian fields of a byte buffer. *)
From S2P Require Import Prelude.
From coqutil Require Import Z.bitblast.
Open Scope Z_scope.

(** ** Widths *)

(** The value kept by an unsigned type of [w] bits, and by a signed one. *)
Definition uwrap (w x : Z) : Z := x mod 2 ^ w.
Definition swrap (w x : Z) : Z := (x + 2 ^ (w - 1)) mod 2 ^ w - 2 ^ (w - 1).

Abbreviation u8 := (uwrap 8).
Abbreviation u16 := (uwrap 16).
Abbreviation u32 := (uwrap 32).
Abbreviation u64 := (uwrap 64).
Abbreviation s32 := (swrap 32).
Abbreviation s64 := (swrap 64).

(** [(size_t)-1] on x86_64. *)
Definition SIZE_MAX : Z := 2 ^ 64 - 1.

(** [BIT(x)] (types.h): [1ull << x]. *)
Definition BIT (x : Z) : Z := Z.shiftl 1 x.

Definition is_word (w x : Z) : Prop := 0 <= x < 2 ^ w.
#[global] Instance is_word_dec w x : Decision (is_word w x).
Proof. unfold is_word. apply _. Defined.

Lemma uwrap_small w x : is_word w x → uwrap w x = x.
Proof. intros ?. by apply Z.mod_small. Qed.

Lemma uwrap_word w x : 0 <= w → is_word w (uwrap w x).
Proof. intros ?. apply Z.mod_pos_bound. apply Z.pow_pos_nonneg; lia. Qed.

Lemma swrap_small w x : - 2 ^ (w - 1) <= x < 2 ^ (w - 1) → 0 < w → swrap w x = x.
Proof.
  intros Hx Hw. unfold swrap.
  assert (2 ^ w = 2 * 2 ^ (w - 1)) as Heq.
  { rewrite <-Z.pow_succ_r by lia. f_equal. lia. }
  rewrite Z.mod_small by lia. lia.
Qed.

Lemma pow2_pos n : 0 <= n → 0 < 2 ^ n.
Proof. intros ?. apply Z.pow_pos_nonneg; lia. Qed.

(** A word is the number whose bits from [w] on are clear. *)
Lemma word_bits w x : 0 <= w → is_word w x ↔ 0 <= x ∧ ∀ i, w <= i → Z.testbit x i = false.
Proof.
  intros Hw. unfold is_word. split.
  - intros [H0 H1]. split; [done|]. intros i Hi.
    destruct (decide (x = 0)) as [->|]; [apply Z.testbit_0_l|].
    apply Z.bits_above_log2; [lia|]. apply Z.log2_lt_pow2; [lia|].
    eapply Z.lt_le_trans; [done|]. apply Z.pow_le_mono_r; lia.
  - intros [H0 Hb]. split; [done|].
    destruct (decide (x = 0)) as [->|]; [by apply pow2_pos|].
    apply Z.log2_lt_pow2; [lia|].
    destruct (Z.lt_ge_cases (Z.log2 x) w) as [|Hge]; [done|].
    specialize (Hb (Z.log2 x) Hge). rewrite Z.bit_log2 in Hb; [done|lia].
Qed.

Lemma word_lor w x y : 0 <= w → is_word w x → is_word w y → is_word w (Z.lor x y).
Proof.
  intros Hw. rewrite !word_bits by done. intros [? Hx] [? Hy]. split.
  - apply Z.lor_nonneg; done.
  - intros i ?. by rewrite Z.lor_spec, Hx, Hy.
Qed.

Lemma word_land_l w x y : 0 <= w → is_word w x → is_word w (Z.land x y).
Proof.
  intros Hw. rewrite !word_bits by done. intros [? Hx]. split.
  - apply Z.land_nonneg; auto.
  - intros i ?. by rewrite Z.land_spec, Hx.
Qed.

Lemma word_BIT w x : 0 <= x < w → is_word w (BIT x).
Proof.
  intros ?. unfold is_word, BIT. rewrite Z.shiftl_1_l. split; [apply Z.lt_le_incl, pow2_pos; lia|].
  apply Z.pow_lt_mono_r; lia.
Qed.

Lemma BIT_spec x i : 0 <= x → 0 <= i → Z.testbit (BIT x) i = bool_decide (i = x).
Proof.
  intros. unfold BIT. rewrite Z.shiftl_1_l. case_bool_decide.
  - subst. by apply Z.pow2_bits_true.
  - apply Z.pow2_bits_false. lia.
Qed.

(** [x & BIT(i)] is zero exactly when bit [i] is clear. *)
Lemma land_BIT x i : 0 <= i → (Z.land x (BIT i) =? 0) = negb (Z.testbit x i).
Proof.
  intros Hi. destruct (Z.eqb_spec (Z.land x (BIT i)) 0) as [He|Hne].
  - assert (Z.testbit (Z.land x (BIT i)) i = false) as Hb by (by rewrite He, Z.testbit_0_l).
    rewrite Z.land_spec, BIT_spec, bool_decide_eq_true_2, andb_true_r in Hb by done.
    by rewrite Hb.
  - destruct (Z.testbit x i) eqn:Hb; [done|]. destruct Hne.
    apply Z.bits_inj'. intros j Hj. rewrite Z.land_spec, BIT_spec, Z.testbit_0_l by done.
    case_bool_decide; subst; [by rewrite Hb|by rewrite andb_false_r].
Qed.

(** ** Bit-fields

    A bit-field of [len] bits at bit [off] of a word, as the compiler reads and writes
    the members of [gpte_t], [tssd_t] and [region_desc_t]. *)

Definition bf_get (off len w : Z) : Z := Z.land (Z.shiftr w off) (Z.ones len).
Definition bf_set (off len v w : Z) : Z :=
  Z.lor (Z.ldiff w (Z.shiftl (Z.ones len) off)) (Z.shiftl (Z.land v (Z.ones len)) off).

Section bitfields.
Context (off len : Z) (Hoff : 0 <= off) (Hlen : 0 <= len).

Lemma bf_get_spec w i :
  0 <= i → Z.testbit (bf_get off len w) i = (i <? len) && Z.testbit w (i + off).
Proof.
  intros Hi. unfold bf_get. rewrite Z.land_spec, Z.shiftr_spec by done.
  rewrite Z.testbit_ones_nonneg by lia. apply andb_comm.
Qed.

Lemma bf_set_spec v w i :
  0 <= i →
  Z.testbit (bf_set off len v w) i =
    if (off <=? i) && (i <? off + len) then Z.testbit v (i - off) else Z.testbit w i.
Proof.
  intros Hi. unfold bf_set. rewrite Z.lor_spec, Z.ldiff_spec, !Z.shiftl_spec by done.
  destruct (Z.leb_spec off i); simpl.
  - rewrite Z.land_spec, Z.testbit_ones_nonneg by lia.
    destruct (Z.ltb_spec (i - off) len), (Z.ltb_spec i (off + len)); try lia; simpl.
    + by rewrite andb_false_r, andb_true_r.
    + by rewrite andb_false_r, andb_true_r, orb_false_r.
  - by rewrite !(Z.testbit_neg_r _ (i - off)), andb_true_r, orb_false_r by lia.
Qed.

Lemma bf_get_set v w : bf_get off len (bf_set off len v w) = v mod 2 ^ len.
Proof.
  apply Z.bits_inj'. intros i Hi. rewrite bf_get_spec, bf_set_spec by lia.
  rewrite Z.testbit_mod_pow2 by lia.
  destruct (Z.ltb_spec i len); simpl; [|done].
  destruct (Z.leb_spec off (i + off)), (Z.ltb_spec (i + off) (off + len)); try lia; simpl.
  f_equal. lia.
Qed.

Lemma bf_set_word v w : off + len <= 64 → 0 <= v → is_word 64 w → is_word 64 (bf_set off len v w).
Proof.
  intros Hle Hv [Hw Hb]%word_bits; [|lia]. apply word_bits; [lia|]. split.
  - unfold bf_set. apply Z.lor_nonneg. split.
    + apply Z.ldiff_nonneg. by left.
    + apply Z.shiftl_nonneg, Z.land_nonneg. by left.
  - intros i Hi. rewrite bf_set_spec by lia.
    destruct (Z.ltb_spec i (off + len)); [lia|]. rewrite andb_false_r. auto.
Qed.

(** Writing one field leaves a disjoint one alone. *)
Lemma bf_get_set_other off' len' v w :
  0 <= off' → 0 <= len' → off' + len' <= off ∨ off + len <= off' →
  bf_get off' len' (bf_set off len v w) = bf_get off' len' w.
Proof.
  intros Ho Hl Hd. apply Z.bits_inj'. intros i Hi. unfold bf_get.
  rewrite !Z.land_spec, !Z.shiftr_spec, bf_set_spec by lia.
  rewrite Z.testbit_ones_nonneg by lia.
  destruct (Z.ltb_spec i len'); [|by rewrite !andb_false_r].
  destruct (Z.leb_spec off (i + off')), (Z.ltb_spec (i + off') (off + len)); try lia; done.
Qed.

Lemma bf_get_range w : 0 <= bf_get off len w < 2 ^ len.
Proof.
  unfold bf_get. rewrite Z.land_ones by done. apply Z.mod_pos_bound. by apply pow2_pos.
Qed.

End bitfields.

(** ** Little-endian fields of a buffer of bytes *)

Definition le_combine (bs : list Z) : Z :=
  foldr (λ b acc, b + 256 * acc) 0 bs.

Fixpoint le_split (n : nat) (x : Z) : list Z :=
  match n with O => [] | S n => x mod 256 :: le_split n (x / 256) end.

(** The [n]-byte field at offset [off] of a packed structure held in [buf]. *)
Definition le_field (buf : list Z) (off n : nat) : Z := le_combine (take n (drop off buf)).

Definition bytes_ok (bs : list Z) : Prop := Forall (is_word 8) bs.

Lemma length_le_split n x : length (le_split n x) = n.
Proof. revert x. induction n; intros; simpl; [done|]. by rewrite IHn. Qed.

Lemma le_combine_split n x : le_combine (le_split n x) = x mod 256 ^ Z.of_nat n.
Proof.
  revert x. induction n as [|n IH]; intros x; cbn [le_split le_combine foldr].
  - by rewrite Z.mod_1_r.
  - fold (le_combine (le_split n (x / 256))). rewrite IH, Nat2Z.inj_succ, Z.pow_succ_r by lia.
    rewrite Z.rem_mul_r; lia.
Qed.

Lemma le_combine_bound bs : bytes_ok bs → 0 <= le_combine bs < 256 ^ Z.of_nat (length bs).
Proof.
  induction 1 as [|b bs [Hb1 Hb2] _ IH]; [simpl; lia|].
  change (2 ^ 8) with 256 in Hb2. cbn [length le_combine foldr].
  rewrite Nat2Z.inj_succ, Z.pow_succ_r by lia. fold (le_combine bs). nia.
Qed.

Lemma le_field_bound buf off n :
  bytes_ok buf → 0 <= le_field buf off n < 256 ^ Z.of_nat n.
Proof.
  intros Hb. unfold le_field.
  pose proof (le_combine_bound (take n (drop off buf))) as Hc.
  destruct Hc as [H0 H1]; [by apply Forall_take, Forall_drop|]. split; [done|].
  eapply Z.lt_le_trans; [done|]. apply Z.pow_le_mono_r; [lia|].
  rewrite length_take. lia.
Qed.
