(* ===== verification/Mutex.v ===== *)
(** Spinlocks and mutexes (kernel/kernel/sched/spinlock.c, mutex.c, include/sched/mutex.h).

    The first half gives each call as a function on the lock: the path the code takes in
    the calling task when nothing else runs.  The other components call these.  The second
    half is the same code cut at its memory accesses and run by several tasks under a
    preemptive scheduler: mutual exclusion, and what happens under contention. *)
From S2P Require Import Prelude Words.
Open Scope Z_scope.

(** A pointer to a [task_t]; [NULL] is 0. *)
Abbreviation tptr := Z (only parsing).

(** [task_state_t] (kernel/kernel/include/sched/task.h, lines 10-15). *)
Inductive task_state_t := TASK_RUNNING | TASK_SLEEPING | TASK_KILLED.
#[global] Instance task_state_eq_dec : EqDecision task_state_t.
Proof. solve_decision. Defined.

(** [MUTEX_MAGIC] (kernel/kernel/include/sched/mutex.h, line 27). *)
Definition MUTEX_MAGIC : Z := 0xdeadbeef.
(** [SPIN_MAGIC] (kernel/kernel/include/sched/mutex.h, line 28). *)
Definition SPIN_MAGIC : Z := 0xdead0ff0.

(** [spin_t] (kernel/kernel/include/sched/mutex.h, lines 9-13). *)
Record spin_t := { sp_lock : Z; sp_magic : Z }.

(** [mutex_t] (kernel/kernel/include/sched/mutex.h, lines 15-25).  The list of waiting
    tasks is the sequence of its payloads: see Lists.v for the linked list. *)
Record mutex_t := {
  mx_lock : Z;
  mx_magic : Z;
  mx_waiting : list tptr;
  mx_spin : spin_t;
  mx_held_by : tptr;
}.

(** [SPIN_INITIALIZER] (kernel/kernel/include/sched/mutex.h, lines 30-33). *)
Definition SPIN_INITIALIZER : spin_t := {| sp_lock := 0; sp_magic := SPIN_MAGIC |}.

(** [MUTEX_INITIALIZER] (kernel/kernel/include/sched/mutex.h, lines 35-41). *)
Definition MUTEX_INITIALIZER : mutex_t :=
  {| mx_lock := 0; mx_magic := MUTEX_MAGIC; mx_waiting := [];
     mx_spin := SPIN_INITIALIZER; mx_held_by := 0 |}.

(** [xchg] (kernel/arch/x86-common/x86/atomic.c, lines 3-10): the old value, and the word
    after the exchange. *)
Definition xchg (val mem : Z) : Z * Z := (mem, val).

(** [atomic_add] (kernel/arch/x86-common/x86/atomic.c, lines 12-20): the old value, and
    the word after the addition. *)
Definition atomic_add (mem increment : Z) : Z * Z := (mem, u64 (mem + increment)).

Section sequential.
Context `{B : Build}.

(** [spin_init] (kernel/kernel/sched/spinlock.c, lines 9-15). *)
Definition spin_init (spin : spin_t) : res spin_t :=
  assert_ (negb (sp_magic spin =? MUTEX_MAGIC));;
  mret {| sp_lock := 0; sp_magic := SPIN_MAGIC |}.

(** [spin_lock] (kernel/kernel/sched/spinlock.c, lines 17-22).  A task that finds the lock
    taken yields for ever when no other task runs. *)
Definition spin_lock (spin : spin_t) : res spin_t :=
  assert_ (sp_magic spin =? SPIN_MAGIC);;
  let '(old, new) := xchg 1 (sp_lock spin) in
  if old =? 0 then mret {| sp_lock := new; sp_magic := sp_magic spin |}
  else Stop Blocked.

(** [spin_unlock] (kernel/kernel/sched/spinlock.c, lines 24-29). *)
Definition spin_unlock (spin : spin_t) : res spin_t :=
  assert_ (sp_magic spin =? SPIN_MAGIC);;
  assert_ (negb (sp_lock spin =? 0));;
  mret {| sp_lock := 0; sp_magic := sp_magic spin |}.

(** [spin_destroy] (kernel/kernel/sched/spinlock.c, lines 31-36). *)
Definition spin_destroy (spin : spin_t) : res spin_t :=
  assert_ (sp_magic spin =? SPIN_MAGIC);;
  assert_ (sp_lock spin =? 0);;
  mret {| sp_lock := sp_lock spin; sp_magic := 0 |}.

(** [mutex_init] (kernel/kernel/sched/mutex.c, lines 10-21). *)
Definition mutex_init (mtx : mutex_t) : res mutex_t :=
  assert_ (negb (mx_magic mtx =? MUTEX_MAGIC));;
  spin ← spin_init (mx_spin mtx);
  mret {| mx_lock := 0; mx_magic := MUTEX_MAGIC; mx_waiting := [];
          mx_spin := spin; mx_held_by := 0 |}.

(** [mutex_lock] (kernel/kernel/sched/mutex.c, lines 23-44), in the task [cur]. *)
Definition mutex_lock (cur : tptr) (mtx : mutex_t) : res mutex_t :=
  assert_ (mx_magic mtx =? MUTEX_MAGIC);;
  assert_ (mx_lock mtx =? 0);;
  let '(old, new) := xchg 1 (mx_lock mtx) in
  if old =? 0 then
    mret {| mx_lock := new; mx_magic := mx_magic mtx; mx_waiting := mx_waiting mtx;
            mx_spin := mx_spin mtx; mx_held_by := cur |}
  else Stop Blocked.

(** [mutex_unlock] (kernel/kernel/sched/mutex.c, lines 46-65).  [state] gives the state of
    the waiting tasks; the second result is the task that is set running. *)
Definition mutex_unlock (state : tptr → task_state_t) (cur : tptr) (mtx : mutex_t)
    : res (mutex_t * option tptr) :=
  assert_ (mx_magic mtx =? MUTEX_MAGIC);;
  assert_ (negb (mx_lock mtx =? 0));;
  assert_ (mx_held_by mtx =? cur);;
  spin ← spin_lock (mx_spin mtx);
  woken ← match mx_waiting mtx with
          | [] => mret None
          | task :: _ =>
              assert_ (negb (task =? 0));;
              assert_ (bool_decide (state task = TASK_SLEEPING));;
              mret (Some task)
          end;
  spin ← spin_unlock spin;
  mret ({| mx_lock := 0; mx_magic := mx_magic mtx; mx_waiting := mx_waiting mtx;
           mx_spin := spin; mx_held_by := 0 |}, woken).

(** [mutex_locked] (kernel/kernel/sched/mutex.c, lines 67-71). *)
Definition mutex_locked (mtx : mutex_t) : res Z :=
  assert_ (mx_magic mtx =? MUTEX_MAGIC);; mret (mx_lock mtx).

(** [mutex_held] (kernel/kernel/sched/mutex.c, lines 73-77). *)
Definition mutex_held (cur : tptr) (mtx : mutex_t) : res bool :=
  assert_ (mx_magic mtx =? MUTEX_MAGIC);; mret (mx_held_by mtx =? cur).

(** [mutex_destroy] (kernel/kernel/sched/mutex.c, lines 80-88). *)
Definition mutex_destroy (mtx : mutex_t) : res mutex_t :=
  assert_ (mx_magic mtx =? MUTEX_MAGIC);;
  assert_ (mx_lock mtx =? 0);;
  spin ← spin_destroy (mx_spin mtx);
  mret {| mx_lock := mx_lock mtx; mx_magic := 0; mx_waiting := [];
          mx_spin := spin; mx_held_by := 0 |}.

(** A mutex between uses: initialised, free, nobody waiting. *)
Definition mx_idle (m : mutex_t) : Prop := m = MUTEX_INITIALIZER.

(** The mutex while [cur] is between [mutex_lock] and [mutex_unlock]. *)
Definition mx_taken (cur : tptr) : mutex_t :=
  {| mx_lock := 1; mx_magic := MUTEX_MAGIC; mx_waiting := [];
     mx_spin := SPIN_INITIALIZER; mx_held_by := cur |}.

Lemma mutex_lock_idle cur : mutex_lock cur MUTEX_INITIALIZER = Ok (mx_taken cur).
Proof. by cbv -[DEBUG]; destruct DEBUG. Qed.

Lemma mutex_unlock_taken st cur :
  mutex_unlock st cur (mx_taken cur) = Ok (MUTEX_INITIALIZER, None).
Proof. unfold mutex_unlock. cbn [mx_taken mx_held_by]. rewrite Z.eqb_refl. by cbv -[DEBUG]; destruct DEBUG. Qed.

Lemma mutex_held_taken cur : mutex_held cur (mx_taken cur) = Ok true.
Proof. unfold mutex_held. cbn [mx_taken mx_held_by]. rewrite Z.eqb_refl. by cbv -[DEBUG]; destruct DEBUG. Qed.

(** [mutex_unlock] for a caller that does not look at the task it wakes, if any. *)
Definition mutex_release (cur : tptr) (mtx : mutex_t) : res mutex_t :=
  fst <$> mutex_unlock (λ _, TASK_SLEEPING) cur mtx.

Lemma mutex_release_taken cur : mutex_release cur (mx_taken cur) = Ok MUTEX_INITIALIZER.
Proof. unfold mutex_release. by rewrite mutex_unlock_taken. Qed.

(** A call made while the mutex is taken does not come back: the debug build panics on
    its assertion, the release build goes to sleep. *)
Lemma mutex_lock_taken cur cur' :
  mutex_lock cur (mx_taken cur') = Stop (if DEBUG then Panic else Blocked).
Proof. by cbv -[DEBUG]; destruct DEBUG. Qed.

End sequential.
#[export] Hint Rewrite @mutex_lock_idle @mutex_unlock_taken @mutex_release_taken @mutex_held_taken
  @mutex_lock_taken @assert_true : ulmer.

(** * Several tasks on one mutex

    The code of [mutex_lock] and [mutex_unlock] in the release build, cut at every access
    to shared memory.  A task runs while it is the current one; a timer interrupt may
    switch to any task whose state is [TASK_RUNNING] between two accesses. *)
Module Interleaving.

(** Where a task is in mutex.c; each constructor is the access it performs next. *)
Inductive pc :=
| Outside      (* not using the mutex *)
| LkXchg       (* line 29: xchg(1, &mtx->lock) *)
| LkSpin       (* line 36: spin_lock(&mtx->waiting_tasks_lock) *)
| LkSleep      (* line 37: current_task->state = TASK_SLEEPING *)
| LkEnqueue    (* line 38: list_add(&mtx->waiting_tasks, current_task) *)
| LkYield      (* line 39: yield() *)
| LkSpinRel    (* line 40: spin_unlock(&mtx->waiting_tasks_lock) *)
| LkOwn        (* line 43: mtx->held_by = current_task *)
| Critical     (* between mutex_lock and mutex_unlock *)
| UnOwner      (* line 52: mtx->held_by = NULL *)
| UnLock       (* line 53: mtx->lock = 0 *)
| UnSpin       (* line 56: spin_lock(&mtx->waiting_tasks_lock) *)
| UnWake       (* lines 57-63: task->state = TASK_RUNNING *)
| UnSpinRel.   (* line 64: spin_unlock(&mtx->waiting_tasks_lock) *)

#[global] Instance pc_eq_dec : EqDecision pc.
Proof. solve_decision. Defined.

Record sys := {
  sy_mutex : mutex_t;
  sy_state : tptr → task_state_t;
  sy_pc : tptr → pc;
  sy_cur : tptr;
}.

Definition with_lock (m : mutex_t) (v : Z) : mutex_t :=
  {| mx_lock := v; mx_magic := mx_magic m; mx_waiting := mx_waiting m;
     mx_spin := mx_spin m; mx_held_by := mx_held_by m |}.
Definition with_spin (m : mutex_t) (v : Z) : mutex_t :=
  {| mx_lock := mx_lock m; mx_magic := mx_magic m; mx_waiting := mx_waiting m;
     mx_spin := {| sp_lock := v; sp_magic := sp_magic (mx_spin m) |};
     mx_held_by := mx_held_by m |}.
Definition with_owner (m : mutex_t) (t : tptr) : mutex_t :=
  {| mx_lock := mx_lock m; mx_magic := mx_magic m; mx_waiting := mx_waiting m;
     mx_spin := mx_spin m; mx_held_by := t |}.
Definition with_waiting (m : mutex_t) (l : list tptr) : mutex_t :=
  {| mx_lock := mx_lock m; mx_magic := mx_magic m; mx_waiting := l;
     mx_spin := mx_spin m; mx_held_by := mx_held_by m |}.

(** The current task moves on to [p] with the mutex [m] and the task states [st]. *)
Definition goto (s : sys) (m : mutex_t) (st : tptr → task_state_t) (p : pc) : sys :=
  {| sy_mutex := m; sy_state := st; sy_pc := <[sy_cur s := p]> (sy_pc s); sy_cur := sy_cur s |}.

(** A task that has marked itself asleep keeps the CPU until it is switched out. *)
Definition on_cpu (s : sys) : bool :=
  bool_decide (sy_state s (sy_cur s) = TASK_RUNNING) ||
  bool_decide (sy_pc s (sy_cur s) = LkEnqueue) || bool_decide (sy_pc s (sy_cur s) = LkYield).

(** [mutex_action] (kernel/kernel/sched/mutex.c, lines 23-65): the next access of the
    current task. *)
Definition mutex_action (s : sys) : option sys :=
  let t := sy_cur s in let m := sy_mutex s in let st := sy_state s in
  if negb (on_cpu s) then None else
  match sy_pc s t with
  | Outside | Critical => None
  | LkXchg =>
      let '(old, new) := xchg 1 (mx_lock m) in
      Some (goto s (with_lock m new) st (if old =? 0 then LkOwn else LkSpin))
  | LkSpin =>
      let '(old, new) := xchg 1 (sp_lock (mx_spin m)) in
      Some (goto s (with_spin m new) st (if old =? 0 then LkSleep else LkSpin))
  | LkSleep => Some (goto s m (<[t := TASK_SLEEPING]> st) LkEnqueue)
  | LkEnqueue => Some (goto s (with_waiting m (mx_waiting m ++ [t])) st LkYield)
  | LkYield => Some (goto s m st LkSpinRel)
  | LkSpinRel => Some (goto s (with_spin m 0) st LkXchg)
  | LkOwn => Some (goto s (with_owner m t) st Critical)
  | UnOwner => Some (goto s (with_owner m 0) st UnLock)
  | UnLock => Some (goto s (with_lock m 0) st UnSpin)
  | UnSpin =>
      let '(old, new) := xchg 1 (sp_lock (mx_spin m)) in
      Some (goto s (with_spin m new) st (if old =? 0 then UnWake else UnSpin))
  | UnWake =>
      match mx_waiting m with
      | [] => Some (goto s m st UnSpinRel)
      | w :: _ => Some (goto s m (<[w := TASK_RUNNING]> st) UnSpinRel)
      end
  | UnSpinRel => Some (goto s (with_spin m 0) st Outside)
  end.

(** A step of the machine: the current task enters [mutex_lock], leaves its critical
    section through [mutex_unlock], performs the next access of either, or the scheduler
    switches to a task that is running. *)
Inductive step (s : sys) : sys → Prop :=
| step_lock :
    on_cpu s = true → sy_pc s (sy_cur s) = Outside →
    step s (goto s (sy_mutex s) (sy_state s) LkXchg)
| step_unlock :
    on_cpu s = true → sy_pc s (sy_cur s) = Critical →
    step s (goto s (sy_mutex s) (sy_state s) UnOwner)
| step_action s' : mutex_action s = Some s' → step s s'
| step_switch t :
    sy_state s t = TASK_RUNNING →
    step s {| sy_mutex := sy_mutex s; sy_state := sy_state s; sy_pc := sy_pc s; sy_cur := t |}.

(** The machine before any task has used the mutex. *)
Definition initial (cur : tptr) : sys :=
  {| sy_mutex := MUTEX_INITIALIZER; sy_state := λ _, TASK_RUNNING;
     sy_pc := λ _, Outside; sy_cur := cur |}.

Definition reachable (s : sys) : Prop := ∃ cur, rtc step (initial cur) s.

(** Tasks between the successful exchange and the release of [lock] ... *)
Definition owns (p : pc) : bool :=
  match p with LkOwn | Critical | UnOwner | UnLock => true | _ => false end.
(** ... and tasks that hold [waiting_tasks_lock]. *)
Definition spins (p : pc) : bool :=
  match p with
  | LkSleep | LkEnqueue | LkYield | LkSpinRel | UnWake | UnSpinRel => true
  | _ => false end.
(** Tasks whose name is in [held_by]. *)
Definition named (p : pc) : bool :=
  match p with Critical | UnOwner => true | _ => false end.

(** A lock word and the set of tasks past it: either free, or one task. *)
Definition excl (P : pc → bool) (lk : Z) (pcs : tptr → pc) : Prop :=
  (lk = 0 ∧ ∀ t, P (pcs t) = false) ∨
  (lk = 1 ∧ ∃ t, P (pcs t) = true ∧ ∀ t', P (pcs t') = true → t' = t).

Section excl.
Context (P : pc → bool).

Lemma excl_keep lk pcs t p : P p = P (pcs t) → excl P lk pcs → excl P lk (<[t:=p]> pcs).
Proof.
  intros Hp. assert (∀ u, P (<[t:=p]> pcs u) = P (pcs u)) as Heq.
  { intros u. destruct (decide (u = t)) as [->|]; [by rewrite fn_lookup_insert|].
    by rewrite fn_lookup_insert_ne. }
  intros [[-> H]|(-> & o & Ho & Hu)]; [left|right].
  - split; [done|]. intros u. by rewrite Heq.
  - split; [done|]. exists o. rewrite Heq. split; [done|]. intros u. rewrite Heq. auto.
Qed.

Lemma excl_acquire lk pcs t p : P p = true → lk = 0 → excl P lk pcs → excl P 1 (<[t:=p]> pcs).
Proof.
  intros Hp -> [[_ H]|[? _]]; [|done]. right. split; [done|]. exists t.
  rewrite fn_lookup_insert. split; [done|]. intros u Hu.
  destruct (decide (u = t)) as [->|]; [done|].
  rewrite fn_lookup_insert_ne, H in Hu by done. done.
Qed.

Lemma excl_release lk pcs t p :
  P p = false → P (pcs t) = true → excl P lk pcs → excl P 0 (<[t:=p]> pcs).
Proof.
  intros Hp Ht [[_ H]|(_ & o & Ho & Hu)]; [by rewrite H in Ht|].
  left. split; [done|]. intros u. destruct (decide (u = t)) as [->|].
  - by rewrite fn_lookup_insert.
  - rewrite fn_lookup_insert_ne by done. destruct (P (pcs u)) eqn:E; [|done].
    by rewrite (Hu _ Ht), (Hu _ E) in *.
Qed.

Lemma excl_busy lk pcs t : P (pcs t) = true → excl P lk pcs → lk = 1.
Proof. intros Ht [[_ H]|[? _]]; [by rewrite H in Ht|done]. Qed.

Lemma excl_one lk pcs t t' :
  excl P lk pcs → P (pcs t) = true → P (pcs t') = true → t = t'.
Proof.
  intros [[_ H]|(_ & o & _ & Hu)] Ht Ht'; [by rewrite H in Ht|].
  by rewrite (Hu _ Ht), (Hu _ Ht').
Qed.

Lemma excl_val lk pcs : excl P lk pcs → lk = 0 ∨ lk = 1.
Proof. intros [[? _]|[? _]]; auto. Qed.
End excl.

(** The invariant: both lock words are exclusive, and [held_by] names the owner. *)
Record inv (s : sys) : Prop := {
  inv_lock : excl owns (mx_lock (sy_mutex s)) (sy_pc s);
  inv_spin : excl spins (sp_lock (mx_spin (sy_mutex s))) (sy_pc s);
  inv_named : ∀ t, named (sy_pc s t) = true → mx_held_by (sy_mutex s) = t;
  inv_owner : ∀ t, t ≠ 0 → mx_held_by (sy_mutex s) = t → named (sy_pc s t) = true;
}.

Lemma inv_initial cur : inv (initial cur).
Proof.
  split; simpl; [left; done|left; done|done|]. by intros t Ht <-.
Qed.

(** A move that keeps the owner's name: only the two lock words have to be followed. *)
Lemma inv_goto s m st p :
  inv s →
  excl owns (mx_lock m) (<[sy_cur s:=p]> (sy_pc s)) →
  excl spins (sp_lock (mx_spin m)) (<[sy_cur s:=p]> (sy_pc s)) →
  named p = named (sy_pc s (sy_cur s)) →
  mx_held_by m = mx_held_by (sy_mutex s) → inv (goto s m st p).
Proof.
  intros [_ _ Hn Ho] Hl Hs Ep Eh.
  assert (∀ u, named (<[sy_cur s:=p]> (sy_pc s) u) = named (sy_pc s u)) as Heq.
  { intros u. destruct (decide (u = sy_cur s)) as [->|].
    - by rewrite fn_lookup_insert.
    - by rewrite fn_lookup_insert_ne. }
  by split; simpl; rewrite ?Eh; intros; rewrite ?Heq in *; auto.
Qed.

(** The two moves that write [held_by], made by the owner of the lock. *)
Lemma inv_goto_owner s m st p :
  inv s → owns (sy_pc s (sy_cur s)) = true → owns p = true → spins p = false →
  spins (sy_pc s (sy_cur s)) = false →
  mx_lock m = mx_lock (sy_mutex s) → sp_lock (mx_spin m) = sp_lock (mx_spin (sy_mutex s)) →
  mx_held_by m = (if named p then sy_cur s else 0) → inv (goto s m st p).
Proof.
  intros [Hl Hs _ _] Ho Hop Hsp Hsc El Es Eh.
  assert (∀ u, u ≠ sy_cur s → named (sy_pc s u) = false) as Hother.
  { intros u Hu. destruct (named (sy_pc s u)) eqn:E; [|done]. destruct Hu.
    apply (excl_one _ _ _ _ _ Hl); [|done]. by destruct (sy_pc s u). }
  split; simpl; rewrite ?El, ?Es, ?Eh.
  - apply excl_keep; [congruence|done].
  - apply excl_keep; [congruence|done].
  - intros u. destruct (decide (u = sy_cur s)) as [->|Hu].
    + rewrite fn_lookup_insert. by intros ->.
    + rewrite fn_lookup_insert_ne, Hother by done. done.
  - intros u Hu. destruct (named p) eqn:E; [|by intros <-].
    intros <-. by rewrite fn_lookup_insert.
Qed.

(** A move between two points that agree on [owns], [spins] and [named]. *)
Ltac inv_plain Hp :=
  apply inv_goto; [done|apply excl_keep; [by rewrite Hp|done]
    |apply excl_keep; [by rewrite Hp|done]|by rewrite Hp|done].

Lemma inv_action s s' : inv s → mutex_action s = Some s' → inv s'.
Proof.
  intros Hinv Ha. unfold mutex_action in Ha. destruct (on_cpu s); [simpl in Ha|done].
  pose proof (inv_lock _ Hinv) as Hl. pose proof (inv_spin _ Hinv) as Hs.
  pose proof (excl_val _ _ _ Hl) as Hlv. pose proof (excl_val _ _ _ Hs) as Hsv.
  destruct (sy_pc s (sy_cur s)) eqn:Hp; simplify_eq/=;
    try (by inv_plain Hp).
  - case_ltb; apply inv_goto; try done; try (by rewrite Hp); simpl.
    + by eapply excl_acquire; [|exact e|].
    + apply excl_keep; [by rewrite Hp|done].
    + destruct Hlv as [|E]; [done|]. rewrite E in Hl. apply excl_keep; [by rewrite Hp|done].
    + apply excl_keep; [by rewrite Hp|done].
  - case_ltb; apply inv_goto; try done; try (by rewrite Hp); simpl.
    + apply excl_keep; [by rewrite Hp|done].
    + by eapply excl_acquire; [|exact e|].
    + apply excl_keep; [by rewrite Hp|done].
    + destruct Hsv as [|E]; [done|]. rewrite E in Hs. apply excl_keep; [by rewrite Hp|done].
  - apply inv_goto; try done; try (by rewrite Hp); simpl.
    + apply excl_keep; [by rewrite Hp|done].
    + eapply excl_release; [done| |done]. by rewrite Hp.
  - apply inv_goto_owner; simpl; rewrite ?Hp; done.
  - apply inv_goto_owner; simpl; rewrite ?Hp; done.
  - apply inv_goto; try done; try (by rewrite Hp); simpl.
    + eapply excl_release; [done| |done]. by rewrite Hp.
    + apply excl_keep; [by rewrite Hp|done].
  - case_ltb; apply inv_goto; try done; try (by rewrite Hp); simpl.
    + apply excl_keep; [by rewrite Hp|done].
    + by eapply excl_acquire; [|exact e|].
    + apply excl_keep; [by rewrite Hp|done].
    + destruct Hsv as [|E]; [done|]. rewrite E in Hs. apply excl_keep; [by rewrite Hp|done].
  - destruct (mx_waiting (sy_mutex s)); simplify_eq; by inv_plain Hp.
  - apply inv_goto; try done; try (by rewrite Hp); simpl.
    + apply excl_keep; [by rewrite Hp|done].
    + eapply excl_release; [done| |done]. by rewrite Hp.
Qed.

Lemma inv_step s s' : inv s → step s s' → inv s'.
Proof.
  intros Hinv [_ Hp|_ Hp|? Ha|t _].
  - destruct (Hinv) as [Hl Hs _ _]. by inv_plain Hp.
  - destruct (Hinv) as [Hl Hs _ _]. by inv_plain Hp.
  - by eapply inv_action.
  - destruct Hinv. by split.
Qed.

Lemma inv_steps s s' : rtc step s s' → inv s → inv s'.
Proof. induction 1; eauto using inv_step. Qed.

Lemma reachable_inv s : reachable s → inv s.
Proof. intros [cur Hs]. eapply inv_steps; [done|apply inv_initial]. Qed.

(** ** Runs *)

Inductive event := ELock | EUnlock | EAct | ESwitch (t : tptr).

Definition run1 (e : event) (s : sys) : option sys :=
  match e with
  | ELock => if on_cpu s && bool_decide (sy_pc s (sy_cur s) = Outside)
             then Some (goto s (sy_mutex s) (sy_state s) LkXchg) else None
  | EUnlock => if on_cpu s && bool_decide (sy_pc s (sy_cur s) = Critical)
               then Some (goto s (sy_mutex s) (sy_state s) UnOwner) else None
  | EAct => mutex_action s
  | ESwitch t => if bool_decide (sy_state s t = TASK_RUNNING)
                 then Some {| sy_mutex := sy_mutex s; sy_state := sy_state s;
                              sy_pc := sy_pc s; sy_cur := t |} else None
  end.

Fixpoint run (es : list event) (s : sys) : option sys :=
  match es with [] => Some s | e :: es => run1 e s ≫= run es end.

Lemma run_steps es s s' : run es s = Some s' → rtc step s s'.
Proof.
  revert s. induction es as [|e es IH]; intros s Hr; simpl in Hr; [by simplify_eq|].
  destruct (run1 e s) as [s1|] eqn:H1; [|done].
  apply rtc_l with s1; [|by apply IH]. destruct e; simpl in H1.
  - destruct (on_cpu s) eqn:?; [simpl in *|done]. case_bool_decide; simplify_eq. by constructor.
  - destruct (on_cpu s) eqn:?; [simpl in *|done]. case_bool_decide; simplify_eq. by constructor.
  - by constructor.
  - case_bool_decide; simplify_eq. by constructor.
Qed.

(** Does the run succeed, with tasks 1 and 2 at these points and task 2 in this state? *)
Definition run_check (es : list event) (p1 p2 : pc) (st2 : task_state_t) : bool :=
  match run es (initial 1) with
  | Some s => bool_decide (sy_pc s 1 = p1) && bool_decide (sy_pc s 2 = p2) &&
              bool_decide (sy_state s 2 = st2)
  | None => false
  end.

Lemma run_check_reachable es p1 p2 st2 :
  run_check es p1 p2 st2 = true →
  ∃ s, reachable s ∧ sy_pc s 1 = p1 ∧ sy_pc s 2 = p2 ∧ sy_state s 2 = st2.
Proof.
  unfold run_check. destruct (run es (initial 1)) as [s|] eqn:E; [|done].
  rewrite !andb_true_iff, !bool_decide_eq_true. intros [[? ?] ?].
  exists s. split; [exists 1; by eapply run_steps|done].
Qed.

(** A state in which [waiting_tasks_lock] belongs to a sleeping task that has yielded. *)
Definition wedged (t : tptr) (s : sys) : Prop :=
  inv s ∧ sy_pc s t = LkSpinRel ∧ sy_state s t = TASK_SLEEPING.

Lemma wedged_step t s s' : wedged t s → step s s' →
  wedged t s' ∧ ∀ u, sy_pc s u = UnSpin → sy_pc s' u = UnSpin.
Proof.
  intros (Hinv & Hp & Ht) Hstep. pose proof (inv_step _ _ Hinv Hstep) as Hinv'.
  assert (on_cpu s = true → sy_cur s ≠ t) as Hcur.
  { intros Hc Heq. unfold on_cpu in Hc. by rewrite Heq, Ht, Hp in Hc. }
  assert (sp_lock (mx_spin (sy_mutex s)) = 1) as Hsp.
  { eapply excl_busy; [|apply (inv_spin _ Hinv)]. by rewrite Hp. }
  assert (∀ m st p, on_cpu s = true →
    (sy_pc s (sy_cur s) = UnSpin → p = UnSpin) → st t = TASK_SLEEPING → inv (goto s m st p) →
    wedged t (goto s m st p) ∧ ∀ u, sy_pc s u = UnSpin → sy_pc (goto s m st p) u = UnSpin) as Hgo.
  { intros m st p Hc Hu Hst Hi. split.
    - split; [done|]. simpl. by rewrite fn_lookup_insert_ne by auto.
    - intros u. simpl. destruct (decide (u = sy_cur s)) as [->|].
      + rewrite fn_lookup_insert. auto.
      + by rewrite fn_lookup_insert_ne. }
  destruct Hstep as [Hc Hpc|Hc Hpc|s' Ha|u Hu].
  - apply Hgo; [done|congruence|done|done].
  - apply Hgo; [done|congruence|done|done].
  - unfold mutex_action in Ha. destruct (on_cpu s) eqn:Hc; [simpl in Ha|done].
    assert (spins (sy_pc s (sy_cur s)) = false) as Hns.
    { destruct (spins (sy_pc s (sy_cur s))) eqn:E; [|done]. destruct (Hcur eq_refl).
      eapply excl_one; [apply (inv_spin _ Hinv)|done|by rewrite Hp]. }
    rewrite Hsp in Ha. destruct (sy_pc s (sy_cur s)) eqn:E; simplify_eq/=; by apply Hgo.
  - split; [|done]. by split.
Qed.

Lemma wedged_steps t s s' : rtc step s s' → wedged t s →
  wedged t s' ∧ ∀ u, sy_pc s u = UnSpin → sy_pc s' u = UnSpin.
Proof.
  induction 1 as [|s s1 s' Hs _ IH]; intros Hw; [done|].
  destruct (wedged_step _ _ _ Hw Hs) as [Hw1 Hu1]. destruct (IH Hw1) as [Hw' Hu']. eauto.
Qed.

(** C1: Mutual exclusion of [mutex_lock]/[mutex_unlock]: under any preemptive schedule of
    any number of tasks, two tasks are never both between the calls, and [mutex_held]
    answers true exactly in the task that took the mutex (up to the store that clears
    [held_by] in [mutex_unlock]). *)
Theorem mutex_exclusion s :
  reachable s →
  (∀ t t', sy_pc s t = Critical → sy_pc s t' = Critical → t = t') ∧
  (∀ t, t ≠ 0 → @mutex_held release_build t (sy_mutex s) = Ok true ↔
                sy_pc s t = Critical ∨ sy_pc s t = UnOwner).
Proof.
  intros [Hl _ Hn Ho]%reachable_inv. split.
  - intros t t' Ht Ht'. eapply excl_one; [exact Hl| |]; by rewrite ?Ht, ?Ht'.
  - intros t Ht. unfold mutex_held. simpl. split.
    + intros [= Hb]. zbool. specialize (Ho t Ht Hb). destruct (sy_pc s t); naive_solver.
    + intros Hc. f_equal. apply Z.eqb_eq, Hn. by destruct Hc as [-> | ->].
Qed.

(** Two tasks: the first takes the mutex, the second finds it taken. *)
Definition contention : list event :=
  [ELock; EAct; EAct; ESwitch 2; ELock; EAct].
(** The second task goes to sleep and the first one releases the mutex. *)
Definition contention_release : list event :=
  contention ++ [EAct; EAct; EAct; EAct; ESwitch 1; EUnlock; EAct; EAct].

Lemma mutex_exclusion_witness :
  ∃ s, sy_pc s 1 = Critical ∧ sy_pc s 2 = LkSpin ∧
       @mutex_held release_build 1 (sy_mutex s) = Ok true.
Proof.
  destruct (run_check_reachable contention Critical LkSpin TASK_RUNNING) as (s & Hr & H1 & H2 & _).
  - vm_compute. reflexivity.
  - exists s. split; [exact H1|split; [exact H2|]].
    apply (proj2 (mutex_exclusion s Hr)); [discriminate|left; exact H1].
Defined.

(** C2: Contention wedges the mutex for good: once a task that found the mutex taken has
    gone to sleep inside [mutex_lock], it holds [waiting_tasks_lock] and never runs again,
    and a task that has reached the wake-up of [mutex_unlock] spins there for ever. *)
Theorem contended_mutex_wedges s t s' :
  reachable s → sy_pc s t = LkSpinRel → sy_state s t = TASK_SLEEPING → rtc step s s' →
  sy_state s' t = TASK_SLEEPING ∧ sy_pc s' t = LkSpinRel ∧
  ∀ u, sy_pc s u = UnSpin → sy_pc s' u = UnSpin.
Proof.
  intros Hr Hp Ht Hs. destruct (wedged_steps t s s' Hs) as [(_ & ? & ?) ?]; [|done].
  split; [by apply reachable_inv|done].
Qed.

Lemma contended_mutex_wedges_witness :
  ∃ s, reachable s ∧ sy_pc s 1 = UnSpin ∧
       ∀ s', rtc step s s' → sy_state s' 2 = TASK_SLEEPING ∧ sy_pc s' 1 = UnSpin.
Proof.
  destruct (run_check_reachable contention_release UnSpin LkSpinRel TASK_SLEEPING)
    as (s & Hr & H1 & H2 & H3).
  - vm_compute. reflexivity.
  - exists s. split; [exact Hr|split; [exact H1|]].
    intros s' Hs'. destruct (contended_mutex_wedges s 2 s' Hr H2 H3 Hs') as (H4 & _ & H5).
    split; [exact H4|apply H5, H1].
Defined.

End Interleaving.
