(* ===== verification/Bitmap.v ===== *)
(** The bitmap of libutil/bitmap.c, on which the physical page allocators are built:
    each operation of the source, the set of bits it implements, and the two searches. *)
From S2P Require Import Prelude Words.
Open Scope Z_scope.

(** [BITMAP_BYTE_SIZE] (kernel/libutil/include/util/bitmap.h, line 5). *)
Definition BITMAP_BYTE_SIZE (b : Z) : Z :=
  if b mod 8 =? 0 then Z.shiftr b 3 else Z.shiftr b 3 + 1.

(** [bitmap_t] (kernel/libutil/include/util/bitmap.h, lines 7-11): the array [bitmap] is
    the list of its bytes. *)
Record bitmap_t := { bm_size : Z; bm_bitmap : list Z }.

(** [bmp->bitmap[i]], read and written. *)
Definition bm_read (bmp : bitmap_t) (i : Z) : res Z :=
  if i <? 0 then Stop Fault else of_option (bm_bitmap bmp !! Z.to_nat i).
Definition bm_write (bmp : bitmap_t) (i v : Z) : res bitmap_t :=
  _ ← bm_read bmp i;
  mret {| bm_size := bm_size bmp; bm_bitmap := <[Z.to_nat i := v]> (bm_bitmap bmp) |}.

(** [bitmap_init] (kernel/libutil/bitmap.c, lines 5-13): [memset] stores the low byte of
    [value] in the [BITMAP_BYTE_SIZE(size)] bytes of a fresh array. *)
Definition bitmap_init (size value : Z) : bitmap_t :=
  let bytes := BITMAP_BYTE_SIZE size in
  {| bm_size := size; bm_bitmap := replicate (Z.to_nat bytes) (u8 value) |}.

Section operations.
Context `{B : Build}.

(** [bitmap_get] (kernel/libutil/bitmap.c, lines 15-23). *)
Definition bitmap_get (bmp : bitmap_t) (index : Z) : res Z :=
  assert_ (index <? bm_size bmp);;
  let byte := index / 8 in
  let bit := index mod 8 in
  b ← bm_read bmp byte;
  mret (if Z.land b (BIT bit) =? 0 then 0 else 1).

(** [bitmap_set] (kernel/libutil/bitmap.c, lines 25-33). *)
Definition bitmap_set (bmp : bitmap_t) (index : Z) : res bitmap_t :=
  assert_ (index <? bm_size bmp);;
  let byte := index / 8 in
  let bit := index mod 8 in
  b ← bm_read bmp byte;
  bm_write bmp byte (u8 (Z.lor b (BIT bit))).

(** [bitmap_clr] (kernel/libutil/bitmap.c, lines 35-43). *)
Definition bitmap_clr (bmp : bitmap_t) (index : Z) : res bitmap_t :=
  assert_ (index <? bm_size bmp);;
  let byte := index / 8 in
  let bit := index mod 8 in
  b ← bm_read bmp byte;
  bm_write bmp byte (u8 (Z.land b (Z.lnot (BIT bit)))).
End operations.

(** The inner loop of [bitmap_find_free] (kernel/libutil/bitmap.c, lines 54-61); [fuel]
    counts the remaining values of [j]. *)
Fixpoint first_clear (fuel : nat) (b bit j : Z) : Z :=
  match fuel with
  | O => bit
  | S fuel => if Z.land b (BIT j) =? 0 then bit + j else first_clear fuel b bit (j + 1)
  end.

(** The outer loop (kernel/libutil/bitmap.c, lines 48-65). *)
Fixpoint find_free_from (bmp : bitmap_t) (i : Z) (fuel : nat) : res Z :=
  match fuel with
  | O => mret SIZE_MAX
  | S fuel =>
      b ← bm_read bmp i;
      if negb (b =? 0xff) then mret (first_clear 8 b (i * 8) 0)
      else find_free_from bmp (i + 1) fuel
  end.

(** [bitmap_find_free] (kernel/libutil/bitmap.c, lines 45-67). *)
Definition bitmap_find_free (bmp : bitmap_t) : res Z :=
  find_free_from bmp 0 (Z.to_nat (BITMAP_BYTE_SIZE (bm_size bmp))).

(** How one pass over a byte ends: with a result, or with the two counters. *)
Inductive scan := Found (bit : Z) | Go (free_bits bit : Z).

(** The body of the loops of [bitmap_find_n_free] for the bit [p = i * 8 + j]
    (kernel/libutil/bitmap.c, lines 79-96). *)
Definition scan_bit (n p : Z) (clear : bool) (free_bits bit : Z) : scan :=
  if clear then
    let '(free_bits, bit) :=
      if free_bits =? 0
      then (if negb (p mod n =? 0) then (0, bit) else (free_bits + 1, p))
      else (free_bits + 1, bit) in
    if n <=? free_bits then Found bit else Go free_bits bit
  else Go 0 SIZE_MAX.

(** The inner loop (kernel/libutil/bitmap.c, lines 77-97). *)
Fixpoint scan_byte (n b i j : Z) (fuel : nat) (free_bits bit : Z) : scan :=
  match fuel with
  | O => Go free_bits bit
  | S fuel =>
      match scan_bit n (i * 8 + j) (Z.land b (BIT j) =? 0) free_bits bit with
      | Found bit => Found bit
      | Go free_bits bit => scan_byte n b i (j + 1) fuel free_bits bit
      end
  end.

(** The outer loop (kernel/libutil/bitmap.c, lines 75-98). *)
Fixpoint find_n_from (bmp : bitmap_t) (n i : Z) (fuel : nat) (free_bits bit : Z) : res Z :=
  match fuel with
  | O => mret SIZE_MAX
  | S fuel =>
      b ← bm_read bmp i;
      match scan_byte n b i 0 8 free_bits bit with
      | Found bit => mret bit
      | Go free_bits bit => find_n_from bmp n (i + 1) fuel free_bits bit
      end
  end.

(** [bitmap_find_n_free] (kernel/libutil/bitmap.c, lines 69-100); the alignment test
    divides by [n]. *)
Definition bitmap_find_n_free (bmp : bitmap_t) (n : Z) : res Z :=
  if n =? 0 then Stop Fault else
  find_n_from bmp n 0 (Z.to_nat (BITMAP_BYTE_SIZE (bm_size bmp))) 0 SIZE_MAX.

(** ** The set of bits *)

(** Bit [i] of the array. *)
Definition bm_bit (bmp : bitmap_t) (i : Z) : bool :=
  Z.testbit (bm_bitmap bmp !!! Z.to_nat (i / 8)) (i mod 8).

(** The number of bits of the array, the padding of the last byte included. *)
Definition bm_cap (bmp : bitmap_t) : Z := 8 * BITMAP_BYTE_SIZE (bm_size bmp).

(** The array has the length its size asks for, and holds bytes. *)
Record bm_wf (bmp : bitmap_t) : Prop := {
  bm_wf_size : 0 <= bm_size bmp < 2 ^ 52;
  bm_wf_len : Z.of_nat (length (bm_bitmap bmp)) = BITMAP_BYTE_SIZE (bm_size bmp);
  bm_wf_bytes : bytes_ok (bm_bitmap bmp);
}.

Lemma BITMAP_BYTE_SIZE_spec b :
  0 <= b → 8 * BITMAP_BYTE_SIZE b - 8 < b <= 8 * BITMAP_BYTE_SIZE b.
Proof.
  intros Hb. unfold BITMAP_BYTE_SIZE. rewrite Z.shiftr_div_pow2 by lia.
  change (2 ^ 3) with 8. destruct (Z.eqb_spec (b mod 8) 0); zdiv.
Qed.

Section wf.
Context (bmp : bitmap_t) (Hwf : bm_wf bmp).

Lemma bm_cap_spec : bm_cap bmp - 8 < bm_size bmp <= bm_cap bmp.
Proof. apply BITMAP_BYTE_SIZE_spec, (bm_wf_size _ Hwf). Qed.

Lemma bm_read_ok i :
  0 <= i < BITMAP_BYTE_SIZE (bm_size bmp) →
  bm_read bmp i = Ok (bm_bitmap bmp !!! Z.to_nat i) ∧
  is_word 8 (bm_bitmap bmp !!! Z.to_nat i).
Proof.
  intros Hi. destruct Hwf as [_ Hlen Hb].
  destruct (lookup_lt_is_Some_2 (bm_bitmap bmp) (Z.to_nat i)) as [b Hl]; [lia|].
  unfold bm_read. destruct (Z.ltb_spec i 0); [lia|].
  rewrite (list_lookup_total_correct _ _ _ Hl), Hl.
  split; [done|]. by eapply Forall_lookup in Hb.
Qed.

Lemma bm_byte_range i : 0 <= i < bm_cap bmp → 0 <= i / 8 < BITMAP_BYTE_SIZE (bm_size bmp).
Proof. unfold bm_cap. zdiv. Qed.

Lemma bm_bytes_nonneg : 0 <= BITMAP_BYTE_SIZE (bm_size bmp).
Proof. rewrite <-(bm_wf_len _ Hwf). lia. Qed.

(** Reading the byte of bit [i]. *)
Lemma bm_read_bit i : 0 <= i < bm_cap bmp →
  ∃ b, bm_read bmp (i / 8) = Ok b ∧ is_word 8 b ∧ bm_bit bmp i = Z.testbit b (i mod 8).
Proof.
  intros Hi%bm_byte_range. destruct (bm_read_ok _ Hi) as [Hr Hw]. eauto.
Qed.
End wf.

(** Writing one byte. *)
Lemma bm_write_ok bmp k v b :
  bm_wf bmp → bm_read bmp k = Ok b → is_word 8 v →
  ∃ bmp', bm_write bmp k v = Ok bmp' ∧ bm_wf bmp' ∧ bm_size bmp' = bm_size bmp ∧
    ∀ i, 0 <= i → bm_bit bmp' i = if i / 8 =? k then Z.testbit v (i mod 8) else bm_bit bmp i.
Proof.
  intros [Hs Hlen Hb] Hr Hv. unfold bm_write. rewrite Hr. simpl.
  unfold bm_read in Hr. destruct (Z.ltb_spec k 0); [done|]. apply of_option_Ok in Hr.
  pose proof (lookup_lt_Some _ _ _ Hr). eexists. split; [done|].
  split; [split; simpl|split].
  - done.
  - by rewrite length_insert.
  - apply Forall_insert; done.
  - done.
  - intros i Hi. unfold bm_bit. simpl. case_ltb.
    + subst k. by rewrite list_lookup_total_insert_eq.
    + rewrite list_lookup_total_insert_ne; [done|]. zdiv.
Qed.

Lemma bm_lookup_word bmp i : bm_wf bmp → is_word 8 (bm_bitmap bmp !!! i).
Proof.
  intros [_ _ Hb]. destruct (bm_bitmap bmp !! i) as [b|] eqn:E.
  - rewrite (list_lookup_total_correct _ _ _ E). by eapply Forall_lookup in Hb.
  - rewrite list_lookup_total_alt, E. done.
Qed.

(** ** The operations on the set *)

Section operation_specs.
Context `{B : Build} (bmp : bitmap_t) (Hwf : bm_wf bmp).

Lemma bm_index i : 0 <= i < bm_size bmp → 0 <= i < bm_cap bmp.
Proof. pose proof (bm_cap_spec _ Hwf). lia. Qed.

Lemma bitmap_get_ok i :
  0 <= i < bm_size bmp → bitmap_get bmp i = Ok (if bm_bit bmp i then 1 else 0).
Proof.
  intros Hi. destruct (bm_read_bit bmp Hwf i (bm_index _ Hi)) as (b & Hr & _ & Hb).
  unfold bitmap_get. rewrite assert_holds by (apply Z.ltb_lt; lia). simpl. rewrite Hr. simpl.
  rewrite land_BIT by zdiv. rewrite Hb. by destruct (Z.testbit b (i mod 8)).
Qed.

(** A byte update that changes bit [i] alone to [v]. *)
Lemma bm_update_bit i b v byte :
  0 <= i < bm_cap bmp → bm_read bmp (i / 8) = Ok b → is_word 8 byte →
  (∀ j, 0 <= j < 8 → Z.testbit byte j = if j =? i mod 8 then v else Z.testbit b j) →
  ∃ bmp', bm_write bmp (i / 8) byte = Ok bmp' ∧ bm_wf bmp' ∧ bm_size bmp' = bm_size bmp ∧
    ∀ j, 0 <= j → bm_bit bmp' j = if j =? i then v else bm_bit bmp j.
Proof.
  intros Hi Hr Hw Hbits. destruct (bm_write_ok bmp (i / 8) byte b) as (bmp' & ? & ? & ? & Hbit);
    [done..|].
  exists bmp'. split_and!; try done. intros j Hj. rewrite Hbit by done.
  assert (bm_read bmp (i / 8) = Ok (bm_bitmap bmp !!! Z.to_nat (i / 8))) as Hr'.
  { apply bm_read_ok; [done|]. by apply bm_byte_range. }
  rewrite Hr in Hr'. injection Hr' as ->.
  case_ltb; [rewrite Hbits by zdiv|].
  - destruct (Z.eqb_spec (j mod 8) (i mod 8)), (Z.eqb_spec j i); try zdiv; [done|].
    unfold bm_bit. by rewrite e.
  - destruct (Z.eqb_spec j i); [by subst|done].
Qed.

Lemma bitmap_set_ok i :
  0 <= i < bm_size bmp →
  ∃ bmp', bitmap_set bmp i = Ok bmp' ∧ bm_wf bmp' ∧ bm_size bmp' = bm_size bmp ∧
    ∀ j, 0 <= j → bm_bit bmp' j = if j =? i then true else bm_bit bmp j.
Proof.
  intros Hi. destruct (bm_read_bit bmp Hwf i (bm_index _ Hi)) as (b & Hr & Hw & _).
  unfold bitmap_set. rewrite assert_holds by (apply Z.ltb_lt; lia). simpl. rewrite Hr. simpl.
  assert (is_word 8 (Z.lor b (BIT (i mod 8)))) as Hw'.
  { apply word_lor; [lia|done|]. apply word_BIT. zdiv. }
  rewrite uwrap_small by done. apply bm_update_bit with b; [by apply bm_index|done|done|].
  intros j Hj. rewrite Z.lor_spec, BIT_spec by zdiv.
  destruct (Z.eqb_spec j (i mod 8)); [subst; by rewrite bool_decide_eq_true_2, orb_true_r|].
  by rewrite bool_decide_eq_false_2, orb_false_r.
Qed.

Lemma bitmap_clr_ok i :
  0 <= i < bm_size bmp →
  ∃ bmp', bitmap_clr bmp i = Ok bmp' ∧ bm_wf bmp' ∧ bm_size bmp' = bm_size bmp ∧
    ∀ j, 0 <= j → bm_bit bmp' j = if j =? i then false else bm_bit bmp j.
Proof.
  intros Hi. destruct (bm_read_bit bmp Hwf i (bm_index _ Hi)) as (b & Hr & Hw & _).
  unfold bitmap_clr. rewrite assert_holds by (apply Z.ltb_lt; lia). simpl. rewrite Hr. simpl.
  assert (is_word 8 (Z.land b (Z.lnot (BIT (i mod 8))))) as Hw' by (by apply word_land_l).
  rewrite uwrap_small by done. apply bm_update_bit with b; [by apply bm_index|done|done|].
  intros j Hj. rewrite Z.land_spec, Z.lnot_spec, BIT_spec by zdiv.
  destruct (Z.eqb_spec j (i mod 8)); [subst; by rewrite bool_decide_eq_true_2, andb_false_r|].
  by rewrite bool_decide_eq_false_2, andb_true_r.
Qed.

(** An index past the end is caught by the debug build only. *)
Lemma bitmap_bounds_checked i :
  bm_size bmp <= i → DEBUG = true →
  bitmap_get bmp i = Stop Panic ∧ bitmap_set bmp i = Stop Panic ∧ bitmap_clr bmp i = Stop Panic.
Proof.
  intros Hi Hd. unfold bitmap_get, bitmap_set, bitmap_clr, assert_. rewrite Hd.
  by destruct (Z.ltb_spec i (bm_size bmp)); [lia|].
Qed.
End operation_specs.

(** A fresh bitmap has every bit equal to those of [value]. *)
Lemma bitmap_init_wf size value :
  0 <= size < 2 ^ 52 → bm_wf (bitmap_init size value) ∧ bm_size (bitmap_init size value) = size.
Proof.
  intros Hs. split; [|done]. pose proof (BITMAP_BYTE_SIZE_spec size). split; simpl; [done| |].
  - rewrite length_replicate. lia.
  - apply Forall_replicate. apply uwrap_word. lia.
Qed.

Lemma bitmap_init_bit size value i :
  0 <= size → 0 <= i < bm_cap (bitmap_init size value) →
  bm_bit (bitmap_init size value) i = Z.testbit value (i mod 8).
Proof.
  intros Hs Hi. unfold bm_bit, bm_cap in *. simpl in *.
  pose proof (BITMAP_BYTE_SIZE_spec size Hs).
  rewrite lookup_total_replicate_2 by zdiv.
  unfold uwrap. rewrite Z.mod_pow2_bits_low; [done|zdiv].
Qed.

(** ** The first free bit *)

(** A byte with a clear bit, and a full one. *)
Lemma byte_full b : is_word 8 b → b = 0xff ↔ ∀ j, 0 <= j < 8 → Z.testbit b j = true.
Proof.
  intros [H0 Hb]%word_bits; [|lia]. split.
  - intros -> j Hj. change 0xff with (Z.ones 8). rewrite Z.testbit_ones_nonneg; lia.
  - intros Hj. apply Z.bits_inj'. intros j ?. change 0xff with (Z.ones 8).
    rewrite Z.testbit_ones_nonneg by lia. destruct (Z.ltb_spec j 8); [by apply Hj|by apply Hb].
Qed.

Lemma byte_not_full b : is_word 8 b → b ≠ 0xff → ∃ j, 0 <= j < 8 ∧ Z.testbit b j = false.
Proof.
  intros Hw Hne. destruct (decide (Forall (λ j, Z.testbit b j = true) (seqZ 0 8))) as [Hf|Hf].
  - destruct Hne. apply byte_full; [done|]. intros j ?.
    rewrite Forall_forall in Hf. apply Hf, list_elem_of_In, elem_of_seqZ. lia.
  - apply not_Forall_Exists in Hf; [|apply _]. apply Exists_exists in Hf as (j & Hj & Hb).
    apply list_elem_of_In, elem_of_seqZ in Hj. exists j. split; [lia|]. by apply not_true_is_false.
Qed.

Lemma first_clear_spec fuel b bit j :
  0 <= j → (∃ k, j <= k < j + Z.of_nat fuel ∧ Z.testbit b k = false) →
  ∃ k, j <= k < j + Z.of_nat fuel ∧ Z.testbit b k = false ∧
       (∀ k', j <= k' < k → Z.testbit b k' = true) ∧ first_clear fuel b bit j = bit + k.
Proof.
  revert j. induction fuel as [|fuel IH]; intros j Hj (k & Hk & Hb); [lia|].
  simpl. rewrite land_BIT by done. destruct (Z.testbit b j) eqn:Ej; simpl.
  - destruct (IH (j + 1)) as (k0 & ? & ? & Hmin & ->); [lia| |].
    { exists k. split; [|done]. destruct (decide (k = j)); [congruence|lia]. }
    exists k0. split_and!; [lia|lia|done| |done]. intros k' ?.
    destruct (decide (k' = j)) as [->|]; [done|]. apply Hmin. lia.
  - exists j. split_and!; [lia|lia|done|lia|done].
Qed.

#[local] Arguments first_clear : simpl never.

(** What either search says about a bitmap: [r] is the least clear bit of the array, or
    [SIZE_MAX] when there is none. *)
Definition least_clear (bmp : bitmap_t) (r : Z) : Prop :=
  (r = SIZE_MAX ∧ ∀ i, 0 <= i < bm_cap bmp → bm_bit bmp i = true) ∨
  (0 <= r < bm_cap bmp ∧ bm_bit bmp r = false ∧ ∀ i, 0 <= i < r → bm_bit bmp i = true).

Lemma find_free_from_spec bmp i fuel :
  bm_wf bmp → 0 <= i → i + Z.of_nat fuel = BITMAP_BYTE_SIZE (bm_size bmp) →
  (∀ k, 0 <= k < 8 * i → bm_bit bmp k = true) →
  ∃ r, find_free_from bmp i fuel = Ok r ∧ least_clear bmp r.
Proof.
  intros Hwf. revert i. induction fuel as [|fuel IH]; intros i Hi Hend Hbefore; simpl.
  { exists SIZE_MAX. split; [done|]. left. split; [done|]. unfold bm_cap. intros. apply Hbefore. lia. }
  destruct (bm_read_ok bmp Hwf i) as [-> Hw]; [lia|]. simpl.
  set (b := bm_bitmap bmp !!! Z.to_nat i) in *.
  assert (∀ j, 0 <= j < 8 → bm_bit bmp (i * 8 + j) = Z.testbit b j) as Hbit.
  { intros j Hj. unfold bm_bit. by replace ((i * 8 + j) / 8) with i by zdiv;
      replace ((i * 8 + j) mod 8) with j by zdiv. }
  destruct (Z.eqb_spec b 0xff) as [Hfull|Hnot]; simpl.
  - apply IH; [lia|lia|]. intros k Hk. destruct (decide (k < 8 * i)); [apply Hbefore; lia|].
    replace k with (i * 8 + (k - i * 8)) by lia. rewrite Hbit by lia.
    apply byte_full; [done|done|lia].
  - destruct (first_clear_spec 8 b (i * 8) 0) as (j & Hj & Hc & Hmin & ->); [lia| |].
    { by apply byte_not_full. }
    exists (i * 8 + j). split; [done|]. right. split_and!; [lia|unfold bm_cap; lia| |].
    + by rewrite Hbit by lia.
    + intros k Hk. destruct (decide (k < 8 * i)); [apply Hbefore; lia|].
      replace k with (i * 8 + (k - i * 8)) by lia. rewrite Hbit by lia. apply Hmin. lia.
Qed.

Lemma bitmap_find_free_ok bmp :
  bm_wf bmp → ∃ r, bitmap_find_free bmp = Ok r ∧ least_clear bmp r.
Proof.
  intros Hwf. apply find_free_from_spec; [done|lia| |intros; lia].
  pose proof (bm_bytes_nonneg _ Hwf). lia.
Qed.

(** ** Aligned runs of free bits *)

Section runs.
Context (clear : Z → bool) (n : Z) (Hn : 0 < n).

(** The bits from [b] to [b + n - 1] are clear, and [b] is a multiple of [n]. *)
Definition aligned_run (b : Z) : Prop :=
  b mod n = 0 ∧ 0 <= b ∧ ∀ q, b <= q < b + n → clear q = true.

(** The counters of [bitmap_find_n_free] when the bits before [p] have been scanned and no
    run was found: the current run begins at [bit], an aligned position, and covers every
    aligned position from which all bits up to [p] are clear. *)
Record scan_inv (p free_bits bit : Z) : Prop := {
  si_range : 0 <= free_bits < n;
  si_run : free_bits ≠ 0 → bit mod n = 0 ∧ 0 <= bit ∧ bit + free_bits = p ∧
             ∀ q, bit <= q < p → clear q = true;
  si_open : ∀ b, b mod n = 0 → 0 <= b < p → (∀ q, b <= q < p → clear q = true) →
              free_bits ≠ 0 ∧ bit <= b;
  si_none : ∀ b, aligned_run b → p < b + n;
}.

Lemma scan_inv_start : scan_inv 0 0 SIZE_MAX.
Proof. split; [lia|lia|lia|]. intros b (? & ? & _). lia. Qed.

Lemma scan_bit_spec p free_bits bit :
  0 <= p → scan_inv p free_bits bit →
  match scan_bit n p (clear p) free_bits bit with
  | Found b => aligned_run b ∧ b + n = p + 1
  | Go free_bits bit => scan_inv (p + 1) free_bits bit
  end.
Proof.
  intros Hp [Hr Hrun Hopen Hnone]. unfold scan_bit. destruct (clear p) eqn:Ec; [|].
  - destruct (Z.eqb_spec free_bits 0) as [->|Hf].
    + destruct (Z.eqb_spec (p mod n) 0) as [Hal|Hal]; simpl; case_ltb; try lia.
      * split; [|lia]. split_and!; [done|done|]. intros q Hq. by replace q with p by lia.
      * split; [lia| | |].
        -- intros _. split_and!; [done|done|lia|]. intros q Hq. by replace q with p by lia.
        -- intros b Hb Hbp Hq. destruct (decide (b = p)); [lia|].
           destruct (Hopen b Hb) as [? _]; [lia| |done]. intros q ?. apply Hq. lia.
        -- intros b Hb. destruct (Hb) as (Hbm & Hb0 & Hbq). specialize (Hnone b Hb).
           destruct (decide (b < p)) as [Hlt|]; [|lia].
           destruct (Hopen b) as [? _]; [done|lia| |done]. intros q ?. apply Hbq. lia.
      * split; [lia|done| |].
        -- intros b Hb Hbp Hq. destruct (decide (b = p)); [congruence|].
           destruct (Hopen b Hb) as [? _]; [lia| |done]. intros q ?. apply Hq. lia.
        -- intros b Hb. destruct (Hb) as (Hbm & Hb0 & Hbq). specialize (Hnone b Hb).
           destruct (decide (b < p)) as [Hlt|].
           ++ destruct (Hopen b) as [? _]; [done|lia| |done]. intros q ?. apply Hbq. lia.
           ++ destruct (decide (b = p)); [congruence|lia].
    + destruct (Hrun Hf) as (Hbm & Hb0 & Hbp & Hq). case_ltb.
      * split; [|lia]. split_and!; [done|done|]. intros q ?.
        destruct (decide (q = p)) as [->|]; [done|]. apply Hq. lia.
      * split; [lia| | |].
        -- intros _. split_and!; [done|done|lia|]. intros q ?.
           destruct (decide (q = p)) as [->|]; [done|]. apply Hq. lia.
        -- intros b Hb Hbp' Hbq. split; [lia|]. destruct (decide (b = p)) as [->|].
           ++ lia.
           ++ apply (Hopen b Hb); [lia|]. intros q ?. apply Hbq. lia.
        -- intros b Hb. destruct (Hb) as (Hbm' & Hb0' & Hbq). specialize (Hnone b Hb).
           destruct (decide (b < p)) as [Hlt|]; [|lia].
           destruct (Hopen b) as [_ ?]; [done|lia| |lia]. intros q ?. apply Hbq. lia.
  - split; [lia|done| |].
    + intros b Hb Hbp Hq. rewrite Hq in Ec; [done|lia].
    + intros b Hb. destruct (Hb) as (Hbm & Hb0 & Hbq). specialize (Hnone b Hb).
      destruct (decide (b + n = p + 1)); [|lia]. rewrite Hbq in Ec; [done|lia].
Qed.

Lemma scan_byte_spec b i j fuel free_bits bit :
  0 <= i → 0 <= j → (∀ k, j <= k < j + Z.of_nat fuel → clear (i * 8 + k) = negb (Z.testbit b k)) →
  scan_inv (i * 8 + j) free_bits bit →
  match scan_byte n b i j fuel free_bits bit with
  | Found r => aligned_run r ∧ r + n <= i * 8 + j + Z.of_nat fuel
  | Go free_bits bit => scan_inv (i * 8 + j + Z.of_nat fuel) free_bits bit
  end.
Proof.
  intros Hi. revert j free_bits bit.
  induction fuel as [|fuel IH]; intros j free_bits bit Hj Hb Hinv; simpl scan_byte.
  { by rewrite Z.add_0_r. }
  rewrite land_BIT, <-(Hb j) by lia.
  pose proof (scan_bit_spec (i * 8 + j) free_bits bit ltac:(lia) Hinv) as Hs.
  destruct (scan_bit _ _ _ _ _) as [r|fb bt]; [split; [apply Hs|lia]|].
  specialize (IH (j + 1) fb bt). replace (i * 8 + (j + 1)) with (i * 8 + j + 1) in IH by lia.
  replace (i * 8 + j + Z.of_nat (S fuel)) with (i * 8 + j + 1 + Z.of_nat fuel) by lia.
  apply IH; [lia| |done]. intros k ?. apply Hb. lia.
Qed.
End runs.

#[local] Arguments scan_byte : simpl never.

(** The first aligned run, or [SIZE_MAX] when the array has none. *)
Definition finds_run (bmp : bitmap_t) (n r : Z) : Prop :=
  let clear i := negb (bm_bit bmp i) in
  (r = SIZE_MAX ∧ ∀ b, aligned_run clear n b → bm_cap bmp < b + n) ∨
  (aligned_run clear n r ∧ r + n <= bm_cap bmp).

Lemma find_n_from_spec bmp n i fuel free_bits bit :
  bm_wf bmp → 0 < n → 0 <= i → i + Z.of_nat fuel = BITMAP_BYTE_SIZE (bm_size bmp) →
  scan_inv (λ k, negb (bm_bit bmp k)) n (8 * i) free_bits bit →
  ∃ r, find_n_from bmp n i fuel free_bits bit = Ok r ∧ finds_run bmp n r.
Proof.
  intros Hwf Hn. revert i free_bits bit.
  induction fuel as [|fuel IH]; intros i free_bits bit Hi Hend Hinv; simpl find_n_from.
  { exists SIZE_MAX. split; [done|]. left. split; [done|]. intros b Hb.
    pose proof (si_none _ _ _ _ _ Hinv b Hb). unfold bm_cap. lia. }
  destruct (bm_read_ok bmp Hwf i) as [-> Hw]; [lia|]. simpl.
  opose proof* (scan_byte_spec (λ k, negb (bm_bit bmp k)) n Hn
    (bm_bitmap bmp !!! Z.to_nat i) i 0 8 free_bits bit) as Hs; [lia|lia| | |].
  { intros k Hk. unfold bm_bit. by replace ((i * 8 + k) / 8) with i by zdiv;
      replace ((i * 8 + k) mod 8) with k by zdiv. }
  { by replace (i * 8 + 0) with (8 * i) by lia. }
  destruct (scan_byte _ _ _ _ _ _ _) as [r|fb bt].
  - exists r. split; [done|]. right. split; [apply Hs|]. unfold bm_cap. lia.
  - apply IH; [lia|lia|]. by replace (8 * (i + 1)) with (i * 8 + 0 + Z.of_nat 8) by lia.
Qed.

Lemma bitmap_find_n_free_ok bmp n :
  bm_wf bmp → 0 < n → ∃ r, bitmap_find_n_free bmp n = Ok r ∧ finds_run bmp n r.
Proof.
  intros Hwf Hn. unfold bitmap_find_n_free. destruct (Z.eqb_spec n 0); [lia|].
  apply find_n_from_spec; [done|done|lia| |by apply scan_inv_start].
  pose proof (bm_bytes_nonneg _ Hwf). lia.
Qed.

(** ** Properties *)

(** C7: [bitmap_set], [bitmap_clr] and [bitmap_get] implement a set of indices: on a
    well-formed bitmap, setting or clearing an index inside it succeeds, keeps the bitmap
    well formed, changes what [bitmap_get] answers for that index and for no other. *)
Theorem bitmap_implements_set `{B : Build} bmp i :
  bm_wf bmp → 0 <= i < bm_size bmp →
  ∃ s c, bitmap_set bmp i = Ok s ∧ bitmap_clr bmp i = Ok c ∧ bm_wf s ∧ bm_wf c ∧
    ∀ j, 0 <= j < bm_size bmp →
      bitmap_get s j = (if j =? i then Ok 1 else bitmap_get bmp j) ∧
      bitmap_get c j = (if j =? i then Ok 0 else bitmap_get bmp j).
Proof.
  intros Hwf Hi.
  destruct (bitmap_set_ok bmp Hwf i Hi) as (s & Hs & Hws & Hss & Hsb).
  destruct (bitmap_clr_ok bmp Hwf i Hi) as (c & Hc & Hwc & Hsc & Hcb).
  exists s, c. split_and!; [done..|]. intros j Hj.
  rewrite !bitmap_get_ok, Hsb, Hcb by (done || lia). by destruct (j =? i).
Qed.

Lemma bitmap_implements_set_witness :
  ∃ s, @bitmap_set debug_build (bitmap_init 20 0) 13 = Ok s ∧
       @bitmap_get debug_build s 13 = Ok 1 ∧ @bitmap_get debug_build s 12 = Ok 0.
Proof.
  assert (bm_wf (bitmap_init 20 0)) as Hwf by (apply bitmap_init_wf; lia).
  destruct (@bitmap_implements_set debug_build (bitmap_init 20 0) 13 Hwf)
    as (s & c & Hs & _ & _ & _ & Hg).
  - simpl. lia.
  - exists s. split; [exact Hs|]. split.
    + rewrite (proj1 (Hg 13 ltac:(simpl; lia))). reflexivity.
    + rewrite (proj1 (Hg 12 ltac:(simpl; lia))). vm_compute. reflexivity.
Defined.

(** C6: [bitmap_find_n_free] is correct and complete: on a well-formed bitmap it returns
    either the start of [n] clear bits at a multiple of [n], all inside the array, or
    [(size_t)-1], and then the array holds no such run. *)
Theorem bitmap_find_n_free_correct bmp n :
  bm_wf bmp → 0 < n →
  ∃ r, bitmap_find_n_free bmp n = Ok r ∧
    ((r mod n = 0 ∧ 0 <= r ∧ r + n <= bm_cap bmp ∧ ∀ q, r <= q < r + n → bm_bit bmp q = false) ∨
     (r = SIZE_MAX ∧ ∀ k, 0 <= k → k * n + n <= bm_cap bmp →
        ∃ q, k * n <= q < k * n + n ∧ bm_bit bmp q = true)).
Proof.
  intros Hwf Hn. destruct (bitmap_find_n_free_ok bmp n Hwf Hn) as (r & Hr & Hf).
  exists r. split; [done|]. destruct Hf as [[-> Hnone]|[(Hm & H0 & Hq) Hend]]; [right|left].
  - split; [done|]. intros k Hk Hend.
    destruct (decide (Forall (λ q, bm_bit bmp q = false) (seqZ (k * n) n))) as [Hall|Hex].
    + destruct (Z.lt_irrefl (bm_cap bmp)). apply (Z.lt_le_trans _ (k * n + n)); [|done].
      apply Hnone. split_and!; [apply Z.mod_mul; lia|lia|]. intros q Hq.
      rewrite Forall_forall in Hall. rewrite Hall; [done|].
      apply list_elem_of_In, elem_of_seqZ. lia.
    + apply not_Forall_Exists in Hex; [|apply _].
      apply Exists_exists in Hex as (q & Hq & Hb). apply list_elem_of_In, elem_of_seqZ in Hq.
      exists q. split; [lia|]. simpl in Hb. by destruct (bm_bit bmp q).
  - split_and!; [done|done|done|]. intros q Hq'. specialize (Hq q Hq'). by destruct (bm_bit bmp q).
Qed.

Lemma bitmap_find_n_free_correct_witness :
  ∃ r, bitmap_find_n_free {| bm_size := 24; bm_bitmap := [0x0f; 0xf1; 0x00] |} 4 = Ok r ∧ r = 4.
Proof.
  destruct (bitmap_find_n_free_correct {| bm_size := 24; bm_bitmap := [0x0f; 0xf1; 0x00] |} 4)
    as (r & Hr & _).
  - split; [simpl; lia|reflexivity|]. repeat constructor; simpl; lia.
  - lia.
  - exists r. split; [exact Hr|]. vm_compute in Hr. congruence.
Defined.
