(* ===== verification/PageAlloc.v ===== *)
(** The physical page allocator of kernel/kernel/mm/page.c.

    The state is the bitmap of used pages, its mutex, and the contents of physical memory,
    page by page: a page is the map of its 64-bit words that have been written since it was
    cleared, and a word that is not in the map is zero. *)
From S2P Require Import Prelude Words Mutex Bitmap.
Open Scope Z_scope.

(** [PAGE_SIZE], [PAGE_SHIFT] (kernel/arch/x86-common/include/arch/definitions.h, lines 5-6). *)
Definition PAGE_SIZE : Z := 4096.
Definition PAGE_SHIFT : Z := 12.

(** The contents of a page of RAM, and of the machine's RAM. *)
Abbreviation page_t := (gmap Z Z).
Abbreviation ram_t := (gmap Z page_t).

(** [pages_t] (kernel/kernel/mm/page.c, lines 7-8): the two static variables of page.c and
    the RAM the pages are made of. *)
Record pages_t := {
  free_pages : bitmap_t;
  free_pages_lock : mutex_t;
  ram : ram_t;
}.

(** [setup_page_bitmap] (kernel/kernel/mm/page.c, lines 10-14). *)
Definition setup_page_bitmap (bitmap : list Z) (size : Z) (st : pages_t) : pages_t :=
  {| free_pages := {| bm_size := size; bm_bitmap := bitmap |};
     free_pages_lock := free_pages_lock st; ram := ram st |}.

Section operations.
Context `{B : Build} (cur : tptr).

(** [alloc_page] (kernel/kernel/mm/page.c, lines 16-25). *)
Definition alloc_page (st : pages_t) : res (Z * pages_t) :=
  l ← mutex_lock cur (free_pages_lock st);
  ppn ← bitmap_find_free (free_pages st);
  kpanic (negb (ppn =? SIZE_MAX));;
  bmp ← bitmap_set (free_pages st) ppn;
  l ← mutex_release cur l;
  mret (ppn, {| free_pages := bmp; free_pages_lock := l; ram := <[ppn := ∅]> (ram st) |}).

(** The loop that marks [count] pages used (kernel/kernel/mm/page.c, lines 44-46). *)
Fixpoint mark_used (bmp : bitmap_t) (page : Z) (count : nat) : res bitmap_t :=
  match count with
  | O => mret bmp
  | S count => bmp ← bitmap_set bmp page; mark_used bmp (page + 1) count
  end.

(** [alloc_dma_region] (kernel/kernel/mm/page.c, lines 27-50): the physical address of
    16 pages. *)
Definition alloc_dma_region (st : pages_t) : res (Z * pages_t) :=
  let dma_pages := 16 in
  let max_page := 1048576 - 1 in
  l ← mutex_lock cur (free_pages_lock st);
  ppn_start ← bitmap_find_n_free (free_pages st) dma_pages;
  if (ppn_start =? SIZE_MAX) || (max_page <? u64 (ppn_start + dma_pages)) then
    l ← mutex_release cur l;
    kpanic false;;
    mret (0, {| free_pages := free_pages st; free_pages_lock := l; ram := ram st |})
  else
    bmp ← mark_used (free_pages st) ppn_start (Z.to_nat dma_pages);
    l ← mutex_release cur l;
    mret (Z.shiftl ppn_start PAGE_SHIFT,
          {| free_pages := bmp; free_pages_lock := l; ram := ram st |}).

(** [free_page] (kernel/kernel/mm/page.c, lines 52-63).  The release build does not
    evaluate the test in the second [assert]. *)
Definition free_page (page : Z) (st : pages_t) : res pages_t :=
  if bm_size (free_pages st) <=? page then
    assert_ false;; mret st
  else
    l ← mutex_lock cur (free_pages_lock st);
    (if DEBUG then v ← bitmap_get (free_pages st) page; kpanic (v =? 1) else mret tt);;
    bmp ← bitmap_clr (free_pages st) page;
    l ← mutex_release cur l;
    mret {| free_pages := bmp; free_pages_lock := l; ram := ram st |}.
End operations.

(** ** The invariant *)

(** The bitmap is well formed with its padding bits marked used, and the mutex is free. *)
Record pages_wf (st : pages_t) : Prop := {
  pw_bitmap : bm_wf (free_pages st);
  pw_pad : ∀ i, bm_size (free_pages st) <= i < bm_cap (free_pages st) →
             bm_bit (free_pages st) i = true;
  pw_lock : free_pages_lock st = MUTEX_INITIALIZER;
}.

Definition page_count (st : pages_t) : Z := bm_size (free_pages st).
Definition is_page (st : pages_t) (p : Z) : Prop := 0 <= p < page_count st.
Definition used (st : pages_t) (p : Z) : Prop := bm_bit (free_pages st) p = true.

(** [st'] differs from [st] at most in which of the pages [P] are used. *)
Record pages_upd (P : Z → Prop) (v : bool) (st st' : pages_t) : Prop := {
  pu_wf : pages_wf st';
  pu_count : page_count st' = page_count st;
  pu_in : ∀ p, 0 <= p → P p → bm_bit (free_pages st') p = v;
  pu_out : ∀ p, 0 <= p → ¬ P p → bm_bit (free_pages st') p = bm_bit (free_pages st) p;
}.

(** Two updates after each other, and another way to say which pages one is about. *)
Lemma pages_upd_or P Q v st st1 st2 `{∀ q, Decision (Q q)} :
  pages_upd P v st st1 → pages_upd Q v st1 st2 → pages_upd (λ q, P q ∨ Q q) v st st2.
Proof.
  intros [Hw1 Hc1 Hi1 Ho1] [Hw2 Hc2 Hi2 Ho2]. split; [done|congruence| |]; intros q Hq HR.
  - destruct (decide (Q q)) as [|Hn]; [by apply Hi2|]. rewrite Ho2 by done. apply Hi1; tauto.
  - rewrite Ho2 by tauto. apply Ho1; tauto.
Qed.

Lemma pages_upd_iff P Q v st st' : (∀ q, P q ↔ Q q) → pages_upd P v st st' → pages_upd Q v st st'.
Proof. intros He [Hw Hc Hi Ho]. split; [done|done| |]; intros q Hq HQ; [apply Hi|apply Ho]; try done; by rewrite He. Qed.

Section specs.
Context `{B : Build} (cur : tptr) (st : pages_t) (Hwf : pages_wf st).

Lemma free_bit_is_page p : 0 <= p < bm_cap (free_pages st) →
  bm_bit (free_pages st) p = false → is_page st p.
Proof.
  intros Hp Hb. unfold is_page, page_count.
  destruct (decide (p < bm_size (free_pages st))); [lia|].
  rewrite (pw_pad _ Hwf) in Hb; [done|lia].
Qed.

Lemma cap_small : bm_cap (free_pages st) < 2 ^ 53.
Proof.
  pose proof (bm_cap_spec _ (pw_bitmap _ Hwf)). pose proof (bm_wf_size _ (pw_bitmap _ Hwf)). lia.
Qed.

Lemma alloc_page_spec :
  (∃ p st', alloc_page cur st = Ok (p, st') ∧ is_page st p ∧ ¬ used st p ∧
     (∀ q, 0 <= q < p → used st q) ∧ ram st' = <[p := ∅]> (ram st) ∧
     pages_upd (λ q, q = p) true st st') ∨
  (alloc_page cur st = Stop Panic ∧ ∀ p, is_page st p → used st p).
Proof.
  destruct (bitmap_find_free_ok _ (pw_bitmap _ Hwf)) as (r & Hr & Hleast).
  unfold alloc_page. rewrite (pw_lock _ Hwf), mutex_lock_idle. simpl. rewrite Hr. simpl.
  pose proof cap_small as Hcap.
  destruct Hleast as [[-> Hall]|(Hrange & Hfree & Hmin)].
  - right. split; [done|]. intros p [H0 Hp]. apply Hall.
    pose proof (bm_cap_spec _ (pw_bitmap _ Hwf)). unfold page_count in Hp. lia.
  - left. assert (is_page st r) as Hpage by (by apply free_bit_is_page).
    destruct (bitmap_set_ok _ (pw_bitmap _ Hwf) r Hpage) as (bmp & Hset & Hwf' & Hsz & Hbit).
    destruct (Z.eqb_spec r SIZE_MAX) as [->|_]; [unfold SIZE_MAX in *; lia|]. simpl.
    rewrite Hset. simpl. rewrite mutex_release_taken. simpl.
    eexists r, _. split; [done|]. unfold used. rewrite Hfree. simpl. split_and!; [done|done|done|done|].
    split; simpl.
    + split; simpl; [done| |done]. unfold bm_cap. rewrite Hsz. fold (bm_cap (free_pages st)).
      intros i Hi. pose proof (bm_wf_size _ (pw_bitmap _ Hwf)). rewrite Hbit by lia.
      case_ltb; [done|]. by apply (pw_pad _ Hwf).
    + done.
    + intros p Hp ->. rewrite Hbit by done. by rewrite Z.eqb_refl.
    + intros p Hp Hne. rewrite Hbit by done. by destruct (Z.eqb_spec p r).
Qed.

Lemma free_page_spec p :
  is_page st p → used st p →
  ∃ st', free_page cur p st = Ok st' ∧ ram st' = ram st ∧ pages_upd (λ q, q = p) false st st'.
Proof.
  intros Hp Hu. unfold free_page, is_page, page_count in *. destruct (Z.leb_spec (bm_size (free_pages st)) p); [lia|].
  destruct (bitmap_clr_ok _ (pw_bitmap _ Hwf) p Hp) as (bmp & Hclr & Hwf' & Hsz & Hbit).
  rewrite (pw_lock _ Hwf), mutex_lock_idle. simpl.
  rewrite (bitmap_get_ok _ (pw_bitmap _ Hwf)) by done. rewrite Hu. simpl.
  replace (if DEBUG then kpanic (1 =? 1) else mret tt) with (Ok tt) by (by destruct DEBUG). simpl.
  rewrite Hclr. simpl. rewrite mutex_release_taken. simpl.
  eexists. split; [done|]. split; [done|]. split; simpl.
  - split; simpl; [done| |done]. unfold bm_cap. rewrite Hsz. fold (bm_cap (free_pages st)).
    intros i Hi. pose proof (bm_wf_size _ (pw_bitmap _ Hwf)). rewrite Hbit by lia.
    case_ltb; [lia|]. by apply (pw_pad _ Hwf).
  - done.
  - intros q Hq ->. rewrite Hbit by done. by rewrite Z.eqb_refl.
  - intros q Hq Hne. rewrite Hbit by done. by destruct (Z.eqb_spec q p).
Qed.

(** At least [n] pages are free. *)
Definition free_room (n : nat) (s : pages_t) : Prop :=
  ∃ l, NoDup l ∧ (n <= length l)%nat ∧ ∀ p, p ∈ l → is_page s p ∧ ¬ used s p.

(** While a page is free, [alloc_page] succeeds, and takes one. *)
Lemma alloc_page_room :
  (∃ p st', alloc_page cur st = Ok (p, st') ∧ is_page st p ∧ ¬ used st p ∧
     ram st' = <[p := ∅]> (ram st) ∧ pages_upd (λ q, q = p) true st st' ∧
     ∀ n, free_room (S n) st → free_room n st') ∨
  (alloc_page cur st = Stop Panic ∧ ¬ free_room 1 st).
Proof.
  destruct alloc_page_spec as [(p & st' & Ha & Hpg & Hnu & _ & Hram & Hupd)|[Ha Hall]].
  2: { right. split; [done|]. intros (l & _ & Hlen & Hl). destruct l as [|q l]; [simpl in Hlen; lia|].
       destruct (Hl q) as [Hqp Hqu]; [by left|]. by apply Hqu, Hall. }
  left. exists p, st'. split_and!; [done..|]. intros n (l & Hnd & Hlen & Hl).
  assert (∃ l', NoDup l' ∧ (n <= length l')%nat ∧ ∀ q, q ∈ l' → q ∈ l ∧ q ≠ p) as (l' & Hnd' & Hlen' & Hl').
  { destruct (decide (p ∈ l)) as [Hin|Hni].
    - apply list_elem_of_split in Hin as (l1 & l2 & ->). exists (l1 ++ l2).
      apply list.NoDup_app in Hnd as (H1 & Hd & [Hp2 H2]%list.NoDup_cons).
      rewrite length_app in *. simpl in Hlen. split_and!; [|lia|].
      + apply list.NoDup_app. split_and!; [done| |done]. intros q Hq Hq2. apply (Hd q Hq). by right.
      + intros q [Hq|Hq]%elem_of_app; rewrite elem_of_app, elem_of_cons; (split; [tauto|]); intros ->;
          [|done]. apply (Hd _ Hq). by left.
    - exists l. split_and!; [done|lia|]. intros q Hq. split; [done|]. by intros ->. }
  exists l'. split_and!; [done|done|]. intros q [Hq Hne]%Hl'. destruct (Hl q Hq) as [Hqp Hqu].
  destruct Hupd as [_ Hc _ Hout]. unfold is_page, used in *. rewrite Hc, Hout; [done|lia|done].
Qed.

(** The three ways [free_page] refuses a page. *)
Lemma free_page_bad p :
  page_count st <= p → free_page cur p st = (if DEBUG then Stop Panic else Ok st).
Proof.
  intros Hp. unfold free_page, page_count in *. destruct (Z.leb_spec (bm_size (free_pages st)) p); [|lia].
  unfold assert_. by destruct DEBUG.
Qed.

Lemma double_free_panics p :
  is_page st p → ¬ used st p → DEBUG = true → free_page cur p st = Stop Panic.
Proof.
  intros Hp Hu Hd. unfold free_page, is_page, page_count in *.
  destruct (Z.leb_spec (bm_size (free_pages st)) p); [lia|].
  rewrite (pw_lock _ Hwf), mutex_lock_idle. simpl.
  rewrite Hd, (bitmap_get_ok _ (pw_bitmap _ Hwf)) by done. simpl.
  apply not_true_is_false in Hu. by rewrite Hu.
Qed.
End specs.

(** ** DMA regions *)

Section dma.
Context `{B : Build} (cur : tptr).

Lemma mark_used_ok bmp page count :
  bm_wf bmp → 0 <= page → page + Z.of_nat count <= bm_size bmp →
  ∃ bmp', mark_used bmp page count = Ok bmp' ∧ bm_wf bmp' ∧ bm_size bmp' = bm_size bmp ∧
    ∀ i, 0 <= i → bm_bit bmp' i =
      if (page <=? i) && (i <? page + Z.of_nat count) then true else bm_bit bmp i.
Proof.
  revert bmp page. induction count as [|count IH]; intros bmp page Hwf Hp Hle.
  - exists bmp. split_and!; try done. intros i Hi. zcases.
  - destruct (bitmap_set_ok bmp Hwf page) as (b1 & Hs & Hw1 & Hz1 & Hb1); [lia|].
    destruct (IH b1 (page + 1)) as (b2 & Hm & Hw2 & Hz2 & Hb2); [done|lia|lia|].
    exists b2. cbn [mark_used]. rewrite Hs. simpl. split_and!; [done|done|congruence|].
    intros i Hi. rewrite Hb2, Hb1 by done. zcases.
Qed.

#[local] Arguments mark_used : simpl never.

(** The pages of a DMA region that starts at page [s]. *)
Definition in_dma (s p : Z) : Prop := s <= p < s + 16.

Lemma alloc_dma_region_spec st :
  pages_wf st →
  (∃ s st', alloc_dma_region cur st = Ok (Z.shiftl s 12, st') ∧
     s mod 16 = 0 ∧ 0 <= s ∧ s + 16 <= 1048575 ∧
     (∀ p, in_dma s p → is_page st p ∧ ¬ used st p) ∧
     ram st' = ram st ∧ pages_upd (in_dma s) true st st') ∨
  (alloc_dma_region cur st = Stop Panic).
Proof.
  intros Hwf. pose proof (pw_bitmap _ Hwf) as Hbm.
  destruct (bitmap_find_n_free_ok _ 16 Hbm) as (r & Hr & Hf); [lia|].
  unfold alloc_dma_region. rewrite (pw_lock _ Hwf), mutex_lock_idle. simpl. rewrite Hr. simpl.
  pose proof (cap_small st Hwf) as Hcap.
  destruct (Z.eqb_spec r SIZE_MAX) as [->|Hne]; simpl.
  { right. by rewrite mutex_release_taken. }
  destruct Hf as [[? _]|[(Hm & H0 & Hq) Hend]]; [done|].
  rewrite uwrap_small by (split; lia). change (1048576 - 1) with 1048575.
  destruct (Z.ltb_spec 1048575 (r + 16)); simpl.
  { right. by rewrite mutex_release_taken. }
  left. assert (∀ p, in_dma r p → is_page st p ∧ ¬ used st p) as Hpages.
  { intros p Hp. unfold in_dma in Hp. specialize (Hq p Hp).
    assert (bm_bit (free_pages st) p = false) as Hb by (by destruct (bm_bit (free_pages st) p)).
    split; [apply free_bit_is_page; [done|lia|done]|]. unfold used. by rewrite Hb. }
  destruct (mark_used_ok (free_pages st) r 16 Hbm H0) as (bmp & Hmark & Hwf' & Hsz & Hbit).
  { destruct (Hpages (r + 15)) as [[_ Hp] _]; [unfold in_dma; lia|]. unfold page_count in Hp. lia. }
  change (Z.to_nat 16) with 16%nat. rewrite Hmark. simpl. rewrite mutex_release_taken. simpl.
  eexists r, _. split; [done|]. split_and!; [done|done|lia|done|done|]. split; simpl.
  - split; simpl; [done| |done]. unfold bm_cap. rewrite Hsz. fold (bm_cap (free_pages st)).
    intros i Hi. pose proof (bm_wf_size _ Hbm). rewrite Hbit by lia. destruct (_ && _); [done|].
    by apply (pw_pad _ Hwf).
  - done.
  - intros p Hp [? ?]. rewrite Hbit by done. zcases.
  - intros p Hp Hnot. rewrite Hbit by done. unfold in_dma in Hnot. zcases.
Qed.

(** ** Ownership of pages *)

(** The pages from [a] to [a + n - 1]. *)
Definition page_range (a n : Z) : gset Z := list_to_set (seqZ a n).

Lemma elem_of_page_range a n p : p ∈ page_range a n ↔ a <= p < a + n.
Proof. unfold page_range. by rewrite elem_of_list_to_set, elem_of_seqZ. Qed.
#[local] Arguments page_range : simpl never.

(** The kernel as a client of the allocator: [O] is the set of pages it has been given and
    has not freed; it frees only such pages. *)
Inductive client_step : pages_t * gset Z → pages_t * gset Z → Prop :=
| client_alloc st O p st' :
    alloc_page cur st = Ok (p, st') → client_step (st, O) (st', {[p]} ∪ O)
| client_dma st O a st' :
    alloc_dma_region cur st = Ok (a, st') →
    client_step (st, O) (st', page_range (Z.shiftr a 12) 16 ∪ O)
| client_free st O p st' :
    p ∈ O → free_page cur p st = Ok st' → client_step (st, O) (st', O ∖ {[p]}).

(** What the two sets of pages have to do with each other. *)
Record owned_inv (st0 st : pages_t) (O : gset Z) : Prop := {
  oi_wf : pages_wf st;
  oi_count : page_count st = page_count st0;
  oi_page : ∀ p, p ∈ O → is_page st0 p ∧ ¬ used st0 p;
  oi_used : ∀ p, 0 <= p → used st p ↔ used st0 p ∨ p ∈ O;
}.

Lemma pages_upd_owned st0 st st' O (P : Z → Prop) (D : gset Z) :
  owned_inv st0 st O → pages_upd P true st st' → (∀ p, p ∈ D ↔ P p) →
  (∀ p, P p → is_page st p ∧ ¬ used st p) → owned_inv st0 st' (D ∪ O).
Proof.
  intros [Hwf Hc Hp Hu] [Hwf' Hc' Hin Hout] HD Hfree.
  assert (∀ p, Decision (P p)) as HdecP.
  { intros p. destruct (decide (p ∈ D)) as [H|H]; rewrite HD in H; [by left|by right]. }
  split; [done|congruence| |].
  - intros p [Hpd|?]%elem_of_union; [|by apply Hp]. apply HD in Hpd.
    destruct (Hfree p Hpd) as [Hpg Hnu]. split; [by unfold is_page in *; rewrite <-Hc|].
    intros Hus. apply Hnu, Hu; [apply Hpg|by left].
  - intros p Hp0. unfold used. rewrite elem_of_union, HD. destruct (HdecP p) as [Hpp|Hpp].
    + rewrite Hin by done. tauto.
    + rewrite Hout by done. specialize (Hu p Hp0). unfold used in Hu. tauto.
Qed.

Lemma client_step_inv st0 x y :
  client_step x y → owned_inv st0 x.1 x.2 → owned_inv st0 y.1 y.2.
Proof.
  intros Hstep Hinv. destruct Hstep as [st O p st' Ha|st O a st' Ha|st O p st' HpO Hf]; simpl in *.
  - destruct (alloc_page_spec cur st (oi_wf _ _ _ Hinv)) as [(p' & st'' & Heq & Hpg & Hnu & _ & _ & Hupd)|[Heq _]];
      rewrite Heq in Ha; [|done]. injection Ha as -> ->.
    eapply pages_upd_owned; [done|done| |]; [set_solver|]. by intros q ->.
  - destruct (alloc_dma_region_spec st (oi_wf _ _ _ Hinv)) as [(s & st'' & Heq & _ & Hs & _ & Hpg & _ & Hupd)|Heq];
      rewrite Heq in Ha; [|done]. injection Ha as <- ->.
    rewrite Z.shiftr_shiftl_l, Z.shiftl_0_r by lia.
    eapply pages_upd_owned; [done|done| |done]. intros q.
    rewrite elem_of_page_range. unfold in_dma. lia.
  - destruct Hinv as [Hwf Hc Hp Hu]. destruct (Hp p HpO) as [Hpg Hnu].
    destruct (free_page_spec cur st Hwf p) as (st'' & Heq & _ & [Hwf' Hc' Hin Hout]).
    + unfold is_page in *. by rewrite Hc.
    + apply Hu; [apply Hpg|by right].
    + rewrite Heq in Hf. injection Hf as ->. split; [done|congruence| |].
      { intros q [? _]%elem_of_difference. by apply Hp. }
      intros q Hq. unfold used. rewrite elem_of_difference, elem_of_singleton.
      specialize (Hu q Hq). unfold used in *. destruct (decide (q = p)) as [->|Hne].
      * rewrite Hin by done. split; [done|]. intros [?|[_ ?]]; by exfalso; auto.
      * rewrite Hout by done. tauto.
Qed.

Lemma client_steps_inv st0 x y :
  rtc client_step x y → owned_inv st0 x.1 x.2 → owned_inv st0 y.1 y.2.
Proof. induction 1; eauto using client_step_inv. Qed.

Lemma owned_inv_start st0 : pages_wf st0 → owned_inv st0 st0 ∅.
Proof.
  intros Hwf. split; [done|done| |].
  - by intros p ?%elem_of_empty.
  - intros p _. rewrite elem_of_empty. tauto.
Qed.
End dma.

(** ** Properties *)

(** A machine of [n] pages, all free, that has just set up its bitmap. *)
Definition fresh_pages (n : Z) : pages_t :=
  setup_page_bitmap (bm_bitmap (bitmap_init n 0)) n
    {| free_pages := {| bm_size := 0; bm_bitmap := [] |};
       free_pages_lock := MUTEX_INITIALIZER; ram := ∅ |}.

(** The same when [n] is a multiple of 8, so that there is no padding. *)
Lemma fresh_pages_wf n : 0 <= n < 2 ^ 52 → n mod 8 = 0 → pages_wf (fresh_pages n).
Proof.
  intros Hn H8. destruct (bitmap_init_wf n 0 Hn) as [[H1 H2 H3] _].
  split; [by split| |done]. intros i Hi. exfalso. unfold bm_cap, BITMAP_BYTE_SIZE in Hi. simpl in Hi.
  rewrite H8, Z.shiftr_div_pow2 in Hi by lia. change (2 ^ 3) with 8 in Hi. simpl in Hi. zdiv.
Qed.

(** [alloc_page] returns the lowest page that is not in use, clears its contents, marks
    it used and changes nothing else; it panics exactly when every page is in use.  Giving
    the page back with [free_page] restores the bitmap. *)
Theorem alloc_page_correct `{B : Build} cur st :
  pages_wf st →
  ((∃ p st', alloc_page cur st = Ok (p, st') ∧ is_page st p ∧ ¬ used st p ∧
     (∀ q, 0 <= q < p → used st q) ∧ pages_wf st' ∧ used st' p ∧
     ram st' = <[p := ∅]> (ram st) ∧
     (∀ q, 0 <= q → q ≠ p → used st' q ↔ used st q) ∧
     ∃ st'', free_page cur p st' = Ok st'' ∧ ∀ q, 0 <= q → used st'' q ↔ used st q) ∨
   (alloc_page cur st = Stop Panic ∧ ∀ p, is_page st p → used st p)).
Proof.
  intros Hwf. destruct (alloc_page_spec cur st Hwf)
    as [(p & st' & Ha & Hpg & Hnu & Hmin & Hram & [Hwf' Hc Hin Hout])|?]; [left|by right].
  assert (0 <= p) as Hp0 by apply Hpg.
  assert (used st' p) as Hu' by (by apply Hin).
  exists p, st'. split_and!; [done..| |].
  { intros q Hq Hne. unfold used. by rewrite Hout. }
  destruct (free_page_spec cur st' Hwf' p) as (st'' & Hf & _ & [_ _ Hin' Hout']).
  { unfold is_page in *. by rewrite Hc. }
  { done. }
  exists st''. split; [done|]. intros q Hq. unfold used in *. destruct (decide (q = p)) as [->|Hne].
  - rewrite Hin' by done. split; [done|]. intros ?; by exfalso; auto.
  - by rewrite Hout', Hout.
Qed.

Lemma alloc_page_correct_witness :
  ∃ st', @alloc_page debug_build 7 (fresh_pages 16) = Ok (0, st') ∧ used st' 0.
Proof.
  destruct (@alloc_page_correct debug_build 7 (fresh_pages 16)) as [H|[H _]].
  - apply fresh_pages_wf; [lia|reflexivity].
  - destruct H as (p & st' & Ha & _ & _ & _ & _ & Hu & _).
    exists st'. assert (p = 0) as -> by (vm_compute in Ha; congruence). split; [exact Ha|exact Hu].
  - vm_compute in H. discriminate H.
Defined.

(** [alloc_dma_region] returns the physical address of 64 KiB that are aligned to
    64 KiB and lie below 4 GiB (so that a PRD entry can address them), made of pages that
    were free; it marks exactly those 16 pages used.  Otherwise it panics. *)
Theorem alloc_dma_region_correct `{B : Build} cur st :
  pages_wf st →
  (∃ a st', alloc_dma_region cur st = Ok (a, st') ∧
     a mod 2 ^ 16 = 0 ∧ 0 <= a ∧ a + 2 ^ 16 < 2 ^ 32 ∧ pages_wf st' ∧
     ∀ p, 0 <= p →
       (a <= p * 4096 < a + 2 ^ 16 → is_page st p ∧ ¬ used st p ∧ used st' p) ∧
       (¬ (a <= p * 4096 < a + 2 ^ 16) → used st' p ↔ used st p)) ∨
  alloc_dma_region cur st = Stop Panic.
Proof.
  intros Hwf. destruct (alloc_dma_region_spec cur st Hwf)
    as [(s & st' & Ha & Hm & Hs & Hlim & Hpg & _ & [Hwf' Hc Hin Hout])|?]; [left|by right].
  exists (Z.shiftl s 12), st'. rewrite Z.shiftl_mul_pow2 in * by lia.
  change (2 ^ 12) with 4096 in *. change (2 ^ 16) with (16 * 4096) in *.
  split_and!; [done| |lia|lia|done|].
  { rewrite Z.mul_mod_distr_r by lia. rewrite Hm. lia. }
  intros p Hp. split.
  - intros Hr. assert (in_dma s p) as Hd by (unfold in_dma; lia).
    destruct (Hpg p Hd). split_and!; [done|done|]. by apply Hin.
  - intros Hr. unfold used. rewrite Hout; [done|done|]. unfold in_dma. lia.
Qed.

Lemma alloc_dma_region_correct_witness :
  ∃ st', @alloc_dma_region debug_build 7 (fresh_pages 64) = Ok (0, st') ∧ used st' 15.
Proof.
  destruct (@alloc_dma_region_correct debug_build 7 (fresh_pages 64)) as [H|H].
  - apply fresh_pages_wf; [lia|reflexivity].
  - destruct H as (a & st' & Ha & _ & _ & _ & _ & Hp).
    exists st'. assert (a = 0) as -> by (vm_compute in Ha; congruence).
    split; [exact Ha|]. apply (proj1 (Hp 15 ltac:(lia))). lia.
  - vm_compute in H. discriminate H.
Defined.

(** C8: No page is handed out twice: in every run of [alloc_page], [alloc_dma_region] and
    [free_page] in which the kernel frees only pages it owns, a page is marked used exactly
    when it was reserved at the start or is owned now; so the next [alloc_page] returns a
    page that nobody owns, and owned pages are never reserved ones. *)
Theorem pages_handed_out_once `{B : Build} cur st0 st O :
  pages_wf st0 → rtc (client_step cur) (st0, ∅) (st, O) →
  pages_wf st ∧
  (∀ p, is_page st p → used st p ↔ used st0 p ∨ p ∈ O) ∧
  (∀ p, p ∈ O → is_page st p ∧ ¬ used st0 p) ∧
  (∀ p st', alloc_page cur st = Ok (p, st') → p ∉ O ∧ ¬ used st0 p).
Proof.
  intros Hwf Hrun.
  pose proof (client_steps_inv cur st0 _ _ Hrun (owned_inv_start st0 Hwf)) as Hinv.
  destruct Hinv as [Hwf' Hc Hp Hu]. simpl in *. split_and!; [done| | |].
  - intros p [Hp0 _]. by apply Hu.
  - intros p HpO. destruct (Hp p HpO) as [? ?]. split; [|done]. unfold is_page in *. by rewrite Hc.
  - intros p st' Ha. destruct (alloc_page_spec cur st Hwf') as [(p' & st'' & Ha' & Hpg & Hnu & _)|[Ha' _]];
      rewrite Ha' in Ha; [|done]. injection Ha as -> ->.
    rewrite Hu in Hnu by apply Hpg. tauto.
Qed.

Lemma pages_handed_out_once_witness :
  ∃ st O, rtc (client_step (B := debug_build) 7) (fresh_pages 16, ∅) (st, O) ∧ 1 ∈ O ∧
          used st 1 ∧ ¬ used (fresh_pages 16) 1.
Proof.
  assert (∃ st, rtc (client_step (B := debug_build) 7) (fresh_pages 16, ∅)
     (st, ({[1]} ∪ ({[0]} ∪ ∅)) ∖ {[0]})) as [st Hrun].
  { eexists. eapply rtc_l; [eapply client_alloc; vm_compute; reflexivity|].
    eapply rtc_l; [eapply client_alloc; vm_compute; reflexivity|].
    eapply rtc_l; [|apply rtc_refl].
    eapply client_free; [|vm_compute; reflexivity]. apply (bool_decide_unpack _). vm_compute. exact I. }
  destruct (@pages_handed_out_once debug_build 7 (fresh_pages 16) st _
    (fresh_pages_wf 16 ltac:(lia) eq_refl) Hrun) as (_ & Hu & Ho & _).
  assert (1 ∈ ({[1]} ∪ ({[0]} ∪ ∅)) ∖ ({[0]} : gset Z)) as Hin.
  { apply (bool_decide_unpack _). vm_compute. exact I. }
  eexists st, _. split; [exact Hrun|]. split; [exact Hin|]. split.
  - apply Hu; [|right; exact Hin]. destruct (Ho 1 Hin) as [Hp _]. exact Hp.
  - apply Ho. exact Hin.
Defined.
