(* ===== verification/Dll.v ===== *)
(** Doubly linked chains of records, shared by the kernel lists (Lists.v) and the heap's
    block list (Heap.v), and the interface of the kernel's memory allocator.

    A chain is described by the sequence of its addresses and contents; [get] reads the
    two links and the content of the record at an address. *)
From S2P Require Import Prelude.
Open Scope Z_scope.

(** ** Chains *)
Section chains.
Context {P : Type}.
Implicit Types (l : list (Z * P)) (get : Z → option (Z * Z * P)).

(** The address of the first record of a chain, or [d] when there is none ... *)
Definition head_addr l (d : Z) : Z := match l with [] => d | (a, _) :: _ => a end.
(** ... and that of the last. *)
Fixpoint last_addr l (d : Z) : Z := match l with [] => d | (a, _) :: l => last_addr l a end.

(** From the left end [prev] to the right end [next], [l] is linked both ways. *)
Fixpoint dseg get (prev : Z) l (next : Z) : Prop :=
  match l with
  | [] => True
  | (a, x) :: l => get a = Some (prev, head_addr l next, x) ∧ dseg get a l next
  end.

Lemma head_addr_app l1 l2 d : head_addr (l1 ++ l2) d = head_addr l1 (head_addr l2 d).
Proof. by destruct l1 as [|[] ?]. Qed.

Lemma last_addr_app l1 l2 d : last_addr (l1 ++ l2) d = last_addr l2 (last_addr l1 d).
Proof. revert d. induction l1 as [|[a x] l1 IH]; intros d; [done|]. apply IH. Qed.

Lemma head_addr_in l d : l ≠ [] → head_addr l d ∈ l.*1.
Proof. destruct l as [|[a x] l]; [done|]. intros _. simpl. by left. Qed.

Lemma last_addr_in l d : l ≠ [] → last_addr l d ∈ l.*1.
Proof.
  revert d. induction l as [|[a x] l IH]; intros d Hne; [done|]. simpl.
  destruct l as [|y l]; [by left|]. right. by apply IH.
Qed.

Lemma dseg_app get p l1 l2 n :
  dseg get p (l1 ++ l2) n ↔ dseg get p l1 (head_addr l2 n) ∧ dseg get (last_addr l1 p) l2 n.
Proof.
  revert p. induction l1 as [|[a x] l1 IH]; intros p; simpl; [tauto|].
  rewrite IH, head_addr_app. tauto.
Qed.

(** Only the records of the chain matter. *)
Lemma dseg_ext get get' p l n :
  (∀ a, a ∈ l.*1 → get' a = get a) → dseg get p l n → dseg get' p l n.
Proof.
  revert p. induction l as [|[a x] l IH]; intros p Hext; simpl; [done|]. intros [Ha Hl]. split.
  - rewrite Hext; [done|]. simpl. by left.
  - apply IH; [|done]. intros b Hb. apply Hext. simpl. by right.
Qed.

(** The record in the middle of a chain. *)
Lemma dseg_lookup get p l1 a x l2 n :
  dseg get p (l1 ++ (a, x) :: l2) n → get a = Some (last_addr l1 p, head_addr l2 n, x).
Proof. by intros [_ [Ha _]]%dseg_app. Qed.

(** Writing the [prev] link of the first record. *)
Lemma dseg_set_prev get get' p p' l n :
  NoDup l.*1 →
  (∀ a, a ∈ l.*1 → get' a = (if decide (a = head_addr l n)
                             then (λ '(_, nx, x), (p', nx, x)) <$> get a else get a)) →
  dseg get p l n → dseg get' p' l n.
Proof.
  destruct l as [|[a x] l]; [done|]. simpl. intros [Hni Hnd]%list.NoDup_cons Hext [Ha Hl]. split.
  - rewrite Hext by (by left). by rewrite decide_True, Ha.
  - eapply dseg_ext; [|done]. intros b Hb. rewrite Hext by (by right).
    rewrite decide_False; [done|]. by intros ->.
Qed.

(** Writing the [next] link of the last record. *)
Lemma dseg_set_next get get' p l n n' :
  NoDup l.*1 →
  (∀ a, a ∈ l.*1 → get' a = (if decide (a = last_addr l p)
                             then (λ '(pv, _, x), (pv, n', x)) <$> get a else get a)) →
  dseg get p l n → dseg get' p l n'.
Proof.
  destruct l as [|[a x] l _] using rev_ind; [done|].
  rewrite fmap_app, last_addr_app. simpl. intros Hnd Hext [Hl [Ha _]]%dseg_app.
  apply list.NoDup_app in Hnd as (_ & Hni & _). apply dseg_app. split; simpl in *.
  - eapply dseg_ext; [|done]. intros b Hb. rewrite Hext by (apply elem_of_app; by left).
    rewrite decide_False; [done|]. intros ->. apply (Hni a Hb). by left.
  - rewrite Hext by (apply elem_of_app; right; by left). by rewrite decide_True, Ha.
Qed.

(** Following the links from the left end visits the records in order. *)
Lemma dseg_head get p a x l n : dseg get p ((a, x) :: l) n → get a = Some (p, head_addr l n, x).
Proof. by intros [? _]. Qed.

(** Linking a record behind the last one. *)
Lemma dseg_snoc get get' p l a x n :
  NoDup l.*1 →
  get' a = Some (last_addr l p, n, x) →
  (∀ b, b ∈ l.*1 → get' b = (if decide (b = last_addr l p)
                             then (λ '(pv, _, y), (pv, a, y)) <$> get b else get b)) →
  dseg get p l n → dseg get' p (l ++ [(a, x)]) n.
Proof.
  intros Hnd Ha Hext Hc. apply dseg_app. split; [|done]. eapply dseg_set_next; [done| |done].
  intros b Hb. by rewrite Hext.
Qed.

(** Splitting [NoDup] around a record of the chain. *)
Lemma NoDup_mid l1 a (x : P) l2 :
  NoDup (l1 ++ (a, x) :: l2).*1 →
  NoDup l1.*1 ∧ NoDup l2.*1 ∧ a ∉ l1.*1 ∧ a ∉ l2.*1 ∧ (∀ b, b ∈ l1.*1 → b ∉ l2.*1).
Proof.
  rewrite fmap_app. intros (Hnd1 & Hni & Hnd2)%list.NoDup_app.
  apply list.NoDup_cons in Hnd2 as [Ha2 Hnd2]. split_and!; [done|done| |done|].
  - intros Ha. apply (Hni _ Ha). by left.
  - intros b Hb Hb2. apply (Hni _ Hb). by right.
Qed.

Lemma NoDup_drop_mid l1 a (x : P) l2 : NoDup (l1 ++ (a, x) :: l2).*1 → NoDup (l1 ++ l2).*1.
Proof.
  intros (H1 & H2 & _ & _ & Hd)%NoDup_mid. rewrite fmap_app. by apply list.NoDup_app.
Qed.

(** The two ends of a chain after unlinking a record. *)
Lemma head_addr_unlink l1 a x l2 d :
  a ∉ l1.*1 →
  (if head_addr (l1 ++ (a, x) :: l2) d =? a then head_addr l2 d
   else head_addr (l1 ++ (a, x) :: l2) d) = head_addr (l1 ++ l2) d.
Proof.
  destruct l1 as [|[b y] l1]; simpl; [by rewrite Z.eqb_refl|]. intros Hni.
  destruct (Z.eqb_spec b a) as [->|]; [|done]. destruct Hni. by left.
Qed.

Lemma last_addr_unlink l1 a x l2 d :
  a ∉ l2.*1 →
  (if last_addr (l1 ++ (a, x) :: l2) d =? a then last_addr l1 d
   else last_addr (l1 ++ (a, x) :: l2) d) = last_addr (l1 ++ l2) d.
Proof.
  rewrite !last_addr_app. simpl. destruct l2 as [|[b y] l2]; [by rewrite Z.eqb_refl|]. intros Hni.
  destruct (Z.eqb_spec (last_addr ((b, y) :: l2) a) a) as [Heq|]; [|done].
  destruct Hni. rewrite <- Heq at 1. by apply last_addr_in.
Qed.

(** Unlinking a record: its neighbours are linked to each other. *)
Lemma dseg_unlink get get' p l1 a x l2 n :
  NoDup (l1 ++ (a, x) :: l2).*1 →
  (∀ b, b ∈ l1.*1 → get' b = (if decide (b = last_addr l1 p)
                              then (λ '(pv, _, y), (pv, head_addr l2 n, y)) <$> get b else get b)) →
  (∀ b, b ∈ l2.*1 → get' b = (if decide (b = head_addr l2 n)
                              then (λ '(_, nx, y), (last_addr l1 p, nx, y)) <$> get b else get b)) →
  dseg get p (l1 ++ (a, x) :: l2) n → dseg get' p (l1 ++ l2) n.
Proof.
  intros (Hnd1 & Hnd2 & _)%NoDup_mid H1 H2 [Hc1 [_ Hc2]]%dseg_app. apply dseg_app. split.
  - by eapply dseg_set_next; [..|exact Hc1].
  - by eapply dseg_set_prev; [..|exact Hc2].
Qed.

(** Changing the content of a record. *)
Lemma dseg_update get get' p l1 a x x' l2 n :
  get' a = Some (last_addr l1 p, head_addr l2 n, x') →
  (∀ b, b ∈ l1.*1 ∨ b ∈ l2.*1 → get' b = get b) →
  dseg get p (l1 ++ (a, x) :: l2) n → dseg get' p (l1 ++ (a, x') :: l2) n.
Proof.
  intros Ha Hext [Hc1 [_ Hc2]]%dseg_app. apply dseg_app. split; [|split; [done|]].
  - eapply dseg_ext; [|exact Hc1]. auto.
  - eapply dseg_ext; [|exact Hc2]. auto.
Qed.

(** Replacing the records behind [a], up to [l2], by others. *)
Lemma dseg_replace get get' p l1 a x m x' m' l2 n :
  NoDup l2.*1 →
  dseg get' (last_addr l1 p) ((a, x') :: m') (head_addr l2 n) →
  (∀ b, b ∈ l1.*1 → get' b = get b) →
  (∀ b, b ∈ l2.*1 → get' b = (if decide (b = head_addr l2 n)
                              then (λ '(_, nx, y), (last_addr m' a, nx, y)) <$> get b else get b)) →
  dseg get p (l1 ++ ((a, x) :: m) ++ l2) n → dseg get' p (l1 ++ ((a, x') :: m') ++ l2) n.
Proof.
  intros Hnd Hm H1 H2 [Hc1 [_ Hc2]%dseg_app]%dseg_app. apply dseg_app. split.
  { eapply dseg_ext; [|exact Hc1]. done. }
  apply dseg_app. split; [done|]. by eapply dseg_set_prev; [| |exact Hc2].
Qed.
End chains.

(** ** The allocator's interface *)

(** What the kernel uses of [kmalloc] and [kfree]: [A] is the state of the heap and
    [km_live] the set of addresses that have been allocated and not freed. *)
Class Kmalloc (A : Type) := {
  km_alloc : Z → A → res (Z * A);
  km_free : Z → A → res A;
  km_live : A → gset Z;
}.

(** What it relies on: an allocation that returns gives a fresh address, and freeing an
    allocated address succeeds.  [km_room n a] says that the address space has room for
    [n] more bytes. *)
Class KmallocLaws (A : Type) `{Kmalloc A} := {
  km_inv : A → Prop;
  km_room : Z → A → Prop;
  km_alloc_ok n a p a' :
    km_inv a → km_room n a → km_alloc n a = Ok (p, a') →
    km_inv a' ∧ p ≠ 0 ∧ p ∉ km_live a ∧ km_live a' = {[p]} ∪ km_live a;
  km_free_ok p a :
    km_inv a → p ∈ km_live a →
    ∃ a', km_free p a = Ok a' ∧ km_inv a' ∧ km_live a' = km_live a ∖ {[p]};
}.

(** The simplest allocator with these laws, for concrete runs: addresses go up from 32
    by the size, at least 32, and none is used again. *)
Module Bump.
Record t := { top : Z; live : gset Z }.

#[export] Instance kmalloc : Kmalloc t := {|
  km_alloc n a := mret (top a, {| top := top a + Z.max n 32; live := {[top a]} ∪ live a |});
  km_free p a := if decide (p ∈ live a) then mret {| top := top a; live := live a ∖ {[p]} |}
                 else Stop Panic;
  km_live := live |}.

Definition inv (a : t) : Prop := 32 <= top a ∧ set_Forall (λ p, 0 < p < top a) (live a).

#[export] Instance laws : KmallocLaws t.
Proof.
  refine {| km_inv := inv; km_room n a := True |}.
  - intros n a p a' [Ht Hl] _. simpl. intros [= <- <-]. simpl.
    split_and!; [split; simpl; [lia|]|lia| |done].
    + intros q [->%elem_of_singleton|Hq]%elem_of_union; [lia|]. specialize (Hl q Hq). simpl in Hl. lia.
    + intros Hin. specialize (Hl _ Hin). simpl in Hl. lia.
  - intros p a [Ht Hl] Hp. simpl in *. rewrite decide_True by done. eexists. split; [done|].
    split; [|done]. split; simpl; [done|]. intros q [Hq _]%elem_of_difference. by apply Hl.
Defined.

Definition init : t := {| top := 32; live := ∅ |}.

Lemma init_inv : km_inv init.
Proof. split; simpl; [lia|]. by intros p ?%elem_of_empty. Qed.
End Bump.
