(* ===== verification/Lists.v ===== *)
(** The doubly linked lists of libutil/list.c: every operation of the source over a store
    of list items and the kernel's allocator, and the sequences they implement. *)
From S2P Require Import Prelude Words Dll.
Open Scope Z_scope.

(** [LIST_MAGIC] (kernel/libutil/include/util/list.h, lines 5-9), on x86-64. *)
Definition LIST_MAGIC : Z := 12393869537360980991.

(** [list_item_t] (kernel/libutil/list.c, lines 8-13). *)
Record list_item_t := { it_next : Z; it_prev : Z; it_payload : Z }.

(** [list_t] (kernel/libutil/include/util/list.h, lines 14-20). *)
Record list_t := { items : Z; magic : Z; first : Z; last : Z }.

(** [LIST_INITIALIZER] (kernel/libutil/include/util/list.h, lines 22-27). *)
Definition LIST_INITIALIZER : list_t :=
  {| items := 0; magic := LIST_MAGIC; first := 0; last := 0 |}.

(** The memory the lists live in: the allocated items and the allocator. *)
Record store (A : Type) := { nodes : gmap Z list_item_t; heap : A }.
Arguments nodes {A} _.
Arguments heap {A} _.

Section operations.
Context `{B : Build} {A : Type} `{KM : Kmalloc A}.
Implicit Types (s : store A) (list : list_t).

(** A read and a write through a [list_item_t *]; both fault when nothing is there. *)
Definition rd s (a : Z) : res list_item_t := of_option (nodes s !! a).
Definition wr s (a : Z) (f : list_item_t → list_item_t) : res (store A) :=
  it ← rd s a; mret {| nodes := <[a := f it]> (nodes s); heap := heap s |}.
(** [if (p) p->field = value]. *)
Definition wr_if s (a : Z) (f : list_item_t → list_item_t) : res (store A) :=
  if negb (a =? 0) then wr s a f else mret s.

Definition with_next (n : Z) (it : list_item_t) : list_item_t :=
  {| it_next := n; it_prev := it_prev it; it_payload := it_payload it |}.
Definition with_prev (p : Z) (it : list_item_t) : list_item_t :=
  {| it_next := it_next it; it_prev := p; it_payload := it_payload it |}.

(** [SANITY_CHECK] (kernel/libutil/list.c, lines 4-6). *)
Definition SANITY_CHECK list : res unit := assert_ (magic list =? LIST_MAGIC).

(** [list_init] (kernel/libutil/list.c, lines 15-23). *)
Definition list_init : list_t :=
  {| items := 0; magic := LIST_MAGIC; first := 0; last := 0 |}.

(** [list_add] (kernel/libutil/list.c, lines 33-50). *)
Definition list_add list (payload : Z) s : res (Z * list_t * store A) :=
  SANITY_CHECK list;;
  '(item, h) ← km_alloc 24 (heap s);
  let s := {| nodes := <[item := {| it_next := 0; it_prev := last list;
                                    it_payload := payload |}]> (nodes s); heap := h |} in
  s ← wr_if s (last list) (with_next item);
  let first' := if negb (last list =? 0) then first list else item in
  let items' := u64 (items list + 1) in
  mret (u64 (items' - 1),
        {| items := items'; magic := magic list; first := first'; last := item |}, s).

(** The walk of [list_get_index] (kernel/libutil/list.c, lines 56-68); it follows at most
    [fuel] links. *)
Fixpoint get_index_from (fuel : nat) (item i index : Z) s : res Z :=
  match fuel with
  | O => Stop NoFuel
  | S fuel =>
      if item =? 0 then mret 0
      else if i =? index then mret item
      else it ← rd s item; get_index_from fuel (it_next it) (u64 (i + 1)) index s
  end.

(** The number of links a walk may follow: a chain has no more items than are allocated. *)
Definition walk_fuel s : nat := S (size (nodes s)).

(** [list_get_index] (kernel/libutil/list.c, lines 52-69). *)
Definition list_get_index list (index : Z) s : res Z :=
  SANITY_CHECK list;; get_index_from (walk_fuel s) (first list) 0 index s.

(** [list_it_remove] (kernel/libutil/list.c, lines 147-163). *)
Definition list_it_remove list (item : Z) s : res (list_t * store A) :=
  SANITY_CHECK list;;
  assert_ (negb (item =? 0));;
  it ← rd s item;
  s ← wr_if s (it_prev it) (with_next (it_next it));
  it ← rd s item;
  s ← wr_if s (it_next it) (with_prev (it_prev it));
  it ← rd s item;
  let list := {| items := u64 (items list - 1); magic := magic list;
                 first := if first list =? item then it_next it else first list;
                 last := if last list =? item then it_prev it else last list |} in
  h ← km_free item (heap s);
  mret (list, {| nodes := delete item (nodes s); heap := h |}).

(** [list_remove] (kernel/libutil/list.c, lines 84-90). *)
Definition list_remove list (index : Z) s : res (list_t * store A) :=
  SANITY_CHECK list;;
  item ← list_get_index list index s;
  list_it_remove list item s.

(** [list_pop_front] (kernel/libutil/list.c, lines 72-82). *)
Definition list_pop_front list s : res (Z * list_t * store A) :=
  SANITY_CHECK list;;
  if items list =? 0 then mret (0, list, s)
  else
    let item := first list in
    '(list, s) ← list_remove list 0 s;
    mret (item, list, s).

(** The loop of [list_clear] (kernel/libutil/list.c, lines 29-30). *)
Fixpoint clear_loop (fuel : nat) list s : res (list_t * store A) :=
  if 0 <? items list then
    match fuel with
    | O => Stop NoFuel
    | S fuel => '(list, s) ← list_remove list 0 s; clear_loop fuel list s
    end
  else mret (list, s).

(** [list_clear] (kernel/libutil/list.c, lines 25-31). *)
Definition list_clear list s : res (list_t * store A) :=
  SANITY_CHECK list;; clear_loop (Z.to_nat (items list)) list s.

(** [list_get] (kernel/libutil/list.c, lines 92-100). *)
Definition list_get list (index : Z) s : res Z :=
  SANITY_CHECK list;;
  item ← list_get_index list index s;
  if item =? 0 then mret 0 else it ← rd s item; mret (it_payload it).

(** [list_size] (kernel/libutil/list.c, lines 102-107). *)
Definition list_size list : res Z := SANITY_CHECK list;; mret (items list).

(** [list_rotate] (kernel/libutil/list.c, lines 109-123). *)
Definition list_rotate list s : res (list_t * store A) :=
  SANITY_CHECK list;;
  if items list <? 2 then mret (list, s)
  else
    let item := first list in
    it ← rd s item;
    s ← wr s (it_next it) (with_prev 0);
    s ← wr s item (with_prev (last list));
    it ← rd s item;
    let first' := it_next it in
    s ← wr s item (with_next 0);
    s ← wr s (last list) (with_next item);
    mret ({| items := items list; magic := magic list; first := first'; last := item |}, s).

(** [list_it_get] (kernel/libutil/list.c, lines 125-128). *)
Definition list_it_get (it : Z) s : res Z := it_payload <$> rd s it.

(** [list_it_next] (kernel/libutil/list.c, lines 130-133). *)
Definition list_it_next (it : Z) s : res Z := it_next <$> rd s it.

(** [list_it_front] (kernel/libutil/list.c, lines 135-139). *)
Definition list_it_front list : res Z := SANITY_CHECK list;; mret (first list).

(** [list_it_back] (kernel/libutil/list.c, lines 141-145). *)
Definition list_it_back list : res Z := SANITY_CHECK list;; mret (last list).

(** The walk of [list_find] (kernel/libutil/list.c, lines 169-175). *)
Fixpoint find_from (fuel : nat) (it payload : Z) s : res Z :=
  match fuel with
  | O => Stop NoFuel
  | S fuel =>
      if it =? 0 then mret 0
      else n ← rd s it;
           if it_payload n =? payload then mret it else find_from fuel (it_next n) payload s
  end.

(** [list_find] (kernel/libutil/list.c, lines 165-178). *)
Definition list_find list (item : Z) s : res Z :=
  SANITY_CHECK list;; find_from (walk_fuel s) (first list) item s.

(** [list_destroy] (kernel/libutil/list.c, lines 180-185). *)
Definition list_destroy list s : res (list_t * store A) :=
  SANITY_CHECK list;;
  '(list, s) ← list_clear list s;
  mret ({| items := items list; magic := 0; first := first list; last := last list |}, s).
End operations.

(** ** The sequence a list stands for *)

Section repr.
Context `{B : Build} {A : Type} `{KM : Kmalloc A} {KL : KmallocLaws A}.
Implicit Types (s : store A) (list : list_t) (xs : list (Z * Z)).

(** The item at an address, in the form [dseg] reads. *)
Definition links (n : list_item_t) : Z * Z * Z := (it_prev n, it_next n, it_payload n).
Definition node_at (m : gmap Z list_item_t) (a : Z) : option (Z * Z * Z) := links <$> m !! a.

(** The store: its items are allocated, and there is no item at the null pointer. *)
Record store_wf s : Prop := {
  sw_inv : km_inv (heap s);
  sw_live : dom (nodes s) ⊆ km_live (heap s);
  sw_null : nodes s !! 0 = None;
}.

(** [list] stands for [xs], the addresses and payloads of its items from front to back. *)
Record list_repr list xs s : Prop := {
  lr_items : items list = Z.of_nat (length xs);
  lr_bound : Z.of_nat (length xs) < 2 ^ 64;
  lr_magic : magic list = LIST_MAGIC;
  lr_first : first list = head_addr xs 0;
  lr_last : last list = last_addr xs 0;
  lr_nodup : NoDup xs.*1;
  lr_chain : dseg (node_at (nodes s)) 0 xs 0;
}.

(** [s'] has the items of [s] except at the addresses in [D]. *)
Definition same_outside (D : list Z) s s' : Prop :=
  ∀ a, a ∉ D → nodes s' !! a = nodes s !! a.

Lemma sanity list xs s : list_repr list xs s → SANITY_CHECK list = Ok tt.
Proof. intros H. unfold SANITY_CHECK. rewrite (lr_magic _ _ _ H), Z.eqb_refl. apply assert_true. Qed.

Lemma chain_in s p xs n a : dseg (node_at (nodes s)) p xs n → a ∈ xs.*1 → a ∈ dom (nodes s).
Proof.
  revert p. induction xs as [|[b x] xs IH]; intros p; simpl; [by intros _ ?%elem_of_nil|].
  intros [Hb Hxs] [->|Ha]%elem_of_cons; [|by eapply IH].
  apply elem_of_dom. unfold node_at in Hb. destruct (nodes s !! b); [done|discriminate].
Qed.

Lemma chain_nonnull s p xs n a :
  store_wf s → dseg (node_at (nodes s)) p xs n → a ∈ xs.*1 → a ≠ 0.
Proof.
  intros Hs Hc Ha ->. pose proof (chain_in _ _ _ _ _ Hc Ha) as Hd.
  apply elem_of_dom in Hd as [? Hd]. by rewrite (sw_null _ Hs) in Hd.
Qed.

Lemma chain_length s p xs n :
  NoDup xs.*1 → dseg (node_at (nodes s)) p xs n → (length xs <= size (nodes s))%nat.
Proof.
  intros Hnd Hc. rewrite <- (length_fmap fst xs), <- size_dom.
  rewrite <- (size_list_to_set (C := gset Z)) by done. apply subseteq_size.
  intros a Ha%elem_of_list_to_set. by eapply chain_in.
Qed.

Lemma rd_node s a p n x :
  node_at (nodes s) a = Some (p, n, x) → rd s a = Ok {| it_next := n; it_prev := p; it_payload := x |}.
Proof.
  unfold node_at, rd. destruct (nodes s !! a) as [[]|]; simpl; [|done]. by intros [= -> -> ->].
Qed.

Lemma get_index_from_spec s p xs fuel i index :
  store_wf s → dseg (node_at (nodes s)) p xs 0 → (length xs < fuel)%nat →
  0 <= i <= index → index < 2 ^ 64 →
  get_index_from fuel (head_addr xs 0) i index s =
    Ok (default 0 (xs.*1 !! Z.to_nat (index - i))).
Proof.
  intros Hs. revert p fuel i. induction xs as [|[a x] xs IH]; intros p fuel i Hc Hf Hi Hx;
    (destruct fuel as [|fuel]; [simpl in Hf; lia|]); simpl; [done|].
  rewrite (proj2 (Z.eqb_neq a 0)) by (eapply chain_nonnull; [done..|]; by left).
  destruct Hc as [Ha Hc]. destruct (Z.eqb_spec i index) as [->|Hne].
  - by rewrite Z.sub_diag.
  - rewrite (rd_node _ _ _ _ _ Ha). simpl. rewrite uwrap_small by (unfold is_word; lia).
    rewrite (IH a) by (done || simpl in Hf; lia).
    by replace (Z.to_nat (index - i)) with (S (Z.to_nat (index - (i + 1)))) by lia.
Qed.

#[local] Arguments get_index_from : simpl never.

Lemma list_get_index_spec list xs s index :
  store_wf s → list_repr list xs s → 0 <= index < 2 ^ 64 →
  list_get_index list index s = Ok (default 0 (xs.*1 !! Z.to_nat index)).
Proof.
  intros Hs Hl Hi. unfold list_get_index. rewrite (sanity _ _ _ Hl). simpl. rewrite (lr_first _ _ _ Hl).
  rewrite (get_index_from_spec s 0 xs); [|done|apply Hl| |lia|lia].
  - by rewrite Z.sub_0_r.
  - unfold walk_fuel. pose proof (chain_length _ _ _ _ (lr_nodup _ _ _ Hl) (lr_chain _ _ _ Hl)). lia.
Qed.

Lemma find_from_spec s p xs fuel y :
  store_wf s → dseg (node_at (nodes s)) p xs 0 → (length xs < fuel)%nat →
  find_from fuel (head_addr xs 0) y s =
    Ok (default 0 (fst <$> List.find (λ ax, ax.2 =? y) xs)).
Proof.
  intros Hs. revert p fuel. induction xs as [|[a x] xs IH]; intros p fuel Hc Hf;
    (destruct fuel as [|fuel]; [simpl in Hf; lia|]); simpl; [done|].
  rewrite (proj2 (Z.eqb_neq a 0)) by (eapply chain_nonnull; [done..|]; by left).
  destruct Hc as [Ha Hc]. rewrite (rd_node _ _ _ _ _ Ha). simpl.
  destruct (x =? y); simpl; [done|]. apply (IH a); [done|]. simpl in Hf. lia.
Qed.
#[local] Arguments find_from : simpl never.

Lemma node_at_insert m a it b :
  node_at (<[a := it]> m) b = if decide (b = a) then Some (links it) else node_at m b.
Proof.
  unfold node_at. case_decide as Hb; [subst; by rewrite lookup_insert_eq|].
  by rewrite lookup_insert_ne.
Qed.

Lemma node_at_delete m a b : b ≠ a → node_at (delete a m) b = node_at m b.
Proof. intros Hne. unfold node_at. by rewrite lookup_delete_ne. Qed.

Lemma node_at_next m a n b :
  node_at (alter (with_next n) a m) b =
    if decide (b = a) then (λ '(pv, _, y), (pv, n, y)) <$> node_at m b else node_at m b.
Proof.
  unfold node_at. case_decide as Hb; [subst|by rewrite lookup_alter_ne].
  rewrite lookup_alter_eq. by destruct (m !! a) as [[]|].
Qed.

Lemma node_at_prev m a p b :
  node_at (alter (with_prev p) a m) b =
    if decide (b = a) then (λ '(_, nx, y), (p, nx, y)) <$> node_at m b else node_at m b.
Proof.
  unfold node_at. case_decide as Hb; [subst|by rewrite lookup_alter_ne].
  rewrite lookup_alter_eq. by destruct (m !! a) as [[]|].
Qed.

(** A write through a pointer to an item is [alter] on the store, and so is the guarded
    write when the pointer is null or points to an item. *)
Definition altered (f : list_item_t → list_item_t) (a : Z) s : store A :=
  {| nodes := alter f a (nodes s); heap := heap s |}.

Lemma wr_item s a f : a ∈ dom (nodes s) → wr s a f = Ok (altered f a s).
Proof.
  intros [it Ha]%elem_of_dom. unfold wr, rd, altered. rewrite Ha. simpl. do 2 f_equal.
  apply map_eq. intros b. destruct (decide (b = a)) as [->|Hne].
  - by rewrite lookup_insert_eq, lookup_alter_eq, Ha.
  - by rewrite lookup_insert_ne, lookup_alter_ne.
Qed.

Lemma wr_if_alter s a f :
  nodes s !! 0 = None → (a ≠ 0 → a ∈ dom (nodes s)) → wr_if s a f = Ok (altered f a s).
Proof.
  intros H0 Ha. unfold wr_if. destruct (Z.eqb_spec a 0) as [->|Hne]; [|by apply wr_item, Ha].
  unfold altered. destruct s as [m h]. simpl. do 2 f_equal. apply map_eq. intros b.
  simpl in H0. destruct (decide (b = 0)) as [->|Hb].
  - by rewrite lookup_alter_eq, H0.
  - by rewrite lookup_alter_ne.
Qed.

Lemma wr_if_heap s a f s' : wr_if s a f = Ok s' → heap s' = heap s.
Proof.
  unfold wr_if, wr, rd. destruct (negb (a =? 0)); [|by intros [= <-]]. destruct (nodes s !! a); [|done]. by intros [= <-].
Qed.

Lemma altered_wf f a s : store_wf s → store_wf (altered f a s).
Proof.
  intros [Hi Hl H0]. split; simpl; [done|by rewrite dom_alter_L|].
  apply (not_elem_of_dom (D := gset Z)). rewrite dom_alter_L. by apply not_elem_of_dom.
Qed.

Lemma altered_same D f a s :
  nodes s !! 0 = None → (a ≠ 0 → a ∈ D) → same_outside D s (altered f a s).
Proof.
  intros H0 Ha b Hb. simpl. destruct (decide (a = b)) as [->|Hne]; [|by rewrite lookup_alter_ne].
  destruct (decide (b = 0)) as [->|Hnn]; [by rewrite lookup_alter_eq, H0|]. by destruct Hb; apply Ha.
Qed.

Lemma same_outside_trans D s1 s2 s3 :
  same_outside D s1 s2 → same_outside D s2 s3 → same_outside D s1 s3.
Proof. intros H12 H23 a Ha. by rewrite H23, H12. Qed.

(** The ends of a chain are null or items of it. *)
Lemma last_addr_dom s p xs n :
  dseg (node_at (nodes s)) p xs n → last_addr xs 0 ≠ 0 → last_addr xs 0 ∈ dom (nodes s).
Proof.
  intros Hc Hne. eapply chain_in; [done|]. apply last_addr_in. by intros ->.
Qed.

Lemma head_addr_dom s p xs n :
  dseg (node_at (nodes s)) p xs n → head_addr xs 0 ≠ 0 → head_addr xs 0 ∈ dom (nodes s).
Proof.
  intros Hc Hne. eapply chain_in; [done|]. apply head_addr_in. by intros ->.
Qed.

Lemma last_addr_null s xs :
  store_wf s → dseg (node_at (nodes s)) 0 xs 0 → last_addr xs 0 = 0 → xs = [].
Proof.
  intros Hs Hc H0. destruct xs as [|z xs]; [done|]. exfalso.
  eapply (chain_nonnull s 0 (z :: xs) 0); [done|done| |exact H0]. by apply last_addr_in.
Qed.

(** [list_add] links a fresh item behind the last one, or stops where the allocator does. *)
Lemma list_add_spec list xs s y :
  store_wf s → list_repr list xs s → Z.of_nat (length xs) + 1 < 2 ^ 64 →
  km_room 24 (heap s) →
  (∃ item list' s', list_add list y s = Ok (Z.of_nat (length xs), list', s') ∧
     item ∉ km_live (heap s) ∧ km_live (heap s') = {[item]} ∪ km_live (heap s) ∧
     store_wf s' ∧ list_repr list' (xs ++ [(item, y)]) s' ∧ same_outside (item :: xs.*1) s s') ∨
  (∃ w, km_alloc 24 (heap s) = Stop w ∧ list_add list y s = Stop w).
Proof.
  intros Hs Hl Hlen Hroom. unfold list_add. rewrite (sanity _ _ _ Hl). simpl.
  destruct (km_alloc 24 (heap s)) as [[item h]|w] eqn:Ha; [left|right; by exists w]. simpl.
  destruct (km_alloc_ok _ _ _ _ (sw_inv _ Hs) Hroom Ha) as (Hinv & Hnn & Hfresh & Hlive).
  destruct Hl as [Hn Hb Hm Hf Hla Hnd Hc].
  assert (item ∉ xs.*1) as Hni.
  { intros Hin. apply Hfresh, (sw_live _ Hs). by eapply chain_in. }
  rewrite (wr_if_alter _ (last list)); simpl; [|rewrite lookup_insert_ne by done; apply Hs|].
  2: { intros H0. rewrite dom_insert, elem_of_union, Hla in *. right. by eapply last_addr_dom. }
  rewrite Hn, (uwrap_small _ (_ + 1)), Z.add_simpl_r, uwrap_small by (unfold is_word; lia).
  eexists item, _, _. split; [done|]. split_and!; [done|done| | |].
  - apply altered_wf. destruct Hs as [Hi Hd H0].
    split; simpl; [done|rewrite dom_insert, Hlive; set_solver|by rewrite lookup_insert_ne].
  - split; simpl.
    + rewrite length_app. simpl. lia.
    + rewrite length_app. simpl. lia.
    + done.
    + rewrite head_addr_app. simpl. destruct (Z.eqb_spec (last list) 0) as [H0|H0]; simpl.
      * rewrite Hla in H0. by rewrite (last_addr_null s xs).
      * rewrite Hf. destruct xs as [|[]]; [|done]. by rewrite Hla in H0.
    + by rewrite last_addr_app.
    + rewrite fmap_app. apply list.NoDup_app. split_and!; [done| |apply list.NoDup_singleton].
      intros b Hb' Hb''%list_elem_of_singleton. simpl in Hb''. by subst.
    + eapply dseg_snoc; [exact Hnd| | |exact Hc].
      * rewrite node_at_next, decide_False, node_at_insert, decide_True; [by rewrite <- Hla|done|].
        rewrite Hla. intros Heq. destruct xs as [|z xs]; [done|]. apply Hni. rewrite Heq. by apply last_addr_in.
      * intros b Hb'. rewrite node_at_next, node_at_insert, Hla.
        rewrite (decide_False (P := b = item)) by (by intros ->). done.
  - eapply same_outside_trans; [|apply altered_same; simpl].
    + intros b Hb'. simpl. rewrite lookup_insert_ne; [done|]. intros ->. apply Hb'. by left.
    + rewrite lookup_insert_ne by done. apply Hs.
    + intros H0. right. rewrite Hla in *. apply last_addr_in. by intros ->.
Qed.

(** What [NoDup] says around an item and its two neighbours. *)
Lemma mid_facts s l1 a x l2 :
  store_wf s → NoDup (l1 ++ (a, x) :: l2).*1 → dseg (node_at (nodes s)) 0 (l1 ++ (a, x) :: l2) 0 →
  let p := last_addr l1 0 in let n := head_addr l2 0 in
  (∀ b, b ∈ l1.*1 ∨ b = a ∨ b ∈ l2.*1 → b ≠ 0 ∧ b ∈ dom (nodes s)) ∧
  (p ≠ 0 → p ∈ l1.*1) ∧ (n ≠ 0 → n ∈ l2.*1) ∧ a ≠ p ∧ a ≠ n ∧ p ∉ l2.*1 ∧ n ∉ l1.*1.
Proof.
  intros Hs Hnd Hc p n. destruct (NoDup_mid _ _ _ _ Hnd) as (Hnd1 & Hnd2 & Ha1 & Ha2 & Hdis).
  assert (∀ b, b ∈ l1.*1 ∨ b = a ∨ b ∈ l2.*1 → b ≠ 0 ∧ b ∈ dom (nodes s)) as Hin.
  { intros b Hb'. assert (b ∈ (l1 ++ (a, x) :: l2).*1) as Hb.
    { rewrite fmap_app, elem_of_app. simpl. rewrite elem_of_cons. tauto. }
    split; [by eapply chain_nonnull|by eapply chain_in]. }
  assert (p ≠ 0 → p ∈ l1.*1) as Hp by (intros; apply last_addr_in; by intros ->).
  assert (n ≠ 0 → n ∈ l2.*1) as Hn by (intros; apply head_addr_in; by intros ->).
  assert (a ≠ 0) as Ha0 by (apply Hin; tauto).
  split_and!; [done..| | | |].
  - destruct (decide (p = 0)) as [->|H]; [done|]. intros ->. by apply Ha1, Hp.
  - destruct (decide (n = 0)) as [->|H]; [done|]. intros ->. by apply Ha2, Hn.
  - intros H. destruct (decide (p = 0)) as [H0|H0]; [|by eapply Hdis; [apply Hp|]].
    rewrite H0 in H. by destruct (Hin 0) as [? _]; [tauto|].
  - intros H. destruct (decide (n = 0)) as [H0|H0]; [|by eapply Hdis; [|apply Hn]].
    rewrite H0 in H. by destruct (Hin 0) as [? _]; [tauto|].
Qed.

(** The store after an item between [p] and [n] has been unlinked and freed. *)
Definition unlinked (p a n : Z) (h : A) s : store A :=
  {| nodes := delete a (alter (with_prev p) n (alter (with_next n) p (nodes s))); heap := h |}.

Lemma unlinked_chain l1 a x l2 h s :
  store_wf s → NoDup (l1 ++ (a, x) :: l2).*1 → dseg (node_at (nodes s)) 0 (l1 ++ (a, x) :: l2) 0 →
  dseg (node_at (nodes (unlinked (last_addr l1 0) a (head_addr l2 0) h s))) 0 (l1 ++ l2) 0.
Proof.
  intros Hs Hnd Hc. destruct (NoDup_mid _ _ _ _ Hnd) as (_ & _ & Ha1 & Ha2 & _).
  destruct (mid_facts s l1 a x l2 Hs Hnd Hc) as (_ & _ & _ & Hap & Han & Hp2 & Hn1).
  eapply dseg_unlink; [exact Hnd| | |exact Hc]; intros b Hb; simpl;
    rewrite node_at_delete, node_at_prev, node_at_next by (by intros ->).
  - by rewrite (decide_False (P := b = head_addr l2 0)) by (by intros ->).
  - by rewrite (decide_False (P := b = last_addr l1 0)) by (by intros ->).
Qed.

Lemma unlinked_wf l1 a x l2 h s :
  store_wf s → NoDup (l1 ++ (a, x) :: l2).*1 → dseg (node_at (nodes s)) 0 (l1 ++ (a, x) :: l2) 0 →
  km_inv h → km_live h = km_live (heap s) ∖ {[a]} →
  let s' := unlinked (last_addr l1 0) a (head_addr l2 0) h s in
  store_wf s' ∧ same_outside (l1 ++ (a, x) :: l2).*1 s s'.
Proof.
  intros Hs Hnd Hc Hh Hlh s'.
  destruct (mid_facts s l1 a x l2 Hs Hnd Hc) as (Hin & Hp & Hn & _).
  set (s2 := altered (with_prev (last_addr l1 0)) (head_addr l2 0)
               (altered (with_next (head_addr l2 0)) (last_addr l1 0) s)).
  assert (store_wf s2) as Hs2 by (by do 2 apply altered_wf).
  assert (∀ b, b ∈ l1.*1 ∨ b = a ∨ b ∈ l2.*1 → b ∈ (l1 ++ (a, x) :: l2).*1) as Hmem.
  { intros b. rewrite fmap_app, elem_of_app. simpl. rewrite elem_of_cons. tauto. }
  split.
  - split; simpl; [done| |].
    + rewrite dom_delete_L, !dom_alter_L, Hlh. pose proof (sw_live _ Hs). set_solver.
    + rewrite lookup_delete_ne by (apply Hin; tauto). apply Hs2.
  - eapply (same_outside_trans _ s s2).
    + eapply same_outside_trans; apply altered_same; [apply Hs| |apply altered_wf, Hs|];
        intros; apply Hmem; tauto.
    + intros b Hb. simpl. rewrite lookup_delete_ne; [done|]. intros ->. apply Hb, Hmem. tauto.
Qed.

(** [list_it_remove] unlinks the item and frees it. *)
Lemma list_it_remove_spec list l1 a x l2 s :
  store_wf s → list_repr list (l1 ++ (a, x) :: l2) s →
  ∃ list' s', list_it_remove list a s = Ok (list', s') ∧ store_wf s' ∧
    list_repr list' (l1 ++ l2) s' ∧ km_live (heap s') = km_live (heap s) ∖ {[a]} ∧
    same_outside (l1 ++ (a, x) :: l2).*1 s s'.
Proof.
  intros Hs Hl. pose proof (sanity _ _ _ Hl) as Hsane. destruct Hl as [Hn Hb Hm Hf Hla Hnd Hc].
  destruct (mid_facts s l1 a x l2 Hs Hnd Hc) as (Hin & Hp & Hn' & Hap & Han & _).
  destruct (NoDup_mid _ _ _ _ Hnd) as (_ & _ & Ha1 & Ha2 & _).
  pose proof (dseg_lookup _ _ _ _ _ _ _ Hc) as Ha.
  assert (Z.of_nat (length (l1 ++ (a, x) :: l2)) = Z.of_nat (length (l1 ++ l2)) + 1) as Hlen.
  { rewrite !length_app. simpl. lia. }
  pose proof (head_addr_unlink l1 a x l2 0 Ha1) as Hhead.
  pose proof (last_addr_unlink l1 a x l2 0 Ha2) as Hlast.
  set (p := last_addr l1 0) in *. set (n := head_addr l2 0) in *.
  pose proof (altered_wf (with_next n) p _ Hs) as Hs1.
  pose proof (altered_wf (with_prev p) n _ Hs1) as Hs2.
  destruct (km_free_ok a (heap s) (sw_inv _ Hs)) as (h & Hfree & Hih & Hlh).
  { apply (sw_live _ Hs), Hin. tauto. }
  exists {| items := items list - 1; magic := magic list;
            first := head_addr (l1 ++ l2) 0; last := last_addr (l1 ++ l2) 0 |}, (unlinked p a n h s).
  split.
  { unfold list_it_remove. rewrite Hsane. simpl. rewrite (proj2 (Z.eqb_neq a 0)) by (apply Hin; tauto).
    rewrite (assert_true : assert_ (negb false) = Ok tt). simpl. rewrite (rd_node _ _ _ _ _ Ha). simpl.
    rewrite wr_if_alter by (apply Hs || intros; apply Hin; auto). simpl.
    rewrite (rd_node (altered _ _ _) _ p n x) by (simpl; by rewrite node_at_next, decide_False). simpl.
    rewrite wr_if_alter; [|apply Hs1|intros; simpl; rewrite dom_alter_L; apply Hin; auto]. simpl.
    rewrite (rd_node (altered _ _ _) _ p n x)
      by (simpl; by rewrite node_at_prev, decide_False, node_at_next, decide_False).
    simpl. rewrite Hfree. simpl. rewrite uwrap_small by (unfold is_word; lia).
    by rewrite Hf, Hla, Hhead, Hlast. }
  destruct (unlinked_wf l1 a x l2 h s) as [Hs' Hsame]; [done..|].
  split_and!; [done| |done|done]. split; simpl; [lia|lia|done..| |].
  - by eapply NoDup_drop_mid.
  - by apply (unlinked_chain l1 a x l2 h).
Qed.

(** [list_remove] drops the item at an index that is in the list. *)
Lemma list_remove_spec list l1 a x l2 s :
  store_wf s → list_repr list (l1 ++ (a, x) :: l2) s →
  list_remove list (Z.of_nat (length l1)) s = list_it_remove list a s.
Proof.
  intros Hs Hl. unfold list_remove. rewrite (sanity _ _ _ Hl). simpl.
  pose proof (lr_bound _ _ _ Hl) as Hb. rewrite length_app in Hb. simpl in Hb.
  rewrite (list_get_index_spec _ _ _ _ Hs Hl) by lia. simpl.
  by rewrite Nat2Z.id, fmap_app, lookup_app_r, length_fmap, Nat.sub_diag by (by rewrite length_fmap).
Qed.

(** An index that is not in the list makes [list_get_index] return null, and
    [list_it_remove] dereferences it (the debug build asserts first). *)
Lemma list_remove_bad list xs s i :
  store_wf s → list_repr list xs s → Z.of_nat (length xs) <= i < 2 ^ 64 →
  list_remove list i s = Stop (if DEBUG then Panic else Fault).
Proof.
  intros Hs Hl Hi. unfold list_remove, list_it_remove. rewrite (sanity _ _ _ Hl). simpl.
  rewrite (list_get_index_spec _ _ _ _ Hs Hl) by lia. simpl.
  rewrite lookup_ge_None_2 by (rewrite length_fmap; lia). simpl.
  unfold assert_. destruct DEBUG; [done|]. simpl.
  unfold rd. by rewrite (sw_null _ Hs).
Qed.

Lemma list_clear_spec xs list s :
  store_wf s → list_repr list xs s →
  ∃ list' s', clear_loop (length xs) list s = Ok (list', s') ∧ store_wf s' ∧
    list_repr list' [] s' ∧ km_live (heap s') = km_live (heap s) ∖ list_to_set xs.*1 ∧
    same_outside xs.*1 s s'.
Proof.
  revert list s. induction xs as [|[a x] xs IH]; intros list s Hs Hl; simpl.
  - rewrite (lr_items _ _ _ Hl). simpl. eexists _, _. split; [done|]. split_and!; [done|done|set_solver|done].
  - rewrite (lr_items _ _ _ Hl). rewrite (proj2 (Z.ltb_lt _ _)) by (simpl; lia).
    destruct (list_it_remove_spec list [] a x xs s Hs Hl) as (l1 & s1 & Hr & Hs1 & Hl1 & Hlive1 & Hsame1).
    rewrite (list_remove_spec list [] a x xs s Hs Hl : list_remove list 0 s = _), Hr. simpl.
    destruct (IH l1 s1 Hs1 Hl1) as (l2 & s2 & Hc & Hs2 & Hl2 & Hlive2 & Hsame2).
    exists l2, s2. split_and!; [done..| |].
    + rewrite Hlive2, Hlive1. set_solver.
    + eapply same_outside_trans; [exact Hsame1|]. intros b Hb. apply Hsame2. intros Hin.
      apply Hb. by right.
Qed.

(** The store after the first item [a] has been linked behind the last one [z]; [b] is the
    second. *)
Definition rotated (a b z : Z) s : store A :=
  altered (with_next a) z (altered (with_next 0) a (altered (with_prev z) a
    (altered (with_prev 0) b s))).

Lemma rotated_chain a x b y xs s :
  NoDup ((a, x) :: (b, y) :: xs).*1 →
  dseg (node_at (nodes s)) 0 ((a, x) :: (b, y) :: xs) 0 →
  dseg (node_at (nodes (rotated a b (last_addr xs b) s))) 0 (((b, y) :: xs) ++ [(a, x)]) 0.
Proof.
  intros [Hal Hnd]%list.NoDup_cons [Ha Hc]. simpl in Ha.
  set (l := (b, y) :: xs) in *. change (a ∉ l.*1) in Hal. change (NoDup l.*1) in Hnd.
  change (last_addr xs b) with (last_addr l 0). set (z := last_addr l 0).
  assert (a ≠ b) as Hab by (intros ->; apply Hal; by left).
  assert (a ≠ z) as Haz by (intros Heq; apply Hal; rewrite Heq; by apply last_addr_in).
  eapply (dseg_snoc (node_at (alter (with_prev 0) b (nodes s)))); [done| | |].
  - unfold rotated. simpl. by rewrite node_at_next, decide_False, node_at_next, decide_True,
      node_at_prev, decide_True, node_at_prev, decide_False, Ha.
  - intros c Hc'. assert (c ≠ a) by (by intros ->). unfold rotated. simpl.
    rewrite node_at_next. change (last_addr xs b) with z.
    by rewrite (node_at_next _ a), (decide_False (P := c = a)), (node_at_prev _ a),
      (decide_False (P := c = a)).
  - eapply dseg_set_prev; [done| |exact Hc]. intros c _. by rewrite node_at_prev.
Qed.

(** [list_rotate] moves the first item behind the last one. *)
Lemma list_rotate_spec list a x b y xs s :
  store_wf s → list_repr list ((a, x) :: (b, y) :: xs) s →
  ∃ list' s', list_rotate list s = Ok (list', s') ∧ store_wf s' ∧
    list_repr list' (((b, y) :: xs) ++ [(a, x)]) s' ∧ heap s' = heap s ∧
    same_outside ((a, x) :: (b, y) :: xs).*1 s s'.
Proof.
  intros Hs Hl. pose proof (sanity _ _ _ Hl) as Hsane. destruct Hl as [Hn Hb Hm Hf Hla Hnd Hc].
  set (l := (a, x) :: (b, y) :: xs) in *. set (z := last_addr xs b).
  assert (z ∈ ((b, y) :: xs).*1) as Hz by (by apply (last_addr_in ((b, y) :: xs) 0)).
  assert (∀ c, c ∈ l.*1 → c ∈ dom (nodes s)) as Hin by (intros c; by apply (chain_in s 0 l 0)).
  assert (z ∈ l.*1 ∧ a ∈ l.*1 ∧ b ∈ l.*1) as (Hz' & Ha' & Hb') by (split_and!; [by right|by left|right; by left]).
  assert (a ≠ b ∧ a ∉ ((b, y) :: xs).*1) as [Hab Hal].
  { apply list.NoDup_cons in Hnd as [Hal _]. split; [intros ->; apply Hal; by left|done]. }
  pose proof Hc as [Ha _]. simpl in Ha.
  exists {| items := items list; magic := magic list; first := b; last := a |}, (rotated a b z s).
  split_and!; [| | |done|].
  - unfold list_rotate. rewrite Hsane. simpl. rewrite Hn. simpl length.
    rewrite (proj2 (Z.ltb_ge _ 2)) by lia. rewrite Hf, Hla. simpl. fold z.
    rewrite (rd_node _ _ _ _ _ Ha). simpl. rewrite wr_item by auto. simpl.
    rewrite wr_item by (simpl; rewrite dom_alter_L; auto). simpl.
    rewrite (rd_node (altered _ _ _) a z b x).
    2: { simpl. by rewrite node_at_prev, decide_True, node_at_prev, decide_False, Ha. }
    simpl. rewrite wr_item by (simpl; rewrite !dom_alter_L; auto). simpl.
    by rewrite wr_item by (simpl; rewrite !dom_alter_L; auto).
  - by do 4 apply altered_wf.
  - assert (length (((b, y) :: xs) ++ [(a, x)]) = length l) as Hlen.
    { rewrite length_app. simpl. lia. }
    assert (NoDup (((b, y) :: xs) ++ [(a, x)]).*1).
    { rewrite fmap_app. change ([(a, x)].*1) with [a].
      rewrite <- Permutation_cons_append. exact Hnd. }
    split; rewrite ?Hlen; simpl; try done.
    + by rewrite last_addr_app.
    + by apply rotated_chain.
  - repeat (eapply same_outside_trans; [|apply altered_same;
      [by apply sw_null; repeat apply altered_wf|by intros _]]). done.
Qed.

(** ** Operations on the sequence *)

(** The calls a client makes, with the index or payload they get ... *)
Inductive op :=
| OpAdd (y : Z) | OpRemove (i : nat) | OpPop | OpRotate | OpClear
| OpGet (i : nat) | OpFind (y : Z) | OpSize | OpFront | OpBack.

(** ... run on a list; the first result is what the call returns. *)
Definition run_op (o : op) list s : res (Z * list_t * store A) :=
  match o with
  | OpAdd y => list_add list y s
  | OpRemove i => '(list, s) ← list_remove list (Z.of_nat i) s; mret (0, list, s)
  | OpPop => list_pop_front list s
  | OpRotate => '(list, s) ← list_rotate list s; mret (0, list, s)
  | OpClear => '(list, s) ← list_clear list s; mret (0, list, s)
  | OpGet i => v ← list_get list (Z.of_nat i) s; mret (v, list, s)
  | OpFind y => v ← list_find list y s; mret (v, list, s)
  | OpSize => v ← list_size list; mret (v, list, s)
  | OpFront => v ← list_it_front list; mret (v, list, s)
  | OpBack => v ← list_it_back list; mret (v, list, s)
  end.

(** What each call means for the sequence of items, each an address and a payload. *)
Inductive spec_op : op → list (Z * Z) → Z → list (Z * Z) → Prop :=
| spec_add xs a y : spec_op (OpAdd y) xs (Z.of_nat (length xs)) (xs ++ [(a, y)])
| spec_remove l1 z l2 : spec_op (OpRemove (length l1)) (l1 ++ z :: l2) 0 (l1 ++ l2)
| spec_pop z xs : spec_op OpPop (z :: xs) z.1 xs
| spec_pop_empty : spec_op OpPop [] 0 []
| spec_rotate z xs : spec_op OpRotate (z :: xs) 0 (xs ++ [z])
| spec_rotate_empty : spec_op OpRotate [] 0 []
| spec_clear xs : spec_op OpClear xs 0 []
| spec_get xs i : spec_op (OpGet i) xs (default 0 (xs.*2 !! i)) xs
| spec_find xs y :
    spec_op (OpFind y) xs (default 0 (fst <$> List.find (λ ax, ax.2 =? y) xs)) xs
| spec_size xs : spec_op OpSize xs (Z.of_nat (length xs)) xs
| spec_front xs : spec_op OpFront xs (head_addr xs 0) xs
| spec_back xs : spec_op OpBack xs (last_addr xs 0) xs.

(** When a call is a use of the list: the index is in the list, and there is room. *)
Definition op_ok (o : op) xs s : Prop :=
  match o with
  | OpAdd _ => Z.of_nat (length xs) + 1 < 2 ^ 64 ∧ km_room 24 (heap s)
  | OpRemove i => (i < length xs)%nat
  | OpGet i => Z.of_nat i < 2 ^ 64
  | _ => True
  end.

(** What a call leaves behind: a list that stands for [xs'], in a store that holds what it
    held outside the list, the freed items given back. *)
Record op_post xs xs' list' s s' : Prop := {
  op_wf : store_wf s';
  op_repr : list_repr list' xs' s';
  op_live : km_live (heap s') = (km_live (heap s) ∖ list_to_set xs.*1) ∪ list_to_set xs'.*1;
  op_fresh : ∀ a, a ∈ xs'.*1 → a ∈ xs.*1 ∨ a ∉ km_live (heap s);
  op_same : ∀ a, a ∈ dom (nodes s) → a ∉ xs.*1 → nodes s' !! a = nodes s !! a;
}.

(** The items of a list are allocated. *)
Lemma repr_live list xs s :
  store_wf s → list_repr list xs s → ∀ a, a ∈ xs.*1 → a ∈ km_live (heap s).
Proof. intros Hs Hl a Ha. apply (sw_live _ Hs). by eapply chain_in; [apply Hl|]. Qed.

(** A call that only looks. *)
Lemma op_post_refl list xs s : store_wf s → list_repr list xs s → op_post xs xs list s s.
Proof.
  intros Hs Hl. split; [done|done| |tauto|done]. pose proof (repr_live _ _ _ Hs Hl) as Hlv.
  apply set_eq. intros a. specialize (Hlv a).
  rewrite elem_of_union, elem_of_difference, elem_of_list_to_set.
  destruct (decide (a ∈ xs.*1)); tauto.
Qed.

Lemma op_it_remove list l1 z l2 s :
  store_wf s → list_repr list (l1 ++ z :: l2) s →
  ∃ list' s', list_it_remove list z.1 s = Ok (list', s') ∧
    op_post (l1 ++ z :: l2) (l1 ++ l2) list' s s'.
Proof.
  destruct z as [a x]. intros Hs Hl.
  destruct (list_it_remove_spec _ _ _ _ _ _ Hs Hl) as (list' & s' & Hr & Hs' & Hl' & Hlive & Hsame).
  exists list', s'. split; [done|]. split; [done|done| | |by intros; apply Hsame].
  2: { intros b. rewrite !fmap_app, fmap_cons, !elem_of_app, elem_of_cons. tauto. }
  rewrite Hlive. pose proof (repr_live _ _ _ Hs Hl) as Hlv.
  destruct (NoDup_mid _ _ _ _ (lr_nodup _ _ _ Hl)) as (_ & _ & Ha1 & Ha2 & _).
  apply set_eq. intros b. specialize (Hlv b).
  rewrite fmap_app, fmap_cons, elem_of_app, elem_of_cons in Hlv.
  rewrite elem_of_union, !elem_of_difference, !elem_of_list_to_set, elem_of_singleton,
    !fmap_app, fmap_cons, !elem_of_app, elem_of_cons. simpl in *.
  destruct (decide (b ∈ l1.*1)), (decide (b ∈ l2.*1)), (decide (b = a)); subst; tauto.
Qed.

Lemma op_remove list l1 z l2 s :
  store_wf s → list_repr list (l1 ++ z :: l2) s →
  ∃ list' s', list_remove list (Z.of_nat (length l1)) s = Ok (list', s') ∧
    op_post (l1 ++ z :: l2) (l1 ++ l2) list' s s'.
Proof.
  intros Hs Hl. destruct (op_it_remove _ _ _ _ _ Hs Hl) as (list' & s' & Hr & Hpost).
  exists list', s'. split; [|done]. destruct z as [a x]. by rewrite (list_remove_spec _ _ _ _ _ _ Hs Hl).
Qed.

Lemma op_clear list xs s :
  store_wf s → list_repr list xs s →
  ∃ list' s', list_clear list s = Ok (list', s') ∧ op_post xs [] list' s s'.
Proof.
  intros Hs Hl. destruct (list_clear_spec xs list s Hs Hl) as (list' & s' & Hc & Hs' & Hl' & Hlive & Hsame).
  exists list', s'. split.
  - unfold list_clear. rewrite (sanity _ _ _ Hl). simpl. by rewrite (lr_items _ _ _ Hl), Nat2Z.id.
  - split; [done|done| |by intros ? ?%elem_of_nil|by intros; apply Hsame]. rewrite Hlive. simpl. by rewrite (right_id_L ∅ (∪)).
Qed.

Lemma op_rotate list z xs s :
  store_wf s → list_repr list (z :: xs) s →
  ∃ list' s', list_rotate list s = Ok (list', s') ∧ op_post (z :: xs) (xs ++ [z]) list' s s'.
Proof.
  intros Hs Hl. destruct xs as [|[b y] xs]; destruct z as [a x].
  - exists list, s. split; [|by apply op_post_refl]. unfold list_rotate.
    rewrite (sanity _ _ _ Hl). simpl. by rewrite (lr_items _ _ _ Hl).
  - destruct (list_rotate_spec _ _ _ _ _ _ _ Hs Hl) as (list' & s' & Hr & Hs' & Hl' & Hh & Hsame).
    exists list', s'. split; [done|]. split; [done|done| | |by intros; apply Hsame].
    2: { intros c. rewrite fmap_app. clear. set_solver. }
    pose proof (op_live _ _ _ _ _ (op_post_refl _ _ _ Hs Hl)) as Hlv. rewrite Hh, Hlv at 1. f_equal.
    by rewrite fmap_app, list_to_set_app_L, (union_comm_L (list_to_set _)), fmap_cons, list_to_set_cons;
      simpl; rewrite (right_id_L ∅ (∪)).
Qed.

Lemma op_get list xs s i :
  store_wf s → list_repr list xs s → Z.of_nat i < 2 ^ 64 →
  list_get list (Z.of_nat i) s = Ok (default 0 (xs.*2 !! i)).
Proof.
  intros Hs Hl Hi. unfold list_get. rewrite (sanity _ _ _ Hl). simpl.
  rewrite (list_get_index_spec _ _ _ _ Hs Hl) by lia. simpl. rewrite Nat2Z.id, !list_lookup_fmap.
  destruct (xs !! i) as [[a x]|] eqn:Hx; simpl; [|done].
  assert (a ∈ xs.*1) as Ha by (by apply (list_elem_of_fmap_2 fst _ (a, x)), (list_elem_of_lookup_2 _ i)).
  rewrite (proj2 (Z.eqb_neq a 0)) by (eapply chain_nonnull; [done|apply Hl|done]).
  apply list_elem_of_split_length in Hx as (l1 & l2 & -> & _).
  by rewrite (rd_node _ _ _ _ _ (dseg_lookup _ _ _ _ _ _ _ (lr_chain _ _ _ Hl))).
Qed.

Lemma op_find list xs s y :
  store_wf s → list_repr list xs s →
  list_find list y s = Ok (default 0 (fst <$> List.find (λ ax, ax.2 =? y) xs)).
Proof.
  intros Hs Hl. unfold list_find. rewrite (sanity _ _ _ Hl). simpl.
  rewrite (lr_first _ _ _ Hl), (find_from_spec s 0 xs); [done|done|apply Hl|].
  unfold walk_fuel. pose proof (chain_length _ _ _ _ (lr_nodup _ _ _ Hl) (lr_chain _ _ _ Hl)). lia.
Qed.

(** The search for a payload followed by the removal of the item found. *)
Lemma op_find_remove list xs s y :
  store_wf s → list_repr list xs s → y ∈ xs.*2 →
  ∃ l1 a l2 list' s', xs = l1 ++ (a, y) :: l2 ∧ y ∉ l1.*2 ∧ list_find list y s = Ok a ∧
    list_it_remove list a s = Ok (list', s') ∧ op_post xs (l1 ++ l2) list' s s'.
Proof.
  intros Hs Hl Hy.
  assert (∃ l1 a l2, xs = l1 ++ (a, y) :: l2 ∧ y ∉ l1.*2) as (l1 & a & l2 & -> & Hni).
  { clear Hl. induction xs as [|[b x] xs IH]; [by apply elem_of_nil in Hy|].
    destruct (decide (x = y)) as [->|Hne]; [exists [], b, xs; split; [done|by intros ?%elem_of_nil]|].
    apply elem_of_cons in Hy as [?|Hy]; [simpl in *; congruence|]. destruct (IH Hy) as (l1 & a & l2 & -> & Hni).
    exists ((b, x) :: l1), a, l2. split; [done|]. simpl. rewrite elem_of_cons. by intros [?|?]. }
  destruct (op_it_remove _ _ (a, y) _ _ Hs Hl) as (list' & s' & Hr & Hpost).
  exists l1, a, l2, list', s'. split_and!; [done|done| |done|done].
  rewrite (op_find _ _ _ _ Hs Hl). f_equal.
  clear -Hni. induction l1 as [|[b x] l1 IH]; simpl; [by rewrite Z.eqb_refl|].
  simpl in Hni. rewrite elem_of_cons in Hni. destruct (Z.eqb_spec x y); [subst; tauto|]. apply IH. tauto.
Qed.

Lemma op_find_absent list xs s y :
  store_wf s → list_repr list xs s → y ∉ xs.*2 → list_find list y s = Ok 0.
Proof.
  intros Hs Hl Hy. rewrite (op_find _ _ _ _ Hs Hl). f_equal.
  clear -Hy. induction xs as [|[b x] xs IH]; simpl; [done|]. simpl in Hy. rewrite elem_of_cons in Hy.
  destruct (Z.eqb_spec x y); [subst; tauto|]. apply IH. tauto.
Qed.

(** Gives the results of a run that has been computed. *)
#[local] Ltac found :=
  eexists _, _, _, _; split; [done|]; split; [constructor|done].

(** The simulation, call by call. *)
Lemma op_simulation list xs s o :
  store_wf s → list_repr list xs s → op_ok o xs s → Z.of_nat (length xs) + 1 < 2 ^ 64 →
  (∃ v list' s' xs', run_op o list s = Ok (v, list', s') ∧ spec_op o xs v xs' ∧
     op_post xs xs' list' s s') ∨
  (∃ y w, o = OpAdd y ∧ km_alloc 24 (heap s) = Stop w ∧ run_op o list s = Stop w).
Proof.
  intros Hs Hl Hok Hlen. pose proof (op_post_refl _ _ _ Hs Hl) as Hrefl.
  pose proof (sanity _ _ _ Hl) as Hsane.
  destruct o as [y|i| | | |i|y| | |]; simpl in Hok.
  - destruct (list_add_spec list xs s y Hs Hl Hlen (proj2 Hok))
      as [(a & list' & s' & Hr & Hni & Hlive & Hs' & Hl' & Hsame)|(w & Ha & Hr)]; [left|right; by exists y, w].
    eexists _, list', s', _. split; [done|]. split; [constructor|]. split; [done|done| | |].
    + rewrite Hlive, (op_live _ _ _ _ _ Hrefl) at 1. rewrite fmap_app, list_to_set_app_L. simpl. set_solver.
    + intros b. rewrite fmap_app, elem_of_app. simpl.
      rewrite list_elem_of_singleton. intros [?| ->]; tauto.
    + intros b Hb Hb'. apply Hsame. intros [->|?]%elem_of_cons; [|done]. by apply Hni, (sw_live _ Hs).
  - left. destruct (lookup_lt_is_Some_2 _ _ Hok) as [z Hz].
    apply list_elem_of_split_length in Hz as (l1 & l2 & -> & ->).
    destruct (op_remove _ _ _ _ _ Hs Hl) as (list' & s' & Hr & Hpost). simpl. rewrite Hr. simpl.
    found.
  - left. simpl. unfold list_pop_front. rewrite Hsane. simpl. rewrite (lr_items _ _ _ Hl).
    destruct xs as [|z xs]; simpl.
    { found. }
    destruct (op_remove list [] z xs s Hs Hl) as (list' & s' & Hr & Hpost).
    change (Z.of_nat (length [])) with 0 in Hr. rewrite Hr, (lr_first _ _ _ Hl). simpl.
    destruct z as [a x]. eexists _, _, _, _. split; [done|]. split; [apply (spec_pop (a, x))|done].
  - left. simpl. destruct xs as [|z xs].
    { unfold list_rotate. rewrite Hsane. simpl. rewrite (lr_items _ _ _ Hl). simpl.
      found. }
    destruct (op_rotate _ _ _ _ Hs Hl) as (list' & s' & Hr & Hpost). rewrite Hr. simpl.
    found.
  - left. destruct (op_clear _ _ _ Hs Hl) as (list' & s' & Hr & Hpost). simpl. rewrite Hr. simpl.
    found.
  - left. simpl. rewrite (op_get _ _ _ _ Hs Hl Hok). simpl.
    found.
  - left. simpl. rewrite (op_find _ _ _ _ Hs Hl). simpl.
    found.
  - left. simpl. unfold list_size. rewrite Hsane. simpl. rewrite (lr_items _ _ _ Hl).
    found.
  - left. simpl. unfold list_it_front. rewrite Hsane. simpl. rewrite (lr_first _ _ _ Hl).
    found.
  - left. simpl. unfold list_it_back. rewrite Hsane. simpl. rewrite (lr_last _ _ _ Hl).
    found.
Qed.

(** A list that has just been initialised stands for the empty sequence. *)
Lemma list_init_repr s : list_repr list_init [] s.
Proof. split; simpl; try done. constructor. Qed.


(** A list whose items are not touched. *)
Lemma list_repr_outside list xs D s s' :
  list_repr list xs s → same_outside D s s' → (∀ a, a ∈ xs.*1 → a ∉ D) → list_repr list xs s'.
Proof.
  intros [Hn Hb Hm Hf Hla Hnd Hc] Hsame HD. split; try done.
  eapply dseg_ext; [|exact Hc]. intros a Ha. unfold node_at. by rewrite Hsame by auto.
Qed.

(** C15: Lists that share the store do not interfere: any call on one list, even one that
    allocates or frees items, leaves every list with other items standing for the same
    sequence, and the items of the two lists remain apart. *)
Theorem lists_independent list xs other ys s o v list' s' :
  store_wf s → list_repr list xs s → list_repr other ys s → xs.*1 ## ys.*1 →
  op_ok o xs s → Z.of_nat (length xs) + 1 < 2 ^ 64 → run_op o list s = Ok (v, list', s') →
  list_repr other ys s' ∧ ∃ xs', spec_op o xs v xs' ∧ list_repr list' xs' s' ∧ xs'.*1 ## ys.*1.
Proof.
  intros Hs Hl Ho Hdis Hok Hlen Hrun.
  assert (∀ a, a ∈ ys.*1 → a ∈ dom (nodes s) ∧ a ∉ xs.*1) as Hin.
  { intros a Ha. split; [by eapply chain_in; [apply Ho|]|]. intros Hx. by apply (Hdis a). }
  destruct (op_simulation list xs s o Hs Hl Hok Hlen)
    as [(v0 & l0 & s0 & xs' & Hr & Hspec & Hpost)|(y & w & _ & _ & Hr)];
    rewrite Hr in Hrun; [|done]. injection Hrun as -> -> ->. split.
  - destruct Ho as [Hn Hb Hm Hf Hla Hnd Hc]. split; try done.
    eapply dseg_ext; [|exact Hc]. intros a Ha. unfold node_at.
    by rewrite (op_same _ _ _ _ _ Hpost) by apply (Hin a Ha).
  - exists xs'. split_and!; [done|apply Hpost|]. intros a Ha Hay.
    destruct (op_fresh _ _ _ _ _ Hpost a Ha) as [Hax|Hnl]; [by apply (Hin a Hay)|].
    by apply Hnl, (sw_live _ Hs), Hin.
Qed.

(** Several lists in one store: each stands for its items, and no two share one. *)
Record lists_ok (Ls : list (list_t * list (Z * Z))) s : Prop := {
  ls_store : store_wf s;
  ls_repr l xs : (l, xs) ∈ Ls → list_repr l xs s;
  ls_nodup : NoDup (Ls ≫= λ lx, lx.2.*1);
}.

#[export] Instance lists_ok_perm : Proper ((≡ₚ) ==> eq ==> iff) lists_ok.
Proof.
  intros L1 L2 HL s ? <-. assert (∀ L1 L2, L1 ≡ₚ L2 → lists_ok L1 s → lists_ok L2 s) as H; [|by split; apply H].
  clear. intros L1 L2 HL [Hs Hr Hn]. split; [done|intros l xs Hin; apply Hr; by rewrite HL|by rewrite <- HL].
Qed.

Lemma lists_ok_nil Ls s : lists_ok Ls s → lists_ok ((list_init, []) :: Ls) s.
Proof.
  intros [Hs Hr Hn]. split; [done| |done]. intros l xs [[= -> ->]|Hin]%elem_of_cons; [apply list_init_repr|by apply Hr].
Qed.

(** The lists depend on the items only. *)
Lemma lists_ok_nodes Ls s s' : lists_ok Ls s → store_wf s' → nodes s' = nodes s → lists_ok Ls s'.
Proof.
  intros [Hs Hr Hn] Hs' Heq. split; [done| |done]. intros l xs Hin.
  eapply (list_repr_outside _ _ []); [by apply Hr|by intros a _; rewrite Heq|by intros ? _ ?%elem_of_nil].
Qed.

Lemma lists_ok_live Ls s a : lists_ok Ls s → a ∈ (Ls ≫= λ lx, lx.2.*1) → a ∈ km_live (heap s).
Proof.
  intros [Hs Hr _] ([l xs] & Ha & Hin)%list_elem_of_bind. apply (sw_live _ Hs). eapply chain_in; [apply (Hr l xs Hin)|done].
Qed.

(** An item added to one of them. *)
Lemma lists_ok_add l xs Ls s y p h :
  lists_ok ((l, xs) :: Ls) s → Z.of_nat (length xs) + 1 < 2 ^ 64 → km_room 24 (heap s) → km_alloc 24 (heap s) = Ok (p, h) →
  ∃ item i l' s', list_add l y s = Ok (i, l', s') ∧ heap s' = h ∧ km_live h = {[item]} ∪ km_live (heap s) ∧
    lists_ok ((l', xs ++ [(item, y)]) :: Ls) s'.
Proof.
  intros Hk Hlen Hroom Ha. pose proof Hk as [Hs Hr Hn]. assert (list_repr l xs s) as Hl by (apply Hr; by left).
  destruct (list_add_spec l xs s y Hs Hl Hlen Hroom) as [(item & l' & s' & Hadd & Hni & Hlive & Hs' & Hl' & Hsame)|(w & Hw & _)]; [|congruence].
  assert (heap s' = h) as Hh.
  { unfold list_add in Hadd. rewrite (sanity _ _ _ Hl) in Hadd. simpl in Hadd. rewrite Ha in Hadd. simpl in Hadd.
    destruct (wr_if _ _ _) as [s2|] eqn:Hw in Hadd; [|done]. simpl in Hadd. injection Hadd as _ _ <-.
    by rewrite (wr_if_heap _ _ _ _ Hw). }
  exists item, (Z.of_nat (length xs)), l', s'. rewrite <- Hh. split_and!; [done..|]. cbn [mbind list_bind snd] in Hn. split; [done| |].
  - intros l2 xs2 [[= -> ->]|Hin]%elem_of_cons; [done|]. eapply list_repr_outside; [apply Hr; by right|exact Hsame|].
    intros a Hax [->|Hx]%elem_of_cons.
    + apply Hni, (lists_ok_live _ _ _ Hk), list_elem_of_bind. exists (l2, xs2). split; [done|by right].
    + apply list.NoDup_app in Hn as (_ & Hd & _). apply (Hd a Hx), list_elem_of_bind. by exists (l2, xs2).
  - cbn [mbind list_bind snd]. rewrite fmap_app. simpl. rewrite <- app_assoc. cbn [app]. rewrite <- Permutation_middle. apply list.NoDup_cons.
    split; [|done]. intros Hin. by apply Hni, (lists_ok_live _ _ _ Hk).
Qed.

(** [list_destroy] gives every item of the list back to the allocator: what is allocated
    afterwards is what was allocated before less the items, the rest of the store is as it
    was, and the magic number is gone, so that a debug build stops at the next use. *)
Theorem list_destroy_frees_all list xs s :
  store_wf s → list_repr list xs s →
  ∃ list' s', list_destroy list s = Ok (list', s') ∧ store_wf s' ∧
    km_live (heap s') = km_live (heap s) ∖ list_to_set xs.*1 ∧
    (∀ a, a ∈ dom (nodes s) → a ∉ xs.*1 → nodes s' !! a = nodes s !! a) ∧
    (∀ a, a ∈ xs.*1 → a ∉ dom (nodes s')) ∧
    (DEBUG = true → ∀ y, list_add list' y s' = Stop Panic).
Proof.
  intros Hs Hl. destruct (op_clear _ _ _ Hs Hl) as (l1 & s1 & Hc & [Hs1 Hl1 Hlive _ Hsame]).
  unfold list_destroy. rewrite (sanity _ _ _ Hl). simpl. rewrite Hc. simpl.
  eexists _, s1. split; [done|]. simpl in Hlive. rewrite (right_id_L ∅ (∪)) in Hlive.
  split_and!; [done|done|done| |].
  - intros a Ha Hd%(sw_live _ Hs1). rewrite Hlive in Hd. apply elem_of_difference in Hd as [_ Hd].
    apply Hd. by apply elem_of_list_to_set.
  - intros Hd y. unfold list_add, SANITY_CHECK, assert_. by rewrite Hd.
Qed.
End repr.

(** ** Concrete runs *)

Import Bump.

(** A store with one list of the payloads 7 and 9. *)
Definition demo_store : store Bump.t :=
  {| nodes := {[ 32 := {| it_next := 64; it_prev := 0; it_payload := 7 |};
                 64 := {| it_next := 0; it_prev := 32; it_payload := 9 |} ]};
     heap := {| top := 96; live := {[32; 64]} |} |}.
Definition demo_list : list_t :=
  {| items := 2; magic := LIST_MAGIC; first := 32; last := 64 |}.
Definition demo_items : list (Z * Z) := [(32, 7); (64, 9)].

Lemma demo_wf : store_wf demo_store.
Proof.
  split; [split; simpl; [lia|]| |reflexivity].
  - intros p [->%elem_of_singleton| ->%elem_of_singleton]%elem_of_union; lia.
  - apply (bool_decide_unpack _). vm_compute. exact I.
Qed.

Lemma demo_repr : list_repr demo_list demo_items demo_store.
Proof.
  split; try reflexivity.
  - apply (bool_decide_unpack _). vm_compute. exact I.
  - repeat split; reflexivity.
Qed.


Lemma lists_independent_witness :
  ∃ v list' s', @run_op debug_build _ _ (OpAdd 5) list_init demo_store = Ok (v, list', s') ∧
    list_repr demo_list demo_items s'.
Proof.
  assert (∃ r, @run_op debug_build _ _ (OpAdd 5) list_init demo_store = Ok r) as [[[v l] s] Hr].
  { eexists. vm_compute. reflexivity. }
  exists v, l, s. split; [exact Hr|].
  eapply (@lists_independent debug_build _ _ _ list_init [] demo_list demo_items demo_store (OpAdd 5)).
  - exact demo_wf.
  - apply list_init_repr.
  - exact demo_repr.
  - intros a Ha. inversion Ha.
  - split; [reflexivity|exact I].
  - reflexivity.
  - exact Hr.
Defined.

Lemma list_destroy_frees_all_witness :
  ∃ list' s', @list_destroy debug_build _ _ demo_list demo_store = Ok (list', s') ∧
    km_live (heap s') = ∅.
Proof.
  destruct (@list_destroy_frees_all debug_build _ _ _ demo_list demo_items demo_store demo_wf demo_repr)
    as (l & s & Hr & _ & Hlive & _).
  exists l, s. split; [exact Hr|]. rewrite Hlive. reflexivity.
Defined.
