(* ===== verification/Heap.v ===== *)
(** The first-fit heap that kernel/kernel/mm/heap.c and kernel/arch/x86_64/boot32/heap.c
    share.  The two files differ in the width of a pointer, the size of a block header, the
    test that reports corruption and in what happens to the pages when the break moves;
    [HeapCfg] collects these, and KHeap.v instantiates it for the kernel and for boot32. *)
From S2P Require Import Prelude Words Dll.
Open Scope Z_scope.

(** [HEAP_MAGIC] (kernel/kernel/mm/heap.c, line 21). *)
Definition HEAP_MAGIC : Z := 2882400171.

(** [hblock_t] (kernel/kernel/mm/heap.c, lines 8-19), less the names that only the heap
    dump prints. *)
Record hblock_t := {
  available : bool;
  magic : Z;
  prev : Z;
  next : Z;
  size : Z;
}.

(** What the two heaps differ in; [W] is the state that moving the break changes. *)
Class HeapCfg (W : Type) := {
  hc_width : Z;                              (** bits of a pointer and of a size_t *)
  HEADER_SIZE : Z;                           (** sizeof(hblock_t) *)
  KHEAP_START : Z;
  hc_check : bool → res unit;                (** kpanic, or assert in boot32 *)
  hc_moved : Z → Z → W → res W;              (** the rest of kbrk: old and new break *)
}.

(** [heap_t] (kernel/kernel/mm/heap.c, lines 24-28): the static variables of the file and the
    memory that holds the block headers. *)
Record heap_t (W : Type) := {
  kheap_break : Z;
  heap_start : Z;
  heap_last : Z;
  blocks : gmap Z hblock_t;
  world : W;
}.
Arguments kheap_break {W} _.
Arguments heap_start {W} _.
Arguments heap_last {W} _.
Arguments blocks {W} _.
Arguments world {W} _.

Section operations.
Context {W : Type} `{HC : HeapCfg W}.
Implicit Types (h : heap_t W).

(** Pointer and size arithmetic. *)
Definition wrap (x : Z) : Z := uwrap hc_width x.

Definition rd h (a : Z) : res hblock_t := of_option (blocks h !! a).
Definition set_blocks h (m : gmap Z hblock_t) : heap_t W :=
  {| kheap_break := kheap_break h; heap_start := heap_start h; heap_last := heap_last h;
     blocks := m; world := world h |}.
Definition set_last h (a : Z) : heap_t W :=
  {| kheap_break := kheap_break h; heap_start := heap_start h; heap_last := a;
     blocks := blocks h; world := world h |}.
Definition set_start h (a : Z) : heap_t W :=
  {| kheap_break := kheap_break h; heap_start := a; heap_last := heap_last h;
     blocks := blocks h; world := world h |}.
Definition wr h (a : Z) (f : hblock_t → hblock_t) : res (heap_t W) :=
  b ← rd h a; mret (set_blocks h (<[a := f b]> (blocks h))).

Definition with_available (v : bool) (b : hblock_t) : hblock_t :=
  {| available := v; magic := magic b; prev := prev b; next := next b; size := size b |}.
Definition with_magic (v : Z) (b : hblock_t) : hblock_t :=
  {| available := available b; magic := v; prev := prev b; next := next b; size := size b |}.
Definition with_prev (v : Z) (b : hblock_t) : hblock_t :=
  {| available := available b; magic := magic b; prev := v; next := next b; size := size b |}.
Definition with_next (v : Z) (b : hblock_t) : hblock_t :=
  {| available := available b; magic := magic b; prev := prev b; next := v; size := size b |}.
Definition with_size (v : Z) (b : hblock_t) : hblock_t :=
  {| available := available b; magic := magic b; prev := prev b; next := next b; size := v |}.

(** [kbrk] (kernel/kernel/mm/heap.c, lines 76-106): the old break. *)
Definition kbrk (increment : Z) h : res (Z * heap_t W) :=
  let orig_brk := kheap_break h in
  let new_brk := wrap (orig_brk + increment) in
  w ← hc_moved orig_brk new_brk (world h);
  mret (orig_brk, {| kheap_break := new_brk; heap_start := heap_start h;
                     heap_last := heap_last h; blocks := blocks h; world := w |}).

(** [if (next != NULL) next->prev = new; else heap_last = new], of both [crop] and
    [merge_blocks]. *)
Definition link_back (next new : Z) h : res (heap_t W) :=
  if negb (next =? 0) then wr h next (with_prev new) else mret (set_last h new).

(** [crop] (kernel/kernel/mm/heap.c, lines 108-135). *)
Definition crop (block new_size : Z) h : res (heap_t W) :=
  b ← rd h block;
  let excess_size := wrap (size b - new_size) in
  if excess_size <=? HEADER_SIZE then mret h
  else
    let original_next := next b in
    let new := wrap (block + new_size) in
    h ← wr h block (λ b, with_next new (with_size new_size b));
    let h := set_blocks h (<[new := {| available := true; magic := HEAP_MAGIC; prev := block;
                                       next := original_next; size := excess_size |}]> (blocks h)) in
    link_back original_next new h.

(** The loop of [_kmalloc] (kernel/kernel/mm/heap.c, lines 149-170): the block that was
    taken, or 0. *)
Fixpoint find_block (fuel : nat) (entry size' : Z) h : res (Z * heap_t W) :=
  match fuel with
  | O => Stop NoFuel
  | S fuel =>
      if entry =? 0 then mret (0, h)
      else
        b ← rd h entry;
        hc_check (magic b =? HEAP_MAGIC);;
        let required_size := wrap (HEADER_SIZE + size') in
        if available b && (required_size <=? size b) then
          h ← wr h entry (with_available false);
          h ← crop entry required_size h;
          mret (entry, h)
        else find_block fuel (next b) size' h
  end.

(** Enough links for any chain of the headers in memory. *)
Definition walk_fuel h : nat := S (base.size (blocks h)).

(** [if (last != NULL) last->next = blk]. *)
Definition link_next (last blk : Z) h : res (heap_t W) :=
  if negb (last =? 0) then wr h last (with_next blk) else mret h.

(** The second half of [_kmalloc] (kernel/kernel/mm/heap.c, lines 172-198): a new block at the
    break. *)
Definition extend_heap (size' : Z) h : res (Z * heap_t W) :=
  '(blk, h) ← kbrk (size' + HEADER_SIZE) h;
  if blk =? 2 ^ hc_width - 1 then mret (0, h)
  else
    let h := set_blocks h (<[blk := {| available := false; magic := HEAP_MAGIC; next := 0;
                                       prev := heap_last h;
                                       size := wrap (HEADER_SIZE + size') |}]> (blocks h)) in
    h ← link_next (heap_last h) blk h;
    let h := set_last h blk in
    let h := if heap_start h =? 0 then set_start h blk else h in
    mret (wrap (blk + HEADER_SIZE), h).

(** [_kmalloc] (kernel/kernel/mm/heap.c, lines 137-199), between [mutex_lock] and
    [mutex_unlock]. *)
Definition heap_alloc (size' : Z) h : res (Z * heap_t W) :=
  '(entry, h) ← find_block (walk_fuel h) (heap_start h) size' h;
  if negb (entry =? 0) then mret (wrap (entry + HEADER_SIZE), h)
  else extend_heap size' h.

(** [merge_blocks] (kernel/kernel/mm/heap.c, lines 201-216). *)
Definition merge_blocks (first second : Z) h : res (heap_t W) :=
  f ← rd h first;
  s ← rd h second;
  hc_check (negb (negb (magic f =? HEAP_MAGIC) || negb (magic s =? HEAP_MAGIC)));;
  h ← wr h first (with_size (wrap (size f + size s)));
  s ← rd h second;
  h ← wr h first (with_next (next s));
  h ← link_back (next s) first h;
  wr h second (with_magic 0).

(** The loop that gives free blocks at the end back (kernel/kernel/mm/heap.c, lines 245-262). *)
Fixpoint shrink (fuel : nat) h : res (heap_t W) :=
  match fuel with
  | O => Stop NoFuel
  | S fuel =>
      if heap_last h =? 0 then mret h
      else
        l ← rd h (heap_last h);
        if negb (available l) then mret h
        else
          h ← wr h (heap_last h) (with_magic 0);
          let decrement := size l in
          h ← (if negb (prev l =? 0) then
                 h ← wr h (prev l) (with_next 0); mret (set_last h (prev l))
               else mret (set_last (set_start h 0) 0));
          '(_, h) ← kbrk (- decrement) h;
          shrink fuel h
  end.

(** The test of the pointer given to [kfree] (kernel/kernel/mm/heap.c, lines 225-228). *)
Definition kfree_check (ptr : Z) h : res unit :=
  hc_check (negb ((heap_last h =? 0) || (heap_start h =? 0) || (ptr <? heap_start h) ||
                  (wrap (heap_last h + HEADER_SIZE) <? ptr))).

(** Merging with the next block (kernel/kernel/mm/heap.c, lines 240-241). *)
Definition merge_next (tofree : Z) h : res (heap_t W) :=
  b ← rd h tofree;
  if negb (next b =? 0) then
    n ← rd h (next b);
    if available n then merge_blocks tofree (next b) h else mret h
  else mret h.

(** Merging with the previous block (kernel/kernel/mm/heap.c, lines 242-243). *)
Definition merge_prev (tofree : Z) h : res (heap_t W) :=
  b ← rd h tofree;
  if negb (prev b =? 0) then
    p ← rd h (prev b);
    if available p then merge_blocks (prev b) tofree h else mret h
  else mret h.

(** [kfree] (kernel/kernel/mm/heap.c, lines 232-262), between [mutex_lock] and
    [mutex_unlock]. *)
Definition heap_free (ptr : Z) h : res (heap_t W) :=
  let tofree := wrap (ptr - HEADER_SIZE) in
  b ← rd h tofree;
  hc_check (negb (negb (magic b =? HEAP_MAGIC) || available b));;
  h ← wr h tofree (with_available true);
  h ← merge_next tofree h;
  h ← merge_prev tofree h;
  shrink (walk_fuel h) h.

(** [_kheap_check_corrupt] (kernel/kernel/mm/heap.c, lines 62-74): the walk over all headers. *)
Fixpoint check_corrupt (fuel : nat) (entry : Z) h : res unit :=
  match fuel with
  | O => Stop NoFuel
  | S fuel =>
      if entry =? 0 then mret tt
      else b ← rd h entry; hc_check (magic b =? HEAP_MAGIC);; check_corrupt fuel (next b) h
  end.
Definition kheap_check_corrupt h : res unit := check_corrupt (walk_fuel h) (heap_start h) h.

(** The walk of [kheap_print] (kernel/kernel/mm/heap.c, lines 37-57): the blocks that it prints, by address and size.  The line
    of a free block has no arguments for its format; what is printed there is not modelled. *)
Fixpoint dump_blocks (fuel : nat) (entry : Z) h : res (list (option (Z * Z))) :=
  match fuel with
  | O => Stop NoFuel
  | S fuel =>
      if entry =? 0 then mret []
      else
        b ← rd h entry; hc_check (magic b =? HEAP_MAGIC);;
        lines ← dump_blocks fuel (next b) h;
        mret ((if available b then None else Some (wrap (entry + HEADER_SIZE), size b)) :: lines)
  end.
Definition dump_heap h : res (list (option (Z * Z))) := dump_blocks (walk_fuel h) (heap_start h) h.
End operations.

(** ** The chain of blocks *)

(** What the laws ask of a configuration: [hc_inv brk w] relates the world to the break; the
    break can always move back, and when it moves up without stopping the relation holds.
    [hc_less] is what moving back may do to the world, [hc_more] what moving up may do. *)
Class HeapLaws (W : Type) `{HC : HeapCfg W} := {
  hc_inv : Z → W → Prop;
  hc_less : relation W;
  hc_less_preorder : PreOrder hc_less;
  hc_more : relation W;
  hc_more_preorder : PreOrder hc_more;
  hc_header_pos : 0 < HEADER_SIZE;
  hc_width_nonneg : 0 <= hc_width;
  hc_start_range : 0 < KHEAP_START < 2 ^ hc_width - 1;
  hc_check_true : hc_check true = Ok tt;
  hc_grow orig new w w' :
    hc_inv orig w → KHEAP_START <= orig → orig <= new < 2 ^ hc_width - 1 →
    hc_moved orig new w = Ok w' → hc_inv new w' ∧ hc_more w w';
  hc_shrink orig new w :
    hc_inv orig w → KHEAP_START <= new < orig → orig < 2 ^ hc_width - 1 →
    ∃ w', hc_moved orig new w = Ok w' ∧ hc_inv new w' ∧ hc_less w w';
}.
#[export] Existing Instances hc_less_preorder hc_more_preorder.

Section proofs.
Context {W : Type} `{HC : HeapCfg W} {HL : HeapLaws W}.
Implicit Types (h : heap_t W) (segs : list (Z * (Z * bool))).

(** The blocks, from left to right: address, size and whether it is free.  They tile the
    space from [a] to [e], and each has room for its header. *)
Fixpoint tiles (a : Z) segs (e : Z) : Prop :=
  match segs with
  | [] => a = e
  | (b, (sz, _)) :: segs => b = a ∧ HEADER_SIZE <= sz ∧ tiles (a + sz) segs e
  end.

(** The header at an address; a header whose magic number is gone is not one. *)
Definition blk_at (m : gmap Z hblock_t) (a : Z) : option (Z * Z * (Z * bool)) :=
  m !! a ≫= λ b, if magic b =? HEAP_MAGIC then Some (prev b, next b, (size b, available b)) else None.

(** The headers in memory are the blocks [segs], and those of [K]. *)
Record shapeK (K : list Z) h segs : Prop := {
  sh_start : heap_start h = head_addr segs 0;
  sh_last : heap_last h = last_addr segs 0;
  sh_chain : dseg (blk_at (blocks h)) 0 segs 0;
  sh_tiles : tiles KHEAP_START segs (kheap_break h);
  sh_magic : ∀ a, is_Some (blk_at (blocks h) a) → a ∈ segs.*1 ∨ a ∈ K;
  sh_brk : kheap_break h < 2 ^ hc_width - 1;
  sh_world : hc_inv (kheap_break h) (world h);
}.
Abbreviation shape := (shapeK []).

Lemma tiles_app a l1 l2 e : tiles a (l1 ++ l2) e ↔ ∃ m, tiles a l1 m ∧ tiles m l2 e.
Proof.
  revert a. induction l1 as [|[b [sz f]] l1 IH]; intros a; simpl.
  - split; [by exists a|by intros (m & -> & ?)].
  - rewrite IH. split; [intros (? & ? & m & ? & ?); by exists m|intros (m & (? & ? & ?) & ?)].
    split_and!; [done|done|by exists m].
Qed.

Lemma tiles_le a segs e : tiles a segs e → a <= e.
Proof.
  revert a. induction segs as [|[b [sz f]] segs IH]; intros a; simpl; [lia|].
  intros (-> & Hsz & Ht%IH). pose proof hc_header_pos. lia.
Qed.

Lemma tiles_in a segs e b sz f :
  tiles a segs e → (b, (sz, f)) ∈ segs → a <= b ∧ HEADER_SIZE <= sz ∧ b + sz <= e.
Proof.
  revert a. induction segs as [|[c [sc g]] segs IH]; intros a; simpl; [by intros _ ?%elem_of_nil|].
  intros (-> & Hsz & Ht) [[= -> -> ->]|Hin]%elem_of_cons.
  - pose proof (tiles_le _ _ _ Ht). lia.
  - pose proof hc_header_pos. destruct (IH _ Ht Hin). lia.
Qed.

Lemma tiles_addr a segs e b : tiles a segs e → b ∈ segs.*1 → a <= b ∧ b + HEADER_SIZE <= e.
Proof.
  intros Ht ([c [sz f]] & -> & Hin)%list_elem_of_fmap.
  destruct (tiles_in _ _ _ _ _ _ Ht Hin) as (? & ? & ?). simpl. lia.
Qed.

Lemma tiles_nodup a segs e : tiles a segs e → NoDup segs.*1.
Proof.
  revert a. induction segs as [|[b [sz f]] segs IH]; intros a; simpl; [intros _; constructor|].
  intros (-> & Hsz & Ht). constructor; [|by eapply IH].
  intros Hin. destruct (tiles_addr _ _ _ _ Ht Hin). pose proof hc_header_pos. lia.
Qed.

(** Two blocks do not overlap. *)
Lemma tiles_disjoint a segs e b sb fb c sc fc :
  tiles a segs e → (b, (sb, fb)) ∈ segs → (c, (sc, fc)) ∈ segs → b ≠ c →
  b + sb <= c ∨ c + sc <= b.
Proof.
  revert a. induction segs as [|[d [sd g]] segs IH]; intros a; simpl; [by intros _ ?%elem_of_nil|].
  intros (-> & Hsz & Ht) [[= -> -> ->]|Hb]%elem_of_cons [[= -> -> ->]|Hc]%elem_of_cons Hne.
  - done.
  - left. by destruct (tiles_in _ _ _ _ _ _ Ht Hc).
  - right. by destruct (tiles_in _ _ _ _ _ _ Ht Hb).
  - by eapply IH.
Qed.

Lemma sh_nodup K h segs : shapeK K h segs → NoDup segs.*1.
Proof. intros H. eapply tiles_nodup, (sh_tiles _ _ _ H). Qed.

Lemma sh_range K h segs a :
  shapeK K h segs → a ∈ segs.*1 → KHEAP_START <= a ∧ a + HEADER_SIZE <= kheap_break h.
Proof. intros H. by apply tiles_addr, (sh_tiles _ _ _ H). Qed.

Lemma sh_nonnull K h segs a : shapeK K h segs → a ∈ segs.*1 → a ≠ 0.
Proof. intros H Ha. destruct (sh_range _ _ _ _ H Ha). pose proof hc_start_range. lia. Qed.

Lemma wrap_small x : 0 <= x < 2 ^ hc_width → wrap x = x.
Proof. apply uwrap_small. Qed.

(** ** Reading and writing headers *)

Lemma blk_at_rd h a p n sz f :
  blk_at (blocks h) a = Some (p, n, (sz, f)) →
  rd h a = Ok {| available := f; magic := HEAP_MAGIC; prev := p; next := n; size := sz |}.
Proof.
  unfold blk_at, rd. destruct (blocks h !! a) as [[]|]; simpl; [|done].
  destruct (Z.eqb_spec magic0 HEAP_MAGIC) as [->|]; [|done]. by intros [= -> -> -> ->].
Qed.

Lemma blk_at_insert m a b c :
  magic b = HEAP_MAGIC →
  blk_at (<[a := b]> m) c =
    if decide (c = a) then Some (prev b, next b, (size b, available b)) else blk_at m c.
Proof.
  intros Hm. unfold blk_at. case_decide as Hc; [subst; rewrite lookup_insert_eq|].
  - simpl. by rewrite Hm.
  - by rewrite lookup_insert_ne.
Qed.

(** The effect of a field update on what [blk_at] reads. *)
Lemma blk_at_alter m a f g c :
  (∀ b, magic (f b) = magic b) →
  (∀ b, (prev (f b), next (f b), (size (f b), available (f b))) =
        g (prev b, next b, (size b, available b))) →
  blk_at (alter f a m) c = if decide (c = a) then g <$> blk_at m c else blk_at m c.
Proof.
  intros Hm Hg. unfold blk_at. case_decide as Hc; [subst|by rewrite lookup_alter_ne].
  rewrite lookup_alter_eq. destruct (m !! a) as [b|]; simpl; [|done].
  rewrite Hm. destruct (magic b =? HEAP_MAGIC); simpl; [|done]. by rewrite Hg.
Qed.

Lemma blk_at_prev m a p c :
  blk_at (alter (with_prev p) a m) c =
    if decide (c = a) then (λ '(_, nx, x), (p, nx, x)) <$> blk_at m c else blk_at m c.
Proof. by apply blk_at_alter. Qed.

Lemma blk_at_next m a n c :
  blk_at (alter (with_next n) a m) c =
    if decide (c = a) then (λ '(pv, _, x), (pv, n, x)) <$> blk_at m c else blk_at m c.
Proof. by apply blk_at_alter. Qed.

Lemma blk_at_size m a s c :
  blk_at (alter (with_size s) a m) c =
    if decide (c = a) then (λ '(l, (_, f)), (l, (s, f))) <$> blk_at m c else blk_at m c.
Proof. by apply blk_at_alter. Qed.

Lemma blk_at_available m a v c :
  blk_at (alter (with_available v) a m) c =
    if decide (c = a) then (λ '(l, (s, _)), (l, (s, v))) <$> blk_at m c else blk_at m c.
Proof. by apply blk_at_alter. Qed.

Lemma blk_at_kill m a c :
  blk_at (alter (with_magic 0) a m) c = if decide (c = a) then None else blk_at m c.
Proof.
  unfold blk_at. case_decide as Hc; [subst|by rewrite lookup_alter_ne].
  rewrite lookup_alter_eq. by destruct (m !! a).
Qed.

(** A write through a pointer to a header is [alter] on the memory. *)
Lemma wr_alter h a f : is_Some (blk_at (blocks h) a) → wr h a f = Ok (set_blocks h (alter f a (blocks h))).
Proof.
  intros [x Ha]. unfold blk_at in Ha. unfold wr, rd. destruct (blocks h !! a) as [b|] eqn:Hb; [|done].
  simpl. do 2 f_equal. apply map_eq. intros c. destruct (decide (c = a)) as [->|Hne].
  - by rewrite lookup_insert_eq, lookup_alter_eq, Hb.
  - by rewrite lookup_insert_ne, lookup_alter_ne.
Qed.

Lemma set_blocks_set_blocks h m m' : set_blocks (set_blocks h m) m' = set_blocks h m'.
Proof. done. Qed.

Lemma sh_blk K h l1 a x l2 :
  shapeK K h (l1 ++ (a, x) :: l2) →
  blk_at (blocks h) a = Some (last_addr l1 0, head_addr l2 0, x).
Proof. intros H. eapply dseg_lookup, (sh_chain _ _ _ H). Qed.

Lemma blk_at_chain m p l n a : dseg (blk_at m) p l n → a ∈ l.*1 → is_Some (blk_at m a).
Proof.
  intros Hc ([b x] & -> & Hin)%list_elem_of_fmap. apply list_elem_of_split in Hin as (l1 & l2 & ->).
  simpl. by rewrite (dseg_lookup _ _ _ _ _ _ _ Hc).
Qed.

Lemma link_back_spec h p l2 d new :
  dseg (blk_at (blocks h)) p l2 0 → (∀ b, b ∈ l2.*1 → b ≠ 0) → heap_last h = last_addr l2 d →
  ∃ m, link_back (head_addr l2 0) new h =
         Ok {| kheap_break := kheap_break h; heap_start := heap_start h;
               heap_last := last_addr l2 new; blocks := m; world := world h |} ∧
    (∀ b, b ∉ l2.*1 → blk_at m b = blk_at (blocks h) b) ∧
    (∀ b, b ∈ l2.*1 → blk_at m b = if decide (b = head_addr l2 0)
       then (λ '(_, nx, x), (new, nx, x)) <$> blk_at (blocks h) b else blk_at (blocks h) b).
Proof.
  intros Hc Hnn Hlast. unfold link_back. destruct l2 as [|[b x] l2]; simpl.
  - exists (blocks h). split; [done|]. split; [done|]. by intros b ?%elem_of_nil.
  - rewrite (proj2 (Z.eqb_neq b 0)) by (apply Hnn; by left). simpl.
    rewrite wr_alter by (destruct Hc as [-> _]; by eexists).
    eexists. split; [unfold set_blocks; by rewrite Hlast|].
    split; intros c Hcin; rewrite blk_at_prev; [|done].
    rewrite decide_False; [done|]. intros ->. apply Hcin. by left.
Qed.

(** The blocks from [a] up to [l2] are replaced, and [l2] is linked to the new ones. *)
Lemma relink h l1 a x m x' m' l2 m2 :
  shape h (l1 ++ ((a, x) :: m) ++ l2) →
  tiles KHEAP_START (l1 ++ ((a, x') :: m') ++ l2) (kheap_break h) →
  dseg (blk_at m2) (last_addr l1 0) ((a, x') :: m') (head_addr l2 0) →
  (∀ b, b ∈ l1.*1 ∨ b ∈ l2.*1 → blk_at m2 b = blk_at (blocks h) b) →
  ∃ h', link_back (head_addr l2 0) (last_addr m' a) (set_blocks h m2) = Ok h' ∧
    kheap_break h' = kheap_break h ∧ world h' = world h ∧
    (∀ b, b ∉ l2.*1 → blk_at (blocks h') b = blk_at m2 b) ∧
    ∀ K, (∀ b, is_Some (blk_at m2 b) → b ∈ (l1 ++ ((a, x') :: m') ++ l2).*1 ∨ b ∈ K) →
         shapeK K h' (l1 ++ ((a, x') :: m') ++ l2).
Proof.
  intros Hsh Htiles Hmid Hsame. pose proof Hsh as [Hst Hla Hc Ht Hm Hb Hw].
  pose proof (tiles_nodup _ _ _ Htiles) as Hnd. rewrite !fmap_app in Hnd.
  apply list.NoDup_app in Hnd as (_ & Hd1 & (_ & Hd2 & Hnd2)%list.NoDup_app).
  pose proof Hc as [_ [_ Hc2]%dseg_app]%dseg_app.
  destruct (link_back_spec (set_blocks h m2) (last_addr ((a, x) :: m) (last_addr l1 0)) l2
              (last_addr ((a, x) :: m) (last_addr l1 0)) (last_addr m' a)) as (m3 & Hlb & Hout & Hin).
  { eapply dseg_ext; [|exact Hc2]. intros b Hbin. apply Hsame. by right. }
  { intros b Hbin. eapply sh_nonnull; [exact Hsh|]. rewrite !fmap_app, !elem_of_app. tauto. }
  { simpl. rewrite Hla, last_addr_app. simpl. by rewrite last_addr_app. }
  eexists. split; [exact Hlb|]. split_and!; [done|done|done|]. intros K Hmag.
  assert (∀ b, b ∈ l1.*1 ∨ b ∈ ((a, x') :: m').*1 → b ∉ l2.*1) as Hnot2.
  { intros b [Hb1|Hb1]; [|by apply Hd2]. intros Hb2. apply (Hd1 b Hb1), elem_of_app. by right. }
  split; simpl.
  - rewrite Hst, !head_addr_app. by destruct l1 as [|[]].
  - rewrite last_addr_app. simpl. by rewrite last_addr_app.
  - eapply dseg_replace; [exact Hnd2| | | |exact Hc].
    + eapply dseg_ext; [|exact Hmid]. intros b Hbin. apply Hout, Hnot2. by right.
    + intros b Hbin. rewrite Hout by (apply Hnot2; by left). apply Hsame. by left.
    + intros b Hbin. simpl in Hin. rewrite Hin, Hsame by (done || by right). done.
  - done.
  - intros b Hbin. destruct (decide (b ∈ l2.*1)) as [H2|H2].
    + left. rewrite app_comm_cons, !fmap_app, !elem_of_app. tauto.
    + apply Hmag. by rewrite <- Hout.
  - done.
  - done.
Qed.

(** ** Taking a block *)

(** The blocks that [crop] makes of a block of size [sz] when [req] bytes are asked for. *)
Definition cropped (a sz req : Z) (f : bool) : list (Z * (Z * bool)) :=
  if sz - req <=? HEADER_SIZE then [(a, (sz, f))]
  else [(a, (req, f)); (a + req, (sz - req, true))].

Lemma crop_tiles s l1 a sz f l2 req e :
  HEADER_SIZE <= req <= sz → tiles s (l1 ++ (a, (sz, f)) :: l2) e →
  tiles s (l1 ++ cropped a sz req f ++ l2) e.
Proof.
  intros Hr (m & H1 & -> & Hsz & H2)%tiles_app. apply tiles_app. exists m. split; [done|].
  unfold cropped. destruct (Z.leb_spec (sz - req) HEADER_SIZE); simpl; split_and!; try done; try lia.
  by replace (m + req + (sz - req)) with (m + sz) by lia.
Qed.

Lemma crop_spec h l1 a sz f l2 req :
  shape h (l1 ++ (a, (sz, f)) :: l2) → HEADER_SIZE <= req <= sz →
  ∃ h', crop a req h = Ok h' ∧
        shape h' (l1 ++ cropped a sz req f ++ l2) ∧
        kheap_break h' = kheap_break h ∧ world h' = world h.
Proof.
  intros Hsh Hreq. pose proof (sh_blk _ _ _ _ _ _ Hsh) as Ha.
  pose proof (crop_tiles _ _ _ _ _ _ _ _ Hreq (sh_tiles _ _ _ Hsh)) as Htiles.
  destruct (tiles_in _ _ _ a sz f (sh_tiles _ _ _ Hsh)) as (Hlo & Hsz & Hhi).
  { apply elem_of_app. right. by left. }
  pose proof (sh_brk _ _ _ Hsh) as Hbrk. pose proof hc_start_range. pose proof hc_header_pos.
  unfold crop. rewrite (blk_at_rd _ _ _ _ _ _ Ha). simpl. rewrite wrap_small by lia.
  unfold cropped in *. destruct (Z.leb_spec (sz - req) HEADER_SIZE); [by exists h|].
  rewrite wr_alter by by eexists. simpl. rewrite wrap_small by lia.
  set (m2 := <[_ := _]> _).
  assert (∀ c, blk_at m2 c = if decide (c = a + req) then Some (a, head_addr l2 0, (sz - req, true))
     else if decide (c = a) then Some (last_addr l1 0, a + req, (req, f)) else blk_at (blocks h) c) as Hm2.
  { intros c. unfold m2. rewrite blk_at_insert by done. case_decide; [done|].
    rewrite (blk_at_alter _ _ _ (λ '(pv, _, (_, g)), (pv, a + req, (req, g)))) by done.
    case_decide; [subst; by rewrite Ha|done]. }
  pose proof (tiles_nodup _ _ _ Htiles) as Hnd. simpl in Hnd.
  rewrite fmap_app in Hnd. apply list.NoDup_app in Hnd as (_ & Hd1 & Hd2).
  apply list.NoDup_cons in Hd2 as [Ha2 [Hn2 _]%list.NoDup_cons].
  assert (∀ b, b ∈ l1.*1 ∨ b ∈ l2.*1 → b ≠ a ∧ b ≠ a + req) as Hne.
  { intros b [Hb|Hb]; split; intros ->.
    - apply (Hd1 _ Hb). by left.
    - apply (Hd1 _ Hb). right. by left.
    - apply Ha2. by right.
    - by apply Hn2. }
  destruct (relink h l1 a (sz, f) [] (req, f) [(a + req, (sz - req, true))] l2 m2)
    as (h' & Hlb & Hbrk' & Hw' & _ & Hsh'); [done|done| | |].
  - simpl. rewrite !Hm2, decide_False, decide_True, decide_True by (done || lia). done.
  - intros b Hb. destruct (Hne b Hb). by rewrite Hm2, !decide_False.
  - exists h'. split; [exact Hlb|]. split; [|done]. apply Hsh'. intros b. left. revert H2.
    rewrite Hm2, !fmap_app, !elem_of_app. simpl. rewrite !elem_of_cons.
    repeat case_decide; [tauto|tauto|]. intros [Hb|Hb%elem_of_nil]%(sh_magic _ _ _ Hsh); [|done].
    rewrite fmap_app, elem_of_app, fmap_cons, elem_of_cons in Hb. tauto.
Qed.

(** Marking a block as taken or free. *)
Lemma wr_available_spec h l1 a sz f l2 v :
  shape h (l1 ++ (a, (sz, f)) :: l2) →
  ∃ h', wr h a (with_available v) = Ok h' ∧ shape h' (l1 ++ (a, (sz, v)) :: l2) ∧
        kheap_break h' = kheap_break h ∧ world h' = world h ∧ base.size (blocks h') = base.size (blocks h).
Proof.
  intros Hsh. pose proof (sh_blk _ _ _ _ _ _ Hsh) as Ha. rewrite wr_alter by by eexists.
  eexists. split; [done|]. split; [|split_and!; [done|done|]].
  2: { simpl. rewrite <- !(size_dom (D := gset Z)). by rewrite dom_alter_L. }
  pose proof (sh_nodup _ _ _ Hsh) as Hnd. apply NoDup_mid in Hnd as (_ & _ & Ha1 & Ha2 & _).
  destruct Hsh as [Hst Hla Hc Ht Hm Hb Hw]. split; simpl; try done.
  - rewrite Hst. by destruct l1 as [|[]].
  - by rewrite Hla, !last_addr_app.
  - eapply dseg_update; [|intros b Hb'|exact Hc].
    + by rewrite blk_at_available, decide_True, Ha.
    + rewrite blk_at_available, decide_False; [done|]. intros ->. tauto.
  - apply tiles_app in Ht as (m & H1 & H2). apply tiles_app. by exists m.
  - intros b Hb'. replace ((l1 ++ (a, (sz, v)) :: l2).*1) with ((l1 ++ (a, (sz, f)) :: l2).*1)
      by (by rewrite !fmap_app). apply Hm. rewrite blk_at_available in Hb'.
    case_decide; [subst; by rewrite Ha|done].
Qed.

(** No free block of [segs] has [req] bytes. *)
Definition no_fit (req : Z) segs : Prop := ∀ a sz, (a, (sz, true)) ∈ segs → sz < req.

Lemma find_block_spec fuel h l1 l2 n :
  shape h (l1 ++ l2) → (length l2 < fuel)%nat → 0 <= n → HEADER_SIZE + n < 2 ^ hc_width →
  (∃ m1 a sz m2 h', l2 = m1 ++ (a, (sz, true)) :: m2 ∧ HEADER_SIZE + n <= sz ∧
     no_fit (HEADER_SIZE + n) m1 ∧ find_block fuel (head_addr l2 0) n h = Ok (a, h') ∧ a ≠ 0 ∧
     shape h' (l1 ++ m1 ++ cropped a sz (HEADER_SIZE + n) false ++ m2) ∧
     kheap_break h' = kheap_break h ∧ world h' = world h) ∨
  (find_block fuel (head_addr l2 0) n h = Ok (0, h) ∧ no_fit (HEADER_SIZE + n) l2).
Proof.
  intros Hsh Hf Hn Hw. pose proof hc_header_pos. revert fuel l1 Hsh Hf.
  induction l2 as [|[a [sz f]] l2 IH]; intros fuel l1 Hsh Hf; (destruct fuel as [|fuel]; [simpl in Hf; lia|]).
  { right. simpl. split; [done|]. by intros ? ? ?%elem_of_nil. }
  pose proof (sh_blk _ _ _ _ _ _ Hsh) as Ha.
  assert (a ≠ 0) as Hnn.
  { eapply sh_nonnull; [exact Hsh|]. rewrite fmap_app, elem_of_app. right. by left. }
  simpl. rewrite (proj2 (Z.eqb_neq a 0)) by done. rewrite (blk_at_rd _ _ _ _ _ _ Ha). simpl.
  rewrite hc_check_true. simpl. rewrite wrap_small by lia.
  destruct (f && (HEADER_SIZE + n <=? sz)) eqn:Htake.
  - apply andb_true_iff in Htake as [-> Hfit%Z.leb_le]. left.
    destruct (wr_available_spec h l1 a sz true l2 false Hsh) as (h1 & Hw1 & Hsh1 & Hb1 & Hwd1 & _).
    rewrite Hw1. simpl.
    destruct (crop_spec h1 l1 a sz false l2 (HEADER_SIZE + n) Hsh1) as (h2 & Hc2 & Hsh2 & Hb2 & Hwd2); [lia|].
    rewrite Hc2. simpl. exists [], a, sz, l2, h2.
    split_and!; [done|done| |done|done|done|congruence|congruence]. by intros ? ? ?%elem_of_nil.
  - destruct (IH fuel (l1 ++ [(a, (sz, f))])) as [(m1 & b & sb & m2 & h' & -> & Hfit & Hno & Hfb & Hb0 & Hsh' & Hb' & Hwd')|[Hfb Hno]].
    + by rewrite <- app_assoc.
    + simpl in Hf. lia.
    + left. exists ((a, (sz, f)) :: m1), b, sb, m2, h'. split_and!; try done.
      * intros c sc [[= -> -> <-]|Hc]%elem_of_cons; [|by eapply Hno].
        simpl in Htake. by apply Z.leb_gt in Htake.
      * by rewrite <- app_assoc in Hsh'.
    + right. split; [done|]. intros c sc [[= -> -> <-]|Hc]%elem_of_cons; [|by eapply Hno].
      simpl in Htake. by apply Z.leb_gt in Htake.
Qed.

Lemma link_next_spec h last blk :
  (last ≠ 0 → is_Some (blk_at (blocks h) last)) →
  ∃ m, link_next last blk h = Ok (set_blocks h m) ∧
    ∀ c, blk_at m c = if decide (c = last ∧ last ≠ 0)
      then (λ '(pv, _, x), (pv, blk, x)) <$> blk_at (blocks h) c else blk_at (blocks h) c.
Proof.
  intros Hl. unfold link_next. destruct (Z.eqb_spec last 0) as [->|Hne]; simpl.
  - exists (blocks h). split; [by destruct h|]. intros c. by rewrite decide_False by tauto.
  - rewrite wr_alter by auto. eexists. split; [done|]. intros c. rewrite blk_at_next.
    destruct (decide (c = last)); [by rewrite decide_True|by rewrite decide_False by tauto].
Qed.

(** The memory after a block has been written at the break. *)
Lemma extend_chain h segs brk sz m :
  shape h segs → brk ∉ segs.*1 →
  (∀ c, blk_at m c = if decide (c = last_addr segs 0 ∧ last_addr segs 0 ≠ 0)
     then (λ '(pv, _, x), (pv, brk, x)) <$> (if decide (c = brk) then Some (last_addr segs 0, 0, (sz, false))
                                            else blk_at (blocks h) c)
     else if decide (c = brk) then Some (last_addr segs 0, 0, (sz, false)) else blk_at (blocks h) c) →
  dseg (blk_at m) 0 (segs ++ [(brk, (sz, false))]) 0 ∧
  (∀ c, is_Some (blk_at m c) → c ∈ (segs ++ [(brk, (sz, false))]).*1).
Proof.
  intros Hsh Hni Hm. set (la := last_addr segs 0) in *.
  assert (la ≠ 0 → la ∈ segs.*1) as Hla by (intros; apply last_addr_in; by intros ->).
  assert (la ≠ 0 → la ≠ brk) as Hlb by (intros H0 ->; by apply Hni, Hla).
  split.
  - eapply dseg_snoc; [by eapply sh_nodup| | |apply Hsh].
    + rewrite Hm, decide_False, decide_True by (done || intros [? ?]; by apply Hlb). done.
    + intros b Hb. assert (b ≠ brk) by (by intros ->). rewrite Hm. fold la.
      rewrite (decide_False (P := b = brk)) by done.
      pose proof (sh_nonnull _ _ _ _ Hsh Hb). destruct (decide (b = la)) as [->|].
      * by rewrite decide_True.
      * by rewrite decide_False by tauto.
  - intros c Hc. rewrite fmap_app, elem_of_app. simpl. rewrite elem_of_cons.
    destruct (decide (c = brk)); [tauto|]. left. rewrite Hm in Hc.
    destruct (decide _) as [[-> ?]|]; [by apply Hla|]. rewrite decide_False in Hc by done.
    by apply (sh_magic _ _ _ Hsh) in Hc as [?|?%elem_of_nil].
Qed.

(** Moving the break. *)
Lemma extend_spec h segs n :
  shape h segs → 0 <= n → kheap_break h + HEADER_SIZE + n < 2 ^ hc_width - 1 →
  let brk := kheap_break h in
  (∃ h', extend_heap n h = Ok (brk + HEADER_SIZE, h') ∧
     shape h' (segs ++ [(brk, (HEADER_SIZE + n, false))]) ∧
     kheap_break h' = brk + HEADER_SIZE + n ∧ hc_more (world h) (world h')) ∨
  (∃ w, hc_moved brk (brk + (n + HEADER_SIZE)) (world h) = Stop w ∧ extend_heap n h = Stop w).
Proof.
  intros Hsh Hn Hroom brk. pose proof hc_header_pos. pose proof hc_start_range.
  pose proof Hsh as [Hst Hla Hc Ht Hm Hb Hw]. pose proof (tiles_le _ _ _ Ht).
  unfold extend_heap, kbrk. fold brk. rewrite (wrap_small (brk + _)) by (unfold brk in *; lia).
  destruct (hc_moved brk _ (world h)) as [w|w] eqn:Hmv; [left|right; by exists w].
  simpl. rewrite (proj2 (Z.eqb_neq brk _)) by (unfold brk; lia). rewrite !wrap_small by (unfold brk in *; lia). simpl.
  assert (brk ∉ segs.*1) as Hni.
  { intros Hin. destruct (tiles_addr _ _ _ _ Ht Hin). unfold brk in *. lia. }
  assert (∀ b, blk_at (<[brk := {| available := false; magic := HEAP_MAGIC; prev := heap_last h; next := 0;
     size := HEADER_SIZE + n |}]> (blocks h)) b = if decide (b = brk)
     then Some (heap_last h, 0, (HEADER_SIZE + n, false)) else blk_at (blocks h) b) as Hins.
  { intros b. by rewrite blk_at_insert. }
  edestruct link_next_spec as (m & Hm1 & Hm2); [|rewrite Hm1; simpl].
  { intros Hz. simpl. rewrite Hins. case_decide; [done|]. eapply blk_at_chain; [exact Hc|].
    rewrite Hla in *. apply last_addr_in. by intros ->. }
  simpl in Hm2. destruct (extend_chain h segs brk (HEADER_SIZE + n) m) as [Hc' Hm']; [done|done| |].
  { intros c. rewrite Hm2, Hins, Hla. done. }
  destruct (λ Hlo Hhi, hc_grow brk (brk + (n + HEADER_SIZE)) (world h) w Hw Hlo Hhi Hmv) as [Hw' Hmore]; [unfold brk in *; lia..|].
  eexists. split; [done|]. split; [|by destruct (Z.eqb_spec (heap_start h) 0); simpl; (split; [unfold brk; lia|])].
  assert (heap_start h = 0 ↔ segs = []) as Hemp.
  { rewrite Hst. split; [|by intros ->]. intros Hz. destruct segs as [|z segs]; [done|].
    exfalso. eapply sh_nonnull; [exact Hsh| |exact Hz]. by left. }
  assert (shapeK [] {| kheap_break := brk + (n + HEADER_SIZE);
     heap_start := head_addr (segs ++ [(brk, (HEADER_SIZE + n, false))]) 0; heap_last := brk;
     blocks := m; world := w |} (segs ++ [(brk, (HEADER_SIZE + n, false))])) as Hfin.
  { split; simpl; [done|by rewrite last_addr_app|done| |by left; apply Hm'|unfold brk in *; lia|].
    - apply tiles_app. exists brk. split; [done|]. simpl. split_and!; [done|lia|lia].
    - by rewrite <- (Z.add_comm HEADER_SIZE), Z.add_assoc in Hw' |- *. }
  replace (set_last _ _) with (set_last (set_blocks {| kheap_break := brk + (n + HEADER_SIZE);
     heap_start := heap_start h; heap_last := heap_last h; blocks := blocks h; world := w |} m) brk) by done.
  simpl. destruct (Z.eqb_spec (heap_start h) 0) as [Hz|Hz]; simpl.
  - apply Hemp in Hz as ->. exact Hfin.
  - destruct segs as [|[b x] segs]; [by destruct Hz; apply Hemp|]. unfold set_last. simpl in *.
    by rewrite Hst.
Qed.

(** ** Giving a block back *)

(** Wiping the magic number of a header that is no longer in the chain. *)
Lemma kill_spec h segs b :
  shapeK [b] h segs → b ∉ segs.*1 → is_Some (blk_at (blocks h) b) →
  ∃ h', wr h b (with_magic 0) = Ok h' ∧ shape h' segs ∧
        kheap_break h' = kheap_break h ∧ world h' = world h.
Proof.
  intros [Hst Hla Hc Ht Hm Hb Hw] Hni Hsome. rewrite wr_alter by done.
  eexists. split; [done|]. split; [|done]. split; simpl; try done.
  - eapply dseg_ext; [|exact Hc]. intros c Hcin. rewrite blk_at_kill, decide_False; [done|]. by intros ->.
  - intros c Hcs. rewrite blk_at_kill in Hcs. case_decide; [by destruct Hcs|].
    destruct (Hm c Hcs) as [?|?%list_elem_of_singleton]; [by left|done].
Qed.

Lemma merge_tiles s l1 a sa fa b sb fb l2 e :
  tiles s (l1 ++ (a, (sa, fa)) :: (b, (sb, fb)) :: l2) e →
  tiles s (l1 ++ (a, (sa + sb, fa)) :: l2) e ∧ sa + sb <= e - a ∧ s <= a.
Proof.
  intros (m & H1 & -> & Hsa & -> & Hsb & H2)%tiles_app. pose proof hc_header_pos.
  pose proof (tiles_le _ _ _ H1). pose proof (tiles_le _ _ _ H2).
  split; [|lia]. apply tiles_app. exists m. split; [done|]. simpl. rewrite <- Z.add_assoc in H2.
  split_and!; [done|lia|done].
Qed.

Lemma merge_spec h l1 a sa fa b sb fb l2 :
  shape h (l1 ++ (a, (sa, fa)) :: (b, (sb, fb)) :: l2) →
  ∃ h', merge_blocks a b h = Ok h' ∧ shape h' (l1 ++ (a, (sa + sb, fa)) :: l2) ∧
        kheap_break h' = kheap_break h ∧ world h' = world h.
Proof.
  intros Hsh. pose proof (sh_blk _ _ _ _ _ _ Hsh) as Ha. simpl in Ha.
  pose proof (sh_blk [] h (l1 ++ [(a, (sa, fa))]) b (sb, fb) l2) as Hb.
  rewrite <- app_assoc, last_addr_app in Hb. specialize (Hb Hsh). simpl in Hb.
  destruct (merge_tiles _ _ _ _ _ _ _ _ _ _ (sh_tiles _ _ _ Hsh)) as (Htiles & Hsz & Hlo).
  pose proof (sh_nodup _ _ _ Hsh) as Hnd. rewrite fmap_app in Hnd.
  apply list.NoDup_app in Hnd as (_ & Hd1 & ([Hab Ha2]%not_elem_of_cons & [Hb2 _]%list.NoDup_cons)%list.NoDup_cons).
  assert (∀ c, c ∈ l1.*1 ∨ c ∈ l2.*1 → c ≠ a) as Hne.
  { intros c [Hc|Hc] ->; [|done]. apply (Hd1 _ Hc). by left. }
  assert (b ∉ l1.*1) as Hb1 by (intros Hin; apply (Hd1 _ Hin); right; by left).
  pose proof (sh_brk _ _ _ Hsh). pose proof hc_start_range. pose proof hc_header_pos.
  assert (0 <= sa ∧ 0 <= sb) as [Hsa Hsb].
  { destruct (tiles_in _ _ _ a sa fa (sh_tiles _ _ _ Hsh)) as (_ & ? & _);
      [rewrite elem_of_app, !elem_of_cons; tauto|].
    destruct (tiles_in _ _ _ b sb fb (sh_tiles _ _ _ Hsh)) as (_ & ? & _);
      [rewrite elem_of_app, !elem_of_cons; tauto|]. lia. }
  unfold merge_blocks. rewrite (blk_at_rd _ _ _ _ _ _ Ha). simpl.
  rewrite (blk_at_rd _ _ _ _ _ _ Hb). simpl. rewrite hc_check_true. simpl.
  rewrite wrap_small by lia. rewrite wr_alter by by eexists. simpl.
  rewrite (blk_at_rd _ b a (head_addr l2 0) sb fb) by (simpl; by rewrite blk_at_size, decide_False). simpl.
  rewrite wr_alter by (simpl; rewrite blk_at_size, decide_True, Ha by done; by eexists). simpl.
  set (m2 := alter (with_next (head_addr l2 0)) a (alter (with_size (sa + sb)) a (blocks h))).
  assert (∀ c, blk_at m2 c = if decide (c = a) then Some (last_addr l1 0, head_addr l2 0, (sa + sb, fa))
     else blk_at (blocks h) c) as Hm2.
  { intros c. unfold m2. rewrite blk_at_next, blk_at_size. case_decide; [subst; by rewrite Ha|done]. }
  rewrite set_blocks_set_blocks.
  destruct (relink h l1 a (sa, fa) [(b, (sb, fb))] (sa + sb, fa) [] l2 m2)
    as (h' & Hlb & Hbrk' & Hw' & Hother & Hsh'); [done|done| | |].
  { simpl. by rewrite Hm2, decide_True. }
  { intros c Hc. rewrite Hm2, decide_False; [done|by apply Hne]. }
  simpl in Hlb. rewrite Hlb. simpl.
  destruct (kill_spec h' (l1 ++ (a, (sa + sb, fa)) :: l2) b) as (h2 & Hk & Hsh2 & Hbrk2 & Hw2).
  - apply (Hsh' [b]). intros c Hc. rewrite Hm2 in Hc. rewrite fmap_app, elem_of_app. simpl.
    rewrite !elem_of_cons. case_decide; [tauto|].
    apply (sh_magic _ _ _ Hsh) in Hc as [Hc|Hc%elem_of_nil]; [|done].
    rewrite fmap_app, elem_of_app, !fmap_cons, !elem_of_cons in Hc. tauto.
  - rewrite fmap_app, elem_of_app. simpl. rewrite elem_of_cons. intros [?|[?|?]]; auto.
  - rewrite Hother by done. rewrite Hm2, decide_False by auto. by rewrite Hb.
  - exists h2. split_and!; [done|done|congruence|congruence].
Qed.

(** The memory after the last block, at [a], has been cut off the chain [l]. *)
Definition cut_last (l : list (Z * (Z * bool))) (a : Z) (m : gmap Z hblock_t) : gmap Z hblock_t :=
  let m1 := alter (with_magic 0) a m in
  if decide (last_addr l 0 = 0) then m1 else alter (with_next 0) (last_addr l 0) m1.

Lemma cut_last_spec h l a x :
  shape h (l ++ [(a, x)]) →
  dseg (blk_at (cut_last l a (blocks h))) 0 l 0 ∧
  (∀ b, is_Some (blk_at (cut_last l a (blocks h)) b) → b ∈ l.*1).
Proof.
  intros Hsh. pose proof (sh_nodup _ _ _ Hsh) as (Hnd & _ & Hal & _)%NoDup_mid.
  assert (∀ b, b ∈ l.*1 → b ≠ 0) as Hnn.
  { intros b Hb. eapply sh_nonnull; [exact Hsh|]. rewrite fmap_app, elem_of_app. by left. }
  destruct Hsh as [_ _ Hc _ Hm _ _]. apply dseg_app in Hc as [Hc _]. simpl in Hc.
  assert (∀ b, blk_at (cut_last l a (blocks h)) b = if decide (last_addr l 0 ≠ 0 ∧ b = last_addr l 0)
     then (λ '(pv, _, x), (pv, 0, x)) <$> (if decide (b = a) then None else blk_at (blocks h) b)
     else if decide (b = a) then None else blk_at (blocks h) b) as Hcut.
  { intros b. unfold cut_last. destruct (decide (last_addr l 0 = 0)) as [H0|H0].
    - rewrite blk_at_kill. by rewrite (decide_False (P := _ ∧ _)) by tauto.
    - rewrite blk_at_next, blk_at_kill. destruct (decide (b = last_addr l 0)).
      + by rewrite (decide_True (P := _ ∧ _)).
      + by rewrite (decide_False (P := _ ∧ _)) by tauto. }
  split.
  - eapply (dseg_set_next (blk_at (blocks h))); [done| |exact Hc]. intros b Hb.
    assert (b ≠ a) by (by intros ->). rewrite Hcut, (decide_False (P := b = a)) by done.
    destruct (decide (b = last_addr l 0)) as [Heq|]; [|by rewrite decide_False by tauto].
    rewrite decide_True; [done|]. split; [rewrite <- Heq; by apply Hnn|done].
  - intros b Hb. rewrite Hcut in Hb.
    destruct (decide (b = a)) as [->|Hne]; [destruct (decide _); by destruct Hb|].
    destruct (decide _) as [[H0 ->]|_]; [apply last_addr_in; by intros ->|].
    apply Hm in Hb as [Hb|?%elem_of_nil]; [|done]. rewrite fmap_app, elem_of_app in Hb.
    destruct Hb as [?|?%list_elem_of_singleton]; done.
Qed.

(** Dropping the last block moves the break down to its address. *)
Lemma shrink_step h l a sz :
  shape h (l ++ [(a, (sz, true))]) →
  ∃ w, let h' := {| kheap_break := a; heap_start := head_addr l 0; heap_last := last_addr l 0;
                    blocks := cut_last l a (blocks h); world := w |} in
  (∀ fuel, shrink (S fuel) h = shrink fuel h') ∧ shape h' l ∧ a <= kheap_break h ∧ hc_less (world h) w.
Proof.
  intros Hsh. pose proof (sh_blk _ _ _ _ _ _ Hsh) as Ha. simpl in Ha.
  destruct (cut_last_spec _ _ _ _ Hsh) as [Hchain Hmag].
  pose proof (sh_nodup _ _ _ Hsh) as (_ & _ & Hal & _)%NoDup_mid.
  assert (∀ b, b ∈ (l ++ [(a, (sz, true))]).*1 → b ≠ 0) as Hnn by (intros b; by eapply sh_nonnull).
  setoid_rewrite fmap_app in Hnn. setoid_rewrite elem_of_app in Hnn.
  assert (a ≠ 0) as Ha0 by (apply Hnn; right; by left).
  destruct Hsh as [Hst Hla Hc Ht Hm Hb Hw]. rewrite last_addr_app in Hla. simpl in Hla.
  pose proof (proj1 (tiles_app _ _ _ _) Ht) as (a' & Htl & -> & Hsz & Hend). simpl in Hend.
  pose proof (tiles_le _ _ _ Htl). pose proof hc_start_range. pose proof hc_header_pos.
  destruct (hc_shrink (kheap_break h) a' (world h) Hw) as (w & Hmv & Hw' & Hless); [lia|lia|].
  assert (wrap (kheap_break h + - sz) = a') as Hwrap by (rewrite wrap_small by lia; lia).
  exists w. intros h'. split; [intros fuel|split_and!; [by split; simpl; auto; lia|lia|done]].
  cbn [shrink]. rewrite Hla, (proj2 (Z.eqb_neq a' 0)) by done.
  rewrite (blk_at_rd _ _ _ _ _ _ Ha). cbn -[shrink]. rewrite wr_alter by by eexists. cbn -[shrink].
  assert (last_addr l 0 = 0 → l = []) as Hnil.
  { intros Hl0. destruct l as [|z l]; [done|]. exfalso. eapply Hnn; [|exact Hl0]. left. by apply last_addr_in. }
  unfold h', cut_last. case_decide as Hl0.
  - rewrite (Hnil Hl0), Z.eqb_refl. cbn -[shrink]. unfold kbrk. cbn -[shrink]. by rewrite Hwrap, Hmv.
  - rewrite (proj2 (Z.eqb_neq _ 0)) by done. cbn -[shrink].
    assert (last_addr l 0 ∈ l.*1) as Hin by (apply last_addr_in; by intros ->).
    rewrite wr_alter; cbn -[shrink].
    + unfold kbrk. cbn -[shrink]. rewrite Hwrap, Hmv. cbn -[shrink].
      rewrite Hst. by destruct l as [|[]].
    + rewrite blk_at_kill, decide_False by (by intros Heq; rewrite Heq in Hin).
      apply dseg_app in Hc as [Hc _]. by eapply blk_at_chain.
Qed.

(** Whether the first and the last block of a chain are free. *)
Definition first_free segs : bool := match segs with (_, (_, f)) :: _ => f | [] => false end.
Definition last_free segs : bool := match list.last segs with Some (_, (_, f)) => f | None => false end.

(** The loop of [kfree] drops all the free blocks at the end. *)
Lemma shrink_spec fuel h segs :
  shape h segs → (length segs < fuel)%nat →
  ∃ h' l1 l2, shrink fuel h = Ok h' ∧ segs = l1 ++ l2 ∧ shape h' l1 ∧ last_free l1 = false ∧
    Forall (λ z, z.2.2 = true) l2 ∧ kheap_break h' <= kheap_break h ∧ hc_less (world h) (world h').
Proof.
  revert h segs. induction fuel as [|fuel IH]; intros h segs Hsh Hf; [lia|].
  destruct segs as [|[a [sz f]] segs _] using rev_ind.
  - exists h, [], []. simpl. rewrite (sh_last _ _ _ Hsh). by split_and!.
  - destruct f.
    + destruct (shrink_step _ _ _ _ Hsh) as (w & Hs & Hsh' & Hle & Hless). rewrite Hs.
      destruct (IH _ _ Hsh') as (h' & l1 & l2 & Hr & -> & Hsh2 & Hlf & Hall & Hle2 & Hless2).
      { rewrite length_app in Hf. simpl in Hf. lia. }
      exists h', l1, (l2 ++ [(a, (sz, true))]). split_and!; [done|by rewrite app_assoc|done|done| |simpl in Hle2; lia|by etrans].
      by apply Forall_app; split; [|apply Forall_singleton].
    + exists h, (segs ++ [(a, (sz, false))]), []. pose proof (sh_blk _ _ _ _ _ _ Hsh) as Ha.
      split_and!; [|by rewrite app_nil_r|done|unfold last_free; by rewrite list.last_snoc|done|lia|done].
      cbn [shrink]. rewrite (sh_last _ _ _ Hsh), last_addr_app. simpl.
      rewrite (proj2 (Z.eqb_neq a 0)).
      * by rewrite (blk_at_rd _ _ _ _ _ _ Ha).
      * eapply sh_nonnull; [exact Hsh|]. rewrite fmap_app, elem_of_app. right. by left.
Qed.

#[local] Arguments shrink : simpl never.
#[local] Arguments find_block : simpl never.

(** ** The invariant of the heap *)

(** No two neighbours are free. *)
Fixpoint apart segs : Prop :=
  match segs with
  | [] => True
  | (_, (_, f)) :: segs => f && first_free segs = false ∧ apart segs
  end.

Lemma apart_app l1 l2 :
  apart (l1 ++ l2) ↔ apart l1 ∧ apart l2 ∧ last_free l1 && first_free l2 = false.
Proof.
  induction l1 as [|[a [sz f]] l1 IH]; simpl; [tauto|]. rewrite IH.
  destruct l1 as [|[b [sb g]] l1]; simpl; [|tauto].
  unfold last_free. simpl. rewrite andb_false_r. tauto.
Qed.

Lemma last_free_snoc l a sz f : last_free (l ++ [(a, (sz, f))]) = f.
Proof. unfold last_free. by rewrite list.last_snoc. Qed.

Lemma last_free_app l z l2 : last_free (l ++ z :: l2) = last_free (z :: l2).
Proof. unfold last_free. by rewrite list.last_app_cons. Qed.

Lemma last_free_cons z z' l2 : z.2.2 = z'.2.2 → last_free (z :: l2) = last_free (z' :: l2).
Proof. unfold last_free. destruct l2; simpl; [|done]. by destruct z as [? []], z' as [? []]. Qed.

(** The headers are the blocks [segs], no two neighbours are free, and the last is taken. *)
Record repr h segs : Prop := {
  re_shape : shape h segs;
  re_apart : apart segs;
  re_last : last_free segs = false;
}.

Lemma first_free_cropped a sz req l : first_free (cropped a sz req false ++ l) = false.
Proof. unfold cropped. by case_ltb. Qed.

Lemma cropped_apart a sz req l :
  first_free l = false → apart l → apart (cropped a sz req false ++ l).
Proof. intros Hf Hl. unfold cropped. case_ltb; simpl; [done|]. by rewrite Hf. Qed.

Lemma elem_cropped a sz req b sb :
  (b, (sb, false)) ∈ cropped a sz req false ↔
  b = a ∧ sb = if sz - req <=? HEADER_SIZE then sz else req.
Proof.
  unfold cropped. case_ltb; rewrite ?elem_of_cons, ?elem_of_nil; naive_solver.
Qed.

Lemma elem_mid {X} (l1 : list X) z l2 : z ∈ l1 ++ z :: l2.
Proof. apply elem_of_app. right. by left. Qed.

(** There are no more blocks than headers in memory. *)
Lemma shape_length h segs : shape h segs → (length segs <= base.size (blocks h))%nat.
Proof.
  intros Hsh. rewrite <- (length_fmap fst segs), <- size_dom.
  rewrite <- (size_list_to_set (C := gset Z)) by (by eapply sh_nodup). apply subseteq_size.
  intros a Ha%elem_of_list_to_set. apply elem_of_dom.
  destruct (blk_at_chain _ _ _ _ _ (sh_chain _ _ _ Hsh) Ha) as [x Hx]. unfold blk_at in Hx.
  by destruct (blocks h !! a).
Qed.

(** A block that is in the chain twice is the same block. *)
Lemma segs_unique segs a x y : NoDup segs.*1 → (a, x) ∈ segs → (a, y) ∈ segs → x = y.
Proof.
  intros Hnd (l1 & l2 & ->)%list_elem_of_split Hy.
  apply NoDup_mid in Hnd as (_ & _ & H1 & H2 & _).
  apply elem_of_app in Hy as [Hy|[[= ->]|Hy]%elem_of_cons]; [|done|].
  - destruct H1. by apply (list_elem_of_fmap_2 fst _ (a, y)).
  - destruct H2. by apply (list_elem_of_fmap_2 fst _ (a, y)).
Qed.

(** What [_kmalloc] does to the blocks: the taken blocks are those that were taken and the new
    one; the break moves only if no free block is large enough. *)
Record alloc_post h segs n a h' segs' : Prop := {
  ap_repr : repr h' segs';
  ap_new : ∃ sz, (a, (sz, false)) ∈ segs' ∧ HEADER_SIZE + n <= sz <= HEADER_SIZE + n + HEADER_SIZE;
  ap_fresh : ∀ sz, (a, (sz, false)) ∉ segs;
  ap_others : ∀ b sz, b ≠ a → (b, (sz, false)) ∈ segs' ↔ (b, (sz, false)) ∈ segs;
  ap_fit : kheap_break h' = kheap_break h ∧ (∃ sz, (a, (sz, true)) ∈ segs) ∨
           kheap_break h' = kheap_break h + HEADER_SIZE + n ∧ no_fit (HEADER_SIZE + n) segs;
  ap_world : hc_more (world h) (world h');
}.

Lemma alloc_fit_post h m1 a sz m2 n h' :
  repr h (m1 ++ (a, (sz, true)) :: m2) → HEADER_SIZE + n <= sz → 0 <= n →
  shape h' (m1 ++ cropped a sz (HEADER_SIZE + n) false ++ m2) → kheap_break h' = kheap_break h → world h' = world h →
  alloc_post h (m1 ++ (a, (sz, true)) :: m2) n a h' (m1 ++ cropped a sz (HEADER_SIZE + n) false ++ m2).
Proof.
  intros [Hsh Hap Hla] Hfit Hn Hsh' Hbrk Hwd. pose proof (sh_nodup _ _ _ Hsh) as Hnd.
  pose proof (sh_nodup _ _ _ Hsh') as Hnd'.
  apply apart_app in Hap as (Hap1 & Hap2 & _). simpl in Hap2. destruct Hap2 as [Hff Hap2].
  rewrite last_free_app in Hla.
  assert (m2 ≠ []) as Hm2 by (by intros ->).
  split.
  - split; [done| |].
    + apply apart_app. rewrite first_free_cropped, andb_false_r. split_and!; [done| |done].
      by apply cropped_apart.
    + destruct m2 as [|z m2]; [done|]. rewrite app_assoc, last_free_app. exact Hla.
  - exists (if sz - (HEADER_SIZE + n) <=? HEADER_SIZE then sz else HEADER_SIZE + n). split.
    + rewrite !elem_of_app, elem_cropped. tauto.
    + pose proof hc_header_pos. case_ltb; lia.
  - intros sb Hin. by pose proof (segs_unique _ a _ (sz, true) Hnd Hin (elem_mid _ _ _)).
  - intros b sb Hne. rewrite !elem_of_app, elem_of_cons, elem_cropped. naive_solver.
  - left. split; [done|]. exists sz. apply elem_of_app. right. by left.
  - by rewrite Hwd.
Qed.

Lemma heap_alloc_spec h segs n :
  repr h segs → 0 <= n → kheap_break h + HEADER_SIZE + n < 2 ^ hc_width - 1 →
  (∃ a h' segs', heap_alloc n h = Ok (a + HEADER_SIZE, h') ∧ alloc_post h segs n a h' segs') ∨
  (∃ w, hc_moved (kheap_break h) (kheap_break h + (n + HEADER_SIZE)) (world h) = Stop w ∧
        heap_alloc n h = Stop w).
Proof.
  intros Hre Hn Hroom. pose proof Hre as [Hsh Hap Hla].
  pose proof hc_start_range. pose proof hc_header_pos. pose proof (tiles_le _ _ _ (sh_tiles _ _ _ Hsh)).
  unfold heap_alloc. rewrite (sh_start _ _ _ Hsh).
  destruct (find_block_spec (walk_fuel h) h [] segs n)
    as [(m1 & a & sz & m2 & h' & -> & Hfit & _ & Hf & Ha0 & Hsh' & Hb' & Hwd)|[Hf Hno]]; [done| |lia|lia| |].
  { unfold walk_fuel. pose proof (shape_length _ _ Hsh). lia. }
  - left. rewrite Hf. simpl. rewrite (proj2 (Z.eqb_neq a 0)) by done. simpl.
    exists a, h', (m1 ++ cropped a sz (HEADER_SIZE + n) false ++ m2). split.
    + do 2 f_equal. apply wrap_small.
      destruct (sh_range _ _ _ a Hsh) as [? ?].
      { rewrite fmap_app, elem_of_app. right. by left. }
      pose proof (sh_brk _ _ _ Hsh). lia.
    + by apply alloc_fit_post.
  - rewrite Hf. simpl. destruct (extend_spec h segs n Hsh Hn Hroom) as [(h' & He & Hsh' & Hb' & Hmore)|(w & Hw & He)].
    + left. exists (kheap_break h), h', (segs ++ [(kheap_break h, (HEADER_SIZE + n, false))]).
      split; [done|]. pose proof (sh_nodup _ _ _ Hsh') as Hnd. split.
      * split; [done| |by rewrite last_free_snoc]. apply apart_app. simpl. rewrite andb_false_r. by split_and!.
      * exists (HEADER_SIZE + n). split; [apply elem_of_app; right; by left|lia].
      * intros sz Hin. apply NoDup_mid in Hnd as (_ & _ & Hni & _). apply Hni.
        by apply (list_elem_of_fmap_2 fst _ (_, (sz, false))).
      * intros b sz Hne. rewrite elem_of_app, list_elem_of_singleton. naive_solver.
      * by right.
      * done.
    + right. by exists w.
Qed.

(** [segs'] has the taken blocks of [segs]. *)
Definition same_taken segs segs' : Prop :=
  ∀ b sz, (b, (sz, false)) ∈ segs' ↔ (b, (sz, false)) ∈ segs.

Lemma merge_next_spec h l1 a sz l2 :
  shape h (l1 ++ (a, (sz, true)) :: l2) → apart l2 →
  ∃ h' sz' l2', merge_next a h = Ok h' ∧ shape h' (l1 ++ (a, (sz', true)) :: l2') ∧
    first_free l2' = false ∧ apart l2' ∧ same_taken l2 l2' ∧ kheap_break h' = kheap_break h ∧ world h' = world h.
Proof.
  intros Hsh Hap. pose proof (sh_blk _ _ _ _ _ _ Hsh) as Ha.
  unfold merge_next. rewrite (blk_at_rd _ _ _ _ _ _ Ha). simpl.
  destruct l2 as [|[b [sb f]] l2]; simpl.
  - exists h, sz, []. by split_and!.
  - pose proof (sh_blk [] h (l1 ++ [(a, (sz, true))]) b (sb, f) l2) as Hb.
    rewrite <- app_assoc in Hb. specialize (Hb Hsh).
    rewrite (proj2 (Z.eqb_neq b 0)).
    2: { eapply sh_nonnull; [exact Hsh|]. rewrite fmap_app, elem_of_app. right. right. by left. }
    simpl. rewrite (blk_at_rd _ _ _ _ _ _ Hb). simpl. simpl in Hap. destruct Hap as [Hff Hap].
    destruct f.
    + destruct (merge_spec _ _ _ _ _ _ _ _ _ Hsh) as (h' & Hm & Hsh' & Hb' & Hwd).
      exists h', (sz + sb), l2. split_and!; try done. intros c sc. rewrite elem_of_cons. naive_solver.
    + exists h, sz, ((b, (sb, false)) :: l2). by split_and!.
Qed.

Lemma merge_prev_spec h l1 a sz l2 :
  shape h (l1 ++ (a, (sz, true)) :: l2) → apart l1 →
  ∃ h' a' sz' l1', merge_prev a h = Ok h' ∧ shape h' (l1' ++ (a', (sz', true)) :: l2) ∧
    last_free l1' = false ∧ apart l1' ∧ same_taken l1 l1' ∧ kheap_break h' = kheap_break h ∧ world h' = world h.
Proof.
  intros Hsh Hap. pose proof (sh_blk _ _ _ _ _ _ Hsh) as Ha.
  unfold merge_prev. rewrite (blk_at_rd _ _ _ _ _ _ Ha). simpl.
  destruct l1 as [|[b [sb f]] l1 _] using rev_ind; simpl.
  - exists h, a, sz, []. by split_and!.
  - rewrite last_addr_app. simpl. rewrite <- app_assoc in Hsh. simpl in Hsh.
    pose proof (sh_blk [] h l1 b (sb, f) _ Hsh) as Hb.
    rewrite (proj2 (Z.eqb_neq b 0)).
    2: { eapply sh_nonnull; [exact Hsh|]. rewrite fmap_app, elem_of_app. right. by left. }
    simpl. rewrite (blk_at_rd _ _ _ _ _ _ Hb). simpl.
    apply apart_app in Hap as (Hap & _ & Hlf). simpl in Hlf.
    destruct f.
    + destruct (merge_spec _ _ _ _ _ _ _ _ _ Hsh) as (h' & Hm & Hsh' & Hb' & Hwd).
      exists h', b, (sb + sz), l1. rewrite andb_true_r in Hlf. split_and!; try done.
      intros c sc. rewrite elem_of_app, list_elem_of_singleton. naive_solver.
    + exists h, a, sz, (l1 ++ [(b, (sb, false))]). rewrite <- app_assoc, last_free_snoc.
      split_and!; try done. apply apart_app. simpl. by rewrite andb_false_r.
Qed.

Lemma same_taken_free l1 l2 : Forall (λ z, z.2.2 = true) l2 → same_taken (l1 ++ l2) l1.
Proof.
  intros Hall b sz. rewrite elem_of_app. split; [by left|]. intros [?|Hin]; [done|].
  rewrite list.Forall_forall in Hall. by specialize (Hall _ Hin).
Qed.

(** [kfree] of a taken block leaves the other blocks. *)
Lemma heap_free_spec h l1 a sz l2 :
  repr h (l1 ++ (a, (sz, false)) :: l2) →
  ∃ h' segs', heap_free (a + HEADER_SIZE) h = Ok h' ∧ repr h' segs' ∧
    same_taken (l1 ++ l2) segs' ∧ kheap_break h' <= kheap_break h ∧ hc_less (world h) (world h').
Proof.
  intros [Hsh Hap _]. apply apart_app in Hap as (Hap1 & [_ Hap2] & _).
  pose proof (sh_blk _ _ _ _ _ _ Hsh) as Ha.
  assert (wrap (a + HEADER_SIZE - HEADER_SIZE) = a) as Hwrap.
  { destruct (sh_range _ _ _ a Hsh); [rewrite fmap_app, elem_of_app; right; by left|].
    pose proof (sh_brk _ _ _ Hsh). pose proof hc_start_range. pose proof hc_header_pos.
    rewrite wrap_small by lia. lia. }
  unfold heap_free. rewrite Hwrap, (blk_at_rd _ _ _ _ _ _ Ha). simpl. rewrite hc_check_true. simpl.
  destruct (wr_available_spec h l1 a sz false l2 true Hsh) as (h1 & Hw1 & Hsh1 & Hb1 & Hd1 & _).
  rewrite Hw1. simpl.
  destruct (merge_next_spec _ _ _ _ _ Hsh1 Hap2) as (h2 & sz2 & l2' & Hm2 & Hsh2 & Hff & Hap2' & Ht2 & Hb2 & Hd2).
  rewrite Hm2. simpl.
  destruct (merge_prev_spec _ _ _ _ _ Hsh2 Hap1) as (h3 & a3 & sz3 & l1' & Hm3 & Hsh3 & Hlf & Hap1' & Ht1 & Hb3 & Hd3).
  rewrite Hm3. simpl.
  destruct (shrink_spec (walk_fuel h3) h3 _ Hsh3) as (h4 & s1 & s2 & Hs & Heq & Hsh4 & Hl4 & Hall & Hb4 & Hd4).
  { unfold walk_fuel. pose proof (shape_length _ _ Hsh3). lia. }
  exists h4, s1. split_and!; [done| | |lia|by rewrite <- Hd1, <- Hd2, <- Hd3].
  - split; [done| |done].
    assert (apart (s1 ++ s2)) as Hap4; [|by apply apart_app in Hap4 as [? _]].
    rewrite <- Heq. apply apart_app. simpl. rewrite Hlf, Hff. by split_and!.
  - intros b sb. rewrite (same_taken_free s1 s2 Hall b sb), <- Heq, !elem_of_app, elem_of_cons.
    rewrite (Ht1 b sb), (Ht2 b sb). naive_solver.
Qed.

(** ** What a client sees *)

(** The allocated blocks: from the address that [_kmalloc] returned to the bytes usable there. *)
Definition allocated h : gmap Z Z :=
  kmap (λ a, a + HEADER_SIZE)
    (omap (λ b, if (magic b =? HEAP_MAGIC) && negb (available b) then Some (size b - HEADER_SIZE)
                else None) (blocks h)).

(** The heap is in a state that a sequence of calls can reach. *)
Definition heap_inv h : Prop := ∃ segs, repr h segs.

#[local] Instance add_header_inj : Inj (=) (=) (λ a : Z, a + HEADER_SIZE).
Proof. intros a b. lia. Qed.

Lemma chain_elem m pv l n a p x y :
  dseg (blk_at m) pv l n → blk_at m a = Some (p, x, y) → a ∈ l.*1 → (a, y) ∈ l.
Proof.
  intros Hc Ha ([b z] & -> & Hin)%list_elem_of_fmap. pose proof Hin as (l1 & l2 & ->)%list_elem_of_split.
  pose proof (dseg_lookup _ _ _ _ _ _ _ Hc) as Hb. simpl in Ha. rewrite Hb in Ha. by injection Ha as _ _ <-.
Qed.

Lemma allocated_lookup h segs p c :
  shape h segs → allocated h !! p = Some c ↔ (p - HEADER_SIZE, (c + HEADER_SIZE, false)) ∈ segs.
Proof.
  intros Hsh. unfold allocated. rewrite lookup_kmap_Some by apply _. split.
  - intros (a & -> & Ha). rewrite Z.add_simpl_r. rewrite lookup_omap_Some in Ha.
    destruct Ha as (b & Hb & Hm). destruct b as [av mg pv nx sz]. simpl in Hb.
    destruct (Z.eqb_spec mg HEAP_MAGIC) as [->|]; [|done]. destruct av; [done|]. simpl in Hb.
    injection Hb as <-. rewrite Z.sub_add.
    assert (blk_at (blocks h) a = Some (pv, nx, (sz, false))) as Hat by (unfold blk_at; by rewrite Hm).
    eapply chain_elem; [apply (sh_chain _ _ _ Hsh)|exact Hat|].
    by destruct (sh_magic _ _ _ Hsh a) as [?|?%elem_of_nil]; [rewrite Hat|..].
  - intros Hin. exists (p - HEADER_SIZE). split; [lia|].
    pose proof Hin as (l1 & l2 & ->)%list_elem_of_split.
    pose proof (sh_blk _ _ _ _ _ _ Hsh) as Hat. unfold blk_at in Hat. rewrite lookup_omap_Some.
    destruct (blocks h !! (p - HEADER_SIZE)) as [b|] eqn:Hb; [|done]. exists b. split; [|done].
    simpl in Hat. destruct (magic b =? HEAP_MAGIC); [|done]. injection Hat as _ _ -> ->. simpl. f_equal. lia.
Qed.

Lemma allocated_ext h segs h' segs' (P : Z → Z → Prop) :
  shape h segs → shape h' segs' →
  (∀ b sz, P b sz → (b, (sz, false)) ∈ segs' ↔ (b, (sz, false)) ∈ segs) →
  ∀ p c, P (p - HEADER_SIZE) (c + HEADER_SIZE) → allocated h' !! p = Some c ↔ allocated h !! p = Some c.
Proof.
  intros Hsh Hsh' Hiff p c HP. rewrite (allocated_lookup h segs), (allocated_lookup h' segs') by done.
  by apply Hiff.
Qed.

Lemma alloc_post_allocated h segs n a h' segs' :
  repr h segs → alloc_post h segs n a h' segs' →
  ∃ c, n <= c <= n + HEADER_SIZE ∧ allocated h !! (a + HEADER_SIZE) = None ∧
       allocated h' = <[a + HEADER_SIZE := c]> (allocated h).
Proof.
  intros [Hsh _ _] [[Hsh' _ _] (sz & Hin & Hsz) Hfresh Hoth _].
  exists (sz - HEADER_SIZE). split; [lia|]. split.
  - apply eq_None_not_Some. intros [c Hc]. apply (allocated_lookup h segs) in Hc; [|done].
    rewrite Z.add_simpl_r in Hc. by eapply Hfresh.
  - apply map_eq. intros q. apply option_eq. intros c.
    destruct (decide (q = a + HEADER_SIZE)) as [->|Hne].
    + rewrite lookup_insert_eq, (allocated_lookup h' segs') by done. rewrite Z.add_simpl_r. split.
      * intros Hc. pose proof (segs_unique _ _ _ _ (sh_nodup _ _ _ Hsh') Hc Hin) as [= <-]. f_equal. lia.
      * intros [= <-]. by rewrite Z.sub_add.
    + rewrite lookup_insert_ne by done. eapply (allocated_ext h segs h' segs' (λ b _, b ≠ a)); [done|done| |lia].
      intros b sb. apply Hoth.
Qed.

Lemma heap_free_allocated h p c :
  heap_inv h → allocated h !! p = Some c →
  ∃ h', heap_free p h = Ok h' ∧ heap_inv h' ∧ allocated h' = delete p (allocated h) ∧
        kheap_break h' <= kheap_break h ∧ hc_less (world h) (world h').
Proof.
  intros [segs Hre] Hp. pose proof Hre as [Hsh _ _]. apply (allocated_lookup h segs) in Hp; [|done].
  pose proof (sh_nodup _ _ _ Hsh) as Hnd. apply list_elem_of_split in Hp as (l1 & l2 & ->).
  destruct (heap_free_spec _ _ _ _ _ Hre) as (h' & segs' & Hf & Hre' & Ht & Hb & Hless).
  rewrite Z.sub_add in Hf. exists h'. split_and!; [done|by exists segs'| |done|done].
  apply map_eq. intros q. apply option_eq. intros d. rewrite lookup_delete_Some.
  rewrite (allocated_lookup h' segs') by apply Hre'. rewrite (allocated_lookup h _ q d Hsh).
  rewrite (Ht _ _), !elem_of_app, elem_of_cons.
  destruct (NoDup_mid _ _ _ _ Hnd) as (_ & _ & H1 & H2 & _). split.
  - intros Hin. split; [|tauto]. intros <-.
    by destruct Hin as [Hin|Hin]; [apply H1|apply H2]; apply (list_elem_of_fmap_2 fst) in Hin.
  - intros [Hne [?|[[= ? ?]|?]]]; [by left| |by right]. exfalso. apply Hne. lia.
Qed.

(** The pointer test of [kfree] accepts every allocated pointer. *)
Lemma kfree_check_allocated h p c :
  heap_inv h → allocated h !! p = Some c → kfree_check p h = Ok tt.
Proof.
  intros [segs [Hsh _ _]] Hp. apply (allocated_lookup h segs) in Hp; [|done].
  unfold kfree_check. apply list_elem_of_split in Hp as (l1 & l2 & ->).
  pose proof (sh_tiles _ _ _ Hsh) as Ht. pose proof (sh_brk _ _ _ Hsh).
  pose proof hc_start_range. pose proof hc_header_pos.
  assert (∀ b, b ∈ (l1 ++ (p - HEADER_SIZE, (c + HEADER_SIZE, false)) :: l2).*1 →
     KHEAP_START <= b ∧ b + HEADER_SIZE <= kheap_break h) as Hr by (intros b; by apply tiles_addr).
  assert (heap_start h ≠ 0 ∧ heap_start h <= p - HEADER_SIZE) as [Hs0 Hsp].
  { rewrite (sh_start _ _ _ Hsh), head_addr_app. destruct l1 as [|[b [sb f]] l1]; simpl.
    - destruct (Hr (p - HEADER_SIZE)); [by left|]. lia.
    - destruct (Hr b); [by left|]. split; [lia|]. simpl in Ht. destruct Ht as (-> & Hsb & Ht).
      destruct (tiles_addr _ _ _ (p - HEADER_SIZE) Ht); [rewrite fmap_app, elem_of_app; right; by left|lia]. }
  assert (p - HEADER_SIZE <= heap_last h ∧ heap_last h + HEADER_SIZE <= kheap_break h) as [Hlp Hlb].
  { rewrite (sh_last _ _ _ Hsh), last_addr_app. simpl. apply tiles_app in Ht as (m & Ht1 & <- & Hsz & Ht2).
    destruct l2 as [|z l2]; simpl; [destruct (Hr (p - HEADER_SIZE)); [rewrite fmap_app, elem_of_app; right; by left|lia]|].
    destruct z as [b y]. assert (last_addr ((b, y) :: l2) 0 ∈ ((b, y) :: l2).*1) as Hin by by apply last_addr_in.
    destruct (tiles_addr _ _ _ _ Ht2 Hin). simpl in *. lia. }
  destruct (Hr (p - HEADER_SIZE)) as [Hp1 Hp2]; [rewrite fmap_app, elem_of_app; right; by left|].
  rewrite (wrap_small (heap_last h + HEADER_SIZE)) by lia.
  rewrite (proj2 (Z.eqb_neq _ _)), (proj2 (Z.eqb_neq _ _)), (proj2 (Z.ltb_ge _ _)), (proj2 (Z.ltb_ge _ _)) by lia.
  apply hc_check_true.
Qed.

(** An allocated block lies between the start of the heap and the break. *)
Lemma heap_blocks_bounds h :
  heap_inv h → ∀ p c, allocated h !! p = Some c →
  KHEAP_START + HEADER_SIZE <= p ∧ 0 <= c ∧ p + c <= kheap_break h.
Proof.
  intros [segs [Hsh _ _]] p c Hp. apply (allocated_lookup h segs) in Hp; [|done].
  destruct (tiles_in _ _ _ _ _ _ (sh_tiles _ _ _ Hsh) Hp). lia.
Qed.

(** C9: Allocation.  In a heap that satisfies the invariant, [_kmalloc] of [n] bytes either
    stops where mapping the new pages stops, or returns a pointer to at least [n] bytes that
    was not allocated, records it and no other change among the allocated blocks, and keeps
    the invariant; the waste is at most one header, and the break moves by the size of the
    new block or not at all. *)
Theorem heap_alloc_correct h n :
  heap_inv h → 0 <= n → kheap_break h + HEADER_SIZE + n < 2 ^ hc_width - 1 →
  (∃ p h' c, heap_alloc n h = Ok (p, h') ∧ heap_inv h' ∧ n <= c <= n + HEADER_SIZE ∧
     allocated h !! p = None ∧ allocated h' = <[p := c]> (allocated h) ∧
     (kheap_break h' = kheap_break h ∨ kheap_break h' = kheap_break h + HEADER_SIZE + n)) ∨
  (∃ w, hc_moved (kheap_break h) (kheap_break h + (n + HEADER_SIZE)) (world h) = Stop w ∧
        heap_alloc n h = Stop w).
Proof.
  intros [segs Hre] Hn Hroom.
  destruct (heap_alloc_spec h segs n Hre Hn Hroom) as [(a & h' & segs' & Ha & Hpost)|?]; [left|by right].
  destruct (alloc_post_allocated _ _ _ _ _ _ Hre Hpost) as (c & Hc & Hnone & Hins).
  exists (a + HEADER_SIZE), h', c. split_and!; try done; try lia.
  - exists segs'. apply Hpost.
  - destruct (ap_fit _ _ _ _ _ _ Hpost) as [[? _]|[? _]]; [by left|by right].
Qed.

(** C10: Freeing.  [kfree] of an allocated pointer passes both tests, removes this pointer and
    no other from the allocated blocks and keeps the invariant; the break never moves up, and the
    world changes only in the way of moving it back. *)
Theorem heap_free_correct h p c :
  heap_inv h → allocated h !! p = Some c →
  kfree_check p h = Ok tt ∧
  ∃ h', heap_free p h = Ok h' ∧ heap_inv h' ∧ allocated h' = delete p (allocated h) ∧
        kheap_break h' <= kheap_break h ∧ hc_less (world h) (world h').
Proof.
  intros Hinv Hp. split; [by eapply kfree_check_allocated|]. by eapply heap_free_allocated.
Qed.

(** Memory safety of the heap: allocated blocks lie between the start of the heap and the
    break, leave room for a header in front of each, and do not overlap, headers included;
    and when nothing is allocated the heap has been given back entirely (no fragmentation
    survives: free neighbours are merged and free blocks at the end are dropped). *)
Theorem heap_blocks_disjoint h :
  heap_inv h →
  (∀ p c, allocated h !! p = Some c →
     KHEAP_START + HEADER_SIZE <= p ∧ 0 <= c ∧ p + c <= kheap_break h) ∧
  (∀ p c q d, allocated h !! p = Some c → allocated h !! q = Some d → p ≠ q →
     p + c <= q - HEADER_SIZE ∨ q + d <= p - HEADER_SIZE) ∧
  (allocated h = ∅ → kheap_break h = KHEAP_START).
Proof.
  intros Hinv. pose proof (heap_blocks_bounds h Hinv) as Hbounds.
  destruct Hinv as [segs [Hsh Hap Hla]]. pose proof (sh_tiles _ _ _ Hsh) as Ht. split_and!; [done| |].
  - intros p c q d Hp Hq Hne. apply (allocated_lookup h segs) in Hp, Hq; [|done..].
    destruct (tiles_disjoint _ _ _ _ _ _ _ _ _ Ht Hp Hq); lia.
  - intros Hemp. destruct segs as [|[a [sz f]] l _] using rev_ind; [by simpl in Ht|]. exfalso.
    rewrite last_free_snoc in Hla. subst f.
    assert (allocated h !! (a + HEADER_SIZE) = Some (sz - HEADER_SIZE)) as Hs; [|by rewrite Hemp in Hs].
    apply (allocated_lookup h _ _ _ Hsh). rewrite Z.add_simpl_r, Z.sub_add. apply elem_mid.
Qed.

(** The walk of the two diagnostic functions along a part of the chain. *)
Lemma walks_segment h segs l1 l2 fuel :
  shape h segs → segs = l1 ++ l2 → (length l2 < fuel)%nat →
  check_corrupt fuel (head_addr l2 0) h = Ok tt ∧
  dump_blocks fuel (head_addr l2 0) h =
    Ok ((λ '(a, (sz, f)), if (f : bool) then None else Some (a + HEADER_SIZE, sz)) <$> l2).
Proof.
  intros Hsh. revert l1 fuel. induction l2 as [|[a [sz f]] l2 IH]; intros l1 fuel Heq Hf; (destruct fuel as [|fuel]; [simpl in Hf; lia|]).
  { done. }
  assert (a ∈ segs.*1) as Hin by (subst; rewrite fmap_app; apply elem_of_app; right; by left).
  pose proof (sh_nonnull _ _ _ _ Hsh Hin) as Hnn. destruct (sh_range _ _ _ _ Hsh Hin) as [Hlo Hhi].
  pose proof (sh_brk _ _ _ Hsh). pose proof hc_start_range. pose proof hc_header_pos.
  destruct (IH (l1 ++ [(a, (sz, f))]) fuel) as [Hc Hd]; [by rewrite <- app_assoc|simpl in Hf; lia|].
  subst segs. pose proof (sh_blk _ _ _ _ _ _ Hsh) as Ha. cbn [check_corrupt dump_blocks head_addr fmap list_fmap].
  rewrite (proj2 (Z.eqb_neq a 0)) by done. rewrite (blk_at_rd _ _ _ _ _ _ Ha). cbn [mbind res_bind magic next available size].
  rewrite Z.eqb_refl, hc_check_true. cbn [mbind res_bind]. rewrite Hc, Hd. cbn [mbind res_bind]. rewrite wrap_small by lia. by destruct f.
Qed.

(** The diagnostic functions.  On a heap in order, the check passes and the dump lists exactly its blocks, from the lowest
    one up; nothing runs out of fuel.  When the header of some block behind an intact part of the chain is overwritten, so
    that its magic number is gone, the check reports it. *)
Theorem heap_diagnostics h :
  (∀ segs, shape h segs → kheap_check_corrupt h = Ok tt ∧
     dump_heap h = Ok ((λ '(a, (sz, f)), if (f : bool) then None else Some (a + HEADER_SIZE, sz)) <$> segs)) ∧
  (∀ l a b, dseg (blk_at (blocks h)) 0 l a → heap_start h = head_addr l a → Forall (λ x, x ≠ 0) l.*1 → (length l < base.size (blocks h))%nat →
     a ≠ 0 → blocks h !! a = Some b → magic b ≠ HEAP_MAGIC → hc_check false = Stop Panic → kheap_check_corrupt h = Stop Panic).
Proof.
  split.
  - intros segs Hsh. unfold kheap_check_corrupt, dump_heap. rewrite (sh_start _ _ _ Hsh).
    apply (walks_segment h segs [] segs); [done|done|]. unfold walk_fuel. pose proof (shape_length _ _ Hsh). lia.
  - intros l a b Hl Hst Hnz Hlen Ha Hb Hm Hpanic. unfold kheap_check_corrupt, walk_fuel. rewrite Hst. clear Hst.
    assert (length l < S (base.size (blocks h)))%nat as Hf by lia. clear Hlen. revert Hf. generalize (S (base.size (blocks h))) as fuel.
    revert Hl Hnz. generalize 0 at 1 as pv. induction l as [|[c [sz f]] l IH]; intros pv Hl Hnz [|fuel] Hf; try (simpl in Hf; lia);
      cbn [check_corrupt head_addr].
    + rewrite (proj2 (Z.eqb_neq a 0)) by done. unfold rd. rewrite Hb. simpl. by rewrite (proj2 (Z.eqb_neq _ _) Hm), Hpanic.
    + cbn in Hnz. apply list.Forall_cons in Hnz as [Hc Hnz]. destruct Hl as [Hcb Hl].
      rewrite (proj2 (Z.eqb_neq c 0)) by done. rewrite (blk_at_rd _ _ _ _ _ _ Hcb). cbn [mbind res_bind magic next].
      rewrite Z.eqb_refl, hc_check_true. cbn [mbind res_bind]. apply (IH c Hl Hnz). simpl in Hf. lia.
Qed.

(** A pointer that is not allocated, such as one that has been freed, is never freed:
    [kfree] stops (it panics in a build whose check panics) as long as the header in front
    of it is what the heap wrote there. *)
Theorem heap_free_unallocated h p :
  heap_inv h → allocated h !! p = None → hc_check false = Stop Panic →
  HEADER_SIZE <= p < 2 ^ hc_width →
  heap_free p h = Stop (match blocks h !! (p - HEADER_SIZE) with Some _ => Panic | None => Fault end).
Proof.
  intros [segs [Hsh _ _]] Hp Hchk Hrange. pose proof hc_header_pos. unfold heap_free.
  rewrite wrap_small by lia. unfold rd. destruct (blocks h !! (p - HEADER_SIZE)) as [b|] eqn:Hb; [|done].
  simpl. destruct (Z.eqb_spec (magic b) HEAP_MAGIC) as [Hm|Hm]; simpl; [|by rewrite Hchk].
  destruct (available b) eqn:Hav; simpl; [by rewrite Hchk|]. exfalso.
  assert (allocated h !! p = Some (size b - HEADER_SIZE)) as Hs; [|by rewrite Hs in Hp].
  unfold allocated. apply lookup_kmap_Some; [apply _|]. exists (p - HEADER_SIZE). split; [lia|].
  rewrite lookup_omap_Some. exists b. split; [|done]. by rewrite Hm, Hav.
Qed.

(** An empty heap. *)
Lemma heap_inv_empty w :
  hc_inv KHEAP_START w →
  heap_inv {| kheap_break := KHEAP_START; heap_start := 0; heap_last := 0; blocks := ∅; world := w |}.
Proof.
  intros Hw. exists []. split; [|done|done]. split; simpl; try done.
  - intros a [x Hx]. unfold blk_at in Hx. by rewrite lookup_empty in Hx.
  - apply hc_start_range.
Qed.
End proofs.

(** ** Concrete runs *)

(** A heap whose break moves freely. *)
Module Flat.
#[export] Instance cfg : HeapCfg unit :=
  {| hc_width := 64; HEADER_SIZE := 32; KHEAP_START := 0xffffe00000000000;
     hc_check := kpanic; hc_moved orig new w := Ok w |}.

#[export] Instance laws : HeapLaws unit.
Proof. refine {| hc_inv brk w := True; hc_less := eq; hc_more := eq |}; try done; intros; [by simplify_eq/=|by exists w]. Defined.

Definition empty : heap_t unit :=
  {| kheap_break := 0xffffe00000000000; heap_start := 0; heap_last := 0; blocks := ∅; world := tt |}.

Lemma empty_inv : heap_inv empty.
Proof. exact (heap_inv_empty tt I). Qed.
End Flat.
Import Flat.

Lemma heap_alloc_correct_witness :
  ∃ h', heap_alloc 100 empty = Ok (0xffffe00000000020, h') ∧ heap_inv h' ∧
        allocated h' = {[0xffffe00000000020 := 100]}.
Proof.
  destruct (heap_alloc_correct empty 100) as [(p & h' & c & Ha & Hinv & _ & _ & Hal & _)|(w & H & _)].
  - exact empty_inv.
  - lia.
  - reflexivity.
  - assert (heap_alloc 100 empty = Ok (0xffffe00000000020, h')) as Ha'.
    { rewrite Ha. vm_compute in Ha. injection Ha as <- _. reflexivity. }
    exists h'. split; [exact Ha'|]. split; [exact Hinv|].
    vm_compute in Ha'. injection Ha' as <-. reflexivity.
  - discriminate H.
Defined.

(** A heap with one block of 100 bytes. *)
Definition one_block : heap_t unit :=
  {| kheap_break := 0xffffe00000000084; heap_start := 0xffffe00000000000;
     heap_last := 0xffffe00000000000;
     blocks := {[ 0xffffe00000000000 := {| available := false; magic := HEAP_MAGIC; prev := 0;
                                           next := 0; size := 132 |} ]};
     world := tt |}.

Lemma one_block_inv : heap_inv one_block.
Proof.
  exists [(0xffffe00000000000, (132, false))]. split; [|by vm_compute|reflexivity].
  split; try reflexivity.
  - repeat split; reflexivity.
  - repeat split; simpl; lia.
  - intros a [x Hx]. left. unfold blk_at in Hx. simpl in Hx.
    destruct (decide (a = 0xffffe00000000000)) as [->|Hne]; [by left|].
    by rewrite lookup_singleton_ne in Hx.
Qed.

Lemma heap_free_correct_witness :
  ∃ h', heap_free 0xffffe00000000020 one_block = Ok h' ∧ heap_inv h' ∧ allocated h' = ∅.
Proof.
  destruct (heap_free_correct one_block 0xffffe00000000020 100) as (_ & h' & Hf & Hinv & Hal & _).
  - exact one_block_inv.
  - reflexivity.
  - exists h'. split; [exact Hf|]. split; [exact Hinv|]. rewrite Hal. reflexivity.
Defined.

Lemma heap_blocks_disjoint_witness : allocated one_block !! 0xffffe00000000020 = Some 100 ∧
  0xffffe00000000020 + 100 <= kheap_break one_block.
Proof.
  destruct (heap_blocks_disjoint one_block one_block_inv) as [H _].
  split; [reflexivity|]. apply (H 0xffffe00000000020 100). reflexivity.
Defined.

Lemma heap_free_unallocated_witness : heap_free 0xffffe00000000040 one_block = Stop Fault.
Proof.
  refine (heap_free_unallocated one_block 0xffffe00000000040 one_block_inv _ _ _);
    [reflexivity|reflexivity|split; [vm_compute; discriminate|reflexivity]].
Defined.
