(* ===== verification/Vspace.v ===== *)
(** Address spaces: the four-level page tables of arch/x86_64/x86_64/vspace.c over the RAM
    and the page allocator of PageAlloc.v. *)
From S2P Require Import Prelude Words Mutex Bitmap PageAlloc Dll.
Open Scope Z_scope.

(** [IDENT_OFFSET] (kernel/arch/x86_64/x86_64/vspace.c, line 11). *)
Definition IDENT_OFFSET : Z := 0xffff800000000000.

(** Flags of a mapping. *)
(** [PG_USER] (kernel/kernel/include/mm/vspace.h, lines 7-7). *)
Definition PG_USER : Z := BIT 0.
(** [PG_WRITE] (kernel/kernel/include/mm/vspace.h, lines 8-8). *)
Definition PG_WRITE : Z := BIT 1.
(** [PG_NOEXEC] (kernel/kernel/include/mm/vspace.h, lines 9-9). *)
Definition PG_NOEXEC : Z := BIT 2.

(** A [gpte_t] is the 64-bit word that holds its bit-fields. *)
Abbreviation gpte_t := Z (only parsing).

(** The bit-fields of [gpte_t] that the code uses (kernel/arch/x86_64/x86_64/vspace.c, lines
    29-43). *)
Definition e_present (w : gpte_t) : bool := negb (bf_get 0 1 w =? 0).
Definition e_write (w : gpte_t) : Z := bf_get 1 1 w.
Definition e_user (w : gpte_t) : Z := bf_get 2 1 w.
Definition e_ppn (w : gpte_t) : Z := bf_get 12 40 w.
Definition e_noexec (w : gpte_t) : Z := bf_get 63 1 w.
Definition set_present := bf_set 0 1.
Definition set_write := bf_set 1 1.
Definition set_user := bf_set 2 1.
Definition set_ppn := bf_set 12 40.
Definition set_noexec := bf_set 63 1.

(** A [gpte_t *]: the page of the table and the index in it; [None] is NULL. *)
Abbreviation eptr := (Z * Z)%type.

(** [vaddr_t] (kernel/arch/x86_64/x86_64/vspace.c, lines 45-65), less the page numbers and
    indices that are only read back as part of the entry pointers; [va_page] tells whether
    [page] is not NULL. *)
Record vaddr_t := {
  pml4e : eptr;
  pdpte : option eptr;
  pdire : option eptr;
  ptble : option eptr;
  page_ppn : Z;
  va_page : bool;
}.

(** [vspace_t] (kernel/arch/x86_64/x86_64/vspace.c, lines 67-71). *)
Record vspace_t := { vs_lock : mutex_t; pml4_ppn : Z }.

(** The kernel's allocator draws its pages from the same physical memory as everything else:
    the pages as a part of the allocator's state. *)
Class PhysMem (A : Type) := {
  phys : A → pages_t;
  set_phys : pages_t → A → A;
  phys_set st a : phys (set_phys st a) = st;
  set_phys_set st st' a : set_phys st' (set_phys st a) = set_phys st' a;
  set_phys_phys a : set_phys (phys a) a = a;
}.
#[export] Instance pages_physmem : PhysMem pages_t.
Proof. by refine {| phys a := a; set_phys st a := st |}. Defined.

(** What the allocator needs of the physical pages: those of [km_own] are its own, and
    as long as these stay in use and keep their words, nothing else about the pages matters to it.
    An allocation takes pages that were free, and when memory is freed the allocator gives back
    pages of its own only. *)
Class KmallocFrame (A : Type) `{KL : KmallocLaws A, PM : !PhysMem A} := {
  km_own : A → Z → Prop;
  km_frame st a :
    km_inv a → pages_wf st → page_count st = page_count (phys a) →
    (∀ p, km_own a p → ram st !! p = ram (phys a) !! p ∧ (0 <= p → used (phys a) p → used st p)) →
    km_inv (set_phys st a) ∧ km_live (set_phys st a) = km_live a ∧ ∀ p, km_own (set_phys st a) p ↔ km_own a p;
  km_own_used a q : km_inv a → km_own a q → 0 <= q ∧ used (phys a) q;
  km_alloc_kept n a p a' :
    km_inv a → km_room n a → km_alloc n a = Ok (p, a') →
    (pages_wf (phys a) → pages_wf (phys a')) ∧ page_count (phys a') = page_count (phys a) ∧
    ∀ q, 0 <= q → used (phys a) q → used (phys a') q ∧ (¬ km_own a q → ¬ km_own a' q ∧ ram (phys a') !! q = ram (phys a) !! q);
  km_free_kept p a a' :
    km_inv a → p ∈ km_live a → km_free p a = Ok a' →
    (pages_wf (phys a) → pages_wf (phys a')) ∧ page_count (phys a') = page_count (phys a) ∧ (∀ q, km_own a' q → km_own a q) ∧
    ∀ q, ¬ km_own a q → ram (phys a') !! q = ram (phys a) !! q ∧ (0 <= q → used (phys a') q ↔ used (phys a) q);
}.

(** [phys_to_virt] (kernel/arch/x86_64/x86_64/vspace.c, lines 108-111). *)
Definition phys_to_virt (phys_addr : Z) : Z := u64 (phys_addr + IDENT_OFFSET).

(** [ppn_to_virt] (kernel/arch/x86_64/x86_64/vspace.c, lines 113-116). *)
Definition ppn_to_virt (ppn : Z) : Z := phys_to_virt (u64 (Z.shiftl ppn PAGE_SHIFT)).

Section operations.
Context `{B : Build} (cur : tptr).
Implicit Types (st : pages_t) (vs : vspace_t).

(** The entry of a table, read through the identity mapping: a page that is not RAM faults,
    and a word that was never written is zero. *)
Definition rd_entry st (e : eptr) : res gpte_t :=
  pg ← of_option (ram st !! e.1); mret (default 0 (pg !! e.2)).
Definition set_ram st (r : ram_t) : pages_t :=
  {| free_pages := free_pages st; free_pages_lock := free_pages_lock st; ram := r |}.
Definition wr_entry st (e : eptr) (w : gpte_t) : res pages_t :=
  pg ← of_option (ram st !! e.1);
  mret (set_ram st (<[e.1 := <[e.2 := w]> pg]> (ram st))).
(** A read and a write through an entry pointer that may be NULL. *)
Definition rd_ptr st (e : option eptr) : res gpte_t := e ← of_option e; rd_entry st e.
Definition wr_ptr st (e : option eptr) (f : gpte_t → gpte_t) : res pages_t :=
  e ← of_option e; w ← rd_entry st e; wr_entry st e (f w).

(** [resolve_mapping] (kernel/arch/x86_64/x86_64/vspace.c, lines 118-185). *)
Definition resolve_mapping vs (virt : Z) st : res vaddr_t :=
  (if DEBUG then h ← mutex_held cur (vs_lock vs); kpanic h else mret tt);;
  let ptbli := Z.land virt 0x1ff in
  let pdiri := Z.land (Z.shiftr virt 9) 0x1ff in
  let pdpti := Z.land (Z.shiftr virt 18) 0x1ff in
  let pml4i := Z.land (Z.shiftr virt 27) 0x1ff in
  let pml4e := (pml4_ppn vs, pml4i) in
  w4 ← rd_entry st pml4e;
  if e_present w4 then
    let pdpte := (e_ppn w4, pdpti) in
    w3 ← rd_entry st pdpte;
    if e_present w3 then
      let pdire := (e_ppn w3, pdiri) in
      w2 ← rd_entry st pdire;
      if e_present w2 then
        let ptble := (e_ppn w2, ptbli) in
        w1 ← rd_entry st ptble;
        if e_present w1 then
          mret (Build_vaddr_t pml4e (Some pdpte) (Some pdire) (Some ptble) (e_ppn w1) true)
        else mret (Build_vaddr_t pml4e (Some pdpte) (Some pdire) (Some ptble) 0 false)
      else mret (Build_vaddr_t pml4e (Some pdpte) (Some pdire) None 0 false)
    else mret (Build_vaddr_t pml4e (Some pdpte) None None 0 false)
  else mret (Build_vaddr_t pml4e None None None 0 false).

(** One of the three blocks of [vspace_map] that install a missing table
    (kernel/arch/x86_64/x86_64/vspace.c, lines 193-200): [sel] is the entry it looks at. *)
Definition install_table (sel : vaddr_t → option eptr) vs (virt : Z) (va : vaddr_t) st
    : res (vaddr_t * pages_t) :=
  w ← rd_ptr st (sel va);
  if negb (e_present w) then
    st ← wr_ptr st (sel va) (set_present 1);
    st ← wr_ptr st (sel va) (set_write 1);
    st ← wr_ptr st (sel va) (set_user 1);
    '(ppn, st) ← alloc_page cur st;
    st ← wr_ptr st (sel va) (set_ppn ppn);
    va ← resolve_mapping vs virt st;
    mret (va, st)
  else mret (va, st).

(** The three blocks (kernel/arch/x86_64/x86_64/vspace.c, lines 193-218). *)
Definition install_tables vs (virt : Z) (va : vaddr_t) st : res (vaddr_t * pages_t) :=
  '(va, st) ← install_table (λ va, Some (pml4e va)) vs virt va st;
  '(va, st) ← install_table pdpte vs virt va st;
  install_table pdire vs virt va st.

(** [flags & PG_x ? 1 : 0]. *)
Definition flag (flags pg : Z) : Z := if Z.land flags pg =? 0 then 0 else 1.

(** [vspace_map] (kernel/arch/x86_64/x86_64/vspace.c, lines 187-232); the TLB is not
    modelled. *)
Definition vspace_map vs (virt phys flags : Z) st : res (vspace_t * pages_t) :=
  l ← mutex_lock cur (vs_lock vs);
  let vs := {| vs_lock := l; pml4_ppn := pml4_ppn vs |} in
  va ← resolve_mapping vs virt st;
  '(va, st) ← install_tables vs virt va st;
  w ← rd_ptr st (ptble va);
  st ← (if negb (e_present w) then
          st ← wr_ptr st (ptble va) (set_present 1);
          st ← wr_ptr st (ptble va) (set_noexec (flag flags PG_NOEXEC));
          st ← wr_ptr st (ptble va) (set_write (flag flags PG_WRITE));
          st ← wr_ptr st (ptble va) (set_user (flag flags PG_USER));
          wr_ptr st (ptble va) (set_ppn phys)
        else mret st);
  l ← mutex_release cur l;
  mret ({| vs_lock := l; pml4_ppn := pml4_ppn vs |}, st).

(** [vspace_unmap] (kernel/arch/x86_64/x86_64/vspace.c, lines 234-252). *)
Definition vspace_unmap vs (virt : Z) st : res (bool * vspace_t * pages_t) :=
  l ← mutex_lock cur (vs_lock vs);
  let vs := {| vs_lock := l; pml4_ppn := pml4_ppn vs |} in
  va ← resolve_mapping vs virt st;
  '(ret, st) ← (if va_page va then
                  st ← wr_ptr st (ptble va) (λ _, 0);
                  st ← free_page cur (page_ppn va) st;
                  mret (true, st)
                else mret (false, st));
  l ← mutex_release cur l;
  mret (ret, {| vs_lock := l; pml4_ppn := pml4_ppn vs |}, st).

(** [virt_to_ppn] (kernel/arch/x86_64/x86_64/vspace.c, lines 266-272). *)
Definition virt_to_ppn vs (virt_addr : Z) st : res Z :=
  let virt := Z.shiftr virt_addr PAGE_SHIFT in
  va ← resolve_mapping vs virt st; mret (page_ppn va).

(** [virt_to_phys] (kernel/arch/x86_64/x86_64/vspace.c, lines 260-264). *)
Definition virt_to_phys vs (virt_addr : Z) st : res Z :=
  ppn ← virt_to_ppn vs virt_addr st; mret (u64 (Z.shiftl ppn PAGE_SHIFT)).

(** [vspace_apply] (kernel/arch/x86_64/x86_64/vspace.c, lines 254-258): the value of cr3. *)
Definition vspace_apply vs : Z := u64 (Z.shiftl (pml4_ppn vs) PAGE_SHIFT).

(** The words of a page below, and from, the middle. *)
Definition low_half (pg : page_t) : page_t := filter (λ iw, iw.1 < 256) pg.
Definition high_half (pg : page_t) : page_t := filter (λ iw, 256 <= iw.1) pg.

(** [vspace_update_kernel_mapping] (kernel/arch/x86_64/x86_64/vspace.c, lines 86-97): [is_kernel]
    tells whether [vs] is [VSPACE_KERNEL]. *)
Definition vspace_update_kernel_mapping (kernel vs : vspace_t) (is_kernel : bool) st : res pages_t :=
  assert_ (negb is_kernel);;
  dst ← of_option (ram st !! pml4_ppn vs);
  src ← of_option (ram st !! pml4_ppn kernel);
  mret (set_ram st (<[pml4_ppn vs := low_half dst ∪ high_half src]> (ram st))).

(** [vspace_setup] (kernel/arch/x86_64/x86_64/vspace.c, lines 73-84): the kernel's address
    space, its lock initialised over [raw], and the value of cr3. *)
Definition vspace_setup (raw : mutex_t) (pml4 : Z) st : res (vspace_t * Z * pages_t) :=
  l ← mutex_init raw;
  let vs := {| vs_lock := l; pml4_ppn := pml4 |} in
  pg ← of_option (ram st !! pml4);
  let st := set_ram st (<[pml4 := high_half pg]> (ram st)) in
  mret (vs, vspace_apply vs, st).

(** [vspace_create] (kernel/arch/x86_64/x86_64/vspace.c, lines 99-106): [raw] is what the
    memory that [kmalloc] returned holds where the lock goes. *)
Definition vspace_create `{Kmalloc A, PhysMem A} (kernel : vspace_t) (raw : mutex_t) (hp : A)
    : res (Z * vspace_t * A) :=
  '(p, hp) ← km_alloc 80 hp;
  '(ppn, st) ← alloc_page cur (phys hp);
  l ← mutex_init raw;
  let vs := {| vs_lock := l; pml4_ppn := ppn |} in
  st ← vspace_update_kernel_mapping kernel vs false st;
  mret (p, vs, set_phys st hp).

(** The loops of [vspace_delete] below the PML4 (kernel/arch/x86_64/x86_64/vspace.c, lines
    293-317), for a table [lvl] levels above the page tables: the entries from [i] on. *)
Fixpoint free_entries (lvl : nat) : nat → Z → Z → pages_t → res pages_t :=
  fix go (k : nat) (i table : Z) st :=
    match k with
    | O => mret st
    | S k =>
        w ← rd_entry st (table, i);
        if negb (e_present w) then go k (i + 1) table st
        else
          st ← match lvl with
               | O => mret st
               | S lvl => free_entries lvl 512%nat 0 (e_ppn w) st
               end;
          st ← free_page cur (e_ppn w) st;
          go k (i + 1) table st
    end.

(** [vspace_delete] (kernel/arch/x86_64/x86_64/vspace.c, lines 274-323); [p] is the address of
    the structure, which is freed. *)
Definition vspace_delete `{Kmalloc A, PhysMem A} (p : Z) vs (hp : A) : res (vspace_t * A) :=
  l ← mutex_lock cur (vs_lock vs);
  let del := negb (pml4_ppn vs =? SIZE_MAX) in
  let old := pml4_ppn vs in
  l ← mutex_release cur l;
  let vs := {| vs_lock := l; pml4_ppn := SIZE_MAX |} in
  if negb del then mret (vs, hp)
  else
    st ← free_entries 3 256%nat 0 old (phys hp);
    st ← free_page cur old st;
    hp ← km_free p (set_phys st hp);
    mret (vs, hp).
End operations.

(** ** The tree of tables *)

(** The entry [i] of the table in page [q]. *)
Definition entry (r : ram_t) (q i : Z) : gpte_t := default 0 (r !! q ≫= λ pg, pg !! i).

(** The page that a sequence of indices leads to from the table in [root]. *)
Fixpoint node (r : ram_t) (root : Z) (path : list Z) : option Z :=
  match path with
  | [] => Some root
  | i :: path => if e_present (entry r root i) then node r (e_ppn (entry r root i)) path else None
  end.

(** The four indices in a virtual page number. *)
Definition i3 (virt : Z) : Z := Z.land (Z.shiftr virt 27) 0x1ff.
Definition i2 (virt : Z) : Z := Z.land (Z.shiftr virt 18) 0x1ff.
Definition i1 (virt : Z) : Z := Z.land (Z.shiftr virt 9) 0x1ff.
Definition i0 (virt : Z) : Z := Z.land virt 0x1ff.
Definition vpath (virt : Z) : list Z := [i3 virt; i2 virt; i1 virt; i0 virt].

(** The entry that the processor finds for a virtual page, when it is present. *)
Definition translate (r : ram_t) (root virt : Z) : option gpte_t :=
  t ← node r root [i3 virt; i2 virt; i1 virt];
  let w := entry r t (i0 virt) in if e_present w then Some w else None.

(** The indices say where in its 256 TiB a page is. *)
Lemma vpath_eq v : v mod 2 ^ 36 = i0 v + 512 * (i1 v + 512 * (i2 v + 512 * i3 v)).
Proof.
  unfold i0, i1, i2, i3. change 0x1ff with (Z.ones 9). rewrite !Z.land_ones, !Z.shiftr_div_pow2 by lia.
  change (2 ^ 36) with (512 * (512 * (512 * 512))). change (2 ^ 9) with 512.
  change (2 ^ 18) with (512 * 512). change (2 ^ 27) with (512 * (512 * 512)).
  rewrite <- !Z.div_div by lia. rewrite !(Z.rem_mul_r _ 512) by lia. lia.
Qed.

Lemma vpath_inj v v' : vpath v = vpath v' → v mod 2 ^ 36 = v' mod 2 ^ 36.
Proof. rewrite !vpath_eq. unfold vpath. by intros [= -> -> -> ->]. Qed.

Lemma node_app r root p1 p2 : node r root (p1 ++ p2) = node r root p1 ≫= λ s, node r s p2.
Proof.
  revert root. induction p1 as [|i p1 IH]; intros root; simpl; [done|].
  by destruct (e_present _).
Qed.

(** A path whose entries are as they were leads where it led. *)
Lemma node_ext r r' root path :
  (∀ pre j rest s, path = pre ++ j :: rest → node r root pre = Some s → entry r' s j = entry r s j) →
  node r' root path = node r root path.
Proof.
  revert root. induction path as [|i path IH]; intros root Hext; simpl; [done|].
  rewrite (Hext [] i path root) by done. destruct (e_present (entry r root i)) eqn:Hp; [|done].
  apply IH. intros pre j rest s -> Hs. apply (Hext (i :: pre) j rest s); [done|]. simpl. by rewrite Hp.
Qed.

(** Every table that at most three indices lead to is a page of RAM in use, and no two
    paths lead to the same one. *)
Record tree_wf (st : pages_t) (root : Z) : Prop := {
  tw_pages : pages_wf st;
  tw_count : page_count st <= 2 ^ 40;
  tw_table : ∀ path q, (length path <= 3)%nat → node (ram st) root path = Some q →
     is_page st q ∧ used st q ∧ is_Some (ram st !! q);
  tw_unique : ∀ path path' q, (length path <= 3)%nat → (length path' <= 3)%nat →
     node (ram st) root path = Some q → node (ram st) root path' = Some q → path = path';
}.

Lemma entry_insert_same r q pg i w : entry (<[q := <[i := w]> pg]> r) q i = w.
Proof. unfold entry. rewrite lookup_insert_eq. simpl. by rewrite lookup_insert_eq. Qed.

Lemma entry_insert_other r q pg i w s j :
  r !! q = Some pg → (s, j) ≠ (q, i) → entry (<[q := <[i := w]> pg]> r) s j = entry r s j.
Proof.
  intros Hq Hne. unfold entry. destruct (decide (s = q)) as [->|].
  - rewrite lookup_insert_eq, Hq. simpl. rewrite lookup_insert_ne; [done|congruence].
  - by rewrite lookup_insert_ne.
Qed.

Lemma entry_fresh r p s j : s ≠ p → entry (<[p := ∅]> r) s j = entry r s j.
Proof. intros Hne. unfold entry. by rewrite lookup_insert_ne. Qed.

Lemma entry_zero r p j : entry (<[p := ∅]> r) p j = 0.
Proof. unfold entry. by rewrite lookup_insert_eq. Qed.

Lemma node_app_Some r root pq q rest :
  node r root pq = Some q → node r root (pq ++ rest) = node r q rest.
Proof. intros H. by rewrite node_app, H. Qed.

Section proofs.
Context `{B : Build} (cur : tptr).

Lemma rd_entry_ok st q i pg : ram st !! q = Some pg → rd_entry st (q, i) = Ok (entry (ram st) q i).
Proof. intros H. unfold rd_entry, entry. simpl. by rewrite H. Qed.

Lemma wr_entry_ok st q i w pg :
  ram st !! q = Some pg → wr_entry st (q, i) w = Ok (set_ram st (<[q := <[i := w]> pg]> (ram st))).
Proof. intros H. unfold wr_entry. simpl. by rewrite H. Qed.

Lemma wr_ptr_ok st q i f pg :
  ram st !! q = Some pg →
  wr_ptr st (Some (q, i)) f = Ok (set_ram st (<[q := <[i := f (entry (ram st) q i)]> pg]> (ram st))).
Proof.
  intros H. unfold wr_ptr. simpl. rewrite (rd_entry_ok _ _ _ _ H). simpl. by rewrite (wr_entry_ok _ _ _ _ _ H).
Qed.

(** What [resolve_mapping] computes. *)
Definition va_of (r : ram_t) (root virt : Z) : vaddr_t := {|
  pml4e := (root, i3 virt);
  pdpte := (λ t, (t, i2 virt)) <$> node r root [i3 virt];
  pdire := (λ t, (t, i1 virt)) <$> node r root [i3 virt; i2 virt];
  ptble := (λ t, (t, i0 virt)) <$> node r root [i3 virt; i2 virt; i1 virt];
  page_ppn := default 0 (node r root (vpath virt));
  va_page := bool_decide (is_Some (node r root (vpath virt)));
|}.

Lemma node_snoc r root p s i :
  node r root p = Some s →
  node r root (p ++ [i]) = if e_present (entry r s i) then Some (e_ppn (entry r s i)) else None.
Proof. intros H. rewrite node_app, H. simpl. by destruct (e_present _). Qed.

Lemma resolve_ok vs st virt :
  vs_lock vs = mx_taken cur → tree_wf st (pml4_ppn vs) →
  resolve_mapping cur vs virt st = Ok (va_of (ram st) (pml4_ppn vs) virt).
Proof.
  intros Hl Hwf. unfold resolve_mapping. rewrite Hl, mutex_held_taken.
  replace (if DEBUG then _ else _) with (Ok tt : res unit) by (by destruct DEBUG). simpl.
  set (root := pml4_ppn vs) in *. fold (i3 virt). fold (i2 virt). fold (i1 virt). fold (i0 virt).
  unfold va_of, vpath.
  destruct (tw_table _ _ Hwf [] root) as (_ & _ & [pg4 H4]); [simpl; lia|done|].
  rewrite (rd_entry_ok _ _ _ _ H4). simpl.
  destruct (e_present (entry _ root _)) eqn:P4; simpl; [|done].
  pose proof (node_snoc (ram st) root [] root (i3 virt) eq_refl) as N3. rewrite P4 in N3.
  simpl app in N3. set (q3 := e_ppn _) in *.
  destruct (tw_table _ _ Hwf [i3 virt] q3 ltac:(simpl; lia) N3) as (_ & _ & [pg3 H3]).
  rewrite (rd_entry_ok _ _ _ _ H3). simpl.
  destruct (e_present (entry _ q3 _)) eqn:P3; simpl; [|done].
  pose proof (node_snoc _ _ _ _ (i2 virt) N3) as N2. rewrite P3 in N2.
  simpl app in N2. set (q2 := e_ppn (entry (ram st) q3 (i2 virt))) in *.
  destruct (tw_table _ _ Hwf [i3 virt; i2 virt] q2 ltac:(simpl; lia) N2) as (_ & _ & [pg2 H2]).
  rewrite (rd_entry_ok _ _ _ _ H2). simpl.
  destruct (e_present (entry _ q2 _)) eqn:P2; simpl; [|done].
  pose proof (node_snoc _ _ _ _ (i1 virt) N2) as N1. rewrite P2 in N1.
  simpl app in N1. set (q1 := e_ppn (entry (ram st) q2 (i1 virt))) in *.
  destruct (tw_table _ _ Hwf [i3 virt; i2 virt; i1 virt] q1 ltac:(simpl; lia) N1) as (_ & _ & [pg1 H1]).
  rewrite (rd_entry_ok _ _ _ _ H1). simpl. by destruct (e_present (entry _ q1 _)).
Qed.

(** ** Installing a table *)

(** The memory after the entry [i] of table [q] has been made to point to the fresh page [p]. *)
Definition hooked (r : ram_t) (q i p : Z) (w : gpte_t) : ram_t :=
  <[q := <[i := w]> (default ∅ (r !! q))]> (<[p := ∅]> r).

Section hooked.
Context (st : pages_t) (root : Z) (pq : list Z) (q i p : Z) (w : gpte_t).
Context (Hwf : tree_wf st root) (Hlen : (length pq <= 2)%nat) (Hq : node (ram st) root pq = Some q).
Context (Hpg : is_page st p) (Hnu : ¬ used st p) (Hpr : e_present w = true) (Hppn : e_ppn w = p).
Let r' := hooked (ram st) q i p w.

Lemma hooked_ne : q ≠ p.
Proof. intros ->. by destruct (tw_table _ _ Hwf pq p) as (_ & ? & _); [lia|..]. Qed.

Lemma hooked_entry s j : s ≠ p → (s, j) ≠ (q, i) → entry r' s j = entry (ram st) s j.
Proof.
  intros Hs Hne. destruct (tw_table _ _ Hwf pq q) as (_ & _ & [pg Hp]); [lia|done|].
  pose proof hooked_ne. unfold r', hooked. rewrite Hp. simpl.
  rewrite entry_insert_other; [by apply entry_fresh|by rewrite lookup_insert_ne|done].
Qed.

Lemma hooked_entry_new : entry r' q i = w.
Proof. apply entry_insert_same. Qed.

Lemma hooked_entry_zero j : entry r' p j = 0.
Proof.
  destruct (tw_table _ _ Hwf pq q) as (_ & _ & [pg Hp]); [lia|done|].
  pose proof hooked_ne. unfold r', hooked. rewrite Hp. simpl.
  rewrite entry_insert_other; [apply entry_zero|by rewrite lookup_insert_ne|congruence].
Qed.

(** The paths that do not pass through the new entry lead where they led. *)
Lemma hooked_node path :
  (length path <= 4)%nat → ¬ (pq ++ [i]) `prefix_of` path →
  node r' root path = node (ram st) root path.
Proof.
  intros Hlp Hnp. apply node_ext. intros pre j rest s -> Hs.
  assert (length pre <= 3)%nat as Hl3 by (rewrite length_app in Hlp; simpl in Hlp; lia).
  apply hooked_entry.
  - intros ->. by destruct (tw_table _ _ Hwf pre p) as (_ & ? & _).
  - intros [= -> ->]. apply Hnp. rewrite (tw_unique _ _ Hwf pre pq q) by (done || lia).
    exists rest. by rewrite <- app_assoc.
Qed.

(** Below the new table there is nothing. *)
Lemma hooked_node_new rest :
  node r' root (pq ++ i :: rest) = match rest with [] => Some p | _ => None end.
Proof.
  rewrite node_app, hooked_node, Hq; simpl.
  - rewrite hooked_entry_new, Hpr, Hppn. destruct rest as [|j rest]; simpl; [done|].
    by rewrite hooked_entry_zero.
  - lia.
  - intros [k Hk%(f_equal length)]. rewrite !length_app in Hk. simpl in Hk. lia.
Qed.

Lemma hooked_node_cases path s :
  (length path <= 3)%nat → node r' root path = Some s →
  path = pq ++ [i] ∧ s = p ∨ node (ram st) root path = Some s ∧ s ≠ p.
Proof.
  intros Hlp Hs. destruct (decide ((pq ++ [i]) `prefix_of` path)) as [[rest ->]|Hnp].
  - rewrite <- app_assoc in Hs. simpl in Hs. rewrite hooked_node_new in Hs. destruct rest; [|done].
    rewrite app_nil_r. left. by injection Hs as <-.
  - right. rewrite hooked_node in Hs by (done || lia). split; [done|]. intros ->.
    by destruct (tw_table _ _ Hwf path p) as (_ & ? & _).
Qed.

Lemma hooked_wf st' :
  pages_upd (λ s, s = p) true st st' → ram st' = r' → tree_wf st' root.
Proof.
  intros Hupd Hram. pose proof hooked_ne as Hqp. pose proof Hwf as [Hp Hc Ht Hu]. split.
  - apply Hupd.
  - by rewrite (pu_count _ _ _ _ Hupd).
  - intros path s Hlp Hs. rewrite Hram in *. unfold is_page, used. rewrite (pu_count _ _ _ _ Hupd).
    destruct (hooked_node_cases path s Hlp Hs) as [[_ ->]|[Hs' Hne]].
    + split_and!; [apply Hpg|apply Hpg|apply (pu_in _ _ _ _ Hupd); [apply Hpg|done]|].
      unfold r', hooked. by rewrite lookup_insert_ne, lookup_insert_eq.
    + destruct (Ht path s Hlp Hs') as (Hps & Hus & Hrs). split_and!; [apply Hps|apply Hps| |].
      * rewrite (pu_out _ _ _ _ Hupd); [done|apply Hps|done].
      * unfold r', hooked. destruct (decide (q = s)) as [Heq|].
        -- by rewrite <- Heq, lookup_insert_eq.
        -- by rewrite lookup_insert_ne, lookup_insert_ne by done.
  - intros path path' s Hl Hl' Hs Hs'. rewrite Hram in *.
    destruct (hooked_node_cases path s Hl Hs) as [[-> Hs1]|[Hs1 Hne]],
      (hooked_node_cases path' _ Hl' Hs') as [[-> He]|[Hs2 Hne']]; [done|done|done|by eapply Hu].
Qed.

Lemma hooked_translate v :
  e_present (entry (ram st) q i) = false → translate r' root v = translate (ram st) root v.
Proof.
  intros Habs. unfold translate. set (path := [i3 v; i2 v; i1 v]).
  destruct (decide ((pq ++ [i]) `prefix_of` path)) as [[rest Hpath]|Hnp].
  - rewrite Hpath, <- app_assoc. simpl. rewrite hooked_node_new, (node_app (ram st)), Hq. simpl.
    rewrite Habs. destruct rest; simpl; [|done]. by rewrite hooked_entry_zero.
  - rewrite hooked_node by (simpl; lia || done).
    destruct (node (ram st) root path) as [t|] eqn:Ht; [|done]. simpl. rewrite hooked_entry; [done| |].
    + intros ->. by destruct (tw_table _ _ Hwf path p) as (_ & ? & _); [simpl; lia|..].
    + intros [= -> _]. assert (path = pq) as Heq by (apply (tw_unique _ _ Hwf _ _ q); done || simpl; lia).
      rewrite <- Heq in Hlen. simpl in Hlen. lia.
Qed.
End hooked.

(** The page allocator does not look at the contents of RAM. *)
Lemma set_ram_wf st r : pages_wf st → pages_wf (set_ram st r).
Proof. by intros [? ? ?]. Qed.

Lemma set_ram_room st r n : free_room n st → free_room n (set_ram st r).
Proof. done. Qed.

Lemma set_ram_upd P v st r st' r' :
  pages_upd P v (set_ram st r) st' → pages_upd P v st (set_ram st' r').
Proof. intros [H1 H2 H3 H4]. split; [by apply set_ram_wf|done..]. Qed.

Lemma free_room_le n n' st : (n' <= n)%nat → free_room n st → free_room n' st.
Proof. intros Hle (l & Hnd & Hlen & Hl). exists l. split_and!; [done|lia|done]. Qed.

(** The word of an entry that points to the table in page [p]. *)
Definition table_entry (w : gpte_t) (p : Z) : gpte_t :=
  set_ppn p (set_user 1 (set_write 1 (set_present 1 w))).

Lemma table_entry_spec w p :
  0 <= p < 2 ^ 40 → e_present (table_entry w p) = true ∧ e_ppn (table_entry w p) = p.
Proof.
  intros Hp. unfold table_entry, e_present, e_ppn, set_ppn, set_user, set_write, set_present. split.
  - rewrite !bf_get_set_other by lia. by rewrite bf_get_set by lia.
  - rewrite bf_get_set by lia. by apply Z.mod_small.
Qed.

(** The five writes of [install_table] amount to [hooked]. *)
Lemma install_writes st q i pg p st2 :
  ram st !! q = Some pg → q ≠ p →
  let w3 := set_user 1 (set_write 1 (set_present 1 (entry (ram st) q i))) in
  ram st2 = <[p := ∅]> (<[q := <[i := w3]> pg]> (ram st)) →
  wr_ptr st2 (Some (q, i)) (set_ppn p) =
    Ok (set_ram st2 (hooked (ram st) q i p (table_entry (entry (ram st) q i) p))).
Proof.
  intros Hpg Hne w3 Hram.
  assert (ram st2 !! q = Some (<[i := w3]> pg)) as Hq2.
  { by rewrite Hram, lookup_insert_ne, lookup_insert_eq by done. }
  rewrite (wr_ptr_ok _ _ _ _ _ Hq2). do 2 f_equal. unfold hooked. rewrite Hpg, Hram. simpl.
  assert (entry (<[p:=∅]> (<[q:=<[i:=w3]> pg]> (ram st))) q i = w3) as ->.
  { rewrite entry_fresh by done. apply entry_insert_same. }
  rewrite (insert_insert_ne (ram st)) by done. by rewrite !insert_insert_eq.
Qed.

(** What installing tables does: the tree is well formed, nothing translates differently, no
    page is freed and the new tables were free. *)
Record installed (root : Z) (st st' : pages_t) : Prop := {
  is_wf : tree_wf st' root;
  is_trans : ∀ v, translate (ram st') root v = translate (ram st) root v;
  is_used : ∀ s, 0 <= s → used st s → used st' s;
  is_count : page_count st' = page_count st;
  is_new : ∀ path s, (length path <= 3)%nat → node (ram st') root path = Some s →
             node (ram st) root path = Some s ∨ ¬ used st s;
  is_ram : ∀ s, 0 <= s → used st s → (∀ path, (length path <= 3)%nat → node (ram st) root path ≠ Some s) →
             ram st' !! s = ram st !! s;
}.

Lemma installed_refl root st : tree_wf st root → installed root st st.
Proof. intros Hwf. split; auto. Qed.

Lemma installed_trans root st1 st2 st3 :
  installed root st1 st2 → installed root st2 st3 → installed root st1 st3.
Proof.
  intros [W1 T1 U1 C1 N1 R1] [W2 T2 U2 C2 N2 R2]. split; [done| | |congruence| |].
  - intros v. by rewrite T2.
  - intros s Hs Hu. by apply U2, U1.
  - intros path s Hl Hs. destruct (N2 path s Hl Hs) as [Hs2|Hnu].
    + by apply N1.
    + right. intros Hu. apply Hnu, U1; [|done]. apply (tw_table _ _ W2 path s Hl Hs).
  - intros s Hs Hu Hno. rewrite R2, R1; [done..|by apply U1|].
    intros path Hl Hn. by destruct (N1 path s Hl Hn); [eapply Hno|].
Qed.

Lemma install_spec (sel : vaddr_t → option eptr) vs virt st pq q i :
  vs_lock vs = mx_taken cur → tree_wf st (pml4_ppn vs) → (length pq <= 2)%nat →
  node (ram st) (pml4_ppn vs) pq = Some q →
  sel (va_of (ram st) (pml4_ppn vs) virt) = Some (q, i) →
  (∃ st', install_table cur sel vs virt (va_of (ram st) (pml4_ppn vs) virt) st =
            Ok (va_of (ram st') (pml4_ppn vs) virt, st') ∧
     installed (pml4_ppn vs) st st' ∧ is_Some (node (ram st') (pml4_ppn vs) (pq ++ [i])) ∧
     ∀ n, free_room (S n) st → free_room n st') ∨
  (install_table cur sel vs virt (va_of (ram st) (pml4_ppn vs) virt) st = Stop Panic ∧ ¬ free_room 1 st).
Proof.
  intros Hl Hwf Hlen Hq Hsel. unfold install_table. rewrite Hsel. simpl.
  destruct (tw_table _ _ Hwf pq q) as (Hqpg & Huq & [pg Hpg]); [lia|done|].
  unfold rd_ptr. simpl. rewrite (rd_entry_ok _ _ _ _ Hpg). simpl.
  destruct (e_present (entry (ram st) q i)) eqn:Hp; simpl.
  { left. exists st. split_and!; [done|by apply installed_refl| |intros n; by apply free_room_le; lia].
    rewrite (node_snoc _ _ _ _ i Hq), Hp. by eexists. }
  rewrite (wr_ptr_ok _ _ _ _ _ Hpg). simpl.
  erewrite wr_ptr_ok; [|apply lookup_insert_eq]. simpl.
  erewrite wr_ptr_ok; [|apply lookup_insert_eq]. simpl.
  unfold set_ram. simpl. rewrite !insert_insert_eq, !entry_insert_same.
  set (st1 := {| free_pages := _ |}).
  destruct (alloc_page_room cur st1 (set_ram_wf _ _ (tw_pages _ _ Hwf)))
    as [(p & st2 & Ha & Hppg & Hpu & Hram & Hupd & Hroom2)|[Ha Hnr]]; [left|right; by rewrite Ha].
  assert (q ≠ p) as Hqp by (by intros ->).
  rewrite Ha. simpl. rewrite (install_writes st q i pg p st2 Hpg Hqp Hram). simpl.
  set (w := table_entry (entry (ram st) q i) p).
  destruct (table_entry_spec (entry (ram st) q i) p) as [Hwp Hwn].
  { pose proof (tw_count _ _ Hwf). change (is_page st p) in Hppg. unfold is_page in Hppg. lia. }
  set (st3 := set_ram st2 (hooked (ram st) q i p w)).
  assert (pages_upd (λ s, s = p) true st st3) as Hupd3 by (by apply (set_ram_upd _ _ _ (ram st1))).
  assert (tree_wf st3 (pml4_ppn vs)) as Hwf3.
  { by apply (hooked_wf st (pml4_ppn vs) pq q i p w Hwf Hlen Hq Hppg Hpu Hwp Hwn). }
  rewrite resolve_ok by done. simpl. exists st3. split_and!; [done| | |done].
  - split; [done| | |apply (pu_count _ _ _ _ Hupd3)| |].
    + intros v. by apply (hooked_translate st (pml4_ppn vs) pq q i p w).
    + intros s Hs Hu. unfold used. destruct (decide (s = p)) as [->|].
      * by apply (pu_in _ _ _ _ Hupd3).
      * by rewrite (pu_out _ _ _ _ Hupd3).
    + intros path s Hlp Hs.
      destruct (hooked_node_cases st (pml4_ppn vs) pq q i p w Hwf Hlen Hq Hpu Hwp Hwn path s Hlp Hs)
        as [[_ ->]|[? _]]; [by right|by left].
    + intros s _ Hu Hno. unfold st3, hooked. simpl. rewrite lookup_insert_ne by (intros <-; by apply (Hno pq); [lia|]).
      rewrite lookup_insert_ne; [done|]. intros <-. by apply Hpu.
  - simpl. rewrite (hooked_node_new st (pml4_ppn vs) pq q i p w) by done. by eexists.
Qed.

(** ** Writing the last entry *)

Section leaf.
Context (st : pages_t) (root virt t : Z) (pg : page_t) (w : gpte_t).
Context (Hwf : tree_wf st root) (Ht : node (ram st) root [i3 virt; i2 virt; i1 virt] = Some t).
Context (Hpg : ram st !! t = Some pg).
Let r' := <[t := <[i0 virt := w]> pg]> (ram st).

Lemma leaf_entry s j : (s, j) ≠ (t, i0 virt) → entry r' s j = entry (ram st) s j.
Proof. intros Hne. by apply entry_insert_other. Qed.

(** The tables stay where they are. *)
Lemma leaf_node path : (length path <= 3)%nat → node r' root path = node (ram st) root path.
Proof.
  intros Hlen. apply node_ext. intros pre j rest s -> Hs. apply leaf_entry. intros [= -> _].
  rewrite length_app in Hlen. simpl in Hlen.
  assert (pre = [i3 virt; i2 virt; i1 virt]) as -> by (apply (tw_unique _ _ Hwf _ _ t); done || simpl; lia).
  simpl in Hlen. lia.
Qed.

Lemma leaf_translate_same :
  translate r' root virt = if e_present w then Some w else None.
Proof.
  unfold translate. rewrite leaf_node, Ht by (simpl; lia). simpl.
  unfold r'. by rewrite entry_insert_same.
Qed.

Lemma leaf_translate_other v :
  vpath v ≠ vpath virt → translate r' root v = translate (ram st) root v.
Proof.
  intros Hne. unfold translate. rewrite leaf_node by (simpl; lia).
  destruct (node (ram st) root [i3 v; i2 v; i1 v]) as [s|] eqn:Hs; [|done]. simpl.
  rewrite leaf_entry; [done|]. intros [= -> Hi0]. apply Hne. unfold vpath.
  assert ([i3 v; i2 v; i1 v] = [i3 virt; i2 virt; i1 virt]) as [= -> -> ->].
  { apply (tw_unique _ _ Hwf _ _ t); done || simpl; lia. }
  congruence.
Qed.

Lemma leaf_wf st' :
  pages_wf st' → page_count st' = page_count st → ram st' = r' →
  (∀ path q, (length path <= 3)%nat → node (ram st) root path = Some q → used st' q) →
  tree_wf st' root.
Proof.
  intros Hp Hc Hram Hu. pose proof Hwf as [_ Hcnt Htab Huniq]. split.
  - done.
  - by rewrite Hc.
  - intros path q Hl Hq. rewrite Hram, leaf_node in Hq by done.
    destruct (Htab path q Hl Hq) as (Hqp & _ & Hr). unfold is_page. rewrite Hc.
    split_and!; [apply Hqp|apply Hqp|by eapply Hu|]. rewrite Hram. unfold r'.
    destruct (decide (t = q)) as [->|]; [by rewrite lookup_insert_eq|by rewrite lookup_insert_ne].
  - intros path path' q Hl Hl' Hq Hq'. rewrite Hram, leaf_node in Hq, Hq' by done. by eapply Huniq.
Qed.
End leaf.

(** What [resolve_mapping] says of the page is what the processor finds. *)
Lemma node_translate r root virt :
  node r root (vpath virt) = e_ppn <$> translate r root virt.
Proof.
  change (vpath virt) with ([i3 virt; i2 virt; i1 virt] ++ [i0 virt]).
  rewrite node_app. unfold translate. destruct (node r root _) as [t|]; [|done]. simpl.
  by destruct (e_present _).
Qed.

(** A tree that consists of an empty PML4. *)
Lemma tree_wf_empty st root :
  pages_wf st → page_count st <= 2 ^ 40 → is_page st root → used st root →
  ram st !! root = Some ∅ → tree_wf st root.
Proof.
  intros Hp Hc Hpg Hu Hr.
  assert (∀ path q, node (ram st) root path = Some q → path = [] ∧ q = root) as Hnode.
  { intros [|i path] q; simpl; [by intros [= ->]|]. unfold entry. by rewrite Hr. }
  split; [done|done| |].
  - intros path q _ [-> ->]%Hnode. split; [done|]. split; [done|by eexists].
  - by intros path path' q _ _ [-> _]%Hnode [-> _]%Hnode.
Qed.
Lemma translate_empty r root v : r !! root = Some ∅ → translate r root v = None.
Proof. intros Hr. unfold translate, node, entry. by rewrite Hr. Qed.

#[local] Arguments node : simpl never.
#[local] Arguments va_of : simpl never.

(** The word that [vspace_map] writes over [w]. *)
Definition leaf_word (w : gpte_t) (phys flags : Z) : gpte_t :=
  set_ppn phys (set_user (flag flags PG_USER) (set_write (flag flags PG_WRITE)
    (set_noexec (flag flags PG_NOEXEC) (set_present 1 w)))).

Lemma flag_bit flags pg : flag flags pg mod 2 ^ 1 = flag flags pg.
Proof. unfold flag. by destruct (_ =? 0). Qed.

Lemma leaf_word_spec w phys flags :
  let w' := leaf_word w phys flags in
  e_present w' = true ∧ e_ppn w' = phys mod 2 ^ 40 ∧ e_write w' = flag flags PG_WRITE ∧
  e_user w' = flag flags PG_USER ∧ e_noexec w' = flag flags PG_NOEXEC.
Proof.
  unfold leaf_word, e_present, e_ppn, e_write, e_user, e_noexec,
    set_ppn, set_user, set_write, set_noexec, set_present.
  split_and!.
  - rewrite !bf_get_set_other by lia. by rewrite bf_get_set by lia.
  - by rewrite bf_get_set by lia.
  - do 2 rewrite bf_get_set_other by lia. rewrite bf_get_set by lia. apply flag_bit.
  - rewrite bf_get_set_other by lia. rewrite bf_get_set by lia. apply flag_bit.
  - do 3 rewrite bf_get_set_other by lia. rewrite bf_get_set by lia. apply flag_bit.
Qed.

(** The five writes of the last step of [vspace_map]. *)
Lemma leaf_writes st t i pg phys flags :
  ram st !! t = Some pg →
  (st ← wr_ptr st (Some (t, i)) (set_present 1);
   st ← wr_ptr st (Some (t, i)) (set_noexec (flag flags PG_NOEXEC));
   st ← wr_ptr st (Some (t, i)) (set_write (flag flags PG_WRITE));
   st ← wr_ptr st (Some (t, i)) (set_user (flag flags PG_USER));
   wr_ptr st (Some (t, i)) (set_ppn phys)) =
  Ok (set_ram st (<[t := <[i := leaf_word (entry (ram st) t i) phys flags]> pg]> (ram st))).
Proof.
  intros Hpg. rewrite (wr_ptr_ok _ _ _ _ _ Hpg). simpl.
  do 4 (erewrite wr_ptr_ok; [|apply lookup_insert_eq]; simpl).
  unfold set_ram. simpl. repeat first [rewrite insert_insert_eq|rewrite entry_insert_same]. done.
Qed.

(** The three tables on the way to a page are installed. *)
Lemma install_all vs virt st :
  vs_lock vs = mx_taken cur → tree_wf st (pml4_ppn vs) →
  let root := pml4_ppn vs in
  (∃ st' t, install_tables cur vs virt (va_of (ram st) root virt) st = Ok (va_of (ram st') root virt, st') ∧
     installed root st st' ∧ node (ram st') root [i3 virt; i2 virt; i1 virt] = Some t) ∨
  (install_tables cur vs virt (va_of (ram st) root virt) st = Stop Panic ∧ ¬ free_room 3 st).
Proof.
  intros Hl Hwf root. unfold install_tables.
  destruct (install_spec (λ va, Some (pml4e va)) vs virt st [] root (i3 virt))
    as [(st1 & Hi1 & Hin1 & [t3 Ht3] & Hr1)|[Hi1 Hr1]]; [done|done|simpl; lia|done|done| |].
  2: { right. fold root in Hi1. rewrite Hi1. split; [done|]. intros H. apply Hr1. by eapply free_room_le; [|exact H]; lia. }
  fold root in Hi1. rewrite Hi1. simpl. change (node (ram st1) root [i3 virt] = Some t3) in Ht3.
  destruct (install_spec pdpte vs virt st1 [i3 virt] t3 (i2 virt))
    as [(st2 & Hi2 & Hin2 & [t2 Ht2] & Hr2)|[Hi2 Hr2]]; [done|apply Hin1|simpl; lia|done| | |].
  { unfold va_of. cbn [pdpte]. fold root. by rewrite Ht3. }
  2: { right. fold root in Hi2. rewrite Hi2. split; [done|]. intros H. apply Hr2, (free_room_le 2); [lia|by apply Hr1]. }
  fold root in Hi2. rewrite Hi2. simpl. change (node (ram st2) root [i3 virt; i2 virt] = Some t2) in Ht2.
  destruct (install_spec pdire vs virt st2 [i3 virt; i2 virt] t2 (i1 virt))
    as [(st3 & Hi3 & Hin3 & [t1 Ht1] & Hr3)|[Hi3 Hr3]]; [done|apply Hin2|simpl; lia|done| | |].
  { unfold va_of. cbn [pdire]. fold root. by rewrite Ht2. }
  2: { right. fold root in Hi3. rewrite Hi3. split; [done|]. intros H. by apply Hr3, Hr2, Hr1. }
  left. fold root in Hi3. rewrite Hi3. exists st3, t1. split_and!; [done| |done].
  by eapply installed_trans; [|exact Hin3]; eapply installed_trans.
Qed.

(** What [vspace_map] does when it returns. *)
Record mapped (root virt phys flags : Z) (st st' : pages_t) : Prop := {
  mp_wf : tree_wf st' root;
  mp_other : ∀ v, vpath v ≠ vpath virt → translate (ram st') root v = translate (ram st) root v;
  mp_old : ∀ w, translate (ram st) root virt = Some w → translate (ram st') root virt = Some w;
  mp_fresh : translate (ram st) root virt = None →
     ∃ w, translate (ram st') root virt = Some w ∧ e_ppn w = phys mod 2 ^ 40 ∧
          e_write w = flag flags PG_WRITE ∧ e_user w = flag flags PG_USER ∧
          e_noexec w = flag flags PG_NOEXEC;
  mp_used : ∀ s, 0 <= s → used st s → used st' s;
  mp_count : page_count st' = page_count st;
  mp_new : ∀ path s, (length path <= 3)%nat → node (ram st') root path = Some s →
             node (ram st) root path = Some s ∨ ¬ used st s;
  mp_ram : ∀ s, 0 <= s → used st s → (∀ path, (length path <= 3)%nat → node (ram st) root path ≠ Some s) →
             ram st' !! s = ram st !! s;
}.

Lemma vspace_map_spec vs virt phys flags st :
  vs_lock vs = MUTEX_INITIALIZER → tree_wf st (pml4_ppn vs) →
  (∃ st', vspace_map cur vs virt phys flags st = Ok (vs, st') ∧
     mapped (pml4_ppn vs) virt phys flags st st') ∨
  (vspace_map cur vs virt phys flags st = Stop Panic ∧ ¬ free_room 3 st).
Proof.
  intros Hl Hwf. set (root := pml4_ppn vs) in *. unfold vspace_map. rewrite Hl, mutex_lock_idle. simpl.
  set (vsl := {| vs_lock := mx_taken cur; pml4_ppn := pml4_ppn vs |}).
  rewrite (resolve_ok vsl) by done. simpl. fold root.
  destruct (install_all vsl virt st) as [(st1 & t & Hi & [Hwf1 Htr Hu Hcnt Hnew Hram] & Ht)|[Hi Hnr]]; [done..| |].
  2: { right. change (pml4_ppn vsl) with root in Hi. by rewrite Hi. }
  left. change (pml4_ppn vsl) with root in *. rewrite Hi. simpl. fold root.
  destruct (tw_table _ _ Hwf1 [i3 virt; i2 virt; i1 virt] t ltac:(simpl; lia) Ht) as (_ & _ & [pg Hpg]).
  assert ((λ t, (t, i0 virt)) <$> node (ram st1) root [i3 virt; i2 virt; i1 virt] =
          Some (t, i0 virt)) as Hptr by (by rewrite Ht).
  rewrite !Hptr. unfold rd_ptr. simpl. rewrite (rd_entry_ok _ _ _ _ Hpg). simpl.
  assert (translate (ram st1) root virt =
    if e_present (entry (ram st1) t (i0 virt)) then Some (entry (ram st1) t (i0 virt)) else None) as Hold.
  { unfold translate. by rewrite Ht. }
  destruct vs as [l r]. simpl in Hl. subst l. simpl in *.
  destruct (e_present (entry (ram st1) t (i0 virt))) eqn:Hp; simpl.
  - rewrite mutex_release_taken. simpl. exists st1. split; [done|].
    split; [done|by intros; apply Htr|by intros w; rewrite Htr| |done..].
    intros Hn. by rewrite <- Htr, Hold in Hn.
  - rewrite (leaf_writes st1 t (i0 virt) pg phys flags Hpg). simpl. rewrite mutex_release_taken. simpl.
    set (w := leaf_word _ _ _). exists (set_ram st1 (<[t := <[i0 virt := w]> pg]> (ram st1))).
    destruct (leaf_word_spec (entry (ram st1) t (i0 virt)) phys flags) as (Hwp & Hw).
    split; [done|]. split; simpl; [| | | |done|done| |].
    + apply (leaf_wf st1 root virt t pg w); try done; [apply set_ram_wf, (tw_pages _ _ Hwf1)|].
      intros path q Hlen Hq. by destruct (tw_table _ _ Hwf1 path q Hlen Hq) as (_ & ? & _).
    + intros v Hv. rewrite leaf_translate_other by done. apply Htr.
    + intros w' Hw'. by rewrite <- Htr, Hold in Hw'.
    + intros _. exists w. split; [|done]. rewrite leaf_translate_same by done. fold w in Hwp. by rewrite Hwp.
    + intros path s Hlen Hs. rewrite leaf_node in Hs by done. by apply Hnew.
    + intros s Hs Hus Hno. rewrite lookup_insert_ne; [by apply Hram|]. intros <-.
      destruct (Hnew [i3 virt; i2 virt; i1 virt] t ltac:(simpl; lia) Ht) as [Hn|?]; [|done].
      by apply (Hno [i3 virt; i2 virt; i1 virt]); [simpl; lia|].
Qed.

(** C12: Mapping.  With three free pages for tables, [vspace_map] succeeds; the processor then
    finds the page at the address with the flags that were asked for, every other address
    translates as before, the tables still form a tree of pages in use, and no page has been
    freed.  When the address was mapped already the old mapping stays and the new page is
    not recorded. *)
Theorem vspace_map_correct vs virt phys flags st :
  vs_lock vs = MUTEX_INITIALIZER → tree_wf st (pml4_ppn vs) → free_room 3 st →
  let root := pml4_ppn vs in
  ∃ st', vspace_map cur vs virt phys flags st = Ok (vs, st') ∧ tree_wf st' root ∧
    (∀ v, vpath v ≠ vpath virt → translate (ram st') root v = translate (ram st) root v) ∧
    (∀ w, translate (ram st) root virt = Some w → translate (ram st') root virt = Some w) ∧
    (translate (ram st) root virt = None →
     ∃ w, translate (ram st') root virt = Some w ∧ e_ppn w = phys mod 2 ^ 40 ∧
          e_write w = flag flags PG_WRITE ∧ e_user w = flag flags PG_USER ∧
          e_noexec w = flag flags PG_NOEXEC) ∧
    (∀ s, 0 <= s → used st s → used st' s).
Proof.
  intros Hl Hwf Hroom root.
  destruct (vspace_map_spec vs virt phys flags st Hl Hwf) as [(st' & Hm & [])|[_ ?]]; [|done].
  exists st'. by split_and!.
Qed.

(** [vspace_unmap], mapped or not. *)
Lemma vspace_unmap_spec vs virt st :
  vs_lock vs = MUTEX_INITIALIZER → tree_wf st (pml4_ppn vs) →
  let root := pml4_ppn vs in
  (∀ w, translate (ram st) root virt = Some w → is_page st (e_ppn w) ∧ used st (e_ppn w) ∧
     ∀ path, (length path <= 3)%nat → node (ram st) root path ≠ Some (e_ppn w)) →
  match translate (ram st) root virt with
  | None => vspace_unmap cur vs virt st = Ok (false, vs, st)
  | Some w =>
      ∃ st', vspace_unmap cur vs virt st = Ok (true, vs, st') ∧ tree_wf st' root ∧
        translate (ram st') root virt = None ∧
        (∀ v, vpath v ≠ vpath virt → translate (ram st') root v = translate (ram st) root v) ∧
        (∀ p, 0 <= p → used st' p ↔ used st p ∧ p ≠ e_ppn w) ∧
        page_count st' = page_count st ∧
        (∀ path, (length path <= 3)%nat → node (ram st') root path = node (ram st) root path) ∧
        (∀ q, node (ram st) root [i3 virt; i2 virt; i1 virt] ≠ Some q → ram st' !! q = ram st !! q)
  end.
Proof.
  intros Hl Hwf root Hleaf. unfold vspace_unmap. rewrite Hl, mutex_lock_idle. simpl.
  set (vsl := {| vs_lock := mx_taken cur; pml4_ppn := pml4_ppn vs |}).
  rewrite (resolve_ok vsl) by done. simpl. fold root. unfold va_of. cbn [va_page ptble page_ppn].
  rewrite node_translate.
  destruct (translate (ram st) root virt) as [w|] eqn:Htr; simpl.
  2: { rewrite mutex_release_taken. simpl. destruct vs as [l r]. simpl in *. by subst. }
  destruct (Hleaf w eq_refl) as (Hpg & Hu & Hnt). unfold translate in Htr.
  destruct (node (ram st) root [i3 virt; i2 virt; i1 virt]) as [t|] eqn:Ht; [|done]. simpl in Htr.
  destruct (e_present (entry (ram st) t (i0 virt))) eqn:Hp; [|done]. injection Htr as Hw.
  destruct (tw_table _ _ Hwf [i3 virt; i2 virt; i1 virt] t ltac:(simpl; lia) Ht) as (_ & _ & [pg Hram]).
  change ((λ t : Z, (t, i0 virt)) <$> Some t) with (Some (t, i0 virt)).
  rewrite (wr_ptr_ok _ _ _ _ _ Hram). simpl.
  set (st1 := set_ram st (<[t := <[i0 virt := 0]> pg]> (ram st))).
  destruct (free_page_spec cur st1 (set_ram_wf _ _ (tw_pages _ _ Hwf)) (e_ppn w) Hpg Hu)
    as (st2 & Hf & Hram2 & Hupd).
  fold st1. rewrite Hf. simpl. rewrite mutex_release_taken. simpl. exists st2.
  change (ram st1) with (<[t := <[i0 virt := 0]> pg]> (ram st)) in Hram2.
  destruct vs as [l r]. simpl in Hl. subst l. split_and!; [done| | | | |apply (pu_count _ _ _ _ Hupd)| |].
  - apply (leaf_wf st root virt t pg 0); try done; [apply Hupd|apply (pu_count _ _ _ _ Hupd)|].
    intros path q Hlen Hq. destruct (tw_table _ _ Hwf path q Hlen Hq) as (Hqp & Hqu & _). unfold used.
    rewrite (pu_out _ _ _ _ Hupd); [done|apply Hqp|]. intros ->. by eapply Hnt.
  - rewrite Hram2. by rewrite leaf_translate_same by done.
  - intros v Hv. rewrite Hram2. by rewrite leaf_translate_other by done.
  - intros p Hp0. unfold used. destruct (decide (p = e_ppn w)) as [->|Hne].
    + rewrite (pu_in _ _ _ _ Hupd) by done. split; [done|]. tauto.
    + rewrite (pu_out _ _ _ _ Hupd) by done. change (bm_bit (free_pages st1) p) with (bm_bit (free_pages st) p).
      tauto.
  - intros path Hlen. rewrite Hram2. by apply leaf_node.
  - intros q Hq. rewrite Hram2, lookup_insert_ne; [done|]. intros <-. by apply Hq.
Qed.

(** C13: Unmapping.  When the address is mapped to a page in use that is not itself a table,
    [vspace_unmap] returns true: the address is no longer mapped, its page is free, and every
    other translation and every other page are as they were.  When it is not mapped, it
    returns false and changes nothing. *)
Theorem vspace_unmap_correct vs virt st :
  vs_lock vs = MUTEX_INITIALIZER → tree_wf st (pml4_ppn vs) →
  let root := pml4_ppn vs in
  (∀ w, translate (ram st) root virt = Some w → is_page st (e_ppn w) ∧ used st (e_ppn w) ∧
     ∀ path, (length path <= 3)%nat → node (ram st) root path ≠ Some (e_ppn w)) →
  match translate (ram st) root virt with
  | None => vspace_unmap cur vs virt st = Ok (false, vs, st)
  | Some w =>
      ∃ st', vspace_unmap cur vs virt st = Ok (true, vs, st') ∧ tree_wf st' root ∧
        translate (ram st') root virt = None ∧
        (∀ v, vpath v ≠ vpath virt → translate (ram st') root v = translate (ram st) root v) ∧
        (∀ p, 0 <= p → used st' p ↔ used st p ∧ p ≠ e_ppn w)
  end.
Proof.
  intros Hl Hwf root Hleaf. pose proof (vspace_unmap_spec vs virt st Hl Hwf Hleaf) as H.
  fold root in H. destruct (translate (ram st) root virt); [|done].
  destruct H as (st' & H1 & H2 & H3 & H4 & H5 & _). exists st'. by split_and!.
Qed.

(** [virt_to_phys], called with the lock held, gives the address of the page that the
    processor finds, and 0 for an address that is not mapped. *)
Theorem virt_to_phys_correct vs addr st :
  vs_lock vs = mx_taken cur → tree_wf st (pml4_ppn vs) → is_word 64 addr →
  virt_to_phys cur vs addr st =
    Ok (match translate (ram st) (pml4_ppn vs) (addr / 4096) with
        | Some w => e_ppn w * 4096 | None => 0 end).
Proof.
  intros Hl Hwf Haddr. unfold virt_to_phys, virt_to_ppn. rewrite resolve_ok by done. simpl.
  unfold va_of. cbn [page_ppn]. rewrite node_translate. unfold PAGE_SHIFT. rewrite Z.shiftr_div_pow2 by lia. change (2 ^ 12) with 4096.
  destruct (translate _ _ _) as [w|]; simpl; [|done].
  rewrite Z.shiftl_mul_pow2 by lia. change (2 ^ 12) with 4096. rewrite uwrap_small; [done|].
  pose proof (bf_get_range 12 40 ltac:(lia) w). unfold e_ppn, is_word.
  change (2 ^ 64) with (2 ^ 40 * 16777216). lia.
Qed.

(** Allocating a page leaves the tables alone. *)
Lemma alloc_page_installed root st p st' :
  tree_wf st root → alloc_page cur st = Ok (p, st') →
  installed root st st' ∧ is_page st p ∧ ¬ used st p ∧ used st' p ∧ ram st' = <[p := ∅]> (ram st) ∧
  ∀ path s, (length path <= 3)%nat → node (ram st') root path = Some s → s ≠ p.
Proof.
  intros Hwf Ha. destruct (alloc_page_room cur st (tw_pages _ _ Hwf))
    as [(p' & st2 & Ha' & Hpg & Hnu & Hram & Hupd & _)|[Ha' _]]; rewrite Ha' in Ha; [|done].
  injection Ha as -> ->.
  assert (∀ path s, (length path <= 3)%nat → node (ram st) root path = Some s → s ≠ p) as Hne.
  { intros path s Hl Hs ->. by destruct (tw_table _ _ Hwf path p Hl Hs) as (_ & ? & _). }
  assert (∀ path, (length path <= 4)%nat → node (ram st') root path = node (ram st) root path) as Hnode.
  { intros path Hl. apply node_ext. intros pre j rest s -> Hs. rewrite Hram. apply entry_fresh.
    apply (Hne pre); [|done]. rewrite length_app in Hl. simpl in Hl. lia. }
  assert (∀ s, 0 <= s → used st s → used st' s) as Hmono.
  { intros s Hs Hus. unfold used. destruct (decide (s = p)) as [->|]; [by apply (pu_in _ _ _ _ Hupd)|].
    by rewrite (pu_out _ _ _ _ Hupd). }
  split; [|split_and!; [done|done|by apply (pu_in _ _ _ _ Hupd); [apply Hpg|]|done|]].
  2: { intros path s Hl Hs. rewrite Hnode in Hs by lia. by eapply Hne. }
  split.
  - pose proof Hwf as [_ Hc Ht Hu]. split.
    + apply Hupd.
    + by rewrite (pu_count _ _ _ _ Hupd).
    + intros path s Hl Hs. rewrite Hnode in Hs by lia. destruct (Ht path s Hl Hs) as (Hps & Hus & [pg Hr]).
      unfold is_page. rewrite (pu_count _ _ _ _ Hupd). split; [done|]. split; [apply Hmono; [apply Hps|done]|].
      exists pg. rewrite Hram, lookup_insert_ne; [done|]. intros ->. by apply (Hne path s).
    + intros path path' s Hl Hl' Hs Hs'. rewrite Hnode in Hs, Hs' by lia. by eapply Hu.
  - intros v. unfold translate. rewrite Hnode by (simpl; lia).
    destruct (node (ram st) root [i3 v; i2 v; i1 v]) as [s|] eqn:Hs; [|done]. simpl.
    rewrite Hram, entry_fresh; [done|]. apply (Hne [i3 v; i2 v; i1 v]); [simpl; lia|done].
  - done.
  - apply (pu_count _ _ _ _ Hupd).
  - intros path s Hl Hs. left. by rewrite <- Hnode by lia.
  - intros s _ Hs _. rewrite Hram, lookup_insert_ne; [done|]. by intros <-.
Qed.

(** ** Creating an address space *)

(** The entries of a PML4 that has been given the kernel's upper half. *)
Lemma shared_entry r u dst k src j :
  r !! k = Some src → u ≠ k →
  entry (<[u := low_half dst ∪ high_half src]> r) u j =
    if decide (256 <= j) then entry r k j else default 0 (dst !! j).
Proof.
  intros Hk Hne. unfold entry. rewrite lookup_insert_eq, Hk. simpl. f_equal.
  unfold low_half, high_half. destruct (decide (256 <= j)) as [Hj|Hj].
  - rewrite lookup_union_r by (apply map_lookup_filter_None_2; right; intros ? _; simpl; lia).
    f_equal. apply option_eq. intros x. rewrite map_lookup_filter_Some. simpl. tauto.
  - rewrite lookup_union_l by (apply map_lookup_filter_None_2; right; intros ? _; simpl; lia).
    f_equal. apply option_eq. intros x. rewrite map_lookup_filter_Some. simpl. intuition lia.
Qed.

Lemma mutex_init_fresh raw :
  mx_magic raw ≠ MUTEX_MAGIC → sp_magic (mx_spin raw) ≠ MUTEX_MAGIC → mutex_init raw = Ok MUTEX_INITIALIZER.
Proof.
  intros Hm Hs. unfold mutex_init, spin_init.
  rewrite (proj2 (Z.eqb_neq _ _) Hm), (proj2 (Z.eqb_neq _ _) Hs).
  rewrite (assert_true : assert_ (negb false) = Ok tt). done.
Qed.

(** What [vspace_create] leaves: a top table [u] of its own, with the upper half [src] of the
    kernel's and an empty lower half; nothing else is written. *)
Record space_created (u : Z) (src : page_t) st st' : Prop := {
  sp_page : is_page st u ∧ ¬ used st u;
  sp_top : ram st' !! u = Some (high_half src);
  sp_ram q : q ≠ u → ram st' !! q = ram st !! q;
  sp_upd : pages_upd (λ q, q = u) true st st';
}.

Lemma vspace_create_spec `{KM : Kmalloc A, PM : PhysMem A} kernel src raw (hp hp' : A) p :
  let st := phys hp' in
  pages_wf st → ram st !! pml4_ppn kernel = Some src → used st (pml4_ppn kernel) → free_room 1 st → km_alloc 80 hp = Ok (p, hp') →
  mx_magic raw ≠ MUTEX_MAGIC → sp_magic (mx_spin raw) ≠ MUTEX_MAGIC →
  ∃ u st', vspace_create cur kernel raw hp = Ok (p, {| vs_lock := MUTEX_INITIALIZER; pml4_ppn := u |}, set_phys st' hp') ∧
    space_created u src st st'.
Proof.
  intros st Hwf Hk Huk Hroom Hkm Hm Hs. set (k := pml4_ppn kernel) in *.
  unfold vspace_create. rewrite Hkm. simpl. fold st.
  destruct (alloc_page_room cur st Hwf) as [(u & st1 & Ha & Hpg & Hnu & Hram & [Hwf1 Hc Hin Hout] & _)|[_ ?]]; [|done].
  rewrite Ha. simpl. rewrite mutex_init_fresh by done. simpl.
  unfold vspace_update_kernel_mapping. rewrite (assert_true : assert_ (negb false) = Ok tt). simpl.
  assert (u ≠ k) as Hne by (by intros ->). fold k. rewrite Hram, lookup_insert_eq. simpl. rewrite lookup_insert_ne, Hk by done. simpl.
  eexists u, _. split; [done|]. split; simpl; [done| | |split; [by apply set_ram_wf|done..]].
  - rewrite lookup_insert_eq. f_equal. unfold low_half. by rewrite map_filter_empty, (left_id_L ∅ (∪)).
  - intros q Hq. by rewrite !lookup_insert_ne.
Qed.

Lemma high_half_low r u src v : r !! u = Some (high_half src) → i3 v < 256 → translate r u v = None.
Proof.
  intros H Hv. assert (entry r u (i3 v) = 0) as He.
  { unfold entry. rewrite H. cbn [mbind option_bind]. unfold high_half.
    rewrite map_lookup_filter_None_2; [done|]. right. intros w _. cbn. lia. }
  unfold translate, node. by rewrite He.
Qed.

(** A new address space.  When a page is free and the recycled memory does not already
    look like a mutex, [vspace_create] succeeds: the new space is unlocked, maps nothing in
    the lower half, and translates every address of the upper half as the kernel's space
    does; the kernel's translations are unchanged. *)
Theorem vspace_create_correct `{KM : Kmalloc A, PM : PhysMem A} kernel raw (hp hp' : A) p :
  let st := phys hp' in
  tree_wf st (pml4_ppn kernel) → free_room 1 st → km_alloc 80 hp = Ok (p, hp') →
  mx_magic raw ≠ MUTEX_MAGIC → sp_magic (mx_spin raw) ≠ MUTEX_MAGIC →
  ∃ vs st', vspace_create cur kernel raw hp = Ok (p, vs, set_phys st' hp') ∧
    vs_lock vs = MUTEX_INITIALIZER ∧
    (∀ v, i3 v < 256 → translate (ram st') (pml4_ppn vs) v = None) ∧
    (∀ v, 256 <= i3 v →
       translate (ram st') (pml4_ppn vs) v = translate (ram st) (pml4_ppn kernel) v) ∧
    (∀ v, translate (ram st') (pml4_ppn kernel) v = translate (ram st) (pml4_ppn kernel) v) ∧
    used st' (pml4_ppn vs) ∧ ¬ used st (pml4_ppn vs).
Proof.
  intros st Hwf Hroom Hkm Hm Hs. set (k := pml4_ppn kernel) in *.
  unfold vspace_create. rewrite Hkm. simpl. fold st.
  destruct (alloc_page_room cur st (tw_pages _ _ Hwf)) as [(u & st1 & Ha & _)|[_ ?]]; [|done].
  destruct (alloc_page_installed k st u st1 Hwf Ha) as ([Hwf1 Htr1 _ _ _] & Hupg & Hunu & Huu & Hram & Hnu).
  rewrite Ha. simpl. rewrite mutex_init_fresh by done. simpl.
  unfold vspace_update_kernel_mapping. rewrite (assert_true : assert_ (negb false) = Ok tt). simpl.
  destruct (tw_table _ _ Hwf1 [] k) as (_ & Huk & [src Hk]); [simpl; lia|done|].
  assert (ram st1 !! u = Some ∅) as Hu0 by (rewrite Hram; apply lookup_insert_eq).
  rewrite Hu0. simpl. fold k. rewrite Hk. simpl.
  set (r := <[u := low_half ∅ ∪ high_half src]> (ram st1)).
  assert (u ≠ k) as Huk' by (intros ->; by apply (Hnu [] k); [simpl; lia|..]).
  assert (∀ s j, s ≠ u → entry r s j = entry (ram st1) s j) as Hoth.
  { intros s j Hne. unfold r, entry. by rewrite lookup_insert_ne. }
  eexists {| vs_lock := MUTEX_INITIALIZER; pml4_ppn := u |}, _. split; [done|]. simpl.
  assert (∀ v, translate r k v = translate (ram st) k v) as Hker.
  { intros v. rewrite <- Htr1. unfold translate. rewrite (node_ext (ram st1)).
    - destruct (node (ram st1) k [i3 v; i2 v; i1 v]) as [s|] eqn:Hn; [|done]. simpl.
      by rewrite Hoth by (by apply (Hnu [i3 v; i2 v; i1 v]); [simpl; lia|]).
    - intros pre j rest s Heq Hn. apply Hoth, (Hnu pre); [|done].
      apply (f_equal length) in Heq. rewrite length_app in Heq. simpl in Heq. lia. }
  split_and!; [done| | |done|done|done].
  - intros v Hv. unfold translate, node, r. rewrite (shared_entry _ _ _ _ _ _ Hk Huk').
    rewrite decide_False by lia. by rewrite lookup_empty.
  - intros v Hv. rewrite <- Hker. unfold translate.
    assert (node r u [i3 v; i2 v; i1 v] = node r k [i3 v; i2 v; i1 v]) as ->; [|done].
    assert (entry r u (i3 v) = entry (ram st1) k (i3 v)) as Heq.
    { unfold r. rewrite (shared_entry _ _ _ _ _ _ Hk Huk'). by rewrite decide_True by lia. }
    unfold node. by rewrite (Hoth k), Heq by done.
Qed.

(** In a debug build [vspace_create] panics when [kmalloc] hands out memory that still
    holds the mutex of a deleted address space: [mutex_init] takes the leftover magic number
    for a live mutex, and [vspace_delete] frees the structure without destroying its lock. *)
Theorem vspace_create_recycled_panics `{KM : Kmalloc A, PM : PhysMem A} kernel raw (hp hp' : A) p :
  DEBUG = true → pages_wf (phys hp') → km_alloc 80 hp = Ok (p, hp') → mx_magic raw = MUTEX_MAGIC →
  vspace_create cur kernel raw hp = Stop Panic.
Proof.
  intros Hd Hwf Hkm Hm. unfold vspace_create. rewrite Hkm. simpl.
  destruct (alloc_page_room cur _ Hwf) as [(u & st1 & Ha & _)|[Ha _]]; rewrite Ha; [|done]. simpl.
  unfold mutex_init, assert_. by rewrite Hm, Hd.
Qed.
End proofs.

(** ** Concrete runs *)

(** A machine of 64 pages whose page 0 is an empty PML4. *)
Definition demo_pages : pages_t :=
  match @alloc_page debug_build 7 (fresh_pages 64) with Ok (_, st) => st | Stop _ => fresh_pages 64 end.
Definition demo_vs : vspace_t := {| vs_lock := MUTEX_INITIALIZER; pml4_ppn := 0 |}.

Lemma demo_pages_wf : tree_wf demo_pages 0.
Proof.
  destruct (@alloc_page_spec debug_build 7 (fresh_pages 64)) as [(p & st & Ha & Hpg & _ & _ & Hr & Hupd)|[Ha _]].
  - apply fresh_pages_wf; [lia|done].
  - assert (p = 0) as -> by (vm_compute in Ha; congruence).
    assert (demo_pages = st) as Hst by (unfold demo_pages; by rewrite Ha).
    apply tree_wf_empty; rewrite Hst.
    + apply Hupd.
    + rewrite (pu_count _ _ _ _ Hupd). vm_compute. discriminate.
    + unfold is_page. by rewrite (pu_count _ _ _ _ Hupd).
    + by apply (pu_in _ _ _ _ Hupd).
    + rewrite Hr. apply lookup_insert_eq.
  - vm_compute in Ha. discriminate Ha.
Qed.

Lemma demo_room : free_room 3 demo_pages.
Proof.
  exists [1; 2; 3]. split_and!; [apply (bool_decide_unpack _); vm_compute; exact I|simpl; lia|].
  intros p Hp. rewrite !elem_of_cons, elem_of_nil in Hp.
  destruct Hp as [->|[->|[->|[]]]]; (split; [vm_compute; split; [discriminate|reflexivity]|vm_compute; discriminate]).
Qed.

Lemma vspace_map_correct_witness :
  ∃ st' w, @vspace_map debug_build 7 demo_vs 0x12345 42 (Z.lor PG_USER PG_WRITE) demo_pages = Ok (demo_vs, st') ∧
    translate (ram st') 0 0x12345 = Some w ∧ e_ppn w = 42 ∧ e_user w = 1 ∧ e_noexec w = 0.
Proof.
  destruct (@vspace_map_correct debug_build 7 demo_vs 0x12345 42 (Z.lor PG_USER PG_WRITE) demo_pages)
    as (st' & Hm & _ & _ & _ & Hnew & _).
  - reflexivity.
  - exact demo_pages_wf.
  - exact demo_room.
  - destruct Hnew as (w & Hw & Hp & _ & Hu & Hx); [vm_compute; reflexivity|].
    exists st', w. split; [exact Hm|]. split; [exact Hw|]. split; [exact Hp|]. split; [exact Hu|exact Hx].
Defined.

(** The same machine with page 1 in use and mapped at the virtual page 0x12345. *)
Definition mapped_pages : pages_t :=
  match (let _ := debug_build in '(p, st) ← @alloc_page debug_build 7 demo_pages;
         @vspace_map debug_build 7 demo_vs 0x12345 p PG_WRITE st) with
  | Ok (_, st) => st | Stop _ => demo_pages
  end.

Lemma mapped_ok :
  tree_wf mapped_pages 0 ∧
  ∀ path, (length path <= 3)%nat → node (ram mapped_pages) 0 path ≠ Some 1.
Proof.
  assert (∃ st1, @alloc_page debug_build 7 demo_pages = Ok (1, st1)) as [st1 Ha].
  { eexists. vm_compute. reflexivity. }
  destruct (@alloc_page_installed debug_build 7 0 demo_pages 1 st1 demo_pages_wf Ha)
    as ([Hwf1 _ _ _ _] & _ & _ & Hu1 & _ & Hne).
  destruct (@vspace_map_spec debug_build 7 demo_vs 0x12345 1 PG_WRITE st1 eq_refl Hwf1)
    as [(st2 & Hm & [Hwf2 _ _ _ _ _ Hnew])|[Hm _]].
  - assert (mapped_pages = st2) as -> by (unfold mapped_pages; rewrite Ha; simpl; by rewrite Hm).
    split; [done|]. intros path Hl Hn. destruct (Hnew path 1 Hl Hn) as [Hn1|?]; [|done].
    by apply (Hne path 1 Hl).
  - assert (Ok (1, st1) = @alloc_page debug_build 7 demo_pages) as Ha2 by done.
    vm_compute in Ha2. injection Ha2 as ->. vm_compute in Hm. discriminate Hm.
Qed.

Lemma mapped_leaf : translate (ram mapped_pages) 0 0x12345 = Some 4099.
Proof. vm_compute. reflexivity. Qed.

Lemma vspace_unmap_correct_witness :
  ∃ st', @vspace_unmap debug_build 7 demo_vs 0x12345 mapped_pages = Ok (true, demo_vs, st') ∧
    translate (ram st') 0 0x12345 = None ∧ ¬ used st' 1.
Proof.
  pose proof (@vspace_unmap_correct debug_build 7 demo_vs 0x12345 mapped_pages eq_refl (proj1 mapped_ok)) as H.
  cbv zeta in H. change (pml4_ppn demo_vs) with 0 in H. rewrite mapped_leaf in H.
  assert (e_ppn 4099 = 1) as He by (vm_compute; reflexivity).
  destruct H as (st' & Hu & _ & Hn & _ & Hus).
  - intros w Hw. injection Hw as <-. rewrite He. split; [vm_compute; split; [discriminate|reflexivity]|].
    split; [vm_compute; reflexivity|]. apply (proj2 mapped_ok).
  - exists st'. split; [exact Hu|]. split; [exact Hn|]. rewrite (Hus 1 ltac:(lia)), He. intros [_ Hne].
    apply Hne. reflexivity.
Defined.

Lemma virt_to_phys_correct_witness :
  @virt_to_phys debug_build 7 {| vs_lock := mx_taken 7; pml4_ppn := 0 |} 0x12345678 mapped_pages = Ok 4096.
Proof.
  rewrite (@virt_to_phys_correct debug_build 7 {| vs_lock := mx_taken 7; pml4_ppn := 0 |} 0x12345678 mapped_pages
    eq_refl (proj1 mapped_ok)).
  - change (0x12345678 / 4096) with 0x12345. simpl pml4_ppn. rewrite mapped_leaf. reflexivity.
  - split; [lia|reflexivity].
Defined.

(** What is left in memory that has never been used. *)
Definition zero_mutex : mutex_t :=
  {| mx_lock := 0; mx_magic := 0; mx_waiting := []; mx_spin := {| sp_lock := 0; sp_magic := 0 |}; mx_held_by := 0 |}.

(** An allocator that always answers 64. *)
Definition demo_kmalloc : Kmalloc pages_t :=
  {| km_alloc n a := Ok (64, a); km_free p a := Ok a; km_live a := {[64]} |}.

Lemma vspace_create_correct_witness :
  ∃ vs st', @vspace_create debug_build 7 pages_t demo_kmalloc _ demo_vs zero_mutex mapped_pages =
              Ok (64, vs, st') ∧ translate (ram st') (pml4_ppn vs) 0x12345 = None.
Proof.
  destruct (@vspace_create_correct debug_build 7 pages_t demo_kmalloc _ demo_vs zero_mutex mapped_pages mapped_pages 64)
    as (vs & st' & Hc & _ & Hlow & _).
  - exact (proj1 mapped_ok).
  - exists [10]. split; [apply (bool_decide_unpack _); vm_compute; exact I|]. split; [simpl; lia|].
    intros p Hp%list_elem_of_singleton. subst p. split; [vm_compute; split; [discriminate|reflexivity]|vm_compute; discriminate].
  - reflexivity.
  - discriminate.
  - discriminate.
  - exists vs, st'. split; [exact Hc|]. apply Hlow. reflexivity.
Defined.

Lemma vspace_create_recycled_panics_witness :
  @vspace_create debug_build 7 pages_t demo_kmalloc _ demo_vs MUTEX_INITIALIZER mapped_pages = Stop Panic.
Proof.
  apply (@vspace_create_recycled_panics debug_build 7 pages_t demo_kmalloc _ demo_vs MUTEX_INITIALIZER mapped_pages mapped_pages 64).
  - reflexivity.
  - exact (tw_pages _ _ (proj1 mapped_ok)).
  - reflexivity.
  - reflexivity.
Defined.
