(* ===== verification/Space.v ===== *)
(** Frames that belong to one address space: what the users of vspace.c rely on when they give
    each page of a range its own physical page and take it back, namely the kernel's heap
    (mm/heap.c) and the stacks and heaps of processes (sched/userstack.c, mm/sbrk.c). *)
From S2P Require Import Prelude Words Mutex Bitmap PageAlloc Dll Vspace.
Open Scope Z_scope.

(** A page of the tree of tables, or the frame of a page in [P]. *)
Definition owned (P : Z → Prop) (r : ram_t) (root p : Z) : Prop :=
  (∃ path, (length path <= 3)%nat ∧ node r root path = Some p) ∨
  (∃ v e, P v ∧ translate r root v = Some e ∧ e_ppn e = p).

(** What an address space that takes pages leaves to the others: they stay in use, with their
    words, and do not become its own. *)
Record takes P vs st st' : Prop := {
  ts_count : page_count st' = page_count st;
  ts_used q : 0 <= q → used st q → used st' q;
  ts_others q : 0 <= q → used st q → ¬ owned P (ram st) (pml4_ppn vs) q →
    ram st' !! q = ram st !! q ∧ ¬ owned P (ram st') (pml4_ppn vs) q;
}.

#[export] Instance takes_preorder P vs : PreOrder (takes P vs).
Proof.
  split; [intros st; by split|]. intros st1 st2 st3 [Hc1 Hu1 Ho1] [Hc2 Hu2 Ho2]. split; [congruence|auto|].
  intros q H0 Hu Hq. destruct (Ho1 q H0 Hu Hq) as [E1 H1]. destruct (Ho2 q) as [E2 H2]; [auto..|]. split; [congruence|done].
Qed.

Section space.
Context `{B : Build} (cur : tptr).
(** The virtual pages of the range; the tables tell them apart. *)
Context (P : Z → Prop) (P_inj : ∀ v v', P v → P v' → vpath v = vpath v' → v = v').
Implicit Types (vs : vspace_t) (st : pages_t).

(** A page of the range that is mapped has a frame of its own. *)
Definition leaf_ok (st : pages_t) (root v : Z) (e : Z) : Prop :=
  is_page st (e_ppn e) ∧ used st (e_ppn e) ∧
  (∀ path, (length path <= 3)%nat → node (ram st) root path ≠ Some (e_ppn e)) ∧
  (∀ v' e', P v' → translate (ram st) root v' = Some e' → e_ppn e' = e_ppn e → v' = v).

(** The address space is a tree, unlocked, and the pages of the range are in order. *)
Record owns vs st : Prop := {
  ow_lock : vs_lock vs = MUTEX_INITIALIZER;
  ow_tree : tree_wf st (pml4_ppn vs);
  ow_leaf : ∀ v e, P v → translate (ram st) (pml4_ppn vs) v = Some e → leaf_ok st (pml4_ppn vs) v e;
}.

(** Leaves stay in order while tables and data pages that were free are added. *)
Lemma leaf_ok_mono st st' root v e :
  (∀ v, P v → translate (ram st') root v = translate (ram st) root v) →
  (∀ s, 0 <= s → used st s → used st' s) → page_count st' = page_count st →
  (∀ path s, (length path <= 3)%nat → node (ram st') root path = Some s →
     node (ram st) root path = Some s ∨ ¬ used st s) →
  leaf_ok st root v e → leaf_ok st' root v e.
Proof.
  intros Htr Hu Hc Hn (Hp & Hus & Hnt & Huniq). unfold leaf_ok, is_page. rewrite Hc.
  split_and!; [apply Hp|apply Hp|by apply Hu; [apply Hp|]| |].
  - intros path Hl Hs. destruct (Hn path _ Hl Hs) as [Hs'|?]; [by eapply Hnt|done].
  - intros v' e' Hv'. rewrite Htr by done. by apply Huniq.
Qed.

(** What giving the page [v] the frame [p] does to the range. *)
Record page_given vs (v p flags : Z) st st' : Prop := {
  pv_owns : owns vs st';
  pv_other v' : P v' → v' ≠ v → translate (ram st') (pml4_ppn vs) v' = translate (ram st) (pml4_ppn vs) v';
  pv_frame : is_page st p ∧ ¬ used st p ∧ used st' p;
  pv_used s : 0 <= s → used st s → used st' s;
  pv_old w : translate (ram st) (pml4_ppn vs) v = Some w → translate (ram st') (pml4_ppn vs) v = Some w ∧ e_ppn w ≠ p;
  pv_new : translate (ram st) (pml4_ppn vs) v = None → ∃ w, translate (ram st') (pml4_ppn vs) v = Some w ∧
    e_ppn w = p ∧ e_write w = flag flags PG_WRITE ∧ e_user w = flag flags PG_USER ∧
    e_noexec w = flag flags PG_NOEXEC;
  pv_takes : takes P vs st st';
}.

(** The pages of others stay while [v] gets the frame [p]. *)
Lemma takes_given vs v p st st1 st' :
  installed (pml4_ppn vs) st st1 → ¬ used st p →
  (∀ s, 0 <= s → used st1 s → used st' s) → page_count st' = page_count st1 →
  (∀ path s, (length path <= 3)%nat → node (ram st') (pml4_ppn vs) path = Some s → node (ram st1) (pml4_ppn vs) path = Some s ∨ ¬ used st1 s) →
  (∀ s, 0 <= s → used st1 s → (∀ path, (length path <= 3)%nat → node (ram st1) (pml4_ppn vs) path ≠ Some s) → ram st' !! s = ram st1 !! s) →
  (∀ u, P u → u ≠ v → translate (ram st') (pml4_ppn vs) u = translate (ram st) (pml4_ppn vs) u) →
  (∀ e, translate (ram st') (pml4_ppn vs) v = Some e → translate (ram st) (pml4_ppn vs) v = Some e ∨ e_ppn e = p) →
  takes P vs st st'.
Proof.
  intros [_ _ Hu1 Hc1 Hn1 Hr1] Hnp Hu2 Hc2 Hn2 Hr2 Hoth Hv. split; [congruence|auto|]. intros q H0 Hq Hno.
  assert (∀ path, (length path <= 3)%nat → node (ram st) (pml4_ppn vs) path ≠ Some q) as Hnode by (intros path Hl Hn; apply Hno; left; eauto).
  assert (∀ path, (length path <= 3)%nat → node (ram st1) (pml4_ppn vs) path ≠ Some q) as Hnode1.
  { intros path Hl Hn. by destruct (Hn1 path q Hl Hn); [eapply Hnode|]. }
  split; [rewrite Hr2, Hr1; auto|]. intros [(path & Hl & Hn)|(u & e & Hu & He & <-)].
  - destruct (Hn2 path q Hl Hn) as [?|Hn']; [by eapply Hnode1|by apply Hn', Hu1].
  - apply Hno. right. exists u, e. split_and!; [done| |done]. destruct (decide (u = v)) as [->|Hne]; [|by rewrite <- Hoth].
    destruct (Hv e He) as [?|Hp]; [done|]. by rewrite Hp in Hq.
Qed.

(** Leaves stay in order when the page [v] gets the frame [p] that none of them has. *)
Lemma leaf_ok_given st st' root v p e0 :
  (∀ u e, P u → translate (ram st) root u = Some e → leaf_ok st root u e ∧ e_ppn e ≠ p) →
  (∀ u, P u → u ≠ v → translate (ram st') root u = translate (ram st) root u) →
  translate (ram st') root v = Some e0 → e_ppn e0 = p → is_page st p → used st p →
  (∀ path s, (length path <= 3)%nat → node (ram st) root path = Some s → s ≠ p) →
  (∀ s, 0 <= s → used st s → used st' s) → page_count st' = page_count st →
  (∀ path s, (length path <= 3)%nat → node (ram st') root path = Some s →
     node (ram st) root path = Some s ∨ ¬ used st s) →
  ∀ u e, P u → translate (ram st') root u = Some e → leaf_ok st' root u e.
Proof.
  intros Hleaf Hoth He0 Hp0 Hp Hup Hnp Hu Hc Hn u e Hu' He. unfold leaf_ok, is_page. rewrite Hc.
  destruct (decide (u = v)) as [->|Hne].
  - rewrite He0 in He. injection He as <-. rewrite Hp0. split_and!; [apply Hp|apply Hp|apply Hu; [apply Hp|done]| |].
    + intros path Hlen Hs. destruct (Hn path p Hlen Hs) as [Hs'|?]; [|done]. by apply (Hnp path p).
    + intros v' e' Hv' He' Heq. destruct (decide (v' = v)) as [|Hne']; [done|].
      rewrite Hoth in He' by done. by destruct (Hleaf v' e' Hv' He') as [_ ?].
  - rewrite Hoth in He by done. destruct (Hleaf u e Hu' He) as [(Hp1 & Hus & Hnt & Huniq) Hnep].
    split_and!; [apply Hp1|apply Hp1|apply Hu; [apply Hp1|done]| |].
    + intros path Hlen Hs. destruct (Hn path _ Hlen Hs) as [Hs'|?]; [by eapply Hnt|done].
    + intros v' e' Hv' He' Heq. destruct (decide (v' = v)) as [->|Hne'].
      * rewrite He0 in He'. injection He' as <-. congruence.
      * rewrite Hoth in He' by done. by eapply Huniq.
Qed.

(** A new frame mapped at a page of the range, as all the users do it. *)
Lemma give_page_spec vs v flags st :
  owns vs st → P v →
  (∃ p st1 st', alloc_page cur st = Ok (p, st1) ∧ vspace_map cur vs v p flags st1 = Ok (vs, st') ∧
     page_given vs v p flags st st') ∨
  (('(p, st) ← alloc_page cur st; vspace_map cur vs v p flags st) = Stop Panic ∧ ¬ free_room 4 st).
Proof.
  intros [Hl Ht Hleaf] Hv. set (root := pml4_ppn vs) in *.
  destruct (alloc_page_room cur st (tw_pages _ _ Ht)) as [(p & st1 & Ha & _ & _ & _ & _ & Hroom)|[Ha Hno]].
  2: { right. rewrite Ha. split; [done|]. intros (l & Hnd & Hlen & Hfree). apply Hno.
       destruct l as [|x l]; [simpl in Hlen; lia|]. exists [x]. split_and!; [apply list.NoDup_singleton|simpl; lia|].
       intros q ->%list_elem_of_singleton. apply Hfree. left. }
  destruct (alloc_page_installed cur root st p st1 Ht Ha) as (Hin & Hpg & Hnu & Hup & _ & Hntp).
  pose proof Hin as [Ht1 Htr1 Hu1 Hc1 Hn1 _]. destruct (vspace_map_spec cur vs v p flags st1 Hl Ht1)
    as [(st' & Hm & [Ht2 Hoth Hold Hfresh Hu2 Hc2 Hn2 Hr2])|[Hm Hnr]].
  2: { right. rewrite Ha. split; [done|]. intros H4. by apply Hnr, Hroom. }
  left. exists p, st1, st'. split_and!; [done|done|]. fold root in Ht2, Hoth, Hold, Hfresh, Hn2.
  assert (∀ v e, P v → translate (ram st1) root v = Some e → leaf_ok st1 root v e ∧ e_ppn e ≠ p) as Hleaf1.
  { intros u e Hu He. rewrite Htr1 in He. pose proof (Hleaf u e Hu He) as Hok. split.
    - by apply (leaf_ok_mono st); auto.
    - intros Heq. destruct Hok as (_ & Hus & _). by rewrite Heq in Hus. }
  assert (∀ u, P u → u ≠ v → translate (ram st') root u = translate (ram st1) root u) as Hoth'.
  { intros u Hu Hne. apply Hoth. intros Heq. by apply Hne, P_inj. }
  assert (∀ u, P u → u ≠ v → translate (ram st') root u = translate (ram st) root u) as Hoth0.
  { intros u Hu Hne. by rewrite Hoth', Htr1. }
  assert (is_page st p ∧ ¬ used st p ∧ used st' p) as Hframe by (split_and!; [done|done|apply Hu2; [apply Hpg|done]]).
  assert (∀ s, 0 <= s → used st s → used st' s) as Hused by auto.
  destruct (translate (ram st1) root v) as [e0|] eqn:Hv0.
  - assert (∀ u, P u → translate (ram st') root u = translate (ram st1) root u) as Hsame.
    { intros u Hu. destruct (decide (u = v)) as [->|]; [by rewrite Hv0; apply Hold|by apply Hoth']. }
    split; [split; [done|done|]|done|done|done| | |].
    4: { apply (takes_given vs v p st st1 st'); auto. intros e. fold root. rewrite (Hsame v Hv), Htr1. by left. }
    + intros u e Hu He. rewrite Hsame in He by done. apply (leaf_ok_mono st1); auto. by apply Hleaf1.
    + intros w Hw. fold root in Hw |- *. rewrite <- Htr1, Hv0 in Hw. injection Hw as <-. rewrite Hsame by done. split; [done|]. by apply (Hleaf1 v).
    + fold root. rewrite <- Htr1, Hv0. done.
  - destruct (Hfresh eq_refl) as (e0 & He0 & Hp0 & Hperm).
    assert (e_ppn e0 = p) as Hp0'.
    { rewrite Hp0. apply Z.mod_small. pose proof (tw_count _ _ Ht). unfold is_page in Hpg. lia. }
    split; [split; [done|done|]|done|done|done| | |].
    4: { apply (takes_given vs v p st st1 st'); auto. intros e He. fold root in He. right. congruence. }
    2: { intros w. fold root. rewrite <- Htr1, Hv0. done. }
    2: { intros _. exists e0. split_and!; [exact He0|exact Hp0'|apply Hperm..]. }
    eapply leaf_ok_given; try done. unfold is_page. by rewrite Hc1.
Qed.

(** A page of the range taken back. *)
Lemma take_page_spec vs v st :
  owns vs st → P v →
  ∃ st', vspace_unmap cur vs v st = Ok (bool_decide (is_Some (translate (ram st) (pml4_ppn vs) v)), vs, st') ∧
    owns vs st' ∧ translate (ram st') (pml4_ppn vs) v = None ∧
    (∀ v', P v' → v' ≠ v → translate (ram st') (pml4_ppn vs) v' = translate (ram st) (pml4_ppn vs) v') ∧
    (∀ s, 0 <= s → used st' s ↔ used st s ∧ ∀ w, translate (ram st) (pml4_ppn vs) v = Some w → e_ppn w ≠ s) ∧
    page_count st' = page_count st ∧
    (∀ path, (length path <= 3)%nat → node (ram st') (pml4_ppn vs) path = node (ram st) (pml4_ppn vs) path) ∧
    (∀ q, node (ram st) (pml4_ppn vs) [i3 v; i2 v; i1 v] ≠ Some q → ram st' !! q = ram st !! q).
Proof.
  intros [Hl Ht Hleaf] Hv. set (root := pml4_ppn vs) in *.
  pose proof (vspace_unmap_spec cur vs v st Hl Ht) as Hun. cbv zeta in Hun. fold root in Hun.
  assert (∀ e, translate (ram st) root v = Some e → leaf_ok st root v e) as Hme by auto.
  destruct (translate (ram st) root v) as [e|] eqn:He.
  - destruct (Hme e eq_refl) as (Hp & Hu & Hnt & Huniq).
    destruct Hun as (st' & Hun & Ht' & Hgone & Hoth & Hused & Hcnt & Hnode & Hram).
    { intros e' [= <-]. by split_and!. }
    assert (∀ u, P u → u ≠ v → translate (ram st') root u = translate (ram st) root u) as Hoth'.
    { intros u Hu' Hne. apply Hoth. intros Heq. by apply Hne, P_inj. }
    exists st'. split_and!; [by rewrite bool_decide_eq_true_2 by eauto| |done|done| |done|done|done].
    2: { intros s Hs. rewrite Hused by done. split; intros [? Hne]; (split; [done|]); [intros w [= <-]; congruence|].
         intros ->. by apply (Hne e). }
    split; [done|done|]. fold root.
    intros u e' Hu' He'. destruct (decide (u = v)) as [->|Hne]; [by rewrite Hgone in He'|].
    rewrite Hoth' in He' by done. destruct (Hleaf u e' Hu' He') as (Hp1 & Hu1 & Hnt1 & Huniq1). split_and!.
    + unfold is_page in *. by rewrite Hcnt.
    + apply Hused; [apply Hp1|]. split; [done|]. intros Heq. apply Hne. by eapply Huniq.
    + intros path Hlen. rewrite Hnode by done. by apply Hnt1.
    + intros v' e2 Hv' He2 Heq. destruct (decide (v' = v)) as [->|Hne']; [by rewrite Hgone in He2|].
      rewrite Hoth' in He2 by done. by eapply Huniq1.
  - exists st. rewrite bool_decide_eq_false_2 by (by intros [? ?]). split_and!; [apply Hun; naive_solver|done|done|done| |done|done|done].
    intros s Hs. split; [by intros; split|]. by intros [? _].
Qed.
End space.

Lemma owned_used P vs st q : owns P vs st → owned P (ram st) (pml4_ppn vs) q → 0 <= q ∧ used st q.
Proof.
  intros [_ Ht Hleaf] [(path & Hl & Hn)|(v & e & Hv & He & <-)].
  - destruct (tw_table _ _ Ht path q Hl Hn) as ([? _] & ? & _). done.
  - destruct (Hleaf v e Hv He) as ([? _] & ? & _). done.
Qed.

(** What an address space that gives pages back leaves to the others: their words and whether
    they are in use. *)
Record others_kept P vs st st' : Prop := {
  ot_count : page_count st' = page_count st;
  ot_other q : ¬ owned P (ram st) (pml4_ppn vs) q →
    ram st' !! q = ram st !! q ∧ (0 <= q → used st' q ↔ used st q);
  ot_owned q : owned P (ram st') (pml4_ppn vs) q → owned P (ram st) (pml4_ppn vs) q;
}.

#[export] Instance others_kept_preorder P vs : PreOrder (others_kept P vs).
Proof.
  split; [intros st; by split|]. intros st1 st2 st3 [Hc1 Ho1 Hw1] [Hc2 Ho2 Hw2]. split; [congruence| |auto].
  intros q Hq. destruct (Ho1 q Hq) as [E1 H1]. destruct (Ho2 q) as [E2 H2]; [auto|]. split; [congruence|]. intros Hq0.
  by rewrite H2, H1.
Qed.

(** What it does itself: the tables stay, and a page that is no longer mapped has no frame. *)
Record takes_back P vs st st' : Prop := {
  tk_kept : others_kept P vs st st';
  tk_node path : (length path <= 3)%nat → node (ram st') (pml4_ppn vs) path = node (ram st) (pml4_ppn vs) path;
  tk_words q : (∀ v, P v → node (ram st) (pml4_ppn vs) [i3 v; i2 v; i1 v] ≠ Some q) → ram st' !! q = ram st !! q;
  tk_leaf v w : P v → translate (ram st) (pml4_ppn vs) v = Some w →
    translate (ram st') (pml4_ppn vs) v = Some w ∨ (0 <= e_ppn w ∧ ¬ used st' (e_ppn w));
  tk_gone v w : P v → translate (ram st') (pml4_ppn vs) v = Some w → translate (ram st) (pml4_ppn vs) v = Some w;
  tk_used q : 0 <= q → used st' q → used st q;
  tk_keeps q : 0 <= q → used st q → (∀ v w, P v → translate (ram st) (pml4_ppn vs) v = Some w → e_ppn w ≠ q) → used st' q;
}.

#[export] Instance takes_back_preorder P vs : PreOrder (takes_back P vs).
Proof.
  split; [intros st; split; eauto; reflexivity|]. intros st1 st2 st3 [Hk1 Hn1 Hm1 Hl1 Hg1 Hu1 Hp1] [Hk2 Hn2 Hm2 Hl2 Hg2 Hu2 Hp2]. split; [by etrans| | | |auto|auto|].
  - intros path Hl. by rewrite Hn2, Hn1.
  - intros q Hq. rewrite Hm2, Hm1; [done|done|]. intros v Hv. rewrite Hn1 by (simpl; lia). by apply Hq.
  - intros v w Hv Hw. destruct (Hl1 v w Hv Hw) as [Hw1|[H0 Hno]]; [by apply Hl2|right]. split; [done|]. intros Hu. by apply Hno, Hu2.
  - intros q H0 Hu Hno. apply Hp2; [done|by apply Hp1|]. intros v w Hv Hw. by apply (Hno v w Hv), Hg1.
Qed.

Lemma take_page_kept `{Build} cur P vs v st (P_inj : ∀ v v', P v → P v' → vpath v = vpath v' → v = v') :
  owns P vs st → P v →
  ∃ st', vspace_unmap cur vs v st = Ok (bool_decide (is_Some (translate (ram st) (pml4_ppn vs) v)), vs, st') ∧
    owns P vs st' ∧ translate (ram st') (pml4_ppn vs) v = None ∧
    (∀ v', P v' → v' ≠ v → translate (ram st') (pml4_ppn vs) v' = translate (ram st) (pml4_ppn vs) v') ∧
    takes_back P vs st st'.
Proof.
  intros Hw Hv. destruct (take_page_spec cur P P_inj vs v st Hw Hv) as (st' & Hu & Hw' & Hnone & Hoth & Hused & Hc & Hnode & Hram).
  exists st'. split_and!; [exact Hu|done|done|done|]. split; [|done|by intros q Hq; apply Hram, Hq| | |intros q Hq Hqu; by apply Hused in Hqu as [? _]|intros q Hq Hqu Hno; apply Hused; eauto].
  3: { intros v' w Hv' Htr. destruct (decide (v' = v)) as [->|Hne]; [congruence|by rewrite <- Hoth]. }
  2: { intros v' w Hv' Htr. destruct (decide (v' = v)) as [->|Hne]; [right|left; by rewrite Hoth].
       destruct (ow_leaf _ _ _ Hw v w Hv Htr) as ([? _] & _). split; [done|]. rewrite Hused by done.
       intros [_ Hn]. by apply (Hn w). }
  split; [done| |].
  - intros q Hq. split; [apply Hram; intros Hn; apply Hq; left; exists [i3 v; i2 v; i1 v]; by split; [simpl; lia|]|]. intros Hq0. rewrite Hused by done.
    split; [by intros [? _]|]. intros ?. split; [done|]. intros w Htr <-. apply Hq. right. eauto.
  - intros q [(path & Hl & Hn)|(v' & e & Hv' & He & <-)]; [left; exists path; by rewrite <- Hnode|right].
    destruct (decide (v' = v)) as [->|Hne]; [congruence|]. exists v', e. by rewrite <- Hoth.
Qed.

(** An address space depends on these pages only. *)
Section frame.
Context (P : Z → Prop) (vs : vspace_t) (st st' : pages_t).
Local Abbreviation root := (pml4_ppn vs).
Context (Hown : owns P vs st) (Hwf : pages_wf st') (Hc : page_count st' = page_count st).
Context (Hkeep : ∀ p, owned P (ram st) root p → ram st' !! p = ram st !! p ∧ (0 <= p → used st p → used st' p)).

Lemma frame_entry path s j : (length path <= 3)%nat → node (ram st) root path = Some s → entry (ram st') s j = entry (ram st) s j.
Proof. intros Hl Hn. unfold entry. destruct (Hkeep s) as [-> _]; [left; by exists path|done]. Qed.

Lemma frame_node path : (length path <= 4)%nat → node (ram st') root path = node (ram st) root path.
Proof.
  intros Hl. apply node_ext. intros pre j rest s -> Hn. rewrite length_app in Hl. simpl in Hl.
  apply (frame_entry pre); [lia|done].
Qed.

Lemma frame_translate v : translate (ram st') root v = translate (ram st) root v.
Proof.
  unfold translate. rewrite frame_node by (simpl; lia). destruct (node (ram st) root _) as [t|] eqn:Hn; [|done]. simpl.
  by rewrite (frame_entry [i3 v; i2 v; i1 v] t (i0 v)) by (simpl; lia || exact Hn).
Qed.

Lemma frame_owned p : owned P (ram st') root p ↔ owned P (ram st) root p.
Proof.
  unfold owned. setoid_rewrite frame_translate. f_equiv. split; intros (path & Hlen & Hn); exists path; (split; [done|]);
    [by rewrite <- frame_node by lia|by rewrite frame_node by lia].
Qed.

Lemma owns_frame : owns P vs st'.
Proof.
  destruct Hown as [Hl [Hw Hct Ht Hu] Hlf]. split; [done| |].
  - split; [done|by rewrite Hc| |].
    + intros path q Hlen. rewrite frame_node by lia. intros Hn. destruct (Ht path q Hlen Hn) as (Hp & Hus & Hr).
      destruct (Hkeep q) as [-> Hk]; [left; by exists path|]. unfold is_page in *. rewrite Hc. split_and!; [lia|lia|apply Hk; [lia|done]|done].
    + intros path path' q Hlen Hlen'. rewrite !frame_node by lia. by apply Hu.
  - intros v e Hv. rewrite frame_translate. intros He. destruct (Hlf v e Hv He) as (Hp & Hus & Hno & Hun).
    destruct (Hkeep (e_ppn e)) as [_ Hk]; [right; by exists v, e|]. unfold leaf_ok, is_page in *. rewrite Hc. split_and!; [apply Hp|apply Hp|apply Hk; [lia|done]| |].
    + intros path Hlen. rewrite frame_node by lia. by apply Hno.
    + intros v' e' Hv'. rewrite frame_translate. by apply Hun.
Qed.
End frame.
