(* ===== verification/KHeap.v ===== *)
(** The two heaps: the kernel's, whose break maps and unmaps pages of the kernel's address
    space and which takes a mutex, and the one of the 32-bit boot stage, whose break marks
    pages in the page bitmap.  The kernel's is the allocator that the rest of the kernel uses
    through the [Kmalloc] interface. *)
From S2P Require Import Prelude Words Mutex Bitmap PageAlloc Dll Heap Vspace Space.
Open Scope Z_scope.

(** ** The kernel's break *)

(** What [kbrk] changes: the kernel's address space and the physical pages. *)
Record kworld := { kw_vs : vspace_t; kw_pages : pages_t }.

Section kernel.
Context `{B : Build} (cur : tptr).
Implicit Types (w : kworld).

(** The loop that maps new pages (kernel/kernel/mm/heap.c, lines 99-102). *)
Fixpoint map_pages (n : nat) (page : Z) w : res kworld :=
  match n with
  | O => mret w
  | S n =>
      '(p, st) ← alloc_page cur (kw_pages w);
      '(vs, st) ← vspace_map cur (kw_vs w) page p (Z.lor PG_NOEXEC PG_WRITE) st;
      map_pages n (page + 1) {| kw_vs := vs; kw_pages := st |}
  end.

(** The loop that unmaps pages (kernel/kernel/mm/heap.c, lines 89-90). *)
Fixpoint unmap_pages (n : nat) (page : Z) w : res kworld :=
  match n with
  | O => mret w
  | S n =>
      '(_, vs, st) ← vspace_unmap cur (kw_vs w) page (kw_pages w);
      unmap_pages n (page + 1) {| kw_vs := vs; kw_pages := st |}
  end.

(** The number of times [for (i = first; i <= last; i++)] runs. *)
Definition span (first last : Z) : nat := Z.to_nat (last - first + 1).

(** [kbrk] (kernel/kernel/mm/heap.c, lines 82-103): what follows the assignment of the new
    break. *)
Definition kbrk_moved (orig_brk new_brk : Z) w : res kworld :=
  if new_brk <? orig_brk then
    let first_unmap := new_brk / PAGE_SIZE + (if new_brk mod PAGE_SIZE =? 0 then 0 else 1) in
    let last_unmap := orig_brk / PAGE_SIZE in
    unmap_pages (span first_unmap last_unmap) first_unmap w
  else
    let first_map := orig_brk / PAGE_SIZE + (if orig_brk mod PAGE_SIZE =? 0 then 0 else 1) in
    let last_map := new_brk / PAGE_SIZE in
    map_pages (span first_map last_map) first_map w.

#[export] Instance kheap_cfg : HeapCfg kworld := {|
  hc_width := 64;
  HEADER_SIZE := if DEBUG then 44 else 32;
  KHEAP_START := 0xffffe00000000000;
  hc_check := kpanic;
  hc_moved := kbrk_moved;
|}.

(** The kernel's heap with its mutex (kernel/kernel/mm/heap.c, line 29). *)
Record kheap_t := { kheap_mutex : mutex_t; kheap : heap_t kworld }.
Implicit Types (k : kheap_t).

(** [_kmalloc] (kernel/kernel/mm/heap.c, lines 137-199). *)
Definition kmalloc (size : Z) k : res (Z * kheap_t) :=
  l ← mutex_lock cur (kheap_mutex k);
  '(p, h) ← heap_alloc size (kheap k);
  l ← mutex_release cur l;
  mret (p, {| kheap_mutex := l; kheap := h |}).

(** [kfree] (kernel/kernel/mm/heap.c, lines 218-265). *)
Definition kfree (ptr : Z) k : res kheap_t :=
  if ptr =? 0 then mret k
  else
    kfree_check ptr (kheap k);;
    l ← mutex_lock cur (kheap_mutex k);
    h ← heap_free ptr (kheap k);
    l ← mutex_release cur l;
    mret {| kheap_mutex := l; kheap := h |}.

(** [kheap_print] (kernel/kernel/mm/heap.c, lines 31-60): the blocks of the dump. *)
Definition kheap_print k : res (list (option (Z * Z)) * kheap_t) :=
  l ← mutex_lock cur (kheap_mutex k);
  lines ← dump_heap (kheap k);
  l ← mutex_release cur l;
  mret (lines, {| kheap_mutex := l; kheap := kheap k |}).

(** ** The kernel's address space and the break *)

Abbreviation rt w := (pml4_ppn (kw_vs w)) (only parsing).

(** The virtual pages of the heap. *)
Definition heap_page (v : Z) : Prop := 0xffffe00000000 <= v < 2 ^ 52.

Lemma heap_page_inj v v' : heap_page v → heap_page v' → vpath v = vpath v' → v = v'.
Proof.
  unfold heap_page. intros Hv Hv' Heq%vpath_inj.
  change (2 ^ 52) with 4503599627370496 in *. change (2 ^ 36) with 68719476736 in *. zdiv.
Qed.

(** The kernel's address space is a tree, unlocked, and each heap page that is mapped has a
    frame that belongs to the heap alone. *)
Definition space_ok w : Prop := owns heap_page (kw_vs w) (kw_pages w).

(** What moving the break up does: it takes pages for the heap. *)
Definition takes_more w w' : Prop := kw_vs w' = kw_vs w ∧ takes heap_page (kw_vs w) (kw_pages w) (kw_pages w').

#[export] Instance takes_more_preorder : PreOrder takes_more.
Proof.
  split; [by intros w|]. intros w1 w2 w3 [H1 Hk1] [H2 Hk2]. split; [congruence|]. rewrite H1 in Hk2. by etrans.
Qed.

Lemma map_pages_spec n page w :
  space_ok w → (∀ i, page <= i < page + Z.of_nat n → heap_page i) →
  (∃ w', map_pages n page w = Ok w' ∧ space_ok w' ∧ takes_more w w') ∨ map_pages n page w = Stop Panic.
Proof.
  revert page w. induction n as [|n IH]; intros page w Hw Hr; simpl; [left; by exists w|].
  destruct (give_page_spec cur heap_page heap_page_inj (kw_vs w) page (Z.lor PG_NOEXEC PG_WRITE) (kw_pages w) Hw)
    as [(p & st & st' & Ha & Hm & Hg)|[Hs _]].
  - apply Hr. lia.
  - rewrite Ha. simpl. rewrite Hm. simpl.
    destruct (IH (page + 1) {| kw_vs := kw_vs w; kw_pages := st' |} (pv_owns _ _ _ _ _ _ _ Hg)) as [(w' & Hmp & Hw' & Ht)|Hmp];
      [intros i Hi; apply Hr; lia| |by right].
    left. exists w'. split_and!; [done..|]. etrans; [|exact Ht]. split; [done|apply (pv_takes _ _ _ _ _ _ _ Hg)].
  - right. destruct (alloc_page cur (kw_pages w)) as [[p st]|]; simpl in *; [by rewrite Hs|congruence].
Qed.

(** What moving the break back does: it gives pages of the heap back. *)
Definition gives_back w w' : Prop := kw_vs w' = kw_vs w ∧ others_kept heap_page (kw_vs w) (kw_pages w) (kw_pages w').

#[export] Instance gives_back_preorder : PreOrder gives_back.
Proof.
  split; [by intros w|]. intros w1 w2 w3 [H1 Hk1] [H2 Hk2]. split; [congruence|]. rewrite H1 in Hk2. by etrans.
Qed.

Lemma unmap_pages_spec n page w :
  space_ok w → (∀ i, page <= i < page + Z.of_nat n → heap_page i) →
  ∃ w', unmap_pages n page w = Ok w' ∧ space_ok w' ∧ gives_back w w'.
Proof.
  revert page w. induction n as [|n IH]; intros page w Hw Hr; simpl; [by exists w|].
  destruct (take_page_kept cur heap_page (kw_vs w) page (kw_pages w) heap_page_inj Hw) as (st' & Hu & Hw' & _ & _ & Hk%tk_kept); [apply Hr; lia|].
  rewrite Hu. simpl. destruct (IH (page + 1) {| kw_vs := kw_vs w; kw_pages := st' |}) as (w' & Hun & Hw2 & Hg); [done|intros i Hi; apply Hr; lia|].
  exists w'. split_and!; [done|done|]. etrans; [|exact Hg]. by split.
Qed.

(** The pages between two breaks are pages of the heap. *)
Lemma span_pages a b i :
  0xffffe00000000000 <= a → b < 2 ^ 64 - 1 →
  let first := a / 4096 + (if a mod 4096 =? 0 then 0 else 1) in
  first <= i < first + Z.of_nat (span first (b / 4096)) → heap_page i.
Proof.
  intros Ha Hb first. unfold span, heap_page. change (2 ^ 64 - 1) with 18446744073709551615 in Hb.
  change (2 ^ 52) with 4503599627370496. unfold first. destruct (a mod 4096 =? 0); zdiv.
Qed.

Lemma kbrk_moved_spec orig new w :
  space_ok w → 0xffffe00000000000 <= orig < 2 ^ 64 - 1 → 0xffffe00000000000 <= new < 2 ^ 64 - 1 →
  (∃ w', kbrk_moved orig new w = Ok w' ∧ space_ok w' ∧ (if new <? orig then gives_back w w' else takes_more w w')) ∨
  (orig <= new ∧ kbrk_moved orig new w = Stop Panic).
Proof.
  intros Hw Ho Hn. unfold kbrk_moved, PAGE_SIZE. destruct (Z.ltb_spec new orig).
  - left. destruct (unmap_pages_spec (span (new / 4096 + (if new mod 4096 =? 0 then 0 else 1)) (orig / 4096))
      (new / 4096 + (if new mod 4096 =? 0 then 0 else 1)) w Hw) as (w' & ? & ? & ?); [|by exists w'].
    intros i. apply span_pages; lia.
  - destruct (map_pages_spec (span (orig / 4096 + (if orig mod 4096 =? 0 then 0 else 1)) (new / 4096))
      (orig / 4096 + (if orig mod 4096 =? 0 then 0 else 1)) w Hw) as [(w' & ? & ? & ?)|?]; [|left; by exists w'|by right].
    intros i. apply span_pages; lia.
Qed.

#[export] Instance kheap_laws : HeapLaws kworld.
Proof.
  refine {| hc_inv brk w := space_ok w; hc_less := gives_back; hc_more := takes_more |}; simpl.
  - by destruct DEBUG.
  - done.
  - done.
  - done.
  - intros orig new w w' Hw Ho Hn Hmv.
    destruct (kbrk_moved_spec orig new w Hw) as [(w2 & Hmv2 & Hw2 & Ht)|[_ Hmv2]]; [lia|lia| |congruence].
    rewrite (proj2 (Z.ltb_ge _ _)) in Ht by lia. rewrite Hmv2 in Hmv. by injection Hmv as <-.
  - intros orig new w Hw Hn Ho.
    destruct (kbrk_moved_spec orig new w Hw) as [(w' & ? & ? & Hg)|[? _]]; [lia|lia| |lia].
    exists w'. rewrite (proj2 (Z.ltb_lt _ _)) in Hg by lia. done.
Defined.

(** ** The kernel's allocator *)

(** Between calls the mutex is free and the heap satisfies its invariant. *)
Definition kheap_inv k : Prop := kheap_mutex k = MUTEX_INITIALIZER ∧ heap_inv (kheap k).
Definition kheap_live k : gset Z := dom (allocated (kheap k)).
(** There is address space for [n] more bytes. *)
Definition kheap_room (n : Z) k : Prop :=
  0 <= n ∧ kheap_break (kheap k) + HEADER_SIZE + n < 2 ^ 64 - 1.

Lemma kmalloc_spec n k :
  kheap_inv k → kheap_room n k →
  (∃ p k' c, kmalloc n k = Ok (p, k') ∧ kheap_inv k' ∧ n <= c <= n + HEADER_SIZE ∧
     0xffffe00000000000 < p ∧ allocated (kheap k) !! p = None ∧
     allocated (kheap k') = <[p := c]> (allocated (kheap k)) ∧ takes_more (world (kheap k)) (world (kheap k'))) ∨
  kmalloc n k = Stop Panic.
Proof.
  intros [Hm [segs Hre]] [Hn Hroom]. unfold kmalloc. rewrite Hm, mutex_lock_idle. simpl.
  pose proof (re_shape _ _ Hre) as Hsh. pose proof (tiles_le _ _ _ (sh_tiles _ _ _ Hsh)) as Hlo.
  pose proof (sh_brk _ _ _ Hsh) as Hhi. simpl in Hlo, Hhi. pose proof hc_header_pos as Hhd.
  destruct (heap_alloc_spec (kheap k) segs n Hre Hn Hroom) as [(a & h' & segs' & Ha & Hpost)|(w & Hw & Ha)].
  - left. rewrite Ha. simpl. rewrite mutex_release_taken. simpl.
    destruct (alloc_post_allocated _ _ _ _ _ _ Hre Hpost) as (c & Hc & Hnone & Hins).
    eexists _, _, c. split; [done|]. simpl. split_and!; [split; [done|exists segs'; apply Hpost]|apply Hc|apply Hc| |done|done|apply Hpost].
    destruct (ap_new _ _ _ _ _ _ Hpost) as (sz & Hin & _).
    pose proof (re_shape _ _ (ap_repr _ _ _ _ _ _ Hpost)) as Hsh'.
    destruct (tiles_in _ _ _ _ _ _ (sh_tiles _ _ _ Hsh') Hin) as [Hs _]. simpl in Hs, Hhd. lia.
  - right. rewrite Ha. simpl in Hw |- *.
    destruct (kbrk_moved_spec (kheap_break (kheap k)) (kheap_break (kheap k) + (n + HEADER_SIZE)) (world (kheap k)))
      as [(w' & Hmv & _)|[_ Hmv]]; [apply (sh_world _ _ _ Hsh)|simpl; lia|simpl in *; lia|simpl in Hmv; congruence|].
    simpl in Hmv. rewrite Hmv in Hw. by injection Hw as <-.
Qed.

Lemma kfree_spec p k :
  kheap_inv k → p ∈ kheap_live k →
  ∃ k', kfree p k = Ok k' ∧ kheap_inv k' ∧ allocated (kheap k') = delete p (allocated (kheap k)) ∧
    gives_back (world (kheap k)) (world (kheap k')).
Proof.
  intros [Hm Hinv] Hlive. unfold kheap_live in Hlive. apply elem_of_dom in Hlive as [c Hp]. unfold kfree.
  destruct (heap_blocks_bounds (kheap k) Hinv p c Hp) as [Hlo _]. simpl in Hlo. pose proof hc_header_pos as Hhd. simpl in Hhd.
  rewrite (proj2 (Z.eqb_neq p 0)) by lia. rewrite (kfree_check_allocated _ _ _ Hinv Hp). simpl.
  rewrite Hm, mutex_lock_idle. simpl.
  destruct (heap_free_allocated _ _ _ Hinv Hp) as (h' & Hf & Hinv' & Hal & _ & Hless).
  rewrite Hf. simpl. rewrite mutex_release_taken. simpl. eexists. split; [done|]. by split.
Qed.

(** The two facts in terms of the set of allocated pointers. *)
Lemma kmalloc_live n k :
  kheap_inv k → kheap_room n k →
  (∃ p k', kmalloc n k = Ok (p, k') ∧ kheap_inv k' ∧ p ≠ 0 ∧ p ∉ kheap_live k ∧
     kheap_live k' = {[p]} ∪ kheap_live k ∧ takes_more (world (kheap k)) (world (kheap k'))) ∨ kmalloc n k = Stop Panic.
Proof.
  intros Hinv Hroom.
  destruct (kmalloc_spec n k Hinv Hroom) as [(p & k' & c & Ha & Hinv' & _ & Hp & Hnone & Hins & Ht)|?];
    [left|by right].
  exists p, k'. unfold kheap_live. split_and!; [done|done|lia| | |done].
  - by apply not_elem_of_dom.
  - by rewrite Hins, dom_insert_L.
Qed.

Lemma kfree_live p k :
  kheap_inv k → p ∈ kheap_live k →
  ∃ k', kfree p k = Ok k' ∧ kheap_inv k' ∧ kheap_live k' = kheap_live k ∖ {[p]} ∧
    gives_back (world (kheap k)) (world (kheap k')).
Proof.
  intros Hinv Hp. destruct (kfree_spec p k Hinv Hp) as (k' & Hf & Hinv' & Hal & Hg).
  exists k'. split_and!; [done|done| |done]. unfold kheap_live. by rewrite Hal, dom_delete_L.
Qed.

#[export] Instance kheap_kmalloc : Kmalloc kheap_t :=
  {| km_alloc := kmalloc; km_free := kfree; km_live := kheap_live |}.

(** The pages the heap draws on are those of the machine. *)
#[export] Instance kheap_physmem : PhysMem kheap_t.
Proof.
  refine {| phys k := kw_pages (world (kheap k));
            set_phys st k := {| kheap_mutex := kheap_mutex k;
                                kheap := {| kheap_break := kheap_break (kheap k); heap_start := heap_start (kheap k);
                                           heap_last := heap_last (kheap k); blocks := blocks (kheap k);
                                           world := {| kw_vs := kw_vs (world (kheap k)); kw_pages := st |} |} |} |}.
  - done.
  - done.
  - by intros [? [? ? ? ? [? ?]]].
Defined.

#[export] Instance kheap_kmalloc_laws : KmallocLaws kheap_t.
Proof.
  refine {| km_inv := kheap_inv; km_room := kheap_room |}; simpl.
  - intros n k p k' Hinv Hroom Ha.
    destruct (kmalloc_live n k Hinv Hroom) as [(q & k2 & Ha2 & ? & ? & ? & ? & _)|Ha2]; rewrite Ha2 in Ha; [|done].
    by injection Ha as -> ->.
  - intros p k Hinv Hp. destruct (kfree_live p k Hinv Hp) as (k' & ? & ? & ? & _). by exists k'.
Defined.

(** It needs the kernel's tables and the frames of its heap. *)
#[export] Instance kheap_frame : KmallocFrame kheap_t.
Proof.
  refine {| km_own k p := owned heap_page (ram (kw_pages (world (kheap k)))) (pml4_ppn (kw_vs (world (kheap k)))) p |}.
  2: { intros k q [_ [segs Hre]] Hq. exact (owned_used _ _ _ _ (sh_world _ _ _ (re_shape _ _ Hre)) Hq). }
  2: { intros n k p k' Hinv Hroom Ha.
       destruct (kmalloc_live n k Hinv Hroom) as [(q & k2 & Ha2 & [_ [segs Hre]] & _ & _ & _ & Hvs & [Hc Hu Ho])|Ha2]; simpl in *; [|congruence].
       pose proof (sh_world _ _ _ (re_shape _ _ Hre)) as Hsp. rewrite Ha2 in Ha. injection Ha as <- <-. rewrite Hvs.
       split_and!; [intros _; apply Hsp|done|]. intros q' H0 Hq. split; [by apply Hu|]. intros Hno. by destruct (Ho q' H0 Hq Hno). }
  2: { intros p k k' Hinv Hp Hf. destruct (kfree_live p k Hinv Hp) as (k2 & Hf2 & [_ [segs Hre]] & _ & [Hvs [Hc Ho Hw]]).
       pose proof (sh_world _ _ _ (re_shape _ _ Hre)) as Hsp. simpl in *.
       rewrite Hf2 in Hf. injection Hf as <-. rewrite Hvs. split_and!; [intros _; apply Hsp|done|done|]. intros q Hq. by apply Ho. }
  intros st k [Hm [segs Hre]] Hwf Hc Hkeep. simpl in *. pose proof (sh_world _ _ _ (re_shape _ _ Hre)) as Hsp. simpl in Hsp.
  split_and!; [|done|by apply frame_owned].
  split; [done|]. exists segs.
  destruct Hre as [[] ? ?]. split; [split; simpl in *; try done|..].
  all: first [by eapply owns_frame | done].
Defined.

(** C11: The kernel's allocator implements the interface the rest of the kernel is verified
    against, over the real page tables and page bitmap: with the mutex free, [_kmalloc] either
    panics (when a page or a page table cannot be allocated) or returns a pointer that is
    not null and was not allocated; [kfree] of an allocated pointer succeeds and removes it;
    both leave the mutex free, the heap consistent, the kernel's tables a tree and each
    mapped heap page owned by the heap alone. *)
Theorem kmalloc_kfree_contract k :
  kheap_inv k →
  (∀ n, kheap_room n k →
     (∃ p k', kmalloc n k = Ok (p, k') ∧ kheap_inv k' ∧ p ≠ 0 ∧ p ∉ kheap_live k ∧
        kheap_live k' = {[p]} ∪ kheap_live k ∧ space_ok (world (kheap k'))) ∨
     kmalloc n k = Stop Panic) ∧
  (∀ p, p ∈ kheap_live k →
     ∃ k', kfree p k = Ok k' ∧ kheap_inv k' ∧ kheap_live k' = kheap_live k ∖ {[p]} ∧
        space_ok (world (kheap k'))).
Proof.
  intros Hinv.
  assert (∀ k, kheap_inv k → space_ok (world (kheap k))) as Hspace.
  { intros k' [_ [segs [Hsh _ _]]]. exact (sh_world _ _ _ Hsh). }
  split.
  - intros n Hroom. destruct (kmalloc_live n k Hinv Hroom) as [(p & k' & ? & ? & ? & ? & ? & _)|?]; [left|by right].
    exists p, k'. by split_and!; auto.
  - intros p Hp. destruct (kfree_live p k Hinv Hp) as (k' & ? & ? & ? & _). exists k'. by split_and!; auto.
Qed.
End kernel.

(** ** The heap of the boot stage *)

(** The page bitmap of the boot stage ([free_pages] (kernel/arch/x86_64/boot32/mmap.c, lines 20-20)):
    [None] while its pointer is NULL. *)
Definition bworld : Type := option bitmap_t.

Section boot32.
Context `{B : Build}.

(** The loop that marks the pages of the heap (kernel/arch/x86_64/boot32/heap.c, lines
    53-54). *)
Fixpoint mark_pages (n : nat) (page : Z) (bmp : bitmap_t) : res bitmap_t :=
  match n with
  | O => mret bmp
  | S n => bmp ← bitmap_set bmp page; mark_pages n (page + 1) bmp
  end.

(** [kbrk] (kernel/arch/x86_64/boot32/heap.c, lines 44-58). *)
Definition boot_kbrk_moved (orig_brk new_brk : Z) (w : bworld) : res bworld :=
  match w with
  | None => mret None
  | Some bmp =>
      let orig_brk_page := Z.shiftr orig_brk PAGE_SHIFT in
      let new_brk_page := Z.shiftr new_brk PAGE_SHIFT + 1 in
      bmp ← mark_pages (span orig_brk_page new_brk_page) orig_brk_page bmp;
      mret (Some bmp)
  end.

(** The constants of the 32-bit heap (kernel/arch/x86_64/boot32/heap.c, lines 5-21): a
    header of five words, and [assert] as the test for corruption. *)
Definition boot_heap_cfg : HeapCfg bworld := {|
  hc_width := 32;
  HEADER_SIZE := 20;
  KHEAP_START := 0x02000000;
  hc_check := assert_;
  hc_moved := boot_kbrk_moved;
|}.
#[export] Existing Instance boot_heap_cfg.

(** [crop] (kernel/arch/x86_64/boot32/heap.c, lines 60-87). *)
Definition boot_crop : Z → Z → heap_t bworld → res (heap_t bworld) := crop.

(** [kmalloc] (kernel/arch/x86_64/boot32/heap.c, lines 89-129). *)
Definition boot_kmalloc : Z → heap_t bworld → res (Z * heap_t bworld) := heap_alloc.

(** [merge_blocks] (kernel/arch/x86_64/boot32/heap.c, lines 131-146). *)
Definition boot_merge_blocks : Z → Z → heap_t bworld → res (heap_t bworld) := merge_blocks.

(** [kfree] (kernel/arch/x86_64/boot32/heap.c, lines 148-191). *)
Definition boot_kfree (ptr : Z) (h : heap_t bworld) : res (heap_t bworld) :=
  if ptr =? 0 then mret h else kfree_check ptr h;; heap_free ptr h.
End boot32.

(** ** Concrete runs *)

(** The machine of Vspace.v with an empty kernel heap. *)
Definition demo_kheap : kheap_t := {|
  kheap_mutex := MUTEX_INITIALIZER;
  kheap := {| kheap_break := 0xffffe00000000000; heap_start := 0; heap_last := 0; blocks := ∅;
              world := {| kw_vs := demo_vs; kw_pages := demo_pages |} |};
|}.

Lemma demo_space : @space_ok {| kw_vs := demo_vs; kw_pages := demo_pages |}.
Proof.
  split; [done|exact demo_pages_wf|]. intros v e _ He. simpl in He.
  rewrite translate_empty in He by (vm_compute; reflexivity). discriminate He.
Qed.

Lemma demo_kheap_inv : @kheap_inv debug_build 7 demo_kheap.
Proof.
  split; [done|]. apply (@heap_inv_empty kworld (@kheap_cfg debug_build 7) (@kheap_laws debug_build 7)).
  exact demo_space.
Qed.

Lemma kmalloc_kfree_contract_witness :
  ∃ p k', @kmalloc debug_build 7 100 demo_kheap = Ok (p, k') ∧ p ≠ 0 ∧ @kheap_live debug_build 7 k' = {[p]}.
Proof.
  destruct (@kmalloc_kfree_contract debug_build 7 demo_kheap demo_kheap_inv) as [Halloc _].
  destruct (Halloc 100) as [(p & k' & Ha & _ & Hnn & _ & Hlive & _)|Ha].
  - split; [lia|reflexivity].
  - exists p, k'. split; [exact Ha|]. split; [exact Hnn|]. rewrite Hlive.
    assert (@kheap_live debug_build 7 demo_kheap = ∅) as -> by (vm_compute; reflexivity).
    apply union_empty_r_L.
  - vm_compute in Ha. discriminate Ha.
Defined.
