(* ===== verification/Strings.v ===== *)
(** The string functions of libutil/string.c over a byte-addressed memory. *)
From S2P Require Import Prelude Words.
Open Scope Z_scope.

(** Memory: the bytes that may be read and written, by address. *)
Abbreviation mem := (gmap Z Z).

(** A byte read, and a byte write. *)
Definition ld (m : mem) (a : Z) : res Z := of_option (m !! a).
Definition st (m : mem) (a b : Z) : res mem :=
  _ ← ld m a; mret (<[a := u8 b]> m).

(** The number of bytes a scan may look at: it stops at the latest where memory ends. *)
Definition scan_fuel (m : mem) : nat := S (size m).

(** The loop of [strlen] (kernel/libutil/string.c, lines 6-7). *)
Fixpoint strlen_loop (fuel : nat) (m : mem) (str len : Z) : res Z :=
  match fuel with
  | O => Stop NoFuel
  | S fuel => c ← ld m str; if c =? 0 then mret len else strlen_loop fuel m (str + 1) (len + 1)
  end.

(** [strlen] (kernel/libutil/string.c, lines 3-9). *)
Definition strlen (m : mem) (str : Z) : res Z := strlen_loop (scan_fuel m) m str 0.

(** The loop of [memcpy] (kernel/libutil/string.c, lines 16-17). *)
Fixpoint memcpy_loop (n : nat) (m : mem) (s1 s2 : Z) : res mem :=
  match n with
  | O => mret m
  | S n => b ← ld m s2; m ← st m s1 b; memcpy_loop n m (s1 + 1) (s2 + 1)
  end.

(** [memcpy] (kernel/libutil/string.c, lines 11-19). *)
Definition memcpy (m : mem) (dest src length : Z) : res mem :=
  memcpy_loop (Z.to_nat length) m dest src.

(** The loop of [memset] (kernel/libutil/string.c, lines 27-28). *)
Fixpoint memset_loop (n : nat) (m : mem) (s c : Z) : res mem :=
  match n with
  | O => mret m
  | S n => m ← st m s c; memset_loop n m (s + 1) c
  end.

(** [memset] (kernel/libutil/string.c, lines 24-30). *)
Definition memset (m : mem) (block c size : Z) : res mem := memset_loop (Z.to_nat size) m block c.

(** [strcpy] (kernel/libutil/string.c, lines 32-36). *)
Definition strcpy (m : mem) (dest src : Z) : res mem :=
  len ← strlen m src; memcpy m dest src (len + 1).

(** The loop of [strnlen] (kernel/libutil/string.c, lines 40-45), [n] bytes before the end. *)
Fixpoint strnlen_loop (n : nat) (m : mem) (src i : Z) : res Z :=
  match n with
  | O => mret i
  | S n => c ← ld m (src + i); if c =? 0 then mret (i + 1) else strnlen_loop n m src (i + 1)
  end.

(** [strnlen] (kernel/libutil/string.c, lines 38-46): the terminator is counted. *)
Definition strnlen (m : mem) (src n : Z) : res Z := strnlen_loop (Z.to_nat n) m src 0.

(** [strncpy] (kernel/libutil/string.c, lines 48-55). *)
Definition strncpy (m : mem) (dest src size : Z) : res mem :=
  len ← strnlen m src size; memcpy_loop (Z.to_nat len) m dest src.

(** The loop of [strccpy] (kernel/libutil/string.c, lines 60-65): the byte it stopped at and
    the two pointers. *)
Fixpoint strccpy_loop (fuel : nat) (m : mem) (dest src terminator : Z) : res (Z * Z * Z * mem) :=
  match fuel with
  | O => Stop NoFuel
  | S fuel =>
      c ← ld m src;
      if (c =? 0) || (c =? terminator) then mret (c, dest, src + 1, m)
      else m ← st m dest c; strccpy_loop fuel m (dest + 1) (src + 1) terminator
  end.

(** [strccpy] (kernel/libutil/string.c, lines 57-70): the address after the field, which is
    the terminator's successor or the final null byte. *)
Definition strccpy (m : mem) (dest src terminator : Z) : res (Z * mem) :=
  '(c, dest, src, m) ← strccpy_loop (scan_fuel m) m dest src terminator;
  let src := if c =? 0 then src - 1 else src in
  m ← st m dest 0;
  mret (src, m).

(** [strcat] (kernel/libutil/string.c, lines 74-81). *)
Definition strcat (m : mem) (dest append : Z) : res mem :=
  len ← strlen m dest; strcpy m (dest + len) append.

(** The loop of [memcmp] (kernel/libutil/string.c, lines 91-96). *)
Fixpoint memcmp_loop (n : nat) (m : mem) (s1 s2 : Z) : res Z :=
  match n with
  | O => mret 0
  | S n =>
      a ← ld m s1; b ← ld m s2;
      if negb (a =? b) then mret (if a <? b then -1 else 1)
      else memcmp_loop n m (s1 + 1) (s2 + 1)
  end.

(** [memcmp] (kernel/libutil/string.c, lines 86-97). *)
Definition memcmp (m : mem) (region1 region2 size : Z) : res Z :=
  memcmp_loop (Z.to_nat size) m region1 region2.

(** [strcmp] (kernel/libutil/string.c, lines 99-105): the difference of the first two bytes
    that differ. *)
Fixpoint strcmp_loop (fuel : nat) (m : mem) (str1 str2 : Z) : res Z :=
  match fuel with
  | O => Stop NoFuel
  | S fuel =>
      a ← ld m str1;
      if a =? 0 then b ← ld m str2; mret (a - b)
      else
        b ← ld m str2;
        if a =? b then strcmp_loop fuel m (str1 + 1) (str2 + 1) else mret (a - b)
  end.
Definition strcmp (m : mem) (str1 str2 : Z) : res Z := strcmp_loop (scan_fuel m) m str1 str2.

(** [memchr] (kernel/libutil/string.c, lines 110-121), for [n] bytes; NULL is 0. *)
Fixpoint memchr_loop (n : nat) (m : mem) (src c : Z) : res Z :=
  match n with
  | O => mret 0
  | S n => b ← ld m src; if b =? c then mret src else memchr_loop n m (src + 1) c
  end.
Definition memchr (m : mem) (block c size : Z) : res Z := memchr_loop (Z.to_nat size) m block c.

(** [strclen] (kernel/libutil/string.c, lines 432-441). *)
Fixpoint strclen_loop (fuel : nat) (m : mem) (src terminator length : Z) : res Z :=
  match fuel with
  | O => Stop NoFuel
  | S fuel =>
      c ← ld m src;
      if (c =? terminator) || (c =? 0) then mret length
      else strclen_loop fuel m (src + 1) terminator (length + 1)
  end.
Definition strclen (m : mem) (src terminator : Z) : res Z :=
  strclen_loop (scan_fuel m) m src terminator 0.

(** ** Numbers *)

(** [nchar] (kernel/libutil/string.c, lines 128-133). *)
Definition nchar (index : Z) : Z := if index <? 10 then u8 (48 + index) else u8 (u32 (97 + index - 10)).

(** The loop of [strrev] (kernel/libutil/string.c, lines 138-143), [n] swaps from [i] on. *)
Fixpoint strrev_loop (n : nat) (m : mem) (buf len i : Z) : res mem :=
  match n with
  | O => mret m
  | S n =>
      tmp ← ld m (buf + i);
      b ← ld m (buf + (len - 1 - i));
      m ← st m (buf + i) b;
      m ← st m (buf + (len - 1 - i)) tmp;
      strrev_loop n m buf len (i + 1)
  end.

(** [strrev] (kernel/libutil/string.c, lines 135-145). *)
Definition strrev (m : mem) (buf : Z) : res mem :=
  len ← strlen m buf; strrev_loop (Z.to_nat (len / 2)) m buf len 0.

(** The digit loop shared by [utoa] and its siblings (kernel/libutil/string.c, lines
    207-215): the end of what it wrote.  A word has at most 64 digits. *)
Fixpoint digits_loop (fuel : nat) (m : mem) (value buf base : Z) : res (Z * mem) :=
  match fuel with
  | O => Stop NoFuel
  | S fuel =>
      if base =? 0 then Stop Fault
      else
        m ← st m buf (nchar (value mod base));
        let value := value / base in
        if value =? 0 then mret (buf + 1, m) else digits_loop fuel m value (buf + 1) base
  end.

(** [utoa] (kernel/libutil/string.c, lines 203-219). *)
Definition utoa (m : mem) (value str base : Z) : res mem :=
  '(p, m) ← digits_loop 65 m (u32 value) str base; m ← st m p 0; strrev m str.

(** [ultoa] (kernel/libutil/string.c, lines 221-237). *)
Definition ultoa (m : mem) (value str base : Z) : res mem :=
  '(p, m) ← digits_loop 65 m (u64 value) str base; m ← st m p 0; strrev m str.

(** [itoa] and [ltoa] on a value of [w] bits: the negation of the least value is undefined. *)
Definition signed_toa (w : Z) (m : mem) (value str base : Z) : res mem :=
  let value := swrap w value in
  if value =? - 2 ^ (w - 1) then Stop Fault
  else
    '(p, m) ← digits_loop 65 m (Z.abs value) str base;
    '(p, m) ← (if value <? 0 then m ← st m p 45; mret (p + 1, m) else mret (p, m));
    m ← st m p 0;
    strrev m str.

(** [itoa] (kernel/libutil/string.c, lines 147-173). *)
Definition itoa (m : mem) (value str base : Z) : res mem := signed_toa 32 m value str base.

(** [ltoa] (kernel/libutil/string.c, lines 175-201). *)
Definition ltoa (m : mem) (value str base : Z) : res mem := signed_toa 64 m value str base.

(** The loop of [ptoa] (kernel/libutil/string.c, lines 246-250), [i] nibbles to go. *)
Fixpoint nibbles_loop (i : nat) (m : mem) (value buf : Z) : res (Z * mem) :=
  match i with
  | O => mret (buf, m)
  | S i =>
      m ← st m buf (nchar (Z.land (Z.shiftr value (4 * Z.of_nat i)) 0xf));
      nibbles_loop i m value (buf + 1)
  end.

(** [ptoa] (kernel/libutil/string.c, lines 239-253). *)
Definition ptoa (m : mem) (value str : Z) : res mem :=
  m ← st m str 48;
  m ← st m (str + 1) 120;
  '(p, m) ← nibbles_loop 16 m (u64 value) (str + 2);
  st m p 0.

(** ** Messages *)

(** [exceptions] (kernel/libutil/string.c, lines 255-276). *)
Definition exceptions : list string :=
  [ "Divide by zero";
    "Debug";
    "NMI";
    "Breakpoint";
    "Overflow";
    "Bounds check";
    "Invalid opcode";
    "Device not available";
    "Double fault";
    "Coprocessor segment overrun";
    "Invalid TSS";
    "Segment not present";
    "Stack segment fault";
    "General protection fault";
    "Page fault";
    "reserved";
    "Floating-point error";
    "Alignment check";
    "Machine check";
    "SIMD floating point exception" ]%string.

(** [err_messages] (kernel/libutil/string.c, lines 278-416). *)
Definition err_messages : list string :=
  [ "success";
    "operation not permitted";
    "no such file or directory";
    "no such process";
    "interrupted system call";
    "input/output error";
    "no such device or address";
    "argument list too long";
    "exec format error";
    "bad file descriptor";
    "no child processes";
    "resource temporarily unavailable";
    "cannot allocate memory";
    "permission denied";
    "bad address";
    "block device required";
    "device or resource busy";
    "file exists";
    "invalid cross-device link";
    "no such device";
    "not a directory";
    "is a directory";
    "invalid argument";
    "too many open files in system";
    "too many open files";
    "inappropriate ioctl for device";
    "text file busy";
    "file too large";
    "no space left on device";
    "illegal seek";
    "read-only file system";
    "too many links";
    "broken pipe";
    "numerical argument out of domain";
    "numerical result out of range";
    "resource deadlock avoided";
    "file name too long";
    "no locks available";
    "function not implemented";
    "directory not empty";
    "too many levels of symbolic links";
    "resource temporarily unavailable";
    "no message of desired type";
    "identifier removed";
    "channel number out of range";
    "level 2 not synchronized";
    "level 3 halted";
    "level 3 reset";
    "link number out of range";
    "protocol driver not attached";
    "no csi structure available";
    "level 2 halted";
    "invalid exchange";
    "invalid request descriptor";
    "exchange full";
    "no anode";
    "invalid request code";
    "invalid slot";
    "resource deadlock avoided";
    "bad font file format";
    "device not a stream";
    "no data available";
    "timer expired";
    "out of streams resources";
    "machine is not on the network";
    "package not installed";
    "object is remote";
    "link has been severed";
    "advertise error";
    "srmount error";
    "communication error on send";
    "protocol error";
    "multihop attempted";
    "rfs specific error";
    "bad message";
    "value too large for defined data type";
    "name not unique on network";
    "file descriptor in bad state";
    "remote address changed";
    "can not access a needed shared library";
    "accessing a corrupted shared library";
    ".lib section in a.out corrupted";
    "attempting to link in too many shared libraries";
    "cannot exec a shared library directly";
    "invalid or incomplete multibyte or wide character";
    "interrupted system call should be restarted";
    "streams pipe error";
    "too many users";
    "socket operation on non-socket";
    "destination address required";
    "message too long";
    "protocol wrong type for socket";
    "protocol not available";
    "protocol not supported";
    "socket type not supported";
    "operation not supported";
    "protocol family not supported";
    "address family not supported by protocol";
    "address already in use";
    "cannot assign requested address";
    "network is down";
    "network is unreachable";
    "network dropped connection on reset";
    "software caused connection abort";
    "connection reset by peer";
    "no buffer space available";
    "transport endpoint is already connected";
    "transport endpoint is not connected";
    "cannot send after transport endpoint shutdown";
    "too many references: cannot splice";
    "connection timed out";
    "connection refused";
    "host is down";
    "no route to host";
    "operation already in progress";
    "operation now in progress";
    "stale file handle";
    "structure needs cleaning";
    "not a xenix named type file";
    "no xenix semaphores available";
    "is a named type file";
    "remote i/o error";
    "disk quota exceeded";
    "no medium found";
    "wrong medium type";
    "operation canceled";
    "required key not available";
    "key has expired";
    "key has been revoked";
    "key was rejected by service";
    "owner died";
    "state not recoverable";
    "operation not possible due to rf-kill";
    "memory page has hardware error";
    "operation not supported";
    "filesystem not supported";
    "interference conflict" ]%string.

(** What the tables look like to [sizeof]: bytes, not entries. *)
Definition sizeof_table (t : list string) : Z := 8 * Z.of_nat (length t).

(** [strerror] (kernel/libutil/string.c, lines 418-423). *)
Definition strerror (err : Z) : res string :=
  if u32 err <? sizeof_table err_messages then of_option (err_messages !! Z.to_nat (u32 err))
  else mret "Unknown error"%string.

(** [strexcept] (kernel/libutil/string.c, lines 425-430). *)
Definition strexcept (exc : Z) : res string :=
  if u32 exc <? sizeof_table exceptions then of_option (exceptions !! Z.to_nat (u32 exc))
  else mret "unknown"%string.

(** ** Strings in memory *)

(** The null-terminated string [s] lies at [a]. *)
Fixpoint cstr (m : mem) (a : Z) (s : list Z) : Prop :=
  match s with
  | [] => m !! a = Some 0
  | b :: s => m !! a = Some b ∧ b ≠ 0 ∧ cstr m (a + 1) s
  end.

#[global] Instance cstr_dec m a s : Decision (cstr m a s).
Proof. revert a. induction s as [|b s IH]; intros a; simpl; apply _. Defined.

(** The bytes [s] lie at [a]. *)
Definition bytes_at (m : mem) (a : Z) (s : list Z) : Prop :=
  ∀ i, 0 <= i < Z.of_nat (length s) → m !! (a + i) = s !! Z.to_nat i.

(** The [n] bytes from [a] on may be written. *)
Definition region (m : mem) (a n : Z) : Prop := ∀ i, a <= i < a + n → is_Some (m !! i).

(** Two memories that agree outside the [n] bytes from [a] on. *)
Definition same_but (m m' : mem) (a n : Z) : Prop := ∀ i, i < a ∨ a + n <= i → m' !! i = m !! i.

(** The bytes [s] written at [a]. *)
Fixpoint write (m : mem) (a : Z) (s : list Z) : mem :=
  match s with [] => m | b :: s => write (<[a := b]> m) (a + 1) s end.

Lemma lookup_write m a s i :
  write m a s !! i =
    if (a <=? i) && (i <? a + Z.of_nat (length s)) then s !! Z.to_nat (i - a) else m !! i.
Proof.
  revert m a. induction s as [|b s IH]; intros m a; simpl.
  - destruct (Z.leb_spec a i), (Z.ltb_spec i (a + Z.of_nat 0)); simpl in *; try lia; done.
  - rewrite IH. destruct (decide (i = a)) as [->|Hne].
    + destruct (Z.leb_spec (a + 1) a); [lia|]. simpl. rewrite lookup_insert_eq.
      destruct (Z.leb_spec a a), (Z.ltb_spec a (a + Z.of_nat (S (length s)))); try lia. simpl.
      by rewrite Z.sub_diag.
    + rewrite lookup_insert_ne by done.
      destruct (Z.leb_spec (a + 1) i), (Z.ltb_spec i (a + 1 + Z.of_nat (length s))),
        (Z.leb_spec a i), (Z.ltb_spec i (a + Z.of_nat (S (length s)))); try lia; simpl; try done.
      by replace (Z.to_nat (i - a)) with (S (Z.to_nat (i - (a + 1)))) by lia.
Qed.

Lemma write_same_but m a s : same_but m (write m a s) a (Z.of_nat (length s)).
Proof. intros i Hi. rewrite lookup_write. destruct (_ && _) eqn:H; [zbool; lia|done]. Qed.

Lemma bytes_at_write m a s : bytes_at (write m a s) a s.
Proof.
  intros i Hi. rewrite lookup_write.
  destruct (Z.leb_spec a (a + i)), (Z.ltb_spec (a + i) (a + Z.of_nat (length s))); try lia. simpl.
  f_equal. lia.
Qed.

Lemma write_region m a s b n :
  region m b n → region (write m a s) b n.
Proof.
  intros Hr i Hi. rewrite lookup_write. destruct (_ && _) eqn:H; [|by apply Hr].
  zbool. apply lookup_lt_is_Some_2. lia.
Qed.

Lemma write_app m a s t : write m a (s ++ t) = write (write m a s) (a + Z.of_nat (length s)) t.
Proof.
  revert m a. induction s as [|b s IH]; intros m a; simpl; [by rewrite Z.add_0_r|].
  rewrite IH. f_equal. lia.
Qed.

(** [cstr] in terms of [bytes_at]. *)
Lemma cstr_bytes m a s : cstr m a s ↔ bytes_at m a (s ++ [0]) ∧ Forall (λ b, b ≠ 0) s.
Proof.
  revert a. induction s as [|b s IH]; intros a; simpl.
  - split.
    + intros H. split; [|constructor]. intros i Hi. simpl in Hi. replace i with 0 by lia.
      by rewrite Z.add_0_r.
    + intros [H _]. specialize (H 0). rewrite Z.add_0_r in H. apply H. simpl. lia.
  - rewrite IH. split.
    + intros (Hb & Hnz & Hbs & Hall). split; [|by constructor]. intros i Hi.
      destruct (decide (i = 0)) as [->|]; [by rewrite Z.add_0_r|].
      specialize (Hbs (i - 1)). simpl in Hi. rewrite length_app in *. simpl in *.
      replace (a + i) with (a + 1 + (i - 1)) by lia. rewrite Hbs by lia.
      by replace (Z.to_nat i) with (S (Z.to_nat (i - 1))) by lia.
    + intros [Hbs Hall]. inversion Hall as [|? ? Hnz Hall']; subst. split_and!; [|done| |done].
      * specialize (Hbs 0). rewrite Z.add_0_r in Hbs. apply Hbs. simpl. lia.
      * intros i Hi. specialize (Hbs (i + 1)). simpl in Hbs.
        replace (a + 1 + i) with (a + (i + 1)) by lia. rewrite Hbs by lia.
        by replace (Z.to_nat (i + 1)) with (S (Z.to_nat i)) by lia.
Qed.

Lemma cstr_ext m m' a s :
  (∀ i, a <= i <= a + Z.of_nat (length s) → m' !! i = m !! i) → cstr m a s → cstr m' a s.
Proof.
  revert a. induction s as [|b s IH]; intros a Hext; simpl in *.
  - rewrite Hext by lia. done.
  - intros (Hb & Hnz & Hs). split_and!; [by rewrite Hext by lia|done|].
    apply IH; [|done]. intros i Hi. apply Hext. lia.
Qed.

(** A string has fewer bytes than memory. *)
Lemma cstr_size m a s : cstr m a s → (length s < size m)%nat.
Proof.
  intros Hs. rewrite cstr_bytes in Hs. destruct Hs as [Hb _].
  assert (length (seqZ a (Z.of_nat (length (s ++ [0%Z])))) <= size m)%nat as Hle.
  { rewrite <- size_dom. rewrite <- (size_list_to_set (C := gset Z)) by apply NoDup_seqZ.
    apply subseteq_size. intros i Hi%elem_of_list_to_set%elem_of_seqZ. apply elem_of_dom.
    specialize (Hb (i - a)). replace (a + (i - a)) with i in Hb by lia. rewrite Hb by lia.
    apply lookup_lt_is_Some_2. lia. }
  rewrite length_seqZ, Nat2Z.id, length_app in Hle. simpl in Hle. lia.
Qed.

Lemma ld_ok m a b : m !! a = Some b → ld m a = Ok b.
Proof. intros H. unfold ld. by rewrite H. Qed.

Lemma st_ok m a b : is_Some (m !! a) → is_word 8 b → st m a b = Ok (<[a := b]> m).
Proof. intros [x H] Hb. unfold st, ld. rewrite H. simpl. by rewrite uwrap_small. Qed.

Lemma strlen_loop_spec m fuel a s len :
  cstr m a s → (length s < fuel)%nat → strlen_loop fuel m a len = Ok (len + Z.of_nat (length s)).
Proof.
  revert fuel a len. induction s as [|b s IH]; intros fuel a len Hs Hf;
    (destruct fuel as [|fuel]; [simpl in Hf; lia|]); simpl in *.
  - rewrite (ld_ok _ _ _ Hs). simpl. f_equal. lia.
  - destruct Hs as (Hb & Hnz & Hs). rewrite (ld_ok _ _ _ Hb). simpl.
    rewrite (proj2 (Z.eqb_neq b 0)) by done. rewrite IH by (done || lia). f_equal. lia.
Qed.

Lemma strlen_spec m a s : cstr m a s → strlen m a = Ok (Z.of_nat (length s)).
Proof.
  intros Hs. unfold strlen. rewrite (strlen_loop_spec m _ a s); [done|done|].
  unfold scan_fuel. pose proof (cstr_size _ _ _ Hs). lia.
Qed.

Lemma memcpy_loop_spec m d a s :
  bytes_at m a s → bytes_ok s → region m d (Z.of_nat (length s)) →
  d + Z.of_nat (length s) <= a ∨ a + Z.of_nat (length s) <= d →
  memcpy_loop (length s) m d a = Ok (write m d s).
Proof.
  revert m d a. induction s as [|b s IH]; intros m d a Hs Hok Hr Hdis; [done|].
  inversion Hok as [|? ? Hb Hok']; subst. cbn [memcpy_loop length] in *.
  pose proof (Hs 0) as H0. rewrite Z.add_0_r in H0. rewrite (ld_ok m a b) by (apply H0; simpl; lia). simpl.
  rewrite st_ok by (done || apply Hr; simpl; lia). simpl. apply IH; [|done| |lia].
  - intros i Hi. rewrite lookup_insert_ne by lia. specialize (Hs (i + 1)). simpl in Hs.
    replace (a + 1 + i) with (a + (i + 1)) by lia. rewrite Hs by lia.
    by replace (Z.to_nat (i + 1)) with (S (Z.to_nat i)) by lia.
  - intros i Hi. destruct (decide (i = d)) as [->|]; [by rewrite lookup_insert_eq|].
    rewrite lookup_insert_ne by done. apply Hr. simpl. lia.
Qed.

Lemma cstr_write m a s : bytes_ok s → Forall (λ b, b ≠ 0) s → cstr (write m a (s ++ [0])) a s.
Proof. intros _ Hnz. apply cstr_bytes. split; [apply bytes_at_write|done]. Qed.

Lemma bytes_ok_snoc s : bytes_ok s → bytes_ok (s ++ [0]).
Proof. intros H. apply Forall_app. split; [done|]. by apply Forall_singleton. Qed.

Lemma strcpy_spec m d a s :
  cstr m a s → bytes_ok s → region m d (Z.of_nat (length s) + 1) →
  d + Z.of_nat (length s) < a ∨ a + Z.of_nat (length s) < d →
  strcpy m d a = Ok (write m d (s ++ [0])).
Proof.
  intros Hs Hok Hr Hdis. unfold strcpy. rewrite (strlen_spec _ _ _ Hs). simpl. unfold memcpy.
  assert (Z.of_nat (length s) + 1 = Z.of_nat (length (s ++ [0%Z]))) as Hlen.
  { rewrite length_app. simpl. lia. }
  rewrite Hlen, Nat2Z.id. apply cstr_bytes in Hs as [Hb _].
  apply memcpy_loop_spec; [done|by apply bytes_ok_snoc|by rewrite <- Hlen|lia].
Qed.

(** ** Comparison *)

(** The lexicographic order of two strings; a string comes after its prefixes. *)
Fixpoint lex (s t : list Z) : comparison :=
  match s, t with
  | [], [] => Eq
  | [], _ => Lt
  | _, [] => Gt
  | a :: s, b :: t => match a ?= b with Eq => lex s t | c => c end
  end.

Lemma lex_eq s t : lex s t = Eq ↔ s = t.
Proof.
  revert t. induction s as [|a s IH]; intros [|b t]; simpl; try done.
  destruct (Z.compare_spec a b) as [->|H|H]; [rewrite IH; split; congruence| |]; split; intros; simplify_eq; lia.
Qed.

Lemma strcmp_loop_spec m fuel a s b t :
  cstr m a s → cstr m b t → bytes_ok s → bytes_ok t → (length s < fuel)%nat →
  ∃ r, strcmp_loop fuel m a b = Ok r ∧ (r ?= 0) = lex s t.
Proof.
  revert fuel a b t. induction s as [|x s IH]; intros fuel a b t Hs Ht Hoks Hokt Hf;
    (destruct fuel as [|fuel]; [simpl in Hf; lia|]); simpl in *.
  - rewrite (ld_ok _ _ _ Hs). simpl. destruct t as [|y t]; simpl in *.
    + rewrite (ld_ok _ _ _ Ht). simpl. by eexists.
    + destruct Ht as (Hy & Hnz & _). rewrite (ld_ok _ _ _ Hy). simpl. eexists. split; [done|].
      inversion Hokt as [|? ? [? ?] _]; subst. apply Z.compare_lt_iff. lia.
  - destruct Hs as (Hx & Hnz & Hs). rewrite (ld_ok _ _ _ Hx). simpl. rewrite (proj2 (Z.eqb_neq x 0)) by done.
    inversion Hoks as [|? ? [? ?] Hoks']; subst. destruct t as [|y t]; simpl in *.
    + rewrite (ld_ok _ _ _ Ht). simpl. rewrite (proj2 (Z.eqb_neq x 0)) by done. eexists. split; [done|].
      apply Z.compare_gt_iff. lia.
    + destruct Ht as (Hy & Hnzy & Ht). rewrite (ld_ok _ _ _ Hy). simpl.
      inversion Hokt as [|? ? ? Hokt']; subst. destruct (Z.compare_spec x y) as [->|Hlt|Hlt].
      * rewrite Z.eqb_refl. apply IH; (done || lia).
      * rewrite (proj2 (Z.eqb_neq x y)) by lia. eexists. split; [done|]. apply Z.compare_lt_iff. lia.
      * rewrite (proj2 (Z.eqb_neq x y)) by lia. eexists. split; [done|]. apply Z.compare_gt_iff. lia.
Qed.

Lemma memcmp_loop_spec m a s b t :
  bytes_at m a s → bytes_at m b t → length s = length t →
  ∃ r, memcmp_loop (length s) m a b = Ok r ∧ (r ?= 0) = lex s t.
Proof.
  revert a b t. induction s as [|x s IH]; intros a b [|y t] Hs Ht Hlen; try done; [by eexists|].
  assert (∀ a x s, bytes_at m a (x :: s) → m !! a = Some x ∧ bytes_at m (a + 1) s) as Hhd.
  { intros c z l H. split; [specialize (H 0); rewrite Z.add_0_r in H; apply H; simpl; lia|].
    intros i Hi. specialize (H (i + 1)). simpl in H. replace (c + 1 + i) with (c + (i + 1)) by lia.
    rewrite H by lia. by replace (Z.to_nat (i + 1)) with (S (Z.to_nat i)) by lia. }
  destruct (Hhd _ _ _ Hs) as [Hx Hs'], (Hhd _ _ _ Ht) as [Hy Ht'].
  cbn [memcmp_loop length lex]. rewrite (ld_ok _ _ _ Hx), (ld_ok _ _ _ Hy). simpl.
  destruct (Z.compare_spec x y) as [->|Hlt|Hlt].
  - rewrite Z.eqb_refl. simpl. apply IH; [done|done|simpl in Hlen; lia].
  - rewrite (proj2 (Z.eqb_neq x y)), (proj2 (Z.ltb_lt x y)) by lia. by eexists.
  - rewrite (proj2 (Z.eqb_neq x y)), (proj2 (Z.ltb_ge x y)) by lia. by eexists.
Qed.

(** ** Reversal *)

Lemma strrev_loop_spec n m buf len i :
  region m buf len → (∀ j, buf <= j < buf + len → ∀ b, m !! j = Some b → is_word 8 b) →
  0 <= i → 2 * (i + Z.of_nat n) <= len →
  ∃ m', strrev_loop n m buf len i = Ok m' ∧
    (∀ j, 0 <= j < len → m' !! (buf + j) =
       if decide (i <= j < i + Z.of_nat n ∨ len - i - Z.of_nat n <= j < len - i)
       then m !! (buf + (len - 1 - j)) else m !! (buf + j)) ∧
    same_but m m' buf len.
Proof.
  revert m i. induction n as [|n IH]; intros m i Hr Hok Hi Hn; simpl.
  - exists m. split_and!; [done| |done]. intros j Hj. rewrite decide_False by lia. done.
  - destruct (Hr (buf + i)) as [x Hx]; [lia|]. destruct (Hr (buf + (len - 1 - i))) as [y Hy]; [lia|].
    rewrite (ld_ok _ _ _ Hx), (ld_ok _ _ _ Hy). simpl.
    rewrite st_ok; [|by apply Hr; lia|by eapply Hok; [|exact Hy]; lia]. simpl.
    rewrite st_ok; [|rewrite lookup_insert_ne by lia; by eexists|by eapply Hok; [|exact Hx]; lia]. simpl.
    set (m1 := <[buf + (len - 1 - i) := x]> (<[buf + i := y]> m)).
    assert (∀ j, m1 !! j = if decide (j = buf + (len - 1 - i)) then Some x
                           else if decide (j = buf + i) then Some y else m !! j) as Hm1.
    { intros j. unfold m1. case_decide; [subst; by rewrite lookup_insert_eq|].
      rewrite lookup_insert_ne by done. case_decide; [subst; by rewrite lookup_insert_eq|].
      by rewrite lookup_insert_ne. }
    destruct (IH m1 (i + 1)) as (m' & Hm' & Hin & Hout); [| |lia|lia|].
    { intros j Hj. rewrite Hm1. repeat case_decide; [done|done|]. by apply Hr. }
    { intros j Hj b. rewrite Hm1. repeat case_decide; [| |by apply Hok]; intros [= <-].
      - by eapply Hok; [|exact Hx]; lia.
      - by eapply Hok; [|exact Hy]; lia. }
    exists m'. split_and!; [done| |].
    + intros j Hj. rewrite Hin by done. rewrite !Hm1.
      repeat case_decide; try lia; first [f_equal; lia|rewrite <- Hx; f_equal; lia|rewrite <- Hy; f_equal; lia].
    + intros j Hj. rewrite Hout by done. unfold m1. by rewrite !lookup_insert_ne by lia.
Qed.

Lemma cstr_region m a s : cstr m a s → region m a (Z.of_nat (length s) + 1).
Proof.
  intros [Hb _]%cstr_bytes i Hi. specialize (Hb (i - a)). replace (a + (i - a)) with i in Hb by lia.
  rewrite length_app in Hb. simpl in Hb. rewrite Hb by lia. apply lookup_lt_is_Some_2.
  rewrite length_app. simpl. lia.
Qed.

Lemma strrev_spec m a s :
  cstr m a s → bytes_ok s →
  ∃ m', strrev m a = Ok m' ∧ cstr m' a (reverse s) ∧ same_but m m' a (Z.of_nat (length s)).
Proof.
  intros Hs Hok. unfold strrev. rewrite (strlen_spec _ _ _ Hs). simpl.
  pose proof (cstr_region _ _ _ Hs) as Hr. pose proof Hs as [Hb Hnz]%cstr_bytes.
  set (len := Z.of_nat (length s)) in *.
  assert (∀ j, 0 <= j < len → m !! (a + j) = s !! Z.to_nat j) as Hat.
  { intros j Hj. unfold bytes_at in Hb. rewrite Hb by (rewrite length_app; simpl; lia).
    rewrite lookup_app_l; [done|lia]. }
  destruct (strrev_loop_spec (Z.to_nat (len / 2)) m a len 0) as (m' & Hrev & Hin & Hout).
  { intros j Hj. apply Hr. lia. }
  { intros j Hj b Hjb. specialize (Hat (j - a)). replace (a + (j - a)) with j in Hat by lia.
    rewrite Hat in Hjb by lia. unfold bytes_ok in Hok. rewrite list.Forall_forall in Hok.
    apply Hok. by eapply list_elem_of_lookup_2. }
  { lia. }
  { zdiv. }
  exists m'. split_and!; [done| |done]. apply cstr_bytes. split.
  - intros i Hi. rewrite length_app, length_reverse in Hi. simpl in Hi.
    destruct (decide (i = len)) as [->|Hne].
    + rewrite Hout by lia. rewrite lookup_app_r by (rewrite length_reverse; lia).
      rewrite length_reverse. replace (Z.to_nat len - length s)%nat with O by lia.
      unfold bytes_at in Hb. rewrite Hb by (rewrite length_app; simpl; lia).
      rewrite lookup_app_r by lia. by replace (Z.to_nat len - length s)%nat with O by lia.
    + assert (len = Z.of_nat (length s)) as Hlen by done.
      rewrite Hin by lia. rewrite lookup_app_l by (rewrite length_reverse; lia).
      rewrite reverse_lookup by lia.
      case_decide; rewrite Hat by lia; f_equal; [lia|zdiv].
  - apply Forall_reverse. done.
Qed.

(** ** Digits *)

Lemma nchar_word d : 0 <= d < 36 → is_word 8 (nchar d) ∧ nchar d ≠ 0.
Proof.
  intros Hd. unfold nchar. destruct (Z.ltb_spec d 10); unfold is_word; rewrite ?(uwrap_small 32), uwrap_small;
    unfold is_word; lia.
Qed.

(** The value of a digit, and of a string of digits, the most significant first. *)
Definition digit_val (c : Z) : Z := if c <? 58 then c - 48 else c - 87.
Definition parse (base : Z) (s : list Z) : Z := foldl (λ acc c, acc * base + digit_val c) 0 s.

Lemma digit_val_nchar d : 0 <= d < 36 → digit_val (nchar d) = d.
Proof.
  intros Hd. unfold nchar, digit_val. destruct (Z.ltb_spec d 10).
  - rewrite uwrap_small by (unfold is_word; lia). case_ltb; lia.
  - rewrite (uwrap_small 32), uwrap_small by (unfold is_word; lia). case_ltb; lia.
Qed.

(** The digits of a number that has at most [k] of them, the least significant first. *)
Fixpoint digits (k : nat) (base v : Z) : list Z :=
  match k with
  | O => []
  | S k => nchar (v mod base) :: (if v / base =? 0 then [] else digits k base (v / base))
  end.

Section digits.
Context (base : Z) (Hbase : 2 <= base <= 36).

Lemma digits_ok k v : 0 <= v → bytes_ok (digits k base v) ∧ Forall (λ b, b ≠ 0) (digits k base v).
Proof.
  unfold bytes_ok. revert v. induction k as [|k IH]; intros v Hv; simpl; [by split; constructor|].
  pose proof (Z.mod_pos_bound v base ltac:(lia)) as Hm. destruct (nchar_word (v mod base)) as [Hw Hnz]; [lia|].
  destruct (IH (v / base)) as [H1 H2]; [by apply Z.div_pos; lia|].
  destruct (_ =? _); split; constructor; done || constructor.
Qed.

Lemma digits_length k v : (length (digits k base v) <= k)%nat.
Proof. revert v. induction k as [|k IH]; intros v; simpl; [lia|]. destruct (_ =? _); simpl; [lia|]. specialize (IH (v / base)). lia. Qed.

(** Reading the digits back gives the number. *)
Lemma parse_digits k v : 0 <= v < base ^ Z.of_nat k → parse base (reverse (digits k base v)) = v.
Proof.
  revert v. induction k as [|k IH]; intros v Hv; simpl; [unfold parse; simpl; lia|].
  rewrite Nat2Z.inj_succ, Z.pow_succ_r in Hv by lia.
  rewrite reverse_cons. unfold parse in *. rewrite foldl_snoc.
  pose proof (Z.mod_pos_bound v base ltac:(lia)). rewrite digit_val_nchar by lia.
  pose proof (Z_div_mod_eq_full v base). destruct (Z.eqb_spec (v / base) 0) as [Hz|Hz].
  - simpl. lia.
  - rewrite IH; [lia|]. split; [apply Z.div_pos; lia|]. apply Z.div_lt_upper_bound; lia.
Qed.

Lemma digits_loop_spec fuel k m v buf :
  0 <= v < base ^ Z.of_nat k → (0 < k <= fuel)%nat → region m buf (Z.of_nat k) →
  digits_loop fuel m v buf base =
    Ok (buf + Z.of_nat (length (digits k base v)), write m buf (digits k base v)).
Proof.
  revert fuel m v buf. induction k as [|k IH]; intros fuel m v buf Hv Hk Hr; [lia|].
  destruct fuel as [|fuel]; [lia|]. cbn [digits_loop digits].
  rewrite (proj2 (Z.eqb_neq base 0)) by lia. pose proof (Z.mod_pos_bound v base ltac:(lia)).
  rewrite st_ok; [|apply Hr; lia|by apply nchar_word; lia]. simpl.
  destruct (Z.eqb_spec (v / base) 0) as [Hz|Hz]; simpl; [done|].
  rewrite Nat2Z.inj_succ, Z.pow_succ_r in Hv by lia.
  assert (0 <= v / base < base ^ Z.of_nat k).
  { split; [apply Z.div_pos; lia|]. apply Z.div_lt_upper_bound; lia. }
  destruct k as [|k]; [simpl in *; lia|].
  rewrite IH; [f_equal; f_equal; lia|done|lia|]. intros i Hi. rewrite lookup_insert_ne by lia. apply Hr. lia.
Qed.
End digits.

(** The end of all the conversions: the terminator is written and the digits are reversed. *)
Lemma finish_spec m str s k :
  bytes_ok s → Forall (λ b, b ≠ 0) s → (length s <= k)%nat → region m str (Z.of_nat k + 1) →
  ∃ m', (m1 ← st (write m str s) (str + Z.of_nat (length s)) 0; strrev m1 str) = Ok m' ∧
    cstr m' str (reverse s) ∧ same_but m m' str (Z.of_nat k + 1).
Proof.
  intros Hok Hnz Hlen Hr. rewrite st_ok; [|apply (write_region m str s str (Z.of_nat k + 1) Hr); lia|split; lia].
  replace (<[str + Z.of_nat (length s):=0]> (write m str s)) with (write m str (s ++ [0])) by apply write_app.
  destruct (strrev_spec (write m str (s ++ [0])) str s) as (m' & Hrev & Hc & Hsame).
  { by apply cstr_write. } { done. }
  simpl. exists m'. split_and!; [done|done|]. intros i Hi. rewrite Hsame by lia.
  apply write_same_but. rewrite length_app. simpl. lia.
Qed.

(** The string of a number, with [k] digits at most, and of one with a sign. *)
Definition num_string (k : nat) (base v : Z) : list Z := reverse (digits k base v).
Definition signed_string (k : nat) (base v : Z) : list Z :=
  (if v <? 0 then [45] else []) ++ num_string k base (Z.abs v).

Lemma num_string_ok k base v :
  2 <= base <= 36 → 0 <= v →
  bytes_ok (num_string k base v) ∧ Forall (λ b, b ≠ 0) (num_string k base v) ∧
  (length (num_string k base v) <= k)%nat.
Proof.
  intros Hbase Hv. destruct (digits_ok base Hbase k v Hv) as [H1 H2]. unfold num_string, bytes_ok.
  split_and!; [by apply Forall_reverse..|]. rewrite length_reverse. apply digits_length.
Qed.

Lemma signed_string_ok k base v :
  2 <= base <= 36 →
  bytes_ok (signed_string k base v) ∧ Forall (λ b, b ≠ 0) (signed_string k base v) ∧
  (length (signed_string k base v) <= S k)%nat.
Proof.
  intros Hbase. destruct (num_string_ok k base (Z.abs v) Hbase) as (H1 & H2 & H3); [lia|].
  unfold signed_string, bytes_ok. rewrite !Forall_app, length_app.
  destruct (v <? 0); simpl; split_and!; (done || lia || (by apply Forall_singleton) || constructor).
Qed.

(** The unsigned conversions on a value below [base ^ k], with room for [k] digits and the
    terminator. *)
Lemma unsigned_toa_spec k m v str base :
  2 <= base <= 36 → 0 <= v < base ^ Z.of_nat k → (0 < k <= 65)%nat → region m str (Z.of_nat k + 1) →
  ∃ m', ('(p, m) ← digits_loop 65 m v str base; m ← st m p 0; strrev m str) = Ok m' ∧
    cstr m' str (num_string k base v) ∧ same_but m m' str (Z.of_nat k + 1).
Proof.
  intros Hbase Hv Hk Hr. rewrite (digits_loop_spec base Hbase 65 k) by (done || intros i Hi; apply Hr; lia).
  simpl. destruct (digits_ok base Hbase k v) as [Hok Hnz]; [lia|].
  apply finish_spec; [done|done|apply digits_length|done].
Qed.

(** The value of a string with an optional minus sign. *)
Definition parse_signed (base : Z) (s : list Z) : Z :=
  match s with c :: s' => if c =? 45 then - parse base s' else parse base s | [] => 0 end.

Lemma digits_head base k v : 2 <= base <= 36 → 0 <= v → (0 < k)%nat →
  ∃ c s, reverse (digits k base v) = c :: s ∧ c ≠ 45.
Proof.
  intros Hbase Hv Hk. destruct (reverse (digits k base v)) as [|c s] eqn:Hr.
  - apply (f_equal length) in Hr. rewrite length_reverse in Hr. destruct k; [lia|]. done.
  - exists c, s. split; [done|]. assert (c ∈ digits k base v) as Hin.
    { apply elem_of_reverse. rewrite Hr. by left. }
    clear Hr. revert v Hv Hin. induction k as [|k IH]; intros v Hv Hin; [by apply elem_of_nil in Hin|].
    simpl in Hin. apply elem_of_cons in Hin as [->|Hin].
    + pose proof (Z.mod_pos_bound v base ltac:(lia)). unfold nchar.
      destruct (Z.ltb_spec (v mod base) 10); rewrite ?(uwrap_small 32), uwrap_small; unfold is_word; lia.
    + destruct (v / base =? 0); [by apply elem_of_nil in Hin|]. destruct k; [by apply elem_of_nil in Hin|].
      apply (IH ltac:(lia) (v / base)); [apply Z.div_pos; lia|done].
Qed.

Lemma parse_signed_string k base v :
  2 <= base <= 36 → Z.abs v < base ^ Z.of_nat k → (0 < k)%nat →
  parse_signed base (signed_string k base v) = v.
Proof.
  intros Hbase Hv Hk. pose proof (parse_digits base Hbase k (Z.abs v) ltac:(lia)) as Hp.
  unfold signed_string, num_string. destruct (Z.ltb_spec v 0) as [Hneg|Hpos]; simpl; [rewrite Hp; lia|].
  destruct (digits_head base k (Z.abs v)) as (c & s & Hrev & Hne); [done|lia|lia|].
  rewrite Hrev in *. simpl. rewrite (proj2 (Z.eqb_neq c 45)) by done. lia.
Qed.

Lemma signed_toa_spec w k m v str base :
  2 <= base <= 36 → 0 < w → - 2 ^ (w - 1) < v < 2 ^ (w - 1) → Z.abs v < base ^ Z.of_nat k →
  (0 < k <= 65)%nat → region m str (Z.of_nat k + 2) →
  ∃ m', signed_toa w m v str base = Ok m' ∧ cstr m' str (signed_string k base v) ∧
    same_but m m' str (Z.of_nat k + 2).
Proof.
  intros Hbase Hw Hv Habs Hk Hr. unfold signed_toa, signed_string, num_string. rewrite swrap_small by lia.
  rewrite (proj2 (Z.eqb_neq v _)) by lia. destruct (digits_ok base Hbase k (Z.abs v)) as [Hok Hnz]; [lia|].
  pose proof (digits_length base k (Z.abs v)) as Hlen.
  rewrite (digits_loop_spec base Hbase 65 k) by (lia || intros i Hi; apply Hr; lia). simpl.
  assert (region m str (Z.of_nat (S k) + 1)) as Hr' by (intros i Hi; apply Hr; lia).
  set (ds := digits k base (Z.abs v)) in *. destruct (Z.ltb_spec v 0) as [Hneg|Hpos].
  - rewrite st_ok; [|apply (write_region m str ds str (Z.of_nat k + 2) Hr); lia|split; lia]. simpl.
    replace (<[str + Z.of_nat (length ds):=45]> (write m str ds)) with (write m str (ds ++ [45])) by apply write_app.
    destruct (finish_spec m str (ds ++ [45]) (S k)) as (m' & Hf & Hc & Hsame).
    { apply Forall_app. split; [done|]. by apply Forall_singleton. }
    { apply Forall_app. split; [done|]. by apply Forall_singleton. }
    { rewrite length_app. simpl. lia. } { done. }
    replace (str + Z.of_nat (length ds) + 1) with
      (str + Z.of_nat (length (ds ++ [45%Z]))) by (rewrite length_app; simpl; lia).
    rewrite reverse_snoc in Hc. exists m'. split; [done|]. split; [exact Hc|]. intros i Hi. apply Hsame. lia.
  - destruct (finish_spec m str ds (S k)) as (m' & Hf & Hc & Hsame); [done|done|lia|done|].
    exists m'. split; [done|]. split; [exact Hc|]. intros i Hi. apply Hsame. lia.
Qed.

(** ** Properties *)

(** [strcmp] orders two strings lexicographically by their bytes: its sign is the
    comparison of the strings, so that it is zero exactly when they are equal; [memcmp] does
    the same for two regions of one length. *)
Theorem strcmp_memcmp_lexicographic m a b s t :
  (cstr m a s → cstr m b t → bytes_ok s → bytes_ok t →
   ∃ r, strcmp m a b = Ok r ∧ (r ?= 0) = lex s t ∧ (r = 0 ↔ s = t)) ∧
  (bytes_at m a s → bytes_at m b t → length s = length t →
   ∃ r, memcmp m a b (Z.of_nat (length s)) = Ok r ∧ (r ?= 0) = lex s t ∧ (r = 0 ↔ s = t)).
Proof.
  split.
  - intros Hs Ht Hoks Hokt. destruct (strcmp_loop_spec m (scan_fuel m) a s b t) as (r & Hr & Hlex); [done..| |].
    { unfold scan_fuel. pose proof (cstr_size _ _ _ Hs). lia. }
    exists r. split_and!; [done|done|]. by rewrite <- lex_eq, <- Hlex, Z.compare_eq_iff.
  - intros Hs Ht Hlen. destruct (memcmp_loop_spec m a s b t) as (r & Hr & Hlex); [done..|].
    exists r. unfold memcmp. rewrite Nat2Z.id. split_and!; [done|done|].
    by rewrite <- lex_eq, <- Hlex, Z.compare_eq_iff.
Qed.

(** Converting a number to a string and reading the string back gives the number: [utoa]
    and [ultoa] for every unsigned value, [itoa] and [ltoa] for every signed value but the
    least, in any base from 2 to 36, in a buffer with room for the digits, the sign and the
    terminator, outside which no byte changes.  On the least value [itoa] and [ltoa] negate
    it, which C does not define. *)
Theorem number_roundtrip m str base k :
  2 <= base <= 36 → (0 < k <= 65)%nat → region m str (Z.of_nat k + 2) →
  (∀ v, is_word 32 v → v < base ^ Z.of_nat k →
     ∃ m' s, utoa m v str base = Ok m' ∧ cstr m' str s ∧ parse base s = v ∧
             same_but m m' str (Z.of_nat k + 2)) ∧
  (∀ v, is_word 64 v → v < base ^ Z.of_nat k →
     ∃ m' s, ultoa m v str base = Ok m' ∧ cstr m' str s ∧ parse base s = v ∧
             same_but m m' str (Z.of_nat k + 2)) ∧
  (∀ v, - 2 ^ 31 < v < 2 ^ 31 → Z.abs v < base ^ Z.of_nat k →
     ∃ m' s, itoa m v str base = Ok m' ∧ cstr m' str s ∧ parse_signed base s = v ∧
             same_but m m' str (Z.of_nat k + 2)) ∧
  (∀ v, - 2 ^ 63 < v < 2 ^ 63 → Z.abs v < base ^ Z.of_nat k →
     ∃ m' s, ltoa m v str base = Ok m' ∧ cstr m' str s ∧ parse_signed base s = v ∧
             same_but m m' str (Z.of_nat k + 2)) ∧
  itoa m (- 2 ^ 31) str base = Stop Fault ∧ ltoa m (- 2 ^ 63) str base = Stop Fault.
Proof.
  intros Hbase Hk Hr.
  assert (∀ v, 0 <= v < base ^ Z.of_nat k →
     ∃ m' s, ('(p, m) ← digits_loop 65 m v str base; m ← st m p 0; strrev m str) = Ok m' ∧
       cstr m' str s ∧ parse base s = v ∧ same_but m m' str (Z.of_nat k + 2)) as Hu.
  { intros v Hv. destruct (unsigned_toa_spec k m v str base) as (m' & H1 & H2 & H3); try done.
    { intros i Hi. apply Hr. lia. }
    exists m', (num_string k base v). split_and!; [done|done|by apply parse_digits|].
    intros i Hi. apply H3. lia. }
  split_and!; [| | | |reflexivity|reflexivity].
  - intros v Hv Hlt. unfold utoa. rewrite (uwrap_small 32) by done. apply Hu. unfold is_word in Hv. lia.
  - intros v Hv Hlt. unfold ultoa. rewrite (uwrap_small 64) by done. apply Hu. unfold is_word in Hv. lia.
  - intros v Hv Hlt. destruct (signed_toa_spec 32 k m v str base) as (m' & H1 & H2 & H3); try done.
    exists m', (signed_string k base v). split_and!; [done|done|by apply parse_signed_string; lia|done].
  - intros v Hv Hlt. destruct (signed_toa_spec 64 k m v str base) as (m' & H1 & H2 & H3); try done.
    exists m', (signed_string k base v). split_and!; [done|done|by apply parse_signed_string; lia|done].
Qed.

(** [strerror] and [strexcept] compare the code with the size of the table in bytes, so
    that a code from the number of messages up to eight times that number reads past the end
    of the table; smaller codes give their message and larger ones the default. *)
Theorem strerror_reads_past_table err :
  is_word 32 err →
  (err < 137 → ∃ s, strerror err = Ok s ∧ err_messages !! Z.to_nat err = Some s) ∧
  (137 <= err < 1096 → strerror err = Stop Fault) ∧
  (1096 <= err → strerror err = Ok "Unknown error"%string) ∧
  (20 <= err < 160 → strexcept err = Stop Fault).
Proof.
  intros Herr. pose proof Herr as [H0 _]. unfold strerror, strexcept. rewrite (uwrap_small 32) by done.
  change (sizeof_table err_messages) with 1096. change (sizeof_table exceptions) with 160.
  split_and!; intros H.
  - rewrite (proj2 (Z.ltb_lt _ _)) by lia.
    destruct (lookup_lt_is_Some_2 err_messages (Z.to_nat err)) as [s Hs].
    { change (length err_messages) with 137%nat. lia. }
    exists s. by rewrite Hs.
  - rewrite (proj2 (Z.ltb_lt _ _)) by lia. rewrite lookup_ge_None_2; [done|].
    change (length err_messages) with 137%nat. lia.
  - by rewrite (proj2 (Z.ltb_ge _ _)) by lia.
  - rewrite (proj2 (Z.ltb_lt _ _)) by lia. rewrite lookup_ge_None_2; [done|].
    change (length exceptions) with 20%nat. lia.
Qed.

(** ** Concrete runs *)

(** The bytes of a string, and a memory of [n] zero bytes from [a] on. *)
Definition bytes_of (s : string) : list Z := (λ c, Z.of_N (Ascii.N_of_ascii c)) <$> String.list_ascii_of_string s.
Definition zeroed (a : Z) (n : nat) : mem := list_to_map ((λ i, (i, 0)) <$> seqZ a (Z.of_nat n)).

(** "ab" at 100, "ac" at 110 and 40 free bytes at 200. *)
Definition demo_mem : mem :=
  write (write (zeroed 200 40 ∪ zeroed 100 20) 100 (bytes_of "ab")) 110 (bytes_of "ac").

Lemma region_check m a n :
  forallb (λ i, bool_decide (is_Some (m !! i))) (seqZ a n) = true → region m a n.
Proof.
  intros H i Hi. rewrite forallb_forall in H. apply (bool_decide_unpack _), Is_true_true, H.
  apply list_elem_of_In, elem_of_seqZ. lia.
Qed.

Lemma strcmp_memcmp_lexicographic_witness :
  ∃ r, strcmp demo_mem 100 110 = Ok r ∧ (r ?= 0) = Lt.
Proof.
  destruct (strcmp_memcmp_lexicographic demo_mem 100 110 (bytes_of "ab") (bytes_of "ac")) as [H _].
  destruct H as (r & Hr & Hlex & _).
  - vm_compute. repeat split; discriminate.
  - vm_compute. repeat split; discriminate.
  - apply (bool_decide_unpack _). vm_compute. exact I.
  - apply (bool_decide_unpack _). vm_compute. exact I.
  - exists r. split; [exact Hr|exact Hlex].
Defined.

Lemma number_roundtrip_witness :
  ∃ m' s, itoa demo_mem (-1234) 200 10 = Ok m' ∧ cstr m' 200 s ∧ parse_signed 10 s = -1234.
Proof.
  destruct (number_roundtrip demo_mem 200 10 10) as (_ & _ & H & _).
  - lia.
  - lia.
  - apply region_check. vm_compute. reflexivity.
  - destruct (H (-1234)) as (m' & s & Hi & Hc & Hp & _); [lia|reflexivity|].
    exists m', s. split; [exact Hi|]. split; [exact Hc|exact Hp].
Defined.

Lemma strerror_reads_past_table_witness : strerror 137 = Stop Fault.
Proof. apply (proj1 (proj2 (strerror_reads_past_table 137 ltac:(split; [lia|reflexivity])))). lia. Defined.
