(* ===== verification/Format.v ===== *)
(** The formatted printing of libutil/sprintf.c, and the strings it is meant to produce. *)
From S2P Require Import Prelude Words Strings.
Open Scope Z_scope.

(** [hex_char] (kernel/libutil/sprintf.c, lines 3-10). *)
Definition hex_char (nibble : Z) : Z :=
  if 15 <? nibble then 42 else if 10 <=? nibble then u8 (97 + nibble - 10) else u8 (48 + nibble).

(** [va_arg]: the next of the arguments, each in a 64-bit slot. *)
Definition va_arg (args : list Z) : res (Z * list Z) :=
  match args with a :: args => mret (a, args) | [] => Stop Fault end.

Section operations.
(** Where the local array [buffer] lies. *)
Context (buffer : Z).

(** The conversions of the inner loop (kernel/libutil/sprintf.c, lines 56-85): an [int64_t]
    is converted to the [int] that [itoa] takes, and a [uint64_t] to the [unsigned] of
    [utoa]. *)
Definition convert (c : Z) (longValue : bool) (m : mem) (args : list Z) : res (mem * list Z) :=
  if (c =? 100) && negb longValue then
    '(value, args) ← va_arg args; m ← itoa m (s32 value) buffer 10; mret (m, args)
  else if (c =? 117) && negb longValue then
    '(value, args) ← va_arg args; m ← utoa m (u32 value) buffer 10; mret (m, args)
  else if (c =? 120) && negb longValue then
    '(value, args) ← va_arg args; m ← utoa m (u32 value) buffer 16; mret (m, args)
  else if (c =? 100) && longValue then
    '(value, args) ← va_arg args; m ← itoa m (s32 (s64 value)) buffer 10; mret (m, args)
  else if (c =? 117) && longValue then
    '(value, args) ← va_arg args; m ← utoa m (u32 (u64 value)) buffer 10; mret (m, args)
  else if (c =? 120) && longValue then
    '(value, args) ← va_arg args; m ← utoa m (u32 (u64 value)) buffer 16; mret (m, args)
  else mret (m, args).

(** The inner loop over the letters of a number (kernel/libutil/sprintf.c, lines 41-91): the
    memory, the two pointers and the arguments left. *)
Fixpoint number_loop (fuel : nat) (m : mem) (fmt dest : Z) (longValue : bool) (args : list Z)
    : res (mem * Z * Z * list Z) :=
  match fuel with
  | O => Stop NoFuel
  | S fuel =>
      c ← ld m fmt;
      let fmt := fmt + 1 in
      if c =? 0 then mret (m, fmt, dest, args)
      else if c =? 108 then number_loop fuel m fmt dest true args
      else if c =? 122 then number_loop fuel m fmt dest true args
      else
        '(m, args) ← convert c longValue m args;
        len ← strlen m buffer;
        m ← strcpy m dest buffer;
        mret (m, fmt, dest + len, args)
  end.

(** The loops of the cases 'p' and 'q' (kernel/libutil/sprintf.c, lines 100-104), [n] nibbles
    to go; a shift by the width or more is undefined. *)
Fixpoint hex_loop (n : nat) (m : mem) (dest ptr : Z) : res (Z * mem) :=
  match n with
  | O => mret (dest, m)
  | S n =>
      if 64 <=? 4 * Z.of_nat n then Stop Fault
      else
        m ← st m dest (hex_char (Z.land (Z.shiftr ptr (4 * Z.of_nat n)) 0xf));
        hex_loop n m (dest + 1) ptr
  end.

(** The loop of [_sprintf] (kernel/libutil/sprintf.c, lines 12-140): the memory and the end of
    the output. *)
Fixpoint format_loop (fuel : nat) (m : mem) (fmt dest : Z) (args : list Z) : res (mem * Z) :=
  match fuel with
  | O => Stop NoFuel
  | S fuel =>
      c ← ld m fmt;
      if c =? 0 then mret (m, dest)
      else
        let fmt := fmt + 1 in
        if c =? 37 then
          d ← ld m fmt;
          let fmt := fmt + 1 in
          if d =? 115 then
            '(str, args) ← va_arg args;
            len ← strlen m str;
            m ← strcpy m dest str;
            format_loop fuel m fmt (dest + len) args
          else if (d =? 122) || (d =? 108) || (d =? 48) || (d =? 117) || (d =? 100) || (d =? 120) then
            '(m, fmt, dest, args) ← number_loop (scan_fuel m) m (fmt - 1) dest false args;
            format_loop fuel m fmt dest args
          else if d =? 112 then
            m ← st m dest 48;
            m ← st m (dest + 1) 120;
            '(ptr, args) ← va_arg args;
            '(dest, m) ← hex_loop 16 m (dest + 2) (u64 ptr);
            format_loop fuel m fmt dest args
          else if d =? 113 then
            m ← st m dest 48;
            m ← st m (dest + 1) 120;
            '(ptr, args) ← va_arg args;
            '(dest, m) ← hex_loop 32 m (dest + 2) (u64 ptr);
            format_loop fuel m fmt dest args
          else if d =? 99 then
            '(v, args) ← va_arg args;
            m ← st m dest v;
            format_loop fuel m fmt (dest + 1) args
          else if d =? 37 then
            m ← st m dest 37;
            format_loop fuel m fmt (dest + 1) args
          else format_loop fuel m fmt dest args
        else
          m ← st m dest c;
          format_loop fuel m fmt (dest + 1) args
  end.

(** [sprintf] (kernel/libutil/sprintf.c, lines 142-148), with [_sprintf] from line 139 on. *)
Definition sprintf (m : mem) (dest fmt : Z) (args : list Z) : res mem :=
  '(m, dest_ptr) ← format_loop (scan_fuel m) m fmt dest args;
  st m dest_ptr 0.
End operations.

(** ** What a format means *)

(** The parts of a format, with the arguments they take. *)
Inductive tok :=
| TLit (c : Z)                     (** a character other than the per cent sign *)
| TPct                             (** %% *)
| TStr (a : Z) (s : list Z)        (** %s, of the string [s] that lies at [a] *)
| TDec (v : Z)                     (** %d *)
| TUns (v : Z)                     (** %u *)
| THex (v : Z)                     (** %x *)
| TLong (l v : Z)                  (** %lu, %lx, %zu or %zx: [l] is the last letter *)
| TChr (v : Z)                     (** %c *)
| TPtr (v : Z).                    (** %p *)

(** The bytes of the format, the arguments, and the text.  A long number prints its low half
    only: [utoa] takes an [unsigned]. *)
Definition fmt_of (t : tok) : list Z :=
  match t with
  | TLit c => [c] | TPct => [37; 37] | TStr _ _ => [37; 115] | TDec _ => [37; 100]
  | TUns _ => [37; 117] | THex _ => [37; 120] | TLong l _ => [37; 108; l]
  | TChr _ => [37; 99] | TPtr _ => [37; 112]
  end.
Definition args_of (t : tok) : list Z :=
  match t with
  | TLit _ | TPct => [] | TStr a _ => [a]
  | TDec v | TUns v | THex v | TLong _ v | TChr v | TPtr v => [v]
  end.
Fixpoint hex_digits (n : nat) (v : Z) : list Z :=
  match n with
  | O => [] | S n => hex_char (Z.land (Z.shiftr v (4 * Z.of_nat n)) 0xf) :: hex_digits n v
  end.
Definition text_of (t : tok) : list Z :=
  match t with
  | TLit c => [c] | TPct => [37] | TStr _ s => s | TDec v => signed_string 10 10 (s32 v)
  | TUns v => num_string 10 10 (u32 v) | THex v => num_string 8 16 (u32 v)
  | TLong l v => if l =? 117 then num_string 10 10 (u32 v) else num_string 8 16 (u32 v)
  | TChr v => [u8 v] | TPtr v => 48 :: 120 :: hex_digits 16 (u64 v)
  end.
Definition format_of (ts : list tok) : list Z := ts ≫= fmt_of.
Definition arguments (ts : list tok) : list Z := ts ≫= args_of.
Definition text (ts : list tok) : list Z := ts ≫= text_of.

(** ** No call takes memory away *)

Definition keeps (m m' : mem) : Prop := ∀ i, is_Some (m !! i) → is_Some (m' !! i).

#[export] Instance keeps_pre : PreOrder keeps.
Proof. split; [by intros m i H|]. intros a b c H1 H2 i Hi. by apply H2, H1. Qed.

Lemma st_keeps m a b m' : st m a b = Ok m' → keeps m m'.
Proof.
  unfold st. intros H. bind_inv. intros i Hi. destruct (decide (i = a)) as [->|Hne].
  - by rewrite lookup_insert_eq.
  - by rewrite lookup_insert_ne.
Qed.

Lemma digits_keeps fuel m v buf base r : digits_loop fuel m v buf base = Ok r → keeps m r.2.
Proof.
  revert m v buf. induction fuel as [|fuel IH]; intros m v buf H; simpl in H; [done|].
  destruct (_ =? _); [done|]. bind_inv. apply st_keeps in Hr.
  destruct (_ =? _); bind_inv; simpl; [done|]. etrans; [done|]. by eapply IH.
Qed.

#[local] Arguments digits_loop : simpl never.
#[local] Arguments scan_fuel : simpl never.

Lemma strrev_loop_keeps n m buf len i m' : strrev_loop n m buf len i = Ok m' → keeps m m'.
Proof.
  revert m i. induction n as [|n IH]; intros m i H; simpl in H; bind_inv; [done|].
  repeat match goal with H : st _ _ _ = Ok _ |- _ => apply st_keeps in H end.
  etrans; [eassumption|]. etrans; [eassumption|]. by eapply IH.
Qed.

Lemma unsigned_toa_keeps m v str base m' :
  ('(p, m) ← digits_loop 65 m v str base; m ← st m p 0; strrev m str) = Ok m' → keeps m m'.
Proof.
  unfold strrev. intros H. bind_inv.
  repeat match goal with
  | H : digits_loop _ _ _ _ _ = Ok _ |- _ => apply digits_keeps in H
  | H : st _ _ _ = Ok _ |- _ => apply st_keeps in H
  | H : strrev_loop _ _ _ _ _ = Ok _ |- _ => apply strrev_loop_keeps in H
  end. simpl in *. by do 2 (etrans; [eassumption|]).
Qed.

Lemma signed_toa_keeps w m v str base m' : signed_toa w m v str base = Ok m' → keeps m m'.
Proof.
  unfold signed_toa, strrev. intros H. destruct (_ =? _); [done|]. bind_inv.
  destruct (_ <? _); bind_inv;
  repeat match goal with
  | H : digits_loop _ _ _ _ _ = Ok _ |- _ => apply digits_keeps in H
  | H : st _ _ _ = Ok _ |- _ => apply st_keeps in H
  | H : strrev_loop _ _ _ _ _ = Ok _ |- _ => apply strrev_loop_keeps in H
  end; simpl in *; by repeat (etrans; [eassumption|]).
Qed.

(** ** The text is printed *)

Lemma number_loop_l buffer fuel m f dest long args :
  m !! f = Some 108 →
  number_loop buffer (S fuel) m f dest long args = number_loop buffer fuel m (f + 1) dest true args.
Proof. intros Hf. cbn [number_loop]. by rewrite (ld_ok _ _ _ Hf). Qed.

(** What a token asks of its argument: its strings lie in [m] outside the two areas written. *)
Definition tok_ok (m : mem) (outside : Z → Prop) (t : tok) : Prop :=
  match t with
  | TLit c => is_word 8 c ∧ c ≠ 0 ∧ c ≠ 37
  | TStr a s =>
      cstr m a s ∧ bytes_ok s ∧ (∀ i, a <= i <= a + Z.of_nat (length s) → outside i)
  | TDec v => s32 v ≠ - 2 ^ 31
  | TLong l _ => l = 117 ∨ l = 120
  | _ => True
  end.

Lemma hex_char_word d : 0 <= d < 16 → is_word 8 (hex_char d).
Proof. intros Hd. unfold hex_char. case_ltb; [lia|]. case_ltb; apply uwrap_word; lia. Qed.

Lemma hex_digits_ok n v : bytes_ok (hex_digits n v) ∧ length (hex_digits n v) = n.
Proof.
  induction n as [|n [IH1 IH2]]; simpl; [split; [constructor|done]|].
  split; [|by rewrite IH2]. constructor; [|done]. apply hex_char_word.
  change 15 with (Z.ones 4). rewrite Z.land_ones by lia. apply Z.mod_pos_bound. lia.
Qed.

Section printing.
Context (m0 : mem) (buffer dest N : Z).
Hypothesis Hdisj : dest + N <= buffer ∨ buffer + 32 <= dest.

Definition outside (i : Z) : Prop := (i < dest ∨ dest + N <= i) ∧ (i < buffer ∨ buffer + 32 <= i).

(** [out] has been printed, and nothing else was touched. *)
Record printed (m : mem) (out : list Z) : Prop := {
  pr_out : bytes_at m dest out;
  pr_len : Z.of_nat (length out) < N;
  pr_dest : region m dest N;
  pr_buf : region m buffer 32;
  pr_rest : ∀ i, outside i → m !! i = m0 !! i }.

Lemma bytes_at_app m a s t :
  bytes_at m a s → bytes_at m (a + Z.of_nat (length s)) t → bytes_at m a (s ++ t).
Proof.
  intros Hs Ht i Hi. rewrite length_app in Hi. destruct (Z.ltb_spec i (Z.of_nat (length s))).
  - rewrite lookup_app_l by lia. apply Hs. lia.
  - rewrite lookup_app_r by lia. specialize (Ht (i - Z.of_nat (length s)) ltac:(lia)).
    replace (a + i) with (a + Z.of_nat (length s) + (i - Z.of_nat (length s))) by lia.
    rewrite Ht. f_equal. lia.
Qed.

Lemma emit m out s :
  printed m out → Z.of_nat (length out) + Z.of_nat (length s) < N →
  printed (write m (dest + Z.of_nat (length out)) s) (out ++ s).
Proof.
  intros [Hout Hlen Hd Hb Hrest] HN. constructor.
  - apply bytes_at_app; [|apply bytes_at_write].
    intros i Hi. rewrite write_same_but by lia. by apply Hout.
  - rewrite length_app. lia.
  - by apply write_region.
  - by apply write_region.
  - intros i Hi. rewrite write_same_but; [by apply Hrest|]. unfold outside in Hi. lia.
Qed.

(** With the terminator that [strcpy] leaves behind. *)
Lemma emit_string m out s :
  printed m out → Z.of_nat (length out) + Z.of_nat (length s) < N →
  printed (write m (dest + Z.of_nat (length out)) (s ++ [0])) (out ++ s).
Proof.
  intros Hp HN. rewrite write_app. destruct (emit _ _ _ Hp HN) as [Hout Hlen Hd Hb Hrest].
  rewrite length_app in Hlen. constructor.
  - intros i Hi. rewrite length_app in Hi. rewrite write_same_but by (simpl; lia). apply Hout. rewrite length_app. lia.
  - rewrite length_app. lia.
  - by apply write_region.
  - by apply write_region.
  - intros i Hi. rewrite write_same_but; [by apply Hrest|]. destruct Hi. simpl. lia.
Qed.

Lemma in_buffer m m' out k :
  printed m out → same_but m m' buffer k → k <= 32 → keeps m m' → printed m' out.
Proof.
  intros [Hout Hlen Hd Hb Hrest] Hs Hk Hkeep. constructor; [| done | | | ].
  - intros i Hi. rewrite Hs by lia. by apply Hout.
  - intros i Hi. by apply Hkeep, Hd.
  - intros i Hi. by apply Hkeep, Hb.
  - intros i Hi. rewrite Hs; [by apply Hrest|]. destruct Hi. lia.
Qed.

(** A string copied to the end of the output, as the cases of the switch do it. *)
Lemma append_string m out a s :
  printed m out → cstr m a s → bytes_ok s → Z.of_nat (length out) + Z.of_nat (length s) < N →
  (∀ i, a <= i <= a + Z.of_nat (length s) → i < dest ∨ dest + N <= i) →
  ∃ m', strcpy m (dest + Z.of_nat (length out)) a = Ok m' ∧ printed m' (out ++ s).
Proof.
  intros Hp Hs Hok HN Ha. eexists. split; [|by apply emit_string].
  apply strcpy_spec; [done..| |].
  - intros i Hi. apply (pr_dest _ _ Hp). lia.
  - pose proof (pr_len _ _ Hp).
    destruct (Z.ltb_spec (dest + Z.of_nat (length out) + Z.of_nat (length s)) a); [by left|].
    destruct (Z.ltb_spec (a + Z.of_nat (length s)) (dest + Z.of_nat (length out))); [by right|].
    exfalso. destruct (Z.leb_spec dest a).
    + destruct (Ha a); lia.
    + destruct (Ha dest); lia.
Qed.

(** What a number prints, by its letter. *)
Definition number_text (c v : Z) : list Z :=
  if c =? 100 then signed_string 10 10 (s32 v)
  else if c =? 117 then num_string 10 10 (u32 v) else num_string 8 16 (u32 v).

Lemma number_text_ok c v : bytes_ok (number_text c v) ∧ Z.of_nat (length (number_text c v)) <= 11.
Proof.
  assert (0 <= u32 v) by (apply uwrap_word; lia).
  unfold number_text. destruct (_ =? _); [|destruct (_ =? _)].
  - destruct (signed_string_ok 10 10 (s32 v)) as (? & _ & ?); [lia|]. split; [done|lia].
  - destruct (num_string_ok 10 10 (u32 v)) as (? & _ & ?); [lia..|]. split; [done|lia].
  - destruct (num_string_ok 8 16 (u32 v)) as (? & _ & ?); [lia..|]. split; [done|lia].
Qed.

Lemma u32_idem v : u32 (u32 v) = u32 v.
Proof. unfold uwrap. by rewrite Z.mod_mod. Qed.
Lemma u32_u64 v : u32 (u64 v) = u32 v.
Proof. unfold uwrap. change (2 ^ 64) with (2 ^ 32 * 2 ^ 32). rewrite Z.rem_mul_r by lia. zdiv. Qed.

Lemma utoa_printed m out v base k :
  printed m out → (base = 10 ∧ k = 10%nat) ∨ (base = 16 ∧ k = 8%nat) →
  ∃ m', utoa m (u32 v) buffer base = Ok m' ∧ cstr m' buffer (num_string k base (u32 v)) ∧ printed m' out.
Proof.
  intros Hp Hb. unfold utoa. rewrite u32_idem.
  destruct (uwrap_word 32 v) as [Hv1 Hv2]; [lia|].
  assert (2 <= base <= 36 ∧ u32 v < base ^ Z.of_nat k ∧ (0 < k <= 10)%nat) as (H1 & H2 & H3).
  { destruct Hb as [[-> ->]|[-> ->]]; split_and!; try lia;
      (eapply Z.lt_le_trans; [exact Hv2|]; apply Z.leb_le; reflexivity). }
  destruct (unsigned_toa_spec k m (u32 v) buffer base) as (m' & Hm' & Hs & Hsame); [done|lia|lia| |].
  { intros i Hi. apply (pr_buf _ _ Hp). lia. }
  exists m'. split_and!; [done..|]. eapply in_buffer; [done|done|lia|by eapply unsigned_toa_keeps].
Qed.

Lemma itoa_printed m out v :
  printed m out → s32 v ≠ - 2 ^ 31 →
  ∃ m', itoa m (s32 v) buffer 10 = Ok m' ∧ cstr m' buffer (signed_string 10 10 (s32 v)) ∧ printed m' out.
Proof.
  intros Hp Hv. unfold itoa.
  pose proof (Z.mod_pos_bound (v + 2 ^ 31) (2 ^ 32) ltac:(lia)) as Hr.
  assert (- 2 ^ 31 < s32 v < 2 ^ 31) as Hb by (unfold swrap in *; change (32 - 1) with 31 in *; lia).
  destruct (signed_toa_spec 32 10 m (s32 v) buffer 10) as (m' & Hm' & Hs & Hsame); [lia..| | |].
  { assert (2 ^ 31 <= 10 ^ Z.of_nat 10) by (apply Z.leb_le; reflexivity). lia. }
  { intros i Hi. apply (pr_buf _ _ Hp). lia. }
  exists m'. split_and!; [done..|]. eapply in_buffer; [done|done|lia|by eapply signed_toa_keeps].
Qed.

Lemma convert_printed m out c long v args :
  printed m out → (c = 100 ∧ long = false ∧ s32 v ≠ - 2 ^ 31) ∨ c = 117 ∨ c = 120 →
  ∃ m', convert buffer c long m (v :: args) = Ok (m', args) ∧
        cstr m' buffer (number_text c v) ∧ printed m' out.
Proof.
  intros Hp [(-> & -> & Hv)|[->| ->]]; unfold convert, number_text.
  - destruct (itoa_printed m out v Hp Hv) as (m' & Hm' & ? & ?). simpl. rewrite Hm'. by exists m'.
  - destruct (utoa_printed m out v 10 10 Hp) as (m' & Hm' & ? & ?); [by left|].
    destruct long; simpl; rewrite ?u32_u64, Hm'; by exists m'.
  - destruct (utoa_printed m out v 16 8 Hp) as (m' & Hm' & ? & ?); [by right|].
    destruct long; simpl; rewrite ?u32_u64, Hm'; by exists m'.
Qed.

Lemma number_loop_letter fuel m out c f long v args :
  printed m out → m !! f = Some c →
  (c = 100 ∧ long = false ∧ s32 v ≠ - 2 ^ 31) ∨ c = 117 ∨ c = 120 →
  Z.of_nat (length out) + Z.of_nat (length (number_text c v)) < N →
  ∃ m', number_loop buffer (S fuel) m f (dest + Z.of_nat (length out)) long (v :: args) =
          Ok (m', f + 1, dest + Z.of_nat (length (out ++ number_text c v)), args) ∧
        printed m' (out ++ number_text c v).
Proof.
  intros Hp Hf Hc HN. destruct (number_text_ok c v) as [Hok Hlen].
  destruct (convert_printed m out c long v args Hp Hc) as (m1 & Hconv & Hs & Hp1).
  destruct (append_string m1 out buffer _ Hp1 Hs Hok HN) as (m2 & Hcpy & Hp2).
  { intros i Hi. lia. }
  exists m2. split; [|done]. cbn [number_loop]. rewrite (ld_ok _ _ _ Hf). simpl.
  replace (c =? 0) with false by lia. replace (c =? 108) with false by lia.
  replace (c =? 122) with false by lia. rewrite Hconv. simpl.
  rewrite (strlen_spec _ _ _ Hs). simpl. rewrite Hcpy. simpl. unfold mret, res_ret.
  rewrite length_app, Nat2Z.inj_add, Z.add_assoc. done.
Qed.

#[local] Arguments number_loop : simpl never.
Lemma st_u8 m a b : is_Some (m !! a) → st m a b = Ok (<[a := u8 b]> m).
Proof. intros [x H]. unfold st, ld. by rewrite H. Qed.

(** One character put at the end of the output. *)
Lemma emit_char m out b :
  printed m out → Z.of_nat (length out) + 1 < N →
  ∃ m', st m (dest + Z.of_nat (length out)) b = Ok m' ∧ printed m' (out ++ [u8 b]).
Proof.
  intros Hp HN. eexists. split; [|by apply (emit m out [u8 b])].
  apply st_u8, (pr_dest _ _ Hp). pose proof (pr_len _ _ Hp). lia.
Qed.

Lemma hex_loop_printed n m out v :
  (n <= 16)%nat → printed m out → Z.of_nat (length out) + Z.of_nat n < N →
  ∃ m', hex_loop n m (dest + Z.of_nat (length out)) v =
          Ok (dest + Z.of_nat (length (out ++ hex_digits n v)), m') ∧
        printed m' (out ++ hex_digits n v).
Proof.
  revert m out. induction n as [|n IH]; intros m out Hn Hp HN.
  { exists m. simpl. by rewrite app_nil_r. }
  cbn [hex_loop hex_digits]. replace (64 <=? 4 * Z.of_nat n) with false by lia.
  set (b := hex_char _). assert (is_word 8 b) as Hb.
  { destruct (hex_digits_ok (S n) v) as [Hok _]. by inversion Hok. }
  destruct (emit_char m out b Hp) as (m1 & Hst & Hp1); [lia|]. rewrite Hst. simpl.
  rewrite uwrap_small in Hp1 by done.
  destruct (IH m1 (out ++ [b])) as (m2 & Hloop & Hp2); [lia|done|rewrite length_app; simpl; lia|].
  exists m2. rewrite <- app_assoc in Hp2, Hloop. split; [|done].
  rewrite length_app in Hloop. simpl in Hloop. replace (dest + Z.of_nat (length out) + 1)
    with (dest + Z.of_nat (length out + 1)) by lia. exact Hloop.
Qed.

Lemma cstr_app_r m a s t : cstr m a (s ++ t) → cstr m (a + Z.of_nat (length s)) t.
Proof.
  revert a. induction s as [|b s IH]; intros a; simpl; [by rewrite Z.add_0_r|].
  intros (_ & _ & H). apply IH in H. by replace (a + Z.of_nat (S (length s))) with (a + 1 + Z.of_nat (length s)) by lia.
Qed.

Lemma printed_string m out a s :
  printed m out → cstr m0 a s → (∀ i, a <= i <= a + Z.of_nat (length s) → outside i) → cstr m a s.
Proof. intros Hp Hs Ho. eapply cstr_ext; [|exact Hs]. intros i Hi. by apply (pr_rest _ _ Hp), Ho. Qed.

(** One turn of the loop, at [f], prints the text of one token. *)
Definition turn_prints (fuel : nat) (m : mem) (out : list Z) (t : tok) (f : Z) (args : list Z) : Prop :=
  ∃ m', format_loop buffer (S fuel) m f (dest + Z.of_nat (length out)) (args_of t ++ args) =
          format_loop buffer fuel m' (f + Z.of_nat (length (fmt_of t)))
            (dest + Z.of_nat (length (out ++ text_of t))) args ∧
        printed m' (out ++ text_of t).

Lemma turn_char fuel m out t f rest args :
  printed m out → cstr m f (fmt_of t ++ rest) → tok_ok m0 outside t →
  Z.of_nat (length out) + 1 < N →
  match t with TLit _ | TPct | TChr _ => True | _ => False end →
  turn_prints fuel m out t f args.
Proof.
  intros Hp Hf Ht HN Hcase.
  destruct (emit_char m out (match t with TLit c => c | TPct => 37 | TChr v => v | _ => 0 end) Hp HN)
    as (m' & Hst & Hp').
  exists m'. destruct t as [c| |a s|v|v|v|l v|v|v]; try done; simpl in Hf, Ht, Hst, Hp';
    destruct Hf as (Hf0 & _ & Hf); cbn [format_loop]; rewrite (ld_ok _ _ _ Hf0); simpl.
  - rewrite (uwrap_small 8) in Hp' by apply Ht. split; [|done].
    replace (c =? 0) with false by lia. replace (c =? 37) with false by lia. rewrite Hst. simpl.
    by rewrite length_app, Nat2Z.inj_add, Z.add_assoc.
  - split; [|done]. rewrite (ld_ok _ _ _ (proj1 Hf)). simpl. rewrite Hst. simpl.
    by rewrite length_app, Nat2Z.inj_add, Z.add_assoc, <- Z.add_assoc.
  - split; [|done]. rewrite (ld_ok _ _ _ (proj1 Hf)). simpl. rewrite Hst. simpl.
    by rewrite length_app, Nat2Z.inj_add, Z.add_assoc, <- Z.add_assoc.
Qed.

Lemma turn_number fuel m out t f rest args c v :
  printed m out → cstr m f (fmt_of t ++ rest) → tok_ok m0 outside t →
  Z.of_nat (length out) + Z.of_nat (length (text_of t)) < N →
  match t with TDec w => c = 100 ∧ v = w | TUns w => c = 117 ∧ v = w | THex w => c = 120 ∧ v = w
             | TLong l w => c = l ∧ v = w | _ => False end →
  turn_prints fuel m out t f args.
Proof.
  intros Hp Hf Ht HN Hcase.
  assert (∃ p, scan_fuel m = S (S p)) as [p Hfuel].
  { pose proof (cstr_size _ _ _ Hf). exists (size m - 1)%nat. unfold scan_fuel.
    destruct t; simpl in *; lia. }
  assert (text_of t = number_text c v) as Htext.
  { destruct t as [c'| |a s|w|w|w|l w|w|w]; try done; destruct Hcase as [-> ->]; simpl; try done.
    destruct Ht as [->| ->]; done. }
  unfold turn_prints. rewrite Htext in *. cbn [format_loop].
  destruct t as [c'| |a s|w|w|w|l w|w|w]; try done; destruct Hcase as [-> ->]; simpl in Hf, Ht;
    destruct Hf as (Hf0 & _ & Hf1 & _ & Hf); rewrite (ld_ok _ _ _ Hf0); simpl;
    rewrite (ld_ok _ _ _ Hf1); simpl; rewrite Hfuel; replace (f + 1 + 1 - 1) with (f + 1) by lia.
  1-3: edestruct (number_loop_letter (S p) m out) as (m' & Hloop & Hp');
    [exact Hp|exact Hf1|by eauto 6|exact HN|]; rewrite Hloop; simpl; exists m'; by rewrite <- Z.add_assoc.
  rewrite number_loop_l by done.
  edestruct (number_loop_letter p m out l (f + 1 + 1) true w args) as (m' & Hloop & Hp');
    [exact Hp|apply Hf|by auto|exact HN|]. rewrite Hloop. simpl.
  exists m'. by rewrite <- !Z.add_assoc.
Qed.

Lemma turn_rest fuel m out t f rest args :
  printed m out → cstr m f (fmt_of t ++ rest) → tok_ok m0 outside t →
  Z.of_nat (length out) + Z.of_nat (length (text_of t)) < N →
  match t with TStr _ _ | TPtr _ => True | _ => False end →
  turn_prints fuel m out t f args.
Proof.
  intros Hp Hf Ht HN Hcase. unfold turn_prints. cbn [format_loop].
  destruct t as [c'| |a s|w|w|w|l w|w|w]; try done; simpl in Hf, Ht;
    destruct Hf as (Hf0 & _ & Hf1 & _ & Hf); rewrite (ld_ok _ _ _ Hf0); simpl;
    rewrite (ld_ok _ _ _ Hf1); simpl.
  - destruct Ht as (Hs & Hok & Ho). pose proof (printed_string _ _ _ _ Hp Hs Ho) as Hs'.
    rewrite (strlen_spec _ _ _ Hs'). simpl.
    destruct (append_string m out a s Hp Hs' Hok HN) as (m' & Hcpy & Hp'); [intros; by apply Ho|].
    rewrite Hcpy. simpl. exists m'. split; [|done].
    by rewrite length_app, Nat2Z.inj_add, Z.add_assoc, <- Z.add_assoc.
  - cbn [length] in HN. destruct (hex_digits_ok 16 (u64 w)) as [_ Hl].
    destruct (emit_char m out 48 Hp) as (m1 & Hst1 & Hp1); [simpl in HN; lia|].
    destruct (emit_char m1 (out ++ [u8 48]) 120 Hp1) as (m2 & Hst2 & Hp2);
      [rewrite length_app; simpl in HN |- *; lia|].
    rewrite length_app, Nat2Z.inj_add, Z.add_assoc in Hst2. change (Z.of_nat (length [u8 48])) with 1 in Hst2.
    rewrite Hst1. simpl. rewrite Hst2. cbn [mbind res_bind va_arg].
    destruct (hex_loop_printed 16 m2 _ (u64 w) ltac:(lia) Hp2) as (m3 & Hloop & Hp3).
    { rewrite !length_app. simpl in HN |- *. lia. }
    rewrite <- !app_assoc in Hloop, Hp3. exists m3. split; [|exact Hp3].
    rewrite !length_app in Hloop. simpl in Hloop |- *.
    replace (dest + Z.of_nat (length out) + 2) with (dest + Z.of_nat (length out + 2)) by lia.
    rewrite Hloop. simpl. rewrite length_app. simpl. f_equal. lia.
Qed.

Lemma format_loop_spec ts fuel m out f args :
  printed m out → cstr m0 f (format_of ts) →
  (∀ i, f <= i <= f + Z.of_nat (length (format_of ts)) → outside i) →
  Forall (tok_ok m0 outside) ts → (length ts < fuel)%nat →
  Z.of_nat (length out) + Z.of_nat (length (text ts)) < N →
  ∃ m', format_loop buffer fuel m f (dest + Z.of_nat (length out)) (arguments ts ++ args) =
          Ok (m', dest + Z.of_nat (length (out ++ text ts))) ∧ printed m' (out ++ text ts).
Proof.
  revert fuel m out f. induction ts as [|t ts IH]; intros fuel m out f Hp Hs Ho Ht Hfuel HN;
    (destruct fuel as [|fuel]; [simpl in Hfuel; lia|]); pose proof (printed_string _ _ _ _ Hp Hs Ho) as Hs'.
  - exists m. unfold text. simpl. rewrite app_nil_r. split; [|done].
    simpl in Hs'. by rewrite (ld_ok _ _ _ Hs').
  - apply list.Forall_cons in Ht as [Ht Hts].
    change (format_of (t :: ts)) with (fmt_of t ++ format_of ts) in *.
    change (text (t :: ts)) with (text_of t ++ text ts) in *.
    change (arguments (t :: ts)) with (args_of t ++ arguments ts).
    rewrite length_app in Ho, HN. simpl in Hfuel.
    assert (turn_prints fuel m out t f (arguments ts ++ args)) as (m1 & Hturn & Hp1).
    { destruct t as [c| |a s|v|v|v|l v|v|v];
        [eapply turn_char|eapply turn_char|eapply turn_rest|eapply turn_number|eapply turn_number
        |eapply turn_number|eapply turn_number|eapply turn_char|eapply turn_rest];
        try done; simpl in HN |- *; try lia; by split. }
    destruct (IH fuel m1 (out ++ text_of t) (f + Z.of_nat (length (fmt_of t)))) as (m2 & Hloop & Hp2);
      [done|by apply cstr_app_r in Hs|intros i Hi; apply Ho; lia|done|lia|rewrite length_app; lia|].
    rewrite <- app_assoc in Hloop, Hp2 |- *. exists m2. rewrite Hturn. by rewrite Hloop.
Qed.
End printing.

Lemma format_loop_q buffer fuel m f dest rest v args :
  cstr m f (37 :: 113 :: rest) → region m dest 2 →
  format_loop buffer (S fuel) m f dest (v :: args) = Stop Fault.
Proof.
  intros (Hf0 & _ & Hf1 & _ & _) Hdest. cbn [format_loop].
  rewrite (ld_ok _ _ _ Hf0). simpl. rewrite (ld_ok _ _ _ Hf1). simpl.
  rewrite st_u8 by (apply Hdest; lia). simpl.
  rewrite st_u8; [done|]. rewrite lookup_insert_ne by lia. apply Hdest. lia.
Qed.
#[local] Arguments format_loop : simpl never.

Lemma format_of_length ts : (length ts <= length (format_of ts))%nat.
Proof.
  induction ts as [|t ts IH]; [done|]. change (format_of (t :: ts)) with (fmt_of t ++ format_of ts).
  rewrite length_app. destruct t; simpl; lia.
Qed.

(** A format and its arguments, in a buffer with room for [N] bytes: the text with its terminator, and nothing is
    written outside the two areas. *)
Lemma sprintf_ok m buffer dest N fmt ts :
  dest + N <= buffer ∨ buffer + 32 <= dest →
  cstr m fmt (format_of ts) →
  (∀ i, fmt <= i <= fmt + Z.of_nat (length (format_of ts)) → outside buffer dest N i) →
  Forall (tok_ok m (outside buffer dest N)) ts →
  region m dest N → region m buffer 32 → Z.of_nat (length (text ts)) < N →
  ∃ m', sprintf buffer m dest fmt (arguments ts) = Ok m' ∧ bytes_at m' dest (text ts ++ [0]) ∧
        region m' dest N ∧ region m' buffer 32 ∧ ∀ i, outside buffer dest N i → m' !! i = m !! i.
Proof.
  intros Hdisj Hfmt Hout Htoks Hdest Hbuf HN.
  destruct (format_loop_spec m buffer dest N Hdisj ts (scan_fuel m) m [] fmt []) as (m1 & Hloop & Hp); [|done..| |done|].
  - constructor; [|simpl; lia|done..]. intros i Hi. simpl in Hi. lia.
  - pose proof (cstr_size _ _ _ Hfmt). unfold scan_fuel. pose proof (format_of_length ts). lia.
  - simpl in Hloop, Hp. rewrite Z.add_0_r, app_nil_r in Hloop. unfold sprintf. rewrite Hloop. simpl.
    rewrite st_u8 by (apply (pr_dest _ _ _ _ _ _ Hp); lia).
    destruct Hp as [Hpo _ Hpd Hpb Hpr]. eexists. split; [done|]. change (u8 0) with 0. split_and!.
    + intros i Hi. rewrite length_app in Hi. simpl in Hi. destruct (decide (i = Z.of_nat (length (text ts)))) as [->|Hne].
      * rewrite lookup_insert_eq, Nat2Z.id, lookup_app_r by lia. by rewrite Nat.sub_diag.
      * rewrite lookup_insert_ne by lia. rewrite lookup_app_l by lia. apply Hpo. lia.
    + by apply (write_region _ _ [0]).
    + by apply (write_region _ _ [0]).
    + intros i [Hi Hi']. rewrite lookup_insert_ne by lia. by apply Hpr.
Qed.


(** [%q] is undefined behaviour wherever it stands at the head of the format: the loop
    shifts the 64-bit argument by 124 bits first. *)
Theorem sprintf_q_undefined m buffer dest fmt rest v args :
  cstr m fmt (37 :: 113 :: rest) → region m dest 2 →
  sprintf buffer m dest fmt (v :: args) = Stop Fault.
Proof. intros Hf Hd. unfold sprintf, scan_fuel. by rewrite (format_loop_q _ _ _ _ _ rest). Qed.

(** ** A run: "a%d%%%lu" with -7 and 2^32 + 5 prints "a-7%5" *)

Definition demo_toks : list tok := [TLit 97; TDec (-7); TPct; TLong 117 (2 ^ 32 + 5)].
Definition demo_text : mem := write (zeroed 100 20 ∪ zeroed 200 40 ∪ zeroed 300 40) 100 (format_of demo_toks).


Lemma sprintf_q_undefined_witness :
  sprintf 300 (write (zeroed 100 20 ∪ zeroed 200 40) 100 [37; 113]) 200 100 [5] = Stop Fault.
Proof.
  apply (sprintf_q_undefined _ 300 200 100 []); [|apply region_check; vm_compute; reflexivity].
  apply (bool_decide_unpack _). vm_compute. exact I.
Defined.
