(* ===== verification/Kernel.v ===== *)
(** The data of the multitasking kernel: tasks, processes and the objects they own, in one
    state that the scheduler, the process manager, the loader and the file system share; and the monad their
    code is written in. *)
From S2P Require Import Prelude Words Mutex PageAlloc Dll Lists Vspace.
Open Scope Z_scope.

(** A call: it ends with a result and a new state, or stops. *)
Definition K (S X : Type) : Type := S → res (X * S).

#[export] Instance K_ret S : MRet (K S) := λ X x s, Ok (x, s).
#[export] Instance K_bind S : MBind (K S) := λ X Y f m s,
  match m s with Ok (x, s') => f x s' | Stop w => Stop w end.

Definition kstop {S X} (w : stop) : K S X := λ _, Stop w.
Definition lift {S X} (r : res X) : K S X := λ s, match r with Ok x => Ok (x, s) | Stop w => Stop w end.
Definition gets {S X} (f : S → X) : K S X := λ s, Ok (f s, s).
Definition modify {S} (f : S → S) : K S unit := λ s, Ok (tt, f s).
(** [if (c) m;] *)
Definition when {S} (c : bool) (m : K S unit) : K S unit := if c then m else mret tt.

Lemma K_bind_Ok {S X Y} (m : K S X) (f : X → K S Y) s x s' :
  m s = Ok (x, s') → (m ≫= f) s = f x s'.
Proof. intros H. unfold mbind, K_bind. by rewrite H. Qed.

Lemma K_bind_Stop {S X Y} (m : K S X) (f : X → K S Y) s w :
  m s = Stop w → (m ≫= f) s = Stop w.
Proof. intros H. unfold mbind, K_bind. by rewrite H. Qed.

Lemma K_bind_assoc {S X Y Z} (m : K S X) (f : X → K S Y) (g : Y → K S Z) s :
  ((m ≫= f) ≫= g) s = (m ≫= λ x, f x ≫= g) s.
Proof. unfold mbind, K_bind. by destruct (m s) as [[? ?]|]. Qed.

(** ** Objects *)

(** [context_t] (kernel/arch/x86-common/include/x86/context.h, lines 7-33): the registers saved by an
    interrupt. *)
Record context_t := {
  r15 : Z;
  r14 : Z;
  r13 : Z;
  r12 : Z;
  r11 : Z;
  r10 : Z;
  r9 : Z;
  r8 : Z;
  rdi : Z;
  rsi : Z;
  rdx : Z;
  rcx : Z;
  rbx : Z;
  rax : Z;
  rbp : Z;
  gs : Z;
  fs : Z;
  irq : Z;
  error : Z;
  rip : Z;
  cs : Z;
  rflags : Z;
  rsp : Z;
  ss : Z;
}.

(** [irq_handler_t] (kernel/kernel/sched/interrupt.c, lines 11-15): the function, by address, and
    its argument. *)
Record irq_handler_t := { func : Z; drv_data : Z }.

(** [task_t] (kernel/kernel/include/sched/task.h, lines 17-34). *)
Record task_t := {
  tid : Z;
  t_state : task_state_t;
  t_context : Z;
  t_vspace : Z;
  kstack_ptr : Z;
  kstack_base : Z;
  irq_wait : bool;
  user_stack : Z;
  t_process : Z;
}.

(** [proc_state_t] (kernel/kernel/include/sched/proc.h, lines 10-14). *)
Inductive proc_state_t := PROC_RUNNING | PROC_KILLED.
#[global] Instance proc_state_eq_dec : EqDecision proc_state_t.
Proof. solve_decision. Defined.

(** [user_fd_t] (kernel/kernel/include/sched/proc.h, lines 16-20). *)
Record user_fd_t := { user_fd : Z; fd_ptr : Z }.

(** [proc_t] (kernel/kernel/include/sched/proc.h, lines 22-55). *)
Record proc_t := {
  pid : Z;
  uid : Z;
  gid : Z;
  p_state : proc_state_t;
  p_task_list : list_t;
  task_list_lock : mutex_t;
  stack_list : list_t;
  stack_list_lock : mutex_t;
  fd_counter : Z;
  fd_list : list_t;
  fd_list_lock : mutex_t;
  p_vspace : Z;
  heap_brk : Z;
  heap_lock : mutex_t;
  working_dir : Z;
  p_loader : Z;
}.

(** [userstack_t] (kernel/kernel/include/sched/userstack.h, lines 8-28). *)
Record userstack_t := {
  us_index : Z;
  start_page : Z;
  page_count : Z;
  stack_ptr : Z;
  us_allocated : bool;
  pages_mapped : Z;
}.

(** [loader_t] (kernel/kernel/include/sched/loader.h, lines 17-26). *)
Record loader_t := {
  ld_file : Z;
  entry_addr : Z;
  ld_header : Z;
  ld_pht : Z;
  ld_lock : mutex_t;
  ld_refs : Z;
  min_heap_break : Z;
}.

(** [elf64_t] (kernel/kernel/sched/loader.c, lines 10-31): the header of an ELF file. *)
Record elf64_t := {
  e_magic : Z;
  e_type : Z;
  e_endianness : Z;
  e_header_version : Z;
  e_os_abi : Z;
  bintype : Z;
  isa : Z;
  elf_version : Z;
  e_entry : Z;
  pht_pos : Z;
  sht_pos : Z;
  e_flags : Z;
  header_size : Z;
  pht_entry_size : Z;
  pht_entries : Z;
  sht_entry_size : Z;
  sht_entries : Z;
  sht_index_names : Z;
}.

(** [elf64_phte_t] (kernel/kernel/sched/loader.c, lines 40-50): an entry of its program header table. *)
Record elf64_phte_t := {
  ph_type : Z;
  ph_flags : Z;
  p_offset : Z;
  p_vaddr : Z;
  p_filesz : Z;
  p_memsz : Z;
  ph_alignment : Z;
}.

(** [f_ops_t] (kernel/kernel/include/fs/vfs.h, lines 70-74): two functions, by address. *)
Record f_ops_t := {
  op_read : Z;
  op_write : Z;
}.

(** [fd_t] (kernel/kernel/include/fs/vfs.h, lines 76-85). *)
Record fd_t := {
  fd_file : Z;
  fpos : Z;
  f_ops : f_ops_t;
  fs_data : Z;
  fdmod : mutex_t;
}.

(** [dir_t] (kernel/kernel/include/fs/vfs.h, lines 87-95). *)
Record dir_t := {
  d_file : Z;
  d_files : list_t;
  d_parent : Z;
  mounted : Z;
  d_fstype : Z;
  d_driver : Z;
}.

(** [sp_file_u] (kernel/kernel/include/fs/vfs.h, lines 97-108): the member of the union in use. *)
Inductive sp_file_u := Directory (d : Z) | Symlink (f : Z) | Device (major minor : Z) | NoSpecial.

(** [file_t] (kernel/kernel/include/fs/vfs.h, lines 110-125). *)
Record file_t := {
  f_mode : Z;
  f_type : Z;
  f_uid : Z;
  f_gid : Z;
  t_last_modified : Z;
  t_last_accessed : Z;
  t_created : Z;
  f_length : Z;
  f_inode : Z;
  driver1 : Z;
  driver2 : Z;
  f_parent : Z;
  special : sp_file_u;
}.

(** [direntry_t] (kernel/kernel/include/fs/vfs.h, lines 63-68): the name without the null byte. *)
Record direntry_t := {
  de_name : list Z;
  de_inode : Z;
  de_file : Z;
}.

(** [fs_t] (kernel/kernel/include/fs/vfs.h, lines 127-135): its functions, by address. *)
Record fs_t := {
  fs_name : list Z;
  mbr_id : Z;
  fs_probe : Z;
  fs_mount : Z;
  fs_fetch_op : Z;
  fs_f_ops : f_ops_t;
}.

(** The objects of the file system tree by address, and the static variables of vfs.c and
    ffind.c. *)
Record vfs_t := {
  v_fds : gmap Z fd_t;
  v_files : gmap Z file_t;
  v_dirs : gmap Z dir_t;
  v_dentries : gmap Z direntry_t;
  v_types : gmap Z fs_t;
  VFS_ROOT : Z;  (* vfs.c: _vfs_root *)
  fs_tree_lock : mutex_t;  (* ffind.c *)
  fs_list : list_t;  (* vfs.c *)
  fs_list_lock : mutex_t;  (* vfs.c *)
  vfs_initialized : bool;  (* vfs.c *)
}.

(** What the loader reads into memory. *)
Record images_t := {
  im_headers : gmap Z elf64_t;  (* ELF headers *)
  im_phts : gmap Z (list elf64_phte_t);  (* program header tables *)
  im_frames : gmap Z (list Z);  (* the bytes of data pages, by page number *)
}.

(** One field changed. *)
Definition set_rax (v : Z) (r : context_t) : context_t :=
  {| r15 := r15 r; r14 := r14 r; r13 := r13 r; r12 := r12 r; r11 := r11 r; r10 := r10 r; r9 := r9
     r; r8 := r8 r; rdi := rdi r; rsi := rsi r; rdx := rdx r; rcx := rcx r; rbx := rbx r; rax :=
     v; rbp := rbp r; gs := gs r; fs := fs r; irq := irq r; error := error r; rip := rip r; cs :=
     cs r; rflags := rflags r; rsp := rsp r; ss := ss r |}.
Definition set_rip (v : Z) (r : context_t) : context_t :=
  {| r15 := r15 r; r14 := r14 r; r13 := r13 r; r12 := r12 r; r11 := r11 r; r10 := r10 r; r9 := r9
     r; r8 := r8 r; rdi := rdi r; rsi := rsi r; rdx := rdx r; rcx := rcx r; rbx := rbx r; rax :=
     rax r; rbp := rbp r; gs := gs r; fs := fs r; irq := irq r; error := error r; rip := v; cs :=
     cs r; rflags := rflags r; rsp := rsp r; ss := ss r |}.
Definition set_t_state (v : task_state_t) (r : task_t) : task_t :=
  {| tid := tid r; t_state := v; t_context := t_context r; t_vspace := t_vspace r; kstack_ptr :=
     kstack_ptr r; kstack_base := kstack_base r; irq_wait := irq_wait r; user_stack := user_stack
     r; t_process := t_process r |}.
Definition set_t_context (v : Z) (r : task_t) : task_t :=
  {| tid := tid r; t_state := t_state r; t_context := v; t_vspace := t_vspace r; kstack_ptr :=
     kstack_ptr r; kstack_base := kstack_base r; irq_wait := irq_wait r; user_stack := user_stack
     r; t_process := t_process r |}.
Definition set_irq_wait (v : bool) (r : task_t) : task_t :=
  {| tid := tid r; t_state := t_state r; t_context := t_context r; t_vspace := t_vspace r;
     kstack_ptr := kstack_ptr r; kstack_base := kstack_base r; irq_wait := v; user_stack :=
     user_stack r; t_process := t_process r |}.
Definition set_t_process (v : Z) (r : task_t) : task_t :=
  {| tid := tid r; t_state := t_state r; t_context := t_context r; t_vspace := t_vspace r;
     kstack_ptr := kstack_ptr r; kstack_base := kstack_base r; irq_wait := irq_wait r; user_stack
     := user_stack r; t_process := v |}.
Definition set_p_state (v : proc_state_t) (r : proc_t) : proc_t :=
  {| pid := pid r; uid := uid r; gid := gid r; p_state := v; p_task_list := p_task_list r;
     task_list_lock := task_list_lock r; stack_list := stack_list r; stack_list_lock :=
     stack_list_lock r; fd_counter := fd_counter r; fd_list := fd_list r; fd_list_lock :=
     fd_list_lock r; p_vspace := p_vspace r; heap_brk := heap_brk r; heap_lock := heap_lock r;
     working_dir := working_dir r; p_loader := p_loader r |}.
Definition set_p_task_list (v : list_t) (r : proc_t) : proc_t :=
  {| pid := pid r; uid := uid r; gid := gid r; p_state := p_state r; p_task_list := v;
     task_list_lock := task_list_lock r; stack_list := stack_list r; stack_list_lock :=
     stack_list_lock r; fd_counter := fd_counter r; fd_list := fd_list r; fd_list_lock :=
     fd_list_lock r; p_vspace := p_vspace r; heap_brk := heap_brk r; heap_lock := heap_lock r;
     working_dir := working_dir r; p_loader := p_loader r |}.
Definition set_task_list_lock (v : mutex_t) (r : proc_t) : proc_t :=
  {| pid := pid r; uid := uid r; gid := gid r; p_state := p_state r; p_task_list := p_task_list
     r; task_list_lock := v; stack_list := stack_list r; stack_list_lock := stack_list_lock r;
     fd_counter := fd_counter r; fd_list := fd_list r; fd_list_lock := fd_list_lock r; p_vspace
     := p_vspace r; heap_brk := heap_brk r; heap_lock := heap_lock r; working_dir := working_dir
     r; p_loader := p_loader r |}.
Definition set_stack_list (v : list_t) (r : proc_t) : proc_t :=
  {| pid := pid r; uid := uid r; gid := gid r; p_state := p_state r; p_task_list := p_task_list
     r; task_list_lock := task_list_lock r; stack_list := v; stack_list_lock := stack_list_lock
     r; fd_counter := fd_counter r; fd_list := fd_list r; fd_list_lock := fd_list_lock r;
     p_vspace := p_vspace r; heap_brk := heap_brk r; heap_lock := heap_lock r; working_dir :=
     working_dir r; p_loader := p_loader r |}.
Definition set_stack_list_lock (v : mutex_t) (r : proc_t) : proc_t :=
  {| pid := pid r; uid := uid r; gid := gid r; p_state := p_state r; p_task_list := p_task_list
     r; task_list_lock := task_list_lock r; stack_list := stack_list r; stack_list_lock := v;
     fd_counter := fd_counter r; fd_list := fd_list r; fd_list_lock := fd_list_lock r; p_vspace
     := p_vspace r; heap_brk := heap_brk r; heap_lock := heap_lock r; working_dir := working_dir
     r; p_loader := p_loader r |}.
Definition set_fd_counter (v : Z) (r : proc_t) : proc_t :=
  {| pid := pid r; uid := uid r; gid := gid r; p_state := p_state r; p_task_list := p_task_list
     r; task_list_lock := task_list_lock r; stack_list := stack_list r; stack_list_lock :=
     stack_list_lock r; fd_counter := v; fd_list := fd_list r; fd_list_lock := fd_list_lock r;
     p_vspace := p_vspace r; heap_brk := heap_brk r; heap_lock := heap_lock r; working_dir :=
     working_dir r; p_loader := p_loader r |}.
Definition set_fd_list (v : list_t) (r : proc_t) : proc_t :=
  {| pid := pid r; uid := uid r; gid := gid r; p_state := p_state r; p_task_list := p_task_list
     r; task_list_lock := task_list_lock r; stack_list := stack_list r; stack_list_lock :=
     stack_list_lock r; fd_counter := fd_counter r; fd_list := v; fd_list_lock := fd_list_lock r;
     p_vspace := p_vspace r; heap_brk := heap_brk r; heap_lock := heap_lock r; working_dir :=
     working_dir r; p_loader := p_loader r |}.
Definition set_fd_list_lock (v : mutex_t) (r : proc_t) : proc_t :=
  {| pid := pid r; uid := uid r; gid := gid r; p_state := p_state r; p_task_list := p_task_list
     r; task_list_lock := task_list_lock r; stack_list := stack_list r; stack_list_lock :=
     stack_list_lock r; fd_counter := fd_counter r; fd_list := fd_list r; fd_list_lock := v;
     p_vspace := p_vspace r; heap_brk := heap_brk r; heap_lock := heap_lock r; working_dir :=
     working_dir r; p_loader := p_loader r |}.
Definition set_p_vspace (v : Z) (r : proc_t) : proc_t :=
  {| pid := pid r; uid := uid r; gid := gid r; p_state := p_state r; p_task_list := p_task_list
     r; task_list_lock := task_list_lock r; stack_list := stack_list r; stack_list_lock :=
     stack_list_lock r; fd_counter := fd_counter r; fd_list := fd_list r; fd_list_lock :=
     fd_list_lock r; p_vspace := v; heap_brk := heap_brk r; heap_lock := heap_lock r; working_dir
     := working_dir r; p_loader := p_loader r |}.
Definition set_heap_brk (v : Z) (r : proc_t) : proc_t :=
  {| pid := pid r; uid := uid r; gid := gid r; p_state := p_state r; p_task_list := p_task_list
     r; task_list_lock := task_list_lock r; stack_list := stack_list r; stack_list_lock :=
     stack_list_lock r; fd_counter := fd_counter r; fd_list := fd_list r; fd_list_lock :=
     fd_list_lock r; p_vspace := p_vspace r; heap_brk := v; heap_lock := heap_lock r; working_dir
     := working_dir r; p_loader := p_loader r |}.
Definition set_heap_lock (v : mutex_t) (r : proc_t) : proc_t :=
  {| pid := pid r; uid := uid r; gid := gid r; p_state := p_state r; p_task_list := p_task_list
     r; task_list_lock := task_list_lock r; stack_list := stack_list r; stack_list_lock :=
     stack_list_lock r; fd_counter := fd_counter r; fd_list := fd_list r; fd_list_lock :=
     fd_list_lock r; p_vspace := p_vspace r; heap_brk := heap_brk r; heap_lock := v; working_dir
     := working_dir r; p_loader := p_loader r |}.
Definition set_p_loader (v : Z) (r : proc_t) : proc_t :=
  {| pid := pid r; uid := uid r; gid := gid r; p_state := p_state r; p_task_list := p_task_list
     r; task_list_lock := task_list_lock r; stack_list := stack_list r; stack_list_lock :=
     stack_list_lock r; fd_counter := fd_counter r; fd_list := fd_list r; fd_list_lock :=
     fd_list_lock r; p_vspace := p_vspace r; heap_brk := heap_brk r; heap_lock := heap_lock r;
     working_dir := working_dir r; p_loader := v |}.
Definition set_us_allocated (v : bool) (r : userstack_t) : userstack_t :=
  {| us_index := us_index r; start_page := start_page r; page_count := page_count r; stack_ptr :=
     stack_ptr r; us_allocated := v; pages_mapped := pages_mapped r |}.
Definition set_pages_mapped (v : Z) (r : userstack_t) : userstack_t :=
  {| us_index := us_index r; start_page := start_page r; page_count := page_count r; stack_ptr :=
     stack_ptr r; us_allocated := us_allocated r; pages_mapped := v |}.
Definition set_ld_pht (v : Z) (r : loader_t) : loader_t :=
  {| ld_file := ld_file r; entry_addr := entry_addr r; ld_header := ld_header r; ld_pht := v;
     ld_lock := ld_lock r; ld_refs := ld_refs r; min_heap_break := min_heap_break r |}.
Definition set_ld_lock (v : mutex_t) (r : loader_t) : loader_t :=
  {| ld_file := ld_file r; entry_addr := entry_addr r; ld_header := ld_header r; ld_pht := ld_pht
     r; ld_lock := v; ld_refs := ld_refs r; min_heap_break := min_heap_break r |}.
Definition set_ld_refs (v : Z) (r : loader_t) : loader_t :=
  {| ld_file := ld_file r; entry_addr := entry_addr r; ld_header := ld_header r; ld_pht := ld_pht
     r; ld_lock := ld_lock r; ld_refs := v; min_heap_break := min_heap_break r |}.
Definition set_min_heap_break (v : Z) (r : loader_t) : loader_t :=
  {| ld_file := ld_file r; entry_addr := entry_addr r; ld_header := ld_header r; ld_pht := ld_pht
     r; ld_lock := ld_lock r; ld_refs := ld_refs r; min_heap_break := v |}.
Definition set_fpos (v : Z) (r : fd_t) : fd_t :=
  {| fd_file := fd_file r; fpos := v; f_ops := f_ops r; fs_data := fs_data r; fdmod := fdmod r |}.
Definition set_fd_file (v : Z) (r : fd_t) : fd_t :=
  {| fd_file := v; fpos := fpos r; f_ops := f_ops r; fs_data := fs_data r; fdmod := fdmod r |}.
Definition set_fdmod (v : mutex_t) (r : fd_t) : fd_t :=
  {| fd_file := fd_file r; fpos := fpos r; f_ops := f_ops r; fs_data := fs_data r; fdmod := v |}.
Definition set_d_file (v : Z) (r : dir_t) : dir_t :=
  {| d_file := v; d_files := d_files r; d_parent := d_parent r; mounted := mounted r; d_fstype :=
     d_fstype r; d_driver := d_driver r |}.
Definition set_d_files (v : list_t) (r : dir_t) : dir_t :=
  {| d_file := d_file r; d_files := v; d_parent := d_parent r; mounted := mounted r; d_fstype :=
     d_fstype r; d_driver := d_driver r |}.
Definition set_d_parent (v : Z) (r : dir_t) : dir_t :=
  {| d_file := d_file r; d_files := d_files r; d_parent := v; mounted := mounted r; d_fstype :=
     d_fstype r; d_driver := d_driver r |}.
Definition set_mounted (v : Z) (r : dir_t) : dir_t :=
  {| d_file := d_file r; d_files := d_files r; d_parent := d_parent r; mounted := v; d_fstype :=
     d_fstype r; d_driver := d_driver r |}.
Definition set_d_fstype (v : Z) (r : dir_t) : dir_t :=
  {| d_file := d_file r; d_files := d_files r; d_parent := d_parent r; mounted := mounted r;
     d_fstype := v; d_driver := d_driver r |}.
Definition set_d_driver (v : Z) (r : dir_t) : dir_t :=
  {| d_file := d_file r; d_files := d_files r; d_parent := d_parent r; mounted := mounted r;
     d_fstype := d_fstype r; d_driver := v |}.
Definition set_f_parent (v : Z) (r : file_t) : file_t :=
  {| f_mode := f_mode r; f_type := f_type r; f_uid := f_uid r; f_gid := f_gid r; t_last_modified
     := t_last_modified r; t_last_accessed := t_last_accessed r; t_created := t_created r;
     f_length := f_length r; f_inode := f_inode r; driver1 := driver1 r; driver2 := driver2 r;
     f_parent := v; special := special r |}.
Definition set_driver1 (v : Z) (r : file_t) : file_t :=
  {| f_mode := f_mode r; f_type := f_type r; f_uid := f_uid r; f_gid := f_gid r; t_last_modified
     := t_last_modified r; t_last_accessed := t_last_accessed r; t_created := t_created r;
     f_length := f_length r; f_inode := f_inode r; driver1 := v; driver2 := driver2 r; f_parent
     := f_parent r; special := special r |}.
Definition set_driver2 (v : Z) (r : file_t) : file_t :=
  {| f_mode := f_mode r; f_type := f_type r; f_uid := f_uid r; f_gid := f_gid r; t_last_modified
     := t_last_modified r; t_last_accessed := t_last_accessed r; t_created := t_created r;
     f_length := f_length r; f_inode := f_inode r; driver1 := driver1 r; driver2 := v; f_parent
     := f_parent r; special := special r |}.
Definition set_special (v : sp_file_u) (r : file_t) : file_t :=
  {| f_mode := f_mode r; f_type := f_type r; f_uid := f_uid r; f_gid := f_gid r; t_last_modified
     := t_last_modified r; t_last_accessed := t_last_accessed r; t_created := t_created r;
     f_length := f_length r; f_inode := f_inode r; driver1 := driver1 r; driver2 := driver2 r;
     f_parent := f_parent r; special := v |}.
Definition set_f_inode (v : Z) (r : file_t) : file_t :=
  {| f_mode := f_mode r; f_type := f_type r; f_uid := f_uid r; f_gid := f_gid r; t_last_modified
     := t_last_modified r; t_last_accessed := t_last_accessed r; t_created := t_created r;
     f_length := f_length r; f_inode := v; driver1 := driver1 r; driver2 := driver2 r; f_parent
     := f_parent r; special := special r |}.
Definition set_f_length (v : Z) (r : file_t) : file_t :=
  {| f_mode := f_mode r; f_type := f_type r; f_uid := f_uid r; f_gid := f_gid r; t_last_modified
     := t_last_modified r; t_last_accessed := t_last_accessed r; t_created := t_created r;
     f_length := v; f_inode := f_inode r; driver1 := driver1 r; driver2 := driver2 r; f_parent :=
     f_parent r; special := special r |}.
Definition set_de_file (v : Z) (r : direntry_t) : direntry_t :=
  {| de_name := de_name r; de_inode := de_inode r; de_file := v |}.
Definition set_v_fds (v : gmap Z fd_t) (r : vfs_t) : vfs_t :=
  {| v_fds := v; v_files := v_files r; v_dirs := v_dirs r; v_dentries := v_dentries r; v_types :=
     v_types r; VFS_ROOT := VFS_ROOT r; fs_tree_lock := fs_tree_lock r; fs_list := fs_list r;
     fs_list_lock := fs_list_lock r; vfs_initialized := vfs_initialized r |}.
Definition set_v_files (v : gmap Z file_t) (r : vfs_t) : vfs_t :=
  {| v_fds := v_fds r; v_files := v; v_dirs := v_dirs r; v_dentries := v_dentries r; v_types :=
     v_types r; VFS_ROOT := VFS_ROOT r; fs_tree_lock := fs_tree_lock r; fs_list := fs_list r;
     fs_list_lock := fs_list_lock r; vfs_initialized := vfs_initialized r |}.
Definition set_v_dirs (v : gmap Z dir_t) (r : vfs_t) : vfs_t :=
  {| v_fds := v_fds r; v_files := v_files r; v_dirs := v; v_dentries := v_dentries r; v_types :=
     v_types r; VFS_ROOT := VFS_ROOT r; fs_tree_lock := fs_tree_lock r; fs_list := fs_list r;
     fs_list_lock := fs_list_lock r; vfs_initialized := vfs_initialized r |}.
Definition set_v_dentries (v : gmap Z direntry_t) (r : vfs_t) : vfs_t :=
  {| v_fds := v_fds r; v_files := v_files r; v_dirs := v_dirs r; v_dentries := v; v_types :=
     v_types r; VFS_ROOT := VFS_ROOT r; fs_tree_lock := fs_tree_lock r; fs_list := fs_list r;
     fs_list_lock := fs_list_lock r; vfs_initialized := vfs_initialized r |}.
Definition set_v_types (v : gmap Z fs_t) (r : vfs_t) : vfs_t :=
  {| v_fds := v_fds r; v_files := v_files r; v_dirs := v_dirs r; v_dentries := v_dentries r;
     v_types := v; VFS_ROOT := VFS_ROOT r; fs_tree_lock := fs_tree_lock r; fs_list := fs_list r;
     fs_list_lock := fs_list_lock r; vfs_initialized := vfs_initialized r |}.
Definition set_VFS_ROOT (v : Z) (r : vfs_t) : vfs_t :=
  {| v_fds := v_fds r; v_files := v_files r; v_dirs := v_dirs r; v_dentries := v_dentries r;
     v_types := v_types r; VFS_ROOT := v; fs_tree_lock := fs_tree_lock r; fs_list := fs_list r;
     fs_list_lock := fs_list_lock r; vfs_initialized := vfs_initialized r |}.
Definition set_fs_tree_lock (v : mutex_t) (r : vfs_t) : vfs_t :=
  {| v_fds := v_fds r; v_files := v_files r; v_dirs := v_dirs r; v_dentries := v_dentries r;
     v_types := v_types r; VFS_ROOT := VFS_ROOT r; fs_tree_lock := v; fs_list := fs_list r;
     fs_list_lock := fs_list_lock r; vfs_initialized := vfs_initialized r |}.
Definition set_fs_list (v : list_t) (r : vfs_t) : vfs_t :=
  {| v_fds := v_fds r; v_files := v_files r; v_dirs := v_dirs r; v_dentries := v_dentries r;
     v_types := v_types r; VFS_ROOT := VFS_ROOT r; fs_tree_lock := fs_tree_lock r; fs_list := v;
     fs_list_lock := fs_list_lock r; vfs_initialized := vfs_initialized r |}.
Definition set_fs_list_lock (v : mutex_t) (r : vfs_t) : vfs_t :=
  {| v_fds := v_fds r; v_files := v_files r; v_dirs := v_dirs r; v_dentries := v_dentries r;
     v_types := v_types r; VFS_ROOT := VFS_ROOT r; fs_tree_lock := fs_tree_lock r; fs_list :=
     fs_list r; fs_list_lock := v; vfs_initialized := vfs_initialized r |}.
Definition set_vfs_initialized (v : bool) (r : vfs_t) : vfs_t :=
  {| v_fds := v_fds r; v_files := v_files r; v_dirs := v_dirs r; v_dentries := v_dentries r;
     v_types := v_types r; VFS_ROOT := VFS_ROOT r; fs_tree_lock := fs_tree_lock r; fs_list :=
     fs_list r; fs_list_lock := fs_list_lock r; vfs_initialized := v |}.
Definition set_im_headers (v : gmap Z elf64_t) (r : images_t) : images_t :=
  {| im_headers := v; im_phts := im_phts r; im_frames := im_frames r |}.
Definition set_im_phts (v : gmap Z (list elf64_phte_t)) (r : images_t) : images_t :=
  {| im_headers := im_headers r; im_phts := v; im_frames := im_frames r |}.
Definition set_im_frames (v : gmap Z (list Z)) (r : images_t) : images_t :=
  {| im_headers := im_headers r; im_phts := im_phts r; im_frames := v |}.

(** No file and no image. *)
Definition no_files : vfs_t :=
  {| v_fds := ∅; v_files := ∅; v_dirs := ∅; v_dentries := ∅; v_types := ∅; VFS_ROOT := 0;
     fs_tree_lock := MUTEX_INITIALIZER; fs_list := list_init; fs_list_lock := MUTEX_INITIALIZER;
     vfs_initialized := false |}.
Definition no_images : images_t := {| im_headers := ∅; im_phts := ∅; im_frames := ∅ |}.

(** ** The state *)

(** The objects by address, and the static variables of the files named. *)
Record kernel (A F : Type) := {
  k_store : store A;  (* list items, allocator and physical pages *)
  k_tasks : gmap Z task_t;
  k_procs : gmap Z proc_t;
  k_stacks : gmap Z userstack_t;
  k_ufds : gmap Z user_fd_t;
  k_loaders : gmap Z loader_t;
  k_vspaces : gmap Z vspace_t;
  k_contexts : gmap Z context_t;
  k_handlers : gmap Z irq_handler_t;
  k_vfs : vfs_t;  (* vfs.c, ffind.c *)
  k_images : images_t;  (* what the loader has read *)
  k_fs : F;  (* the data of the drivers *)
  sched_tasks : list_t;  (* sched.c *)
  sched_enabled : bool;  (* sched.c *)
  current_task : Z;  (* sched.c *)
  k_cr3 : Z;  (* the address space in use *)
  kernel_sp : Z;  (* the stack pointer in the TSS *)
  tid_counter : Z;  (* task.c *)
  pid_counter : Z;  (* proc.c *)
  tl_list : list_t;  (* tasklist.c: task_list *)
  tl_lock : mutex_t;  (* tasklist.c: task_list_lock *)
  task_count : Z;  (* tasklist.c *)
  irq_handlers : list list_t;  (* interrupt.c; NULL is the empty list *)
  irq_ongoing : bool;  (* interrupt.c *)
  k_out : list (Z * Z);  (* the bytes written to ports, the last one first *)
}.
Arguments k_store {A F} _.
Arguments k_tasks {A F} _.
Arguments k_procs {A F} _.
Arguments k_stacks {A F} _.
Arguments k_ufds {A F} _.
Arguments k_loaders {A F} _.
Arguments k_vspaces {A F} _.
Arguments k_contexts {A F} _.
Arguments k_handlers {A F} _.
Arguments k_vfs {A F} _.
Arguments k_images {A F} _.
Arguments k_fs {A F} _.
Arguments sched_tasks {A F} _.
Arguments sched_enabled {A F} _.
Arguments current_task {A F} _.
Arguments k_cr3 {A F} _.
Arguments kernel_sp {A F} _.
Arguments tid_counter {A F} _.
Arguments pid_counter {A F} _.
Arguments tl_list {A F} _.
Arguments tl_lock {A F} _.
Arguments task_count {A F} _.
Arguments irq_handlers {A F} _.
Arguments irq_ongoing {A F} _.
Arguments k_out {A F} _.

Section setters.
Context {A F : Type}.
Definition set_k_store (v : store A) (r : kernel A F) : kernel A F :=
  {| k_store := v; k_tasks := k_tasks r; k_procs := k_procs r; k_stacks := k_stacks r; k_ufds :=
     k_ufds r; k_loaders := k_loaders r; k_vspaces := k_vspaces r; k_contexts := k_contexts r;
     k_handlers := k_handlers r; k_vfs := k_vfs r; k_images := k_images r; k_fs := k_fs r;
     sched_tasks := sched_tasks r; sched_enabled := sched_enabled r; current_task := current_task
     r; k_cr3 := k_cr3 r; kernel_sp := kernel_sp r; tid_counter := tid_counter r; pid_counter :=
     pid_counter r; tl_list := tl_list r; tl_lock := tl_lock r; task_count := task_count r;
     irq_handlers := irq_handlers r; irq_ongoing := irq_ongoing r; k_out := k_out r |}.
Definition set_k_tasks (v : gmap Z task_t) (r : kernel A F) : kernel A F :=
  {| k_store := k_store r; k_tasks := v; k_procs := k_procs r; k_stacks := k_stacks r; k_ufds :=
     k_ufds r; k_loaders := k_loaders r; k_vspaces := k_vspaces r; k_contexts := k_contexts r;
     k_handlers := k_handlers r; k_vfs := k_vfs r; k_images := k_images r; k_fs := k_fs r;
     sched_tasks := sched_tasks r; sched_enabled := sched_enabled r; current_task := current_task
     r; k_cr3 := k_cr3 r; kernel_sp := kernel_sp r; tid_counter := tid_counter r; pid_counter :=
     pid_counter r; tl_list := tl_list r; tl_lock := tl_lock r; task_count := task_count r;
     irq_handlers := irq_handlers r; irq_ongoing := irq_ongoing r; k_out := k_out r |}.
Definition set_k_procs (v : gmap Z proc_t) (r : kernel A F) : kernel A F :=
  {| k_store := k_store r; k_tasks := k_tasks r; k_procs := v; k_stacks := k_stacks r; k_ufds :=
     k_ufds r; k_loaders := k_loaders r; k_vspaces := k_vspaces r; k_contexts := k_contexts r;
     k_handlers := k_handlers r; k_vfs := k_vfs r; k_images := k_images r; k_fs := k_fs r;
     sched_tasks := sched_tasks r; sched_enabled := sched_enabled r; current_task := current_task
     r; k_cr3 := k_cr3 r; kernel_sp := kernel_sp r; tid_counter := tid_counter r; pid_counter :=
     pid_counter r; tl_list := tl_list r; tl_lock := tl_lock r; task_count := task_count r;
     irq_handlers := irq_handlers r; irq_ongoing := irq_ongoing r; k_out := k_out r |}.
Definition set_k_stacks (v : gmap Z userstack_t) (r : kernel A F) : kernel A F :=
  {| k_store := k_store r; k_tasks := k_tasks r; k_procs := k_procs r; k_stacks := v; k_ufds :=
     k_ufds r; k_loaders := k_loaders r; k_vspaces := k_vspaces r; k_contexts := k_contexts r;
     k_handlers := k_handlers r; k_vfs := k_vfs r; k_images := k_images r; k_fs := k_fs r;
     sched_tasks := sched_tasks r; sched_enabled := sched_enabled r; current_task := current_task
     r; k_cr3 := k_cr3 r; kernel_sp := kernel_sp r; tid_counter := tid_counter r; pid_counter :=
     pid_counter r; tl_list := tl_list r; tl_lock := tl_lock r; task_count := task_count r;
     irq_handlers := irq_handlers r; irq_ongoing := irq_ongoing r; k_out := k_out r |}.
Definition set_k_ufds (v : gmap Z user_fd_t) (r : kernel A F) : kernel A F :=
  {| k_store := k_store r; k_tasks := k_tasks r; k_procs := k_procs r; k_stacks := k_stacks r;
     k_ufds := v; k_loaders := k_loaders r; k_vspaces := k_vspaces r; k_contexts := k_contexts r;
     k_handlers := k_handlers r; k_vfs := k_vfs r; k_images := k_images r; k_fs := k_fs r;
     sched_tasks := sched_tasks r; sched_enabled := sched_enabled r; current_task := current_task
     r; k_cr3 := k_cr3 r; kernel_sp := kernel_sp r; tid_counter := tid_counter r; pid_counter :=
     pid_counter r; tl_list := tl_list r; tl_lock := tl_lock r; task_count := task_count r;
     irq_handlers := irq_handlers r; irq_ongoing := irq_ongoing r; k_out := k_out r |}.
Definition set_k_loaders (v : gmap Z loader_t) (r : kernel A F) : kernel A F :=
  {| k_store := k_store r; k_tasks := k_tasks r; k_procs := k_procs r; k_stacks := k_stacks r;
     k_ufds := k_ufds r; k_loaders := v; k_vspaces := k_vspaces r; k_contexts := k_contexts r;
     k_handlers := k_handlers r; k_vfs := k_vfs r; k_images := k_images r; k_fs := k_fs r;
     sched_tasks := sched_tasks r; sched_enabled := sched_enabled r; current_task := current_task
     r; k_cr3 := k_cr3 r; kernel_sp := kernel_sp r; tid_counter := tid_counter r; pid_counter :=
     pid_counter r; tl_list := tl_list r; tl_lock := tl_lock r; task_count := task_count r;
     irq_handlers := irq_handlers r; irq_ongoing := irq_ongoing r; k_out := k_out r |}.
Definition set_k_vspaces (v : gmap Z vspace_t) (r : kernel A F) : kernel A F :=
  {| k_store := k_store r; k_tasks := k_tasks r; k_procs := k_procs r; k_stacks := k_stacks r;
     k_ufds := k_ufds r; k_loaders := k_loaders r; k_vspaces := v; k_contexts := k_contexts r;
     k_handlers := k_handlers r; k_vfs := k_vfs r; k_images := k_images r; k_fs := k_fs r;
     sched_tasks := sched_tasks r; sched_enabled := sched_enabled r; current_task := current_task
     r; k_cr3 := k_cr3 r; kernel_sp := kernel_sp r; tid_counter := tid_counter r; pid_counter :=
     pid_counter r; tl_list := tl_list r; tl_lock := tl_lock r; task_count := task_count r;
     irq_handlers := irq_handlers r; irq_ongoing := irq_ongoing r; k_out := k_out r |}.
Definition set_k_contexts (v : gmap Z context_t) (r : kernel A F) : kernel A F :=
  {| k_store := k_store r; k_tasks := k_tasks r; k_procs := k_procs r; k_stacks := k_stacks r;
     k_ufds := k_ufds r; k_loaders := k_loaders r; k_vspaces := k_vspaces r; k_contexts := v;
     k_handlers := k_handlers r; k_vfs := k_vfs r; k_images := k_images r; k_fs := k_fs r;
     sched_tasks := sched_tasks r; sched_enabled := sched_enabled r; current_task := current_task
     r; k_cr3 := k_cr3 r; kernel_sp := kernel_sp r; tid_counter := tid_counter r; pid_counter :=
     pid_counter r; tl_list := tl_list r; tl_lock := tl_lock r; task_count := task_count r;
     irq_handlers := irq_handlers r; irq_ongoing := irq_ongoing r; k_out := k_out r |}.
Definition set_k_handlers (v : gmap Z irq_handler_t) (r : kernel A F) : kernel A F :=
  {| k_store := k_store r; k_tasks := k_tasks r; k_procs := k_procs r; k_stacks := k_stacks r;
     k_ufds := k_ufds r; k_loaders := k_loaders r; k_vspaces := k_vspaces r; k_contexts :=
     k_contexts r; k_handlers := v; k_vfs := k_vfs r; k_images := k_images r; k_fs := k_fs r;
     sched_tasks := sched_tasks r; sched_enabled := sched_enabled r; current_task := current_task
     r; k_cr3 := k_cr3 r; kernel_sp := kernel_sp r; tid_counter := tid_counter r; pid_counter :=
     pid_counter r; tl_list := tl_list r; tl_lock := tl_lock r; task_count := task_count r;
     irq_handlers := irq_handlers r; irq_ongoing := irq_ongoing r; k_out := k_out r |}.
Definition set_k_vfs (v : vfs_t) (r : kernel A F) : kernel A F :=
  {| k_store := k_store r; k_tasks := k_tasks r; k_procs := k_procs r; k_stacks := k_stacks r;
     k_ufds := k_ufds r; k_loaders := k_loaders r; k_vspaces := k_vspaces r; k_contexts :=
     k_contexts r; k_handlers := k_handlers r; k_vfs := v; k_images := k_images r; k_fs := k_fs
     r; sched_tasks := sched_tasks r; sched_enabled := sched_enabled r; current_task :=
     current_task r; k_cr3 := k_cr3 r; kernel_sp := kernel_sp r; tid_counter := tid_counter r;
     pid_counter := pid_counter r; tl_list := tl_list r; tl_lock := tl_lock r; task_count :=
     task_count r; irq_handlers := irq_handlers r; irq_ongoing := irq_ongoing r; k_out := k_out r |}.
Definition set_k_images (v : images_t) (r : kernel A F) : kernel A F :=
  {| k_store := k_store r; k_tasks := k_tasks r; k_procs := k_procs r; k_stacks := k_stacks r;
     k_ufds := k_ufds r; k_loaders := k_loaders r; k_vspaces := k_vspaces r; k_contexts :=
     k_contexts r; k_handlers := k_handlers r; k_vfs := k_vfs r; k_images := v; k_fs := k_fs r;
     sched_tasks := sched_tasks r; sched_enabled := sched_enabled r; current_task := current_task
     r; k_cr3 := k_cr3 r; kernel_sp := kernel_sp r; tid_counter := tid_counter r; pid_counter :=
     pid_counter r; tl_list := tl_list r; tl_lock := tl_lock r; task_count := task_count r;
     irq_handlers := irq_handlers r; irq_ongoing := irq_ongoing r; k_out := k_out r |}.
Definition set_k_fs (v : F) (r : kernel A F) : kernel A F :=
  {| k_store := k_store r; k_tasks := k_tasks r; k_procs := k_procs r; k_stacks := k_stacks r;
     k_ufds := k_ufds r; k_loaders := k_loaders r; k_vspaces := k_vspaces r; k_contexts :=
     k_contexts r; k_handlers := k_handlers r; k_vfs := k_vfs r; k_images := k_images r; k_fs :=
     v; sched_tasks := sched_tasks r; sched_enabled := sched_enabled r; current_task :=
     current_task r; k_cr3 := k_cr3 r; kernel_sp := kernel_sp r; tid_counter := tid_counter r;
     pid_counter := pid_counter r; tl_list := tl_list r; tl_lock := tl_lock r; task_count :=
     task_count r; irq_handlers := irq_handlers r; irq_ongoing := irq_ongoing r; k_out := k_out r |}.
Definition set_sched_tasks (v : list_t) (r : kernel A F) : kernel A F :=
  {| k_store := k_store r; k_tasks := k_tasks r; k_procs := k_procs r; k_stacks := k_stacks r;
     k_ufds := k_ufds r; k_loaders := k_loaders r; k_vspaces := k_vspaces r; k_contexts :=
     k_contexts r; k_handlers := k_handlers r; k_vfs := k_vfs r; k_images := k_images r; k_fs :=
     k_fs r; sched_tasks := v; sched_enabled := sched_enabled r; current_task := current_task r;
     k_cr3 := k_cr3 r; kernel_sp := kernel_sp r; tid_counter := tid_counter r; pid_counter :=
     pid_counter r; tl_list := tl_list r; tl_lock := tl_lock r; task_count := task_count r;
     irq_handlers := irq_handlers r; irq_ongoing := irq_ongoing r; k_out := k_out r |}.
Definition set_sched_enabled (v : bool) (r : kernel A F) : kernel A F :=
  {| k_store := k_store r; k_tasks := k_tasks r; k_procs := k_procs r; k_stacks := k_stacks r;
     k_ufds := k_ufds r; k_loaders := k_loaders r; k_vspaces := k_vspaces r; k_contexts :=
     k_contexts r; k_handlers := k_handlers r; k_vfs := k_vfs r; k_images := k_images r; k_fs :=
     k_fs r; sched_tasks := sched_tasks r; sched_enabled := v; current_task := current_task r;
     k_cr3 := k_cr3 r; kernel_sp := kernel_sp r; tid_counter := tid_counter r; pid_counter :=
     pid_counter r; tl_list := tl_list r; tl_lock := tl_lock r; task_count := task_count r;
     irq_handlers := irq_handlers r; irq_ongoing := irq_ongoing r; k_out := k_out r |}.
Definition set_current_task (v : Z) (r : kernel A F) : kernel A F :=
  {| k_store := k_store r; k_tasks := k_tasks r; k_procs := k_procs r; k_stacks := k_stacks r;
     k_ufds := k_ufds r; k_loaders := k_loaders r; k_vspaces := k_vspaces r; k_contexts :=
     k_contexts r; k_handlers := k_handlers r; k_vfs := k_vfs r; k_images := k_images r; k_fs :=
     k_fs r; sched_tasks := sched_tasks r; sched_enabled := sched_enabled r; current_task := v;
     k_cr3 := k_cr3 r; kernel_sp := kernel_sp r; tid_counter := tid_counter r; pid_counter :=
     pid_counter r; tl_list := tl_list r; tl_lock := tl_lock r; task_count := task_count r;
     irq_handlers := irq_handlers r; irq_ongoing := irq_ongoing r; k_out := k_out r |}.
Definition set_k_cr3 (v : Z) (r : kernel A F) : kernel A F :=
  {| k_store := k_store r; k_tasks := k_tasks r; k_procs := k_procs r; k_stacks := k_stacks r;
     k_ufds := k_ufds r; k_loaders := k_loaders r; k_vspaces := k_vspaces r; k_contexts :=
     k_contexts r; k_handlers := k_handlers r; k_vfs := k_vfs r; k_images := k_images r; k_fs :=
     k_fs r; sched_tasks := sched_tasks r; sched_enabled := sched_enabled r; current_task :=
     current_task r; k_cr3 := v; kernel_sp := kernel_sp r; tid_counter := tid_counter r;
     pid_counter := pid_counter r; tl_list := tl_list r; tl_lock := tl_lock r; task_count :=
     task_count r; irq_handlers := irq_handlers r; irq_ongoing := irq_ongoing r; k_out := k_out r |}.
Definition set_kernel_sp (v : Z) (r : kernel A F) : kernel A F :=
  {| k_store := k_store r; k_tasks := k_tasks r; k_procs := k_procs r; k_stacks := k_stacks r;
     k_ufds := k_ufds r; k_loaders := k_loaders r; k_vspaces := k_vspaces r; k_contexts :=
     k_contexts r; k_handlers := k_handlers r; k_vfs := k_vfs r; k_images := k_images r; k_fs :=
     k_fs r; sched_tasks := sched_tasks r; sched_enabled := sched_enabled r; current_task :=
     current_task r; k_cr3 := k_cr3 r; kernel_sp := v; tid_counter := tid_counter r; pid_counter
     := pid_counter r; tl_list := tl_list r; tl_lock := tl_lock r; task_count := task_count r;
     irq_handlers := irq_handlers r; irq_ongoing := irq_ongoing r; k_out := k_out r |}.
Definition set_tid_counter (v : Z) (r : kernel A F) : kernel A F :=
  {| k_store := k_store r; k_tasks := k_tasks r; k_procs := k_procs r; k_stacks := k_stacks r;
     k_ufds := k_ufds r; k_loaders := k_loaders r; k_vspaces := k_vspaces r; k_contexts :=
     k_contexts r; k_handlers := k_handlers r; k_vfs := k_vfs r; k_images := k_images r; k_fs :=
     k_fs r; sched_tasks := sched_tasks r; sched_enabled := sched_enabled r; current_task :=
     current_task r; k_cr3 := k_cr3 r; kernel_sp := kernel_sp r; tid_counter := v; pid_counter :=
     pid_counter r; tl_list := tl_list r; tl_lock := tl_lock r; task_count := task_count r;
     irq_handlers := irq_handlers r; irq_ongoing := irq_ongoing r; k_out := k_out r |}.
Definition set_pid_counter (v : Z) (r : kernel A F) : kernel A F :=
  {| k_store := k_store r; k_tasks := k_tasks r; k_procs := k_procs r; k_stacks := k_stacks r;
     k_ufds := k_ufds r; k_loaders := k_loaders r; k_vspaces := k_vspaces r; k_contexts :=
     k_contexts r; k_handlers := k_handlers r; k_vfs := k_vfs r; k_images := k_images r; k_fs :=
     k_fs r; sched_tasks := sched_tasks r; sched_enabled := sched_enabled r; current_task :=
     current_task r; k_cr3 := k_cr3 r; kernel_sp := kernel_sp r; tid_counter := tid_counter r;
     pid_counter := v; tl_list := tl_list r; tl_lock := tl_lock r; task_count := task_count r;
     irq_handlers := irq_handlers r; irq_ongoing := irq_ongoing r; k_out := k_out r |}.
Definition set_tl_list (v : list_t) (r : kernel A F) : kernel A F :=
  {| k_store := k_store r; k_tasks := k_tasks r; k_procs := k_procs r; k_stacks := k_stacks r;
     k_ufds := k_ufds r; k_loaders := k_loaders r; k_vspaces := k_vspaces r; k_contexts :=
     k_contexts r; k_handlers := k_handlers r; k_vfs := k_vfs r; k_images := k_images r; k_fs :=
     k_fs r; sched_tasks := sched_tasks r; sched_enabled := sched_enabled r; current_task :=
     current_task r; k_cr3 := k_cr3 r; kernel_sp := kernel_sp r; tid_counter := tid_counter r;
     pid_counter := pid_counter r; tl_list := v; tl_lock := tl_lock r; task_count := task_count
     r; irq_handlers := irq_handlers r; irq_ongoing := irq_ongoing r; k_out := k_out r |}.
Definition set_tl_lock (v : mutex_t) (r : kernel A F) : kernel A F :=
  {| k_store := k_store r; k_tasks := k_tasks r; k_procs := k_procs r; k_stacks := k_stacks r;
     k_ufds := k_ufds r; k_loaders := k_loaders r; k_vspaces := k_vspaces r; k_contexts :=
     k_contexts r; k_handlers := k_handlers r; k_vfs := k_vfs r; k_images := k_images r; k_fs :=
     k_fs r; sched_tasks := sched_tasks r; sched_enabled := sched_enabled r; current_task :=
     current_task r; k_cr3 := k_cr3 r; kernel_sp := kernel_sp r; tid_counter := tid_counter r;
     pid_counter := pid_counter r; tl_list := tl_list r; tl_lock := v; task_count := task_count
     r; irq_handlers := irq_handlers r; irq_ongoing := irq_ongoing r; k_out := k_out r |}.
Definition set_task_count (v : Z) (r : kernel A F) : kernel A F :=
  {| k_store := k_store r; k_tasks := k_tasks r; k_procs := k_procs r; k_stacks := k_stacks r;
     k_ufds := k_ufds r; k_loaders := k_loaders r; k_vspaces := k_vspaces r; k_contexts :=
     k_contexts r; k_handlers := k_handlers r; k_vfs := k_vfs r; k_images := k_images r; k_fs :=
     k_fs r; sched_tasks := sched_tasks r; sched_enabled := sched_enabled r; current_task :=
     current_task r; k_cr3 := k_cr3 r; kernel_sp := kernel_sp r; tid_counter := tid_counter r;
     pid_counter := pid_counter r; tl_list := tl_list r; tl_lock := tl_lock r; task_count := v;
     irq_handlers := irq_handlers r; irq_ongoing := irq_ongoing r; k_out := k_out r |}.
Definition set_irq_handlers (v : list list_t) (r : kernel A F) : kernel A F :=
  {| k_store := k_store r; k_tasks := k_tasks r; k_procs := k_procs r; k_stacks := k_stacks r;
     k_ufds := k_ufds r; k_loaders := k_loaders r; k_vspaces := k_vspaces r; k_contexts :=
     k_contexts r; k_handlers := k_handlers r; k_vfs := k_vfs r; k_images := k_images r; k_fs :=
     k_fs r; sched_tasks := sched_tasks r; sched_enabled := sched_enabled r; current_task :=
     current_task r; k_cr3 := k_cr3 r; kernel_sp := kernel_sp r; tid_counter := tid_counter r;
     pid_counter := pid_counter r; tl_list := tl_list r; tl_lock := tl_lock r; task_count :=
     task_count r; irq_handlers := v; irq_ongoing := irq_ongoing r; k_out := k_out r |}.
Definition set_irq_ongoing (v : bool) (r : kernel A F) : kernel A F :=
  {| k_store := k_store r; k_tasks := k_tasks r; k_procs := k_procs r; k_stacks := k_stacks r;
     k_ufds := k_ufds r; k_loaders := k_loaders r; k_vspaces := k_vspaces r; k_contexts :=
     k_contexts r; k_handlers := k_handlers r; k_vfs := k_vfs r; k_images := k_images r; k_fs :=
     k_fs r; sched_tasks := sched_tasks r; sched_enabled := sched_enabled r; current_task :=
     current_task r; k_cr3 := k_cr3 r; kernel_sp := kernel_sp r; tid_counter := tid_counter r;
     pid_counter := pid_counter r; tl_list := tl_list r; tl_lock := tl_lock r; task_count :=
     task_count r; irq_handlers := irq_handlers r; irq_ongoing := v; k_out := k_out r |}.
Definition set_k_out (v : list (Z * Z)) (r : kernel A F) : kernel A F :=
  {| k_store := k_store r; k_tasks := k_tasks r; k_procs := k_procs r; k_stacks := k_stacks r;
     k_ufds := k_ufds r; k_loaders := k_loaders r; k_vspaces := k_vspaces r; k_contexts :=
     k_contexts r; k_handlers := k_handlers r; k_vfs := k_vfs r; k_images := k_images r; k_fs :=
     k_fs r; sched_tasks := sched_tasks r; sched_enabled := sched_enabled r; current_task :=
     current_task r; k_cr3 := k_cr3 r; kernel_sp := kernel_sp r; tid_counter := tid_counter r;
     pid_counter := pid_counter r; tl_list := tl_list r; tl_lock := tl_lock r; task_count :=
     task_count r; irq_handlers := irq_handlers r; irq_ongoing := irq_ongoing r; k_out := v |}.
End setters.

(** ** Access *)

(** The heaps of objects. *)
Class Object (T A F : Type) := {
  objs : kernel A F → gmap Z T;
  set_objs : gmap Z T → kernel A F → kernel A F;
}.
#[export] Instance task_object {A F} : Object task_t A F := {| objs := k_tasks; set_objs := set_k_tasks |}.
#[export] Instance proc_object {A F} : Object proc_t A F := {| objs := k_procs; set_objs := set_k_procs |}.
#[export] Instance stack_object {A F} : Object userstack_t A F := {| objs := k_stacks; set_objs := set_k_stacks |}.
#[export] Instance ufd_object {A F} : Object user_fd_t A F := {| objs := k_ufds; set_objs := set_k_ufds |}.
#[export] Instance loader_object {A F} : Object loader_t A F := {| objs := k_loaders; set_objs := set_k_loaders |}.
#[export] Instance fd_object {A F} : Object fd_t A F :=
  {| objs k := v_fds (k_vfs k); set_objs m k := set_k_vfs (set_v_fds m (k_vfs k)) k |}.
#[export] Instance file_object {A F} : Object file_t A F :=
  {| objs k := v_files (k_vfs k); set_objs m k := set_k_vfs (set_v_files m (k_vfs k)) k |}.
#[export] Instance dir_object {A F} : Object dir_t A F :=
  {| objs k := v_dirs (k_vfs k); set_objs m k := set_k_vfs (set_v_dirs m (k_vfs k)) k |}.
#[export] Instance direntry_object {A F} : Object direntry_t A F :=
  {| objs k := v_dentries (k_vfs k); set_objs m k := set_k_vfs (set_v_dentries m (k_vfs k)) k |}.
#[export] Instance fs_object {A F} : Object fs_t A F :=
  {| objs k := v_types (k_vfs k); set_objs m k := set_k_vfs (set_v_types m (k_vfs k)) k |}.
#[export] Instance header_object {A F} : Object elf64_t A F :=
  {| objs k := im_headers (k_images k); set_objs m k := set_k_images (set_im_headers m (k_images k)) k |}.
#[export] Instance pht_object {A F} : Object (list elf64_phte_t) A F :=
  {| objs k := im_phts (k_images k); set_objs m k := set_k_images (set_im_phts m (k_images k)) k |}.
#[export] Instance vspace_object {A F} : Object vspace_t A F := {| objs := k_vspaces; set_objs := set_k_vspaces |}.
#[export] Instance context_object {A F} : Object context_t A F := {| objs := k_contexts; set_objs := set_k_contexts |}.
#[export] Instance handler_object {A F} : Object irq_handler_t A F := {| objs := k_handlers; set_objs := set_k_handlers |}.

Section access.
Context {A F : Type} `{B : Build} `{KM : Kmalloc A} `{PM : PhysMem A}.

(** [*p], and an assignment to the object at [p]: both fault when there is none. *)
Definition load {T} `{!Object T A F} (p : Z) : K (kernel A F) T := λ k,
  match objs k !! p with Some x => Ok (x, k) | None => Stop Fault end.
Definition put {T} `{!Object T A F} (p : Z) (x : T) : K (kernel A F) unit :=
  modify (λ k, set_objs (<[p := x]> (objs k)) k).
Definition change {T} `{!Object T A F} (p : Z) (f : T → T) : K (kernel A F) unit :=
  x ← load p; put p (f x).
Definition drop_obj T `{!Object T A F} (p : Z) : K (kernel A F) unit :=
  modify (λ k, set_objs (delete p (objs (T := T) k)) k).

(** An operation on the lists' store, and one that only reads it. *)
Definition on_store {X} (op : store A → res (X * store A)) : K (kernel A F) X := λ k,
  match op (k_store k) with Ok (x, s) => Ok (x, set_k_store s k) | Stop w => Stop w end.
Definition of_store {X} (op : store A → res X) : K (kernel A F) X := λ k,
  match op (k_store k) with Ok x => Ok (x, k) | Stop w => Stop w end.

(** An operation on the allocator, and on the physical pages. *)
Definition on_heap {X} (op : A → res (X * A)) : K (kernel A F) X :=
  on_store (λ s, '(x, h) ← op (heap s); mret (x, {| nodes := nodes s; heap := h |})).
Definition on_pages {X} (op : pages_t → res (X * pages_t)) : K (kernel A F) X :=
  on_heap (λ h, '(x, st) ← op (phys h); mret (x, set_phys st h)).

Definition new (size : Z) : K (kernel A F) Z := on_heap (km_alloc size).
(** [kfree]: freeing NULL does nothing. *)
Definition free (p : Z) : K (kernel A F) unit :=
  if p =? 0 then mret tt else on_heap (λ h, h ← km_free p h; mret (tt, h)).

(** [outb] (kernel/arch/x86-common/include/x86/ports.h, lines 39-42): the device is told. *)
Definition outb (port value : Z) : K (kernel A F) unit := modify (λ k, set_k_out ((port, value) :: k_out k) k).
End access.

Lemma K_bind_gets {S X Y} (f : S → X) (g : X → K S Y) s : (gets f ≫= g) s = g (f s) s.
Proof. done. Qed.
Lemma K_bind_modify {S Y} (f : S → S) (g : unit → K S Y) s : (modify f ≫= g) s = g tt (f s).
Proof. done. Qed.
Lemma K_bind_ret {S X Y} (x : X) (g : X → K S Y) s : (mret x ≫= g) s = g x s.
Proof. done. Qed.
Lemma K_bind_put {A F T Y} `{O : !Object T A F} p (x : T) (g : unit → K (kernel A F) Y) k :
  (put p x ≫= g) k = g tt (set_objs (<[p := x]> (objs k)) k).
Proof. done. Qed.

(** The steps that cannot fail: [gets], [modify], [put] and [mret]. *)
Ltac kpure :=
  repeat (first [rewrite K_bind_gets | rewrite K_bind_modify | rewrite K_bind_put | rewrite K_bind_ret]; cbv beta).

(** One step of a sequence of calls: the first call ends with [H]. *)
Ltac kstep H := rewrite (K_bind_Ok _ _ _ _ _ H); cbv beta.

Section calls.
Context {A F : Type} `{B : Build} `{KM : Kmalloc A} `{PM : PhysMem A}.

(** ** Mutexes, pages and lists in the kernel's state *)

(** [mutex_lock] by the current task. *)
Definition k_lock (m : mutex_t) : K (kernel A F) mutex_t :=
  cur ← gets current_task; lift (mutex_lock cur m).

(** [mutex_unlock] by the current task, with the task it sets running. *)
Definition k_unlock (m : mutex_t) : K (kernel A F) mutex_t := λ k,
  (cur ← gets current_task;
   '(m, woken) ← lift (mutex_unlock (λ t, default TASK_RUNNING (t_state <$> k_tasks k !! t)) cur m);
   match woken with Some t => change t (set_t_state TASK_RUNNING) | None => mret tt end;;
   mret m) k.

(** Both on a mutex that is a field of the object at [p]. *)
Definition lock_in {T} `{!Object T A F} (get : T → mutex_t) (set : mutex_t → T → T) (p : Z) : K (kernel A F) unit :=
  x ← load p; l ← k_lock (get x); change p (set l).
Definition unlock_in {T} `{!Object T A F} (get : T → mutex_t) (set : mutex_t → T → T) (p : Z) : K (kernel A F) unit :=
  x ← load p; l ← k_unlock (get x); change p (set l).

(** Both on a mutex that is a static variable. *)
Definition lock_var (get : kernel A F → mutex_t) (set : mutex_t → kernel A F → kernel A F) : K (kernel A F) unit :=
  l ← gets get; l ← k_lock l; modify (set l).
Definition unlock_var (get : kernel A F → mutex_t) (set : mutex_t → kernel A F → kernel A F) : K (kernel A F) unit :=
  l ← gets get; l ← k_unlock l; modify (set l).

(** [alloc_page], [free_page], [vspace_map] and [vspace_unmap] by the current task. *)
Definition k_alloc_page : K (kernel A F) Z := cur ← gets current_task; on_pages (alloc_page cur).
Definition k_free_page (ppn : Z) : K (kernel A F) unit :=
  cur ← gets current_task; on_pages (λ st, st ← free_page cur ppn st; mret (tt, st)).
Definition k_map (vspace virt phys flags : Z) : K (kernel A F) unit :=
  cur ← gets current_task; vs ← load vspace;
  vs ← on_pages (vspace_map cur vs virt phys flags); put vspace vs.
Definition k_unmap (vspace virt : Z) : K (kernel A F) bool :=
  cur ← gets current_task; vs ← load vspace;
  '(b, vs) ← on_pages (vspace_unmap cur vs virt); put vspace vs;; mret b.

(** The loop over the payloads of a list, which ends when the body gives a result. *)
Fixpoint foreach_from {R} (fuel : nat) (it : Z) (body : Z → K (kernel A F) (option R)) : K (kernel A F) (option R) :=
  match fuel with
  | O => kstop NoFuel
  | S fuel =>
      if it =? 0 then mret None
      else
        x ← of_store (list_it_get it);
        r ← body x;
        match r with
        | Some _ => mret r
        | None => it ← of_store (list_it_next it); foreach_from fuel it body
        end
  end.
Definition foreach {R} (l : list_t) (body : Z → K (kernel A F) (option R)) : K (kernel A F) (option R) :=
  fuel ← gets (λ k, walk_fuel (k_store k));
  it ← lift (list_it_front l);
  foreach_from fuel it body.

(** The same loop over the sequence the list stands for. *)
Fixpoint run_payloads {R} (xs : list Z) (body : Z → K (kernel A F) (option R)) : K (kernel A F) (option R) :=
  match xs with
  | [] => mret None
  | x :: xs => r ← body x; match r with Some _ => mret r | None => run_payloads xs body end
  end.

(** Looking at an object that is there, and changing it. *)
Lemma load_Ok {T} `{O : !Object T A F} (p : Z) x (k : kernel A F) :
  objs k !! p = Some x → load p k = Ok (x, k).
Proof. intros Hx. unfold load. by rewrite Hx. Qed.

Lemma change_Ok {T} `{O : !Object T A F} (p : Z) (f : T → T) (k : kernel A F) x :
  objs k !! p = Some x → change p f k = Ok (tt, set_objs (<[p := f x]> (objs k)) k).
Proof. intros Hx. unfold change, mbind, K_bind. by rewrite (load_Ok _ _ _ Hx). Qed.

Lemma k_lock_idle (k : kernel A F) : k_lock MUTEX_INITIALIZER k = Ok (mx_taken (current_task k), k).
Proof. unfold k_lock, gets, lift, mbind, K_bind. by rewrite mutex_lock_idle. Qed.

Lemma k_unlock_taken (k : kernel A F) : k_unlock (mx_taken (current_task k)) k = Ok (MUTEX_INITIALIZER, k).
Proof. unfold k_unlock, gets, lift, mbind, K_bind. by rewrite mutex_unlock_taken. Qed.

Lemma lock_in_idle {T} `{O : !Object T A F} get set p x (k : kernel A F) :
  objs k !! p = Some x → get x = MUTEX_INITIALIZER →
  lock_in get set p k = Ok (tt, set_objs (<[p := set (mx_taken (current_task k)) x]> (objs k)) k).
Proof.
  intros Hx Hl. unfold lock_in, mbind, K_bind. rewrite (load_Ok _ _ _ Hx), Hl, k_lock_idle.
  by rewrite (change_Ok _ _ _ _ Hx).
Qed.

Lemma unlock_in_taken {T} `{O : !Object T A F} get set p x (k : kernel A F) :
  objs k !! p = Some x → get x = mx_taken (current_task k) →
  unlock_in get set p k = Ok (tt, set_objs (<[p := set MUTEX_INITIALIZER x]> (objs k)) k).
Proof.
  intros Hx Hl. unfold unlock_in, mbind, K_bind. rewrite (load_Ok _ _ _ Hx), Hl, k_unlock_taken.
  by rewrite (change_Ok _ _ _ _ Hx).
Qed.

(** The machine with other physical pages. *)
Definition phys_of (k : kernel A F) : pages_t := phys (heap (k_store k)).
Definition with_phys (st : pages_t) (k : kernel A F) : kernel A F :=
  set_k_store {| nodes := nodes (k_store k); heap := set_phys st (heap (k_store k)) |} k.

Lemma phys_of_with st k : phys_of (with_phys st k) = st.
Proof. apply phys_set. Qed.
Lemma with_phys_with st st' k : with_phys st' (with_phys st k) = with_phys st' k.
Proof. unfold with_phys. simpl. by rewrite set_phys_set. Qed.

Lemma k_alloc_page_Ok (k : kernel A F) p st :
  alloc_page (current_task k) (phys_of k) = Ok (p, st) → k_alloc_page k = Ok (p, with_phys st k).
Proof.
  intros Ha. unfold k_alloc_page. kpure. unfold on_pages, on_heap, on_store, phys_of in *. by rewrite Ha.
Qed.

Lemma k_map_Ok (k : kernel A F) p vs v ppn flags st :
  k_vspaces k !! p = Some vs →
  vspace_map (current_task k) vs v ppn flags (phys_of k) = Ok (vs, st) →
  k_map p v ppn flags k = Ok (tt, with_phys st k).
Proof.
  intros Hp Hm. unfold k_map. kpure. kstep (load_Ok (O := vspace_object) _ _ _ Hp).
  assert (on_pages (vspace_map (current_task k) vs v ppn flags) k = Ok (vs, with_phys st k)) as Ho.
  { unfold on_pages, on_heap, on_store, phys_of in *. by rewrite Hm. }
  kstep Ho. unfold put, modify. cbn [objs set_objs vspace_object]. do 2 f_equal.
  change (k_vspaces (with_phys st k)) with (k_vspaces k). rewrite insert_id by done. by destruct k.
Qed.

Lemma k_alloc_page_Stop (k : kernel A F) w :
  alloc_page (current_task k) (phys_of k) = Stop w → k_alloc_page k = Stop w.
Proof.
  intros Ha. unfold k_alloc_page. kpure. unfold on_pages, on_heap, on_store, phys_of in *. by rewrite Ha.
Qed.

Lemma k_map_Stop (k : kernel A F) p vs v ppn flags w :
  k_vspaces k !! p = Some vs →
  vspace_map (current_task k) vs v ppn flags (phys_of k) = Stop w →
  k_map p v ppn flags k = Stop w.
Proof.
  intros Hp Hm. unfold k_map. kpure. kstep (load_Ok (O := vspace_object) _ _ _ Hp).
  apply K_bind_Stop. unfold on_pages, on_heap, on_store, phys_of in *. by rewrite Hm.
Qed.

Lemma k_unmap_Ok (k : kernel A F) p vs v b st :
  k_vspaces k !! p = Some vs →
  vspace_unmap (current_task k) vs v (phys_of k) = Ok (b, vs, st) →
  k_unmap p v k = Ok (b, with_phys st k).
Proof.
  intros Hp Hm. unfold k_unmap. kpure. kstep (load_Ok (O := vspace_object) _ _ _ Hp).
  assert (on_pages (vspace_unmap (current_task k) vs v) k = Ok ((b, vs), with_phys st k)) as Ho.
  { unfold on_pages, on_heap, on_store, phys_of in *. by rewrite Hm. }
  kstep Ho. kpure. cbn [objs set_objs vspace_object]. unfold mret, K_ret. do 2 f_equal.
  change (k_vspaces (with_phys st k)) with (k_vspaces k). rewrite insert_id by done. by destruct k.
Qed.

(** An allocation, seen from the store. *)
Lemma new_Ok n (k : kernel A F) p h :
  km_alloc n (heap (k_store k)) = Ok (p, h) →
  new n k = Ok (p, set_k_store {| nodes := nodes (k_store k); heap := h |} k).
Proof. intros Ha. unfold new, on_heap, on_store. by rewrite Ha. Qed.

Lemma store_wf_alloc `{KL : !KmallocLaws A} (s : store A) n p h :
  store_wf s → km_room n (heap s) → km_alloc n (heap s) = Ok (p, h) →
  store_wf ({| nodes := nodes s; heap := h |} : store A) ∧ p ∉ km_live (heap s) ∧ p ≠ 0.
Proof.
  intros [Hi Hl Hn] Hr Ha. destruct (km_alloc_ok _ _ _ _ Hi Hr Ha) as (Hi' & Hp & Hnl & Hlive).
  split_and!; [|done|done]. split; simpl; [done| |done]. rewrite Hlive. clear -Hl. set_solver.
Qed.

Lemma list_repr_heap lst xs (s : store A) h :
  list_repr lst xs s → list_repr lst xs ({| nodes := nodes s; heap := h |} : store A).
Proof. intros [? ? ? ? ? ? Hc]. by split. Qed.

(** The body of a search leaves the state alone until it finds something. *)
Lemma run_payloads_none {R} xs (body : Z → K (kernel A F) (option R)) k :
  (∀ x, x ∈ xs → body x k = Ok (None, k)) → run_payloads xs body k = Ok (None, k).
Proof.
  induction xs as [|x xs IH]; intros Hb; [done|]. cbn [run_payloads].
  kstep (Hb x ltac:(left)). apply IH. intros y Hy. apply Hb. by right.
Qed.

Lemma run_payloads_app {R} l1 l2 (body : Z → K (kernel A F) (option R)) k :
  (∀ x, x ∈ l1 → body x k = Ok (None, k)) → run_payloads (l1 ++ l2) body k = run_payloads l2 body k.
Proof.
  induction l1 as [|x l1 IH]; intros Hb; [done|]. cbn [run_payloads app].
  kstep (Hb x ltac:(left)). apply IH. intros y Hy. apply Hb. by right.
Qed.

(** The loop follows the sequence as long as its body does not touch the list. *)
Lemma foreach_from_payloads {R} `{KL : !KmallocLaws A} fuel xs p (body : Z → K (kernel A F) (option R)) (k : kernel A F) :
  store_wf (k_store k) → dseg (node_at (nodes (k_store k))) p xs 0 → (length xs < fuel)%nat →
  (∀ x k' k'', x ∈ xs.*2 → body x k' = Ok (None, k'') → k_store k' = k_store k → k_store k'' = k_store k) →
  foreach_from fuel (head_addr xs 0) body k = run_payloads xs.*2 body k.
Proof.
  revert fuel p k. induction xs as [|[a x] xs IH]; intros fuel p k Hs Hc Hf Hb;
    (destruct fuel as [|fuel]; [simpl in Hf; lia|]); [done|].
  cbn [foreach_from run_payloads head_addr fmap list_fmap snd].
  rewrite (proj2 (Z.eqb_neq a 0)) by (eapply chain_nonnull; [done..|]; by left).
  destruct Hc as [Ha Hc]. unfold of_store, list_it_get, list_it_next.
  unfold mbind at 1, K_bind at 1. rewrite (rd_node _ _ _ _ _ Ha). cbn [fmap res_fmap it_payload].
  unfold mbind at 1 3, K_bind at 1 3. destruct (body x k) as [[[r|] k']|w] eqn:Hx; [done| |done].
  assert (k_store k' = k_store k) as Hk' by (apply (Hb x k); [by left|done|done]).
  unfold mbind, K_bind. rewrite Hk', (rd_node _ _ _ _ _ Ha). cbn [fmap res_fmap it_next].
  apply (IH fuel a); [by rewrite Hk'|by rewrite Hk'|simpl in Hf; lia|].
  intros y k1 k2 Hy. rewrite Hk'. apply Hb. by right.
Qed.

Lemma foreach_payloads {R} `{KL : !KmallocLaws A} l xs (body : Z → K (kernel A F) (option R)) (k : kernel A F) :
  store_wf (k_store k) → list_repr l xs (k_store k) →
  (∀ x k' k'', x ∈ xs.*2 → body x k' = Ok (None, k'') → k_store k' = k_store k → k_store k'' = k_store k) →
  foreach l body k = run_payloads xs.*2 body k.
Proof.
  intros Hs Hl Hb. unfold foreach. unfold mbind, K_bind, gets, lift, list_it_front. rewrite (sanity _ _ _ Hl).
  cbn [mbind res_bind]. unfold mret, res_ret. rewrite (lr_first _ _ _ Hl).
  apply (foreach_from_payloads _ xs 0); [done|apply Hl| |done].
  unfold walk_fuel. pose proof (chain_length _ _ _ _ (lr_nodup _ _ _ Hl) (lr_chain _ _ _ Hl)). lia.
Qed.

(** ** Allocation *)

(** The reasons for which the allocator stops. *)
Definition no_memory (w : stop) : Prop := ∃ n h, km_alloc n h = Stop w.

(** A call that ends with [Q], or in the allocator. *)
Definition does (m : K (kernel A F) unit) (k : kernel A F) (Q : kernel A F → Prop) : Prop :=
  (∃ k', m k = Ok (tt, k') ∧ Q k') ∨ (∃ w, m k = Stop w ∧ no_memory w).

Lemma does_bind m (g : K (kernel A F) unit) k Q R :
  does m k Q → (∀ k', Q k' → does g k' R) → does (m;; g) k R.
Proof.
  intros [(k1 & Hm & Hq)|(w & Hm & Hw)] Hg; unfold does.
  - rewrite (K_bind_Ok _ _ _ _ _ Hm). by apply Hg.
  - right. exists w. split; [by apply K_bind_Stop|done].
Qed.

Lemma does_ret k (Q : kernel A F → Prop) : Q k → does (mret tt) k Q.
Proof. intros HQ. left. by exists k. Qed.

Lemma does_impl m k (Q R : kernel A F → Prop) : does m k Q → (∀ k', Q k' → R k') → does m k R.
Proof. intros [(k' & Hm & HQ)|H] HR; [left; exists k'; auto|by right]. Qed.

(** An allocation that does not stop gives the address of a new object. *)
Lemma new_fresh `{KL : !KmallocLaws A} n (k : kernel A F) :
  store_wf (k_store k) → km_room n (heap (k_store k)) →
  (∃ p h, new n k = Ok (p, set_k_store {| nodes := nodes (k_store k); heap := h |} k) ∧
     store_wf ({| nodes := nodes (k_store k); heap := h |} : store A) ∧ p ≠ 0 ∧ p ∉ km_live (heap (k_store k)) ∧
     km_live h = {[p]} ∪ km_live (heap (k_store k))) ∨
  (∃ w, new n k = Stop w ∧ no_memory w).
Proof.
  intros Hs Hr. destruct (km_alloc n (heap (k_store k))) as [[p h]|w] eqn:Ha.
  - left. exists p, h. split; [by apply new_Ok|]. destruct (store_wf_alloc _ _ _ _ Hs Hr Ha) as (Hs' & Hf & Hnz).
    split_and!; try done. by eapply km_alloc_ok; [apply (sw_inv _ Hs)|..].
  - right. exists w. split; [unfold new, on_heap, on_store; by rewrite Ha|by exists n, (heap (k_store k))].
Qed.

(** A new item of a list that is a variable. *)
Lemma listed_add `{KL : !KmallocLaws A} l xs x (k : kernel A F) :
  store_wf (k_store k) → list_repr l xs (k_store k) → Z.of_nat (length xs) + 1 < 2 ^ 64 → km_room 24 (heap (k_store k)) →
  (∃ i a l' s', on_store (list_add l x) k = Ok ((i, l'), set_k_store s' k) ∧ store_wf s' ∧ list_repr l' (xs ++ [(a, x)]) s' ∧
     km_live (heap s') = {[a]} ∪ km_live (heap (k_store k))) ∨
  (∃ w, on_store (list_add l x) k = Stop w ∧ no_memory w).
Proof.
  intros Hs Hl Hlen Hr. destruct (list_add_spec l xs (k_store k) x Hs Hl Hlen Hr)
    as [(a & l' & s' & Ha & _ & Hlive & Hs' & Hl' & _)|(w & Hw & Ha)].
  - left. exists (Z.of_nat (length xs)), a, l', s'. split; [unfold on_store; by rewrite Ha|done].
  - right. exists w. split; [unfold on_store; by rewrite Ha|by exists 24, (heap (k_store k))].
Qed.
End calls.


(** A small machine for concrete runs: the simplest allocator beside the physical pages. *)
Module Machine.
#[local] Existing Instances Bump.kmalloc Bump.laws.
Record t := { alloc : Bump.t; pages : pages_t }.

#[export] Instance kmalloc : Kmalloc t := {|
  km_alloc n a := '(p, b) ← km_alloc n (alloc a); mret (p, {| alloc := b; pages := pages a |});
  km_free p a := b ← km_free p (alloc a); mret {| alloc := b; pages := pages a |};
  km_live a := km_live (alloc a) |}.

#[export] Instance laws : KmallocLaws t.
Proof.
  refine {| km_inv a := km_inv (alloc a); km_room n a := True |}.
  - intros n [b st] p a' Hi _ Ha. simpl in *. injection Ha as <- <-.
    exact (km_alloc_ok n b (Bump.top b) _ Hi I eq_refl).
  - intros p [b st] Hi Hp. simpl in *. destruct (@km_free_ok _ _ Bump.laws p b Hi Hp) as (b' & Hf & Hi' & Hl).
    exists {| alloc := b'; pages := st |}. split; [|done]. unfold mbind, res_bind. simpl in Hf. by rewrite Hf.
Defined.

#[export] Instance physmem : PhysMem t.
Proof. refine {| phys := pages; set_phys st a := {| alloc := alloc a; pages := st |} |}; [done|done|by intros []]. Defined.

#[export] Instance frame : KmallocFrame t.
Proof.
  refine {| km_own a p := False |}; [done|done|..].
  - intros n [b st] p a' _ _ Ha. simpl in *. injection Ha as _ <-. done.
  - intros p [b st] a' _ _ Hf. simpl in Hf. case_match; [|done]. by injection Hf as <-.
Defined.

(** One task, 7, of the process 5, with the address space 1 and the loader 6; no file, no
    list has an item yet, and the break is at 2 MiB. *)
Definition user_task : task_t :=
  {| tid := 1; t_state := TASK_RUNNING; t_context := 1000; t_vspace := 1; kstack_ptr := 9000; kstack_base := 1000;
     irq_wait := false; user_stack := 0; t_process := 5 |}.
Definition user_proc : proc_t :=
  {| pid := 1; uid := 0; gid := 0; p_state := PROC_RUNNING; p_task_list := list_init;
     task_list_lock := MUTEX_INITIALIZER; stack_list := list_init; stack_list_lock := MUTEX_INITIALIZER;
     fd_counter := 0; fd_list := list_init; fd_list_lock := MUTEX_INITIALIZER; p_vspace := 1; heap_brk := 0x200000;
     heap_lock := MUTEX_INITIALIZER; working_dir := 0; p_loader := 6 |}.
Definition user_loader : loader_t :=
  {| ld_file := 0; entry_addr := 0x100000; ld_header := 0; ld_pht := 0; ld_lock := MUTEX_INITIALIZER; ld_refs := 1;
     min_heap_break := 0x101000 |}.
Definition start_with {F} (f : F) : kernel t F :=
  {| k_store := {| nodes := ∅; heap := {| alloc := Bump.init; pages := demo_pages |} |};
     k_tasks := {[ 7 := user_task ]}; k_procs := {[ 5 := user_proc ]}; k_stacks := ∅; k_ufds := ∅;
     k_loaders := {[ 6 := user_loader ]}; k_vspaces := {[ 1 := demo_vs ]}; k_contexts := ∅; k_handlers := ∅;
     k_vfs := no_files; k_images := no_images;
     k_fs := f; sched_tasks := list_init; sched_enabled := true; current_task := 7; k_cr3 := 0; kernel_sp := 9000;
     tid_counter := 2; pid_counter := 2; tl_list := list_init; tl_lock := MUTEX_INITIALIZER; task_count := 1;
     irq_handlers := []; irq_ongoing := false; k_out := [] |}.
Definition start : kernel t unit := start_with tt.

Lemma start_store : store_wf (k_store start).
Proof. split; [exact Bump.init_inv|done|done]. Qed.
End Machine.
