(* ===== verification/Sched.v ===== *)
(** Tasks and the scheduler: arch/x86_64/x86_64/context.c, sched/task.c, sched/sched.c and the
    part of sched/tasklist.c that creates tasks. *)
From S2P Require Import Prelude Words Mutex PageAlloc Dll Lists Vspace Kernel.
Open Scope Z_scope.

(** ** Contexts *)

(** [CTX_USERMODE] (kernel/kernel/include/arch/context.h, line 18). *)
Definition CTX_USERMODE : Z := BIT 0.
(** [CTX_USER32] (kernel/kernel/include/arch/context.h, line 21). *)
Definition CTX_USER32 : Z := BIT 1.
(** [CTX_KERNEL] (kernel/kernel/include/arch/context.h, line 17). *)
Definition CTX_KERNEL : Z := 0.
(** The size of a [context_t]: 24 registers. *)
Definition sizeof_context : Z := 192.

(** The segment selectors (kernel/arch/x86_64/x86_64/context.c, lines 6-11): code and data of
    the kernel, of a 64-bit and of a 32-bit user task. *)
Definition selectors (flags : Z) : Z * Z :=
  if negb (Z.land flags CTX_USERMODE =? 0) then
    if negb (Z.land flags CTX_USER32 =? 0) then (0x2b, 0x33) else (0x1b, 0x23)
  else (0x08, 0x10).

(** The registers that [context_init] writes (kernel/arch/x86_64/x86_64/context.c, lines 17-49),
    over what the stack held. *)
Definition context_fill (old : context_t) (entry_addr stack_ptr flags arg0 arg1 : Z) : context_t :=
  let '(code, data) := selectors flags in
  {| r15 := r15 old; r14 := r14 old; r13 := r13 old; r12 := r12 old; r11 := r11 old;
     r10 := r10 old; r9 := r9 old; r8 := r8 old; rdi := arg0; rsi := arg1; rdx := rdx old;
     rcx := rcx old; rbx := rbx old; rax := rax old; rbp := rbp old; gs := data; fs := data;
     irq := irq old; error := error old; rip := entry_addr; cs := code; rflags := BIT 9;
     rsp := stack_ptr; ss := data |}.

(** [context_set_pc] (kernel/arch/x86_64/x86_64/context.c, lines 52-55). *)
Definition context_set_pc (ctx : context_t) (pc : Z) : context_t := set_rip pc ctx.
(** [context_set_ret] (kernel/arch/x86_64/x86_64/context.c, lines 57-60). *)
Definition context_set_ret (ctx : context_t) (ret : Z) : context_t := set_rax ret ctx.

(** [KSTACK_SIZE] (kernel/kernel/include/sched/task.h, line 8). *)
Definition KSTACK_SIZE : Z := 8192.

Section operations.
Context {A F : Type} `{B : Build} `{KM : Kmalloc A} `{PM : PhysMem A}.
Abbreviation kernel := (Kernel.kernel A F).

(** What is chosen outside the C code: the addresses of the functions and of [_vspace_kernel],
    and what recycled memory holds, as registers and as a word. *)
Context (ktask_runtime idle_task_func cleanup_task_func VSPACE_KERNEL : Z)
  (junk_context : Z → context_t) (junk : Z → Z).

(** ** Task creation *)

(** [context_init] (kernel/arch/x86_64/x86_64/context.c, lines 13-50). *)
Definition context_init (kstack_ptr entry_addr stack_ptr flags arg0 arg1 : Z) : K kernel Z :=
  let ctx := kstack_ptr - sizeof_context in
  put ctx (context_fill (junk_context ctx) entry_addr stack_ptr flags arg0 arg1);;
  mret ctx.

(** [stack_align] (kernel/kernel/sched/task.c, lines 21-24). *)
Definition stack_align (stack_ptr : Z) : Z := u64 (Z.ldiff stack_ptr 7).

(** [tl_insert] (kernel/kernel/sched/tasklist.c, lines 94-100). *)
Definition tl_insert (task : Z) : K kernel unit :=
  l ← gets tl_lock; l ← k_lock l; modify (set_tl_lock l);;
  ts ← gets tl_list;
  '(_, ts) ← on_store (list_add ts task);
  modify (set_tl_list ts);;
  l ← gets tl_lock; l ← k_unlock l; modify (set_tl_lock l);;
  modify (λ k, set_task_count (atomic_add (task_count k) 1).2 k).

(** The common part of the two functions that create a task (kernel/kernel/sched/task.c, lines
    28-44): [entry] runs on the stack [sp k], which may be the kernel stack [k] itself. *)
Definition create_task (entry : Z) (sp : Z → Z) (flags arg0 arg1 vspace : Z) (user_stack : Z → Z)
    : K kernel Z :=
  task ← new 72;
  kstack_base ← new KSTACK_SIZE;
  let kstack_ptr := stack_align (kstack_base + KSTACK_SIZE) in
  context ← context_init kstack_ptr entry (sp kstack_ptr) flags arg0 arg1;
  tid ← gets (λ k, (atomic_add (tid_counter k) 1).1);
  modify (λ k, set_tid_counter (atomic_add (tid_counter k) 1).2 k);;
  put task {| tid := tid; t_state := TASK_RUNNING; t_context := context; t_vspace := vspace;
              kstack_ptr := kstack_ptr; kstack_base := kstack_base; irq_wait := false;
              user_stack := user_stack task; t_process := 0 |};;
  tl_insert task;;
  mret task.

(** [create_kernel_task] (kernel/kernel/sched/task.c, lines 26-47). *)
Definition create_kernel_task (func : Z) : K kernel Z :=
  create_task ktask_runtime (λ kstack_ptr, kstack_ptr) CTX_KERNEL func 0 VSPACE_KERNEL
    (λ task, junk (task + 56)).

(** [create_user_task] (kernel/kernel/sched/task.c, lines 49-70). *)
Definition create_user_task (vspace entry : Z) (stack : userstack_t) : K kernel Z :=
  create_task entry (λ _, stack_ptr stack) CTX_USERMODE 0 0 vspace (λ _, us_index stack).

(** ** The scheduler *)

(** The removal of the current task from the scheduler's list (kernel/kernel/sched/sched.c,
    line 122). *)
Definition sched_remove_current : K kernel unit :=
  cur ← gets current_task;
  l ← gets sched_tasks;
  it ← of_store (list_find l cur);
  l ← on_store (list_it_remove l it);
  modify (set_sched_tasks l).

(** [task->process && task->process->state == PROC_KILLED]. *)
Definition process_killed (t : task_t) : K kernel bool :=
  if t_process t =? 0 then mret false
  else p ← load (T := proc_t) (t_process t); mret (bool_decide (p_state p = PROC_KILLED)).

(** [task_schedulable] (kernel/kernel/sched/sched.c, lines 106-129). *)
Definition task_schedulable (task : Z) : K kernel bool :=
  t ← load (T := task_t) task;
  killed ← process_killed t;
  when killed (change task (set_t_state TASK_KILLED));;
  t ← load (T := task_t) task;
  when (bool_decide (t_state t = TASK_KILLED)) sched_remove_current;;
  t ← load (T := task_t) task;
  if irq_wait t then mret false else mret (bool_decide (t_state t = TASK_RUNNING)).

(** [get_next_task] (kernel/kernel/sched/sched.c, lines 44-59), with a bound on the number of
    turns of its loop. *)
Fixpoint get_next_task (fuel : nat) : K kernel Z :=
  match fuel with
  | O => kstop NoFuel
  | S fuel =>
      l ← gets sched_tasks;
      next ← of_store (list_get l 0);
      lift (kpanic (negb (next =? 0)));;
      l ← on_store (list_rotate l);
      modify (set_sched_tasks l);;
      ok ← task_schedulable next;
      if (ok : bool) then mret next else get_next_task fuel
  end.

(** Each task gets one turn. *)
Definition sched_fuel (k : kernel) : nat := S (Z.to_nat (items (sched_tasks k))).

(** The part of [schedule] that leaves the current task (kernel/kernel/sched/sched.c, lines
    73-83). *)
Definition leave_current (ctx : Z) : K kernel unit :=
  cur ← gets current_task;
  when (negb (cur =? 0))
    (change cur (set_t_context ctx);;
     t ← load (T := task_t) cur;
     when (bool_decide (t_state t = TASK_KILLED)) sched_remove_current).

(** The part of [schedule] that enters the next task (kernel/kernel/sched/sched.c, lines
    85-101): the context that the interrupt returns to. *)
Definition enter_task (next_task : Z) : K kernel Z :=
  next ← load (T := task_t) next_task;
  cur ← gets current_task;
  switch ← (if cur =? 0 then mret true
            else t ← load (T := task_t) cur; mret (negb (t_vspace t =? t_vspace next)));
  when switch (vs ← load (T := vspace_t) (t_vspace next); modify (set_k_cr3 (vspace_apply vs)));;
  modify (set_kernel_sp (kstack_ptr next));;
  modify (set_current_task next_task);;
  mret (t_context next).

(** [schedule] (kernel/kernel/sched/sched.c, lines 61-104). *)
Definition schedule (ctx : Z) : K kernel Z :=
  enabled ← gets sched_enabled;
  if negb enabled then mret ctx
  else
    fuel ← gets sched_fuel;
    next_task ← get_next_task fuel;
    cur ← gets current_task;
    if cur =? next_task then mret ctx
    else leave_current ctx;; enter_task next_task.

(** [yield] (kernel/arch/x86-common/x86/irq.c, lines 145-152): the software interrupt saves the
    registers at [ctx] and the handler runs [schedule]; the result is the context that runs
    next. *)
Definition yield (ctx : Z) : K kernel Z := schedule ctx.

(** [task_kill] (kernel/kernel/sched/task.c, lines 72-77). *)
Definition task_kill (ctx : Z) : K kernel Z :=
  cur ← gets current_task;
  change cur (set_t_state TASK_KILLED);;
  yield ctx.

(** [ktask_runtime] (kernel/kernel/sched/task.c, lines 13-20): where a kernel task that runs the function [func] starts. *)
Definition run_ktask (func : K kernel unit) (ctx : Z) : K kernel Z := func;; task_kill ctx.

(** [irq_signal] (kernel/kernel/sched/task.c, lines 79-82). *)
Definition irq_signal (task : Z) : K kernel unit := change task (set_irq_wait false).

(** One turn of the loop of [irq_wait_until] (kernel/kernel/sched/task.c, lines 84-101), with
    the word that it waits for: [None] when it returns, otherwise the context that runs while
    it waits. *)
Definition irq_wait_until (cond value ctx : Z) : K kernel (option Z) :=
  ongoing ← gets irq_ongoing;
  lift (assert_ (negb ongoing));;
  if cond =? value then mret None
  else
    cur ← gets current_task;
    change cur (set_irq_wait true);;
    c ← yield ctx;
    mret (Some c).

(** [sched_insert] (kernel/kernel/sched/sched.c, lines 137-144), less the check of the heap,
    which changes nothing. *)
Definition sched_insert (task : Z) : K kernel unit :=
  l ← gets sched_tasks;
  '(_, l) ← on_store (list_add l task);
  modify (set_sched_tasks l).

(** [sched_enable] (kernel/kernel/sched/sched.c, lines 131-135). *)
Definition sched_enable (ctx : Z) : K kernel Z :=
  modify (set_sched_enabled true);; yield ctx.

(** [tl_setup] (kernel/kernel/sched/tasklist.c, lines 102-109). *)
Definition tl_setup : K kernel unit :=
  modify (set_tl_list list_init);;
  l ← gets tl_lock; l ← lift (mutex_init l); modify (set_tl_lock l);;
  task ← create_kernel_task cleanup_task_func;
  sched_insert task.

(** [sched_init] (kernel/kernel/sched/sched.c, lines 22-42). *)
Definition sched_init : K kernel unit :=
  modify (set_sched_tasks list_init);;
  modify (set_sched_enabled false);;
  tl_setup;;
  idle_task ← create_kernel_task idle_task_func;
  sched_insert idle_task.
End operations.

(** ** The scheduler's queue *)

Section scheduling.
Context {A F : Type} `{B : Build} `{KM : Kmalloc A} {KL : KmallocLaws A}.
Abbreviation kernel := (Kernel.kernel A F).
Implicit Types (k : kernel) (xs : list (Z * Z)).

(** The task at [t], and whether it was killed, itself or with its process. *)
Definition killed k (tk : task_t) : Prop :=
  t_state tk = TASK_KILLED ∨
  (t_process tk ≠ 0 ∧ ∃ p, k_procs k !! t_process tk = Some p ∧ p_state p = PROC_KILLED).
Definition ready (tk : task_t) : bool := negb (irq_wait tk) && bool_decide (t_state tk = TASK_RUNNING).

(** The queue stands for [xs]; its tasks exist, and so do their processes. *)
Record sched_ok k xs : Prop := {
  so_store : store_wf (k_store k);
  so_repr : list_repr (sched_tasks k) xs (k_store k);
  so_task t : t ∈ xs.*2 → t ≠ 0 ∧ ∃ tk, k_tasks k !! t = Some tk ∧
    (t_process tk = 0 ∨ is_Some (k_procs k !! t_process tk));
}.

(** A task in the queue that is alive, and whether it can run. *)
Definition alive k (t : Z) : Prop := ∃ tk, k_tasks k !! t = Some tk ∧ ¬ killed k tk.
Definition runnable k (t : Z) : Prop := ∃ tk, k_tasks k !! t = Some tk ∧ ready tk = true.

(** Everything but the queue is as it was. *)
Definition queue_only k k' : Prop :=
  k' = set_sched_tasks (sched_tasks k') (set_k_store (k_store k') k).

Lemma bool_decide_not (P : Prop) `{Decision P} : ¬ P → bool_decide P = false.
Proof. apply bool_decide_eq_false_2. Qed.

(** Looking at a task that is alive changes nothing. *)
Lemma task_schedulable_alive k xs t :
  sched_ok k xs → t ∈ xs.*2 → alive k t →
  ∃ tk, k_tasks k !! t = Some tk ∧ task_schedulable t k = Ok (ready tk, k).
Proof.
  intros Hk Ht (tk & Htk & Hal). exists tk. split; [done|].
  destruct (so_task _ _ Hk t Ht) as (_ & tk' & Htk' & Hp). rewrite Htk in Htk'. injection Htk' as <-.
  assert (process_killed tk k = Ok (false, k)) as Hq.
  { unfold process_killed. destruct (Z.eqb_spec (t_process tk) 0) as [|Hne]; [done|].
    destruct Hp as [?|[p Hp]]; [done|]. unfold load. simpl. unfold mbind, K_bind. rewrite Hp. simpl.
    unfold mret, K_ret. rewrite bool_decide_not; [done|]. intros Hkd. apply Hal. right. eauto. }
  unfold task_schedulable, load. simpl. unfold mbind, K_bind. rewrite Htk, Hq. simpl. rewrite Htk.
  rewrite bool_decide_not by (intros Hkd; apply Hal; by left).
  simpl. rewrite Htk. unfold ready. by destruct (irq_wait tk).
Qed.

Lemma sched_ok_step k xs xs' l s :
  sched_ok k xs → op_post xs xs' l (k_store k) s → (∀ t, t ∈ xs'.*2 → t ∈ xs.*2) →
  sched_ok (set_sched_tasks l (set_k_store s k)) xs'.
Proof.
  intros [Hs Hr Ht] Hpost Hsub. split; [apply Hpost|apply Hpost|]. intros t Hin. simpl. by apply Ht, Hsub.
Qed.

Lemma queue_only_refl k : queue_only k k.
Proof. by destruct k. Qed.
Lemma queue_only_set l s k : queue_only k (set_sched_tasks l (set_k_store s k)).
Proof. done. Qed.
Lemma queue_only_trans k1 k2 k3 : queue_only k1 k2 → queue_only k2 k3 → queue_only k1 k3.
Proof. unfold queue_only. intros H1 H2. rewrite H2, H1. done. Qed.

Lemma queue_only_alive k k' t : queue_only k k' → alive k' t ↔ alive k t.
Proof. intros ->. done. Qed.
Lemma queue_only_runnable k k' t : queue_only k k' → runnable k' t ↔ runnable k t.
Proof. intros ->. done. Qed.

(** The front of the queue goes to the back. *)
Lemma next_turn fuel k a t xs :
  sched_ok k ((a, t) :: xs) → alive k t →
  ∃ tk k', k_tasks k !! t = Some tk ∧ sched_ok k' (xs ++ [(a, t)]) ∧ queue_only k k' ∧
    get_next_task (S fuel) k = if ready tk then Ok (t, k') else get_next_task fuel k'.
Proof.
  intros Hk Hal. destruct (op_rotate _ _ _ _ (so_store _ _ Hk) (so_repr _ _ Hk)) as (l & s & Hrot & Hpost).
  set (k' := set_sched_tasks l (set_k_store s k)).
  assert (sched_ok k' (xs ++ [(a, t)])) as Hk'.
  { apply (sched_ok_step _ ((a, t) :: xs)); [done|done|]. intros u. rewrite fmap_app. clear. set_solver. }
  destruct (task_schedulable_alive k' _ t Hk') as (tk & Htk & Hsch); [|by apply (queue_only_alive k)|].
  { rewrite fmap_app. clear. set_solver. }
  exists tk, k'. split_and!; [done|done|done|].
  pose proof (op_get _ _ _ 0 (so_store _ _ Hk) (so_repr _ _ Hk) ltac:(done)) as Hget.
  destruct (so_task _ _ Hk t) as [Hne _]; [by left|].
  cbn [get_next_task]. unfold gets, modify, lift, on_store, of_store, mbind, K_bind. simpl.
  change (Z.of_nat 0) with 0 in Hget. rewrite Hget. simpl. rewrite (proj2 (Z.eqb_neq t 0)) by done. simpl. rewrite Hrot.
  change (set_sched_tasks l (set_k_store s k)) with k'. rewrite Hsch. by destruct (ready tk).
Qed.

(** The first task that can run is taken, and it is the last in the queue then. *)
Lemma get_next_task_spec fuel k l1 a t l2 :
  sched_ok k (l1 ++ (a, t) :: l2) → (length l1 < fuel)%nat →
  (∀ u, u ∈ l1.*2 → alive k u ∧ ¬ runnable k u) → alive k t → runnable k t →
  ∃ k', get_next_task fuel k = Ok (t, k') ∧ sched_ok k' (l2 ++ l1 ++ [(a, t)]) ∧ queue_only k k'.
Proof.
  revert fuel k l2. induction l1 as [|[b u] l1 IH]; intros fuel k l2 Hk Hf Hl1 Hal Hrun;
    (destruct fuel as [|fuel]; [simpl in Hf; lia|]).
  - destruct (next_turn fuel k a t l2 Hk Hal) as (tk & k' & Htk & Hk' & Hq & Hn).
    destruct Hrun as (tk' & Htk' & Hr). rewrite Htk in Htk'. injection Htk' as <-.
    exists k'. by rewrite Hn, Hr.
  - destruct (Hl1 u) as [Hau Hru]; [by left|].
    destruct (next_turn fuel k b u _ Hk Hau) as (tk & k1 & Htk & Hk1 & Hq1 & Hn). rewrite <- app_assoc in Hk1.
    destruct (IH fuel k1 (l2 ++ [(b, u)])) as (k2 & Hg & Hk2 & Hq2); [done|simpl in Hf; lia| | | |].
    + intros v Hv. rewrite (queue_only_alive k), (queue_only_runnable k) by done. apply Hl1. by right.
    + by apply (queue_only_alive k).
    + by apply (queue_only_runnable k).
    + exists k2. rewrite <- app_assoc in Hk2. split_and!; [|done|by eapply queue_only_trans].
      rewrite Hn. destruct (ready tk) eqn:Hr; [|done]. destruct Hru. by exists tk.
Qed.

(** The processor runs the current task: in its address space, and an interrupt will find its
    kernel stack.  [cpu_ok] also says that the task's own context can be saved. *)
Record cpu_ok k : Prop := {
  cpu_enabled : sched_enabled k = true;
  cpu_task : current_task k ≠ 0 → ∃ tk vs, k_tasks k !! current_task k = Some tk ∧
    k_vspaces k !! t_vspace tk = Some vs ∧ k_cr3 k = vspace_apply vs ∧ kernel_sp k = kstack_ptr tk;
}.

(** Every task's address space exists. *)
Definition spaces_ok k xs : Prop :=
  ∀ t tk, t ∈ xs.*2 → k_tasks k !! t = Some tk → is_Some (k_vspaces k !! t_vspace tk).

(** The save of the context of the task that is left. *)
Definition saved (ctx : Z) k (tasks : gmap Z task_t) : gmap Z task_t :=
  if current_task k =? 0 then tasks else alter (set_t_context ctx) (current_task k) tasks.

Lemma saved_lookup ctx k tasks t :
  saved ctx k tasks !! t =
    if decide (t = current_task k ∧ t ≠ 0) then set_t_context ctx <$> tasks !! t else tasks !! t.
Proof.
  unfold saved. destruct (Z.eqb_spec (current_task k) 0) as [He|Hne].
  - rewrite decide_False; [done|]. rewrite He. tauto.
  - destruct (decide (t = current_task k)) as [->|].
    + rewrite lookup_alter_eq, decide_True; done.
    + rewrite lookup_alter_ne, decide_False; [done|tauto|done].
Qed.

(** What [schedule] leaves behind when it ran the task [t]. *)
Record switched ctx k t tk k' : Prop := {
  sw_cur : current_task k' = t;
  sw_tasks : k_tasks k' = if current_task k =? t then k_tasks k else saved ctx k (k_tasks k);
  sw_procs : k_procs k' = k_procs k;
  sw_spaces : k_vspaces k' = k_vspaces k;
  sw_cpu : cpu_ok k';
  sw_task : k_tasks k !! t = Some tk;
}.

Lemma insert_alter {V} (f : V → V) (m : gmap Z V) i x : m !! i = Some x → <[i := f x]> m = alter f i m.
Proof.
  intros Hx. apply map_eq. intros j. destruct (decide (j = i)) as [->|].
  - by rewrite lookup_insert_eq, lookup_alter_eq, Hx.
  - by rewrite lookup_insert_ne, lookup_alter_ne.
Qed.

(** The switch away from a task that is not killed. *)
Lemma leave_current_spec ctx k :
  (current_task k ≠ 0 → ∃ ct, k_tasks k !! current_task k = Some ct ∧ t_state ct ≠ TASK_KILLED) →
  leave_current ctx k = Ok (tt, set_k_tasks (saved ctx k (k_tasks k)) k).
Proof.
  intros Hcur. unfold leave_current, saved, gets, when, mbind, K_bind. simpl.
  destruct (Z.eqb_spec (current_task k) 0) as [He|Hne]; simpl; [by destruct k|].
  destruct (Hcur Hne) as (ct & Hct & Hst). rewrite (change_Ok (O := task_object) (current_task k) (set_t_context ctx) k ct Hct). simpl. unfold load. simpl.
  rewrite lookup_insert_eq. rewrite bool_decide_not by done. unfold mret, K_ret.
  by rewrite (insert_alter (set_t_context ctx)).
Qed.

Lemma enter_task_spec k t tk vs :
  k_tasks k !! t = Some tk → k_vspaces k !! t_vspace tk = Some vs →
  (current_task k ≠ 0 → ∃ ct cvs, k_tasks k !! current_task k = Some ct ∧
     k_vspaces k !! t_vspace ct = Some cvs ∧ k_cr3 k = vspace_apply cvs) →
  enter_task t k = Ok (t_context tk, set_current_task t (set_kernel_sp (kstack_ptr tk) (set_k_cr3 (vspace_apply vs) k))).
Proof.
  intros Htk Hvs Hcur. unfold enter_task, gets, modify, when, load, mbind, K_bind. simpl. rewrite Htk. simpl.
  destruct (Z.eqb_spec (current_task k) 0) as [He|Hne]; simpl; [by rewrite Hvs|].
  destruct (Hcur Hne) as (ct & cvs & Hct & Hcvs & Hcr3). rewrite Hct. simpl. unfold mret at 2, K_ret at 1.
  destruct (Z.eqb_spec (t_vspace ct) (t_vspace tk)) as [Heq|]; simpl; [|by rewrite Hvs].
  rewrite Heq, Hvs in Hcvs. injection Hcvs as <-. rewrite <- Hcr3. by destruct k.
Qed.

#[local] Arguments get_next_task : simpl never.
#[local] Arguments sched_fuel : simpl never.
Lemma queue_only_cpu k k' : queue_only k k' → cpu_ok k → cpu_ok k'.
Proof. intros -> [He Ht]. by split. Qed.

Lemma sched_fuel_ok k xs : sched_ok k xs → sched_fuel k = S (length xs).
Proof. intros Hk. unfold sched_fuel. by rewrite (lr_items _ _ _ (so_repr _ _ Hk)), Nat2Z.id. Qed.

Lemma saved_task ctx k tasks t tk :
  tasks !! t = Some tk → ∃ tk', saved ctx k tasks !! t = Some tk' ∧
    (∃ c, tk' = set_t_context c tk) ∧ (current_task k ≠ t → tk' = tk).
Proof.
  intros Htk. rewrite saved_lookup, Htk. case_decide as Hd.
  - eexists. split; [done|]. split; [by eexists|]. naive_solver.
  - exists tk. split; [done|]. split; [|done]. exists (t_context tk). by destruct tk.
Qed.

(** A call of [schedule] by the task that runs. *)
Lemma schedule_spec ctx k l1 a t l2 :
  let xs := l1 ++ (a, t) :: l2 in
  sched_ok k xs → cpu_ok k → spaces_ok k xs →
  (∀ ct, k_tasks k !! current_task k = Some ct → t_state ct ≠ TASK_KILLED) →
  (∀ u, u ∈ l1.*2 → alive k u ∧ ¬ runnable k u) → alive k t → runnable k t →
  ∃ tk c k', schedule ctx k = Ok (c, k') ∧ sched_ok k' (l2 ++ l1 ++ [(a, t)]) ∧
    switched ctx k t tk k' ∧ c = (if current_task k =? t then ctx else t_context tk).
Proof.
  intros xs Hk Hcpu Hsp Hcur Hl1 Hal Hrun.
  destruct (get_next_task_spec (sched_fuel k) k l1 a t l2 Hk) as (k1 & Hg & Hk1 & Hq); [|done..|].
  { rewrite (sched_fuel_ok _ _ Hk). unfold xs. rewrite length_app. simpl. lia. }
  assert (t ∈ xs.*2) as Hin by (unfold xs; rewrite fmap_app; clear; set_solver).
  destruct (so_task _ _ Hk t Hin) as (Hne & tk & Htk & _). destruct (Hsp t tk Hin Htk) as [vs Hvs].
  pose proof (queue_only_cpu _ _ Hq Hcpu) as Hcpu1.
  unfold schedule, gets, mbind, K_bind. rewrite (cpu_enabled _ Hcpu). simpl. rewrite Hg. simpl.
  assert (current_task k1 = current_task k) as Hc1 by (by rewrite Hq).
  assert (k_tasks k1 = k_tasks k) as Ht1 by (by rewrite Hq).
  destruct (Z.eqb_spec (current_task k1) t) as [He|Hd].
  - exists tk, ctx, k1. rewrite <- Hc1, He, Z.eqb_refl. split_and!; [done|done| |done].
    split; [done| |by rewrite Hq|by rewrite Hq|done|done]. by rewrite <- Hc1, He, Z.eqb_refl.
  - rewrite leave_current_spec.
    2: { rewrite Hc1, Ht1. intros Hnz. destruct (cpu_task _ Hcpu Hnz) as (ct & _ & Hct & _). eauto. }
    destruct (saved_task ctx k1 (k_tasks k1) t tk) as (tk' & Htk' & [c ->] & Heq); [by rewrite Ht1|].
    rewrite (Heq Hd) in Htk'. clear Heq.
    set (k2 := set_k_tasks _ k1). rewrite (enter_task_spec k2 t tk vs); [|exact Htk'|by subst k2; simpl; rewrite Hq|].
    2: { intros Hnz. destruct (cpu_task _ Hcpu1 Hnz) as (ct & cvs & Hct & Hcvs & Hcr & _).
         destruct (saved_task ctx k1 (k_tasks k1) _ ct Hct) as (ct' & Hct' & [c' ->] & _). by eexists _, cvs. }
    eexists tk, _, _. rewrite <- Hc1. split; [done|]. rewrite (proj2 (Z.eqb_neq _ _) Hd).
    split_and!; [| |done].
    + destruct Hk1 as [Hs1 Hr1 Ht2]. split; [exact Hs1|exact Hr1|]. simpl. intros u Hu.
      destruct (Ht2 u Hu) as (Hun & uk & Huk & Hp). split; [done|].
      destruct (saved_task ctx k1 (k_tasks k1) u uk Huk) as (uk' & Huk' & [c' ->] & _).
      eexists. split; [exact Huk'|]. exact Hp.
    + split; simpl; [done| |by rewrite Hq|by rewrite Hq| |done].
      * rewrite <- Hc1, (proj2 (Z.eqb_neq _ _) Hd), <- Ht1. unfold saved. by rewrite Hc1.
      * split; simpl; [apply Hcpu1|]. intros _. exists tk, vs. split_and!; [exact Htk'|by rewrite Hq|done|done].
Qed.

(** ** Fairness *)

(** The queue, the processor and the tasks in order: nothing has been killed. *)
Record settled k xs : Prop := {
  st_sched : sched_ok k xs;
  st_cpu : cpu_ok k;
  st_spaces : spaces_ok k xs;
  st_alive t : t ∈ xs.*2 → alive k t;
  st_cur ct : k_tasks k !! current_task k = Some ct → t_state ct ≠ TASK_KILLED;
}.

#[export] Instance runnable_dec k t : Decision (runnable k t).
Proof.
  unfold runnable. destruct (k_tasks k !! t) as [tk|]; [|right; by intros (? & ? & _)].
  destruct (ready tk) eqn:Hr; [left; by exists tk|right]. intros (? & [= <-] & ?). congruence.
Defined.

(** The first task that can run. *)
Lemma first_runnable k xs :
  (∃ t, t ∈ xs.*2 ∧ runnable k t) →
  ∃ l1 a t l2, xs = l1 ++ (a, t) :: l2 ∧ runnable k t ∧ ∀ u, u ∈ l1.*2 → ¬ runnable k u.
Proof.
  intros (t & Ht & Hrun).
  destruct (list_first_split (λ ax : Z * Z, runnable k ax.2) xs) as [(l1 & [a u] & l2 & -> & Hu & Hl1)|Hno].
  - exists l1, a, u, l2. split_and!; [done|done|]. intros v ([b v'] & -> & Hv)%list_elem_of_fmap. by apply (Hl1 (b, v')).
  - apply list_elem_of_fmap in Ht as ([a t'] & -> & Hin). by destruct (Hno (a, t')).
Qed.

(** The contexts are all that a turn changes in the tasks. *)
Lemma switched_task ctx k t tk k' u uk :
  switched ctx k t tk k' → k_tasks k !! u = Some uk → ∃ c, k_tasks k' !! u = Some (set_t_context c uk).
Proof.
  intros Hsw Hu. rewrite (sw_tasks _ _ _ _ _ Hsw). destruct (_ =? _).
  - exists (t_context uk). rewrite Hu. by destruct uk.
  - destruct (saved_task ctx k _ u uk Hu) as (uk' & Huk' & [c ->] & _). by exists c.
Qed.

Lemma switched_runnable ctx k t tk k' u : switched ctx k t tk k' → runnable k u → runnable k' u.
Proof. intros Hsw (uk & Hu & Hr). destruct (switched_task _ _ _ _ _ _ _ Hsw Hu) as [c Hc]. by eexists. Qed.

Lemma switched_alive ctx k t tk k' u : switched ctx k t tk k' → alive k u → alive k' u.
Proof.
  intros Hsw (uk & Hu & Hal). destruct (switched_task _ _ _ _ _ _ _ Hsw Hu) as [c Hc]. eexists. split; [done|].
  intros [?|(Hp & p & Hpk & ?)]; apply Hal; [by left|right]. split; [done|]. exists p.
  by rewrite <- (sw_procs _ _ _ _ _ Hsw).
Qed.

(** A turn, and the queue after it. *)
Lemma turn_spec ctx k xs :
  settled k xs → (∃ t, t ∈ xs.*2 ∧ runnable k t) →
  ∃ l1 a t l2 tk c k', xs = l1 ++ (a, t) :: l2 ∧ schedule ctx k = Ok (c, k') ∧
    settled k' (l2 ++ l1 ++ [(a, t)]) ∧ switched ctx k t tk k' ∧ ∀ u, u ∈ l1.*2 → ¬ runnable k u.
Proof.
  intros [Hk Hcpu Hsp Hal Hcur] Hrun. destruct (first_runnable k xs Hrun) as (l1 & a & t & l2 & -> & Ht & Hl1).
  assert (∀ u, u ∈ (l2 ++ l1 ++ [(a, t)]).*2 → u ∈ (l1 ++ (a, t) :: l2).*2) as Hsub.
  { intros u. rewrite !fmap_app. clear. set_solver. }
  assert (alive k t) as Hat by (apply Hal, Hsub; rewrite !fmap_app; clear; set_solver).
  destruct (schedule_spec ctx k l1 a t l2 Hk Hcpu Hsp Hcur) as (tk & c & k' & Hs & Hk' & Hsw & _);
    [|done|done|].
  { intros u Hu. split; [|by apply Hl1]. apply Hal, Hsub. rewrite !fmap_app. clear -Hu. set_solver. }
  exists l1, a, t, l2, tk, c, k'. split_and!; [done|done| |done|done].
  split; [done|apply Hsw| | |].
  - intros u uk Hu Huk. destruct (so_task _ _ Hk u (Hsub _ Hu)) as (_ & uk0 & Huk0 & _).
    destruct (switched_task _ _ _ _ _ _ _ Hsw Huk0) as [c' Hc']. rewrite Huk in Hc'. injection Hc' as ->.
    rewrite (sw_spaces _ _ _ _ _ Hsw). by apply (Hsp u uk0); [apply Hsub|].
  - intros u Hu. eapply switched_alive; [done|]. by apply Hal, Hsub.
  - intros ct. rewrite (sw_cur _ _ _ _ _ Hsw). intros Hct.
    destruct (switched_task _ _ _ _ _ _ _ Hsw (sw_task _ _ _ _ _ Hsw)) as [c' Hc']. rewrite Hc' in Hct.
    injection Hct as <-. destruct Hat as (tk0 & Htk0 & Hnk). rewrite (sw_task _ _ _ _ _ Hsw) in Htk0.
    injection Htk0 as <-. intros Hkd. apply Hnk. by left.
Qed.

(** A sequence of turns, each with the context of the task that is interrupted. *)
Fixpoint turns (ctxs : list Z) k : res kernel :=
  match ctxs with
  | [] => mret k
  | ctx :: ctxs => '(_, k) ← schedule ctx k; turns ctxs k
  end.
#[local] Arguments schedule : simpl never.

Lemma turns_reach n k p a t q ctxs :
  settled k (p ++ (a, t) :: q) → runnable k t → (length p <= n)%nat → (S n <= length ctxs)%nat →
  ∃ m k', (1 <= m <= S n)%nat ∧ turns (take m ctxs) k = Ok k' ∧ current_task k' = t.
Proof.
  revert k p q ctxs. induction n as [|n IH]; intros k p q ctxs Hk Ht Hp Hc;
    (destruct ctxs as [|ctx ctxs]; [simpl in Hc; lia|]);
    (destruct (turn_spec ctx k _ Hk) as (l1 & b & u & l2 & uk & c & k1 & Heq & Hs & Hk1 & Hsw & Hl1);
     [exists t; split; [rewrite fmap_app; clear; set_solver|done]|]).
  1: destruct p as [|z p]; [|simpl in Hp; lia].
  2: destruct (decide ((length p <= length l1)%nat)) as [Hle|Hlt].
  - destruct l1 as [|z l1]; [|exfalso; simplify_eq/=; apply (Hl1 t); [by left|done]].
    injection Heq as <- <- <-. exists 1%nat, k1. simpl. rewrite Hs. split_and!; [lia|lia|done|apply Hsw].
  - assert (l1 = p ∧ (b, u) = (a, t)) as [-> [= <- <-]].
    { destruct (decide (length l1 = length p)) as [He|Hne].
      - apply app_inj_1 in Heq as [<- [= -> -> _]]; [done|by rewrite He].
      - exfalso. assert (l1 !! length p = Some (a, t)) as Hin.
        { rewrite <- (lookup_app_l l1 ((b, u) :: l2)) by lia. rewrite <- Heq. by rewrite list_lookup_middle. }
        apply (Hl1 t); [|done]. apply (list_elem_of_fmap_2 snd _ (a, t)). by eapply list_elem_of_lookup_2. }
    exists 1%nat, k1. simpl. rewrite Hs. split_and!; [lia|lia|done|apply Hsw].
  - assert (∃ p', p = l1 ++ (b, u) :: p' ∧ l2 = p' ++ (a, t) :: q) as (p' & -> & ->).
    { exists (drop (S (length l1)) p). assert (take (S (length l1)) p = l1 ++ [(b, u)]) as Htk.
      { rewrite <- (take_app_le p ((a, t) :: q)), Heq by lia.
        rewrite (cons_middle (b, u)), (assoc_L (++)), take_app_length'; [done|]. rewrite length_app. simpl. lia. }
      rewrite <- (take_drop (S (length l1)) p) at 1. rewrite Htk, <- app_assoc. split; [done|].
      rewrite <- (take_drop (S (length l1)) p), Htk, <- !app_assoc in Heq.
      apply (inj (app l1)) in Heq. injection Heq as Heq. by rewrite Heq. }
    rewrite length_app in Hp. simpl in Hp, Hc. rewrite <- app_assoc in Hk1.
    destruct (IH k1 p' (q ++ l1 ++ [(b, u)]) ctxs Hk1) as (m & k2 & Hm & Hr & Hcur); [by eapply switched_runnable|lia|lia|].
    exists (S m), k2. cbn [take turns]. rewrite Hs. simpl. split_and!; [lia|lia|done|done].
Qed.

(** ** Killed tasks *)

Lemma remove_current_spec k xs :
  sched_ok k xs → current_task k ∈ xs.*2 →
  ∃ l1 a l2 k', xs = l1 ++ (a, current_task k) :: l2 ∧ sched_remove_current k = Ok (tt, k') ∧
    sched_ok k' (l1 ++ l2) ∧ queue_only k k'.
Proof.
  intros Hk Hin.
  destruct (op_find_remove _ _ _ _ (so_store _ _ Hk) (so_repr _ _ Hk) Hin)
    as (l1 & a & l2 & l & s & -> & _ & Hf & Hr & Hpost).
  exists l1, a, l2, (set_sched_tasks l (set_k_store s k)). split_and!; [done| | |done].
  - unfold sched_remove_current, gets, of_store, on_store, modify, mbind, K_bind. simpl. by rewrite Hf, Hr.
  - eapply sched_ok_step; [done|done|]. intros t. rewrite !fmap_app. clear. set_solver.
Qed.

(** The list has no item for the current task: the code removes NULL. *)
Lemma remove_current_absent k xs :
  sched_ok k xs → current_task k ∉ xs.*2 →
  sched_remove_current k = Stop (if DEBUG then Panic else Fault).
Proof.
  intros Hk Hin. unfold sched_remove_current, gets, of_store, on_store, mbind, K_bind. simpl.
  rewrite (op_find_absent _ _ _ _ (so_store _ _ Hk) (so_repr _ _ Hk) Hin). unfold list_it_remove.
  rewrite (sanity _ _ _ (so_repr _ _ Hk)). unfold assert_, rd, res_bind. simpl.
  rewrite (sw_null _ (so_store _ _ Hk)). by destruct DEBUG.
Qed.

Lemma process_killed_spec k xs t tk :
  sched_ok k xs → t ∈ xs.*2 → k_tasks k !! t = Some tk →
  ∃ b, process_killed tk k = Ok (b, k) ∧
    (b = true ↔ t_process tk ≠ 0 ∧ ∃ p, k_procs k !! t_process tk = Some p ∧ p_state p = PROC_KILLED).
Proof.
  intros Hk Ht Htk. destruct (so_task _ _ Hk t Ht) as (_ & tk' & Htk' & Hp).
  rewrite Htk in Htk'. injection Htk' as <-. unfold process_killed.
  destruct (Z.eqb_spec (t_process tk) 0) as [|Hne]; [exists false; split; [done|naive_solver]|].
  destruct Hp as [?|[p Hp]]; [done|]. unfold load, mbind, K_bind. simpl. rewrite Hp.
  eexists. split; [done|]. rewrite bool_decide_eq_true. naive_solver.
Qed.

(** The queue looks at a task that has been killed. *)
Lemma task_schedulable_killed k xs t tk :
  sched_ok k xs → t ∈ xs.*2 → k_tasks k !! t = Some tk → killed k tk →
  let k1 := set_k_tasks (<[t := set_t_state TASK_KILLED tk]> (k_tasks k)) k in
  task_schedulable t k = match sched_remove_current k1 with
                         | Ok (_, k2) => Ok (false, k2) | Stop w => Stop w end ∧ sched_ok k1 xs.
Proof.
  intros Hk Ht Htk Hkd k1. destruct (process_killed_spec k xs t tk Hk Ht Htk) as (b & Hb & Hiff).
  assert (sched_ok k1 xs) as Hk1.
  { destruct Hk as [Hs Hr Hts]. split; [done|done|]. simpl. intros u Hu. destruct (Hts u Hu) as (Hne & uk & Huk & Hp).
    split; [done|]. destruct (decide (u = t)) as [->|]; [|rewrite lookup_insert_ne by done; by exists uk].
    rewrite lookup_insert_eq. rewrite Htk in Huk. injection Huk as <-. eexists. split; [done|]. done. }
  split; [|done].
  assert (when b (change t (set_t_state TASK_KILLED)) k = Ok (tt, k1)) as Hw.
  { destruct b; simpl; [by apply (change_Ok (O := task_object))|].
    assert (set_t_state TASK_KILLED tk = tk) as Heq.
    { destruct Hkd as [Hst|Hp]; [|by apply Hiff in Hp]. destruct tk. simpl in *. by subst. }
    unfold k1. rewrite Heq, insert_id by done. by destruct k. }
  assert (k_tasks k1 !! t = Some (set_t_state TASK_KILLED tk)) as Htk1 by apply lookup_insert_eq.
  unfold task_schedulable. kstep (load_Ok (O := task_object) t tk k Htk). kstep Hb. kstep Hw.
  kstep (load_Ok (O := task_object) t _ k1 Htk1). cbn [t_state set_t_state]. rewrite bool_decide_eq_true_2 by done.
  unfold when. destruct (sched_remove_current k1) as [[[] k2]|w] eqn:Hr; [|by rewrite (K_bind_Stop _ _ _ _ Hr)].
  assert (k_tasks k2 = k_tasks k1) as Heq.
  { destruct (decide (current_task k1 ∈ xs.*2)) as [Hin|Hni].
    - destruct (remove_current_spec k1 xs Hk1 Hin) as (l1 & a & l2 & k3 & _ & Hr3 & _ & Hq). rewrite Hr in Hr3.
      injection Hr3 as <-. by rewrite Hq.
    - rewrite (remove_current_absent k1 xs Hk1 Hni) in Hr. done. }
  kstep Hr. rewrite <- Heq in Htk1. kstep (load_Ok (O := task_object) t _ k2 Htk1).
  cbn [irq_wait set_t_state]. by destruct (irq_wait tk).
Qed.

Lemma leave_current_killed ctx k xs ct :
  sched_ok k xs → current_task k ∈ xs.*2 → current_task k ≠ 0 →
  k_tasks k !! current_task k = Some ct → t_state ct = TASK_KILLED →
  ∃ l1 a l2 k', xs = l1 ++ (a, current_task k) :: l2 ∧ leave_current ctx k = Ok (tt, k') ∧
    sched_ok k' (l1 ++ l2) ∧ queue_only (set_k_tasks (saved ctx k (k_tasks k)) k) k'.
Proof.
  intros Hk Hin Hnz Hct Hst. set (k1 := set_k_tasks (saved ctx k (k_tasks k)) k).
  assert (k1 = set_k_tasks (<[current_task k := set_t_context ctx ct]> (k_tasks k)) k) as Hk1e.
  { unfold k1, saved. rewrite (proj2 (Z.eqb_neq _ _) Hnz). by rewrite (insert_alter (set_t_context ctx)). }
  assert (sched_ok k1 xs) as Hk1.
  { destruct Hk as [Hs Hr Ht]. split; [done|done|]. simpl. intros u Hu. destruct (Ht u Hu) as (Hne & uk & Huk & Hp).
    split; [done|]. destruct (saved_task ctx k (k_tasks k) u uk Huk) as (uk' & Huk' & [c ->] & _). by eexists. }
  destruct (remove_current_spec k1 xs Hk1 Hin) as (l1 & a & l2 & k2 & Hxs & Hr & Hk2 & Hq).
  exists l1, a, l2, k2. split_and!; [done| |done|done].
  unfold leave_current, gets, when. unfold mbind at 1, K_bind at 1. rewrite (proj2 (Z.eqb_neq _ _) Hnz). cbn [negb].
  kstep (change_Ok (O := task_object) (current_task k) (set_t_context ctx) k ct Hct). simpl set_objs. rewrite <- Hk1e.
  assert (k_tasks k1 !! current_task k = Some (set_t_context ctx ct)) as Hct1.
  { rewrite Hk1e. apply lookup_insert_eq. }
  kstep (load_Ok (O := task_object) (current_task k) _ k1 Hct1). cbn [t_state set_t_context].
  by rewrite bool_decide_eq_true_2.
Qed.

(** C23: The scheduler is round robin, and switches tasks completely.  Given a well-formed queue
    whose tasks, processes and address spaces exist, a call of [schedule] takes the first task
    that can run, passing over the living tasks before it that cannot; they and it go to the back
    in this order.  If it is the current task, the interrupt returns to where it was; otherwise
    it returns to the saved context of that task, the interrupted context has been saved in the
    old task and nothing else in any task changes.  Afterwards the processor is in the address
    space of the task that runs, and the kernel stack of an interrupt is that task's. *)
Theorem schedule_round_robin ctx k l1 a t l2 :
  let xs := l1 ++ (a, t) :: l2 in
  sched_ok k xs → cpu_ok k → spaces_ok k xs →
  (∀ ct, k_tasks k !! current_task k = Some ct → t_state ct ≠ TASK_KILLED) →
  (∀ u, u ∈ l1.*2 → alive k u ∧ ¬ runnable k u) → alive k t → runnable k t →
  ∃ tk c k', k_tasks k !! t = Some tk ∧ schedule ctx k = Ok (c, k') ∧
    sched_ok k' (l2 ++ l1 ++ [(a, t)]) ∧ current_task k' = t ∧ cpu_ok k' ∧
    (if current_task k =? t then c = ctx ∧ k_tasks k' = k_tasks k
     else c = t_context tk ∧
          k_tasks k' = if current_task k =? 0 then k_tasks k
                       else alter (set_t_context ctx) (current_task k) (k_tasks k)).
Proof.
  intros xs Hk Hcpu Hsp Hcur Hl1 Hal Hrun.
  destruct (schedule_spec ctx k l1 a t l2 Hk Hcpu Hsp Hcur Hl1 Hal Hrun) as (tk & c & k' & Hs & Hk' & Hsw & Hc).
  exists tk, c, k'. split_and!; [apply Hsw|done|done|apply Hsw|apply Hsw|]. subst c.
  pose proof (sw_tasks _ _ _ _ _ Hsw) as Ht. by destruct (current_task k =? t).
Qed.

(** C24: No task starves.  While nothing is killed, every task of the queue that can run is the
    current task after at most as many calls of [schedule] as the queue is long, whatever the
    contexts of the interrupted tasks are. *)
Theorem schedule_fair k xs t ctxs :
  settled k xs → t ∈ xs.*2 → runnable k t → length ctxs = length xs →
  ∃ n k', (1 <= n <= length xs)%nat ∧ turns (take n ctxs) k = Ok k' ∧ current_task k' = t.
Proof.
  intros Hk Hin Hrun Hlen. apply list_elem_of_fmap in Hin as ([a t'] & -> & Hin).
  apply list_elem_of_split in Hin as (p & q & ->).
  destruct (turns_reach (length p) k p a t' q ctxs Hk Hrun) as (n & k' & Hn & Hr & Hc); [lia| |].
  - rewrite Hlen, length_app. simpl. lia.
  - exists n, k'. rewrite length_app. simpl. split_and!; [lia|lia|done|done].
Qed.

(** A task that has killed itself is reaped by the switch away from it: with another task
    able to run, [schedule] switches to that one and the killed task is not in the queue any
    more, everything else in it keeping its order. *)
Theorem schedule_reaps_killed ctx k l1 a t l2 ct :
  let xs := l1 ++ (a, t) :: l2 in
  sched_ok k xs → cpu_ok k → spaces_ok k xs →
  k_tasks k !! current_task k = Some ct → t_state ct = TASK_KILLED →
  current_task k ≠ 0 → current_task k ∈ xs.*2 →
  (∀ u, u ∈ l1.*2 → alive k u ∧ ¬ runnable k u) → alive k t → runnable k t →
  ∃ p b q tk k', l2 ++ l1 ++ [(a, t)] = p ++ (b, current_task k) :: q ∧ k_tasks k !! t = Some tk ∧
    schedule ctx k = Ok (t_context tk, k') ∧ sched_ok k' (p ++ q) ∧ current_task k' = t.
Proof.
  intros xs Hk Hcpu Hsp Hct Hst Hnz Hcin Hl1 Hal Hrun.
  destruct (get_next_task_spec (sched_fuel k) k l1 a t l2 Hk) as (k1 & Hg & Hk1 & Hq); [|done..|].
  { rewrite (sched_fuel_ok _ _ Hk). unfold xs. rewrite length_app. simpl. lia. }
  destruct (so_task _ _ Hk t) as (_ & tk & Htk & _); [unfold xs; rewrite fmap_app; clear; set_solver|].
  destruct (Hsp t tk) as [vs Hvs]; [unfold xs; rewrite fmap_app; clear; set_solver|done|].
  assert (current_task k ≠ t) as Hct'.
  { intros He. destruct Hal as (tk' & Htk' & Hnk). rewrite <- He, Hct in Htk'. injection Htk' as <-. apply Hnk. by left. }
  assert (current_task k1 = current_task k ∧ k_tasks k1 = k_tasks k ∧ k_vspaces k1 = k_vspaces k ∧ k_cr3 k1 = k_cr3 k)
    as (Hc1 & Ht1 & Hv1 & Hr1) by (by rewrite Hq).
  destruct (leave_current_killed ctx k1 _ ct Hk1) as (p & b & q & k2 & Heq & Hlv & Hk2 & Hq2);
    [|by rewrite Hc1|by rewrite Hc1, Ht1|done|].
  { rewrite Hc1. revert Hcin. unfold xs. rewrite !fmap_app. clear. set_solver. }
  rewrite Hc1 in Heq. set (k1s := set_k_tasks (saved ctx k1 (k_tasks k1)) k1) in *.
  assert (k_tasks k2 = saved ctx k1 (k_tasks k) ∧ k_vspaces k2 = k_vspaces k ∧ current_task k2 = current_task k
    ∧ k_cr3 k2 = k_cr3 k) as (Ht2 & Hv2 & Hc2 & Hr2).
  { rewrite Hq2. unfold k1s. simpl. by rewrite Ht1, Hv1, Hc1, Hr1. }
  destruct (saved_task ctx k1 (k_tasks k) t tk Htk) as (tk' & Htk' & _ & Heq').
  rewrite (Heq' ltac:(by rewrite Hc1)) in Htk'.
  exists p, b, q, tk. eexists. split_and!; [done|done| | |].
  - unfold schedule, gets. unfold mbind at 1, K_bind at 1. rewrite (cpu_enabled _ Hcpu). cbn [negb].
    unfold mbind at 1, K_bind at 1. kstep Hg. unfold mbind at 1, K_bind at 1.
    rewrite Hc1, (proj2 (Z.eqb_neq _ _) Hct'). kstep Hlv. apply (enter_task_spec k2 t tk vs).
    + by rewrite Ht2.
    + by rewrite Hv2.
    + intros _. destruct (cpu_task _ Hcpu Hnz) as (ct0 & cvs & Hct0 & Hcvs & Hcr & _).
      destruct (saved_task ctx k1 (k_tasks k) _ ct0 Hct0) as (ct' & Hct2 & [c' ->] & _).
      rewrite Hc2, Ht2, Hv2, Hr2. by eexists _, cvs.
  - destruct Hk2 as [Hs2 Hr2' Htt]. by split.
  - done.
Qed.

(** The end of a kernel task.  When its function returns, the task is killed and does not come back: with another task
    of the queue able to run behind living ones that cannot, the processor goes on with that one, and the ended task
    is not in the queue any more. *)
Theorem kernel_task_ends func ctx k k1 l1 a t l2 :
  let xs := l1 ++ (a, t) :: l2 in
  func k = Ok (tt, k1) →
  sched_ok k1 xs → cpu_ok k1 → spaces_ok k1 xs → current_task k1 ≠ 0 → current_task k1 ∈ l2.*2 → current_task k1 ∉ l1.*2 →
  current_task k1 ≠ t → (∀ u, u ∈ l1.*2 → alive k1 u ∧ ¬ runnable k1 u) → alive k1 t → runnable k1 t →
  ∃ p b q tk k', l2 ++ l1 ++ [(a, t)] = p ++ (b, current_task k1) :: q ∧ k_tasks k1 !! t = Some tk ∧
    run_ktask func ctx k = Ok (t_context tk, k') ∧ sched_ok k' (p ++ q) ∧ current_task k' = t.
Proof.
  intros xs Hf Hk Hcpu Hsp Hnz Hl2 Hnl1 Hne Hl1 Hal Hrun. set (c := current_task k1) in *.
  destruct (cpu_task _ Hcpu Hnz) as (ct & cvs & Hct & Hcvs & Hcr & Hsp'). fold c in Hct.
  set (k2 := set_k_tasks (<[c := set_t_state TASK_KILLED ct]> (k_tasks k1)) k1).
  assert (∀ u, u ≠ c → k_tasks k2 !! u = k_tasks k1 !! u) as Hoth by (intros u Hu; unfold k2; simpl; by rewrite lookup_insert_ne).
  assert (k_tasks k2 !! c = Some (set_t_state TASK_KILLED ct)) as Hc2 by (unfold k2; simpl; apply lookup_insert_eq).
  assert (∀ u, u ≠ c → (alive k2 u ↔ alive k1 u) ∧ (runnable k2 u ↔ runnable k1 u)) as Hsame.
  { intros u Hu. unfold alive, runnable. by rewrite (Hoth u Hu). }
  destruct (schedule_reaps_killed ctx k2 l1 a t l2 (set_t_state TASK_KILLED ct)) as (p & b & q & tk & k' & Heq & Htk & Hs & Hk' & Hc').
  - destruct Hk as [Hst Hr Ht]. split; [done|done|]. intros u Hu. destruct (Ht u Hu) as (Hu0 & uk & Huk & Hp). split; [done|].
    destruct (decide (u = c)) as [->|Huc]; [|rewrite Hoth by done; eauto]. rewrite Hct in Huk. injection Huk as <-. eauto.
  - destruct Hcpu as [He _]. split; [done|]. intros _. exists (set_t_state TASK_KILLED ct), cvs. by split_and!.
  - intros u uk Hu Huk. destruct (decide (u = c)) as [->|Huc].
    + rewrite Hc2 in Huk. injection Huk as <-. by apply (Hsp c ct).
    + rewrite Hoth in Huk by done. by apply (Hsp u uk).
  - done.
  - done.
  - done.
  - change (current_task k2) with c. rewrite fmap_app, fmap_cons. revert Hl2. clear. set_solver.
  - intros u Hu. destruct (Hsame u) as [-> ->]; [by intros ->|]. by apply Hl1.
  - by apply Hsame.
  - by apply Hsame.
  - exists p, b, q, tk, k'. rewrite Hoth in Htk by done. split_and!; [done|done| |done|done].
    unfold run_ktask. kstep Hf. unfold task_kill, gets. unfold mbind at 1, K_bind at 1. fold c.
    kstep (change_Ok (O := task_object) c (set_t_state TASK_KILLED) k1 ct Hct). exact Hs.
Qed.

(** Removing a killed task takes the wrong one out of the queue.  When [schedule] looks at a
    task that was killed from outside (its process has ended), [task_schedulable] removes the
    item of the current task, not that of the killed one: the killed task stays in the queue,
    and the current task leaves it.  If the current task is not in the queue (any more), the
    same line removes NULL: a panic in a debug build, a null access otherwise. *)
Theorem task_schedulable_removes_current k xs t tk :
  sched_ok k xs → t ∈ xs.*2 → k_tasks k !! t = Some tk → killed k tk →
  (current_task k ∈ xs.*2 → ∃ l1 a l2 k', xs = l1 ++ (a, current_task k) :: l2 ∧
     task_schedulable t k = Ok (false, k') ∧ sched_ok k' (l1 ++ l2) ∧
     (t ≠ current_task k → t ∈ (l1 ++ l2).*2)) ∧
  (current_task k ∉ xs.*2 → task_schedulable t k = Stop (if DEBUG then Panic else Fault)).
Proof.
  intros Hk Ht Htk Hkd. destruct (task_schedulable_killed k xs t tk Hk Ht Htk Hkd) as [-> Hk1].
  set (k1 := set_k_tasks _ k) in *. split; intros Hin.
  - destruct (remove_current_spec k1 xs Hk1 Hin) as (l1 & a & l2 & k2 & Hxs & Hr & Hk2 & _).
    exists l1, a, l2, k2. rewrite Hr. split_and!; [done|done|done|]. intros Hne. rewrite Hxs in Ht.
    change (current_task k1) with (current_task k) in Ht.
    rewrite fmap_app, fmap_cons, elem_of_app, elem_of_cons in Ht. rewrite fmap_app, elem_of_app. naive_solver.
  - by rewrite (remove_current_absent k1 xs Hk1 Hin).
Qed.
End scheduling.

(** ** New tasks *)

Section creation.
Context {A F : Type} `{B : Build} `{KM : Kmalloc A} {KL : KmallocLaws A}.
Abbreviation kernel := (Kernel.kernel A F).
Implicit Types (k : kernel).

Lemma tl_insert_Ok task k i l s :
  tl_lock k = MUTEX_INITIALIZER → list_add (tl_list k) task (k_store k) = Ok (i, l, s) →
  tl_insert task k = Ok (tt, set_task_count (u64 (task_count k + 1)) (set_tl_list l (set_k_store s k))).
Proof.
  intros Hl Ha. unfold tl_insert, gets, modify.
  unfold mbind at 1, K_bind at 1. rewrite Hl. kstep (k_lock_idle k).
  unfold mbind at 1 2, K_bind at 1 2. cbn [tl_list set_tl_lock].
  unfold mbind at 1, K_bind at 1, on_store. cbn [k_store set_tl_lock]. rewrite Ha.
  unfold mbind at 1 2, K_bind at 1 2. cbn [tl_lock set_tl_lock set_k_store set_tl_list].
  match goal with |- (_ ≫= _) ?k1 = _ => pose proof (k_unlock_taken k1) as Hu end.
  cbn [current_task set_tl_lock set_k_store set_tl_list] in Hu. kstep Hu. unfold mbind, K_bind. simpl.
  f_equal. f_equal. rewrite <- Hl. by destruct k.
Qed.

Lemma tl_insert_spec task k xs :
  tl_lock k = MUTEX_INITIALIZER → store_wf (k_store k) → list_repr (tl_list k) xs (k_store k) →
  Z.of_nat (length xs) + 1 < 2 ^ 64 → km_room 24 (heap (k_store k)) →
  (∃ item l s, tl_insert task k =
       Ok (tt, set_task_count (u64 (task_count k + 1)) (set_tl_list l (set_k_store s k))) ∧
     store_wf s ∧ list_repr l (xs ++ [(item, task)]) s ∧ item ∉ km_live (heap (k_store k)) ∧
     km_live (heap s) = {[item]} ∪ km_live (heap (k_store k)) ∧ same_outside (item :: xs.*1) (k_store k) s) ∨
  ∃ w, km_alloc 24 (heap (k_store k)) = Stop w ∧ tl_insert task k = Stop w.
Proof.
  intros Hl Hs Hr Hlen Hroom. destruct (list_add_spec (tl_list k) xs (k_store k) task Hs Hr Hlen Hroom)
    as [(item & l & s & Ha & Hni & Hlive & Hs' & Hr' & Hsame)|(w & Hw & Ha)].
  - left. exists item, l, s. split_and!; [by eapply tl_insert_Ok|done..].
  - right. exists w. split; [done|]. unfold tl_insert, gets, modify, mbind, K_bind, on_store. rewrite Hl, k_lock_idle. simpl. by rewrite Ha.
Qed.

Lemma tl_insert_stops task k xs w :
  tl_lock k = MUTEX_INITIALIZER → list_repr (tl_list k) xs (k_store k) → km_alloc 24 (heap (k_store k)) = Stop w →
  tl_insert task k = Stop w.
Proof.
  intros Hl Hr Ha. unfold tl_insert, gets, modify. unfold mbind at 1, K_bind at 1. rewrite Hl. kstep (k_lock_idle k).
  unfold mbind at 1 2, K_bind at 1 2. cbn [tl_list set_tl_lock]. apply K_bind_Stop. unfold on_store. cbn [k_store set_tl_lock].
  unfold list_add. rewrite (sanity _ _ _ Hr). simpl. by rewrite Ha.
Qed.

Lemma sched_insert_Ok task k i l s :
  list_add (sched_tasks k) task (k_store k) = Ok (i, l, s) → sched_insert task k = Ok (tt, set_sched_tasks l (set_k_store s k)).
Proof. intros Ha. unfold sched_insert, on_store. kpure. unfold mbind, K_bind. by rewrite Ha. Qed.

Context (ktask_runtime VSPACE_KERNEL : Z) (junk_context : Z → context_t) (junk : Z → Z).

(** The allocator has a task, a kernel stack and a list item to give. *)
Record alloc_task (h : A) (task stack : Z) (h2 : A) : Prop := {
  at_task : ∃ h1, km_room 72 h ∧ km_alloc 72 h = Ok (task, h1) ∧
              km_room KSTACK_SIZE h1 ∧ km_alloc KSTACK_SIZE h1 = Ok (stack, h2);
  at_item : km_room 24 h2 ∧ ∃ r, km_alloc 24 h2 = Ok r;
}.

(** What a new task looks like. *)
Record task_created k (entry arg0 flags vspace task kstack : Z) (sp : Z → Z) k' (xs : list (Z * Z)) : Prop := {
  tc_fresh : task ∉ km_live (heap (k_store k)) ∧ task ≠ 0;
  tc_task : ∃ tk, k_tasks k' = <[task := tk]> (k_tasks k) ∧
    tid tk = tid_counter k ∧ t_state tk = TASK_RUNNING ∧ irq_wait tk = false ∧ t_process tk = 0 ∧
    t_vspace tk = vspace ∧ kstack_base tk = kstack ∧ kstack_ptr tk = stack_align (kstack + KSTACK_SIZE) ∧
    ∃ ctx, k_contexts k' !! t_context tk = Some ctx ∧ t_context tk = kstack_ptr tk - sizeof_context ∧
      rip ctx = entry ∧ rsp ctx = sp (kstack_ptr tk) ∧ rdi ctx = arg0 ∧
      (cs ctx, ss ctx) = selectors flags ∧ rflags ctx = BIT 9;
  tc_tid : tid_counter k' = u64 (tid_counter k + 1);
  tc_count : task_count k' = u64 (task_count k + 1);
  tc_list : ∃ item, list_repr (tl_list k') (xs ++ [(item, task)]) (k_store k') ∧ item ∉ km_live (heap (k_store k)) ∧
    same_outside (item :: xs.*1) (k_store k) (k_store k');
  tc_live : {[task]} ∪ km_live (heap (k_store k)) ⊆ km_live (heap (k_store k'));
  tc_lock : tl_lock k' = MUTEX_INITIALIZER;
  tc_store : store_wf (k_store k');
  tc_rest : k_procs k' = k_procs k ∧ sched_tasks k' = sched_tasks k ∧ current_task k' = current_task k ∧
    k_vspaces k' = k_vspaces k ∧ k_fs k' = k_fs k ∧ sched_enabled k' = sched_enabled k;
}.

Lemma context_init_Ok k kptr entry sp flags a0 a1 :
  context_init junk_context kptr entry sp flags a0 a1 k =
    Ok (kptr - sizeof_context, set_k_contexts (<[kptr - sizeof_context :=
      context_fill (junk_context (kptr - sizeof_context)) entry sp flags a0 a1]> (k_contexts k)) k).
Proof. done. Qed.

(** A task as it is made: running, of no process. *)
Definition made_task (n vspace kstack ustack : Z) : task_t :=
  {| tid := n; t_state := TASK_RUNNING; t_context := stack_align (kstack + KSTACK_SIZE) - sizeof_context; t_vspace := vspace;
     kstack_ptr := stack_align (kstack + KSTACK_SIZE); kstack_base := kstack; irq_wait := false; user_stack := ustack;
     t_process := 0 |}.

(** The kernel with a new task, whose first context is [ctx] and whose item is in the list [l]
    of the store [s]. *)
Definition with_task k task (t : task_t) ctx l s : kernel :=
  set_task_count (u64 (task_count k + 1)) (set_tl_list l (set_k_store s
    (set_k_tasks (<[task := t]> (k_tasks k)) (set_tid_counter (u64 (tid_counter k + 1))
      (set_k_contexts (<[t_context t := ctx]> (k_contexts k)) k))))).

Lemma create_task_Ok k entry sp flags a0 a1 vspace ustack task kstack h1 h2 i l s :
  tl_lock k = MUTEX_INITIALIZER → km_alloc 72 (heap (k_store k)) = Ok (task, h1) → km_alloc KSTACK_SIZE h1 = Ok (kstack, h2) →
  list_add (tl_list k) task {| nodes := nodes (k_store k); heap := h2 |} = Ok (i, l, s) →
  let t := made_task (tid_counter k) vspace kstack (ustack task) in
  create_task junk_context entry sp flags a0 a1 vspace ustack k =
    Ok (task, with_task k task t (context_fill (junk_context (t_context t)) entry (sp (kstack_ptr t)) flags a0 a1) l s).
Proof.
  intros Hl Ha1 Ha2 Hadd t. unfold create_task. kstep (new_Ok 72 k task h1 Ha1).
  kstep (new_Ok KSTACK_SIZE (set_k_store {| nodes := nodes (k_store k); heap := h1 |} k) kstack h2 Ha2).
  cbv zeta. set (kptr := stack_align (kstack + KSTACK_SIZE)).
  match goal with |- context [(_ ≫= _) ?k0] => set (k1 := k0) end.
  kstep (context_init_Ok k1 kptr entry (sp kptr) flags a0 a1).
  kpure. cbn [objs set_objs task_object].
  match goal with |- context [(tl_insert task ≫= _) ?k0] => set (k2 := k0) end.
  by kstep (tl_insert_Ok task k2 i l s Hl Hadd).
Qed.

Lemma create_task_spec k xs entry sp flags a0 a1 vspace ustack task kstack h2 :
  tl_lock k = MUTEX_INITIALIZER → store_wf (k_store k) → list_repr (tl_list k) xs (k_store k) →
  Z.of_nat (length xs) + 1 < 2 ^ 64 → alloc_task (heap (k_store k)) task kstack h2 →
  ∃ k', create_task junk_context entry sp flags a0 a1 vspace ustack k = Ok (task, k') ∧
    task_created k entry a0 flags vspace task kstack sp k' xs ∧
    ∃ tk, k_tasks k' !! task = Some tk ∧ user_stack tk = ustack task.
Proof.
  intros Hl Hs Hr Hlen [(h1 & Hroom1 & Ha1 & Hroom2 & Ha2) (Hroom3 & r & Ha3)].
  destruct (store_wf_alloc _ _ _ _ Hs Hroom1 Ha1) as (Hs1 & Hfresh & Hnz).
  destruct (store_wf_alloc {| nodes := nodes (k_store k); heap := h1 |} _ _ _ Hs1 Hroom2 Ha2) as (Hs2 & _ & _).
  simpl in Hs2. set (s2 := {| nodes := nodes (k_store k); heap := h2 |}) in *.
  destruct (list_add_spec (tl_list k) xs s2 task Hs2) as [(item & l & s & Hadd & Hni & Hlive & Hs' & Hr' & Hsame)|(w & Hw & _)];
    [exact (list_repr_heap _ _ _ h2 Hr)|done|exact Hroom3| |simpl in Hw; congruence].
  eexists. split; [by eapply create_task_Ok|]. split; [|eexists; split; [apply lookup_insert_eq|done]].
  assert (km_live h2 = {[kstack]} ∪ ({[task]} ∪ km_live (heap (k_store k)))) as Hlive2.
  { destruct (km_alloc_ok _ _ _ _ (sw_inv _ Hs) Hroom1 Ha1) as (Hi1 & _ & _ & <-).
    by destruct (km_alloc_ok _ _ _ _ Hi1 Hroom2 Ha2) as (_ & _ & _ & ?). }
  subst s2. simpl in Hni, Hlive, Hsame. rewrite Hlive2 in Hni, Hlive.
  split; [done| |done|done|exists item; split_and!; [done| |done]| |done|done|done].
  2: { clear -Hni. set_solver. }
  2: { cbn. rewrite Hlive. clear. set_solver. }
  eexists. split; [done|]. split_and!; [done..|]. eexists. split; [apply lookup_insert_eq|].
  split; [done|]. unfold context_fill. destruct (selectors flags) eqn:Hsel. by split_and!.
Qed.

(** When the allocator cannot serve, the creation stops there. *)
Lemma create_task_or k xs entry sp flags a0 a1 vspace ustack :
  tl_lock k = MUTEX_INITIALIZER → store_wf (k_store k) → list_repr (tl_list k) xs (k_store k) →
  Z.of_nat (length xs) + 1 < 2 ^ 64 → (∀ n h, km_room n h) →
  (∃ task kstack k', create_task junk_context entry sp flags a0 a1 vspace ustack k = Ok (task, k') ∧
     task_created k entry a0 flags vspace task kstack sp k' xs) ∨
  (∃ w, create_task junk_context entry sp flags a0 a1 vspace ustack k = Stop w ∧ no_memory w).
Proof.
  intros Hl Hs Hr Hlen Hroom.
  destruct (km_alloc 72 (heap (k_store k))) as [[task h1]|w] eqn:Ha1.
  2: { right. exists w. split; [|by eexists _, _]. apply K_bind_Stop. unfold new, on_heap, on_store. by rewrite Ha1. }
  destruct (km_alloc KSTACK_SIZE h1) as [[kstack h2]|w] eqn:Ha2.
  2: { right. exists w. split; [|by eexists _, _]. unfold create_task. kstep (new_Ok 72 k task h1 Ha1). apply K_bind_Stop.
       unfold new, on_heap, on_store. cbn. by rewrite Ha2. }
  destruct (km_alloc 24 h2) as [r|w] eqn:Ha3.
  - left. destruct (create_task_spec k xs entry sp flags a0 a1 vspace ustack task kstack h2 Hl Hs Hr Hlen) as (k' & Hc & Ht & _); [|eauto].
    split; [exists h1|]; split_and!; eauto.
  - right. exists w. split; [|by eexists _, _]. unfold create_task. kstep (new_Ok 72 k task h1 Ha1).
    kstep (new_Ok KSTACK_SIZE (set_k_store {| nodes := nodes (k_store k); heap := h1 |} k) kstack h2 Ha2).
    cbv zeta. match goal with |- context [(_ ≫= _) ?k0] => set (k1 := k0) end.
    kstep (context_init_Ok k1 (stack_align (kstack + KSTACK_SIZE)) entry (sp (stack_align (kstack + KSTACK_SIZE))) flags a0 a1).
    kpure. apply K_bind_Stop. match goal with |- tl_insert task ?k0 = _ => set (k2 := k0) end.
    exact (tl_insert_stops task k2 xs w Hl (list_repr_heap _ _ _ h2 Hr) Ha3).
Qed.

(** Creating a task.  With the task list free and the allocator able to serve, both
    [create_kernel_task] and [create_user_task] succeed: the task is a fresh object with the next
    thread number, running, of no process, in its address space; its first context lies at the
    top of its own kernel stack and starts the entry point with interrupts enabled, a kernel task
    in the kernel's segments on that stack with its function as the argument, a user task in the
    user's segments on its user stack; the task is appended to the task list, the counters are
    one higher, and nothing else changes. *)
Theorem create_task_correct k xs task kstack h2 :
  tl_lock k = MUTEX_INITIALIZER → store_wf (k_store k) → list_repr (tl_list k) xs (k_store k) →
  Z.of_nat (length xs) + 1 < 2 ^ 64 → alloc_task (heap (k_store k)) task kstack h2 →
  (∀ func, ∃ k', create_kernel_task ktask_runtime VSPACE_KERNEL junk_context junk func k = Ok (task, k') ∧
     task_created k ktask_runtime func CTX_KERNEL VSPACE_KERNEL task kstack (λ kptr, kptr) k' xs) ∧
  (∀ vspace entry us, ∃ k', create_user_task junk_context vspace entry us k = Ok (task, k') ∧
     task_created k entry 0 CTX_USERMODE vspace task kstack (λ _, stack_ptr us) k' xs ∧
     ∃ tk, k_tasks k' !! task = Some tk ∧ user_stack tk = us_index us).
Proof.
  intros Hl Hs Hr Hlen Ha. split.
  - intros func. destruct (create_task_spec k xs ktask_runtime (λ kptr, kptr) CTX_KERNEL func 0 VSPACE_KERNEL
      (λ task, junk (task + 56)) task kstack h2 Hl Hs Hr Hlen Ha) as (k' & Hc & Ht & _). by exists k'.
  - intros vspace entry us. destruct (create_task_spec k xs entry (λ _, stack_ptr us) CTX_USERMODE 0 0 vspace
      (λ _, us_index us) task kstack h2 Hl Hs Hr Hlen Ha) as (k' & Hc & Ht & Hus). by exists k'.
Qed.
End creation.

(** ** A machine with two tasks *)

(** The tasks 7 and 9 share the address space 1; 7 runs. *)
Definition demo_task (n vs : Z) : task_t :=
  {| tid := n; t_state := TASK_RUNNING; t_context := 1000 + n; t_vspace := vs; kstack_ptr := 5000 + n;
     kstack_base := 4000; irq_wait := false; user_stack := 0; t_process := 0 |}.
Definition demo_kernel (tasks : gmap Z task_t) (procs : gmap Z proc_t) : kernel Bump.t unit :=
  {| k_store := demo_store; k_tasks := tasks; k_procs := procs; k_stacks := ∅; k_ufds := ∅; k_loaders := ∅;
     k_vspaces := {[ 1 := {| vs_lock := MUTEX_INITIALIZER; pml4_ppn := 3 |} ]}; k_contexts := ∅;
     k_handlers := ∅; k_vfs := no_files; k_images := no_images; k_fs := tt; sched_tasks := demo_list; sched_enabled := true; current_task := 7;
     k_cr3 := 12288; kernel_sp := 5007; tid_counter := 10; pid_counter := 1; tl_list := list_init;
     tl_lock := MUTEX_INITIALIZER; task_count := 2; irq_handlers := []; irq_ongoing := false; k_out := [] |}.
Definition demo_tasks : gmap Z task_t := {[ 7 := demo_task 7 1; 9 := demo_task 9 1 ]}.

#[local] Existing Instance debug_build.
#[local] Existing Instances Bump.kmalloc Bump.laws.

Lemma in_two (t x y : Z) : t ∈ [x; y] → t = x ∨ t = y.
Proof. rewrite !elem_of_cons, elem_of_nil. tauto. Qed.

Lemma demo_sched_ok tasks procs :
  (∀ t, t ∈ [7; 9] → ∃ tk, tasks !! t = Some tk ∧ (t_process tk = 0 ∨ is_Some (procs !! t_process tk))) →
  sched_ok (demo_kernel tasks procs) demo_items.
Proof.
  intros Ht. split; [exact demo_wf|exact demo_repr|]. intros t Hin. split; [|by apply Ht].
  change (demo_items.*2) with [7; 9] in Hin. rewrite !elem_of_cons in Hin.
  destruct Hin as [->|[->|Hin]]; [done|done|by apply elem_of_nil in Hin].
Qed.

Lemma demo_alive t : t ∈ [7; 9] → alive (demo_kernel demo_tasks ∅) t ∧ runnable (demo_kernel demo_tasks ∅) t.
Proof.
  intros Hin. rewrite !elem_of_cons in Hin. destruct Hin as [->|[->|Hin]]; [| |by apply elem_of_nil in Hin].
  - split; [exists (demo_task 7 1); split; [done|]; intros [?|[? _]]; done|exists (demo_task 7 1); done].
  - split; [exists (demo_task 9 1); split; [done|]; intros [?|[? _]]; done|exists (demo_task 9 1); done].
Qed.

Lemma demo_settled : settled (demo_kernel demo_tasks ∅) demo_items.
Proof.
  assert (∀ t, t ∈ [7; 9] → demo_tasks !! t = Some (demo_task t 1)) as Hd.
  { intros t. rewrite !elem_of_cons, elem_of_nil. by intros [->|[->|[]]]. }
  split.
  - apply demo_sched_ok. intros t Ht. exists (demo_task t 1). split; [by apply Hd|by left].
  - split; [done|]. intros _. exists (demo_task 7 1), {| vs_lock := MUTEX_INITIALIZER; pml4_ppn := 3 |}. by split_and!.
  - intros t tk Ht Htk. simpl in Htk. rewrite (Hd t Ht) in Htk. injection Htk as <-. by eexists.
  - intros t Ht. by apply demo_alive.
  - intros ct Hct. vm_compute in Hct. injection Hct as <-. done.
Qed.

Lemma schedule_round_robin_witness :
  ∃ k', schedule 77 (demo_kernel demo_tasks ∅) = Ok (77, k') ∧ sched_ok k' [(64, 9); (32, 7)].
Proof.
  destruct demo_settled as [H1 H2 H3 H4 H5].
  destruct (schedule_round_robin 77 (demo_kernel demo_tasks ∅) [] 32 7 [(64, 9)] H1 H2 H3 H5)
    as (tk & c & k' & _ & Hs & Hk' & _ & _ & Hc & _).
  - intros u Hu. inversion Hu.
  - apply demo_alive. left.
  - apply demo_alive. left.
  - exists k'. rewrite Hs, Hc. split; [reflexivity|exact Hk'].
Defined.

Lemma schedule_fair_witness :
  ∃ n k', (1 <= n <= 2)%nat ∧ turns (take n [70; 71]) (demo_kernel demo_tasks ∅) = Ok k' ∧ current_task k' = 9.
Proof.
  apply (schedule_fair (demo_kernel demo_tasks ∅) demo_items 9 [70; 71] demo_settled).
  - right. left.
  - apply demo_alive. right. left.
  - reflexivity.
Defined.

(** A stack full of zeros. *)
Definition demo_context : context_t :=
  {| r15 := 0; r14 := 0; r13 := 0; r12 := 0; r11 := 0; r10 := 0; r9 := 0; r8 := 0; rdi := 0; rsi := 0; rdx := 0;
     rcx := 0; rbx := 0; rax := 0; rbp := 0; gs := 0; fs := 0; irq := 0; error := 0; rip := 0; cs := 0; rflags := 0;
     rsp := 0; ss := 0 |}.

(** The task 7 has ended. *)
Definition killed_tasks : gmap Z task_t := {[ 7 := set_t_state TASK_KILLED (demo_task 7 1); 9 := demo_task 9 1 ]}.
(** The demonstration queue after one rotation: 9, then 7. *)
Definition rotated_kernel (tasks : gmap Z task_t) : kernel Bump.t unit :=
  match list_rotate demo_list demo_store with
  | Ok (l, s) => set_sched_tasks l (set_k_store s (demo_kernel tasks ∅))
  | Stop _ => demo_kernel tasks ∅
  end.

Lemma rotated_ok tasks :
  (∀ t, t ∈ [7; 9] → ∃ tk, tasks !! t = Some tk ∧ t_process tk = 0) → sched_ok (rotated_kernel tasks) [(64, 9); (32, 7)].
Proof.
  intros Ht. destruct (op_rotate demo_list (32, 7) [(64, 9)] demo_store demo_wf demo_repr) as (l & s & Hr & Hpost).
  unfold rotated_kernel. rewrite Hr. apply (sched_ok_step _ demo_items); [|done|].
  - apply demo_sched_ok. intros t Hin. destruct (Ht t Hin) as (tk & ? & ?). exists tk. tauto.
  - intros t. simpl. clear. set_solver.
Qed.

Lemma rotated_eq tasks :
  k_tasks (rotated_kernel tasks) = tasks ∧ current_task (rotated_kernel tasks) = 7 ∧
  k_procs (rotated_kernel tasks) = ∅ ∧ sched_enabled (rotated_kernel tasks) = true ∧
  k_vspaces (rotated_kernel tasks) = {[ 1 := {| vs_lock := MUTEX_INITIALIZER; pml4_ppn := 3 |} ]} ∧
  k_cr3 (rotated_kernel tasks) = 12288 ∧ kernel_sp (rotated_kernel tasks) = 5007.
Proof. split_and!; reflexivity. Qed.

Lemma schedule_reaps_killed_witness :
  ∃ k', schedule 77 (rotated_kernel killed_tasks) = Ok (1009, k') ∧ sched_ok k' [(64, 9)].
Proof.
  destruct (rotated_eq killed_tasks) as (Ht & Hc & Hp & He & Hv & Hcr & Hsp).
  destruct (schedule_reaps_killed 77 (rotated_kernel killed_tasks) [] 64 9 [(32, 7)]
    (set_t_state TASK_KILLED (demo_task 7 1))) as (p & b & q & tk & k' & Heq & Htk & Hs & Hk' & _).
  - apply rotated_ok. intros t. rewrite !elem_of_cons, elem_of_nil.
    intros [->|[->|[]]]; eexists; split; reflexivity.
  - split; [exact He|]. intros _. rewrite Ht, Hc, Hv, Hcr, Hsp.
    exists (set_t_state TASK_KILLED (demo_task 7 1)), {| vs_lock := MUTEX_INITIALIZER; pml4_ppn := 3 |}.
    split_and!; reflexivity.
  - intros t tk Hin Htk. rewrite Ht in Htk. rewrite Hv. apply (in_two t 9 7) in Hin.
    destruct Hin as [->| ->]; vm_compute in Htk; injection Htk as <-; by eexists.
  - rewrite Hc, Ht. reflexivity.
  - reflexivity.
  - rewrite Hc. discriminate.
  - rewrite Hc. right. left.
  - intros u Hu. inversion Hu.
  - exists (demo_task 9 1). rewrite Ht. split; [reflexivity|]. intros [Hk|[Hk _]]; [discriminate Hk|apply Hk; reflexivity].
  - exists (demo_task 9 1). rewrite Ht. split; reflexivity.
  - rewrite Ht in Htk. vm_compute in Htk. injection Htk as <-. rewrite Hc in Heq. exists k'. split; [exact Hs|].
    destruct p as [|z p]; simpl in Heq.
    + injection Heq as <- <-. exact Hk'.
    + injection Heq as _ Heq. destruct p as [|z1 p]; simpl in Heq; [discriminate Heq|].
      injection Heq as _ Heq. destruct p; discriminate Heq.
Defined.

Lemma kernel_task_ends_witness :
  ∃ k', run_ktask (mret tt) 77 (rotated_kernel demo_tasks) = Ok (1009, k') ∧ sched_ok k' [(64, 9)].
Proof.
  destruct (rotated_eq demo_tasks) as (Ht & Hc & Hp & He & Hv & Hcr & Hsp).
  destruct (kernel_task_ends (mret tt : K (kernel Bump.t unit) unit) 77 (rotated_kernel demo_tasks) (rotated_kernel demo_tasks) [] 64 9 [(32, 7)])
    as (p & b & q & tk & k' & Heq & Htk & Hs & Hk' & _).
  - reflexivity.
  - apply rotated_ok. intros t. rewrite !elem_of_cons, elem_of_nil.
    intros [->|[->|[]]]; eexists; split; reflexivity.
  - split; [exact He|]. intros _. rewrite Ht, Hc, Hv, Hcr, Hsp.
    exists (demo_task 7 1), {| vs_lock := MUTEX_INITIALIZER; pml4_ppn := 3 |}. split_and!; reflexivity.
  - intros t tk Hin Htk. rewrite Ht in Htk. rewrite Hv. apply (in_two t 9 7) in Hin.
    destruct Hin as [->| ->]; vm_compute in Htk; injection Htk as <-; by eexists.
  - rewrite Hc. discriminate.
  - rewrite Hc. left.
  - rewrite Hc. intros Hin. inversion Hin.
  - rewrite Hc. discriminate.
  - intros u Hu. inversion Hu.
  - exists (demo_task 9 1). rewrite Ht. split; [reflexivity|]. intros [Hk|[Hk _]]; [discriminate Hk|apply Hk; reflexivity].
  - exists (demo_task 9 1). rewrite Ht. split; reflexivity.
  - rewrite Ht in Htk. vm_compute in Htk. injection Htk as <-. rewrite Hc in Heq. exists k'. split; [exact Hs|].
    destruct p as [|z p]; simpl in Heq.
    + injection Heq as <- <-. exact Hk'.
    + injection Heq as _ Heq. destruct p as [|z1 p]; simpl in Heq; [discriminate Heq|].
      injection Heq as _ Heq. destruct p; discriminate Heq.
Defined.

(** The process 5 of the task 9 has ended while 7 runs. *)
Definition dead_proc : proc_t :=
  {| pid := 1; uid := 0; gid := 0; p_state := PROC_KILLED; p_task_list := list_init; task_list_lock := MUTEX_INITIALIZER;
     stack_list := list_init; stack_list_lock := MUTEX_INITIALIZER; fd_counter := 0; fd_list := list_init;
     fd_list_lock := MUTEX_INITIALIZER; p_vspace := 1; heap_brk := 0; heap_lock := MUTEX_INITIALIZER;
     working_dir := 0; p_loader := 0 |}.
Definition orphan_tasks : gmap Z task_t := {[ 7 := demo_task 7 1; 9 := set_t_process 5 (demo_task 9 1) ]}.

Lemma task_schedulable_removes_current_witness :
  ∃ k', task_schedulable 9 (demo_kernel orphan_tasks {[ 5 := dead_proc ]}) = Ok (false, k') ∧ sched_ok k' [(64, 9)].
Proof.
  destruct (task_schedulable_removes_current (demo_kernel orphan_tasks {[ 5 := dead_proc ]}) demo_items 9
    (set_t_process 5 (demo_task 9 1))) as [H _].
  - apply demo_sched_ok. intros t. rewrite !elem_of_cons, elem_of_nil. intros [->|[->|[]]]; eexists; split; try reflexivity.
    + left. reflexivity.
    + right. by eexists.
  - right. left.
  - reflexivity.
  - right. split; [discriminate|]. exists dead_proc. split; reflexivity.
  - destruct H as (l1 & a & l2 & k' & Heq & Hs & Hk' & _); [left|]. exists k'. split; [exact Hs|].
    change (current_task (demo_kernel orphan_tasks {[5 := dead_proc]})) with 7 in Heq. unfold demo_items in Heq.
    destruct l1 as [|z l1]; simpl in Heq; [injection Heq as <- <-; exact Hk'|].
    injection Heq as _ Heq. destruct l1 as [|z1 l1]; simpl in Heq; [discriminate Heq|].
    injection Heq as _ Heq. destruct l1; discriminate Heq.
Defined.

Lemma create_task_correct_witness :
  ∃ k', create_kernel_task 100 1 (λ _, demo_context) (λ _, 0) 200 (demo_kernel demo_tasks ∅) = Ok (96, k') ∧
    task_count k' = 3.
Proof.
  destruct (create_task_correct 100 1 (λ _, demo_context) (λ _, 0) (demo_kernel demo_tasks ∅) [] 96 168
    {| Bump.top := 8360; Bump.live := {[168]} ∪ ({[96]} ∪ {[32; 64]}) |}) as [H _].
  - reflexivity.
  - exact demo_wf.
  - apply list_init_repr.
  - reflexivity.
  - split.
    + eexists. repeat split.
    + split; [exact I|]. eexists. reflexivity.
  - destruct (H 200) as (k' & Hc & Ht). exists k'. split; [exact Hc|]. rewrite (tc_count _ _ _ _ _ _ _ _ _ _ Ht). reflexivity.
Defined.
