(* ===== verification/UserMem.v ===== *)
(** The memory of processes: sched/userstack.c, mm/sbrk.c and the part of mm/pagefault.c that
    loads stack and heap pages. *)
From S2P Require Import Prelude Words Mutex Bitmap PageAlloc Dll Lists Vspace Space Errno Kernel.
Open Scope Z_scope.

(** [USER_BREAK] (kernel/arch/x86-common/include/arch/definitions.h, line 13). *)
Definition USER_BREAK : Z := 0x0000800000000000.
(** [STACK_SIZE] (kernel/kernel/include/sched/userstack.h, lines 5-6). *)
Definition STACK_SIZE : Z := 32 * 1024 * 1024.

Section operations.
Context {A F : Type} `{B : Build} `{KM : Kmalloc A} `{PM : PhysMem A}.
Abbreviation kernel := (Kernel.kernel A F).

(** ** Stacks *)

(** What [create_stack] fills in (kernel/kernel/sched/userstack.c, lines 22-34). *)
Definition new_stack (index : Z) : userstack_t :=
  let page_count := STACK_SIZE / PAGE_SIZE in
  let start_page := u64 (Z.shiftr USER_BREAK PAGE_SHIFT - 2 * (index + 1) * page_count) in
  {| us_index := index; start_page := start_page; page_count := page_count;
     stack_ptr := u64 (Z.shiftl (u64 (start_page + Z.shiftr STACK_SIZE PAGE_SHIFT)) PAGE_SHIFT);
     us_allocated := true; pages_mapped := 0 |}.

(** The search of [create_stack] for a stack that is not in use
    ([create_stack] (kernel/kernel/sched/userstack.c, lines 10-20)). *)
Definition reuse_stack (proc stack : Z) : K kernel (option Z) :=
  s ← load (T := userstack_t) stack;
  if us_allocated s then mret None
  else
    change stack (set_us_allocated true);;
    unlock_in stack_list_lock set_stack_list_lock proc;;
    mret (Some stack).

(** [create_stack] (kernel/kernel/sched/userstack.c, lines 6-39). *)
Definition create_stack (proc : Z) : K kernel Z :=
  lock_in stack_list_lock set_stack_list_lock proc;;
  pr ← load (T := proc_t) proc;
  found ← foreach (stack_list pr) (reuse_stack proc);
  match found with
  | Some stack => mret stack
  | None =>
      index ← lift (list_size (stack_list pr));
      stack ← new 48;
      put stack (new_stack index);;
      '(_, l) ← on_store (list_add (stack_list pr) stack);
      change proc (set_stack_list l);;
      unlock_in stack_list_lock set_stack_list_lock proc;;
      mret stack
  end.

(** The pages of a stack. *)
Definition in_stack (s : userstack_t) (virt_page : Z) : bool :=
  (start_page s <=? virt_page) && (virt_page <? u64 (start_page s + page_count s)).

(** The body of the loop of [stack_load] (kernel/kernel/sched/userstack.c, lines 49-60). *)
Definition load_into (vspace virt_page stack : Z) : K kernel (option Z) :=
  s ← load (T := userstack_t) stack;
  if us_allocated s && in_stack s virt_page then
    ppn ← k_alloc_page;
    k_map vspace virt_page ppn (Z.lor PG_NOEXEC (Z.lor PG_USER PG_WRITE));;
    change stack (λ s, set_pages_mapped (u64 (pages_mapped s + 1)) s);;
    mret (Some SUCCESS)
  else mret None.

(** [stack_load] (kernel/kernel/sched/userstack.c, lines 41-63). *)
Definition stack_load (proc virt_page : Z) : K kernel Z :=
  lock_in stack_list_lock set_stack_list_lock proc;;
  pr ← load (T := proc_t) proc;
  ret ← foreach (stack_list pr) (load_into (p_vspace pr) virt_page);
  unlock_in stack_list_lock set_stack_list_lock proc;;
  mret (default (- ENOENT) ret).

(** The loop that unmaps a stack (kernel/kernel/sched/userstack.c, lines 76-80), from the end
    down; at most [fuel] pages. *)
Fixpoint unwind (fuel : nat) (vspace stack end_page : Z) : K kernel unit :=
  s ← load (T := userstack_t) stack;
  if pages_mapped s =? 0 then mret tt
  else
    match fuel with
    | O => kstop NoFuel
    | S fuel =>
        b ← k_unmap vspace end_page;
        when b (change stack (λ s, set_pages_mapped (u64 (pages_mapped s - 1)) s));;
        unwind fuel vspace stack (u64 (end_page - 1))
    end.

(** The loop that drops the unused stacks at the end of the list
    (kernel/kernel/sched/userstack.c, lines 82-93). *)
Fixpoint trim_stacks (fuel : nat) (proc : Z) : K kernel unit :=
  pr ← load (T := proc_t) proc;
  it ← lift (list_it_back (stack_list pr));
  if it =? 0 then mret tt
  else
    last_stack ← of_store (list_it_get it);
    s ← load (T := userstack_t) last_stack;
    if us_allocated s then mret tt
    else
      match fuel with
      | O => kstop NoFuel
      | S fuel =>
          l ← on_store (list_it_remove (stack_list pr) it);
          change proc (set_stack_list l);;
          trim_stacks fuel proc
      end.

(** [delete_stack] (kernel/kernel/sched/userstack.c, lines 65-95), with a bound on the pages it
    looks at. *)
Definition delete_stack (fuel : nat) (process index : Z) : K kernel unit :=
  lock_in stack_list_lock set_stack_list_lock process;;
  pr ← load (T := proc_t) process;
  stack ← of_store (list_get (stack_list pr) index);
  ok ← (if stack =? 0 then mret false else s ← load (T := userstack_t) stack; mret (us_allocated s));
  lift (assert_ ok);;
  change stack (set_us_allocated false);;
  s ← load (T := userstack_t) stack;
  unwind fuel (p_vspace pr) stack (u64 (start_page s + page_count s - 1));;
  n ← gets (λ k, walk_fuel (k_store k));
  trim_stacks n process;;
  unlock_in stack_list_lock set_stack_list_lock process.

(** ** The heap of a process *)

(** The break after [sbrk] (kernel/kernel/mm/sbrk.c, lines 23-26): additions of 64-bit words. *)
Definition moved_break (heap_brk increment min_heap_break : Z) : Z :=
  if u64 (heap_brk + increment) <? min_heap_break then min_heap_break else u64 (heap_brk + increment).

(** The first page that a shrinking break leaves
    ([sys_sbrk] (kernel/kernel/mm/sbrk.c, lines 36-38)). *)
Definition first_unmap (brk : Z) : Z :=
  Z.shiftr brk PAGE_SHIFT + (if negb (brk mod PAGE_SIZE =? 0) then 1 else 0).
(** The last one ([sys_sbrk] (kernel/kernel/mm/sbrk.c, lines 40-42)). *)
Definition last_unmap (old_break : Z) : Z :=
  if old_break mod PAGE_SIZE =? 0 then u64 (Z.shiftr old_break PAGE_SHIFT - 1) else Z.shiftr old_break PAGE_SHIFT.

(** The loop over them (kernel/kernel/mm/sbrk.c, lines 44-45), [n] pages. *)
Fixpoint unmap_range (n : nat) (vspace page : Z) : K kernel unit :=
  match n with
  | O => mret tt
  | S n => _ ← k_unmap vspace page; unmap_range n vspace (page + 1)
  end.

(** [sys_sbrk] (kernel/kernel/mm/sbrk.c, lines 10-50). *)
Definition sys_sbrk (increment : Z) : K kernel Z :=
  cur ← gets current_task;
  t ← load (T := task_t) cur;
  let process := t_process t in
  pr ← load (T := proc_t) process;
  if heap_brk pr =? SIZE_MAX then mret SIZE_MAX
  else
    lift (assert_ (negb (p_loader pr =? 0)));;
    ld ← load (T := loader_t) (p_loader pr);
    let old_break := heap_brk pr in
    lock_in heap_lock set_heap_lock process;;
    let brk := moved_break old_break increment (min_heap_break ld) in
    change process (set_heap_brk brk);;
    when (increment <? 0)
      (unmap_range (Z.to_nat (last_unmap old_break - first_unmap brk + 1)) (p_vspace pr) (first_unmap brk));;
    unlock_in heap_lock set_heap_lock process;;
    mret old_break.

(** [heap_load] (kernel/kernel/mm/sbrk.c, lines 52-66). *)
Definition heap_load (proc addr : Z) : K kernel Z :=
  lock_in heap_lock set_heap_lock proc;;
  pr ← load (T := proc_t) proc;
  ld ← load (T := loader_t) (p_loader pr);
  ret ← (if (min_heap_break ld <=? addr) && (addr <? heap_brk pr) then
           ppn ← k_alloc_page;
           k_map (p_vspace pr) (Z.shiftr addr PAGE_SHIFT) ppn (Z.lor PG_WRITE PG_USER);;
           mret SUCCESS
         else mret (- ENOENT));
  unlock_in heap_lock set_heap_lock proc;;
  mret ret.
End operations.

(** ** Stacks in order *)

(** The pages below the user break. *)
Definition user_page (v : Z) : Prop := 0 <= v < 2 ^ 35.

Lemma user_page_inj v v' : user_page v → user_page v' → vpath v = vpath v' → v = v'.
Proof.
  unfold user_page. intros Hv Hv' Heq%vpath_inj.
  change (2 ^ 36) with 68719476736 in *. change (2 ^ 35) with 34359738368 in *.
  rewrite !Z.mod_small in Heq by lia. done.
Qed.

Section proofs.
Context {A F : Type} `{B : Build} `{KM : Kmalloc A} {KL : KmallocLaws A} `{PM : PhysMem A}.
Abbreviation kernel := (Kernel.kernel A F).
Implicit Types (k : kernel) (pr : proc_t) (xs : list (Z * Z)).

(** The stack with the index [i]: it has the place that belongs to the index. *)
Definition stack_at (i : nat) (s : userstack_t) : Prop :=
  us_index s = Z.of_nat i ∧ page_count s = 8192 ∧ start_page s = 2 ^ 35 - 16384 * (Z.of_nat i + 1) ∧
  stack_ptr s = (start_page s + 8192) * 4096.

Lemma new_stack_at i : Z.of_nat i < 2 ^ 20 → stack_at i (new_stack (Z.of_nat i)).
Proof.
  intros Hi. change (2 ^ 20) with 1048576 in Hi. unfold stack_at, new_stack.
  cbn [us_index page_count start_page stack_ptr].
  change (STACK_SIZE / PAGE_SIZE) with 8192. change (Z.shiftr USER_BREAK PAGE_SHIFT) with 34359738368.
  change (Z.shiftr STACK_SIZE PAGE_SHIFT) with 8192. change (2 ^ 35) with 34359738368.
  assert (∀ x, 0 <= x < 18446744073709551616 → u64 x = x) as Hu by (intros; by apply uwrap_small).
  rewrite (Hu (34359738368 - 2 * (Z.of_nat i + 1) * 8192)) by lia.
  rewrite Z.shiftl_mul_pow2 by (unfold PAGE_SHIFT; lia). change (2 ^ PAGE_SHIFT) with 4096.
  rewrite (Hu (34359738368 - 2 * (Z.of_nat i + 1) * 8192 + 8192)) by lia.
  rewrite Hu by lia. split_and!; lia.
Qed.

(** The pages of a stack, and the gap of 8192 pages below those of the one before. *)
Definition stack_pages (s : userstack_t) (v : Z) : Prop := start_page s <= v < start_page s + page_count s.

Lemma stack_at_pages i s v : stack_at i s → Z.of_nat i < 2 ^ 20 → in_stack s v = true ↔ stack_pages s v.
Proof.
  intros (_ & Hc & Hs & _) Hi. change (2 ^ 20) with 1048576 in Hi. change (2 ^ 35) with 34359738368 in Hs.
  unfold in_stack, stack_pages. rewrite uwrap_small.
  2: { unfold is_word. change (2 ^ 64) with 18446744073709551616. lia. }
  rewrite andb_true_iff, Z.leb_le, Z.ltb_lt. done.
Qed.

Lemma stack_at_gap i j s s' :
  stack_at i s → stack_at j s' → (i < j)%nat → start_page s' + page_count s' + 8192 <= start_page s.
Proof. intros (_ & Hc & Hs & _) (_ & Hc' & Hs' & _) Hij. lia. Qed.

Lemma stack_at_user i s v : stack_at i s → Z.of_nat i < 2 ^ 20 → stack_pages s v → user_page v.
Proof.
  intros (_ & Hc & Hs & _) Hi Hv. unfold stack_pages, user_page in *. change (2 ^ 20) with 1048576 in Hi.
  change (2 ^ 35) with 34359738368 in *. lia.
Qed.

(** The stacks of a process: its list, unlocked, holds them by index. *)
Record stacks_ok k (proc : Z) pr xs : Prop := {
  sk_proc : k_procs k !! proc = Some pr;
  sk_lock : stack_list_lock pr = MUTEX_INITIALIZER;
  sk_store : store_wf (k_store k);
  sk_repr : list_repr (stack_list pr) xs (k_store k);
  sk_len : Z.of_nat (length xs) < 2 ^ 20;
  sk_stack i x : xs.*2 !! i = Some x → ∃ s, k_stacks k !! x = Some s ∧ stack_at i s;
  sk_live x : x ∈ xs.*2 → x ∈ km_live (heap (k_store k));
  sk_nodup : NoDup xs.*2;
}.

(** The process while its stacks are locked. *)
Definition locked k pr : proc_t := set_stack_list_lock (mx_taken (current_task k)) pr.
Definition lock_stacks k proc pr : kernel := set_k_procs (<[proc := locked k pr]> (k_procs k)) k.

Lemma lock_stacks_Ok k proc pr xs :
  stacks_ok k proc pr xs → lock_in stack_list_lock set_stack_list_lock proc k = Ok (tt, lock_stacks k proc pr).
Proof. intros Hk. by apply (lock_in_idle (O := proc_object) _ _ _ pr); [apply (sk_proc _ _ _ _ Hk)|apply (sk_lock _ _ _ _ Hk)]. Qed.

(** Unlocking puts the process back as it was. *)
Lemma unlock_stacks_Ok k k1 proc pr xs :
  stacks_ok k proc pr xs → k_procs k1 = <[proc := locked k pr]> (k_procs k) → current_task k1 = current_task k →
  unlock_in stack_list_lock set_stack_list_lock proc k1 = Ok (tt, set_k_procs (k_procs k) k1).
Proof.
  intros Hk Hp Hc. assert (k_procs k1 !! proc = Some (locked k pr)) as Hl by (by rewrite Hp, lookup_insert_eq).
  rewrite (unlock_in_taken (O := proc_object) _ _ _ _ _ Hl) by (by rewrite Hc).
  cbn [objs set_objs proc_object]. rewrite Hp, insert_insert_eq. do 2 f_equal.
  rewrite insert_id; [done|]. rewrite (sk_proc _ _ _ _ Hk). f_equal. unfold locked.
  pose proof (sk_lock _ _ _ _ Hk) as Hlk. destruct pr. simpl in *. by subst.
Qed.

(** A stack of the process, by its payload. *)
Lemma stacks_lookup k proc pr xs x :
  stacks_ok k proc pr xs → x ∈ xs.*2 →
  ∃ i s, xs.*2 !! i = Some x ∧ k_stacks k !! x = Some s ∧ stack_at i s ∧ Z.of_nat i < 2 ^ 20.
Proof.
  intros Hk [i Hi]%list_elem_of_lookup_1. destruct (sk_stack _ _ _ _ Hk i x Hi) as (s & Hs & Hat).
  exists i, s. split_and!; [done..|]. apply lookup_lt_Some in Hi. rewrite length_fmap in Hi.
  pose proof (sk_len _ _ _ _ Hk). lia.
Qed.

(** The stack that a page belongs to: allocated, and with the page in it. *)
Definition holds k (v x : Z) : Prop :=
  ∃ s, k_stacks k !! x = Some s ∧ us_allocated s = true ∧ in_stack s v = true.
#[export] Instance holds_dec k v x : Decision (holds k v x).
Proof.
  unfold holds. destruct (k_stacks k !! x) as [s|]; [|right; by intros (? & ? & _)].
  destruct (us_allocated s) eqn:Ha; [|right; intros (? & [= <-] & ? & _); congruence].
  destruct (in_stack s v) eqn:Hi; [left; by exists s|right; intros (? & [= <-] & _ & ?); congruence].
Defined.

Lemma load_into_other k vsp v x s :
  k_stacks k !! x = Some s → ¬ holds k v x → load_into vsp v x k = Ok (None, k).
Proof.
  intros Hs Hno. unfold load_into. kstep (load_Ok (O := stack_object) x s k Hs).
  destruct (us_allocated s && in_stack s v) eqn:Hh; [|done]. apply andb_true_iff in Hh as [Ha Hi].
  destruct Hno. by exists s.
Qed.

(** A body of a search that found nothing has changed nothing. *)
Lemma load_into_none k vsp v x k' : load_into vsp v x k = Ok (None, k') → k' = k.
Proof.
  unfold load_into, load. unfold mbind at 1, K_bind at 1. simpl objs. destruct (k_stacks k !! x) as [s|]; [|done].
  destruct (us_allocated s && in_stack s v); [|by intros [= <-]].
  unfold mbind, K_bind. destruct (k_alloc_page k) as [[? ?]|]; [|done]. destruct (k_map _ _ _ _ _) as [[? ?]|]; [|done].
  by destruct (change _ _ _) as [[? ?]|].
Qed.

Definition stack_flags : Z := Z.lor PG_NOEXEC (Z.lor PG_USER PG_WRITE).

Lemma load_into_holds k vsp vs v x s :
  k_stacks k !! x = Some s → us_allocated s = true → in_stack s v = true → user_page v →
  k_vspaces k !! vsp = Some vs → owns user_page vs (phys_of k) →
  (∃ p st', load_into vsp v x k =
       Ok (Some SUCCESS, set_k_stacks (<[x := set_pages_mapped (u64 (pages_mapped s + 1)) s]> (k_stacks k)) (with_phys st' k)) ∧
     page_given user_page vs v p stack_flags (phys_of k) st') ∨
  (load_into vsp v x k = Stop Panic ∧ ¬ free_room 4 (phys_of k)).
Proof.
  intros Hs Ha Hi Hv Hvs Hown. unfold load_into. rewrite (K_bind_Ok _ _ _ _ _ (load_Ok (O := stack_object) x s k Hs)).
  rewrite Ha, Hi. cbn [andb]. fold stack_flags.
  destruct (give_page_spec (current_task k) user_page user_page_inj vs v stack_flags (phys_of k) Hown Hv)
    as [(p & st1 & st' & Hal & Hm & Hg)|[Hp Hroom]].
  - left. exists p, st'. split; [|done]. kstep (k_alloc_page_Ok k p st1 Hal).
    rewrite <- (phys_of_with st1 k) in Hm. kstep (k_map_Ok (with_phys st1 k) vsp vs v p stack_flags st' Hvs Hm).
    rewrite with_phys_with. kstep (change_Ok (O := stack_object) x (λ s, set_pages_mapped (u64 (pages_mapped s + 1)) s) (with_phys st' k) s Hs).
    done.
  - right. split; [|done]. destruct (alloc_page (current_task k) (phys_of k)) as [[p st1]|w] eqn:Hal; simpl in Hp.
    + kstep (k_alloc_page_Ok k p st1 Hal). apply K_bind_Stop.
      apply (k_map_Stop _ _ vs); [exact Hvs|]. by rewrite phys_of_with.
    + injection Hp as ->. by apply K_bind_Stop, k_alloc_page_Stop.
Qed.

(** The whole of [stack_load]. *)
Lemma stack_load_spec k proc pr xs vs v :
  stacks_ok k proc pr xs → k_vspaces k !! p_vspace pr = Some vs → owns user_page vs (phys_of k) →
  (∃ x s, x ∈ xs.*2 ∧ k_stacks k !! x = Some s ∧ us_allocated s = true ∧ stack_pages s v ∧
     ((∃ p st', stack_load proc v k =
         Ok (SUCCESS, set_k_stacks (<[x := set_pages_mapped (u64 (pages_mapped s + 1)) s]> (k_stacks k)) (with_phys st' k)) ∧
       page_given user_page vs v p stack_flags (phys_of k) st') ∨
      (stack_load proc v k = Stop Panic ∧ ¬ free_room 4 (phys_of k)))) ∨
  ((∀ x s, x ∈ xs.*2 → k_stacks k !! x = Some s → us_allocated s = true → ¬ stack_pages s v) ∧
   stack_load proc v k = Ok (- ENOENT, k)).
Proof.
  intros Hk Hvs Hown. set (k1 := lock_stacks k proc pr).
  assert (∀ x, x ∈ xs.*2 → ∃ s, k_stacks k !! x = Some s) as Hall.
  { intros x Hx. destruct (stacks_lookup _ _ _ _ _ Hk Hx) as (i & s & _ & Hs & _). by exists s. }
  assert (stack_load proc v k =
    match run_payloads xs.*2 (load_into (p_vspace pr) v) k1 with
    | Ok (r, k2) => (unlock_in stack_list_lock set_stack_list_lock proc;; mret (default (- ENOENT) r)) k2
    | Stop w => Stop w
    end) as ->.
  { unfold stack_load. kstep (lock_stacks_Ok _ _ _ _ Hk). fold k1.
    assert (objs k1 !! proc = Some (locked k pr)) as Hl by apply lookup_insert_eq.
    kstep (load_Ok (O := proc_object) proc (locked k pr) k1 Hl). unfold mbind at 1, K_bind at 1.
    change (stack_list (locked k pr)) with (stack_list pr). change (p_vspace (locked k pr)) with (p_vspace pr).
    rewrite (foreach_payloads (stack_list pr) xs); [done|apply Hk|apply Hk|].
    intros x k' k'' _ Hb He. by rewrite (load_into_none _ _ _ _ _ Hb). }
  destruct (list_first_split (holds k v) xs.*2) as [(l1 & x & l2 & Hxs & (s & Hs & Ha & Hi) & Hl1)|Hno].
  - left. assert (x ∈ xs.*2) as Hx by (rewrite Hxs; clear; set_solver).
    destruct (stacks_lookup _ _ _ _ _ Hk Hx) as (i & s' & _ & Hs' & Hat & Hib). rewrite Hs in Hs'. injection Hs' as <-.
    assert (stack_pages s v) as Hpg by (by eapply stack_at_pages).
    exists x, s. split_and!; [done..|].
    rewrite Hxs, run_payloads_app.
    2: { intros y Hy. destruct (Hall y) as [sy Hsy]; [rewrite Hxs; clear -Hy; set_solver|].
         apply (load_into_other k1 _ _ _ sy); [exact Hsy|]. exact (Hl1 y Hy). }
    cbn [run_payloads]. unfold mbind at 1 3, K_bind at 1 3.
    destruct (load_into_holds k1 (p_vspace pr) vs v x s Hs Ha Hi (stack_at_user _ _ _ Hat Hib Hpg) Hvs Hown)
      as [(p & st' & -> & Hg)|[-> Hroom]]; [left|by right].
    exists p, st'. split; [|exact Hg]. cbn [mret K_ret]. unfold mret at 1, K_ret at 1.
    match goal with |- (_ ≫= _) ?k2 = _ => set (k3 := k2) end.
    kstep (unlock_stacks_Ok k k3 proc pr xs Hk eq_refl eq_refl). unfold mret, K_ret. by destruct k.
  - right. assert (∀ x s, x ∈ xs.*2 → k_stacks k !! x = Some s → us_allocated s = true → ¬ stack_pages s v) as Hnone.
    { intros x s Hx Hs Ha Hpg. apply (Hno x Hx). exists s. split_and!; [done|done|].
      destruct (stacks_lookup _ _ _ _ _ Hk Hx) as (i & s' & _ & Hs' & Hat & Hib). rewrite Hs in Hs'. injection Hs' as <-.
      by eapply stack_at_pages. }
    split; [done|]. rewrite run_payloads_none.
    2: { intros x Hx. destruct (Hall x Hx) as [s Hs]. by apply (load_into_other k1 _ _ _ s); [|apply Hno]. }
    kstep (unlock_stacks_Ok k k1 proc pr xs Hk eq_refl eq_refl). unfold mret, K_ret. by destruct k.
Qed.

(** ** Taking pages back *)

Lemma k_unmap_user k vsp vs v :
  k_vspaces k !! vsp = Some vs → owns user_page vs (phys_of k) → user_page v →
  ∃ st', k_unmap vsp v k = Ok (bool_decide (is_Some (translate (ram (phys_of k)) (pml4_ppn vs) v)), with_phys st' k) ∧
    owns user_page vs st' ∧ translate (ram st') (pml4_ppn vs) v = None ∧
    (∀ v', user_page v' → v' ≠ v →
       translate (ram st') (pml4_ppn vs) v' = translate (ram (phys_of k)) (pml4_ppn vs) v') ∧
    takes_back user_page vs (phys_of k) st'.
Proof.
  intros Hvs Hown Hv.
  destruct (take_page_kept (current_task k) user_page vs v (phys_of k) user_page_inj Hown Hv)
    as (st' & Hu & Hown' & Hnone & Hoth & Htk).
  exists st'. split_and!; [|done..]. by apply (k_unmap_Ok _ _ vs).
Qed.

(** What a loop that unmaps some pages, for which [Q] holds, leaves. *)
Definition unmapped (Q : Z → Prop) vs (st st' : pages_t) : Prop :=
  owns user_page vs st' ∧ (∀ v, user_page v → Q v → translate (ram st') (pml4_ppn vs) v = None) ∧
  (∀ v, user_page v → ¬ Q v → translate (ram st') (pml4_ppn vs) v = translate (ram st) (pml4_ppn vs) v) ∧
  takes_back user_page vs st st'.

Lemma unmap_range_spec n k vsp vs page :
  k_vspaces k !! vsp = Some vs → owns user_page vs (phys_of k) → 0 <= page → page + Z.of_nat n <= 2 ^ 35 →
  ∃ st', unmap_range n vsp page k = Ok (tt, with_phys st' k) ∧
    unmapped (λ v, page <= v < page + Z.of_nat n) vs (phys_of k) st'.
Proof.
  revert k page. induction n as [|n IH]; intros k page Hvs Hown Hp Hn; cbn [unmap_range].
  - exists (phys_of k). split; [|split_and!; [done|intros; lia|done|done]]. unfold mret, K_ret, with_phys, phys_of.
    rewrite set_phys_phys. by destruct k as [[]].
  - destruct (k_unmap_user k vsp vs page Hvs Hown) as (st1 & Hu & Hown1 & Hnone & Hoth & Htk); [unfold user_page; lia|].
    kstep Hu. destruct (IH (with_phys st1 k) (page + 1)) as (st2 & Hr & Hown2 & Hin2 & Hout2 & Htk2);
      [done|by rewrite phys_of_with|lia|lia|].
    exists st2. rewrite with_phys_with in Hr. rewrite phys_of_with in Hout2, Htk2. split; [done|]. split_and!; [done| | |by etrans].
    + intros v Hv Hq. destruct (decide (v = page)) as [->|Hne]; [|apply Hin2; [done|lia]].
      rewrite Hout2 by (done || lia). done.
    + intros v Hv Hq. rewrite Hout2 by (done || lia). apply Hoth; [done|lia].
Qed.

(** The number of pages of a range that are mapped. *)
Definition mapped_count st (root lo : Z) (n : nat) : nat :=
  length (filter (λ v, is_Some (translate (ram st) root v)) (seqZ lo (Z.of_nat n))).

Lemma mapped_count_S st root lo n :
  mapped_count st root lo (S n) =
    (mapped_count st root lo n +
     if decide (is_Some (translate (ram st) root (lo + Z.of_nat n))) then 1 else 0)%nat.
Proof.
  unfold mapped_count. rewrite Nat2Z.inj_succ, <- Z.add_1_r, seqZ_app by lia.
  rewrite list.filter_app, length_app. f_equal. change (seqZ (lo + Z.of_nat n) 1) with [lo + Z.of_nat n].
  by destruct (decide _) as [Hd|Hd]; [rewrite filter_cons_True|rewrite filter_cons_False].
Qed.

Lemma mapped_count_ext st st' root lo n :
  (∀ v, lo <= v < lo + Z.of_nat n → translate (ram st') root v = translate (ram st) root v) →
  mapped_count st' root lo n = mapped_count st root lo n.
Proof.
  induction n as [|n IH]; intros Hext; [done|]. rewrite !mapped_count_S, IH, Hext by (lia || intros; apply Hext; lia).
  done.
Qed.

Lemma mapped_count_0 st root lo n v :
  mapped_count st root lo n = 0%nat → lo <= v < lo + Z.of_nat n → translate (ram st) root v = None.
Proof.
  induction n as [|n IH]; intros Hc Hv; [lia|]. rewrite mapped_count_S in Hc.
  destruct (decide (v = lo + Z.of_nat n)) as [->|Hne].
  - destruct (decide _) as [?|Hno]; [lia|]. by apply eq_None_not_Some.
  - apply IH; lia.
Qed.

Lemma mapped_count_le st root lo n : (mapped_count st root lo n <= n)%nat.
Proof. induction n as [|n IH]; [done|]. rewrite mapped_count_S. destruct (decide _); lia. Qed.

Lemma unwind_eq fuel vsp x e k s :
  k_stacks k !! x = Some s →
  unwind fuel vsp x e k =
    if pages_mapped s =? 0 then Ok (tt, k)
    else match fuel with
         | O => Stop NoFuel
         | S fuel =>
             (b ← k_unmap vsp e;
              when b (change x (λ s, set_pages_mapped (u64 (pages_mapped s - 1)) s));;
              unwind fuel vsp x (u64 (e - 1))) k
         end.
Proof.
  intros Hs. destruct fuel; cbn [unwind]; kstep (load_Ok (O := stack_object) x s k Hs);
    by destruct (pages_mapped s =? 0).
Qed.
#[local] Arguments unwind : simpl never.

(** The loop over the [n] pages from [lo] on, from the last one down. *)
(** One turn of the loop: the page loses its frame, if it has one, and then the count goes down. *)
Lemma unwind_turn k vsp vs x s v :
  k_vspaces k !! vsp = Some vs → owns user_page vs (phys_of k) → 0 <= v < 2 ^ 35 →
  k_stacks k !! x = Some s → is_word 64 (pages_mapped s) → pages_mapped s ≠ 0 →
  let b := bool_decide (is_Some (translate (ram (phys_of k)) (pml4_ppn vs) v)) in
  let s1 := set_pages_mapped (pages_mapped s - if b then 1 else 0) s in
  ∃ st1, (b ← k_unmap vsp v; when b (change x (λ s, set_pages_mapped (u64 (pages_mapped s - 1)) s))) k =
      Ok (tt, set_k_stacks (<[x := s1]> (k_stacks k)) (with_phys st1 k)) ∧
    unmapped (λ w, w = v) vs (phys_of k) st1.
Proof.
  intros Hvs Hown Hv Hs Hw Hnz b s1. destruct (k_unmap_user k vsp vs v Hvs Hown) as (st1 & Hun & Hown1 & Hnone & Hoth & Htk); [exact Hv|].
  exists st1. split.
  - kstep Hun. fold b. subst s1. destruct b; simpl when.
    + rewrite (change_Ok (O := stack_object) x _ (with_phys st1 k) s Hs). cbn [objs set_objs stack_object].
      rewrite uwrap_small; [done|]. unfold is_word in *. lia.
    + assert (set_pages_mapped (pages_mapped s - 0) s = s) as -> by (rewrite Z.sub_0_r; by destruct s).
      rewrite insert_id by done. unfold mret, K_ret. by destruct k.
  - split_and!; [done|by intros w _ ->| |done]. intros w Hw' Hne. by apply Hoth.
Qed.

Lemma unwind_spec n k vsp vs x s lo :
  k_vspaces k !! vsp = Some vs → owns user_page vs (phys_of k) → 0 <= lo → lo + Z.of_nat n <= 2 ^ 35 →
  k_stacks k !! x = Some s → is_word 64 (pages_mapped s) →
  let c := mapped_count (phys_of k) (pml4_ppn vs) lo n in
  if decide (pages_mapped s = Z.of_nat c) then
    ∃ st', unwind n vsp x (u64 (lo + Z.of_nat n - 1)) k =
        Ok (tt, set_k_stacks (<[x := set_pages_mapped 0 s]> (k_stacks k)) (with_phys st' k)) ∧
      unmapped (λ v, lo <= v < lo + Z.of_nat n) vs (phys_of k) st'
  else Z.of_nat c < pages_mapped s → unwind n vsp x (u64 (lo + Z.of_nat n - 1)) k = Stop NoFuel.
Proof.
  revert k s. induction n as [|n IH]; intros k s Hvs Hown Hlo Hn Hs Hw c; rewrite (unwind_eq _ _ _ _ _ _ Hs).
  - subst c. unfold mapped_count. simpl. destruct (decide _) as [He|Hne].
    + rewrite He. simpl. exists (phys_of k). split; [|split_and!; [done|intros; lia|done|done]].
      assert (set_pages_mapped 0 s = s) as -> by (destruct s; simpl in *; by subst). rewrite insert_id by done.
      unfold with_phys, phys_of. rewrite set_phys_phys. by destruct k as [[]].
    + intros Hc. by rewrite (proj2 (Z.eqb_neq _ _)) by lia.
  - destruct (Z.eqb_spec (pages_mapped s) 0) as [Hz|Hnz].
    + destruct (decide _) as [He|Hne]; [|lia]. exists (phys_of k). split.
      * assert (set_pages_mapped 0 s = s) as -> by (destruct s; simpl in *; by subst). rewrite insert_id by done.
        unfold with_phys, phys_of. rewrite set_phys_phys. by destruct k as [[]].
      * split_and!; [done| |done|done]. intros v _ Hv. eapply mapped_count_0; [|exact Hv]. fold c. lia.
    + assert (u64 (lo + Z.of_nat (S n) - 1) = lo + Z.of_nat n) as Hu.
      { rewrite uwrap_small; [lia|]. change (2 ^ 35) with 34359738368 in Hn. unfold is_word.
        change (2 ^ 64) with 18446744073709551616. lia. }
      rewrite Hu, <- K_bind_assoc. destruct (unwind_turn k vsp vs x s (lo + Z.of_nat n) Hvs Hown) as (st1 & Hturn & Hown1 & Hnone & Hoth & Htk); [lia|done..|].
      kstep Hturn. set (b := bool_decide _) in *. set (s1 := set_pages_mapped _ s). set (k1 := set_k_stacks _ _).
      assert (mapped_count st1 (pml4_ppn vs) lo n = mapped_count (phys_of k) (pml4_ppn vs) lo n) as Hcnt.
      { apply mapped_count_ext. intros v Hv. apply Hoth; [unfold user_page; lia|lia]. }
      assert (c = (mapped_count st1 (pml4_ppn vs) lo n + if b then 1 else 0)%nat) as Hc.
      { unfold c. rewrite mapped_count_S, Hcnt. subst b. f_equal.
        by destruct (decide _); [rewrite bool_decide_eq_true_2|rewrite bool_decide_eq_false_2]. }
      specialize (IH k1 s1 Hvs). change (phys_of k1) with (phys_of (with_phys st1 k)) in IH.
      rewrite phys_of_with in IH. specialize (IH Hown1 Hlo ltac:(lia) ltac:(apply lookup_insert_eq)).
      change (pages_mapped s1) with (pages_mapped s - if b then 1 else 0) in IH.
      specialize (IH ltac:(unfold is_word in *; destruct b; lia)). cbv zeta in IH.
      destruct (decide (pages_mapped s = Z.of_nat c)) as [He|Hne].
      * rewrite decide_True in IH by (destruct b; lia). destruct IH as (st' & Hr & Hown2 & Hin & Hout & Htk2). exists st'. split.
        -- rewrite Hr. subst k1. unfold with_phys, set_k_stacks, set_k_store. simpl. by rewrite set_phys_set, insert_insert_eq.
        -- split_and!; [done| | |by etrans]; intros v Hv Hq.
           ++ destruct (decide (v = lo + Z.of_nat n)) as [->|Hnv]; [|apply Hin; [done|lia]].
              rewrite Hout by (done || lia). by apply Hnone.
           ++ rewrite Hout by (done || lia). apply Hoth; [done|lia].
      * rewrite decide_False in IH by (destruct b; lia). intros Hlt. apply IH. destruct b; lia.
Qed.

(** ** The break *)

Lemma first_unmap_spec brk v : 0 <= brk → first_unmap brk <= v ↔ brk <= v * 4096.
Proof.
  intros Hb. unfold first_unmap, PAGE_SIZE. rewrite Z.shiftr_div_pow2 by (unfold PAGE_SHIFT; lia).
  change (2 ^ PAGE_SHIFT) with 4096. destruct (Z.eqb_spec (brk mod 4096) 0); simpl; zdiv.
Qed.

Lemma last_unmap_spec old v : 0 < old <= 2 ^ 47 → v <= last_unmap old ↔ v * 4096 < old.
Proof.
  intros Hb. change (2 ^ 47) with 140737488355328 in Hb. unfold last_unmap, PAGE_SIZE.
  rewrite Z.shiftr_div_pow2 by (unfold PAGE_SHIFT; lia). change (2 ^ PAGE_SHIFT) with 4096.
  destruct (Z.eqb_spec (old mod 4096) 0); simpl; [|zdiv]. rewrite uwrap_small; [zdiv|].
  unfold is_word. change (2 ^ 64) with 18446744073709551616. zdiv.
Qed.

(** A task that calls [sbrk]: its process, with a loader and a heap of user memory. *)
Record heap_ok k (proc : Z) pr (ld : loader_t) (vs : vspace_t) : Prop := {
  hk_task : ∃ t, k_tasks k !! current_task k = Some t ∧ t_process t = proc;
  hk_proc : k_procs k !! proc = Some pr;
  hk_lock : heap_lock pr = MUTEX_INITIALIZER;
  hk_loader : k_loaders k !! p_loader pr = Some ld ∧ p_loader pr ≠ 0;
  hk_vspace : k_vspaces k !! p_vspace pr = Some vs;
  hk_owns : owns user_page vs (phys_of k);
  hk_brk : 0 < heap_brk pr <= 2 ^ 47;
  hk_min : 0 <= min_heap_break ld <= 2 ^ 47;
}.

Definition heap_locked k pr : proc_t := set_heap_lock (mx_taken (current_task k)) pr.

Lemma heap_relock k pr : heap_lock pr = MUTEX_INITIALIZER → set_heap_lock MUTEX_INITIALIZER (heap_locked k pr) = pr.
Proof. intros Hl. destruct pr. simpl in *. by subst. Qed.

(** The break is moved and the pages from the new break to the old one are unmapped, if any. *)
(** What [sbrk] takes away when the break moves from [old] down to [brk]. *)
Lemma sbrk_unmaps k vsp vs old brk increment :
  k_vspaces k !! vsp = Some vs → owns user_page vs (phys_of k) → 0 <= brk → 0 < old <= 2 ^ 47 →
  ∃ st', when (increment <? 0) (unmap_range (Z.to_nat (last_unmap old - first_unmap brk + 1)) vsp (first_unmap brk)) k =
      Ok (tt, with_phys st' k) ∧
    unmapped (λ v, increment < 0 ∧ brk <= v * 4096 ∧ v * 4096 < old) vs (phys_of k) st'.
Proof.
  intros Hvs Hown Hbrk0 Hb.
  assert (with_phys (phys_of k) k = k) as Hid.
  { unfold with_phys, phys_of. rewrite set_phys_phys. by destruct k as [[]]. }
  destruct (Z.ltb_spec increment 0) as [Hneg|Hpos]; simpl when.
  2: { exists (phys_of k). split; [by rewrite Hid|]. split_and!; [done|intros v _ [? _]; lia|done|done]. }
  assert (0 <= first_unmap brk) as Hf0.
  { destruct (Z.leb_spec 0 (first_unmap brk)); [done|]. pose proof (proj1 (first_unmap_spec brk (first_unmap brk) Hbrk0)). lia. }
  assert (last_unmap old < 2 ^ 35) as Hlast.
  { destruct (Z.ltb_spec (last_unmap old) (2 ^ 35)); [done|].
    pose proof (proj1 (last_unmap_spec _ (2 ^ 35) Hb)). change (2 ^ 47) with (2 ^ 35 * 4096) in Hb. lia. }
  destruct (Z.leb_spec (first_unmap brk) (last_unmap old + 1)) as [Hle|Hgt].
  - destruct (unmap_range_spec (Z.to_nat (last_unmap old - first_unmap brk + 1)) k vsp vs (first_unmap brk) Hvs Hown Hf0)
      as (st' & Hr & Hown' & Hin & Hout & Htk); [lia|].
    assert (∀ v, first_unmap brk <= v < first_unmap brk + Z.of_nat (Z.to_nat (last_unmap old - first_unmap brk + 1)) ↔
      (increment < 0 ∧ brk <= v * 4096 ∧ v * 4096 < old)) as Hiff.
    { intros v. rewrite <- first_unmap_spec, <- last_unmap_spec by done. lia. }
    exists st'. split; [done|]. split_and!; [done| | |done].
    + intros v Hv Hq. apply Hin; [done|]. by apply Hiff.
    + intros v Hv Hq. apply Hout; [done|]. by rewrite Hiff.
  - assert (Z.to_nat (last_unmap old - first_unmap brk + 1) = O) as -> by lia. exists (phys_of k). split; [by rewrite Hid|].
    split_and!; [done| |done|done]. intros v _ (_ & H1 & H2). apply first_unmap_spec in H1; [|done].
    apply (last_unmap_spec _ _ Hb) in H2. lia.
Qed.

Lemma sys_sbrk_spec k proc pr ld vs increment :
  heap_ok k proc pr ld vs →
  let brk := moved_break (heap_brk pr) increment (min_heap_break ld) in
  ∃ st', sys_sbrk increment k =
      Ok (heap_brk pr, set_k_procs (<[proc := set_heap_brk brk pr]> (k_procs k)) (with_phys st' k)) ∧
    unmapped (λ v, increment < 0 ∧ brk <= v * 4096 ∧ v * 4096 < heap_brk pr) vs (phys_of k) st'.
Proof.
  intros [(t & Ht & Hpt) Hp Hl [Hld Hldnz] Hvs Hown Hb Hm] brk.
  assert (0 <= brk) as Hbrk0.
  { unfold brk, moved_break. destruct (uwrap_word 64 (heap_brk pr + increment)); [lia|]. case_ltb; lia. }
  set (pr1 := set_heap_brk brk (heap_locked k pr)).
  set (k1 := set_k_procs (<[proc := pr1]> (k_procs k)) k).
  destruct (sbrk_unmaps k1 (p_vspace pr) vs (heap_brk pr) brk increment Hvs Hown Hbrk0 Hb) as (st' & Hu & Hun).
  exists st'. split; [|done]. unfold sys_sbrk. kpure. kstep (load_Ok (O := task_object) _ t k Ht). rewrite Hpt.
  kstep (load_Ok (O := proc_object) _ pr k Hp).
  rewrite (proj2 (Z.eqb_neq (heap_brk pr) SIZE_MAX)).
  2: { unfold SIZE_MAX. change (2 ^ 47) with 140737488355328 in Hb. change (2 ^ 64) with 18446744073709551616. lia. }
  rewrite (proj2 (Z.eqb_neq _ _) Hldnz). cbn [negb].
  assert (lift (assert_ true) k = Ok (tt, k)) as Has by (unfold lift; by rewrite assert_true). kstep Has.
  kstep (load_Ok (O := loader_object) _ ld k Hld).
  kstep (lock_in_idle (O := proc_object) heap_lock set_heap_lock proc pr k Hp Hl). cbn [objs set_objs proc_object].
  fold (heap_locked k pr). fold brk.
  set (k0 := set_k_procs (<[proc:=heap_locked k pr]> (k_procs k)) k).
  assert (objs k0 !! proc = Some (heap_locked k pr)) as Hp0 by apply lookup_insert_eq.
  kstep (change_Ok (O := proc_object) proc (set_heap_brk brk) k0 _ Hp0). cbn [objs set_objs proc_object].
  assert (set_k_procs (<[proc:=set_heap_brk brk (heap_locked k pr)]> (k_procs k0)) k0 = k1) as ->.
  { unfold k1, k0, pr1, set_k_procs. simpl. by rewrite insert_insert_eq. }
  kstep Hu.
  assert (objs (with_phys st' k1) !! proc = Some pr1) as Hp1 by apply lookup_insert_eq.
  kstep (unlock_in_taken (O := proc_object) heap_lock set_heap_lock proc pr1 (with_phys st' k1) Hp1 eq_refl).
  cbn [objs set_objs proc_object]. unfold mret, K_ret. do 2 f_equal. unfold k1, with_phys, set_k_procs, set_k_store. simpl.
  rewrite insert_insert_eq. do 2 f_equal. unfold pr1, heap_locked. destruct pr. simpl in *. by subst.
Qed.

Definition heap_flags : Z := Z.lor PG_WRITE PG_USER.

Lemma shiftr_page addr : Z.shiftr addr PAGE_SHIFT = addr / 4096.
Proof. by rewrite Z.shiftr_div_pow2 by (unfold PAGE_SHIFT; lia). Qed.

Lemma heap_load_spec k proc pr ld vs addr :
  heap_ok k proc pr ld vs → 0 <= addr →
  if decide (min_heap_break ld <= addr < heap_brk pr) then
    (∃ p st', heap_load proc addr k = Ok (SUCCESS, with_phys st' k) ∧
       page_given user_page vs (addr / 4096) p heap_flags (phys_of k) st') ∨
    (heap_load proc addr k = Stop Panic ∧ ¬ free_room 4 (phys_of k))
  else heap_load proc addr k = Ok (- ENOENT, k).
Proof.
  intros [_ Hp Hl [Hld _] Hvs Hown Hb Hm] Ha.
  set (k1 := set_k_procs (<[proc := heap_locked k pr]> (k_procs k)) k).
  assert (objs k1 !! proc = Some (heap_locked k pr)) as Hp1 by apply lookup_insert_eq.
  assert (∀ st, unlock_in heap_lock set_heap_lock proc (with_phys st k1) = Ok (tt, with_phys st k)) as Hunl.
  { intros st. assert (objs (with_phys st k1) !! proc = Some (heap_locked k pr)) as Hps by exact Hp1.
    rewrite (unlock_in_taken (O := proc_object) heap_lock set_heap_lock proc (heap_locked k pr) (with_phys st k1) Hps eq_refl).
    cbn [objs set_objs proc_object]. do 2 f_equal. unfold k1, with_phys, set_k_procs, set_k_store. simpl.
    rewrite insert_insert_eq, heap_relock by done. rewrite insert_id by done. by destruct k. }
  assert (heap_load proc addr k =
    ((if (min_heap_break ld <=? addr) && (addr <? heap_brk pr) then
        ppn ← k_alloc_page;
        k_map (p_vspace pr) (Z.shiftr addr PAGE_SHIFT) ppn heap_flags;;
        mret SUCCESS
      else mret (- ENOENT)) ≫= λ ret, unlock_in heap_lock set_heap_lock proc;; mret ret) k1) as ->.
  { unfold heap_load. kstep (lock_in_idle (O := proc_object) heap_lock set_heap_lock proc pr k Hp Hl).
    kstep (load_Ok (O := proc_object) proc (heap_locked k pr) k1 Hp1).
    kstep (load_Ok (O := loader_object) (p_loader pr) ld k1 Hld). done. }
  destruct (decide (min_heap_break ld <= addr < heap_brk pr)) as [Hin|Hout].
  - rewrite (proj2 (Z.leb_le _ _)), (proj2 (Z.ltb_lt _ _)) by lia. cbn [andb]. rewrite shiftr_page.
    assert (user_page (addr / 4096)) as Hu.
    { unfold user_page. change (2 ^ 47) with (2 ^ 35 * 4096) in Hb. split; [apply Z.div_pos; lia|apply Z.div_lt_upper_bound; lia]. }
    rewrite !K_bind_assoc.
    destruct (give_page_spec (current_task k) user_page user_page_inj vs (addr / 4096) heap_flags (phys_of k) Hown Hu)
      as [(p & st1 & st' & Hal & Hmp & Hg)|[Hst Hroom]].
    + left. exists p, st'. split; [|done]. kstep (k_alloc_page_Ok k1 p st1 Hal). rewrite K_bind_assoc.
      rewrite <- (phys_of_with st1 k1) in Hmp. kstep (k_map_Ok (with_phys st1 k1) (p_vspace pr) vs (addr / 4096) p heap_flags st' Hvs Hmp).
      rewrite with_phys_with. kpure. by kstep (Hunl st').
    + right. split; [|done]. destruct (alloc_page (current_task k) (phys_of k)) as [[p st1]|w] eqn:Hal; simpl in Hst.
      * kstep (k_alloc_page_Ok k1 p st1 Hal). rewrite K_bind_assoc. apply K_bind_Stop.
        apply (k_map_Stop _ _ vs); [exact Hvs|]. by rewrite phys_of_with.
      * injection Hst as ->. by apply K_bind_Stop, k_alloc_page_Stop.
  - assert ((min_heap_break ld <=? addr) && (addr <? heap_brk pr) = false) as ->.
    { apply not_true_iff_false. rewrite andb_true_iff, Z.leb_le, Z.ltb_lt. lia. }
    kpure. assert (with_phys (phys_of k1) k1 = k1 ∧ with_phys (phys_of k1) k = k) as [Hid Hid'].
    { unfold with_phys, phys_of, k1. simpl. rewrite set_phys_phys. by destruct k as [[]]. }
    pose proof (Hunl (phys_of k1)) as Hun. rewrite Hid, Hid' in Hun. by kstep Hun.
Qed.
(** ** New stacks *)

Lemma reuse_used k proc y s :
  k_stacks k !! y = Some s → us_allocated s = true → reuse_stack proc y k = Ok (None, k).
Proof. intros Hs Ha. unfold reuse_stack. kstep (load_Ok (O := stack_object) y s k Hs). by rewrite Ha. Qed.

Lemma reuse_none k proc y k' : reuse_stack proc y k = Ok (None, k') → k' = k.
Proof.
  unfold reuse_stack, load. unfold mbind at 1, K_bind at 1. simpl objs. destruct (k_stacks k !! y) as [s|]; [|done].
  destruct (us_allocated s); [by intros [= <-]|].
  unfold mbind, K_bind. destruct (change _ _ _) as [[? ?]|]; [|done]. by destruct (unlock_in _ _ _ _) as [[? ?]|].
Qed.

(** A stack that is not in use is taken again. *)
Lemma create_stack_reuses k proc pr xs l1 x l2 s :
  stacks_ok k proc pr xs → xs.*2 = l1 ++ x :: l2 →
  (∀ y, y ∈ l1 → ∃ sy, k_stacks k !! y = Some sy ∧ us_allocated sy = true) →
  k_stacks k !! x = Some s → us_allocated s = false →
  create_stack proc k = Ok (x, set_k_stacks (<[x := set_us_allocated true s]> (k_stacks k)) k).
Proof.
  intros Hk Hxs Hl1 Hs Ha. set (k1 := lock_stacks k proc pr). unfold create_stack.
  kstep (lock_stacks_Ok _ _ _ _ Hk). fold k1.
  assert (objs k1 !! proc = Some (locked k pr)) as Hl by apply lookup_insert_eq.
  kstep (load_Ok (O := proc_object) proc (locked k pr) k1 Hl).
  change (stack_list (locked k pr)) with (stack_list pr).
  set (k2 := set_k_stacks (<[x := set_us_allocated true s]> (k_stacks k1)) k1).
  match goal with |- (foreach ?l ?b ≫= _) k1 = _ => assert (foreach l b k1 = Ok (Some x, set_k_procs (k_procs k) k2)) as Hf end.
  { rewrite (foreach_payloads (stack_list pr) xs); [|apply Hk|apply Hk|].
    - rewrite Hxs, run_payloads_app.
      2: { intros y Hy. destruct (Hl1 y Hy) as (sy & Hsy & Hay). by apply (reuse_used k1 proc y sy). }
      cbn [run_payloads]. unfold reuse_stack. rewrite K_bind_assoc. kstep (load_Ok (O := stack_object) x s k1 Hs). rewrite Ha, K_bind_assoc.
      kstep (change_Ok (O := stack_object) x (set_us_allocated true) k1 s Hs). cbn [objs set_objs stack_object]. fold k2.
      rewrite K_bind_assoc. kstep (unlock_stacks_Ok k k2 proc pr xs Hk eq_refl eq_refl). done.
    - intros y k' k'' _ Hb He. by rewrite (reuse_none _ _ _ _ Hb). }
  kstep Hf. unfold k2, k1. by destruct k.
Qed.

(** What a new stack at the end of the list leaves. *)
Record stack_created k proc pr xs x k' : Prop := {
  sc_fresh : x ∉ km_live (heap (k_store k));
  sc_stacks : k_stacks k' = <[x := new_stack (Z.of_nat (length xs))]> (k_stacks k);
  sc_ok : ∃ a l, k_procs k' = <[proc := set_stack_list l pr]> (k_procs k) ∧
    stacks_ok k' proc (set_stack_list l pr) (xs ++ [(a, x)]);
}.

(** [create_stack] when every stack of the process is in use: it adds one. *)
Lemma create_stack_head k proc pr xs :
  stacks_ok k proc pr xs → (∀ y, y ∈ xs.*2 → ∃ sy, k_stacks k !! y = Some sy ∧ us_allocated sy = true) →
  create_stack proc k = (
    stack ← new 48; put stack (new_stack (Z.of_nat (length xs)));;
    '(_, l) ← on_store (list_add (stack_list pr) stack);
    change proc (set_stack_list l);; unlock_in stack_list_lock set_stack_list_lock proc;; mret stack) (lock_stacks k proc pr).
Proof.
  intros Hk Hall. set (k1 := lock_stacks k proc pr).
  assert (objs k1 !! proc = Some (locked k pr)) as Hl by apply lookup_insert_eq.
  unfold create_stack. kstep (lock_stacks_Ok _ _ _ _ Hk). fold k1.
  kstep (load_Ok (O := proc_object) proc (locked k pr) k1 Hl).
  change (stack_list (locked k pr)) with (stack_list pr).
  match goal with |- (foreach ?l ?b ≫= _) k1 = _ => assert (foreach l b k1 = Ok (None, k1)) as Hf end.
  { rewrite (foreach_payloads (stack_list pr) xs); [|apply Hk|apply Hk|].
    - apply run_payloads_none. intros y Hy. destruct (Hall y Hy) as (sy & Hsy & Hay). by apply (reuse_used k1 proc y sy).
    - intros y k' k'' _ Hb He. by rewrite (reuse_none _ _ _ _ Hb). }
  kstep Hf. unfold lift, list_size. unfold mbind at 1, K_bind at 1. rewrite (sanity _ _ _ (sk_repr _ _ _ _ Hk)).
  cbn [mbind res_bind]. unfold mret at 1, res_ret at 1. by rewrite (lr_items _ _ _ (sk_repr _ _ _ _ Hk)).
Qed.

Lemma create_stack_adds k proc pr xs x h i l s' :
  stacks_ok k proc pr xs → (∀ y, y ∈ xs.*2 → ∃ sy, k_stacks k !! y = Some sy ∧ us_allocated sy = true) →
  km_alloc 48 (heap (k_store k)) = Ok (x, h) →
  list_add (stack_list pr) x {| nodes := nodes (k_store k); heap := h |} = Ok (i, l, s') →
  create_stack proc k = Ok (x, set_k_procs (<[proc := set_stack_list l pr]> (k_procs k))
    (set_k_stacks (<[x := new_stack (Z.of_nat (length xs))]> (k_stacks k)) (set_k_store s' k))).
Proof.
  intros Hk Hall Ha Hadd. set (k1 := lock_stacks k proc pr). rewrite (create_stack_head k proc pr xs Hk Hall). fold k1.
  kstep (new_Ok 48 k1 x h Ha). set (k2 := set_k_store _ k1).
  assert (put x (new_stack (Z.of_nat (length xs))) k2 =
    Ok (tt, set_k_stacks (<[x := new_stack (Z.of_nat (length xs))]> (k_stacks k)) k2)) as Hput by done.
  kstep Hput. set (k3 := set_k_stacks _ k2).
  assert (on_store (list_add (stack_list pr) x) k3 = Ok ((i, l), set_k_store s' k3)) as Hon.
  { unfold on_store. change (k_store k3) with {| nodes := nodes (k_store k); heap := h |}. by rewrite Hadd. }
  kstep Hon. set (k4 := set_k_store s' k3).
  assert (objs k4 !! proc = Some (locked k pr)) as Hl4 by apply lookup_insert_eq.
  kstep (change_Ok (O := proc_object) proc (set_stack_list l) k4 _ Hl4). cbn [objs set_objs proc_object].
  set (k5 := set_k_procs _ k4).
  assert (objs k5 !! proc = Some (set_stack_list l (locked k pr))) as Hl5 by apply lookup_insert_eq.
  kstep (unlock_in_taken (O := proc_object) stack_list_lock set_stack_list_lock proc _ k5 Hl5 eq_refl).
  cbn [objs set_objs proc_object]. pose proof (sk_lock _ _ _ _ Hk) as Hlk.
  assert (set_stack_list_lock MUTEX_INITIALIZER (set_stack_list l (locked k pr)) = set_stack_list l pr) as ->
    by (unfold locked; destruct pr; simpl in *; by subst).
  unfold k5, k4, k3, k2, k1. cbn. by rewrite !insert_insert_eq.
Qed.

(** The list of stacks with the new one. *)
Lemma stacks_ok_adds k proc pr xs x h a l s' :
  stacks_ok k proc pr xs → Z.of_nat (length xs) + 1 < 2 ^ 20 → x ∉ km_live (heap (k_store k)) →
  km_live h = {[x]} ∪ km_live (heap (k_store k)) → km_live (heap s') = {[a]} ∪ km_live h → store_wf s' → list_repr l (xs ++ [(a, x)]) s' →
  stacks_ok (set_k_procs (<[proc := set_stack_list l pr]> (k_procs k))
    (set_k_stacks (<[x := new_stack (Z.of_nat (length xs))]> (k_stacks k)) (set_k_store s' k))) proc (set_stack_list l pr) (xs ++ [(a, x)]).
Proof.
  intros Hk Hlen Hfresh Hlive Hlive' Hs' Hr'.
  split; simpl; [apply lookup_insert_eq|apply (sk_lock _ _ _ _ Hk)|done|done|rewrite length_app; simpl; change (2 ^ 20) with 1048576 in *; lia| | |].
  - intros i y Hi. rewrite fmap_app in Hi. simpl in Hi.
    apply lookup_snoc_Some in Hi as [[Hlt Hi]|[-> ->]].
    + destruct (sk_stack _ _ _ _ Hk i y Hi) as (s & Hs & Hat). exists s. split; [|done].
      rewrite lookup_insert_ne; [done|]. intros ->. apply Hfresh, (sk_live _ _ _ _ Hk). by eapply list_elem_of_lookup_2.
    + rewrite length_fmap. eexists. split; [apply lookup_insert_eq|]. apply new_stack_at. change (2 ^ 20) with 1048576 in *. lia.
  - intros y. rewrite fmap_app, elem_of_app, Hlive'. simpl. rewrite Hlive.
    intros [Hy|Hy%list_elem_of_singleton]; [|subst; clear; set_solver].
    apply (sk_live _ _ _ _ Hk) in Hy. clear -Hy. set_solver.
  - rewrite fmap_app. apply list.NoDup_app. split_and!; [apply (sk_nodup _ _ _ _ Hk)| |apply list.NoDup_singleton].
    intros y Hy Hin%list_elem_of_singleton. subst. by apply Hfresh, (sk_live _ _ _ _ Hk).
Qed.

Lemma create_stack_appends k proc pr xs :
  stacks_ok k proc pr xs → Z.of_nat (length xs) + 1 < 2 ^ 20 →
  (∀ y, y ∈ xs.*2 → ∃ sy, k_stacks k !! y = Some sy ∧ us_allocated sy = true) →
  km_room 48 (heap (k_store k)) →
  (∀ x h, km_alloc 48 (heap (k_store k)) = Ok (x, h) → km_room 24 h) →
  (∃ x k', create_stack proc k = Ok (x, k') ∧ stack_created k proc pr xs x k') ∨
  (∃ w, create_stack proc k = Stop w ∧
     (km_alloc 48 (heap (k_store k)) = Stop w ∨
      ∃ x h, km_alloc 48 (heap (k_store k)) = Ok (x, h) ∧ km_alloc 24 h = Stop w)).
Proof.
  intros Hk Hlen Hall Hroom Hroom'.
  destruct (km_alloc 48 (heap (k_store k))) as [[x h]|w] eqn:Ha.
  2: { right. exists w. split; [|by left]. rewrite (create_stack_head k proc pr xs Hk Hall).
       apply K_bind_Stop. unfold new, on_heap, on_store. simpl. by rewrite Ha. }
  destruct (store_wf_alloc _ _ _ _ (sk_store _ _ _ _ Hk) Hroom Ha) as (Hs1 & Hfresh & Hnz).
  assert (km_live h = {[x]} ∪ km_live (heap (k_store k))) as Hlive by (eapply km_alloc_ok; [apply (sk_store _ _ _ _ Hk)|done..]).
  destruct (list_add_spec (stack_list pr) xs _ x Hs1 (list_repr_heap _ _ _ h (sk_repr _ _ _ _ Hk)))
    as [(a & l & s' & Hadd & Hna & Hlive' & Hs' & Hr' & _)|(w & Hw & Hadd)];
    [change (2 ^ 64) with 18446744073709551616; change (2 ^ 20) with 1048576 in Hlen; lia|by apply (Hroom' x)| |].
  - left. exists x. eexists. split; [by eapply create_stack_adds|]. split; [done|done|]. exists a, l. split; [done|].
    by eapply stacks_ok_adds.
  - right. exists w. split; [|right; by exists x, h]. rewrite (create_stack_head k proc pr xs Hk Hall). set (k1 := lock_stacks k proc pr).
    kstep (new_Ok 48 k1 x h Ha). assert (∀ k2 : kernel, put x (new_stack (Z.of_nat (length xs))) k2 =
      Ok (tt, set_k_stacks (<[x := new_stack (Z.of_nat (length xs))]> (k_stacks k2)) k2)) as Hput by done.
    kstep (Hput (set_k_store {| nodes := nodes (k_store k1); heap := h |} k1)). apply K_bind_Stop. unfold on_store. cbn. by rewrite Hadd.
Qed.

(** Two stacks with 8192 unused pages between them. *)
Definition apart (s s' : userstack_t) : Prop :=
  start_page s' + page_count s' + 8192 <= start_page s ∨ start_page s + page_count s + 8192 <= start_page s'.

Lemma stacks_apart k proc pr xs i j x y s s' :
  stacks_ok k proc pr xs → xs.*2 !! i = Some x → xs.*2 !! j = Some y → x ≠ y →
  k_stacks k !! x = Some s → k_stacks k !! y = Some s' → apart s s'.
Proof.
  intros Hk Hi Hj Hne Hs Hs'.
  destruct (sk_stack _ _ _ _ Hk i x Hi) as (? & Hs2 & Hat). rewrite Hs in Hs2. injection Hs2 as <-.
  destruct (sk_stack _ _ _ _ Hk j y Hj) as (? & Hs2 & Hat'). rewrite Hs' in Hs2. injection Hs2 as <-.
  destruct (lt_eq_lt_dec i j) as [[Hlt|Heq]|Hgt]; [left; by eapply stack_at_gap| |right; by eapply stack_at_gap].
  subst. rewrite Hi in Hj. by injection Hj.
Qed.

Lemma stacks_ok_reuse k proc pr xs x s :
  stacks_ok k proc pr xs → k_stacks k !! x = Some s →
  stacks_ok (set_k_stacks (<[x := set_us_allocated true s]> (k_stacks k)) k) proc pr xs.
Proof.
  intros [Hp Hl Hs Hr Hlen Hst Hlv Hnd] Hx. split; [done..| |done|done].
  intros i y Hi. destruct (Hst i y Hi) as (sy & Hsy & Hat). simpl. destruct (decide (y = x)) as [->|Hne].
  - rewrite Hx in Hsy. injection Hsy as <-. eexists. split; [apply lookup_insert_eq|exact Hat].
  - exists sy. by rewrite lookup_insert_ne.
Qed.

(** The allocator has room for a stack and for an item of the list. *)
Definition stack_room k : Prop :=
  km_room 48 (heap (k_store k)) ∧ ∀ x h, km_alloc 48 (heap (k_store k)) = Ok (x, h) → km_room 24 h.

(** In use before. *)
Definition in_use k x : Prop := ∃ s, k_stacks k !! x = Some s ∧ us_allocated s = true.
#[export] Instance in_use_dec k x : Decision (in_use k x).
Proof.
  unfold in_use. destruct (k_stacks k !! x) as [s|]; [|right; by intros (? & ? & _)].
  destruct (us_allocated s) eqn:Ha; [left; by exists s|right; intros (? & [= <-] & ?); congruence].
Defined.

(** C25: [create_stack] returns a stack that is not in use, marks it as in use, and its 8192
    pages are at least 8192 pages away from those of every other stack of the process: the
    first stack of the list that is free, or, when all are in use, a new one at the end of
    the list.  It stops only where the allocator does, and leaves the list of stacks, its
    lock and the places of the stacks in order. *)
Theorem create_stack_correct k proc pr xs :
  stacks_ok k proc pr xs → Z.of_nat (length xs) + 1 < 2 ^ 20 → stack_room k →
  (∃ x k' pr' ys i s, create_stack proc k = Ok (x, k') ∧ stacks_ok k' proc pr' ys ∧
     ys.*2 !! i = Some x ∧ k_stacks k' !! x = Some s ∧ us_allocated s = true ∧ us_index s = Z.of_nat i ∧
     (x ∈ xs.*2 → ¬ in_use k x) ∧ (∀ j y, (j < i)%nat → ys.*2 !! j = Some y → in_use k y) ∧
     (∀ y s', y ∈ ys.*2 → y ≠ x → k_stacks k' !! y = Some s' → k_stacks k !! y = Some s' ∧ apart s s') ∧
     (ys = xs ∨ i = length xs ∧ ∃ a, ys = xs ++ [(a, x)])) ∨
  ∃ w, create_stack proc k = Stop w ∧
    (km_alloc 48 (heap (k_store k)) = Stop w ∨
     ∃ x h, km_alloc 48 (heap (k_store k)) = Ok (x, h) ∧ km_alloc 24 h = Stop w).
Proof.
  intros Hk Hlen [Hroom Hroom'].
  destruct (list_first_split (λ x, ¬ in_use k x) xs.*2) as [(l1 & x & l2 & Hxs & Hfree & Hl1)|Hall].
  - assert (xs.*2 !! length l1 = Some x) as Hi by (by rewrite Hxs, list_lookup_middle).
    destruct (sk_stack _ _ _ _ Hk _ _ Hi) as (s & Hs & Hat).
    assert (us_allocated s = false) as Ha.
    { apply not_true_iff_false. intros Ha. apply Hfree. by exists s. }
    assert (∀ y, y ∈ l1 → in_use k y) as Hl1' by (intros y Hy; apply dec_stable; auto).
    left. set (k' := set_k_stacks (<[x := set_us_allocated true s]> (k_stacks k)) k).
    pose proof (stacks_ok_reuse k proc pr xs x s Hk Hs) as Hk'.
    exists x, k', pr, xs, (length l1), (set_us_allocated true s).
    split_and!; [by eapply create_stack_reuses|done|done|apply lookup_insert_eq|done|apply Hat|done| | |by left].
    + intros j y Hj Hy. apply Hl1'. rewrite Hxs, lookup_app_l in Hy by done. by eapply list_elem_of_lookup_2.
    + intros y s' [j Hj]%list_elem_of_lookup_1 Hne Hs'. split; [simpl in Hs'; by rewrite lookup_insert_ne in Hs' by done|].
      eapply (stacks_apart k' proc pr xs (length l1) j x y); [done..|by intros <-|apply lookup_insert_eq|done].
  - assert (∀ y, y ∈ xs.*2 → in_use k y) as Hall' by (intros y Hy; apply dec_stable; auto).
    destruct (create_stack_appends k proc pr xs Hk Hlen Hall' Hroom Hroom') as [(x & k' & Hc & [Hf Hst (a & l & Hp & Hk')])|Hw];
      [left|by right].
    assert ((xs ++ [(a, x)]).*2 !! length xs = Some x) as Hi.
    { rewrite fmap_app, <- (length_fmap snd). by apply list_lookup_middle. }
    assert (k_stacks k' !! x = Some (new_stack (Z.of_nat (length xs)))) as Hnew by (rewrite Hst; apply lookup_insert_eq).
    exists x, k', (set_stack_list l pr), (xs ++ [(a, x)]), (length xs), (new_stack (Z.of_nat (length xs))).
    split_and!; [done|done|done|done|done|done| | | |right; split; [done|by exists a]].
    + intros Hx. by destruct Hf; apply (sk_live _ _ _ _ Hk).
    + intros j y Hj Hy. apply Hall'. rewrite fmap_app, lookup_app_l in Hy by (by rewrite length_fmap).
      by eapply list_elem_of_lookup_2.
    + intros y s' [j Hj]%list_elem_of_lookup_1 Hne Hs'. split; [rewrite Hst in Hs'; by rewrite lookup_insert_ne in Hs' by done|].
      eapply (stacks_apart k' proc _ _ (length xs) j x y); [done..|by intros <-|done|done].
Qed.

(** for a page of a stack that is in use, [stack_load] maps a fresh
    frame, writable for the user and not executable, when the page had none, and leaves all
    other user pages alone; for any other page it changes nothing and returns [-ENOENT].  It
    panics only when the pages for the frame and the tables are missing. *)
Theorem stack_load_correct k proc pr xs vs v :
  stacks_ok k proc pr xs → k_vspaces k !! p_vspace pr = Some vs → owns user_page vs (phys_of k) →
  translate (ram (phys_of k)) (pml4_ppn vs) v = None →
  (∃ x s, x ∈ xs.*2 ∧ k_stacks k !! x = Some s ∧ us_allocated s = true ∧ stack_pages s v ∧
     ((∃ k' w, stack_load proc v k = Ok (SUCCESS, k') ∧
        k_stacks k' = <[x := set_pages_mapped (u64 (pages_mapped s + 1)) s]> (k_stacks k) ∧
        k_procs k' = k_procs k ∧ owns user_page vs (phys_of k') ∧
        translate (ram (phys_of k')) (pml4_ppn vs) v = Some w ∧
        is_page (phys_of k) (e_ppn w) ∧ ¬ used (phys_of k) (e_ppn w) ∧ used (phys_of k') (e_ppn w) ∧
        e_write w = 1 ∧ e_user w = 1 ∧ e_noexec w = 1 ∧
        ∀ v', user_page v' → v' ≠ v →
          translate (ram (phys_of k')) (pml4_ppn vs) v' = translate (ram (phys_of k)) (pml4_ppn vs) v') ∨
      (stack_load proc v k = Stop Panic ∧ ¬ free_room 4 (phys_of k)))) ∨
  ((∀ x s, x ∈ xs.*2 → k_stacks k !! x = Some s → us_allocated s = true → ¬ stack_pages s v) ∧
   stack_load proc v k = Ok (- ENOENT, k)).
Proof.
  intros Hk Hvs Hown Hnone.
  destruct (stack_load_spec k proc pr xs vs v Hk Hvs Hown) as [(x & s & Hx & Hs & Ha & Hpg & Hres)|Hno]; [left|by right].
  exists x, s. split_and!; [done..|]. destruct Hres as [(p & st' & Hr & Hg)|Hp]; [left|by right].
  destruct (pv_new _ _ _ _ _ _ _ Hg Hnone) as (w & Hw & <- & Hwr & Hus & Hnx). destruct (pv_frame _ _ _ _ _ _ _ Hg) as (Hp & Hnu & Hu).
  eexists _, w. split; [exact Hr|]. unfold phys_of. simpl. rewrite phys_set. fold (phys_of k).
  split_and!; [done|done|apply Hg|done|done|done|done|by rewrite Hwr|by rewrite Hus|by rewrite Hnx|apply Hg].
Qed.

(** a fault on a page of the stack that is mapped already is "resolved" as well: a frame is
    taken that nothing maps afterwards, the translation stays as it is, and [pages_mapped]
    counts one page more than there are. *)
Theorem stack_load_present_leaks k proc pr xs vs v w x s :
  stacks_ok k proc pr xs → k_vspaces k !! p_vspace pr = Some vs → owns user_page vs (phys_of k) →
  free_room 4 (phys_of k) → x ∈ xs.*2 → k_stacks k !! x = Some s → us_allocated s = true → stack_pages s v →
  translate (ram (phys_of k)) (pml4_ppn vs) v = Some w →
  ∃ k' p, stack_load proc v k = Ok (SUCCESS, k') ∧
    k_stacks k' !! x = Some (set_pages_mapped (u64 (pages_mapped s + 1)) s) ∧
    is_page (phys_of k) p ∧ ¬ used (phys_of k) p ∧ used (phys_of k') p ∧
    ∀ v', user_page v' →
      translate (ram (phys_of k')) (pml4_ppn vs) v' = translate (ram (phys_of k)) (pml4_ppn vs) v' ∧
      ∀ w', translate (ram (phys_of k')) (pml4_ppn vs) v' = Some w' → e_ppn w' ≠ p.
Proof.
  intros Hk Hvs Hown Hroom Hx Hs Ha Hpg Hw.
  destruct (stack_load_spec k proc pr xs vs v Hk Hvs Hown) as [(x' & s' & Hx' & Hs' & _ & Hpg' & Hres)|[Hno _]];
    [|by destruct (Hno x s Hx Hs Ha)].
  assert (x' = x) as ->.
  { destruct (decide (x' = x)) as [|Hne]; [done|]. apply list_elem_of_lookup_1 in Hx as [i Hi], Hx' as [j Hj].
    pose proof (stacks_apart k proc pr xs j i x' x s' s Hk Hj Hi Hne Hs' Hs) as Hap. unfold apart, stack_pages in *. lia. }
  rewrite Hs in Hs'. injection Hs' as <-. destruct Hres as [(p & st' & Hr & Hg)|[_ Hno]]; [|done].
  destruct (pv_frame _ _ _ _ _ _ _ Hg) as (Hp & Hnu & Hu). destruct (pv_old _ _ _ _ _ _ _ Hg w Hw) as [Hw' Hne].
  eexists _, p. split; [exact Hr|]. unfold phys_of. simpl. rewrite phys_set. fold (phys_of k).
  split_and!; [apply lookup_insert_eq|done|done|done|].
  intros v' Hv'. destruct (decide (v' = v)) as [->|Hnv].
  - rewrite Hw'. split; [done|]. by intros ? [= <-].
  - rewrite (pv_other _ _ _ _ _ _ _ Hg v' Hv' Hnv). split; [done|]. intros w' Hw2 Heq.
    destruct (ow_leaf _ _ _ Hown v' w' Hv' Hw2) as (_ & Hus & _). by rewrite Heq in Hus.
Qed.

(** C26: [delete_stack] unmaps pages from the end of the stack down until it has met
    [pages_mapped] mapped pages, wherever they are: when the count is the number of mapped
    pages from [lo] on, exactly the pages from [lo] to the end of the stack lose their
    frames - the stack itself when [lo] is its first page and the count is right, the pages
    below as well when the count is too high; and when the count is higher than all the
    mapped pages below the end of the stack the loop passes page 0. *)
Theorem delete_stack_unmaps_counted k vsp vs x s i lo :
  k_vspaces k !! vsp = Some vs → owns user_page vs (phys_of k) → k_stacks k !! x = Some s →
  stack_at i s → Z.of_nat i < 2 ^ 20 → is_word 64 (pages_mapped s) → 0 <= lo <= start_page s + page_count s →
  let end_page := start_page s + page_count s in
  let n := Z.to_nat (end_page - lo) in
  let first := u64 (end_page - 1) in
  (pages_mapped s = Z.of_nat (mapped_count (phys_of k) (pml4_ppn vs) lo n) →
   ∃ st', unwind n vsp x first k = Ok (tt, set_k_stacks (<[x := set_pages_mapped 0 s]> (k_stacks k)) (with_phys st' k)) ∧
     unmapped (λ v, lo <= v < end_page) vs (phys_of k) st') ∧
  (Z.of_nat (mapped_count (phys_of k) (pml4_ppn vs) lo n) < pages_mapped s → unwind n vsp x first k = Stop NoFuel).
Proof.
  intros Hvs Hown Hs Hat Hi Hw Hlo. cbv zeta. set (n := Z.to_nat _).
  destruct Hat as (_ & Hc & Hst & _). change (2 ^ 20) with 1048576 in Hi. change (2 ^ 35) with 34359738368 in *.
  assert (lo + Z.of_nat n = start_page s + page_count s) as Hn by (unfold n; lia).
  pose proof (unwind_spec n k vsp vs x s lo Hvs Hown (proj1 Hlo)) as Hsp. cbv zeta in Hsp. rewrite Hn in Hsp.
  change (2 ^ 35) with 34359738368 in Hsp. specialize (Hsp ltac:(lia) Hs Hw).
  destruct (decide (pages_mapped s = _)) as [He|Hne].
  - split; [intros _; exact Hsp|lia].
  - split; [done|exact Hsp].
Qed.

End proofs.

(** ** Concrete runs *)

#[local] Existing Instance debug_build.
Import Machine.

Lemma start_owns : owns user_page demo_vs (phys_of start).
Proof.
  split; [done|exact demo_pages_wf|]. intros v e _ He. simpl in He.
  rewrite translate_empty in He by (vm_compute; reflexivity). discriminate He.
Qed.

Lemma start_stacks : stacks_ok start 5 user_proc [].
Proof. split; try done; [by apply list_init_repr|by intros ? ?%elem_of_nil|constructor]. Qed.

Lemma start_heap : heap_ok start 5 user_proc user_loader demo_vs.
Proof. split; [by exists user_task|done|done|done|done|exact start_owns|by vm_compute|by vm_compute]. Qed.

Lemma start_create : ∃ k' a l, create_stack 5 start = Ok (32, k') ∧
  stack_created start 5 user_proc [] 32 k' ∧
  k_procs k' = <[5 := set_stack_list l user_proc]> (k_procs start) ∧
  stacks_ok k' 5 (set_stack_list l user_proc) [(a, 32)].
Proof.
  destruct (create_stack_appends start 5 user_proc [] start_stacks) as [(x & k' & Hc & Hs)|(w & Hc & _)];
    [done|by intros ? ?%elem_of_nil|done|done| |by vm_compute in Hc].
  assert (x = 32) as -> by (vm_compute in Hc; congruence).
  destruct (sc_ok _ _ _ _ _ _ Hs) as (a & l & Hp & Hk). by exists k', a, l.
Qed.

Lemma create_stack_correct_witness : ∃ k' s,
  create_stack 5 start = Ok (32, k') ∧ k_stacks k' !! 32 = Some s ∧ us_allocated s = true.
Proof.
  destruct (create_stack_correct start 5 user_proc [] start_stacks) as [(x & k' & pr' & ys & i & s & Hc & _ & _ & Hs & Ha & _)|(w & Hc & _)].
  - vm_compute. reflexivity.
  - split; [exact I|]. intros. exact I.
  - exists k', s. assert (x = 32) as -> by (vm_compute in Hc; congruence). split; [exact Hc|]. split; [exact Hs|exact Ha].
  - vm_compute in Hc. discriminate Hc.
Defined.

(** The process with one stack, at the address 32, and then with its last page loaded. *)
Definition ran {S X} (m : res (X * S)) (s : S) : S := match m with Ok (_, s') => s' | Stop _ => s end.
Definition stacked : Kernel.kernel t unit := ran (create_stack 5 start) start.
Definition stacked_proc : proc_t := default user_proc (k_procs stacked !! 5).
Definition top_page : Z := 2 ^ 35 - 8193.
Definition loaded : Kernel.kernel t unit := ran (stack_load 5 top_page stacked) stacked.

Lemma stacked_ok : stacks_ok stacked 5 stacked_proc [(80, 32)].
Proof.
  destruct start_create as (k' & a & l & Hc & _ & Hp & Hk).
  assert (stacked = k') as -> by (unfold stacked; by rewrite Hc).
  assert (stacked_proc = set_stack_list l user_proc) as Heq.
  { unfold stacked_proc, stacked. rewrite Hc. simpl. by rewrite Hp, lookup_insert_eq. }
  rewrite Heq. assert (a = 80) as <-; [|exact Hk].
  pose proof (lr_first _ _ _ (sk_repr _ _ _ _ Hk)) as Hf. rewrite <- Heq in Hf. vm_compute in Hf. by symmetry.
Qed.

Lemma stacked_owns : owns user_page demo_vs (phys_of stacked).
Proof. assert (phys_of stacked = phys_of start) as -> by (vm_compute; reflexivity). exact start_owns. Qed.

Lemma stacked_none v : translate (ram (phys_of stacked)) 0 v = None.
Proof. apply translate_empty. vm_compute. reflexivity. Qed.

Lemma stack_load_correct_witness : ∃ k' w,
  stack_load 5 top_page stacked = Ok (SUCCESS, k') ∧ translate (ram (phys_of k')) 0 top_page = Some w ∧ e_user w = 1.
Proof.
  destruct (stack_load_correct stacked 5 stacked_proc [(80, 32)] demo_vs top_page stacked_ok)
    as [(x & s & _ & _ & _ & _ & [(k' & w & Hr & _ & _ & _ & Hw & _ & _ & _ & _ & Hu & _)|[Hr _]])|[_ Hr]].
  - vm_compute. reflexivity.
  - exact stacked_owns.
  - apply stacked_none.
  - exists k', w. split; [exact Hr|]. split; [exact Hw|exact Hu].
  - vm_compute in Hr. discriminate Hr.
  - vm_compute in Hr. discriminate Hr.
Defined.

Lemma loaded_stack : k_stacks loaded !! 32 = Some (set_pages_mapped 1 (set_us_allocated true (new_stack 0))).
Proof. vm_compute. reflexivity. Qed.

Lemma loaded_ok : stacks_ok loaded 5 stacked_proc [(80, 32)].
Proof.
  assert (k_procs loaded = k_procs stacked ∧ nodes (k_store loaded) = nodes (k_store stacked) ∧
    alloc (heap (k_store loaded)) = alloc (heap (k_store stacked))) as (Hp & Hn & Ha).
  { split; [|split]; vm_compute; reflexivity. }
  destruct stacked_ok as [H1 H2 [Hi Hl Hz] [? ? ? ? ? ? Hc] H5 H6 H7 H8].
  split; [by rewrite Hp|done| | |done| |done|done].
  - split; [|rewrite Hn; intros y Hy; specialize (Hl y Hy)|by rewrite Hn]; simpl in *; by rewrite Ha.
  - split; done.
  - intros [|i] x; simpl; [|done]. intros [= <-]. eexists. split; [exact loaded_stack|].
    exact (new_stack_at 0 eq_refl).
Qed.

Lemma loaded_owns : owns user_page demo_vs (phys_of loaded).
Proof.
  destruct (stack_load_spec stacked 5 stacked_proc [(80, 32)] demo_vs top_page stacked_ok)
    as [(x & s & _ & _ & _ & _ & [(p & st' & Hr & Hg)|[Hr _]])|[_ Hr]].
  - vm_compute. reflexivity.
  - exact stacked_owns.
  - unfold loaded. rewrite Hr. unfold phys_of. simpl. apply Hg.
  - vm_compute in Hr. discriminate Hr.
  - vm_compute in Hr. discriminate Hr.
Qed.

Lemma loaded_room : free_room 4 (phys_of loaded).
Proof.
  exists [10; 11; 12; 13]. split_and!; [apply (bool_decide_unpack _); vm_compute; exact I|simpl; lia|].
  intros p Hp. rewrite !elem_of_cons, elem_of_nil in Hp.
  destruct Hp as [->|[->|[->|[->|[]]]]]; (split; [vm_compute; split; [discriminate|reflexivity]|vm_compute; discriminate]).
Qed.

Lemma top_in_stack : stack_pages (set_pages_mapped 1 (set_us_allocated true (new_stack 0))) top_page.
Proof. vm_compute. split; [discriminate|reflexivity]. Qed.

Lemma stack_load_present_leaks_witness : ∃ k' p,
  stack_load 5 top_page loaded = Ok (SUCCESS, k') ∧ used (phys_of k') p ∧
  ∀ v w, user_page v → translate (ram (phys_of k')) 0 v = Some w → e_ppn w ≠ p.
Proof.
  destruct (translate (ram (phys_of loaded)) 0 top_page) as [w|] eqn:Hw; [|vm_compute in Hw; discriminate Hw].
  destruct (stack_load_present_leaks loaded 5 stacked_proc [(80, 32)] demo_vs top_page w 32
    (set_pages_mapped 1 (set_us_allocated true (new_stack 0))) loaded_ok)
    as (k' & p & Hr & _ & _ & _ & Hu & Hall).
  - vm_compute. reflexivity.
  - exact loaded_owns.
  - exact loaded_room.
  - left.
  - exact loaded_stack.
  - reflexivity.
  - exact top_in_stack.
  - exact Hw.
  - exists k', p. split; [exact Hr|]. split; [exact Hu|]. intros v w' Hv. apply (Hall v Hv).
Defined.

Lemma delete_stack_unmaps_counted_witness : ∃ st',
  unwind 1 1 32 top_page loaded = Ok (tt, set_k_stacks (<[32 := new_stack 0]> (k_stacks loaded)) (with_phys st' loaded)) ∧
  translate (ram st') 0 top_page = None.
Proof.
  destruct (delete_stack_unmaps_counted loaded 1 demo_vs 32 (set_pages_mapped 1 (set_us_allocated true (new_stack 0))) 0 top_page)
    as [H _].
  - vm_compute. reflexivity.
  - exact loaded_owns.
  - exact loaded_stack.
  - exact (new_stack_at 0 eq_refl).
  - reflexivity.
  - split; vm_compute; [discriminate|reflexivity].
  - vm_compute. split; discriminate.
  - destruct H as (st' & Hr & Hun).
    + vm_compute. reflexivity.
    + exists st'. split; [exact Hr|]. apply (proj1 (proj2 Hun)).
      * vm_compute. split; [discriminate|reflexivity].
      * vm_compute. split; [discriminate|reflexivity].
Defined.

