(* ===== verification/Teardown.v ===== *)
(** Deleting an address space: which pages [vspace_delete] gives back.  The nested loops are
    shown equal to a list of calls of [free_page], the list is shown to name every page below
    the user half of the tree once, and from that the frames and tables of the space are free
    afterwards and no other page changes. *)
From S2P Require Import Prelude Words Mutex Bitmap PageAlloc Dll Vspace Space UserMem.

(** An index of a table. *)
Definition idx (j : Z) : Prop := 0 <= j < 512.

Section walk.
Context (r : ram_t).

(** The pages below the entries [i] to [i + k - 1] of the table in [q], in the order in which
    the loops come back from them. *)
Fixpoint subtree (lvl : nat) : nat → Z → Z → list Z :=
  fix go (k : nat) (i q : Z) :=
    match k with
    | O => []
    | S k =>
        let w := entry r q i in
        if e_present w
        then (match lvl with O => [] | S lvl => subtree lvl 512%nat 0 (e_ppn w) end ++ [e_ppn w]) ++ go k (i + 1) q
        else go k (i + 1) q
    end.

(** The same by paths: at most [lvl] more tables below the entries. *)
Definition reached (lvl k : nat) (i q p : Z) : Prop :=
  ∃ j path, i <= j < i + Z.of_nat k ∧ Forall idx path ∧ (length path <= lvl)%nat ∧ node r q (j :: path) = Some p.

Lemma node_cons_Some q j path p :
  node r q (j :: path) = Some p ↔ e_present (entry r q j) = true ∧ node r (e_ppn (entry r q j)) path = Some p.
Proof. simpl. destruct (e_present (entry r q j)); naive_solver. Qed.

Lemma subtree_S lvl k i q :
  subtree lvl (S k) i q =
    if e_present (entry r q i)
    then (match lvl with O => [] | S lvl => subtree lvl 512%nat 0 (e_ppn (entry r q i)) end ++ [e_ppn (entry r q i)])
           ++ subtree lvl k (i + 1) q
    else subtree lvl k (i + 1) q.
Proof. by destruct lvl. Qed.

(** One entry, and then the page it leads to. *)
Lemma reached_S lvl k i q p :
  reached lvl (S k) i q p ↔
    (e_present (entry r q i) = true ∧
     ∃ path, Forall idx path ∧ (length path <= lvl)%nat ∧ node r (e_ppn (entry r q i)) path = Some p) ∨
    reached lvl k (i + 1) q p.
Proof.
  split.
  - intros (j & path & Hj & Hf & Hl & Hn). destruct (decide (j = i)) as [->|]; [left|right; exists j, path; split_and!; [lia|lia|done..]].
    apply node_cons_Some in Hn as [? ?]. eauto.
  - intros [(Hp & path & Hf & Hl & Hn)|(j & path & ? & ? & ? & ?)]; [exists i, path|exists j, path; split_and!; [lia|lia|done..]].
    rewrite node_cons_Some. split_and!; [lia|lia|done..].
Qed.

Lemma reached_under lvl c p :
  (∃ path, Forall idx path ∧ (length path <= S lvl)%nat ∧ node r c path = Some p) ↔ reached lvl 512 0 c p ∨ p = c.
Proof.
  split.
  - intros ([|j path] & Hf & Hl & Hn); [right; by injection Hn|left].
    apply list.Forall_cons in Hf as [? ?]. simpl in Hl. exists j, path. split_and!; [unfold idx in *; lia..|done|lia|done].
  - intros [(j & path & ? & ? & ? & ?)| ->]; [exists (j :: path)|exists []; split_and!; [done|simpl; lia|done]].
    split_and!; [by apply list.Forall_cons|simpl; lia|done].
Qed.

Lemma elem_of_subtree lvl : ∀ k i q p, p ∈ subtree lvl k i q ↔ reached lvl k i q p.
Proof.
  induction lvl as [|lvl IHl]; intros k; induction k as [|k IHk]; intros i q p.
  1,3: split; [by intros ?%elem_of_nil|intros (j & ? & ? & _); lia].
  all: rewrite subtree_S, reached_S, <- IHk; destruct (e_present (entry r q i)); [|naive_solver].
  all: rewrite !elem_of_app, list_elem_of_singleton.
  - split; [intros [[?%elem_of_nil| ->]|?]; [done|left; split; [done|]; by exists []|by right]|].
    intros [(_ & [|? ?] & _ & Hl & Hn)|?]; [left; right; by injection Hn|simpl in Hl; lia|by right].
  - rewrite IHl, reached_under. naive_solver.
Qed.

(** Each page once, when no two of the paths lead to the same page. *)
Definition unique_paths (lvl k : nat) (i q : Z) : Prop := ∀ j j' path path' p,
  i <= j < i + Z.of_nat k → i <= j' < i + Z.of_nat k → Forall idx path → Forall idx path' →
  (length path <= lvl)%nat → (length path' <= lvl)%nat →
  node r q (j :: path) = Some p → node r q (j' :: path') = Some p → j :: path = j' :: path'.

Lemma unique_paths_next lvl k i q : unique_paths lvl (S k) i q → unique_paths lvl k (i + 1) q.
Proof. intros Hu j j' path path' p ? ?. apply Hu; lia. Qed.

Lemma unique_paths_under lvl k i q : e_present (entry r q i) = true →
  unique_paths (S lvl) (S k) i q → unique_paths lvl 512 0 (e_ppn (entry r q i)).
Proof.
  intros Hp Hu j j' path path' p Hj Hj' Hf Hf' Hl Hl' Hn Hn'.
  assert (i :: j :: path = i :: j' :: path') as [= -> ->]; [|done].
  apply (Hu i i _ _ p); [lia|lia|apply list.Forall_cons; split; [unfold idx; lia|done]..|simpl; lia|simpl; lia| |]; by rewrite node_cons_Some.
Qed.

Lemma subtree_apart lvl k i q p path : e_present (entry r q i) = true → unique_paths lvl (S k) i q →
  Forall idx path → (length path <= lvl)%nat → node r (e_ppn (entry r q i)) path = Some p → p ∉ subtree lvl k (i + 1) q.
Proof.
  intros Hp Hu Hf Hl Hn (j & path' & Hj & Hf' & Hl' & Hn')%elem_of_subtree.
  assert (i :: path = j :: path') as [= ->]; [|lia].
  apply (Hu i j _ _ p); [lia|lia|done..| |done]. by rewrite node_cons_Some.
Qed.

Lemma subtree_NoDup lvl : ∀ k i q, unique_paths lvl k i q → NoDup (subtree lvl k i q).
Proof.
  induction lvl as [|lvl IHl]; intros k; induction k as [|k IHk]; intros i q Hu; [constructor| |constructor|].
  all: rewrite subtree_S; pose proof (IHk _ _ (unique_paths_next _ _ _ _ Hu)) as Hrest; destruct (e_present (entry r q i)) eqn:Hp; [|done].
  all: apply list.NoDup_app; split_and!; [|intros p|done].
  - apply NoDup_singleton.
  - intros ->%list_elem_of_singleton. by apply (subtree_apart _ _ _ _ _ []).
  - apply list.NoDup_app. split_and!; [by apply IHl, (unique_paths_under _ k)| |apply NoDup_singleton].
    intros p (j & path & Hj & Hf & Hl & Hn)%elem_of_subtree ->%list_elem_of_singleton.
    assert (i :: [] = i :: j :: path) as [=].
    apply (Hu i i _ _ (e_ppn (entry r q i))); [lia|lia|done|apply list.Forall_cons; split; [unfold idx; lia|done]|simpl; lia|simpl; lia| |]; by rewrite node_cons_Some.
  - rewrite elem_of_app, elem_of_subtree, list_elem_of_singleton, <- reached_under.
    intros (path & Hf & Hl & Hn). by apply (subtree_apart _ _ _ _ _ path).
Qed.
End walk.

(** ** The loops *)

Section delete.
Context `{B : Build} (cur : tptr).

(** [free_page] on the pages of a list. *)
Fixpoint free_all (l : list Z) (st : pages_t) : res pages_t :=
  match l with [] => mret st | p :: l => st ← free_page cur p st; free_all l st end.

Lemma free_page_ram p st st' : free_page cur p st = Ok st' → ram st' = ram st.
Proof.
  unfold free_page. destruct (_ <=? _); [unfold assert_; destruct DEBUG; simpl; by intros [= ->]|]. intros H. bind_inv. simplify_eq. done.
Qed.

Lemma free_all_ram l st st' : free_all l st = Ok st' → ram st' = ram st.
Proof.
  revert st. induction l as [|p l IH]; intros st; simpl; [by intros [= ->]|].
  destruct (free_page cur p st) as [st1|] eqn:Hf; [|done]. simpl. intros ->%IH. by apply free_page_ram in Hf.
Qed.

Lemma free_all_app l1 l2 st : free_all (l1 ++ l2) st = (st ← free_all l1 st; free_all l2 st).
Proof. revert st. induction l1 as [|p l1 IH]; intros st; [done|]. simpl. destruct (free_page cur p st); [apply IH|done]. Qed.

(** The tables that the loops read are in RAM. *)
Definition tables_at (r : ram_t) (lvl k : nat) (i q : Z) : Prop :=
  is_Some (r !! q) ∧
  ∀ j path p, i <= j < i + Z.of_nat k → Forall idx path → (length path < lvl)%nat → node r q (j :: path) = Some p → is_Some (r !! p).

Lemma tables_at_next r lvl k i q : tables_at r lvl (S k) i q → tables_at r lvl k (i + 1) q.
Proof. intros [Hq Ht]. split; [done|]. intros j path p Hj. apply Ht. lia. Qed.

Lemma tables_at_under r lvl k i q : e_present (entry r q i) = true →
  tables_at r (S lvl) (S k) i q → tables_at r lvl 512 0 (e_ppn (entry r q i)).
Proof.
  intros Hp [_ Ht]. split.
  - apply (Ht i []); [lia|done|simpl; lia|]. by rewrite node_cons_Some.
  - intros j path p Hj Hf Hl Hn. apply (Ht i (j :: path)); [lia|apply list.Forall_cons; split; [unfold idx; lia|done]|simpl; lia|].
    by rewrite node_cons_Some.
Qed.

Lemma free_entries_S lvl k i q st : free_entries cur lvl (S k) i q st =
  (w ← rd_entry st (q, i);
   if negb (e_present w) then free_entries cur lvl k (i + 1) q st
   else
     st ← match lvl with O => mret st | S lvl => free_entries cur lvl 512%nat 0 (e_ppn w) st end;
     st ← free_page cur (e_ppn w) st;
     free_entries cur lvl k (i + 1) q st).
Proof. by destruct lvl. Qed.

(** The loops are these calls of [free_page]. *)
Lemma free_entries_eq lvl : ∀ k i q st, tables_at (ram st) lvl k i q →
  free_entries cur lvl k i q st = free_all (subtree (ram st) lvl k i q) st.
Proof.
  induction lvl as [|lvl IHl]; intros k; induction k as [|k IHk]; intros i q st Ht; [done| |done|].
  all: rewrite free_entries_S, subtree_S; pose proof (tables_at_next _ _ _ _ _ Ht) as Hnext; pose proof Ht as [[pg Hq] _].
  all: rewrite (rd_entry_ok _ _ _ _ Hq); simpl; destruct (e_present (entry (ram st) q i)) eqn:Hp; simpl; [|by apply IHk].
  - destruct (free_page cur _ st) as [st1|] eqn:Hf; [|done]. simpl. apply free_page_ram in Hf. rewrite IHk; by rewrite Hf.
  - rewrite (IHl 512%nat) by (by apply (tables_at_under _ _ k)). rewrite !free_all_app.
    destruct (free_all _ st) as [st1|] eqn:Hf1; [|done]. apply free_all_ram in Hf1. simpl.
    destruct (free_page cur _ st1) as [st2|] eqn:Hf2; [|done]. apply free_page_ram in Hf2. simpl.
    rewrite IHk; by rewrite Hf2, Hf1.
Qed.

(** Freeing pages in use, each once. *)
Lemma free_all_spec l : ∀ st, pages_wf st → NoDup l → (∀ p, p ∈ l → is_page st p ∧ used st p) →
  ∃ st', free_all l st = Ok st' ∧ ram st' = ram st ∧ pages_upd (λ p, p ∈ l) false st st'.
Proof.
  induction l as [|p l IH]; intros st Hwf Hnd Hl.
  - exists st. split_and!; [done..|]. split; [done|done| |done]. by intros ? _ ?%elem_of_nil.
  - apply list.NoDup_cons in Hnd as [Hni Hnd]. destruct (Hl p) as [Hp Hu]; [by left|].
    destruct (free_page_spec cur st Hwf p Hp Hu) as (st1 & Hf & Hr & Hupd). simpl. rewrite Hf. simpl.
    pose proof Hupd as [Hwf1 Hc _ Ho]. destruct (IH st1 Hwf1 Hnd) as (st2 & Hfa & Hr2 & Hupd2).
    { intros q Hq. destruct (Hl q) as [Hqp Hqu]; [by right|]. unfold is_page, used in *. rewrite Hc.
      split; [done|]. rewrite Ho; [done|lia|]. by intros ->. }
    exists st2. split_and!; [done|congruence|].
    eapply pages_upd_iff; [|exact (pages_upd_or _ _ _ _ _ _ Hupd Hupd2)]. intros q. by rewrite elem_of_cons.
Qed.

(** ** The pages of an address space *)

(** The pages of its user half: its root, and what paths of at most four indices lead to, the
    first of them in the lower half of the root. *)
Definition in_space (r : ram_t) (root p : Z) : Prop :=
  ∃ path, (length path <= 4)%nat ∧ Forall idx path ∧ (∀ j, head path = Some j → j < 256) ∧ node r root path = Some p.

Lemma in_space_reached r root p : in_space r root p ↔ reached r 3 256 0 root p ∨ p = root.
Proof.
  split.
  - intros ([|j path] & Hl & Hf & Hj & Hn); [right; by injection Hn|left]. apply list.Forall_cons in Hf as [? ?].
    specialize (Hj j eq_refl). simpl in Hl. exists j, path. split_and!; [unfold idx in *; lia..|done|lia|done].
  - intros [(j & path & ? & ? & ? & ?)| ->]; [exists (j :: path)|exists []; split_and!; [simpl; lia|done|done|done]].
    split_and!; [simpl; lia|apply list.Forall_cons; split; [unfold idx; lia|done]|simpl; intros ? [= <-]; lia|done].
Qed.

(** A path of four indices belongs to a page of the user half. *)
Lemma user_path a b c d : 0 <= a < 256 → idx b → idx c → idx d → ∃ v, user_page v ∧ vpath v = [a; b; c; d].
Proof.
  unfold idx, user_page. intros Ha Hb Hc Hd. exists (d + 512 * (c + 512 * (b + 512 * a))).
  change (2 ^ 35) with 34359738368. split; [lia|]. unfold vpath, i0, i1, i2, i3. change 0x1ff with (Z.ones 9).
  rewrite !Z.land_ones, !Z.shiftr_div_pow2 by lia.
  change (2 ^ 9) with 512. change (2 ^ 18) with 262144. change (2 ^ 27) with 134217728. repeat f_equal; zdiv.
Qed.

(** A page it leads to is a table of the tree or the frame of a user page. *)
Lemma reached_cases vs st j path p : owns user_page vs st → 0 <= j < 256 → Forall idx path → (length path <= 3)%nat →
  node (ram st) (pml4_ppn vs) (j :: path) = Some p →
  (length path <= 2)%nat ∨
  (∃ v e, user_page v ∧ vpath v = j :: path ∧ translate (ram st) (pml4_ppn vs) v = Some e ∧ e_ppn e = p).
Proof.
  intros Hown Hj Hf Hl Hn. destruct (decide (length path <= 2)%nat); [by left|right].
  destruct path as [|b [|c [|d [|]]]]; simpl in *; try lia.
  apply list.Forall_cons in Hf as [Hb Hf]. apply list.Forall_cons in Hf as [Hc Hf]. apply list.Forall_cons in Hf as [Hd _].
  destruct (user_path j b c d Hj Hb Hc Hd) as (v & Hv & Hvp). exists v.
  pose proof (node_translate (ram st) (pml4_ppn vs) v) as Ht. rewrite Hvp in Ht. simpl in Ht. rewrite Hn in Ht.
  destruct (translate (ram st) (pml4_ppn vs) v) as [e|]; [|done]. exists e. simpl in Ht. split_and!; [done..|congruence].
Qed.

#[local] Opaque free_entries subtree.

(** What deleting the user half relies on: its pages are in use, each is there once, and the
    tables are in RAM. *)
Record user_tree (root : Z) (st : pages_t) : Prop := {
  ut_wf : pages_wf st;
  ut_used p : in_space (ram st) root p → is_page st p ∧ used st p;
  ut_unique : unique_paths (ram st) 3 256 0 root;
  ut_tables : tables_at (ram st) 3 256 0 root;
  ut_root : ¬ reached (ram st) 3 256 0 root root;
}.

(** The pages of the space while pages are taken back: what is in it was in it, and what was in
    it is, or is free. *)
Lemma user_page_path v : user_page v → ∃ j path, vpath v = j :: path ∧ 0 <= j < 256 ∧ Forall idx path ∧ length path = 3%nat.
Proof.
  unfold user_page. intros Hv. exists (i3 v), [i2 v; i1 v; i0 v].
  pose proof (vpath_eq v) as He. change (2 ^ 36) with 68719476736 in He. change (2 ^ 35) with 34359738368 in Hv.
  rewrite Z.mod_small in He by lia.
  assert (∀ z, idx (Z.land z 0x1ff)) as Hb.
  { intros z. unfold idx. change 0x1ff with (Z.ones 9). rewrite Z.land_ones by lia. apply Z.mod_pos_bound. lia. }
  pose proof (Hb (Z.shiftr v 27)) as H3. pose proof (Hb (Z.shiftr v 18)) as H2. pose proof (Hb (Z.shiftr v 9)) as H1. pose proof (Hb v) as H0.
  fold (i3 v) in H3. fold (i2 v) in H2. fold (i1 v) in H1. fold (i0 v) in H0.
  split_and!; [done|unfold idx in *; lia..|by rewrite !list.Forall_cons|done].
Qed.

(** The frame of a user page is in the space. *)
Lemma frame_reached r root v w : user_page v → translate r root v = Some w → reached r 3 256 0 root (e_ppn w).
Proof.
  intros Hv Hw. destruct (user_page_path v Hv) as (j & path & Hp & Hj & Hf & Hlen).
  exists j, path. split_and!; [lia|lia|done|lia|]. by rewrite <- Hp, node_translate, Hw.
Qed.

Lemma takes_back_reached vs st st' q : takes_back user_page vs st st' →
  reached (ram st') 3 256 0 (pml4_ppn vs) q → reached (ram st) 3 256 0 (pml4_ppn vs) q.
Proof.
  intros Htk (j & path & Hj & Hf & Hlen & Hnode). destruct (decide (length path <= 2)%nat) as [Hlt|Hge].
  - exists j, path. rewrite <- (tk_node _ _ _ _ Htk) by (simpl; lia). split_and!; [lia|lia|done|done|done].
  - destruct path as [|b [|c [|d [|]]]]; simpl in Hlen, Hge; try lia.
    apply list.Forall_cons in Hf as [Hb Hf]. apply list.Forall_cons in Hf as [Hc Hf]. apply list.Forall_cons in Hf as [Hd _].
    destruct (user_path j b c d Hj Hb Hc Hd) as (v & Hv & Hvp). rewrite <- Hvp, node_translate in Hnode.
    destruct (translate (ram st') _ v) as [w|] eqn:Hw; [|done]. injection Hnode as <-.
    apply (frame_reached _ _ v w Hv). by apply (tk_gone _ _ _ _ Htk).
Qed.

Lemma takes_back_subspace vs st st' q : takes_back user_page vs st st' →
  in_space (ram st') (pml4_ppn vs) q → in_space (ram st) (pml4_ppn vs) q.
Proof. intros Htk. rewrite !in_space_reached. intros [Hr|?]; [left; by eapply takes_back_reached|by right]. Qed.

Lemma takes_back_space vs st st' q : owns user_page vs st → takes_back user_page vs st st' → 0 <= q →
  (used st' q ∧ ¬ in_space (ram st') (pml4_ppn vs) q) ↔ (used st q ∧ ¬ in_space (ram st) (pml4_ppn vs) q).
Proof.
  intros Hown Htk H0. split; intros [Hqu Hno]; (split; [|intros Hin; apply Hno]).
  - by apply (tk_used _ _ _ _ Htk).
  - apply in_space_reached. apply in_space_reached in Hin as [(j & path & Hj & Hf & Hlen & Hnode)|?]; [left|by right].
    destruct (reached_cases vs st j path q Hown Hj Hf Hlen Hnode) as [Hlt|(v & e & Hv & Hvp & He & <-)].
    + exists j, path. rewrite (tk_node _ _ _ _ Htk) by (simpl; lia). split_and!; [lia|lia|done|done|done].
    + destruct (tk_leaf _ _ _ _ Htk v e Hv He) as [He'|[_ Hf']]; [by eapply frame_reached|done].
  - apply (tk_keeps _ _ _ _ Htk); [done|done|]. intros v w Hv Hw <-. apply Hno, in_space_reached. left. by eapply frame_reached.
  - by eapply takes_back_subspace.
Qed.

(** The address spaces that the rest of the kernel works with have it. *)
Section owned.
Context (vs : vspace_t) (st : pages_t) (Hown : owns user_page vs st).
Local Abbreviation root := (pml4_ppn vs).

Lemma in_space_used p : in_space (ram st) root p → is_page st p ∧ used st p.
Proof.
  intros [(j & path & Hj & Hf & Hl & Hn)| ->]%in_space_reached.
  - destruct (reached_cases vs st j path p Hown) as [Hl2|(v & e & Hv & _ & He & <-)]; [lia|done..| |].
    + destruct (tw_table _ _ (ow_tree _ _ _ Hown) (j :: path) p) as (? & ? & _); [simpl; lia|done|done].
    + by destruct (ow_leaf _ _ _ Hown v e Hv He) as (? & ? & _).
  - destruct (tw_table _ _ (ow_tree _ _ _ Hown) [] root) as (? & ? & _); [simpl; lia|done|done].
Qed.

Lemma space_unique : unique_paths (ram st) 3 256 0 root.
Proof.
  intros j j' path path' p Hj Hj' Hf Hf' Hl Hl' Hn Hn'.
  destruct (reached_cases vs st j path p Hown) as [Hl2|(v & e & Hv & Hvp & He & Hep)]; [lia|done..| |];
  destruct (reached_cases vs st j' path' p Hown) as [Hl2'|(v' & e' & Hv' & Hvp' & He' & Hep')]; try (lia || done).
  - apply (tw_unique _ _ (ow_tree _ _ _ Hown) _ _ p); simpl; [lia|lia|done|done].
  - destruct (ow_leaf _ _ _ Hown v' e' Hv' He') as (_ & _ & Hno & _). destruct (Hno (j :: path)); [simpl; lia|congruence].
  - destruct (ow_leaf _ _ _ Hown v e Hv He) as (_ & _ & Hno & _). destruct (Hno (j' :: path')); [simpl; lia|congruence].
  - destruct (ow_leaf _ _ _ Hown v e Hv He) as (_ & _ & _ & Hu). rewrite <- Hvp, <- Hvp'. f_equal. symmetry.
    apply (Hu v' e' Hv' He'). congruence.
Qed.

Lemma space_tables : tables_at (ram st) 3 256 0 root.
Proof.
  split.
  - by destruct (tw_table _ _ (ow_tree _ _ _ Hown) [] root) as (_ & _ & ?); [simpl; lia|done|].
  - intros j path p Hj Hf Hl Hn. by destruct (tw_table _ _ (ow_tree _ _ _ Hown) (j :: path) p) as (_ & _ & ?); [simpl; lia|done|].
Qed.

Lemma root_once : ¬ reached (ram st) 3 256 0 root root.
Proof.
  intros (j & path & Hj & Hf & Hl & Hn).
  destruct (reached_cases vs st j path root Hown) as [Hl2|(v & e & Hv & _ & He & Hep)]; [lia|done..| |].
  - assert (j :: path = []) as [=]. apply (tw_unique _ _ (ow_tree _ _ _ Hown) _ _ root); simpl; [lia|lia|done|done].
  - destruct (ow_leaf _ _ _ Hown v e Hv He) as (_ & _ & Hno & _). destruct (Hno []); [simpl; lia|simpl; congruence].
Qed.

Lemma owns_user_tree : user_tree root st.
Proof.
  split; [apply (tw_pages _ _ (ow_tree _ _ _ Hown))|apply in_space_used|apply space_unique|apply space_tables|apply root_once].
Qed.
End owned.

(** It depends on the pages of the space only. *)
Section frame.
Context (root : Z) (st st' : pages_t) (Ht : user_tree root st) (Hwf : pages_wf st') (Hc : page_count st' = page_count st).
Context (Hkeep : ∀ p, in_space (ram st) root p → ram st' !! p = ram st !! p ∧ (used st p → used st' p)).

Lemma space_node path : (length path <= 4)%nat → Forall idx path → (∀ j, head path = Some j → j < 256) →
  node (ram st') root path = node (ram st) root path.
Proof.
  intros Hl Hf Hh. apply node_ext. intros pre j rest s -> Hn. unfold entry.
  destruct (Hkeep s) as [-> _]; [|done]. exists pre. rewrite length_app in Hl. apply Forall_app in Hf as [? _].
  split_and!; [lia|done| |done]. intros i Hi. apply Hh. by destruct pre.
Qed.

Lemma in_space_frame p : in_space (ram st') root p ↔ in_space (ram st) root p.
Proof.
  split; intros (path & Hl & Hf & Hh & Hn); exists path; split_and!; try done; [by rewrite <- space_node|by rewrite space_node].
Qed.

Lemma space_cons j path : 0 <= j < 256 → Forall idx path → (length path <= 3)%nat →
  node (ram st') root (j :: path) = node (ram st) root (j :: path).
Proof.
  intros Hj Hf Hl. apply space_node; [simpl; lia|apply list.Forall_cons; split; [unfold idx; lia|done]|].
  simpl. intros ? [= <-]. lia.
Qed.

Lemma user_tree_frame : user_tree root st'.
Proof.
  destruct Ht as [_ Hu Hun [Hr Hta] Hro]. split; [done| | | |].
  - intros p Hp%in_space_frame. destruct (Hu p Hp). destruct (Hkeep p Hp). unfold is_page in *. rewrite Hc. auto.
  - intros j j' path path' p ? ? ? ? ? ?. rewrite !space_cons by (lia || done). by apply Hun.
  - split; [destruct (Hkeep root) as [-> _]; [exists []; split_and!; [simpl; lia|done|done|done]|done]|]. intros j path p Hj Hf Hl. rewrite space_cons by (lia || done).
    intros Hn. destruct (Hkeep p) as [-> _]; [|by apply (Hta j path)]. exists (j :: path).
    split_and!; [simpl; lia|apply list.Forall_cons; split; [unfold idx; lia|done]|simpl; intros ? [= <-]; lia|done].
  - intros (j & path & Hj & Hf & Hl & Hn). rewrite space_cons in Hn by (lia || done). apply Hro. by exists j, path.
Qed.
End frame.

(** The loops and the root after them. *)
Lemma free_space root st : user_tree root st →
  ∃ st', (st ← free_entries cur 3 256%nat 0 root st; free_page cur root st) = Ok st' ∧
    ram st' = ram st ∧ pages_upd (in_space (ram st) root) false st st'.
Proof.
  intros [Hwf Hu Hun Hta Hro]. rewrite free_entries_eq by exact Hta.
  destruct (free_all_spec (subtree (ram st) 3 256 0 root ++ [root]) st Hwf) as (st' & Hf & Hr & Hupd).
  - apply list.NoDup_app. split_and!; [by apply subtree_NoDup| |apply NoDup_singleton].
    intros p Hp%elem_of_subtree ->%list_elem_of_singleton. done.
  - intros p. rewrite elem_of_app, elem_of_subtree, list_elem_of_singleton, <- in_space_reached. apply Hu.
  - exists st'. rewrite free_all_app in Hf. simpl in Hf. split_and!; [|done|].
    + destruct (free_all _ st) as [st1|]; [|done]. simpl in *. by destruct (free_page cur root st1).
    + eapply pages_upd_iff; [|exact Hupd]. intros p. by rewrite elem_of_app, elem_of_subtree, list_elem_of_singleton, <- in_space_reached.
Qed.

(** What [vspace_delete] does to the heap and to the pages. *)
Lemma vspace_delete_spec `{KM : Kmalloc A, PM : PhysMem A} p vs (hp : A) :
  vs_lock vs = MUTEX_INITIALIZER → user_tree (pml4_ppn vs) (phys hp) → pml4_ppn vs ≠ SIZE_MAX →
  ∃ st', ram st' = ram (phys hp) ∧ pages_upd (in_space (ram (phys hp)) (pml4_ppn vs)) false (phys hp) st' ∧
    vspace_delete cur p vs hp =
      (hp' ← km_free p (set_phys st' hp); mret ({| vs_lock := MUTEX_INITIALIZER; pml4_ppn := SIZE_MAX |}, hp')).
Proof.
  intros Hl Hown Hne. destruct (free_space _ _ Hown) as (st' & Hf & Hr & Hupd). exists st'. split_and!; [done..|].
  unfold vspace_delete. rewrite Hl, mutex_lock_idle. simpl. rewrite mutex_release_taken. simpl.
  destruct (Z.eqb_spec (pml4_ppn vs) SIZE_MAX); [done|]. simpl.
  apply bind_Ok in Hf as (st1 & Hloops & Hroot). by rewrite Hloops; simpl; rewrite Hroot.
Qed.
End delete.
