(* ===== verification/Vfs.v ===== *)
(** The virtual file system: fs/vfs.c and fs/ffind.c.  Directories are lists of entries, and the
    files behind the entries are fetched from the file system driver when they are looked up
    first. *)
From S2P Require Import Prelude Words Mutex Dll Lists Errno Kernel.
Open Scope Z_scope.

(** The types of files. *)
(** [F_FIFO] (kernel/kernel/include/fs/vfs.h, lines 11-11). *)
Definition F_FIFO : Z := 0x1000.
(** [F_CHAR] (kernel/kernel/include/fs/vfs.h, lines 12-12). *)
Definition F_CHAR : Z := 0x2000.
(** [F_DIR] (kernel/kernel/include/fs/vfs.h, lines 13-13). *)
Definition F_DIR : Z := 0x4000.
(** [F_BLOCK] (kernel/kernel/include/fs/vfs.h, lines 14-14). *)
Definition F_BLOCK : Z := 0x6000.
(** [F_REGULAR] (kernel/kernel/include/fs/vfs.h, lines 15-15). *)
Definition F_REGULAR : Z := 0x8000.
(** [F_SYMLINK] (kernel/kernel/include/fs/vfs.h, lines 16-16). *)
Definition F_SYMLINK : Z := 0xa000.
(** [F_SOCKET] (kernel/kernel/include/fs/vfs.h, lines 17-17). *)
Definition F_SOCKET : Z := 0xc000.

(** [SEEK_SET] and the others (kernel/kernel/include/fs/vfs.h, lines 148-152). *)
Inductive whence := SEEK_SET | SEEK_CUR | SEEK_END.
Definition O_RDONLY : Z := BIT 0.

(** [FFIND_CREATE] (kernel/kernel/include/fs/vfs.h, lines 154-154). *)
Definition FFIND_CREATE : Z := BIT 0.

(** The functions behind the pointers of [f_ops_t] and [fs_t] (kernel/kernel/include/fs/vfs.h,
    lines 70-74 and 127-135), by their addresses: what a driver offers to the VFS.  A read
    returns the number of bytes or an error, and the bytes. *)
Class Drivers (A F : Type) := {
  call_read (fn fs_data len off : Z) : K (kernel A F) (Z * list Z);
  call_probe (fn fd : Z) : K (kernel A F) Z;
  call_mount (fn fs : Z) : K (kernel A F) Z;
  call_fetch (fn parent direntry : Z) : K (kernel A F) unit;
}.

(** What fs/blockdev.c and fs/blkdev_ops.c offer to the VFS. *)
Class BlockDevices (A F : Type) := {
  bd_open (major minor : Z) : K (kernel A F) (Z * option Z);
  bd_get_by_name (name : list Z) : K (kernel A F) (option (Z * Z));
  blockdev_mknodes : K (kernel A F) unit;
}.

(** The first field of a path, and what is left behind the slash: [strccpy] on strings
    without their null byte; [strclen] is the length of the field. *)
Fixpoint field (path : list Z) : list Z * list Z :=
  match path with
  | [] => ([], [])
  | c :: p => if c =? 47 then ([], p) else let '(name, rem) := field p in (c :: name, rem)
  end.

Section operations.
Context {A F : Type} `{B : Build} `{KM : Kmalloc A} `{D : Drivers A F} `{BD : BlockDevices A F}.
Abbreviation kernel := (Kernel.kernel A F).
Abbreviation KV := (K kernel).

(** Fields of [vfs_t] as static variables. *)
Definition of_vfs {X} (get : vfs_t → X) (k : kernel) : X := get (k_vfs k).
Definition in_vfs {X} (set : X → vfs_t → vfs_t) (x : X) (k : kernel) : kernel := set_k_vfs (set x (k_vfs k)) k.

(** [fs_fetch] (kernel/kernel/fs/ffind.c, lines 9-16). *)
Definition fs_fetch (parent entry : Z) : KV unit :=
  e ← load (T := direntry_t) entry;
  if negb (de_file e =? 0) then mret tt
  else
    p ← load (T := dir_t) parent;
    lift (assert_ (negb (d_fstype p =? 0)));;
    fs ← load (T := fs_t) (d_fstype p);
    call_fetch (fs_fetch_op fs) parent entry;;
    e ← load (T := direntry_t) entry;
    change (T := file_t) (de_file e) (set_f_parent parent).

(** The directory of a file that is one. *)
Definition directory_of (f : file_t) : KV Z :=
  match special f with Directory d => mret d | _ => kstop Fault end.

(** [ffind_noent] (kernel/kernel/fs/ffind.c, lines 18-34). *)
Definition ffind_noent (parent flags new_file : Z) : KV Z :=
  if Z.land flags FFIND_CREATE =? 0 then mret (- ENOENT)
  else
    p ← load (T := dir_t) parent;
    '(_, l) ← on_store (list_add (d_files p) new_file);
    change parent (set_d_files l);;
    change new_file (set_f_parent parent);;
    pf ← load (T := file_t) (d_file p);
    change new_file (set_driver1 (driver1 pf));;
    change new_file (set_driver2 0);;
    f ← load (T := file_t) new_file;
    when (f_type f =? F_DIR)
      (d ← directory_of f;
       change d (set_d_parent parent);;
       change d (set_d_driver (driver1 f)));;
    mret SUCCESS.

(** [ffind_success] (kernel/kernel/fs/ffind.c, lines 36-41). *)
Definition ffind_success (flags : Z) : Z := if Z.land flags FFIND_CREATE =? 0 then SUCCESS else - EEXIST.

(** [*node], where [node] may be NULL. *)
Definition deref (node : option Z) : KV Z := match node with Some n => mret n | None => kstop Fault end.

(** What [ffind_recursive] does with an entry that has the right name
    (kernel/kernel/fs/ffind.c, lines 68-83); [again] is the recursive call. *)
Definition ffind_entry (again : list Z → Z → KV (Z * option Z)) (pathname rem : list Z) (working_dir entry : Z)
    (node : option Z) (flags : Z) : KV (Z * option Z) :=
  e ← load (T := direntry_t) entry;
  when (de_file e =? 0) (fs_fetch working_dir entry);;
  e ← load (T := direntry_t) entry;
  f ← load (T := file_t) (de_file e);
  match rem with
  | [] =>
      before ← lift (of_option (list.last pathname));  (* the byte in front of the null byte *)
      if (before =? 47) && negb (f_type f =? F_DIR) then mret (- ENOTDIR, node)
      else
        n ← deref node;
        mret (ffind_success flags, if n =? 0 then node else Some (de_file e))
  | _ =>
      if negb (f_type f =? F_DIR) then
        n ← deref node; st ← ffind_noent working_dir flags n; mret (st, node)
      else d ← directory_of f; again rem d
  end.

(** The name that is looked up: the first field, or "." for an empty one
    ([ffind_recursive] (kernel/kernel/fs/ffind.c, lines 46-52)). *)
Definition lookup_name (pathname : list Z) : list Z := match (field pathname).1 with [] => [46] | n => n end.

(** [ffind_recursive] (kernel/kernel/fs/ffind.c, lines 43-88): the status, and [*node]. *)
Fixpoint ffind_recursive (fuel : nat) (pathname : list Z) (working_dir : Z) (node : option Z) (flags : Z) : KV (Z * option Z) :=
  match fuel with
  | O => kstop NoFuel
  | S fuel =>
      let '(name, rem) := field pathname in
      if 255 <? Z.of_nat (length name) then mret (- ENAMETOOLONG, node)
      else
        d ← load (T := dir_t) working_dir;
        let working_dir := if negb (mounted d =? 0) then mounted d else working_dir in
        d ← load (T := dir_t) working_dir;
        size ← lift (list_size (d_files d));
        if size =? 0 then n ← deref node; st ← ffind_noent working_dir flags n; mret (st, node)
        else
          r ← foreach (d_files d) (λ entry,
            e ← load (T := direntry_t) entry;
            if bool_decide (de_name e = lookup_name pathname) then
              r ← ffind_entry (λ rem d, ffind_recursive fuel rem d node flags) pathname rem working_dir entry node flags;
              mret (Some r)
            else mret None);
          match r with
          | Some r => mret r
          | None => st ← ffind_noent working_dir flags (default 0 node); mret (st, node)
          end
  end.

(** [ffind] (kernel/kernel/fs/ffind.c, lines 90-111).  Behind the slash the code looks at the
    byte after the next one: for "/" that is the byte behind the string. *)
Definition ffind (working_dir : Z) (pathname : list Z) (node : option Z) (flags : Z) : KV (Z * option Z) :=
  let search pathname working_dir :=
    lock_var (of_vfs fs_tree_lock) (in_vfs set_fs_tree_lock);;
    ret ← ffind_recursive (S (length pathname)) pathname working_dir node flags;
    unlock_var (of_vfs fs_tree_lock) (in_vfs set_fs_tree_lock);;
    mret ret in
  match pathname with
  | 47 :: pathname =>
      root ← gets (of_vfs VFS_ROOT);
      match pathname with
      | [] => kstop Fault
      | [_] =>
          if negb (Z.land flags FFIND_CREATE =? 0) then mret (- EEXIST, node)
          else
            n ← deref node;
            if n =? 0 then mret (SUCCESS, node)
            else d ← load (T := dir_t) root; mret (SUCCESS, Some (d_file d))
      | _ => search pathname root
      end
  | _ => search pathname working_dir
  end.

(** [time] (kernel/kernel/time/time.c, lines 3-6). *)
Definition time : Z := 0.

(** [get_working_dir] (kernel/kernel/fs/vfs.c, lines 107-115). *)
Definition get_working_dir (proc : Z) : KV Z :=
  root ← gets (of_vfs VFS_ROOT);
  if proc =? 0 then mret root
  else pr ← load (T := proc_t) proc; mret (if working_dir pr =? 0 then root else working_dir pr).

(** What is left in memory that is not initialised. *)
Context (junk : Z → Z) (junk_mutex : Z → mutex_t).

(** [falloc] (kernel/kernel/fs/vfs.c, lines 117-133). *)
Definition falloc (proc type mode : Z) : KV Z :=
  file ← new 88;
  '(uid, gid) ← (if proc =? 0 then mret (0, 0) else pr ← load (T := proc_t) proc; mret (u32 (uid pr), u32 (gid pr)));
  put file {| f_mode := mode; f_type := type; f_uid := uid; f_gid := gid; t_last_modified := time;
              t_last_accessed := time; t_created := time; f_length := 0; f_inode := 0; driver1 := 0; driver2 := 0;
              f_parent := junk (file + 72); special := NoSpecial |};;
  mret file.

(** The common part of [vfs_mknod] and [vfs_mkdir]: what the search of a path that must not
    exist yet says ([vfs_mknod] (kernel/kernel/fs/vfs.c, lines 145-152)). *)
Definition must_be_new (working_dir : Z) (pathname : list Z) : KV (option Z) :=
  '(status, _) ← ffind working_dir pathname None 0;
  mret (if negb (status =? - ENOENT) then Some (if status <? 0 then status else - EEXIST) else None).

(** [vfs_mknod] (kernel/kernel/fs/vfs.c, lines 136-163). *)
Definition vfs_mknod (proc : Z) (pathname : list Z) (type mode major minor : Z) : KV Z :=
  if negb (type =? F_BLOCK) && negb (type =? F_CHAR) && negb (type =? F_FIFO) && negb (type =? F_SOCKET) then
    mret (- EINVAL)
  else
    working_dir ← get_working_dir proc;
    old ← must_be_new working_dir pathname;
    match old with
    | Some status => mret status
    | None =>
        file ← falloc proc type mode;
        change file (set_special (Device (u32 major) (u32 minor)));;
        '(status, node) ← ffind working_dir pathname (Some file) FFIND_CREATE;
        when (status <? 0) (free (default file node));;
        mret status
    end.

(** [vfs_mkdir] (kernel/kernel/fs/vfs.c, lines 165-196). *)
Definition vfs_mkdir (proc : Z) (pathname : list Z) (mode : Z) : KV Z :=
  working_dir ← get_working_dir proc;
  old ← must_be_new working_dir pathname;
  match old with
  | Some status => mret status
  | None =>
      dir ← new 72;
      file ← falloc proc F_DIR mode;
      put dir {| d_file := file; d_files := list_init; d_parent := junk (dir + 40); mounted := 0; d_fstype := 0;
                 d_driver := 0 |};;
      change file (set_special (Directory dir));;
      '(status, node) ← ffind working_dir pathname (Some file) FFIND_CREATE;
      when (status <? 0) (free (default file node);; free dir);;
      mret status
  end.

(** [fs_register] (kernel/kernel/fs/vfs.c, lines 198-204). *)
Definition fs_register (fs : Z) : KV unit :=
  lift (assert_ (negb (fs =? 0)));;
  lock_var (of_vfs fs_list_lock) (in_vfs set_fs_list_lock);;
  l ← gets (of_vfs fs_list);
  '(_, l) ← on_store (list_add l fs);
  modify (in_vfs set_fs_list l);;
  unlock_var (of_vfs fs_list_lock) (in_vfs set_fs_list_lock).

(** [probe_fs] (kernel/kernel/fs/vfs.c, lines 30-48): the driver's data and the file system. *)
Definition probe_fs (disk : Z) : KV (option (Z * Z)) :=
  lock_var (of_vfs fs_list_lock) (in_vfs set_fs_list_lock);;
  l ← gets (of_vfs fs_list);
  r ← foreach l (λ fs,
    t ← load (T := fs_t) fs;
    data ← call_probe (fs_probe t) disk;
    if negb (data =? 0) then
      unlock_var (of_vfs fs_list_lock) (in_vfs set_fs_list_lock);; mret (Some (data, fs))
    else mret None);
  match r with
  | Some r => mret (Some r)
  | None => unlock_var (of_vfs fs_list_lock) (in_vfs set_fs_list_lock);; mret None
  end.

(** [vfs_read] (kernel/kernel/fs/vfs.c, lines 206-211). *)
Definition vfs_read (fd length : Z) : KV (Z * list Z) :=
  f ← load (T := fd_t) fd;
  if op_read (f_ops f) =? 0 then mret (- ENOTSUP, [])
  else call_read (op_read (f_ops f)) (fs_data f) length (fpos f).

(** [vfs_seek] (kernel/kernel/fs/vfs.c, lines 213-230). *)
Definition vfs_seek (fd offset : Z) (w : whence) : KV Z :=
  f ← load (T := fd_t) fd;
  pos ← match w with
        | SEEK_SET => mret offset
        | SEEK_CUR => mret (u64 (fpos f + offset))
        | SEEK_END => file ← load (T := file_t) (fd_file f); mret (u64 (f_length file + offset))
        end;
  change fd (set_fpos pos);;
  mret offset.

(** [vfs_dup] (kernel/kernel/fs/vfs.c, lines 232-235). *)
Definition vfs_dup (fd : Z) : Z := fd.

(** [vfs_open] (kernel/kernel/fs/vfs.c, lines 237-280): the status, and the descriptor.  The
    variable that takes the file starts as [junk 0]. *)
Definition vfs_open (filename : list Z) : KV (Z * option Z) :=
  cur ← gets current_task;
  root ← gets (of_vfs VFS_ROOT);
  working_dir ← (if cur =? 0 then mret root
                 else
                   t ← load (T := task_t) cur;
                   if t_process t =? 0 then mret root
                   else pr ← load (T := proc_t) (t_process t);
                        mret (if working_dir pr =? 0 then root else working_dir pr));
  '(error, target) ← ffind working_dir filename (Some (junk 0)) 0;
  if error <? 0 then mret (error, None)
  else
    let target := default 0 target in
    f ← load (T := file_t) target;
    if f_type f =? F_REGULAR then
      fd ← new 112;
      lift (assert_ (negb (f_parent f =? 0)));;
      d ← load (T := dir_t) (f_parent f);
      fs ← load (T := fs_t) (d_fstype d);
      put fd {| fd_file := target; fpos := 0; f_ops := fs_f_ops fs; fs_data := target; fdmod := junk_mutex (fd + 40) |};;
      mret (SUCCESS, Some fd)
    else if f_type f =? F_BLOCK then
      match special f with Device major minor => bd_open major minor | _ => kstop Fault end
    else if f_type f =? F_DIR then mret (- EISDIR, None)
    else mret (- ENOSYS, None).

(** [vfs_close] (kernel/kernel/fs/vfs.c, lines 282-286). *)
Definition vfs_close (fd : Z) : KV unit := free fd;; drop_obj fd_t fd.

(** The mode of directories made by the kernel: [FMODE_DEFAULT] (kernel/kernel/fs/vfs.c, lines 12-19)
    as the bits of [fmode_t]. *)
Definition FMODE_DEFAULT : Z := BIT 8 + BIT 7 + BIT 6 + BIT 5 + BIT 3 + BIT 2 + BIT 0.

(** [vfs_init] (kernel/kernel/fs/vfs.c, lines 50-105), with the driver's [ext2fs_init]; without
    a root file system it panics. *)
Definition vfs_init (ext2fs_init : KV unit) (rootfs : list Z) : KV unit :=
  modify (in_vfs set_fs_list list_init);;
  l ← gets (of_vfs fs_list_lock); l ← lift (mutex_init l); modify (in_vfs set_fs_list_lock l);;
  ext2fs_init;;
  dev ← bd_get_by_name rootfs;
  match dev with
  | None => kstop Panic
  | Some (major, minor) =>
      '(error, fd) ← bd_open major minor;
      if error <? 0 then kstop Panic
      else
        r ← probe_fs (default 0 fd);
        match r with
        | None => kstop Panic
        | Some (fsdata, fs) =>
            t ← load (T := fs_t) fs;
            mp ← call_mount (fs_mount t) fsdata;
            if mp =? 0 then kstop Panic
            else
              modify (in_vfs set_VFS_ROOT mp);;
              change mp (set_d_parent mp);;
              _ ← vfs_mkdir 0 [47; 100; 101; 118] FMODE_DEFAULT;  (* "/dev" *)
              modify (in_vfs set_vfs_initialized true);;
              blockdev_mknodes
        end
  end.
End operations.

(** ** Paths *)

Lemma field_slash name rem : 47 ∉ name → field (name ++ 47 :: rem) = (name, rem).
Proof.
  induction name as [|c name IH]; intros Hn; [done|]. apply not_elem_of_cons in Hn as [Hc Hn]. cbn [field app].
  by rewrite (proj2 (Z.eqb_neq c 47)), IH.
Qed.

Lemma field_last name : 47 ∉ name → field name = (name, []).
Proof.
  induction name as [|c name IH]; intros Hn; [done|]. apply not_elem_of_cons in Hn as [Hc Hn]. cbn [field].
  by rewrite (proj2 (Z.eqb_neq c 47)), IH.
Qed.

(** The path with the names given, with or without a slash at its end. *)
Fixpoint path_of (names : list (list Z)) (slash : bool) : list Z :=
  match names with
  | [] => []
  | [n] => n ++ (if slash then [47] else [])
  | n :: ns => n ++ 47 :: path_of ns slash
  end.

(** The names of a path: no slash in them, and the last one is not empty. *)
Fixpoint names_ok (names : list (list Z)) : Prop :=
  match names with
  | [] => False
  | [n] => 47 ∉ n ∧ n ≠ []
  | n :: ns => 47 ∉ n ∧ names_ok ns
  end.

Lemma path_nonempty names slash : names_ok names → path_of names slash ≠ [].
Proof.
  destruct names as [|n [|m ns]]; [done| |]; intros Hn; simpl.
  - destruct Hn as [_ Hn]. by destruct n.
  - by destruct n.
Qed.

(** An abstract tree of files: the entries of each directory in order, by name, and the
    directories among the files. *)
Record tree := { entries : gmap Z (list (list Z * Z)); subdir : gmap Z Z }.

Definition dot (name : list Z) : list Z := match name with [] => [46] | _ => name end.
Definition entry_named (es : list (list Z * Z)) (name : list Z) : option Z :=
  snd <$> List.find (λ e, bool_decide (e.1 = name)) es.

(** What looking up a path means: a file, or an error. *)
Fixpoint walk (t : tree) (names : list (list Z)) (slash : bool) (d : Z) : Z + Z :=
  match names with
  | [] => inr ENOENT
  | n :: ns =>
      if 255 <? Z.of_nat (length n) then inr ENAMETOOLONG
      else
        match entry_named (default [] (entries t !! d)) (dot n) with
        | None => inr ENOENT
        | Some f =>
            match ns, subdir t !! f with
            | [], None => if slash then inr ENOTDIR else inl f
            | [], Some _ => inl f
            | _, Some d' => walk t ns slash d'
            | _, None => inr ENOENT
            end
        end
  end.

Section lookup.
Context {A F : Type} `{B : Build} `{KM : Kmalloc A} {KL : KmallocLaws A} `{D : Drivers A F}.
Abbreviation kernel := (Kernel.kernel A F).
Implicit Types (k : kernel).

(** An entry of a directory stands for a name and a file that is loaded. *)
Definition entry_ok k (t : tree) (e : Z) (nf : list Z * Z) : Prop :=
  ∃ de file, objs (T := direntry_t) k !! e = Some de ∧ de_name de = nf.1 ∧ de_file de = nf.2 ∧ nf.2 ≠ 0 ∧
    objs (T := file_t) k !! nf.2 = Some file ∧
    match subdir t !! nf.2 with
    | Some d => f_type file = F_DIR ∧ special file = Directory d ∧ is_Some (entries t !! d)
    | None => f_type file ≠ F_DIR
    end.

(** The directory whose list is searched for [d]: what is mounted on it, or itself. *)
Definition dir_ok k (t : tree) (d : Z) (es : list (list Z * Z)) : Prop :=
  ∃ dr wd dr' xs, objs (T := dir_t) k !! d = Some dr ∧ wd = (if mounted dr =? 0 then d else mounted dr) ∧
    objs (T := dir_t) k !! wd = Some dr' ∧ list_repr (d_files dr') xs (k_store k) ∧ Forall2 (entry_ok k t) xs.*2 es.

(** The tree in memory: every file of it is loaded, and the lock is free. *)
Record tree_ok k (t : tree) : Prop := {
  tr_lock : of_vfs fs_tree_lock k = MUTEX_INITIALIZER;
  tr_store : store_wf (k_store k);
  tr_dirs d es : entries t !! d = Some es → dir_ok k t d es;
}.

(** The tree does not depend on its lock. *)
Lemma tree_ok_dirs k t l d es :
  dir_ok k t d es → dir_ok (in_vfs set_fs_tree_lock l k) t d es.
Proof. done. Qed.

(** The search of one directory: the first entry with the name. *)
Lemma search_entries k t xs es name (body : Z → K kernel (Z * option Z)) :
  Forall2 (entry_ok k t) xs es →
  run_payloads xs (λ e, de ← load (T := direntry_t) e;
    if bool_decide (de_name de = name) then r ← body e; mret (Some r) else mret None) k =
  match List.find (λ p, bool_decide (p.2.1 = name)) (zip xs es) with
  | Some (e, _) => (r ← body e; mret (Some r)) k
  | None => Ok (None, k)
  end.
Proof.
  induction 1 as [|e [n f] xs es (de & file & Hde & Hn & _) _ IH]; [done|].
  cbn [run_payloads zip_with List.find fst snd]. rewrite K_bind_assoc. kstep (load_Ok (O := direntry_object) e de k Hde).
  rewrite Hn. cbn [fst]. destruct (bool_decide (n = name)); [|done].
  rewrite K_bind_assoc. unfold mbind, K_bind. by destruct (body e k) as [[r k']|].
Qed.

Lemma field_path n ns slash : names_ok (n :: ns) → field (path_of (n :: ns) slash) = (n, path_of ns slash).
Proof.
  destruct ns as [|m ns]; intros [Hn _]; simpl; [|by apply field_slash].
  destruct slash; [by apply field_slash|]. rewrite app_nil_r. by apply field_last.
Qed.

(** The last character of a path tells whether it ends in a slash. *)
Lemma last_path n slash : names_ok [n] →
  ∃ c, list.last (path_of [n] slash) = Some c ∧ (c =? 47) = slash.
Proof.
  intros [Hn Hne]. destruct slash; simpl; [exists 47; by rewrite last_snoc|]. rewrite app_nil_r.
  destruct (list.last n) as [c|] eqn:Hc; [|by apply last_None in Hc]. exists c. split; [done|].
  apply Z.eqb_neq. intros ->. apply Hn. apply last_Some in Hc as [l ->]. clear. set_solver.
Qed.

Lemma find_zip {X Y} (P : Y → bool) (xs : list X) (ys : list Y) R :
  Forall2 R xs ys →
  match List.find (λ p, P p.2) (zip xs ys) with
  | Some (x, y) => List.find P ys = Some y ∧ R x y
  | None => List.find P ys = None
  end.
Proof.
  induction 1 as [|x y xs ys Hxy _ IH]; [done|]. cbn [zip_with List.find snd]. by destruct (P y).
Qed.

Definition found (r : Z + Z) (node : Z) : Z * option Z :=
  match r with inl f => (SUCCESS, Some f) | inr e => (- e, Some node) end.

Lemma noent parent n k : ffind_noent (A := A) (F := F) parent 0 n k = Ok (- ENOENT, k).
Proof. done. Qed.

(** One step of the search, in a directory that is not empty. *)
Lemma search_dir k t node flags n ns slash fuel d es dr wd dr' xs :
  store_wf (k_store k) → names_ok (n :: ns) → Z.of_nat (length n) <= 255 →
  objs (T := dir_t) k !! d = Some dr → wd = (if mounted dr =? 0 then d else mounted dr) →
  objs (T := dir_t) k !! wd = Some dr' → list_repr (d_files dr') xs (k_store k) → xs ≠ [] →
  Forall2 (entry_ok k t) xs.*2 es →
  ffind_recursive (S fuel) (path_of (n :: ns) slash) d node flags k =
    match List.find (λ p, bool_decide (p.2.1 = dot n)) (zip xs.*2 es) with
    | Some (e, _) => ffind_entry (λ rem d, ffind_recursive fuel rem d node flags) (path_of (n :: ns) slash)
                       (path_of ns slash) wd e node flags k
    | None => (st ← ffind_noent wd flags (default 0 node); mret (st, node)) k
    end.
Proof.
  intros Hs Hok Hlen Hdr Hwd Hdr' Hl Hne Hes. cbn [ffind_recursive]. rewrite (field_path _ _ _ Hok).
  rewrite (proj2 (Z.ltb_ge 255 _)) by done. kstep (load_Ok (O := dir_object) d dr k Hdr).
  assert ((if negb (mounted dr =? 0) then mounted dr else d) = wd) as -> by (subst wd; by destruct (mounted dr =? 0)).
  kstep (load_Ok (O := dir_object) wd dr' k Hdr').
  assert (lift (S := kernel) (list_size (d_files dr')) k = Ok (Z.of_nat (length xs), k)) as Hsz.
  { unfold lift, list_size. rewrite (sanity _ _ _ Hl). simpl. by rewrite (lr_items _ _ _ Hl). }
  kstep Hsz. rewrite (proj2 (Z.eqb_neq _ 0)) by (destruct xs; [done|simpl; lia]).
  assert (lookup_name (path_of (n :: ns) slash) = dot n) as -> by (unfold lookup_name; rewrite (field_path _ _ _ Hok); by destruct n).
  match goal with |- (foreach ?l ?b ≫= _) k = _ =>
    assert (foreach l b k = match List.find (λ p, bool_decide (p.2.1 = dot n)) (zip xs.*2 es) with
      | Some (e, _) => (r ← ffind_entry (λ rem d, ffind_recursive fuel rem d node flags) (path_of (n :: ns) slash)
                              (path_of ns slash) wd e node flags; mret (Some r)) k
      | None => Ok (None, k) end) as Hfe end.
  { rewrite (foreach_payloads _ xs); [by apply (search_entries k t)|done|done|].
    intros x k1 k2 _ Hb He. unfold mbind at 1, K_bind at 1 in Hb. unfold load in Hb.
    destruct (objs k1 !! x) as [de|]; [|done]. destruct (bool_decide _); [|by injection Hb as <-].
    unfold mbind, K_bind in Hb. by destruct (ffind_entry _ _ _ _ _ _ _ _) as [[? ?]|]. }
  unfold mbind at 1, K_bind at 1. rewrite Hfe. destruct (List.find _ _) as [[e ?]|]; [|done].
  unfold mbind, K_bind. by destruct (ffind_entry _ _ _ _ _ _ _ _) as [[? ?]|].
Qed.

(** An empty directory. *)
Lemma search_empty k node flags n ns slash fuel d dr wd dr' :
  names_ok (n :: ns) → Z.of_nat (length n) <= 255 →
  objs (T := dir_t) k !! d = Some dr → wd = (if mounted dr =? 0 then d else mounted dr) →
  objs (T := dir_t) k !! wd = Some dr' → list_repr (d_files dr') [] (k_store k) →
  ffind_recursive (S fuel) (path_of (n :: ns) slash) d node flags k =
    (n ← deref node; st ← ffind_noent wd flags n; mret (st, node)) k.
Proof.
  intros Hok Hlen Hdr Hwd Hdr' Hl. cbn [ffind_recursive]. rewrite (field_path _ _ _ Hok).
  rewrite (proj2 (Z.ltb_ge 255 _)) by done. kstep (load_Ok (O := dir_object) d dr k Hdr).
  assert ((if negb (mounted dr =? 0) then mounted dr else d) = wd) as -> by (subst wd; by destruct (mounted dr =? 0)).
  kstep (load_Ok (O := dir_object) wd dr' k Hdr').
  assert (lift (S := kernel) (list_size (d_files dr')) k = Ok (0, k)) as Hsz.
  { unfold lift, list_size. rewrite (sanity _ _ _ Hl). simpl. by rewrite (lr_items _ _ _ Hl). }
  by kstep Hsz.
Qed.

(** The entry that was found, at the end of the path. *)
Lemma ffind_entry_last k t again n slash wd e nf node flags :
  names_ok [n] → entry_ok k t e nf →
  ffind_entry again (path_of [n] slash) [] wd e node flags k =
    (if slash && bool_decide (subdir t !! nf.2 = None) then mret (- ENOTDIR, node)
     else n ← deref node; mret (ffind_success flags, if n =? 0 then node else Some nf.2)) k.
Proof.
  intros Hok (de & file & Hde & _ & Hf & Hnz & Hfile & Hsub). unfold ffind_entry.
  kstep (load_Ok (O := direntry_object) e de k Hde). rewrite Hf, (proj2 (Z.eqb_neq _ 0) Hnz). cbn [when]. kpure.
  kstep (load_Ok (O := direntry_object) e de k Hde). rewrite Hf. kstep (load_Ok (O := file_object) nf.2 file k Hfile).
  destruct (last_path n slash Hok) as (c & Hc & Hcs). rewrite Hc. unfold of_option, lift. unfold mbind at 1, K_bind at 1.
  cbn [mret]. rewrite Hcs. destruct (subdir t !! nf.2) as [d'|].
  - destruct Hsub as (-> & _). rewrite Z.eqb_refl, bool_decide_eq_false_2 by done. by rewrite !andb_false_r.
  - rewrite (proj2 (Z.eqb_neq _ _) Hsub), bool_decide_eq_true_2 by done. by rewrite !andb_true_r.
Qed.

(** On the way: the search goes on in the directory, or ends at another file. *)
Lemma ffind_entry_inner k t again pathname c rem wd e nf node flags :
  entry_ok k t e nf →
  ffind_entry again pathname (c :: rem) wd e node flags k =
    match subdir t !! nf.2 with
    | Some d => again (c :: rem) d k
    | None => (n ← deref node; st ← ffind_noent wd flags n; mret (st, node)) k
    end.
Proof.
  intros (de & file & Hde & _ & Hf & Hnz & Hfile & Hsub). unfold ffind_entry.
  kstep (load_Ok (O := direntry_object) e de k Hde). rewrite Hf, (proj2 (Z.eqb_neq _ 0) Hnz). cbn [when]. kpure.
  kstep (load_Ok (O := direntry_object) e de k Hde). rewrite Hf. kstep (load_Ok (O := file_object) nf.2 file k Hfile).
  destruct (subdir t !! nf.2) as [d'|].
  - destruct Hsub as (-> & Hsp & _). rewrite Z.eqb_refl. cbn [negb]. unfold directory_of. by rewrite Hsp.
  - by rewrite (proj2 (Z.eqb_neq _ _) Hsub).
Qed.

Lemma ffind_recursive_walk k t node names slash fuel d es :
  store_wf (k_store k) → (∀ d es, entries t !! d = Some es → dir_ok k t d es) → node ≠ 0 →
  entries t !! d = Some es → names_ok names → (length (path_of names slash) < fuel)%nat →
  ffind_recursive fuel (path_of names slash) d (Some node) 0 k = Ok (found (walk t names slash d) node, k).
Proof.
  intros Hs Hdirs Hnode. revert fuel d es. induction names as [|n ns IH]; intros fuel d es Hd Hok Hf; [done|].
  destruct fuel as [|fuel]; [lia|]. cbn [walk]. destruct (Z.ltb_spec 255 (Z.of_nat (length n))) as [Hlong|Hlen].
  { cbn [ffind_recursive]. by rewrite (field_path _ _ _ Hok), (proj2 (Z.ltb_lt _ _)). }
  destruct (Hdirs d es Hd) as (dr & wd & dr' & xs & Hdr & Hwd & Hdr' & Hl & Hes).
  rewrite Hd. cbn [default from_option id]. destruct (decide (xs = [])) as [->|Hne].
  { inversion Hes; subst. by rewrite (search_empty k _ _ n ns slash fuel d dr _ dr' Hok Hlen Hdr eq_refl Hdr' Hl). }
  rewrite (search_dir k t _ _ n ns slash fuel d es dr wd dr' xs) by done.
  pose proof (find_zip (λ e, bool_decide (e.1 = dot n)) _ _ _ Hes) as Hfind.
  unfold entry_named. destruct (List.find _ (zip xs.*2 es)) as [[e nf]|]; [|by rewrite Hfind].
  destruct Hfind as [-> Hent]. cbn [fmap option_fmap option_map]. destruct ns as [|m ns].
  - change (path_of [] slash) with (@nil Z). rewrite (ffind_entry_last k t _ n slash wd e nf) by done.
    unfold deref. destruct (subdir t !! nf.2); cbn [bool_decide]; destruct slash; simpl; kpure;
      by rewrite ?(proj2 (Z.eqb_neq _ _) Hnode).
  - destruct (path_of (m :: ns) slash) as [|c p] eqn:Hp; [by apply path_nonempty in Hp; [|apply Hok]|].
    rewrite (ffind_entry_inner k t _ _ c p wd e nf) by done. pose proof Hent as (_ & file & _ & _ & _ & _ & _ & Hsub).
    destruct (subdir t !! nf.2) as [d'|]; [|done]. destruct Hsub as (_ & _ & [es' Hes']).
    apply (IH fuel d' es' Hes' (proj2 Hok)). rewrite <- Hp.
    change (path_of (n :: m :: ns) slash) with (n ++ 47 :: path_of (m :: ns) slash) in Hf.
    rewrite length_app in Hf. cbn [length] in Hf. lia.
Qed.

(** ** The whole of [ffind] *)

Definition tree_locked k : kernel := in_vfs set_fs_tree_lock (mx_taken (current_task k)) k.

Lemma lock_tree k : of_vfs fs_tree_lock k = MUTEX_INITIALIZER →
  lock_var (of_vfs fs_tree_lock) (in_vfs set_fs_tree_lock) k = Ok (tt, tree_locked k).
Proof.
  intros Hl. unfold lock_var, gets, modify. unfold mbind at 1, K_bind at 1. rewrite Hl. by kstep (k_lock_idle k).
Qed.

Lemma unlock_tree k : of_vfs fs_tree_lock k = mx_taken (current_task k) →
  unlock_var (of_vfs fs_tree_lock) (in_vfs set_fs_tree_lock) k = Ok (tt, in_vfs set_fs_tree_lock MUTEX_INITIALIZER k).
Proof.
  intros Hl. unfold unlock_var, gets, modify. unfold mbind at 1, K_bind at 1. rewrite Hl. by kstep (k_unlock_taken k).
Qed.

Lemma relock_tree k : of_vfs fs_tree_lock k = MUTEX_INITIALIZER →
  in_vfs set_fs_tree_lock MUTEX_INITIALIZER (tree_locked k) = k.
Proof. intros Hl. unfold tree_locked, in_vfs, of_vfs in *. destruct k as [? ? ? ? ? ? ? ? ? []]. simpl in *. by subst. Qed.

(** The search between the lock and the unlock. *)
Definition search_tree (pathname : list Z) (d : Z) (node : option Z) (flags : Z) : K kernel (Z * option Z) :=
  lock_var (of_vfs fs_tree_lock) (in_vfs set_fs_tree_lock);;
  ret ← ffind_recursive (S (length pathname)) pathname d node flags;
  unlock_var (of_vfs fs_tree_lock) (in_vfs set_fs_tree_lock);;
  mret ret.

Lemma ffind_relative d p node flags : head p ≠ Some 47 → ffind (A := A) (F := F) d p node flags = search_tree p d node flags.
Proof.
  intros Hp. destruct p as [|c p]; [done|]. unfold ffind. simpl in Hp.
  destruct c as [|c|c]; [done| |done]. do 6 (destruct c as [c|c|]; [|try done..]; try done).
Qed.

Lemma ffind_absolute d c c' p node flags k :
  ffind (A := A) (F := F) d (47 :: c :: c' :: p) node flags k =
    search_tree (c :: c' :: p) (of_vfs VFS_ROOT k) node flags k.
Proof. done. Qed.

Lemma search_tree_walk k t d es names slash node :
  tree_ok k t → entries t !! d = Some es → names_ok names → node ≠ 0 →
  search_tree (path_of names slash) d (Some node) 0 k = Ok (found (walk t names slash d) node, k).
Proof.
  intros [Hl Hs Hd] He Hn Hnode. unfold search_tree. kstep (lock_tree k Hl).
  kstep (ffind_recursive_walk (tree_locked k) t node names slash (S (length (path_of names slash))) d es Hs Hd Hnode He Hn (Nat.lt_succ_diag_r _)).
  kstep (unlock_tree (tree_locked k) eq_refl). by rewrite relock_tree.
Qed.


(** an absolute path of one character is taken for the root directory, whatever the character and whatever the root holds; and for
    "/" itself the code reads the byte behind the string. *)
Theorem ffind_one_character d c node root k :
  node ≠ 0 → objs (T := dir_t) k !! of_vfs VFS_ROOT k = Some root →
  ffind d [47; c] (Some node) 0 k = Ok ((SUCCESS, Some (d_file root)), k) ∧
  ffind d [47; c] (Some node) FFIND_CREATE k = Ok ((- EEXIST, Some node), k) ∧
  ffind d [47] (Some node) 0 k = Stop Fault.
Proof.
  intros Hn Hr. split; [|done]. unfold ffind, deref. kpure.
  change (Z.land 0 FFIND_CREATE =? 0) with true. cbn [negb]. kpure. rewrite (proj2 (Z.eqb_neq _ _) Hn).
  by kstep (load_Ok (O := dir_object) _ root k Hr).
Qed.

(** ** Creation *)

(** A failing search unlocks nothing. *)
Lemma search_tree_stop p d node flags k w :
  of_vfs fs_tree_lock k = MUTEX_INITIALIZER →
  ffind_recursive (S (length p)) p d node flags (tree_locked k) = Stop w → search_tree p d node flags k = Stop w.
Proof. intros Hl Hs. unfold search_tree. kstep (lock_tree k Hl). by apply K_bind_Stop. Qed.

Lemma search_existing k t d es n nf :
  tree_ok k t → entries t !! d = Some es → names_ok [n] → Z.of_nat (length n) <= 255 →
  List.find (λ e, bool_decide (e.1 = dot n)) es = Some nf → search_tree n d None 0 k = Stop Fault.
Proof.
  intros [Hl Hs Hd] He Hn Hlen Hf. apply search_tree_stop; [done|].
  destruct (Hd d es He) as (dr & wd & dr' & xs & Hdr & Hwd & Hdr' & Hr & Hes).
  assert (xs ≠ []) as Hne by (intros ->; by inversion Hes; subst).
  assert (path_of [n] false = n) as Hp by (simpl; by rewrite app_nil_r).
  pose proof (search_dir (tree_locked k) t None 0 n [] false (length n) d es dr wd dr' xs Hs Hn Hlen Hdr Hwd Hdr' Hr Hne Hes) as Hsd.
  rewrite Hp in Hsd. rewrite Hsd. pose proof (find_zip (λ e, bool_decide (e.1 = dot n)) _ _ _ Hes) as Hz.
  destruct (List.find _ (zip xs.*2 es)) as [[e nf']|]; [|congruence]. destruct Hz as [_ Hent].
  rewrite <- Hp at 1. by rewrite (ffind_entry_last (tree_locked k) t _ n false wd e nf' None 0 Hn Hent).
Qed.

(** making a node or a directory at a path that exists does not return [EEXIST]: the search
    for the path is told to store nothing, with a null pointer, and reads through it. *)
Theorem vfs_mknod_existing_faults junk k t es n nf type mode major minor :
  tree_ok k t → entries t !! of_vfs VFS_ROOT k = Some es → names_ok [n] → 2 <= Z.of_nat (length n) <= 255 →
  List.find (λ e, bool_decide (e.1 = dot n)) es = Some nf →
  type = F_BLOCK ∨ type = F_CHAR ∨ type = F_FIFO ∨ type = F_SOCKET →
  vfs_mknod junk 0 (47 :: n) type mode major minor k = Stop Fault ∧ vfs_mkdir junk 0 (47 :: n) mode k = Stop Fault.
Proof.
  intros Hk He Hn Hlen Hf Ht.
  assert (must_be_new (A := A) (F := F) (of_vfs VFS_ROOT k) (47 :: n) k = Stop Fault) as Hm.
  { unfold must_be_new. apply K_bind_Stop. destruct n as [|c [|c' n]]; [simpl in Hlen; lia..|].
    rewrite ffind_absolute. by apply (search_existing k t _ es _ nf); [..|lia|]. }
  assert (get_working_dir 0 k = Ok (of_vfs VFS_ROOT k, k)) as Hw by done.
  split.
  - unfold vfs_mknod. assert (negb (type =? F_BLOCK) && negb (type =? F_CHAR) && negb (type =? F_FIFO) && negb (type =? F_SOCKET) = false) as ->.
    { by destruct Ht as [->|[->|[->| ->]]]. }
    kstep Hw. by apply K_bind_Stop.
  - unfold vfs_mkdir. kstep Hw. by apply K_bind_Stop.
Qed.

(** The directory after [ffind_noent] has put the file into its list. *)
Definition listed k wd (dr' : dir_t) (l : list_t) (s : store A) (file : Z) (fl : file_t) (d1 : Z) : kernel :=
  set_k_vfs (set_v_files (<[file := set_driver2 0 (set_driver1 d1 (set_f_parent wd fl))]> (v_files (k_vfs k)))
    (set_v_dirs (<[wd := set_d_files l dr']> (v_dirs (k_vfs k))) (k_vfs k))) (set_k_store s k).

Lemma ffind_noent_create k wd dr' l s r file fl pf :
  objs (T := dir_t) k !! wd = Some dr' → list_add (d_files dr') file (k_store k) = Ok (r, l, s) →
  objs (T := file_t) k !! file = Some fl → f_type fl ≠ F_DIR →
  objs (T := file_t) k !! d_file dr' = Some pf → d_file dr' ≠ file →
  ffind_noent wd FFIND_CREATE file k = Ok (SUCCESS, listed k wd dr' l s file fl (driver1 pf)).
Proof.
  intros Hd Ha Hf Ht Hp Hne. unfold ffind_noent. change (Z.land FFIND_CREATE FFIND_CREATE =? 0) with false. cbv iota.
  kstep (load_Ok (O := dir_object) wd dr' k Hd).
  assert (on_store (list_add (d_files dr') file) k = Ok ((r, l), set_k_store s k)) as Hon by (unfold on_store; by rewrite Ha).
  kstep Hon. assert (objs (T := dir_t) (set_k_store s k) !! wd = Some dr') as Hd1 by exact Hd.
  kstep (change_Ok (O := dir_object) wd (set_d_files l) (set_k_store s k) dr' Hd1). cbn [objs set_objs dir_object].
  set (k1 := set_k_vfs _ (set_k_store s k)). assert (objs (T := file_t) k1 !! file = Some fl) as Hf1 by exact Hf.
  kstep (change_Ok (O := file_object) file (set_f_parent wd) k1 fl Hf1). cbn [objs set_objs file_object].
  set (k2 := set_k_vfs _ k1).
  assert (objs (T := file_t) k2 !! d_file dr' = Some pf) as Hp2 by (unfold k2; simpl; by rewrite lookup_insert_ne).
  kstep (load_Ok (O := file_object) (d_file dr') pf k2 Hp2).
  assert (objs (T := file_t) k2 !! file = Some (set_f_parent wd fl)) as Hf2 by apply lookup_insert_eq.
  kstep (change_Ok (O := file_object) file (set_driver1 (driver1 pf)) k2 _ Hf2). cbn [objs set_objs file_object].
  set (k3 := set_k_vfs _ k2).
  assert (objs (T := file_t) k3 !! file = Some (set_driver1 (driver1 pf) (set_f_parent wd fl))) as Hf3 by apply lookup_insert_eq.
  kstep (change_Ok (O := file_object) file (set_driver2 0) k3 _ Hf3). cbn [objs set_objs file_object].
  set (k4 := set_k_vfs _ k3).
  assert (objs (T := file_t) k4 !! file = Some (set_driver2 0 (set_driver1 (driver1 pf) (set_f_parent wd fl)))) as Hf4 by apply lookup_insert_eq.
  kstep (load_Ok (O := file_object) file _ k4 Hf4). cbn [f_type set_driver2 set_driver1 set_f_parent].
  rewrite (proj2 (Z.eqb_neq _ _) Ht). cbn [when]. kpure. unfold mret, K_ret. do 2 f_equal.
  unfold k4, k3, k2, k1, listed, set_v_files, set_v_dirs, set_k_vfs. simpl. by rewrite !insert_insert_eq.
Qed.

(** A name that is in none of the entries. *)
Lemma search_missing k t node flags n ns slash fuel d es dr wd dr' xs :
  store_wf (k_store k) → names_ok (n :: ns) → Z.of_nat (length n) <= 255 →
  objs (T := dir_t) k !! d = Some dr → wd = (if mounted dr =? 0 then d else mounted dr) →
  objs (T := dir_t) k !! wd = Some dr' → list_repr (d_files dr') xs (k_store k) → Forall2 (entry_ok k t) xs.*2 es →
  entry_named es (dot n) = None →
  ffind_recursive (S fuel) (path_of (n :: ns) slash) d (Some node) flags k =
    (st ← ffind_noent wd flags node; mret (st, Some node)) k.
Proof.
  intros Hs Hn Hlen Hdr Hwd Hdr' Hr Hes Hnone. destruct (decide (xs = [])) as [->|Hne].
  - by rewrite (search_empty k (Some node) flags n ns slash fuel d dr wd dr').
  - rewrite (search_dir k t (Some node) flags n ns slash fuel d es dr wd dr' xs) by done.
    pose proof (find_zip (λ e, bool_decide (e.1 = dot n)) _ _ _ Hes) as Hz.
    destruct (List.find _ (zip xs.*2 es)) as [[e nf]|]; [|done].
    destruct Hz as [Hz _]. unfold entry_named in Hnone. by rewrite Hz in Hnone.
Qed.

(** What a directory needs for a new entry: the allocator has an item, the directory's own
    file is loaded, and the new file is in no entry and is not an entry itself. *)
Record can_create k (dr' : dir_t) (es : list (list Z * Z)) (file : Z) (fl : file_t) : Prop := {
  cr_room : km_room 24 (heap (k_store k)) ∧ ∃ r, km_alloc 24 (heap (k_store k)) = Ok r;
  cr_file : objs (T := file_t) k !! file = Some fl ∧ f_type fl ≠ F_DIR;
  cr_own : is_Some (objs (T := file_t) k !! d_file dr') ∧ d_file dr' ≠ file;
  cr_new : file ≠ 0 ∧ (∀ nf, nf ∈ es → nf.2 ≠ file) ∧ objs (T := direntry_t) k !! file = None;
}.

(** creating a file whose path starts with a name that the directory does not have puts it
    into that very directory, however many names follow, and what the list of entries gets
    is not an entry with the name but the file itself: from then on a search of the directory
    for any name that comes after the entries it had reads a file as an entry. *)
Theorem ffind_create_lists_file k t d es dr wd dr' xs n ns slash file fl :
  of_vfs fs_tree_lock k = MUTEX_INITIALIZER → store_wf (k_store k) →
  objs (T := dir_t) k !! d = Some dr → wd = (if mounted dr =? 0 then d else mounted dr) →
  objs (T := dir_t) k !! wd = Some dr' → mounted dr' = 0 → list_repr (d_files dr') xs (k_store k) →
  Forall2 (entry_ok k t) xs.*2 es → Z.of_nat (length xs) + 1 < 2 ^ 64 → can_create k dr' es file fl →
  names_ok (n :: ns) → head n ≠ Some 47 → n ≠ [] → Z.of_nat (length n) <= 255 → entry_named es n = None →
  ∃ k' item l, ffind d (path_of (n :: ns) slash) (Some file) FFIND_CREATE k = Ok ((SUCCESS, Some file), k') ∧
    objs (T := dir_t) k' !! wd = Some (set_d_files l dr') ∧ list_repr l (xs ++ [(item, file)]) (k_store k') ∧
    ∀ m node, names_ok [m] → head m ≠ Some 47 → Z.of_nat (length m) <= 255 → entry_named es m = None →
      ffind wd m (Some node) 0 k' = Stop Fault.
Proof.
  intros Hl Hs Hdr Hwd Hdr' Hmt Hr Hes Hlen [[Hroom [r Ha]] [Hfl Ht] [[pf Hpf] Hpne] (Hfz & Hfe & Hfd)] Hn Hh Hnn Hnlen Hnone.
  destruct (list_add_spec (d_files dr') xs (k_store k) file Hs Hr Hlen Hroom)
    as [(item & l & s & Hadd & _ & _ & Hs' & Hr' & _)|(w & Hw & _)]; [|congruence].
  set (k1 := tree_locked k). set (k2 := listed k1 wd dr' l s file fl (driver1 pf)).
  exists (in_vfs set_fs_tree_lock MUTEX_INITIALIZER k2), item, l.
  assert (dot n = n) as Hdot by (by destruct n).
  assert (ffind_recursive (S (length (path_of (n :: ns) slash))) (path_of (n :: ns) slash) d (Some file) FFIND_CREATE k1 =
    Ok ((SUCCESS, Some file), k2)) as Hrec.
  { rewrite (search_missing k1 t file FFIND_CREATE n ns slash _ d es dr wd dr' xs) by (done || by rewrite Hdot).
    by kstep (ffind_noent_create k1 wd dr' l s _ file fl pf Hdr' Hadd Hfl Ht Hpf Hpne). }
  split_and!.
  - rewrite ffind_relative by (destruct n, ns; done). unfold search_tree. kstep (lock_tree k Hl). fold k1. kstep Hrec.
    by kstep (unlock_tree k2 eq_refl).
  - apply lookup_insert_eq.
  - exact Hr'.
  - intros m node Hm Hmh Hml Hmn. set (k3 := in_vfs set_fs_tree_lock MUTEX_INITIALIZER k2).
    rewrite ffind_relative by done. apply search_tree_stop; [done|]. set (k4 := tree_locked k3).
    assert (m ≠ []) as Hmne by apply Hm. assert (dot m = m) as Hmd by (by destruct m).
    cbn [ffind_recursive]. rewrite (field_last m) by apply Hm. rewrite (proj2 (Z.ltb_ge 255 _)) by done.
    assert (objs (T := dir_t) k4 !! wd = Some (set_d_files l dr')) as Hd4 by apply lookup_insert_eq.
    kstep (load_Ok (O := dir_object) wd _ k4 Hd4). cbn [mounted set_d_files]. rewrite Hmt. cbn [negb Z.eqb].
    kstep (load_Ok (O := dir_object) wd _ k4 Hd4). cbn [d_files set_d_files].
    assert (lift (S := kernel) (list_size l) k4 = Ok (Z.of_nat (length (xs ++ [(item, file)])), k4)) as Hsz.
    { unfold lift, list_size. rewrite (sanity _ _ _ Hr'). simpl. by rewrite (lr_items _ _ _ Hr'). }
    kstep Hsz. rewrite (proj2 (Z.eqb_neq _ 0)) by (rewrite length_app; simpl; lia).
    apply K_bind_Stop. rewrite (foreach_payloads _ (xs ++ [(item, file)])); [|exact Hs'|exact Hr'|].
    2: { intros x k5 k6 _ Hb He. unfold mbind at 1, K_bind at 1 in Hb. unfold load in Hb.
         destruct (objs k5 !! x) as [de|]; [|done]. destruct (bool_decide _); [|by injection Hb as <-].
         unfold mbind, K_bind in Hb. by destruct (ffind_entry _ _ _ _ _ _ _ _) as [[? ?]|]. }
    assert (lookup_name m = m) as -> by (unfold lookup_name; rewrite (field_last m) by apply Hm; by destruct m).
    rewrite fmap_app, run_payloads_app.
    + cbn [fmap list_fmap snd run_payloads]. rewrite K_bind_assoc. apply K_bind_Stop. unfold load.
      change (objs (T := direntry_t) k4 !! file) with (objs (T := direntry_t) k !! file). by rewrite Hfd.
    + intros x Hx. apply list_elem_of_lookup_1 in Hx as [i Hi].
      destruct (Forall2_lookup_l _ _ _ _ _ Hes Hi) as (nf & Hnf & (de & fl' & Hde & Hdn & _)).
      assert (objs (T := direntry_t) k4 !! x = Some de) as Hde4 by exact Hde.
      kstep (load_Ok (O := direntry_object) x de k4 Hde4). rewrite Hdn, bool_decide_eq_false_2; [done|].
      intros Heq. unfold entry_named in Hmn. apply fmap_None in Hmn.
      pose proof (List.find_none _ _ Hmn nf) as Hno. cbv beta in Hno. rewrite bool_decide_eq_true_2 in Hno by done.
      by discriminate (Hno (proj1 (list_elem_of_In _ _) (list_elem_of_lookup_2 _ _ _ Hnf))).
Qed.
End lookup.

(** ** A small tree *)

(** The root, 100, holds the directory "etc" (103) and the file "rc"; "etc" is empty. *)
#[local] Existing Instance debug_build.
#[local] Existing Instances Bump.kmalloc Bump.laws.
#[local] Instance no_drivers : Drivers Bump.t unit :=
  {| call_read _ _ _ _ := kstop Fault; call_probe _ _ := kstop Fault; call_mount _ _ := kstop Fault;
     call_fetch _ _ _ := kstop Fault |}.

Definition demo_file (type : Z) (s : sp_file_u) : file_t :=
  {| f_mode := 0; f_type := type; f_uid := 0; f_gid := 0; t_last_modified := 0; t_last_accessed := 0; t_created := 0;
     f_length := 0; f_inode := 0; driver1 := 0; driver2 := 0; f_parent := 100; special := s |}.
Definition demo_dir (file parent : Z) (l : list_t) : dir_t :=
  {| d_file := file; d_files := l; d_parent := parent; mounted := 0; d_fstype := 0; d_driver := 0 |}.
Definition etc : list Z := [101; 116; 99].
Definition rc : list Z := [114; 99].
Definition demo_vfs : vfs_t :=
  {| v_fds := ∅;
     v_files := {[ 101 := demo_file F_DIR (Directory 100); 102 := demo_file F_DIR (Directory 103);
                   104 := demo_file F_REGULAR NoSpecial; 300 := demo_file F_FIFO NoSpecial ]};
     v_dirs := {[ 100 := demo_dir 101 100 demo_list; 103 := demo_dir 102 100 list_init ]};
     v_dentries := {[ 7 := {| de_name := etc; de_inode := 3; de_file := 102 |};
                      9 := {| de_name := rc; de_inode := 4; de_file := 104 |} ]};
     v_types := ∅; VFS_ROOT := 100; fs_tree_lock := MUTEX_INITIALIZER; fs_list := list_init;
     fs_list_lock := MUTEX_INITIALIZER; vfs_initialized := true |}.
Definition demo_fs : Kernel.kernel Bump.t unit :=
  {| k_store := demo_store; k_tasks := ∅; k_procs := ∅; k_stacks := ∅; k_ufds := ∅; k_loaders := ∅; k_vspaces := ∅;
     k_contexts := ∅; k_handlers := ∅; k_vfs := demo_vfs; k_images := no_images; k_fs := tt;
     sched_tasks := list_init; sched_enabled := true; current_task := 7; k_cr3 := 0; kernel_sp := 0;
     tid_counter := 1; pid_counter := 1; tl_list := list_init; tl_lock := MUTEX_INITIALIZER; task_count := 0;
     irq_handlers := []; irq_ongoing := false; k_out := [] |}.
Definition demo_tree : tree :=
  {| entries := {[ 100 := [(etc, 102); (rc, 104)]; 103 := [] ]}; subdir := {[ 102 := 103; 101 := 100 ]} |}.

Lemma demo_entries : Forall2 (entry_ok demo_fs demo_tree) [7; 9] [(etc, 102); (rc, 104)].
Proof.
  constructor; [|constructor; [|constructor]].
  - exists {| de_name := etc; de_inode := 3; de_file := 102 |}, (demo_file F_DIR (Directory 103)).
    split_and!; try reflexivity; [discriminate|]. split; [reflexivity|]. split; [reflexivity|by exists []].
  - exists {| de_name := rc; de_inode := 4; de_file := 104 |}, (demo_file F_REGULAR NoSpecial).
    split_and!; try reflexivity; vm_compute; discriminate.
Qed.

Lemma demo_tree_ok : tree_ok demo_fs demo_tree.
Proof.
  split; [reflexivity|exact demo_wf|]. intros d es He. unfold demo_tree in He. cbn [entries] in He.
  apply lookup_insert_Some in He as [[<- <-]|[_ [<- <-]%lookup_singleton_Some]].
  - exists (demo_dir 101 100 demo_list), 100, (demo_dir 101 100 demo_list), demo_items.
    split_and!; [reflexivity..|exact demo_repr|exact demo_entries].
  - exists (demo_dir 102 100 list_init), 103, (demo_dir 102 100 list_init), [].
    split_and!; [reflexivity..|apply list_init_repr|constructor].
Qed.


Lemma ffind_one_character_witness :
  ffind 103 [47; 120] (Some 1) 0 demo_fs = Ok ((SUCCESS, Some 101), demo_fs).
Proof. apply (ffind_one_character 103 120 1 (demo_dir 101 100 demo_list) demo_fs); [discriminate|reflexivity]. Defined.

Lemma vfs_mknod_existing_faults_witness :
  vfs_mknod (λ _, 0) 0 (47 :: rc) F_FIFO 0 0 0 demo_fs = Stop Fault.
Proof.
  refine (proj1 (vfs_mknod_existing_faults (λ _, 0) demo_fs demo_tree [(etc, 102); (rc, 104)] rc (rc, 104) F_FIFO 0 0 0
    demo_tree_ok eq_refl _ _ _ _)).
  - split; apply (bool_decide_unpack _); vm_compute; exact I.
  - vm_compute. split; discriminate.
  - vm_compute. reflexivity.
  - right. right. left. reflexivity.
Defined.

Lemma ffind_create_lists_file_witness :
  ∃ k', ffind 100 (path_of [[100; 101; 118]; rc] false) (Some 300) FFIND_CREATE demo_fs = Ok ((SUCCESS, Some 300), k') ∧
    ffind 100 [100; 101; 118] (Some 1) 0 k' = Stop Fault.
Proof.
  destruct (ffind_create_lists_file demo_fs demo_tree 100 [(etc, 102); (rc, 104)] (demo_dir 101 100 demo_list) 100
    (demo_dir 101 100 demo_list) demo_items [100; 101; 118] [rc] false 300 (demo_file F_FIFO NoSpecial))
    as (k' & item & l & Hf & _ & _ & Hm).
  - reflexivity.
  - exact demo_wf.
  - reflexivity.
  - reflexivity.
  - reflexivity.
  - reflexivity.
  - exact demo_repr.
  - exact demo_entries.
  - reflexivity.
  - split; [split; [exact I|by eexists]|split; [reflexivity|discriminate]|split; [by eexists|discriminate]|].
    split; [discriminate|]. split; [|reflexivity]. intros nf. rewrite !elem_of_cons, elem_of_nil.
    intros [->|[->|[]]]; discriminate.
  - repeat split; apply (bool_decide_unpack _); vm_compute; exact I.
  - discriminate.
  - discriminate.
  - vm_compute. discriminate.
  - reflexivity.
  - exists k'. split; [exact Hf|]. apply Hm.
    + repeat split; apply (bool_decide_unpack _); vm_compute; exact I.
    + discriminate.
    + vm_compute. discriminate.
    + reflexivity.
Defined.
