(* ===== verification/Ext2.v ===== *)
(** The ext2 driver, fs/ext2fs.c: the layout of the disk, inodes, the blocks of files and
    directories, and the functions it gives to the VFS. *)
From S2P Require Import Prelude Words Mutex Dll Lists Errno Kernel Vfs.
Open Scope Z_scope.

(** The superblock, in blocks of the disk. *)
(** [LBA_SIZE] (kernel/kernel/fs/ext2fs.c, lines 11-11). *)
Definition LBA_SIZE : Z := 512.
(** [SB_LBA] (kernel/kernel/fs/ext2fs.c, lines 12-12). *)
Definition SB_LBA : Z := 2.
(** [SB_SIZE] (kernel/kernel/fs/ext2fs.c, lines 13-13). *)
Definition SB_SIZE : Z := 2.
(** [BLOCK_SIZE] (kernel/kernel/include/fs/vfs.h, lines 7-7). *)
Definition BLOCK_SIZE : Z := 512.

(** [EXT2_N_BLOCKS] (kernel/kernel/fs/ext2fs.c, lines 15-19). *)
Definition EXT2_N_BLOCKS : Z := 12 + 1 + 1 + 1.

(** [ext2_superblock_t] (kernel/kernel/fs/ext2fs.c, lines 21-68): packed fields of a block of 1024 bytes. *)
Record ext2_superblock_t := {
  total_inodes : Z; total_blocks : Z; root_blocks : Z; unalloc_blocks : Z; unalloc_inodes : Z;
  superblock : Z; block_size_log : Z; fragment_size_log : Z; blocks_per_group : Z;
  fragments_per_group : Z; inodes_per_group : Z; last_mount : Z; last_write : Z;
  mounts_since_check : Z; mounts_remaining : Z; signature : Z; fs_state : Z; error_action : Z;
  minor_version : Z; last_check : Z; check_interval : Z; creator_os : Z; major_version : Z;
  reserved_user : Z; reserved_group : Z; first_inode_non_reserved : Z; inode_size : Z;
  backup_blockgroup : Z; optional_features : Z; required_features : Z; readonly_features : Z;
  fs_id : list Z; vol_name : list Z; last_mount_path : list Z; compression_alg : Z;
  prealloc_file_blocks : Z; prealloc_dir_blocks : Z; unused : Z; journal_id : list Z;
  journal_inode : Z; journal_device : Z; orphan_head : Z
}.
(** A buffer read as one. *)
Definition superblock_of (b : list Z) : ext2_superblock_t := {|
  total_inodes := le_field b 0 4; total_blocks := le_field b 4 4; root_blocks := le_field b 8 4;
  unalloc_blocks := le_field b 12 4; unalloc_inodes := le_field b 16 4;
  superblock := le_field b 20 4; block_size_log := le_field b 24 4;
  fragment_size_log := le_field b 28 4; blocks_per_group := le_field b 32 4;
  fragments_per_group := le_field b 36 4; inodes_per_group := le_field b 40 4;
  last_mount := le_field b 44 4; last_write := le_field b 48 4;
  mounts_since_check := le_field b 52 2; mounts_remaining := le_field b 54 2;
  signature := le_field b 56 2; fs_state := le_field b 58 2; error_action := le_field b 60 2;
  minor_version := le_field b 62 2; last_check := le_field b 64 4;
  check_interval := le_field b 68 4; creator_os := le_field b 72 4;
  major_version := le_field b 76 4; reserved_user := le_field b 80 2;
  reserved_group := le_field b 82 2; first_inode_non_reserved := le_field b 84 4;
  inode_size := le_field b 88 2; backup_blockgroup := le_field b 90 2;
  optional_features := le_field b 92 4; required_features := le_field b 96 4;
  readonly_features := le_field b 100 4; fs_id := take 16 (drop 104 b);
  vol_name := take 16 (drop 120 b); last_mount_path := take 64 (drop 136 b);
  compression_alg := le_field b 200 4; prealloc_file_blocks := le_field b 204 1;
  prealloc_dir_blocks := le_field b 205 1; unused := le_field b 206 2;
  journal_id := take 16 (drop 208 b); journal_inode := le_field b 224 4;
  journal_device := le_field b 228 4; orphan_head := le_field b 232 4
|}.

(** [ext2_gd_t] (kernel/kernel/fs/ext2fs.c, lines 70-78), 32 bytes. *)
Record ext2_gd_t := {
  bg_block_bitmap : Z; bg_inode_bitmap : Z; bg_inode_table : Z; bg_free_blocks_count : Z;
  bg_free_inodes_count : Z; bg_used_dirs_count : Z
}.
Definition gd_of (b : list Z) : ext2_gd_t := {|
  bg_block_bitmap := le_field b 0 4; bg_inode_bitmap := le_field b 4 4;
  bg_inode_table := le_field b 8 4; bg_free_blocks_count := le_field b 12 2;
  bg_free_inodes_count := le_field b 14 2; bg_used_dirs_count := le_field b 16 2
|}.

(** [ext2_inode_t] (kernel/kernel/fs/ext2fs.c, lines 80-136), 128 bytes; the unions by their bytes. *)
Record ext2_inode_t := {
  i_mode : Z; i_uid : Z; i_size : Z; i_atime : Z; i_ctime : Z; i_mtime : Z; i_dtime : Z;
  i_gid : Z; i_links_count : Z; i_blocks : Z; i_flags : Z; osd1 : Z; i_block : list Z;
  i_generation : Z; i_file_acl : Z; i_dir_acl : Z; i_faddr : Z; osd2 : list Z
}.
Definition inode_of (b : list Z) : ext2_inode_t := {|
  i_mode := le_field b 0 2; i_uid := le_field b 2 2; i_size := le_field b 4 4;
  i_atime := le_field b 8 4; i_ctime := le_field b 12 4; i_mtime := le_field b 16 4;
  i_dtime := le_field b 20 4; i_gid := le_field b 24 2; i_links_count := le_field b 26 2;
  i_blocks := le_field b 28 4; i_flags := le_field b 32 4; osd1 := le_field b 36 4;
  i_block := (λ i, le_field b (40 + 4 * i) 4) <$> seq 0 (Z.to_nat EXT2_N_BLOCKS);
  i_generation := le_field b 100 4; i_file_acl := le_field b 104 4;
  i_dir_acl := le_field b 108 4; i_faddr := le_field b 112 4; osd2 := take 12 (drop 116 b)
|}.

(** [ext2_dentry_base_t] (kernel/kernel/fs/ext2fs.c, lines 138-144), 8 bytes. *)
Record ext2_dentry_base_t := {
  de2_inode : Z; de2_size : Z; name_length : Z; de2_type : Z
}.
Definition dentry_base_of (b : list Z) : ext2_dentry_base_t := {|
  de2_inode := le_field b 0 4; de2_size := le_field b 4 2; name_length := le_field b 6 1;
  de2_type := le_field b 7 1
|}.

(** [ext2fs_t] (kernel/kernel/fs/ext2fs.c, lines 146-156): a mounted file system; [gd_buffer] is where
    the descriptors are. *)
Record ext2fs_t := {
  sb : ext2_superblock_t; e_fd : Z; e_root : Z; block_size : Z; gd_count : Z; gd_buffer : Z;
  group_descriptors : list ext2_gd_t; io_lock : mutex_t; fs_lock : mutex_t
}.
Definition set_io_lock (l : mutex_t) (e : ext2fs_t) : ext2fs_t :=
  {| sb := sb e; e_fd := e_fd e; e_root := e_root e; block_size := block_size e; gd_count := gd_count e;
     gd_buffer := gd_buffer e; group_descriptors := group_descriptors e; io_lock := l; fs_lock := fs_lock e |}.
Definition set_fs_lock (l : mutex_t) (e : ext2fs_t) : ext2fs_t :=
  {| sb := sb e; e_fd := e_fd e; e_root := e_root e; block_size := block_size e; gd_count := gd_count e;
     gd_buffer := gd_buffer e; group_descriptors := group_descriptors e; io_lock := io_lock e; fs_lock := l |}.

(** Where the driver keeps its mounted file systems and the inodes it has read. *)
Class Ext2State (F : Type) := {
  ext2s : F → gmap Z ext2fs_t;
  set_ext2s : gmap Z ext2fs_t → F → F;
  inodes : F → gmap Z ext2_inode_t;
  set_inodes : gmap Z ext2_inode_t → F → F;
  ext2s_set m f : ext2s (set_ext2s m f) = m;
  set_ext2s_set m m' f : set_ext2s m (set_ext2s m' f) = set_ext2s m f;
  set_ext2s_ext2s f : set_ext2s (ext2s f) f = f;
  inodes_set_ext2s m f : inodes (set_ext2s m f) = inodes f;
}.
#[export] Instance ext2_object `{Ext2State F} {A} : Object ext2fs_t A F :=
  {| objs k := ext2s (k_fs k); set_objs m k := set_k_fs (set_ext2s m (k_fs k)) k |}.
#[export] Instance inode_object `{Ext2State F} {A} : Object ext2_inode_t A F :=
  {| objs k := inodes (k_fs k); set_objs m k := set_k_fs (set_inodes m (k_fs k)) k |}.

(** Bytes read into a buffer, and the bytes from an offset on. *)
Definition overwritten (bytes buffer : list Z) : list Z := bytes ++ drop (length bytes) buffer.
Definition slice (off len : Z) (l : list Z) : list Z := take (Z.to_nat len) (drop (Z.to_nat off) l).

(** Division of unsigned words; by zero it traps. *)
Definition udiv (x y : Z) : res Z := if y =? 0 then Stop Fault else Ok (x / y).
Definition umod (x y : Z) : res Z := if y =? 0 then Stop Fault else Ok (x mod y).

(** A name of at most [n] bytes, as [strncpy] and the null byte behind it leave it. *)
Fixpoint until_null (b : list Z) : list Z :=
  match b with [] => [] | c :: b => if c =? 0 then [] else c :: until_null b end.

Section operations.
Context {A F : Type} `{B : Build} `{KM : Kmalloc A} `{D : Drivers A F} `{E : Ext2State F}.
(** What is in memory that [kmalloc] returns. *)
Context (junk : Z → Z) (junk_bytes : Z → nat → list Z) (junk_inode : Z → ext2_inode_t)
  (junk_mutex : Z → mutex_t).
Abbreviation kernel := (Kernel.kernel A F).
Abbreviation KE := (K kernel).

(** [ext2_get_block] (kernel/kernel/fs/ext2fs.c, lines 158-172): whether it worked, and the buffer.  The
    number of bytes is signed, the bound it is compared with is not. *)
Definition ext2_get_block (fs : Z) (buffer : list Z) (lba count : Z) : KE (bool * list Z) :=
  lock_in io_lock set_io_lock fs;;
  e ← load (T := ext2fs_t) fs;
  _ ← vfs_seek (e_fd e) (u64 (lba * BLOCK_SIZE)) SEEK_SET;
  '(error, bytes) ← vfs_read (e_fd e) (u64 (count * BLOCK_SIZE));
  unlock_in io_lock set_io_lock fs;;
  mret (negb (u64 error <? u64 (count * BLOCK_SIZE)), overwritten bytes buffer).

(** [block_size] of a file system (kernel/kernel/fs/ext2fs.c, lines 196-196): a shift of an [int]. *)
Definition block_size_of (s : ext2_superblock_t) : res Z :=
  if block_size_log s <? 21 then Ok (Z.shiftl 0x400 (block_size_log s)) else Stop Fault.

(** The group descriptors of a buffer of [n] blocks. *)
Definition descriptors (n : Z) (buffer : list Z) : list ext2_gd_t :=
  (λ i, gd_of (drop (32 * i) buffer)) <$> seq 0 (Z.to_nat (n * LBA_SIZE / 32)).

(** [ext2_probe] (kernel/kernel/fs/ext2fs.c, lines 174-217). *)
Definition ext2_probe (fd : Z) : KE Z :=
  _ ← vfs_seek fd (SB_LBA * BLOCK_SIZE) SEEK_SET;
  '(error, bytes) ← vfs_read fd (SB_SIZE * BLOCK_SIZE);
  if error <? 0 then mret 0
  else
    let s := superblock_of (overwritten bytes (junk_bytes 0 1024)) in
    if negb (signature s =? 0xef53) then mret 0
    else
      fs ← new 2048;
      fsl ← lift (mutex_init (junk_mutex (fs + 1136)));
      iol ← lift (mutex_init (junk_mutex (fs + 1064)));
      bs ← lift (block_size_of s);
      q ← lift (udiv (total_blocks s) (blocks_per_group s));
      r ← lift (umod (total_blocks s) (blocks_per_group s));
      let groups := if r =? 0 then q else q + 1 in
      let gdt_lba := (if bs =? 0x400 then 2 else 1) * (bs / LBA_SIZE) in
      let gdt_size := groups * 32 in
      let gdt_lba_size := gdt_size / LBA_SIZE + (if gdt_size mod LBA_SIZE =? 0 then 0 else 1) in
      gds ← new (gdt_lba_size * LBA_SIZE);
      let e gd := {| sb := s; e_fd := vfs_dup fd; e_root := 0; block_size := bs; gd_count := groups; gd_buffer := gds;
                     group_descriptors := gd; io_lock := iol; fs_lock := fsl |} in
      put fs (e []);;
      '(ok, buffer) ← ext2_get_block fs (junk_bytes gds (Z.to_nat (gdt_lba_size * LBA_SIZE))) gdt_lba gdt_lba_size;
      if negb ok then free gds;; free fs;; mret 0
      else put fs (e (descriptors gdt_lba_size buffer));; mret fs.

(** [fetch_inode] (kernel/kernel/fs/ext2fs.c, lines 219-255): the status, and the inode. *)
Definition fetch_inode (fs inode_no : Z) : KE (Z * option ext2_inode_t) :=
  e ← load (T := ext2fs_t) fs;
  cur ← gets current_task;
  held ← lift (mutex_held cur (fs_lock e));
  lift (assert_ held);;
  if total_inodes (sb e) <? inode_no then mret (- ENOENT, None)
  else
    let no := u64 (inode_no - 1) in
    group_no ← lift (udiv no (inodes_per_group (sb e)));
    group ← lift (of_option (group_descriptors e !! Z.to_nat group_no));
    let size := if major_version (sb e) <? 1 then 128 else inode_size (sb e) in
    inodes_per_sector ← lift (udiv LBA_SIZE size);
    in_group ← lift (umod no (inodes_per_group (sb e)));
    lba_offset ← lift (udiv in_group inodes_per_sector);
    let itable_lba := u64 (lba_offset + u64 (bg_inode_table group * block_size e) / LBA_SIZE) in
    buffer ← new LBA_SIZE;
    '(ok, bytes) ← ext2_get_block fs (junk_bytes buffer (Z.to_nat LBA_SIZE)) itable_lba 1;
    if negb ok then free buffer;; mret (- EIO, None)
    else
      buffer_index ← lift (umod no inodes_per_sector);
      free buffer;;
      mret (SUCCESS, Some (inode_of (drop (Z.to_nat (128 * buffer_index)) bytes))).

(** [ext2_get_file_block] (kernel/kernel/fs/ext2fs.c, lines 257-276): the number, and the buffer. *)
Definition ext2_get_file_block (fs : Z) (ino : ext2_inode_t) (block_buffer : list Z) (index : Z) : KE (Z * list Z) :=
  e ← load (T := ext2fs_t) fs;
  let ptrs_per_block := block_size e / 4 in
  let block_lba_size := block_size e / LBA_SIZE in
  if index <? 12 then b ← lift (of_option (i_block ino !! Z.to_nat index)); mret (b, block_buffer)
  else if index <? 12 + ptrs_per_block then
    ind ← lift (of_option (i_block ino !! 12%nat));
    '(ok, block_buffer) ← ext2_get_block fs block_buffer (u64 (ind * block_lba_size)) block_lba_size;
    mret (if negb ok then SIZE_MAX else le_field block_buffer (Z.to_nat (4 * (index - 12))) 4, block_buffer)
  else kstop Panic.

(** The loop of [ext2_read] (kernel/kernel/fs/ext2fs.c, lines 297-321): the error, or the bytes
    copied behind those of [data]. *)
Fixpoint read_loop (fuel : nat) (fs : Z) (ino : ext2_inode_t) (block_buffer data : list Z) (len offset : Z) :
    KE (Z + list Z) :=
  let bytes_read := Z.of_nat (length data) in
  if bytes_read <? len then
    match fuel with
    | O => kstop NoFuel
    | S fuel =>
        e ← load (T := ext2fs_t) fs;
        current_block ← lift (udiv (u64 (offset + bytes_read)) (block_size e));
        '(block_no, block_buffer) ← ext2_get_file_block fs ino block_buffer current_block;
        let block_lba := u64 (block_no * block_size e) / LBA_SIZE in
        '(ok, block_buffer) ← ext2_get_block fs block_buffer block_lba (block_size e / LBA_SIZE);
        if negb ok then mret (inl (- EIO))
        else
          let bb_offset := if bytes_read =? 0 then offset mod block_size e else 0 in
          let cpy := block_size e - bb_offset in
          let cpy_size := if len <? bytes_read + cpy then cpy - (bytes_read + cpy - len) else cpy in
          read_loop fuel fs ino block_buffer (data ++ slice bb_offset cpy_size block_buffer) len offset
    end
  else mret (inr data).

(** [ext2_read] (kernel/kernel/fs/ext2fs.c, lines 278-327): the result, and the bytes. *)
Definition ext2_read (drvdata len offset : Z) : KE (Z * list Z) :=
  file ← load (T := file_t) drvdata;
  e ← load (T := ext2fs_t) (driver1 file);
  ino ← load (T := ext2_inode_t) (driver2 file);
  let len := if f_length file <? u64 (offset + len) then u64 (f_length file - offset) else len in
  buffer ← new (block_size e);
  r ← read_loop (Z.to_nat len) (driver1 file) ino (junk_bytes buffer (Z.to_nat (block_size e))) [] len offset;
  free buffer;;
  mret match r with inl error => (error, []) | inr data => (Z.of_nat (length data), data) end.

(** [ext2_write] (kernel/kernel/fs/ext2fs.c, lines 329-333). *)
Definition ext2_write : Z := - ENOSYS.

(** The loop over the entries of a directory ([ext2_fetch_dir] (kernel/kernel/fs/ext2fs.c, lines 346-366)). *)
Fixpoint dir_loop (fuel : nat) (dir : Z) (buffer : list Z) (index : Z) : KE unit :=
  if index <? Z.of_nat (length buffer) then
    match fuel with
    | O => kstop NoFuel
    | S fuel =>
        if Z.of_nat (length buffer) <? index + 8 then kstop Fault
        else
          let direntry := dentry_base_of (drop (Z.to_nat index) buffer) in
          let next := index + de2_size direntry in
          if negb (de2_inode direntry =? 0) then
            dentry ← new 272;
            if Z.of_nat (length buffer) <? index + 8 + name_length direntry then kstop Fault
            else
              d ← load (T := dir_t) dir;
              '(_, l) ← on_store (list_add (d_files d) dentry);
              change dir (set_d_files l);;
              put dentry {| de_name := until_null (slice (index + 8) (name_length direntry) buffer);
                            de_inode := de2_inode direntry; de_file := 0 |};;
              dir_loop fuel dir buffer next
          else dir_loop fuel dir buffer next
    end
  else mret tt.

(** [ext2_fetch_dir] (kernel/kernel/fs/ext2fs.c, lines 335-369). *)
Definition ext2_fetch_dir (dfile dir : Z) : KE unit :=
  f ← load (T := file_t) dfile;
  change dir (set_d_file dfile);;
  change dir (set_d_files list_init);;
  change dir (set_mounted 0);;
  change dir (set_d_driver (driver1 f));;
  buffer ← new (f_length f);
  '(_, bytes) ← ext2_read dfile (f_length f) 0;
  d ← load (T := dir_t) dir;
  l ← on_store (λ s, '(l, s) ← list_clear (d_files d) s; mret (l, s));
  change dir (set_d_files l);;
  dir_loop (S (Z.to_nat (f_length f))) dir (overwritten bytes (junk_bytes buffer (Z.to_nat (f_length f)))) 0;;
  free buffer.

Context (my_fsinfo : Z) (junk_dir : Z → dir_t).

(** [ext2_fetch_file] (kernel/kernel/fs/ext2fs.c, lines 373-411). *)
Definition ext2_fetch_file (fs inode_no file : Z) : KE unit :=
  lock_in fs_lock set_fs_lock fs;;
  p ← new 128;
  '(_, fetched) ← fetch_inode fs inode_no;
  let ino := default (junk_inode p) fetched in
  put p ino;;
  put file {| f_mode := Z.land (i_mode ino) 0x0fff; f_type := Z.land (i_mode ino) 0xf000; f_uid := i_uid ino;
              f_gid := i_gid ino; t_last_modified := i_mtime ino; t_last_accessed := i_atime ino;
              t_created := i_ctime ino; f_length := i_size ino; f_inode := inode_no; driver1 := fs; driver2 := p;
              f_parent := junk (file + 72); special := NoSpecial |};;
  when (Z.land (i_mode ino) 0xf000 =? F_DIR)
    (dir ← new 72;
     put dir (set_d_fstype my_fsinfo (junk_dir dir));;
     ext2_fetch_dir file dir;;
     change file (set_special (Directory dir)));;
  unlock_in fs_lock set_fs_lock fs.

(** [ext2_fetch] (kernel/kernel/fs/ext2fs.c, lines 413-422). *)
Definition ext2_fetch (dir direntry : Z) : KE unit :=
  lift (assert_ (negb (dir =? 0) && negb (direntry =? 0)));;
  d ← load (T := dir_t) dir;
  lift (assert_ (negb (d_file d =? 0)));;
  de ← load (T := direntry_t) direntry;
  lift (assert_ (negb (de_inode de =? 0)));;
  lift (assert_ (de_file de =? 0));;
  f ← load (T := file_t) (d_file d);
  file ← new 88;
  change direntry (set_de_file file);;
  ext2_fetch_file (driver1 f) (de_inode de) file.

(** [ext2_mount] (kernel/kernel/fs/ext2fs.c, lines 424-433). *)
Definition ext2_mount (drv : Z) : KE Z :=
  root ← new 88;
  ext2_fetch_file drv 2 root;;
  f ← load (T := file_t) root;
  lift (assert_ (f_type f =? F_DIR));;
  directory_of f.

(** [ext2fs_init] (kernel/kernel/fs/ext2fs.c, lines 447-453). *)
Definition ext2fs_init : KE unit := fs_register my_fsinfo.
End operations.

(** ** Slices of bytes *)

Lemma slice_length off len l :
  0 <= off → 0 <= len → off + len <= Z.of_nat (length l) → Z.of_nat (length (slice off len l)) = len.
Proof. intros. unfold slice. rewrite length_take, length_drop. lia. Qed.

Lemma slice_slice off len off' len' l :
  0 <= off → 0 <= off' → 0 <= len' → off' + len' <= len →
  slice off' len' (slice off len l) = slice (off + off') len' l.
Proof.
  intros. unfold slice. rewrite skipn_firstn_comm, take_take, drop_drop. f_equal; [lia|]. f_equal. lia.
Qed.

Lemma slice_app off len len' l :
  0 <= off → 0 <= len → 0 <= len' → slice off (len + len') l = slice off len l ++ slice (off + len) len' l.
Proof.
  intros. unfold slice. rewrite !Z2Nat.inj_add by lia. rewrite <- drop_drop.
  rewrite <- (take_drop (Z.to_nat len) (take (Z.to_nat len + Z.to_nat len') (drop (Z.to_nat off) l))).
  rewrite take_take, skipn_firstn_comm. f_equal; f_equal; lia.
Qed.

Lemma drop_slice n off len l :
  0 <= n → 0 <= off → drop (Z.to_nat n) (slice off len l) = slice (off + n) (len - n) l.
Proof. intros. unfold slice. rewrite skipn_firstn_comm, drop_drop. f_equal; [lia|]. f_equal. lia. Qed.

Lemma overwritten_whole bytes buffer : (length buffer <= length bytes)%nat → overwritten bytes buffer = bytes.
Proof. intros Hl. unfold overwritten. rewrite drop_ge by done. apply app_nil_r. Qed.

(** The blocks of a list, in a row. *)
Lemma length_blocks (f : nat → list Z) bs n a :
  (∀ i, (a <= i < a + n)%nat → Z.of_nat (length (f i)) = bs) →
  Z.of_nat (length (concat (f <$> seq a n))) = Z.of_nat n * bs.
Proof.
  revert a. induction n as [|n IH]; intros a Ha; [done|]. cbn [seq fmap list_fmap concat].
  rewrite length_app, Nat2Z.inj_add, (Ha a), IH by (lia || intros; apply Ha; lia). lia.
Qed.

Lemma slice_blocks (f : nat → list Z) bs n c off len :
  0 < bs → (∀ i, (i < n)%nat → Z.of_nat (length (f i)) = bs) → (c < n)%nat →
  0 <= off → 0 <= len → off + len <= bs →
  slice (Z.of_nat c * bs + off) len (concat (f <$> seq 0 n)) = slice off len (f c).
Proof.
  intros Hbs Hf Hc Ho Hl Hol.
  replace n with (c + S (n - c - 1))%nat by lia. rewrite seq_app, fmap_app, concat_app. cbn [seq fmap list_fmap concat].
  pose proof (length_blocks f bs c 0 ltac:(intros; apply Hf; lia)) as Hlen. unfold slice.
  rewrite drop_app_ge by nia. replace (Z.to_nat (Z.of_nat c * bs + off) - length (concat (f <$> seq 0 c)))%nat with (Z.to_nat off) by nia.
  rewrite drop_app_le, take_app_le; [done|rewrite length_drop|]; specialize (Hf c Hc); cbn [Nat.add]; lia.
Qed.

(** ** What the disk holds *)

(** A disk driver: the reads of whole sectors give the bytes of an image, and the image does
    not depend on what the file system driver keeps.  The count that comes back is at least
    the number of bytes. *)
Class DiskDrivers (A F : Type) `{D : Drivers A F} `{E : Ext2State F} := {
  disk_image : F → Z → Z → option (list Z);
  disk_image_ext2 m f fn data : disk_image (set_ext2s m f) fn data = disk_image f fn data;
  call_read_disk (k : kernel A F) fn data image off len :
    disk_image (k_fs k) fn data = Some image → Z.of_nat (length image) < 2 ^ 62 →
    0 <= off → 0 <= len → off + len <= Z.of_nat (length image) →
    off mod 512 = 0 → len mod 512 = 0 →
    ∃ n, call_read fn data len off k = Ok ((n, slice off len image), k) ∧ len <= n < 2 ^ 63;
}.

Section reading.
Context {A F : Type} `{B : Build} `{KM : Kmalloc A} {KL : KmallocLaws A} `{D : Drivers A F} `{E : Ext2State F}
  {DD : DiskDrivers A F}.
Abbreviation kernel := (Kernel.kernel A F).
Implicit Types (k : kernel) (e : ext2fs_t) (ino : ext2_inode_t) (image : list Z).

(** A mounted file system, unlocked, on a disk with an image. *)
Record mounted_on k (fs : Z) e image : Prop := {
  mo_fs : objs (T := ext2fs_t) k !! fs = Some e;
  mo_lock : io_lock e = MUTEX_INITIALIZER;
  mo_fd : ∃ f, objs (T := fd_t) k !! e_fd e = Some f ∧ op_read (f_ops f) ≠ 0 ∧
    disk_image (k_fs k) (op_read (f_ops f)) (fs_data f) = Some image;
  mo_image : Z.of_nat (length image) < 2 ^ 62;
  mo_bs : ∃ n, 1 <= n <= 2 ^ 20 ∧ block_size e = n * 1024;
}.

(** The position of the descriptor is what reading a block changes. *)
Definition seek (fd pos : Z) k : kernel := set_objs (alter (set_fpos pos) fd (objs (T := fd_t) k)) k.

Lemma seek_seek fd p q k : seek fd p (seek fd q k) = seek fd p k.
Proof.
  unfold seek. cbn [objs set_objs fd_object k_vfs set_k_vfs v_fds set_v_fds].
  assert (alter (set_fpos p) fd (alter (set_fpos q) fd (v_fds (k_vfs k))) = alter (set_fpos p) fd (v_fds (k_vfs k))) as ->.
  { apply map_eq. intros i. destruct (decide (i = fd)) as [->|]; [|by rewrite !lookup_alter_ne].
    rewrite !lookup_alter_eq. by destruct (v_fds (k_vfs k) !! fd) as [[]|]. }
  done.
Qed.

Lemma mounted_seek k fs e image p : mounted_on k fs e image → mounted_on (seek (e_fd e) p k) fs e image.
Proof.
  intros [Hfs Hl (f & Hf & Hop & Hd) Hi Hb]. split; [exact Hfs|done| |done|done].
  exists (set_fpos p f). split_and!; [|done|done]. unfold seek. cbn [objs set_objs fd_object k_vfs set_k_vfs v_fds set_v_fds].
  rewrite lookup_alter_eq. cbn [objs fd_object] in Hf. by rewrite Hf.
Qed.

(** The state in which the driver of the disk is called: locked, and at the position. *)
Definition reading k fs e pos : kernel :=
  seek (e_fd e) pos (set_objs (<[fs := set_io_lock (mx_taken (current_task k)) e]> (objs k)) k).

(** Whatever the driver answers. *)
Lemma get_block_any k fs e f buffer lba count n bytes :
  objs (T := ext2fs_t) k !! fs = Some e → io_lock e = MUTEX_INITIALIZER → op_read (f_ops f) ≠ 0 → 0 <= lba → 0 <= count → (lba + count) * 512 < 2 ^ 64 →
  objs (T := fd_t) k !! e_fd e = Some f →
  call_read (op_read (f_ops f)) (fs_data f) (count * 512) (lba * 512) (reading k fs e (lba * 512)) =
    Ok ((n, bytes), reading k fs e (lba * 512)) →
  ext2_get_block fs buffer lba count k =
    Ok ((negb (u64 n <? count * 512), overwritten bytes buffer), seek (e_fd e) (lba * 512) k).
Proof.
  intros Hfs Hl Hop Hlba Hc Hend Hf Hr. unfold ext2_get_block.
  kstep (lock_in_idle (O := ext2_object) io_lock set_io_lock fs e k Hfs Hl).
  set (e1 := set_io_lock (mx_taken (current_task k)) e). set (k1 := set_objs (<[fs := e1]> (objs k)) k).
  assert (∀ p, objs (T := ext2fs_t) (seek (e_fd e) p k1) !! fs = Some e1) as He1.
  { intros p. cbn [objs ext2_object]. unfold seek, k1. simpl. by rewrite ext2s_set, lookup_insert_eq. }
  assert (objs (T := ext2fs_t) k1 !! fs = Some e1) as He1' by exact (He1 0).
  kstep (load_Ok (O := ext2_object) fs e1 k1 He1'). change (e_fd e1) with (e_fd e).
  unfold BLOCK_SIZE. rewrite !uwrap_small by (unfold is_word; lia). set (k2 := seek (e_fd e) (lba * 512) k1).
  assert (vfs_seek (e_fd e) (lba * 512) SEEK_SET k1 = Ok (lba * 512, k2)) as Hsk.
  { unfold vfs_seek. assert (objs (T := fd_t) k1 !! e_fd e = Some f) as Hf1 by exact Hf.
    kstep (load_Ok (O := fd_object) (e_fd e) f k1 Hf1). kpure.
    kstep (change_Ok (O := fd_object) (e_fd e) (set_fpos (lba * 512)) k1 f Hf1). unfold mret, K_ret. do 2 f_equal.
    unfold k2, seek. f_equal. apply map_eq. intros i. destruct (decide (i = e_fd e)) as [->|].
    - by rewrite lookup_insert_eq, lookup_alter_eq, Hf1.
    - by rewrite lookup_insert_ne, lookup_alter_ne. }
  kstep Hsk.
  assert (objs (T := fd_t) k2 !! e_fd e = Some (set_fpos (lba * 512) f)) as Hf2.
  { unfold k2, seek. cbn [objs set_objs fd_object k_vfs set_k_vfs v_fds set_v_fds]. rewrite lookup_alter_eq.
    change (v_fds (k_vfs k1)) with (objs (T := fd_t) k). by rewrite Hf. }
  assert (vfs_read (e_fd e) (count * 512) k2 = Ok ((n, bytes), k2)) as Hrd.
  { unfold vfs_read. kstep (load_Ok (O := fd_object) (e_fd e) _ k2 Hf2). cbn [f_ops fs_data fpos set_fpos].
    by rewrite (proj2 (Z.eqb_neq _ _) Hop). }
  kstep Hrd. kstep (unlock_in_taken (O := ext2_object) io_lock set_io_lock fs e1 k2 (He1 _) eq_refl).
  unfold mret, K_ret. do 2 f_equal.
  unfold k2, k1, seek. cbn [objs set_objs fd_object ext2_object]. unfold set_k_fs, set_k_vfs. simpl.
  rewrite ext2s_set, set_ext2s_set, insert_insert_eq.
  assert (set_io_lock MUTEX_INITIALIZER e1 = e) as ->.
  { unfold e1. destruct e. simpl in *. by subst. }
  cbn [objs ext2_object] in Hfs. rewrite insert_id by done. by rewrite set_ext2s_ext2s.
Qed.

Lemma ext2_get_block_spec k fs e image buffer lba count :
  mounted_on k fs e image → 0 <= lba → 0 <= count → (lba + count) * 512 <= Z.of_nat (length image) →
  ext2_get_block fs buffer lba count k =
    Ok ((true, overwritten (slice (lba * 512) (count * 512) image) buffer), seek (e_fd e) (lba * 512) k).
Proof.
  intros Hm Hlba Hc Hend. pose proof (mo_image _ _ _ _ Hm) as Hi. change (2 ^ 62) with 4611686018427387904 in Hi.
  destruct (mo_fd _ _ _ _ Hm) as (f & Hf & Hop & Hd).
  destruct (call_read_disk (reading k fs e (lba * 512)) (op_read (f_ops f)) (fs_data f) image (lba * 512) (count * 512))
    as (n & Hr & Hn).
  { unfold reading. simpl. by rewrite disk_image_ext2. }
  1-4: lia. 1-2: by rewrite Z.mod_mul.
  rewrite (get_block_any k fs e f buffer lba count n _ (mo_fs _ _ _ _ Hm) (mo_lock _ _ _ _ Hm) Hop Hlba Hc ltac:(change (2 ^ 64) with 18446744073709551616; lia) Hf Hr).
  assert (u64 n = n) as ->.
  { apply uwrap_small. unfold is_word. change (2 ^ 63) with 9223372036854775808 in Hn. change (2 ^ 64) with 18446744073709551616. lia. }
  by rewrite (proj2 (Z.ltb_ge _ _)) by lia.
Qed.

(** Some reads later. *)
Definition moved (fd : Z) k k' : Prop := k' = k ∨ ∃ p, k' = seek fd p k.

Lemma moved_trans fd k k1 k2 : moved fd k k1 → moved fd k1 k2 → moved fd k k2.
Proof. intros [->|[p ->]] [->|[q ->]]; [by left|right; by exists q|right; by exists p|right; exists q; by rewrite seek_seek]. Qed.

Lemma mounted_moved k k' fs e image : mounted_on k fs e image → moved (e_fd e) k k' → mounted_on k' fs e image.
Proof. intros Hm [->|[p ->]]; [done|by apply mounted_seek]. Qed.

(** ** The reference: the blocks of a file in order *)

(** The number of the [i]-th block: from the inode, or from the block of pointers. *)
Definition ind_block ino : Z := default 0 (i_block ino !! 12%nat).
Definition file_block image e ino (i : nat) : Z :=
  if (i <? 12)%nat then default 0 (i_block ino !! i)
  else le_field image (Z.to_nat (ind_block ino * block_size e + 4 * (Z.of_nat i - 12))) 4.
Definition file_data image e ino (n : nat) : list Z :=
  concat ((λ i, slice (file_block image e ino i * block_size e) (block_size e) image) <$> seq 0 n).

(** The first [n] blocks of the file, and its block of pointers, are on the disk. *)
Record file_ok e ino image (n : nat) : Prop := {
  fo_inode : length (i_block ino) = 15%nat;
  fo_count : Z.of_nat n <= 12 + block_size e / 4;
  fo_block i : (i < n)%nat → 0 <= file_block image e ino i ∧
    (file_block image e ino i + 1) * block_size e <= Z.of_nat (length image);
  fo_ind : (12 < n)%nat → 0 <= ind_block ino ∧ (ind_block ino + 1) * block_size e <= Z.of_nat (length image);
}.

Lemma le_field_slice off len l o n :
  0 <= off → 0 <= len → (o + n <= Z.to_nat len)%nat → le_field (slice off len l) o n = le_field l (Z.to_nat off + o) n.
Proof.
  intros. unfold le_field, slice. f_equal. rewrite skipn_firstn_comm, take_take, drop_drop. f_equal; lia.
Qed.

(** A whole block. *)
Lemma get_whole_block k fs e image buffer b :
  mounted_on k fs e image → 0 <= b → (b + 1) * block_size e <= Z.of_nat (length image) →
  Z.of_nat (length buffer) = block_size e →
  ext2_get_block fs buffer (b * block_size e / LBA_SIZE) (block_size e / LBA_SIZE) k =
    Ok ((true, slice (b * block_size e) (block_size e) image), seek (e_fd e) (b * block_size e) k).
Proof.
  intros Hm Hb Hend Hlen. destruct (mo_bs _ _ _ _ Hm) as (n & Hn & Hbs).
  assert (block_size e / LBA_SIZE = 2 * n) as Hq by (rewrite Hbs; unfold LBA_SIZE; zdiv).
  assert (b * block_size e / LBA_SIZE = b * (2 * n)) as Hq2.
  { rewrite Hbs. replace (b * (n * 1024)) with (b * (2 * n) * LBA_SIZE) by (unfold LBA_SIZE; lia). by rewrite Z.div_mul. }
  rewrite Hq, Hq2. rewrite (ext2_get_block_spec k fs e image buffer) by (done || nia).
  replace (b * (2 * n) * 512) with (b * block_size e) by lia. replace (2 * n * 512) with (block_size e) by lia.
  rewrite overwritten_whole; [done|]. pose proof (slice_length (b * block_size e) (block_size e) image). nia.
Qed.

Lemma get_file_block_spec k fs e image ino n buffer i :
  mounted_on k fs e image → file_ok e ino image n → (i < n)%nat → Z.of_nat (length buffer) = block_size e →
  ∃ buffer' k', ext2_get_file_block fs ino buffer (Z.of_nat i) k = Ok ((file_block image e ino i, buffer'), k') ∧
    moved (e_fd e) k k' ∧ Z.of_nat (length buffer') = block_size e.
Proof.
  intros Hm [Hi Hcnt _ Hind] Hin Hlen. unfold ext2_get_file_block, file_block.
  kstep (load_Ok (O := ext2_object) fs e k (mo_fs _ _ _ _ Hm)). rewrite Nat2Z.id.
  destruct (Nat.ltb_spec i 12) as [Hlt|Hge].
  - rewrite (proj2 (Z.ltb_lt _ _)) by lia. destruct (i_block ino !! i) as [b|] eqn:Hb; [|apply lookup_ge_None in Hb; lia].
    exists buffer, k. split; [done|]. split; [by left|done].
  - rewrite (proj2 (Z.ltb_ge _ _)), (proj2 (Z.ltb_lt _ _)) by lia.
    destruct (i_block ino !! 12%nat) as [b|] eqn:Hb; [|apply lookup_ge_None in Hb; lia].
    assert (ind_block ino = b) as Hbi by (unfold ind_block; by rewrite Hb). rewrite Hbi in *.
    destruct Hind as [Hb0 Hbe]; [lia|]. destruct (mo_bs _ _ _ _ Hm) as (m & Hmb & Hbs).
    assert (lift (S := kernel) (of_option (Some b)) k = Ok (b, k)) as Hl by done. kstep Hl.
    assert (u64 (b * (block_size e / LBA_SIZE)) = b * block_size e / LBA_SIZE) as ->.
    { assert (block_size e / LBA_SIZE = 2 * m) as -> by (rewrite Hbs; unfold LBA_SIZE; zdiv).
      replace (b * block_size e) with (b * (2 * m) * LBA_SIZE) by (unfold LBA_SIZE; lia). rewrite Z.div_mul by done.
      apply uwrap_small. pose proof (mo_image _ _ _ _ Hm) as Him. change (2 ^ 62) with 4611686018427387904 in Him.
      unfold is_word. change (2 ^ 64) with 18446744073709551616. nia. }
    kstep (get_whole_block k fs e image buffer b Hm Hb0 Hbe Hlen).
    assert (0 < block_size e) by lia.
    exists (slice (b * block_size e) (block_size e) image), (seek (e_fd e) (b * block_size e) k).
    split; [|split; [right; by eexists|apply slice_length; nia]].
    unfold mret, K_ret. cbn [negb]. do 3 f_equal.
    assert (0 <= b * block_size e) by nia. rewrite le_field_slice; [f_equal; lia|done|lia|].
    assert (4 * (Z.of_nat i - 12) + 4 <= block_size e) by (rewrite Hbs in Hcnt |- *; zdiv). lia.
Qed.

(** ** Reading *)

Lemma length_file_data k fs image e ino n :
  mounted_on k fs e image → file_ok e ino image n →
  Z.of_nat (length (file_data image e ino n)) = Z.of_nat n * block_size e.
Proof.
  intros Hm Hf. destruct (mo_bs _ _ _ _ Hm) as (m & Hmb & Hbs). apply length_blocks. intros i Hi.
  destruct (fo_block _ _ _ _ Hf i) as [Hb0 Hbe]; [lia|]. apply slice_length; nia.
Qed.

Lemma file_data_slice image e ino n c off len k fs :
  mounted_on k fs e image → file_ok e ino image n → (c < n)%nat → 0 <= off → 0 <= len → off + len <= block_size e →
  slice (Z.of_nat c * block_size e + off) len (file_data image e ino n) =
    slice off len (slice (file_block image e ino c * block_size e) (block_size e) image).
Proof.
  intros Hm Hf Hc Ho Hl Hol. destruct (mo_bs _ _ _ _ Hm) as (m & Hmb & Hbs). unfold file_data.
  rewrite (slice_blocks (λ i, slice (file_block image e ino i * block_size e) (block_size e) image)); [done|lia| |done..].
  intros i Hi. destruct (fo_block _ _ _ _ Hf i Hi) as [Hb0 Hbe]. apply slice_length; nia.
Qed.

(** One turn: the block that holds the next byte is read, and what of it lies in the range is copied. *)
Lemma read_loop_turn fuel k fs e image ino n buffer data len offset :
  mounted_on k fs e image → file_ok e ino image n → Z.of_nat (length buffer) = block_size e →
  let r := Z.of_nat (length data) in let c := (offset + r) / block_size e in let bb := (offset + r) mod block_size e in
  let blk := slice (file_block image e ino (Z.to_nat c) * block_size e) (block_size e) image in
  0 <= offset → offset + len <= Z.of_nat n * block_size e → r < len →
  (data = [] ∨ bb = 0 ∨ r = len) →
  ∃ k2, read_loop (S fuel) fs ino buffer data len offset k =
      read_loop fuel fs ino blk (data ++ slice bb (Z.min (block_size e - bb) (len - r)) blk) len offset k2 ∧
    moved (e_fd e) k k2 ∧ Z.of_nat (length blk) = block_size e ∧ 0 <= c < Z.of_nat n.
Proof.
  intros Hm Hf Hbuf r c bb blk Ho Hend Hlt Hal. cbn [read_loop]. fold r. rewrite (proj2 (Z.ltb_lt r len)) by done.
  destruct (mo_bs _ _ _ _ Hm) as (m & Hmb & Hbs). assert (0 < block_size e) as Hpos by lia.
  assert (0 <= c < Z.of_nat n) as Hc by (split; [apply Z.div_pos; lia|apply Z.div_lt_upper_bound; lia]).
  kstep (load_Ok (O := ext2_object) fs e k (mo_fs _ _ _ _ Hm)).
  assert (Z.of_nat n * block_size e < 2 ^ 64) as Hbig.
  { pose proof (fo_count _ _ _ _ Hf). change (2 ^ 20) with 1048576 in Hmb. change (2 ^ 64) with 18446744073709551616.
    assert (block_size e / 4 = m * 256) by (rewrite Hbs; zdiv). nia. }
  assert (lift (S := kernel) (udiv (u64 (offset + r)) (block_size e)) k = Ok (c, k)) as Hdv.
  { unfold udiv, lift. rewrite (proj2 (Z.eqb_neq _ _)) by lia. rewrite uwrap_small; [done|]. unfold is_word. lia. }
  kstep Hdv.
  destruct (get_file_block_spec k fs e image ino n buffer (Z.to_nat c) Hm Hf ltac:(lia) Hbuf) as (buffer1 & k1 & Hg & Hmv1 & Hbuf1).
  rewrite Z2Nat.id in Hg by apply Hc. kstep Hg.
  destruct (fo_block _ _ _ _ Hf (Z.to_nat c) ltac:(lia)) as [Hb0 Hbe]. set (b := file_block image e ino (Z.to_nat c)) in *.
  pose proof (mounted_moved _ _ _ _ _ Hm Hmv1) as Hm1.
  assert (u64 (b * block_size e) = b * block_size e) as ->.
  { apply uwrap_small. pose proof (mo_image _ _ _ _ Hm) as Him. change (2 ^ 62) with 4611686018427387904 in Him.
    unfold is_word. change (2 ^ 64) with 18446744073709551616. nia. }
  kstep (get_whole_block k1 fs e image buffer1 b Hm1 Hb0 Hbe Hbuf1). cbn [negb].
  assert ((if r =? 0 then offset mod block_size e else 0) = bb) as ->.
  { unfold bb. destruct (Z.eqb_spec r 0) as [->|Hrnz]; [by rewrite Z.add_0_r|].
    destruct Hal as [->|[Hal|Hal]]; [done|done|lia]. }
  assert ((if len <? r + (block_size e - bb) then block_size e - bb - (r + (block_size e - bb) - len) else block_size e - bb) =
    Z.min (block_size e - bb) (len - r)) as -> by (case_ltb; lia).
  exists (seek (e_fd e) (b * block_size e) k1). split; [done|]. split; [|split; [|exact Hc]].
  - eapply moved_trans; [exact Hmv1|right; by eexists].
  - apply slice_length; nia.
Qed.

Lemma read_loop_spec fuel k fs e image ino n buffer data len offset :
  mounted_on k fs e image → file_ok e ino image n → Z.of_nat (length buffer) = block_size e →
  0 <= offset → offset + len <= Z.of_nat n * block_size e → Z.of_nat (length data) <= len →
  data = slice offset (Z.of_nat (length data)) (file_data image e ino n) →
  (data = [] ∨ (offset + Z.of_nat (length data)) mod block_size e = 0 ∨ Z.of_nat (length data) = len) →
  (Z.to_nat len <= length data + fuel)%nat →
  ∃ k', read_loop fuel fs ino buffer data len offset k = Ok (inr (slice offset len (file_data image e ino n)), k') ∧
    moved (e_fd e) k k'.
Proof.
  revert k buffer data. induction fuel as [|fuel IH]; intros k buffer data Hm Hf Hbuf Ho Hend Hr Hdata Hal Hfuel.
  { cbn [read_loop]. rewrite (proj2 (Z.ltb_ge _ _)) by lia. exists k. split; [|by left]. unfold mret, K_ret. do 3 f_equal.
    rewrite Hdata at 1. f_equal. lia. }
  destruct (Z.ltb_spec (Z.of_nat (length data)) len) as [Hlt|Hge].
  2: { cbn [read_loop]. rewrite (proj2 (Z.ltb_ge _ _)) by lia. exists k. split; [|by left]. unfold mret, K_ret. do 3 f_equal. rewrite Hdata at 1. f_equal. lia. }
  set (r := Z.of_nat (length data)) in *. assert (0 < block_size e) as Hpos by (destruct (mo_bs _ _ _ _ Hm) as (m & ? & ?); lia).
  destruct (read_loop_turn fuel k fs e image ino n buffer data len offset Hm Hf Hbuf Ho Hend Hlt) as (k2 & -> & Hmv & Hblk & Hc).
  { destruct Hal as [?|[?|?]]; auto. }
  fold r in Hblk, Hc |- *. set (c := (offset + r) / block_size e) in *. set (bb := (offset + r) mod block_size e) in *.
  assert (offset + r = c * block_size e + bb ∧ 0 <= bb < block_size e) as [Hcb Hbb].
  { unfold c, bb. pose proof (Z.div_mod (offset + r) (block_size e)). pose proof (Z.mod_pos_bound (offset + r) (block_size e)). lia. }
  set (blk := slice _ (block_size e) image) in *. set (cpy := Z.min _ _).
  assert (cpy = Z.min (block_size e - bb) (len - r)) as Hcpy by done. clearbody cpy.
  assert (data ++ slice bb cpy blk = slice offset (r + cpy) (file_data image e ino n)) as Hdata'.
  { rewrite slice_app, <- Hdata by lia. f_equal. rewrite Hcb, <- (Z2Nat.id c) by lia.
    symmetry. by apply (file_data_slice image e ino n (Z.to_nat c) bb cpy k fs Hm Hf); lia. }
  assert (length (data ++ slice bb cpy blk) = Z.to_nat (r + cpy)) as Hlen'.
  { rewrite length_app. pose proof (slice_length bb cpy blk). lia. }
  destruct (IH k2 blk (data ++ slice bb cpy blk)) as (k' & Hk' & Hmv'); [by eapply mounted_moved|done|done|done|done| | | | |].
  - lia.
  - rewrite Hlen', Z2Nat.id by lia. exact Hdata'.
  - destruct (Z.leb_spec (block_size e - bb) (len - r)) as [Hfull|Hpart]; [right; left|right; right; lia].
    rewrite Hlen', Z2Nat.id by lia. replace (offset + (r + cpy)) with ((c + 1) * block_size e) by nia. by rewrite Z.mod_mul; lia.
  - rewrite Hlen'. lia.
  - exists k'. split; [exact Hk'|]. by eapply moved_trans.
Qed.


(** The whole of [ext2_read]. *)
Lemma ext2_read_spec junk_bytes k drvdata f e ino image n len offset b h :
  objs (T := file_t) k !! drvdata = Some f → mounted_on k (driver1 f) e image →
  objs (T := ext2_inode_t) k !! driver2 f = Some ino → file_ok e ino image n →
  store_wf (k_store k) → km_room (block_size e) (heap (k_store k)) →
  km_alloc (block_size e) (heap (k_store k)) = Ok (b, h) → (∀ a m, length (junk_bytes a m) = m) →
  0 <= offset <= f_length f → 0 <= len → offset + len < 2 ^ 64 → f_length f <= Z.of_nat n * block_size e →
  let count := Z.min len (f_length f - offset) in
  ∃ k' s', ext2_read junk_bytes drvdata len offset k = Ok ((count, slice offset count (file_data image e ino n)), k') ∧
    moved (e_fd e) (set_k_store s' k) k' ∧ store_wf s' ∧ nodes s' = nodes (k_store k) ∧
    km_live (heap s') = km_live (heap (k_store k)).
Proof.
  intros Hf Hm Hino Hok Hs Hroom Ha Hjunk Ho Hlen Hov Hfl count. unfold ext2_read.
  destruct (store_wf_alloc _ _ _ _ Hs Hroom Ha) as (Hs1 & Hfresh & Hbnz).
  kstep (load_Ok (O := file_object) drvdata f k Hf). kstep (load_Ok (O := ext2_object) (driver1 f) e k (mo_fs _ _ _ _ Hm)).
  kstep (load_Ok (O := inode_object) (driver2 f) ino k Hino).
  destruct (mo_bs _ _ _ _ Hm) as (m & Hmb & Hbs).
  assert ((if f_length f <? u64 (offset + len) then u64 (f_length f - offset) else len) = count) as ->.
  { assert (Z.of_nat n * block_size e < 2 ^ 64).
    { pose proof (fo_count _ _ _ _ Hok). change (2 ^ 20) with 1048576 in Hmb. change (2 ^ 64) with 18446744073709551616.
      assert (block_size e / 4 = m * 256) by (rewrite Hbs; zdiv). nia. }
    rewrite uwrap_small by (unfold is_word; lia). unfold count. case_ltb; [|lia]. rewrite uwrap_small; [lia|unfold is_word; lia]. }
  kstep (new_Ok (block_size e) k b h Ha). set (k1 := set_k_store _ k).
  assert (mounted_on k1 (driver1 f) e image) as Hm1 by (destruct Hm; by split).
  destruct (read_loop_spec (Z.to_nat count) k1 (driver1 f) e image ino n (junk_bytes b (Z.to_nat (block_size e))) [] count offset)
    as (k2 & Hr & Hmv); [done|done|rewrite Hjunk; lia|lia|unfold count; lia|simpl; unfold count; lia| |by left|simpl; lia|].
  { unfold slice. simpl. by rewrite take_0. }
  kstep Hr. assert (k_store k2 = k_store k1) as Hst by (by destruct Hmv as [->|[p ->]]).
  assert (b ∈ km_live h ∧ km_live h = {[b]} ∪ km_live (heap (k_store k))) as [Hbl Hlive].
  { destruct (km_alloc_ok _ _ _ _ (sw_inv _ Hs) Hroom Ha) as (_ & _ & _ & ->). split; [|done]. clear. set_solver. }
  destruct (km_free_ok b h (sw_inv _ Hs1) Hbl) as (h' & Hfr & Hi' & Hl').
  set (s' := {| nodes := nodes (k_store k); heap := h' |}).
  assert (free b k2 = Ok (tt, set_k_store s' k2)) as Hfree.
  { unfold free. rewrite (proj2 (Z.eqb_neq _ _) Hbnz). unfold on_heap, on_store. rewrite Hst. simpl. by rewrite Hfr. }
  kstep Hfree. exists (set_k_store s' k2), s'.
  assert (Z.of_nat (length (slice offset count (file_data image e ino n))) = count) as Hcount.
  { apply slice_length; [lia|unfold count; lia|]. rewrite (length_file_data _ _ _ _ _ _ Hm Hok). unfold count. lia. }
  split_and!.
  - unfold mret, K_ret. by rewrite Hcount.
  - destruct Hmv as [->|[p ->]]; [by left|right; by exists p].
  - split; [done| |apply Hs]. simpl. rewrite Hl', Hlive. pose proof (sw_live _ Hs) as Hsl. clear -Hsl Hfresh. set_solver.
  - done.
  - simpl. rewrite Hl', Hlive. clear -Hfresh. set_solver.
Qed.

(** ** Directories *)

(** An entry of a directory on the disk, with the space it takes. *)
Record disk_entry := { en_inode : Z; en_type : Z; en_name : list Z; en_size : nat }.
Definition encode_entry (en : disk_entry) : list Z :=
  le_split 4 (en_inode en) ++ le_split 2 (Z.of_nat (en_size en)) ++ [Z.of_nat (length (en_name en)); en_type en] ++
  en_name en ++ replicate (en_size en - 8 - length (en_name en)) 0.

Record entry_wf (en : disk_entry) : Prop := {
  ew_inode : is_word 32 (en_inode en);
  ew_size : (8 + length (en_name en) <= en_size en)%nat ∧ is_word 16 (Z.of_nat (en_size en));
  ew_name : Z.of_nat (length (en_name en)) < 256 ∧ 0 ∉ en_name en;
}.

Lemma length_encode en : entry_wf en → length (encode_entry en) = en_size en.
Proof.
  intros [_ [Hs _] _]. unfold encode_entry. rewrite !length_app, !length_le_split, length_replicate. simpl. lia.
Qed.

Lemma le_field_head n x l o : (n <= o)%nat → le_field (le_split n x ++ l) o 1 = le_field l (o - n) 1.
Proof. intros Ho. unfold le_field. rewrite drop_app_ge by (by rewrite length_le_split). by rewrite length_le_split. Qed.

Lemma decode_entry en rest : entry_wf en →
  dentry_base_of (encode_entry en ++ rest) =
    {| de2_inode := en_inode en; de2_size := Z.of_nat (en_size en); name_length := Z.of_nat (length (en_name en));
       de2_type := en_type en |}.
Proof.
  intros [Hi [_ Hs] _]. unfold dentry_base_of, encode_entry, le_field. rewrite <- !app_assoc. f_equal.
  - rewrite drop_0, take_app_le, take_ge by (rewrite ?length_le_split; lia). rewrite le_combine_split.
    by apply Z.mod_small.
  - rewrite drop_app_ge, length_le_split by (rewrite length_le_split; lia). cbn [Nat.sub].
    rewrite drop_0, take_app_le, take_ge by (rewrite ?length_le_split; lia). rewrite le_combine_split. by apply Z.mod_small.
  - rewrite drop_app_ge, length_le_split by (rewrite length_le_split; lia).
    rewrite drop_app_ge, length_le_split by (rewrite length_le_split; lia). cbn. rewrite ?take_0. cbn. lia.
  - rewrite drop_app_ge, length_le_split by (rewrite length_le_split; lia).
    rewrite drop_app_ge, length_le_split by (rewrite length_le_split; lia). cbn. rewrite take_0. cbn. lia.
Qed.

Lemma entry_name en pre rest : entry_wf en →
  until_null (slice (Z.of_nat (length pre) + 8) (Z.of_nat (length (en_name en))) (pre ++ encode_entry en ++ rest)) = en_name en.
Proof.
  intros [_ _ [_ Hn]]. unfold slice, encode_entry. rewrite Nat2Z.id.
  replace (Z.to_nat (Z.of_nat (length pre) + 8)) with (length pre + 8)%nat by lia.
  rewrite drop_app_ge by lia. replace (length pre + 8 - length pre)%nat with 8%nat by lia. rewrite <- !app_assoc.
  rewrite drop_app_ge, length_le_split by (rewrite length_le_split; lia).
  rewrite drop_app_ge, length_le_split by (rewrite length_le_split; lia). cbn [Nat.sub app skipn].
  rewrite drop_0, take_app_le, take_ge by lia. revert Hn. clear. induction (en_name en) as [|c l IH]; intros Hn; [done|].
  apply not_elem_of_cons in Hn as [Hc Hn]. cbn [until_null]. rewrite (proj2 (Z.eqb_neq c 0)) by congruence. by rewrite IH.
Qed.

(** An allocator that has always room. *)
Definition plentiful : Prop := ∀ (h : A) n, km_inv h → km_room n h ∧ ∃ r, km_alloc n h = Ok r.

Definition in_use (en : disk_entry) : bool := negb (en_inode en =? 0).
Definition entry_loaded k (x : Z) (en : disk_entry) : Prop :=
  objs (T := direntry_t) k !! x = Some {| de_name := en_name en; de_inode := en_inode en; de_file := 0 |}.

(** The head of one turn: the entry at [pre] is decoded. *)
Lemma dir_loop_head fuel k dir pre en rest :
  entry_wf en → let pre' := pre ++ encode_entry en in
  dir_loop (S fuel) dir (pre' ++ rest) (Z.of_nat (length pre)) k =
    (if negb (in_use en) then dir_loop fuel dir (pre' ++ rest) (Z.of_nat (length pre'))
     else entry ← new 272; d ← load (T := dir_t) dir;
          '(_, l) ← on_store (list_add (d_files d) entry);
          change (T := dir_t) dir (set_d_files l);;
          put entry {| de_name := en_name en; de_inode := en_inode en; de_file := 0 |};;
          dir_loop fuel dir (pre' ++ rest) (Z.of_nat (length pre'))) k.
Proof.
  intros Hen pre'. assert (pre' ++ rest = pre ++ encode_entry en ++ rest) as Hb by (unfold pre'; by rewrite app_assoc).
  pose proof (length_encode en Hen) as Hle. pose proof (ew_size _ Hen) as [Hsz _].
  assert (Z.of_nat (length (pre' ++ rest)) = Z.of_nat (length pre) + Z.of_nat (en_size en) + Z.of_nat (length rest)) as Hlb.
  { rewrite Hb, !length_app, Hle. lia. }
  assert (Z.of_nat (length pre) + Z.of_nat (en_size en) = Z.of_nat (length pre')) as Hp by (unfold pre'; rewrite length_app, Hle; lia).
  cbn [dir_loop]. rewrite (proj2 (Z.ltb_lt (Z.of_nat (length pre)) _)), !(proj2 (Z.ltb_ge _ (Z.of_nat (length pre) + 8))) by lia.
  assert (dentry_base_of (drop (Z.to_nat (Z.of_nat (length pre))) (pre' ++ rest)) =
    {| de2_inode := en_inode en; de2_size := Z.of_nat (en_size en); name_length := Z.of_nat (length (en_name en));
       de2_type := en_type en |}) as ->.
  { rewrite Hb, Nat2Z.id, drop_app_length. by apply decode_entry. }
  cbn [de2_inode de2_size name_length]. rewrite Hp. unfold in_use. rewrite negb_involutive.
  destruct (en_inode en =? 0); [done|]. cbn [negb]. rewrite (proj2 (Z.ltb_ge _ _)) by lia.
  by rewrite Hb, entry_name.
Qed.

(** The loop puts the entries in use behind those of the directory's list, in order. *)
Lemma dir_loop_spec fuel k dir d pre es xs :
  plentiful → Forall entry_wf es → (length es < fuel)%nat →
  objs (T := dir_t) k !! dir = Some d → store_wf (k_store k) → list_repr (d_files d) xs (k_store k) →
  Z.of_nat (length xs + length es) + 1 < 2 ^ 64 →
  ∃ k' l ys, dir_loop fuel dir (pre ++ concat (encode_entry <$> es)) (Z.of_nat (length pre)) k = Ok (tt, k') ∧
    objs (T := dir_t) k' !! dir = Some (set_d_files l d) ∧ store_wf (k_store k') ∧
    list_repr l (xs ++ ys) (k_store k') ∧ Forall2 (entry_loaded k') ys.*2 (List.filter in_use es) ∧
    (∀ x, x ∈ km_live (heap (k_store k)) → x ∈ km_live (heap (k_store k')) ∧
       objs (T := direntry_t) k' !! x = objs (T := direntry_t) k !! x).
Proof.
  intros Hplenty. revert k d pre es xs. induction fuel as [|fuel IH]; intros k d pre es xs Hwf Hfuel Hd Hs Hl Hlen; [lia|].
  destruct es as [|en es].
  { cbn [dir_loop fmap list_fmap concat]. rewrite app_nil_r, (proj2 (Z.ltb_ge _ _)) by done.
    exists k, (d_files d), []. rewrite app_nil_r. split_and!; [done| |done|done|constructor|done]. by destruct d. }
  apply list.Forall_cons in Hwf as [Hen Hwf]. cbn [fmap list_fmap concat List.filter length] in *.
  rewrite app_assoc, (dir_loop_head fuel k dir pre en _ Hen). set (pre' := pre ++ encode_entry en).
  destruct (in_use en) eqn:Hu; cbn [negb].
  2: { destruct (IH k d pre' es xs Hwf) as (k' & l & ys & Hr & Hrest); [lia|done|done|done|lia|]. exists k', l, ys. by split. }
  destruct (Hplenty (heap (k_store k)) 272 (sw_inv _ Hs)) as [Hroom [[x h] Ha]].
  destruct (store_wf_alloc _ _ _ _ Hs Hroom Ha) as (Hs1 & Hfresh & Hxnz).
  destruct (km_alloc_ok _ _ _ _ (sw_inv _ Hs) Hroom Ha) as (_ & _ & _ & Hlive).
  kstep (new_Ok 272 k x h Ha). set (s1 := {| nodes := nodes (k_store k); heap := h |}). set (k1 := set_k_store s1 k).
  assert (objs (T := dir_t) k1 !! dir = Some d) as Hd1 by exact Hd. kstep (load_Ok (O := dir_object) dir d k1 Hd1).
  destruct (Hplenty h 24 (sw_inv _ Hs1)) as [Hroom2 [r2 Ha2]].
  destruct (list_add_spec (d_files d) xs s1 x Hs1 (list_repr_heap _ _ _ h Hl) ltac:(lia) Hroom2)
    as [(a & l & s2 & Hadd & Hafresh & Hlive2 & Hs2 & Hr2 & _)|(w & Hw & _)]; [|simpl in Hw; congruence].
  assert (on_store (list_add (d_files d) x) k1 = Ok ((Z.of_nat (length xs), l), set_k_store s2 k1)) as Hon.
  { unfold on_store. change (k_store k1) with s1. by rewrite Hadd. }
  kstep Hon. assert (objs (T := dir_t) (set_k_store s2 k1) !! dir = Some d) as Hd2 by exact Hd.
  kstep (change_Ok (O := dir_object) dir (set_d_files l) (set_k_store s2 k1) d Hd2).
  set (k2 := set_objs (<[dir := set_d_files l d]> (objs (set_k_store s2 k1))) (set_k_store s2 k1)).
  rewrite K_bind_put. set (k3 := set_objs (<[x := _]> (objs (T := direntry_t) k2)) k2).
  destruct (IH k3 (set_d_files l d) pre' es (xs ++ [(a, x)]) Hwf) as (k' & l' & ys & Hr & Hd' & Hs' & Hrepr & Hes & Hold).
  - lia.
  - cbn [objs dir_object k3]. apply lookup_insert_eq.
  - exact Hs2.
  - exact Hr2.
  - rewrite length_app. simpl. lia.
  - exists k', l', ((a, x) :: ys). rewrite <- app_assoc in Hrepr. split_and!; [done|by destruct d|done|done| |].
    + cbn [fmap list_fmap snd]. constructor; [|done]. unfold entry_loaded. destruct (Hold x) as [_ Hx]; [simpl; rewrite Hlive2; simpl; rewrite Hlive; clear; set_solver|].
      etransitivity; [exact Hx|]. apply lookup_insert_eq.
    + intros y Hy. destruct (Hold y) as [Hy1 ->]; [simpl; rewrite Hlive2; simpl; rewrite Hlive; clear -Hy; set_solver|].
      split; [done|]. cbn [objs direntry_object k3 set_objs]. simpl. rewrite lookup_insert_ne; [done|]. intros ->. by apply Hfresh.
Qed.

(** ** Inodes *)

Definition inode_stride e : Z := if major_version (sb e) <? 1 then 128 else inode_size (sb e).

(** Where the sector of the inode is, and where in it the driver looks. *)
Lemma fetch_inode_spec junk_bytes k fs e image no group b h :
  mounted_on k fs e image → fs_lock e = mx_taken (current_task k) →
  1 <= no <= total_inodes (sb e) → total_inodes (sb e) < 2 ^ 32 → 0 < inodes_per_group (sb e) →
  1 <= inode_stride e <= 512 →
  group_descriptors e !! Z.to_nat ((no - 1) / inodes_per_group (sb e)) = Some group → 0 <= bg_inode_table group →
  let table := bg_inode_table group * block_size e in
  let ips := 512 / inode_stride e in
  let sector := (no - 1) mod inodes_per_group (sb e) / ips in
  table + (sector + 1) * 512 <= Z.of_nat (length image) →
  store_wf (k_store k) → km_room 512 (heap (k_store k)) → km_alloc 512 (heap (k_store k)) = Ok (b, h) →
  (∀ a m, length (junk_bytes a m) = m) →
  ∃ k', fetch_inode junk_bytes fs no k =
    Ok ((SUCCESS, Some (inode_of (drop (Z.to_nat (128 * ((no - 1) mod ips))) (slice (table + sector * 512) 512 image)))), k').
Proof.
  intros Hm Hlk Hno Htot Hipg Hst Hg Hbt table ips sector Hend Hs Hroom Ha Hjunk. unfold fetch_inode.
  kstep (load_Ok (O := ext2_object) fs e k (mo_fs _ _ _ _ Hm)). kpure.
  assert (lift (S := kernel) (mutex_held (current_task k) (fs_lock e)) k = Ok (true, k)) as Hh.
  { unfold lift. by rewrite Hlk, mutex_held_taken. }
  kstep Hh. assert (lift (S := kernel) (assert_ true) k = Ok (tt, k)) as Has by (unfold lift; by rewrite assert_true). kstep Has.
  rewrite (proj2 (Z.ltb_ge (total_inodes (sb e)) no)) by lia. change (2 ^ 32) with 4294967296 in Htot.
  assert (u64 (no - 1) = no - 1) as -> by (apply uwrap_small; unfold is_word; change (2 ^ 64) with 18446744073709551616; lia).
  assert (0 < ips) as Hips by (unfold ips; apply Z.div_str_pos; lia).
  assert (∀ x y, y ≠ 0 → lift (S := kernel) (udiv x y) k = Ok (x / y, k)) as Hdiv by (intros x y Hy; unfold udiv, lift; by rewrite (proj2 (Z.eqb_neq _ _) Hy)).
  assert (∀ x y, y ≠ 0 → lift (S := kernel) (umod x y) k = Ok (x mod y, k)) as Hmod by (intros x y Hy; unfold umod, lift; by rewrite (proj2 (Z.eqb_neq _ _) Hy)).
  kstep (Hdiv (no - 1) (inodes_per_group (sb e)) ltac:(lia)).
  assert (lift (S := kernel) (of_option (group_descriptors e !! Z.to_nat ((no - 1) / inodes_per_group (sb e)))) k = Ok (group, k)) as Hgl by (by rewrite Hg).
  kstep Hgl. fold (inode_stride e). change LBA_SIZE with 512. kstep (Hdiv 512 (inode_stride e) ltac:(lia)). fold ips.
  kstep (Hmod (no - 1) (inodes_per_group (sb e)) ltac:(lia)). kstep (Hdiv ((no - 1) mod inodes_per_group (sb e)) ips ltac:(lia)).
  fold sector table. destruct (store_wf_alloc _ _ _ _ Hs Hroom Ha) as (Hs1 & _ & Hbnz).
  kstep (new_Ok 512 k b h Ha). set (k1 := set_k_store _ k).
  assert (mounted_on k1 fs e image) as Hm1 by (destruct Hm; by split).
  destruct (mo_bs _ _ _ _ Hm) as (m & Hmb & Hbs). pose proof (mo_image _ _ _ _ Hm) as Him.
  change (2 ^ 62) with 4611686018427387904 in Him.
  assert (0 <= sector) as Hsec by (unfold sector; apply Z.div_pos; [apply Z.mod_pos_bound; lia|lia]).
  assert (table = bg_inode_table group * (2 * m) * 512) as Htab by (unfold table; lia).
  assert (0 <= table) as Ht0 by nia.
  assert (u64 table / 512 = bg_inode_table group * (2 * m)) as ->.
  { rewrite uwrap_small by (unfold is_word; change (2 ^ 64) with 18446744073709551616; lia). rewrite Htab. by rewrite Z.div_mul. }
  rewrite uwrap_small by (unfold is_word; change (2 ^ 64) with 18446744073709551616; lia).
  kstep (ext2_get_block_spec k1 fs e image (junk_bytes b (Z.to_nat 512)) (sector + bg_inode_table group * (2 * m)) 1 Hm1
    ltac:(lia) ltac:(lia) ltac:(lia)).
  set (k2 := seek _ _ k1). cbn [negb].
  assert (lift (S := kernel) (umod (no - 1) ips) k2 = Ok ((no - 1) mod ips, k2)) as Hm2.
  { unfold umod, lift. by rewrite (proj2 (Z.eqb_neq ips 0)) by lia. }
  kstep Hm2.
  assert (b ∈ km_live h) as Hbl.
  { destruct (km_alloc_ok _ _ _ _ (sw_inv _ Hs) Hroom Ha) as (_ & _ & _ & ->). clear. set_solver. }
  destruct (km_free_ok b h (sw_inv _ Hs1) Hbl) as (h' & Hfr & _).
  assert (free b k2 = Ok (tt, set_k_store {| nodes := nodes (k_store k); heap := h' |} k2)) as Hfree.
  { unfold free. rewrite (proj2 (Z.eqb_neq _ _) Hbnz). unfold on_heap, on_store. change (k_store k2) with (k_store k1). simpl. by rewrite Hfr. }
  kstep Hfree. eexists. unfold mret, K_ret. do 6 f_equal. change (Z.to_nat 512) with 512%nat.
  replace ((sector + bg_inode_table group * (2 * m)) * 512) with (table + sector * 512) by lia. change (1 * 512) with 512.
  apply overwritten_whole. rewrite Hjunk. pose proof (slice_length (table + sector * 512) 512 image). lia.
Qed.

(** ** Properties *)



(** a read that fails with an error number counts as a success: the number is negative, but it is compared as an
    unsigned one, and the caller goes on with what was in its buffer before. *)
Theorem ext2_io_error_ignored k fs e f buffer lba count error :
  objs (T := ext2fs_t) k !! fs = Some e → io_lock e = MUTEX_INITIALIZER → op_read (f_ops f) ≠ 0 → 0 <= lba → 0 <= count → (lba + count) * 512 < 2 ^ 63 →
  objs (T := fd_t) k !! e_fd e = Some f → 1 <= error <= 4096 →
  call_read (op_read (f_ops f)) (fs_data f) (count * 512) (lba * 512) (reading k fs e (lba * 512)) =
    Ok ((- error, []), reading k fs e (lba * 512)) →
  ext2_get_block fs buffer lba count k = Ok ((true, buffer), seek (e_fd e) (lba * 512) k).
Proof.
  intros Hfs Hl Hop Hlba Hc Hend Hf He Hr. change (2 ^ 63) with 9223372036854775808 in Hend.
  rewrite (get_block_any k fs e f buffer lba count _ _ Hfs Hl Hop Hlba Hc ltac:(change (2 ^ 64) with 18446744073709551616; lia) Hf Hr).
  assert (u64 (- error) = 18446744073709551616 - error) as ->.
  { unfold u64, uwrap. change (2 ^ 64) with 18446744073709551616. symmetry. apply Z.mod_unique with (-1); lia. }
  rewrite (proj2 (Z.ltb_ge _ _)) by lia. cbn [negb]. do 3 f_equal.
Qed.

(** the driver finds the inode [no] in the table of its group when inodes take 128 bytes; when they take 256,
    every second inode is looked for 128 bytes too early, in the middle of the one before. *)
Theorem fetch_inode_position junk_bytes k fs e image no group b h :
  mounted_on k fs e image → fs_lock e = mx_taken (current_task k) →
  1 <= no <= total_inodes (sb e) → total_inodes (sb e) < 2 ^ 32 →
  0 < inodes_per_group (sb e) → inodes_per_group (sb e) mod 8 = 0 →
  inode_stride e = 128 ∨ inode_stride e = 256 →
  group_descriptors e !! Z.to_nat ((no - 1) / inodes_per_group (sb e)) = Some group → 0 <= bg_inode_table group →
  (bg_inode_table group + 1) * block_size e + inodes_per_group (sb e) * inode_stride e <= Z.of_nat (length image) →
  store_wf (k_store k) → km_room 512 (heap (k_store k)) → km_alloc 512 (heap (k_store k)) = Ok (b, h) →
  (∀ a m, length (junk_bytes a m) = m) →
  let index := (no - 1) mod inodes_per_group (sb e) in
  let position := bg_inode_table group * block_size e + inode_stride e * index in
  ∃ k', fetch_inode junk_bytes fs no k = Ok ((SUCCESS, Some (inode_of (slice
      (if decide (inode_stride e = 128) then position else position - 128 * (index mod 2)) 
      (512 - 128 * (index mod (512 / inode_stride e))) image))), k').
Proof.
  intros Hm Hlk Hno Htot Hipg Hdiv8 Hst Hg Hbt Hend Hs Hroom Ha Hjunk index position.
  destruct (mo_bs _ _ _ _ Hm) as (m & Hmb & Hbs).
  assert (0 <= index < inodes_per_group (sb e)) as Hi by (apply Z.mod_pos_bound; lia).
  assert (∀ d, d = 2 ∨ d = 4 → (no - 1) mod d = index mod d) as Hmd.
  { intros d Hd. unfold index. set (g := inodes_per_group (sb e)) in *.
    assert (g = d * (g / d)) as Hg'. { destruct Hd as [->| ->]; zdiv. }
    rewrite (Z.div_mod (no - 1) g) at 1 by lia. rewrite Hg' at 1.
    replace (d * (g / d) * ((no - 1) / g) + (no - 1) mod g) with ((no - 1) mod g + (g / d * ((no - 1) / g)) * d) by lia.
    apply Z.mod_add. lia. }
  destruct (fetch_inode_spec junk_bytes k fs e image no group b h Hm Hlk Hno Htot Hipg ltac:(lia) Hg Hbt)
    as (k' & Hf); [|done..|].
  { fold index. set (g := inodes_per_group (sb e)) in *.
    assert (bg_inode_table group * block_size e <= (bg_inode_table group + 1) * block_size e) as Ht by nia.
    revert Ht Hend Hst Hi Hdiv8. clear. generalize (bg_inode_table group * block_size e) ((bg_inode_table group + 1) * block_size e) g index.
    intros T T' g' i Ht Hend Hst Hi Hg. destruct Hst as [E0|E0]; rewrite E0 in *;
      [change (512 / 128) with 4|change (512 / 256) with 2]; zdiv. }
  exists k'. rewrite Hf. do 4 f_equal. clear Hf.
  assert (0 <= bg_inode_table group * block_size e) as Ht0 by nia.
  fold index. unfold position. set (T := bg_inode_table group * block_size e) in *. clearbody T index. clear -Hst Hi Ht0 Hmd.
  destruct Hst as [Hst|Hst]; rewrite Hst in *.
  - rewrite decide_True by done. change (512 / 128) with 4. rewrite Hmd by lia.
    rewrite drop_slice by zdiv. do 2 f_equal; zdiv.
  - rewrite decide_False by lia. change (512 / 256) with 2. rewrite Hmd by lia.
    rewrite drop_slice by zdiv. do 2 f_equal; zdiv.
Qed.
End reading.

(** ** A disk of four blocks *)

#[local] Existing Instance debug_build.
#[local] Existing Instances Bump.kmalloc Bump.laws.

(** The disk is the second part; [broken] disks answer every read with an error. *)
Record drive := { dr_ext2s : gmap Z ext2fs_t; dr_inodes : gmap Z ext2_inode_t; image_of : list Z; broken : bool }.
#[local] Instance drive_state : Ext2State drive.
Proof.
  refine {| ext2s := dr_ext2s;
            set_ext2s m d := {| dr_ext2s := m; dr_inodes := dr_inodes d; image_of := image_of d; broken := broken d |};
            inodes := dr_inodes;
            set_inodes m d := {| dr_ext2s := dr_ext2s d; dr_inodes := m; image_of := image_of d; broken := broken d |} |};
    [done|done|by intros []|done].
Defined.
#[local] Instance drive_drivers : Drivers Bump.t drive := {|
  call_read fn data len off k :=
    Ok (if broken (k_fs k) then (- EIO, []) else (len, slice off len (image_of (k_fs k))), k);
  call_probe _ _ := kstop Fault; call_mount _ _ := kstop Fault; call_fetch _ _ _ := kstop Fault |}.
#[local] Instance drive_disk : DiskDrivers Bump.t drive.
Proof.
  refine {| disk_image d fn data := if broken d then None else Some (image_of d) |}; [done|].
  intros k fn data image off len Hd Hi Ho Hl Hol _ _. simpl. destruct (broken (k_fs k)); [done|]. injection Hd as <-.
  exists len. split; [done|]. change (2 ^ 62) with 4611686018427387904 in Hi. change (2 ^ 63) with 9223372036854775808. lia.
Defined.

Definition demo_sb : ext2_superblock_t := superblock_of (le_split 4 100 ++ replicate 36 0 ++ le_split 4 8 ++ replicate 200 0).
Definition demo_e : ext2fs_t :=
  {| sb := demo_sb; e_fd := 40; e_root := 0; block_size := 1024; gd_count := 1; gd_buffer := 0;
     group_descriptors := [gd_of (replicate 32 0)]; io_lock := MUTEX_INITIALIZER; fs_lock := mx_taken 7 |}.
(** A file of 1500 bytes in the blocks 3 and 1. *)
Definition demo_inode : ext2_inode_t :=
  inode_of (replicate 40 0 ++ le_split 4 3 ++ le_split 4 1 ++ replicate 80 0).
Definition demo_image : list Z := replicate 1024 5 ++ replicate 1024 6 ++ replicate 1024 7 ++ replicate 1024 8.
Definition demo_ext2 (b : bool) : Kernel.kernel Bump.t drive :=
  {| k_store := demo_store; k_tasks := ∅; k_procs := ∅; k_stacks := ∅; k_ufds := ∅; k_loaders := ∅; k_vspaces := ∅;
     k_contexts := ∅; k_handlers := ∅;
     k_vfs := {| v_fds := {[ 40 := {| fd_file := 0; fpos := 0; f_ops := {| op_read := 1; op_write := 2 |}; fs_data := 3;
                                     fdmod := MUTEX_INITIALIZER |} ]};
                 v_files := {[ 50 := {| f_mode := 0; f_type := F_REGULAR; f_uid := 0; f_gid := 0; t_last_modified := 0;
                                        t_last_accessed := 0; t_created := 0; f_length := 1500; f_inode := 11;
                                        driver1 := 41; driver2 := 42; f_parent := 0; special := NoSpecial |} ]};
                 v_dirs := {[ 60 := demo_dir 61 60 list_init ]}; v_dentries := ∅; v_types := ∅; VFS_ROOT := 0;
                 fs_tree_lock := MUTEX_INITIALIZER; fs_list := list_init; fs_list_lock := MUTEX_INITIALIZER;
                 vfs_initialized := false |};
     k_images := no_images;
     k_fs := {| dr_ext2s := {[ 41 := demo_e ]}; dr_inodes := {[ 42 := demo_inode ]}; image_of := demo_image; broken := b |};
     sched_tasks := list_init; sched_enabled := true; current_task := 7; k_cr3 := 0; kernel_sp := 0;
     tid_counter := 1; pid_counter := 1; tl_list := list_init; tl_lock := MUTEX_INITIALIZER; task_count := 0;
     irq_handlers := []; irq_ongoing := false; k_out := [] |}.

Lemma demo_mounted : mounted_on (demo_ext2 false) 41 demo_e demo_image.
Proof.
  split; [reflexivity|reflexivity| |reflexivity|exists 1; split; [lia|reflexivity]].
  eexists. split; [reflexivity|]. split; [discriminate|reflexivity].
Qed.

Lemma demo_file_ok : file_ok demo_e demo_inode demo_image 2.
Proof.
  assert (file_block demo_image demo_e demo_inode 0 = 3 ∧ file_block demo_image demo_e demo_inode 1 = 1) as [H0 H1] by (split; reflexivity).
  split; [reflexivity|vm_compute; discriminate| |lia].
  intros [|[|i]] Hi; [rewrite H0|rewrite H1|lia]; split; try lia; vm_compute; discriminate.
Qed.



Lemma ext2_io_error_ignored_witness :
  ∃ k', ext2_get_block 41 [1; 2; 3] 0 1 (demo_ext2 true) = Ok ((true, [1; 2; 3]), k').
Proof.
  eexists. apply (ext2_io_error_ignored (demo_ext2 true) 41 demo_e
    {| fd_file := 0; fpos := 0; f_ops := {| op_read := 1; op_write := 2 |}; fs_data := 3; fdmod := MUTEX_INITIALIZER |}
    [1; 2; 3] 0 1 EIO); try reflexivity; try discriminate. split; [discriminate|vm_compute; discriminate].
Defined.

Lemma fetch_inode_position_witness :
  ∃ k', fetch_inode (λ _ n, replicate n 0) 41 6 (demo_ext2 false) =
    Ok ((SUCCESS, Some (inode_of (slice (128 * 5) (512 - 128) demo_image))), k').
Proof.
  destruct (fetch_inode_position (λ _ n, replicate n 0) (demo_ext2 false) 41 demo_e demo_image 6 (gd_of (replicate 32 0))
    96 {| Bump.top := 608; Bump.live := {[96]} ∪ {[32; 64]} |} demo_mounted eq_refl) as (k' & Hr).
  - split; vm_compute; discriminate.
  - reflexivity.
  - reflexivity.
  - reflexivity.
  - left. reflexivity.
  - reflexivity.
  - vm_compute. discriminate.
  - vm_compute. discriminate.
  - exact demo_wf.
  - exact I.
  - reflexivity.
  - intros a m. apply length_replicate.
  - exists k'. exact Hr.
Defined.
