(* ===== verification/Loader.v ===== *)
(** The program loader, sched/loader.c: headers of ELF files and the pages they are loaded into;
    and mm/pagefault.c, which finds out what a missing page belongs to. *)
From S2P Require Import Prelude Words Mutex PageAlloc Dll Lists Vspace Space Errno Kernel Vfs Ext2 UserMem.
Open Scope Z_scope.

(** [ELF_ISA] (kernel/arch/x86-common/include/arch/definitions.h, lines 18-19). *)
Definition ELF_ENDIANNESS : Z := 1.
Definition ELF_ISA : Z := 0x3e.

(** [LOAD] (kernel/kernel/sched/loader.c, lines 36-36). *)
Definition LOAD : Z := 1.

(** A buffer of 64 bytes read as [elf64_t], and one of 56 as [elf64_phte_t]. *)
Definition elf64_of (b : list Z) : elf64_t := {|
  e_magic := le_field b 0 4; e_type := le_field b 4 1; e_endianness := le_field b 5 1; e_header_version := le_field b 6 1;
  e_os_abi := le_field b 7 1; bintype := le_field b 16 2; isa := le_field b 18 2; elf_version := le_field b 20 4;
  e_entry := le_field b 24 8; pht_pos := le_field b 32 8; sht_pos := le_field b 40 8; e_flags := le_field b 48 4;
  header_size := le_field b 52 2; pht_entry_size := le_field b 54 2; pht_entries := le_field b 56 2;
  sht_entry_size := le_field b 58 2; sht_entries := le_field b 60 2; sht_index_names := le_field b 62 2;
|}.
Definition phte_of (b : list Z) : elf64_phte_t := {|
  ph_type := le_field b 0 4; ph_flags := le_field b 4 4; p_offset := le_field b 8 8; p_vaddr := le_field b 16 8;
  p_filesz := le_field b 32 8; p_memsz := le_field b 40 8; ph_alignment := le_field b 48 8;
|}.

Section operations.
Context {A F : Type} `{B : Build} `{KM : Kmalloc A} `{PM : PhysMem A} `{D : Drivers A F}.
Context (junk_bytes : Z → nat → list Z) (junk_mutex : Z → mutex_t).
Abbreviation kernel := (Kernel.kernel A F).
Abbreviation KL := (K kernel).

(** The assertion that the loader is locked by the caller. *)
Definition assert_held (ldr : Z) : KL unit :=
  l ← load (T := loader_t) ldr; cur ← gets current_task; held ← lift (mutex_held cur (ld_lock l)); lift (assert_ held).

(** [load_pht] (kernel/kernel/sched/loader.c, lines 69-91). *)
Definition load_pht (ldr : Z) : KL Z :=
  assert_held ldr;;
  l ← load (T := loader_t) ldr;
  h ← load (T := elf64_t) (ld_header l);
  let pht_size := u64 (pht_entries h * pht_entry_size h) in
  if negb (pht_entry_size h =? 56) then mret (- ENOEXEC)
  else
    pht ← new pht_size;
    _ ← vfs_seek (ld_file l) (pht_pos h) SEEK_SET;
    '(n, bytes) ← vfs_read (ld_file l) pht_size;
    if u64 n <? pht_size then free pht;; mret (- ENOEXEC)
    else
      let buffer := overwritten bytes (junk_bytes pht (Z.to_nat pht_size)) in
      put pht ((λ i, phte_of (drop (56 * i) buffer)) <$> seq 0 (Z.to_nat (pht_entries h)));;
      change ldr (set_ld_pht pht);;
      mret SUCCESS.

(** What of a segment is read into the page at [f_addr], and from where in the file
    ([loader_map_page] (kernel/kernel/sched/loader.c, lines 104-114)). *)
Definition read_size (ph : elf64_phte_t) (f_addr : Z) : Z :=
  if u64 (p_vaddr ph + p_memsz ph) <? u64 (f_addr + PAGE_SIZE) then u64 (u64 (p_vaddr ph + p_memsz ph) - f_addr)
  else PAGE_SIZE.
Definition read_offset (ph : elf64_phte_t) (f_addr : Z) : Z := u64 (p_offset ph + f_addr - p_vaddr ph).

(** The permissions of the page ([loader_map_page] (kernel/kernel/sched/loader.c, lines 126-129)). *)
Definition page_flags (ph : elf64_phte_t) : Z :=
  let flags := PG_USER in
  let flags := if Z.land (ph_flags ph) (BIT 0) =? 0 then Z.lor flags PG_NOEXEC else flags in
  if negb (Z.land (ph_flags ph) (BIT 1) =? 0) then Z.lor flags PG_WRITE else flags.

(** The bytes of a data page. *)
Definition set_frame (ppn : Z) (bytes : list Z) : KL unit :=
  modify (λ k, set_k_images (set_im_frames (<[ppn := bytes]> (im_frames (k_images k))) (k_images k)) k).

(** The part of the page that is in the file; whether reading it failed
    ([loader_map_page] (kernel/kernel/sched/loader.c, lines 106-124)). *)
Definition read_page (file : Z) (ph : elf64_phte_t) (ppn f_addr : Z) : KL bool :=
  if f_addr <? u64 (p_vaddr ph + p_memsz ph) then
    _ ← vfs_seek file (read_offset ph f_addr) SEEK_SET;
    lift (assert_ (read_size ph f_addr <=? PAGE_SIZE));;
    '(n, bytes) ← vfs_read file (read_size ph f_addr);
    if n <? 0 then k_free_page ppn;; mret true
    else set_frame ppn (overwritten bytes (replicate 4096 0));; mret false
  else mret false.

(** [loader_map_page] (kernel/kernel/sched/loader.c, lines 93-136). *)
Definition loader_map_page (ldr : Z) (ph : elf64_phte_t) (virt_page vspace : Z) : KL Z :=
  assert_held ldr;;
  l ← load (T := loader_t) ldr;
  ppn ← k_alloc_page;
  set_frame ppn (replicate 4096 0);;
  error ← read_page (ld_file l) ph ppn (u64 (Z.shiftl virt_page PAGE_SHIFT));
  if (error : bool) then mret (- EIO)
  else
    k_map vspace virt_page ppn (page_flags ph);;
    mret SUCCESS.

(** The loop of [load_heap_brk] (kernel/kernel/sched/loader.c, lines 152-165). *)
Definition heap_break (phs : list elf64_phte_t) : Z :=
  foldl (λ brk ph,
    let phte_end_addr := u64 (p_vaddr ph + p_memsz ph) in
    if negb (ph_type ph =? LOAD) then brk
    else if brk <? phte_end_addr then u64 (Z.shiftl (Z.shiftr phte_end_addr PAGE_SHIFT + 1) PAGE_SHIFT)
    else brk) 0 phs.

(** The table is read once ([load_heap_brk] (kernel/kernel/sched/loader.c, lines 142-150)): the
    caller returns the status if it is not 0, and leaves the loader locked. *)
Definition need_pht (ldr : Z) : KL Z :=
  lock_in ld_lock set_ld_lock ldr;;
  l ← load (T := loader_t) ldr;
  if ld_pht l =? 0 then load_pht ldr else mret SUCCESS.

(** [load_heap_brk] (kernel/kernel/sched/loader.c, lines 138-178). *)
Definition load_heap_brk (ldr : Z) : KL Z :=
  l ← load (T := loader_t) ldr;
  lift (assert_ (negb (ldr =? 0) && negb (ld_header l =? 0) && negb (ld_file l =? 0)));;
  status ← need_pht ldr;
  if status <? 0 then mret status
  else
    l ← load (T := loader_t) ldr;
    phs ← load (T := list elf64_phte_t) (ld_pht l);
    let brk := heap_break phs in
    if brk =? 0 then lift (assert_ false);; change ldr (set_min_heap_break SIZE_MAX);;
                     unlock_in ld_lock set_ld_lock ldr;; mret SUCCESS
    else change ldr (set_min_heap_break brk);; unlock_in ld_lock set_ld_lock ldr;; mret SUCCESS.

(** [loader_create] (kernel/kernel/sched/loader.c, lines 180-220); 0 for NULL. *)
Definition loader_create (file : Z) : KL Z :=
  buf ← new 64;
  _ ← vfs_seek file 0 SEEK_SET;
  '(n, bytes) ← vfs_read file 64;
  if n <? 0 then free buf;; mret 0
  else
    let h := elf64_of (overwritten bytes (junk_bytes buf 64)) in
    put buf h;;
    if negb (e_magic h =? 0x464c457f) then free buf;; mret 0
    else if negb (isa h =? ELF_ISA) || negb (e_endianness h =? ELF_ENDIANNESS) then free buf;; mret 0
    else
      ldr ← new 120;
      lk ← lift (mutex_init (junk_mutex (ldr + 32)));
      put ldr {| ld_file := file; entry_addr := e_entry h; ld_header := buf; ld_pht := 0; ld_lock := lk; ld_refs := 1;
                 min_heap_break := 0 |};;
      status ← load_heap_brk ldr;
      when (status <? 0) (change ldr (set_min_heap_break SIZE_MAX));;
      mret ldr.

(** The segment that an address belongs to: the first one
    ([loader_load] (kernel/kernel/sched/loader.c, lines 237-255)). *)
Definition in_segment (vaddr : Z) (ph : elf64_phte_t) : bool :=
  (ph_type ph =? LOAD) && (p_vaddr ph <=? vaddr) && (vaddr <? u64 (p_vaddr ph + p_memsz ph)).

(** [loader_load] (kernel/kernel/sched/loader.c, lines 222-260). *)
Definition loader_load (ldr virt_page vspace : Z) : KL Z :=
  l ← load (T := loader_t) ldr;
  lift (assert_ (negb (ldr =? 0) && negb (ld_header l =? 0) && negb (ld_file l =? 0)));;
  status ← need_pht ldr;
  if status <? 0 then mret status
  else
    l ← load (T := loader_t) ldr;
    phs ← load (T := list elf64_phte_t) (ld_pht l);
    match List.find (in_segment (u64 (Z.shiftl virt_page PAGE_SHIFT))) phs with
    | Some ph =>
        status ← loader_map_page ldr ph virt_page vspace;
        unlock_in ld_lock set_ld_lock ldr;;
        mret status
    | None => unlock_in ld_lock set_ld_lock ldr;; mret (- ENOENT)
    end.

(** [loader_release] (kernel/kernel/sched/loader.c, lines 262-279). *)
Definition loader_release (ldr : Z) : KL unit :=
  lock_in ld_lock set_ld_lock ldr;;
  change ldr (λ l, set_ld_refs (u64 (ld_refs l - 1)) l);;
  l ← load (T := loader_t) ldr;
  unlock_in ld_lock set_ld_lock ldr;;
  when (ld_refs l =? 0)
    (vfs_close (ld_file l);;
     free (ld_header l);;
     when (negb (ld_pht l =? 0)) (free (ld_pht l));;
     l ← load (T := loader_t) ldr;
     lk ← lift (mutex_destroy (ld_lock l));
     change ldr (set_ld_lock lk);;
     free ldr;;
     drop_obj loader_t ldr).

(** [page_fault] (kernel/kernel/mm/pagefault.c, lines 12-37): whether the fault is resolved.  What
    kind of access it was makes no difference. *)
Definition page_fault (address : Z) : KL bool :=
  let virt_page := Z.shiftr address PAGE_SHIFT in
  cur ← gets current_task;
  if cur =? 0 then mret false
  else
    t ← load (T := task_t) cur;
    if t_process t =? 0 then mret false
    else
      status ← stack_load (t_process t) virt_page;
      if 0 <=? status then mret true
      else
        status ← heap_load (t_process t) address;
        if 0 <=? status then mret true
        else
          pr ← load (T := proc_t) (t_process t);
          status ← loader_load (p_loader pr) virt_page (t_vspace t);
          mret (0 <=? status).
End operations.

(** ** Files as the loader sees them *)

(** What reading a file may change: positions of descriptors, and what drivers keep. *)
Record quiet {A F} `{PhysMem A} (k k' : kernel A F) : Prop := {
  qu_tasks : k_tasks k' = k_tasks k;
  qu_procs : k_procs k' = k_procs k;
  qu_stacks : k_stacks k' = k_stacks k;
  qu_loaders : k_loaders k' = k_loaders k;
  qu_vspaces : k_vspaces k' = k_vspaces k;
  qu_images : k_images k' = k_images k;
  qu_current : current_task k' = current_task k;
  qu_phys : phys_of k' = phys_of k;
  qu_fds p f : objs (T := fd_t) k !! p = Some f → ∃ pos, objs (T := fd_t) k' !! p = Some (set_fpos pos f);
}.

Lemma quiet_refl {A F} `{PhysMem A} (k : kernel A F) : quiet k k.
Proof. split; try done. intros p f Hf. exists (fpos f). rewrite Hf. by destruct f. Qed.

Lemma quiet_trans {A F} `{PhysMem A} (k k1 k2 : kernel A F) : quiet k k1 → quiet k1 k2 → quiet k k2.
Proof.
  intros [] []. split; try congruence. intros p f Hf. destruct (qu_fds0 p f Hf) as (pos & Hf1).
  destruct (qu_fds1 _ _ Hf1) as (pos2 & Hf2). exists pos2. rewrite Hf2. by destruct f.
Qed.

(** A driver of regular files: a read inside the file gives its bytes, up to the end, and
    disturbs nothing that the loader looks at. *)
Class FileDrivers (A F : Type) `{PM : PhysMem A} `{D : Drivers A F} := {
  file_content : F → Z → Z → option (list Z);
  call_read_file (k : kernel A F) fn data content off len :
    file_content (k_fs k) fn data = Some content → 0 <= off <= Z.of_nat (length content) → 0 <= len < 2 ^ 62 →
    ∃ k', call_read fn data len off k =
        Ok ((Z.min len (Z.of_nat (length content) - off),
             slice off (Z.min len (Z.of_nat (length content) - off)) content), k') ∧
      quiet k k' ∧ file_content (k_fs k') fn data = Some content;
}.

Section loading.
Context {A F : Type} `{B : Build} `{KM : Kmalloc A} {KL : KmallocLaws A} `{PM : PhysMem A} `{D : Drivers A F}
  {FD : FileDrivers A F}.
Abbreviation kernel := (Kernel.kernel A F).
Implicit Types (k : kernel) (ph : elf64_phte_t) (content : list Z).

(** A descriptor of a file with some content. *)
Definition opened k (fd : Z) content : Prop :=
  ∃ f, objs (T := fd_t) k !! fd = Some f ∧ op_read (f_ops f) ≠ 0 ∧
    file_content (k_fs k) (op_read (f_ops f)) (fs_data f) = Some content.

Definition seek_fd (fd pos : Z) (f : fd_t) k : kernel := set_objs (<[fd := set_fpos pos f]> (objs k)) k.

Lemma seek_quiet fd pos f k : objs (T := fd_t) k !! fd = Some f → quiet k (seek_fd fd pos f k).
Proof.
  intros Hf. split; try done. intros p g Hg. unfold seek_fd. cbn [objs set_objs fd_object]. simpl.
  destruct (decide (p = fd)) as [->|Hne].
  - rewrite Hf in Hg. injection Hg as <-. exists pos. apply lookup_insert_eq.
  - exists (fpos g). rewrite lookup_insert_ne by done. cbn [objs fd_object] in Hg. rewrite Hg. by destruct g.
Qed.

(** Seeking to a position and reading there. *)
Lemma read_at k fd content pos len :
  opened k fd content → 0 <= pos <= Z.of_nat (length content) → 0 <= len < 2 ^ 62 →
  ∃ k1 k2, vfs_seek fd pos SEEK_SET k = Ok (pos, k1) ∧
    vfs_read fd len k1 = Ok ((Z.min len (Z.of_nat (length content) - pos),
                              slice pos (Z.min len (Z.of_nat (length content) - pos)) content), k2) ∧
    quiet k k2 ∧ opened k2 fd content.
Proof.
  intros (f & Hf & Hop & Hc) Hpos Hlen. set (k1 := seek_fd fd pos f k).
  assert (objs (T := fd_t) k1 !! fd = Some (set_fpos pos f)) as Hf1 by apply lookup_insert_eq.
  destruct (call_read_file k1 (op_read (f_ops f)) (fs_data f) content pos len Hc Hpos Hlen) as (k2 & Hr & Hq & Hc2).
  exists k1, k2. split_and!.
  - unfold vfs_seek. kstep (load_Ok (O := fd_object) fd f k Hf). kpure.
    by kstep (change_Ok (O := fd_object) fd (set_fpos pos) k f Hf).
  - unfold vfs_read. kstep (load_Ok (O := fd_object) fd _ k1 Hf1). cbn [f_ops fs_data fpos set_fpos].
    by rewrite (proj2 (Z.eqb_neq _ _) Hop).
  - eapply quiet_trans; [by apply seek_quiet|exact Hq].
  - destruct (qu_fds _ _ Hq fd _ Hf1) as (pos2 & Hf2). by exists (set_fpos pos2 (set_fpos pos f)).
Qed.

(** ** Loading a page *)

(** The bytes of a page of a segment: those of the file up to the end of the segment in
    memory or of the file, and zeros behind them. *)
Definition page_bytes ph content (f_addr : Z) : list Z :=
  let pos := read_offset ph f_addr in
  overwritten (slice pos (Z.min (read_size ph f_addr) (Z.of_nat (length content) - pos)) content) (replicate 4096 0).

(** A segment in the user's half of the address space, and in the file. *)
Record segment_ok ph content : Prop := {
  sg_addr : 0 <= p_vaddr ph ∧ 0 <= p_memsz ph ∧ p_vaddr ph + p_memsz ph <= 2 ^ 47;
  sg_file : 0 <= p_offset ph ∧ p_offset ph + p_memsz ph <= Z.of_nat (length content);
  sg_len : Z.of_nat (length content) < 2 ^ 62;
}.

Lemma segment_numbers ph content f_addr :
  segment_ok ph content → p_vaddr ph <= f_addr < p_vaddr ph + p_memsz ph →
  u64 (p_vaddr ph + p_memsz ph) = p_vaddr ph + p_memsz ph ∧
  read_offset ph f_addr = p_offset ph + (f_addr - p_vaddr ph) ∧
  read_size ph f_addr = Z.min PAGE_SIZE (p_vaddr ph + p_memsz ph - f_addr).
Proof.
  intros [Ha Hf Hl] Hin. change (2 ^ 47) with 140737488355328 in Ha. change (2 ^ 62) with 4611686018427387904 in Hl.
  assert (∀ x, 0 <= x < 18446744073709551616 → u64 x = x) as Hu by (intros; by apply uwrap_small).
  unfold read_offset, read_size, PAGE_SIZE. rewrite !(Hu (p_vaddr ph + p_memsz ph)) by lia.
  rewrite (Hu (p_offset ph + f_addr - p_vaddr ph)), (Hu (f_addr + 4096)) by lia. split_and!; [done|lia|].
  case_ltb; [rewrite Hu by lia; lia|lia].
Qed.

(** The loader is locked by the current task. *)
Definition held k (ldr : Z) (l : loader_t) : Prop := k_loaders k !! ldr = Some l ∧ ld_lock l = mx_taken (current_task k).

Lemma assert_held_Ok k ldr l : held k ldr l → assert_held ldr k = Ok (tt, k).
Proof.
  intros [Hl Hk]. unfold assert_held. kstep (load_Ok (O := loader_object) ldr l k Hl). kpure.
  assert (lift (S := kernel) (mutex_held (current_task k) (ld_lock l)) k = Ok (true, k)) as Hh.
  { unfold lift. by rewrite Hk, mutex_held_taken. }
  kstep Hh. unfold lift. by rewrite assert_true.
Qed.

Lemma phys_with k st : phys_of (with_phys st k) = st.
Proof. apply phys_of_with. Qed.

Definition framed k p bytes : kernel :=
  set_k_images (set_im_frames (<[p := bytes]> (im_frames (k_images k))) (k_images k)) k.

Lemma read_page_spec k file ph content p f_addr :
  opened k file content → segment_ok ph content → p_vaddr ph <= f_addr < p_vaddr ph + p_memsz ph →
  ∃ k', read_page file ph p f_addr k = Ok (false, framed k' p (page_bytes ph content f_addr)) ∧ quiet k k'.
Proof.
  intros Hop Hseg Hin. destruct (segment_numbers ph content f_addr Hseg Hin) as (Hend & Hoff & Hsize).
  unfold read_page. rewrite Hend, (proj2 (Z.ltb_lt f_addr _)) by lia.
  destruct (read_at k file content (read_offset ph f_addr) (read_size ph f_addr) Hop) as (k3 & k4 & Hsk & Hrd & Hq & _).
  { destruct Hseg as [? ? _]. lia. }
  { unfold PAGE_SIZE in Hsize. change (2 ^ 62) with 4611686018427387904. lia. }
  kstep Hsk.
  assert (lift (assert_ (read_size ph f_addr <=? PAGE_SIZE)) k3 = Ok (tt, k3)) as Has.
  { unfold lift. rewrite assert_holds; [done|]. apply Z.leb_le. lia. }
  kstep Has. kstep Hrd. rewrite (proj2 (Z.ltb_ge _ 0)); [by exists k4|].
  destruct Hseg as [_ ? _]. unfold PAGE_SIZE in Hsize. lia.
Qed.

(** The page gets a fresh frame with the right bytes and permissions. *)
Lemma loader_map_page_spec k ldr l ph content vp vspace vs :
  held k ldr l → opened k (ld_file l) content → segment_ok ph content → user_page vp →
  p_vaddr ph <= vp * 4096 < p_vaddr ph + p_memsz ph →
  k_vspaces k !! vspace = Some vs → owns user_page vs (phys_of k) →
  (∃ p st k1, loader_map_page ldr ph vp vspace k =
       Ok (SUCCESS, with_phys st (framed k1 p (page_bytes ph content (vp * 4096)))) ∧
     page_given user_page vs vp p (page_flags ph) (phys_of k) st ∧
     ∃ st1, quiet (framed (with_phys st1 k) p (replicate 4096 0)) k1) ∨
  (loader_map_page ldr ph vp vspace k = Stop Panic ∧ ¬ free_room 4 (phys_of k)).
Proof.
  intros Hh Hop Hseg Hvp Hin Hvs Hown. unfold loader_map_page. kstep (assert_held_Ok _ _ _ Hh).
  kstep (load_Ok (O := loader_object) ldr l k (proj1 Hh)).
  assert (u64 (Z.shiftl vp PAGE_SHIFT) = vp * 4096) as ->.
  { rewrite Z.shiftl_mul_pow2 by (unfold PAGE_SHIFT; lia). change (2 ^ PAGE_SHIFT) with 4096. apply uwrap_small.
    unfold user_page in Hvp. unfold is_word. change (2 ^ 35) with 34359738368 in Hvp. change (2 ^ 64) with 18446744073709551616. lia. }
  destruct (alloc_page (current_task k) (phys_of k)) as [[p st1]|w] eqn:Hal.
  2: { destruct (give_page_spec (current_task k) user_page user_page_inj vs vp (page_flags ph) (phys_of k) Hown Hvp)
         as [(p & st1 & st' & Hal' & _)|[Hst Hroom]]; [congruence|]. rewrite Hal in Hst. simpl in Hst. injection Hst as ->.
       right. split; [|done]. by apply K_bind_Stop, k_alloc_page_Stop. }
  kstep (k_alloc_page_Ok k p st1 Hal). set (k1 := with_phys st1 k).
  assert (set_frame p (replicate 4096 0) k1 = Ok (tt, framed k1 p (replicate 4096 0))) as Hfr by done. kstep Hfr.
  assert (opened (framed k1 p (replicate 4096 0)) (ld_file l) content) as Hop2 by exact Hop.
  destruct (read_page_spec _ (ld_file l) ph content p (vp * 4096) Hop2 Hseg Hin) as (k4 & Hrd & Hq). kstep Hrd.
  set (k5 := framed k4 p (page_bytes ph content (vp * 4096))).
  assert (phys_of k5 = st1) as Hph by (change (phys_of k5) with (phys_of k4); rewrite (qu_phys _ _ Hq); apply phys_of_with).
  assert (k_vspaces k5 !! vspace = Some vs) as Hvs5 by (change (k_vspaces k5) with (k_vspaces k4); by rewrite (qu_vspaces _ _ Hq)).
  assert (current_task k5 = current_task k) as Hcur by (change (current_task k5) with (current_task k4); by rewrite (qu_current _ _ Hq)).
  destruct (give_page_spec (current_task k) user_page user_page_inj vs vp (page_flags ph) (phys_of k) Hown Hvp)
    as [(p' & st1' & st' & Hal' & Hm & Hg)|[Hst Hroom]].
  - rewrite Hal in Hal'. injection Hal' as <- <-. left. rewrite <- Hph, <- Hcur in Hm.
    kstep (k_map_Ok k5 vspace vs vp p (page_flags ph) st' Hvs5 Hm). exists p, st', k4. split_and!; [done|done|by exists st1].
  - right. split; [|done]. rewrite Hal in Hst. simpl in Hst. apply K_bind_Stop, (k_map_Stop _ _ vs); [done|]. by rewrite Hph, Hcur.
Qed.

(** A loader between calls, with its table read. *)
Record loader_ok k (ldr : Z) (l : loader_t) (phs : list elf64_phte_t) content : Prop := {
  lo_loader : k_loaders k !! ldr = Some l;
  lo_lock : ld_lock l = MUTEX_INITIALIZER;
  lo_nonnull : ldr ≠ 0 ∧ ld_header l ≠ 0 ∧ ld_file l ≠ 0 ∧ ld_pht l ≠ 0;
  lo_table : im_phts (k_images k) !! ld_pht l = Some phs;
  lo_file : opened k (ld_file l) content;
  lo_segments ph : ph ∈ phs → ph_type ph = LOAD → segment_ok ph content;
}.

Definition loader_locked k ldr l : kernel := set_k_loaders (<[ldr := set_ld_lock (mx_taken (current_task k)) l]> (k_loaders k)) k.

Lemma need_pht_cached junk_bytes k ldr l phs content :
  loader_ok k ldr l phs content → need_pht junk_bytes ldr k = Ok (SUCCESS, loader_locked k ldr l).
Proof.
  intros [Hl Hk (_ & _ & _ & Hp) _ _ _]. unfold need_pht.
  kstep (lock_in_idle (O := loader_object) ld_lock set_ld_lock ldr l k Hl Hk). cbn [objs set_objs loader_object].
  fold (loader_locked k ldr l). assert (objs (loader_locked k ldr l) !! ldr = Some (set_ld_lock (mx_taken (current_task k)) l)) as Hl1 by apply lookup_insert_eq.
  kstep (load_Ok (O := loader_object) ldr _ _ Hl1). cbn [ld_pht set_ld_lock]. by rewrite (proj2 (Z.eqb_neq _ _) Hp).
Qed.

Lemma unlock_loader k k1 ldr l :
  k_loaders k !! ldr = Some l → ld_lock l = MUTEX_INITIALIZER →
  k_loaders k1 = k_loaders (loader_locked k ldr l) → current_task k1 = current_task k →
  unlock_in ld_lock set_ld_lock ldr k1 = Ok (tt, set_k_loaders (k_loaders k) k1).
Proof.
  intros Hl Hk H1 Hc.
  assert (k_loaders k1 !! ldr = Some (set_ld_lock (mx_taken (current_task k)) l)) as Hl1 by (rewrite H1; apply lookup_insert_eq).
  rewrite (unlock_in_taken (O := loader_object) ld_lock set_ld_lock ldr _ k1 Hl1) by (by rewrite Hc).
  cbn [objs set_objs loader_object]. rewrite H1. simpl. rewrite insert_insert_eq. do 2 f_equal. rewrite insert_id; [done|].
  rewrite Hl. f_equal. destruct l. simpl in *. by subst.
Qed.

(** What loading a page leaves. *)
Record page_loaded k vs ph content (vp : Z) k' : Prop := {
  pl_page : ∃ p, page_given user_page vs vp p (page_flags ph) (phys_of k) (phys_of k') ∧
    im_frames (k_images k') !! p = Some (page_bytes ph content (vp * 4096));
  pl_rest : k_loaders k' = k_loaders k ∧ k_procs k' = k_procs k ∧ k_stacks k' = k_stacks k ∧ k_tasks k' = k_tasks k ∧
    k_vspaces k' = k_vspaces k ∧ current_task k' = current_task k;
}.

Lemma loader_load_spec junk_bytes k ldr l phs content vspace vs vp :
  loader_ok k ldr l phs content → k_vspaces k !! vspace = Some vs → owns user_page vs (phys_of k) → user_page vp →
  match List.find (in_segment (vp * 4096)) phs with
  | Some ph => (∃ k', loader_load junk_bytes ldr vp vspace k = Ok (SUCCESS, k') ∧ page_loaded k vs ph content vp k') ∨
               (loader_load junk_bytes ldr vp vspace k = Stop Panic ∧ ¬ free_room 4 (phys_of k))
  | None => loader_load junk_bytes ldr vp vspace k = Ok (- ENOENT, k)
  end.
Proof.
  intros Hk Hvs Hown Hvp. pose proof Hk as [Hl Hlk (Hz & Hh & Hf & Hp) Htab Hop Hseg]. set (k1 := loader_locked k ldr l).
  set (l1 := set_ld_lock (mx_taken (current_task k)) l).
  assert (objs k1 !! ldr = Some l1) as Hl1 by apply lookup_insert_eq.
  assert (u64 (Z.shiftl vp PAGE_SHIFT) = vp * 4096) as Haddr.
  { rewrite Z.shiftl_mul_pow2 by (unfold PAGE_SHIFT; lia). change (2 ^ PAGE_SHIFT) with 4096. apply uwrap_small.
    unfold user_page in Hvp. unfold is_word. change (2 ^ 35) with 34359738368 in Hvp. change (2 ^ 64) with 18446744073709551616. lia. }
  assert (loader_load junk_bytes ldr vp vspace k =
    match List.find (in_segment (vp * 4096)) phs with
    | Some ph => (status ← loader_map_page ldr ph vp vspace; unlock_in ld_lock set_ld_lock ldr;; mret status) k1
    | None => (unlock_in ld_lock set_ld_lock ldr;; mret (- ENOENT)) k1
    end) as ->.
  { unfold loader_load. kstep (load_Ok (O := loader_object) ldr l k Hl).
    rewrite (proj2 (Z.eqb_neq ldr 0) Hz), (proj2 (Z.eqb_neq _ 0) Hh), (proj2 (Z.eqb_neq _ 0) Hf). cbn [negb andb].
    assert (lift (S := kernel) (assert_ true) k = Ok (tt, k)) as Has by (unfold lift; by rewrite assert_true). kstep Has.
    kstep (need_pht_cached junk_bytes k ldr l phs content Hk). fold k1. change (SUCCESS <? 0) with false. cbv iota. kstep (load_Ok (O := loader_object) ldr l1 k1 Hl1).
    assert (objs (T := list elf64_phte_t) k1 !! ld_pht l1 = Some phs) as Ht1 by exact Htab.
    kstep (load_Ok (O := pht_object) (ld_pht l1) phs k1 Ht1). rewrite Haddr. by destruct (List.find _ phs). }
  destruct (List.find (in_segment (vp * 4096)) phs) as [ph|] eqn:Hfind.
  2: { kstep (unlock_loader k k1 ldr l Hl Hlk eq_refl eq_refl). unfold mret, K_ret. do 2 f_equal. unfold k1. by destruct k. }
  apply List.find_some in Hfind as [Hph Hin]. apply list_elem_of_In in Hph.
  unfold in_segment in Hin. apply andb_true_iff in Hin as [[Hty Hlo]%andb_true_iff Hhi].
  apply Z.eqb_eq in Hty. apply Z.leb_le in Hlo. apply Z.ltb_lt in Hhi. pose proof (Hseg ph Hph Hty) as Hsg.
  rewrite uwrap_small in Hhi.
  2: { destruct Hsg as [? _ _]. unfold is_word. change (2 ^ 47) with 140737488355328 in *. change (2 ^ 64) with 18446744073709551616. lia. }
  destruct (loader_map_page_spec k1 ldr l1 ph content vp vspace vs) as [(p & st & k4 & Hr & Hg & st1 & Hq)|[Hr Hroom]];
    [by split|exact Hop|done|done|lia|done|done| |].
  - left. kstep Hr. set (k5 := with_phys st _).
    assert (k_loaders k5 = k_loaders k1) as Hl5 by exact (qu_loaders _ _ Hq).
    assert (current_task k5 = current_task k) as Hc5 by exact (qu_current _ _ Hq).
    kstep (unlock_loader k k5 ldr l Hl Hlk Hl5 Hc5). eexists. split; [done|]. split.
    + exists p. change (phys_of (set_k_loaders (k_loaders k) k5)) with (phys_of k5). unfold k5 at 1. rewrite phys_of_with.
      split; [exact Hg|apply lookup_insert_eq].
    + split_and!; [done|exact (qu_procs _ _ Hq)|exact (qu_stacks _ _ Hq)|exact (qu_tasks _ _ Hq)|exact (qu_vspaces _ _ Hq)|exact Hc5].
  - right. split; [by apply K_bind_Stop|done].
Qed.

(** ** Properties *)


(** when the program headers cannot be read, the loader stays locked: [-ENOEXEC] is returned, and the
    lock is held by the task for good. *)
Theorem loader_lock_leaks junk_bytes k ldr l h vp vspace :
  k_loaders k !! ldr = Some l → ld_lock l = MUTEX_INITIALIZER → ldr ≠ 0 → ld_header l ≠ 0 → ld_file l ≠ 0 → ld_pht l = 0 →
  im_headers (k_images k) !! ld_header l = Some h → pht_entry_size h ≠ 56 →
  ∃ k', loader_load junk_bytes ldr vp vspace k = Ok (- ENOEXEC, k') ∧
    k_loaders k' !! ldr = Some (set_ld_lock (mx_taken (current_task k)) l).
Proof.
  intros Hl Hlk Hz Hh Hf Hp Hhd Hsz. set (k1 := loader_locked k ldr l). set (l1 := set_ld_lock (mx_taken (current_task k)) l).
  assert (objs k1 !! ldr = Some l1) as Hl1 by apply lookup_insert_eq.
  exists k1. split; [|exact Hl1]. unfold loader_load. kstep (load_Ok (O := loader_object) ldr l k Hl).
  rewrite (proj2 (Z.eqb_neq ldr 0) Hz), (proj2 (Z.eqb_neq _ 0) Hh), (proj2 (Z.eqb_neq _ 0) Hf). cbn [negb andb].
  assert (lift (S := kernel) (assert_ true) k = Ok (tt, k)) as Has by (unfold lift; by rewrite assert_true). kstep Has.
  assert (need_pht junk_bytes ldr k = Ok (- ENOEXEC, k1)) as Hn.
  { unfold need_pht. kstep (lock_in_idle (O := loader_object) ld_lock set_ld_lock ldr l k Hl Hlk). cbn [objs set_objs loader_object].
    fold (loader_locked k ldr l). fold k1. kstep (load_Ok (O := loader_object) ldr l1 k1 Hl1). change (ld_pht l1) with (ld_pht l). rewrite Hp.
    cbn [Z.eqb]. unfold load_pht. kstep (assert_held_Ok k1 ldr l1 (conj Hl1 eq_refl)).
    kstep (load_Ok (O := loader_object) ldr l1 k1 Hl1).
    assert (objs (T := elf64_t) k1 !! ld_header l1 = Some h) as Hh1 by exact Hhd.
    kstep (load_Ok (O := header_object) (ld_header l1) h k1 Hh1). by rewrite (proj2 (Z.eqb_neq _ _) Hsz). }
  kstep Hn. done.
Qed.

(** What resolving a fault means: a fresh frame at the page, and in it the bytes of the file
    for a page of a segment. *)
Definition resolved junk_bytes k vs address content (flags : Z) (segment : option elf64_phte_t) : Prop :=
  (∃ k' p, page_fault junk_bytes address k = Ok (true, k') ∧
     page_given user_page vs (address / 4096) p flags (phys_of k) (phys_of k') ∧ k_procs k' = k_procs k ∧
     match segment with
     | Some ph => im_frames (k_images k') !! p = Some (page_bytes ph content (address / 4096 * 4096))
     | None => True
     end) ∨
  (page_fault junk_bytes address k = Stop Panic ∧ ¬ free_room 4 (phys_of k)).

End loading.

(** ** A process with a program of one segment *)

#[local] Existing Instance debug_build.
Import Machine.

Definition demo_content : list Z := replicate 4096 1 ++ replicate 1904 2.
#[local] Instance demo_files : Drivers t unit := {|
  call_read fn data len off k :=
    let n := Z.min len (Z.of_nat (length demo_content) - off) in Ok ((n, slice off n demo_content), k);
  call_probe _ _ := kstop Fault; call_mount _ _ := kstop Fault; call_fetch _ _ _ := kstop Fault |}.
#[local] Instance demo_file_drivers : FileDrivers t unit.
Proof.
  refine {| file_content _ _ _ := Some demo_content |}. intros k fn data content off len [= <-] _ _.
  exists k. split; [done|]. split; [apply quiet_refl|done].
Defined.

(** One page of code and 904 bytes behind it, of which 404 are in the file. *)
Definition demo_segment : elf64_phte_t :=
  {| ph_type := LOAD; ph_flags := 5; p_offset := 0; p_vaddr := 0x100000; p_filesz := 4500; p_memsz := 5000; ph_alignment := 4096 |}.
Definition demo_loader (pht : Z) : loader_t :=
  {| ld_file := 40; entry_addr := 0x100000; ld_header := 45; ld_pht := pht; ld_lock := MUTEX_INITIALIZER; ld_refs := 1;
     min_heap_break := 0x102000 |}.
Definition bad_header : elf64_t := elf64_of (replicate 64 0).
Definition demo_program (pht : Z) : Kernel.kernel t unit :=
  set_k_images {| im_headers := {[ 45 := bad_header ]}; im_phts := {[ 46 := [demo_segment] ]}; im_frames := ∅ |}
    (set_k_vfs (set_v_fds {[ 40 := {| fd_file := 0; fpos := 0; f_ops := {| op_read := 1; op_write := 2 |}; fs_data := 3;
                                     fdmod := MUTEX_INITIALIZER |} ]} no_files)
       (set_k_loaders {[ 6 := demo_loader pht ]} stacked)).

Lemma demo_segment_ok : segment_ok demo_segment demo_content.
Proof. split; vm_compute; repeat split; discriminate. Qed.

Lemma demo_loader_ok : loader_ok (demo_program 46) 6 (demo_loader 46) [demo_segment] demo_content.
Proof.
  split; [reflexivity|reflexivity|repeat split; discriminate|reflexivity| |].
  - eexists. split; [reflexivity|]. split; [discriminate|reflexivity].
  - intros ph ->%list_elem_of_singleton _. exact demo_segment_ok.
Qed.

Lemma demo_program_room : free_room 4 (phys_of (demo_program 46)).
Proof.
  exists [10; 11; 12; 13]. split_and!; [apply (bool_decide_unpack _); vm_compute; exact I|simpl; lia|].
  intros p Hp. rewrite !elem_of_cons, elem_of_nil in Hp.
  destruct Hp as [->|[->|[->|[->|[]]]]]; (split; [vm_compute; split; [discriminate|reflexivity]|vm_compute; discriminate]).
Qed.

Lemma demo_program_proc : k_procs (demo_program 46) !! 5 = Some stacked_proc.
Proof. exact (sk_proc _ _ _ _ stacked_ok). Qed.

Lemma demo_program_heap : heap_ok (demo_program 46) 5 stacked_proc (demo_loader 46) demo_vs.
Proof.
  split; [exists user_task; split; vm_compute; reflexivity|exact demo_program_proc|vm_compute; reflexivity| | |exact stacked_owns| |];
    try (vm_compute; split; (reflexivity || discriminate)).
Qed.

Lemma demo_program_stacks : stacks_ok (demo_program 46) 5 stacked_proc [(80, 32)].
Proof. destruct stacked_ok. by split. Qed.


Lemma loader_lock_leaks_witness :
  ∃ k', loader_load (λ _ _, []) 6 0x101 1 (demo_program 0) = Ok (- ENOEXEC, k') ∧
    k_loaders k' !! 6 = Some (set_ld_lock (mx_taken 7) (demo_loader 0)).
Proof.
  destruct (loader_lock_leaks (λ _ _, []) (demo_program 0) 6 (demo_loader 0) bad_header 0x101 1) as (k' & Hr & Hl);
    [reflexivity|reflexivity|discriminate..|reflexivity|reflexivity|discriminate|].
  exists k'. split; [exact Hr|exact Hl].
Defined.

