(* ===== verification/Proc.v ===== *)
(** Processes: sched/proc.c, the part of sched/tasklist.c that deletes what was killed, and the
    system calls on files, fs/fs_syscall.c. *)
From S2P Require Import Prelude Words Mutex PageAlloc Dll Lists Vspace Errno Kernel Sched UserMem Vfs Loader.
Open Scope Z_scope.

(** The functions behind [f_ops_t::write]; the bytes to write are named by their address. *)
Class Writers (A F : Type) := { call_write (fn fs_data buffer len off : Z) : K (kernel A F) Z }.

Section operations.
Context {A F : Type} `{B : Build} `{KM : Kmalloc A} `{PM : PhysMem A} `{D : Drivers A F} `{BD : BlockDevices A F}
  `{W : Writers A F}.
Abbreviation kernel := (Kernel.kernel A F).
Abbreviation KP := (K kernel).

(** What memory that is not initialised holds, and the address of [_vspace_kernel]. *)
Context (junk : Z → Z) (junk_mutex : Z → mutex_t) (junk_bytes : Z → nat → list Z) (junk_context : Z → context_t)
  (VSPACE_KERNEL : Z).

(** [vspace_create] and [vspace_delete] by the current task. *)
Definition k_vspace_create : KP Z :=
  cur ← gets current_task;
  kvs ← load (T := vspace_t) VSPACE_KERNEL;
  '(p, vs) ← on_heap (λ hp,
    let raw := match km_alloc 80 hp with Ok (p, _) => junk_mutex p | Stop _ => MUTEX_INITIALIZER end in
    vspace_create cur kvs raw hp);
  put p vs;;
  mret p.
Definition k_vspace_delete (p : Z) : KP unit :=
  cur ← gets current_task;
  vs ← load (T := vspace_t) p;
  vs' ← on_heap (vspace_delete cur p vs);
  if pml4_ppn vs =? SIZE_MAX then put p vs' else drop_obj vspace_t p.

(** ** Processes *)

(** A process as [proc_base_init] leaves it. *)
Definition base_proc (proc pid : Z) : proc_t :=
  {| pid := pid; uid := junk (proc + 8); gid := junk (proc + 16); p_state := PROC_RUNNING;
     p_task_list := list_init; task_list_lock := MUTEX_INITIALIZER; stack_list := list_init;
     stack_list_lock := MUTEX_INITIALIZER; fd_counter := junk (proc + 240); fd_list := list_init;
     fd_list_lock := MUTEX_INITIALIZER; p_vspace := junk (proc + 352); heap_brk := junk (proc + 360);
     heap_lock := MUTEX_INITIALIZER; working_dir := junk (proc + 440); p_loader := junk (proc + 448) |}.

(** [mutex_init] of the lock at offset [off] of the process. *)
Definition init_lock (proc off : Z) (set : mutex_t → proc_t → proc_t) : KP unit :=
  l ← lift (mutex_init (junk_mutex (proc + off))); change proc (set l).

(** [proc_base_init] (kernel/kernel/sched/proc.c, lines 17-30). *)
Definition proc_base_init (proc : Z) : KP unit :=
  pid ← gets (λ k, (atomic_add (pid_counter k) 1).1);
  modify (λ k, set_pid_counter (atomic_add (pid_counter k) 1).2 k);;
  put proc (base_proc proc pid);;
  init_lock proc 368 set_heap_lock;;
  init_lock proc 64 set_task_list_lock;;
  init_lock proc 280 set_fd_list_lock;;
  init_lock proc 168 set_stack_list_lock.

(** [proc_start] (kernel/kernel/sched/proc.c, lines 32-75). *)
Definition proc_start (filename : list Z) : KP Z :=
  '(error, fd) ← vfs_open junk junk_mutex filename;
  if error <? 0 then mret error
  else
    ldr ← loader_create junk_bytes junk_mutex (default 0 fd);
    if ldr =? 0 then mret (- ENOEXEC)
    else
      proc ← new 456;
      proc_base_init proc;;
      change proc (set_fd_counter 0);;
      vspace ← k_vspace_create;
      change proc (set_p_vspace vspace);;
      change proc (set_p_loader ldr);;
      ld ← load (T := loader_t) ldr;
      change proc (set_heap_brk (min_heap_break ld));;
      stack ← create_stack proc;
      st ← load (T := userstack_t) stack;
      ld ← load (T := loader_t) ldr;
      pr ← load (T := proc_t) proc;
      main_thread ← create_user_task junk_context (p_vspace pr) (entry_addr ld) st;
      change main_thread (set_t_process proc);;
      pr ← load (T := proc_t) proc;
      '(_, l) ← on_store (list_add (p_task_list pr) main_thread);
      change proc (set_p_task_list l);;
      sched_insert main_thread;;
      mret SUCCESS.

(** The body of the search of [proc_get_fd] (kernel/kernel/sched/proc.c, lines 90-95). *)
Definition fd_named (fd ufd : Z) : KP (option Z) :=
  u ← load (T := user_fd_t) ufd;
  mret (if user_fd u =? u64 fd then Some (fd_ptr u) else None).

(** [proc_get_fd] (kernel/kernel/sched/proc.c, lines 77-99). *)
Definition proc_get_fd (process fd : Z) : KP Z :=
  if fd <? 0 then mret 0
  else
    lock_in fd_list_lock set_fd_list_lock process;;
    pr ← load (T := proc_t) process;
    ret ← foreach (fd_list pr) (fd_named fd);
    unlock_in fd_list_lock set_fd_list_lock process;;
    mret (default 0 ret).

(** [proc_new_fd] (kernel/kernel/sched/proc.c, lines 101-119): the number as an [int]. *)
Definition proc_new_fd (process fd : Z) : KP Z :=
  pr ← load (T := proc_t) process;
  let '(new_fd, counter) := atomic_add (fd_counter pr) 1 in
  change process (set_fd_counter counter);;
  userfd ← new 16;
  put userfd {| user_fd := new_fd; fd_ptr := fd |};;
  lock_in fd_list_lock set_fd_list_lock process;;
  pr ← load (T := proc_t) process;
  '(_, l) ← on_store (list_add (fd_list pr) userfd);
  change process (set_fd_list l);;
  unlock_in fd_list_lock set_fd_list_lock process;;
  mret (s32 new_fd).

(** [sys_exit] (kernel/kernel/sched/proc.c, lines 121-132), with the registers saved at [ctx] by
    the interrupt of [task_kill]: the context that runs instead. *)
Definition sys_exit (ctx : Z) : KP Z :=
  cur ← gets current_task;
  t ← load (T := task_t) cur;
  lift (kpanic (negb (t_process t =? 0)));;
  change (t_process t) (set_p_state PROC_KILLED);;
  task_kill ctx.

(** ** The end of tasks and processes *)

(** [mutex_destroy] of a field, and [list_destroy] of one. *)
Definition destroy_lock (get : proc_t → mutex_t) (set : mutex_t → proc_t → proc_t) (proc : Z) : KP unit :=
  pr ← load proc; l ← lift (mutex_destroy (get pr)); change proc (set l).
Definition destroy_list (get : proc_t → list_t) (set : list_t → proc_t → proc_t) (proc : Z) : KP unit :=
  pr ← load proc; l ← on_store (λ s, '(l, s) ← list_destroy (get pr) s; mret (l, s)); change proc (set l).

(** The assertion that a list is empty. *)
Definition assert_empty (l : list_t) : KP unit := n ← lift (list_size l); lift (assert_ (n =? 0)).

(** [proc_delete] (kernel/kernel/sched/tasklist.c, lines 15-28). *)
Definition proc_delete (proc : Z) : KP unit :=
  pr ← load (T := proc_t) proc;
  assert_empty (stack_list pr);;
  assert_empty (p_task_list pr);;
  loader_release (p_loader pr);;
  destroy_list p_task_list set_p_task_list proc;;
  destroy_list stack_list set_stack_list proc;;
  destroy_lock heap_lock set_heap_lock proc;;
  destroy_lock stack_list_lock set_stack_list_lock proc;;
  destroy_lock task_list_lock set_task_list_lock proc;;
  pr ← load (T := proc_t) proc;
  k_vspace_delete (p_vspace pr).

(** The part of [task_delete] (kernel/kernel/sched/tasklist.c, lines 42-47) that takes the task
    out of its process: whether it was the last one. *)
Definition leave_process (process task : Z) : KP bool :=
  lock_in task_list_lock set_task_list_lock process;;
  pr ← load (T := proc_t) process;
  it ← of_store (list_find (p_task_list pr) task);
  lift (assert_ (negb (it =? 0)));;
  l ← on_store (list_it_remove (p_task_list pr) it);
  change process (set_p_task_list l);;
  n ← lift (list_size l);
  unlock_in task_list_lock set_task_list_lock process;;
  mret (n =? 0).

(** [task_delete] (kernel/kernel/sched/tasklist.c, lines 30-61); [pages] bounds the pages of
    its stack. *)
Definition task_delete (pages : nat) (task : Z) : KP unit :=
  t ← load (T := task_t) task;
  lift (assert_ (negb (task =? 0) && bool_decide (t_state t = TASK_KILLED)));;
  when (negb (t_process t =? 0))
    (delete_stack pages (t_process t) (user_stack t);;
     proc_dead ← leave_process (t_process t) task;
     when proc_dead (proc_delete (t_process t)));;
  free (kstack_base t);;
  free task;;
  drop_obj task_t task.

(** The walk of [cleanup_task_func] over the list of tasks (kernel/kernel/sched/tasklist.c,
    lines 71-84); it follows at most [fuel] links. *)
Fixpoint cleanup_from (pages fuel : nat) (it : Z) : KP unit :=
  match fuel with
  | O => kstop NoFuel
  | S fuel =>
      if it =? 0 then mret tt
      else
        next ← of_store (list_it_next it);
        task ← of_store (list_it_get it);
        t ← load (T := task_t) task;
        when (bool_decide (t_state t = TASK_KILLED))
          (task_delete pages task;;
           l ← gets tl_list;
           l ← on_store (list_it_remove l it);
           modify (set_tl_list l);;
           modify (λ k, set_task_count (atomic_add (task_count k) (-1)).2 k));;
        cleanup_from pages fuel next
  end.

(** One turn of the loop of [cleanup_task_func] (kernel/kernel/sched/tasklist.c, lines 63-93):
    [None] when there is no task left, otherwise the context that runs while it waits. *)
Definition cleanup_task_func (pages : nat) (ctx : Z) : KP (option Z) :=
  n ← gets task_count;
  if n <=? 0 then mret None
  else
    lock_var tl_lock set_tl_lock;;
    fuel ← gets (λ k, walk_fuel (k_store k));
    l ← gets tl_list;
    it ← lift (list_it_front l);
    cleanup_from pages fuel it;;
    unlock_var tl_lock set_tl_lock;;
    c ← yield ctx;
    mret (Some c).

(** ** System calls on files *)

(** [SYS_BUFFER_RANGE_CHECK] (kernel/kernel/fs/fs_syscall.c, lines 11-13): the sum wraps. *)
Definition out_of_range (buf size : Z) : bool := USER_BREAK <? u64 (u64 buf + u64 size).

(** The process of the current task; the assertion that it has one. *)
Definition current_process : KP Z :=
  cur ← gets current_task;
  lift (assert_ (negb (cur =? 0)));;
  t ← load (T := task_t) cur;
  lift (assert_ (negb (t_process t =? 0)));;
  mret (t_process t).

(** [sys_read] (kernel/kernel/fs/fs_syscall.c, lines 15-35): the result, and the bytes that go
    to the buffer. *)
Definition sys_read (fd buffer len : Z) : KP (Z * list Z) :=
  if out_of_range buffer len then mret (- EINVAL, [])
  else
    process ← current_process;
    fdp ← proc_get_fd process fd;
    if fdp =? 0 then mret (- EBADF, [])
    else
      f ← load (T := fd_t) fdp;
      if op_read (f_ops f) =? 0 then unlock_in fdmod set_fdmod fdp;; mret (- ENOTSUP, [])
      else
        ret ← call_read (op_read (f_ops f)) (fs_data f) len (fpos f);
        unlock_in fdmod set_fdmod fdp;;
        mret ret.

(** [sys_write] (kernel/kernel/fs/fs_syscall.c, lines 37-63); what goes to descriptor 1 is only
    printed in a debug build. *)
Definition sys_write (fd buffer len : Z) : KP Z :=
  if out_of_range buffer len then mret (- EINVAL)
  else
    process ← current_process;
    if fd =? 1 then mret len
    else
      fdp ← proc_get_fd process fd;
      if fdp =? 0 then mret (- EBADF)
      else
        f ← load (T := fd_t) fdp;
        if op_write (f_ops f) =? 0 then unlock_in fdmod set_fdmod fdp;; mret (- ENOTSUP)
        else
          ret ← call_write (op_write (f_ops f)) (fs_data f) buffer len (fpos f);
          unlock_in fdmod set_fdmod fdp;;
          mret ret.

(** [sys_open] (kernel/kernel/fs/fs_syscall.c, lines 65-79). *)
Definition sys_open (path : list Z) : KP Z :=
  process ← current_process;
  '(error, fd) ← vfs_open junk junk_mutex path;
  if error <? 0 then mret error else proc_new_fd process (default 0 fd).

(** [sys_close] (kernel/kernel/fs/fs_syscall.c, lines 81-84). *)
Definition sys_close (fd : Z) : Z := - ENOSYS.
End operations.

(** ** The table of descriptors *)

Section descriptors.
Context {A F : Type} `{B : Build} `{KM : Kmalloc A} {KL : KmallocLaws A}.
Abbreviation kernel := (Kernel.kernel A F).
Implicit Types (k : kernel) (xs : list (Z * Z)) (us : list user_fd_t).

(** The descriptors of a process: its list, unlocked, holds entries with numbers below the
    counter. *)
Record fds_ok k (proc : Z) pr xs us : Prop := {
  fk_proc : k_procs k !! proc = Some pr;
  fk_lock : fd_list_lock pr = MUTEX_INITIALIZER;
  fk_store : store_wf (k_store k);
  fk_repr : list_repr (fd_list pr) xs (k_store k);
  fk_objs : Forall2 (λ x u, k_ufds k !! x = Some u) xs.*2 us;
  fk_low : Forall (λ u, 0 <= user_fd u < fd_counter pr) us;
  fk_count : 0 <= fd_counter pr < 2 ^ 31;
  fk_live x : x ∈ xs.*2 → x ∈ km_live (heap (k_store k));
}.

(** What the list stands for: descriptors by number. *)
Definition fd_table us : gmap Z Z := list_to_map ((λ u, (user_fd u, fd_ptr u)) <$> us).

Lemma fd_table_cons u us : fd_table (u :: us) = <[user_fd u := fd_ptr u]> (fd_table us).
Proof. done. Qed.

Lemma fd_table_above us n c : Forall (λ u, 0 <= user_fd u < c) us → c <= n ∨ n < 0 → fd_table us !! n = None.
Proof.
  intros Hlow Hn. apply not_elem_of_list_to_map_1. rewrite <- list_fmap_compose. intros (u & -> & Hu)%list_elem_of_fmap.
  rewrite list.Forall_forall in Hlow. specialize (Hlow u Hu). simpl in Hn. lia.
Qed.

Lemma fd_table_snoc us u c :
  Forall (λ u, 0 <= user_fd u < c) us → c <= user_fd u → fd_table (us ++ [u]) = <[user_fd u := fd_ptr u]> (fd_table us).
Proof.
  intros Hlow Hu. unfold fd_table. rewrite fmap_app, list_to_map_app. simpl.
  rewrite insert_empty. apply map_eq. intros i. destruct (decide (i = user_fd u)) as [->|Hne].
  - rewrite lookup_insert_eq, lookup_union_r, lookup_singleton_eq; [done|]. by apply (fd_table_above us _ c); [|left].
  - rewrite lookup_insert_ne by done. apply option_eq. intros v.
    rewrite lookup_union_l; [done|]. by apply lookup_singleton_ne.
Qed.

(** The search of [proc_get_fd] on the entries. *)
Lemma search_fds k m ys us :
  Forall2 (λ x u, k_ufds k !! x = Some u) ys us → 0 <= m < 2 ^ 31 →
  run_payloads (A := A) (F := F) ys (fd_named m) k = Ok (fd_table us !! m, k).
Proof.
  intros H2 Hm. induction H2 as [|x u ys us Hu _ IH]; [unfold fd_table; simpl; by rewrite lookup_empty|].
  cbn [run_payloads]. assert (fd_named m x k = Ok (if user_fd u =? m then Some (fd_ptr u) else None, k)) as Hn.
  { unfold fd_named. kstep (load_Ok (O := ufd_object) x u k Hu).
    rewrite uwrap_small; [done|]. unfold is_word. change (2 ^ 31) with 2147483648 in Hm. change (2 ^ 64) with 18446744073709551616. lia. }
  kstep Hn. rewrite fd_table_cons. destruct (Z.eqb_spec (user_fd u) m) as [->|Hne]; [by rewrite lookup_insert_eq|].
  by rewrite lookup_insert_ne.
Qed.

Lemma fd_named_pure m x k r k' : fd_named (A := A) (F := F) m x k = Ok (r, k') → k' = k.
Proof.
  unfold fd_named. unfold mbind, K_bind, load. destruct (objs k !! x); [by intros [= _ <-]|done].
Qed.

(** Locking the list of descriptors, and unlocking it. *)
Definition fd_locked k pr : proc_t := set_fd_list_lock (mx_taken (current_task k)) pr.

Lemma fd_unlocked k pr : fd_list_lock pr = MUTEX_INITIALIZER → set_fd_list_lock MUTEX_INITIALIZER (fd_locked k pr) = pr.
Proof. destruct pr. simpl. by intros ->. Qed.

Lemma proc_get_fd_spec k proc pr xs us m :
  fds_ok k proc pr xs us → m < 2 ^ 31 → proc_get_fd proc m k = Ok (default 0 (fd_table us !! m), k).
Proof.
  intros Hk Hm. unfold proc_get_fd. destruct (Z.ltb_spec m 0) as [Hneg|Hpos].
  { rewrite (fd_table_above us m _ (fk_low _ _ _ _ _ Hk)) by (by right). done. }
  kstep (lock_in_idle (O := proc_object) fd_list_lock set_fd_list_lock proc pr k (fk_proc _ _ _ _ _ Hk) (fk_lock _ _ _ _ _ Hk)).
  fold (fd_locked k pr). set (k1 := set_objs _ k).
  assert (objs k1 !! proc = Some (fd_locked k pr)) as Hl by apply lookup_insert_eq.
  kstep (load_Ok (O := proc_object) proc (fd_locked k pr) k1 Hl).
  assert (foreach (fd_list (fd_locked k pr)) (fd_named m) k1 = Ok (fd_table us !! m, k1)) as Hf.
  { rewrite (foreach_payloads _ xs); [|apply Hk|apply Hk|].
    - apply search_fds; [apply Hk|lia].
    - intros x k2 k3 _ Hb <-. by rewrite (fd_named_pure _ _ _ _ _ Hb). }
  kstep Hf. kstep (unlock_in_taken (O := proc_object) fd_list_lock set_fd_list_lock proc _ k1 Hl eq_refl).
  unfold mret, K_ret. do 2 f_equal. rewrite fd_unlocked by apply Hk. unfold k1.
  cbn [objs set_objs proc_object k_procs set_k_procs]. rewrite insert_insert_eq, insert_id by apply Hk. by destruct k.
Qed.

Lemma objects_insert {T} (m : gmap Z T) x v ys ts :
  Forall2 (λ y t, m !! y = Some t) ys ts → x ∉ ys → Forall2 (λ y t, <[x := v]> m !! y = Some t) ys ts.
Proof.
  induction 1 as [|y t ys ts Hy _ IH]; intros Hx; constructor; apply not_elem_of_cons in Hx as [??]; [|by apply IH].
  by rewrite lookup_insert_ne.
Qed.

(** The state in which [proc_new_fd] adds its entry to the list. *)
Definition numbered k proc pr x fd h : kernel :=
  set_k_ufds (<[x := {| user_fd := fd_counter pr; fd_ptr := fd |}]> (k_ufds k))
    (set_k_store {| nodes := nodes (k_store k); heap := h |}
      (set_k_procs (<[proc := set_fd_counter (fd_counter pr + 1) pr]> (k_procs k)) k)).

Lemma proc_new_fd_head k proc pr xs us fd x h :
  fds_ok k proc pr xs us → km_alloc 16 (heap (k_store k)) = Ok (x, h) →
  proc_new_fd proc fd k = (
    lock_in fd_list_lock set_fd_list_lock proc;;
    pr' ← load (T := proc_t) proc;
    '(_, l) ← on_store (list_add (fd_list pr') x);
    change proc (set_fd_list l);;
    unlock_in fd_list_lock set_fd_list_lock proc;;
    mret (s32 (fd_counter pr))) (numbered k proc pr x fd h).
Proof.
  intros Hk Ha. unfold proc_new_fd. kstep (load_Ok (O := proc_object) proc pr k (fk_proc _ _ _ _ _ Hk)).
  unfold atomic_add. pose proof (fk_count _ _ _ _ _ Hk) as Hc. change (2 ^ 31) with 2147483648 in Hc.
  rewrite (uwrap_small 64 (fd_counter pr + 1)) by (unfold is_word; change (2 ^ 64) with 18446744073709551616; lia).
  kstep (change_Ok (O := proc_object) proc (set_fd_counter (fd_counter pr + 1)) k pr (fk_proc _ _ _ _ _ Hk)).
  set (k1 := set_objs _ k). by kstep (new_Ok 16 k1 x h Ha).
Qed.

Lemma proc_new_fd_spec k proc pr xs us fd :
  fds_ok k proc pr xs us → fd_counter pr + 1 < 2 ^ 31 → Z.of_nat (length xs) + 1 < 2 ^ 64 →
  km_room 16 (heap (k_store k)) → (∀ x h, km_alloc 16 (heap (k_store k)) = Ok (x, h) → km_room 24 h) →
  (∃ k' pr' xs' us', proc_new_fd proc fd k = Ok (fd_counter pr, k') ∧ fds_ok k' proc pr' xs' us' ∧
     fd_counter pr' = fd_counter pr + 1 ∧ us' = us ++ [{| user_fd := fd_counter pr; fd_ptr := fd |}]) ∨
  (∃ w, proc_new_fd proc fd k = Stop w ∧
     (km_alloc 16 (heap (k_store k)) = Stop w ∨
      ∃ x h, km_alloc 16 (heap (k_store k)) = Ok (x, h) ∧ km_alloc 24 h = Stop w)).
Proof.
  intros Hk Hc Hlen Hroom Hroom'. destruct (km_alloc 16 (heap (k_store k))) as [[x h]|w] eqn:Ha.
  2: { right. exists w. split; [|by left]. unfold proc_new_fd. kstep (load_Ok (O := proc_object) proc pr k (fk_proc _ _ _ _ _ Hk)).
       unfold atomic_add. kstep (change_Ok (O := proc_object) proc (set_fd_counter (u64 (fd_counter pr + 1))) k pr (fk_proc _ _ _ _ _ Hk)).
       apply K_bind_Stop. unfold new, on_heap, on_store. simpl. by rewrite Ha. }
  rewrite (proc_new_fd_head k proc pr xs us fd x h Hk Ha).
  destruct (store_wf_alloc _ _ _ _ (fk_store _ _ _ _ _ Hk) Hroom Ha) as (Hs1 & Hfresh & Hnz).
  assert (km_live h = {[x]} ∪ km_live (heap (k_store k))) as Hlive by (eapply km_alloc_ok; [apply (fk_store _ _ _ _ _ Hk)|done..]).
  set (k1 := numbered k proc pr x fd h). set (pr1 := set_fd_counter (fd_counter pr + 1) pr).
  assert (objs k1 !! proc = Some pr1) as Hp1 by apply lookup_insert_eq.
  kstep (lock_in_idle (O := proc_object) fd_list_lock set_fd_list_lock proc pr1 k1 Hp1 (fk_lock _ _ _ _ _ Hk)).
  fold (fd_locked k1 pr1). set (k2 := set_objs _ k1).
  assert (objs k2 !! proc = Some (fd_locked k1 pr1)) as Hp2 by apply lookup_insert_eq.
  kstep (load_Ok (O := proc_object) proc (fd_locked k1 pr1) k2 Hp2). change (fd_list (fd_locked k1 pr1)) with (fd_list pr).
  destruct (list_add_spec (fd_list pr) xs _ x Hs1 (list_repr_heap _ _ _ h (fk_repr _ _ _ _ _ Hk)) Hlen (Hroom' x h eq_refl))
    as [(a & l & s' & Hadd & Hna & Hlive' & Hs' & Hr' & _)|(w & Hw & Hadd)].
  2: { right. exists w. split; [|right; by exists x, h]. apply K_bind_Stop. unfold on_store.
       change (k_store k2) with ({| nodes := nodes (k_store k); heap := h |} : store A). by rewrite Hadd. }
  left. assert (on_store (list_add (fd_list pr) x) k2 = Ok ((Z.of_nat (length xs), l), set_k_store s' k2)) as Ho.
  { unfold on_store. change (k_store k2) with ({| nodes := nodes (k_store k); heap := h |} : store A). by rewrite Hadd. }
  kstep Ho. set (k3 := set_k_store s' k2). assert (objs k3 !! proc = Some (fd_locked k1 pr1)) as Hp3 by apply Hp2.
  kstep (change_Ok (O := proc_object) proc (set_fd_list l) k3 _ Hp3). set (k4 := set_objs _ k3).
  assert (objs k4 !! proc = Some (set_fd_list l (fd_locked k1 pr1))) as Hp4 by apply lookup_insert_eq.
  kstep (unlock_in_taken (O := proc_object) fd_list_lock set_fd_list_lock proc _ k4 Hp4 eq_refl).
  pose proof (fk_count _ _ _ _ _ Hk) as Hn. change (2 ^ 31) with 2147483648 in *.
  eexists _, (set_fd_list l pr1), (xs ++ [(a, x)]), _. split_and!; [|split|done|done].
  - unfold mret, K_ret. do 2 f_equal. unfold swrap. simpl. rewrite Z.mod_small; lia.
  - cbn [objs set_objs proc_object]. unfold k_procs at 1. cbn [set_k_procs]. rewrite lookup_insert_eq. do 2 f_equal.
    pose proof (fk_lock _ _ _ _ _ Hk) as Hlk. unfold pr1, fd_locked. destruct pr. simpl in *. by rewrite Hlk.
  - exact (fk_lock _ _ _ _ _ Hk).
  - exact Hs'.
  - exact Hr'.
  - rewrite fmap_app. apply Forall2_app; [|constructor; [apply lookup_insert_eq|constructor]].
    apply (objects_insert (k_ufds k)); [apply Hk|]. intros Hx%(fk_live _ _ _ _ _ Hk). done.
  - apply Forall_app. split; [|repeat constructor; simpl; lia].
    eapply list.Forall_impl; [apply (fk_low _ _ _ _ _ Hk)|]. intros u Hu. simpl in *. lia.
  - simpl. lia.
  - intros y. rewrite fmap_app. change (heap (k_store _)) with (heap s'). simpl in Hlive'. rewrite Hlive', Hlive, elem_of_app.
    intros [Hy%(fk_live _ _ _ _ _ Hk)|Hy%list_elem_of_singleton]; simpl in *; subst; set_solver.
Qed.

(** C33: Descriptors of a process.  Its list stands for a table from numbers to descriptors.
    [proc_get_fd] looks up the table, for every [int], and changes nothing;
    [proc_new_fd] gives the next number, one that the table does not have, and adds exactly
    that entry, so that [proc_get_fd] finds the new descriptor under the number returned and
    the old ones where they were.  It stops only where [kmalloc] does. *)
Theorem fd_roundtrip k proc pr xs us fd :
  fds_ok k proc pr xs us → fd_counter pr + 1 < 2 ^ 31 → Z.of_nat (length xs) + 1 < 2 ^ 64 →
  km_room 16 (heap (k_store k)) → (∀ x h, km_alloc 16 (heap (k_store k)) = Ok (x, h) → km_room 24 h) →
  (∀ m, m < 2 ^ 31 → proc_get_fd proc m k = Ok (default 0 (fd_table us !! m), k)) ∧
  ((∃ n k', proc_new_fd proc fd k = Ok (n, k') ∧ fd_table us !! n = None ∧ proc_get_fd proc n k' = Ok (fd, k') ∧
      (∀ m, m < 2 ^ 31 → m ≠ n → proc_get_fd proc m k' = Ok (default 0 (fd_table us !! m), k')) ∧
      ∃ pr' xs' us', fds_ok k' proc pr' xs' us' ∧ fd_table us' = <[n := fd]> (fd_table us)) ∨
   (∃ w, proc_new_fd proc fd k = Stop w ∧
      (km_alloc 16 (heap (k_store k)) = Stop w ∨
       ∃ x h, km_alloc 16 (heap (k_store k)) = Ok (x, h) ∧ km_alloc 24 h = Stop w))).
Proof.
  intros Hk Hc Hlen Hroom Hroom'. split; [intros m Hm; by eapply proc_get_fd_spec|].
  destruct (proc_new_fd_spec k proc pr xs us fd Hk Hc Hlen Hroom Hroom') as [(k' & pr' & xs' & us' & Hn & Hk' & _ & ->)|Hw];
    [left|by right]. exists (fd_counter pr), k'.
  pose proof (fd_table_snoc us {| user_fd := fd_counter pr; fd_ptr := fd |} (fd_counter pr) (fk_low _ _ _ _ _ Hk)
    ltac:(simpl; lia)) as Ht. simpl in Ht.
  split_and!; [done| | | |by eexists _, _, _].
  - apply (fd_table_above us _ (fd_counter pr)); [apply Hk|by left].
  - rewrite (proc_get_fd_spec k' proc pr' xs' _ _ Hk') by lia. by rewrite Ht, lookup_insert_eq.
  - intros m Hm Hne. rewrite (proc_get_fd_spec k' proc pr' xs' _ _ Hk') by lia. by rewrite Ht, lookup_insert_ne.
Qed.

(** A lock that nobody holds cannot be given back in a debug build. *)
Lemma unlock_free_panics {T} `{O : !Object T A F} get set p (x : T) k :
  DEBUG = true → objs k !! p = Some x → get x = MUTEX_INITIALIZER → unlock_in get set p k = Stop Panic.
Proof.
  intros Hd Hx Hl. unfold unlock_in. kstep (load_Ok (O := O) p x k Hx). rewrite Hl. apply K_bind_Stop.
  unfold k_unlock. kpure. apply K_bind_Stop. unfold lift, mutex_unlock, assert_. by rewrite Hd.
Qed.

(** In a release build the lock stays as it is. *)
Lemma unlock_free_release {T} `{O : !Object T A F} get set p (x : T) k :
  DEBUG = false → objs k !! p = Some x → get x = MUTEX_INITIALIZER → set MUTEX_INITIALIZER x = x → set_objs (<[p := x]> (objs k)) k = k →
  unlock_in get set p k = Ok (tt, k).
Proof.
  intros Hd Hx Hl Hs Hk. unfold unlock_in. kstep (load_Ok (O := O) p x k Hx). rewrite Hl.
  assert (k_unlock MUTEX_INITIALIZER k = Ok (MUTEX_INITIALIZER, k)) as Hu.
  { unfold k_unlock. kpure. unfold lift, mbind, K_bind, mutex_unlock, spin_lock, spin_unlock, assert_. by rewrite Hd. }
  kstep Hu. by rewrite (change_Ok (O := O) p (set MUTEX_INITIALIZER) k x Hx), Hs, Hk.
Qed.

(** Giving back [fdmod], which no code locks. *)
Lemma unlock_fdmod fdp f k : objs (T := fd_t) k !! fdp = Some f → fdmod f = MUTEX_INITIALIZER →
  unlock_in fdmod set_fdmod fdp k = if DEBUG then Stop Panic else Ok (tt, k).
Proof.
  intros Hf Hm. destruct DEBUG eqn:Hd.
  - by apply (unlock_free_panics fdmod set_fdmod fdp f).
  - apply (unlock_free_release fdmod set_fdmod fdp f); [done|done|done|destruct f; simpl in *; by rewrite Hm|].
    cbn [objs set_objs fd_object] in *. rewrite insert_id by done. destruct k. unfold set_k_vfs. cbn. f_equal. match goal with |- set_v_fds _ ?v = ?v => by destruct v end.
Qed.

Lemma current_process_spec k t : k_tasks k !! current_task k = Some t → current_task k ≠ 0 → t_process t ≠ 0 →
  current_process k = Ok (t_process t, k).
Proof.
  intros Ht Hc Hpz. unfold current_process. kpure. rewrite (proj2 (Z.eqb_neq _ _) Hc). unfold lift, mbind, K_bind. rewrite assert_true.
  rewrite (load_Ok (O := task_object) _ _ _ Ht), (proj2 (Z.eqb_neq _ _) Hpz). by rewrite assert_true.
Qed.

(** What the range check accepts. *)
Definition accepted (buffer len : Z) : Prop := buffer + len <= USER_BREAK ∨ 2 ^ 64 <= buffer + len <= 2 ^ 64 + USER_BREAK.

Lemma out_of_range_spec buffer len : is_word 64 buffer → is_word 64 len → out_of_range buffer len = false ↔ accepted buffer len.
Proof.
  intros Hb Hl. unfold out_of_range, accepted. rewrite !(uwrap_small 64 buffer), !(uwrap_small 64 len) by done.
  unfold is_word, uwrap, USER_BREAK in *. change (2 ^ 64) with 18446744073709551616 in *. rewrite Z.ltb_ge.
  destruct (Z.ltb_spec (buffer + len) 18446744073709551616); [rewrite Z.mod_small by lia; lia|].
  assert ((buffer + len) mod 18446744073709551616 = buffer + len - 18446744073709551616) as -> by zdiv. lia.
Qed.

(** [sys_read] of a descriptor that is open, with a driver. *)
Lemma sys_read_calls `{D : Drivers A F} k t pr xs us fd buffer len fdp f ret k' f' :
  k_tasks k !! current_task k = Some t → current_task k ≠ 0 → t_process t ≠ 0 →
  fds_ok k (t_process t) pr xs us → fd < 2 ^ 31 → is_word 64 buffer → is_word 64 len → accepted buffer len →
  fd_table us !! fd = Some fdp → fdp ≠ 0 → objs (T := fd_t) k !! fdp = Some f → op_read (f_ops f) ≠ 0 →
  call_read (op_read (f_ops f)) (fs_data f) len (fpos f) k = Ok (ret, k') →
  objs (T := fd_t) k' !! fdp = Some f' → fdmod f' = MUTEX_INITIALIZER →
  sys_read fd buffer len k = if DEBUG then Stop Panic else Ok (ret, k').
Proof.
  intros Ht Hc Hpz Hk Hfd Hb Hl Ha Hfdp Hnz Hf Hop Hcall Hf' Hm. unfold sys_read. rewrite (proj2 (out_of_range_spec _ _ Hb Hl) Ha).
  kstep (current_process_spec k t Ht Hc Hpz). kstep (proc_get_fd_spec k _ pr xs us fd Hk Hfd). rewrite Hfdp. cbn [default from_option id].
  rewrite (proj2 (Z.eqb_neq _ _) Hnz). kstep (load_Ok (O := fd_object) fdp f k Hf). rewrite (proj2 (Z.eqb_neq _ _) Hop). kstep Hcall.
  unfold mbind, K_bind. rewrite (unlock_fdmod fdp f' k' Hf' Hm). by destruct DEBUG.
Qed.

End descriptors.

(** ** Killed kernel threads *)

Section cleanup.
Context {A F : Type} `{B : Build} `{KM : Kmalloc A} {KL : KmallocLaws A} `{PM : PhysMem A}.
Abbreviation kernel := (Kernel.kernel A F).
Implicit Types (k : kernel) (xs : list (Z * Z)) (T : gmap Z task_t).

(** A task that is there and was killed, and the memory it goes with. *)
Definition dead T (t : Z) : bool := match T !! t with Some tk => bool_decide (t_state tk = TASK_KILLED) | None => false end.
Definition blocks T (t : Z) : list Z := match T !! t with Some tk => [kstack_base tk; t] | None => [] end.
Definition dead_items T xs : list (Z * Z) := filter (λ x, dead T x.2 = true) xs.
Definition live_items T xs : list (Z * Z) := filter (λ x, dead T x.2 = false) xs.
(** What deleting the dead tasks of a list gives back, their items included. *)
Definition garbage T xs : list Z := dead_items T xs ≫= λ x, x.1 :: blocks T x.2.

(** A dead kernel thread whose memory can be freed. *)
Definition deletable k T (t : Z) : Prop :=
  ∃ tk, T !! t = Some tk ∧ (t_state tk = TASK_KILLED → t_process tk = 0 ∧ t ≠ 0 ∧ kstack_base tk ≠ 0 ∧
    kstack_base tk ≠ t ∧ ∀ b, b ∈ [kstack_base tk; t] → b ∈ km_live (heap (k_store k)) ∧ nodes (k_store k) !! b = None).

(** The state but for the store, the tasks, and the list of tasks and its length. *)
Definition tasks_only k k' : Prop :=
  k' = set_task_count (task_count k') (set_tl_list (tl_list k') (set_k_tasks (k_tasks k') (set_k_store (k_store k') k))).

Lemma tasks_only_trans k1 k2 k3 : tasks_only k1 k2 → tasks_only k2 k3 → tasks_only k1 k3.
Proof. unfold tasks_only. intros H1 H2. rewrite H2, H1. done. Qed.

Lemma tasks_only_relock l k k2 : tasks_only (set_tl_lock l k) k2 → tasks_only k (set_tl_lock (tl_lock k) k2).
Proof. unfold tasks_only. intros Hf. rewrite Hf. by destruct k. Qed.

(** Memory that holds no list item is freed. *)
Lemma free_block p k :
  store_wf (k_store k) → p ≠ 0 → p ∈ km_live (heap (k_store k)) → nodes (k_store k) !! p = None →
  ∃ h, free p k = Ok (tt, set_k_store {| nodes := nodes (k_store k); heap := h |} k) ∧
    km_live h = km_live (heap (k_store k)) ∖ {[p]} ∧ store_wf ({| nodes := nodes (k_store k); heap := h |} : store A).
Proof.
  intros [Hi Hl Hn] Hz Hp Hno. destruct (km_free_ok p _ Hi Hp) as (h & Hf & Hi' & Hl'). exists h. split_and!.
  - unfold free. rewrite (proj2 (Z.eqb_neq _ _) Hz). unfold on_heap, on_store. by rewrite Hf.
  - done.
  - split; simpl; [done| |done]. rewrite Hl'. intros a Ha. apply elem_of_difference. split; [by apply Hl|].
    intros ->%elem_of_singleton. by apply elem_of_dom in Ha as [? Ha]; rewrite Hno in Ha.
Qed.

Lemma task_delete_thread pages T t k tk :
  store_wf (k_store k) → k_tasks k !! t = Some tk → t_state tk = TASK_KILLED → T !! t = Some tk → deletable k T t →
  ∃ h, task_delete pages t k =
      Ok (tt, set_k_tasks (delete t (k_tasks k)) (set_k_store {| nodes := nodes (k_store k); heap := h |} k)) ∧
    km_live h = km_live (heap (k_store k)) ∖ {[kstack_base tk]} ∖ {[t]} ∧
    store_wf ({| nodes := nodes (k_store k); heap := h |} : store A).
Proof.
  intros Hs Ht Hst HT (tk' & HT' & Hd). rewrite HT in HT'. injection HT' as <-.
  destruct (Hd Hst) as (Hp & Hz & Hkz & Hne & Hb).
  destruct (Hb (kstack_base tk)) as [Hk1 Hk2]; [by left|]. destruct (Hb t) as [Ht1 Ht2]; [by right; left|].
  destruct (free_block (kstack_base tk) k Hs Hkz Hk1 Hk2) as (h1 & Hf1 & Hl1 & Hs1).
  set (k1 := set_k_store {| nodes := nodes (k_store k); heap := h1 |} k) in *.
  destruct (free_block t k1 Hs1 Hz) as (h2 & Hf2 & Hl2 & Hs2).
  { simpl. rewrite Hl1. apply elem_of_difference. split; [done|]. by intros ?%elem_of_singleton. }
  { done. }
  exists h2. split_and!; [|by rewrite Hl2; simpl; rewrite Hl1|done].
  unfold task_delete. kstep (load_Ok (O := task_object) t tk k Ht).
  assert (lift (S := kernel) (assert_ (negb (t =? 0) && bool_decide (t_state tk = TASK_KILLED))) k = Ok (tt, k)) as Has.
  { unfold lift. rewrite (proj2 (Z.eqb_neq _ _) Hz), bool_decide_true by done. by rewrite assert_true. }
  kstep Has. rewrite Hp. cbn [Z.eqb negb when]. kpure. kstep Hf1. kstep Hf2. done.
Qed.

(** ** The walk *)

Record walk_ok T k l1 l2 : Prop := {
  wk_store : store_wf (k_store k);
  wk_repr : list_repr (tl_list k) (l1 ++ l2) (k_store k);
  wk_count : task_count k = Z.of_nat (length (l1 ++ l2));
  wk_tasks t : t ∈ l2.*2 → k_tasks k !! t = T !! t;
  wk_del t : t ∈ l2.*2 → deletable k T t;
  wk_once : NoDup l2.*2;
  wk_nodup : NoDup (garbage T l2);
}.

(** What the walk leaves of the tasks and of the memory. *)
Record cleaned T k l1 l2 k' : Prop := {
  cl_frame : tasks_only k k';
  cl_store : store_wf (k_store k');
  cl_repr : list_repr (tl_list k') (l1 ++ live_items T l2) (k_store k');
  cl_count : task_count k' = Z.of_nat (length (l1 ++ live_items T l2));
  cl_tasks t : k_tasks k' !! t = if decide (t ∈ (dead_items T l2).*2) then None else k_tasks k !! t;
  cl_live : km_live (heap (k_store k')) = km_live (heap (k_store k)) ∖ list_to_set (garbage T l2);
}.

Lemma garbage_dead T a t tk l2 :
  T !! t = Some tk → dead T t = true → garbage T ((a, t) :: l2) = a :: kstack_base tk :: t :: garbage T l2.
Proof. intros Ht Hd. unfold garbage, dead_items. rewrite filter_cons_True by done. cbn. unfold blocks at 1. by rewrite Ht. Qed.

Lemma garbage_blocks T t l2 b : t ∈ l2.*2 → dead T t = true → b ∈ blocks T t → b ∈ garbage T l2.
Proof.
  intros ([a t'] & -> & Hin)%list_elem_of_fmap Hd Hb. unfold garbage. apply list_elem_of_bind. exists (a, t').
  split; [by right|]. by apply list_elem_of_filter.
Qed.

(** The tasks and blocks of the rest of the list are not touched. *)
Lemma deletable_keep T k k1 D u :
  deletable k T u → (∀ b, dead T u = true → b ∈ blocks T u → b ∉ D) →
  km_live (heap (k_store k1)) = km_live (heap (k_store k)) ∖ list_to_set D →
  (∀ b, nodes (k_store k) !! b = None → nodes (k_store k1) !! b = None) → deletable k1 T u.
Proof.
  intros (tk & Hu & Hd) HD Hlive Hn. exists tk. split; [done|]. intros Hst. destruct (Hd Hst) as (?&?&?&?&Hb).
  split_and!; [done..|]. intros b Hin. destruct (Hb b Hin) as [Hl1 Hn1]. split; [|by apply Hn].
  rewrite Hlive. apply elem_of_difference. split; [done|]. rewrite elem_of_list_to_set. apply HD.
  - unfold dead. rewrite Hu. by apply bool_decide_eq_true_2.
  - unfold blocks. by rewrite Hu.
Qed.

(** One dead task goes. *)
Lemma cleanup_one pages T k l1 a t l2 :
  walk_ok T k l1 ((a, t) :: l2) → dead T t = true →
  ∃ k1, (task_delete pages t;;
         l ← gets tl_list;
         l ← on_store (list_it_remove l a);
         modify (set_tl_list l);;
         modify (λ k, set_task_count (atomic_add (task_count k) (-1)).2 k)) k = Ok (tt, k1) ∧
    walk_ok T k1 l1 l2 ∧ tasks_only k k1 ∧ k_tasks k1 = delete t (k_tasks k) ∧
    km_live (heap (k_store k1)) = km_live (heap (k_store k)) ∖ list_to_set (a :: blocks T t).
Proof.
  intros [Hs Hr Hc Ht Hd Ho Hn] Hdead. assert (t ∈ ((a, t) :: l2).*2) as Hin by left.
  pose proof (Hd t Hin) as Hdt. destruct (Hd t Hin) as (tk & HT & _).
  assert (t_state tk = TASK_KILLED) as Hst by (unfold dead in Hdead; rewrite HT in Hdead; by apply bool_decide_eq_true_1 in Hdead).
  destruct (task_delete_thread pages T t k tk Hs ltac:(by rewrite Ht) Hst HT Hdt) as (h & Hdel & Hlh & Hsh).
  rewrite (garbage_dead T a t tk l2 HT Hdead) in Hn.
  set (k1 := set_k_tasks (delete t (k_tasks k)) (set_k_store {| nodes := nodes (k_store k); heap := h |} k)) in *.
  destruct (list_it_remove_spec (tl_list k) l1 a t l2 (k_store k1) Hsh (list_repr_heap _ _ _ h Hr))
    as (l' & s' & Hrem & Hs' & Hr' & Hl' & Hsame).
  eexists. split_and!.
  - kstep Hdel. kpure. assert (on_store (list_it_remove (tl_list k) a) k1 = Ok (l', set_k_store s' k1)) as Hos.
    { unfold on_store. by rewrite Hrem. }
    change (tl_list k1) with (tl_list k). kstep Hos. kpure. reflexivity.
  - assert (km_live (heap s') = km_live (heap (k_store k)) ∖ list_to_set (a :: blocks T t)) as Hlive.
    { rewrite Hl'. simpl. rewrite Hlh. unfold blocks. rewrite HT. simpl. set_solver. }
    apply list.NoDup_cons in Ho as [Hot Ho].
    split; [exact Hs'|exact Hr'| | | |exact Ho|by do 3 apply list.NoDup_cons in Hn as [_ Hn]].
    + unfold atomic_add. simpl. rewrite Hc, !length_app. simpl. pose proof (lr_bound _ _ _ Hr) as Hb.
      rewrite length_app in Hb. simpl in Hb. rewrite uwrap_small; [lia|unfold is_word; lia].
    + intros u Hu. simpl. rewrite lookup_delete_ne by (by intros ->). apply Ht. by right.
    + intros u Hu. apply (deletable_keep T k _ (a :: blocks T t)); [apply Hd; by right| |exact Hlive|].
      * intros b Hdu Hb. pose proof (garbage_blocks T u l2 b Hu Hdu Hb) as Hg. unfold blocks. rewrite HT.
        rewrite !list.NoDup_cons in Hn. destruct Hn as (Hna & Hnk & Hnt & _). set_solver.
      * intros b Hb. simpl. rewrite Hsame; [done|]. intros Hbi.
        eapply chain_in in Hbi; [|exact (lr_chain _ _ _ Hr)]. by apply elem_of_dom in Hbi as [? Hbi]; rewrite Hb in Hbi.
  - done.
  - done.
  - simpl. rewrite Hl'. simpl. rewrite Hlh. unfold blocks. rewrite HT. simpl. set_solver.
Qed.

Lemma cleanup_from_spec pages T l2 :
  ∀ fuel k l1, walk_ok T k l1 l2 → (length l2 < fuel)%nat →
  ∃ k', cleanup_from pages fuel (head_addr l2 0) k = Ok (tt, k') ∧ cleaned T k l1 l2 k'.
Proof.
  induction l2 as [|[a t] l2 IH]; intros fuel k l1 Hw Hf; (destruct fuel as [|fuel]; [simpl in Hf; lia|]).
  { exists k. split; [done|]. destruct Hw as [Hs Hr Hc _ _ _ _].
    split; [by destruct k|done|done|done|done|]. simpl. set_solver. }
  pose proof (wk_repr _ _ _ _ Hw) as Hr. pose proof (wk_store _ _ _ _ Hw) as Hs.
  cbn [cleanup_from head_addr fst]. rewrite (proj2 (Z.eqb_neq a 0)).
  2: { eapply chain_nonnull; [done|apply Hr|]. rewrite fmap_app. apply elem_of_app. right. by left. }
  pose proof (rd_node _ _ _ _ _ (dseg_lookup _ _ _ _ _ _ _ (lr_chain _ _ _ Hr))) as Hrd.
  assert (of_store (list_it_next a) k = Ok (head_addr l2 0, k)) as Hnx by (unfold of_store, list_it_next; by rewrite Hrd).
  assert (of_store (list_it_get a) k = Ok (t, k)) as Hget by (unfold of_store, list_it_get; by rewrite Hrd).
  kstep Hnx. kstep Hget. destruct (wk_del _ _ _ _ Hw t) as (tk & HT & _); [by left|].
  assert (k_tasks k !! t = Some tk) as Htk by (rewrite (wk_tasks _ _ _ _ Hw) by (by left); done).
  kstep (load_Ok (O := task_object) t tk k Htk).
  destruct (bool_decide (t_state tk = TASK_KILLED)) eqn:Hst; cbn [when].
  - assert (dead T t = true) as Hdead by (unfold dead; by rewrite HT).
    destruct (cleanup_one pages T k l1 a t l2 Hw Hdead) as (k1 & Hone & Hw1 & Hto & Htk1 & Hl1).
    destruct (IH fuel k1 l1 Hw1) as (k' & Hrun & [Hfr Hs' Hr' Hc' Ht' Hl']); [simpl in Hf; lia|].
    exists k'. split; [by kstep Hone|].
    assert (live_items T ((a, t) :: l2) = live_items T l2) as Hli.
    { unfold live_items. rewrite filter_cons_False; [done|]. simpl. by rewrite Hdead. }
    assert (dead_items T ((a, t) :: l2) = (a, t) :: dead_items T l2) as Hdi by (by apply filter_cons_True).
    split; rewrite ?Hli, ?Hdi; [by eapply tasks_only_trans|done|done|done| |].
    + intros u. rewrite Ht', Htk1. simpl. destruct (decide (u ∈ (dead_items T l2).*2)) as [Hin|Hni].
      * rewrite decide_True; [done|by right].
      * destruct (decide (u = t)) as [->|Hne]; [rewrite lookup_delete_eq, decide_True; [done|by left]|].
        rewrite lookup_delete_ne, decide_False; [done| |done]. by intros [?|?]%elem_of_cons.
    + rewrite Hl', Hl1, (garbage_dead T a t tk l2 HT Hdead). unfold blocks. rewrite HT. simpl. set_solver.
  - assert (dead T t = false) as Hdead by (unfold dead; by rewrite HT).
    assert (live_items T ((a, t) :: l2) = (a, t) :: live_items T l2) as Hli by (by apply filter_cons_True).
    assert (dead_items T ((a, t) :: l2) = dead_items T l2) as Hdi.
    { unfold dead_items. rewrite filter_cons_False; [done|]. simpl. by rewrite Hdead. }
    assert (walk_ok T k (l1 ++ [(a, t)]) l2) as Hw1.
    { destruct Hw as [Hs0 Hr0 Hc0 Ht0 Hd0 Ho0 Hn0].
      split; rewrite <- ?app_assoc; [done..|by intros u Hu; apply Ht0; right|by intros u Hu; apply Hd0; right| |].
      - by apply list.NoDup_cons in Ho0 as [_ Ho0].
      - unfold garbage in *. by rewrite Hdi in Hn0. }
    destruct (IH fuel k (l1 ++ [(a, t)]) Hw1) as (k' & Hrun & [Hfr Hs' Hr' Hc' Ht' Hl']); [simpl in Hf; lia|].
    exists k'. split; [by kpure|]. rewrite <- app_assoc in Hr', Hc'.
    split; rewrite ?Hli, ?Hdi; try done. unfold garbage in *. by rewrite Hdi.
Qed.

(** C35: The cleanup task on kernel threads.  One turn of [cleanup_task_func] deletes exactly the
    killed tasks of the list: their list items, kernel stacks and structures are given back
    and nothing else is, each once; the list and the count are those of the other tasks,
    in their order; and then it yields.  Without tasks it returns. *)
Theorem cleanup_reaps_threads pages ctx k xs :
  tl_lock k = MUTEX_INITIALIZER → walk_ok (k_tasks k) k [] xs →
  (xs = [] → cleanup_task_func pages ctx k = Ok (None, k)) ∧
  (xs ≠ [] → ∃ k', cleanup_task_func pages ctx k = (c ← yield ctx; mret (Some c)) k' ∧
     tasks_only k k' ∧
     list_repr (tl_list k') (live_items (k_tasks k) xs) (k_store k') ∧
     task_count k' = Z.of_nat (length (live_items (k_tasks k) xs)) ∧
     (∀ t, k_tasks k' !! t = if decide (t ∈ (dead_items (k_tasks k) xs).*2) then None else k_tasks k !! t) ∧
     km_live (heap (k_store k')) = km_live (heap (k_store k)) ∖ list_to_set (garbage (k_tasks k) xs)).
Proof.
  intros Hl Hw. pose proof (wk_count _ _ _ _ Hw) as Hc. simpl in Hc. unfold cleanup_task_func. split.
  - intros ->. kpure. by rewrite Hc.
  - intros Hne. kpure. destruct (Z.leb_spec (task_count k) 0) as [Hle|_]; [destruct xs; [done|simpl in *; lia]|].
    set (k1 := set_tl_lock (mx_taken (current_task k)) k).
    assert (lock_var tl_lock set_tl_lock k = Ok (tt, k1)) as Hlk by (unfold lock_var; kpure; rewrite Hl; by kstep (k_lock_idle k)).
    kstep Hlk. kpure. change (tl_list k1) with (tl_list k). pose proof (wk_repr _ _ _ _ Hw) as Hr. simpl in Hr.
    assert (lift (list_it_front (tl_list k)) k1 = Ok (head_addr xs 0, k1)) as Hfr.
    { unfold lift, list_it_front. rewrite (sanity _ _ _ Hr). simpl. by rewrite (lr_first _ _ _ Hr). }
    kstep Hfr. assert (walk_ok (k_tasks k) k1 [] xs) as Hw1 by (destruct Hw; by split).
    destruct (cleanup_from_spec pages (k_tasks k) xs (walk_fuel (k_store k1)) k1 [] Hw1) as (k2 & Hrun & [Hf Hs Hr2 Hc2 Ht2 Hl2]).
    { unfold walk_fuel. pose proof (chain_length _ _ _ _ (lr_nodup _ _ _ Hr) (lr_chain _ _ _ Hr)) as Hlen.
      change (nodes (k_store k1)) with (nodes (k_store k)). lia. }
    kstep Hrun. assert (unlock_var tl_lock set_tl_lock k2 = Ok (tt, set_tl_lock MUTEX_INITIALIZER k2)) as Hul.
    { unfold unlock_var. kpure. assert (tl_lock k2 = mx_taken (current_task k2)) as -> by (unfold tasks_only in Hf; rewrite Hf; reflexivity).
      by kstep (k_unlock_taken k2). }
    kstep Hul. eexists. split; [done|]. split_and!; [|done|done|done|done].
    rewrite <- Hl. by apply (tasks_only_relock (mx_taken (current_task k))).
Qed.
End cleanup.

(** ** A process with an open file, and three threads *)

#[local] Existing Instance debug_build.
Import Machine.

#[local] Instance demo_files : Drivers t unit := {|
  call_read _ _ len _ k := Ok ((len, replicate (Z.to_nat len) 0), k);
  call_probe _ _ := kstop Fault; call_mount _ _ := kstop Fault; call_fetch _ _ _ := kstop Fault |}.

Definition demo_fd : fd_t :=
  {| fd_file := 0; fpos := 0; f_ops := {| op_read := 1; op_write := 0 |}; fs_data := 3; fdmod := MUTEX_INITIALIZER |}.
Definition with_file : Kernel.kernel t unit := set_k_vfs (set_v_fds {[ 40 := demo_fd ]} no_files) start.
Definition fd_opened : Kernel.kernel t unit := ran (proc_new_fd 5 40 with_file) with_file.
Definition fd_proc : proc_t := default user_proc (k_procs fd_opened !! 5).

Lemma with_file_ok : fds_ok with_file 5 user_proc [] [].
Proof.
  split; [done|done|exact start_store|apply list_init_repr|constructor|constructor|done|by intros ? ?%elem_of_nil].
Qed.

Lemma fd_roundtrip_witness : ∃ k', proc_new_fd 5 40 with_file = Ok (0, k') ∧ proc_get_fd 5 0 k' = Ok (40, k').
Proof.
  destruct (fd_roundtrip with_file 5 user_proc [] [] 40 with_file_ok) as [_ [(n & k' & Hn & _ & Hg & _)|(w & Hw & _)]].
  - vm_compute. reflexivity.
  - vm_compute. reflexivity.
  - exact I.
  - intros. exact I.
  - exists k'. assert (n = 0) as -> by (vm_compute in Hn; congruence). split; [exact Hn|exact Hg].
  - vm_compute in Hw. discriminate Hw.
Defined.

Lemma fd_opened_ok : ∃ xs us, fds_ok fd_opened 5 fd_proc xs us ∧ fd_table us !! 0 = Some 40.
Proof.
  destruct (proc_new_fd_spec with_file 5 user_proc [] [] 40 with_file_ok) as [(k' & pr' & xs & us & Hn & Hk & _ & Hus)|(w & Hw & _)];
    [by vm_compute|by vm_compute|done|done| |by vm_compute in Hw].
  assert (fd_opened = k') as -> by (unfold fd_opened; by rewrite Hn).
  exists xs, us. split; [|by rewrite Hus].
  assert (fd_proc = pr') as ->; [|done].
  unfold fd_proc, fd_opened. rewrite Hn. cbn [ran]. by rewrite (fk_proc _ _ _ _ _ Hk).
Qed.


(** Three threads in the list; the one in the middle, at 200 with its stack at 300, was killed. *)
Definition thread (stack : Z) (st : task_state_t) : task_t :=
  {| tid := 3; t_state := st; t_context := 0; t_vspace := 1; kstack_ptr := stack + 8192; kstack_base := stack;
     irq_wait := false; user_stack := 0; t_process := 0 |}.
Definition three_tasks : gmap Z task_t :=
  {[ 100 := thread 110 TASK_RUNNING; 200 := thread 300 TASK_KILLED; 400 := thread 410 TASK_RUNNING ]}.
Definition three_items : list (Z * Z) := [(32, 100); (64, 200); (96, 400)].
Definition three_threads : Kernel.kernel t unit :=
  set_k_tasks three_tasks
    (set_task_count 3 (set_tl_list {| items := 3; magic := LIST_MAGIC; first := 32; last := 96 |}
      (set_k_store {| nodes := {[ 32 := {| it_payload := 100; it_next := 64; it_prev := 0 |};
                                  64 := {| it_payload := 200; it_next := 96; it_prev := 32 |};
                                  96 := {| it_payload := 400; it_next := 0; it_prev := 64 |} ]};
                      heap := {| alloc := {| Bump.top := 500; Bump.live := {[32; 64; 96; 100; 110; 200; 300; 400; 410]} |};
                                 pages := demo_pages |} |} start))).

Lemma three_threads_ok : walk_ok three_tasks three_threads [] three_items.
Proof.
  split.
  - split; [apply (bool_decide_unpack _); vm_compute; exact I|apply (bool_decide_unpack _); vm_compute; exact I|done].
  - split; [done|done|done|done|done|apply (bool_decide_unpack _); vm_compute; exact I|].
    repeat split.
  - done.
  - done.
  - intros u Hu. assert (u = 100 ∨ u = 200 ∨ u = 400) as Hu' by (revert Hu; simpl; set_solver).
    destruct Hu' as [-> | [-> | ->]]; eexists; (split; [reflexivity|]); try discriminate.
    intros _. split_and!; try done. intros b Hb. assert (b = 300 ∨ b = 200) as Hb' by (revert Hb; simpl; set_solver).
    destruct Hb' as [-> | ->]; (split; [apply (bool_decide_unpack _); vm_compute; exact I|done]).
  - apply (bool_decide_unpack _). vm_compute. exact I.
  - apply (bool_decide_unpack _). vm_compute. exact I.
Qed.

Lemma cleanup_reaps_threads_witness :
  ∃ k', cleanup_task_func 0 7000 three_threads = (c ← yield 7000; mret (Some c)) k' ∧
    task_count k' = 2 ∧ k_tasks k' !! 200 = None.
Proof.
  destruct (cleanup_reaps_threads 0 7000 three_threads three_items eq_refl three_threads_ok) as [_ Hc].
  destruct Hc as (k' & Hr & _ & _ & Hn & Ht & _); [discriminate|].
  exists k'. split; [exact Hr|]. split; [rewrite Hn; vm_compute; reflexivity|].
  rewrite Ht. rewrite decide_True; [reflexivity|]. apply (bool_decide_unpack _). vm_compute. exact I.
Defined.
