(* ===== verification/Start.v ===== *)
(** The start of a process, sched/proc.c: [proc_start] on every branch, from the file to the
    main thread in the queue of the scheduler.  It is the counterpart of Reap.v. *)
From S2P Require Import Prelude Words Mutex Bitmap PageAlloc Dll Lists Vspace Space Errno Kernel Sched UserMem Vfs Ext2 Loader Proc.
Open Scope Z_scope.

(** ** The program file *)

Section program.
Context {A F : Type} `{B : Build} `{KM : Kmalloc A} {PM : PhysMem A} `{D : Drivers A F} {FD : FileDrivers A F}.
Abbreviation kernel := (Kernel.kernel A F).
Context (junk_mutex : Z → mutex_t) (junk_bytes : Z → nat → list Z) (junk_length : ∀ a n, length (junk_bytes a n) = n).
Implicit Types (k : kernel) (h : elf64_t) (content : list Z).

(** The header of a file, and whether [loader_create] takes it for a program. *)
Definition header_of content : elf64_t := elf64_of (slice 0 64 content).
Definition is_elf h : bool := (e_magic h =? 0x464c457f) && (isa h =? ELF_ISA) && (e_endianness h =? ELF_ENDIANNESS).

(** The table of its segments. *)
Definition segments_of content : list elf64_phte_t :=
  let h := header_of content in
  (λ i, phte_of (drop (56 * i) (slice (pht_pos h) (56 * pht_entries h) content))) <$> seq 0 (Z.to_nat (pht_entries h)).

(** A file whose table has entries of the right size and lies in it, with a segment to load. *)
Record program_ok content : Prop := {
  po_elf : is_elf (header_of content) = true;
  po_entry : pht_entry_size (header_of content) = 56;
  po_entries : 0 <= pht_entries (header_of content) < 2 ^ 16;
  po_table : 0 <= pht_pos (header_of content) ∧
    pht_pos (header_of content) + 56 * pht_entries (header_of content) <= Z.of_nat (length content);
  po_break : heap_break (segments_of content) ≠ 0;
}.

(** [kstep] for a call that has returned. *)
Ltac kstep_in E H := rewrite (K_bind_Ok _ _ _ _ _ E) in H; cbv beta in H.

(** What a call that returned has done first. *)
Lemma new_returned {Y} n (f : Z → K kernel Y) k r :
  (new n ≫= f) k = Ok r → ∃ p s, f p (set_k_store s k) = Ok r.
Proof.
  unfold mbind, K_bind, new, on_heap, on_store. destruct (km_alloc n (heap (k_store k))) as [[p h]|]; [|done]. intros H. eexists p, _. exact H.
Qed.

Lemma assert_returned {Y} b (m : K kernel Y) k r : (lift (assert_ b);; m) k = Ok r → m k = Ok r.
Proof. unfold mbind, K_bind, lift. by destruct (assert_ b) as [[]|]. Qed.

Lemma init_returned {Y} raw (f : mutex_t → K kernel Y) k r :
  (lift (mutex_init raw) ≫= f) k = Ok r → f MUTEX_INITIALIZER k = Ok r.
Proof.
  unfold mbind, K_bind, lift, mutex_init, spin_init. destruct (assert_ (negb (mx_magic raw =? _))) as [[]|]; simpl; [|done].
  destruct (assert_ _) as [[]|]; simpl; [intros H; exact H|done].
Qed.

(** The whole header is read, or all of the table. *)
Lemma read_bytes k fd content pos len :
  opened k fd content → 0 <= pos → 0 <= len → pos + len <= Z.of_nat (length content) → len < 2 ^ 62 →
  ∃ k1 k2, vfs_seek fd pos SEEK_SET k = Ok (pos, k1) ∧ vfs_read fd len k1 = Ok ((len, slice pos len content), k2) ∧
    quiet k k2 ∧ opened k2 fd content.
Proof.
  intros Ho Hp Hl Hc Hlen. destruct (read_at k fd content pos len Ho) as (k1 & k2 & H1 & H2 & Hq); [lia|lia|].
  exists k1, k2. rewrite Z.min_l in H2 by lia. by split.
Qed.

Lemma load_pht_returned k ldr l buf content status k' :
  held k ldr l → ld_header l = buf → im_headers (k_images k) !! buf = Some (header_of content) →
  opened k (ld_file l) content → program_ok content → Z.of_nat (length content) < 2 ^ 62 →
  load_pht junk_bytes ldr k = Ok (status, k') →
  status = SUCCESS ∧ current_task k' = current_task k ∧ ∃ pht, k_loaders k' !! ldr = Some (set_ld_pht pht l) ∧
    im_phts (k_images k') !! pht = Some (segments_of content).
Proof.
  intros Hh Hb Him Ho Hpo Hlen. pose proof Hpo as [_ Hsz Hn [Hpos Htab] _]. set (h := header_of content) in *.
  change (2 ^ 16) with 65536 in Hn. change (2 ^ 62) with 4611686018427387904 in Hlen.
  unfold load_pht. kstep (assert_held_Ok _ _ _ Hh). kstep (load_Ok (O := loader_object) ldr l k (proj1 Hh)). rewrite Hb.
  kstep (load_Ok (O := header_object) buf h k Him). rewrite Hsz. change (negb (56 =? 56)) with false. cbv iota.
  rewrite (uwrap_small 64) by (unfold is_word; change (2 ^ 64) with 18446744073709551616; lia). rewrite (Z.mul_comm _ 56).
  intros (pht & s & Hr)%new_returned.
  destruct (read_bytes (set_k_store s k) (ld_file l) content (pht_pos h) (56 * pht_entries h) Ho) as (k1 & k2 & Hsk & Hrd & Hq & Ho2);
    [lia|lia|lia|change (2 ^ 62) with 4611686018427387904; lia|].
  kstep_in Hsk Hr. kstep_in Hrd Hr.
  rewrite (uwrap_small 64) in Hr by (unfold is_word; change (2 ^ 64) with 18446744073709551616; lia).
  rewrite (proj2 (Z.ltb_ge _ _)) in Hr by lia.
  set (phs := _ <$> seq 0 _) in Hr.
  assert (k_loaders k2 !! ldr = Some l) as Hl2 by (rewrite (qu_loaders _ _ Hq); apply Hh).
  unfold put in Hr. rewrite K_bind_modify in Hr.
  assert (phs = segments_of content) as E.
  { unfold phs, segments_of. fold h. rewrite overwritten_whole; [done|].
    pose proof (slice_length (pht_pos h) (56 * pht_entries h) content). rewrite junk_length. lia. }
  set (k3 := set_objs (<[pht := phs]> (objs k2)) k2) in Hr. assert (k_loaders k3 !! ldr = Some l) as Hl3 by exact Hl2.
  kstep_in (change_Ok (O := loader_object) ldr (set_ld_pht pht) k3 l Hl3) Hr. injection Hr as <- <-.
  split_and!; [done|exact (qu_current _ _ Hq)|]. exists pht. split; [apply lookup_insert_eq|]. rewrite <- E. apply lookup_insert_eq.
Qed.

(** The loader of a program file: with the table and the break that the file asks for. *)
Definition program_loader content (fd buf pht : Z) : loader_t :=
  {| ld_file := fd; entry_addr := e_entry (header_of content); ld_header := buf; ld_pht := pht; ld_lock := MUTEX_INITIALIZER;
     ld_refs := 1; min_heap_break := heap_break (segments_of content) |}.

Lemma load_heap_brk_returned k ldr l content status k' :
  k_loaders k !! ldr = Some l → ld_lock l = MUTEX_INITIALIZER → ld_pht l = 0 → im_headers (k_images k) !! ld_header l = Some (header_of content) →
  opened k (ld_file l) content → program_ok content → Z.of_nat (length content) < 2 ^ 62 →
  load_heap_brk junk_bytes ldr k = Ok (status, k') →
  status = SUCCESS ∧ ∃ pht, k_loaders k' !! ldr = Some (set_min_heap_break (heap_break (segments_of content)) (set_ld_pht pht l)) ∧
    im_phts (k_images k') !! pht = Some (segments_of content).
Proof.
  intros Hl Hlk Hp Him Ho Hpo Hlen. unfold load_heap_brk. kstep (load_Ok (O := loader_object) ldr l k Hl).
  intros Hr%assert_returned. unfold need_pht in Hr. rewrite K_bind_assoc in Hr.
  kstep_in (lock_in_idle (O := loader_object) ld_lock set_ld_lock ldr l k Hl Hlk) Hr. set (k1 := set_objs _ k) in Hr.
  set (l1 := set_ld_lock (mx_taken (current_task k)) l) in *. assert (k_loaders k1 !! ldr = Some l1) as H1 by apply lookup_insert_eq.
  rewrite K_bind_assoc in Hr. kstep_in (load_Ok (O := loader_object) ldr l1 k1 H1) Hr. change (ld_pht l1) with (ld_pht l) in Hr. rewrite Hp in Hr.
  change (0 =? 0) with true in Hr. cbv iota in Hr.
  destruct (load_pht junk_bytes ldr k1) as [[st k2]|] eqn:Hlp; [|unfold mbind, K_bind in Hr; by rewrite Hlp in Hr].
  kstep_in Hlp Hr. destruct (load_pht_returned k1 ldr l1 _ content st k2 (conj H1 eq_refl) eq_refl Him Ho Hpo Hlen Hlp) as (-> & Hc & pht & H2 & Hph).
  change (SUCCESS <? 0) with false in Hr. cbv iota in Hr. kstep_in (load_Ok (O := loader_object) ldr _ k2 H2) Hr.
  kstep_in (load_Ok (O := pht_object) pht _ k2 Hph) Hr. rewrite (proj2 (Z.eqb_neq _ _) (po_break _ Hpo)) in Hr.
  kstep_in (change_Ok (O := loader_object) ldr (set_min_heap_break (heap_break (segments_of content))) k2 _ H2) Hr. set (k3 := set_objs _ k2) in Hr.
  assert (k_loaders k3 !! ldr = Some (set_min_heap_break (heap_break (segments_of content)) (set_ld_pht pht l1))) as H3 by apply lookup_insert_eq.
  kstep_in (unlock_in_taken (O := loader_object) ld_lock set_ld_lock ldr _ k3 H3 ltac:(change (current_task k3) with (current_task k2); by rewrite Hc)) Hr. injection Hr as <- <-.
  split; [done|]. exists pht. split; [|exact Hph]. cbn. rewrite lookup_insert_eq. f_equal. unfold l1. destruct l. simpl in *. by subst.
Qed.

(** [loader_create] of an open file that is long enough for a header: no loader when the header
    is not the one of a program of this machine; otherwise, when the table is in order, a
    loader with the entry point, the segments and the break of the file. *)
Lemma loader_create_returned k fd content ldr k' :
  opened k fd content → 64 <= Z.of_nat (length content) < 2 ^ 62 → loader_create junk_bytes junk_mutex fd k = Ok (ldr, k') →
  (is_elf (header_of content) = false → ldr = 0) ∧
  (program_ok content → ∃ buf pht, k_loaders k' !! ldr = Some (program_loader content fd buf pht) ∧
     im_phts (k_images k') !! pht = Some (segments_of content)).
Proof.
  intros Ho Hlen. unfold loader_create. intros (buf & s & Hr)%new_returned.
  destruct (read_bytes (set_k_store s k) fd content 0 64 Ho) as (k1 & k2 & Hsk & Hrd & Hq & Ho2); [lia..|done|].
  kstep_in Hsk Hr. kstep_in Hrd Hr. change (64 <? 0) with false in Hr. cbv iota zeta in Hr.
  rewrite overwritten_whole in Hr.
  2: { pose proof (slice_length 0 64 content). rewrite junk_length. lia. }
  fold (header_of content) in Hr. unfold put in Hr. rewrite K_bind_modify in Hr.
  set (k3 := set_objs _ k2) in Hr. assert (∀ k0, (free buf;; mret 0) k0 = Ok (ldr, k') → ldr = 0) as Hfree.
  { intros k0. unfold mbind, K_bind. destruct (free buf k0) as [[]|]; [by intros [= <- _]|done]. }
  pose proof (po_elf content) as He. revert He Hr. unfold is_elf.
  destruct (e_magic _ =? _), (isa _ =? _), (e_endianness _ =? _); cbn [negb andb orb]; intros He Hr; cbv iota in Hr.
  2-8: split; [intros _; exact (Hfree _ Hr)|intros Hpo; by specialize (He Hpo)].
  split; [done|]. intros Hpo. apply new_returned in Hr as (p & s2 & Hr). apply init_returned in Hr.
  set (l := Build_loader_t _ _ _ _ _ _ _) in Hr. unfold put in Hr. rewrite K_bind_modify in Hr. set (k4 := set_objs _ _) in Hr.
  destruct (load_heap_brk junk_bytes p k4) as [[st k5]|] eqn:Hlb; [|unfold mbind, K_bind in Hr; by rewrite Hlb in Hr].
  kstep_in Hlb Hr.
  destruct (load_heap_brk_returned k4 p l content st k5) as (-> & pht & Hl & Hph); [apply lookup_insert_eq|done|done|apply lookup_insert_eq|exact Ho2|done|lia|exact Hlb|].
  change (SUCCESS <? 0) with false in Hr. unfold when in Hr. rewrite K_bind_ret in Hr. injection Hr as <- <-. by exists buf, pht.
Qed.
End program.

Section start.
Context {A F : Type} `{B : Build} `{KM : Kmalloc A} {KL : KmallocLaws A} {PM : PhysMem A} {KF : KmallocFrame A} `{D : Drivers A F}
  `{BD : BlockDevices A F} {FD : FileDrivers A F}.
Abbreviation kernel := (Kernel.kernel A F).
Abbreviation lists := (list (list_t * list (Z * Z))).
Implicit Types (k : kernel) (s : store A) (Ls : lists) (ns : list Z) (src : page_t) (vs : vspace_t).

(** ** What is needed for it *)

(** The allocator serves requests of these sizes, one after the other. *)
Fixpoint serves ns (h : A) : Prop :=
  match ns with
  | [] => True
  | n :: ns => km_room n h ∧ ∃ p h', km_alloc n h = Ok (p, h') ∧ serves ns h'
  end.

(** The page [u] is a top table with the upper half [src], and not the allocator's. *)
Record has_top (u : Z) src (h : A) : Prop := {
  ht_page : 0 <= u ∧ used (phys h) u;
  ht_own : ¬ km_own h u;
  ht_words : ram (phys h) !! u = Some (high_half src);
}.

Lemma has_top_alloc u src n h p h' : km_inv h → km_room n h → km_alloc n h = Ok (p, h') → has_top u src h → has_top u src h'.
Proof.
  intros Hi Hr Ha [[H0 Hu] Ho Hw]. destruct (km_alloc_kept n h p h' Hi Hr Ha) as (_ & _ & Hk).
  destruct (Hk u H0 Hu) as [Hu' Hn]. destruct (Hn Ho) as [Ho' Hw']. by split; rewrite ?Hw'.
Qed.

(** A stage of the work: several lists stand in the store, the new address space is there, what
    was allocated still is, and the allocator can serve what is to come. *)
Record stage Ls u src (old : gset Z) ns s : Prop := {
  sg_lists : lists_ok Ls s;
  sg_top : has_top u src (heap s);
  sg_old : old ⊆ km_live (heap s);
  sg_serves : serves ns (heap s);
}.

#[local] Instance stage_perm : Proper ((≡ₚ) ==> eq ==> eq ==> eq ==> eq ==> eq ==> iff) stage.
Proof. intros L1 L2 HL ? u -> ? src -> ? old -> ? ns -> ? s ->. by split; intros [Hl ? ? ?]; split; try done; [rewrite <- HL|rewrite HL]. Qed.

Lemma stage_alloc Ls u src old n ns s :
  stage Ls u src old (n :: ns) s →
  ∃ p h, km_alloc n (heap s) = Ok (p, h) ∧ p ∉ km_live (heap s) ∧ p ≠ 0 ∧ km_live h = {[p]} ∪ km_live (heap s) ∧
    stage Ls u src ({[p]} ∪ old) ns {| nodes := nodes s; heap := h |}.
Proof.
  intros [Hl Ht Ho (Hr & p & h & Ha & Hsv)]. exists p, h. destruct (store_wf_alloc s n p h (ls_store _ _ Hl) Hr Ha) as (Hs' & Hfr & Hnz).
  destruct (km_alloc_ok _ _ _ _ (sw_inv _ (ls_store _ _ Hl)) Hr Ha) as (_ & _ & _ & Hlive). split_and!; [done..|]. split; simpl.
  - by eapply lists_ok_nodes.
  - by eapply has_top_alloc; [apply (sw_inv _ (ls_store _ _ Hl))|..].
  - rewrite Hlive. set_solver.
  - done.
Qed.

Lemma stage_add l xs Ls u src old ns s y :
  stage ((l, xs) :: Ls) u src old (24 :: ns) s → Z.of_nat (length xs) + 1 < 2 ^ 64 →
  ∃ item i l' s', list_add l y s = Ok (i, l', s') ∧ km_live (heap s') = {[item]} ∪ km_live (heap s) ∧
    stage ((l', xs ++ [(item, y)]) :: Ls) u src old ns s'.
Proof.
  intros [Hl Ht Ho (Hr & p & h & Ha & Hsv)] Hlen. destruct (lists_ok_add l xs Ls s y p h Hl Hlen Hr Ha) as (item & i & l' & s' & Hadd & <- & Hlive & Hl').
  exists item, i, l', s'. split_and!; [done..|]. split; [done| |rewrite Hlive; set_solver|done].
  by eapply has_top_alloc; [apply (sw_inv _ (ls_store _ _ Hl))|..].
Qed.

Lemma stage_nil Ls u src old ns s : stage Ls u src old ns s → stage ((list_init, []) :: Ls) u src old ns s.
Proof. intros [Hl ? ? ?]. split; [by apply lists_ok_nil|done..]. Qed.

(** ** The process *)

Context (junk : Z → Z) (junk_mutex : Z → mutex_t) (junk_bytes : Z → nat → list Z) (junk_context : Z → context_t)
  (VSPACE_KERNEL : Z).

(** Memory that does not look like a mutex. *)
Definition no_lock (m : mutex_t) : Prop := mx_magic m ≠ MUTEX_MAGIC ∧ sp_magic (mx_spin m) ≠ MUTEX_MAGIC.

Lemma init_lock_Ok proc off set pr k :
  no_lock (junk_mutex (proc + off)) → k_procs k !! proc = Some pr →
  init_lock junk_mutex proc off set k = Ok (tt, set_k_procs (<[proc := set MUTEX_INITIALIZER pr]> (k_procs k)) k).
Proof.
  intros [H1 H2] Hp. unfold init_lock. assert (lift (mutex_init (junk_mutex (proc + off))) k = Ok (MUTEX_INITIALIZER, k)) as Hi
    by (unfold lift; by rewrite mutex_init_fresh).
  kstep Hi. exact (change_Ok (O := proc_object) proc _ k pr Hp).
Qed.

Lemma proc_base_init_Ok proc k :
  (∀ off, off ∈ [64; 168; 280; 368] → no_lock (junk_mutex (proc + off))) →
  proc_base_init junk junk_mutex proc k =
    Ok (tt, set_k_procs (<[proc := base_proc junk proc (pid_counter k)]> (k_procs k)) (set_pid_counter (u64 (pid_counter k + 1)) k)).
Proof.
  intros Hj. unfold proc_base_init. kpure. cbn [objs set_objs proc_object].
  match goal with |- (_ ≫= _) ?k0 = _ => set (k1 := k0) end.
  assert (k_procs k1 !! proc = Some (base_proc junk proc (pid_counter k))) as H1 by apply lookup_insert_eq.
  kstep (init_lock_Ok proc 368 set_heap_lock _ k1 (Hj 368 ltac:(set_solver)) H1). set (k2 := set_k_procs _ k1).
  assert (k_procs k2 !! proc = Some (base_proc junk proc (pid_counter k))) as H2 by apply lookup_insert_eq.
  kstep (init_lock_Ok proc 64 set_task_list_lock _ k2 (Hj 64 ltac:(set_solver)) H2). set (k3 := set_k_procs _ k2).
  assert (k_procs k3 !! proc = Some (base_proc junk proc (pid_counter k))) as H3 by apply lookup_insert_eq.
  kstep (init_lock_Ok proc 280 set_fd_list_lock _ k3 (Hj 280 ltac:(set_solver)) H3). set (k4 := set_k_procs _ k3).
  assert (k_procs k4 !! proc = Some (base_proc junk proc (pid_counter k))) as H4 by apply lookup_insert_eq.
  rewrite (init_lock_Ok proc 168 set_stack_list_lock _ k4 (Hj 168 ltac:(set_solver)) H4).
  unfold k4, k3, k2, k1. cbn. by rewrite !insert_insert_eq.
Qed.

(** The allocator, as [proc_start] uses it: a process and an address space, a page for the top
    table, then the stack, the thread and their list items. *)
Record supply vkernel src (h : A) (proc space : Z) (h2 : A) : Prop := {
  su_proc : ∃ h1, km_room 456 h ∧ km_alloc 456 h = Ok (proc, h1) ∧ km_room 80 h1 ∧ km_alloc 80 h1 = Ok (space, h2);
  su_kernel : ram (phys h2) !! pml4_ppn vkernel = Some src ∧ used (phys h2) (pml4_ppn vkernel);
  su_page : pages_wf (phys h2) ∧ free_room 1 (phys h2);
  su_rest u st : ¬ used (phys h2) u → pages_upd (λ q, q = u) true (phys h2) st →
    serves [48; 24; 72; KSTACK_SIZE; 24; 24; 24] (set_phys st h2);
}.

(** The state before: the lists of tasks, nothing locked, and what memory holds. *)
Record startable k vkernel xs ys : Prop := {
  sb_lists : lists_ok [(tl_list k, xs); (sched_tasks k, ys)] (k_store k);
  sb_length : Z.of_nat (length xs) + 1 < 2 ^ 64 ∧ Z.of_nat (length ys) + 1 < 2 ^ 64;
  sb_lock : tl_lock k = MUTEX_INITIALIZER;
  sb_kernel : k_vspaces k !! VSPACE_KERNEL = Some vkernel;
}.

(** The process before it has a stack. *)
Definition new_proc (proc n space ldr : Z) (ld : loader_t) : proc_t :=
  set_heap_brk (min_heap_break ld) (set_p_loader ldr (set_p_vspace space (set_fd_counter 0 (base_proc junk proc n)))).

Definition with_proc k proc (pr : proc_t) space vs s : kernel :=
  set_k_procs (<[proc := pr]> (k_procs k)) (set_k_vspaces (<[space := vs]> (k_vspaces k))
    (set_k_store s (set_pid_counter (u64 (pid_counter k + 1)) k))).

Lemma k_vspace_create_Ok vkernel src k space h2 :
  k_vspaces k !! VSPACE_KERNEL = Some vkernel → km_alloc 80 (heap (k_store k)) = Ok (space, h2) →
  pages_wf (phys h2) → ram (phys h2) !! pml4_ppn vkernel = Some src → used (phys h2) (pml4_ppn vkernel) → free_room 1 (phys h2) →
  no_lock (junk_mutex space) →
  ∃ u st, k_vspace_create junk_mutex VSPACE_KERNEL k = Ok (space, set_k_vspaces
      (<[space := {| vs_lock := MUTEX_INITIALIZER; pml4_ppn := u |}]> (k_vspaces k))
      (set_k_store {| nodes := nodes (k_store k); heap := set_phys st h2 |} k)) ∧
    space_created u src (phys h2) st.
Proof.
  intros Hv Ha Hwf Hs Hu Hr [Hj1 Hj2].
  destruct (vspace_create_spec (current_task k) vkernel src (junk_mutex space) (heap (k_store k)) h2 space Hwf Hs Hu Hr Ha Hj1 Hj2)
    as (u & st & Hc & Hsp).
  exists u, st. split; [|done]. unfold k_vspace_create. kpure. kstep (load_Ok (O := vspace_object) VSPACE_KERNEL vkernel k Hv).
  match goal with |- (on_heap ?f ≫= _) _ = _ => assert (on_heap f k = Ok ((space, {| vs_lock := MUTEX_INITIALIZER; pml4_ppn := u |}),
    set_k_store {| nodes := nodes (k_store k); heap := set_phys st h2 |} k)) as Ho end.
  { unfold on_heap, on_store. rewrite Ha. by rewrite Hc. }
  by kstep Ho.
Qed.

Lemma stage_begin k vkernel xs ys src proc space h2 u st :
  startable k vkernel xs ys → supply vkernel src (heap (k_store k)) proc space h2 → space_created u src (phys h2) st →
  stage [(tl_list k, xs); (sched_tasks k, ys)] u src ({[proc; space]} ∪ km_live (heap (k_store k)))
    [48; 24; 72; KSTACK_SIZE; 24; 24; 24] {| nodes := nodes (k_store k); heap := set_phys st h2 |} ∧
  NoDup [proc; space] ∧ proc ≠ 0 ∧ proc ∉ km_live (heap (k_store k)) ∧ space ∉ km_live (heap (k_store k)) ∧ ¬ used (phys_of k) u.
Proof.
  intros Hk [(h1 & Hr1 & Ha1 & Hr2 & Ha2) Hkn [Hwf Hroom] Hrest] [[Hpg Hnu] Htop Hram Hupd].
  pose proof Hupd as [Hwf' Hct Hin Hout].
  pose proof (ls_store _ _ (sb_lists _ _ _ _ Hk)) as Hs. pose proof (sw_inv _ Hs) as Hi.
  destruct (store_wf_alloc _ _ _ _ Hs Hr1 Ha1) as (Hs1 & Hf1 & Hnz). pose proof (sw_inv _ Hs1) as Hi1. simpl in Hi1.
  destruct (km_alloc_ok _ _ _ _ Hi Hr1 Ha1) as (_ & _ & _ & Hl1).
  destruct (store_wf_alloc {| nodes := nodes (k_store k); heap := h1 |} _ _ _ Hs1 Hr2 Ha2) as (Hs2 & Hf2 & _). simpl in Hs2, Hf2.
  destruct (km_alloc_ok _ _ _ _ Hi1 Hr2 Ha2) as (Hi2 & _ & _ & Hl2).
  assert (¬ km_own h2 u) as Hno by (intros Ho; by apply Hnu, (km_own_used _ _ Hi2)).
  destruct (km_frame st h2 Hi2 Hwf' Hct) as (Hi3 & Hl3 & Ho3).
  { intros q Hq. split; [apply Hram; by intros ->|]. intros H0 Hq'. unfold used. rewrite Hout; [done|done|]. by intros ->. }
  assert (store_wf {| nodes := nodes (k_store k); heap := set_phys st h2 |}) as Hs3.
  { destruct Hs2 as [_ Hd Hn]. by split; simpl in *; rewrite ?Hl3. }
  split_and!; [|apply list.NoDup_cons; split; [|apply list.NoDup_singleton]|done|done| |].
  - split; simpl.
    + eapply lists_ok_nodes; [apply (sb_lists _ _ _ _ Hk)|done..].
    + split; rewrite ?phys_set; [split; [apply Hpg|by apply Hin; [apply Hpg|]]|by rewrite Ho3|done].
    + rewrite Hl3, Hl2, Hl1. set_solver.
    + by apply (Hrest u st Hnu).
  - intros ->%list_elem_of_singleton. apply Hf2. rewrite Hl1. set_solver.
  - rewrite Hl1 in Hf2. set_solver.
  - intros Hx. destruct (km_alloc_kept _ _ _ _ Hi Hr1 Ha1) as (_ & _ & Hk1). destruct (km_alloc_kept _ _ _ _ Hi1 Hr2 Ha2) as (_ & _ & Hk2).
    destruct (Hk1 u) as [Hx1 _]; [apply Hpg|done|]. by destruct (Hk2 u) as [Hx2 _]; [apply Hpg| |].
Qed.

(** Up to the stack, [proc_start] makes the process. *)
Lemma start_proc_begin {Y} (g : Z → K kernel Y) k vkernel xs ys src proc space h2 ldr ld :
  startable k vkernel xs ys → supply vkernel src (heap (k_store k)) proc space h2 → k_loaders k !! ldr = Some ld →
  no_lock (junk_mutex space) → (∀ off, off ∈ [64; 168; 280; 368] → no_lock (junk_mutex (proc + off))) →
  ∃ u st, space_created u src (phys h2) st ∧
    (proc ← new 456;
     proc_base_init junk junk_mutex proc;;
     change proc (set_fd_counter 0);;
     vspace ← k_vspace_create junk_mutex VSPACE_KERNEL;
     change proc (set_p_vspace vspace);;
     change proc (set_p_loader ldr);;
     ld ← load (T := loader_t) ldr;
     change proc (set_heap_brk (min_heap_break ld));;
     g proc) k =
    g proc (with_proc k proc (new_proc proc (pid_counter k) space ldr ld) space {| vs_lock := MUTEX_INITIALIZER; pml4_ppn := u |}
              {| nodes := nodes (k_store k); heap := set_phys st h2 |}).
Proof.
  intros Hk [(h1 & _ & Ha1 & _ & Ha2) [Hsrc Hku] [Hwf Hroom] _] Hld Hjs Hjp.
  kstep (new_Ok 456 k proc h1 Ha1). set (k1 := set_k_store _ k). kstep (proc_base_init_Ok proc k1 Hjp).
  set (b := base_proc junk proc (pid_counter k)). set (k2 := set_k_procs _ _).
  assert (k_procs k2 !! proc = Some b) as H2 by apply lookup_insert_eq.
  kstep (change_Ok (O := proc_object) proc (set_fd_counter 0) k2 b H2). set (k3 := set_objs _ k2).
  destruct (k_vspace_create_Ok vkernel src k3 space h2 (sb_kernel _ _ _ _ Hk) Ha2 Hwf Hsrc Hku Hroom Hjs) as (u & st & Hc & Hsp).
  exists u, st. split; [done|]. kstep Hc. set (k4 := set_k_vspaces _ _).
  assert (k_procs k4 !! proc = Some (set_fd_counter 0 b)) as H4 by apply lookup_insert_eq.
  kstep (change_Ok (O := proc_object) proc (set_p_vspace space) k4 _ H4). set (k5 := set_objs _ k4).
  assert (k_procs k5 !! proc = Some (set_p_vspace space (set_fd_counter 0 b))) as H5 by apply lookup_insert_eq.
  kstep (change_Ok (O := proc_object) proc (set_p_loader ldr) k5 _ H5). set (k6 := set_objs _ k5).
  kstep (load_Ok (O := loader_object) ldr ld k6 Hld).
  assert (k_procs k6 !! proc = Some (set_p_loader ldr (set_p_vspace space (set_fd_counter 0 b)))) as H6 by apply lookup_insert_eq.
  kstep (change_Ok (O := proc_object) proc (set_heap_brk (min_heap_break ld)) k6 _ H6).
  f_equal. unfold with_proc, new_proc, k6, k5, k4, k3, k2, k1. cbn -[set_heap_brk set_p_loader set_p_vspace set_fd_counter].
  by rewrite !insert_insert_eq.
Qed.

(** The first context of a thread of the program. *)
Definition first_context (t : task_t) (ld : loader_t) (us : userstack_t) : context_t :=
  context_fill (junk_context (t_context t)) (entry_addr ld) (stack_ptr us) CTX_USERMODE 0 0.

(** The kernel with the stack and the thread of a process. *)
Definition with_thread k proc (pr : proc_t) (ld : loader_t) stack thread (t : task_t) ls lt tl q s : kernel :=
  set_sched_tasks q (set_k_procs (<[proc := set_p_task_list lt (set_stack_list ls pr)]> (k_procs k))
    (set_k_store s (set_k_tasks (<[thread := set_t_process proc t]> (k_tasks k))
      (set_k_contexts (<[t_context t := first_context t ld (new_stack 0)]> (k_contexts k))
        (set_tid_counter (u64 (tid_counter k + 1)) (set_task_count (u64 (task_count k + 1)) (set_tl_list tl
          (set_k_stacks (<[stack := new_stack 0]> (k_stacks k)) k)))))))).

Lemma thread_joins k proc pr thread t i lt q s s' y :
  k_procs k !! proc = Some pr → k_tasks k !! thread = Some t → list_add (p_task_list pr) thread (k_store k) = Ok (i, lt, s) →
  list_add (sched_tasks k) thread s = Ok (y, q, s') →
  (change thread (set_t_process proc);;
   pr ← load (T := proc_t) proc;
   '(_, l) ← on_store (list_add (p_task_list pr) thread);
   change proc (set_p_task_list l);;
   sched_insert thread;;
   mret SUCCESS) k =
  Ok (SUCCESS, set_sched_tasks q (set_k_store s' (set_k_procs (<[proc := set_p_task_list lt pr]> (k_procs k))
                 (set_k_tasks (<[thread := set_t_process proc t]> (k_tasks k)) k)))).
Proof.
  intros Hp Ht Ha Hb. kstep (change_Ok (O := task_object) thread (set_t_process proc) k t Ht). set (k1 := set_objs _ k).
  kstep (load_Ok (O := proc_object) proc pr k1 Hp).
  assert (on_store (list_add (p_task_list pr) thread) k1 = Ok ((i, lt), set_k_store s k1)) as Ho by (unfold on_store; change (k_store k1) with (k_store k); by rewrite Ha).
  kstep Ho. kstep (change_Ok (O := proc_object) proc (set_p_task_list lt) (set_k_store s k1) pr Hp). set (k2 := set_objs _ (set_k_store s k1)).
  by kstep (sched_insert_Ok thread k2 y q s' Hb).
Qed.

(** [proc_start] from the stack on. *)
Definition main_thread_of (ldr proc : Z) : K kernel Z :=
  stack ← create_stack proc;
  st ← load (T := userstack_t) stack;
  ld ← load (T := loader_t) ldr;
  pr ← load (T := proc_t) proc;
  main_thread ← create_user_task junk_context (p_vspace pr) (entry_addr ld) st;
  change main_thread (set_t_process proc);;
  pr ← load (T := proc_t) proc;
  '(_, l) ← on_store (list_add (p_task_list pr) main_thread);
  change proc (set_p_task_list l);;
  sched_insert main_thread;;
  mret SUCCESS.

Lemma start_thread k proc pr ldr ld xs ys u src old :
  stage [(tl_list k, xs); (sched_tasks k, ys)] u src old [48; 24; 72; KSTACK_SIZE; 24; 24; 24] (k_store k) →
  Z.of_nat (length xs) + 1 < 2 ^ 64 → Z.of_nat (length ys) + 1 < 2 ^ 64 → tl_lock k = MUTEX_INITIALIZER →
  k_procs k !! proc = Some pr → stack_list pr = list_init → p_task_list pr = list_init → stack_list_lock pr = MUTEX_INITIALIZER →
  k_loaders k !! ldr = Some ld →
  ∃ stack thread kstack a j it iq ls lt tl q s, let t := made_task (tid_counter k) (p_vspace pr) kstack 0 in
    main_thread_of ldr proc k = Ok (SUCCESS, with_thread k proc pr ld stack thread t ls lt tl q s) ∧
    stage [(q, ys ++ [(iq, thread)]); (lt, [(j, thread)]); (tl, xs ++ [(it, thread)]); (ls, [(a, stack)])] u src
      ({[kstack; thread; stack]} ∪ old) [] s ∧
    NoDup [kstack; thread; stack] ∧ (∀ p, p ∈ [kstack; thread; stack] → p ∉ km_live (heap (k_store k))).
Proof.
  intros Hst Hlx Hly Hlk Hp Hsl Htl Hsk Hld.
  destruct (stage_alloc _ _ _ _ _ _ _ Hst) as (stack & h1 & Ha1 & Hf1 & _ & Hl1 & Hst1).
  destruct (stage_add _ _ _ _ _ _ _ _ stack (stage_nil _ _ _ _ _ _ Hst1)) as (a & i1 & ls & s1 & Hadd1 & Hl2 & Hst2); [done|].
  assert (stacks_ok k proc pr []) as Hok.
  { split; [done|done|apply (ls_store _ _ (sg_lists _ _ _ _ _ _ Hst))|rewrite Hsl; apply list_init_repr|done|done|by intros ? ?%elem_of_nil|constructor]. }
  rewrite <- Hsl in Hadd1.
  destruct (stage_alloc _ _ _ _ _ _ _ Hst2) as (thread & h2 & Ha2 & Hf2 & _ & Hl3 & Hst3).
  destruct (stage_alloc _ _ _ _ _ _ _ Hst3) as (kstack & h3 & Ha3 & Hf3 & _ & Hl4 & Hst4). simpl in Ha2, Ha3, Hf2, Hf3, Hl2, Hl3, Hl4, Hst4.
  rewrite (Permutation_swap (tl_list k, xs)) in Hst4.
  destruct (stage_add _ _ _ _ _ _ _ _ thread Hst4) as (it & i2 & tl & s2 & Hadd2 & Hl5 & Hst5); [done|].
  destruct (stage_add _ _ _ _ _ _ _ _ thread (stage_nil _ _ _ _ _ _ Hst5)) as (j & i3 & lt & s3 & Hadd3 & Hl6 & Hst6); [done|].
  assert ([(lt, [] ++ [(j, thread)]); (tl, xs ++ [(it, thread)]); (ls, [] ++ [(a, stack)]); (sched_tasks k, ys)] ≡ₚ
    [(sched_tasks k, ys); (lt, [(j, thread)]); (tl, xs ++ [(it, thread)]); (ls, [(a, stack)])]) as HP by solve_Permutation.
  rewrite HP in Hst6.
  destruct (stage_add _ _ _ _ _ _ _ _ thread Hst6) as (iq & i4 & q & s4 & Hadd4 & Hl7 & Hst7); [done|].
  exists stack, thread, kstack, a, j, it, iq, ls, lt, tl, q, s4. intros t.
  assert ({[kstack; thread; stack]} ∪ old = {[kstack]} ∪ ({[thread]} ∪ ({[stack]} ∪ old))) as -> by (clear; set_solver).
  rewrite Hl2, Hl1 in Hf2. rewrite Hl3, Hl2, Hl1 in Hf3. split_and!; [|exact Hst7| |].
  - unfold main_thread_of. kstep (create_stack_adds k proc pr [] stack h1 i1 ls s1 Hok ltac:(by intros ? ?%elem_of_nil) Ha1 Hadd1).
    set (k1 := set_k_procs _ _). assert (k_stacks k1 !! stack = Some (new_stack 0)) as Hs1 by apply lookup_insert_eq.
    kstep (load_Ok (O := stack_object) stack _ k1 Hs1). kstep (load_Ok (O := loader_object) ldr ld k1 Hld).
    assert (k_procs k1 !! proc = Some (set_stack_list ls pr)) as Hp1 by apply lookup_insert_eq.
    kstep (load_Ok (O := proc_object) proc _ k1 Hp1). unfold create_user_task. change (p_vspace (set_stack_list ls pr)) with (p_vspace pr).
    kstep (create_task_Ok junk_context k1 (entry_addr ld) (λ _, stack_ptr (new_stack 0)) CTX_USERMODE 0 0 (p_vspace pr) (λ _, us_index (new_stack 0))
      thread kstack h2 h3 i2 tl s2 Hlk Ha2 Ha3 Hadd2).
    set (k2 := with_task _ _ _ _ _ _). assert (k_tasks k2 !! thread = Some t) as Ht2 by apply lookup_insert_eq.
    assert (p_task_list (set_stack_list ls pr) = list_init) as Htl' by done. rewrite <- Htl' in Hadd3.
    rewrite (thread_joins k2 proc _ thread t i3 lt q s3 s4 i4 Hp1 Ht2 Hadd3 Hadd4).
    unfold k2, k1, with_thread, with_task. cbn -[set_p_task_list set_stack_list set_t_process made_task first_context new_stack].
    by rewrite !insert_insert_eq.
  - repeat (apply list.NoDup_cons; split); [..|apply list.NoDup_nil]; set_solver.
  - intros p. rewrite !elem_of_cons, elem_of_nil. set_solver.
Qed.

(** ** The theorem *)

(** A process that has just been started by a program file with the loader [ldr], from the
    state [k] to [k']. *)
Record process_started k k' xs ys src (ldr : Z) (ld : loader_t) (proc space stack thread : Z) : Prop := {
  ps_fresh : NoDup [proc; space; stack; thread] ∧
    ∀ p, p ∈ [proc; space; stack; thread] → p ∉ km_live (heap (k_store k)) ∧ p ∈ km_live (heap (k_store k'));
  ps_proc : ∃ pr j, k_procs k' = <[proc := pr]> (k_procs k) ∧ pid pr = pid_counter k ∧ p_state pr = PROC_RUNNING ∧
    p_vspace pr = space ∧ p_loader pr = ldr ∧ heap_brk pr = min_heap_break ld ∧
    fd_list pr = list_init ∧ fd_counter pr = 0 ∧ fd_list_lock pr = MUTEX_INITIALIZER ∧ heap_lock pr = MUTEX_INITIALIZER ∧
    task_list_lock pr = MUTEX_INITIALIZER ∧ list_repr (p_task_list pr) [(j, thread)] (k_store k') ∧
    ∃ a, stacks_ok k' proc pr [(a, stack)];
  ps_stack : k_stacks k' = <[stack := new_stack 0]> (k_stacks k);
  ps_space : ∃ u, k_vspaces k' = <[space := {| vs_lock := MUTEX_INITIALIZER; pml4_ppn := u |}]> (k_vspaces k) ∧
    ¬ used (phys_of k) u ∧ used (phys_of k') u ∧ ram (phys_of k') !! u = Some (high_half src) ∧
    ∀ v, i3 v < 256 → translate (ram (phys_of k')) u v = None;
  ps_thread : ∃ t c, k_tasks k' = <[thread := t]> (k_tasks k) ∧ k_contexts k' = <[t_context t := c]> (k_contexts k) ∧
    tid t = tid_counter k ∧ t_state t = TASK_RUNNING ∧ irq_wait t = false ∧ t_process t = proc ∧ t_vspace t = space ∧
    user_stack t = 0 ∧ kstack_base t ∉ km_live (heap (k_store k)) ∧ kstack_base t ∈ km_live (heap (k_store k')) ∧
    kstack_ptr t = stack_align (kstack_base t + KSTACK_SIZE) ∧ t_context t = kstack_ptr t - sizeof_context ∧
    rip c = entry_addr ld ∧ rsp c = USER_BREAK - STACK_SIZE ∧ (cs c, ss c) = selectors CTX_USERMODE ∧ rflags c = BIT 9;
  ps_lists : ∃ i j, list_repr (tl_list k') (xs ++ [(i, thread)]) (k_store k') ∧
    list_repr (sched_tasks k') (ys ++ [(j, thread)]) (k_store k');
  ps_loader : k_loaders k' !! ldr = Some ld;
  ps_store : store_wf (k_store k');
  ps_counters : pid_counter k' = u64 (pid_counter k + 1) ∧ tid_counter k' = u64 (tid_counter k + 1) ∧
    task_count k' = u64 (task_count k + 1);
  ps_rest : k_loaders k' = k_loaders k ∧ k_ufds k' = k_ufds k ∧ k_vfs k' = k_vfs k ∧ k_images k' = k_images k ∧ k_fs k' = k_fs k ∧
    current_task k' = current_task k ∧ k_cr3 k' = k_cr3 k ∧ tl_lock k' = tl_lock k ∧ sched_enabled k' = sched_enabled k ∧
    k_handlers k' = k_handlers k ∧ kernel_sp k' = kernel_sp k ∧ irq_handlers k' = irq_handlers k ∧ irq_ongoing k' = irq_ongoing k ∧ k_out k' = k_out k;
}.

(** All of that holds in the state that [start_thread] describes. *)
Lemma started_from k xs ys src ldr ld proc space u stack thread kstack a j it iq ls lt tl q s sA :
  let pr := new_proc proc (pid_counter k) space ldr ld in
  let vs := {| vs_lock := MUTEX_INITIALIZER; pml4_ppn := u |} in
  let t := made_task (tid_counter k) space kstack 0 in
  stage [(q, ys ++ [(iq, thread)]); (lt, [(j, thread)]); (tl, xs ++ [(it, thread)]); (ls, [(a, stack)])] u src
    ({[kstack; thread; stack]} ∪ ({[proc; space]} ∪ km_live (heap (k_store k)))) [] s →
  NoDup [proc; space] → proc ∉ km_live (heap (k_store k)) → space ∉ km_live (heap (k_store k)) →
  NoDup [kstack; thread; stack] → (∀ p, p ∈ [kstack; thread; stack] → p ∉ {[proc; space]} ∪ km_live (heap (k_store k))) →
  ¬ used (phys_of k) u → k_loaders k !! ldr = Some ld →
  process_started k (with_thread (with_proc k proc pr space vs sA) proc pr ld stack thread t ls lt tl q s)
    xs ys src ldr ld proc space stack thread.
Proof.
  intros pr vs t [[Hs Hr _] [[H0 Hu] _ Hw] Hlive _] Hnd1 Hp Hsp Hnd2 Hfr Hnu Hld.
  assert (∀ p, p ∈ [kstack; thread; stack] → p ∈ km_live (heap s)) as Hin by (intros p Hpin; apply Hlive; set_solver).
  split; simpl; try done.
  - split.
    + apply (list.NoDup_app [proc; space] [stack; thread]). split_and!; [done| |].
      * intros p Hpin Hin2. apply (Hfr p); set_solver.
      * apply list.NoDup_cons in Hnd2 as [_ Hnd2]. by apply (NoDup_Permutation_proper _ _ (Permutation_swap thread stack [])) .
    + intros p Hpin. assert (p ∈ [proc; space] ∨ p ∈ [stack; thread]) as [Hc|Hc] by set_solver.
      * split; [|apply Hlive; set_solver]. rewrite !elem_of_cons, elem_of_nil in Hc. by destruct Hc as [->|[->|[]]].
      * split; [|apply Hlive; set_solver]. intros Hx. apply (Hfr p); set_solver.
  - exists (set_p_task_list lt (set_stack_list ls pr)), j. rewrite insert_insert_eq. split_and!; [done..|apply Hr; set_solver|]. exists a.
    split; simpl; [apply lookup_insert_eq|done|done|apply Hr; set_solver|done| | |apply list.NoDup_singleton].
    + intros [|[]] x [= <-]. eexists. split; [apply lookup_insert_eq|]. by apply (new_stack_at 0).
    + intros x ->%list_elem_of_singleton. apply Hin. set_solver.
  - exists u. split_and!; [done|done|done|done|]. intros v. by apply (high_half_low _ _ src).
  - eexists _, _. split_and!; [done..| | | | | | | |]; try done; simpl.
    + intros Hx. apply (Hfr kstack); set_solver.
    + apply Hin. set_solver.
  - exists it, iq. split; apply Hr; set_solver.
Qed.

(** The end of [proc_start], when the program file is open and has been recognised. *)
Lemma start_loaded k vkernel xs ys src proc space h2 ldr ld :
  startable k vkernel xs ys → supply vkernel src (heap (k_store k)) proc space h2 → k_loaders k !! ldr = Some ld →
  no_lock (junk_mutex space) → (∀ off, off ∈ [64; 168; 280; 368] → no_lock (junk_mutex (proc + off))) →
  ∀ filename k0 k1 fd, ldr ≠ 0 → vfs_open junk junk_mutex filename k0 = Ok ((SUCCESS, Some fd), k1) →
  loader_create junk_bytes junk_mutex fd k1 = Ok (ldr, k) →
  ∃ k' stack thread, proc_start junk junk_mutex junk_bytes junk_context VSPACE_KERNEL filename k0 = Ok (SUCCESS, k') ∧
    process_started k k' xs ys src ldr ld proc space stack thread.
Proof.
  intros Hk Hsu Hld Hjs Hjp filename k0 k1 fd Hnz Ho Hl.
  unfold proc_start. kstep Ho. change (SUCCESS <? 0) with false. cbv iota. change (default 0 (Some fd)) with fd.
  kstep Hl. rewrite (proj2 (Z.eqb_neq ldr 0) Hnz).
  destruct (start_proc_begin (main_thread_of ldr) k vkernel xs ys src proc space h2 ldr ld Hk Hsu Hld Hjs Hjp) as (u & st & Hsp & Hb).
  destruct (stage_begin k vkernel xs ys src proc space h2 u st Hk Hsu Hsp) as (Hst & Hnd & _ & Hp & Hs & Hnu).
  set (vs := {| vs_lock := MUTEX_INITIALIZER; pml4_ppn := u |}) in *. set (pr := new_proc proc (pid_counter k) space ldr ld) in *.
  set (kA := with_proc k proc pr space vs {| nodes := nodes (k_store k); heap := set_phys st h2 |}) in *.
  destruct (start_thread kA proc pr ldr ld xs ys u src _ Hst) as (stack & thread & kstack & a & j & it & iq & ls & lt & tl & q & s & Hr & Hst' & Hnd' & Hfr);
    [apply Hk|apply Hk|apply Hk|apply lookup_insert_eq|done|done|done|done|].
  eexists _, stack, thread. split; [etrans; [exact Hb|exact Hr]|].
  apply (started_from k xs ys src ldr ld proc space u stack thread kstack a j it iq ls lt tl q s); try done.
  intros p Hpin Hx. apply (Hfr p Hpin). by apply (sg_old _ _ _ _ _ _ Hst).
Qed.
End start.

(** ** A process from the file "init" *)

#[local] Existing Instance debug_build.
Import Machine.

(** A program of one segment, behind the header and the table with it. *)
Definition init_content : list Z :=
  [0x7f; 0x45; 0x4c; 0x46; 2; 1; 1] ++ replicate 9 0 ++ le_split 2 2 ++ le_split 2 0x3e ++ le_split 4 1 ++
  le_split 8 0x100000 ++ le_split 8 64 ++ le_split 8 0 ++ le_split 4 0 ++ le_split 2 64 ++ le_split 2 56 ++ le_split 2 1 ++
  replicate 6 0 ++
  le_split 4 1 ++ le_split 4 5 ++ le_split 8 0 ++ le_split 8 0x100000 ++ le_split 8 0 ++ le_split 8 120 ++ le_split 8 5000 ++
  le_split 8 4096.
#[local] Instance init_files : Drivers t unit := {|
  call_read fn data len off k :=
    let n := Z.min len (Z.of_nat (length init_content) - off) in Ok ((n, slice off n init_content), k);
  call_probe _ _ := kstop Fault; call_mount _ _ := kstop Fault; call_fetch _ _ _ := kstop Fault |}.
#[local] Instance init_file_drivers : FileDrivers t unit.
Proof.
  refine {| file_content _ _ _ := Some init_content |}. intros k fn data content off len [= <-] _ _.
  exists k. split; [done|]. split; [apply quiet_refl|done].
Defined.
#[local] Instance no_devices : BlockDevices t unit := {|
  bd_open _ _ := kstop Fault; bd_get_by_name _ := kstop Fault; blockdev_mknodes := kstop Fault |}.

(** The root directory, 100, holds the file; the task 7 is a kernel task. *)
Definition init_name : list Z := [105; 110; 105; 116].
Definition root_list : list_t * store t :=
  match list_add list_init 9 (k_store start) with Ok (_, l, s) => (l, s) | Stop _ => (list_init, k_store start) end.
Definition init_vfs : vfs_t :=
  {| v_fds := ∅;
     v_files := {[ 101 := demo_file F_DIR (Directory 100); 104 := demo_file F_REGULAR NoSpecial ]};
     v_dirs := {[ 100 := {| d_file := 101; d_files := root_list.1; d_parent := 100; mounted := 0; d_fstype := 60; d_driver := 0 |} ]};
     v_dentries := {[ 9 := {| de_name := init_name; de_inode := 4; de_file := 104 |} ]};
     v_types := {[ 60 := {| fs_name := []; mbr_id := 0; fs_probe := 0; fs_mount := 0; fs_fetch_op := 0;
                            fs_f_ops := {| op_read := 1; op_write := 0 |} |} ]};
     VFS_ROOT := 100; fs_tree_lock := MUTEX_INITIALIZER; fs_list := list_init;
     fs_list_lock := MUTEX_INITIALIZER; vfs_initialized := true |}.
Definition before_init : Kernel.kernel t unit :=
  set_k_vfs init_vfs (set_k_store root_list.2 (set_k_procs ∅ (set_k_loaders ∅ (set_k_tasks {[ 7 := set_t_process 0 user_task ]} start)))).

Definition junk1 (_ : Z) : Z := 1.
Definition junk_mx (_ : Z) : mutex_t := zero_mutex.
Definition junk_zeros (_ : Z) (n : nat) : list Z := replicate n 0.
Definition init_opened : Kernel.kernel t unit := ran (vfs_open junk1 junk_mx (47 :: init_name) before_init) before_init.
Definition init_loaded : Kernel.kernel t unit := ran (loader_create junk_zeros junk_mx 64 init_opened) init_opened.

Lemma init_opened_eq : vfs_open junk1 junk_mx (47 :: init_name) before_init = Ok ((SUCCESS, Some 64), init_opened).
Proof. vm_compute. reflexivity. Qed.

Lemma init_loaded_eq : loader_create junk_zeros junk_mx 64 init_opened = Ok (240, init_loaded).
Proof. vm_compute. reflexivity. Qed.

Lemma init_program_ok : program_ok init_content.
Proof. split; vm_compute; repeat split; discriminate. Qed.

Lemma init_file_opened : opened init_opened 64 init_content.
Proof. eexists. split; [vm_compute; reflexivity|]. split; [vm_compute; discriminate|reflexivity]. Qed.

Lemma init_startable : startable 1 init_loaded demo_vs [] [].
Proof.
  split; [split| | |].
  - split; [split|..]; apply (bool_decide_unpack _); vm_compute; exact I.
  - intros l xs. rewrite !elem_of_cons, elem_of_nil. intros [[= -> ->]|[[= -> ->]|[]]]; apply list_init_repr.
  - constructor.
  - done.
  - vm_compute. reflexivity.
  - vm_compute. reflexivity.
Qed.

Definition init_heap (n : Z) (h : t) : t := match km_alloc n h with Ok (_, h') => h' | Stop _ => h end.
Definition init_heap2 : t := init_heap 80 (init_heap 456 (heap (k_store init_loaded))).

Lemma init_supply : supply demo_vs ∅ (heap (k_store init_loaded)) 416 872 init_heap2.
Proof.
  assert (phys init_heap2 = demo_pages) as Hp by (vm_compute; reflexivity). split.
  - exists (init_heap 456 (heap (k_store init_loaded))). split_and!; [exact I|vm_compute; reflexivity|exact I|vm_compute; reflexivity].
  - rewrite Hp. split; vm_compute; reflexivity.
  - rewrite Hp. split; [apply demo_pages_wf|]. apply (free_room_le 3); [lia|exact demo_room].
  - intros u st _ _. repeat (split; [exact I|eexists _, _; split; [reflexivity|]]). exact I.
Qed.

