(* ===== verification/Reap.v ===== *)
(** The end of a process: sched/tasklist.c down to the pages.  What the last thread of a process
    leaves behind when the cleanup task deletes it, with the loader of the program, the stacks
    and the address space. *)
From S2P Require Import Prelude Words Mutex Bitmap PageAlloc Dll Lists Vspace Space Kernel UserMem Teardown Vfs Loader Proc.
Open Scope Z_scope.

Section reap.
Context {A F : Type} `{B : Build} `{KM : Kmalloc A} {KL : KmallocLaws A} {PM : PhysMem A} {KF : KmallocFrame A}.
Abbreviation kernel := (Kernel.kernel A F).
Implicit Types (k : kernel) (pr : proc_t) (ld : loader_t) (vs : vspace_t) (D : list Z) (Q : Z → Prop).

(** From [s] to [s'] the memory at the addresses in [D] and the pages in [Q] are given back, and
    pages that were the allocator's own; all else is as it was. *)
Record gives D Q (s s' : store A) : Prop := {
  gv_store : store_wf s';
  gv_live : km_live (heap s') = km_live (heap s) ∖ list_to_set D;
  gv_wf : pages_wf (phys (heap s'));
  gv_count : PageAlloc.page_count (phys (heap s')) = PageAlloc.page_count (phys (heap s));
  gv_own q : km_own (heap s') q → km_own (heap s) q;
  gv_ram q : ¬ km_own (heap s) q → ram (phys (heap s')) !! q = ram (phys (heap s)) !! q;
  gv_pages q : ¬ km_own (heap s) q → 0 <= q → used (phys (heap s')) q ↔ used (phys (heap s)) q ∧ ¬ Q q;
  gv_nodes : ∀ a, nodes s !! a = None → nodes s' !! a = None;
}.

Lemma gives_none s : store_wf s → pages_wf (phys (heap s)) → gives [] (λ _, False) s s.
Proof. intros. split; try done; [set_solver|naive_solver]. Qed.

Lemma gives_trans D1 D2 Q1 Q2 s1 s2 s3 :
  gives D1 Q1 s1 s2 → gives D2 Q2 s2 s3 → gives (D1 ++ D2) (λ q, Q1 q ∨ Q2 q) s1 s3.
Proof.
  intros [Hs1 Hl1 Hw1 Hc1 Ho1 Hr1 Hp1 Hn1] [Hs2 Hl2 Hw2 Hc2 Ho2 Hr2 Hp2 Hn2]. split; [done| |done|congruence|auto| | |auto].
  - rewrite Hl2, Hl1, list_to_set_app_L. set_solver.
  - intros q Hq. rewrite Hr2, Hr1; auto.
  - intros q Hq H0. rewrite Hp2, Hp1 by auto. tauto.
Qed.

Lemma gives_weaken D Q Q' s s' : (∀ q, Q q ↔ Q' q) → gives D Q s s' → gives D Q' s s'.
Proof. intros He [? ? ? ? ? ? Hp]. split; try done. intros q Hq H0. by rewrite Hp, He. Qed.

(** A block that can be freed: allocated, and no list item. *)
Definition block (s : store A) (p : Z) : Prop := p ≠ 0 ∧ p ∈ km_live (heap s) ∧ nodes s !! p = None.

Lemma block_gives D Q s s' p : gives D Q s s' → p ∉ D → block s p → block s' p.
Proof.
  intros Hg Hp (? & ? & ?). split_and!; [done| |by apply (gv_nodes _ _ _ _ Hg)].
  rewrite (gv_live _ _ _ _ Hg), elem_of_difference, elem_of_list_to_set. done.
Qed.

Lemma free_gives p k :
  store_wf (k_store k) → pages_wf (phys_of k) → block (k_store k) p →
  ∃ h, free p k = Ok (tt, set_k_store {| nodes := nodes (k_store k); heap := h |} k) ∧
    gives [p] (λ _, False) (k_store k) {| nodes := nodes (k_store k); heap := h |}.
Proof.
  intros Hs Hwf (Hz & Hp & Hno). pose proof Hs as [Hi Hl Hn]. destruct (km_free_ok p _ Hi Hp) as (h & Hf & Hi' & Hl'). exists h. split.
  { unfold free. rewrite (proj2 (Z.eqb_neq _ _) Hz). unfold on_heap, on_store. by rewrite Hf. }
  destruct (km_free_kept p _ h Hi Hp Hf) as (Hw' & Hc & Ho & Hk).
  split; simpl; [|set_solver|auto|done|done| | |done].
  - split; simpl; [done| |done]. rewrite Hl'. intros a Ha. apply elem_of_difference. split; [by apply Hl|].
    intros ->%elem_of_singleton. by apply elem_of_dom in Ha as [? Ha]; rewrite Hno in Ha.
  - intros q Hq. by apply Hk.
  - intros q Hq H0. destruct (Hk q Hq) as [_ ->]; [tauto|done].
Qed.

(** [kfree] after other memory has been given back. *)
Lemma free_next p k D Q s0 :
  gives D Q s0 (k_store k) → block s0 p → p ∉ D →
  ∃ s, free p k = Ok (tt, set_k_store s k) ∧ gives (D ++ [p]) Q s0 s.
Proof.
  intros Hg Hb Hp. pose proof (block_gives _ _ _ _ _ Hg Hp Hb) as Hb'.
  destruct (free_gives p k (gv_store _ _ _ _ Hg) (gv_wf _ _ _ _ Hg) Hb') as (h & Hf & Hg').
  eexists. split; [exact Hf|]. eapply gives_weaken; [|exact (gives_trans _ _ _ _ _ _ _ Hg Hg')]. tauto.
Qed.

(** ** The loader *)

(** What the loader holds when its last process goes: the open file, the two tables it has read
    and its own structure. *)
Definition loader_memory (p : Z) ld : list Z :=
  if ld_refs ld =? 1 then ld_file ld :: ld_header ld :: (if ld_pht ld =? 0 then [] else [ld_pht ld]) ++ [p] else [].

(** The state after [loader_release], with the store [s]. *)
Definition released (p : Z) ld (s : store A) k : kernel :=
  if ld_refs ld =? 1
  then set_k_loaders (delete p (k_loaders k))
         (set_k_vfs (set_v_fds (delete (ld_file ld) (v_fds (k_vfs k))) (k_vfs k)) (set_k_store s k))
  else set_k_loaders (<[p := set_ld_refs (ld_refs ld - 1) ld]> (k_loaders k)) k.

(** Its deletion, after the lock has been given back. *)
Lemma loader_drop p ld k :
  k_loaders k !! p = Some ld → ld_lock ld = MUTEX_INITIALIZER → ld_refs ld = 0 →
  store_wf (k_store k) → pages_wf (phys_of k) → NoDup (loader_memory p (set_ld_refs 1 ld)) →
  (∀ b, b ∈ loader_memory p (set_ld_refs 1 ld) → block (k_store k) b) →
  ∃ s, gives (loader_memory p (set_ld_refs 1 ld)) (λ _, False) (k_store k) s ∧
    (vfs_close (ld_file ld);; free (ld_header ld);; when (negb (ld_pht ld =? 0)) (free (ld_pht ld));;
     l ← load (T := loader_t) p; lk ← lift (mutex_destroy (ld_lock l)); change p (set_ld_lock lk);; free p;; drop_obj loader_t p) k =
    Ok (tt, set_k_loaders (delete p (k_loaders k))
              (set_k_vfs (set_v_fds (delete (ld_file ld) (v_fds (k_vfs k))) (k_vfs k)) (set_k_store s k))).
Proof.
  intros Hld Hlk Hr Hs Hwf Hnd Hb. unfold loader_memory in *. cbn [set_ld_refs ld_refs ld_file ld_header ld_pht] in *.
  change (1 =? 1) with true in *. cbn iota in *.
  apply list.NoDup_cons in Hnd as [Hn1 Hnd]. apply list.NoDup_cons in Hnd as [Hn2 Hnd]. rewrite elem_of_cons in Hn1.
  destruct (free_next (ld_file ld) k [] _ (k_store k) (gives_none _ Hs Hwf)) as (s1 & Hf1 & Hg1); [apply Hb; by left|by apply not_elem_of_nil|].
  assert (vfs_close (ld_file ld) k = Ok (tt, set_k_vfs (set_v_fds (delete (ld_file ld) (v_fds (k_vfs k))) (k_vfs k)) (set_k_store s1 k))) as Hcl
    by (unfold vfs_close; by kstep Hf1).
  kstep Hcl. set (k1 := set_k_vfs _ _).
  destruct (free_next (ld_header ld) k1 _ _ (k_store k) Hg1) as (s2 & Hf2 & Hg2); [apply Hb; by right; left|set_solver|].
  kstep Hf2. simpl app in Hg2.
  assert (∃ s3, when (negb (ld_pht ld =? 0)) (free (ld_pht ld)) (set_k_store s2 k1) = Ok (tt, set_k_store s3 k1) ∧
    gives (ld_file ld :: ld_header ld :: (if ld_pht ld =? 0 then [] else [ld_pht ld])) (λ _, False) (k_store k) s3) as (s3 & Hf3 & Hg3).
  { destruct (ld_pht ld =? 0); [by exists s2|].
    destruct (free_next (ld_pht ld) (set_k_store s2 k1) _ _ (k_store k) Hg2) as (s3 & Hf3 & Hg3); [apply Hb; set_solver|set_solver|by exists s3]. }
  kstep Hf3. kstep (load_Ok (O := loader_object) p ld (set_k_store s3 k1) Hld). rewrite Hlk.
  assert (∃ m, mutex_destroy MUTEX_INITIALIZER = Ok m) as [m Hm] by (unfold mutex_destroy, spin_destroy, assert_; destruct DEBUG; by eexists).
  assert (lift (mutex_destroy MUTEX_INITIALIZER) (set_k_store s3 k1) = Ok (m, set_k_store s3 k1)) as Hlm by (unfold lift; by rewrite Hm).
  kstep Hlm. kstep (change_Ok (O := loader_object) p (set_ld_lock m) (set_k_store s3 k1) ld Hld).
  destruct (free_next p (set_k_loaders (<[p := set_ld_lock m ld]> (k_loaders k)) (set_k_store s3 k1)) _ _ (k_store k) Hg3) as (s4 & Hf4 & Hg4).
  { apply Hb. set_solver. }
  { intros Hin. apply list.NoDup_app in Hnd as (_ & Hd & _). set_solver. }
  exists s4. split; [exact Hg4|]. kstep Hf4. unfold drop_obj, modify. cbn. by rewrite delete_insert_eq.
Qed.



Lemma loader_release_spec p ld k :
  k_loaders k !! p = Some ld → ld_lock ld = MUTEX_INITIALIZER → 0 < ld_refs ld < 2 ^ 64 →
  store_wf (k_store k) → pages_wf (phys_of k) → NoDup (loader_memory p ld) →
  (∀ b, b ∈ loader_memory p ld → block (k_store k) b) →
  ∃ s, loader_release p k = Ok (tt, released p ld s k) ∧ gives (loader_memory p ld) (λ _, False) (k_store k) s ∧
    k_store (released p ld s k) = s.
Proof.
  intros Hld Hlk Hr Hs Hwf Hnd Hb. unfold loader_release.
  kstep (lock_in_idle (O := loader_object) ld_lock set_ld_lock p ld k Hld Hlk).
  set (k1 := set_objs _ k). assert (k_loaders k1 !! p = Some (set_ld_lock (mx_taken (current_task k)) ld)) as H1 by apply lookup_insert_eq.
  kstep (change_Ok (O := loader_object) p (λ l, set_ld_refs (u64 (ld_refs l - 1)) l) k1 _ H1).
  set (k2 := set_objs _ k1). assert (k_loaders k2 !! p = Some (set_ld_refs (u64 (ld_refs ld - 1)) (set_ld_lock (mx_taken (current_task k)) ld)))
    as H2 by apply lookup_insert_eq.
  kstep (load_Ok (O := loader_object) p _ k2 H2).
  kstep (unlock_in_taken (O := loader_object) ld_lock set_ld_lock p _ k2 H2 eq_refl).
  set (k3 := set_objs _ k2). assert (k3 = set_k_loaders (<[p := set_ld_refs (u64 (ld_refs ld - 1)) ld]> (k_loaders k)) k) as E.
  { assert (∀ l r, set_ld_lock MUTEX_INITIALIZER (set_ld_refs r (set_ld_lock l ld)) = set_ld_refs r ld) as E0
      by (intros; destruct ld; simpl in *; by subst).
    unfold k3, k2, k1. cbn -[set_ld_lock set_ld_refs]. by rewrite !insert_insert_eq, E0. }
  rewrite E. cbn [ld_refs ld_file ld_header ld_pht set_ld_refs set_ld_lock].
  rewrite (uwrap_small 64) by (unfold is_word; change (2 ^ 64) with 18446744073709551616 in *; lia).
  unfold released, loader_memory in *. destruct (Z.eqb_spec (ld_refs ld) 1) as [He|Hne].
  - rewrite He. change (1 - 1 =? 0) with true. change (1 - 1) with 0. cbn [when].
    destruct (loader_drop p (set_ld_refs 0 ld) (set_k_loaders (<[p := set_ld_refs 0 ld]> (k_loaders k)) k)) as (s & Hg & Hd).
    1-7: first [apply lookup_insert_eq|done].
    exists s. split_and!; [etrans; [exact Hd|]|exact Hg|done]. cbn. by rewrite delete_insert_eq.
  - rewrite (proj2 (Z.eqb_neq (ld_refs ld - 1) 0)) by lia. cbn [when]. exists (k_store k). split_and!; [done|by apply gives_none|done].
Qed.

(** ** The address space *)

#[local] Instance in_space_dec r root p : Decision (in_space r root p).
Proof.
  refine (cast_if (decide (p ∈ subtree r 3 256 0 root ++ [root])));
    abstract (by rewrite in_space_reached, <- elem_of_subtree, <- (list_elem_of_singleton p root), <- elem_of_app).
Defined.

(** Pages that are not the allocator's can go while its memory stays. *)
Lemma space_gives (s : store A) root st' :
  store_wf s → user_tree root (phys (heap s)) → (∀ q, in_space (ram (phys (heap s))) root q → ¬ km_own (heap s) q) →
  ram st' = ram (phys (heap s)) → pages_upd (in_space (ram (phys (heap s))) root) false (phys (heap s)) st' →
  gives [] (in_space (ram (phys (heap s))) root) s {| nodes := nodes s; heap := set_phys st' (heap s) |}.
Proof.
  intros [Hi Hl Hn] Ht Hno Hr [Hwf Hc Hin Hout]. pose proof (ut_used _ _ Ht) as Hu.
  destruct (km_frame st' (heap s) Hi Hwf Hc) as (Hi' & Hl' & Ho').
  { intros q Hq. rewrite Hr. split; [done|]. intros H0 Hq'. unfold used in *.
    rewrite Hout; [done|done|]. intros Hs. by apply (Hno q). }
  split; simpl; rewrite ?phys_set; [by split; simpl; rewrite ?Hl'|rewrite Hl'; set_solver|done|done|by apply Ho'|by rewrite Hr| |done].
  intros q _ H0. unfold used. destruct (decide (in_space (ram (phys (heap s))) root q)) as [Hq|Hq]; [|rewrite Hout by done; tauto].
  rewrite (Hin q) by done. split; [done|tauto].
Qed.

(** [vspace_delete] with the structure and the pages. *)
Lemma k_vspace_delete_spec p vs k :
  k_vspaces k !! p = Some vs → vs_lock vs = MUTEX_INITIALIZER → pml4_ppn vs ≠ SIZE_MAX → user_tree (pml4_ppn vs) (phys_of k) →
  (∀ q, in_space (ram (phys_of k)) (pml4_ppn vs) q → ¬ km_own (heap (k_store k)) q) →
  store_wf (k_store k) → block (k_store k) p →
  ∃ s, k_vspace_delete p k = Ok (tt, set_k_vspaces (delete p (k_vspaces k)) (set_k_store s k)) ∧
    gives [p] (in_space (ram (phys_of k)) (pml4_ppn vs)) (k_store k) s.
Proof.
  intros Hvs Hl Hne Ht Hno Hs Hb. unfold phys_of in *.
  destruct (vspace_delete_spec (current_task k) p vs (heap (k_store k)) Hl Ht Hne) as (st' & Hr & Hupd & Hd).
  pose proof (space_gives (k_store k) (pml4_ppn vs) st' Hs Ht Hno Hr Hupd) as Hg1.
  destruct (free_next p (set_k_store {| nodes := nodes (k_store k); heap := set_phys st' (heap (k_store k)) |} k) [] _ _ Hg1 Hb) as (s & Hf & Hg2);
    [by apply not_elem_of_nil|].
  exists s. split; [|exact Hg2]. unfold k_vspace_delete. kpure. kstep (load_Ok (O := vspace_object) p vs k Hvs).
  destruct Hb as (Hz & _). unfold free in Hf. rewrite (proj2 (Z.eqb_neq _ _) Hz) in Hf. unfold on_heap, on_store in Hf. simpl in Hf.
  destruct (km_free p (set_phys st' (heap (k_store k)))) as [h|] eqn:Hfree; [|done]. simpl in Hf. injection Hf as <-.
  assert (on_heap (vspace_delete (current_task k) p vs) k =
    Ok ({| vs_lock := MUTEX_INITIALIZER; pml4_ppn := SIZE_MAX |}, set_k_store {| nodes := nodes (k_store k); heap := h |} k)) as Ho.
  { unfold on_heap, on_store. by rewrite Hd. }
  kstep Ho. by rewrite (proj2 (Z.eqb_neq _ _) Hne).
Qed.

(** ** The process *)

(** A process after its last thread: no stack and no task, nothing locked, and its address
    space and what its loader holds are its own. *)
Record ending (proc : Z) pr ld vs k : Prop := {
  en_proc : k_procs k !! proc = Some pr;
  en_store : store_wf (k_store k);
  en_stacks : list_repr (stack_list pr) [] (k_store k);
  en_tasks : list_repr (p_task_list pr) [] (k_store k);
  en_locks : heap_lock pr = MUTEX_INITIALIZER ∧ stack_list_lock pr = MUTEX_INITIALIZER ∧ task_list_lock pr = MUTEX_INITIALIZER;
  en_loader : k_loaders k !! p_loader pr = Some ld;
  en_idle : ld_lock ld = MUTEX_INITIALIZER ∧ 0 < ld_refs ld < 2 ^ 64;
  en_vspace : k_vspaces k !! p_vspace pr = Some vs;
  en_unlocked : vs_lock vs = MUTEX_INITIALIZER ∧ pml4_ppn vs ≠ SIZE_MAX;
  en_tree : user_tree (pml4_ppn vs) (phys_of k);
  en_apart q : in_space (ram (phys_of k)) (pml4_ppn vs) q → ¬ km_own (heap (k_store k)) q;
  en_blocks b : b ∈ loader_memory (p_loader pr) ld ++ [p_vspace pr] → block (k_store k) b;
  en_once : NoDup (loader_memory (p_loader pr) ld ++ [p_vspace pr]);
}.

(** A list without items goes without memory. *)
Lemma list_destroy_empty l (s : store A) : list_repr l [] s →
  list_destroy l s = Ok ({| items := items l; magic := 0; first := first l; last := last l |}, s).
Proof.
  intros Hl. pose proof (lr_items _ _ _ Hl) as Hi. simpl in Hi. unfold list_destroy, list_clear.
  rewrite (sanity _ _ _ Hl), Hi. simpl. rewrite Hi. simpl. by rewrite Hi.
Qed.

Lemma destroy_list_spec get (set : list_t → proc_t → proc_t) proc pr k :
  k_procs k !! proc = Some pr → list_repr (get pr) [] (k_store k) →
  ∃ l, destroy_list get set proc k = Ok (tt, set_k_procs (<[proc := set l pr]> (k_procs k)) k).
Proof.
  intros Hp Hl. eexists. unfold destroy_list. kstep (load_Ok (O := proc_object) proc pr k Hp).
  assert (on_store (λ s, '(l, s) ← list_destroy (get pr) s; mret (l, s)) k =
    Ok ({| items := items (get pr); magic := 0; first := first (get pr); last := last (get pr) |}, k)) as Ho.
  { unfold on_store. rewrite (list_destroy_empty _ _ Hl). by destruct k. }
  kstep Ho. exact (change_Ok (O := proc_object) proc _ k pr Hp).
Qed.

Lemma destroy_lock_spec get (set : mutex_t → proc_t → proc_t) proc pr k :
  k_procs k !! proc = Some pr → get pr = MUTEX_INITIALIZER →
  ∃ l, destroy_lock get set proc k = Ok (tt, set_k_procs (<[proc := set l pr]> (k_procs k)) k).
Proof.
  intros Hp Hl. assert (∃ m, mutex_destroy (get pr) = Ok m) as [m Hm]
    by (rewrite Hl; unfold mutex_destroy, spin_destroy, assert_; destruct DEBUG; by eexists).
  exists m. unfold destroy_lock. kstep (load_Ok (O := proc_object) proc pr k Hp).
  assert (lift (mutex_destroy (get pr)) k = Ok (m, k)) as Ho by (unfold lift; by rewrite Hm).
  kstep Ho. exact (change_Ok (O := proc_object) proc _ k pr Hp).
Qed.

Lemma assert_empty_spec l k : list_repr l [] (k_store k) → assert_empty l k = Ok (tt, k).
Proof.
  intros Hl. unfold assert_empty, list_size, lift. unfold mbind, K_bind. rewrite (sanity _ _ _ Hl). simpl.
  rewrite (lr_items _ _ _ Hl). simpl. by rewrite assert_true.
Qed.

Lemma list_repr_nil l (s s' : store A) : list_repr l [] s → list_repr l [] s'.
Proof. by intros []. Qed.

(** The locks and lists of a process go. *)
Lemma destroy_fields proc pr k (m : K kernel unit) :
  k_procs k !! proc = Some pr → list_repr (stack_list pr) [] (k_store k) → list_repr (p_task_list pr) [] (k_store k) →
  heap_lock pr = MUTEX_INITIALIZER → stack_list_lock pr = MUTEX_INITIALIZER → task_list_lock pr = MUTEX_INITIALIZER →
  ∃ pr', p_vspace pr' = p_vspace pr ∧
    (destroy_list p_task_list set_p_task_list proc;; destroy_list stack_list set_stack_list proc;;
     destroy_lock heap_lock set_heap_lock proc;; destroy_lock stack_list_lock set_stack_list_lock proc;;
     destroy_lock task_list_lock set_task_list_lock proc;; m) k = m (set_k_procs (<[proc := pr']> (k_procs k)) k).
Proof.
  intros Hp Hsl Htl Hl1 Hl2 Hl3. set (upd x k := set_k_procs (<[proc := x]> (k_procs k)) k).
  assert (∀ x k', k_procs (upd x k') !! proc = Some x) as Hu by (intros; apply lookup_insert_eq).
  destruct (destroy_list_spec p_task_list set_p_task_list proc pr k Hp Htl) as (l1 & Hd1). kstep Hd1. clear Hd1. fold (upd (set_p_task_list l1 pr) k).
  destruct (destroy_list_spec stack_list set_stack_list proc _ _ (Hu (set_p_task_list l1 pr) k) Hsl) as (l2 & Hd2). kstep Hd2. clear Hd2.
  set (k2 := set_k_procs _ _). set (pr2 := set_stack_list l2 _) in k2. pose proof (Hu pr2 (upd (set_p_task_list l1 pr) k)) as Hp2.
  destruct (destroy_lock_spec heap_lock set_heap_lock proc pr2 k2 Hp2 Hl1) as (m1 & Hm1). kstep Hm1.
  destruct (destroy_lock_spec stack_list_lock set_stack_list_lock proc _ _ (Hu (set_heap_lock m1 pr2) k2) Hl2) as (m2 & Hm2). kstep Hm2.
  destruct (destroy_lock_spec task_list_lock set_task_list_lock proc _ _ (Hu (set_stack_list_lock m2 (set_heap_lock m1 pr2)) (upd (set_heap_lock m1 pr2) k2)) Hl3) as (m3 & Hm3).
  kstep Hm3. eexists. split; [|f_equal; unfold k2, upd; cbn; rewrite !insert_insert_eq; reflexivity]. done.
Qed.

Lemma proc_delete_spec proc pr ld vs k : ending proc pr ld vs k →
  ∃ pr' k', proc_delete proc k = Ok (tt, k') ∧
    gives (loader_memory (p_loader pr) ld ++ [p_vspace pr]) (in_space (ram (phys_of k)) (pml4_ppn vs)) (k_store k) (k_store k') ∧
    k_tasks k' = k_tasks k ∧ k_procs k' = <[proc := pr']> (k_procs k) ∧ k_vspaces k' = delete (p_vspace pr) (k_vspaces k) ∧
    k_loaders k' = (if ld_refs ld =? 1 then delete (p_loader pr) (k_loaders k)
                    else <[p_loader pr := set_ld_refs (ld_refs ld - 1) ld]> (k_loaders k)).
Proof.
  intros [Hp Hs Hsl Htl (Hl1 & Hl2 & Hl3) Hld [Hlk Hrf] Hvs [Hvl Hne] Ht Hno Hb Hnd]. unfold proc_delete.
  kstep (load_Ok (O := proc_object) proc pr k Hp). kstep (assert_empty_spec _ _ Hsl). kstep (assert_empty_spec _ _ Htl).
  apply list.NoDup_app in Hnd as (Hnd & Hni & _).
  destruct (loader_release_spec (p_loader pr) ld k Hld Hlk Hrf Hs (ut_wf _ _ Ht) Hnd) as (s1 & Hrel & Hg1 & Hst1); [intros b Hin; apply Hb, elem_of_app; by left|].
  kstep Hrel. set (k1 := released _ _ _ _) in *.
  assert (k_procs k1 = k_procs k ∧ k_tasks k1 = k_tasks k ∧ k_vspaces k1 = k_vspaces k ∧
    k_loaders k1 = if ld_refs ld =? 1 then delete (p_loader pr) (k_loaders k)
                   else <[p_loader pr := set_ld_refs (ld_refs ld - 1) ld]> (k_loaders k)) as (Ep & Et & Ev & El)
    by (unfold k1, released; by destruct (ld_refs ld =? 1)).
  clearbody k1. edestruct (λ m, destroy_fields proc pr k1 m) as (pr' & Hpv & Hdf); [by rewrite Ep|by eapply list_repr_nil|by eapply list_repr_nil|done|done|done|].
  rewrite Hdf. clear Hdf. set (k2 := set_k_procs (<[proc := pr']> _) _).
  assert (k_procs k2 !! proc = Some pr') as Hp2 by apply lookup_insert_eq. kstep (load_Ok (O := proc_object) proc pr' k2 Hp2). rewrite Hpv.
  pose proof Hg1 as [Hs1 _ Hwf1 Hc1 Ho1 Hr1 Hu1 _].
  assert (∀ q, in_space (ram (phys_of k)) (pml4_ppn vs) q →
    ram (phys (heap s1)) !! q = ram (phys_of k) !! q ∧ (used (phys_of k) q → used (phys (heap s1)) q)) as Hkeep.
  { intros q Hq. pose proof (Hno q Hq) as Hnk. split; [by apply Hr1|]. destruct (ut_used _ _ Ht q Hq) as [[] _]. rewrite Hu1 by done. tauto. }
  pose proof (in_space_frame _ _ _ Hkeep) as Hsame.
  destruct (k_vspace_delete_spec (p_vspace pr) vs k2) as (s2 & Hv & Hg2).
  - change (k_vspaces k2) with (k_vspaces k1). by rewrite Ev.
  - done.
  - done.
  - change (phys_of k2) with (phys_of k1). unfold phys_of. rewrite Hst1. by eapply user_tree_frame.
  - change (phys_of k2) with (phys_of k1). change (k_store k2) with (k_store k1). unfold phys_of. rewrite Hst1.
    intros q Hq Hk. apply (Hno q); [by apply Hsame|by apply Ho1].
  - change (k_store k2) with (k_store k1). by rewrite Hst1.
  - change (k_store k2) with (k_store k1). rewrite Hst1. eapply block_gives; [exact Hg1| |apply Hb, elem_of_app; right; by left].
    intros Hin. apply (Hni _ Hin). by left.
  - eexists pr', _. split_and!; [exact Hv| |exact Et| |by simpl; rewrite Ev|exact El].
    + change (k_store k2) with (k_store k1) in Hg2. change (phys_of k2) with (phys_of k1) in Hg2. unfold phys_of in Hg2 at 1. rewrite Hst1 in Hg2.
      eapply gives_weaken; [|exact (gives_trans _ _ _ _ _ _ _ Hg1 Hg2)]. intros q. simpl. rewrite Hsame. tauto.
    + simpl. by rewrite Ep.
Qed.

(** ** Items of lists *)

(** Removing an item frees it and touches no page but the allocator's. *)
Lemma list_it_remove_gives l l1 a x l2 (s : store A) :
  store_wf s → pages_wf (phys (heap s)) → list_repr l (l1 ++ (a, x) :: l2) s →
  ∃ l' s', list_it_remove l a s = Ok (l', s') ∧ list_repr l' (l1 ++ l2) s' ∧ gives [a] (λ _, False) s s' ∧
    same_outside (l1 ++ (a, x) :: l2).*1 s s'.
Proof.
  intros Hs Hwf Hl. destruct (list_it_remove_spec l l1 a x l2 s Hs Hl) as (l' & s' & Hr & Hs' & Hl' & Hlive & Hsame).
  exists l', s'. split_and!; [done|done| |done]. pose proof Hs as [Hi Hd _].
  assert (∀ b, b ∈ (l1 ++ (a, x) :: l2).*1 → b ∈ dom (nodes s)) as Hin by (intros b; eapply chain_in, (lr_chain _ _ _ Hl)).
  assert (a ∈ (l1 ++ (a, x) :: l2).*1) as Ha by (rewrite fmap_app, elem_of_app; right; by left).
  assert (km_free a (heap s) = Ok (heap s')) as Hf.
  { unfold list_it_remove in Hr. bind_inv.
    repeat match goal with H : wr_if _ _ _ = Ok _ |- _ => apply wr_if_heap in H end. congruence. }
  destruct (km_free_kept a _ _ Hi (Hd _ (Hin a Ha)) Hf) as (Hw' & Hc & Ho & Hk).
  split; [done|by rewrite Hlive; set_solver|by apply Hw'|done|done| | |].
  - intros q Hq. by apply Hk.
  - intros q Hq H0. destruct (Hk q Hq) as [_ ->]; [tauto|done].
  - intros b Hb. rewrite Hsame; [done|]. intros Hbl%Hin. apply elem_of_dom in Hbl as [? Hbl]. congruence.
Qed.

(** The last thread leaves its process. *)
Lemma leave_last proc pr b t k :
  k_procs k !! proc = Some pr → task_list_lock pr = MUTEX_INITIALIZER → store_wf (k_store k) → pages_wf (phys_of k) →
  list_repr (p_task_list pr) [(b, t)] (k_store k) →
  ∃ l s, leave_process proc t k = Ok (true, set_k_procs (<[proc := set_p_task_list l pr]> (k_procs k)) (set_k_store s k)) ∧
    list_repr l [] s ∧ gives [b] (λ _, False) (k_store k) s.
Proof.
  intros Hp Hl Hs Hwf Ht. destruct (list_it_remove_gives _ [] b t [] _ Hs Hwf Ht) as (l & s & Hr & Hl' & Hg & _).
  exists l, s. split_and!; [|done|done]. unfold leave_process.
  kstep (lock_in_idle (O := proc_object) task_list_lock set_task_list_lock proc pr k Hp Hl).
  set (pr1 := set_task_list_lock _ pr). set (k1 := set_objs _ k).
  assert (k_procs k1 !! proc = Some pr1) as Hp1 by apply lookup_insert_eq. kstep (load_Ok (O := proc_object) proc pr1 k1 Hp1).
  assert (of_store (list_find (p_task_list pr1) t) k1 = Ok (b, k1)) as Hfind.
  { unfold of_store. change (p_task_list pr1) with (p_task_list pr). change (k_store k1) with (k_store k). rewrite (op_find _ _ _ t Hs Ht). simpl. by rewrite Z.eqb_refl. }
  kstep Hfind. assert (b ≠ 0) as Hb0 by (apply (chain_nonnull _ _ _ _ _ Hs (lr_chain _ _ _ Ht)); by left).
  assert (lift (assert_ (negb (b =? 0))) k1 = Ok (tt, k1)) as Ha by (unfold lift; rewrite (proj2 (Z.eqb_neq _ _) Hb0); by rewrite assert_true).
  kstep Ha. assert (on_store (list_it_remove (p_task_list pr1) b) k1 = Ok (l, set_k_store s k1)) as Ho by (unfold on_store; change (p_task_list pr1) with (p_task_list pr); change (k_store k1) with (k_store k); by rewrite Hr).
  kstep Ho. set (k2 := set_k_store s k1). assert (k_procs k2 !! proc = Some pr1) as Hp2 by exact Hp1.
  kstep (change_Ok (O := proc_object) proc (set_p_task_list l) k2 pr1 Hp2).
  set (k3 := set_objs _ k2). assert (lift (list_size l) k3 = Ok (0, k3)) as Hsz.
  { unfold lift, list_size. rewrite (sanity _ _ _ Hl'). simpl. by rewrite (lr_items _ _ _ Hl'). }
  kstep Hsz. assert (k_procs k3 !! proc = Some (set_p_task_list l pr1)) as Hp3 by apply lookup_insert_eq.
  kstep (unlock_in_taken (O := proc_object) task_list_lock set_task_list_lock proc _ k3 Hp3 eq_refl).
  unfold mret, K_ret. cbn [Z.eqb]. do 2 f_equal. unfold k3, k2, k1. cbn -[set_task_list_lock set_p_task_list].
  rewrite !insert_insert_eq. replace (set_task_list_lock MUTEX_INITIALIZER (set_p_task_list l pr1)) with (set_p_task_list l pr); [done|].
  unfold pr1. destruct pr. simpl in *. by subst.
Qed.

(** ** The last stack *)

(** Pages taken back from the space while the allocator's memory stays. *)
Lemma taken_pages vs (s : store A) st' :
  store_wf s → owns user_page vs (phys (heap s)) → owns user_page vs st' → takes_back user_page vs (phys (heap s)) st' →
  (∀ q, in_space (ram (phys (heap s))) (pml4_ppn vs) q → ¬ km_own (heap s) q) →
  let s' := {| nodes := nodes s; heap := set_phys st' (heap s) |} in
  store_wf s' ∧ km_live (heap s') = km_live (heap s) ∧ ∀ q, km_own (heap s') q ↔ km_own (heap s) q.
Proof.
  intros [Hi Hl Hn] Hown Hown' Htk Hno s'.
  destruct (km_frame st' (heap s) Hi (tw_pages _ _ (ow_tree _ _ _ Hown')) (ot_count _ _ _ _ (tk_kept _ _ _ _ Htk))) as (Hi' & Hl' & Ho').
  { intros q Hq. split.
    - apply (tk_words _ _ _ _ Htk). intros v Hv Hnode. apply (Hno q); [|done].
      destruct (user_page_path v Hv) as (j & path & Hp & Hj & Hf & Hlen).
      unfold vpath in Hp. injection Hp as <- <-. exists [i3 v; i2 v; i1 v]. apply list.Forall_cons in Hf as [H2 Hf]. apply list.Forall_cons in Hf as [H1 _].
      split_and!; [simpl; lia| |simpl; intros ? [= <-]; lia|done]. rewrite !list.Forall_cons. unfold idx in *. split_and!; [lia|lia|lia..|done].
    - intros H0 Hu. apply (tk_keeps _ _ _ _ Htk); [done|done|]. intros v w Hv Hw Hq2. apply (Hno q); [|done].
      apply in_space_reached. left. rewrite <- Hq2. by eapply frame_reached. }
  split_and!; [|exact Hl'|exact Ho']. split; simpl; [done|by rewrite Hl'|done].
Qed.

Lemma list_get_first l a x (s : store A) : store_wf s → list_repr l [(a, x)] s → list_get l 0 s = Ok x.
Proof. intros Hs Hl. exact (op_get l [(a, x)] s 0 Hs Hl ltac:(done)). Qed.

(** The loop over the unused stacks at the end, when the only stack is unused. *)
Lemma trim_last n proc pr a x s k :
  k_procs k !! proc = Some pr → store_wf (k_store k) → pages_wf (phys_of k) → list_repr (stack_list pr) [(a, x)] (k_store k) →
  k_stacks k !! x = Some s → us_allocated s = false →
  ∃ l s', trim_stacks (S n) proc k = Ok (tt, set_k_procs (<[proc := set_stack_list l pr]> (k_procs k)) (set_k_store s' k)) ∧
    list_repr l [] s' ∧ gives [a] (λ _, False) (k_store k) s' ∧ same_outside [a] (k_store k) s'.
Proof.
  intros Hp Hs Hwf Hl Hx Ha. destruct (list_it_remove_gives _ [] a x [] _ Hs Hwf Hl) as (l & s' & Hr & Hl' & Hg & Hsame).
  exists l, s'. split_and!; [|done|done|exact Hsame]. cbn [trim_stacks]. kstep (load_Ok (O := proc_object) proc pr k Hp).
  assert (lift (list_it_back (stack_list pr)) k = Ok (a, k)) as Hb
    by (unfold lift, list_it_back; rewrite (sanity _ _ _ Hl); simpl; by rewrite (lr_last _ _ _ Hl)).
  kstep Hb. rewrite (proj2 (Z.eqb_neq a 0)) by (apply (chain_nonnull _ _ _ _ _ Hs (lr_chain _ _ _ Hl)); by left).
  assert (of_store (list_it_get a) k = Ok (x, k)) as Hget.
  { unfold of_store, list_it_get. by rewrite (rd_node _ _ _ _ _ (dseg_lookup _ _ [] _ _ _ _ (lr_chain _ _ _ Hl))). }
  kstep Hget. kstep (load_Ok (O := stack_object) x s k Hx). rewrite Ha.
  assert (on_store (list_it_remove (stack_list pr) a) k = Ok (l, set_k_store s' k)) as Ho by (unfold on_store; by rewrite Hr).
  kstep Ho. set (k1 := set_k_store s' k). kstep (change_Ok (O := proc_object) proc (set_stack_list l) k1 pr Hp).
  set (k2 := set_objs _ k1). assert (k_procs k2 !! proc = Some (set_stack_list l pr)) as Hp2 by apply lookup_insert_eq.
  destruct n; cbn [trim_stacks]; kstep (load_Ok (O := proc_object) proc _ k2 Hp2).
  all: assert (lift (list_it_back l) k2 = Ok (0, k2)) as Hb2
    by (unfold lift, list_it_back; rewrite (sanity _ _ _ Hl'); simpl; by rewrite (lr_last _ _ _ Hl')).
  all: by kstep Hb2.
Qed.

(** A stack has this many pages; the loop over them stops within it. *)
Definition stack_fuel : nat := Z.to_nat (STACK_SIZE / PAGE_SIZE).
Lemma stack_fuel_pages : Z.of_nat stack_fuel = 8192.
Proof. unfold stack_fuel. by rewrite Z2Nat.id. Qed.
#[local] Opaque stack_fuel.

(** The stack of the last thread: its pages lose their frames and the list its only item; the
    structure of the stack stays. *)
Lemma delete_stack_last proc pr a x s vs k :
  stacks_ok k proc pr [(a, x)] → k_vspaces k !! p_vspace pr = Some vs → owns user_page vs (phys_of k) →
  k_stacks k !! x = Some s → x ≠ 0 → us_allocated s = true →
  pages_mapped s = Z.of_nat (mapped_count (phys_of k) (pml4_ppn vs) (start_page s) stack_fuel) →
  (∀ q, in_space (ram (phys_of k)) (pml4_ppn vs) q → ¬ km_own (heap (k_store k)) q) →
  ∃ st' l s' y, let s1 := {| nodes := nodes (k_store k); heap := set_phys st' (heap (k_store k)) |} in
    delete_stack stack_fuel proc 0 k = Ok (tt, set_k_procs (<[proc := set_stack_list l pr]> (k_procs k))
      (set_k_stacks (<[x := y]> (k_stacks k)) (set_k_store s' k))) ∧
    owns user_page vs st' ∧ takes_back user_page vs (phys_of k) st' ∧
    list_repr l [] s' ∧ gives [a] (λ _, False) s1 s' ∧ same_outside [a] s1 s'.
Proof.
  intros Hk Hvs Hown Hx Hx0 Ha Hm Hno. pose proof Hk as [Hp Hlk Hs Hl _ _ _ _].
  destruct (sk_stack _ _ _ _ Hk 0 x eq_refl) as (s0 & Hx' & Hat). rewrite Hx in Hx'. injection Hx' as <-.
  destruct Hat as (_ & Hc & Hst & _). change (2 ^ 35) with 34359738368 in Hst. change (Z.of_nat 0) with 0 in Hst.
  unfold delete_stack. kstep (lock_stacks_Ok k proc pr _ Hk). set (k1 := lock_stacks k proc pr).
  assert (k_procs k1 !! proc = Some (locked k pr)) as Hp1 by apply lookup_insert_eq. kstep (load_Ok (O := proc_object) proc _ k1 Hp1).
  assert (of_store (list_get (stack_list (locked k pr)) 0) k1 = Ok (x, k1)) as Hget
    by (unfold of_store; by rewrite (list_get_first (stack_list (locked k pr)) a x (k_store k1) Hs Hl)).
  kstep Hget.
  rewrite (proj2 (Z.eqb_neq x 0)) by done.
  assert ((s0 ← load (T := userstack_t) x; mret (us_allocated s0)) k1 = Ok (true, k1)) as Hok
    by (kstep (load_Ok (O := stack_object) x s k1 Hx); by rewrite Ha).
  kstep Hok. assert (lift (assert_ true) k1 = Ok (tt, k1)) as Has by (unfold lift; by rewrite assert_true). kstep Has.
  kstep (change_Ok (O := stack_object) x (set_us_allocated false) k1 s Hx).
  set (s1 := set_us_allocated false s). set (k2 := set_objs _ k1).
  assert (k_stacks k2 !! x = Some s1) as Hx2 by apply lookup_insert_eq. kstep (load_Ok (O := stack_object) x s1 k2 Hx2).
  pose proof (unwind_spec stack_fuel k2 (p_vspace pr) vs x s1 (start_page s) Hvs Hown ltac:(lia)) as Hun.
  cbv zeta in Hun. rewrite stack_fuel_pages in Hun. specialize (Hun ltac:(change (2 ^ 35) with 34359738368; lia) Hx2).
  change (pages_mapped s1) with (pages_mapped s) in Hun. change (phys_of k2) with (phys_of k) in Hun.
  pose proof (mapped_count_le (phys_of k) (pml4_ppn vs) (start_page s) stack_fuel) as Hle. pose proof stack_fuel_pages.
  specialize (Hun ltac:(unfold is_word; change (2 ^ 64) with 18446744073709551616; lia)). rewrite decide_True in Hun by done.
  destruct Hun as (st' & Hun & Hown' & _ & _ & Htk). change (p_vspace (locked k pr)) with (p_vspace pr).
  change (start_page s1) with (start_page s). change (page_count s1) with (page_count s). rewrite Hc. kstep Hun.
  kpure. set (k3 := set_k_stacks _ _).
  destruct (taken_pages vs (k_store k) st' Hs Hown Hown' Htk Hno) as (Hs3 & _ & _).
  set (sp := {| nodes := nodes (k_store k); heap := set_phys st' (heap (k_store k)) |}) in *.
  destruct (trim_last (size (nodes sp)) proc (locked k pr) a x (set_pages_mapped 0 s1) k3) as (l & s' & Htr & Hl' & Hg & Hsame).
  { apply lookup_insert_eq. }
  { exact Hs3. }
  { unfold phys_of. simpl. rewrite phys_set. apply (tw_pages _ _ (ow_tree _ _ _ Hown')). }
  { exact (list_repr_heap _ _ _ _ Hl). }
  { apply lookup_insert_eq. }
  { done. }
  change (S (size (nodes sp))) with (walk_fuel (k_store k3)) in Htr. kstep Htr. set (k4 := set_k_procs _ _).
  assert (k_procs k4 !! proc = Some (set_stack_list l (locked k pr))) as Hp4 by apply lookup_insert_eq.
  exists st', l, s', (set_pages_mapped 0 s1). split_and!; [|done|done|done|exact Hg|exact Hsame].
  rewrite (unlock_in_taken (O := proc_object) stack_list_lock set_stack_list_lock proc _ k4 Hp4 eq_refl).
  assert (set_stack_list_lock MUTEX_INITIALIZER (set_stack_list l (locked k pr)) = set_stack_list l pr) as E
    by (unfold locked; destruct pr; simpl in *; by subst).
  rewrite E. unfold k4, k3, k2, k1, lock_stacks. cbn -[set_stack_list locked set_pages_mapped]. by rewrite !insert_insert_eq.
Qed.

(** ** The last thread *)

(** A killed task that is the only thread of its process, with its only stack in use. *)
Record last_thread (t : Z) (tk : task_t) (proc : Z) pr ld vs (a x : Z) (s : userstack_t) (b : Z) k : Prop := {
  lt_task : k_tasks k !! t = Some tk;
  lt_killed : t_state tk = TASK_KILLED ∧ t_process tk = proc ∧ proc ≠ 0 ∧ user_stack tk = 0;
  lt_stacks : stacks_ok k proc pr [(a, x)];
  lt_stack : k_stacks k !! x = Some s ∧ x ≠ 0 ∧ us_allocated s = true;
  lt_mapped : pages_mapped s = Z.of_nat (mapped_count (phys_of k) (pml4_ppn vs) (start_page s) stack_fuel);
  lt_tasks : list_repr (p_task_list pr) [(b, t)] (k_store k);
  lt_items : b ≠ a;
  lt_locks : heap_lock pr = MUTEX_INITIALIZER ∧ task_list_lock pr = MUTEX_INITIALIZER;
  lt_loader : k_loaders k !! p_loader pr = Some ld;
  lt_idle : ld_lock ld = MUTEX_INITIALIZER ∧ 0 < ld_refs ld < 2 ^ 64;
  lt_vspace : k_vspaces k !! p_vspace pr = Some vs;
  lt_root : pml4_ppn vs ≠ SIZE_MAX;
  lt_space : owns user_page vs (phys_of k);
  lt_apart q : in_space (ram (phys_of k)) (pml4_ppn vs) q → ¬ km_own (heap (k_store k)) q;
  lt_blocks c : c ∈ loader_memory (p_loader pr) ld ++ [p_vspace pr; kstack_base tk; t] → block (k_store k) c;
  lt_once : NoDup (loader_memory (p_loader pr) ld ++ [p_vspace pr; kstack_base tk; t]);
}.

(** The stack and the place in the process's list go. *)
Lemma last_leaves t tk proc pr ld vs a x s b k : last_thread t tk proc pr ld vs a x s b k →
  ∃ st' l1 l2 s2 y, let sp := {| nodes := nodes (k_store k); heap := set_phys st' (heap (k_store k)) |} in
    let pr2 := set_p_task_list l2 (set_stack_list l1 pr) in
    let k2 := set_k_procs (<[proc := pr2]> (k_procs k)) (set_k_stacks (<[x := y]> (k_stacks k)) (set_k_store s2 k)) in
    (delete_stack stack_fuel proc 0;; proc_dead ← leave_process proc t; when proc_dead (proc_delete proc)) k = proc_delete proc k2 ∧
    owns user_page vs st' ∧ takes_back user_page vs (phys_of k) st' ∧
    list_repr l1 [] s2 ∧ list_repr l2 [] s2 ∧ gives [a; b] (λ _, False) sp s2.
Proof.
  intros [Ht _ Hk (Hx & Hx0 & Ha) Hm Htl Hab [_ Hl] _ _ Hvs _ Hown Hno _ _].
  destruct (delete_stack_last proc pr a x s vs k Hk Hvs Hown Hx Hx0 Ha Hm Hno) as (st' & l1 & s1 & y & Hd & Hown' & Htk & Hl1 & Hg1 & Hsame).
  set (k1 := set_k_procs _ _) in Hd. set (sp := {| nodes := nodes (k_store k); heap := set_phys st' (heap (k_store k)) |}) in *.
  assert (k_procs k1 !! proc = Some (set_stack_list l1 pr)) as Hp1 by apply lookup_insert_eq.
  destruct (leave_last proc (set_stack_list l1 pr) b t k1 Hp1 Hl (gv_store _ _ _ _ Hg1) (gv_wf _ _ _ _ Hg1)) as (l2 & s2 & Hlv & Hl2 & Hg2).
  { apply (list_repr_outside _ _ [a] sp); [exact (list_repr_heap _ _ _ _ Htl)|exact Hsame|].
    intros c ->%list_elem_of_singleton. by intros ?%list_elem_of_singleton. }
  exists st', l1, l2, s2, y. split_and!; [|done|done|by eapply list_repr_nil|done|].
  - kstep Hd. kstep Hlv. cbn [when]. unfold k1. f_equal. cbn. by rewrite insert_insert_eq.
  - eapply gives_weaken; [|exact (gives_trans _ _ _ _ _ _ _ Hg1 Hg2)]. tauto.
Qed.

(** The memory that goes with them is not theirs. *)
Lemma last_blocks t tk proc pr ld vs a x s b k st' : last_thread t tk proc pr ld vs a x s b k →
  owns user_page vs st' → takes_back user_page vs (phys_of k) st' →
  let sp := {| nodes := nodes (k_store k); heap := set_phys st' (heap (k_store k)) |} in
  let D := loader_memory (p_loader pr) ld in
  NoDup ((([a; b] ++ D ++ [p_vspace pr]) ++ [kstack_base tk]) ++ [t]) ∧
  ∀ c, c ∈ D ++ [p_vspace pr; kstack_base tk; t] → c ∉ [a; b] ∧ block sp c.
Proof.
  intros [_ _ Hk _ _ Htl Hab _ _ _ _ _ Hown Hno Hb Hnd] Hown' Htk sp D.
  destruct (taken_pages vs (k_store k) st' (sk_store _ _ _ _ Hk) Hown Hown' Htk Hno) as (_ & Hlive & _). fold sp in Hlive.
  assert (∀ c, c ∈ D ++ [p_vspace pr; kstack_base tk; t] → c ∉ [a; b] ∧ block sp c) as Hbs.
  { intros c Hc. destruct (Hb c Hc) as (Hz & Hcl & Hcn). split; [|split_and!; [done|by rewrite Hlive|done]].
    assert (∀ d, d = a ∨ d = b → is_Some (nodes (k_store k) !! d)) as Hd.
    { intros d Hd. apply elem_of_dom. destruct Hd as [-> | ->]; [apply (chain_in _ _ _ _ _ (lr_chain _ _ _ (sk_repr _ _ _ _ Hk)))|apply (chain_in _ _ _ _ _ (lr_chain _ _ _ Htl))]; by left. }
    intros Hin. destruct (Hd c) as [? Hd']; [set_solver|congruence]. }
  split; [|exact Hbs]. rewrite <- !app_assoc. apply list.NoDup_app. split_and!; [|intros c Hc Hin; by destruct (Hbs c Hin) as [Hc1 _]|exact Hnd].
  apply list.NoDup_cons. split; [by intros ?%list_elem_of_singleton|apply NoDup_singleton].
Qed.

(** Then the process is ready to be deleted. *)
Lemma last_ending t tk proc pr ld vs a x s b k st' l1 l2 s2 y : last_thread t tk proc pr ld vs a x s b k →
  let sp := {| nodes := nodes (k_store k); heap := set_phys st' (heap (k_store k)) |} in
  let pr2 := set_p_task_list l2 (set_stack_list l1 pr) in
  let k2 := set_k_procs (<[proc := pr2]> (k_procs k)) (set_k_stacks (<[x := y]> (k_stacks k)) (set_k_store s2 k)) in
  owns user_page vs st' → takes_back user_page vs (phys_of k) st' →
  list_repr l1 [] s2 → list_repr l2 [] s2 → gives [a; b] (λ _, False) sp s2 →
  ending proc pr2 ld vs k2 ∧ (∀ q, in_space (ram (phys_of k2)) (pml4_ppn vs) q ↔ in_space (ram st') (pml4_ppn vs) q).
Proof.
  intros Hlt sp pr2 k2 Hown' Htk Hr1 Hr2 Hg. destruct (last_blocks _ _ _ _ _ _ _ _ _ _ _ st' Hlt Hown' Htk) as [_ Hbs]. fold sp in Hbs.
  destruct Hlt as [Ht _ Hk _ _ _ _ [Hl1 Hl2] Hld Hidle Hvs Hne Hown Hno _ Hnd].
  destruct (taken_pages vs (k_store k) st' (sk_store _ _ _ _ Hk) Hown Hown' Htk Hno) as (Hsp & _ & Hownq). fold sp in Hsp, Hownq.
  assert (phys (heap sp) = st') as Hph by (unfold sp; simpl; by rewrite phys_set).
  pose proof (owns_user_tree _ _ Hown') as Htree. rewrite <- Hph in Htree.
  assert (∀ q, in_space (ram (phys (heap sp))) (pml4_ppn vs) q → ¬ km_own (heap sp) q) as Hap.
  { intros q Hq. rewrite Hownq. apply Hno. rewrite Hph in Hq. by eapply takes_back_subspace. }
  assert (∀ q, in_space (ram (phys (heap sp))) (pml4_ppn vs) q → ram (phys (heap s2)) !! q = ram (phys (heap sp)) !! q ∧
    (used (phys (heap sp)) q → used (phys (heap s2)) q)) as Hkeep.
  { intros q Hq. pose proof (Hap q Hq) as Hnk. split; [by apply (gv_ram _ _ _ _ Hg)|].
    destruct (ut_used _ _ Htree q Hq) as [[] _]. rewrite (gv_pages _ _ _ _ Hg) by done. tauto. }
  pose proof (in_space_frame _ _ _ Hkeep) as Hsame.
  split; [|intros q; change (phys_of k2) with (phys (heap s2)); by rewrite Hsame, Hph].
  split; try done.
  - apply lookup_insert_eq.
  - apply (gv_store _ _ _ _ Hg).
  - split_and!; [done|apply (sk_lock _ _ _ _ Hk)|done].
  - split; [apply (ow_lock _ _ _ Hown)|done].
  - apply (user_tree_frame _ (phys (heap sp))); [done|apply (gv_wf _ _ _ _ Hg)|apply (gv_count _ _ _ _ Hg)|done].
  - intros q Hq Hkq. apply (Hap q); [by apply Hsame|by apply (gv_own _ _ _ _ Hg)].
  - intros c Hc. destruct (Hbs c) as [Hc1 Hc2]; [|by eapply block_gives]. change (p_loader pr2) with (p_loader pr) in Hc. change (p_vspace pr2) with (p_vspace pr) in Hc. set_solver.
  - change (p_loader pr2) with (p_loader pr). change (p_vspace pr2) with (p_vspace pr).
    change [p_vspace pr; kstack_base tk; t] with ([p_vspace pr] ++ [kstack_base tk; t]) in Hnd. rewrite app_assoc in Hnd.
    by apply list.NoDup_app in Hnd as (Hnd & _).
Qed.

(** C4: The end of a process.  When the cleanup task deletes the killed last thread of a process,
    exactly the memory that belongs to it goes: the items of the two lists, what the loader holds if
    no other process uses it, the address space's structure, the kernel stack and the task; and
    exactly the pages of the address space become free: its root, its tables and the frames of the stack
    and of all other user pages - each once, since the second time would panic - while every page that is
    neither in the space nor the kernel heap's own stays as it is.  The process and the stack's structure
    are not among the memory that is given back. *)
Theorem process_ends t tk proc pr ld vs a x s b k : last_thread t tk proc pr ld vs a x s b k →
  ∃ k', task_delete stack_fuel t k = Ok (tt, k') ∧ store_wf (k_store k') ∧
    km_live (heap (k_store k')) = km_live (heap (k_store k)) ∖
      list_to_set (a :: b :: loader_memory (p_loader pr) ld ++ [p_vspace pr; kstack_base tk; t]) ∧
    (∀ q, 0 <= q → ¬ km_own (heap (k_store k)) q →
       used (phys_of k') q ↔ used (phys_of k) q ∧ ¬ in_space (ram (phys_of k)) (pml4_ppn vs) q) ∧
    k_tasks k' = delete t (k_tasks k) ∧ k_vspaces k' = delete (p_vspace pr) (k_vspaces k) ∧
    k_loaders k' = (if ld_refs ld =? 1 then delete (p_loader pr) (k_loaders k)
                    else <[p_loader pr := set_ld_refs (ld_refs ld - 1) ld]> (k_loaders k)) ∧
    is_Some (k_procs k' !! proc).
Proof.
  intros Hlt. pose proof Hlt as [Ht (Hst & Hp & Hpz & Hus) Hk _ _ _ _ _ _ _ _ _ Hown Hno _ _].
  destruct (last_leaves _ _ _ _ _ _ _ _ _ _ _ Hlt) as (st' & l1 & l2 & s2 & y & Hlv & Hown' & Htk & Hr1 & Hr2 & Hg).
  destruct (last_ending _ _ _ _ _ _ _ _ _ _ _ st' l1 l2 s2 y Hlt Hown' Htk Hr1 Hr2 Hg) as (Hend & Hsame).
  destruct (last_blocks _ _ _ _ _ _ _ _ _ _ _ st' Hlt Hown' Htk) as [Hnd Hbs].
  set (k2 := set_k_procs _ _) in Hlv, Hend, Hsame. set (sp := {| nodes := _; heap := set_phys st' _ |}) in Hg.
  destruct (proc_delete_spec _ _ _ _ _ Hend) as (pr' & k3 & Hd & Hg3 & Et & Ep & Ev & El).
  set (D := loader_memory (p_loader pr) ld) in *. fold sp in Hbs.
  pose proof (gives_trans _ _ _ _ _ _ _ Hg Hg3) as Hg4. change (p_vspace (set_p_task_list l2 (set_stack_list l1 pr))) with (p_vspace pr) in *.
  change (p_loader (set_p_task_list l2 (set_stack_list l1 pr))) with (p_loader pr) in *. fold D in Hg4.
  apply list.NoDup_app in Hnd as (Hnd & Hn2 & _). apply list.NoDup_app in Hnd as (_ & Hn1 & _).
  destruct (free_next (kstack_base tk) k3 _ _ sp Hg4) as (s4 & Hf4 & Hg5); [apply Hbs; set_solver|intros Hin; apply (Hn1 _ Hin); by left|].
  destruct (free_next t (set_k_store s4 k3) _ _ sp Hg5) as (s5 & Hf5 & Hg6); [apply Hbs; set_solver|intros Hin; apply (Hn2 _ Hin); by left|].
  eexists. split.
  { unfold task_delete. kstep (load_Ok (O := task_object) t tk k Ht).
    assert (lift (assert_ (negb (t =? 0) && bool_decide (t_state tk = TASK_KILLED))) k = Ok (tt, k)) as Has.
    { unfold lift. rewrite bool_decide_true by done. destruct (Hbs t) as [_ [Htz _]]; [set_solver|]. rewrite (proj2 (Z.eqb_neq _ _) Htz). by rewrite assert_true. }
    kstep Has. rewrite Hp, (proj2 (Z.eqb_neq _ _) Hpz), Hus. cbn [negb when]. rewrite Hd in Hlv. kstep Hlv. kstep Hf4. kstep Hf5. reflexivity. }
  destruct (taken_pages vs (k_store k) st' (sk_store _ _ _ _ Hk) Hown Hown' Htk Hno) as (_ & Hlive & Hownq). fold sp in Hlive, Hownq.
  split_and!; [apply (gv_store _ _ _ _ Hg6)| | |by simpl; rewrite Et|exact Ev|exact El|].
  - simpl. rewrite (gv_live _ _ _ _ Hg6), Hlive. f_equal. rewrite <- !app_assoc. done.
  - intros q H0 Hq. rewrite <- Hownq in Hq. rewrite <- (takes_back_space vs (phys_of k) st' q Hown Htk H0), <- Hsame.
    unfold phys_of at 1. simpl. rewrite (gv_pages _ _ _ _ Hg6 q Hq H0). unfold sp. simpl. rewrite phys_set. tauto.
  - simpl. rewrite Ep, lookup_insert_eq. by eexists.
Qed.
End reap.

(** ** The last thread of a process with one stack, one page of which is mapped *)

#[local] Existing Instance debug_build.
Import Machine.
#[local] Transparent stack_fuel.

Definition one_item (a : Z) : list_t := {| items := 1; magic := LIST_MAGIC; first := a; last := a |}.
Definition dying_task : task_t :=
  {| tid := 1; t_state := TASK_KILLED; t_context := 0; t_vspace := 200; kstack_ptr := 400; kstack_base := 400;
     irq_wait := false; user_stack := 0; t_process := 5 |}.
Definition dying_proc : proc_t :=
  set_p_loader 320 (set_p_vspace 200 (set_stack_list (one_item 80) (set_p_task_list (one_item 600) user_proc))).
Definition dying_loader : loader_t :=
  {| ld_file := 300; entry_addr := 0x100000; ld_header := 310; ld_pht := 0; ld_lock := MUTEX_INITIALIZER; ld_refs := 1;
     min_heap_break := 0x101000 |}.
Definition dying_stack : userstack_t := set_pages_mapped 1 (set_us_allocated true (new_stack 0)).
Definition dying : Kernel.kernel t unit :=
  set_k_store {| nodes := {[ 80 := {| it_next := 0; it_prev := 0; it_payload := 32 |};
                             600 := {| it_next := 0; it_prev := 0; it_payload := 500 |} ]};
                 heap := {| alloc := {| Bump.top := 700; Bump.live := {[32; 80; 200; 300; 310; 320; 400; 500; 600]} |};
                            pages := phys_of loaded |} |}
   (set_k_tasks {[ 500 := dying_task ]} (set_k_procs {[ 5 := dying_proc ]} (set_k_vspaces {[ 200 := demo_vs ]}
   (set_k_loaders {[ 320 := dying_loader ]} loaded)))).

Lemma dying_store : store_wf (k_store dying).
Proof.
  split; [|apply (bool_decide_unpack _); vm_compute; exact I|reflexivity].
  split; [vm_compute; discriminate|]. apply (bool_decide_unpack _). vm_compute. exact I.
Qed.

Lemma one_item_repr a x : a = 80 ∧ x = 32 ∨ a = 600 ∧ x = 500 → list_repr (one_item a) [(a, x)] (k_store dying).
Proof. intros [[-> ->]|[-> ->]]; (split; [done|done|done|done|done|apply NoDup_singleton|by vm_compute]). Qed.

Lemma dying_stacks : stacks_ok dying 5 dying_proc [(80, 32)].
Proof.
  split; [done|done|exact dying_store|apply one_item_repr; by left|done| | |apply NoDup_singleton].
  - intros [|i] x; simpl; [|done]. intros [= <-]. exists dying_stack. split; [exact loaded_stack|exact (new_stack_at 0 eq_refl)].
  - intros x ->%list_elem_of_singleton. apply (bool_decide_unpack _). vm_compute. exact I.
Qed.

Lemma dying_last : last_thread 500 dying_task 5 dying_proc dying_loader demo_vs 80 32 dying_stack 600 dying.
Proof.
  split; [reflexivity|by split_and!|exact dying_stacks|split_and!; [exact loaded_stack|done|reflexivity]| |apply one_item_repr; by right|done|done
    |reflexivity|done|reflexivity|done|exact loaded_owns|by intros q _ []| |].
  - vm_compute. reflexivity.
  - intros c Hc. assert (bool_decide (Forall (λ c, c ≠ 0 ∧ c ∈ km_live (heap (k_store dying)) ∧ nodes (k_store dying) !! c = None)
      [300; 310; 320; 200; 400; 500]) = true) as H by (vm_compute; reflexivity).
    apply bool_decide_eq_true_1 in H. rewrite list.Forall_forall in H. by apply H.
  - apply (bool_decide_unpack _). vm_compute. exact I.
Qed.

Lemma process_ends_witness : ∃ k', task_delete stack_fuel 500 dying = Ok (tt, k') ∧
  km_live (heap (k_store k')) = {[32]} ∧ k_vspaces k' = ∅ ∧
  (∀ q, 0 <= q → used (phys_of k') q ↔ used (phys_of dying) q ∧ ¬ in_space (ram (phys_of dying)) 0 q).
Proof.
  destruct (process_ends 500 dying_task 5 dying_proc dying_loader demo_vs 80 32 dying_stack 600 dying dying_last)
    as (k' & Hr & _ & Hl & Hu & _ & Hv & _ & _).
  exists k'. split; [exact Hr|]. split; [rewrite Hl; vm_compute; reflexivity|]. split; [rewrite Hv; vm_compute; reflexivity|].
  intros q Hq. apply (Hu q Hq). intros [].
Defined.
