(* ===== verification/Irq.v ===== *)
(** Interrupts: the subscriptions of drivers (sched/interrupt.c), the handler that all vectors
    end in (arch/x86-common/x86/irq.c), and the table of system calls (sched/syscalls.c). *)
From S2P Require Import Prelude Words Mutex PageAlloc Dll Lists Vspace Errno Kernel Sched UserMem Vfs Loader Proc.
Open Scope Z_scope.

(** [IRQ_COUNT] (kernel/arch/x86-common/include/x86/irq.h, line 3). *)
Definition IRQ_COUNT : nat := 16.

(** The functions that drivers subscribe, by address; and what the drivers' reads of the user's
    buffer amount to, a write of bytes at a user address. *)
Class IrqDrivers (A F : Type) := {
  call_handler (fn drv_data : Z) : K (kernel A F) unit;
  user_write (buffer : Z) (bytes : list Z) : K (kernel A F) unit;
}.

(** [UNIM] and the functions in the table. *)
Inductive sys_fun := UNIM | Sys_exit | Sys_read | Sys_write | Sys_close | Sys_sbrk.
#[global] Instance sys_fun_eq_dec : EqDecision sys_fun.
Proof. solve_decision. Defined.

(** [syscall_table] (kernel/kernel/sched/syscalls.c, lines 5-26). *)
Definition syscall_table : list sys_fun :=
  [ UNIM; Sys_exit; Sys_read; Sys_write; Sys_close; UNIM; UNIM; UNIM; UNIM; UNIM; UNIM; UNIM;
    UNIM; UNIM; Sys_sbrk; UNIM; UNIM; UNIM; UNIM; UNIM ].

(** [syscall_count] (kernel/kernel/sched/syscalls.c, lines 28-31). *)
Definition syscall_count : Z := Z.of_nat (length syscall_table).

Definition EXC_PAGE_FAULT : Z := 14.
Definition EXC_YIELD : Z := 31.

Section operations.
Context {A F : Type} `{B : Build} `{KM : Kmalloc A} `{PM : PhysMem A} `{D : Drivers A F} `{W : Writers A F}
  `{ID : IrqDrivers A F}.
Abbreviation kernel := (Kernel.kernel A F).
Abbreviation KI := (K kernel).

(** ** Subscriptions *)

(** [irq_kernel_init] (kernel/kernel/sched/interrupt.c, lines 17-23). *)
Definition irq_kernel_init : KI unit :=
  _ ← new 512;
  modify (set_irq_handlers (replicate IRQ_COUNT list_init)).

(** [irq_handlers[id]]: NULL has no elements. *)
Definition irq_line (id : Z) : KI list_t :=
  lines ← gets irq_handlers;
  if id <? 0 then kstop Fault else lift (of_option (lines !! Z.to_nat id)).

(** [irq_subscribe] (kernel/kernel/sched/interrupt.c, lines 25-44).  Preemption is off in
    between: the steps are not interleaved with others. *)
Definition irq_subscribe (id fn drv : Z) : KI unit :=
  ongoing ← gets irq_ongoing;
  when (ongoing || (Z.of_nat IRQ_COUNT <=? id))
    (lift (assert_ (negb ongoing));; lift (assert_ (id <? Z.of_nat IRQ_COUNT)));;
  handler ← new 16;
  put handler {| func := fn; drv_data := drv |};;
  l ← irq_line id;
  '(_, l) ← on_store (list_add l handler);
  modify (λ k, set_irq_handlers (<[Z.to_nat id := l]> (irq_handlers k)) k).

(** [irq_handler] (kernel/kernel/sched/interrupt.c, lines 46-63). *)
Definition irq_handler (id : Z) : KI unit :=
  lines ← gets irq_handlers;
  if bool_decide (lines = []) then mret tt
  else
    l ← irq_line id;
    r ← foreach (R := unit) l (λ handler,
      h ← load (T := irq_handler_t) handler;
      call_handler (func h) (drv_data h);;
      mret None);
    mret tt.

(** ** The common handler *)

(** What is not in the code: the address that faulted; bytes of memory that is not initialised;
    the upper half of a register after an [int] was returned in it, and the register after
    nothing was; and where the nested interrupt of [task_kill] saves the registers. *)
Context (cr2 : Z) (junk_bytes : Z → nat → list Z) (upper : Z → Z) (nothing : Z) (nested : Z → Z).

(** [x86_exception] (kernel/arch/x86-common/x86/irq.c, lines 19-44): whether it is resolved. *)
Definition x86_exception (exc : Z) : KI bool :=
  if exc =? EXC_PAGE_FAULT then page_fault junk_bytes cr2 else mret false.

(** A system call returns a value, or the task does not go on and another context runs. *)
Inductive sys_result := Returned (v : Z) | Switched (ctx : Z).

(** The call of a function of the table, with the registers that carry its arguments
    ([x86_irq_handler] (kernel/arch/x86-common/x86/irq.c, lines 77-82)). *)
Definition call_syscall (f : sys_fun) (ctx : Z) (c : context_t) : KI sys_result :=
  match f with
  | UNIM => kstop Fault  (* a jump to 0xdeadbeef *)
  | Sys_exit => next ← sys_exit (nested ctx); mret (if next =? nested ctx then Returned nothing else Switched next)
  | Sys_read =>
      '(n, bytes) ← sys_read (s32 (r8 c)) (r9 c) (r10 c);
      user_write (r9 c) bytes;;
      mret (Returned (u64 n))
  | Sys_write => n ← sys_write (s32 (r8 c)) (r9 c) (r10 c); mret (Returned (u64 n))
  | Sys_close => mret (Returned (u64 (Z.shiftl (upper ctx) 32) + u32 (sys_close (s32 (r8 c)))))
  | Sys_sbrk => brk ← sys_sbrk (s64 (r8 c)); mret (Returned (u64 brk))
  end.

(** The part for system calls ([x86_irq_handler] (kernel/arch/x86-common/x86/irq.c, lines
    50-93)). *)
Definition handle_syscall (ctx : Z) : KI Z :=
  c ← load (T := context_t) ctx;
  if syscall_count <=? error c then change ctx (set_rax (u64 (- ENOSYS)));; mret ctx
  else
    _ ← current_process;
    f ← lift (of_option (syscall_table !! Z.to_nat (rax c)));
    r ← call_syscall f ctx c;
    match r with
    | Returned v => change ctx (set_rax v);; mret ctx
    | Switched next => mret next
    end.

(** The part for exceptions and [yield] ([x86_irq_handler] (kernel/arch/x86-common/x86/irq.c,
    lines 94-115)). *)
Definition handle_exception (ctx vector : Z) : KI Z :=
  if vector =? EXC_YIELD then schedule ctx
  else ok ← x86_exception vector; lift (kpanic ok);; mret ctx.

(** The part for devices ([x86_irq_handler] (kernel/arch/x86-common/x86/irq.c, lines
    116-137)). *)
Definition handle_device (ctx irq_id : Z) : KI Z :=
  modify (set_irq_ongoing true);;
  irq_handler irq_id;;
  modify (set_irq_ongoing false);;
  ctx ← (if irq_id =? 0 then schedule ctx else mret ctx);
  when (8 <=? irq_id) (outb 0xa0 0x20);;
  outb 0x20 0x20;;
  mret ctx.

(** [x86_irq_handler] (kernel/arch/x86-common/x86/irq.c, lines 48-144): the context that the
    interrupt returns to. *)
Definition x86_irq_handler (ctx : Z) : KI Z :=
  c ← load (T := context_t) ctx;
  if irq c =? 0x80 then handle_syscall ctx
  else if irq c <? 32 then handle_exception ctx (irq c)
  else if irq c <? 48 then handle_device ctx (irq c - 32)
  else lift (assert_ false);; mret ctx.
End operations.

(** ** Dispatch *)

Section dispatch.
Context {A F : Type} `{B : Build} `{KM : Kmalloc A} {KL : KmallocLaws A} `{PM : PhysMem A} `{D : Drivers A F}
  `{W : Writers A F} `{ID : IrqDrivers A F}.
Abbreviation kernel := (Kernel.kernel A F).
Implicit Types (k : kernel) (xs : list (Z * Z)) (hs : list irq_handler_t).

(** The handlers of a line: its list, and the objects in it. *)
Record line_ok k (id : Z) xs hs : Prop := {
  ln_id : 0 <= id < Z.of_nat IRQ_COUNT;
  ln_line : ∃ l, irq_handlers k !! Z.to_nat id = Some l ∧ list_repr l xs (k_store k);
  ln_store : store_wf (k_store k);
  ln_handlers : Forall2 (λ x h, k_handlers k !! x = Some h) xs.*2 hs;
  ln_live x : x ∈ xs.*2 → x ∈ km_live (heap (k_store k));
}.

(** The handlers, one after the other. *)
Fixpoint run_handlers hs : K kernel unit :=
  match hs with [] => mret tt | h :: hs => call_handler (func h) (drv_data h);; run_handlers hs end.

(** Handlers run with interrupts off and may take no lock: they leave lists alone. *)
Definition polite hs : Prop :=
  ∀ h k k', h ∈ hs → call_handler (func h) (drv_data h) k = Ok (tt, k') →
    k_store k' = k_store k ∧ k_handlers k' = k_handlers k.

Definition handler_body : Z → K kernel (option unit) := λ handler,
  h ← load (T := irq_handler_t) handler; call_handler (func h) (drv_data h);; mret None.

(** The loop of [irq_handler] over a list of handlers. *)
Lemma foreach_handlers fuel xs hs p k :
  store_wf (k_store k) → dseg (node_at (nodes (k_store k))) p xs 0 → (length xs < fuel)%nat →
  Forall2 (λ x h, k_handlers k !! x = Some h) xs.*2 hs → polite hs →
  foreach_from fuel (head_addr xs 0) handler_body k = (run_handlers hs;; mret None) k.
Proof.
  revert fuel p k hs. induction xs as [|[a x] xs IH]; intros fuel p k hs Hs Hc Hf H2 Hp;
    (destruct fuel as [|fuel]; [simpl in Hf; lia|]); inversion H2 as [|? h ? hs' Hx H2']; subst; [done|].
  cbn [foreach_from head_addr run_handlers]. rewrite (proj2 (Z.eqb_neq a 0)) by (eapply chain_nonnull; [done..|]; by left).
  destruct Hc as [Ha Hc]. assert (of_store (list_it_get a) k = Ok (x, k)) as Hget.
  { unfold of_store, list_it_get. by rewrite (rd_node _ _ _ _ _ Ha). }
  kstep Hget. rewrite K_bind_assoc. unfold handler_body at 2. cbv beta. rewrite K_bind_assoc.
  kstep (load_Ok (O := handler_object) x h k Hx). rewrite K_bind_assoc.
  unfold mbind at 1 4, K_bind at 1 4. destruct (call_handler (func h) (drv_data h) k) as [[[] k1]|w] eqn:Hcall; [|done].
  kpure. destruct (Hp h k k1) as [Hst Hh]; [by left|done|].
  assert (of_store (list_it_next a) k1 = Ok (head_addr xs 0, k1)) as Hnx.
  { unfold of_store, list_it_next. rewrite Hst. by rewrite (rd_node _ _ _ _ _ Ha). }
  kstep Hnx. apply (IH fuel a); [by rewrite Hst|by rewrite Hst|simpl in Hf; lia|by rewrite Hh|].
  intros g k2 k3 Hg. apply Hp. by right.
Qed.

Lemma irq_handler_spec id xs hs k :
  line_ok k id xs hs → polite hs → irq_handler id k = run_handlers hs k.
Proof.
  intros [Hid (l & Hl & Hr) Hs H2 _] Hp. unfold irq_handler. kpure.
  rewrite bool_decide_false by (intros He; by rewrite He in Hl).
  assert (irq_line id k = Ok (l, k)) as Hline.
  { unfold irq_line. kpure. rewrite (proj2 (Z.ltb_ge id 0)) by lia. unfold lift. by rewrite Hl. }
  kstep Hline. fold handler_body. unfold foreach. rewrite K_bind_assoc. kpure. rewrite K_bind_assoc.
  assert (lift (list_it_front l) k = Ok (head_addr xs 0, k)) as Hfr.
  { unfold lift, list_it_front. rewrite (sanity _ _ _ Hr). simpl. by rewrite (lr_first _ _ _ Hr). }
  kstep Hfr. unfold mbind at 1, K_bind at 1. rewrite (foreach_handlers _ xs hs 0); [|done|apply Hr| |done|done].
  - unfold mbind, K_bind. by destruct (run_handlers hs k) as [[[] ?]|].
  - unfold walk_fuel. pose proof (chain_length _ _ _ _ (lr_nodup _ _ _ Hr) (lr_chain _ _ _ Hr)). lia.
Qed.

(** ** Subscribing *)

Definition new_handler (fn drv : Z) : irq_handler_t := {| func := fn; drv_data := drv |}.

(** What [irq_subscribe] does to its line and to the others. *)
Record subscribed k (id : Z) xs hs (fn drv : Z) k' : Prop := {
  sb_line : ∃ a x, line_ok k' id (xs ++ [(a, x)]) (hs ++ [new_handler fn drv]);
  sb_other j ys gs : j ≠ id → line_ok k j ys gs → xs.*1 ## ys.*1 → line_ok k' j ys gs;
  sb_contexts : k_contexts k' = k_contexts k;
  sb_out : k_out k' = k_out k;
}.

Lemma irq_subscribe_spec k id xs hs fn drv :
  line_ok k id xs hs → irq_ongoing k = false → Z.of_nat (length xs) + 1 < 2 ^ 64 → km_room 16 (heap (k_store k)) →
  (∀ x h, km_alloc 16 (heap (k_store k)) = Ok (x, h) → km_room 24 h) →
  (∃ k', irq_subscribe id fn drv k = Ok (tt, k') ∧ subscribed k id xs hs fn drv k') ∨
  (∃ w, irq_subscribe id fn drv k = Stop w ∧
     (km_alloc 16 (heap (k_store k)) = Stop w ∨
      ∃ x h, km_alloc 16 (heap (k_store k)) = Ok (x, h) ∧ km_alloc 24 h = Stop w)).
Proof.
  intros [Hid (l & Hl & Hr) Hs H2 Hlv] Ho Hlen Hroom Hroom'. unfold irq_subscribe. kpure. rewrite Ho.
  rewrite (proj2 (Z.leb_gt _ _)) by lia. cbn [orb when]. kpure.
  destruct (km_alloc 16 (heap (k_store k))) as [[x h]|w] eqn:Ha.
  2: { right. exists w. split; [|by left]. apply K_bind_Stop. unfold new, on_heap, on_store. by rewrite Ha. }
  destruct (store_wf_alloc _ _ _ _ Hs Hroom Ha) as (Hs1 & Hfresh & Hnz).
  assert (km_live h = {[x]} ∪ km_live (heap (k_store k))) as Hlive by (eapply km_alloc_ok; [apply Hs|done..]).
  kstep (new_Ok 16 k x h Ha). kpure. set (k1 := set_objs _ _).
  assert (irq_line id k1 = Ok (l, k1)) as Hline.
  { unfold irq_line. kpure. rewrite (proj2 (Z.ltb_ge id 0)) by lia. unfold lift. change (irq_handlers k1) with (irq_handlers k). by rewrite Hl. }
  kstep Hline. set (s1 := {| nodes := nodes (k_store k); heap := h |} : store A). change (k_store k1) with s1 in *.
  destruct (list_add_spec l xs s1 x Hs1 (list_repr_heap _ _ _ h Hr) Hlen (Hroom' x h eq_refl))
    as [(a & l' & s' & Hadd & Hna & Hlive' & Hs' & Hr' & Hsame)|(w & Hw & Hadd)].
  2: { right. exists w. split; [|right; by exists x, h]. apply K_bind_Stop. unfold on_store. change (k_store k1) with s1. by rewrite Hadd. }
  left. assert (on_store (list_add l x) k1 = Ok ((Z.of_nat (length xs), l'), set_k_store s' k1)) as Hos.
  { unfold on_store. change (k_store k1) with s1. by rewrite Hadd. }
  kstep Hos. eexists. split; [done|]. simpl in Hlive'.
  assert (∀ ys gs, Forall2 (λ x h, k_handlers k !! x = Some h) ys gs → (∀ y, y ∈ ys → y ∈ km_live (heap (k_store k))) →
    Forall2 (λ y g, <[x := new_handler fn drv]> (k_handlers k) !! y = Some g) ys gs) as Hkeep.
  { intros ys gs Hy Hyl. apply objects_insert; [done|]. by intros ?%Hyl. }
  split; [exists a, x; split| |done|done].
  - done.
  - exists l'. split; [|exact Hr']. simpl. apply list_lookup_insert_eq. by eapply lookup_lt_Some.
  - exact Hs'.
  - rewrite fmap_app. apply Forall2_app; [by apply Hkeep|]. constructor; [apply lookup_insert_eq|constructor].
  - intros y. rewrite fmap_app. simpl. rewrite Hlive', Hlive, elem_of_app.
    intros [Hy%Hlv|Hy%list_elem_of_singleton]; simpl in *; subst; set_solver.
  - intros j ys gs Hj [Hjd (lj & Hlj & Hrj) _ H2j Hlvj] Hdis. split; [done| |exact Hs'|by apply Hkeep|].
    + exists lj. split; [simpl; rewrite list_lookup_insert_ne; [done|lia]|].
      destruct Hrj as [? ? ? ? ? ? Hc]. split; try done. eapply dseg_ext; [|exact Hc]. intros b Hb. unfold node_at. simpl.
      rewrite Hsame; [done|]. intros [->|Hbx]%elem_of_cons; [|by apply (Hdis b)].
      apply Hna. simpl. rewrite Hlive. apply elem_of_union_r. apply (sw_live _ Hs). by eapply chain_in.
    + intros y Hy. simpl. rewrite Hlive', Hlive. apply Hlvj in Hy. set_solver.
Qed.

(** The acknowledgement of a device: the second controller first, if it is involved. *)
Definition eoi (id : Z) : list (Z * Z) := (0x20, 0x20) :: if 8 <=? id then [(0xa0, 0x20)] else [].


(** ** System calls *)

(** C37: System calls of a task of a process.  A number behind the table gives [-ENOSYS] and
    changes nothing else.  The numbers without a function, which are in the table, are
    called all the same: the kernel jumps to 0xdeadbeef ([sys_open] is not in the table either,
    so there is no number for it).  [sbrk] runs on the saved registers, and its result is
    saved there. *)
Theorem syscall_dispatch k ctx c pt cr2 junk_bytes upper nothing nested :
  k_contexts k !! ctx = Some c → irq c = 0x80 → k_tasks k !! current_task k = Some pt → current_task k ≠ 0 →
  t_process pt ≠ 0 →
  let handler := x86_irq_handler cr2 junk_bytes upper nothing nested ctx in
  (20 <= error c → handler k = Ok (ctx, set_k_contexts (<[ctx := set_rax (2 ^ 64 - 38) c]> (k_contexts k)) k)) ∧
  (error c = rax c → 0 <= rax c < 20 → ¬ rax c ∈ [1; 2; 3; 4; 14] → handler k = Stop Fault) ∧
  (error c < 20 → rax c = 14 → ∀ brk k1, sys_sbrk (s64 (r8 c)) k = Ok (brk, k1) →
     k_contexts k1 = k_contexts k →
     handler k = Ok (ctx, set_k_contexts (<[ctx := set_rax (u64 brk) c]> (k_contexts k)) k1)).
Proof.
  intros Hc Hirq Ht Hcz Hpz handler.
  assert (current_process k = Ok (t_process pt, k)) as Hcur.
  { unfold current_process. kpure. rewrite (proj2 (Z.eqb_neq _ _) Hcz). unfold lift, mbind, K_bind. rewrite assert_true.
    rewrite (load_Ok (O := task_object) _ _ _ Ht), (proj2 (Z.eqb_neq _ _) Hpz). by rewrite assert_true. }
  assert (handler k = handle_syscall upper nothing nested ctx k) as ->.
  { unfold handler, x86_irq_handler. kstep (load_Ok (O := context_object) ctx c k Hc). by rewrite Hirq. }
  unfold handle_syscall. rewrite (K_bind_Ok _ _ _ _ _ (load_Ok (O := context_object) ctx c k Hc)). split_and!.
  - intros Hn. rewrite (proj2 (Z.leb_le _ _)) by exact Hn. by kstep (change_Ok (O := context_object) ctx (set_rax (u64 (- ENOSYS))) k c Hc).
  - intros He Hr Hni. rewrite (proj2 (Z.leb_gt _ _)) by (rewrite He; exact (proj2 Hr)). kstep Hcur.
    assert (syscall_table !! Z.to_nat (rax c) = Some UNIM) as Hu.
    { assert (∀ n, 0 <= n < 20 → ¬ n ∈ [1; 2; 3; 4; 14] → syscall_table !! Z.to_nat n = Some UNIM) as Hall; [|by apply Hall].
      intros n Hn. rewrite !not_elem_of_cons. intros Hne. 
      assert (n = 0 ∨ n = 5 ∨ n = 6 ∨ n = 7 ∨ n = 8 ∨ n = 9 ∨ n = 10 ∨ n = 11 ∨ n = 12 ∨ n = 13 ∨ n = 15 ∨ n = 16 ∨ n = 17 ∨ n = 18 ∨ n = 19)
        as Hcases by lia. by repeat destruct Hcases as [->|Hcases]; [..|subst]. }
    rewrite Hu. done.
  - intros Hn Hr brk k1 Hsb Hkc. rewrite (proj2 (Z.leb_gt _ _)) by exact Hn. kstep Hcur. rewrite Hr.
    unfold lift at 1. unfold mbind at 1, K_bind at 1. cbn [syscall_table lookup list_lookup of_option Z.to_nat].
    change (syscall_table !! Z.to_nat 14) with (Some Sys_sbrk). cbn [of_option].
    cbn [call_syscall]. rewrite K_bind_assoc. kstep Hsb. kpure.
    assert (objs k1 !! ctx = Some c) as Hc1 by (cbn [objs context_object]; by rewrite Hkc).
    kstep (change_Ok (O := context_object) ctx (set_rax (u64 brk)) k1 c Hc1).
    cbn [objs set_objs context_object]. by rewrite Hkc.
Qed.
End dispatch.

(** ** A machine with a device that beeps *)

#[local] Existing Instance debug_build.
Import Machine.
#[local] Instance no_files_driver : Drivers t unit := {|
  call_read _ _ _ _ := kstop Fault; call_probe _ _ := kstop Fault; call_mount _ _ := kstop Fault;
  call_fetch _ _ _ := kstop Fault |}.
#[local] Instance no_writer : Writers t unit := {| call_write _ _ _ _ _ := kstop Fault |}.
(** The driver's function writes a byte of its data to port 0x60. *)
#[local] Instance beeper : IrqDrivers t unit := {| call_handler fn data := outb 0x60 data; user_write _ _ := mret tt |}.

Definition saved_regs (irq_ error_ rax_ r8_ : Z) : context_t :=
  {| r15 := 0; r14 := 0; r13 := 0; r12 := 0; r11 := 0; r10 := 0; r9 := 0; r8 := r8_; rdi := 0; rsi := 0; rdx := 0; rcx := 0;
     rbx := 0; rax := rax_; rbp := 0; gs := 0; fs := 0; irq := irq_; error := error_; rip := 0; cs := 0x1b; rflags := 0;
     rsp := 0; ss := 0x23 |}.
Definition irq_start (c : context_t) : Kernel.kernel t unit :=
  set_k_contexts {[ 5000 := c ]} (set_irq_handlers (replicate IRQ_COUNT list_init) start).

Lemma irq_start_line c : line_ok (irq_start c) 9 [] [].
Proof.
  split; [by vm_compute|exists list_init; split; [done|apply list_init_repr]|exact start_store|constructor|by intros ? ?%elem_of_nil].
Qed.

Lemma beeper_polite hs : polite hs.
Proof. intros h k k' _ Hc. vm_compute in Hc. by injection Hc as <-. Qed.


Lemma syscall_dispatch_witness :
  x86_irq_handler 0 (λ _ _, []) (λ _, 0) 0 (λ c, c - 500) 5000 (irq_start (saved_regs 0x80 9 9 0)) = Stop Fault.
Proof.
  refine (proj1 (proj2 (syscall_dispatch (irq_start (saved_regs 0x80 9 9 0)) 5000 (saved_regs 0x80 9 9 0) user_task
    0 (λ _ _, []) (λ _, 0) 0 (λ c, c - 500) _ _ _ _ _)) _ _ _); try reflexivity; try discriminate.
  - split; [discriminate|reflexivity].
  - apply (bool_decide_unpack _). vm_compute. exact I.
Defined.
