(* ===== verification/Block.v ===== *)
(** Block devices: fs/blockdev.c and fs/blkdev_ops.c, the partitions of fs/partscan.c and the
    RAM disks of fs/ramdisk.c. *)
From S2P Require Import Prelude Words Mutex PageAlloc Dll Lists Vspace Errno Kernel Vfs Ext2.
Open Scope Z_scope.

(** The functions that a [bd_ops_t] points to: those of the partition and RAM disk drivers, those
    of other drivers by address, or NULL. *)
Inductive blk_fn := no_fn | ps_read_fn | ps_write_fn | initrd_read_fn | initrd_write_fn | other_fn (addr : Z).
#[global] Instance blk_fn_eq_dec : EqDecision blk_fn.
Proof. solve_decision. Defined.

(** [bd_ops_t] (kernel/kernel/include/fs/blockdev.h, lines 6-13), less [get_prefix], which
    nothing calls. *)
Record bd_ops_t := { readblk : blk_fn; writeblk : blk_fn }.

(** [bd_driver_t] (kernel/kernel/include/fs/blockdev.h, lines 15-21), less the strings. *)
Record bd_driver_t := { bd_ops : bd_ops_t; major : Z }.

(** [bd_t] (kernel/kernel/include/fs/blockdev.h, lines 23-30). *)
Record bd_t := { minor : Z; capacity : Z; driver : Z; bd_data : Z; bd_name : list Z }.

(** [part_t] (kernel/kernel/fs/partscan.c, lines 7-14). *)
Record part_t := { pt_blkdev : Z; blk_offset : Z; blk_size : Z; pt_type : Z; pt_prefix : list Z }.

(** [mbr_part_t] (kernel/kernel/fs/partscan.c, lines 16-24): what is read of it. *)
Record mbr_part_t := { mp_type : Z; lba_start : Z; lba_size : Z }.

(** [mbr_t] (kernel/kernel/fs/partscan.c, lines 26-33): its four partitions and its magic. *)
Definition mbr_part (b : list Z) (i : nat) : mbr_part_t :=
  {| mp_type := le_field b (446 + 16 * i + 4) 1; lba_start := le_field b (446 + 16 * i + 8) 4;
     lba_size := le_field b (446 + 16 * i + 12) 4 |}.
Definition mbr_magic (b : list Z) : Z * Z := (le_field b 510 1, le_field b 511 1).

(** [rd_t] (kernel/kernel/fs/ramdisk.c, lines 14-20). *)
Record rd_t := { ramdisk : Z; ramdisk_size : Z; rd_minor : Z; rd_lock : mutex_t }.

(** The objects of these files by address, the memory of the RAM disks, and the static
    variables. *)
Record blk_t := {
  b_devs : gmap Z bd_t;
  b_drivers : gmap Z bd_driver_t;
  b_parts : gmap Z part_t;
  b_rds : gmap Z rd_t;
  b_ram : gmap Z (list Z);
  major_counter : Z;
  driver_list : list_t;
  driver_list_lock : mutex_t;
  bd_list : list_t;
  bd_list_lock : mutex_t;
  part_major : Z;
  initrd_major : Z;
  minor_counter : Z;
}.

(** Where the block layer keeps them. *)
Class BlockState (F : Type) := {
  blk : F → blk_t;
  set_blk : blk_t → F → F;
  blk_set b f : blk (set_blk b f) = b;
  set_blk_set b b' f : set_blk b (set_blk b' f) = set_blk b f;
  set_blk_blk f : set_blk (blk f) f = f;
}.

(** The functions of other block drivers.  They all have one signature: they get the content of
    the buffer, and give the number they return and what they wrote at the start of the
    buffer. *)
Class BlockDrivers (A F : Type) := {
  other_blk (fn data minor : Z) (buffer : list Z) (count lba : Z) : K (kernel A F) (Z * list Z);
}.

(** One field changed. *)
Definition set_b_devs (v : gmap Z bd_t) (b : blk_t) : blk_t :=
  {| b_devs := v; b_drivers := b_drivers b; b_parts := b_parts b; b_rds := b_rds b; b_ram := b_ram b;
     major_counter := major_counter b; driver_list := driver_list b; driver_list_lock := driver_list_lock b;
     bd_list := bd_list b; bd_list_lock := bd_list_lock b; part_major := part_major b; initrd_major :=
     initrd_major b; minor_counter := minor_counter b |}.
Definition set_b_drivers (v : gmap Z bd_driver_t) (b : blk_t) : blk_t :=
  {| b_devs := b_devs b; b_drivers := v; b_parts := b_parts b; b_rds := b_rds b; b_ram := b_ram b;
     major_counter := major_counter b; driver_list := driver_list b; driver_list_lock := driver_list_lock b;
     bd_list := bd_list b; bd_list_lock := bd_list_lock b; part_major := part_major b; initrd_major :=
     initrd_major b; minor_counter := minor_counter b |}.
Definition set_b_parts (v : gmap Z part_t) (b : blk_t) : blk_t :=
  {| b_devs := b_devs b; b_drivers := b_drivers b; b_parts := v; b_rds := b_rds b; b_ram := b_ram b;
     major_counter := major_counter b; driver_list := driver_list b; driver_list_lock := driver_list_lock b;
     bd_list := bd_list b; bd_list_lock := bd_list_lock b; part_major := part_major b; initrd_major :=
     initrd_major b; minor_counter := minor_counter b |}.
Definition set_b_rds (v : gmap Z rd_t) (b : blk_t) : blk_t :=
  {| b_devs := b_devs b; b_drivers := b_drivers b; b_parts := b_parts b; b_rds := v; b_ram := b_ram b;
     major_counter := major_counter b; driver_list := driver_list b; driver_list_lock := driver_list_lock b;
     bd_list := bd_list b; bd_list_lock := bd_list_lock b; part_major := part_major b; initrd_major :=
     initrd_major b; minor_counter := minor_counter b |}.
Definition set_b_ram (v : gmap Z (list Z)) (b : blk_t) : blk_t :=
  {| b_devs := b_devs b; b_drivers := b_drivers b; b_parts := b_parts b; b_rds := b_rds b; b_ram := v;
     major_counter := major_counter b; driver_list := driver_list b; driver_list_lock := driver_list_lock b;
     bd_list := bd_list b; bd_list_lock := bd_list_lock b; part_major := part_major b; initrd_major :=
     initrd_major b; minor_counter := minor_counter b |}.
Definition set_major_counter (v : Z) (b : blk_t) : blk_t :=
  {| b_devs := b_devs b; b_drivers := b_drivers b; b_parts := b_parts b; b_rds := b_rds b; b_ram := b_ram b;
     major_counter := v; driver_list := driver_list b; driver_list_lock := driver_list_lock b; bd_list :=
     bd_list b; bd_list_lock := bd_list_lock b; part_major := part_major b; initrd_major := initrd_major b;
     minor_counter := minor_counter b |}.
Definition set_driver_list (v : list_t) (b : blk_t) : blk_t :=
  {| b_devs := b_devs b; b_drivers := b_drivers b; b_parts := b_parts b; b_rds := b_rds b; b_ram := b_ram b;
     major_counter := major_counter b; driver_list := v; driver_list_lock := driver_list_lock b; bd_list :=
     bd_list b; bd_list_lock := bd_list_lock b; part_major := part_major b; initrd_major := initrd_major b;
     minor_counter := minor_counter b |}.
Definition set_driver_list_lock (v : mutex_t) (b : blk_t) : blk_t :=
  {| b_devs := b_devs b; b_drivers := b_drivers b; b_parts := b_parts b; b_rds := b_rds b; b_ram := b_ram b;
     major_counter := major_counter b; driver_list := driver_list b; driver_list_lock := v; bd_list := bd_list
     b; bd_list_lock := bd_list_lock b; part_major := part_major b; initrd_major := initrd_major b;
     minor_counter := minor_counter b |}.
Definition set_bd_list (v : list_t) (b : blk_t) : blk_t :=
  {| b_devs := b_devs b; b_drivers := b_drivers b; b_parts := b_parts b; b_rds := b_rds b; b_ram := b_ram b;
     major_counter := major_counter b; driver_list := driver_list b; driver_list_lock := driver_list_lock b;
     bd_list := v; bd_list_lock := bd_list_lock b; part_major := part_major b; initrd_major := initrd_major b;
     minor_counter := minor_counter b |}.
Definition set_bd_list_lock (v : mutex_t) (b : blk_t) : blk_t :=
  {| b_devs := b_devs b; b_drivers := b_drivers b; b_parts := b_parts b; b_rds := b_rds b; b_ram := b_ram b;
     major_counter := major_counter b; driver_list := driver_list b; driver_list_lock := driver_list_lock b;
     bd_list := bd_list b; bd_list_lock := v; part_major := part_major b; initrd_major := initrd_major b;
     minor_counter := minor_counter b |}.
Definition set_part_major (v : Z) (b : blk_t) : blk_t :=
  {| b_devs := b_devs b; b_drivers := b_drivers b; b_parts := b_parts b; b_rds := b_rds b; b_ram := b_ram b;
     major_counter := major_counter b; driver_list := driver_list b; driver_list_lock := driver_list_lock b;
     bd_list := bd_list b; bd_list_lock := bd_list_lock b; part_major := v; initrd_major := initrd_major b;
     minor_counter := minor_counter b |}.
Definition set_initrd_major (v : Z) (b : blk_t) : blk_t :=
  {| b_devs := b_devs b; b_drivers := b_drivers b; b_parts := b_parts b; b_rds := b_rds b; b_ram := b_ram b;
     major_counter := major_counter b; driver_list := driver_list b; driver_list_lock := driver_list_lock b;
     bd_list := bd_list b; bd_list_lock := bd_list_lock b; part_major := part_major b; initrd_major := v;
     minor_counter := minor_counter b |}.
Definition set_minor_counter (v : Z) (b : blk_t) : blk_t :=
  {| b_devs := b_devs b; b_drivers := b_drivers b; b_parts := b_parts b; b_rds := b_rds b; b_ram := b_ram b;
     major_counter := major_counter b; driver_list := driver_list b; driver_list_lock := driver_list_lock b;
     bd_list := bd_list b; bd_list_lock := bd_list_lock b; part_major := part_major b; initrd_major :=
     initrd_major b; minor_counter := v |}.

#[export] Instance bd_object `{BlockState F} {A} : Object bd_t A F :=
  {| objs k := b_devs (blk (k_fs k)); set_objs m k := set_k_fs (set_blk (set_b_devs m (blk (k_fs k))) (k_fs k)) k |}.
#[export] Instance driver_object `{BlockState F} {A} : Object bd_driver_t A F :=
  {| objs k := b_drivers (blk (k_fs k)); set_objs m k := set_k_fs (set_blk (set_b_drivers m (blk (k_fs k))) (k_fs k)) k |}.
#[export] Instance part_object `{BlockState F} {A} : Object part_t A F :=
  {| objs k := b_parts (blk (k_fs k)); set_objs m k := set_k_fs (set_blk (set_b_parts m (blk (k_fs k))) (k_fs k)) k |}.
#[export] Instance rd_object `{BlockState F} {A} : Object rd_t A F :=
  {| objs k := b_rds (blk (k_fs k)); set_objs m k := set_k_fs (set_blk (set_b_rds m (blk (k_fs k))) (k_fs k)) k |}.
#[export] Instance ram_object `{BlockState F} {A} : Object (list Z) A F :=
  {| objs k := b_ram (blk (k_fs k)); set_objs m k := set_k_fs (set_blk (set_b_ram m (blk (k_fs k))) (k_fs k)) k |}.
(** [BLOCK_SIZE] is that of fs/vfs.h.  [BLKDEV_MODE] (kernel/kernel/fs/blockdev.c, lines 11-18). *)
Definition BLKDEV_MODE : Z := BIT 8 + BIT 7 + BIT 5 + BIT 4.

(** The drivers of partitions and RAM disks before they are registered ([partscan_drv]
    (kernel/kernel/fs/partscan.c, lines 58-66)). *)
Definition partscan_drv : bd_driver_t := {| bd_ops := {| readblk := ps_read_fn; writeblk := ps_write_fn |}; major := 0 |}.
(** [initrd_driver] (kernel/kernel/fs/ramdisk.c, lines 57-65). *)
Definition initrd_driver : bd_driver_t :=
  {| bd_ops := {| readblk := initrd_read_fn; writeblk := initrd_write_fn |}; major := 0 |}.

Definition set_major (m : Z) (d : bd_driver_t) : bd_driver_t := {| bd_ops := bd_ops d; major := m |}.
Definition set_rd_lock (l : mutex_t) (r : rd_t) : rd_t :=
  {| ramdisk := ramdisk r; ramdisk_size := ramdisk_size r; rd_minor := rd_minor r; rd_lock := l |}.

Section operations.
Context {A F : Type} `{B : Build} `{KM : Kmalloc A} `{D : Drivers A F} `{BS : BlockState F} `{BD : BlockDrivers A F}.
Abbreviation kernel := (Kernel.kernel A F).
Abbreviation KB := (K kernel).

(** The addresses of the two drivers, and of [bd_read] and [bd_write]; what memory that is not
    initialised holds. *)
Context (PARTSCAN_DRV INITRD_DRV BD_READ BD_WRITE : Z) (junk : Z → Z) (junk_mutex : Z → mutex_t)
  (junk_name : Z → list Z) (junk_mbr : list Z).

Definition of_blk {X} (get : blk_t → X) (k : kernel) : X := get (blk (k_fs k)).
Definition in_blk {X} (set : X → blk_t → blk_t) (x : X) (k : kernel) : kernel :=
  set_k_fs (set_blk (set x (blk (k_fs k))) (k_fs k)) k.
Definition lock_bds : KB unit := lock_var (of_blk bd_list_lock) (in_blk set_bd_list_lock).
Definition unlock_bds : KB unit := unlock_var (of_blk bd_list_lock) (in_blk set_bd_list_lock).

(** ** RAM disks *)

(** The number of blocks that are transferred: the sums are those of 64-bit words
    ([initrd_read] (kernel/kernel/fs/ramdisk.c, lines 30-31)). *)
Definition rd_count (r : rd_t) (count lba : Z) : Z :=
  if ramdisk_size r <? u64 (lba + count) then u64 (ramdisk_size r - lba) else count.

(** The bytes of the disk that [memcpy] touches must be there. *)
Definition in_disk (image : list Z) (count lba : Z) : bool :=
  u64 (lba * BLOCK_SIZE) + u64 (count * BLOCK_SIZE) <=? Z.of_nat (length image).

(** [initrd_read] (kernel/kernel/fs/ramdisk.c, lines 25-35). *)
Definition initrd_read (drv count lba : Z) : KB (Z * list Z) :=
  r ← load (T := rd_t) drv;
  let count := rd_count r count lba in
  image ← load (T := list Z) (ramdisk r);
  if negb (in_disk image count lba) then kstop Fault
  else mret (s64 (count * BLOCK_SIZE), slice (u64 (lba * BLOCK_SIZE)) (u64 (count * BLOCK_SIZE)) image).

(** [initrd_write] (kernel/kernel/fs/ramdisk.c, lines 37-49). *)
Definition initrd_write (drv : Z) (buffer : list Z) (count lba : Z) : KB (Z * list Z) :=
  lock_in rd_lock set_rd_lock drv;;
  r ← load (T := rd_t) drv;
  let count := rd_count r count lba in
  image ← load (T := list Z) (ramdisk r);
  if negb (in_disk image count lba) || (Z.of_nat (length buffer) <? u64 (count * BLOCK_SIZE)) then kstop Fault
  else
    let pos := u64 (lba * BLOCK_SIZE) in
    let n := u64 (count * BLOCK_SIZE) in
    put (ramdisk r) (slice 0 pos image ++ slice 0 n buffer ++ drop (Z.to_nat (pos + n)) image);;
    unlock_in rd_lock set_rd_lock drv;;
    mret (s64 (count * BLOCK_SIZE), []).

(** ** Calls of drivers *)

(** A call through a function pointer; partitions lie on other devices, [depth] deep at most.
    [ps_read] (kernel/kernel/fs/partscan.c, lines 35-42) adds the offset of the partition ... *)
Fixpoint call_blk (depth : nat) (f : blk_fn) (data minor_ : Z) (buffer : list Z) (count lba : Z) : KB (Z * list Z) :=
  match f with
  | no_fn => kstop Fault
  | other_fn fn => other_blk fn data minor_ buffer count lba
  | initrd_read_fn => initrd_read data count lba
  | initrd_write_fn => initrd_write data buffer count lba
  | ps_read_fn | ps_write_fn =>
      match depth with
      | O => kstop NoFuel
      | S depth =>
          part ← load (T := part_t) data;
          dev ← load (T := bd_t) (pt_blkdev part);
          drv ← load (T := bd_driver_t) (driver dev);
          call_blk depth (readblk (bd_ops drv)) (bd_data dev) (minor dev) buffer count (u64 (lba + blk_offset part))
      end
  end.

(** ... and so does [ps_write] (kernel/kernel/fs/partscan.c, lines 44-51), which calls [readblk] as
    well. *)
Definition ps_write (depth : nat) (data minor_ : Z) (buffer : list Z) (count lba : Z) : KB (Z * list Z) :=
  call_blk depth ps_write_fn data minor_ buffer count lba.

(** The nesting of devices: a partition on a disk. *)
Definition DEPTH : nat := 1.

(** The scaling of the number of blocks that a driver returns
    ([bd_read] (kernel/kernel/fs/blkdev_ops.c, lines 21-23)). *)
Definition blocks_to_bytes (r : Z * list Z) : Z * list Z := if r.1 <? 0 then r else (s64 (r.1 * BLOCK_SIZE), r.2).

(** [bd_read] (kernel/kernel/fs/blkdev_ops.c, lines 12-24). *)
Definition bd_read (drv size off : Z) : KB (Z * list Z) :=
  bd ← load (T := bd_t) drv;
  d ← load (T := bd_driver_t) (driver bd);
  if bool_decide (readblk (bd_ops d) = no_fn) then mret (- ENOTSUP, [])
  else
    r ← call_blk DEPTH (readblk (bd_ops d)) (bd_data bd) (minor bd) [] (size / BLOCK_SIZE) (off / BLOCK_SIZE);
    mret (blocks_to_bytes r).

(** [bd_write] (kernel/kernel/fs/blkdev_ops.c, lines 26-38). *)
Definition bd_write (drv : Z) (buffer : list Z) (size off : Z) : KB (Z * list Z) :=
  bd ← load (T := bd_t) drv;
  d ← load (T := bd_driver_t) (driver bd);
  if bool_decide (writeblk (bd_ops d) = no_fn) then mret (- ENOTSUP, [])
  else
    r ← call_blk DEPTH (writeblk (bd_ops d)) (bd_data bd) (minor bd) buffer (size / BLOCK_SIZE) (off / BLOCK_SIZE);
    mret (blocks_to_bytes r).

(** ** The list of devices *)

(** [bd_open] (kernel/kernel/fs/blkdev_ops.c, lines 40-62): the fields of the descriptor that are
    not set hold what was in memory. *)
Definition bd_open (major_ minor_ : Z) : KB (Z * option Z) :=
  lock_bds;;
  l ← gets (of_blk bd_list);
  r ← foreach l (λ bd,
    b ← load (T := bd_t) bd;
    d ← (if minor b =? minor_ then d ← load (T := bd_driver_t) (driver b); mret (Some d) else mret None);
    if bool_decide (major <$> d = Some major_) then
      fd ← new 112;
      put fd {| fd_file := junk fd; fpos := 0; f_ops := {| op_read := BD_READ; op_write := BD_WRITE |}; fs_data := bd;
                fdmod := junk_mutex (fd + 40) |};;
      unlock_bds;;
      mret (Some fd)
    else mret None);
  match r with
  | Some fd => mret (SUCCESS, Some fd)
  | None => unlock_bds;; mret (- ENOENT, None)
  end.

(** [bd_get_by_name] (kernel/kernel/fs/blockdev.c, lines 90-108). *)
Definition bd_get_by_name (name : list Z) : KB (option (Z * Z)) :=
  lock_bds;;
  l ← gets (of_blk bd_list);
  r ← foreach l (λ bd,
    b ← load (T := bd_t) bd;
    if bool_decide (name = bd_name b) then
      d ← load (T := bd_driver_t) (driver b);
      unlock_bds;;
      mret (Some (major d, minor b))
    else mret None);
  match r with
  | Some r => mret (Some r)
  | None => unlock_bds;; mret None
  end.

(** [try_mknod_blkdevice] (kernel/kernel/fs/blockdev.c, lines 58-69): the path "/dev/" and the name, in a
    buffer of 256 bytes; the status is only printed. *)
Definition try_mknod_blkdevice (bd : Z) : KB unit :=
  b ← load (T := bd_t) bd;
  d ← load (T := bd_driver_t) (driver b);
  if 250 <? Z.of_nat (length (bd_name b)) then kstop Fault
  else
    _ ← vfs_mknod junk 0 ([47; 100; 101; 118; 47] ++ bd_name b) F_BLOCK BLKDEV_MODE (major d) (minor b);
    mret tt.

(** [blockdev_mknodes] (kernel/kernel/fs/blockdev.c, lines 111-122). *)
Definition blockdev_mknodes : KB unit :=
  lock_bds;;
  l ← gets (of_blk bd_list);
  _ ← foreach (R := unit) l (λ bd, try_mknod_blkdevice bd;; mret None);
  unlock_bds.

(** [bd_register_driver] (kernel/kernel/fs/blockdev.c, lines 42-56). *)
Definition bd_register_driver (bd_driver : Z) : KB Z :=
  '(m, c) ← gets (λ k, atomic_add (of_blk major_counter k) 1);
  modify (in_blk set_major_counter c);;
  change bd_driver (set_major m);;
  lock_var (of_blk driver_list_lock) (in_blk set_driver_list_lock);;
  l ← gets (of_blk driver_list);
  '(_, l) ← on_store (list_add l bd_driver);
  modify (in_blk set_driver_list l);;
  unlock_var (of_blk driver_list_lock) (in_blk set_driver_list_lock);;
  mret m.

(** ** Partitions *)

(** The name of a partition, in 32 bytes ([partscan] (kernel/kernel/fs/partscan.c, lines
    112-112)). *)
Definition part_name (name : list Z) (i : nat) : list Z := name ++ [112; 48 + Z.of_nat i].

(** The body of the loop over the entries of the table ([partscan] (kernel/kernel/fs/partscan.c,
    lines 97-122)); [again] is [bd_register]. *)
Definition add_partition (again : Z → KB unit) (blkdev : Z) (mbr : list Z) (i : nat) : KB unit :=
  let part := mbr_part mbr i in
  if mp_type part =? 0 then mret tt
  else
    genpart ← new 64;
    dev ← load (T := bd_t) blkdev;
    if 31 <? Z.of_nat (length (part_name (bd_name dev) i)) then kstop Fault
    else
      put genpart {| pt_blkdev := blkdev; blk_offset := lba_start part; blk_size := lba_size part; pt_type := mp_type part;
                     pt_prefix := part_name (bd_name dev) i |};;
      bd ← new 64;
      put bd {| minor := Z.of_nat i; capacity := lba_size part; driver := PARTSCAN_DRV; bd_data := genpart;
                bd_name := part_name (bd_name dev) i |};;
      again bd.

(** [partscan] (kernel/kernel/fs/partscan.c, lines 75-123). *)
Definition partscan (again : Z → KB unit) (blkdev : Z) : KB unit :=
  dev ← load (T := bd_t) blkdev;
  d ← load (T := bd_driver_t) (driver dev);
  pm ← gets (of_blk part_major);
  if major d =? pm then mret tt
  else
    '(n, bytes) ← call_blk DEPTH (readblk (bd_ops d)) (bd_data dev) (minor dev) [] 1 0;
    if n <? 1 then mret tt
    else
      let mbr := overwritten bytes junk_mbr in
      if bool_decide (mbr_magic mbr = (0x55, 0xAA)) then
        add_partition again blkdev mbr 0;;
        add_partition again blkdev mbr 1;;
        add_partition again blkdev mbr 2;;
        add_partition again blkdev mbr 3
      else mret tt.

(** [bd_register] (kernel/kernel/fs/blockdev.c, lines 71-88); it registers the partitions that it
    finds, which have none themselves, so [depth] 2 is enough. *)
Fixpoint bd_register (depth : nat) (blkdev : Z) : KB unit :=
  match depth with
  | O => kstop NoFuel
  | S depth =>
      b ← load (T := bd_t) blkdev;
      lift (assert_ (negb (capacity b =? 0)));;
      lift (assert_ (negb (driver b =? 0)));;
      lock_bds;;
      l ← gets (of_blk bd_list);
      '(_, l) ← on_store (list_add l blkdev);
      modify (in_blk set_bd_list l);;
      unlock_bds;;
      init ← gets (of_vfs vfs_initialized);
      when init (try_mknod_blkdevice blkdev);;
      partscan (bd_register depth) blkdev
  end.

(** [partscan_init] (kernel/kernel/fs/partscan.c, lines 70-73). *)
Definition partscan_init : KB unit := m ← bd_register_driver PARTSCAN_DRV; modify (in_blk set_part_major m).

(** [blockdev_init] (kernel/kernel/fs/blockdev.c, lines 28-40). *)
Definition blockdev_init : KB unit :=
  modify (in_blk set_driver_list list_init);;
  modify (in_blk set_bd_list list_init);;
  l ← gets (of_blk driver_list_lock); l ← lift (mutex_init l); modify (in_blk set_driver_list_lock l);;
  l ← gets (of_blk bd_list_lock); l ← lift (mutex_init l); modify (in_blk set_bd_list_lock l);;
  partscan_init.

(** [ramdisk_init] (kernel/kernel/fs/ramdisk.c, lines 67-70). *)
Definition ramdisk_init : KB unit := m ← bd_register_driver INITRD_DRV; modify (in_blk set_initrd_major m).

(** [ramdisk_install] (kernel/kernel/fs/ramdisk.c, lines 72-91): neither the lock nor the name is
    initialised, and the capacity is divided by the size of a block twice. *)
Definition ramdisk_install (ramdisk_ size : Z) : KB Z :=
  lift (assert_ (negb (ramdisk_ =? 0)));;
  rd ← new 96;
  '(m, c) ← gets (λ k, atomic_add (of_blk minor_counter k) 1);
  modify (in_blk set_minor_counter c);;
  put rd {| ramdisk := ramdisk_; ramdisk_size := Z.shiftr size 9; rd_minor := m; rd_lock := junk_mutex (rd + 24) |};;
  bd ← new 64;
  put bd {| minor := m; capacity := Z.shiftr size 9 / BLOCK_SIZE; driver := INITRD_DRV; bd_data := rd;
            bd_name := junk_name bd |};;
  bd_register 2 bd;;
  mret bd.
End operations.

(** ** Disks in memory *)

Section disks.
Context {A F : Type} `{B : Build} `{KM : Kmalloc A} `{BS : BlockState F} `{BD : BlockDrivers A F}.
Abbreviation kernel := (Kernel.kernel A F).
Implicit Types (k : kernel) (image : list Z).

(** The device at an address with its driver. *)
Definition device k (p : Z) (b : bd_t) (d : bd_driver_t) : Prop :=
  b_devs (blk (k_fs k)) !! p = Some b ∧ b_drivers (blk (k_fs k)) !! driver b = Some d.

(** A device that is a RAM disk with some content; the content may end inside a block. *)
Definition is_ramdisk k (p : Z) (r : rd_t) image : Prop :=
  ∃ b d, device k p b d ∧ bd_ops d = {| readblk := initrd_read_fn; writeblk := initrd_write_fn |} ∧
    b_rds (blk (k_fs k)) !! bd_data b = Some r ∧ b_ram (blk (k_fs k)) !! ramdisk r = Some image ∧
    ramdisk_size r = Z.of_nat (length image) / 512 ∧ Z.of_nat (length image) < 2 ^ 53.

(** A range of whole blocks. *)
Definition blocks_in image (off len : Z) : Prop :=
  0 <= off ∧ 0 <= len ∧ off mod 512 = 0 ∧ len mod 512 = 0 ∧ off + len <= Z.of_nat (length image).

Lemma u64_small x : 0 <= x < 2 ^ 63 -> u64 x = x.
Proof. intros Hx. apply uwrap_small. unfold is_word. change (2 ^ 63) with 9223372036854775808 in Hx.
  change (2 ^ 64) with 18446744073709551616. lia. Qed.

Lemma s64_small x : 0 <= x < 2 ^ 63 -> s64 x = x.
Proof.
  intros Hx. unfold swrap. simpl. change (2 ^ 63) with 9223372036854775808 in *. rewrite Z.mod_small; lia.
Qed.

(** The numbers that the RAM disk computes for such a range. *)
Lemma block_numbers image (r : rd_t) off len :
  blocks_in image off len → ramdisk_size r = Z.of_nat (length image) / 512 → Z.of_nat (length image) < 2 ^ 53 →
  rd_count r (len / 512) (off / 512) = len / 512 ∧ u64 (off / 512 * 512) = off ∧ u64 (len / 512 * 512) = len ∧
  s64 (len / 512 * 512) = len ∧ in_disk image (len / 512) (off / 512) = true.
Proof.
  intros (Ho & Hl & Hom & Hlm & Hin) Hr Hs. change (2 ^ 53) with 9007199254740992 in Hs.
  assert (off / 512 * 512 = off ∧ len / 512 * 512 = len) as [Hoe Hle] by (split; zdiv).
  assert (u64 off = off ∧ u64 len = len ∧ s64 len = len) as (Huo & Hul & Hsl).
  { split_and!; [apply u64_small|apply u64_small|apply s64_small]; change (2 ^ 63) with 9223372036854775808; lia. }
  rewrite Hoe, Hle. split_and!; [|done..|].
  - unfold rd_count. rewrite (u64_small (off / 512 + len / 512)) by (change (2 ^ 63) with 9223372036854775808; zdiv).
    rewrite Hr. rewrite (proj2 (Z.ltb_ge _ _)); [done|]. zdiv.
  - unfold in_disk, BLOCK_SIZE. rewrite Hoe, Hle, Huo, Hul. by apply Z.leb_le.
Qed.

Lemma initrd_read_spec k p r image off len :
  b_rds (blk (k_fs k)) !! p = Some r → b_ram (blk (k_fs k)) !! ramdisk r = Some image →
  ramdisk_size r = Z.of_nat (length image) / 512 → Z.of_nat (length image) < 2 ^ 53 → blocks_in image off len →
  initrd_read p (len / 512) (off / 512) k = Ok ((len, slice off len image), k).
Proof.
  intros Hr Hi Hsz Hs Hb. destruct (block_numbers image r off len Hb Hsz Hs) as (Hc & Ho & Hl & Hsl & Hin).
  unfold initrd_read. kstep (load_Ok (O := rd_object) p r k Hr). rewrite Hc.
  kstep (load_Ok (O := ram_object) (ramdisk r) image k Hi). rewrite Hin. cbn [negb].
  unfold BLOCK_SIZE. by rewrite Ho, Hl, Hsl.
Qed.

(** The number that [bd_read] returns is the number of bytes times the size of a block. *)
Lemma scaled len image off : 0 <= len < 2 ^ 53 →
  blocks_to_bytes (len, slice off len image) = (512 * len, slice off len image).
Proof.
  intros Hl. unfold blocks_to_bytes, BLOCK_SIZE. cbn [fst snd]. rewrite (proj2 (Z.ltb_ge len 0)) by lia.
  change (2 ^ 53) with 9007199254740992 in Hl. rewrite s64_small by (change (2 ^ 63) with 9223372036854775808; lia).
  f_equal. lia.
Qed.

Lemma bd_read_ramdisk k p r image off len :
  is_ramdisk k p r image → blocks_in image off len → bd_read p len off k = Ok ((512 * len, slice off len image), k).
Proof.
  intros (b & d & [Hb Hd] & Hops & Hr & Hi & Hsz & Hs) Hin. unfold bd_read.
  kstep (load_Ok (O := bd_object) p b k Hb). kstep (load_Ok (O := driver_object) (driver b) d k Hd).
  rewrite Hops. cbn [readblk]. rewrite bool_decide_false by done. cbn [call_blk DEPTH]. unfold BLOCK_SIZE.
  kstep (initrd_read_spec k (bd_data b) r image off len Hr Hi Hsz Hs Hin). unfold mret, K_ret.
  destruct Hin as (? & ? & _ & _ & ?). by rewrite scaled by lia.
Qed.

(** A partition on a disk. *)
Definition on_partition k (p : Z) (b : bd_t) (pt : part_t) : Prop :=
  ∃ d, device k p b d ∧ bd_ops d = bd_ops partscan_drv ∧ b_parts (blk (k_fs k)) !! bd_data b = Some pt.

(** Both operations of a partition read the disk, its offset added. *)
Lemma partition_reads k p b pt r image off len f buffer :
  on_partition k p b pt → is_ramdisk k (pt_blkdev pt) r image → f = ps_read_fn ∨ f = ps_write_fn →
  0 <= off → 0 <= len → off mod 512 = 0 → len mod 512 = 0 → 0 <= blk_offset pt →
  off + 512 * blk_offset pt + len <= Z.of_nat (length image) →
  call_blk DEPTH f (bd_data b) (minor b) buffer (len / BLOCK_SIZE) (off / BLOCK_SIZE) k =
    Ok ((len, slice (off + 512 * blk_offset pt) len image), k).
Proof.
  intros (d & _ & _ & Hpt) (b2 & d2 & [Hb2 Hd2] & Hops2 & Hr & Hi & Hsz & Hs) Hf Ho Hl Hom Hlm Hbo Hin.
  assert (call_blk DEPTH f (bd_data b) (minor b) buffer (len / BLOCK_SIZE) (off / BLOCK_SIZE) k =
    initrd_read (bd_data b2) (len / 512) ((off + 512 * blk_offset pt) / 512) k) as ->.
  { change (2 ^ 53) with 9007199254740992 in Hs. unfold BLOCK_SIZE.
    assert (u64 (off / 512 + blk_offset pt) = (off + 512 * blk_offset pt) / 512) as <-.
    { rewrite u64_small by (change (2 ^ 63) with 9223372036854775808; zdiv). zdiv. }
    destruct Hf as [-> | ->]; cbn [call_blk DEPTH]; kstep (load_Ok (O := part_object) (bd_data b) pt k Hpt);
      kstep (load_Ok (O := bd_object) (pt_blkdev pt) b2 k Hb2);
      kstep (load_Ok (O := driver_object) (driver b2) d2 k Hd2); by rewrite Hops2. }
  apply (initrd_read_spec k (bd_data b2) r); [done..|]. split_and!; [lia|done|zdiv|done|lia].
Qed.

(** The disk after blocks were written. *)
Definition written image (off len : Z) (bytes : list Z) : list Z :=
  slice 0 off image ++ slice 0 len bytes ++ drop (Z.to_nat (off + len)) image.

Lemma written_length image off len bytes :
  0 <= off → 0 <= len → off + len <= Z.of_nat (length image) → len <= Z.of_nat (length bytes) →
  length (written image off len bytes) = length image.
Proof. intros. unfold written, slice. rewrite !length_app, !length_take, !length_drop. simpl. lia. Qed.

Lemma slice_app_skip (l1 l2 : list Z) off len :
  Z.of_nat (length l1) <= off → slice off len (l1 ++ l2) = slice (off - Z.of_nat (length l1)) len l2.
Proof. intros Ho. unfold slice. rewrite drop_app_ge by lia. do 2 f_equal. lia. Qed.

Lemma slice_app_left (l1 l2 : list Z) off len :
  0 <= off → 0 <= len → off + len <= Z.of_nat (length l1) → slice off len (l1 ++ l2) = slice off len l1.
Proof. intros. unfold slice. rewrite drop_app_le by lia. rewrite take_app_le; [done|]. rewrite length_drop. lia. Qed.

(** The bytes that were written are read back, and the other ones have not changed. *)
Lemma slice_written image off len bytes :
  0 <= off → 0 <= len → off + len <= Z.of_nat (length image) → len <= Z.of_nat (length bytes) →
  slice off len (written image off len bytes) = slice 0 len bytes ∧
  (∀ o l, 0 <= o → 0 <= l → o + l <= off ∨ off + len <= o → slice o l (written image off len bytes) = slice o l image).
Proof.
  intros Ho Hl Hin Hb. assert (length (slice 0 off image) = Z.to_nat off) as Hl1 by (unfold slice; rewrite length_take, length_drop; simpl; lia).
  assert (length (slice 0 len bytes) = Z.to_nat len) as Hl2 by (unfold slice; rewrite length_take, length_drop; simpl; lia).
  unfold written. split.
  - rewrite slice_app_skip by lia. replace (off - Z.of_nat (length (slice 0 off image))) with 0 by lia.
    rewrite slice_app_left by lia. unfold slice at 1. change (Z.to_nat 0) with 0%nat.
    rewrite drop_0. by rewrite take_ge by (rewrite Hl2; lia).
  - intros o l Hoo Hll [Hlt|Hge].
    + rewrite slice_app_left by lia. unfold slice. simpl. rewrite drop_0, skipn_firstn_comm, firstn_firstn. f_equal. lia.
    + rewrite slice_app_skip by lia. rewrite slice_app_skip by lia. rewrite Hl1, Hl2. unfold slice. rewrite drop_drop.
      do 2 f_equal. lia.
Qed.

(** The state with other content of a disk. *)
Definition set_ram k (p : Z) image : kernel := in_blk set_b_ram (<[p := image]> (b_ram (blk (k_fs k)))) k.

Lemma unlock_rds p r l image q k :
  b_rds (blk (k_fs k)) !! p = Some r →
  in_blk set_b_rds (<[p := r]> (<[p := l]> (b_rds (blk (k_fs k)))))
    (set_ram (in_blk set_b_rds (<[p := l]> (b_rds (blk (k_fs k)))) k) q image) = set_ram k q image.
Proof.
  intros Hp. rewrite insert_insert_eq, insert_id by done. unfold set_ram, in_blk. cbn [k_fs set_k_fs].
  rewrite !blk_set, !set_blk_set. by destruct k, (blk _).
Qed.

Lemma initrd_write_spec k p r image buffer off len :
  b_rds (blk (k_fs k)) !! p = Some r → rd_lock r = MUTEX_INITIALIZER → b_ram (blk (k_fs k)) !! ramdisk r = Some image →
  ramdisk_size r = Z.of_nat (length image) / 512 → Z.of_nat (length image) < 2 ^ 53 → blocks_in image off len →
  len <= Z.of_nat (length buffer) →
  initrd_write p buffer (len / 512) (off / 512) k = Ok ((len, []), set_ram k (ramdisk r) (written image off len buffer)).
Proof.
  intros Hr Hl Hi Hsz Hs Hb Hlen. destruct (block_numbers image r off len Hb Hsz Hs) as (Hc & Ho & Hle & Hsl & Hin).
  unfold initrd_write. kstep (lock_in_idle (O := rd_object) rd_lock set_rd_lock p r k Hr Hl).
  set (k1 := set_objs _ k). set (r1 := set_rd_lock (mx_taken (current_task k)) r).
  assert (objs k1 !! p = Some r1) as Hr1 by (unfold k1; cbn; rewrite blk_set; apply lookup_insert_eq).
  kstep (load_Ok (O := rd_object) p r1 k1 Hr1). change (rd_count r1) with (rd_count r). change (ramdisk r1) with (ramdisk r). rewrite Hc.
  assert (objs k1 !! ramdisk r = Some image) as Hi1 by (unfold k1; cbn; rewrite blk_set; exact Hi).
  kstep (load_Ok (O := ram_object) (ramdisk r) image k1 Hi1). rewrite Hin. unfold BLOCK_SIZE. rewrite Hle, Ho, Hsl.
  rewrite (proj2 (Z.ltb_ge _ _)) by lia. cbn [negb orb]. kpure. set (k2 := set_objs _ k1).
  assert (objs k2 !! p = Some r1) as Hr2 by (unfold k2, k1; cbn; rewrite !blk_set; apply lookup_insert_eq).
  kstep (unlock_in_taken (O := rd_object) rd_lock set_rd_lock p r1 k2 Hr2 eq_refl).
  unfold mret, K_ret. do 2 f_equal.
  assert (set_rd_lock MUTEX_INITIALIZER r1 = r) as -> by (destruct r; simpl in *; by rewrite Hl).
  rewrite <- (unlock_rds p r r1 (written image off len buffer) (ramdisk r) k Hr).
  unfold k2, k1. cbn. unfold in_blk, set_ram, in_blk. cbn. by rewrite !blk_set.
Qed.

(** ** The list of devices *)

Section devices.
Context {KL : KmallocLaws A}.
Implicit Types (ds : list (Z * (bd_t * bd_driver_t))).

(** The list, unlocked, holds devices. *)
Record devices_ok k xs ds : Prop := {
  dv_lock : of_blk bd_list_lock k = MUTEX_INITIALIZER;
  dv_store : store_wf (k_store k);
  dv_repr : list_repr (of_blk bd_list k) xs (k_store k);
  dv_payloads : xs.*2 = ds.*1;
  dv_device x : x ∈ ds → device k x.1 x.2.1 x.2.2;
}.

Definition numbers (x : Z * (bd_t * bd_driver_t)) : Z * Z := (major x.2.2, minor x.2.1).

Definition bds_locked k : kernel := in_blk set_bd_list_lock (mx_taken (current_task k)) k.

Lemma lock_bds_Ok k : of_blk bd_list_lock k = MUTEX_INITIALIZER → lock_bds k = Ok (tt, bds_locked k).
Proof. intros Hl. unfold lock_bds, lock_var. kpure. rewrite Hl. by kstep (k_lock_idle k). Qed.

Lemma unlock_bds_Ok k k1 :
  of_blk bd_list_lock k1 = mx_taken (current_task k1) → unlock_bds k1 = Ok (tt, in_blk set_bd_list_lock MUTEX_INITIALIZER k1).
Proof. intros Hl. unfold unlock_bds, unlock_var. kpure. rewrite Hl. by kstep (k_unlock_taken k1). Qed.

Lemma relock_bds k : of_blk bd_list_lock k = MUTEX_INITIALIZER → in_blk set_bd_list_lock MUTEX_INITIALIZER (bds_locked k) = k.
Proof.
  intros Hl. unfold bds_locked, in_blk, of_blk in *. cbn [k_fs set_k_fs]. rewrite blk_set, set_blk_set.
  assert (set_bd_list_lock MUTEX_INITIALIZER (set_bd_list_lock (mx_taken (current_task k)) (blk (k_fs k))) = blk (k_fs k)) as ->.
  { destruct (blk (k_fs k)). simpl in *. by rewrite Hl. }
  rewrite set_blk_blk. by destruct k.
Qed.

Lemma bds_locked_lock k : of_blk bd_list_lock (bds_locked k) = mx_taken (current_task (bds_locked k)).
Proof. unfold bds_locked, of_blk, in_blk. cbn. by rewrite blk_set. Qed.

Lemma bds_locked_objs k x b d : device k x b d → device (bds_locked k) x b d.
Proof. unfold device, bds_locked, in_blk. cbn. by rewrite blk_set. Qed.

(** The search for the first device with a property. *)
Lemma search_bds {R} k xs (l1 l2 : list (Z * (bd_t * bd_driver_t))) z (body : Z → K kernel (option R)) :
  devices_ok k xs (l1 ++ z :: l2) →
  (∀ x, x ∈ l1 → body x.1 (bds_locked k) = Ok (None, bds_locked k)) →
  (∀ x k' k'', body x k' = Ok (None, k'') → k_store k' = k_store k → k_store k'' = k_store k) →
  foreach (of_blk bd_list (bds_locked k)) body (bds_locked k) =
    (r ← body z.1; match r with Some _ => mret r | None => run_payloads l2.*1 body end) (bds_locked k).
Proof.
  intros [Hl Hs Hr Hp Hd] Hno Hst.
  assert (of_blk bd_list (bds_locked k) = of_blk bd_list k) as -> by (unfold bds_locked, of_blk, in_blk; cbn; by rewrite blk_set).
  rewrite (foreach_payloads _ xs); [|exact Hs|exact Hr|by intros x k' k'' _ Hb He; apply (Hst x k' k'')].
  rewrite Hp, fmap_app. cbn [fmap list_fmap fst]. rewrite run_payloads_app; [done|].
  intros y (x & -> & Hx)%list_elem_of_fmap. by apply Hno.
Qed.

Lemma get_by_name_spec k xs l1 p b d l2 :
  devices_ok k xs (l1 ++ (p, (b, d)) :: l2) → (∀ x, x ∈ l1 → bd_name x.2.1 ≠ bd_name b) →
  bd_get_by_name (bd_name b) k = Ok (Some (major d, minor b), k).
Proof.
  intros Hk Hno. unfold bd_get_by_name. kstep (lock_bds_Ok k (dv_lock _ _ _ Hk)). kpure.
  match goal with |- (foreach ?l ?f ≫= _) ?k1 = _ =>
    assert (foreach l f k1 = Ok (Some (major d, minor b), k)) as Hf; [|by kstep Hf] end.
  rewrite (search_bds k xs l1 l2 (p, (b, d))); [|done| |].
  - destruct (bds_locked_objs k p b d) as [Hb Hd].
    { apply (dv_device _ _ _ Hk (p, (b, d))). rewrite elem_of_app, elem_of_cons. tauto. }
    rewrite K_bind_assoc. kstep (load_Ok (O := bd_object) p b (bds_locked k) Hb).
    rewrite bool_decide_true by done. rewrite K_bind_assoc. kstep (load_Ok (O := driver_object) (driver b) d (bds_locked k) Hd).
    rewrite K_bind_assoc. kstep (unlock_bds_Ok k (bds_locked k) (bds_locked_lock k)). by rewrite relock_bds by apply Hk.
  - intros x Hx. destruct (bds_locked_objs k x.1 x.2.1 x.2.2) as [Hb _].
    { apply (dv_device _ _ _ Hk). rewrite elem_of_app. tauto. }
    kstep (load_Ok (O := bd_object) x.1 x.2.1 (bds_locked k) Hb). rewrite bool_decide_false; [done|].
    intros He. by destruct (Hno x Hx).
  - intros x k' k''. unfold mbind, K_bind, load at 1. destruct (objs k' !! x); [|done].
    destruct (bool_decide _); [|by intros [= <-]]. unfold load. destruct (objs k' !! _); [|done]. by destruct (unlock_bds k') as [[] |].
Qed.

(** What [bd_open] gives: a fresh descriptor of the device. *)
Definition descriptor (BD_READ BD_WRITE : Z) (junk : Z → Z) (junk_mutex : Z → mutex_t) (fd p : Z) : fd_t :=
  {| fd_file := junk fd; fpos := 0; f_ops := {| op_read := BD_READ; op_write := BD_WRITE |}; fs_data := p;
     fdmod := junk_mutex (fd + 40) |}.

Lemma bd_open_spec BD_READ BD_WRITE junk junk_mutex k xs l1 p b d l2 :
  devices_ok k xs (l1 ++ (p, (b, d)) :: l2) → (∀ x, x ∈ l1 → numbers x ≠ (major d, minor b)) →
  (∃ fd h, km_alloc 112 (heap (k_store k)) = Ok (fd, h) ∧
     bd_open BD_READ BD_WRITE junk junk_mutex (major d) (minor b) k =
       Ok ((SUCCESS, Some fd), set_objs (<[fd := descriptor BD_READ BD_WRITE junk junk_mutex fd p]> (objs k))
             (set_k_store {| nodes := nodes (k_store k); heap := h |} k))) ∨
  (∃ w, km_alloc 112 (heap (k_store k)) = Stop w ∧ bd_open BD_READ BD_WRITE junk junk_mutex (major d) (minor b) k = Stop w).
Proof.
  intros Hk Hno. unfold bd_open.
  destruct (bds_locked_objs k p b d) as [Hb Hd].
  { apply (dv_device _ _ _ Hk (p, (b, d))). rewrite elem_of_app, elem_of_cons. tauto. }
  assert (∀ f : Z, (∃ fd h, km_alloc 112 (heap (k_store k)) = Ok (fd, h)) ∨ ∃ w, km_alloc 112 (heap (k_store k)) = Stop w) as Hcase.
  { intros _. destruct (km_alloc 112 _) as [[fd h]|w]; eauto. }
  rewrite (K_bind_Ok _ _ _ _ _ (lock_bds_Ok k (dv_lock _ _ _ Hk))). kpure.
  match goal with |- context [foreach ?l ?f] => set (body := f) end.
  assert (body p (bds_locked k) = (
      fd ← new 112; put fd (descriptor BD_READ BD_WRITE junk junk_mutex fd p);; unlock_bds;; mret (Some fd)) (bds_locked k)) as Hbody.
  { unfold body. kstep (load_Ok (O := bd_object) p b (bds_locked k) Hb). rewrite Z.eqb_refl, K_bind_assoc.
    kstep (load_Ok (O := driver_object) (driver b) d (bds_locked k) Hd). kpure. by rewrite bool_decide_true by done. }
  assert (foreach (of_blk bd_list (bds_locked k)) body (bds_locked k) =
    (r ← body p; match r with Some _ => mret r | None => run_payloads l2.*1 body end) (bds_locked k)) as Hf.
  { apply (search_bds k xs l1 l2 (p, (b, d)) body Hk).
    - intros x Hx. destruct (bds_locked_objs k x.1 x.2.1 x.2.2) as [Hxb Hxd].
      { apply (dv_device _ _ _ Hk). rewrite elem_of_app. tauto. }
      unfold body. kstep (load_Ok (O := bd_object) x.1 x.2.1 (bds_locked k) Hxb). specialize (Hno x Hx). unfold numbers in Hno.
      destruct (Z.eqb_spec (minor x.2.1) (minor b)) as [He|Hne]; [|by kpure].
      rewrite K_bind_assoc. kstep (load_Ok (O := driver_object) (driver x.2.1) x.2.2 (bds_locked k) Hxd). kpure.
      rewrite bool_decide_false; [done|]. intros [= Hm]. apply Hno. by rewrite He, Hm.
    - intros x k' k''. unfold body, mbind, K_bind, load at 1. destruct (objs k' !! x) as [bx|]; [|done].
      destruct (minor bx =? minor b).
      + unfold load. destruct (objs k' !! driver bx); [|done]. unfold mret, K_ret. destruct (bool_decide _); [|by intros [= <-]].
        destruct (new 112 k') as [[] |]; [|done]. unfold put, modify. by destruct (unlock_bds _) as [[] |].
      + unfold mret, K_ret. destruct (bool_decide _); [|by intros [= <-]].
        destruct (new 112 k') as [[] |]; [|done]. unfold put, modify. by destruct (unlock_bds _) as [[] |]. }
  destruct (Hcase 0) as [(fd & h & Ha)|(w & Ha)].
  - left. exists fd, h. split; [done|]. set (k2 := set_objs (T := fd_t) _ _).
    assert (body p (bds_locked k) = Ok (Some fd, k2)) as Hb2.
    { rewrite Hbody. kstep (new_Ok 112 (bds_locked k) fd h Ha). kpure.
      match goal with |- (unlock_bds ≫= _) ?k1 = _ =>
        kstep (unlock_bds_Ok k k1 (bds_locked_lock k)); assert (in_blk set_bd_list_lock MUTEX_INITIALIZER k1 = k2) as Heq end.
      { transitivity (set_k_fs (k_fs (in_blk set_bd_list_lock MUTEX_INITIALIZER (bds_locked k))) k2); [done|].
        rewrite relock_bds by apply Hk. unfold k2. by destruct k. }
      by rewrite Heq. }
    rewrite (K_bind_Ok _ _ _ (Some fd) k2); [done|]. rewrite Hf. by kstep Hb2.
  - right. exists w. split; [done|]. apply K_bind_Stop. rewrite Hf. apply K_bind_Stop. rewrite Hbody. apply K_bind_Stop.
    unfold new, on_heap, on_store. change (k_store (bds_locked k)) with (k_store k). by rewrite Ha.
Qed.

(** Devices by name, as [vfs_init] and [vfs_open] use them.  [bd_get_by_name] gives the numbers
    of the first device with the name.  If no other device has the same numbers,
    [bd_open] with them gives a fresh descriptor of that device, whose operations are
    [bd_read] and [bd_write]; the list is unlocked again.  It stops only where [kmalloc]
    does. *)
Theorem device_by_name_opens BD_READ BD_WRITE junk junk_mutex k xs l1 p b d l2 :
  let ds := l1 ++ (p, (b, d)) :: l2 in
  devices_ok k xs ds → (∀ x, x ∈ l1 → bd_name x.2.1 ≠ bd_name b) → NoDup (numbers <$> ds) →
  bd_get_by_name (bd_name b) k = Ok (Some (major d, minor b), k) ∧
  ((∃ fd h, km_alloc 112 (heap (k_store k)) = Ok (fd, h) ∧
      bd_open BD_READ BD_WRITE junk junk_mutex (major d) (minor b) k =
        Ok ((SUCCESS, Some fd), set_objs (<[fd := descriptor BD_READ BD_WRITE junk junk_mutex fd p]> (objs k))
              (set_k_store {| nodes := nodes (k_store k); heap := h |} k))) ∨
   (∃ w, km_alloc 112 (heap (k_store k)) = Stop w ∧ bd_open BD_READ BD_WRITE junk junk_mutex (major d) (minor b) k = Stop w)).
Proof.
  intros ds Hk Hno Hnd. split; [by eapply get_by_name_spec|]. apply (bd_open_spec _ _ _ _ k xs l1 p b d l2 Hk).
  intros x Hx He. unfold ds in Hnd. rewrite fmap_app, fmap_cons in Hnd. apply list.NoDup_app in Hnd as (_ & Hdis & _).
  apply (Hdis (numbers x)); [by apply list_elem_of_fmap_2|]. rewrite He. by left.
Qed.
End devices.

(** A RAM disk is a disk.  Reading whole blocks inside its content gives the bytes that are
    there and changes nothing, which is what the ext2 driver relies on.  The number that is
    returned is not the number of bytes but 512 times that: the RAM disk counts bytes where
    [bd_read] expects blocks. *)
Theorem ramdisk_reads_content k p r image off len :
  is_ramdisk k p r image → blocks_in image off len →
  bd_read p len off k = Ok ((512 * len, slice off len image), k).
Proof. apply bd_read_ramdisk. Qed.

(** What is written to a RAM disk is read back, and all other blocks keep their content. *)
Theorem ramdisk_write_read k p r image buffer off len :
  is_ramdisk k p r image → rd_lock r = MUTEX_INITIALIZER → blocks_in image off len → len <= Z.of_nat (length buffer) →
  ∃ k' image', bd_write p buffer len off k = Ok ((512 * len, []), k') ∧ is_ramdisk k' p r image' ∧
    bd_read p len off k' = Ok ((512 * len, slice 0 len buffer), k') ∧
    ∀ o l, blocks_in image o l → o + l <= off ∨ off + len <= o → bd_read p l o k' = Ok ((512 * l, slice o l image), k').
Proof.
  intros Hrd Hl Hin Hb. destruct Hrd as (b & d & [Hbd Hd] & Hops & Hr & Hi & Hsz & Hs).
  assert (0 <= off ∧ 0 <= len ∧ off + len <= Z.of_nat (length image)) as (Ho & Hle & Hbnd) by (unfold blocks_in in Hin; lia).
  set (image' := written image off len buffer). set (k' := set_ram k (ramdisk r) image').
  assert (length image' = length image) as Hlen by (by apply written_length).
  assert (is_ramdisk k' p r image') as Hrd'.
  { exists b, d. unfold k', set_ram, in_blk, device. cbn [k_fs set_k_fs]. rewrite blk_set, Hlen.
    split_and!; [done|done|done|done|apply lookup_insert_eq|done|done]. }
  assert (∀ o l, blocks_in image o l → blocks_in image' o l) as Hblk by (intros o l; unfold blocks_in; by rewrite Hlen).
  destruct (slice_written image off len buffer Ho Hle Hbnd Hb) as [Hback Hother].
  exists k', image'. split_and!; [|done| |].
  - unfold bd_write. kstep (load_Ok (O := bd_object) p b k Hbd). kstep (load_Ok (O := driver_object) (driver b) d k Hd).
    rewrite Hops. cbn [writeblk]. rewrite bool_decide_false by done. cbn [call_blk DEPTH]. unfold BLOCK_SIZE.
    kstep (initrd_write_spec k (bd_data b) r image buffer off len Hr Hl Hi Hsz Hs Hin Hb). unfold mret, K_ret.
    change ([] : list Z) with (slice 0 0 []). do 2 f_equal. unfold blocks_to_bytes, BLOCK_SIZE. cbn [fst snd].
    rewrite (proj2 (Z.ltb_ge len 0)) by lia. change (2 ^ 53) with 9007199254740992 in Hs.
    rewrite s64_small by (change (2 ^ 63) with 9223372036854775808; lia). f_equal. lia.
  - rewrite (bd_read_ramdisk k' p r image' off len Hrd' (Hblk _ _ Hin)). unfold image'. by rewrite Hback.
  - intros o l Hol Hdis. rewrite (bd_read_ramdisk k' p r image' o l Hrd' (Hblk _ _ Hol)). unfold image'.
    rewrite Hother; [done|apply Hol|apply Hol|done].
Qed.

(** Partitions.  A read of a partition reads the disk behind its first block, and nothing
    holds it inside the partition: it may go on to the end of the disk.  A write is a read as
    well: it leaves the disk as it was and overwrites the caller's buffer. *)
Theorem partition_io k p b pt r image off len buffer :
  on_partition k p b pt → is_ramdisk k (pt_blkdev pt) r image →
  0 <= off → 0 <= len → off mod 512 = 0 → len mod 512 = 0 → 0 <= blk_offset pt →
  off + 512 * blk_offset pt + len <= Z.of_nat (length image) →
  bd_read p len off k = Ok ((512 * len, slice (off + 512 * blk_offset pt) len image), k) ∧
  bd_write p buffer len off k = Ok ((512 * len, slice (off + 512 * blk_offset pt) len image), k).
Proof.
  intros Hp Hrd Ho Hl Hom Hlm Hbo Hin. pose proof Hp as (d & [Hb Hd] & Hops & _).
  assert (Z.of_nat (length image) < 2 ^ 53) as Hs by (destruct Hrd as (?&?&_&_&_&_&_&?); done).
  split; [unfold bd_read|unfold bd_write]; kstep (load_Ok (O := bd_object) p b k Hb);
    kstep (load_Ok (O := driver_object) (driver b) d k Hd); rewrite Hops; cbn [readblk writeblk bd_ops partscan_drv];
    rewrite bool_decide_false by done.
  - kstep (partition_reads k p b pt r image off len ps_read_fn [] Hp Hrd ltac:(by left) Ho Hl Hom Hlm Hbo Hin).
    unfold mret, K_ret. by rewrite scaled by lia.
  - kstep (partition_reads k p b pt r image off len ps_write_fn buffer Hp Hrd ltac:(by right) Ho Hl Hom Hlm Hbo Hin).
    unfold mret, K_ret. by rewrite scaled by lia.
Qed.
End disks.

(** ** The ext2 driver on a RAM disk *)

Section ext2_on_ramdisk.
Context {A F : Type} `{B : Build} `{KM : Kmalloc A} `{BS : BlockState F} `{E : Ext2State F} `{BD : BlockDrivers A F}
  (other : Drivers A F) (BD_READ : Z) (blk_ext2s : ∀ m f, blk (set_ext2s m f) = blk f).

(** Descriptors whose function is [bd_read]; the other functions are those of other drivers. *)
Definition block_drivers : Drivers A F := {|
  call_read fn data len off := if fn =? BD_READ then bd_read data len off else @call_read _ _ other fn data len off;
  call_probe := @call_probe _ _ other; call_mount := @call_mount _ _ other; call_fetch := @call_fetch _ _ other |}.

(** The content of a device that is a RAM disk. *)
Definition ramdisk_image (f : F) (fn p : Z) : option (list Z) :=
  if negb (fn =? BD_READ) then None
  else
    b ← b_devs (blk f) !! p;
    d ← b_drivers (blk f) !! driver b;
    r ← b_rds (blk f) !! bd_data b;
    image ← b_ram (blk f) !! ramdisk r;
    if bool_decide (readblk (bd_ops d) = initrd_read_fn) && bool_decide (writeblk (bd_ops d) = initrd_write_fn) &&
       (ramdisk_size r =? Z.of_nat (length image) / 512) && (Z.of_nat (length image) <? 2 ^ 53)
    then Some image else None.

Lemma ramdisk_image_spec (k : Kernel.kernel A F) fn p image :
  ramdisk_image (k_fs k) fn p = Some image → fn = BD_READ ∧ ∃ r, is_ramdisk k p r image.
Proof.
  unfold ramdisk_image. destruct (Z.eqb_spec fn BD_READ) as [->|]; [|done]. cbn [negb].
  destruct (b_devs (blk (k_fs k)) !! p) as [b|] eqn:Hb; [|done]. simpl.
  destruct (b_drivers (blk (k_fs k)) !! driver b) as [d|] eqn:Hd; [|done]. simpl.
  destruct (b_rds (blk (k_fs k)) !! bd_data b) as [r|] eqn:Hr; [|done]. simpl.
  destruct (b_ram (blk (k_fs k)) !! ramdisk r) as [im|] eqn:Hi; [|done]. simpl.
  destruct (_ && _) eqn:Hc; [|done]. intros [= <-]. split; [done|]. exists r, b, d.
  apply andb_true_iff in Hc as [Hc Hlt]. apply andb_true_iff in Hc as [Hc Hsz]. apply andb_true_iff in Hc as [H1 H2].
  apply bool_decide_eq_true_1 in H1, H2. zbool. split_and!; try done. destruct (bd_ops d). simpl in *. by subst.
Qed.

(** The law of [DiskDrivers], so that the theorems about the ext2 driver hold on a RAM disk. *)
Definition ramdisk_disks : @DiskDrivers A F block_drivers E.
Proof using All.
  refine {| disk_image := ramdisk_image |}.
  - intros m f fn data. unfold ramdisk_image. by rewrite blk_ext2s.
  - intros k fn data image off len Him Hs Ho Hl Hin Hom Hlm.
    destruct (ramdisk_image_spec k fn data image Him) as (-> & r & Hrd).
    assert (Z.of_nat (length image) < 2 ^ 53) as Hs2 by (destruct Hrd as (?&?&_&_&_&_&_&?); done).
    exists (512 * len). cbn [call_read block_drivers]. rewrite Z.eqb_refl.
    rewrite (bd_read_ramdisk k data r image off len Hrd) by done. split; [done|].
    change (2 ^ 53) with 9007199254740992 in Hs2. change (2 ^ 63) with 9223372036854775808. lia.
Defined.
End ext2_on_ramdisk.

(** ** A RAM disk with a partition *)

#[local] Existing Instance debug_build.
Import Machine.

Record disks := { dk_blk : blk_t; dk_ext2s : gmap Z ext2fs_t; dk_inodes : gmap Z ext2_inode_t }.
#[local] Instance disks_state : BlockState disks.
Proof.
  refine {| blk := dk_blk; set_blk b f := {| dk_blk := b; dk_ext2s := dk_ext2s f; dk_inodes := dk_inodes f |} |};
    [done|done|by intros []].
Defined.
#[local] Instance no_blk_drivers : BlockDrivers t disks := {| other_blk _ _ _ _ _ _ := kstop Fault |}.

(** The disk 30 has four blocks of ones, twos, threes and fours; the partition 50 is its second
    half. *)
Definition demo_image : list Z := replicate 512 1 ++ replicate 512 2 ++ replicate 512 3 ++ replicate 512 4.
Definition demo_rd : rd_t := {| ramdisk := 90; ramdisk_size := 4; rd_minor := 0; rd_lock := MUTEX_INITIALIZER |}.
Definition demo_part : part_t := {| pt_blkdev := 30; blk_offset := 2; blk_size := 1; pt_type := 1; pt_prefix := [114; 112; 48] |}.
Definition demo_disk : bd_t := {| minor := 0; capacity := 4; driver := 20; bd_data := 40; bd_name := [114] |}.
Definition demo_partition : bd_t := {| minor := 0; capacity := 2; driver := 21; bd_data := 60; bd_name := [114; 112; 48] |}.
Definition demo_blk : blk_t := {|
  b_devs := {[ 30 := demo_disk; 50 := demo_partition ]};
  b_drivers := {[ 20 := set_major 1 initrd_driver; 21 := set_major 2 partscan_drv ]};
  b_parts := {[ 60 := demo_part ]}; b_rds := {[ 40 := demo_rd ]}; b_ram := {[ 90 := demo_image ]};
  major_counter := 3; driver_list := list_init; driver_list_lock := MUTEX_INITIALIZER;
  bd_list := {| items := 2; magic := LIST_MAGIC; first := 32; last := 64 |}; bd_list_lock := MUTEX_INITIALIZER;
  part_major := 2; initrd_major := 1; minor_counter := 1 |}.
Definition demo_disks : Kernel.kernel t disks :=
  set_k_store {| nodes := {[ 32 := {| it_payload := 30; it_next := 64; it_prev := 0 |};
                             64 := {| it_payload := 50; it_next := 0; it_prev := 32 |} ]};
                 heap := {| alloc := {| Bump.top := 96; Bump.live := {[32; 64]} |}; pages := demo_pages |} |}
    (start_with {| dk_blk := demo_blk; dk_ext2s := ∅; dk_inodes := ∅ |}).

Lemma demo_is_ramdisk : is_ramdisk demo_disks 30 demo_rd demo_image.
Proof. exists demo_disk, (set_major 1 initrd_driver). by repeat split. Qed.

Lemma demo_on_partition : on_partition demo_disks 50 demo_partition demo_part.
Proof. exists (set_major 2 partscan_drv). by repeat split. Qed.

Lemma blocks_in_dec image off len :
  (0 <=? off) && (0 <=? len) && (off mod 512 =? 0) && (len mod 512 =? 0) && (off + len <=? Z.of_nat (length image)) = true →
  blocks_in image off len.
Proof. intros H. zbool. by split_and!. Qed.

Lemma demo_devices : devices_ok demo_disks [(32, 30); (64, 50)]
  [(30, (demo_disk, set_major 1 initrd_driver)); (50, (demo_partition, set_major 2 partscan_drv))].
Proof.
  split; [done| | |done|].
  - split; [apply (bool_decide_unpack _); vm_compute; exact I|apply (bool_decide_unpack _); vm_compute; exact I|done].
  - split; [done|done|done|done|done|apply (bool_decide_unpack _); vm_compute; exact I|repeat split].
  - intros x. rewrite elem_of_cons, list_elem_of_singleton. by intros [-> | ->].
Qed.

Lemma device_by_name_opens_witness :
  bd_get_by_name [114; 112; 48] demo_disks = Ok (Some (2, 0), demo_disks) ∧
  ∃ fd k', bd_open 0x100 0x200 (λ _, 0) (λ _, MUTEX_INITIALIZER) 2 0 demo_disks = Ok ((SUCCESS, Some fd), k').
Proof.
  destruct (device_by_name_opens 0x100 0x200 (λ _, 0) (λ _, MUTEX_INITIALIZER) demo_disks [(32, 30); (64, 50)]
    [(30, (demo_disk, set_major 1 initrd_driver))] 50 demo_partition (set_major 2 partscan_drv) [] demo_devices)
    as [Hg [(fd & h & _ & Ho)|(w & Hw & _)]].
  - intros x Hx%list_elem_of_singleton. subst x. discriminate.
  - apply (bool_decide_unpack _). vm_compute. exact I.
  - split; [exact Hg|]. eexists fd, _. exact Ho.
  - vm_compute in Hw. discriminate Hw.
Defined.

Lemma ramdisk_reads_content_witness : ∃ bytes,
  bd_read 30 512 1024 demo_disks = Ok ((512 * 512, bytes), demo_disks) ∧ bytes = replicate 512 3.
Proof.
  eexists. split; [apply (ramdisk_reads_content demo_disks 30 demo_rd demo_image 1024 512 demo_is_ramdisk)|].
  - apply blocks_in_dec. vm_compute. reflexivity.
  - vm_compute. reflexivity.
Defined.

Lemma ramdisk_write_read_witness : ∃ k',
  bd_write 30 (replicate 512 9) 512 512 demo_disks = Ok ((512 * 512, []), k') ∧
  bd_read 30 512 512 k' = Ok ((512 * 512, replicate 512 9), k').
Proof.
  destruct (ramdisk_write_read demo_disks 30 demo_rd demo_image (replicate 512 9) 512 512 demo_is_ramdisk)
    as (k' & image' & Hw & _ & Hr & _).
  - reflexivity.
  - apply blocks_in_dec. vm_compute. reflexivity.
  - vm_compute. discriminate.
  - exists k'. split; [exact Hw|exact Hr].
Defined.

Lemma partition_io_witness :
  bd_write 50 (replicate 512 9) 512 0 demo_disks = Ok ((512 * 512, replicate 512 3), demo_disks).
Proof.
  refine (proj2 (partition_io demo_disks 50 demo_partition demo_part demo_rd demo_image 0 512 (replicate 512 9)
    demo_on_partition demo_is_ramdisk _ _ _ _ _ _)); vm_compute; try discriminate; reflexivity.
Defined.
