(* ===== verification/Cmdline.v ===== *)
(** The kernel's command line: init/cmdline.c. *)
From S2P Require Import Prelude Words Mutex PageAlloc Dll Lists Vspace Kernel Vfs Ext2.
Open Scope Z_scope.

(** [cmdline_param_t] (kernel/kernel/init/cmdline.c, lines 7-11): two strings in buffers of 32 bytes. *)
Record cmdline_param_t := { c_name : list Z; c_value : list Z }.

(** The parameters by address, and the list of them. *)
Record cmd_t := { c_params : gmap Z cmdline_param_t; args : list_t }.

Class CmdState (F : Type) := {
  cmd : F → cmd_t;
  set_cmd : cmd_t → F → F;
  cmd_set c f : cmd (set_cmd c f) = c;
}.
#[export] Instance param_object `{CmdState F} {A} : Object cmdline_param_t A F :=
  {| objs k := c_params (cmd (k_fs k));
     set_objs m k := set_k_fs (set_cmd {| c_params := m; args := args (cmd (k_fs k)) |} (k_fs k)) k |}.

Section operations.
Context {A F : Type} `{B : Build} `{KM : Kmalloc A} `{C : CmdState F}.
Abbreviation kernel := (Kernel.kernel A F).
Abbreviation KC := (K kernel).

Definition get_args (k : kernel) : list_t := args (cmd (k_fs k)).
Definition set_args (l : list_t) (k : kernel) : kernel :=
  set_k_fs (set_cmd {| c_params := c_params (cmd (k_fs k)); args := l |} (k_fs k)) k.

(** [cmdline_get] (kernel/kernel/init/cmdline.c, lines 15-26): the value. *)
Definition cmdline_get (param : list Z) : KC (option (list Z)) :=
  l ← gets get_args;
  foreach l (λ p,
    c ← load (T := cmdline_param_t) p;
    mret (if bool_decide (param = c_name c) then Some (c_value c) else None)).

(** A parameter is added ([cmdline_parse] (kernel/kernel/init/cmdline.c, lines 62-65)). *)
Definition add_param (name value : list Z) : KC unit :=
  p ← new 64;
  put p {| c_name := until_null name; c_value := until_null value |};;
  l ← gets get_args;
  '(_, l) ← on_store (list_add l p);
  modify (set_args l).

(** The loop of [cmdline_parse] (kernel/kernel/init/cmdline.c, lines 34-75), with the bytes that
    are in the two buffers.  A byte behind a buffer, and one behind the string, is undefined
    behaviour; the null byte does not end the string where a name is read. *)
Fixpoint parse_from (cmdline : list Z) (mode : bool) (name value : list Z) : KC unit :=
  match cmdline with
  | [] => kstop Fault
  | c :: cmdline =>
      if negb mode then
        if 31 <? Z.of_nat (length name) then kstop Fault
        else if c =? 61 then parse_from cmdline true name value
        else parse_from cmdline false (name ++ [c]) value
      else
        if 31 <? Z.of_nat (length value) then kstop Fault
        else if (c =? 32) || (c =? 0) then
          add_param name value;;
          if c =? 0 then mret tt else parse_from cmdline false [] []
        else parse_from cmdline true name (value ++ [c])
  end.

(** [cmdline_parse] (kernel/kernel/init/cmdline.c, lines 28-76); the string with its null byte. *)
Definition cmdline_parse (cmdline : list Z) : KC unit :=
  modify (set_args list_init);;
  parse_from cmdline false [] [].
End operations.

(** ** Command lines *)

Section parsing.
Context {A F : Type} `{B : Build} `{KM : Kmalloc A} {KL : KmallocLaws A} `{C : CmdState F}.
Abbreviation kernel := (Kernel.kernel A F).
Implicit Types (k : kernel) (ps : list (list Z * list Z)) (xs : list (Z * Z)).

(** The parameters as they are written: "name=value", with a space in between, and the null byte
    at the end. *)
Fixpoint print ps : list Z :=
  match ps with
  | [] => []
  | [(n, v)] => n ++ 61 :: v ++ [0]
  | (n, v) :: ps => n ++ 61 :: v ++ 32 :: print ps
  end.

(** Names and values that fit. *)
Definition param_ok (p : list Z * list Z) : Prop :=
  61 ∉ p.1 ∧ 0 ∉ p.1 ∧ (length p.1 <= 31)%nat ∧ 32 ∉ p.2 ∧ 0 ∉ p.2 ∧ (length p.2 <= 31)%nat.

(** The value of the first parameter with a name. *)
Definition value_of ps (n : list Z) : option (list Z) := snd <$> List.find (λ p, bool_decide (n = p.1)) ps.

(** The list of parameters stands for [ps]. *)
Record params_ok k xs ps : Prop := {
  pm_store : store_wf (k_store k);
  pm_repr : list_repr (get_args k) xs (k_store k);
  pm_objs : Forall2 (λ x p, objs k !! x = Some {| c_name := p.1; c_value := p.2 |}) xs.*2 ps;
  pm_live x : x ∈ xs.*2 → x ∈ km_live (heap (k_store k));
}.


Lemma until_null_all (l : list Z) : 0 ∉ l → until_null l = l.
Proof.
  induction l as [|c l IH]; intros Hl; [done|]. apply not_elem_of_cons in Hl as [Hc Hl]. simpl.
  rewrite (proj2 (Z.eqb_neq c 0)) by done. by rewrite IH.
Qed.

Lemma parse_name n s acc k :
  61 ∉ n → (length acc + length n <= 31)%nat → parse_from (n ++ 61 :: s) false acc [] k = parse_from s true (acc ++ n) [] k.
Proof.
  revert acc. induction n as [|c n IH]; intros acc Hn Hl; cbn [app parse_from negb].
  - rewrite (proj2 (Z.ltb_ge 31 _)) by (simpl in Hl; lia). by rewrite app_nil_r.
  - apply not_elem_of_cons in Hn as [Hc Hn]. simpl in Hl. rewrite (proj2 (Z.ltb_ge 31 _)) by lia.
    rewrite (proj2 (Z.eqb_neq c 61)) by done. rewrite IH; [by rewrite <- app_assoc|done|rewrite length_app; simpl; lia].
Qed.

Lemma parse_value v c s n acc k :
  32 ∉ v → 0 ∉ v → (length acc + length v <= 31)%nat → c = 32 ∨ c = 0 →
  parse_from (v ++ c :: s) true n acc k =
    (add_param n (acc ++ v);; if c =? 0 then mret tt else parse_from s false [] []) k.
Proof.
  revert acc. induction v as [|d v IH]; intros acc H1 H2 Hl Hc; cbn [app parse_from negb].
  - rewrite (proj2 (Z.ltb_ge 31 _)) by (simpl in Hl; lia). rewrite app_nil_r. by destruct Hc as [-> | ->].
  - apply not_elem_of_cons in H1 as [? H1], H2 as [? H2]. simpl in Hl. rewrite (proj2 (Z.ltb_ge 31 _)) by lia.
    rewrite (proj2 (Z.eqb_neq d 32)), (proj2 (Z.eqb_neq d 0)) by done. cbn [orb].
    rewrite IH; [by rewrite <- app_assoc|done|done|rewrite length_app; simpl; lia|done].
Qed.

(** One more parameter. *)
Lemma add_param_spec k xs ps n v :
  params_ok k xs ps → 0 ∉ n → 0 ∉ v → (∀ n h, km_room n h) → Z.of_nat (length xs) + 1 < 2 ^ 64 →
  (∃ k' x, add_param n v k = Ok (tt, k') ∧ params_ok k' (xs ++ [x]) (ps ++ [(n, v)])) ∨
  (∃ w, add_param n v k = Stop w ∧ no_memory w).
Proof.
  intros [Hs Hr H2 Hlv] Hn Hv Hroom Hlen. unfold add_param.
  destruct (km_alloc 64 (heap (k_store k))) as [[p h]|w] eqn:Ha.
  2: { right. exists w. split; [|by exists 64, (heap (k_store k))]. apply K_bind_Stop. unfold new, on_heap, on_store. by rewrite Ha. }
  destruct (store_wf_alloc _ _ _ _ Hs (Hroom _ _) Ha) as (Hs1 & Hfresh & Hnz).
  assert (km_live h = {[p]} ∪ km_live (heap (k_store k))) as Hlive by (eapply km_alloc_ok; [apply Hs|done..]).
  kstep (new_Ok 64 k p h Ha). kpure. rewrite !until_null_all by done.
  set (s1 := {| nodes := nodes (k_store k); heap := h |} : store A).
  match goal with |- context [on_store (list_add ?l p) ≫= _] => assert (l = get_args k) as -> end.
  { unfold get_args. cbn. by rewrite cmd_set. }
  destruct (list_add_spec (get_args k) xs s1 p Hs1 (list_repr_heap _ _ _ h Hr) Hlen (Hroom _ _))
    as [(a & l' & s' & Hadd & Hna & Hlive' & Hs' & Hr' & Hsame)|(w & Hw & Hadd)].
  2: { right. exists w. split; [|by exists 24, h]. apply K_bind_Stop. unfold on_store. cbn. by rewrite Hadd. }
  left. match goal with |- context [(on_store (list_add _ p) ≫= _) ?k1] =>
    assert (on_store (list_add (get_args k) p) k1 = Ok ((Z.of_nat (length xs), l'), set_k_store s' k1)) as Hos end.
  { unfold on_store. cbn. by rewrite Hadd. }
  kstep Hos. eexists _, (a, p). split; [done|]. simpl in Hlive'. split.
  - exact Hs'.
  - unfold get_args, set_args. cbn. rewrite cmd_set. exact Hr'.
  - cbn. rewrite !cmd_set. cbn. rewrite fmap_app. apply Forall2_app; [|constructor; [apply lookup_insert_eq|constructor]].
    assert (∀ ys, ys ⊆ xs.*2 → ∀ qs, Forall2 (λ x p, objs k !! x = Some {| c_name := p.1; c_value := p.2 |}) ys qs →
      Forall2 (λ x p0, <[p := {| c_name := n; c_value := v |}]> (c_params (cmd (k_fs k))) !! x = Some {| c_name := p0.1; c_value := p0.2 |}) ys qs) as Hkeep.
    { intros ys Hsub qs Hq. induction Hq as [|y q ys qs Hy _ IH]; constructor.
      - rewrite lookup_insert_ne; [exact Hy|]. intros <-. apply Hfresh, Hlv, Hsub. by left.
      - apply IH. intros z Hz. apply Hsub. by right. }
    by apply Hkeep.
  - intros y. rewrite fmap_app. cbn. rewrite Hlive', Hlive, elem_of_app.
    intros [Hy%Hlv|Hy%list_elem_of_singleton]; subst; set_solver.
Qed.

Lemma parse_spec ps qs k xs :
  params_ok k xs qs → Forall param_ok ps → ps ≠ [] → (∀ n h, km_room n h) → Z.of_nat (length xs + length ps) < 2 ^ 64 →
  (∃ k' xs', parse_from (print ps) false [] [] k = Ok (tt, k') ∧ params_ok k' xs' (qs ++ ps)) ∨
  (∃ w, parse_from (print ps) false [] [] k = Stop w ∧ no_memory w).
Proof.
  revert qs k xs. induction ps as [|[n v] ps IH]; intros qs k xs Hk Hok Hne Hroom Hlen; [done|].
  apply list.Forall_cons in Hok as [(H1 & H2 & H3 & H4 & H5 & H6) Hok]. simpl in *.
  assert (∃ c s, print ((n, v) :: ps) = n ++ 61 :: v ++ c :: s ∧ (c = 0 ∧ ps = [] ∨ c = 32 ∧ s = print ps ∧ ps ≠ [])) as (c & s & Hpr & Hcs).
  { destruct ps as [|q ps]; [by exists 0, []; split; [|left]|]. exists 32, (print (q :: ps)). split; [done|by right]. }
  change (match ps with [] => n ++ 61 :: v ++ [0] | _ :: _ => n ++ 61 :: v ++ 32 :: print ps end) with (print ((n, v) :: ps)).
  rewrite Hpr, parse_name, parse_value by (try done; simpl; lia || destruct Hcs as [[-> _]|[-> _]]; auto). cbn [app].
  destruct (add_param_spec k xs qs n v Hk H2 H5 Hroom) as [(k1 & x & Hadd & Hk1)|(w & Hadd & Hw)]; [lia| |].
  2: { right. exists w. split; [by apply K_bind_Stop|done]. }
  rewrite (K_bind_Ok _ _ _ _ _ Hadd). destruct Hcs as [[-> ->]|(-> & -> & Hps)]; simpl.
  - left. by exists k1, (xs ++ [x]).
  - destruct (IH (qs ++ [(n, v)]) k1 (xs ++ [x]) Hk1 Hok Hps Hroom) as [(k' & xs' & Hp & Hk')|Hw];
      [rewrite length_app; simpl; lia| |by right].
    left. exists k', xs'. split; [done|]. by rewrite <- app_assoc in Hk'.
Qed.

Lemma cmdline_get_spec k xs ps n : params_ok k xs ps → cmdline_get n k = Ok (value_of ps n, k).
Proof.
  intros [Hs Hr H2 _]. unfold cmdline_get. kpure. rewrite (foreach_payloads _ xs); [|done|done|].
  - clear Hr. unfold value_of. induction H2 as [|x p ys qs Hx _ IH]; [done|]. cbn [run_payloads List.find].
    rewrite K_bind_assoc. kstep (load_Ok (O := param_object) x _ k Hx). kpure. cbn [c_name c_value].
    destruct (bool_decide (n = p.1)); [done|exact IH].
  - intros x k' k'' _. unfold mbind, K_bind, load. destruct (objs k' !! x); [|done]. by intros [= _ <-].
Qed.


(** A last word without "=" runs off the string: its null byte is taken for a byte of the
    name, and what follows the string in memory is read. *)
Theorem cmdline_parse_overruns k n :
  61 ∉ n → (length n <= 30)%nat → cmdline_parse (n ++ [0]) k = Stop Fault.
Proof.
  intros Hn Hl. unfold cmdline_parse. kpure. generalize (set_args list_init k). clear k.
  assert (∀ acc k, (length acc + length n <= 30)%nat → parse_from (n ++ [0]) false acc [] k = Stop Fault) as Hp; [|by intros; apply Hp].
  clear Hl. induction n as [|c n IH]; intros acc k Hl; cbn [app parse_from negb].
  - rewrite (proj2 (Z.ltb_ge 31 _)) by (simpl in Hl; lia). done.
  - apply not_elem_of_cons in Hn as [Hc Hn]. simpl in Hl. rewrite (proj2 (Z.ltb_ge 31 _)) by lia.
    rewrite (proj2 (Z.eqb_neq c 61)) by done. apply IH; [done|]. rewrite length_app. simpl. lia.
Qed.
End parsing.

(** ** "init=/sbin/init rootfs=rd0" *)

#[local] Existing Instance debug_build.
Import Machine.
#[local] Instance cmd_state : CmdState cmd_t := {| cmd f := f; set_cmd c _ := c; cmd_set _ _ := eq_refl |}.

Definition demo_cmdline : list (list Z * list Z) :=
  [([105; 110; 105; 116], [47; 115; 98; 105; 110; 47; 105; 110; 105; 116]); ([114; 111; 111; 116; 102; 115], [114; 100; 48])].
Definition cmd_start : Kernel.kernel t cmd_t := start_with {| c_params := ∅; args := list_init |}.

Lemma demo_cmdline_ok : Forall param_ok demo_cmdline.
Proof. unfold param_ok. apply (bool_decide_unpack _). vm_compute. exact I. Qed.


Lemma cmdline_parse_overruns_witness : cmdline_parse [113; 0] cmd_start = Stop Fault.
Proof.
  apply (cmdline_parse_overruns cmd_start [113]).
  - apply (bool_decide_unpack _). vm_compute. exact I.
  - simpl. lia.
Defined.
