(* ===== verification/Pci.v ===== *)
(** The PCI bus: bus/pci.c and drivers/pc/pci.c. *)
From S2P Require Import Prelude Words Mutex PageAlloc Dll Lists Vspace Kernel.
Open Scope Z_scope.

(** The registers of a device that are used. *)
(** [PCI_VENDOR_ID] (kernel/kernel/include/bus/pci.h, lines 6-6). *)
Definition PCI_VENDOR_ID : Z := 0x00.
(** [PCI_DEVICE_ID] (kernel/kernel/include/bus/pci.h, lines 7-7). *)
Definition PCI_DEVICE_ID : Z := 0x02.
(** [PCI_COMMAND] (kernel/kernel/include/bus/pci.h, lines 8-8). *)
Definition PCI_COMMAND : Z := 0x04.
(** [PCI_REVISION] (kernel/kernel/include/bus/pci.h, lines 10-10). *)
Definition PCI_REVISION : Z := 0x08.
(** [PCI_SUBCLASS] (kernel/kernel/include/bus/pci.h, lines 12-12). *)
Definition PCI_SUBCLASS : Z := 0x0a.
(** [PCI_CLASS] (kernel/kernel/include/bus/pci.h, lines 13-13). *)
Definition PCI_CLASS : Z := 0x0b.
(** [PCI_BAR0] (kernel/kernel/include/bus/pci.h, lines 18-18). *)
Definition PCI_BAR0 : Z := 0x10.

Definition CONFIG_ADDRESS : Z := 0xcf8.
Definition CONFIG_DATA : Z := 0xcfc.

(** [pci_idpair_t] (kernel/kernel/include/bus/pci.h, lines 36-40). *)
Record pci_idpair_t := { vendor : Z; pci_device : Z }.
#[global] Instance idpair_eq_dec : EqDecision pci_idpair_t.
Proof. solve_decision. Defined.

(** [pci_driver_t] (kernel/kernel/include/bus/pci.h, lines 47-52): the pairs that it handles, with
    the pair of zeros at the end, and its function by address. *)
Record pci_driver_t := { drv_devices : list pci_idpair_t; probe : Z }.

(** [pci_dev_t] (kernel/kernel/include/bus/pci.h, lines 54-62). *)
Record pci_dev_t := { bus : Z; slot : Z; pfunc : Z; dev_id : pci_idpair_t; pci_driver : Z; driver_data : Z }.

Definition set_id (i : pci_idpair_t) (d : pci_dev_t) : pci_dev_t :=
  {| bus := bus d; slot := slot d; pfunc := pfunc d; dev_id := i; pci_driver := pci_driver d; driver_data := driver_data d |}.
Definition set_driver (drv data : Z) (d : pci_dev_t) : pci_dev_t :=
  {| bus := bus d; slot := slot d; pfunc := pfunc d; dev_id := dev_id d; pci_driver := drv; driver_data := data |}.

(** Devices and drivers by address, and the static variables. *)
Record pci_t := {
  pc_devs : gmap Z pci_dev_t;
  pc_drivers : gmap Z pci_driver_t;
  device_list : list_t;
  device_list_lock : mutex_t;
  pci_initialized : bool;
  pci_spinlock : spin_t;
}.
Definition set_pc_devs (v : gmap Z pci_dev_t) (p : pci_t) : pci_t :=
  {| pc_devs := v; pc_drivers := pc_drivers p; device_list := device_list p; device_list_lock := device_list_lock p;
     pci_initialized := pci_initialized p; pci_spinlock := pci_spinlock p |}.
Definition set_pc_drivers (v : gmap Z pci_driver_t) (p : pci_t) : pci_t :=
  {| pc_devs := pc_devs p; pc_drivers := v; device_list := device_list p; device_list_lock := device_list_lock p;
     pci_initialized := pci_initialized p; pci_spinlock := pci_spinlock p |}.
Definition set_device_list (v : list_t) (p : pci_t) : pci_t :=
  {| pc_devs := pc_devs p; pc_drivers := pc_drivers p; device_list := v; device_list_lock := device_list_lock p;
     pci_initialized := pci_initialized p; pci_spinlock := pci_spinlock p |}.
Definition set_device_list_lock (v : mutex_t) (p : pci_t) : pci_t :=
  {| pc_devs := pc_devs p; pc_drivers := pc_drivers p; device_list := device_list p; device_list_lock := v;
     pci_initialized := pci_initialized p; pci_spinlock := pci_spinlock p |}.
Definition set_pci_initialized (v : bool) (p : pci_t) : pci_t :=
  {| pc_devs := pc_devs p; pc_drivers := pc_drivers p; device_list := device_list p; device_list_lock := device_list_lock p;
     pci_initialized := v; pci_spinlock := pci_spinlock p |}.
Definition set_pci_spinlock (v : spin_t) (p : pci_t) : pci_t :=
  {| pc_devs := pc_devs p; pc_drivers := pc_drivers p; device_list := device_list p; device_list_lock := device_list_lock p;
     pci_initialized := pci_initialized p; pci_spinlock := v |}.

(** Where the bus keeps them. *)
Class PciState (F : Type) := {
  pci : F → pci_t;
  set_pci : pci_t → F → F;
  pci_set p f : pci (set_pci p f) = p;
  set_pci_set p p' f : set_pci p (set_pci p' f) = set_pci p f;
  set_pci_pci f : set_pci (pci f) f = f;
}.
#[export] Instance pci_dev_object `{PciState F} {A} : Object pci_dev_t A F :=
  {| objs k := pc_devs (pci (k_fs k)); set_objs m k := set_k_fs (set_pci (set_pc_devs m (pci (k_fs k))) (k_fs k)) k |}.
#[export] Instance pci_driver_object `{PciState F} {A} : Object pci_driver_t A F :=
  {| objs k := pc_drivers (pci (k_fs k)); set_objs m k := set_k_fs (set_pci (set_pc_drivers m (pci (k_fs k))) (k_fs k)) k |}.

(** The processor's input instructions (kernel/arch/x86-common/include/x86/ports.h): what they
    return may depend on everything that was written before. *)
Class Ports (A F : Type) := {
  inb (port : Z) : K (kernel A F) Z;
  inl (port : Z) : K (kernel A F) Z;
  repinsw (port : Z) (count : nat) : K (kernel A F) (list Z);
}.
(** [probe] functions, by address: the driver's data for a device, or 0. *)
Class PciDrivers (A F : Type) := { call_pci_probe (fn device : Z) : K (kernel A F) Z }.

(** [for] over a list of values. *)
Fixpoint each {S X} (l : list X) (f : X → K S unit) : K S unit :=
  match l with [] => mret tt | x :: l => f x;; each l f end.

Section operations.
Context {A F : Type} `{B : Build} `{KM : Kmalloc A} `{P : PciState F} `{IO : Ports A F} `{PD : PciDrivers A F}.
Abbreviation kernel := (Kernel.kernel A F).
Abbreviation KP := (K kernel).
Context (junk : Z → Z).

Definition of_pci {X} (get : pci_t → X) (k : kernel) : X := get (pci (k_fs k)).
Definition in_pci {X} (set : X → pci_t → pci_t) (x : X) (k : kernel) : kernel :=
  set_k_fs (set_pci (set x (pci (k_fs k))) (k_fs k)) k.

(** [outl] (kernel/arch/x86-common/include/x86/ports.h, lines 44-47): the ports that it is used for
    are not used by [outb]. *)
Definition outl (port value : Z) : KP unit := outb port (u32 value).

(** ** Configuration space *)

(** The address of a register ([pci_read32] (kernel/drivers/pc/pci.c, lines 26-30)). *)
Definition config_address (bus slot func offset : Z) : Z :=
  u32 (Z.lor (Z.lor (Z.lor (Z.lor (Z.shiftl bus 16) (Z.shiftl slot 11)) (Z.shiftl func 8)) (Z.land offset 0xfc)) (BIT 31)).

(** An access between [spin_lock] and [spin_unlock]. *)
Definition locked {X} (m : KP X) : KP X :=
  l ← gets (of_pci pci_spinlock); l ← lift (spin_lock l); modify (in_pci set_pci_spinlock l);;
  x ← m;
  l ← gets (of_pci pci_spinlock); l ← lift (spin_unlock l); modify (in_pci set_pci_spinlock l);;
  mret x.

(** [pci_read32] (kernel/drivers/pc/pci.c, lines 19-37). *)
Definition pci_read32 (dev : pci_dev_t) (offset : Z) : KP Z :=
  locked (outl CONFIG_ADDRESS (config_address (bus dev) (slot dev) (pfunc dev) offset);; inl CONFIG_DATA).

(** [pci_write32] (kernel/drivers/pc/pci.c, lines 39-56). *)
Definition pci_write32 (dev : pci_dev_t) (offset value : Z) : KP unit :=
  locked (outl CONFIG_ADDRESS (config_address (bus dev) (slot dev) (pfunc dev) offset);; outl CONFIG_DATA value).

(** [pci_read16] (kernel/kernel/bus/pci.c, lines 110-114). *)
Definition pci_read16 (dev : pci_dev_t) (offset : Z) : KP Z :=
  data ← pci_read32 dev offset; mret (Z.land (Z.shiftr data (Z.land offset 2 * 8)) 0xffff).

(** [pci_read8] (kernel/kernel/bus/pci.c, lines 116-120). *)
Definition pci_read8 (dev : pci_dev_t) (offset : Z) : KP Z :=
  data ← pci_read32 dev offset; mret (Z.land (Z.shiftr data (Z.land offset 3 * 8)) 0xff).

(** [pci_get_bar] (kernel/kernel/bus/pci.c, lines 122-125). *)
Definition pci_get_bar (device : Z) (bar : Z) : KP Z :=
  dev ← load (T := pci_dev_t) device; pci_read32 dev (u8 (PCI_BAR0 + bar * 4)).

(** [pci_enable_busmaster] (kernel/kernel/bus/pci.c, lines 127-132). *)
Definition pci_enable_busmaster (device : Z) : KP unit :=
  dev ← load (T := pci_dev_t) device;
  cmd ← pci_read32 dev PCI_COMMAND;
  pci_write32 dev PCI_COMMAND (Z.lor cmd (BIT 2)).

(** ** Enumeration *)

(** A device on the stack, for a look at its place. *)
Definition place (b s f : Z) : pci_dev_t :=
  {| bus := b; slot := s; pfunc := f; dev_id := {| vendor := 0; pci_device := 0 |}; pci_driver := 0; driver_data := 0 |}.

(** [pci_is_present] (kernel/kernel/bus/pci.c, lines 11-22). *)
Definition pci_is_present (b s f : Z) : KP bool :=
  v ← pci_read16 (place b s f) 0x00; mret (negb (v =? 0xffff)).

(** The identification of a new entry is read, and registers that are only printed
    ([pci_init] (kernel/kernel/bus/pci.c, lines 50-56)). *)
Definition read_ids (dev : Z) : KP unit :=
  d ← load (T := pci_dev_t) dev; v ← pci_read16 d PCI_VENDOR_ID;
  change dev (λ d, set_id {| vendor := v; pci_device := pci_device (dev_id d) |} d);;
  d ← load (T := pci_dev_t) dev; v ← pci_read16 d PCI_DEVICE_ID;
  change dev (λ d, set_id {| vendor := vendor (dev_id d); pci_device := v |} d);;
  d ← load (T := pci_dev_t) dev;
  _ ← pci_read8 d PCI_REVISION; _ ← pci_read8 d PCI_SUBCLASS; _ ← pci_read8 d PCI_CLASS; mret tt.

(** A function that is present is added to the list ([pci_init] (kernel/kernel/bus/pci.c, lines
    44-66)); what [driver] and [driver_data] hold was in memory. *)
Definition add_function (b s f : Z) : KP unit :=
  dev ← new 24;
  put dev {| bus := b; slot := s; pfunc := f; dev_id := {| vendor := junk (dev + 4); pci_device := junk (dev + 6) |};
             pci_driver := junk (dev + 8); driver_data := junk (dev + 16) |};;
  read_ids dev;;
  l ← gets (of_pci device_list);
  '(_, l) ← on_store (list_add l dev);
  modify (in_pci set_device_list l).

(** A slot ([pci_init] (kernel/kernel/bus/pci.c, lines 38-69)). *)
Definition scan_slot (b s : Z) : KP unit :=
  p ← pci_is_present b s 0;
  if (p : bool) then
    each (Z.of_nat <$> seq 0 8) (λ f, p ← pci_is_present b s f; if (p : bool) then add_function b s f else mret tt)
  else mret tt.

(** [pci_init] (kernel/kernel/bus/pci.c, lines 24-72); [junk_lock] is what the lock held. *)
Definition pci_init : KP unit :=
  done ← gets (of_pci pci_initialized);
  lift (assert_ (negb done));;
  modify (in_pci set_pci_initialized true);;
  modify (in_pci set_device_list list_init);;
  l ← gets (of_pci device_list_lock); l ← lift (mutex_init l); modify (in_pci set_device_list_lock l);;
  each (Z.of_nat <$> seq 0 256) (λ b, each (Z.of_nat <$> seq 0 32) (scan_slot b)).

(** ** Drivers *)

(** The loop over the pairs of a driver for one device ([pci_register_driver]
    (kernel/kernel/bus/pci.c, lines 85-105)), [n] more pairs at most. *)
Fixpoint try_ids (n : nat) (ids : list pci_idpair_t) (drv_info device : Z) : KP unit :=
  match n with
  | O => mret tt
  | S n =>
      match ids with
      | [] => kstop Fault
      | i :: ids =>
          if (vendor i =? 0) && (pci_device i =? 0) then mret tt
          else
            dev ← load (T := pci_dev_t) device;
            when (bool_decide (dev_id dev = i))
              (drv ← load (T := pci_driver_t) drv_info;
               data ← call_pci_probe (probe drv) device;
               when (negb (data =? 0)) (change device (set_driver drv_info data)));;
            try_ids n ids drv_info device
      end
  end.

(** [pci_register_driver] (kernel/kernel/bus/pci.c, lines 74-108). *)
Definition pci_register_driver (drv_info : Z) : KP unit :=
  lock_var (of_pci device_list_lock) (in_pci set_device_list_lock);;
  l ← gets (of_pci device_list);
  _ ← foreach (R := unit) l (λ device,
    dev ← load (T := pci_dev_t) device;
    if negb (pci_driver dev =? 0) then mret None
    else
      drv ← load (T := pci_driver_t) drv_info;
      try_ids 100 (drv_devices drv) drv_info device;;
      mret None);
  unlock_var (of_pci device_list_lock) (in_pci set_device_list_lock).
End operations.

(** ** Addresses of registers *)
Lemma lor_low a n b : 0 <= n → 0 <= b < 2 ^ n → Z.lor (Z.shiftl a n) b = a * 2 ^ n + b.
Proof.
  intros Hn Hb. rewrite <- Z.shiftl_mul_pow2 by done.
  assert (Z.land (Z.shiftl a n) b = 0) as H0.
  { apply Z.bits_inj'. intros i Hi. rewrite Z.land_spec, Z.bits_0, Z.shiftl_spec by done.
    destruct (Z.ltb_spec i n) as [Hlt|Hge].
    - by rewrite Z.testbit_neg_r by lia.
    - rewrite (proj2 (proj1 (word_bits n b Hn) Hb) i Hge). by rewrite andb_false_r. }
  rewrite Z.add_nocarry_lxor, Z.lxor_lor by done. done.
Qed.

Lemma land_fc off : 0 <= off < 256 → Z.land off 0xfc = off / 4 * 4.
Proof.
  intros Ho. apply Z.bits_inj'. intros i Hi. rewrite Z.land_spec.
  change (off / 4 * 4) with (off / 2 ^ 2 * 2 ^ 2). rewrite Z.mul_pow2_bits by done.
  destruct (Z.ltb_spec i 2) as [Hlt|Hge].
  - rewrite (Z.testbit_neg_r _ (i - 2)) by lia. assert (i = 0 ∨ i = 1) as [-> | ->] by lia; by rewrite andb_false_r.
  - rewrite Z.div_pow2_bits by lia. replace (i - 2 + 2) with i by lia.
    destruct (Z.ltb_spec i 8) as [Hlt|Hge8].
    + assert (i = 2 ∨ i = 3 ∨ i = 4 ∨ i = 5 ∨ i = 6 ∨ i = 7) as Hc by lia.
      by destruct Hc as [-> | [-> | [-> | [-> | [-> | ->]]]]]; rewrite andb_true_r.
    + rewrite (proj2 (proj1 (word_bits 8 off ltac:(done)) Ho) i Hge8). done.
Qed.

Lemma config_address_sum b s f off :
  0 <= b < 256 → 0 <= s < 32 → 0 <= f < 8 → 0 <= off < 256 →
  config_address b s f off = 2147483648 + ((b * 32 + s) * 8 + f) * 256 + off / 4 * 4.
Proof.
  intros Hb Hs Hf Ho. unfold config_address. rewrite land_fc by done.
  assert (0 <= off / 4 * 4 < 256) as Ho4 by zdiv.
  assert (Z.lor (Z.shiftl b 16) (Z.shiftl s 11) = Z.shiftl (b * 32 + s) 11) as ->.
  { rewrite lor_low; rewrite ?Z.shiftl_mul_pow2 by done; [lia|done|]. change (2 ^ 11) with 2048. change (2 ^ 16) with 65536. lia. }
  assert (Z.lor (Z.shiftl (b * 32 + s) 11) (Z.shiftl f 8) = Z.shiftl ((b * 32 + s) * 8 + f) 8) as ->.
  { rewrite lor_low; rewrite ?Z.shiftl_mul_pow2 by done; [lia|done|]. change (2 ^ 8) with 256. change (2 ^ 11) with 2048. lia. }
  rewrite (lor_low _ 8) by (change (2 ^ 8) with 256; lia).
  rewrite Z.lor_comm. unfold BIT. rewrite (lor_low 1 31).
  - rewrite uwrap_small; [|unfold is_word]; change (2 ^ 31) with 2147483648; change (2 ^ 8) with 256; change (2 ^ 32) with 4294967296; lia.
  - done.
  - change (2 ^ 31) with 2147483648; change (2 ^ 8) with 256. lia.
Qed.

(** ** The devices that are found *)

(** The behaviour of the bus (configuration mechanism 1): after an address was written to
    CONFIG_ADDRESS, CONFIG_DATA reads as the double word of the configuration space there. *)
Class PciBus (A F : Type) `{P : PciState F} `{IO : Ports A F} := {
  config : F → Z → Z;
  config_pci p f a : config (set_pci p f) a = config f a;
  inl_config (k : kernel A F) a out : k_out k = (CONFIG_ADDRESS, a) :: out → inl CONFIG_DATA k = Ok (config (k_fs k) a, k);
}.

Section enumeration.
Context {A F : Type} `{B : Build} `{KM : Kmalloc A} {KL : KmallocLaws A} `{P : PciState F} `{IO : Ports A F}
  {PB : PciBus A F} (junk : Z → Z).
Abbreviation kernel := (Kernel.kernel A F).
Implicit Types (k : kernel) (cfg : Z → Z).

(** The identification of a function in a configuration space, and whether it is there. *)
Definition ids_at cfg (b s f : Z) : pci_idpair_t :=
  {| vendor := Z.land (cfg (config_address b s f 0)) 0xffff;
     pci_device := Z.land (Z.shiftr (cfg (config_address b s f 0)) 16) 0xffff |}.
Definition present cfg (b s f : Z) : bool := negb (vendor (ids_at cfg b s f) =? 0xffff).

(** The functions of a slot, of a bus and of the machine, in the order of the scan. *)
Definition slot_functions cfg (b s : Z) : list (Z * Z * Z) :=
  if present cfg b s 0 then (λ f, (b, s, f)) <$> filter (λ f, present cfg b s f = true) (Z.of_nat <$> seq 0 8) else [].
Definition bus_functions cfg (b : Z) : list (Z * Z * Z) := (Z.of_nat <$> seq 0 32) ≫= slot_functions cfg b.
Definition all_functions cfg : list (Z * Z * Z) := (Z.of_nat <$> seq 0 256) ≫= bus_functions cfg.

(** The entry for a function. *)
Definition entry_for k cfg (x : Z) (bsf : Z * Z * Z) : Prop :=
  ∃ d, objs (T := pci_dev_t) k !! x = Some d ∧ (bus d, slot d, pfunc d) = bsf ∧ dev_id d = ids_at cfg (bus d) (slot d) (pfunc d).

(** The scan has found the functions in [found] so far; the list stands for [xs]. *)
Record scanned k cfg xs (found : list (Z * Z * Z)) : Prop := {
  sc_lock : of_pci pci_spinlock k = SPIN_INITIALIZER;
  sc_config a : config (k_fs k) a = cfg a;
  sc_store : store_wf (k_store k);
  sc_repr : list_repr (of_pci device_list k) xs (k_store k);
  sc_entries : Forall2 (entry_for k cfg) xs.*2 found;
  sc_live x : x ∈ xs.*2 → x ∈ km_live (heap (k_store k));
}.
Definition found_so_far cfg found k : Prop := ∃ xs, scanned k cfg xs found.

(** The rule for loops. *)
Lemma each_does {X Y} (l : list X) (f : X → K kernel unit) (add : X → list Y) (I : list Y → kernel → Prop) d k :
  (∀ l1 x l2 k, l = l1 ++ x :: l2 → I (d ++ (l1 ≫= add)) k → does (f x) k (I (d ++ (l1 ≫= add) ++ add x))) →
  I d k → does (each l f) k (I (d ++ (l ≫= add))).
Proof.
  revert d k. induction l as [|x l IH]; intros d k Hf Hi.
  - left. exists k. split; [done|]. simpl. by rewrite app_nil_r.
  - cbn [each]. apply (does_bind _ _ _ (I (d ++ add x))).
    + apply (Hf [] x l); [done|]. simpl. by rewrite app_nil_r.
    + intros k' Hk'. rewrite bind_cons, app_assoc. apply IH; [|done]. intros l1 y l2 k'' -> Hi'.
      rewrite <- app_assoc in *. specialize (Hf (x :: l1) y l2 k'' eq_refl). rewrite !bind_cons, <- !app_assoc in Hf. by apply Hf.
Qed.

Lemma bind_length_le {X Y} (l : list X) (add : X → list Y) c :
  (∀ x, x ∈ l → (length (add x) <= c)%nat) → (length (l ≫= add) <= c * length l)%nat.
Proof.
  induction l as [|x l IH]; intros Hc; [simpl; lia|]. rewrite bind_cons, length_app. simpl.
  specialize (Hc x ltac:(by left)) as Hx. specialize (IH ltac:(intros; apply Hc; by right)). lia.
Qed.

(** A read of the configuration space adds to the log of writes. *)
Definition logged k (a : Z) : kernel := set_k_out ((CONFIG_ADDRESS, a) :: k_out k) k.

Lemma relock_spin l k : in_pci set_pci_spinlock (of_pci pci_spinlock k) (in_pci set_pci_spinlock l k) = k.
Proof.
  unfold in_pci, of_pci. cbn. rewrite pci_set, set_pci_set.
  assert (set_pci_spinlock (pci_spinlock (pci (k_fs k))) (set_pci_spinlock l (pci (k_fs k))) = pci (k_fs k)) as ->
    by (by destruct (pci (k_fs k))).
  rewrite set_pci_pci. by destruct k.
Qed.

Lemma pci_read32_spec d off cfg xs found k :
  scanned k cfg xs found →
  let a := u32 (config_address (bus d) (slot d) (pfunc d) off) in
  pci_read32 d off k = Ok (cfg a, logged k a).
Proof.
  intros [Hl Hc _ _ _ _] a. unfold pci_read32, locked. kpure. rewrite Hl.
  set (taken := {| sp_lock := 1; sp_magic := SPIN_MAGIC |}).
  assert (lift (S := kernel) (spin_lock SPIN_INITIALIZER) k = Ok (taken, k)) as Hlk.
  { unfold lift, spin_lock. cbn [sp_magic SPIN_INITIALIZER sp_lock]. rewrite Z.eqb_refl, assert_true. done. }
  kstep Hlk. kpure. set (k1 := in_pci set_pci_spinlock taken k). unfold outl, outb.
  set (k2 := set_k_out ((CONFIG_ADDRESS, a) :: k_out k1) k1).
  assert ((modify (λ k, set_k_out ((CONFIG_ADDRESS, a) :: k_out k) k);; inl CONFIG_DATA) k1 = Ok (cfg a, k2)) as Hin.
  { kpure. fold k2. rewrite (inl_config k2 a (k_out k1)) by done. do 2 f_equal. unfold k2, k1, in_pci. cbn. by rewrite config_pci. }
  fold a. kstep Hin. kpure.
  assert (of_pci pci_spinlock k2 = taken) as -> by (unfold of_pci, k2, k1, in_pci; cbn; by rewrite pci_set).
  assert (lift (S := kernel) (spin_unlock taken) k2 = Ok (SPIN_INITIALIZER, k2)) as Hul.
  { unfold lift, spin_unlock. cbn [taken sp_magic sp_lock]. by rewrite Z.eqb_refl, !assert_true. }
  kstep Hul. kpure. unfold mret, K_ret. do 2 f_equal. rewrite <- Hl at 1. unfold logged.
  transitivity (set_k_out ((CONFIG_ADDRESS, a) :: k_out k) (in_pci set_pci_spinlock (of_pci pci_spinlock k) k1)); [done|].
  unfold k1. by rewrite relock_spin.
Qed.

Lemma scanned_logged k a cfg xs found : scanned k cfg xs found → scanned (logged k a) cfg xs found.
Proof. intros []. by split. Qed.

Lemma config_address_word b s f off : u32 (config_address b s f off) = config_address b s f off.
Proof. unfold config_address. apply uwrap_small, uwrap_word. lia. Qed.

Lemma pci_is_present_spec b s f cfg xs found k :
  scanned k cfg xs found → ∃ a, pci_is_present b s f k = Ok (present cfg b s f, logged k a).
Proof.
  intros Hk. unfold pci_is_present, pci_read16. rewrite K_bind_assoc. kstep (pci_read32_spec (place b s f) 0 cfg xs found k Hk).
  kpure. cbn [place bus slot pfunc]. rewrite config_address_word. eexists. unfold mret, K_ret. reflexivity.
Qed.

(** Reading 16 and 8 bits. *)
Lemma pci_read16_spec d off cfg xs found k :
  scanned k cfg xs found →
  ∃ a, pci_read16 d off k =
    Ok (Z.land (Z.shiftr (cfg (config_address (bus d) (slot d) (pfunc d) off)) (Z.land off 2 * 8)) 0xffff, logged k a).
Proof.
  intros Hk. unfold pci_read16. kstep (pci_read32_spec d off cfg xs found k Hk). rewrite config_address_word. eexists. reflexivity.
Qed.

Lemma pci_read8_spec d off cfg xs found k : scanned k cfg xs found → ∃ v a, pci_read8 d off k = Ok (v, logged k a).
Proof. intros Hk. unfold pci_read8. kstep (pci_read32_spec d off cfg xs found k Hk). eexists _, _. reflexivity. Qed.

(** The registers 0 and 2 are in one double word. *)
Lemma config_address_device b s f : config_address b s f PCI_DEVICE_ID = config_address b s f 0.
Proof. done. Qed.

(** A device that is not in the list yet is written. *)
Definition with_device k (p : Z) (d : pci_dev_t) : kernel := set_objs (<[p := d]> (objs k)) k.

Lemma with_device_lookup k p d : objs (T := pci_dev_t) (with_device k p d) !! p = Some d.
Proof. unfold with_device. cbn. rewrite pci_set. apply lookup_insert_eq. Qed.

Lemma scanned_device k cfg xs found p d : scanned k cfg xs found → p ∉ xs.*2 → scanned (with_device k p d) cfg xs found.
Proof.
  intros [Hl Hc Hs Hr He Hlv] Hp. unfold with_device. split; unfold of_pci in *; cbn; rewrite ?pci_set; try done.
  - intros a. by rewrite config_pci.
  - clear Hr Hlv. revert Hp. generalize (xs.*2) He. clear. intros ys He. induction He as [|y b ys bs (d' & Hd & ?) _ IH]; intros Hp; constructor.
    + exists d'. cbn. rewrite pci_set. cbn. apply not_elem_of_cons in Hp as [Hne _]. by rewrite lookup_insert_ne.
    + apply IH. by apply not_elem_of_cons in Hp as [_ ?].
Qed.

(** The entry is filled in. *)
Lemma identify k cfg xs found p b s f i drv data :
  let d0 := {| bus := b; slot := s; pfunc := f; dev_id := i; pci_driver := drv; driver_data := data |} in
  scanned k cfg xs found → p ∉ xs.*2 → objs (T := pci_dev_t) k !! p = Some d0 →
  ∃ k', read_ids p k = Ok (tt, k') ∧
    scanned k' cfg xs found ∧ objs (T := pci_dev_t) k' !! p = Some (set_id (ids_at cfg b s f) d0) ∧ k_store k' = k_store k.
Proof.
  intros d0 Hk Hp Hd. unfold read_ids. kstep (load_Ok (O := pci_dev_object) p d0 k Hd).
  destruct (pci_read16_spec d0 PCI_VENDOR_ID cfg xs found k Hk) as (a1 & Hr1). kstep Hr1. set (v := Z.land _ _).
  set (k1 := logged k a1). pose proof (scanned_logged k a1 cfg xs found Hk) as Hk1. fold k1 in Hk1.
  kstep (change_Ok (O := pci_dev_object) p (λ d, set_id {| vendor := v; pci_device := pci_device (dev_id d) |} d) k1 d0 Hd).
  set (d1 := set_id {| vendor := v; pci_device := pci_device (dev_id d0) |} d0). fold (with_device k1 p d1).
  pose proof (scanned_device k1 cfg xs found p d1 Hk1 Hp) as Hk2. pose proof (with_device_lookup k1 p d1) as Hd1.
  set (k2 := with_device k1 p d1) in *. kstep (load_Ok (O := pci_dev_object) p d1 k2 Hd1).
  destruct (pci_read16_spec d1 PCI_DEVICE_ID cfg xs found k2 Hk2) as (a3 & Hr3). kstep Hr3. set (w := Z.land _ _).
  set (k3 := logged k2 a3). pose proof (scanned_logged k2 a3 cfg xs found Hk2) as Hk3. fold k3 in Hk3.
  kstep (change_Ok (O := pci_dev_object) p (λ d, set_id {| vendor := vendor (dev_id d); pci_device := w |} d) k3 d1 Hd1).
  set (d2 := set_id {| vendor := vendor (dev_id d1); pci_device := w |} d1). fold (with_device k3 p d2).
  pose proof (scanned_device k3 cfg xs found p d2 Hk3 Hp) as Hk4. pose proof (with_device_lookup k3 p d2) as Hd2.
  set (k4 := with_device k3 p d2) in *. kstep (load_Ok (O := pci_dev_object) p d2 k4 Hd2).
  destruct (pci_read8_spec d2 PCI_REVISION cfg xs found k4 Hk4) as (v5 & a5 & Hr5). kstep Hr5.
  pose proof (scanned_logged k4 a5 cfg xs found Hk4) as Hk5.
  destruct (pci_read8_spec d2 PCI_SUBCLASS cfg xs found _ Hk5) as (v6 & a6 & Hr6). kstep Hr6.
  pose proof (scanned_logged _ a6 cfg xs found Hk5) as Hk6.
  destruct (pci_read8_spec d2 PCI_CLASS cfg xs found _ Hk6) as (v7 & a7 & Hr7). kstep Hr7.
  eexists. split; [reflexivity|]. split; [by apply scanned_logged|]. split; [exact Hd2|done].
Qed.

(** One more function. *)
Lemma add_function_spec b s f cfg found k :
  (∀ n h, km_room n h) → Z.of_nat (length found) + 1 < 2 ^ 64 → found_so_far cfg found k →
  does (add_function junk b s f) k (found_so_far cfg (found ++ [(b, s, f)])).
Proof.
  intros Hroom Hlen (xs & Hk). unfold does, add_function.
  assert (length xs = length found) as Hxs by (pose proof (sc_entries _ _ _ _ Hk) as He%list.Forall2_length; by rewrite length_fmap in He).
  destruct (new_fresh 24 k (sc_store _ _ _ _ Hk) (Hroom _ _)) as [(p & h & Hnew & Hs1 & Hnz & Hfresh & Hlive)|(w & Hnew & Hw)].
  2: { right. exists w. split; [by apply K_bind_Stop|done]. }
  assert (p ∉ xs.*2) as Hp by (by intros ?%(sc_live _ _ _ _ Hk)).
  rewrite (K_bind_Ok _ _ _ _ _ Hnew). set (k1 := set_k_store _ k).
  assert (scanned k1 cfg xs found) as Hk1.
  { destruct Hk as [Hl Hc Hs Hr He Hlv]. split; try done; [by apply list_repr_heap|].
    intros x Hx. simpl. rewrite Hlive. apply Hlv in Hx. set_solver. }
  kpure. fold (with_device k1 p {| bus := b; slot := s; pfunc := f;
    dev_id := {| vendor := junk (p + 4); pci_device := junk (p + 6) |}; pci_driver := junk (p + 8); driver_data := junk (p + 16) |}).
  destruct (identify _ cfg xs found p b s f {| vendor := junk (p + 4); pci_device := junk (p + 6) |} (junk (p + 8)) (junk (p + 16))
    (scanned_device k1 cfg xs found p _ Hk1 Hp) Hp (with_device_lookup k1 p _))
    as (k2 & Hid & Hk2 & Hd2 & Hst2).
  rewrite (K_bind_Ok _ _ _ _ _ Hid). kpure.
  assert (k_store k2 = {| nodes := nodes (k_store k); heap := h |}) as Hst by (rewrite Hst2; done).
  destruct (listed_add (of_pci device_list k2) xs p k2 (sc_store _ _ _ _ Hk2) (sc_repr _ _ _ _ Hk2) ltac:(rewrite Hxs; exact Hlen) (Hroom _ _))
    as [(n & a & l' & s' & Hos & Hs' & Hr' & Hlive')|(w & Hos & Hw)].
  2: { right. exists w. split; [by apply K_bind_Stop|done]. }
  left.
  kstep Hos. eexists. split; [done|]. exists (xs ++ [(a, p)]).
  destruct Hk2 as [Hl Hc Hs Hr He Hlv]. split; unfold of_pci, in_pci; cbn; rewrite ?pci_set; cbn; try done.
  - intros x. by rewrite config_pci.
  - rewrite fmap_app. assert (∀ y bsf, entry_for k2 cfg y bsf →
      entry_for (set_k_fs (set_pci (set_device_list l' (pci (k_fs k2))) (k_fs k2)) (set_k_store s' k2)) cfg y bsf) as Hkeep.
    { intros y bsf (d & Hd & ?). exists d. cbn in *. by rewrite pci_set. }
    apply Forall2_app; [exact (list.Forall2_impl _ _ _ _ He Hkeep)|]. constructor; [|constructor]. apply Hkeep. by eexists.
  - intros y. rewrite fmap_app, elem_of_app, Hlive'. intros [Hy%Hlv|Hy%list_elem_of_singleton]; [set_solver|].
    simpl in Hy. subst y. rewrite Hst. simpl. rewrite Hlive. set_solver.
Qed.

Lemma scan_slot_spec b s cfg found k :
  (∀ n h, km_room n h) → Z.of_nat (length found) + 8 < 2 ^ 64 → found_so_far cfg found k →
  does (scan_slot junk b s) k (found_so_far cfg (found ++ slot_functions cfg b s)).
Proof.
  intros Hroom Hlen (xs & Hk). unfold scan_slot, slot_functions.
  destruct (pci_is_present_spec b s 0 cfg xs found k Hk) as (a & Hp). unfold does. rewrite (K_bind_Ok _ _ _ _ _ Hp).
  pose proof (scanned_logged k a cfg xs found Hk) as Hk1.
  destruct (present cfg b s 0); [|left; eexists; split; [done|]; rewrite app_nil_r; by exists xs].
  set (add := λ f, if present cfg b s f then [(b, s, f)] else []).
  assert (∀ l : list Z, ((λ f, (b, s, f)) <$> filter (λ f, present cfg b s f = true) l) = l ≫= add) as ->.
  { induction l as [|f l IH]; [done|]. rewrite bind_cons, <- IH. unfold add.
    destruct (present cfg b s f) eqn:Hf; [by rewrite filter_cons_True|].
    rewrite filter_cons_False; [done|congruence]. }
  apply (each_does _ _ add (found_so_far cfg) found); [|by exists xs].
  intros l1 f l2 k1 Hl (ys & Hk2).
  assert (length (l1 ≫= add) <= 8)%nat as Hb.
  { etransitivity; [apply (bind_length_le l1 add 1)|]; [intros x _; unfold add; destruct (present _ _ _ x); simpl; lia|].
    assert (length (Z.of_nat <$> seq 0 8) = 8%nat) as H8 by done. rewrite Hl, length_app in H8. simpl in H8. lia. }
  destruct (pci_is_present_spec b s f cfg ys _ k1 Hk2) as (a2 & Hp2). unfold does. rewrite (K_bind_Ok _ _ _ _ _ Hp2).
  pose proof (scanned_logged k1 a2 cfg ys _ Hk2) as Hk3. assert (add f = if present cfg b s f then [(b, s, f)] else []) as -> by done.
  destruct (present cfg b s f) eqn:Hf.
  - rewrite app_assoc. apply add_function_spec; [done| |by exists ys].
    assert (length (l1 ≫= add) < 8)%nat.
    { eapply Nat.le_lt_trans; [apply (bind_length_le l1 add 1); intros x _; unfold add; destruct (present _ _ _ x); simpl; lia|].
      assert (length (Z.of_nat <$> seq 0 8) = 8%nat) as H8 by done. rewrite Hl, length_app in H8. simpl in H8. lia. }
    rewrite length_app. lia.
  - left. eexists. split; [done|]. rewrite app_nil_r. by exists ys.
Qed.

Lemma slot_length cfg b s : (length (slot_functions cfg b s) <= 8)%nat.
Proof.
  unfold slot_functions. destruct (present cfg b s 0); [|simpl; lia]. rewrite length_fmap.
  etransitivity; [apply length_filter|]. done.
Qed.

Lemma prefix_length {X} (l1 : list X) x l2 l n : l = l1 ++ x :: l2 → length l = n → (length l1 < n)%nat.
Proof. intros -> <-. rewrite length_app. simpl. lia. Qed.

Lemma scan_bus_spec b cfg found k :
  (∀ n h, km_room n h) → Z.of_nat (length found) + 256 < 2 ^ 64 → found_so_far cfg found k →
  does (each (Z.of_nat <$> seq 0 32) (scan_slot junk b)) k (found_so_far cfg (found ++ bus_functions cfg b)).
Proof.
  intros Hroom Hlen Hk. apply (each_does _ _ (slot_functions cfg b)); [|done]. intros l1 s l2 k1 Hl Hk1.
  rewrite app_assoc. apply scan_slot_spec; [done| |done].
  pose proof (prefix_length l1 s l2 _ 32 Hl ltac:(done)) as Hp.
  pose proof (bind_length_le l1 (slot_functions cfg b) 8 ltac:(intros; apply slot_length)) as Hb. rewrite length_app. lia.
Qed.

Lemma bus_length cfg b : (length (bus_functions cfg b) <= 256)%nat.
Proof. exact (bind_length_le (Z.of_nat <$> seq 0 32) (slot_functions cfg b) 8 ltac:(intros; apply slot_length)). Qed.

End enumeration.

(** ** A bus with one device of two functions *)

#[local] Existing Instance debug_build.
Import Machine.
Definition demo_bus : Type := (pci_t * (Z → Z))%type.
#[local] Instance demo_pci_state : PciState demo_bus.
Proof. refine {| pci f := fst f; set_pci p f := (p, snd f) |}; [done|done|by intros []]. Defined.
(** Mechanism 1: CONFIG_DATA shows the register that was selected last. *)
#[local] Instance demo_ports : Ports t demo_bus := {|
  inb _ := mret 0;
  inl _ k := Ok (match k_out k with (_, a) :: _ => snd (k_fs k) a | [] => 0 end, k);
  repinsw _ _ := mret [];
|}.
#[local] Instance demo_pci_bus : PciBus t demo_bus.
Proof. refine {| config f := snd f |}; [done|]. intros k a out Hk. unfold inl, demo_ports. by rewrite Hk. Defined.

(** The chip set and the disk controller of the machine that QEMU emulates. *)
Definition demo_config (a : Z) : Z :=
  if a =? 0x80000000 then 0x12378086 else if a =? 0x80000800 then 0x70008086 else if a =? 0x80000900 then 0x70108086 else 0xffffffff.
Definition bus_start : Kernel.kernel t demo_bus :=
  start_with ({| pc_devs := ∅; pc_drivers := ∅; device_list := list_init; device_list_lock :=
    {| mx_lock := 0; mx_magic := 0; mx_waiting := []; mx_spin := {| sp_lock := 0; sp_magic := 0 |}; mx_held_by := 0 |}; pci_initialized := false;
    pci_spinlock := SPIN_INITIALIZER |}, demo_config).

