(* ===== verification/Ata.v ===== *)
(** The driver of IDE disks, drivers/pc/ata.c: the registers of a controller, reading by DMA, the
    identification of the drives, and the registration with the PCI bus and the block layer. *)
From S2P Require Import Prelude Words Mutex PageAlloc Dll Lists Vspace Errno Kernel Sched Vfs Ext2 Irq Block Pci.
Open Scope Z_scope.

(** Status bits, commands and registers that are used. *)
(** [ATA_SR_BSY] (kernel/drivers/pc/ata.c, lines 32-32). *)
Definition ATA_SR_BSY : Z := 0x80.
(** [ATA_SR_DF] (kernel/drivers/pc/ata.c, lines 34-34). *)
Definition ATA_SR_DF : Z := 0x20.
(** [ATA_SR_DRQ] (kernel/drivers/pc/ata.c, lines 36-36). *)
Definition ATA_SR_DRQ : Z := 0x08.
(** [ATA_SR_ERR] (kernel/drivers/pc/ata.c, lines 39-39). *)
Definition ATA_SR_ERR : Z := 0x01.
(** [ATA_CMD_IDENTIFY] (kernel/drivers/pc/ata.c, lines 60-60). *)
Definition ATA_CMD_IDENTIFY : Z := 0xec.
(** [ATA_CMD_READ_DMA_EXT] (kernel/drivers/pc/ata.c, lines 111-111). *)
Definition ATA_CMD_READ_DMA_EXT : Z := 0x25.
(** [ATA_REG_DATA] (kernel/drivers/pc/ata.c, lines 77-77). *)
Definition ATA_REG_DATA : Z := 0x00.
(** [ATA_REG_SECCOUNT0] (kernel/drivers/pc/ata.c, lines 80-80). *)
Definition ATA_REG_SECCOUNT0 : Z := 0x02.
(** [ATA_REG_LBA0] (kernel/drivers/pc/ata.c, lines 81-81). *)
Definition ATA_REG_LBA0 : Z := 0x03.
(** [ATA_REG_LBA1] (kernel/drivers/pc/ata.c, lines 82-82). *)
Definition ATA_REG_LBA1 : Z := 0x04.
(** [ATA_REG_LBA2] (kernel/drivers/pc/ata.c, lines 83-83). *)
Definition ATA_REG_LBA2 : Z := 0x05.
(** [ATA_REG_HDDEVSEL] (kernel/drivers/pc/ata.c, lines 84-84). *)
Definition ATA_REG_HDDEVSEL : Z := 0x06.
(** [ATA_REG_COMMAND] (kernel/drivers/pc/ata.c, lines 85-85). *)
Definition ATA_REG_COMMAND : Z := 0x07.
(** [ATA_REG_STATUS] (kernel/drivers/pc/ata.c, lines 86-86). *)
Definition ATA_REG_STATUS : Z := 0x07.
(** [ATA_REG_CONTROL] (kernel/drivers/pc/ata.c, lines 91-91). *)
Definition ATA_REG_CONTROL : Z := 0x0c.
Definition ATA_PRIMARY : nat := 0.
Definition ATA_SECONDARY : nat := 1.
(** [ATA_MASTER] (kernel/drivers/pc/ata.c, lines 98-98). *)
Definition ATA_MASTER : Z := 0.
(** [ATA_SLAVE] (kernel/drivers/pc/ata.c, lines 99-99). *)
Definition ATA_SLAVE : Z := 1.
(** [DMA_CMD] (kernel/drivers/pc/ata.c, lines 106-106). *)
Definition DMA_CMD : Z := 0x00.
(** [DMA_STAT] (kernel/drivers/pc/ata.c, lines 107-107). *)
Definition DMA_STAT : Z := 0x02.
(** [DMA_ADDR] (kernel/drivers/pc/ata.c, lines 108-108). *)
Definition DMA_ADDR : Z := 0x04.
(** [DMA_CMD_START] (kernel/drivers/pc/ata.c, lines 115-115). *)
Definition DMA_CMD_START : Z := BIT 0.
(** [DMA_CMD_STOP] (kernel/drivers/pc/ata.c, lines 116-116). *)
Definition DMA_CMD_STOP : Z := 0.
(** [DMA_CMD_READ] (kernel/drivers/pc/ata.c, lines 117-117). *)
Definition DMA_CMD_READ : Z := BIT 3.
(** [DMA_STAT_FAIL] (kernel/drivers/pc/ata.c, lines 121-121). *)
Definition DMA_STAT_FAIL : Z := BIT 1.
(** [DMA_STAT_IRQ] (kernel/drivers/pc/ata.c, lines 122-122). *)
Definition DMA_STAT_IRQ : Z := BIT 2.
Definition IRQ_ATA_PRIM : Z := 14.
Definition IRQ_ATA_SEC : Z := 15.

(** [BLOCKS_PER_PRD] (kernel/drivers/pc/ata.c, lines 126-128): 64 KiB less the block in which the
    descriptor lies. *)
Definition BLOCKS_PER_PRD : Z := 1024 * 64 / 512 - 1.

(** [region_desc_t] (kernel/drivers/pc/ata.c, lines 130-136). *)
Record region_desc_t := { prd_buffer : Z; prd_bytes : Z; last_entry : Z }.
Definition set_prd_bytes (v : Z) (d : region_desc_t) : region_desc_t :=
  {| prd_buffer := prd_buffer d; prd_bytes := v; last_entry := last_entry d |}.

(** What lies behind the descriptor in its region. *)
Record dma_t := { dma_bytes : list Z }.

(** [ide_channel_t] (kernel/drivers/pc/ata.c, lines 139-151). *)
Record ide_channel_t := {
  prdt : Z; data_ready : Z; irq_status : Z; signal_task : Z; base : Z; ctrl : Z; busmaster : Z; nIEN : Z
}.
Definition set_prdt (v : Z) (c : ide_channel_t) : ide_channel_t :=
  {| prdt := v; data_ready := data_ready c; irq_status := irq_status c; signal_task := signal_task c; base := base c;
     ctrl := ctrl c; busmaster := busmaster c; nIEN := nIEN c |}.
Definition set_data_ready (v : Z) (c : ide_channel_t) : ide_channel_t :=
  {| prdt := prdt c; data_ready := v; irq_status := irq_status c; signal_task := signal_task c; base := base c;
     ctrl := ctrl c; busmaster := busmaster c; nIEN := nIEN c |}.
Definition set_irq_status (v : Z) (c : ide_channel_t) : ide_channel_t :=
  {| prdt := prdt c; data_ready := data_ready c; irq_status := v; signal_task := signal_task c; base := base c;
     ctrl := ctrl c; busmaster := busmaster c; nIEN := nIEN c |}.
Definition set_signal_task (v : Z) (c : ide_channel_t) : ide_channel_t :=
  {| prdt := prdt c; data_ready := data_ready c; irq_status := irq_status c; signal_task := v; base := base c;
     ctrl := ctrl c; busmaster := busmaster c; nIEN := nIEN c |}.
Definition set_ports (b c_ m : Z) (c : ide_channel_t) : ide_channel_t :=
  {| prdt := prdt c; data_ready := data_ready c; irq_status := irq_status c; signal_task := signal_task c; base := b;
     ctrl := c_; busmaster := m; nIEN := nIEN c |}.

(** [ide_dev_t] (kernel/drivers/pc/ata.c, lines 153-164); [model] has 41 bytes. *)
Record ide_dev_t := {
  ide_present : Z; dv_channel : Z; dv_drive : Z; dv_type : Z; signat : Z; capa : Z; cmd_sets : Z; sectors : Z;
  model : list Z
}.
Definition set_ide_present (v : Z) (d : ide_dev_t) : ide_dev_t :=
  {| ide_present := v; dv_channel := dv_channel d; dv_drive := dv_drive d; dv_type := dv_type d; signat := signat d;
     capa := capa d; cmd_sets := cmd_sets d; sectors := sectors d; model := model d |}.

(** [pci_ide_dev_t] (kernel/drivers/pc/ata.c, lines 166-172): two channels and four drives. *)
Record pci_ide_dev_t := {
  minor_base : Z; transfer_lock : mutex_t; ide_channels : list ide_channel_t; ide_devices : list ide_dev_t
}.
Definition set_minor_base (v : Z) (c : pci_ide_dev_t) : pci_ide_dev_t :=
  {| minor_base := v; transfer_lock := transfer_lock c; ide_channels := ide_channels c; ide_devices := ide_devices c |}.
Definition set_transfer_lock (v : mutex_t) (c : pci_ide_dev_t) : pci_ide_dev_t :=
  {| minor_base := minor_base c; transfer_lock := v; ide_channels := ide_channels c; ide_devices := ide_devices c |}.
Definition set_ide_channels (v : list ide_channel_t) (c : pci_ide_dev_t) : pci_ide_dev_t :=
  {| minor_base := minor_base c; transfer_lock := transfer_lock c; ide_channels := v; ide_devices := ide_devices c |}.
Definition set_ide_devices (v : list ide_dev_t) (c : pci_ide_dev_t) : pci_ide_dev_t :=
  {| minor_base := minor_base c; transfer_lock := transfer_lock c; ide_channels := ide_channels c; ide_devices := v |}.

(** Controllers, descriptors and buffers by address, and the static variables. *)
Record ata_t := {
  at_controllers : gmap Z pci_ide_dev_t;
  at_prds : gmap Z region_desc_t;
  at_dma : gmap Z dma_t;
  ata_major : Z;
  ata_minors : Z;
}.
Definition set_at_controllers (v : gmap Z pci_ide_dev_t) (a : ata_t) : ata_t :=
  {| at_controllers := v; at_prds := at_prds a; at_dma := at_dma a; ata_major := ata_major a; ata_minors := ata_minors a |}.
Definition set_at_prds (v : gmap Z region_desc_t) (a : ata_t) : ata_t :=
  {| at_controllers := at_controllers a; at_prds := v; at_dma := at_dma a; ata_major := ata_major a; ata_minors := ata_minors a |}.
Definition set_at_dma (v : gmap Z dma_t) (a : ata_t) : ata_t :=
  {| at_controllers := at_controllers a; at_prds := at_prds a; at_dma := v; ata_major := ata_major a; ata_minors := ata_minors a |}.
Definition set_ata_major (v : Z) (a : ata_t) : ata_t :=
  {| at_controllers := at_controllers a; at_prds := at_prds a; at_dma := at_dma a; ata_major := v; ata_minors := ata_minors a |}.
Definition set_ata_minors (v : Z) (a : ata_t) : ata_t :=
  {| at_controllers := at_controllers a; at_prds := at_prds a; at_dma := at_dma a; ata_major := ata_major a; ata_minors := v |}.

(** Where the driver keeps them. *)
Class AtaState (F : Type) := {
  ata : F → ata_t;
  set_ata : ata_t → F → F;
  ata_set a f : ata (set_ata a f) = a;
  set_ata_set a a' f : set_ata a (set_ata a' f) = set_ata a f;
  set_ata_ata f : set_ata (ata f) f = f;
}.
#[export] Instance controller_object `{AtaState F} {A} : Object pci_ide_dev_t A F :=
  {| objs k := at_controllers (ata (k_fs k)); set_objs m k := set_k_fs (set_ata (set_at_controllers m (ata (k_fs k))) (k_fs k)) k |}.
#[export] Instance prd_object `{AtaState F} {A} : Object region_desc_t A F :=
  {| objs k := at_prds (ata (k_fs k)); set_objs m k := set_k_fs (set_ata (set_at_prds m (ata (k_fs k))) (k_fs k)) k |}.
#[export] Instance dma_object `{AtaState F} {A} : Object dma_t A F :=
  {| objs k := at_dma (ata (k_fs k)); set_objs m k := set_k_fs (set_ata (set_at_dma m (ata (k_fs k))) (k_fs k)) k |}.

(** What runs between the [yield] of a task that waits for an interrupt and its next turn: other
    tasks, devices, and the handlers of interrupts. *)
Class Others (A F : Type) := { elsewhere : K (kernel A F) unit }.

Section operations.
Context {A F : Type} `{B : Build} `{KM : Kmalloc A} `{PM : PhysMem A} `{D : Drivers A F} `{AS : AtaState F}
  `{BS : BlockState F} `{P : PciState F} `{IO : Ports A F} `{OT : Others A F}.
Abbreviation kernel := (Kernel.kernel A F).
Abbreviation KA := (K kernel).

(** The turns that loops that poll the status, or wait for an interrupt, are given. *)
Context (TURNS : nat).

(** ** Registers *)

(** A channel of a controller; the driver has no other than the two. *)
Definition channel (controller : Z) (ch : nat) : KA ide_channel_t :=
  c ← load (T := pci_ide_dev_t) controller; lift (of_option (ide_channels c !! ch)).
Definition change_channel (controller : Z) (ch : nat) (f : ide_channel_t → ide_channel_t) : KA unit :=
  change controller (λ c, set_ide_channels (alter f ch (ide_channels c)) c).

(** The port of a register ([ide_write] (kernel/drivers/pc/ata.c, lines 195-202)). *)
Definition reg_port (c : ide_channel_t) (reg : Z) : option Z :=
  if reg <? 0x08 then Some (u16 (base c + reg))
  else if reg <? 0x0c then Some (u16 (base c + reg - 0x06))
  else if reg <? 0x0e then Some (u16 (ctrl c + reg - 0x0a))
  else if reg <? 0x16 then Some (u16 (busmaster c + reg - 0x0e))
  else None.
Definition high_reg (reg : Z) : bool := (0x07 <? reg) && (reg <? 0x0c).

(** A write to a register that is not one of the high bytes. *)
Definition write_reg (controller : Z) (ch : nat) (reg data : Z) : KA unit :=
  c ← channel controller ch;
  match reg_port c reg with Some port => outb port (u8 data) | None => mret tt end.
Definition select_high (controller : Z) (ch : nat) (reg mask : Z) : KA unit :=
  when (high_reg reg) (c ← channel controller ch; write_reg controller ch ATA_REG_CONTROL (Z.lor mask (nIEN c))).

(** [ide_write] (kernel/drivers/pc/ata.c, lines 186-209). *)
Definition ide_write (controller : Z) (ch : nat) (reg data : Z) : KA unit :=
  select_high controller ch reg 0x80;; write_reg controller ch reg data;; select_high controller ch reg 0.

(** [ide_read] (kernel/drivers/pc/ata.c, lines 218-243). *)
Definition ide_read (controller : Z) (ch : nat) (reg : Z) : KA Z :=
  select_high controller ch reg 0x80;;
  c ← channel controller ch;
  result ← match reg_port c reg with Some port => inb port | None => mret 0 end;
  select_high controller ch reg 0;;
  mret result.

(** ** Reading *)

(** [ata_irq] (kernel/drivers/pc/ata.c, lines 256-275), for a channel of a controller. *)
Definition ata_irq (controller : Z) (ch : nat) : KA unit :=
  c ← channel controller ch;
  status ← inb (u16 (busmaster c + DMA_STAT));
  outb (u16 (busmaster c + DMA_STAT)) 4;;
  when (negb (Z.land status DMA_STAT_IRQ =? 0))
    (change_channel controller ch (set_data_ready 1);;
     change_channel controller ch (set_irq_status status);;
     c ← channel controller ch;
     irq_signal (signal_task c)).

(** The loop that reads the status ([ata_read] (kernel/drivers/pc/ata.c, lines 343-343)). *)
Fixpoint poll_busy (n : nat) (port : Z) : KA unit :=
  match n with
  | O => kstop NoFuel
  | S n => status ← inb port; if Z.land status ATA_SR_BSY =? 0 then mret tt else poll_busy n port
  end.

(** [irq_wait_until(&channel->data_ready, true)] ([irq_wait_until] (kernel/kernel/sched/task.c,
    lines 84-101)), as the task that waits sees it. *)
Fixpoint wait_turns (n : nat) (controller : Z) (ch : nat) : KA unit :=
  match n with
  | O => kstop NoFuel
  | S n =>
      c ← channel controller ch;
      if data_ready c =? 1 then mret tt
      else
        cur ← gets current_task;
        change cur (set_irq_wait true);;
        elsewhere;;
        wait_turns n controller ch
  end.
Definition wait_ready (controller : Z) (ch : nat) : KA unit :=
  ongoing ← gets irq_ongoing; lift (assert_ (negb ongoing));; wait_turns TURNS controller ch.

(** The registers of the task file, each high byte before its low byte ([ata_read]
    (kernel/drivers/pc/ata.c, lines 332-340)). *)
Definition task_file (iobase drive tr_size lba : Z) : KA unit :=
  outb (u16 (iobase + ATA_REG_HDDEVSEL)) (u8 (Z.lor 0xe0 (Z.shiftl drive 4)));;
  outb (u16 (iobase + ATA_REG_SECCOUNT0)) (u8 (Z.shiftr tr_size 8));;
  outb (u16 (iobase + ATA_REG_LBA0)) (Z.land (Z.shiftr lba 24) 0xff);;
  outb (u16 (iobase + ATA_REG_LBA1)) (Z.land (Z.shiftr lba 32) 0xff);;
  outb (u16 (iobase + ATA_REG_LBA2)) (Z.land (Z.shiftr lba 40) 0xff);;
  outb (u16 (iobase + ATA_REG_SECCOUNT0)) (Z.land tr_size 0xff);;
  outb (u16 (iobase + ATA_REG_LBA0)) (Z.land lba 0xff);;
  outb (u16 (iobase + ATA_REG_LBA1)) (Z.land (Z.shiftr lba 8) 0xff);;
  outb (u16 (iobase + ATA_REG_LBA2)) (Z.land (Z.shiftr lba 16) 0xff).

(** The preparation of a transfer ([ata_read] (kernel/drivers/pc/ata.c, lines 314-328)). *)
Definition prepare_dma (controller : Z) (ch : nat) (tr_size : Z) : KA unit :=
  c ← channel controller ch;
  change (prdt c) (set_prd_bytes (u16 (tr_size * 512)));;
  change_channel controller ch (set_data_ready 0);;
  cur ← gets current_task;
  change_channel controller ch (set_signal_task cur);;
  outb (u16 (busmaster c + DMA_CMD)) (Z.lor DMA_CMD_READ DMA_CMD_STOP);;
  dma_stat ← inb (u16 (busmaster c + DMA_STAT));
  outb (u16 (busmaster c + DMA_STAT)) (u8 (Z.land dma_stat (Z.lnot (Z.lor DMA_STAT_FAIL DMA_STAT_IRQ)))).

(** The command, and the transfer ([ata_read] (kernel/drivers/pc/ata.c, lines 342-359)). *)
Definition run_dma (controller : Z) (ch : nat) : KA unit :=
  c ← channel controller ch;
  poll_busy TURNS (u16 (base c + ATA_REG_STATUS));;
  outb (u16 (base c + ATA_REG_COMMAND)) ATA_CMD_READ_DMA_EXT;;
  poll_busy TURNS (u16 (base c + ATA_REG_STATUS));;
  outb (u16 (busmaster c + DMA_CMD)) (Z.lor DMA_CMD_READ DMA_CMD_START);;
  wait_ready controller ch;;
  c ← channel controller ch;
  lift (assert_ (negb (data_ready c =? 0)));;
  outb (u16 (busmaster c + DMA_CMD)) (Z.lor DMA_CMD_READ DMA_CMD_STOP).

(** One turn of the loop ([ata_read] (kernel/drivers/pc/ata.c, lines 314-371)): the bytes of
    [tr_size] blocks, or nothing when the disk reports an error. *)
Definition transfer (controller : Z) (ch : nat) (drive tr_size lba : Z) : KA (option (list Z)) :=
  prepare_dma controller ch tr_size;;
  c ← channel controller ch;
  task_file (base c) drive tr_size lba;;
  run_dma controller ch;;
  c ← channel controller ch;
  status ← inb (u16 (base c + ATA_REG_STATUS));
  if negb (Z.land status ATA_SR_ERR =? 0) || negb (Z.land status ATA_SR_DF =? 0) then mret None
  else
    data ← load (T := dma_t) (prdt c + 512);
    if Z.of_nat (length (dma_bytes data)) <? tr_size * 512 then kstop Fault
    else mret (Some (take (Z.to_nat (tr_size * 512)) (dma_bytes data))).

(** The loop of [ata_read] (kernel/drivers/pc/ata.c, lines 301-378); [n] turns are enough when
    [n] is more than the number of blocks. *)
Fixpoint read_blocks (n : nat) (controller : Z) (ch : nat) (drive remaining lba blocks_read : Z) (done : list Z) : KA (Z * list Z) :=
  match n with
  | O => kstop NoFuel
  | S n =>
      if remaining <=? 0 then mret (blocks_read, done)
      else
        let tr_size := if BLOCKS_PER_PRD <? remaining then BLOCKS_PER_PRD else remaining in
        r ← transfer controller ch drive tr_size lba;
        match r with
        | None => mret (blocks_read, done)
        | Some bytes =>
            read_blocks n controller ch drive (remaining - tr_size) (u64 (lba + tr_size)) (blocks_read + tr_size) (done ++ bytes)
        end
  end.

(** The channel and the drive of a minor number ([ata_read] (kernel/drivers/pc/ata.c, lines
    294-297)). *)
Definition channel_of (minor_ : Z) : nat := if 2 <=? minor_ mod 4 then ATA_SECONDARY else ATA_PRIMARY.
Definition drive_of (minor_ : Z) : Z := minor_ mod 2.

(** [ata_read] (kernel/drivers/pc/ata.c, lines 285-382): the number of blocks, and their bytes. *)
Definition ata_read (drv minor_ count lba : Z) : KA (Z * list Z) :=
  if drv =? 0 then mret (- ENODEV, [])
  else
    lock_in transfer_lock set_transfer_lock drv;;
    '(n, bytes) ← read_blocks (S (Z.to_nat count)) drv (channel_of minor_) (drive_of minor_) count lba 0 [];
    unlock_in transfer_lock set_transfer_lock drv;;
    mret (s64 n, bytes).

(** [ata_write] (kernel/drivers/pc/ata.c, lines 392-396). *)
Definition ata_write (drv minor_ : Z) (buffer : list Z) (count lba : Z) : KA (Z * list Z) := mret (- ENOSYS, []).

(** ** Identification *)

(** What was in memory that is not initialised: the buffer on the stack, a new controller, and
    a region for DMA. *)
Context (junk : Z → Z) (junk_space : list Z) (junk_controller : Z → pci_ide_dev_t) (junk_dma : Z → list Z).

(** A drive of the controller; the driver's index may lie outside of the object. *)
Definition change_device (controller : Z) (i : nat) (f : ide_dev_t → ide_dev_t) : KA unit :=
  c ← load (T := pci_ide_dev_t) controller;
  d ← lift (of_option (ide_devices c !! i));
  change controller (λ c, set_ide_devices (<[i := f d]> (ide_devices c)) c).

(** The loop that waits for the data ([ide_identify] (kernel/drivers/pc/ata.c, lines 425-445)):
    whether there are any. *)
Fixpoint poll_data (n : nat) (controller : Z) (ch : nat) : KA bool :=
  match n with
  | O => kstop NoFuel
  | S n =>
      status ← ide_read controller ch ATA_REG_STATUS;
      if negb (Z.land status ATA_SR_ERR =? 0) then mret false
      else if (Z.land status ATA_SR_BSY =? 0) && negb (Z.land status ATA_SR_DRQ =? 0) then mret true
      else poll_data n controller ch
  end.

(** Words in the memory of the processor. *)
Definition word_bytes (ws : list Z) : list Z := ws ≫= λ w, [Z.land w 0xff; Z.shiftr w 8].

(** The bytes of the model, swapped in pairs ([ide_identify] (kernel/drivers/pc/ata.c, lines
    472-476)). *)
Fixpoint swap_pairs (l : list Z) : list Z :=
  match l with a :: b :: l => b :: a :: swap_pairs l | _ => [] end.

(** Spaces at the end are cut ([ide_identify] (kernel/drivers/pc/ata.c, lines 477-485)). *)
Fixpoint cut_spaces (i : nat) (m : list Z) : list Z :=
  let c := m !!! i in
  if negb (c =? 32) && negb (c =? 0) then m
  else
    let m := if c =? 32 then <[i := 0]> m else m in
    match i with O => m | S i => cut_spaces i m end.

(** The entry of a drive ([ide_identify] (kernel/drivers/pc/ata.c, lines 460-486)). *)
Definition identified (ch : nat) (drive : Z) (idspace : list Z) (d : ide_dev_t) : ide_dev_t :=
  let sets := le_field idspace 164 4 in
  {| ide_present := 1; dv_channel := Z.of_nat ch; dv_drive := drive; dv_type := dv_type d;
     signat := le_field idspace 0 2; capa := le_field idspace 98 2; cmd_sets := sets;
     sectors := if negb (Z.land sets (BIT 26) =? 0) then le_field idspace 200 4 else le_field idspace 120 4;
     model := <[40%nat := 0]> (cut_spaces 40 (overwritten (swap_pairs (slice 54 40 idspace)) (model d))) |}.

(** [ide_identify] (kernel/drivers/pc/ata.c, lines 405-487).  [ide_device] points to the entry of
    the drive and is indexed with the number of the drive once more. *)
Definition ide_identify (controller : Z) (ch : nat) (drive : Z) : KA unit :=
  let drv_id := (ch * 2 + Z.to_nat drive)%nat in
  change_device controller drv_id (set_ide_present 0);;
  ide_write controller ch ATA_REG_HDDEVSEL (Z.lor 0xa0 (Z.shiftl drive 4));;
  ide_write controller ch ATA_REG_COMMAND ATA_CMD_IDENTIFY;;
  status ← ide_read controller ch ATA_REG_STATUS;
  if status =? 0 then mret tt
  else
    ok ← poll_data TURNS controller ch;
    if negb ok then mret tt
    else
      status ← ide_read controller ch ATA_REG_STATUS;
      c ← channel controller ch;
      words ← (if Z.land status ATA_SR_ERR =? 0 then repinsw (u16 (base c + ATA_REG_DATA)) 256 else mret []);
      change_device controller (drv_id + drv_id) (identified ch drive (overwritten (word_bytes words) junk_space)).

(** [ata_setup_dma] (kernel/drivers/pc/ata.c, lines 508-522): the region becomes a descriptor and
    the buffer behind it. *)
Definition ata_setup_dma (controller : Z) (ch : nat) : KA unit :=
  cur ← gets current_task;
  phys_buffer ← on_pages (alloc_dma_region cur);
  let virt := phys_to_virt phys_buffer in
  put (virt + 512) {| dma_bytes := junk_dma virt |};;
  change_channel controller ch (set_prdt virt);;
  put virt {| prd_buffer := u32 (phys_buffer + 512); prd_bytes := u16 (junk virt); last_entry := 1 |};;
  c ← channel controller ch;
  outl (u16 (busmaster c + DMA_ADDR)) (u32 phys_buffer).

(** ** Registration *)

(** The addresses of the functions and drivers, and what the block layer needs. *)
Context (ATA_READ ATA_WRITE ATA_PROBE ATA_IRQ ATA_BD_DRIVER ATA_PCI_DRIVER PARTSCAN_DRV : Z)
  (channel_addr : Z → nat → Z) (junk_mbr : list Z).

(** [ata_bd_driver] (kernel/drivers/pc/ata.c, lines 498-506). *)
Definition ata_bd_driver : bd_driver_t :=
  {| bd_ops := {| readblk := other_fn ATA_READ; writeblk := other_fn ATA_WRITE |}; major := 0 |}.
(** [ata_pci_ids] (kernel/drivers/pc/ata.c, lines 626-630). *)
Definition ata_pci_ids : list pci_idpair_t :=
  [ {| vendor := 0x8086; pci_device := 0x7111 |}; {| vendor := 0x8086; pci_device := 0x7010 |};
    {| vendor := 0; pci_device := 0 |} ].
(** [ata_pci_driver] (kernel/drivers/pc/ata.c, lines 633-637). *)
Definition ata_pci_driver : pci_driver_t := {| drv_devices := ata_pci_ids; probe := ATA_PROBE |}.

(** The calls of the block layer. *)
Definition ata_blk : BlockDrivers A F := {|
  other_blk fn data minor_ buffer count lba :=
    if fn =? ATA_READ then ata_read data minor_ count lba
    else if fn =? ATA_WRITE then ata_write data minor_ buffer count lba
    else kstop Fault |}.

(** A base address register that is not set stands for the port of the PC
    ([ata_probe] (kernel/drivers/pc/ata.c, lines 540-543)). *)
Definition bar_or (bar default : Z) : Z := if (bar =? 0) || (bar =? 1) then default else bar.
Definition bar_port (bar : Z) : Z := Z.land bar 0xfffffffc.

(** Whether the controller has a drive. *)
Definition has_drive (controller : Z) (i : nat) : KA bool :=
  c ← load (T := pci_ide_dev_t) controller;
  d ← lift (of_option (ide_devices c !! i)); mret (negb (ide_present d =? 0)).

(** A channel with a drive gets its interrupt and its buffer ([ata_probe]
    (kernel/drivers/pc/ata.c, lines 575-581)). *)
Definition setup_channel (controller : Z) (ch : nat) (irq_ : Z) : KA unit :=
  a ← has_drive controller (ch * 2);
  b ← (if (a : bool) then mret true else has_drive controller (ch * 2 + 1));
  when b (irq_subscribe irq_ ATA_IRQ (channel_addr controller ch);; ata_setup_dma controller ch).

(** The block device of a drive ([ata_probe] (kernel/drivers/pc/ata.c, lines 598-619)). *)
Definition register_drive (controller : Z) (i : nat) : KA unit :=
  p ← has_drive controller i;
  when p
    (disk ← new 64;
     c ← load (T := pci_ide_dev_t) controller;
     d ← lift (of_option (ide_devices c !! i));
     put disk {| minor := u64 (minor_base c + Z.of_nat i); capacity := sectors d; driver := ATA_BD_DRIVER;
                 bd_data := controller; bd_name := [104; 100; 100; 48 + Z.of_nat i] |};;
     bd_register (BD := ata_blk) PARTSCAN_DRV junk junk_mbr 2 disk).

(** The channels of a new controller ([ata_probe] (kernel/drivers/pc/ata.c, lines 555-560)). *)
Definition set_channels (bar0 bar1 bar2 bar3 bar4 : Z) (c : pci_ide_dev_t) : pci_ide_dev_t :=
  set_ide_channels (alter (set_ports (u16 (bar_port bar0)) (u16 (bar_port bar1)) (u16 (bar_port bar4))) ATA_PRIMARY
    (alter (set_ports (u16 (bar_port bar2)) (u16 (bar_port bar3)) (u16 (bar_port bar4 + 8))) ATA_SECONDARY (ide_channels c))) c.

(** [ata_probe] (kernel/drivers/pc/ata.c, lines 524-622). *)
Definition ata_probe (device : Z) : KA Z :=
  bar0 ← pci_get_bar device 0;
  bar1 ← pci_get_bar device 1;
  bar2 ← pci_get_bar device 2;
  bar3 ← pci_get_bar device 3;
  bar4 ← pci_get_bar device 4;
  pci_enable_busmaster device;;
  controller ← new 416;
  '(m, n) ← gets (λ k, atomic_add (ata_minors (ata (k_fs k))) 4);
  modify (λ k, set_k_fs (set_ata (set_ata_minors n (ata (k_fs k))) (k_fs k)) k);;
  lock ← lift (mutex_init (transfer_lock (junk_controller controller)));
  put controller
    (set_channels (bar_or bar0 0x1f0) (bar_or bar1 0x3f6) (bar_or bar2 0x170) (bar_or bar3 0x376) bar4
      (set_transfer_lock lock (set_minor_base m (junk_controller controller))));;
  ide_write controller ATA_PRIMARY ATA_REG_CONTROL 2;;
  ide_write controller ATA_SECONDARY ATA_REG_CONTROL 2;;
  ide_identify controller ATA_PRIMARY ATA_MASTER;;
  ide_identify controller ATA_PRIMARY ATA_SLAVE;;
  ide_identify controller ATA_SECONDARY ATA_MASTER;;
  ide_identify controller ATA_SECONDARY ATA_SLAVE;;
  setup_channel controller ATA_PRIMARY IRQ_ATA_PRIM;;
  setup_channel controller ATA_SECONDARY IRQ_ATA_SEC;;
  ide_write controller ATA_PRIMARY ATA_REG_CONTROL 0;;
  ide_write controller ATA_SECONDARY ATA_REG_CONTROL 0;;
  register_drive controller 0;;
  register_drive controller 1;;
  register_drive controller 2;;
  mret controller.

(** The calls of the PCI bus. *)
Definition ata_probes : PciDrivers A F :=
  {| call_pci_probe fn device := if fn =? ATA_PROBE then ata_probe device else kstop Fault |}.

(** [pc_ata_init] (kernel/drivers/pc/ata.c, lines 639-650). *)
Definition pc_ata_init : KA unit :=
  m ← bd_register_driver ATA_BD_DRIVER;
  modify (λ k, set_k_fs (set_ata (set_ata_major m (ata (k_fs k))) (k_fs k)) k);;
  pci_register_driver (PD := ata_probes) ATA_PCI_DRIVER.
End operations.

(** ** What a controller is told *)

(** The values that were written to a port, the newest first; the registers of the task file
    keep two. *)
Definition written (port : Z) (out : list (Z * Z)) : list Z := (filter (λ w, w.1 = port) out).*2.
Definition newest (port : Z) (out : list (Z * Z)) : Z := default 0 (head (written port out)).
Definition previous (port : Z) (out : list (Z * Z)) : Z := default 0 (head (tail (written port out))).

(** The sector, the number of sectors and the drive of a command for addresses of 48 bits. *)
Definition request_lba (b : Z) (out : list (Z * Z)) : Z :=
  newest (b + 3) out + newest (b + 4) out * 2 ^ 8 + newest (b + 5) out * 2 ^ 16 +
  previous (b + 3) out * 2 ^ 24 + previous (b + 4) out * 2 ^ 32 + previous (b + 5) out * 2 ^ 40.
Definition request_count (b : Z) (out : list (Z * Z)) : Z := newest (b + 2) out + previous (b + 2) out * 2 ^ 8.
Definition request_drive (b : Z) (out : list (Z * Z)) : Z := newest (b + 6) out / 16 mod 2.
(** Such a read was commanded, with addresses of sectors and not of cylinders, and the transfer
    to memory started. *)
Definition started (b bm : Z) (out : list (Z * Z)) : Prop :=
  newest (b + 7) out = ATA_CMD_READ_DMA_EXT ∧ newest bm out = 9 ∧ Z.testbit (newest (b + 6) out) 6 = true.

Lemma written_cons p q v out : written p ((q, v) :: out) = if decide (q = p) then v :: written p out else written p out.
Proof. unfold written. rewrite filter_cons. simpl. by destruct (decide (q = p)). Qed.
Lemma newest_eq p v out : newest p ((p, v) :: out) = v.
Proof. unfold newest. rewrite written_cons. by rewrite decide_True. Qed.
Lemma newest_ne p q v out : q ≠ p → newest p ((q, v) :: out) = newest p out.
Proof. intros. unfold newest. rewrite written_cons. by rewrite decide_False. Qed.
Lemma previous_eq p v out : previous p ((p, v) :: out) = newest p out.
Proof. unfold previous. rewrite written_cons. by rewrite decide_True. Qed.
Lemma previous_ne p q v out : q ≠ p → previous p ((q, v) :: out) = previous p out.
Proof. intros. unfold previous. rewrite written_cons. by rewrite decide_False. Qed.

(** The two registers of a byte pair, from the log of a transfer. *)
Ltac told :=
  repeat first [rewrite newest_eq | rewrite previous_eq | rewrite newest_ne by lia | rewrite previous_ne by lia].

(** A number of 48 bits from its bytes. *)
Lemma bytes_48 x :
  0 <= x < 2 ^ 48 →
  Z.land x 0xff + Z.land (Z.shiftr x 8) 0xff * 2 ^ 8 + Z.land (Z.shiftr x 16) 0xff * 2 ^ 16 +
  Z.land (Z.shiftr x 24) 0xff * 2 ^ 24 + Z.land (Z.shiftr x 32) 0xff * 2 ^ 32 + Z.land (Z.shiftr x 40) 0xff * 2 ^ 40 = x.
Proof.
  intros Hx. change 0xff with (Z.ones 8). rewrite !Z.land_ones by done. rewrite !Z.shiftr_div_pow2 by done.
  change (x / 2 ^ 16) with (x / (2 ^ 8 * 2 ^ 8)). change (x / 2 ^ 24) with (x / (2 ^ 8 * 2 ^ 8 * 2 ^ 8)).
  change (x / 2 ^ 32) with (x / (2 ^ 8 * 2 ^ 8 * 2 ^ 8 * 2 ^ 8)).
  change (x / 2 ^ 40) with (x / (2 ^ 8 * 2 ^ 8 * 2 ^ 8 * 2 ^ 8 * 2 ^ 8)).
  rewrite <- !Z.div_div by done. change (2 ^ 48) with 281474976710656 in Hx.
  change (2 ^ 40) with 1099511627776. change (2 ^ 32) with 4294967296. change (2 ^ 24) with 16777216.
  change (2 ^ 16) with 65536. change (2 ^ 8) with 256. zdiv.
Qed.

(** What the log of a transfer amounts to. *)
Definition transfer_log (b bm drive n lba : Z) : list (Z * Z) :=
  [ (bm, 9); (b + 7, ATA_CMD_READ_DMA_EXT);
    (b + 5, Z.land (Z.shiftr lba 16) 0xff); (b + 4, Z.land (Z.shiftr lba 8) 0xff); (b + 3, Z.land lba 0xff); (b + 2, Z.land n 0xff);
    (b + 5, Z.land (Z.shiftr lba 40) 0xff); (b + 4, Z.land (Z.shiftr lba 32) 0xff); (b + 3, Z.land (Z.shiftr lba 24) 0xff);
    (b + 2, u8 (Z.shiftr n 8)); (b + 6, u8 (Z.lor 0xe0 (Z.shiftl drive 4))) ].

(** The ports of a channel. *)
Record ports_ok (b bm : Z) : Prop := {
  po_base : 0 <= b ∧ b + 7 < 2 ^ 16;
  po_busmaster : 0 <= bm ∧ bm + 7 < 2 ^ 16;
  po_apart : b + 7 < bm ∨ bm + 7 < b;
}.

Lemma transfer_log_request b bm drive n lba out :
  ports_ok b bm → drive = 0 ∨ drive = 1 → 0 <= n < 2 ^ 8 → 0 <= lba < 2 ^ 48 →
  let log := transfer_log b bm drive n lba ++ out in
  started b bm log ∧ request_lba b log = lba ∧ request_count b log = n ∧ request_drive b log = drive ∧
  newest (bm + 4) log = newest (bm + 4) out.
Proof.
  intros [Hb Hm Hap] Hd Hn Hl log. subst log. unfold transfer_log, started, request_lba, request_count, request_drive. cbn [app].
  told. split_and!; try done.
  - by destruct Hd as [-> | ->].
  - transitivity (Z.land lba 0xff + Z.land (Z.shiftr lba 8) 0xff * 2 ^ 8 + Z.land (Z.shiftr lba 16) 0xff * 2 ^ 16 +
      Z.land (Z.shiftr lba 24) 0xff * 2 ^ 24 + Z.land (Z.shiftr lba 32) 0xff * 2 ^ 32 + Z.land (Z.shiftr lba 40) 0xff * 2 ^ 40).
    + lia.
    + by apply bytes_48.
  - change 0xff with (Z.ones 8). rewrite Z.land_ones, Z.shiftr_div_pow2 by done. rewrite (Z.mod_small n), (Z.div_small n) by done. change (u8 0) with 0. lia.
  - by destruct Hd as [-> | ->].
Qed.

(** A read or a wait changes what the driver does not see. *)
Definition device_moves {A F} `{AtaState F} (k k' : Kernel.kernel A F) : Prop :=
  ∃ f, k' = set_k_fs f k ∧ ata f = ata (k_fs k).

(** The status register is read until it is not busy, [n] times. *)
Inductive polled {A F} `{AtaState F} `{Ports A F} (port : Z) : nat → Kernel.kernel A F → Kernel.kernel A F → Prop :=
  | polled_ready k v k' :
      inb port k = Ok (v, k') → Z.land v ATA_SR_BSY = 0 → device_moves k k' → polled port 1 k k'
  | polled_again n k v k1 k' :
      inb port k = Ok (v, k1) → Z.land v ATA_SR_BSY ≠ 0 → device_moves k k1 → polled port n k1 k' →
      polled port (S n) k k'.

Lemma poll_busy_spec {A F} `{AtaState F} `{Ports A F} port n fuel (k k' : Kernel.kernel A F) :
  polled port n k k' → (n <= fuel)%nat → poll_busy fuel port k = Ok (tt, k') ∧ device_moves k k'.
Proof.
  intros Hp. revert fuel. induction Hp as [k v k' Hi Hv Hm|n k v k1 k' Hi Hv Hm Hp IH]; intros fuel Hf;
    (destruct fuel as [|fuel]; [lia|]); cbn [poll_busy]; kstep Hi.
  - by rewrite (proj2 (Z.eqb_eq _ 0)).
  - rewrite (proj2 (Z.eqb_neq _ 0)) by done. destruct (IH fuel ltac:(lia)) as [Hk' (f & -> & Hf')]. split; [done|].
    destruct Hm as (f1 & -> & Hf1). exists f. split; [done|]. by rewrite Hf'.
Qed.

(** While the controller is locked, others leave it and its ports alone. *)
Record undisturbed {A F} `{AtaState F} (controller b bm : Z) (k k' : Kernel.kernel A F) : Prop := {
  ud_controller : objs (T := pci_ide_dev_t) k' !! controller = objs (T := pci_ide_dev_t) k !! controller;
  ud_prds : objs (T := region_desc_t) k' = objs (T := region_desc_t) k;
  ud_current : current_task k' = current_task k;
  ud_task : is_Some (k_tasks k !! current_task k) → is_Some (k_tasks k' !! current_task k);
  ud_ports p : b <= p <= b + 7 ∨ bm <= p <= bm + 7 → written p (k_out k') = written p (k_out k);
}.

(** Sectors one after the other. *)
Definition sectors_from (sector : Z → list Z) (lba : Z) (n : nat) : list Z := (seqZ lba (Z.of_nat n)) ≫= sector.

(** The behaviour of IDE disks: the bytes of their sectors, and the sectors that cannot be read.
    Reading a port gives a byte; a disk is busy for some time only; a command for addresses of 48
    bits with a descriptor of its size, and a buffer inside 64 KiB, ends with an interrupt, and
    then the buffer holds the sectors, or the status shows an error. *)
Class AtaDisk (A F : Type) `{AS : AtaState F} `{IO : Ports A F} `{OT : Others A F} := {
  (* the interrupt of the disk at two base ports is that of a channel of a controller *)
  ide_ports : Z → nat → Z → Z → Prop;
  sector : Z → Z → Z → list Z;
  bad : Z → Z → Z → bool;
  ready_limit : nat;
  ended : Z → bool → Kernel.kernel A F → Prop;
  sector_length b d l : length (sector b d l) = 512%nat;
  inb_byte p (k : Kernel.kernel A F) : ∃ v k', inb p k = Ok (v, k') ∧ 0 <= v < 256 ∧ device_moves k k';
  busy_ends controller ch b bm (k : Kernel.kernel A F) : ide_ports controller ch b bm → ∃ n k', (n <= ready_limit)%nat ∧ polled (b + 7) n k k';
  ended_status b ok (k : Kernel.kernel A F) :
    ended b ok k → ∃ v k', inb (b + 7) k = Ok (v, k') ∧ device_moves k k' ∧
      (negb (Z.land v ATA_SR_ERR =? 0) || negb (Z.land v ATA_SR_DF =? 0)) = negb ok;
  ended_stable b ok (k k' : Kernel.kernel A F) :
    ended b ok k → (∃ a, k_fs k' = set_ata a (k_fs k)) → written (b + 7) (k_out k') = written (b + 7) (k_out k) → ended b ok k';
  dma_ends controller ch b bm (k : Kernel.kernel A F) prd d lba n :
    ide_ports controller ch b bm → started b bm (k_out k) →
    request_drive b (k_out k) = d → request_lba b (k_out k) = lba → request_count b (k_out k) = n → 1 <= n → lba + n <= 2 ^ 48 →
    objs (T := region_desc_t) k !! phys_to_virt (newest (bm + 4) (k_out k)) = Some prd →
    prd_bytes prd = n * 512 → last_entry prd = 1 → prd_buffer prd / 2 ^ 16 = (prd_buffer prd + prd_bytes prd - 1) / 2 ^ 16 →
    ∃ k1 v k1', undisturbed controller b bm k k1 ∧
      inb (bm + 2) k1 = Ok (v, k1') ∧ Z.land v DMA_STAT_IRQ ≠ 0 ∧ device_moves k1 k1' ∧
      ∀ k2, ata_irq controller ch k1 = Ok (tt, k2) →
        ∃ k3 ok, elsewhere k = Ok (tt, k3) ∧ undisturbed controller b bm k2 k3 ∧ irq_ongoing k3 = false ∧ ended b ok k3 ∧
          ok = forallb (λ l, negb (bad b d l)) (seqZ lba n) ∧
          (ok = true → ∃ m, objs (T := dma_t) k3 !! phys_to_virt (prd_buffer prd) = Some m ∧
             take (Z.to_nat (n * 512)) (dma_bytes m) = sectors_from (sector b d) lba (Z.to_nat n));
}.

(** ** Reading *)

Section reading.
Context {A F : Type} `{B : Build} `{AS : AtaState F} `{IO : Ports A F} `{OT : Others A F} {AD : AtaDisk A F}.
Abbreviation kernel := (Kernel.kernel A F).
Implicit Types k : kernel.
Context (controller : Z) (ch : nat) (b bm phys : Z).

(** The controller while it is locked: the channel with its region of memory. *)
Record ready k (c : pci_ide_dev_t) (chan : ide_channel_t) (prd : region_desc_t) : Prop := {
  rd_controller : objs (T := pci_ide_dev_t) k !! controller = Some c;
  rd_channel : ide_channels c !! ch = Some chan;
  rd_base : base chan = b;
  rd_busmaster : busmaster chan = bm;
  rd_prdt : prdt chan = phys_to_virt phys;
  rd_prd : objs (T := region_desc_t) k !! phys_to_virt phys = Some prd;
  rd_buffer : prd_buffer prd = phys + 512;
  rd_last : last_entry prd = 1;
  rd_addr : newest (bm + 4) (k_out k) = phys;
  rd_task : is_Some (k_tasks k !! current_task k);
}.

(** The region was set up, and the ports are those of a disk. *)
Record channel_ok : Prop := {
  co_ports : ports_ok b bm;
  co_wired : ide_ports controller ch b bm;
  co_phys : phys mod 2 ^ 16 = 0 ∧ 0 <= phys ∧ phys + 2 ^ 16 <= 2 ^ 32;
}.

Lemma channel_Ok k c chan prd : ready k c chan prd → channel controller ch k = Ok (chan, k).
Proof.
  intros []. unfold channel. kstep (load_Ok (O := controller_object) controller c k rd_controller0).
  unfold lift, of_option. by rewrite rd_channel0.
Qed.

(** The lock is another field. *)
Lemma locked_ready k c chan prd l :
  ready k c chan prd →
  ready (set_objs (<[controller := set_transfer_lock l c]> (objs k)) k) (set_transfer_lock l c) chan prd ∧
  transfer_lock (set_transfer_lock l c) = l.
Proof. intros []. split; [|done]. split; try done; cbn; rewrite ?ata_set; cbn; rewrite ?lookup_insert_eq; done. Qed.

(** A change of the channel that keeps its addresses. *)
Definition keeps (f : ide_channel_t → ide_channel_t) : Prop :=
  ∀ x, base (f x) = base x ∧ busmaster (f x) = busmaster x ∧ prdt (f x) = prdt x.

Lemma change_channel_Ok k c chan prd f :
  ready k c chan prd → keeps f →
  ∃ k', change_channel controller ch f k = Ok (tt, k') ∧
    ready k' (set_ide_channels (alter f ch (ide_channels c)) c) (f chan) prd ∧
    k_out k' = k_out k ∧ current_task k' = current_task k ∧ irq_ongoing k' = irq_ongoing k.
Proof.
  intros [] Hf. unfold change_channel. rewrite (change_Ok (O := controller_object) _ _ _ _ rd_controller0).
  eexists. split; [done|]. destruct (Hf chan) as (Hb & Hm & Hp). split_and!; try done.
  split; cbn; rewrite ?ata_set; cbn; rewrite ?lookup_insert_eq; try done; [|congruence..].
  by rewrite list_lookup_alter_eq, rd_channel0.
Qed.

Lemma outb_ready k c chan prd p v : ready k c chan prd → p ≠ bm + 4 → ready (set_k_out ((p, v) :: k_out k) k) c chan prd.
Proof. intros [] Hp. split; try done. cbn. by rewrite newest_ne. Qed.

Lemma moves_ready k k' c chan prd :
  ready k c chan prd → device_moves k k' →
  ready k' c chan prd ∧ k_out k' = k_out k ∧ current_task k' = current_task k ∧ irq_ongoing k' = irq_ongoing k.
Proof.
  intros [] (f & -> & Hf). split; [|done]. split; try done; cbn in *; by rewrite Hf.
Qed.

Lemma K_bind_outb {Y} p v (g : unit → K kernel Y) k : (outb p v ≫= g) k = g tt (set_k_out ((p, v) :: k_out k) k).
Proof. done. Qed.
Lemma u16_port p : 0 <= p < 2 ^ 16 → u16 p = p.
Proof. intros. by apply uwrap_small. Qed.

Lemma prepare_dma_spec k c chan prd n :
  channel_ok → ready k c chan prd → 0 <= n < 128 →
  ∃ k' c' chan' prd' v, prepare_dma controller ch n k = Ok (tt, k') ∧ ready k' c' chan' prd' ∧
    prd_bytes prd' = n * 512 ∧ data_ready chan' = 0 ∧ signal_task chan' = current_task k ∧ current_task k' = current_task k ∧
    transfer_lock c' = transfer_lock c ∧
    irq_ongoing k' = irq_ongoing k ∧ k_out k' = (bm + 2, v) :: (bm, 8) :: k_out k.
Proof.
  intros [[Hb Hm Hap] _ _] Hr Hn. unfold prepare_dma. kstep (channel_Ok k c chan prd Hr).
  assert (prdt chan = phys_to_virt phys) as Hp by apply Hr. rewrite Hp.
  kstep (change_Ok (O := prd_object) (phys_to_virt phys) (set_prd_bytes (u16 (n * 512))) k prd (rd_prd _ _ _ _ Hr)).
  rewrite (uwrap_small 16 (n * 512)) by (unfold is_word; change (2 ^ 16) with 65536; lia).
  set (k1 := set_objs _ k). set (prd1 := set_prd_bytes (n * 512) prd).
  assert (ready k1 c chan prd1) as Hr1.
  { destruct Hr. split; try done; unfold k1; cbn in *; rewrite ?ata_set; cbn; rewrite ?lookup_insert_eq; done. }
  destruct (change_channel_Ok k1 c chan prd1 (set_data_ready 0) Hr1 ltac:(done)) as (k2 & Hc2 & Hr2 & Ho2 & Ht2 & Hi2).
  kstep Hc2. kpure. destruct (change_channel_Ok k2 _ _ prd1 (set_signal_task (current_task k2)) Hr2 ltac:(done))
    as (k3 & Hc3 & Hr3 & Ho3 & Ht3 & Hi3). kstep Hc3.
  assert (busmaster chan = bm) as Hbm by apply Hr. rewrite Hbm.
  unfold DMA_CMD, DMA_STAT. rewrite Z.add_0_r, !u16_port by (change (2 ^ 16) with 65536 in *; lia).
  rewrite K_bind_outb. cbv beta. pose proof (outb_ready _ _ _ _ bm 8 Hr3 ltac:(lia)) as Hr4.
  set (k4 := set_k_out _ k3) in Hr4. change (set_k_out _ k3) with k4.
  destruct (inb_byte (bm + 2) k4) as (v & k5 & Hi & _ & Hmv). kstep Hi.
  destruct (moves_ready _ _ _ _ _ Hr4 Hmv) as (Hr5 & Ho5 & Ht5 & Hi5). unfold outb, modify.
  eexists _, _, _, _, _. split; [reflexivity|]. split; [apply outb_ready; [exact Hr5|lia]|].
  split_and!; try done.
  - cbn. rewrite Ht5. cbn. by rewrite Ht3, Ht2.
  - cbn. rewrite Hi5. cbn. by rewrite Hi3, Hi2.
  - cbn. rewrite Ho5. cbn. by rewrite Ho3, Ho2.
Qed.

Lemma undisturbed_ready k k' c chan prd :
  ready k c chan prd → ports_ok b bm → undisturbed controller b bm k k' → ready k' c chan prd.
Proof.
  intros [] [Hb Hm Hap] [Hc Hp Ht Hk Hw]. split; try done; try congruence.
  - unfold newest in *. by rewrite Hw by lia.
  - rewrite Ht. by apply Hk.
Qed.

Lemma task_file_spec drive n lba k :
  ports_ok b bm →
  ∃ log, task_file b drive n lba k = Ok (tt, set_k_out (log ++ k_out k) k) ∧
    transfer_log b bm drive n lba = (bm, 9) :: (b + 7, ATA_CMD_READ_DMA_EXT) :: log ∧
    Forall (λ w, w.1 ≠ bm + 4) log.
Proof.
  intros [Hb Hm Hap]. unfold task_file.
  unfold ATA_REG_HDDEVSEL, ATA_REG_SECCOUNT0, ATA_REG_LBA0, ATA_REG_LBA1, ATA_REG_LBA2. rewrite !u16_port by lia.
  eexists. split; [|split; [reflexivity|]].
  - do 8 (rewrite K_bind_outb; cbv beta). reflexivity.
  - repeat (constructor; [simpl; lia|]). constructor.
Qed.

Lemma log_ready k c chan prd log :
  ready k c chan prd → Forall (λ w, w.1 ≠ bm + 4) log → ready (set_k_out (log ++ k_out k) k) c chan prd.
Proof.
  intros [] Hl. split; try done. cbn. induction Hl as [|[q v] l Hq _ IH]; [done|]. cbn [app]. by rewrite newest_ne.
Qed.

(** The handler of the interrupt. *)
Lemma ata_irq_spec k c chan prd v k1 :
  ports_ok b bm → ready k c chan prd → signal_task chan = current_task k →
  inb (bm + 2) k = Ok (v, k1) → Z.land v DMA_STAT_IRQ ≠ 0 → device_moves k k1 →
  ∃ k' c' chan', ata_irq controller ch k = Ok (tt, k') ∧ ready k' c' chan' prd ∧ data_ready chan' = 1 ∧
    transfer_lock c' = transfer_lock c ∧ current_task k' = current_task k.
Proof.
  intros [Hb Hm Hap] Hr Hs Hi Hv Hmv. unfold ata_irq. kstep (channel_Ok k c chan prd Hr).
  rewrite (rd_busmaster _ _ _ _ Hr). unfold DMA_STAT. rewrite u16_port by lia. kstep Hi.
  destruct (moves_ready _ _ _ _ _ Hr Hmv) as (Hr1 & Ho1 & Ht1 & _). rewrite K_bind_outb. cbv beta.
  pose proof (outb_ready _ _ _ _ (bm + 2) 4 Hr1 ltac:(lia)) as Hr2. rewrite (proj2 (Z.eqb_neq _ 0)) by done. cbn [negb when].
  destruct (change_channel_Ok _ _ _ prd (set_data_ready 1) Hr2 ltac:(done)) as (k3 & Hc3 & Hr3 & _ & Ht3 & _). kstep Hc3.
  destruct (change_channel_Ok _ _ _ prd (set_irq_status v) Hr3 ltac:(done)) as (k4 & Hc4 & Hr4 & _ & Ht4 & _). kstep Hc4.
  kstep (channel_Ok _ _ _ _ Hr4). unfold irq_signal. cbn [signal_task set_irq_status set_data_ready].
  assert (current_task k4 = current_task k) as Ht by (rewrite Ht4, Ht3; cbn; exact Ht1).
  destruct (rd_task _ _ _ _ Hr4) as [tk Htk]. rewrite Ht in Htk. rewrite Hs, (change_Ok (O := task_object) _ _ _ _ Htk).
  eexists _, _, _. split; [reflexivity|]. split; [|split_and!; [| |exact Ht]].
  - destruct Hr4. split; try done. cbn. rewrite Ht. rewrite lookup_insert_eq. by eexists.
  - done.
  - done.
Qed.

Lemma virt_512 : 0 <= phys → phys + 2 ^ 16 <= 2 ^ 32 → phys_to_virt (phys + 512) = phys_to_virt phys + 512.
Proof.
  intros H0 H1. unfold phys_to_virt, IDENT_OFFSET. change (2 ^ 16) with 65536 in H1. change (2 ^ 32) with 4294967296 in H1.
  rewrite !uwrap_small; unfold is_word; change (2 ^ 64) with 18446744073709551616; lia.
Qed.

Context (TURNS : nat).

(** The outcome of a transfer of [n] blocks. *)
Record transferred k c (drive lba n : Z) k' (ok : bool) : Prop := {
  tr_ready : ∃ c' chan' prd', ready k' c' chan' prd' ∧ transfer_lock c' = transfer_lock c;
  tr_current : current_task k' = current_task k;
  tr_ongoing : irq_ongoing k' = false;
  tr_ok : ok = forallb (λ l, negb (bad b drive l)) (seqZ lba n);
  tr_data : ok = true → ∃ m, objs (T := dma_t) k' !! (phys_to_virt phys + 512) = Some m ∧
    take (Z.to_nat (n * 512)) (dma_bytes m) = sectors_from (sector b drive) lba (Z.to_nat n);
}.

(** The task sleeps until the interrupt, and finds the channel ready. *)
Lemma wait_ready_spec k c chan prd drive n lba log out :
  channel_ok → (2 <= TURNS)%nat → ready k c chan prd → irq_ongoing k = false → data_ready chan = 0 → signal_task chan = current_task k →
  prd_bytes prd = n * 512 → 1 <= n < 128 → drive = 0 ∨ drive = 1 → 0 <= lba → lba + n <= 2 ^ 48 →
  k_out k = log ++ out → log = transfer_log b bm drive n lba →
  ∃ k' ok chan', wait_ready TURNS controller ch k = Ok (tt, k') ∧ transferred k c drive lba n k' ok ∧ ended b ok k' ∧
    channel controller ch k' = Ok (chan', k') ∧ data_ready chan' = 1.
Proof.
  intros [Hp Hw (Hpm & Hp0 & Hp1)] HT Hr Hon Hd Hs Hpb Hn Hdr Hl Hln Hout ->. unfold wait_ready. kpure. rewrite Hon.
  assert (lift (S := kernel) (assert_ (negb false)) k = Ok (tt, k)) as Has by (unfold lift; by rewrite assert_true). kstep Has.
  destruct TURNS as [|[|turns]]; [lia..|]. cbn [wait_turns]. kstep (channel_Ok k c chan prd Hr). rewrite Hd. cbn [Z.eqb]. kpure.
  destruct (rd_task _ _ _ _ Hr) as [tk Htk]. kstep (change_Ok (O := task_object) _ (set_irq_wait true) _ _ Htk).
  set (k1 := set_objs _ k). assert (ready k1 c chan prd) as Hr1.
  { destruct Hr. split; try done. cbn. rewrite lookup_insert_eq. by eexists. }
  destruct (transfer_log_request b bm drive n lba out Hp Hdr ltac:(lia) ltac:(lia)) as (Hst & Hrl & Hrc & Hrd & Hra).
  rewrite <- Hout in Hst, Hrl, Hrc, Hrd, Hra. change (k_out k) with (k_out k1) in Hst, Hrl, Hrc, Hrd, Hra.
  pose proof (rd_addr _ _ _ _ Hr1) as Haddr. pose proof (rd_buffer _ _ _ _ Hr1) as Hbuf.
  destruct (dma_ends controller ch b bm k1 prd drive lba n Hw Hst Hrd Hrl Hrc ltac:(lia) Hln) as (k2 & v & k2' & Hu & Hi & Hv & Hmv & Hirq).
  { rewrite Haddr. apply Hr1. }
  { done. }
  { apply Hr1. }
  { rewrite Hbuf, Hpb. change (2 ^ 16) with 65536 in *. zdiv. }
  pose proof (undisturbed_ready _ _ _ _ _ Hr1 Hp Hu) as Hr2.
  destruct (ata_irq_spec k2 c chan prd v k2' Hp Hr2) as (k3 & c3 & chan3 & Hcall & Hr3 & Hd3 & Hl3 & Ht3); [|done..|].
  { by rewrite (ud_current _ _ _ _ _ Hu). }
  destruct (Hirq k3 Hcall) as (k4 & ok & Hels & Hu4 & Hon4 & Hend & Hok & Hdata). kstep Hels.
  pose proof (undisturbed_ready _ _ _ _ _ Hr3 Hp Hu4) as Hr4. pose proof (channel_Ok _ _ _ _ Hr4) as Hch. kstep Hch. rewrite Hd3. cbn [Z.eqb Pos.eqb].
  exists k4, ok, chan3. split; [done|]. split; [|done]. split; try done.
  - by exists c3, chan3, prd.
  - by rewrite (ud_current _ _ _ _ _ Hu4), Ht3, (ud_current _ _ _ _ _ Hu).
  - intros Hg. destruct (Hdata Hg) as (m & Hm & Hb). exists m. by rewrite <- virt_512, <- Hbuf.
Qed.

Lemma poll_ready k c chan prd :
  channel_ok → (ready_limit <= TURNS)%nat → ready k c chan prd →
  ∃ k', poll_busy TURNS (u16 (b + ATA_REG_STATUS)) k = Ok (tt, k') ∧ ready k' c chan prd ∧ k_out k' = k_out k ∧
    current_task k' = current_task k ∧ irq_ongoing k' = irq_ongoing k.
Proof.
  intros [[Hb _ _] Hw _] HT Hr. destruct (busy_ends controller ch b bm k Hw) as (n & k' & Hn & Hp).
  unfold ATA_REG_STATUS. rewrite u16_port by lia. destruct (poll_busy_spec _ _ TURNS _ _ Hp ltac:(lia)) as [Hk Hmv].
  exists k'. split; [done|]. by apply moves_ready.
Qed.

Lemma run_dma_spec k c chan prd drive n lba log out :
  channel_ok → (ready_limit <= TURNS)%nat → (2 <= TURNS)%nat →
  ready k c chan prd → irq_ongoing k = false → data_ready chan = 0 → signal_task chan = current_task k →
  prd_bytes prd = n * 512 → 1 <= n < 128 → drive = 0 ∨ drive = 1 → 0 <= lba → lba + n <= 2 ^ 48 →
  k_out k = log ++ out → transfer_log b bm drive n lba = (bm, 9) :: (b + 7, ATA_CMD_READ_DMA_EXT) :: log →
  ∃ k' ok, run_dma TURNS controller ch k = Ok (tt, k') ∧ transferred k c drive lba n k' ok ∧ ended b ok k'.
Proof.
  intros Hco HL HT Hr Hon Hd Hs Hpb Hn Hdr Hl Hln Hout Hlog. pose proof (co_ports Hco) as [Hb Hm Hap]. unfold run_dma.
  kstep (channel_Ok k c chan prd Hr). rewrite (rd_base _ _ _ _ Hr), (rd_busmaster _ _ _ _ Hr).
  unfold ATA_REG_COMMAND, DMA_CMD. rewrite Z.add_0_r, (u16_port (b + 7)), (u16_port bm) by lia.
  destruct (poll_ready k c chan prd Hco HL Hr) as (k1 & Hp1 & Hr1 & Ho1 & Ht1 & Hi1). kstep Hp1. rewrite K_bind_outb. cbv beta.
  pose proof (outb_ready _ _ _ _ (b + 7) ATA_CMD_READ_DMA_EXT Hr1 ltac:(lia)) as Hr2.
  destruct (poll_ready _ c chan prd Hco HL Hr2) as (k3 & Hp3 & Hr3 & Ho3 & Ht3 & Hi3). kstep Hp3. rewrite K_bind_outb. cbv beta.
  pose proof (outb_ready _ _ _ _ bm 9 Hr3 ltac:(lia)) as Hr4. change (Z.lor DMA_CMD_READ DMA_CMD_START) with 9.
  set (k4 := set_k_out _ k3) in *.
  destruct (wait_ready_spec k4 c chan prd drive n lba (transfer_log b bm drive n lba) out Hco HT Hr4)
    as (k5 & ok & chan5 & Hwr & [(c5 & ch5 & prd5 & Hr5 & Hl5) Ht5 Hon5 Hok5 Hda5] & Hend & Hch & Hdr5); try done.
  { cbn. by rewrite Hi3, <- Hon, <- Hi1. }
  { cbn. rewrite Ht3. cbn. by rewrite Ht1. }
  { rewrite Hlog. cbn [app]. rewrite <- Hout, <- Ho1. change (k_out k4) with ((bm, 9) :: k_out k3). by rewrite Ho3. }
  kstep Hwr. kstep Hch. rewrite Hdr5. rewrite (channel_Ok _ _ _ _ Hr5) in Hch. injection Hch as <-. rewrite (rd_busmaster _ _ _ _ Hr5).
  rewrite Z.add_0_r, (u16_port bm) by lia. assert (lift (S := kernel) (assert_ (negb (1 =? 0))) k5 = Ok (tt, k5)) as Has by (unfold lift; by rewrite assert_true).
  kstep Has. unfold outb, modify. eexists _, ok. split; [reflexivity|]. split.
  - split; try done.
    + exists c5, ch5, prd5. split; [|done]. apply outb_ready; [done|lia].
    + cbn. rewrite Ht5. cbn. rewrite Ht3. done.
  - eapply ended_stable; [exact Hend|exists (ata (k_fs k5)); cbn; by rewrite set_ata_ata|]. cbn [k_out set_k_out]. rewrite written_cons. by rewrite decide_False by lia.
Qed.

(** The blocks of one turn of the loop, or a sector among them cannot be read. *)
Lemma transfer_spec k c chan prd drive n lba :
  channel_ok → (ready_limit <= TURNS)%nat → (2 <= TURNS)%nat →
  ready k c chan prd → irq_ongoing k = false → 1 <= n < 128 → drive = 0 ∨ drive = 1 → 0 <= lba → lba + n <= 2 ^ 48 →
  ∃ k' c' chan' prd', ready k' c' chan' prd' ∧ transfer_lock c' = transfer_lock c ∧ current_task k' = current_task k ∧ irq_ongoing k' = false ∧
    transfer TURNS controller ch drive n lba k =
      Ok (if forallb (λ l, negb (bad b drive l)) (seqZ lba n) then Some (sectors_from (sector b drive) lba (Z.to_nat n)) else None, k').
Proof.
  intros Hco HL HT Hr Hon Hn Hd Hl Hln. unfold transfer. pose proof (co_ports Hco) as Hpo.
  destruct (prepare_dma_spec k c chan prd n Hco Hr ltac:(lia)) as (k1 & c1 & chan1 & prd1 & v & Hp & Hr1 & Hpb & Hdr & Hst & Ht1 & Hl1 & Hi1 & Ho1).
  kstep Hp. kstep (channel_Ok _ _ _ _ Hr1). rewrite (rd_base _ _ _ _ Hr1).
  destruct (task_file_spec drive n lba k1 Hpo) as (log & Htf & Hlog & Hne). kstep Htf.
  pose proof (log_ready _ _ _ _ _ Hr1 Hne) as Hr2. set (k2 := set_k_out _ k1) in *.
  destruct (run_dma_spec k2 c1 chan1 prd1 drive n lba log (k_out k1) Hco HL HT Hr2) as (k3 & ok & Hrun & [(c3 & ch3 & prd3 & Hr3 & Hl3) Ht3 Hon3 Hok3 Hda3] & Hend);
    try done; [cbn; by rewrite Hi1|cbn; by rewrite Hst|].
  kstep Hrun. kstep (channel_Ok _ _ _ _ Hr3). rewrite (rd_base _ _ _ _ Hr3).
  destruct (ended_status b ok k3 Hend) as (s & k4 & Hi & Hmv & Hs). pose proof (moves_ready _ _ _ _ _ Hr3 Hmv) as (Hr4 & Ho4 & Ht4 & Hi4).
  unfold ATA_REG_STATUS. destruct Hpo as [Hb Hm Hap]. rewrite u16_port by lia. kstep Hi. rewrite Hs.
  exists k4, c3, ch3, prd3. split; [done|]. split; [congruence|]. split; [rewrite Ht4, Ht3; done|]. split; [congruence|].
  rewrite <- Hok3. destruct ok; [|done]. cbn [negb]. destruct (Hda3 eq_refl) as (m & Hm3 & Hbytes). rewrite (rd_prdt _ _ _ _ Hr3).
  assert (objs (T := dma_t) k4 !! (phys_to_virt phys + 512) = Some m) as Hm4.
  { destruct Hmv as (f & -> & Hf). cbn in *. by rewrite Hf. }
  kstep (load_Ok (O := dma_object) _ _ _ Hm4). rewrite <- Hbytes.
  assert (n * 512 <= Z.of_nat (length (dma_bytes m))) as Hlen; [|by rewrite (proj2 (Z.ltb_ge _ _))].
  apply (f_equal length) in Hbytes. rewrite length_take in Hbytes.
  assert (length (sectors_from (sector b drive) lba (Z.to_nat n)) = (Z.to_nat n * 512)%nat); [|lia].
  unfold sectors_from. rewrite Z2Nat.id by lia. rewrite <- (length_seqZ lba n). generalize (seqZ lba n). intros l.
  induction l as [|x l IH]; [done|]. rewrite bind_cons, length_app, sector_length, IH. simpl. lia.
Qed.

(** [n] of [count] blocks were read: all of them, or those before a turn with a sector that
    cannot be read. *)
Definition read_until (drive lba count n : Z) : Prop :=
  0 <= n <= count ∧ (∀ l, lba <= l < lba + n → bad b drive l = false) ∧
  (n = count ∨ n mod 127 = 0 ∧ ∃ l, lba + n <= l < lba + Z.min (n + 127) count ∧ bad b drive l = true).

Lemma read_until_more drive lba count n :
  read_until drive (lba + 127) (count - 127) n → 127 < count → (∀ l, lba <= l < lba + 127 → bad b drive l = false) →
  read_until drive lba count (127 + n).
Proof.
  intros (Hn & Hg & Hs) Hc Hf. split; [lia|]. split.
  - intros l Hl. destruct (Z.lt_ge_cases l (lba + 127)); [apply Hf|apply Hg]; lia.
  - destruct Hs as [->|[Hm (l & Hl & Hb)]]; [left; lia|right]. split; [|exists l; split; [lia|done]].
    rewrite Z.add_mod, Hm by done. done.
Qed.

Lemma sectors_from_app (s : Z → list Z) lba n m :
  sectors_from s lba n ++ sectors_from s (lba + Z.of_nat n) m = sectors_from s lba (n + m).
Proof. unfold sectors_from. rewrite Nat2Z.inj_add, seqZ_app by lia. by rewrite bind_app. Qed.

Lemma all_good drive lba n :
  forallb (λ l, negb (bad b drive l)) (seqZ lba n) = true ↔ ∀ l, lba <= l < lba + n → bad b drive l = false.
Proof.
  rewrite forallb_forall. split.
  - intros H l Hl. apply negb_true_iff, H, list_elem_of_In, elem_of_seqZ. lia.
  - intros H l Hl%list_elem_of_In%elem_of_seqZ. apply negb_true_iff, H. lia.
Qed.

Lemma one_bad drive lba n :
  forallb (λ l, negb (bad b drive l)) (seqZ lba n) = false → ∃ l, lba <= l < lba + n ∧ bad b drive l = true.
Proof.
  intros H. assert (existsb (bad b drive) (seqZ lba n) = true) as (l & Hl & Hb)%existsb_exists.
  { revert H. generalize (seqZ lba n). intros l. induction l as [|x l IH]; [done|]. simpl. destruct (bad b drive x); [done|apply IH]. }
  exists l. split; [|done]. apply list_elem_of_In, elem_of_seqZ in Hl. lia.
Qed.

Lemma read_blocks_spec fuel k c chan prd drive count lba sum done_ :
  channel_ok → (ready_limit <= TURNS)%nat → (2 <= TURNS)%nat → (Z.to_nat count < fuel)%nat →
  ready k c chan prd → irq_ongoing k = false → 0 <= count → drive = 0 ∨ drive = 1 → 0 <= lba → lba + count <= 2 ^ 48 →
  ∃ k' c' chan' prd' n, ready k' c' chan' prd' ∧ transfer_lock c' = transfer_lock c ∧ current_task k' = current_task k ∧ irq_ongoing k' = false ∧
    read_blocks TURNS fuel controller ch drive count lba sum done_ k =
      Ok ((sum + n, done_ ++ sectors_from (sector b drive) lba (Z.to_nat n)), k') ∧ read_until drive lba count n.
Proof.
  intros Hco HL HT. revert k c chan prd count lba sum done_.
  induction fuel as [|fuel IH]; intros k c chan prd count lba sum done_ Hf Hr Hon Hc Hd Hl Hlc; [lia|]. cbn [read_blocks].
  destruct (Z.leb_spec count 0) as [Hz|Hz].
  { exists k, c, chan, prd, 0. split_and!; try done; [by rewrite Z.add_0_r, app_nil_r|]. split; [lia|]. split; [lia|left; lia]. }
  change BLOCKS_PER_PRD with 127. set (tr := if 127 <? count then 127 else count).
  assert (tr = Z.min 127 count) as Htr by (unfold tr; destruct (Z.ltb_spec 127 count); lia). clearbody tr.
  destruct (transfer_spec k c chan prd drive tr lba Hco HL HT Hr Hon ltac:(lia) Hd Hl ltac:(lia))
    as (k1 & c1 & chan1 & prd1 & Hr1 & Hl1 & Ht1 & Hon1 & Htf). kstep Htf.
  destruct (forallb _ _) eqn:Hall.
  - rewrite (uwrap_small 64 (lba + tr)) by (unfold is_word; change (2 ^ 48) with 281474976710656 in *; change (2 ^ 64) with 18446744073709551616; lia).
    destruct (IH k1 c1 chan1 prd1 (count - tr) (lba + tr) (sum + tr) (done_ ++ sectors_from (sector b drive) lba (Z.to_nat tr)))
      as (k2 & c2 & chan2 & prd2 & n & Hr2 & Hl2 & Ht2 & Hon2 & Hrd & Hu); try done; [lia..|].
    exists k2, c2, chan2, prd2, (tr + n). split; [done|]. split; [congruence|]. split; [congruence|]. split; [done|].
    pose proof (proj1 (all_good drive lba tr) Hall) as Hgood. destruct Hu as (Hn & Hu1 & Hu2). split.
    + rewrite Hrd, <- app_assoc, <- Z.add_assoc. replace (lba + tr) with (lba + Z.of_nat (Z.to_nat tr)) by lia.
      rewrite sectors_from_app, <- Z2Nat.inj_add by lia. done.
    + destruct (decide (127 < count)) as [Hgt|Hle].
      * replace tr with 127 in * by lia. by apply read_until_more.
      * assert (tr + n = count) as -> by lia. split; [lia|]. split; [|by left]. intros l Hl2'. apply Hgood. lia.
  - exists k1, c1, chan1, prd1, 0. split_and!; try done; [by rewrite Z.add_0_r, app_nil_r|].
    split; [lia|]. split; [lia|right]. split; [done|]. destruct (one_bad _ _ _ Hall) as (l & Hl' & Hb). exists l. split; [lia|done].
Qed.
End reading.


(** ** Identification *)

Section identification.
Context {A F : Type} `{AS : AtaState F} `{IO : Ports A F}.
Abbreviation kernel := (Kernel.kernel A F).
Implicit Types k : kernel.
Context (controller : Z) (ch : nat) (chan : ide_channel_t) (st : Z) (words : list Z).

(** The drive that is selected answers at once, with the status [st] and the data [words]. *)
Record answers : Prop := {
  an_port : 0 <= base chan ∧ base chan + 7 < 2 ^ 16;
  an_status k : inb (base chan + 7) k = Ok (st, k);
  an_data k : repinsw (base chan) 256 k = Ok (words, k);
}.

(** A controller whose channel this is, with four drives. *)
Definition controls k (c : pci_ide_dev_t) : Prop :=
  objs (T := pci_ide_dev_t) k !! controller = Some c ∧ ide_channels c !! ch = Some chan ∧ length (ide_devices c) = 4%nat.

Lemma controls_channel k c : controls k c → channel controller ch k = Ok (chan, k).
Proof.
  intros (Hc & Hch & _). unfold channel. kstep (load_Ok (O := controller_object) controller c k Hc). unfold lift, of_option. by rewrite Hch.
Qed.

Lemma controls_told k c w : controls k c → controls (set_k_out w k) c.
Proof. done. Qed.

Lemma ide_write_low k c reg v :
  answers → controls k c → 0 <= reg < 8 →
  ide_write controller ch reg v k = Ok (tt, set_k_out ((base chan + reg, u8 v) :: k_out k) k).
Proof.
  intros [Hp _ _] Hc Hr. unfold ide_write, select_high, high_reg, write_reg. rewrite (proj2 (Z.ltb_ge 7 reg)) by lia. cbn [andb when].
  rewrite K_bind_ret, K_bind_assoc. kstep (controls_channel k c Hc). unfold reg_port. rewrite (proj2 (Z.ltb_lt reg 8)) by lia.
  rewrite u16_port by lia. rewrite K_bind_outb. done.
Qed.

Lemma ide_read_status k c : answers → controls k c → ide_read controller ch ATA_REG_STATUS k = Ok (st, k).
Proof.
  intros [Hp Hs _] Hc. unfold ide_read, select_high, high_reg, ATA_REG_STATUS. cbn [Z.ltb Z.compare Pos.compare Pos.compare_cont andb when].
  rewrite K_bind_ret. kstep (controls_channel k c Hc). unfold reg_port. cbn [Z.ltb Z.compare Pos.compare Pos.compare_cont].
  rewrite u16_port by lia. kstep (Hs k). done.
Qed.

(** The entries of the drives replaced. *)
Definition with_devices k c (ds : list ide_dev_t) : kernel := set_objs (<[controller := set_ide_devices ds c]> (objs k)) k.

Lemma change_device_spec k c i f :
  controls k c →
  change_device controller i f k =
    match ide_devices c !! i with Some d => Ok (tt, with_devices k c (<[i := f d]> (ide_devices c))) | None => Stop Fault end.
Proof.
  intros (Hc & _ & _). unfold change_device. kstep (load_Ok (O := controller_object) controller c k Hc).
  unfold lift, of_option. destruct (ide_devices c !! i) as [d|]; [|done]. cbn [mbind K_bind]. unfold mbind at 1, K_bind at 1.
  by rewrite (change_Ok (O := controller_object) _ _ _ _ Hc).
Qed.

Lemma with_devices_controls k c ds : controls k c → length ds = 4%nat → controls (with_devices k c ds) (set_ide_devices ds c).
Proof. intros (Hc & Hch & _) Hl. split; [|done]. unfold with_devices. cbn. rewrite ata_set. cbn. by rewrite lookup_insert_eq. Qed.

(** The registers that are written before the answer is looked at. *)
Lemma identify_command TURNS junk_space drive k c d :
  answers → controls k c → ide_devices c !! (ch * 2 + Z.to_nat drive)%nat = Some d →
  let c1 := set_ide_devices (<[(ch * 2 + Z.to_nat drive)%nat := set_ide_present 0 d]> (ide_devices c)) c in
  ∃ k', controls k' c1 ∧ ide_identify TURNS junk_space controller ch drive k =
    (if st =? 0 then mret tt
     else
       ok ← poll_data TURNS controller ch;
       if negb ok then mret tt
       else
         status ← ide_read controller ch ATA_REG_STATUS;
         chan ← channel controller ch;
         words ← (if Z.land status ATA_SR_ERR =? 0 then repinsw (u16 (base chan + ATA_REG_DATA)) 256 else mret []);
         change_device controller ((ch * 2 + Z.to_nat drive) + (ch * 2 + Z.to_nat drive))
           (identified ch drive (overwritten (word_bytes words) junk_space))) k'.
Proof.
  intros Ha Hc Hd c1. unfold ide_identify. assert (length (ide_devices c1) = 4%nat) as Hl by (cbn; rewrite length_insert; apply Hc).
  pose proof (change_device_spec k c (ch * 2 + Z.to_nat drive) (set_ide_present 0) Hc) as Hcd. rewrite Hd in Hcd. kstep Hcd.
  pose proof (with_devices_controls k c _ Hc Hl) as Hc1.
  set (k1 := with_devices k c _). change (controls k1 c1) in Hc1.
  kstep (ide_write_low k1 c1 ATA_REG_HDDEVSEL (Z.lor 0xa0 (Z.shiftl drive 4)) Ha Hc1 ltac:(unfold ATA_REG_HDDEVSEL; lia)).
  set (k2 := set_k_out _ k1). pose proof (controls_told k1 c1 _ Hc1 : controls k2 c1) as Hc2.
  kstep (ide_write_low k2 c1 ATA_REG_COMMAND ATA_CMD_IDENTIFY Ha Hc2 ltac:(unfold ATA_REG_COMMAND; lia)).
  set (k3 := set_k_out _ k2). pose proof (controls_told k2 c1 _ Hc2 : controls k3 c1) as Hc3.
  kstep (ide_read_status k3 c1 Ha Hc3). by exists k3.
Qed.

(** The data are there. *)
Lemma identify_data TURNS junk_space drive id k c :
  answers → controls k c → (1 <= TURNS)%nat → Z.land st ATA_SR_ERR = 0 → Z.land st ATA_SR_BSY = 0 → Z.land st ATA_SR_DRQ ≠ 0 →
  (ok ← poll_data TURNS controller ch;
   if negb ok then mret tt
   else
     status ← ide_read controller ch ATA_REG_STATUS;
     chan ← channel controller ch;
     words ← (if Z.land status ATA_SR_ERR =? 0 then repinsw (u16 (base chan + ATA_REG_DATA)) 256 else mret []);
     change_device controller id (identified ch drive (overwritten (word_bytes words) junk_space))) k =
  change_device controller id (identified ch drive (overwritten (word_bytes words) junk_space)) k.
Proof.
  intros Ha Hc HT He Hb Hq. destruct TURNS as [|turns]; [lia|]. cbn [poll_data].
  rewrite K_bind_assoc. kstep (ide_read_status k c Ha Hc). rewrite He, Hb, (proj2 (Z.eqb_neq _ 0) Hq). cbn [Z.eqb negb andb].
  kpure. cbn [negb]. kstep (ide_read_status k c Ha Hc). kstep (controls_channel k c Hc). rewrite He. cbn [Z.eqb].
  destruct Ha as [Hp _ Hdata]. unfold ATA_REG_DATA. rewrite Z.add_0_r, u16_port by lia. by kstep (Hdata k).
Qed.

End identification.

(** Identification of a drive.  A drive that does not answer is marked absent, and nothing
    else changes.  The answer of a drive is recorded in the entry with twice its number: that of
    the primary master in its own, that of the primary slave in the one of the secondary master,
    and that of a drive of the secondary channel behind the end of the controller structure. *)
Theorem ide_identify_misplaces {A F} `{AS : AtaState F} `{IO : Ports A F}
    TURNS junk_space controller ch chan st words drive (k : Kernel.kernel A F) c d :
  let id := (ch * 2 + Z.to_nat drive)%nat in
  let cleared := <[id := set_ide_present 0 d]> (ide_devices c) in
  answers chan st words → controls controller ch chan k c → ide_devices c !! id = Some d → (1 <= TURNS)%nat →
  (st = 0 → ∃ k', ide_identify TURNS junk_space controller ch drive k = Ok (tt, k') ∧
     controls controller ch chan k' (set_ide_devices cleared c)) ∧
  (Z.land st ATA_SR_ERR = 0 → Z.land st ATA_SR_BSY = 0 → Z.land st ATA_SR_DRQ ≠ 0 →
     ((id < 2)%nat → ∃ k' d', ide_identify TURNS junk_space controller ch drive k = Ok (tt, k') ∧ cleared !! (2 * id)%nat = Some d' ∧
        controls controller ch chan k'
          (set_ide_devices (<[(2 * id)%nat := identified ch drive (overwritten (word_bytes words) junk_space) d']> cleared) c)) ∧
     ((2 <= id)%nat → ide_identify TURNS junk_space controller ch drive k = Stop Fault)).
Proof.
  intros id cleared Ha Hc Hd HT.
  destruct (identify_command controller ch chan st words TURNS junk_space drive k c d Ha Hc Hd) as (k1 & Hc1 & ->).
  fold id in Hc1 |- *. fold cleared in Hc1. split.
  - intros ->. exists k1. done.
  - intros He Hb Hq. rewrite (proj2 (Z.eqb_neq st 0)) by (by intros ->).
    rewrite (identify_data controller ch chan st words TURNS junk_space drive (id + id) k1 _ Ha Hc1 HT He Hb Hq).
    rewrite (change_device_spec _ _ _ _ _ _ _ Hc1). cbn [ide_devices set_ide_devices].
    assert (length cleared = 4%nat) as Hl by (unfold cleared; rewrite length_insert; apply Hc).
    replace (2 * id)%nat with (id + id)%nat by lia. split; intros Hid.
    + destruct (lookup_lt_is_Some_2 cleared (id + id)) as [d' Hd']; [lia|]. rewrite Hd'. eexists _, d'. split; [reflexivity|]. split; [done|].
      apply (with_devices_controls _ _ _ k1 (set_ide_devices cleared c)); [done|]. by rewrite length_insert.
    + by rewrite lookup_ge_None_2 by lia.
Qed.

(** ** Setting up *)

Section setup.
Context {A F : Type} `{B : Build} `{KM : Kmalloc A} `{PM : PhysMem A} `{AS : AtaState F} `{IO : Ports A F}.
Abbreviation kernel := (Kernel.kernel A F).
Implicit Types k : kernel.

Lemma channel_lookup controller ch k c chan :
  objs (T := pci_ide_dev_t) k !! controller = Some c → ide_channels c !! ch = Some chan → channel controller ch k = Ok (chan, k).
Proof. intros Hc Hch. unfold channel. kstep (load_Ok (O := controller_object) controller c k Hc). unfold lift, of_option. by rewrite Hch. Qed.

(** The region for DMA.  [ata_setup_dma] leaves a channel ready for [ata_read]: its descriptor
    and the buffer behind it lie in 64 KiB of physical memory below 4 GiB that are aligned, so that no
    transfer of at most 127 blocks crosses a boundary of 64 KiB, and the controller was told the
    address.  It fails only when there is no such region. *)
Theorem ata_setup_dma_ready junk junk_dma controller ch b bm k c chan :
  pages_wf (phys_of k) → objs (T := pci_ide_dev_t) k !! controller = Some c → ide_channels c !! ch = Some chan →
  base chan = b → busmaster chan = bm → ports_ok b bm → is_Some (k_tasks k !! current_task k) →
  (∃ k' phys c' chan' prd, ata_setup_dma junk junk_dma controller ch k = Ok (tt, k') ∧
     (phys mod 2 ^ 16 = 0 ∧ 0 <= phys ∧ phys + 2 ^ 16 <= 2 ^ 32) ∧
     ready controller ch b bm phys k' c' chan' prd ∧ transfer_lock c' = transfer_lock c ∧ irq_ongoing k' = irq_ongoing k ∧
     (∀ n, 1 <= n <= BLOCKS_PER_PRD → prd_buffer prd / 2 ^ 16 = (prd_buffer prd + n * 512 - 1) / 2 ^ 16) ∧
     ∀ p, in_dma (Z.shiftr phys 12) p → ¬ used (phys_of k) p ∧ used (phys_of k') p) ∨
  ata_setup_dma junk junk_dma controller ch k = Stop Panic.
Proof.
  intros Hwf Hc Hch Hb Hbm [Hpb Hpm _] Htask. unfold ata_setup_dma. kpure.
  destruct (alloc_dma_region_spec (current_task k) (phys_of k) Hwf) as [(s & st & Ha & Hm & Hs & Hlim & Hpg & _ & Hupd)|Ha].
  2: { right. apply K_bind_Stop. unfold on_pages, on_heap, on_store, phys_of in *. by rewrite Ha. }
  left. assert (on_pages (alloc_dma_region (current_task k)) k = Ok (Z.shiftl s 12, with_phys st k)) as Hon
    by (unfold on_pages, on_heap, on_store, phys_of in *; by rewrite Ha).
  kstep Hon. kpure. set (phys := Z.shiftl s 12). set (virt := phys_to_virt phys). set (k1 := set_objs _ (with_phys st k)).
  assert (phys = s * 4096) as Hphys by (unfold phys; by rewrite Z.shiftl_mul_pow2).
  assert (objs (T := pci_ide_dev_t) k1 !! controller = Some c) as Hc1 by (unfold k1; cbn; by rewrite ata_set).
  assert (phys mod 2 ^ 16 = 0 ∧ 0 <= phys ∧ phys + 2 ^ 16 <= 2 ^ 32) as Hal.
  { rewrite Hphys. change (2 ^ 16) with 65536. change (2 ^ 32) with 4294967296. split; [|lia].
    change 65536 with (16 * 4096). rewrite Z.mul_mod_distr_r by lia. by rewrite Hm. }
  unfold change_channel. kstep (change_Ok (O := controller_object) _ (λ c, set_ide_channels (alter (set_prdt virt) ch (ide_channels c)) c) _ _ Hc1).
  kpure. set (c2 := set_ide_channels _ c). set (k2 := set_objs _ (set_objs _ k1)).
  assert (objs (T := pci_ide_dev_t) k2 !! controller = Some c2) as Hc2.
  { unfold k2. cbn. rewrite !ata_set. cbn. by rewrite lookup_insert_eq. }
  assert (ide_channels c2 !! ch = Some (set_prdt virt chan)) as Hch2.
  { unfold c2. cbn. by rewrite list_lookup_alter_eq, Hch. }
  kstep (channel_lookup _ _ _ _ _ Hc2 Hch2). cbn [busmaster set_prdt]. rewrite Hbm. unfold outl, outb, modify, DMA_ADDR.
  rewrite (u16_port (bm + 4)) by (change (2 ^ 16) with 65536 in *; lia).
  assert (u32 (u32 phys) = phys ∧ u32 (phys + 512) = phys + 512) as [Hu1 Hu2].
  { destruct Hal as (_ & ? & ?). change (2 ^ 16) with 65536 in *. rewrite (uwrap_small 32 phys), !uwrap_small by (unfold is_word; lia). done. }
  rewrite Hu1. eexists _, phys, c2, (set_prdt virt chan), _. split; [reflexivity|]. split; [exact Hal|]. split; [|split; [done|split; [done|split]]].
  - split; cbn [set_prdt base busmaster prdt]; try done.
    + unfold k2. cbn. rewrite !ata_set. cbn. by rewrite lookup_insert_eq.
    + cbn. exact Hu2.
    + done.
    + cbn [k_out set_k_out]. apply newest_eq.
  - intros n Hn. cbn [prd_buffer]. rewrite Hu2. change BLOCKS_PER_PRD with 127 in Hn. change (2 ^ 16) with 65536 in *. zdiv.
  - intros p Hp. unfold phys in Hp. rewrite Z.shiftr_shiftl_l in Hp by done. rewrite Z.shiftl_0_r in Hp.
    split; [by apply Hpg|]. change (used (phys_of (with_phys st k)) p). rewrite phys_of_with. destruct Hupd as [_ _ Hin _]. apply Hin; [unfold in_dma in Hp; lia|done].
Qed.
End setup.

(** ** A disk *)

#[local] Existing Instance debug_build.
Import Machine.

Module QuickDrive.
(** A drive that answers at once. *)
#[local] Instance ata_state : AtaState ata_t := {| ata f := f; set_ata a _ := a; ata_set _ _ := eq_refl; set_ata_set _ _ _ := eq_refl; set_ata_ata _ := eq_refl |}.
Definition answer : list Z := replicate 256 0x4141.
#[local] Instance ports : Ports t ata_t :=
  {| inb _ k := Ok (0x58, k); inl _ k := Ok (0, k); repinsw _ _ k := Ok (answer, k) |}.

Definition chan (base_ busmaster_ : Z) : ide_channel_t :=
  {| prdt := 0; data_ready := 0; irq_status := 0; signal_task := 0; base := base_; ctrl := base_ + 0x200; busmaster := busmaster_; nIEN := 0 |}.
Definition no_drive : ide_dev_t :=
  {| ide_present := 0; dv_channel := 0; dv_drive := 0; dv_type := 0; signat := 0; capa := 0; cmd_sets := 0; sectors := 0; model := replicate 41 0 |}.
Definition two_channels : pci_ide_dev_t :=
  {| minor_base := 0; transfer_lock := MUTEX_INITIALIZER; ide_channels := [chan 0x1f0 0xc000; chan 0x170 0xc008]; ide_devices := replicate 4 no_drive |}.
Definition machine : Kernel.kernel t ata_t :=
  with_phys (fresh_pages 64) (start_with {| at_controllers := {[ 50 := two_channels ]}; at_prds := ∅; at_dma := ∅; ata_major := 0; ata_minors := 0 |}).

(** The primary slave is recorded as the secondary master, and the secondary master nowhere. *)
Lemma ide_identify_misplaces_witness :
  (∃ k' c', ide_identify 1 [] 50 0 1 machine = Ok (tt, k') ∧ controls 50 0 (chan 0x1f0 0xc000) k' c' ∧
     (ide_present <$> ide_devices c') = [0; 0; 1; 0]) ∧
  ide_identify 1 [] 50 1 0 machine = Stop Fault.
Proof.
  assert (∀ b m, 0 <= b ∧ b + 7 < 2 ^ 16 → answers (A := t) (chan b m) 0x58 answer) as Ha by (intros b m Hb; split; [exact Hb|reflexivity..]).
  split.
  - destruct (ide_identify_misplaces 1 [] 50 0 (chan 0x1f0 0xc000) 0x58 answer 1 machine two_channels no_drive) as [_ Hr].
    + apply Ha. change (0x1f0 + 7) with 503. lia.
    + split; [reflexivity|split; reflexivity].
    + reflexivity.
    + lia.
    + destruct Hr as [Hlow _]; [reflexivity|reflexivity|discriminate|]. destruct Hlow as (k' & d' & Hk & Hd & Hc); [simpl; lia|].
      exists k'. eexists. split; [exact Hk|]. split; [exact Hc|]. simpl in Hd. injection Hd as <-. reflexivity.
  - destruct (ide_identify_misplaces 1 [] 50 1 (chan 0x170 0xc008) 0x58 answer 0 machine two_channels no_drive) as [_ Hr].
    + apply Ha. change (0x170 + 7) with 375. lia.
    + split; [reflexivity|split; reflexivity].
    + reflexivity.
    + lia.
    + destruct Hr as [_ Hhigh]; [reflexivity|reflexivity|discriminate|]. apply Hhigh. simpl. lia.
Defined.

Lemma ata_setup_dma_ready_witness : ∃ k' phys c' chan' prd,
  ata_setup_dma (λ _, 0) (λ _, []) 50 0 machine = Ok (tt, k') ∧ ready 50 0 0x1f0 0xc000 phys k' c' chan' prd.
Proof.
  destruct (ata_setup_dma_ready (λ _, 0) (λ _, []) 50 0 0x1f0 0xc000 machine two_channels (chan 0x1f0 0xc000)) as [H|H].
  - apply fresh_pages_wf; [lia|reflexivity].
  - reflexivity.
  - reflexivity.
  - reflexivity.
  - reflexivity.
  - split; lia.
  - vm_compute. eexists. reflexivity.
  - destruct H as (k' & phys & c' & chan' & prd & Hk & _ & Hr & _). exists k', phys, c', chan', prd. exact (conj Hk Hr).
  - vm_compute in H. discriminate H.
Defined.
End QuickDrive.

Module DmaDisk.
(** A disk with the number of each sector in its bytes; sector 200 cannot be read.  Beside the
    driver's data there is whether the last command failed. *)
Definition disk_t : Type := (ata_t * bool)%type.
#[local] Instance ata_state : AtaState disk_t.
Proof. refine {| ata f := fst f; set_ata a f := (a, snd f) |}; [done|done|by intros []]. Defined.
Abbreviation kernel := (Kernel.kernel t disk_t).
Implicit Types k : kernel.

#[local] Instance ports : Ports t disk_t := {|
  inb p k := Ok (if p =? 0x1f7 then (if snd (k_fs k) then 0x51 else 0x50) else 4, k);
  inl _ := mret 0; repinsw _ _ := mret [] |}.
Definition content (l : Z) : list Z := replicate 512 (l mod 256).
Definition unreadable (l : Z) : bool := l =? 200.

(** The command in the log is carried out: the interrupt comes, and then it is the task's turn. *)
Definition outcome (out : list (Z * Z)) : bool :=
  forallb (λ l, negb (unreadable l)) (seqZ (request_lba 0x1f0 out) (request_count 0x1f0 out)).
Definition moved (prd : region_desc_t) (out : list (Z * Z)) k : kernel :=
  set_irq_ongoing false (set_k_fs (set_at_dma (<[phys_to_virt (prd_buffer prd) :=
    {| dma_bytes := sectors_from content (request_lba 0x1f0 out) (Z.to_nat (request_count 0x1f0 out)) |}]> (at_dma (ata (k_fs k)))) (ata (k_fs k)), negb (outcome out)) k).
#[local] Instance others : Others t disk_t := {|
  elsewhere k :=
    match at_prds (ata (k_fs k)) !! phys_to_virt (newest 0xc004 (k_out k)) with
    | Some prd => match ata_irq 50 0 k with Ok (_, k') => Ok (tt, moved prd (k_out k) k') | Stop w => Stop w end
    | None => Stop Fault
    end |}.

Lemma content_length (l : list Z) : length (l ≫= content) = (length l * 512)%nat.
Proof. induction l as [|x l IH]; [done|]. rewrite bind_cons, length_app, IH. unfold content. rewrite length_replicate. cbn [length]. lia. Qed.

#[local] Instance disk : AtaDisk t disk_t.
Proof.
  refine {| ide_ports c ch b bm := c = 50 ∧ ch = 0%nat ∧ b = 0x1f0 ∧ bm = 0xc000; sector _ _ := content; bad _ _ := unreadable;
            ready_limit := 1; ended b ok k := b = 0x1f0 ∧ snd (k_fs k) = negb ok |}.
  - intros _ _ l. apply length_replicate.
  - intros p k. eexists _, k. split; [reflexivity|]. split; [by destruct (p =? 0x1f7), (snd (k_fs k))|]. exists (k_fs k). by destruct k.
  - intros c ch b bm k (_ & _ & -> & _). exists 1%nat, k. split; [done|]. eapply polled_ready; [reflexivity|by destruct (snd (k_fs k))|].
    exists (k_fs k). by destruct k.
  - intros b ok k [-> Hs]. eexists _, k. split; [reflexivity|]. split; [exists (k_fs k); by destruct k|]. rewrite Hs. by destruct ok.
  - intros b ok k k' [-> Hs] [a Ha] _. split; [done|]. by rewrite Ha.
  - intros c ch b bm k prd d lba n (-> & -> & -> & ->) _ _ Hl Hn H1 _ Hprd Hb _ _. exists k, 4, k. split; [by split|]. split; [done|].
    split; [done|]. split; [exists (k_fs k); by destruct k|]. intros k2 Hk2. exists (moved prd (k_out k) k2), (outcome (k_out k)).
    split; [|split; [|split; [done|split; [|split; [|intros _]]]]].
    + cbn [elsewhere others]. change (newest 0xc004 (k_out k)) with (newest (0xc000 + 4) (k_out k)).
      change (at_prds (ata (k_fs k))) with (objs (T := region_desc_t) k). by rewrite Hprd, Hk2.
    + by split.
    + split; [done|]. done.
    + unfold outcome. by rewrite Hl, Hn.
    + eexists. split; [apply lookup_insert_eq|]. cbn [dma_bytes]. rewrite Hl, Hn. apply take_ge. unfold sectors_from.
      rewrite content_length, length_seqZ. lia.
Defined.

Definition machine : kernel :=
  set_k_out [(0xc004, 0x10000)] (start_with ({|
    at_controllers := {[ 50 := {| minor_base := 0; transfer_lock := MUTEX_INITIALIZER; ide_devices := [];
      ide_channels := [{| prdt := phys_to_virt 0x10000; data_ready := 0; irq_status := 0; signal_task := 0; base := 0x1f0;
                          ctrl := 0x3f4; busmaster := 0xc000; nIEN := 0 |}] |} ]};
    at_prds := {[ phys_to_virt 0x10000 := {| prd_buffer := 0x10200; prd_bytes := 0; last_entry := 1 |} ]};
    at_dma := ∅; ata_major := 0; ata_minors := 0 |}, false)).

End DmaDisk.
