(* ===== verification/Tables.v ===== *)
(** The descriptor tables and the interrupt controller: x86_64/gdt.c, x86_64/idt.c, boot32/gdt.c and
    boot32/gdt_long.c.  What the processor and the controller make of them is given as
    functions that decode descriptors and command words as their manuals say. *)
From S2P Require Import Prelude Words Kernel.
Open Scope Z_scope.

(** ** Segments *)

(** Flags of a segment descriptor. *)
(** [PRESENT] (kernel/arch/x86_64/x86_64/gdt.c, lines 35-35). *)
Definition PRESENT : Z := BIT 47.
(** [CODE] (kernel/arch/x86_64/x86_64/gdt.c, lines 36-36). *)
Definition CODE : Z := Z.lor (BIT 43) (BIT 44).
(** [CODE_R] (kernel/arch/x86_64/x86_64/gdt.c, lines 37-37). *)
Definition CODE_R : Z := BIT 41.
(** [DATA] (kernel/arch/x86_64/x86_64/gdt.c, lines 38-38). *)
Definition DATA : Z := BIT 44.
(** [DATA_W] (kernel/arch/x86_64/x86_64/gdt.c, lines 39-39). *)
Definition DATA_W : Z := BIT 41.
(** [LONGMODE] (kernel/arch/x86_64/x86_64/gdt.c, lines 40-40). *)
Definition LONGMODE : Z := BIT 53.
(** [DPL_USER] (kernel/arch/x86_64/x86_64/gdt.c, lines 41-41). *)
Definition DPL_USER : Z := Z.lor (BIT 45) (BIT 46).
(** [OPSIZE32] (kernel/arch/x86_64/x86_64/gdt.c, lines 42-42). *)
Definition OPSIZE32 : Z := BIT 54.
(** [MAX_LIMIT] (kernel/arch/x86_64/x86_64/gdt.c, lines 43-43). *)
Definition MAX_LIMIT : Z := 0x8f00000000ffff.

Definition flags (l : list Z) : Z := foldr Z.lor 0 l.

(** [gdt_t] (kernel/arch/x86_64/x86_64/gdt.c, lines 45-49): what [lgdt] is given. *)
Record gdt_t := { gdt_size : Z; gdt_addr : Z }.

(** [tss_t] (kernel/arch/x86_64/x86_64/gdt.c, lines 69-86): the fields that are set; the others are 0. *)
Record tss_t := { rsp0 : Z; iopb_offset : Z }.
(** Its size in bytes. *)
Definition TSS_SIZE : Z := 104.
Definition GDT_ENTRIES : Z := 9.
Definition TSS_INDEX : nat := 7.

(** The static variables of gdt.c, and their addresses. *)
Record segments_t := { s_gdt : list Z; s_gdt_descriptor : gdt_t; s_tss : tss_t; task_register : Z }.

Section segments.
Context (tss_addr gdt_addr_ : Z).

(** The fields of a [tssd_t] (kernel/arch/x86_64/x86_64/gdt.c, lines 51-67): offset and width. *)
Definition td_limit1 : Z * Z := (0, 16).
Definition td_base1 : Z * Z := (16, 24).
Definition td_type : Z * Z := (40, 4).
Definition td_zero1 : Z * Z := (44, 1).
Definition td_dpl : Z * Z := (45, 2).
Definition td_present : Z * Z := (47, 1).
Definition td_limit2 : Z * Z := (48, 4).
Definition td_avl : Z * Z := (52, 1).
Definition td_gran : Z * Z := (55, 1).
Definition td_base2 : Z * Z := (56, 40).
Definition td_zero2 : Z * Z := (104, 5).
Definition td_set (f : Z * Z) (v td : Z) : Z := bf_set f.1 f.2 v td.
Definition td_get (f : Z * Z) (td : Z) : Z := bf_get f.1 f.2 td.

(** The descriptor ([setup_tss] (kernel/arch/x86_64/x86_64/gdt.c, lines 103-116)), two words as a number of 128 bits. *)
Definition tss_descriptor (td : Z) : Z :=
  td_set td_type 0x09 (td_set td_dpl 3 (td_set td_gran 0 (td_set td_avl 0 (td_set td_present 1
    (td_set td_limit2 0 (td_set td_limit1 TSS_SIZE (td_set td_base2 (Z.shiftr tss_addr 24)
      (td_set td_base1 (Z.land tss_addr 0xffffff) (td_set td_zero2 0 (td_set td_zero1 0 td)))))))))).

(** [setup_tss] (kernel/arch/x86_64/x86_64/gdt.c, lines 101-124). *)
Definition setup_tss (s : segments_t) : segments_t :=
  let td := tss_descriptor (s_gdt s !!! TSS_INDEX + s_gdt s !!! S TSS_INDEX * 2 ^ 64) in
  {| s_gdt := <[TSS_INDEX := u64 td]> (<[S TSS_INDEX := Z.shiftr td 64]> (s_gdt s)); s_gdt_descriptor := s_gdt_descriptor s;
     s_tss := {| rsp0 := rsp0 (s_tss s); iopb_offset := TSS_SIZE |}; task_register := 0x3b |}.

(** [load_gdt] (kernel/arch/x86_64/x86_64/gdt.c, lines 92-99). *)
Definition load_gdt (s : segments_t) : segments_t :=
  {| s_gdt := s_gdt s; s_gdt_descriptor := {| gdt_size := 8 * GDT_ENTRIES; gdt_addr := gdt_addr_ |}; s_tss := s_tss s;
     task_register := task_register s |}.

(** [setup_gdt] (kernel/arch/x86_64/x86_64/gdt.c, lines 126-147). *)
Definition setup_gdt (s : segments_t) : segments_t :=
  let gdt := [ 0;
    flags [PRESENT; LONGMODE; MAX_LIMIT; CODE; CODE_R];
    flags [PRESENT; LONGMODE; MAX_LIMIT; DATA; DATA_W];
    flags [PRESENT; LONGMODE; MAX_LIMIT; CODE; CODE_R; DPL_USER];
    flags [PRESENT; LONGMODE; MAX_LIMIT; DATA; DATA_W; DPL_USER];
    flags [PRESENT; OPSIZE32; MAX_LIMIT; CODE; CODE_R; DPL_USER];
    flags [PRESENT; OPSIZE32; MAX_LIMIT; DATA; DATA_W; DPL_USER] ] in
  setup_tss (load_gdt {| s_gdt := gdt ++ drop 7 (s_gdt s); s_gdt_descriptor := s_gdt_descriptor s; s_tss := s_tss s;
                         task_register := task_register s |}).

(** [set_kernel_sp] (kernel/arch/x86_64/x86_64/gdt.c, lines 149-152). *)
Definition set_kernel_sp (sp : Z) (s : segments_t) : segments_t :=
  {| s_gdt := s_gdt s; s_gdt_descriptor := s_gdt_descriptor s; s_tss := {| rsp0 := sp; iopb_offset := iopb_offset (s_tss s) |};
     task_register := task_register s |}.
End segments.

(** [gdt_long_init] (kernel/arch/x86_64/boot32/gdt_long.c, lines 35-44). *)
Definition gdt_long_init (gdt_addr_ : Z) : list Z * gdt_t :=
  ([ 0; flags [PRESENT; LONGMODE; MAX_LIMIT; CODE; CODE_R]; flags [PRESENT; LONGMODE; MAX_LIMIT; DATA; DATA_W] ],
   {| gdt_size := 8 * 3; gdt_addr := gdt_addr_ |}).

(** The segments of the 32-bit stage: [gdte_t] (kernel/arch/x86_64/boot32/gdt.c, lines 53-61). *)
Record gdte_t := { ge_limit : Z; base_low : Z; base_middle : Z; access : Z; ge_flags : Z; base_high : Z }.

(** [setup_entry] (kernel/arch/x86_64/boot32/gdt.c, lines 97-110). *)
Definition setup_entry (base limit acc fl : Z) : gdte_t :=
  {| base_low := Z.land base 0xffff; base_middle := Z.land (Z.shiftr base 16) 0xff; base_high := Z.land (Z.shiftr base 24) 0xff;
     ge_limit := Z.land limit 0xffff; ge_flags := Z.lor (Z.land (Z.shiftr limit 16) 0x0f) (Z.land fl 0xf0); access := acc |}.

(** [gdt_init] (kernel/arch/x86_64/boot32/gdt.c, lines 112-139): the table, with a segment for the
    [tss_t] of 104 bytes at [tss]. *)
Definition gdt_init (tss : Z) : list gdte_t :=
  [ setup_entry 0 0 0 0; setup_entry 0 0xfffff 0x9a 0xc0; setup_entry 0 0xfffff 0x92 0xc0;
    setup_entry 0 0xfffff 0xfa 0xc0; setup_entry 0 0xfffff 0xf2 0xc0; setup_entry tss 104 0xe9 0 ].

(** ** Interrupts *)

(** [irq_descriptor_t] (kernel/arch/x86_64/x86_64/idt.c, lines 12-21). *)
Record irq_descriptor_t := { target0 : Z; target_selector : Z; ist : Z; gate_flags : Z; target1 : Z; target2 : Z; pad1 : Z }.
Definition no_gate : irq_descriptor_t :=
  {| target0 := 0; target_selector := 0; ist := 0; gate_flags := 0; target1 := 0; target2 := 0; pad1 := 0 |}.
#[global] Instance gate_inhabited : Inhabited irq_descriptor_t := populate no_gate.

(** [IDT_PRESENT] (kernel/arch/x86_64/x86_64/idt.c, lines 6-6). *)
Definition IDT_PRESENT : Z := BIT 7.
(** [IDT_USER] (kernel/arch/x86_64/x86_64/idt.c, lines 7-7). *)
Definition IDT_USER : Z := Z.lor (BIT 5) (BIT 6).
(** [IDT_SUPV] (kernel/arch/x86_64/x86_64/idt.c, lines 8-8). *)
Definition IDT_SUPV : Z := 0.
(** [IDT_GATE] (kernel/arch/x86_64/x86_64/idt.c, lines 9-9). *)
Definition IDT_GATE : Z := 14.

(** [install_descriptor] (kernel/arch/x86_64/x86_64/idt.c, lines 51-62). *)
Definition install_descriptor (id : nat) (handler fl stack : Z) (g_idt : list irq_descriptor_t) : list irq_descriptor_t :=
  alter (λ d, {| target0 := Z.land handler 0xffff; target1 := Z.land (Z.shiftr handler 16) 0xffff;
                 target2 := u32 (Z.shiftr handler 32); target_selector := 0x08; gate_flags := u8 fl; ist := u8 stack;
                 pad1 := pad1 d |}) id g_idt.

(** [setup_idt] (kernel/arch/x86_64/x86_64/idt.c, lines 80-134): [irq n] is the address of the entry point
    of vector [n]. *)
Definition setup_idt (irq : nat → Z) (irq_syscall : Z) (g_idt : list irq_descriptor_t) : list irq_descriptor_t :=
  install_descriptor 0x80 irq_syscall (Z.lor (Z.lor IDT_PRESENT IDT_USER) IDT_GATE) 0
    (foldl (λ idt n, install_descriptor n (irq n) (Z.lor (Z.lor IDT_PRESENT IDT_SUPV) IDT_GATE) 0 idt) g_idt (seq 0 48)).

(** The words that the interrupt controllers are given ([setup_pic] (kernel/arch/x86_64/x86_64/idt.c, lines 31-49)). *)
Definition setup_pic {A F} : K (kernel A F) unit :=
  outb 0x20 0x11;; outb 0xA0 0x11;; outb 0x21 0x20;; outb 0xA1 0x28;; outb 0x21 0x04;; outb 0xA1 0x02;;
  outb 0x21 0x01;; outb 0xA1 0x01;; outb 0x21 0x00;; outb 0xA1 0x00.

(** ** What the hardware reads *)

(** A segment as the processor sees it. *)
Record segment := { sg_code : bool; sg_writable : bool; sg_ring : Z; sg_long : bool; sg_32 : bool; sg_base : Z; sg_bytes : Z }.

(** The decoding of a code or data descriptor; [None] when it is not present. *)
Definition decode_segment (d : Z) : option segment :=
  let limit := bf_get 0 16 d + bf_get 48 4 d * 2 ^ 16 in
  if Z.testbit d 47 && Z.testbit d 44 then
    Some {| sg_code := Z.testbit d 43; sg_writable := Z.testbit d 41; sg_ring := bf_get 45 2 d; sg_long := Z.testbit d 53;
            sg_32 := Z.testbit d 54; sg_base := bf_get 16 24 d + bf_get 56 8 d * 2 ^ 24;
            sg_bytes := if Z.testbit d 55 then (limit + 1) * 4096 else limit + 1 |}
  else None.

(** The two words of a task state segment: its base and the offset of its last byte. *)
Definition decode_tss (lo hi : Z) : option (Z * Z) :=
  let d := lo + hi * 2 ^ 64 in
  if (bf_get 40 4 d =? 9) && (bf_get 44 1 d =? 0) && (bf_get 47 1 d =? 1) then
    Some (bf_get 16 24 d + bf_get 56 40 d * 2 ^ 24, bf_get 0 16 d + bf_get 48 4 d * 2 ^ 16)
  else None.

(** A gate: its handler, the ring that may call it, and whether interrupts are off in it. *)
Definition decode_gate (d : irq_descriptor_t) : option (Z * Z * bool) :=
  if Z.testbit (gate_flags d) 7 then
    Some (target0 d + target1 d * 2 ^ 16 + target2 d * 2 ^ 32, bf_get 5 2 (gate_flags d), bool_decide (bf_get 0 4 (gate_flags d) = 14))
  else None.

(** An 8259 interrupt controller: how many of its initialisation words it has received (4 when
    it is working), the vector of its first line, and its mask. *)
Record pic_t := { pic_stage : nat; pic_base : Z; pic_mask : Z }.
Definition pic_command (v : Z) (p : pic_t) : pic_t :=
  if Z.testbit v 4 then {| pic_stage := 1; pic_base := pic_base p; pic_mask := 0 |} else p.
Definition pic_data (v : Z) (p : pic_t) : pic_t :=
  match pic_stage p with
  | 1%nat => {| pic_stage := 2; pic_base := Z.land v 0xf8; pic_mask := pic_mask p |}
  | 2%nat => {| pic_stage := 3; pic_base := pic_base p; pic_mask := pic_mask p |}
  | 3%nat => {| pic_stage := 4; pic_base := pic_base p; pic_mask := pic_mask p |}
  | _ => {| pic_stage := pic_stage p; pic_base := pic_base p; pic_mask := v |}
  end.
Definition pic_write (cmd : Z) (w : Z * Z) (p : pic_t) : pic_t :=
  if w.1 =? cmd then pic_command w.2 p else if w.1 =? cmd + 1 then pic_data w.2 p else p.
(** A controller after the writes of a log, the newest first. *)
Definition pic_after (cmd : Z) (out : list (Z * Z)) (p : pic_t) : pic_t := foldr (pic_write cmd) p out.
(** The vector of a line of the two controllers, if it is not masked. *)
Definition line_vector (p1 p2 : pic_t) (line : Z) : option Z :=
  let p := if line <? 8 then p1 else p2 in
  if bool_decide (pic_stage p = 4%nat) && negb (Z.testbit (pic_mask p) (line mod 8)) then Some (pic_base p + line mod 8) else None.

(** ** The segments *)

Lemma td_get_same f v td : 0 <= f.1 → 0 <= f.2 → bf_get f.1 f.2 (td_set f v td) = v mod 2 ^ f.2.
Proof. intros. by apply bf_get_set. Qed.

Lemma td_get_other f off len v td :
  0 <= f.1 → 0 <= f.2 → 0 <= off → 0 <= len → off + len <= f.1 ∨ f.1 + f.2 <= off → bf_get off len (td_set f v td) = bf_get off len td.
Proof. intros. by apply bf_get_set_other. Qed.

(** Reads a field behind the writes of others. *)
Ltac td_read f :=
  repeat (rewrite td_get_other by (cbn; lia)); rewrite (td_get_same f) by done.

Lemma tss_descriptor_fields addr td :
  is_word 64 addr →
  let d := tss_descriptor addr td in
  bf_get 40 4 d = 9 ∧ bf_get 44 1 d = 0 ∧ bf_get 47 1 d = 1 ∧ bf_get 16 24 d = addr mod 2 ^ 24 ∧ bf_get 56 40 d = addr / 2 ^ 24 ∧
  bf_get 0 16 d = TSS_SIZE ∧ bf_get 48 4 d = 0.
Proof.
  intros Ha d. unfold d, tss_descriptor. split_and!.
  - by td_read td_type.
  - by td_read td_zero1.
  - by td_read td_present.
  - td_read td_base1. cbn [snd td_base1]. change 0xffffff with (Z.ones 24). rewrite Z.land_ones by done. by rewrite Z.mod_mod.
  - td_read td_base2. cbn [snd td_base2]. rewrite Z.shiftr_div_pow2 by done. apply Z.mod_small.
    unfold is_word in Ha. change (2 ^ 64) with (2 ^ 24 * 2 ^ 40) in Ha. split; [apply Z.div_pos; lia|apply Z.div_lt_upper_bound; lia].
  - by td_read td_limit1.
  - by td_read td_limit2.
Qed.

(** C20: The segments.  The table that [setup_gdt] loads has, for the processor, the segments that the
    file's comment lists: code and data of the kernel (ring 0, 64 bits), of 64-bit programs
    and of 32-bit programs (ring 3), all of 4 GiB at 0; and the task state segment, whose
    stack pointer [set_kernel_sp] sets, at its address.  The null segment is not present. *)
Theorem setup_gdt_segments tss_addr gdt_addr_ sp s :
  is_word 64 tss_addr → length (s_gdt s) = 9%nat →
  let s' := set_kernel_sp sp (setup_gdt tss_addr gdt_addr_ s) in
  let seg code ring long := Some {| sg_code := code; sg_writable := true; sg_ring := ring; sg_long := long; sg_32 := negb long;
                                    sg_base := 0; sg_bytes := 2 ^ 32 |} in
  decode_segment <$> take 7 (s_gdt s') =
    [None; seg true 0 true; seg false 0 true; seg true 3 true; seg false 3 true; seg true 3 false; seg false 3 false] ∧
  decode_tss (s_gdt s' !!! TSS_INDEX) (s_gdt s' !!! S TSS_INDEX) = Some (tss_addr, TSS_SIZE) ∧
  gdt_addr (s_gdt_descriptor s') = gdt_addr_ ∧ task_register s' / 8 = Z.of_nat TSS_INDEX ∧ rsp0 (s_tss s') = sp.
Proof.
  intros Ha Hl s' seg. destruct s as [gdt d t r]. cbn [s_gdt] in Hl.
  destruct gdt as [|w0 [|w1 [|w2 [|w3 [|w4 [|w5 [|w6 [|w7 [|w8 [|? ?]]]]]]]]]]; try discriminate Hl. clear Hl.
  split; [vm_compute; reflexivity|]. split; [|done].
  set (td := tss_descriptor tss_addr (w7 + w8 * 2 ^ 64)). unfold decode_tss.
  change (s_gdt s' !!! TSS_INDEX) with (u64 td). change (s_gdt s' !!! S TSS_INDEX) with (Z.shiftr td 64).
  assert (u64 td + Z.shiftr td 64 * 2 ^ 64 = td) as ->.
  { rewrite Z.shiftr_div_pow2 by done. unfold uwrap. pose proof (Z.div_mod td (2 ^ 64) ltac:(done)). lia. }
  destruct (tss_descriptor_fields tss_addr (w7 + w8 * 2 ^ 64) Ha) as (H1 & H2 & H3 & H4 & H5 & H6 & H7).
  fold td in H1, H2, H3, H4, H5, H6, H7. rewrite H1, H2, H3, H4, H5, H6, H7. cbn [Z.eqb Pos.eqb andb].
  do 2 f_equal. pose proof (Z.div_mod tss_addr (2 ^ 24) ltac:(done)). lia.
Qed.

Lemma setup_gdt_segments_witness :
  decode_tss (s_gdt (setup_gdt 0xffff800001234560 0 {| s_gdt := replicate 9 0; s_gdt_descriptor := {| gdt_size := 0; gdt_addr := 0 |};
    s_tss := {| rsp0 := 0; iopb_offset := 0 |}; task_register := 0 |}) !!! TSS_INDEX) 0xffff8000 = Some (0xffff800001234560, TSS_SIZE).
Proof.
  refine (proj1 (proj2 (setup_gdt_segments 0xffff800001234560 0 0 {| s_gdt := replicate 9 0; s_gdt_descriptor := {| gdt_size := 0; gdt_addr := 0 |};
    s_tss := {| rsp0 := 0; iopb_offset := 0 |}; task_register := 0 |} _ _))).
  - split; vm_compute; [discriminate|reflexivity].
  - reflexivity.
Defined.

(** The 32-bit table gives back what it is given. *)
Lemma setup_entry_base base limit acc fl :
  is_word 32 base → is_word 20 limit →
  let e := setup_entry base limit acc fl in
  base_low e + base_middle e * 2 ^ 16 + base_high e * 2 ^ 24 = base ∧ ge_limit e + bf_get 0 4 (ge_flags e) * 2 ^ 16 = limit.
Proof.
  intros Hb Hl e. cbn [base_low base_middle base_high ge_limit ge_flags setup_entry e]. unfold is_word in *.
  change 0xffff with (Z.ones 16). change 0xff with (Z.ones 8). rewrite !Z.land_ones, !Z.shiftr_div_pow2 by done.
  change (2 ^ 32) with 4294967296 in Hb. change (2 ^ 20) with 1048576 in Hl. change (2 ^ 16) with 65536. change (2 ^ 24) with 16777216. change (2 ^ 8) with 256.
  split; [zdiv|]. assert (bf_get 0 4 (Z.lor (Z.land (limit / 65536) 15) (Z.land fl 240)) = limit / 65536) as ->; [|zdiv].
  unfold bf_get. rewrite Z.shiftr_0_r, Z.land_lor_distr_l, <- !Z.land_assoc. change (Z.land 240 (Z.ones 4)) with 0. rewrite Z.land_0_r, Z.lor_0_r.
  change (Z.land 15 (Z.ones 4)) with (Z.ones 4). rewrite Z.land_ones by done. apply Z.mod_small. change (2 ^ 4) with 16. zdiv.
Qed.

(** ** Vectors *)

Lemma gates_loop (gate : nat → irq_descriptor_t → irq_descriptor_t) n v (g : list irq_descriptor_t) :
  foldl (λ idt i, alter (gate i) i idt) g (seq 0 n) !! v = (if decide (v < n)%nat then gate v <$> g !! v else g !! v).
Proof.
  induction n as [|n IH]; [by destruct (decide _); [lia|]|]. rewrite seq_S, foldl_app. cbn [foldl]. rewrite Nat.add_0_l, list_lookup_alter.
  destruct (decide (n = v)) as [->|Hne]; rewrite ?IH; repeat case_decide; try lia; done.
Qed.

Lemma gate_handler handler fl d :
  is_word 64 handler → is_word 8 fl →
  decode_gate {| target0 := Z.land handler 0xffff; target1 := Z.land (Z.shiftr handler 16) 0xffff; target2 := u32 (Z.shiftr handler 32);
                 target_selector := 0x08; gate_flags := u8 fl; ist := u8 0; pad1 := d |} =
  if Z.testbit fl 7 then Some (handler, bf_get 5 2 fl, bool_decide (bf_get 0 4 fl = 14)) else None.
Proof.
  intros Hh Hf. unfold decode_gate. cbn [gate_flags target0 target1 target2]. rewrite (uwrap_small 8 fl) by done.
  destruct (Z.testbit fl 7); [|done]. do 3 f_equal. change 0xffff with (Z.ones 16). rewrite !Z.land_ones, !Z.shiftr_div_pow2 by done.
  unfold is_word, uwrap in *. change (2 ^ 64) with 18446744073709551616 in Hh. change (2 ^ 32) with 4294967296. change (2 ^ 16) with 65536. zdiv.
Qed.

Lemma setup_idt_gates irq_ sys v :
  (∀ n, is_word 64 (irq_ n)) → is_word 64 sys → (v < 256)%nat →
  decode_gate (setup_idt irq_ sys (replicate 256 no_gate) !!! v) =
  if decide (v < 48)%nat then Some (irq_ v, 0, true) else if decide (v = 128)%nat then Some (sys, 3, true) else None.
Proof.
  intros Hi Hs Hv. unfold setup_idt, install_descriptor. rewrite list_lookup_total_alt, list_lookup_alter, !gates_loop.
  destruct (decide (128 = v)%nat) as [<-|Hne].
  - rewrite !decide_False by lia. rewrite decide_True by done. rewrite lookup_replicate_2 by lia. etransitivity; [by apply (gate_handler sys)|done].
  - destruct (decide (v < 48)%nat).
    + rewrite lookup_replicate_2 by lia. etransitivity; [by apply (gate_handler (irq_ v))|done].
    + rewrite lookup_replicate_2, decide_False by lia. done.
Qed.

(** Interrupt lines.  After [setup_pic] and [setup_idt], whatever the controllers were doing, line [n]
    of the sixteen raises vector 32 + [n], the gate of the vector leads to the entry point
    [irq(32 + n)] with interrupts off, and no program may call it; the only gate that programs
    may call is 0x80, which leads to [irq_syscall]. *)
Theorem interrupt_lines_reach_handlers {A F} irq_ sys (k : kernel A F) p1 p2 :
  (∀ n, is_word 64 (irq_ n)) → is_word 64 sys →
  let idt := setup_idt irq_ sys (replicate 256 no_gate) in
  ∃ k' written, setup_pic k = Ok (tt, k') ∧ k_out k' = written ++ k_out k ∧
    (∀ line, 0 <= line < 16 → ∃ v, line_vector (pic_after 0x20 written p1) (pic_after 0xa0 written p2) line = Some v ∧
       v = 32 + line ∧ decode_gate (idt !!! Z.to_nat v) = Some (irq_ (Z.to_nat v), 0, true)) ∧
    (∀ v h off, (v < 256)%nat → decode_gate (idt !!! v) = Some (h, 3, off) → v = 0x80%nat ∧ h = sys).
Proof.
  intros Hi Hs idt. eexists _, [(0xa1, 0); (0x21, 0); (0xa1, 1); (0x21, 1); (0xa1, 2); (0x21, 4); (0xa1, 0x28); (0x21, 0x20); (0xa0, 0x11); (0x20, 0x11)].
  split; [reflexivity|]. split; [reflexivity|]. split.
  - intros line Hl. exists (32 + line). split; [|split; [done|]].
    + assert (line ∈ seqZ 0 16) as Hin by (apply elem_of_seqZ; lia).
      destruct p1, p2. clear Hl. revert line Hin. apply list.Forall_forall. vm_compute. repeat constructor.
    + unfold idt. rewrite setup_idt_gates by (done || lia). by rewrite decide_True by lia.
  - intros v h off Hv. unfold idt. rewrite setup_idt_gates by done. repeat case_decide; intros [=]; subst; try done.
Qed.

Lemma interrupt_lines_reach_handlers_witness :
  decode_gate (setup_idt (λ n, 0xffff800001000000 + Z.of_nat n mod 256) 0xffff800001002000 (replicate 256 no_gate) !!! 46%nat) =
    Some (0xffff80000100002e, 0, true).
Proof.
  destruct (interrupt_lines_reach_handlers (λ n, 0xffff800001000000 + Z.of_nat n mod 256) 0xffff800001002000 Machine.start
    {| pic_stage := 0; pic_base := 0; pic_mask := 0 |} {| pic_stage := 0; pic_base := 0; pic_mask := 0 |}) as (k' & w & _ & _ & Hl & _).
  - intros n. pose proof (Z.mod_pos_bound (Z.of_nat n) 256 ltac:(reflexivity)). split; [lia|]. change (2 ^ 64) with 18446744073709551616. lia.
  - split; [lia|]. reflexivity.
  - destruct (Hl 14 ltac:(lia)) as (v & _ & -> & Hg). exact Hg.
Defined.
