(* ===== verification/Boot.v ===== *)
(** The boot stage in 32-bit mode: the memory map and the bitmap of free pages (boot32/mmap.c), the
    pages that are in use (boot32/boot32mem.c), the first page tables (boot32/paging.c), and what
    the boot loader passes on (boot32/multiboot.c), composed by boot32/main.c.  Its heap is in
    KHeap.v, its descriptor tables are in Tables.v. *)
From S2P Require Import Prelude Words Mutex Bitmap PageAlloc Dll Lists Vspace KHeap Kernel.
Open Scope Z_scope.

(** [EARLY_HEAP_START] (kernel/arch/x86_64/boot32/boot32.h, lines 8-8). *)
Definition EARLY_HEAP_START : Z := 0x02000000.
(** [KERNEL_LOAD_ADDR] (kernel/arch/x86_64/boot32/boot32.h, lines 9-9). *)
Definition KERNEL_LOAD_ADDR : Z := 0x01000000.
(** [BOOT32_STACK_LOC] (kernel/arch/x86_64/boot32/boot32.h, lines 12-12). *)
Definition BOOT32_STACK_LOC : Z := 0x01000000.
(** [BOOT32_STACK_PAGES] (kernel/arch/x86_64/boot32/boot32.h, lines 13-13). *)
Definition BOOT32_STACK_PAGES : Z := 8.
(** [PAG_PRESENT] (kernel/arch/x86_64/boot32/paging.c, lines 3-3). *)
Definition PAG_PRESENT : Z := BIT 0.
(** [PAG_RDWR] (kernel/arch/x86_64/boot32/paging.c, lines 4-4). *)
Definition PAG_RDWR : Z := BIT 1.

(** [multiboot_mmape_t] (kernel/arch/x86_64/boot32/multiboot.h, lines 39-45): 24 bytes of the map. *)
Record multiboot_mmape_t := { entry_size : Z; base_addr : Z; mm_size : Z; mm_type : Z }.
Definition mmape_of (b : list Z) : multiboot_mmape_t :=
  {| entry_size := le_field b 0 4; base_addr := le_field b 4 8; mm_size := le_field b 12 8; mm_type := le_field b 20 4 |}.

(** [region_t] (kernel/arch/x86_64/boot32/mmap.c, lines 12-17). *)
Record region_t := { r_addr : Z; r_size : Z; r_available : bool }.

(** [multiboot_t] (kernel/arch/x86_64/boot32/multiboot.h, lines 5-29): what is used of it; the map, the
    command line and the first module as the bytes in memory at their addresses. *)
Record multiboot_t := {
  mb_flags : Z; mb_cmdline : list Z; mods_count : Z; mod_bytes : list Z; mmap_addr : Z; mmap_length : Z; mmap_bytes : list Z
}.

(** [bootinfo_t] (kernel/arch/x86-common/include/x86/bootinfo.h, lines 11-27). *)
Record bootinfo_t := {
  free_pages_ptr : Z; total_pages : Z; boot32_start_page : Z; boot32_page_count : Z; heap_start_page : Z; kernel_addr : Z;
  heap_pages : Z; kernel_size : Z; stack_start_page : Z; stack_pages : Z; bi_pml4_ppn : Z; cmdline_ptr : Z; ramdisk_ptr : Z;
  ramdisk_size : Z
}.

(** The static variables of the stage, its regions by address, what it copied by address, and
    the physical memory that it uses for page tables. *)
Record boot_t := {
  b_regions : gmap Z region_t;
  regions : list_t;
  phys_ram_size : Z;
  b_free_pages : option bitmap_t;
  b_copies : gmap Z (list Z);
  b_ram : ram_t;
  boot_info : bootinfo_t;
}.
Definition set_regions (v : list_t) (b : boot_t) : boot_t :=
  {| b_regions := b_regions b; regions := v; phys_ram_size := phys_ram_size b; b_free_pages := b_free_pages b; b_copies := b_copies b;
     b_ram := b_ram b; boot_info := boot_info b |}.
Definition set_b_regions (v : gmap Z region_t) (b : boot_t) : boot_t :=
  {| b_regions := v; regions := regions b; phys_ram_size := phys_ram_size b; b_free_pages := b_free_pages b; b_copies := b_copies b;
     b_ram := b_ram b; boot_info := boot_info b |}.
Definition set_phys_ram_size (v : Z) (b : boot_t) : boot_t :=
  {| b_regions := b_regions b; regions := regions b; phys_ram_size := v; b_free_pages := b_free_pages b; b_copies := b_copies b;
     b_ram := b_ram b; boot_info := boot_info b |}.
Definition set_b_free_pages (v : option bitmap_t) (b : boot_t) : boot_t :=
  {| b_regions := b_regions b; regions := regions b; phys_ram_size := phys_ram_size b; b_free_pages := v; b_copies := b_copies b;
     b_ram := b_ram b; boot_info := boot_info b |}.
Definition set_b_copies (v : gmap Z (list Z)) (b : boot_t) : boot_t :=
  {| b_regions := b_regions b; regions := regions b; phys_ram_size := phys_ram_size b; b_free_pages := b_free_pages b; b_copies := v;
     b_ram := b_ram b; boot_info := boot_info b |}.
Definition set_b_ram (v : ram_t) (b : boot_t) : boot_t :=
  {| b_regions := b_regions b; regions := regions b; phys_ram_size := phys_ram_size b; b_free_pages := b_free_pages b; b_copies := b_copies b;
     b_ram := v; boot_info := boot_info b |}.
Definition set_boot_info (v : bootinfo_t) (b : boot_t) : boot_t :=
  {| b_regions := b_regions b; regions := regions b; phys_ram_size := phys_ram_size b; b_free_pages := b_free_pages b; b_copies := b_copies b;
     b_ram := b_ram b; boot_info := v |}.

#[export] Instance region_object {A} : Object region_t A boot_t :=
  {| objs k := b_regions (k_fs k); set_objs m k := set_k_fs (set_b_regions m (k_fs k)) k |}.

(** The heap's break. *)
Class BootHeap (A : Type) := { heap_break : A → Z }.

Section operations.
Context {A : Type} `{B : Build} `{KM : Kmalloc A} `{BH : BootHeap A}.
Abbreviation kernel := (Kernel.kernel A boot_t).
Abbreviation KB := (K kernel).

Definition of_boot {X} (get : boot_t → X) (k : kernel) : X := get (k_fs k).
Definition in_boot (f : boot_t → boot_t) : KB unit := modify (λ k, set_k_fs (f (k_fs k)) k).

(** An operation on the bitmap; its array is NULL until [bitmap_init]. *)
Definition on_bitmap {X} (op : bitmap_t → res (X * bitmap_t)) : KB X :=
  bmp ← gets (of_boot b_free_pages); bmp ← lift (of_option bmp); '(x, bmp) ← lift (op bmp);
  in_boot (set_b_free_pages (Some bmp));; mret x.
Definition mark (page : Z) : KB unit := on_bitmap (λ bmp, bmp ← bitmap_set bmp page; mret (tt, bmp)).
Definition unmark (page : Z) : KB unit := on_bitmap (λ bmp, bmp ← bitmap_clr bmp page; mret (tt, bmp)).

(** [mark_pages_used] (kernel/arch/x86_64/boot32/boot32mem.c, lines 12-16). *)
Fixpoint mark_pages_used (start_page : Z) (count : nat) : KB unit :=
  match count with O => mret tt | S count => mark start_page;; mark_pages_used (u32 (start_page + 1)) count end.

(** [kmalloc] of the stage: when the break moves and there is a bitmap, the pages of the heap are
    marked ([kbrk] (kernel/arch/x86_64/boot32/heap.c, lines 49-55)). *)
Definition boot_new (size : Z) : KB Z :=
  old ← gets (λ k, heap_break (heap (k_store k)));
  p ← new size;
  brk ← gets (λ k, heap_break (heap (k_store k)));
  bmp ← gets (of_boot b_free_pages);
  when (negb (brk =? old) && bool_decide (is_Some bmp))
    (bmp ← lift (boot_kbrk_moved old brk bmp); in_boot (set_b_free_pages bmp));;
  mret p.

(** ** The memory map *)

(** An entry of the map is added to the regions ([create_mmap] (kernel/arch/x86_64/boot32/mmap.c, lines 34-44)). *)
Definition add_region (e : multiboot_mmape_t) : KB unit :=
  new_region ← boot_new 20;
  put new_region {| r_addr := base_addr e; r_size := mm_size e; r_available := mm_type e =? 1 |};;
  l ← gets (of_boot regions);
  '(_, l) ← on_store (list_add l new_region);
  in_boot (set_regions l);;
  size ← gets (of_boot phys_ram_size);
  when ((mm_type e =? 1) && (size <? u64 (base_addr e + mm_size e)))
    (in_boot (set_phys_ram_size (u64 (base_addr e + mm_size e)))).

(** The loop over the entries of the map ([create_mmap] (kernel/arch/x86_64/boot32/mmap.c, lines 30-33)), with the
    pointer [entry] and the bytes [map] at [mmap]; an access outside faults. *)
Fixpoint scan_map (n : nat) (map : list Z) (mmap end_ entry : Z) : KB unit :=
  match n with
  | O => kstop NoFuel
  | S n =>
      if end_ <=? entry then mret tt
      else if (entry <? mmap) || (Z.of_nat (length map) <? entry - mmap + 24) then kstop Fault
      else
        let e := mmape_of (drop (Z.to_nat (entry - mmap)) map) in
        add_region e;;
        scan_map n map mmap end_ (u32 (entry + entry_size e + 4))
  end.

(** [create_mmap] (kernel/arch/x86_64/boot32/mmap.c, lines 22-48). *)
Definition create_mmap (mb : multiboot_t) : KB Z :=
  in_boot (set_regions list_init);;
  scan_map (S (length (mmap_bytes mb))) (mmap_bytes mb) (mmap_addr mb) (u32 (mmap_addr mb + mmap_length mb)) (mmap_addr mb);;
  gets (of_boot phys_ram_size).

(** The first page of a region ([create_pagemap] (kernel/arch/x86_64/boot32/mmap.c, lines 67-69)) ... *)
Definition first_page (r : region_t) : Z :=
  let start_page := u32 (Z.shiftr (r_addr r) PAGE_SHIFT) in
  if negb (r_addr r mod PAGE_SIZE =? 0) then u32 (start_page + 1) else start_page.
(** ... and the last ([create_pagemap] (kernel/arch/x86_64/boot32/mmap.c, lines 71-72)). *)
Definition last_page (r : region_t) : Z := u32 (u32 (Z.shiftr (u64 (r_addr r + r_size r)) PAGE_SHIFT) - 1).

(** [for (size_t page = start_page; page <= end_page; page++)]; the loop has no end when
    [end_page] is the largest number ([create_pagemap] (kernel/arch/x86_64/boot32/mmap.c, lines 75-76)). *)
Fixpoint unmark_range (n : nat) (page end_page : Z) : KB unit :=
  match n with
  | O => kstop NoFuel
  | S n => if page <=? end_page then unmark page;; unmark_range n (u32 (page + 1)) end_page else mret tt
  end.

(** The pages of a region are free, when it is available ([create_pagemap] (kernel/arch/x86_64/boot32/mmap.c, lines
    62-76)). *)
Definition unmark_region (region : Z) : KB (option unit) :=
  r ← load (T := region_t) region;
  if negb (r_available r) then mret None
  else unmark_range (S (Z.to_nat (last_page r - first_page r + 1))) (first_page r) (last_page r);; mret None.

(** [create_pagemap] (kernel/arch/x86_64/boot32/mmap.c, lines 50-83): the address of the bitmap and the number of its
    pages. *)
Definition create_pagemap : KB (Z * Z) :=
  size ← gets (of_boot phys_ram_size);
  let total := u32 (Z.shiftr size PAGE_SHIFT) in
  bitmap ← boot_new (BITMAP_BYTE_SIZE total);
  in_boot (set_b_free_pages (Some (bitmap_init total 0xff)));;
  l ← gets (of_boot regions);
  _ ← foreach l unmark_region;
  mret (bitmap, total).

(** The page at the address [ppn << PAGE_SHIFT], a pointer of 32 bits. *)
Definition frame (ppn : Z) : Z := Z.shiftr (u32 (Z.shiftl ppn PAGE_SHIFT)) PAGE_SHIFT.

(** [alloc_page] (kernel/arch/x86_64/boot32/mmap.c, lines 85-91); when there is none, the search gives [(size_t)-1],
    which [bitmap_set] does not accept. *)
Definition alloc_page : KB Z :=
  ppn ← on_bitmap (λ bmp, ppn ← bitmap_find_free bmp; bmp ← bitmap_set bmp ppn; mret (ppn, bmp));
  in_boot (λ b, set_b_ram (<[frame ppn := ∅]> (b_ram b)) b);;
  mret ppn.

(** ** The first page tables *)

(** A new table, by its page. *)
Definition alloc_table : KB Z := ppn ← alloc_page; mret (frame ppn).

(** A store to an entry of the table in a page. *)
Definition poke (ppn i w : Z) : KB unit :=
  r ← gets (of_boot b_ram); pg ← lift (of_option (r !! ppn));
  in_boot (set_b_ram (<[ppn := <[i := w]> pg]> r)).
Definition peek (ppn i : Z) : KB Z :=
  r ← gets (of_boot b_ram); pg ← lift (of_option (r !! ppn)); mret (default 0 (pg !! i)).

(** An entry for the page [ppn] ([id_map] (kernel/arch/x86_64/boot32/paging.c, lines 27-28)). *)
Definition table_word (ppn : Z) : Z := Z.lor (Z.lor (u32 (Z.shiftl ppn PAGE_SHIFT)) PAG_PRESENT) PAG_RDWR.

(** The variables of [id_map] (kernel/arch/x86_64/boot32/paging.c, lines 10-18), the tables by their pages. *)
Record cursor := { pml4i : Z; pdpti : Z; pdiri : Z; ptbli : Z; c_phys : Z; c_pdpt : Z; c_pdir : Z; c_ptbl : Z }.

(** What follows a page table that is full ([id_map] (kernel/arch/x86_64/boot32/paging.c, lines 30-35)) ... *)
Definition next_ptbl (c : cursor) : KB cursor :=
  if 512 <=? ptbli c then
    ptbl ← alloc_table;
    poke (c_pdir c) (pdiri c + 1) (table_word ptbl);;
    mret {| pml4i := pml4i c; pdpti := pdpti c; pdiri := pdiri c + 1; ptbli := 0; c_phys := c_phys c; c_pdpt := c_pdpt c;
            c_pdir := c_pdir c; c_ptbl := ptbl |}
  else mret c.
(** ... a page directory ([id_map] (kernel/arch/x86_64/boot32/paging.c, lines 37-42)) ... *)
Definition next_pdir (c : cursor) : KB cursor :=
  if 511 <=? pdiri c then
    pdir ← alloc_table;
    poke (c_pdpt c) (pdpti c + 1) (table_word pdir);;
    mret {| pml4i := pml4i c; pdpti := pdpti c + 1; pdiri := 0; ptbli := ptbli c; c_phys := c_phys c; c_pdpt := c_pdpt c;
            c_pdir := pdir; c_ptbl := c_ptbl c |}
  else mret c.
(** ... and a table of directories ([id_map] (kernel/arch/x86_64/boot32/paging.c, lines 44-49)). *)
Definition next_pdpt (pml4 : Z) (c : cursor) : KB cursor :=
  if 511 <=? pdpti c then
    pdpt ← alloc_table;
    poke pml4 (pml4i c + 1) (table_word pdpt);;
    mret {| pml4i := pml4i c + 1; pdpti := 0; pdiri := pdiri c; ptbli := ptbli c; c_phys := c_phys c; c_pdpt := pdpt;
            c_pdir := c_pdir c; c_ptbl := c_ptbl c |}
  else mret c.

(** One page ([id_map] (kernel/arch/x86_64/boot32/paging.c, lines 25-50)). *)
Definition map_next (pml4 : Z) (c : cursor) : KB cursor :=
  poke (c_ptbl c) (ptbli c) (table_word (c_phys c));;
  c ← next_ptbl {| pml4i := pml4i c; pdpti := pdpti c; pdiri := pdiri c; ptbli := ptbli c + 1; c_phys := u32 (c_phys c + 1);
                   c_pdpt := c_pdpt c; c_pdir := c_pdir c; c_ptbl := c_ptbl c |};
  c ← next_pdir c;
  next_pdpt pml4 c.

(** The loop over the pages ([id_map] (kernel/arch/x86_64/boot32/paging.c, line 25)). *)
Fixpoint map_pages (n : nat) (pml4 : Z) (c : cursor) : KB cursor :=
  match n with O => mret c | S n => c ← map_next pml4 c; map_pages n pml4 c end.

(** The tables for the first page ([id_map] (kernel/arch/x86_64/boot32/paging.c, lines 10-23)). *)
Definition first_tables (pml4 : Z) : KB cursor :=
  pdpt ← alloc_table;
  pdir ← alloc_table;
  ptbl ← alloc_table;
  poke pml4 0 (table_word pdpt);;
  poke pdpt 0 (table_word pdir);;
  poke pdir 0 (table_word ptbl);;
  mret {| pml4i := 0; pdpti := 0; pdiri := 0; ptbli := 0; c_phys := 0; c_pdpt := pdpt; c_pdir := pdir; c_ptbl := ptbl |}.

(** [id_map] (kernel/arch/x86_64/boot32/paging.c, lines 8-51). *)
Definition id_map (pml4_ppn : Z) (pageCount : nat) : KB unit :=
  let pml4 := frame pml4_ppn in
  c ← first_tables pml4; _ ← map_pages pageCount pml4 c; mret tt.

(** [paging_init] (kernel/arch/x86_64/boot32/paging.c, lines 53-73), less the switch itself. *)
Definition paging_init (idmapPages : Z) : KB Z :=
  _ ← alloc_page;
  pml4_ppn ← alloc_page;
  id_map pml4_ppn (Z.to_nat idmapPages);;
  w ← peek (frame pml4_ppn) 0;
  poke (frame pml4_ppn) 256 w;;
  mret pml4_ppn.

(** ** The boot loader and the kernel *)

(** The addresses that the linker gives: the code and data of the stage, and the size of the kernel. *)
Context (boot_start boot_end binary_kernel_bin_size : Z).

Definition on_info (f : bootinfo_t → bootinfo_t) : KB unit := in_boot (λ b, set_boot_info (f (boot_info b)) b).
Definition copy_to (p : Z) (bytes : list Z) : KB unit := in_boot (λ b, set_b_copies (<[p := bytes]> (b_copies b)) b).
Definition set_cmdline (v : Z) (i : bootinfo_t) : bootinfo_t :=
  {| free_pages_ptr := free_pages_ptr i; total_pages := total_pages i; boot32_start_page := boot32_start_page i;
     boot32_page_count := boot32_page_count i; heap_start_page := heap_start_page i; kernel_addr := kernel_addr i; heap_pages := heap_pages i;
     kernel_size := kernel_size i; stack_start_page := stack_start_page i; stack_pages := stack_pages i; bi_pml4_ppn := bi_pml4_ppn i;
     cmdline_ptr := v; ramdisk_ptr := ramdisk_ptr i; ramdisk_size := ramdisk_size i |}.
Definition set_ramdisk (p n : Z) (i : bootinfo_t) : bootinfo_t :=
  {| free_pages_ptr := free_pages_ptr i; total_pages := total_pages i; boot32_start_page := boot32_start_page i;
     boot32_page_count := boot32_page_count i; heap_start_page := heap_start_page i; kernel_addr := kernel_addr i; heap_pages := heap_pages i;
     kernel_size := kernel_size i; stack_start_page := stack_start_page i; stack_pages := stack_pages i; bi_pml4_ppn := bi_pml4_ppn i;
     cmdline_ptr := cmdline_ptr i; ramdisk_ptr := p; ramdisk_size := n |}.
Definition set_pages (bs bc hs hp ks ss : Z) (i : bootinfo_t) : bootinfo_t :=
  {| free_pages_ptr := free_pages_ptr i; total_pages := total_pages i; boot32_start_page := bs; boot32_page_count := bc; heap_start_page := hs;
     kernel_addr := KERNEL_LOAD_ADDR + IDENT_OFFSET; heap_pages := hp; kernel_size := ks; stack_start_page := ss;
     stack_pages := BOOT32_STACK_PAGES; bi_pml4_ppn := bi_pml4_ppn i; cmdline_ptr := cmdline_ptr i; ramdisk_ptr := ramdisk_ptr i;
     ramdisk_size := ramdisk_size i |}.
Definition set_tables (fp tp pml4 : Z) (i : bootinfo_t) : bootinfo_t :=
  {| free_pages_ptr := fp; total_pages := tp; boot32_start_page := boot32_start_page i; boot32_page_count := boot32_page_count i;
     heap_start_page := heap_start_page i; kernel_addr := kernel_addr i; heap_pages := heap_pages i; kernel_size := kernel_size i;
     stack_start_page := stack_start_page i; stack_pages := stack_pages i; bi_pml4_ppn := pml4; cmdline_ptr := cmdline_ptr i;
     ramdisk_ptr := ramdisk_ptr i; ramdisk_size := ramdisk_size i |}.

(** [get_multiboot_info] (kernel/arch/x86_64/boot32/multiboot.c, lines 3-34); the strings without their null byte. *)
Definition get_multiboot_info (mb : multiboot_t) : KB unit :=
  on_info (set_cmdline 0);;
  when (negb (Z.land (mb_flags mb) (BIT 2) =? 0))
    (cmdline ← boot_new (Z.of_nat (length (mb_cmdline mb)) + 1);
     copy_to cmdline (mb_cmdline mb);;
     on_info (set_cmdline (cmdline + IDENT_OFFSET)));;
  on_info (set_ramdisk 0 0);;
  when (negb (Z.land (mb_flags mb) (BIT 3) =? 0) && (0 <? mods_count mb))
    (let initrd_size := Z.of_nat (length (mod_bytes mb)) in
     initrd_ptr ← boot_new initrd_size;
     copy_to initrd_ptr (mod_bytes mb);;
     on_info (set_ramdisk (initrd_ptr + IDENT_OFFSET) initrd_size)).

(** [alloc_boot32_pages] (kernel/arch/x86_64/boot32/boot32mem.c, lines 18-57); the kernel is copied to [KERNEL_LOAD_ADDR]. *)
Definition alloc_boot32_pages : KB unit :=
  let boot_start_page := Z.shiftr boot_start PAGE_SHIFT in
  let boot_page_count := Z.shiftr (boot_end - boot_start) PAGE_SHIFT + 1 in
  mark_pages_used boot_start_page (Z.to_nat boot_page_count);;
  let stack_start := Z.shiftr BOOT32_STACK_LOC PAGE_SHIFT - BOOT32_STACK_PAGES in
  mark_pages_used stack_start (Z.to_nat BOOT32_STACK_PAGES);;
  brk ← gets (λ k, heap_break (heap (k_store k)));
  let heap_start := Z.shiftr EARLY_HEAP_START PAGE_SHIFT in
  let heap_end_page := Z.shiftr brk PAGE_SHIFT + 1 in
  mark_pages_used heap_start (Z.to_nat (heap_end_page - heap_start));;
  let kernel_start_page := Z.shiftr KERNEL_LOAD_ADDR PAGE_SHIFT in
  let kernel_page_count := Z.shiftr binary_kernel_bin_size PAGE_SHIFT + 1 in
  mark_pages_used kernel_start_page (Z.to_nat kernel_page_count);;
  on_info (set_pages boot_start_page boot_page_count heap_start (heap_end_page - heap_start) binary_kernel_bin_size stack_start).

(** [boot32_main] (kernel/arch/x86_64/boot32/main.c, lines 22-58), between the descriptor tables and the jump to the kernel:
    what the kernel is passed. *)
Definition boot32_main (mb : multiboot_t) : KB bootinfo_t :=
  highest_addr ← create_mmap mb;
  '(bitmap_addr, total) ← create_pagemap;
  get_multiboot_info mb;;
  alloc_boot32_pages;;
  pml4 ← paging_init (u32 (Z.shiftr highest_addr PAGE_SHIFT));
  on_info (set_tables (bitmap_addr + IDENT_OFFSET) total pml4);;
  gets (of_boot boot_info).
End operations.

(** ** The map of the boot loader *)

(** An entry as bytes: its fields, and what a boot loader may add. *)
Definition encode_entry (e : multiboot_mmape_t) : list Z :=
  le_split 4 (entry_size e) ++ le_split 8 (base_addr e) ++ le_split 8 (mm_size e) ++ le_split 4 (mm_type e) ++
  replicate (Z.to_nat (entry_size e - 20)) 0.
Definition entry_ok (e : multiboot_mmape_t) : Prop :=
  20 <= entry_size e < 2 ^ 32 ∧ is_word 64 (base_addr e) ∧ is_word 64 (mm_size e) ∧ is_word 32 (mm_type e).
#[export] Instance entry_ok_dec e : Decision (entry_ok e).
Proof. unfold entry_ok. apply _. Defined.

Lemma le_field_first n x l : le_field (le_split n x ++ l) 0 n = x mod 256 ^ Z.of_nat n.
Proof. unfold le_field. rewrite drop_0, take_app_length' by (symmetry; apply length_le_split). apply le_combine_split. Qed.
Lemma le_field_skip n x l off m : (n <= off)%nat → le_field (le_split n x ++ l) off m = le_field l (off - n) m.
Proof.
  intros Hn. unfold le_field. rewrite drop_app, length_le_split. by rewrite (drop_ge (le_split n x)) by (rewrite length_le_split; lia).
Qed.

Lemma encode_length e : entry_ok e → Z.of_nat (length (encode_entry e)) = entry_size e + 4.
Proof. intros [He _]. unfold encode_entry. rewrite !length_app, !length_le_split, length_replicate. lia. Qed.

Lemma mmape_of_encode e rest : entry_ok e → mmape_of (encode_entry e ++ rest) = e.
Proof.
  intros (Hs & Hb & Hz & Ht). unfold mmape_of, encode_entry. rewrite <- !app_assoc.
  rewrite le_field_first. rewrite !(le_field_skip 4 (entry_size e)) by lia. cbn [Nat.sub]. rewrite le_field_first.
  rewrite !(le_field_skip 8 (base_addr e)) by lia. cbn [Nat.sub]. rewrite le_field_first.
  rewrite !(le_field_skip 8 (mm_size e)) by lia. cbn [Nat.sub]. rewrite le_field_first.
  change (256 ^ Z.of_nat 4) with (2 ^ 32). change (256 ^ Z.of_nat 8) with (2 ^ 64). unfold is_word in *.
  rewrite !Z.mod_small by lia. by destruct e.
Qed.

Definition region_of (e : multiboot_mmape_t) : region_t :=
  {| r_addr := base_addr e; r_size := mm_size e; r_available := mm_type e =? 1 |}.
(** The end of the memory that is available. *)
Definition ram_top (es : list multiboot_mmape_t) (s : Z) : Z :=
  foldl (λ s e, if (mm_type e =? 1) && (s <? u64 (base_addr e + mm_size e)) then u64 (base_addr e + mm_size e) else s) s es.

Lemma entries_length es : Forall entry_ok es → (length es <= length (concat (encode_entry <$> es)))%nat.
Proof.
  induction 1 as [|e es He _ IH]; [done|]. pose proof (encode_length e He). destruct He as [He _].
  cbn [fmap list_fmap concat length]. rewrite length_app. lia.
Qed.

Lemma ram_top_app es es' s : ram_top (es ++ es') s = ram_top es' (ram_top es s).
Proof. apply foldl_app. Qed.

(** [bmp'] is [bmp] with the bit [v] for the pages [P]. *)
Record bits_upd (P : Z → Prop) (v : bool) (bmp bmp' : bitmap_t) : Prop := {
  bu_wf : bm_wf bmp';
  bu_size : bm_size bmp' = bm_size bmp;
  bu_in q : 0 <= q → P q → bm_bit bmp' q = v;
  bu_out q : 0 <= q → ¬ P q → bm_bit bmp' q = bm_bit bmp q;
}.

Lemma bits_upd_none P v bmp : bm_wf bmp → (∀ q, 0 <= q → ¬ P q) → bits_upd P v bmp bmp.
Proof. intros Hwf HP. split; [done|done| |done]. intros q Hq Hp. by destruct (HP q Hq). Qed.

Lemma bits_upd_trans (P Q R : Z → Prop) v bmp bmp1 bmp2 :
  bits_upd P v bmp bmp1 → bits_upd Q v bmp1 bmp2 → (∀ q, R q ↔ P q ∨ Q q) → (∀ q, Decision (Q q)) → bits_upd R v bmp bmp2.
Proof.
  intros [Hw1 Hs1 Hi1 Ho1] [Hw2 Hs2 Hi2 Ho2] HR Hd. split; [done|congruence| |]; intros q Hq.
  - intros Hr. destruct (Hd q) as [|Hn]; [by apply Hi2|]. rewrite Ho2 by done. apply Hi1; [done|]. apply HR in Hr as [|]; done.
  - intros Hr. rewrite Ho2, Ho1; [done|done| |done|]; intros ?; apply Hr, HR; auto.
Qed.

Lemma bits_upd_or (P Q : Z → Prop) v bmp bmp1 bmp2 `{∀ q, Decision (Q q)} :
  bits_upd P v bmp bmp1 → bits_upd Q v bmp1 bmp2 → bits_upd (λ q, P q ∨ Q q) v bmp bmp2.
Proof. intros H1 H2. by eapply bits_upd_trans. Qed.

Section memory_map.
Context {A : Type} `{B : Build} `{KM : Kmalloc A} {KL : KmallocLaws A} `{BH : BootHeap A}.
Abbreviation kernel := (Kernel.kernel A boot_t).
Implicit Types (k : kernel) (es : list multiboot_mmape_t).

(** The list of regions stands for the entries [es]. *)
Record regions_ok k xs es : Prop := {
  rg_store : store_wf (k_store k);
  rg_list : list_repr (regions (k_fs k)) xs (k_store k);
  rg_objs : Forall2 (λ x e, b_regions (k_fs k) !! x = Some (region_of e)) xs.*2 es;
  rg_live x : x ∈ xs.*2 → x ∈ km_live (heap (k_store k));
  rg_bitmap : b_free_pages (k_fs k) = None;
}.

Lemma boot_new_early size k : b_free_pages (k_fs k) = None → boot_new size k = new size k.
Proof.
  intros Hb. unfold boot_new. kpure. unfold mbind at 1, K_bind at 1. destruct (new size k) as [[p k1]|w] eqn:Hn; [|done].
  kpure. assert (k_fs k1 = k_fs k) as Hf.
  { unfold new, on_heap, on_store in Hn. destruct (km_alloc size (heap (k_store k))) as [[q h]|]; simpl in Hn; [|done]. by injection Hn as <- <-. }
  assert (of_boot b_free_pages k1 = None) as -> by (unfold of_boot; by rewrite Hf). rewrite bool_decide_eq_false_2 by (by intros [? [=]]).
  rewrite andb_false_r. cbn [when]. by kpure.
Qed.

Lemma regions_ok_heap k xs es p h :
  regions_ok k xs es → store_wf ({| nodes := nodes (k_store k); heap := h |} : store A) → km_live h = {[p]} ∪ km_live (heap (k_store k)) →
  regions_ok (set_k_store {| nodes := nodes (k_store k); heap := h |} k) xs es.
Proof.
  intros [Hs Hl Ho Hv Hb] Hs' Hlive. split; [exact Hs'|exact (list_repr_heap _ _ _ h Hl)|exact Ho| |exact Hb].
  intros x Hx%Hv. cbn. rewrite Hlive. set_solver.
Qed.

(** One more region. *)
Lemma regions_ok_snoc k k' xs es e p a :
  regions_ok k xs es → p ∉ km_live (heap (k_store k)) → store_wf (k_store k') →
  list_repr (regions (k_fs k')) (xs ++ [(a, p)]) (k_store k') →
  b_regions (k_fs k') = <[p := region_of e]> (b_regions (k_fs k)) → b_free_pages (k_fs k') = None →
  {[p]} ∪ km_live (heap (k_store k)) ⊆ km_live (heap (k_store k')) → regions_ok k' (xs ++ [(a, p)]) (es ++ [e]).
Proof.
  intros [Hs Hl Ho Hv Hb] Hp Hs' Hl' Hr Hb' Hlive. split; [done|done| | |done].
  - rewrite fmap_app, Hr. apply Forall2_app; [|constructor; [apply lookup_insert_eq|constructor]].
    clear -Ho Hv Hp. induction Ho as [|x e' l es' Hx _ IH]; constructor.
    + rewrite lookup_insert_ne; [done|]. intros <-. apply Hp, Hv. by left.
    + apply IH. intros y Hy. apply Hv. by right.
  - intros y. rewrite fmap_app, elem_of_app. cbn. rewrite list_elem_of_singleton. intros [Hy%Hv| ->]; set_solver.
Qed.

Lemma add_region_spec k xs es e :
  regions_ok k xs es → (∀ n h, km_room n h) → Z.of_nat (length xs) + 1 < 2 ^ 64 →
  does (add_region e) k (λ k', ∃ x, regions_ok k' (xs ++ [x]) (es ++ [e]) ∧
    phys_ram_size (k_fs k') = ram_top [e] (phys_ram_size (k_fs k))).
Proof.
  intros Hk Hroom Hlen. pose proof Hk as [Hs Hl Ho Hv Hb]. unfold add_region, does.
  destruct (new_fresh 20 k Hs (Hroom _ _)) as [(p & h & Hn & Hs1 & Hp0 & Hpl & Hlive)|(w & Hn & Hw)].
  2: { right. exists w. split; [|done]. apply K_bind_Stop. by rewrite boot_new_early. }
  rewrite <- (boot_new_early 20 k Hb) in Hn. kstep Hn. kpure.
  destruct (regions_ok_heap k xs es p h Hk Hs1 Hlive) as [_ Hl1 _ _ _].
  match goal with |- context [(on_store (list_add ?l p) ≫= _) ?k1] =>
    destruct (listed_add (regions (k_fs k)) xs p k1 Hs1 Hl1 Hlen (Hroom _ _)) as [(i & a & l' & s' & Ha & Hs' & Hl' & Hlive')|(w & Ha & Hw)];
    change (on_store (list_add l p) k1) with (on_store (list_add (regions (k_fs k)) p) k1) end.
  2: { right. exists w. split; [by apply K_bind_Stop|done]. }
  left. kstep Ha. cbn. destruct ((mm_type e =? 1) && (phys_ram_size (k_fs k) <? u64 (base_addr e + mm_size e))) eqn:Hc;
    unfold in_boot; kpure; unfold of_boot; cbn; rewrite Hc;
    (eexists; split; [reflexivity|]; exists (a, p); split; [|reflexivity]);
    (eapply regions_ok_snoc; [exact Hk|done|exact Hs'|exact Hl'|reflexivity|exact Hb|]); cbn; rewrite Hlive'; cbn; rewrite Hlive; set_solver.
Qed.

(** The loop over the entries, from any of them. *)
Lemma scan_map_spec n k xs done_ es mmap end_ :
  regions_ok k xs done_ → (∀ n h, km_room n h) → Forall entry_ok es → 0 <= mmap → (length es < n)%nat →
  Z.of_nat (length xs + length es) < 2 ^ 64 →
  end_ = mmap + Z.of_nat (length (concat (encode_entry <$> done_ ++ es))) → end_ < 2 ^ 32 →
  does (scan_map n (concat (encode_entry <$> done_ ++ es)) mmap end_ (mmap + Z.of_nat (length (concat (encode_entry <$> done_))))) k
    (λ k', ∃ xs', regions_ok k' xs' (done_ ++ es) ∧ phys_ram_size (k_fs k') = ram_top es (phys_ram_size (k_fs k))).
Proof.
  intros Hk Hroom Hok Hmm. revert n k xs done_ Hk. induction es as [|e es IH]; intros n k xs done_ Hk Hn Hlen He Hend;
    (destruct n as [|n]; [simpl in Hn; lia|]); cbn [scan_map].
  - rewrite app_nil_r in *. rewrite (proj2 (Z.leb_le _ _)) by lia. apply does_ret. by exists xs.
  - apply list.Forall_cons in Hok as [Hoe Hok]. specialize (IH Hok).
    assert (done_ ++ e :: es = (done_ ++ [e]) ++ es) as Happ by by rewrite <- app_assoc.
    set (all := concat (encode_entry <$> done_ ++ e :: es)) in *.
    assert (all = concat (encode_entry <$> done_) ++ encode_entry e ++ concat (encode_entry <$> es)) as Hall.
    { unfold all. by rewrite fmap_app, concat_app. }
    pose proof (encode_length e Hoe) as Hle. pose proof Hoe as [Hes _].
    assert (length all = length (concat (encode_entry <$> done_)) + (length (encode_entry e) + length (concat (encode_entry <$> es))))%nat as Hla
      by by rewrite Hall, !length_app.
    rewrite (proj2 (Z.leb_gt _ _)) by lia. rewrite (proj2 (Z.ltb_ge _ mmap)), (proj2 (Z.ltb_ge _ (_ - mmap + 24))) by lia. cbn [orb].
    replace (Z.to_nat _) with (length (concat (encode_entry <$> done_))) by lia.
    assert (mmape_of (drop (length (concat (encode_entry <$> done_))) all) = e) as -> by (rewrite Hall, drop_app_length; by apply mmape_of_encode).
    eapply does_bind; [apply (add_region_spec k xs done_ e Hk Hroom); simpl in Hlen; lia|].
    intros k1 (x & Hk1 & Hr1). rewrite (uwrap_small 32 (_ + _)) by (unfold is_word; lia).
    replace (mmap + _ + entry_size e + 4) with (mmap + Z.of_nat (length (concat (encode_entry <$> done_ ++ [e])))).
    2: { rewrite fmap_app, concat_app, length_app. cbn [fmap list_fmap concat]. rewrite app_nil_r. lia. }
    unfold all in *. rewrite Happ in *. eapply does_impl.
  + eapply (IH n k1 (xs ++ [x])); [done|simpl in Hn; lia|rewrite length_app; simpl in *; lia|lia|lia].
  + intros k2 (xs' & Hk2 & Hr2). exists xs'. split; [done|]. rewrite Hr2, Hr1. symmetry. apply (ram_top_app [e]).
Qed.

(** ** The bitmap of free pages *)

Definition with_bitmap (bmp : bitmap_t) k : kernel := set_k_fs (set_b_free_pages (Some bmp) (k_fs k)) k.
Definition boot_bitmap k : option bitmap_t := b_free_pages (k_fs k).

Lemma with_bitmap_id bmp k : boot_bitmap k = Some bmp → with_bitmap bmp k = k.
Proof. intros Hb. unfold with_bitmap, set_b_free_pages. rewrite <- Hb. destruct k as []; unfold boot_bitmap, set_k_fs; simpl. f_equal. by destruct k_fs. Qed.

Lemma on_bitmap_Ok {X} (op : bitmap_t → res (X * bitmap_t)) k bmp x bmp' :
  boot_bitmap k = Some bmp → op bmp = Ok (x, bmp') → on_bitmap op k = Ok (x, with_bitmap bmp' k).
Proof.
  intros Hb Ho. unfold on_bitmap. kpure. change (of_boot b_free_pages k) with (boot_bitmap k). rewrite Hb. simpl.
  unfold mbind, K_bind, lift. simpl. by rewrite Ho.
Qed.

Lemma unmark_Ok k bmp p : boot_bitmap k = Some bmp → bm_wf bmp → 0 <= p < bm_size bmp →
  ∃ bmp', unmark p k = Ok (tt, with_bitmap bmp' k) ∧ bits_upd (λ q, q = p) false bmp bmp'.
Proof.
  intros Hb Hwf Hp. destruct (bitmap_clr_ok _ Hwf p Hp) as (bmp' & Hc & Hwf' & Hsz & Hbits). exists bmp'. split.
  - apply (on_bitmap_Ok _ k bmp); [done|]. by rewrite Hc.
  - split; [done|done| |]; intros q Hq Hqp; rewrite Hbits by done; [subst; by rewrite Z.eqb_refl|by rewrite (proj2 (Z.eqb_neq q p))].
Qed.

(** The pages from [p] to [last]. *)
Lemma unmark_range_Ok n k bmp p last : boot_bitmap k = Some bmp → bm_wf bmp → 0 <= p → last < bm_size bmp →
  last + 1 < 2 ^ 32 → last - p + 1 < Z.of_nat n → (0 < n)%nat →
  ∃ bmp', unmark_range n p last k = Ok (tt, with_bitmap bmp' k) ∧ bits_upd (λ q, p <= q <= last) false bmp bmp'.
Proof.
  revert k bmp p. induction n as [|n IH]; intros k bmp p Hb Hwf Hp Hl H32 Hn Hn0; [lia|]. cbn [unmark_range].
  destruct (Z.leb_spec p last) as [Hle|Hle].
  - destruct (unmark_Ok k bmp p Hb Hwf) as (bmp1 & Hu & Hupd); [lia|].
    rewrite (K_bind_Ok _ _ _ _ _ Hu). rewrite (uwrap_small 32) by (unfold is_word; lia). pose proof Hupd as [Hwf1 Hsz1 _ _].
    destruct (IH (with_bitmap bmp1 k) bmp1 (p + 1)) as (bmp2 & Hr & Hupd2); [done|done|simpl; lia..|].
    exists bmp2. split; [exact Hr|]. eapply bits_upd_trans; [exact Hupd|exact Hupd2|intros q; simpl; lia|intros q; simpl; apply _].
  - exists bmp. split; [|apply bits_upd_none; [done|intros; lia]]. by rewrite with_bitmap_id.
Qed.

(** The end of a region does not wrap, and it ends below 8 TiB; it is not within
    the first page. *)
Definition placed (e : multiboot_mmape_t) : Prop := mm_type e = 1 → PAGE_SIZE <= base_addr e + mm_size e < 2 ^ 43.
#[export] Instance placed_dec e : Decision (placed e).
Proof. unfold placed. apply _. Defined.
(** All of the page is memory that is available. *)
Definition covers (e : multiboot_mmape_t) (q : Z) : Prop :=
  mm_type e = 1 ∧ base_addr e <= q * PAGE_SIZE ∧ (q + 1) * PAGE_SIZE <= base_addr e + mm_size e.
Definition in_ram es (q : Z) : Prop := ∃ e, e ∈ es ∧ covers e q.
#[export] Instance covers_dec e q : Decision (covers e q).
Proof. unfold covers. apply _. Defined.
#[export] Instance in_ram_dec es q : Decision (in_ram es q).
Proof. refine (cast_if (decide (Exists (λ e, covers e q) es))); unfold in_ram; by rewrite <- (list.Exists_exists (λ e, covers e q)). Defined.

(** The pages that [create_pagemap] takes from a region are those it covers. *)
Lemma region_pages e : entry_ok e → placed e → mm_type e = 1 → let r := region_of e in
  0 <= first_page r ∧ (last_page r + 1) * PAGE_SIZE <= base_addr e + mm_size e ∧
  ∀ q, first_page r <= q <= last_page r ↔ covers e q.
Proof.
  intros (_ & Hb & Hs & _) Hp Ht r. specialize (Hp Ht). unfold is_word, PAGE_SIZE in *. unfold covers, first_page, last_page, r, region_of.
  cbn [r_addr r_size]. unfold PAGE_SIZE, PAGE_SHIFT. rewrite !Z.shiftr_div_pow2 by lia. change (2 ^ 12) with 4096 in *.
  change (2 ^ 43) with 8796093022208 in *. rewrite (uwrap_small 64) by (unfold is_word; lia).
  rewrite (uwrap_small 32 (base_addr e / _)) by (unfold is_word; zdiv). rewrite (uwrap_small 32 (_ / 4096)) by (unfold is_word; zdiv).
  rewrite (uwrap_small 32 (_ - 1)) by (unfold is_word; zdiv).
  destruct (Z.eqb_spec (base_addr e mod 4096) 0); cbn [negb]; [|rewrite uwrap_small by (unfold is_word; zdiv)]; split_and!; try zdiv;
    intros q; split; intros; split_and?; try done; zdiv.
Qed.

Lemma ram_top_ge es s e : e ∈ es → entry_ok e → placed e → mm_type e = 1 → base_addr e + mm_size e <= ram_top es s.
Proof.
  intros He (_ & Hb & Hs & _) Hp Ht. apply list_elem_of_split in He as (l1 & l2 & ->). rewrite ram_top_app. specialize (Hp Ht).
  assert (∀ l s, s <= ram_top l s) as Hge.
  { clear. induction l as [|e l IH]; intros s; [simpl; lia|]. specialize (IH (ram_top [e] s)). change (ram_top (e :: l) s) with (ram_top l (ram_top [e] s)).
    etrans; [|exact IH]. simpl. destruct (mm_type e =? 1); simpl; [|lia]. destruct (Z.ltb_spec s (u64 (base_addr e + mm_size e))); lia. }
  change (ram_top (e :: l2) ?s) with (ram_top l2 (ram_top [e] s)). etrans; [|apply Hge]. simpl. rewrite Ht. simpl.
  unfold is_word, PAGE_SIZE in *. rewrite (uwrap_small 64) by (unfold is_word; change (2 ^ 43) with 8796093022208 in *; lia).
  destruct (Z.ltb_spec (ram_top l1 s) (base_addr e + mm_size e)); lia.
Qed.

Lemma unmark_regions ys es k bmp :
  Forall2 (λ x e, b_regions (k_fs k) !! x = Some (region_of e)) ys es → Forall entry_ok es → Forall placed es →
  boot_bitmap k = Some bmp → bm_wf bmp → (∀ e, e ∈ es → mm_type e = 1 → base_addr e + mm_size e < (bm_size bmp + 1) * PAGE_SIZE) →
  ∃ bmp', run_payloads ys unmark_region k = Ok (None, with_bitmap bmp' k) ∧ bits_upd (in_ram es) false bmp bmp'.
Proof.
  intros H2. revert ys k bmp H2. induction es as [|e es IH]; intros ys k bmp H2 Hok Hpl Hb Hwf Hsz; inversion H2 as [|x ? ys' ? Hx H2']; subst.
  - exists bmp. split; [by simpl; rewrite with_bitmap_id|]. apply bits_upd_none; [done|]. intros q _ (e & He & _). by apply elem_of_nil in He.
  - apply list.Forall_cons in Hok as [Hoe Hok], Hpl as [Hpe Hpl]. cbn [run_payloads].
    assert (∃ bmp1, unmark_region x k = Ok (None, with_bitmap bmp1 k) ∧ bits_upd (covers e) false bmp bmp1) as (bmp1 & Hu & Hupd).
    { unfold unmark_region. kstep (load_Ok (O := region_object) _ _ _ Hx). cbn [region_of r_available].
      destruct (Z.eqb_spec (mm_type e) 1) as [Ht|Ht]; cbn [negb].
      - destruct (region_pages e Hoe Hpe Ht) as (H0 & Hl & Hcov). specialize (Hsz e ltac:(by left) Ht). specialize (Hpe Ht). unfold PAGE_SIZE in *.
        destruct (unmark_range_Ok (S (Z.to_nat (last_page (region_of e) - first_page (region_of e) + 1))) k bmp (first_page (region_of e))
          (last_page (region_of e)) Hb Hwf H0) as (bmp1 & Hu & Hupd); [lia|change (2 ^ 43) with 8796093022208 in *; lia|lia|lia|].
        exists bmp1. split; [by kstep Hu|]. destruct Hupd as [Hw Hs Hi Ho].
        split; [done|done| |]; intros q Hq Hc; [apply Hi|apply Ho]; try done; by rewrite Hcov.
      - exists bmp. split; [by rewrite with_bitmap_id|]. apply bits_upd_none; [done|]. by intros q _ [? _]. }
    kstep Hu. pose proof Hupd as [Hwf1 Hs1 _ _].
    destruct (IH ys' (with_bitmap bmp1 k) bmp1 H2' Hok Hpl eq_refl Hwf1) as (bmp2 & Hr & Hupd2).
    { intros e' He'. rewrite Hs1. apply Hsz. by right. }
    exists bmp2. split; [exact Hr|]. eapply bits_upd_trans; [exact Hupd|exact Hupd2| |intros q; apply _].
    intros q. unfold in_ram. set_solver.
Qed.

Lemma ram_top_small es : Forall entry_ok es → Forall placed es → 0 <= ram_top es 0 < 2 ^ 43.
Proof.
  intros Hok Hpl. assert (∀ s, 0 <= s < 2 ^ 43 → 0 <= ram_top es s < 2 ^ 43) as Hs; [|by apply Hs].
  induction es as [|e es IH]; intros s Hs; [done|]. apply list.Forall_cons in Hok as [(_ & Hb & Hz & _) Hok], Hpl as [Hp Hpl].
  change (ram_top (e :: es) s) with (ram_top es (ram_top [e] s)). apply IH; [done|done|]. simpl.
  destruct (Z.eqb_spec (mm_type e) 1) as [Ht|]; simpl; [|done]. specialize (Hp Ht). destruct (Z.ltb_spec s (u64 (base_addr e + mm_size e))); [|done].
  unfold is_word, PAGE_SIZE in *. change (2 ^ 43) with 8796093022208 in *. rewrite uwrap_small in * by (unfold is_word; lia). lia.
Qed.

(** The loop leaves the list alone. *)
Lemma unmark_range_store n p last k k' : unmark_range n p last k = Ok (tt, k') → k_store k' = k_store k.
Proof.
  revert p k. induction n as [|n IH]; intros p k; cbn [unmark_range]; [done|]. destruct (p <=? last); [|by intros [= <-]].
  unfold mbind at 1, K_bind at 1. destruct (unmark p k) as [[[] k1]|] eqn:Hu; [|done]. intros H%IH. rewrite H. clear H.
  unfold unmark, on_bitmap in Hu. rewrite K_bind_gets in Hu. unfold mbind, K_bind, lift in Hu. destruct (of_option _); [|done].
  simpl in Hu. destruct (bitmap_clr _ _); [|done]. simpl in Hu. by injection Hu as <-.
Qed.
Lemma unmark_region_store x k r k' : unmark_region x k = Ok (r, k') → k_store k' = k_store k.
Proof.
  unfold unmark_region, load. unfold mbind at 1, K_bind at 1. destruct (objs k !! x) as [rg|]; [|done].
  destruct (negb (r_available rg)); [by intros [= _ <-]|]. unfold mbind, K_bind.
  destruct (unmark_range _ _ _ k) as [[[] k1]|] eqn:Hu; [|done]. intros [= _ <-]. by eapply unmark_range_store.
Qed.

Lemma create_pagemap_spec k xs es :
  regions_ok k xs es → (∀ n h, km_room n h) → Forall entry_ok es → Forall placed es → phys_ram_size (k_fs k) = ram_top es 0 →
  (∃ p k' bmp, create_pagemap k = Ok ((p, ram_top es 0 / PAGE_SIZE), k') ∧ boot_bitmap k' = Some bmp ∧ bm_wf bmp ∧
     bm_size bmp = ram_top es 0 / PAGE_SIZE ∧ ∀ q, 0 <= q < bm_cap bmp → bm_bit bmp q = false ↔ in_ram es q) ∨
  (∃ w, create_pagemap k = Stop w ∧ no_memory w).
Proof.
  intros Hk Hroom Hok Hpl Hr. pose proof Hk as [Hs Hl Ho Hv Hb]. unfold create_pagemap. kpure. change (of_boot phys_ram_size k) with (phys_ram_size (k_fs k)). rewrite Hr.
  assert (∀ e, e ∈ es → mm_type e = 1 → base_addr e + mm_size e <= ram_top es 0) as Htop.
  { intros e He. rewrite list.Forall_forall in Hok, Hpl. apply ram_top_ge; auto. }
  assert (0 <= ram_top es 0 < 2 ^ 43) as Hrt by (by apply ram_top_small).
  assert (u32 (Z.shiftr (ram_top es 0) PAGE_SHIFT) = ram_top es 0 / PAGE_SIZE) as Ht.
  { unfold PAGE_SHIFT, PAGE_SIZE. rewrite Z.shiftr_div_pow2 by lia. change (2 ^ 12) with 4096. apply uwrap_small. unfold is_word.
    change (2 ^ 43) with 8796093022208 in *. zdiv. }
  rewrite Ht. set (total := ram_top es 0 / PAGE_SIZE) in *.
  destruct (new_fresh (BITMAP_BYTE_SIZE total) k Hs (Hroom _ _)) as [(p & h & Hn & Hs1 & Hp0 & Hpl' & Hlive)|(w & Hn & Hw)];
    rewrite <- (boot_new_early _ k Hb) in Hn.
  2: { right. exists w. split; [|done]. by apply K_bind_Stop. }
  kstep Hn. kpure. left. pose proof (regions_ok_heap k xs es p h Hk Hs1 Hlive) as [_ Hl1 Ho1 _ _].
  set (k1 := set_k_store _ k) in *. unfold in_boot. kpure. fold (with_bitmap (bitmap_init total 255) k1). set (k2 := with_bitmap _ k1).
  assert (0 <= total < 2 ^ 52) as Ht52.
  { unfold total, PAGE_SIZE. change (2 ^ 43) with 8796093022208 in *. change (2 ^ 52) with 4503599627370496. zdiv. }
  destruct (bitmap_init_wf total 255 Ht52) as [Hwf Hsz].
  destruct (unmark_regions xs.*2 es k2 (bitmap_init total 255) Ho1 Hok Hpl eq_refl Hwf) as (bmp & Hrun & [Hw' Hs' Hin Hout]).
  { intros e He Ht1. specialize (Htop e He Ht1). rewrite Hsz. unfold total, PAGE_SIZE. zdiv. }
  assert (foreach (of_boot regions k2) unmark_region k2 = Ok (None, with_bitmap bmp k2)) as Hf.
  { rewrite (foreach_payloads _ xs); [exact Hrun|exact Hs1|exact Hl1|]. intros x k' k'' _ Hx <-. by eapply unmark_region_store. }
  kstep Hf. eexists _, _, bmp. split; [reflexivity|]. split_and!; [done|done|congruence|]. intros q Hq.
  assert (bm_cap bmp = bm_cap (bitmap_init total 255)) as Hcap by (unfold bm_cap; by rewrite Hs').
  destruct (decide (in_ram es q)) as [Hi|Hi]; [by rewrite Hin by (done || lia)|].
  rewrite Hout by (done || lia). rewrite bitmap_init_bit by lia. split; [|done]. change 255 with (Z.ones 8).
  rewrite Z.ones_spec_low; [done|zdiv].
Qed.


(** An available region that ends within the first page: its last page is [(size_t)-1], and the
    loop runs off the bitmap. *)
Lemma unmark_range_runs_off n k bmp p last : DEBUG = true → boot_bitmap k = Some bmp → bm_wf bmp → 0 <= p <= bm_size bmp →
  bm_size bmp <= last < 2 ^ 32 → bm_size bmp - p < Z.of_nat n → unmark_range n p last k = Stop Panic.
Proof.
  intros Hd. revert k bmp p. induction n as [|n IH]; intros k bmp p Hb Hwf Hp Hl Hn; [lia|]. cbn [unmark_range].
  rewrite (proj2 (Z.leb_le p last)) by lia. destruct (decide (p = bm_size bmp)) as [->|Hne].
  - apply K_bind_Stop. unfold unmark, on_bitmap. kpure. change (of_boot b_free_pages k) with (boot_bitmap k). rewrite Hb.
    unfold lift, mbind, K_bind. simpl. destruct (bitmap_bounds_checked bmp (bm_size bmp)) as (_ & _ & ->); [lia|done|done].
  - destruct (unmark_Ok k bmp p Hb Hwf) as (bmp1 & Hu & [Hwf1 Hs1 _ _]); [lia|]. rewrite (K_bind_Ok _ _ _ _ _ Hu).
    rewrite (uwrap_small 32) by (unfold is_word; lia). apply (IH _ bmp1); [done|done|simpl; lia..].
Qed.

Theorem low_region_panics k x a n bmp :
  DEBUG = true → b_regions (k_fs k) !! x = Some {| r_addr := a; r_size := n; r_available := true |} → 0 <= a → 0 <= n → a + n < PAGE_SIZE →
  boot_bitmap k = Some bmp → bm_wf bmp → 1 <= bm_size bmp < 2 ^ 32 → unmark_region x k = Stop Panic.
Proof.
  intros Hd Hx Ha Hn Hend Hb Hwf Hs. unfold unmark_region. kstep (load_Ok (O := region_object) _ _ _ Hx). cbn [r_available negb].
  set (r := Build_region_t _ _ _). unfold PAGE_SIZE in Hend.
  assert (last_page r = 2 ^ 32 - 1) as ->.
  { unfold last_page, r, PAGE_SHIFT. cbn [r_addr r_size]. rewrite (uwrap_small 64) by (unfold is_word; change (2 ^ 64) with 18446744073709551616; lia).
    rewrite Z.shiftr_div_pow2 by lia. rewrite Z.div_small by (change (2 ^ 12) with 4096; lia). done. }
  assert (0 <= first_page r <= 1) as Hf.
  { unfold first_page, r, PAGE_SHIFT. cbn [r_addr]. rewrite Z.shiftr_div_pow2 by lia. rewrite Z.div_small by (change (2 ^ 12) with 4096; lia).
    destruct (negb _); done. }
  apply K_bind_Stop. change (2 ^ 32) with 4294967296 in *. apply (unmark_range_runs_off _ _ bmp); [done|done|done|lia|change (2 ^ 32) with 4294967296; lia|lia].
Qed.

(** ** The pages that are in use *)

Lemma mark_Ok k bmp p : boot_bitmap k = Some bmp → bm_wf bmp → 0 <= p < bm_size bmp →
  ∃ bmp', mark p k = Ok (tt, with_bitmap bmp' k) ∧ bits_upd (λ q, q = p) true bmp bmp'.
Proof.
  intros Hb Hwf Hp. destruct (bitmap_set_ok _ Hwf p Hp) as (bmp' & Hc & Hwf' & Hsz & Hbits). exists bmp'. split.
  - apply (on_bitmap_Ok _ k bmp); [done|]. by rewrite Hc.
  - split; [done|done| |]; intros q Hq Hqp; rewrite Hbits by done; [subst; by rewrite Z.eqb_refl|by rewrite (proj2 (Z.eqb_neq q p))].
Qed.

Lemma mark_pages_used_Ok n k bmp p : boot_bitmap k = Some bmp → bm_wf bmp → 0 <= p → p + Z.of_nat n <= bm_size bmp → bm_size bmp < 2 ^ 32 →
  ∃ bmp', mark_pages_used p n k = Ok (tt, with_bitmap bmp' k) ∧ bits_upd (λ q, p <= q < p + Z.of_nat n) true bmp bmp'.
Proof.
  revert k bmp p. induction n as [|n IH]; intros k bmp p Hb Hwf Hp Hl H32; cbn [mark_pages_used].
  - exists bmp. split; [by rewrite with_bitmap_id|]. apply bits_upd_none; [done|intros; lia].
  - destruct (mark_Ok k bmp p Hb Hwf) as (bmp1 & Hu & Hupd); [lia|]. kstep Hu. pose proof Hupd as [Hwf1 Hs1 _ _].
    rewrite (uwrap_small 32) by (unfold is_word; lia).
    destruct (IH (with_bitmap bmp1 k) bmp1 (p + 1)) as (bmp2 & Hr & Hupd2); [done|done|lia|lia|lia|].
    exists bmp2. split; [exact Hr|]. eapply bits_upd_trans; [exact Hupd|exact Hupd2|intros q; simpl; lia|intros q; simpl; apply _].
Qed.

(** A range of pages of [boot_info]. *)
Definition in_range (start count q : Z) : Prop := start <= q < start + count.
#[local] Instance in_range_dec start count q : Decision (in_range start count q).
Proof. unfold in_range. apply _. Defined.

Lemma mark_range_Ok k bmp p c : boot_bitmap k = Some bmp → bm_wf bmp → bm_size bmp <= 1048576 → 0 <= p → 0 <= c → p + c <= bm_size bmp →
  ∃ bmp', mark_pages_used p (Z.to_nat c) k = Ok (tt, with_bitmap bmp' k) ∧ bits_upd (in_range p c) true bmp bmp'.
Proof.
  intros Hb Hwf Hs Hp Hc Hl. destruct (mark_pages_used_Ok (Z.to_nat c) k bmp p) as (bmp' & Hm & [Hw' Hs' Hi Ho]); [done|done|done|lia|lia|].
  exists bmp'. split; [done|]. split; [done|done| |]; intros q Hq Hr; [apply Hi|apply Ho]; unfold in_range in *; try lia.
Qed.

(** The pages that the kernel is told of: the code and data of the stage, its stack, its heap, and the
    kernel. *)
Definition recorded (i : bootinfo_t) (q : Z) : Prop :=
  in_range (boot32_start_page i) (boot32_page_count i) q ∨ in_range (stack_start_page i) (stack_pages i) q ∨
  in_range (heap_start_page i) (heap_pages i) q ∨ in_range ((kernel_addr i - IDENT_OFFSET) / PAGE_SIZE) (kernel_size i / PAGE_SIZE + 1) q.

(** [alloc_boot32_pages] marks used what it records in [boot_info], and nothing else. *)
Theorem alloc_boot32_pages_marks boot_start boot_end size k bmp :
  boot_bitmap k = Some bmp → bm_wf bmp → bm_size bmp <= 2 ^ 20 →
  let brk := heap_break (heap (k_store k)) in
  0 <= boot_start <= boot_end → EARLY_HEAP_START <= brk → 0 <= size →
  boot_start / PAGE_SIZE + (boot_end - boot_start) / PAGE_SIZE + 1 <= bm_size bmp → brk / PAGE_SIZE + 1 <= bm_size bmp →
  (KERNEL_LOAD_ADDR + size) / PAGE_SIZE + 1 <= bm_size bmp →
  ∃ k' bmp', alloc_boot32_pages boot_start boot_end size k = Ok (tt, k') ∧ boot_bitmap k' = Some bmp' ∧
    bits_upd (recorded (boot_info (k_fs k'))) true bmp bmp'.
Proof.
  intros Hb Hwf Hs brk Hbs Hbrk Hsz H1 H2 H3. unfold EARLY_HEAP_START, KERNEL_LOAD_ADDR, PAGE_SIZE in *. change (2 ^ 20) with 1048576 in Hs.
  unfold alloc_boot32_pages. rewrite !Z.shiftr_div_pow2 by (unfold PAGE_SHIFT; lia). unfold PAGE_SHIFT, BOOT32_STACK_LOC.
  change (2 ^ 12) with 4096. unfold EARLY_HEAP_START, KERNEL_LOAD_ADDR.
  set (bp := boot_start / 4096) in *. set (bc := (boot_end - boot_start) / 4096 + 1) in *.
  assert (0 <= bp ∧ 0 <= bc) as [Hbp Hbc] by (unfold bp, bc; zdiv).
  destruct (mark_range_Ok k bmp bp bc) as (b1 & Hr1 & Hu1); [done|done|done|lia|lia|lia|]. pose proof Hu1 as [Hw1 Hs1 _ _].
  destruct (mark_range_Ok (with_bitmap b1 k) b1 (16777216 / 4096 - BOOT32_STACK_PAGES) BOOT32_STACK_PAGES) as (b2 & Hr2 & Hu2);
    [done|done|lia|done|done|rewrite Hs1; unfold BOOT32_STACK_PAGES; zdiv|]. pose proof Hu2 as [Hw2 Hs2 _ _].
  destruct (mark_range_Ok (with_bitmap b2 k) b2 (33554432 / 4096) (brk / 4096 + 1 - 33554432 / 4096)) as (b3 & Hr3 & Hu3);
    [done|done|lia|done|zdiv|lia|]. pose proof Hu3 as [Hw3 Hs3 _ _].
  destruct (mark_range_Ok (with_bitmap b3 k) b3 (16777216 / 4096) (size / 4096 + 1)) as (b4 & Hr4 & Hu4);
    [done|done|lia|done|zdiv|zdiv|].
  kstep Hr1. kstep Hr2. kpure. change (heap_break _) with brk. rewrite Z.shiftr_div_pow2 by lia. change (2 ^ 12) with 4096.
  kstep Hr3. kstep Hr4. unfold on_info, in_boot. eexists _, b4. split; [reflexivity|]. split; [done|].
  exact (bits_upd_or _ _ _ _ _ _ Hu1 (bits_upd_or _ _ _ _ _ _ Hu2 (bits_upd_or _ _ _ _ _ _ Hu3 Hu4))).
Qed.
End memory_map.

(** ** A machine of 8 MiB *)

#[local] Existing Instance debug_build.
Import Machine.

(** The stage at its start, and with a bitmap and some pages. *)
Module BootMachine.
#[export] Instance boot_heap : BootHeap Machine.t := {| heap_break a := Bump.top (alloc a) |}.
Definition no_info : bootinfo_t :=
  {| free_pages_ptr := 0; total_pages := 0; boot32_start_page := 0; boot32_page_count := 0; heap_start_page := 0; kernel_addr := 0; heap_pages := 0;
     kernel_size := 0; stack_start_page := 0; stack_pages := 0; bi_pml4_ppn := 0; cmdline_ptr := 0; ramdisk_ptr := 0; ramdisk_size := 0 |}.
Definition boot_with (size : Z) (bmp : option bitmap_t) (r : ram_t) : boot_t :=
  {| b_regions := ∅; regions := list_init; phys_ram_size := size; b_free_pages := bmp; b_copies := ∅; b_ram := r; boot_info := no_info |}.
Definition boot_start : Kernel.kernel Machine.t boot_t := start_with (boot_with 0 None ∅).
End BootMachine.
Import BootMachine.

(** Low memory up to 639 KiB, what the firmware keeps of it, and 7 MiB from the first MiB on. *)
Definition small_map : list multiboot_mmape_t :=
  [{| entry_size := 20; base_addr := 0; mm_size := 0x9fc00; mm_type := 1 |};
   {| entry_size := 20; base_addr := 0x9fc00; mm_size := 0x400; mm_type := 2 |};
   {| entry_size := 24; base_addr := 0x100000; mm_size := 0x700000; mm_type := 1 |}].
Definition small_mb : multiboot_t :=
  {| mb_flags := 0; mb_cmdline := []; mods_count := 0; mod_bytes := []; mmap_addr := 0x9000;
     mmap_length := 76; mmap_bytes := concat (encode_entry <$> small_map) |}.

