(* ===== verification/IdMap.v ===== *)
(** The tables that the boot stage makes (boot32/paging.c): which pages they map. *)
From S2P Require Import Prelude Words Mutex Bitmap PageAlloc Dll Lists Vspace Kernel Boot.
Open Scope Z_scope.

(** The tables by what they are for: the m-th page table is the m-th that was made. *)
Inductive table := TPml4 | TPdpt | TDir (j : Z) | TTbl (m : Z).
#[global] Instance table_eq_dec : EqDecision table.
Proof. solve_decision. Defined.
Implicit Types (r : table) (e : table → Z → option Z).

(** Functions with one value changed. *)
Definition fn_set {X} `{EqDecision Y} (f : Y → X) (y : Y) (x : X) : Y → X := λ y', if decide (y' = y) then x else f y'.
Lemma fn_set_eq {X} `{EqDecision Y} (f : Y → X) y x : fn_set f y x y = x.
Proof. unfold fn_set. by rewrite decide_True. Qed.
Lemma fn_set_ne {X} `{EqDecision Y} (f : Y → X) y x y' : y' ≠ y → fn_set f y x y' = f y'.
Proof. intros. unfold fn_set. by rewrite decide_False. Qed.

Lemma table_word_small p : 0 <= p < 2 ^ 20 → table_word p = p * 4096 + 3.
Proof.
  intros Hp. unfold table_word, PAGE_SHIFT, PAG_PRESENT, PAG_RDWR, BIT. rewrite Z.shiftl_mul_pow2 by lia. change (2 ^ 12) with 4096.
  change (2 ^ 20) with 1048576 in Hp. rewrite uwrap_small by (unfold is_word; change (2 ^ 32) with 4294967296; lia).
  rewrite <- Z.lor_assoc. change (Z.lor (Z.shiftl 1 0) (Z.shiftl 1 1)) with (Z.ones 2).
  symmetry. apply Z.add_nocarry_lor. rewrite Z.land_ones by lia. change (2 ^ 2) with 4. zdiv.
Qed.

Lemma frame_small p : 0 <= p < 2 ^ 20 → frame p = p.
Proof.
  intros Hp. unfold frame, PAGE_SHIFT. rewrite Z.shiftl_mul_pow2 by lia. change (2 ^ 12) with 4096.
  change (2 ^ 20) with 1048576 in Hp. rewrite uwrap_small by (unfold is_word; change (2 ^ 32) with 4294967296; lia).
  rewrite Z.shiftr_div_pow2 by lia. change (2 ^ 12) with 4096. by rewrite Z.div_mul.
Qed.

(** What the processor reads of a word. *)
Lemma table_word_fields p : 0 <= p < 2 ^ 20 → e_present (table_word p) = true ∧ e_ppn (table_word p) = p ∧ e_write (table_word p) = 1.
Proof.
  intros Hp. rewrite table_word_small by done. unfold e_present, e_ppn, e_write, bf_get. change (2 ^ 20) with 1048576 in Hp.
  rewrite !Z.land_ones, !Z.shiftr_div_pow2 by lia. change (2 ^ 0) with 1. change (2 ^ 1) with 2. change (2 ^ 12) with 4096.
  change (2 ^ 40) with 1099511627776. split_and!; [|zdiv|zdiv].
  replace ((p * 4096 + 3) / 1 mod 2) with 1; [done|]. zdiv.
Qed.

Section tables.
Context {A : Type} `{B : Build} `{KM : Kmalloc A} `{BH : BootHeap A}.
Abbreviation kernel := (Kernel.kernel A boot_t).
Implicit Types (k : kernel) (st : pages_t).

(** The pages of the stage, as those of the kernel's page allocator. *)
Record pages_of k st : Prop := {
  po_bitmap : boot_bitmap k = Some (free_pages st);
  po_ram : b_ram (k_fs k) = ram st;
  po_wf : pages_wf st;
  po_small : PageAlloc.page_count st <= 2 ^ 20;
}.

(** Its [alloc_page] is that of the kernel, as long as a page is free. *)
Lemma alloc_page_Ok k st : pages_of k st → free_room 1 st →
  ∃ p k' st', Boot.alloc_page k = Ok (p, k') ∧ pages_of k' st' ∧ is_page st p ∧ ¬ used st p ∧
    ram st' = <[p := ∅]> (ram st) ∧ pages_upd (λ q, q = p) true st st' ∧ ∀ n, free_room (S n) st → free_room n st'.
Proof.
  intros [Hb Hr Hwf Hs] Hroom. destruct (alloc_page_room 0 st Hwf) as [(p & st' & Ha & Hp & Hu & Hram & Hupd & Hn)|[_ Hno]]; [|done].
  assert (0 <= p < 2 ^ 20) as Hp20 by (unfold is_page in Hp; lia).
  exists p, (set_k_fs (set_b_ram (ram st') (k_fs (with_bitmap (free_pages st') k))) (with_bitmap (free_pages st') k)), st'.
  split_and!; try done.
  - unfold PageAlloc.alloc_page in Ha. rewrite (pw_lock _ Hwf), mutex_lock_idle in Ha. simpl in Ha.
    apply bind_Ok in Ha as (q & Hq & Ha). apply bind_Ok in Ha as ([] & _ & Ha). apply bind_Ok in Ha as (bmp & Hset & Ha).
    apply bind_Ok in Ha as (l & _ & Ha). injection Ha as -> <-. simpl in *. unfold Boot.alloc_page.
    rewrite (K_bind_Ok _ _ k p (with_bitmap bmp k)).
    + unfold in_boot. kpure. rewrite frame_small by done. cbn. by rewrite Hr.
    + apply (on_bitmap_Ok _ k (free_pages st)); [done|]. rewrite Hq. simpl. by rewrite Hset.
  - destruct Hupd as [Hwf' Hc _ _]. split; [done|done|done|lia].
Qed.

(** The tables [P] are in the pages [at_], and their entries lead to the pages [e]. *)
Record tables (P : table → Prop) (at_ : table → Z) e st : Prop := {
  tb_page r : P r → is_page st (at_ r) ∧ used st (at_ r);
  tb_inj r r' : P r → P r' → at_ r = at_ r' → r = r';
  tb_ram r : P r → ∃ pg, ram st !! at_ r = Some pg ∧ ∀ i, pg !! i = table_word <$> e r i;
}.

Lemma tables_ext P P' at_ at' e e' st :
  tables P at_ e st → (∀ r, P' r → P r) → (∀ r, P' r → at' r = at_ r) → (∀ r i, P' r → e' r i = e r i) → tables P' at' e' st.
Proof.
  intros [Hp Hi Hr] HP Ha He. split.
  - intros r Hpr. rewrite Ha by done. auto.
  - intros r r' H1 H2. rewrite !Ha by done. auto.
  - intros r Hpr. rewrite Ha by done. destruct (Hr r (HP r Hpr)) as (pg & Hpg & Hent). exists pg. split; [done|]. intros i. by rewrite He, Hent.
Qed.

(** A store to an entry. *)
Lemma tables_poke P at_ e k st r i x : pages_of k st → tables P at_ e st → P r →
  ∃ k' st', poke (at_ r) i (table_word x) k = Ok (tt, k') ∧ pages_of k' st' ∧ free_pages st' = free_pages st ∧
    tables P at_ (fn_set e r (fn_set (e r) i (Some x))) st'.
Proof.
  intros [Hb Hm Hwf Hs] [Hp Hi Hr] Hpr. destruct (Hr r Hpr) as (pg & Hpg & Hent).
  set (m := <[at_ r := <[i := table_word x]> pg]> (ram st)).
  exists (set_k_fs (set_b_ram m (k_fs k)) k), (set_ram st m). split; [|split; [|split; [done|]]].
  - unfold poke, in_boot. kpure. change (of_boot b_ram k) with (b_ram (k_fs k)). rewrite Hm, Hpg. reflexivity.
  - destruct Hwf as [? ? ?]. split; [done|done|by split|done].
  - split; [exact Hp|exact Hi|]. intros r' Hpr'. cbn [ram set_ram]. unfold m. destruct (decide (r' = r)) as [->|Hne].
    + eexists. rewrite lookup_insert_eq. split; [done|]. intros i'. rewrite fn_set_eq. unfold fn_set. destruct (decide (i' = i)) as [->|Hni].
      * by rewrite lookup_insert_eq.
      * by rewrite lookup_insert_ne, Hent.
    + rewrite lookup_insert_ne by (intros Heq; by apply Hne, Hi). rewrite fn_set_ne by done. by apply Hr.
Qed.

(** A new table is empty. *)
Lemma tables_alloc P at_ e k st r n : pages_of k st → tables P at_ e st → ¬ P r → free_room (S n) st →
  ∃ p k' st', alloc_table k = Ok (p, k') ∧ pages_of k' st' ∧ 0 <= p < 2 ^ 20 ∧ free_room n st' ∧
    tables (λ r', P r' ∨ r' = r) (fn_set at_ r p) (fn_set e r (λ _, None)) st'.
Proof.
  intros Hk [Hp Hi Hr] Hnr Hroom.
  destruct (alloc_page_Ok k st Hk) as (p & k' & st' & Ha & Hk' & Hpg & Hnu & Hram & [Hwf Hc Hin Hout] & Hn).
  { destruct Hroom as (l & Hnd & Hlen & Hl). exists l. split_and!; [done|lia|done]. }
  assert (0 <= p < 2 ^ 20) as Hp20 by (pose proof (po_small _ _ Hk); unfold is_page in Hpg; lia).
  exists p, k', st'. split_and!; [|done|lia|lia|by apply Hn|].
  { unfold alloc_table. kstep Ha. by rewrite frame_small. }
  assert (∀ r', P r' → at_ r' ≠ p) as Hfresh by (intros r' Hr' <-; by apply Hnu, Hp).
  assert (∀ r', P r' → r' ≠ r) as Hne by (intros r' Hr' ->; done).
  split.
  - intros r' [Hr'| ->]; [rewrite fn_set_ne by auto|rewrite fn_set_eq].
    + destruct (Hp r' Hr') as [H1 H2]. unfold is_page, used in *. rewrite Hc. split; [done|]. rewrite Hout; [done|lia|auto].
    + unfold is_page, used in *. rewrite Hc. split; [done|]. apply Hin; lia.
  - intros r1 r2 [H1| ->] [H2| ->]; rewrite ?fn_set_eq, ?fn_set_ne by auto; auto.
    + intros ?. by destruct (Hfresh r1 H1).
    + intros ?. by destruct (Hfresh r2 H2).
  - intros r' [Hr'| ->].
    + rewrite !fn_set_ne by auto. rewrite Hram, lookup_insert_ne by (by apply not_eq_sym, Hfresh). by apply Hr.
    + rewrite !fn_set_eq, Hram, lookup_insert_eq. exists ∅. split; [done|]. intros i. by rewrite lookup_empty.
Qed.

Lemma free_room_same n st st' : free_pages st' = free_pages st → free_room n st → free_room n st'.
Proof. intros Hf. unfold free_room, is_page, used, PageAlloc.page_count. by rewrite Hf. Qed.

(** A new table is entered in another. *)
Lemma tables_add P at_ e k st r r0 i n : pages_of k st → tables P at_ e st → ¬ P r → P r0 → free_room (S n) st →
  ∃ p k1 k' st', alloc_table k = Ok (p, k1) ∧ poke (at_ r0) i (table_word p) k1 = Ok (tt, k') ∧ pages_of k' st' ∧
    0 <= p < 2 ^ 20 ∧ free_room n st' ∧
    tables (λ r', P r' ∨ r' = r) (fn_set at_ r p) (fn_set (fn_set e r (λ _, None)) r0 (fn_set (e r0) i (Some p))) st'.
Proof.
  intros Hk Ht Hr H0 Hroom. assert (r0 ≠ r) as Hne by by intros ->.
  destruct (tables_alloc P at_ e k st r n Hk Ht Hr Hroom) as (p & k1 & st1 & Ha & Hk1 & Hp & Hroom1 & Ht1).
  destruct (tables_poke _ _ _ k1 st1 r0 i p Hk1 Ht1 (or_introl H0)) as (k2 & st2 & Hpk & Hk2 & Hf & Ht2).
  rewrite fn_set_ne in Hpk by done. rewrite (fn_set_ne e r _ r0) in Ht2 by done.
  exists p, k1, k2, st2. split_and!; try done; try lia. by eapply free_room_same.
Qed.

(** ** The loop *)

(** When [n] pages are mapped: the tables there are, and their entries. *)
Definition made (n : Z) r : Prop :=
  match r with TPml4 | TPdpt => True | TDir j => 0 <= j <= n / 512 / 511 | TTbl m => 0 <= m <= n / 512 end.
Definition entries (n : Z) (at_ : table → Z) r (i : Z) : option Z :=
  match r with
  | TPml4 => if decide (i = 0) then Some (at_ TPdpt) else None
  | TPdpt => if decide (0 <= i <= n / 512 / 511) then Some (at_ (TDir i)) else None
  | TDir j => if decide (0 <= i < 512 ∧ (i = 0 → j = 0) ∧ 511 * j + i <= n / 512) then Some (at_ (TTbl (511 * j + i))) else None
  | TTbl m => if decide (0 <= i < 512 ∧ 512 * m + i < n) then Some (512 * m + i) else None
  end.
Definition stage (n : Z) (at_ : table → Z) st : Prop := tables (made n) at_ (entries n at_) st.
Definition cursor_at (n : Z) (at_ : table → Z) : cursor :=
  {| pml4i := 0; pdpti := n / 512 / 511; pdiri := (n / 512) mod 511; ptbli := n mod 512; c_phys := n; c_pdpt := at_ TPdpt;
     c_pdir := at_ (TDir (n / 512 / 511)); c_ptbl := at_ (TTbl (n / 512)) |}.
Local Ltac fields := unfold cursor_at; cbn [ptbli pml4i pdpti pdiri c_phys c_pdpt c_pdir c_ptbl].

(** Two tables of entries are the same, entry by entry. *)
Local Ltac same_entries :=
  unfold fn_set; cbn [entries made] in *; repeat (case_decide; cbn [entries] in *; simplify_eq);
  repeat match goal with H : TTbl ?a ≠ TTbl ?b |- _ => assert (a ≠ b) by congruence; clear H
                       | H : TDir ?a ≠ TDir ?b |- _ => assert (a ≠ b) by congruence; clear H end;
  try done; first [f_equal; zdiv | exfalso; zdiv].

(** The tables that are made for them, behind the first four. *)
Definition extra (n : Z) : Z := n / 512 + n / 512 / 511.

(** A page within a page table. *)
Lemma map_next_within n k st at_ : pages_of k st → stage n at_ st → 0 <= n < 2 ^ 20 → n mod 512 ≠ 511 →
  ∃ k' st', map_next (at_ TPml4) (cursor_at n at_) k = Ok (cursor_at (n + 1) at_, k') ∧ pages_of k' st' ∧
    free_pages st' = free_pages st ∧ stage (n + 1) at_ st'.
Proof.
  intros Hk Hst Hn Hne. change (2 ^ 20) with 1048576 in Hn. unfold map_next.
  assert ((n + 1) / 512 = n / 512) as Hd by zdiv. assert ((n + 1) mod 512 = n mod 512 + 1) as Hm by zdiv.
  destruct (tables_poke _ _ _ k st (TTbl (n / 512)) (n mod 512) n Hk Hst) as (k' & st' & Hpk & Hk' & Hf & Ht'); [simpl; zdiv|].
  exists k', st'. split_and!; [|done|done|].
  - fields. kstep Hpk. unfold next_ptbl, next_pdir, next_pdpt. fields.
    rewrite (proj2 (Z.leb_gt 512 _)) by zdiv. kpure. fields.
    rewrite (proj2 (Z.leb_gt 511 _)) by zdiv. kpure. fields.
    rewrite (proj2 (Z.leb_gt 511 _)) by zdiv. rewrite Hd, Hm.
    rewrite (uwrap_small 32) by (unfold is_word; change (2 ^ 32) with 4294967296; lia). done.
  - eapply tables_ext; [exact Ht'| |done|].
    + intros [] Hr; simpl in *; rewrite ?Hd in *; done.
    + intros [| |j|m] i Hr; simpl in Hr; rewrite ?Hd in Hr; cbn [entries]; rewrite ?Hd; same_entries.
Qed.

(** The end of a page table. *)
Lemma map_next_wrap n k st at_ m : pages_of k st → stage n at_ st → 0 <= n < 2 ^ 20 → n mod 512 = 511 →
  free_room (Z.to_nat (extra (n + 1) - extra n) + m) st →
  ∃ k' st' at', map_next (at_ TPml4) (cursor_at n at_) k = Ok (cursor_at (n + 1) at', k') ∧ at' TPml4 = at_ TPml4 ∧ pages_of k' st' ∧
    stage (n + 1) at' st' ∧ free_room m st'.
Proof.
  intros Hk Hst Hn Hne Hroom. change (2 ^ 20) with 1048576 in Hn. unfold map_next. unfold extra in Hroom.
  assert ((n + 1) / 512 = n / 512 + 1) as Hd by zdiv. assert ((n + 1) mod 512 = 0) as Hm by zdiv.
  rewrite Hd in Hroom. set (M := n / 512) in *. assert (0 <= M < 2048) as HM by (unfold M; zdiv).
  destruct (tables_poke _ _ _ k st (TTbl M) 511 n Hk Hst) as (k1 & st1 & Hpk & Hk1 & Hf & Ht1); [simpl; lia|].
  apply (free_room_same _ _ st1) in Hroom; [|done].
  destruct (decide (M mod 511 = 510)) as [Hfull|Hnf].
  - assert ((M + 1) / 511 = M / 511 + 1) as HdM by zdiv. assert ((M + 1) mod 511 = 0) as HmM by zdiv.
    rewrite HdM in Hroom. replace (Z.to_nat _ + m)%nat with (S (S m)) in Hroom by lia.
    destruct (tables_add _ _ _ k1 st1 (TTbl (M + 1)) (TDir (M / 511)) 511 (S m) Hk1 Ht1) as (p & k2 & k3 & st3 & Ha & Hp3 & Hk3 & Hp & Hroom3 & Ht3);
      [simpl; lia|simpl; zdiv|done|].
    destruct (tables_add _ _ _ k3 st3 (TDir (M / 511 + 1)) TPdpt (M / 511 + 1) m Hk3 Ht3) as (q & k4 & k5 & st5 & Ha5 & Hp5 & Hk5 & Hq & Hroom5 & Ht5);
      [cbn [made]; fold M; intros [?|?]; [lia|done]|by left|done|].
    exists k5, st5, (fn_set (fn_set at_ (TTbl (M + 1)) p) (TDir (M / 511 + 1)) q). split_and!; [|done|done| |done].
    + fields. fold M. rewrite Hd, Hm, Hne, HdM, HmM. kstep Hpk. unfold next_ptbl, next_pdir, next_pdpt. fields.
      rewrite (uwrap_small 32) by (unfold is_word; change (2 ^ 32) with 4294967296; lia). change (512 <=? 511 + 1) with true. cbv iota.
      rewrite K_bind_assoc. kstep Ha. rewrite K_bind_assoc, Hfull. change (510 + 1) with 511. kstep Hp3. kpure. fields.
      change (511 <=? 511) with true. cbv iota.
      rewrite K_bind_assoc. kstep Ha5. rewrite K_bind_assoc. rewrite fn_set_ne in Hp5 by done. kstep Hp5. kpure. fields.
      rewrite (proj2 (Z.leb_gt 511 _)) by zdiv. rewrite !fn_set_eq, !(fn_set_ne _ _ _ TPdpt), fn_set_ne, fn_set_eq by done. done.
    + eapply tables_ext; [exact Ht5| |done|].
      * intros [| |j|j] Hr; cbn [made] in *; rewrite ?Hd, ?HdM in Hr; fold M; try tauto.
        -- destruct (decide (j = M / 511 + 1)) as [->|]; [by right|left; left; lia].
        -- destruct (decide (j = M + 1)) as [->|]; [left; by right|left; left; lia].
      * intros [| |j|j] i Hr; cbn [made entries] in *; rewrite ?Hd, ?HdM in *; clearbody M; same_entries.
  - assert ((M + 1) / 511 = M / 511) as HdM by zdiv. assert ((M + 1) mod 511 = M mod 511 + 1) as HmM by zdiv.
    rewrite HdM in Hroom. replace (Z.to_nat _ + m)%nat with (S m) in Hroom by lia.
    destruct (tables_add _ _ _ k1 st1 (TTbl (M + 1)) (TDir (M / 511)) (M mod 511 + 1) m Hk1 Ht1) as (p & k2 & k3 & st3 & Ha & Hp3 & Hk3 & Hp & Hroom3 & Ht3);
      [simpl; lia|simpl; zdiv|done|].
    exists k3, st3, (fn_set at_ (TTbl (M + 1)) p). split_and!; [|done|done| |done].
    + fields. fold M. rewrite Hd, Hm, Hne, HdM, HmM. kstep Hpk. unfold next_ptbl, next_pdir, next_pdpt. fields.
      rewrite (uwrap_small 32) by (unfold is_word; change (2 ^ 32) with 4294967296; lia). change (512 <=? 511 + 1) with true. cbv iota.
      rewrite K_bind_assoc. kstep Ha. rewrite K_bind_assoc. kstep Hp3. kpure. fields.
      rewrite (proj2 (Z.leb_gt 511 _)) by zdiv. kpure. fields. rewrite (proj2 (Z.leb_gt 511 _)) by zdiv.
      by rewrite fn_set_eq, !fn_set_ne by done.
    + eapply tables_ext; [exact Ht3| |done|].
      * intros [| |j|j] Hr; cbn [made] in *; rewrite ?Hd, ?HdM in Hr; fold M; try tauto.
        destruct (decide (j = M + 1)) as [->|]; [by right|left; lia].
      * intros [| |j|j] i Hr; cbn [made entries] in *; rewrite ?Hd, ?HdM in *; clearbody M; same_entries.
Qed.

(** Any number of pages, up to 4 GiB. *)
Lemma map_pages_Ok c n k st at_ : pages_of k st → stage n at_ st → 0 <= n → n + Z.of_nat c <= 2 ^ 20 →
  free_room (Z.to_nat (extra (n + Z.of_nat c) - extra n)) st →
  ∃ k' st' at', map_pages c (at_ TPml4) (cursor_at n at_) k = Ok (cursor_at (n + Z.of_nat c) at', k') ∧ at' TPml4 = at_ TPml4 ∧
    pages_of k' st' ∧ stage (n + Z.of_nat c) at' st'.
Proof.
  revert n k st at_. induction c as [|c IH]; intros n k st at_ Hk Hst Hn Hc Hroom; cbn [map_pages].
  - rewrite Z.add_0_r. by exists k, st, at_.
  - replace (n + Z.of_nat (S c)) with (n + 1 + Z.of_nat c) in * by lia.
    assert (extra n <= extra (n + 1) <= extra (n + 1 + Z.of_nat c)) as Hex by (unfold extra; zdiv).
    assert (∃ k1 st1 at1, map_next (at_ TPml4) (cursor_at n at_) k = Ok (cursor_at (n + 1) at1, k1) ∧ at1 TPml4 = at_ TPml4 ∧
      pages_of k1 st1 ∧ stage (n + 1) at1 st1 ∧ free_room (Z.to_nat (extra (n + 1 + Z.of_nat c) - extra (n + 1))) st1)
      as (k1 & st1 & at1 & H1 & Hat & Hk1 & Hst1 & Hroom1).
    { destruct (decide (n mod 512 = 511)) as [Hw|Hw].
      - apply (map_next_wrap n k st at_); [done|done|lia|done|].
        replace (_ + _)%nat with (Z.to_nat (extra (n + 1 + Z.of_nat c) - extra n)) by lia. done.
      - destruct (map_next_within n k st at_ Hk Hst) as (k1 & st1 & H1 & Hk1 & Hf & Hst1); [lia|done|].
        exists k1, st1, at_. split_and!; try done. apply (free_room_same _ st); [done|].
        replace (extra (n + 1)) with (extra n); [done|]. unfold extra. replace ((n + 1) / 512) with (n / 512) by zdiv. done. }
    kstep H1. rewrite <- Hat. destruct (IH (n + 1) k1 st1 at1 Hk1 Hst1) as (k2 & st2 & at2 & H2 & Hat2 & Hk2 & Hst2); [lia|lia|done|].
    by exists k2, st2, at2.
Qed.

(** The first four tables. *)
Lemma first_tables_Ok pml4 k st n : pages_of k st → is_page st pml4 → used st pml4 → ram st !! pml4 = Some ∅ → free_room (3 + n) st →
  ∃ k' st' at_, first_tables pml4 k = Ok (cursor_at 0 at_, k') ∧ at_ TPml4 = pml4 ∧ pages_of k' st' ∧ stage 0 at_ st' ∧ free_room n st'.
Proof.
  intros Hk Hp Hu Hm Hroom.
  assert (tables (λ r, r = TPml4) (λ _, pml4) (λ _ _, None) st) as Ht.
  { split; [done|by intros r r' -> ->|]. intros r ->. exists ∅. split; [done|]. intros i. by rewrite lookup_empty. }
  destruct (tables_alloc _ _ _ k st TPdpt (2 + n) Hk Ht) as (p1 & k1 & st1 & Ha1 & Hk1 & _ & Hr1 & Ht1); [done|done|].
  destruct (tables_alloc _ _ _ k1 st1 (TDir 0) (1 + n) Hk1 Ht1) as (p2 & k2 & st2 & Ha2 & Hk2 & _ & Hr2 & Ht2); [naive_solver|done|].
  destruct (tables_alloc _ _ _ k2 st2 (TTbl 0) n Hk2 Ht2) as (p3 & k3 & st3 & Ha3 & Hk3 & _ & Hr3 & Ht3); [naive_solver|done|].
  set (at_ := fn_set _ _ p3) in Ht3. 
  destruct (tables_poke _ _ _ k3 st3 TPml4 0 p1 Hk3 Ht3) as (k4 & st4 & Hp4 & Hk4 & Hf4 & Ht4); [naive_solver|].
  destruct (tables_poke _ _ _ k4 st4 TPdpt 0 p2 Hk4 Ht4) as (k5 & st5 & Hp5 & Hk5 & Hf5 & Ht5); [naive_solver|].
  destruct (tables_poke _ _ _ k5 st5 (TDir 0) 0 p3 Hk5 Ht5) as (k6 & st6 & Hp6 & Hk6 & Hf6 & Ht6); [naive_solver|].
  exists k6, st6, at_. split_and!; [|done|done| |].
  - unfold first_tables. kstep Ha1. kstep Ha2. kstep Ha3. 
    change pml4 with (at_ TPml4). kstep Hp4. change p1 with (at_ TPdpt) at 1. kstep Hp5. change p2 with (at_ (TDir 0)) at 1. by kstep Hp6.
  - eapply tables_ext; [exact Ht6| |done|].
    + intros [| |j|m] Hr; simpl in *; [naive_solver..| |]; [assert (j = 0) as -> by zdiv|assert (m = 0) as -> by zdiv]; naive_solver.
    + intros [| |j|m] i Hr; cbn [made] in *; [| |assert (j = 0) as -> by zdiv|assert (m = 0) as -> by zdiv]; same_entries.
  - apply (free_room_same _ st3); [congruence|done].
Qed.

(** ** What is mapped *)

(** The page that the virtual page [v] leads to when [n] pages have been mapped: itself in the
    first GiB; and from then on each directory has a hole in front, of 2 MiB. *)
Definition id_map_page (n v : Z) : option Z :=
  let j := v / 512 / 512 in let i := (v / 512) mod 512 in let p := 512 * (511 * j + i) + v mod 512 in
  if decide ((i = 0 → j = 0) ∧ p < n) then Some p else None.

Lemma entry_at P at_ e st r i : tables P at_ e st → P r → entry (ram st) (at_ r) i = default 0 (table_word <$> e r i).
Proof. intros [_ _ Hr] Hp. destruct (Hr r Hp) as (pg & Hpg & He). unfold entry. rewrite Hpg. simpl. by rewrite He. Qed.

Lemma peek_at P at_ e k st r i : pages_of k st → tables P at_ e st → P r → peek (at_ r) i k = Ok (default 0 (table_word <$> e r i), k).
Proof.
  intros Hk Ht Hr. pose proof (entry_at _ _ _ _ r i Ht Hr) as He. unfold peek. kpure. change (of_boot b_ram k) with (b_ram (k_fs k)).
  rewrite (po_ram _ _ Hk). destruct (tb_ram _ _ _ _ Ht r Hr) as (pg & Hpg & _). unfold entry in He. rewrite Hpg in He |- *. simpl in He.
  unfold lift. simpl. unfold mbind, K_bind. by rewrite He.
Qed.

(** One step of the walk. *)
Lemma node_step P at_ e k st r i path : pages_of k st → tables P at_ e st → P r → (∀ x, e r i = Some x → 0 <= x < 2 ^ 20) →
  node (ram st) (at_ r) (i :: path) = e r i ≫= λ x, node (ram st) x path.
Proof.
  intros Hk Ht Hr Hx. cbn [node]. rewrite (entry_at _ _ _ _ r i Ht Hr). destruct (e r i) as [x|] eqn:He; simpl; [|done].
  destruct (table_word_fields x) as (-> & -> & _); auto.
Qed.

Lemma translate_tables n at_ e k st h v :
  pages_of k st → tables (made n) at_ e st → 0 <= n <= 2 ^ 20 → h = 0 ∨ h = 256 → e TPml4 h = Some (at_ TPdpt) →
  (∀ r i, r ≠ TPml4 → e r i = entries n at_ r i) → 0 <= v < 2 ^ 27 →
  translate (ram st) (at_ TPml4) (h * 2 ^ 27 + v) = table_word <$> id_map_page n v.
Proof.
  intros Hk Ht Hn Hh H4 He Hv. change (2 ^ 27) with 134217728 in *. change (2 ^ 20) with 1048576 in *.
  assert (∀ r, made n r → 0 <= at_ r < 2 ^ 20) as Hat.
  { intros r Hr. pose proof (tb_page _ _ _ _ Ht r Hr) as [Hp _]. pose proof (po_small _ _ Hk). unfold is_page in Hp. lia. }
  unfold translate.
  assert (i3 (h * 134217728 + v) = h ∧ i2 (h * 134217728 + v) = v / 512 / 512 ∧ i1 (h * 134217728 + v) = (v / 512) mod 512 ∧
    i0 (h * 134217728 + v) = v mod 512) as (-> & -> & -> & ->).
  { unfold i0, i1, i2, i3. change 0x1ff with (Z.ones 9). rewrite !Z.land_ones, !Z.shiftr_div_pow2 by lia.
    change (2 ^ 9) with 512. change (2 ^ 18) with 262144. change (2 ^ 27) with 134217728.
    split_and!; destruct Hh as [-> | ->]; zdiv. }
  rewrite (node_step (made n) at_ e k st TPml4 h _ Hk Ht I) by (intros x Hx; rewrite H4 in Hx; injection Hx as <-; by apply Hat).
  rewrite H4. cbn [mbind option_bind]. set (j := v / 512 / 512) in *. set (i := (v / 512) mod 512) in *.
  rewrite (node_step (made n) at_ e k st TPdpt j _ Hk Ht I), (He TPdpt) by
    (done || intros x Hx; rewrite He in Hx by done; cbn [entries] in Hx; case_decide; simplify_eq; by apply Hat).
  unfold id_map_page. fold j i. cbn [entries]. assert (0 <= v mod 512 < 512 ∧ 0 <= i < 512 ∧ 0 <= j) as (Hv0 & Hi & Hj) by (unfold i, j; zdiv).
  destruct (decide (0 <= j <= n / 512 / 511)) as [Hjn|Hjn]; cbn [mbind option_bind]; [|by rewrite decide_False by zdiv].
  rewrite (node_step (made n) at_ e k st (TDir j) i [] Hk Ht Hjn), (He (TDir j)) by
    (done || intros x Hx; rewrite He in Hx by done; cbn [entries] in Hx; case_decide; simplify_eq; apply Hat; simpl; zdiv).
  cbn [entries]. destruct (decide (0 <= i < 512 ∧ (i = 0 → j = 0) ∧ 511 * j + i <= n / 512)) as [Hin|Hin]; cbn [mbind option_bind];
    [|by rewrite decide_False by zdiv].
  cbn [node mbind option_bind]. rewrite (entry_at (made n) at_ e st (TTbl (511 * j + i)) _ Ht) by (simpl; zdiv). rewrite He by done. cbn [entries].
  repeat case_decide; try (exfalso; zdiv); [|done]. simpl. by destruct (table_word_fields (512 * (511 * j + i) + v mod 512)) as (-> & _); [zdiv|].
Qed.

Lemma id_map_first n v : 0 <= v < 2 ^ 18 → id_map_page n v = if decide (v < n) then Some v else None.
Proof.
  intros Hv. change (2 ^ 18) with 262144 in Hv. unfold id_map_page. assert (v / 512 / 512 = 0) as -> by zdiv.
  replace (512 * (511 * 0 + (v / 512) mod 512) + v mod 512) with v by zdiv. repeat case_decide; tauto.
Qed.
(** From then on, the page is found further up. *)
Lemma id_map_shifted n p : 2 ^ 18 <= p < n → id_map_page n (p + 512 * (1 + (p - 2 ^ 18) / 261632)) = Some p.
Proof.
  change (2 ^ 18) with 262144. intros Hp. set (d := (p - 262144) / 261632).
  assert (262144 + 261632 * d <= p < 262144 + 261632 * (d + 1)) as Hd by (unfold d; zdiv). clearbody d. unfold id_map_page.
  assert ((p + 512 * (1 + d)) / 512 / 512 = d + 1) as -> by zdiv.
  assert (((p + 512 * (1 + d)) / 512) mod 512 = (p - (262144 + 261632 * d)) / 512 + 1) as -> by zdiv.
  assert ((p + 512 * (1 + d)) mod 512 = (p - (262144 + 261632 * d)) mod 512) as -> by zdiv.
  replace (512 * (511 * (d + 1) + ((p - (262144 + 261632 * d)) / 512 + 1)) + (p - (262144 + 261632 * d)) mod 512) with p by zdiv.
  rewrite decide_True; [done|]. split; [zdiv|lia].
Qed.

(** The tables of the stage are made. *)
Lemma id_map_Ok pml4 k st n : pages_of k st → is_page st pml4 → used st pml4 → ram st !! pml4 = Some ∅ → 0 <= n <= 2 ^ 20 →
  free_room (3 + Z.to_nat (extra n)) st →
  ∃ k' st' at_, id_map pml4 (Z.to_nat n) k = Ok (tt, k') ∧ at_ TPml4 = pml4 ∧ pages_of k' st' ∧ stage n at_ st'.
Proof.
  intros Hk Hp Hu Hm Hn Hroom. destruct (first_tables_Ok pml4 k st _ Hk Hp Hu Hm Hroom) as (k1 & st1 & at1 & H1 & Hat1 & Hk1 & Hst1 & Hr1).
  destruct (map_pages_Ok (Z.to_nat n) 0 k1 st1 at1 Hk1 Hst1) as (k2 & st2 & at2 & H2 & Hat2 & Hk2 & Hst2); [lia|lia| |].
  { replace (0 + Z.of_nat (Z.to_nat n)) with n by lia. change (extra 0) with 0. by rewrite Z.sub_0_r. }
  replace (0 + Z.of_nat (Z.to_nat n)) with n in * by lia. exists k2, st2, at2. split_and!; [|congruence|done|done].
  unfold id_map. pose proof (po_small _ _ Hk). rewrite frame_small by (unfold is_page in Hp; lia). kstep H1. rewrite <- Hat1. by kstep H2.
Qed.

End tables.

(** ** A machine of 4 GiB *)

#[local] Existing Instance debug_build.
Import Machine BootMachine.

Definition big_pages : pages_t := fresh_pages (2 ^ 20).
Definition big : Kernel.kernel Machine.t boot_t :=
  start_with (boot_with (2 ^ 32) (Some (free_pages big_pages)) (ram big_pages)).

Lemma big_pages_of : pages_of big big_pages.
Proof. split; [reflexivity|reflexivity|apply fresh_pages_wf; [split; reflexivity || discriminate|reflexivity]|unfold big_pages; discriminate]. Qed.

Lemma big_room : free_room (5 + Z.to_nat (extra (2 ^ 20))) big_pages.
Proof.
  exists (seqZ 0 3000). split_and!; [apply NoDup_seqZ|vm_compute; lia|]. intros p Hp%elem_of_seqZ.
  unfold is_page, used, PageAlloc.page_count, big_pages. cbn [free_pages fresh_pages setup_page_bitmap bm_size]. split; [lia|].
  change (bm_bit _ p) with (bm_bit (bitmap_init (2 ^ 20) 0) p). rewrite bitmap_init_bit; [by rewrite Z.testbit_0_l|lia|]. 
  unfold bm_cap. cbn [bitmap_init bm_size]. change (8 * BITMAP_BYTE_SIZE (2 ^ 20)) with 1048576. lia.
Qed.

