(* ===== verification/Main.v ===== *)
(** The start of the kernel: x86_64/main.c, init/main.c and drivers/pc/init.c.  They call the components
    in order; what is proved is what the kernel takes over from the boot stage, and which tasks it starts with. *)
From S2P Require Import Prelude Words Mutex Bitmap PageAlloc Dll Lists Vspace Errno Kernel Sched Vfs Ext2 Loader Proc Irq Block Cmdline Pci Ata Tables Boot.
Open Scope Z_scope.

(** The static variables of the three files, of gdt.c and of idt.c. *)
Record start_t := {
  st_segments : segments_t;
  g_idt : list irq_descriptor_t;
  init_stack_page : Z;  (* main.c: stack_start_page *)
  init_stack_pages : Z;  (* main.c: stack_page_count *)
  s_initrd : Z;
  s_initrd_size : Z;
}.
Class StartState (F : Type) := {
  started : F → start_t;
  set_started : start_t → F → F;
  started_set s f : started (set_started s f) = s;
}.

Definition set_segments (v : segments_t) (s : start_t) : start_t :=
  {| st_segments := v; g_idt := g_idt s; init_stack_page := init_stack_page s; init_stack_pages := init_stack_pages s;
     s_initrd := s_initrd s; s_initrd_size := s_initrd_size s |}.
Definition set_g_idt (v : list irq_descriptor_t) (s : start_t) : start_t :=
  {| st_segments := st_segments s; g_idt := v; init_stack_page := init_stack_page s; init_stack_pages := init_stack_pages s;
     s_initrd := s_initrd s; s_initrd_size := s_initrd_size s |}.
Definition set_init_stack (p n : Z) (s : start_t) : start_t :=
  {| st_segments := st_segments s; g_idt := g_idt s; init_stack_page := p; init_stack_pages := n;
     s_initrd := s_initrd s; s_initrd_size := s_initrd_size s |}.
Definition set_initrd (p n : Z) (s : start_t) : start_t :=
  {| st_segments := st_segments s; g_idt := g_idt s; init_stack_page := init_stack_page s; init_stack_pages := init_stack_pages s;
     s_initrd := p; s_initrd_size := n |}.

(** ** init/main.c and drivers/pc/init.c *)

Section init.
Context {A F : Type} `{B : Build} `{KM : Kmalloc A} `{PM : PhysMem A} `{D : Drivers A F} `{BDV : BlockDevices A F}
  `{AS : AtaState F} `{BS : BlockState F} `{PS : PciState F} `{IO : Ports A F} `{OT : Others A F} `{BDR : BlockDrivers A F}
  `{C : CmdState F} `{E : Ext2State F} `{ST : StartState F}.
Abbreviation kernel := (Kernel.kernel A F).
Abbreviation KM_ := (K kernel).

(** The addresses of functions and drivers, the option of the build, and what memory that is not initialised
    holds. *)
Context (ktask_runtime idle_task_func cleanup_task_func INIT_TASK_FUNC VSPACE_KERNEL : Z)
  (PARTSCAN_DRV INITRD_DRV ATA_READ ATA_WRITE ATA_PROBE ATA_IRQ ATA_BD_DRIVER ATA_PCI_DRIVER my_fsinfo : Z) (channel_addr : Z → nat → Z)
  (D_ATA : bool) (TURNS : nat).
Context (junk : Z → Z) (junk_mutex : Z → mutex_t) (junk_bytes : Z → nat → list Z) (junk_context : Z → context_t)
  (junk_name : Z → list Z) (junk_mbr junk_space : list Z) (junk_controller : Z → pci_ide_dev_t) (junk_dma : Z → list Z).

Definition of_start {X} (get : start_t → X) (k : kernel) : X := get (started (k_fs k)).
Definition in_start (f : start_t → start_t) : KM_ unit := modify (λ k, set_k_fs (set_started (f (started (k_fs k))) (k_fs k)) k).

(** [platform_init_drivers] (kernel/drivers/pc/init.c, lines 8-27): the other drivers are empty functions. *)
Definition platform_init_drivers : KM_ unit := 
  when D_ATA (pc_ata_init TURNS junk junk_space junk_controller junk_dma ATA_READ ATA_WRITE ATA_PROBE ATA_IRQ ATA_BD_DRIVER ATA_PCI_DRIVER
                PARTSCAN_DRV channel_addr junk_mbr).

(** [init_drivers] (kernel/kernel/init/main.c, lines 20-32). *)
Definition init_drivers : KM_ unit :=
  ramdisk_init INITRD_DRV;;
  p ← gets (of_start s_initrd);
  n ← gets (of_start s_initrd_size);
  when (negb (p =? 0)) (_ ← ramdisk_install PARTSCAN_DRV INITRD_DRV junk junk_mutex junk_name junk_mbr p n; mret tt);;
  pci_init junk;;
  platform_init_drivers.

(** [free_pages] (kernel/arch/x86_64/x86_64/main.c, lines 69-73). *)
Fixpoint free_pages (start : Z) (count : nat) : KM_ unit :=
  match count with O => mret tt | S count => k_free_page start;; free_pages (u64 (start + 1)) count end.

(** [delete_init_stack] (kernel/arch/x86_64/x86_64/main.c, lines 75-79). *)
Definition delete_init_stack : KM_ unit :=
  p ← gets (of_start init_stack_page); n ← gets (of_start init_stack_pages); free_pages p (Z.to_nat n).

(** "rootfs" and "init". *)
Definition rootfs_param : list Z := [114; 111; 111; 116; 102; 115].
Definition init_param : list Z := [105; 110; 105; 116].

(** [init_task_func] (kernel/kernel/init/main.c, lines 34-63): without a root file system, NULL is read where its name
    is printed. *)
Definition init_task_func : KM_ unit :=
  delete_init_stack;;
  irq_kernel_init;;
  blockdev_init PARTSCAN_DRV;;
  init_drivers;;
  rootfs ← cmdline_get rootfs_param;
  rootfs ← lift (of_option rootfs);
  vfs_init junk (ext2fs_init my_fsinfo) rootfs;;
  init_program ← cmdline_get init_param;
  match init_program with
  | None => kstop Panic
  | Some init_program =>
      status ← proc_start junk junk_mutex junk_bytes junk_context VSPACE_KERNEL init_program;
      if status <? 0 then kstop Panic else mret tt
  end.

(** [kmain] (kernel/kernel/init/main.c, lines 65-97): the context [ctx] is saved by the first interrupt, and the context that
    runs next is the result. *)
Definition kmain (cmdline : list Z) (initrd initrd_size ctx : Z) : KM_ Z :=
  cmdline_parse cmdline;;
  in_start (set_initrd initrd initrd_size);;
  sched_init ktask_runtime idle_task_func cleanup_task_func VSPACE_KERNEL junk_context junk;;
  init_task ← create_kernel_task ktask_runtime VSPACE_KERNEL junk_context junk INIT_TASK_FUNC;
  sched_insert init_task;;
  sched_enable ctx.

(** ** x86_64/main.c *)

(** The addresses of the tables and of the entry points of interrupts; the lock of [_vspace_kernel] before it is
    initialised; and what the boot stage has left in memory. *)
Context (tss_addr gdt_table_addr irq_syscall : Z) (irq_entry : nat → Z) (raw_lock : mutex_t) (b : boot_t).

(** [x86_irq_init] (kernel/arch/x86_64/x86_64/idt.c, lines 143-151). *)
Definition x86_irq_init : KM_ unit :=
  setup_pic;; in_start (λ s, set_g_idt (setup_idt irq_entry irq_syscall (g_idt s)) s).

(** [copy_cmdline] (kernel/arch/x86_64/x86_64/main.c, lines 42-47): the string with its null byte.  Without a command line the
    address is NULL, and nothing is there. *)
Definition copy_cmdline (bi : bootinfo_t) : KM_ (list Z) :=
  cmdline ← lift (of_option (b_copies b !! (cmdline_ptr bi - IDENT_OFFSET)));
  _ ← new (Z.of_nat (length cmdline) + 1);
  mret (cmdline ++ [0]).

(** [copy_page_bitmap] (kernel/arch/x86_64/x86_64/main.c, lines 49-56): the bitmap in the old heap is the one that is in use. *)
Definition copy_page_bitmap (bi : bootinfo_t) : KM_ unit :=
  _ ← new (BITMAP_BYTE_SIZE (total_pages bi));
  on_pages (λ st, mret (tt, setup_page_bitmap (bm_bitmap (PageAlloc.free_pages st)) (total_pages bi) st)).

(** [copy_initrd] (kernel/arch/x86_64/x86_64/main.c, lines 58-67). *)
Definition copy_initrd (bi : bootinfo_t) : KM_ Z :=
  if ramdisk_ptr bi =? 0 then mret 0
  else
    initrd ← new (Boot.ramdisk_size bi);
    bytes ← lift (of_option (b_copies b !! (ramdisk_ptr bi - IDENT_OFFSET)));
    put initrd bytes;;
    mret initrd.

(** The page bitmap of the boot stage is taken over where it is, and its address space ([amd64_main]
    (kernel/arch/x86_64/x86_64/main.c, lines 93-102)). *)
Definition take_over (bi : bootinfo_t) : KM_ unit :=
  bmp ← lift (of_option (b_free_pages b));
  on_pages (λ st, mret (tt, setup_page_bitmap (bm_bitmap bmp) (total_pages bi) st));;
  '(vs, cr3) ← on_pages (λ st, '(vs, cr3, st) ← vspace_setup raw_lock (bi_pml4_ppn bi) st; mret (vs, cr3, st));
  put VSPACE_KERNEL vs;;
  modify (set_k_cr3 cr3).

(** [amd64_main] (kernel/arch/x86_64/x86_64/main.c, lines 81-124). *)
Definition amd64_main (bi : bootinfo_t) (ctx : Z) : KM_ Z :=
  in_start (λ s, set_segments (setup_gdt tss_addr gdt_table_addr (st_segments s)) s);;
  take_over bi;;
  cmdline ← copy_cmdline bi;
  copy_page_bitmap bi;;
  initrd ← copy_initrd bi;
  in_start (set_init_stack (stack_start_page bi) (stack_pages bi));;
  free_pages (boot32_start_page bi) (Z.to_nat (boot32_page_count bi));;
  free_pages (heap_start_page bi) (Z.to_nat (heap_pages bi));;
  x86_irq_init;;
  kmain cmdline initrd (Boot.ramdisk_size bi) ctx.
End init.

(** ** The pages of the boot stage *)

Section pages.
Context {A F : Type} `{B : Build} `{KM : Kmalloc A} `{PM : PhysMem A} `{ST : StartState F}.
Abbreviation kernel := (Kernel.kernel A F).
Implicit Types (k : kernel) (st : pages_t) (P Q R : Z → Prop).

Lemma k_free_page_Ok k p : pages_wf (phys_of k) → is_page (phys_of k) p → used (phys_of k) p →
  ∃ st, k_free_page p k = Ok (tt, with_phys st k) ∧ pages_upd (λ q, q = p) false (phys_of k) st.
Proof.
  intros Hwf Hp Hu. destruct (free_page_spec (current_task k) (phys_of k) Hwf p Hp Hu) as (st & Hf & _ & Hupd). exists st. split; [|done].
  unfold k_free_page. kpure. unfold on_pages, on_heap, on_store, phys_of in *. by rewrite Hf.
Qed.

(** Freeing a range of pages that are all in use. *)
Lemma free_pages_Ok n k start : pages_wf (phys_of k) → 0 <= start →
  (∀ q, in_range start (Z.of_nat n) q → is_page (phys_of k) q ∧ used (phys_of k) q) →
  ∃ k', free_pages start n k = Ok (tt, k') ∧ k_fs k' = k_fs k ∧ pages_upd (in_range start (Z.of_nat n)) false (phys_of k) (phys_of k').
Proof.
  revert k start. induction n as [|n IH]; intros k start Hwf H0 Hu; cbn [free_pages].
  - exists k. split_and!; [done|done|]. split; [done|done| |done]. unfold in_range. lia.
  - destruct (Hu start) as [Hp Hused]; [unfold in_range; lia|].
    destruct (k_free_page_Ok k start Hwf Hp Hused) as (st & Hf & Hupd). kstep Hf.
    pose proof Hupd as [Hwf1 Hc1 Hi1 Ho1]. pose proof (bm_wf_size _ (pw_bitmap _ Hwf)). unfold is_page, PageAlloc.page_count in *.
    rewrite (uwrap_small 64) by (unfold is_word; change (2 ^ 64) with 18446744073709551616; change (2 ^ 52) with 4503599627370496 in *; lia).
    destruct (IH (with_phys st k) (start + 1)) as (k' & Hr & Hfs & Hupd'); rewrite ?phys_of_with; [done|lia| |].
    { intros q Hq. rewrite Hc1. unfold used, in_range in *. rewrite Ho1 by lia. apply Hu. lia. }
    exists k'. split_and!; [exact Hr|exact Hfs|]. rewrite phys_of_with in Hupd'.
    eapply pages_upd_iff; [|exact (pages_upd_or _ _ _ _ _ _ Hupd Hupd')]. intros q. unfold in_range. lia.
Qed.

(** The same for a count, after other pages have been freed. *)
Lemma free_range_Ok P k st start count : pages_upd P false st (phys_of k) → 0 <= start → 0 <= count →
  (∀ q, in_range start count q → is_page st q ∧ used st q ∧ ¬ P q) →
  ∃ k', free_pages start (Z.to_nat count) k = Ok (tt, k') ∧ k_fs k' = k_fs k ∧
    pages_upd (λ q, P q ∨ in_range start count q) false st (phys_of k').
Proof.
  intros Hupd H0 Hc Hu. pose proof Hupd as [Hwf1 Hc1 Hi1 Ho1].
  destruct (free_pages_Ok (Z.to_nat count) k start Hwf1 H0) as (k' & Hr & Hfs & Hupd').
  { intros q Hq. replace (Z.of_nat (Z.to_nat count)) with count in Hq by lia. destruct (Hu q Hq) as (Hp & Hus & Hnp).
    unfold is_page, used in *. rewrite Hc1, Ho1; [done|lia|done]. }
  exists k'. split_and!; [done|done|]. replace (Z.of_nat (Z.to_nat count)) with count in Hupd' by lia.
  exact (pages_upd_or _ _ _ _ _ _ Hupd Hupd').
Qed.

(** A page that is free already, in a range that is freed. *)
Lemma free_pages_twice n k start : DEBUG = true → pages_wf (phys_of k) → is_page (phys_of k) start → ¬ used (phys_of k) start →
  free_pages start (S n) k = Stop Panic.
Proof.
  intros Hd Hwf Hp Hu. cbn [free_pages]. apply K_bind_Stop. unfold k_free_page. kpure.
  pose proof (double_free_panics (current_task k) (phys_of k) Hwf start Hp Hu Hd) as Hf.
  unfold on_pages, on_heap, on_store, phys_of in *. by rewrite Hf.
Qed.

Definition apart (s1 n1 s2 n2 : Z) : Prop := s1 + n1 <= s2 ∨ s2 + n2 <= s1.

End pages.

(** ** The first tasks *)

Section starting.
Context {A F : Type} `{B : Build} `{KM : Kmalloc A} {KL : KmallocLaws A} `{C : CmdState F} `{ST : StartState F}.
Abbreviation kernel := (Kernel.kernel A F).
Context (ktask_runtime idle_task_func cleanup_task_func INIT_TASK_FUNC VSPACE_KERNEL : Z) (junk : Z → Z) (junk_context : Z → context_t).
Context (room : ∀ n (h : A), km_room n h) (apart_fields : ∀ s f, cmd (set_started s f) = cmd f).
Implicit Types (k : kernel) (xs ys zs : list (Z * Z)).

(** A kernel task that has been created. *)
Definition fresh_task k (t : Z) : Prop :=
  t ≠ 0 ∧ t ∈ km_live (heap (k_store k)) ∧ ∃ tk, k_tasks k !! t = Some tk ∧ t_state tk = TASK_RUNNING ∧ irq_wait tk = false ∧
    t_process tk = 0 ∧ t_vspace tk = VSPACE_KERNEL.

(** What does not change while tasks are created. *)
Definition same_cpu k k' : Prop :=
  current_task k' = current_task k ∧ k_vspaces k' = k_vspaces k ∧ k_fs k' = k_fs k ∧ sched_enabled k' = sched_enabled k ∧
  k_tasks k' !! 0 = k_tasks k !! 0.

(** The list of tasks stands for [xs], the queue for [ys], the parameters for [zs]. *)
Record start_ok k xs ys zs (ps : list (list Z * list Z)) : Prop := {
  ro_args : params_ok k zs ps;
  ro_list : list_repr (tl_list k) xs (k_store k);
  ro_queue : list_repr (sched_tasks k) ys (k_store k);
  ro_apart : xs.*1 ## ys.*1 ∧ xs.*1 ## zs.*1 ∧ ys.*1 ## zs.*1;
  ro_lock : tl_lock k = MUTEX_INITIALIZER;
  ro_tasks t : t ∈ ys.*2 → fresh_task k t;
  ro_nodup : NoDup ys.*2;
}.

Lemma params_ok_store k k' zs ps :
  params_ok k zs ps → store_wf (k_store k') → k_fs k' = k_fs k → list_repr (get_args k) zs (k_store k') →
  km_live (heap (k_store k)) ⊆ km_live (heap (k_store k')) → params_ok k' zs ps.
Proof.
  intros [Hs Hr Ho Hl] Hs' Hf Hr' Hlive. split; [done| | |].
  - unfold get_args in *. by rewrite Hf.
  - eapply list.Forall2_impl; [exact Ho|]. intros x p. cbn. by rewrite Hf.
  - intros x Hx. by apply Hlive, Hl.
Qed.

Lemma sched_insert_or t k ys :
  store_wf (k_store k) → list_repr (sched_tasks k) ys (k_store k) → Z.of_nat (length ys) + 1 < 2 ^ 64 →
  (∃ item l s, sched_insert t k = Ok (tt, set_sched_tasks l (set_k_store s k)) ∧ item ∉ km_live (heap (k_store k)) ∧
     km_live (heap s) = {[item]} ∪ km_live (heap (k_store k)) ∧ store_wf s ∧ list_repr l (ys ++ [(item, t)]) s ∧
     same_outside (item :: ys.*1) (k_store k) s) ∨
  (∃ w, sched_insert t k = Stop w ∧ no_memory w).
Proof.
  intros Hs Hl Hlen. destruct (list_add_spec _ _ _ t Hs Hl Hlen (room _ _)) as [(item & l & s & Ha & H)|(w & Hw & Ha)].
  - left. exists item, l, s. split; [by eapply sched_insert_Ok|done].
  - right. exists w. split; [|by eexists _, _]. unfold sched_insert, on_store. kpure. unfold mbind, K_bind. by rewrite Ha.
Qed.

(** The items of a list are not among new ones. *)
Lemma items_old l xs (s : store A) item : store_wf s → list_repr l xs s → item ∉ km_live (heap s) → item ∉ xs.*1.
Proof. intros Hs Hl Hi Hin. by apply Hi, (repr_live _ _ _ Hs Hl). Qed.

(** A task is created and made ready to run. *)
Definition start_task (func : Z) : K kernel unit :=
  t ← create_kernel_task ktask_runtime VSPACE_KERNEL junk_context junk func; sched_insert t.

Lemma start_task_does func k xs ys zs ps :
  start_ok k xs ys zs ps → Z.of_nat (length xs) + 1 < 2 ^ 64 → Z.of_nat (length ys) + 1 < 2 ^ 64 →
  does (start_task func) k (λ k', ∃ x y, start_ok k' (xs ++ [x]) (ys ++ [y]) zs ps ∧ same_cpu k k').
Proof.
  intros [Ha Hl Hq (Hxy & Hxz & Hyz) Hlk Ht Hnd] Hlx Hly. unfold start_task, does. pose proof (pm_store _ _ _ Ha) as Hs.
  destruct (create_task_or junk_context k xs ktask_runtime (λ p, p) CTX_KERNEL func 0 VSPACE_KERNEL (λ task, junk (task + 56)) Hlk Hs Hl Hlx room)
    as [(task & kstack & k1 & Hc & Hcr)|(w & Hc & Hw)]; [|right; exists w; split; [by apply K_bind_Stop|done]].
  kstep Hc. destruct Hcr as [[Hfr Hnz] (tk & Htk & _ & Hst & Hiw & Hpr & Hvs & _) _ _ (item & Hl1 & Hni & Hsame1) Hlive1 Hlk1 Hs1
    (_ & Hq1 & Hcur & Hvsp & Hfs & Hen)].
  assert (∀ zs l, list_repr l zs (k_store k) → xs.*1 ## zs.*1 → list_repr l zs (k_store k1)) as Hkeep1.
  { intros zs' l Hr Hd. eapply list_repr_outside; [exact Hr|exact Hsame1|]. intros a Hin [->|Hx]%elem_of_cons; [|by apply (Hd a)].
    by apply (items_old _ _ _ _ Hs Hr Hni). }
  pose proof (Hkeep1 ys _ Hq Hxy) as Hqk. rewrite <- Hq1 in Hqk.
  destruct (sched_insert_or task k1 ys Hs1 Hqk Hly) as [(it2 & l2 & s2 & Hi & Hni2 & Hlive2 & Hs2 & Hl2 & Hsame2)|(w & Hi & Hw)];
    [left|right; by exists w].
  assert (∀ zs l, list_repr l zs (k_store k1) → ys.*1 ## zs.*1 → list_repr l zs s2) as Hkeep2.
  { intros zs' l Hr Hd. eapply list_repr_outside; [exact Hr|exact Hsame2|]. intros a Hin [->|Hx]%elem_of_cons; [|by apply (Hd a)].
    by apply (items_old _ _ _ _ Hs1 Hr Hni2). }
  assert (item ∉ ys.*1 ∧ item ∉ zs.*1) as [Hiy Hiz] by (split; [exact (items_old _ _ _ _ Hs Hq Hni)|exact (items_old _ _ _ _ Hs (pm_repr _ _ _ Ha) Hni)]).
  assert (it2 ∉ (xs ++ [(item, task)]).*1) as Hix by exact (items_old _ _ _ _ Hs1 Hl1 Hni2).
  assert (it2 ∉ zs.*1) as Hiz2 by exact (items_old _ _ _ _ Hs1 (Hkeep1 zs _ (pm_repr _ _ _ Ha) Hxz) Hni2).
  eexists. split; [exact Hi|]. exists (item, task), (it2, task).
  split; [|split_and!; [done..|]; cbn; by rewrite Htk, lookup_insert_ne].
  assert (task ∉ ys.*2) as Htn by (intros (_ & Hin & _)%Ht; done).
  assert (xs.*1 ## ys.*1 ∧ (xs ++ [(item, task)]).*1 ## zs.*1) as [_ Hxz1] by (split; [done|]; rewrite fmap_app; clear -Hxz Hiz; set_solver).
  split.
  - eapply params_ok_store; [exact Ha|exact Hs2|exact Hfs| |cbn; rewrite Hlive2; clear -Hlive1; set_solver].
    apply Hkeep2; [|exact Hyz]. apply Hkeep1; [exact (pm_repr _ _ _ Ha)|exact Hxz].
  - apply Hkeep2; [exact Hl1|]. rewrite fmap_app. clear -Hxy Hiy. set_solver.
  - exact Hl2.
  - rewrite !fmap_app in *. clear -Hxy Hiy Hxz1 Hyz Hix Hiz2. set_solver.
  - exact Hlk1.
  - intros t. rewrite fmap_app, elem_of_app. cbn. rewrite list_elem_of_singleton. intros [Hin| ->].
    + destruct (Ht t Hin) as (H0 & Hlv & tk' & Htk' & H'). split; [done|]. cbn. rewrite Hlive2. split; [clear -Hlv Hlive1; set_solver|].
      exists tk'. rewrite Htk, lookup_insert_ne by (intros ->; done). done.
    + split; [done|]. cbn. rewrite Hlive2. split; [clear -Hlive1; set_solver|]. exists tk. by rewrite Htk, lookup_insert_eq.
  - rewrite fmap_app. apply list.NoDup_app. split_and!; [done| |apply list.NoDup_singleton]. intros t Hin. cbn. rewrite list_elem_of_singleton. by intros ->.
Qed.

(** Parsing changes the store and the data of the drivers only. *)
Definition parses k k' : Prop := k' = set_k_fs (k_fs k') (set_k_store (k_store k') k).
Lemma parses_trans k1 k2 k3 : parses k1 k2 → parses k2 k3 → parses k1 k3.
Proof. unfold parses. intros H1 H2. rewrite H2, H1. done. Qed.

Lemma add_param_frame n v k k' : add_param n v k = Ok (tt, k') → parses k k'.
Proof.
  unfold add_param, new, on_heap, on_store. unfold mbind at 1, K_bind at 1. cbn.
  destruct (km_alloc 64 _) as [[p h]|]; [|done]. cbn. kpure. unfold mbind, K_bind. cbn.
  destruct (list_add _ p _) as [[[i l] s]|]; [|done]. cbn. by intros [= <-].
Qed.

Lemma parse_from_frame cs m n v k k' : parse_from cs m n v k = Ok (tt, k') → parses k k'.
Proof.
  revert m n v k. induction cs as [|c cs IH]; intros m n v k; cbn [parse_from]; [done|]. destruct m; cbn [negb].
  - destruct (31 <? _); [done|]. destruct (_ || _); [|apply IH]. unfold mbind, K_bind. destruct (add_param n v k) as [[[] k1]|] eqn:Ha; [|done].
    apply add_param_frame in Ha. destruct (c =? 0); [by intros [= <-]|]. intros H%IH. by eapply parses_trans.
  - destruct (31 <? _); [done|]. destruct (c =? 61); apply IH.
Qed.

(** Nothing is ready to run yet. *)
Lemma start_none k1 k0 zs ps : params_ok k1 zs ps → k_store k0 = k_store k1 → k_fs k0 = k_fs k1 → tl_list k0 = list_init → sched_tasks k0 = list_init →
  tl_lock k0 = MUTEX_INITIALIZER → start_ok k0 [] [] zs ps.
Proof.
  intros Ha Hs Hf Ht Hq Hl. split.
  - eapply params_ok_store; [exact Ha|rewrite Hs; apply Ha|done|rewrite Hs; apply Ha|by rewrite Hs].
  - rewrite Ht. apply list_init_repr.
  - rewrite Hq. apply list_init_repr.
  - clear. set_solver.
  - done.
  - by intros ? ?%elem_of_nil.
  - constructor.
Qed.

Abbreviation start_kernel := (kmain ktask_runtime idle_task_func cleanup_task_func INIT_TASK_FUNC VSPACE_KERNEL junk junk_context).

(** The order of the calls. *)
Lemma kmain_order cmdline initrd size ctx k k1 :
  cmdline_parse cmdline k = Ok (tt, k1) → mutex_init (tl_lock k1) = Ok MUTEX_INITIALIZER →
  start_kernel cmdline initrd size ctx k =
    (start_task cleanup_task_func;; start_task idle_task_func;; start_task INIT_TASK_FUNC;; sched_enable ctx)
      (set_tl_lock MUTEX_INITIALIZER (set_tl_list list_init (set_sched_enabled false (set_sched_tasks list_init
         (set_k_fs (set_started (set_initrd initrd size (started (k_fs k1))) (k_fs k1)) k1))))).
Proof.
  intros Hp Hl. unfold kmain. kstep Hp. unfold in_start, sched_init, tl_setup. kpure. rewrite !K_bind_assoc. kpure.
  rewrite !K_bind_assoc. kpure. rewrite !K_bind_assoc. kpure. rewrite !K_bind_assoc. kpure.
  match goal with |- context [lift (mutex_init ?l)] => change l with (tl_lock k1) end. rewrite Hl, K_bind_assoc.
  rewrite (K_bind_Ok (lift (Ok MUTEX_INITIALIZER)) _ _ _ _ eq_refl). rewrite K_bind_assoc. kpure.
  unfold start_task, mbind, K_bind. repeat case_match; simplify_eq; reflexivity.
Qed.

(** The parameters, when other data of the drivers change. *)
Lemma params_ok_started k zs ps s : params_ok k zs ps → params_ok (set_k_fs (set_started s (k_fs k)) k) zs ps.
Proof.
  intros [Hs Hr Ho Hl]. split; [done| | |done].
  - unfold get_args in *. cbn. by rewrite apart_fields.
  - eapply list.Forall2_impl; [exact Ho|]. intros x p. cbn. by rewrite apart_fields.
Qed.

(** Everything up to the start of the scheduler. *)
Lemma kmain_prepares ps initrd size k :
  store_wf (k_store k) → Forall param_ok ps → ps ≠ [] → Z.of_nat (length ps) < 2 ^ 64 → mutex_init (tl_lock k) = Ok MUTEX_INITIALIZER →
  (∃ k1 x1 x2 x3 y1 y2 y3 zs, (∀ ctx, start_kernel (print ps) initrd size ctx k = sched_enable ctx k1) ∧
     start_ok k1 [x1; x2; x3] [y1; y2; y3] zs ps ∧ current_task k1 = current_task k ∧ k_vspaces k1 = k_vspaces k ∧
     k_tasks k1 !! 0 = k_tasks k !! 0) ∨
  (∃ w, (∀ ctx, start_kernel (print ps) initrd size ctx k = Stop w) ∧ no_memory w).
Proof.
  intros Hs Hok Hne Hlen Hlock.
  assert (params_ok (set_args list_init k) [] []) as Hk0.
  { split; [done| |constructor|by intros ? ?%elem_of_nil]. unfold get_args, set_args. cbn. rewrite cmd_set. apply list_init_repr. }
  destruct (parse_spec ps [] _ [] Hk0 Hok Hne room Hlen) as [(k1 & zs & Hp & Hk1)|(w & Hp & Hw)].
  2: { right. exists w. split; [|done]. intros ctx. unfold kmain, cmdline_parse. rewrite K_bind_assoc, K_bind_modify. by apply K_bind_Stop. }
  pose proof (parse_from_frame _ _ _ _ _ _ Hp) as Hfr.
  assert (tl_lock k1 = tl_lock k ∧ current_task k1 = current_task k ∧ k_vspaces k1 = k_vspaces k ∧ k_tasks k1 = k_tasks k)
    as (Hl1 & Hc1 & Hv1 & Ht1) by (rewrite Hfr; done).
  assert (cmdline_parse (print ps) k = Ok (tt, k1)) as Hparse by (unfold cmdline_parse; by kpure).
  rewrite <- Hl1 in Hlock. pose proof (λ ctx, kmain_order (print ps) initrd size ctx k k1 Hparse Hlock) as Horder.
  match type of Horder with context [set_tl_lock ?l ?k0] => set (k2 := set_tl_lock l k0) in Horder end.
  assert (start_ok k2 [] [] zs ps) as S0.
  { eapply (start_none _ k2 zs ps (params_ok_started k1 zs ps (set_initrd initrd size (started (k_fs k1))) Hk1)); reflexivity. }
  destruct (start_task_does cleanup_task_func k2 [] [] zs ps S0 ltac:(done) ltac:(done)) as [(k3 & R3 & x1 & y1 & S3 & E3)|(w & R & Hw)].
  2: { right. exists w. split; [|done]. intros ctx. rewrite Horder. by apply K_bind_Stop. }
  destruct (start_task_does idle_task_func k3 _ _ zs ps S3 ltac:(done) ltac:(done)) as [(k4 & R4 & x2 & y2 & S4 & E4)|(w & R & Hw)].
  2: { right. exists w. split; [|done]. intros ctx. rewrite Horder. kstep R3. by apply K_bind_Stop. }
  destruct (start_task_does INIT_TASK_FUNC k4 _ _ zs ps S4 ltac:(done) ltac:(done)) as [(k5 & R5 & x3 & y3 & S5 & E5)|(w & R & Hw)].
  2: { right. exists w. split; [|done]. intros ctx. rewrite Horder. kstep R3. kstep R4. by apply K_bind_Stop. }
  left. exists k5, x1, x2, x3, y1, y2, y3, zs. split_and!; [|done|..].
  - intros ctx. rewrite Horder. kstep R3. kstep R4. by kstep R5.
  - rewrite (proj1 E5), (proj1 E4), (proj1 E3). exact Hc1.
  - rewrite (proj1 (proj2 E5)), (proj1 (proj2 E4)), (proj1 (proj2 E3)). exact Hv1.
  - destruct E3 as (_ & _ & _ & _ & E3), E4 as (_ & _ & _ & _ & E4), E5 as (_ & _ & _ & _ & E5). rewrite E5, E4, E3. cbn. by rewrite Ht1.
Qed.

End starting.

(** ** A machine that starts *)

#[local] Existing Instance debug_build.
Import Machine.

(** The two parts of the drivers' data that are used. *)
#[local] Instance demo_cmd : CmdState (cmd_t * start_t) := {| cmd := fst; set_cmd c f := (c, f.2); cmd_set _ _ := eq_refl |}.
#[local] Instance demo_started : StartState (cmd_t * start_t) := {| started := snd; set_started s f := (f.1, s); started_set _ _ := eq_refl |}.

(** Memory that has been cleared. *)
Definition zero_start : start_t :=
  {| st_segments := {| s_gdt := replicate 9 0; s_gdt_descriptor := {| gdt_size := 0; gdt_addr := 0 |}; s_tss := {| rsp0 := 0; iopb_offset := 0 |};
                       task_register := 0 |}; g_idt := replicate 256 no_gate; init_stack_page := 0; init_stack_pages := 0; s_initrd := 0; s_initrd_size := 0 |}.
Definition cold : Kernel.kernel Machine.t (cmd_t * start_t) :=
  set_current_task 0 (set_tl_lock zero_mutex (start_with ({| c_params := ∅; args := list_init |}, zero_start))).

Lemma demo_apart : ∀ (s : start_t) (f : cmd_t * start_t), cmd (set_started s f) = cmd f.
Proof. by intros ? []. Qed.
Lemma room_always : ∀ n (h : Machine.t), km_room n h.
Proof. intros. exact I. Qed.


(** 64 MiB, all in use: the stage's code at 1 MiB, its stack below 16 MiB, its heap at 32 MiB and the kernel at 16 MiB. *)
Definition full_pages : pages_t :=
  setup_page_bitmap (bm_bitmap (bitmap_init 16384 0xff)) 16384
    {| PageAlloc.free_pages := {| bm_size := 0; bm_bitmap := [] |}; free_pages_lock := MUTEX_INITIALIZER; ram := ∅ |}.
Definition full_info : bootinfo_t :=
  {| free_pages_ptr := 0; total_pages := 16384; boot32_start_page := 256; boot32_page_count := 10; heap_start_page := 8192;
     kernel_addr := KERNEL_LOAD_ADDR + IDENT_OFFSET; heap_pages := 5; kernel_size := 400000; stack_start_page := 4088; stack_pages := 8;
     bi_pml4_ppn := 300; cmdline_ptr := 0; ramdisk_ptr := 0; Boot.ramdisk_size := 0 |}.
Definition full : Kernel.kernel Machine.t (cmd_t * start_t) := with_phys full_pages cold.

Lemma full_pages_wf : pages_wf full_pages.
Proof.
  destruct (bitmap_init_wf 16384 0xff) as [[H1 H2 H3] _]; [lia|]. split; [by split| |done]. intros i Hi. exfalso.
  unfold bm_cap in Hi. cbn [PageAlloc.free_pages full_pages setup_page_bitmap bm_size] in Hi.
  change (8 * BITMAP_BYTE_SIZE 16384) with 16384 in Hi. lia.
Qed.
Lemma full_pages_used q : 0 <= q < 16384 → is_page full_pages q ∧ used full_pages q.
Proof.
  intros Hq. split; [exact Hq|]. unfold used. change (bm_bit _ q) with (bm_bit (bitmap_init 16384 0xff) q).
  rewrite bitmap_init_bit; [|lia|unfold bm_cap; exact Hq]. change 255 with (Z.ones 8). rewrite Z.ones_spec_low; [done|zdiv].
Qed.

