(* ===== verification/Kprintf.v ===== *)
(** The debug output: debug/kprintf.c, the levels of include/debug.h and x86/bochs.c.  Elsewhere the calls of [debug]
    are left out; here is what one call does. *)
From S2P Require Import Prelude Words Mutex Strings Format.
Open Scope Z_scope.

(** [OUTPUT_ENABLED] (kernel/kernel/include/debug.h, lines 5-5). *)
Definition OUTPUT_ENABLED : Z := BIT 31.

(** The levels of messages that are printed, [INIT] to [VSPACE_INFO] (kernel/kernel/include/debug.h, lines 7-26); those of
    VSPACE, PAGEMGR, KHEAP and ATADISK are not. *)
Definition levels : list Z :=
  [ 0; Z.lor 1 OUTPUT_ENABLED; Z.lor 2 OUTPUT_ENABLED; 3; 4; Z.lor 5 OUTPUT_ENABLED; Z.lor 6 OUTPUT_ENABLED;
    Z.lor 7 OUTPUT_ENABLED; Z.lor 8 OUTPUT_ENABLED; Z.lor 9 OUTPUT_ENABLED; 10; Z.lor 11 OUTPUT_ENABLED;
    Z.lor 12 OUTPUT_ENABLED; Z.lor 13 OUTPUT_ENABLED; Z.lor 14 OUTPUT_ENABLED; Z.lor 15 OUTPUT_ENABLED;
    Z.lor 16 OUTPUT_ENABLED; Z.lor 17 OUTPUT_ENABLED; Z.lor 18 OUTPUT_ENABLED; Z.lor 19 OUTPUT_ENABLED ].

(** A colour: the escape character and a code. *)
Definition colour (code : string) : list Z := 27 :: bytes_of code.
(** [COL_RESET] (kernel/kernel/debug/kprintf.c, lines 11-11). *)
Definition COL_RESET : list Z := colour "[0m".
(** [COL_RED] (kernel/kernel/debug/kprintf.c, lines 12-12). *)
Definition COL_RED : list Z := colour "[31m".
(** [COL_GREEN] (kernel/kernel/debug/kprintf.c, lines 15-15). *)
Definition COL_GREEN : list Z := colour "[32m".
(** [COL_YELLOW] (kernel/kernel/debug/kprintf.c, lines 16-16). *)
Definition COL_YELLOW : list Z := colour "[33m".
(** [COL_BLUE] (kernel/kernel/debug/kprintf.c, lines 17-17). *)
Definition COL_BLUE : list Z := colour "[34m".
(** [COL_MAGENTA] (kernel/kernel/debug/kprintf.c, lines 18-18). *)
Definition COL_MAGENTA : list Z := colour "[35m".
(** [COL_CYAN] (kernel/kernel/debug/kprintf.c, lines 19-19). *)
Definition COL_CYAN : list Z := colour "[36m".
(** [COL_WHITE] (kernel/kernel/debug/kprintf.c, lines 20-20). *)
Definition COL_WHITE : list Z := colour "[37m".

(** [debug_type] (kernel/kernel/debug/kprintf.c, lines 22-43). *)
Definition debug_type : list (list Z) :=
  [ COL_MAGENTA ++ bytes_of " VSPACE";
    COL_WHITE ++ bytes_of "   INIT";
    COL_WHITE ++ bytes_of " ASSERT";
    COL_MAGENTA ++ bytes_of "PAGEMGR";
    COL_MAGENTA ++ bytes_of "  KHEAP";
    COL_RED ++ bytes_of "    IRQ";
    COL_GREEN ++ bytes_of "PAGEFLT";
    COL_YELLOW ++ bytes_of "  SCHED";
    COL_BLUE ++ bytes_of "FILESYS";
    COL_BLUE ++ bytes_of "VIRT_FS";
    COL_BLUE ++ bytes_of "   DISK";
    COL_CYAN ++ bytes_of " PCIBUS";
    COL_BLUE ++ bytes_of " BLKDEV";
    COL_GREEN ++ bytes_of " LOADER";
    COL_YELLOW ++ bytes_of "   TASK";
    COL_YELLOW ++ bytes_of "TASKMGR";
    COL_BLUE ++ bytes_of "FILESYS";
    COL_YELLOW ++ bytes_of "PROCESS";
    COL_YELLOW ++ bytes_of "SYSCALL";
    COL_GREEN ++ bytes_of " VSPACE" ].

(** [printdbg] (kernel/arch/x86-common/x86/bochs.c, lines 3-7): the bytes that are written to port 0xe9. *)
Fixpoint printdbg_loop (fuel : nat) (m : mem) (str : Z) : res (list Z) :=
  match fuel with
  | O => Stop NoFuel
  | S fuel =>
      c ← ld m str;
      if c =? 0 then mret [] else rest ← printdbg_loop fuel m (str + 1); mret (c :: rest)
  end.
Definition printdbg (m : mem) (str : Z) : res (list Z) := printdbg_loop (scan_fuel m) m str.

(** The memory, the lock of the buffer, and what has been written to the port
    ([kprintf_buffer_lock] (kernel/kernel/debug/kprintf.c, lines 8-9)). *)
Record console_t := { c_mem : mem; kprintf_buffer_lock : mutex_t; c_port : list Z }.

Section console.
Context `{B : Build}.
(** Where the linker puts the buffer, the strings of [debug_type], "[%s]: " and [COL_RESET]; and the local array of
    [_sprintf]. *)
Context (kprintf_buffer : Z) (types : list Z) (tag_format reset buffer : Z).

(** One message, once the buffer may be used (kernel/kernel/debug/kprintf.c, lines 61-70). *)
Definition print_message (level fmt : Z) (args : list Z) (c : console_t) : res console_t :=
  type ← of_option (types !! Z.to_nat (Z.land level 0xff));
  m ← sprintf buffer (c_mem c) kprintf_buffer tag_format [type];
  tag ← printdbg m kprintf_buffer;
  m ← sprintf buffer m kprintf_buffer fmt args;
  message ← printdbg m kprintf_buffer;
  colour ← printdbg m reset;
  mret {| c_mem := m; kprintf_buffer_lock := kprintf_buffer_lock c; c_port := c_port c ++ tag ++ message ++ colour |}.

Definition with_buffer_lock (l : mutex_t) (c : console_t) : console_t :=
  {| c_mem := c_mem c; kprintf_buffer_lock := l; c_port := c_port c |}.

(** [debug] (kernel/kernel/debug/kprintf.c, lines 46-74), called by the task [cur], in an interrupt or not. *)
Definition debug (irq_ongoing : bool) (cur : tptr) (level fmt : Z) (args : list Z) (c : console_t) : res console_t :=
  if Z.land level OUTPUT_ENABLED =? 0 then mret c
  else if irq_ongoing then
    if negb (mx_lock (kprintf_buffer_lock c) =? 0) then mret c else print_message level fmt args c
  else
    l ← mutex_lock cur (kprintf_buffer_lock c);
    c ← print_message level fmt args (with_buffer_lock l c);
    l ← mutex_release cur (kprintf_buffer_lock c);
    mret (with_buffer_lock l c).

(** ** The lines that are printed *)

(** The bytes from [a] on, [n] and a terminator, lie outside the two areas that are written. *)
Definition clear (a : Z) (s : list Z) : Prop :=
  ∀ i, a <= i <= a + Z.of_nat (length s) → outside buffer kprintf_buffer 2048 i.

(** The strings of the file are where the linker has put them, and the buffers are there and apart. *)
Record placed (m : mem) : Prop := {
  pl_types : Forall2 (λ a s, cstr m a s ∧ clear a s) types debug_type;
  pl_tag : cstr m tag_format (bytes_of "[%s]: ") ∧ clear tag_format (bytes_of "[%s]: ");
  pl_reset : cstr m reset COL_RESET ∧ clear reset COL_RESET;
  pl_buffer : region m kprintf_buffer 2048;
  pl_local : region m buffer 32;
  pl_apart : kprintf_buffer + 2048 <= buffer ∨ buffer + 32 <= kprintf_buffer;
}.

(** A message: a format, and the tokens it stands for; no character of it is the null byte, and it fits into the
    buffer. *)
Definition visible (t : tok) : Prop := match t with TChr v => u8 v ≠ 0 | _ => True end.
Record message_ok (m : mem) (fmt : Z) (ts : list tok) : Prop := {
  mo_format : cstr m fmt (format_of ts);
  mo_clear : clear fmt (format_of ts);
  mo_toks : Forall (tok_ok m (outside buffer kprintf_buffer 2048)) ts;
  mo_visible : Forall visible ts;
  mo_short : Z.of_nat (length (text ts)) < 2048;
}.

(** The line of a message. *)
Definition line (tag : list Z) (ts : list tok) : list Z := 91 :: tag ++ bytes_of "]: " ++ text ts ++ COL_RESET.

Definition unwritten (m m' : mem) : Prop := ∀ i, outside buffer kprintf_buffer 2048 i → m' !! i = m !! i.

Lemma cstr_unwritten m m' a s : unwritten m m' → cstr m a s → clear a s → cstr m' a s.
Proof. intros Hu Hs Hc. eapply cstr_ext; [|exact Hs]. intros i Hi. by apply Hu, Hc. Qed.

Lemma placed_unwritten m m' :
  unwritten m m' → region m' kprintf_buffer 2048 → region m' buffer 32 → placed m → placed m'.
Proof.
  intros Hu Hb Hl [Ht [Hg Hgc] [Hr Hrc] _ _ Ha]. split; [| | |done..].
  - eapply list.Forall2_impl; [exact Ht|]. intros a s [Hs Hc]. split; [by eapply cstr_unwritten|done].
  - split; [by eapply cstr_unwritten|done].
  - split; [by eapply cstr_unwritten|done].
Qed.

Lemma message_ok_unwritten m m' fmt ts : unwritten m m' → message_ok m fmt ts → message_ok m' fmt ts.
Proof.
  intros Hu [Hf Hc Ht Hv Hs]. split; [by eapply cstr_unwritten|done| |done..].
  eapply list.Forall_impl; [exact Ht|]. intros t Hok. destruct t; try done. destruct Hok as (Ha & Hb & Ho).
  split_and!; [|done..]. by eapply cstr_unwritten.
Qed.

(** A string is sent to the port as it is. *)
Lemma printdbg_loop_spec m s : ∀ fuel a, cstr m a s → (length s < fuel)%nat → printdbg_loop fuel m a = Ok s.
Proof.
  induction s as [|b s IH]; intros [|fuel] a Hs Hf; simpl in Hf; try lia; simpl in Hs |- *.
  - by rewrite (ld_ok _ _ _ Hs).
  - destruct Hs as (Hb & Hnz & Hs). rewrite (ld_ok _ _ _ Hb). simpl. rewrite (proj2 (Z.eqb_neq b 0)) by done.
    by rewrite (IH fuel) by (done || lia).
Qed.
Lemma printdbg_spec m a s : cstr m a s → printdbg m a = Ok s.
Proof. intros Hs. apply printdbg_loop_spec; [done|]. unfold scan_fuel. pose proof (cstr_size _ _ _ Hs). lia. Qed.

Lemma hex_digits_visible n v : Forall (λ b, b ≠ 0) (hex_digits n v).
Proof.
  induction n as [|n IH]; simpl; constructor; [|done]. change 15 with (Z.ones 4). rewrite Z.land_ones by lia.
  unfold hex_char, uwrap. pose proof (Z.mod_pos_bound (v ≫ (4 * Z.of_nat n)) (2 ^ 4) ltac:(lia)). change (2 ^ 4) with 16 in *. change (2 ^ 8) with 256.
  case_ltb; [lia|]. case_ltb; zdiv.
Qed.

Lemma text_visible m out t : tok_ok m out t → visible t → Forall (λ b, b ≠ 0) (text_of t).
Proof.
  assert (∀ v, 0 <= u32 v) as Hw by (intros v; apply uwrap_word; lia).
  destruct t as [c| |a s|v|v|v|l v|v|v]; cbn [text_of tok_ok visible]; intros Hok Hv; try (repeat constructor; done).
  - constructor; [by apply Hok|constructor].
  - by apply (cstr_bytes m a s), Hok.
  - by apply signed_string_ok.
  - by apply num_string_ok.
  - by apply num_string_ok.
  - destruct (l =? 117); by apply num_string_ok.
  - constructor; [done|]. constructor; [done|]. apply hex_digits_visible.
Qed.
Lemma texts_visible m out ts : Forall (tok_ok m out) ts → Forall visible ts → Forall (λ b, b ≠ 0) (text ts).
Proof.
  induction ts as [|t ts IH]; intros H1 H2; [constructor|]. inversion H1; inversion H2; subst.
  apply Forall_app. split; [by eapply text_visible|by apply IH].
Qed.

(** A message that is formatted in the buffer can be sent from there. *)
Lemma sprintf_message m fmt ts : placed m → message_ok m fmt ts →
  ∃ m', sprintf buffer m kprintf_buffer fmt (arguments ts) = Ok m' ∧ cstr m' kprintf_buffer (text ts) ∧ placed m' ∧ unwritten m m'.
Proof.
  intros Hp [Hf Hc Ht Hv Hs]. pose proof Hp as [_ _ _ Hb Hl Ha].
  destruct (sprintf_ok m buffer kprintf_buffer 2048 fmt ts) as (m' & Hrun & Htext & Hb' & Hl' & Hsame); [done..|].
  exists m'. split_and!; [done| |by eapply placed_unwritten|done].
  apply cstr_bytes. split; [done|]. by eapply texts_visible.
Qed.

Lemma tag_message m level tag a : placed m → types !! level = Some a → debug_type !! level = Some tag →
  message_ok m tag_format [TLit 91; TStr a tag; TLit 93; TLit 58; TLit 32].
Proof.
  intros [Ht [Hg Hgc] _ _ _ _] Ha Htag.
  destruct (Forall2_lookup_lr _ _ _ _ _ _ Ht Ha Htag) as [Hs Hc].
  assert (length tag = 12%nat ∧ bytes_ok tag) as [Hlen Hok].
  { assert (Forall (λ s, length s = 12%nat ∧ bytes_ok s) debug_type) as Hall by (apply (bool_decide_unpack _); vm_compute; exact I).
    exact (Forall_lookup_1 _ _ _ _ Hall Htag). }
  split; [exact Hg|exact Hgc| | |].
  - repeat (constructor; [first [done|split_and!; [done|exact Hok|exact Hc]]|]). constructor.
  - repeat constructor.
  - unfold text. cbn [mbind list_bind text_of app]. simpl. rewrite length_app. simpl. lia.
Qed.

(** [print_message] prints one line. *)
Lemma print_message_spec level fmt ts tag c :
  placed (c_mem c) → message_ok (c_mem c) fmt ts → debug_type !! Z.to_nat (Z.land level 0xff) = Some tag →
  ∃ m', print_message level fmt (arguments ts) c =
          Ok {| c_mem := m'; kprintf_buffer_lock := kprintf_buffer_lock c; c_port := c_port c ++ line tag ts |} ∧
    placed m' ∧ unwritten (c_mem c) m'.
Proof.
  intros Hp Hm Htag. pose proof (pl_types _ Hp) as Hty.
  destruct (Forall2_lookup_r _ _ _ _ _ Hty Htag) as (a & Ha & _).
  pose proof (tag_message _ _ _ _ Hp Ha Htag) as Hmt.
  destruct (sprintf_message _ _ _ Hp Hmt) as (m1 & Hr1 & Hs1 & Hp1 & Hu1).
  destruct (sprintf_message m1 fmt ts Hp1) as (m2 & Hr2 & Hs2 & Hp2 & Hu2); [by eapply message_ok_unwritten|].
  exists m2. split_and!; [|done|].
  - unfold print_message. rewrite Ha. simpl of_option. cbn [mbind res_bind]. change [a] with (arguments [TLit 91; TStr a tag; TLit 93; TLit 58; TLit 32]).
    rewrite Hr1. cbn [mbind res_bind]. rewrite (printdbg_spec _ _ _ Hs1). cbn [mbind res_bind]. rewrite Hr2. cbn [mbind res_bind].
    rewrite (printdbg_spec _ _ _ Hs2). cbn [mbind res_bind]. rewrite (printdbg_spec _ _ _ (proj1 (pl_reset _ Hp2))). cbn [mbind res_bind].
    unfold mret, res_ret, line, text. cbn [mbind list_bind text_of app]. do 2 f_equal. rewrite <- !app_assoc. reflexivity.
  - intros i Hi. by rewrite Hu2, Hu1.
Qed.

(** A call of [debug]: in an interrupt or by a task, with its level, its format and what that stands for. *)
Record call_t := { d_irq : bool; d_cur : tptr; d_level : Z; d_fmt : Z; d_toks : list tok }.
Definition run_calls (calls : list call_t) (c : console_t) : res console_t :=
  foldl (λ r d, c ← r; debug (d_irq d) (d_cur d) (d_level d) (d_fmt d) (arguments (d_toks d)) c) (Ok c) calls.

(** What a call adds to the output. *)
Definition output (d : call_t) : list Z :=
  if Z.land (d_level d) OUTPUT_ENABLED =? 0 then []
  else line (default [] (debug_type !! Z.to_nat (Z.land (d_level d) 0xff))) (d_toks d).

(** [debug] while nobody uses the buffer. *)
Lemma debug_free d c :
  placed (c_mem c) → message_ok (c_mem c) (d_fmt d) (d_toks d) → d_level d ∈ levels → kprintf_buffer_lock c = MUTEX_INITIALIZER →
  ∃ m', debug (d_irq d) (d_cur d) (d_level d) (d_fmt d) (arguments (d_toks d)) c =
          Ok {| c_mem := m'; kprintf_buffer_lock := MUTEX_INITIALIZER; c_port := c_port c ++ output d |} ∧
    placed m' ∧ unwritten (c_mem c) m'.
Proof.
  intros Hp Hm Hlv Hl. unfold debug, output. destruct (Z.land (d_level d) OUTPUT_ENABLED =? 0) eqn:He.
  { exists (c_mem c). split_and!; [|done|done]. rewrite app_nil_r, <- Hl. by destruct c. }
  assert (is_Some (debug_type !! Z.to_nat (Z.land (d_level d) 0xff))) as [tag Htag].
  { assert (Forall (λ l, is_Some (debug_type !! Z.to_nat (Z.land l 0xff))) levels) as Hall
      by (apply (bool_decide_unpack _); vm_compute; exact I).
    by apply (proj1 (list.Forall_forall _ _) Hall). }
  rewrite Htag. cbn [default]. destruct (d_irq d).
  - rewrite Hl. cbn [mx_lock MUTEX_INITIALIZER Z.eqb negb].
    destruct (print_message_spec (d_level d) _ _ tag c Hp Hm Htag) as (m' & Hrun & Hp' & Hu). exists m'. by rewrite Hrun, Hl.
  - rewrite Hl, mutex_lock_idle. cbn [mbind res_bind].
    destruct (print_message_spec (d_level d) _ _ tag (with_buffer_lock (mx_taken (d_cur d)) c) Hp Hm Htag) as (m' & Hrun & Hp' & Hu).
    exists m'. rewrite Hrun. cbn [mbind res_bind kprintf_buffer_lock with_buffer_lock]. by rewrite mutex_release_taken.
Qed.


(** While a task [cur'] is inside [debug], an interrupt prints nothing, and another call by a task does not come back: the
    assertion of [mutex_lock] fails, or the task goes to sleep.  The failed assertion would call [debug] again. *)
Theorem debug_while_taken cur cur' level fmt args c :
  Z.land level OUTPUT_ENABLED ≠ 0 → kprintf_buffer_lock c = mx_taken cur' →
  debug true cur level fmt args c = Ok c ∧ debug false cur level fmt args c = Stop (if DEBUG then Panic else Blocked).
Proof.
  intros Hl Hc. unfold debug. rewrite (proj2 (Z.eqb_neq _ _) Hl), Hc. cbn [mx_lock mx_taken Z.eqb negb]. split; [done|].
  by rewrite mutex_lock_taken.
Qed.

(** The length of a message is not looked at: the character at 2048 of a longer text is written behind the buffer, for
    any [N] bytes that it has to fit into. *)
Theorem debug_overruns fmt ts m N b :
  2048 < N → kprintf_buffer + N <= buffer ∨ buffer + 32 <= kprintf_buffer →
  text ts !! 2048%nat = Some b → Z.of_nat (length (text ts)) < N →
  cstr m fmt (format_of ts) →
  (∀ i, fmt <= i <= fmt + Z.of_nat (length (format_of ts)) → outside buffer kprintf_buffer N i) →
  Forall (tok_ok m (outside buffer kprintf_buffer N)) ts →
  region m kprintf_buffer N → region m buffer 32 →
  ∃ m', sprintf buffer m kprintf_buffer fmt (arguments ts) = Ok m' ∧ m' !! (kprintf_buffer + 2048) = Some b.
Proof.
  intros HN Ha Hb Hlen Hf Hc Ht Hr Hl. destruct (sprintf_ok m buffer kprintf_buffer N fmt ts) as (m' & Hrun & Htext & _); [done..|].
  exists m'. split; [done|]. pose proof (lookup_lt_Some _ _ _ Hb). rewrite Htext by (rewrite length_app; simpl; lia).
  change (Z.to_nat 2048) with 2048%nat. by rewrite lookup_app_l.
Qed.
End console.

(** ** The boot stage *)

(** [debug] (kernel/arch/x86_64/boot32/debug.c, lines 11-29), with [flush]: no lock and no level; the memory, and what is written
    to the port. *)
Definition boot_debug (debug_buffer buffer fmt : Z) (args : list Z) (m : mem) : res (mem * list Z) :=
  m ← sprintf buffer m debug_buffer fmt args;
  out ← printdbg m debug_buffer;
  mret (m, out).

(** A message that fits into the 1024 bytes of the buffer is printed. *)
Theorem boot_debug_prints debug_buffer buffer fmt ts m :
  debug_buffer + 1024 <= buffer ∨ buffer + 32 <= debug_buffer → cstr m fmt (format_of ts) →
  (∀ i, fmt <= i <= fmt + Z.of_nat (length (format_of ts)) → outside buffer debug_buffer 1024 i) →
  Forall (tok_ok m (outside buffer debug_buffer 1024)) ts → Forall visible ts →
  region m debug_buffer 1024 → region m buffer 32 → Z.of_nat (length (text ts)) < 1024 →
  ∃ m', boot_debug debug_buffer buffer fmt (arguments ts) m = Ok (m', text ts) ∧
    ∀ i, outside buffer debug_buffer 1024 i → m' !! i = m !! i.
Proof.
  intros Ha Hf Hc Ht Hv Hb Hl Hlen. destruct (sprintf_ok m buffer debug_buffer 1024 fmt ts) as (m' & Hrun & Htext & _ & _ & Hsame); [done..|].
  exists m'. split; [|done]. unfold boot_debug. rewrite Hrun. cbn [mbind res_bind]. rewrite (printdbg_spec m' debug_buffer (text ts)); [done|].
  apply cstr_bytes. split; [done|]. by eapply texts_visible.
Qed.

(** ** A run: a task prints "up 5", an interrupt prints "!", and a message of the pages' manager is left out *)

#[local] Existing Instance debug_build.

Definition demo_types : list Z := (λ n, 1000 + 16 * Z.of_nat n) <$> seq 0 20.
Definition demo_up : list tok := [TLit 117; TLit 112; TLit 32; TUns 5].
Definition demo_console : console_t :=
  {| c_mem := foldr (λ p m, write m p.1 (p.2 ++ [0])) (zeroed 100 200 ∪ zeroed 1000 320 ∪ zeroed 10000 2048 ∪ zeroed 20000 32)
       ((100, bytes_of "[%s]: ") :: (120, COL_RESET) :: (200, format_of demo_up) :: (220, [33]) :: zip demo_types debug_type);
     kprintf_buffer_lock := MUTEX_INITIALIZER; c_port := [] |}.
Definition demo_calls : list call_t :=
  [ {| d_irq := false; d_cur := 7; d_level := Z.lor 1 OUTPUT_ENABLED; d_fmt := 200; d_toks := demo_up |};
    {| d_irq := true; d_cur := 7; d_level := Z.lor 5 OUTPUT_ENABLED; d_fmt := 220; d_toks := [TLit 33] |};
    {| d_irq := false; d_cur := 7; d_level := 3; d_fmt := 220; d_toks := [TLit 33] |} ].

Lemma below_clear a s : a + Z.of_nat (length s) < 10000 → clear 10000 20000 a s.
Proof. intros H i Hi. unfold outside. lia. Qed.

Lemma demo_placed : placed 10000 demo_types 100 120 20000 (c_mem demo_console).
Proof.
  assert (Forall2 (λ a s, cstr (c_mem demo_console) a s ∧ a + Z.of_nat (length s) < 10000) demo_types debug_type) as Ht
    by (apply (bool_decide_unpack _); vm_compute; exact I).
  split.
  - eapply list.Forall2_impl; [exact Ht|]. intros a s [Hs Ha]. split; [exact Hs|by apply below_clear].
  - split; [apply (bool_decide_unpack _); vm_compute; exact I|by apply below_clear].
  - split; [apply (bool_decide_unpack _); vm_compute; exact I|by apply below_clear].
  - apply region_check. vm_compute. reflexivity.
  - apply region_check. vm_compute. reflexivity.
  - by left.
Qed.

Lemma demo_message fmt ts :
  cstr (c_mem demo_console) fmt (format_of ts) → fmt + Z.of_nat (length (format_of ts)) < 10000 →
  forallb (λ t, match t with TLit c => (0 <? c) && (c <? 256) && negb (c =? 37) | TUns _ => true | _ => false end) ts = true →
  Z.of_nat (length (text ts)) < 2048 →
  message_ok 10000 20000 (c_mem demo_console) fmt ts.
Proof.
  intros Hs Hf Ht Hl. pose proof (proj1 (List.forallb_forall _ _) Ht) as Hall.
  assert (∀ t, t ∈ ts → tok_ok (c_mem demo_console) (outside 20000 10000 2048) t ∧ visible t) as Hok.
  { intros t Hin%list_elem_of_In%Hall. destruct t; try discriminate Hin; [|done]. simpl in Hin |- *. unfold is_word. change (2 ^ 8) with 256. lia. }
  split; [done|by apply below_clear|..|done]; apply list.Forall_forall; intros t Hin; by apply Hok.
Qed.

