(* ===== verification/Ramfs.v ===== *)
(** The file system in memory: fs/ramfs.c.  It can be created and is not used yet. *)
From S2P Require Import Prelude Words Mutex Dll Lists Vspace Kernel.
Open Scope Z_scope.

(** [ramfs_instance_t] (kernel/kernel/fs/ramfs.c, lines 19-24). *)
Record ramfs_instance_t := { ramfs_id : Z; ramfs_files : list_t; ramfs_lock : mutex_t }.

(** The instances, and [ramfs_id_counter]. *)
Record ramfs_t := { instances : gmap Z ramfs_instance_t; ramfs_id_counter : Z }.
Class RamfsState (F : Type) := {
  ramfs : F → ramfs_t;
  set_ramfs : ramfs_t → F → F;
  ramfs_set r f : ramfs (set_ramfs r f) = r;
}.

Section ramfs.
Context {A F : Type} `{B : Build} `{KM : Kmalloc A} `{RS : RamfsState F}.
Abbreviation kernel := (Kernel.kernel A F).
(** The lock that memory holds before it is initialised, by its address. *)
Context (junk_mutex : Z → mutex_t).

Definition of_ramfs {X} (get : ramfs_t → X) (k : kernel) : X := get (ramfs (k_fs k)).
Definition in_ramfs (f : ramfs_t → ramfs_t) : K kernel unit := modify (λ k, set_k_fs (set_ramfs (f (ramfs (k_fs k))) (k_fs k)) k).

(** [ramfs_create] (kernel/kernel/fs/ramfs.c, lines 28-36). *)
Definition ramfs_create : K kernel Z :=
  p ← new 112;
  l ← lift (mutex_init (junk_mutex (p + 40)));
  '(id, n) ← gets (λ k, atomic_add (of_ramfs ramfs_id_counter k) 1);
  in_ramfs (λ r, {| instances := <[p := {| ramfs_id := id; ramfs_files := list_init; ramfs_lock := l |}]> (instances r);
                    ramfs_id_counter := n |});;
  mret p.

(** [n] file systems. *)
Fixpoint create_all (n : nat) : K kernel (list Z) :=
  match n with O => mret [] | S n => p ← ramfs_create; ps ← create_all n; mret (p :: ps) end.

(** ** File systems that are created are apart *)

Context {KL : KmallocLaws A} (room : ∀ n (h : A), km_room n h).
Context (fresh : ∀ a, mx_magic (junk_mutex a) ≠ MUTEX_MAGIC ∧ sp_magic (mx_spin (junk_mutex a)) ≠ MUTEX_MAGIC).
Implicit Types (k : kernel) (ps : list Z).

Definition new_instance (id : Z) : ramfs_instance_t := {| ramfs_id := id; ramfs_files := list_init; ramfs_lock := MUTEX_INITIALIZER |}.

Lemma ramfs_create_spec k : store_wf (k_store k) →
  (∃ p k', ramfs_create k = Ok (p, k') ∧ store_wf (k_store k') ∧ p ∉ km_live (heap (k_store k)) ∧
     km_live (heap (k_store k')) = {[p]} ∪ km_live (heap (k_store k)) ∧
     of_ramfs instances k' = <[p := new_instance (of_ramfs ramfs_id_counter k)]> (of_ramfs instances k) ∧
     of_ramfs ramfs_id_counter k' = u64 (of_ramfs ramfs_id_counter k + 1)) ∨
  (∃ w, ramfs_create k = Stop w ∧ no_memory w).
Proof.
  intros Hs. destruct (new_fresh 112 k Hs (room _ _)) as [(p & h & Hn & Hs' & _ & Hfr & Hlive)|(w & Hn & Hw)].
  - left. unfold ramfs_create. kstep Hn. unfold in_ramfs. destruct (fresh (p + 40)).
    rewrite mutex_init_fresh by done. kpure. eexists p, _. split; [done|]. unfold of_ramfs. cbn [k_fs set_k_fs set_k_store k_store].
    rewrite ramfs_set. cbn [instances ramfs_id_counter]. split_and!; done.
  - right. exists w. split; [|done]. unfold ramfs_create. by apply K_bind_Stop.
Qed.

(** However many file systems are created, their addresses differ, their numbers count up from that of the first, and each
    is still as it was created; unless memory runs out. *)
Theorem ramfs_instances_apart n k c : store_wf (k_store k) → of_ramfs ramfs_id_counter k = c → 0 <= c → c + Z.of_nat n < 2 ^ 64 →
  (∃ ps k', create_all n k = Ok (ps, k') ∧ NoDup ps ∧ length ps = n ∧
     (∀ p, p ∈ ps → p ∉ km_live (heap (k_store k))) ∧
     (∀ q, q ∉ ps → of_ramfs instances k' !! q = of_ramfs instances k !! q) ∧
     ∀ i p, ps !! i = Some p → of_ramfs instances k' !! p = Some (new_instance (c + Z.of_nat i))) ∨
  (∃ w, create_all n k = Stop w ∧ no_memory w).
Proof.
  revert k c. induction n as [|n IH]; intros k c Hs Hc H0 Hb; cbn [create_all].
  { left. exists [], k. split_and!; try done. - apply NoDup_nil_2. - by intros p ?%elem_of_nil. }
  destruct (ramfs_create_spec k Hs) as [(p & k1 & Hr & Hs1 & Hfr & Hl1 & Hi1 & Hc1)|(w & Hr & Hw)].
  2: { right. exists w. split; [by apply K_bind_Stop|done]. }
  kstep Hr. rewrite Hc in Hi1, Hc1. rewrite (uwrap_small 64) in Hc1 by (split; lia).
  destruct (IH k1 (c + 1) Hs1 Hc1) as [(ps & k' & Hrs & Hnd & Hlen & Hfrs & Hsame & Hids)|(w & Hrs & Hw)]; [lia|lia| |].
  2: { right. exists w. split; [by apply K_bind_Stop|done]. }
  left. exists (p :: ps), k'. kstep Hrs. assert (p ∉ ps) as Hp. { intros Hin. apply (Hfrs p Hin). rewrite Hl1. set_solver. }
  split_and!; [done|by apply NoDup_cons_2|by rewrite <- Hlen| | |].
  - intros q [->|Hq]%elem_of_cons; [done|]. specialize (Hfrs q Hq). rewrite Hl1 in Hfrs. set_solver.
  - intros q Hq%not_elem_of_cons. rewrite Hsame, Hi1 by apply Hq. apply lookup_insert_ne. intros ->. by apply (proj1 Hq).
  - intros [|i] q Hq; simpl in Hq.
    + injection Hq as <-. rewrite Hsame, Hi1 by done. rewrite lookup_insert_eq. simpl. by rewrite Z.add_0_r.
    + rewrite (Hids i q Hq). do 2 f_equal. lia.
Qed.
End ramfs.
