(* ===== verification/System.v ===== *)
(** The components put together: a system call of a program that reads a file of an ext2 file system on a RAM disk, from
    the interrupt (x86/irq.c, sched/syscalls.c) over the descriptors of the process (fs/fs_syscall.c, sched/proc.c), the file
    system (fs/ext2fs.c, fs/vfs.c) and the block device (fs/blkdev_ops.c) to the content of the disk (fs/ramdisk.c). *)
From S2P Require Import Prelude Words Mutex PageAlloc Dll Lists Vspace Errno Kernel Sched UserMem Vfs Ext2 Loader Proc Irq Block.
Open Scope Z_scope.

Section system.
Context {A F : Type} `{KM : Kmalloc A} {KL : KmallocLaws A} `{PM : PhysMem A} `{BS : BlockState F} `{E : Ext2State F}
  `{BDR : BlockDrivers A F} `{W : Writers A F} `{ID : IrqDrivers A F}.
#[local] Existing Instance release_build.
Abbreviation kernel := (Kernel.kernel A F).
(** The other drivers, the addresses of [bd_read] and [ext2_read], and memory that is not initialised. *)
Context (other : Drivers A F) (BD_READ EXT2_READ : Z) (junk_bytes : Z → nat → list Z).
Context (blk_ext2s : ∀ m f, blk (set_ext2s m f) = blk f).
Implicit Types (k : kernel) (image : list Z).

(** The functions behind pointers: devices are read by [bd_read]; files of ext2 by [ext2_read], which itself
    reads devices only. *)
#[local] Instance device_drivers : Drivers A F := block_drivers other BD_READ.
#[local] Instance devices : DiskDrivers A F := ramdisk_disks other BD_READ blk_ext2s.
Definition file_drivers : Drivers A F := {|
  call_read fn data len off :=
    if fn =? EXT2_READ then ext2_read junk_bytes data len off else call_read fn data len off;
  call_probe := @call_probe _ _ other; call_mount := @call_mount _ _ other; call_fetch := @call_fetch _ _ other |}.

(** The descriptor [fd] of the current process is a file of an ext2 file system, whose disk is a RAM disk. *)
Record file_of k (fd : Z) (d : fd_t) (f : file_t) e ino image (n : nat) : Prop := {
  fl_process : ∃ t pr xs us fdp, k_tasks k !! current_task k = Some t ∧ current_task k ≠ 0 ∧ t_process t ≠ 0 ∧
    fds_ok k (t_process t) pr xs us ∧ fd_table us !! fd = Some fdp ∧ fdp ≠ 0 ∧ objs (T := fd_t) k !! fdp = Some d;
  fl_lock : fdmod d = MUTEX_INITIALIZER;
  fl_read : op_read (f_ops d) = EXT2_READ;
  fl_file : objs (T := file_t) k !! fs_data d = Some f;
  fl_inode : objs (T := ext2_inode_t) k !! driver2 f = Some ino;
  fl_mounted : mounted_on k (driver1 f) e image;
  fl_blocks : file_ok e ino image n;
  fl_length : f_length f <= Z.of_nat n * block_size e;
}.

(** Reading changes the position of the device's descriptor only. *)
Lemma moved_fd fd k k' fdp (d : fd_t) : moved fd k k' → objs (T := fd_t) k !! fdp = Some d →
  ∃ d', objs (T := fd_t) k' !! fdp = Some d' ∧ fdmod d' = fdmod d.
Proof.
  intros [->|[p ->]] Hd; [by exists d|]. unfold seek. cbn [objs set_objs fd_object k_vfs set_k_vfs v_fds set_v_fds] in *.
  destruct (decide (fdp = fd)) as [->|Hne].
  - rewrite lookup_alter_eq, Hd. by eexists.
  - rewrite lookup_alter_ne by done. by eexists.
Qed.

Lemma sys_read_file k fd d f e ino image n buffer len b h :
  EXT2_READ ≠ 0 → file_of k fd d f e ino image n → (∀ a m, length (junk_bytes a m) = m) → fd < 2 ^ 31 →
  is_word 64 buffer → is_word 64 len → accepted buffer len → 0 <= fpos d <= f_length f → fpos d + len < 2 ^ 64 →
  km_room (block_size e) (heap (k_store k)) → km_alloc (block_size e) (heap (k_store k)) = Ok (b, h) →
  let count := Z.min len (f_length f - fpos d) in
  ∃ k' s', sys_read (D := file_drivers) fd buffer len k = Ok ((count, slice (fpos d) count (file_data image e ino n)), k') ∧
    moved (e_fd e) (set_k_store s' k) k'.
Proof.
  intros Hez [(t & pr & xs & us & fdp & Ht & Hc & Hp & Hk & Hfd & Hnz & Hd) Hl Hr Hf Hi Hm Hb Hlen] Hj Hf31 Hw Hw' Hacc Hpos Hov Hroom Ha count.
  destruct (ext2_read_spec junk_bytes k (fs_data d) f e ino image n len (fpos d) b h Hf Hm Hi Hb (fk_store _ _ _ _ _ Hk) Hroom Ha Hj Hpos
    (proj1 Hw') Hov Hlen) as (k' & s' & Hread & Hmv & _).
  exists k', s'. split; [|exact Hmv]. destruct (moved_fd _ _ _ fdp d Hmv Hd) as (d' & Hd' & Hl').
  rewrite (sys_read_calls (D := file_drivers) k t pr xs us fd buffer len fdp d (count, slice (fpos d) count (file_data image e ino n)) k' d'); try done.
  - by rewrite Hr.
  - cbn [call_read file_drivers]. rewrite Hr, Z.eqb_refl. exact Hread.
  - by rewrite Hl'.
Qed.

(** What the interrupt handler is told by the machine. *)
Context (cr2 : Z) (upper : Z → Z) (nothing : Z) (nested : Z → Z).

Lemma moved_context fd s k k' : moved fd (set_k_store s k) k' → k_contexts k' = k_contexts k ∧ k_tasks k' = k_tasks k ∧ k_procs k' = k_procs k ∧ k_fs k' = k_fs k.
Proof. by intros [->|[p ->]]. Qed.

End system.

(** ** A run: 100 bytes from position 1000 of a file of 1500 bytes, in the blocks 3 and 1 of a RAM disk of four *)

#[local] Existing Instance release_build.
Import Machine.

(** The state of the drivers, and what has been written to the program's memory. *)
Record sys := { sy_blk : blk_t; sy_ext2s : gmap Z ext2fs_t; sy_inodes : gmap Z ext2_inode_t; sy_user : list (Z * list Z) }.
#[local] Instance sys_blocks : BlockState sys.
Proof.
  refine {| blk := sy_blk; set_blk b s := {| sy_blk := b; sy_ext2s := sy_ext2s s; sy_inodes := sy_inodes s; sy_user := sy_user s |} |};
    [done|done|by intros []].
Defined.
#[local] Instance sys_ext2 : Ext2State sys.
Proof.
  refine {| ext2s := sy_ext2s;
            set_ext2s m s := {| sy_blk := sy_blk s; sy_ext2s := m; sy_inodes := sy_inodes s; sy_user := sy_user s |};
            inodes := sy_inodes;
            set_inodes m s := {| sy_blk := sy_blk s; sy_ext2s := sy_ext2s s; sy_inodes := m; sy_user := sy_user s |} |};
    [done|done|by intros []|done].
Defined.
#[local] Instance no_other_disks : BlockDrivers t sys := {| other_blk _ _ _ _ _ _ := kstop Fault |}.
#[local] Instance no_writers : Writers t sys := {| call_write _ _ _ _ _ := kstop Fault |}.
#[local] Instance user_memory : IrqDrivers t sys := {|
  call_handler _ _ := mret tt;
  user_write a bytes := modify (λ k, set_k_fs {| sy_blk := sy_blk (k_fs k); sy_ext2s := sy_ext2s (k_fs k); sy_inodes := sy_inodes (k_fs k);
                                                 sy_user := (a, bytes) :: sy_user (k_fs k) |} k) |}.
Definition no_others : Drivers t sys := {|
  call_read _ _ _ _ := kstop Fault; call_probe _ _ := kstop Fault; call_mount _ _ := kstop Fault; call_fetch _ _ _ := kstop Fault |}.

(** [bd_read] is 1, [ext2_read] is 2. *)
Definition disk_fd : fd_t :=
  {| fd_file := 0; fpos := 0; f_ops := {| op_read := 1; op_write := 0 |}; fs_data := 30; fdmod := MUTEX_INITIALIZER |}.
Definition open_file : fd_t :=
  {| fd_file := 50; fpos := 1000; f_ops := {| op_read := 2; op_write := 0 |}; fs_data := 50; fdmod := MUTEX_INITIALIZER |}.
Definition the_file : file_t :=
  {| f_mode := 0; f_type := F_REGULAR; f_uid := 0; f_gid := 0; t_last_modified := 0; t_last_accessed := 0; t_created := 0;
     f_length := 1500; f_inode := 11; driver1 := 41; driver2 := 42; f_parent := 0; special := NoSpecial |}.
Definition the_disk : list Z := Ext2.demo_image.
Definition sys_blk : blk_t := {|
  b_devs := {[ 30 := demo_disk ]}; b_drivers := {[ 20 := set_major 1 initrd_driver ]}; b_parts := ∅;
  b_rds := {[ 40 := {| ramdisk := 90; ramdisk_size := 8; rd_minor := 0; rd_lock := MUTEX_INITIALIZER |} ]}; b_ram := {[ 90 := the_disk ]};
  major_counter := 3; driver_list := list_init; driver_list_lock := MUTEX_INITIALIZER; bd_list := list_init;
  bd_list_lock := MUTEX_INITIALIZER; part_major := 2; initrd_major := 1; minor_counter := 1 |}.
Definition call_regs : context_t :=
  {| r15 := 0; r14 := 0; r13 := 0; r12 := 0; r11 := 0; r10 := 100; r9 := 0x1000; r8 := 0; rdi := 0; rsi := 0; rdx := 0; rcx := 0;
     rbx := 0; rax := 2; rbp := 0; gs := 0; fs := 0; irq := 0x80; error := 2; rip := 0; cs := 0x1b; rflags := 0;
     rsp := 0; ss := 0x23 |}.
Definition fd_user : proc_t := set_fd_counter 1 (set_fd_list {| items := 1; magic := LIST_MAGIC; first := 32; last := 32 |} user_proc).
Definition running : Kernel.kernel t sys :=
  set_k_contexts {[ 5000 := call_regs ]} (set_k_procs {[ 5 := fd_user ]} (set_k_ufds {[ 64 := {| user_fd := 0; fd_ptr := 44 |} ]}
    (set_k_vfs (set_v_files {[ 50 := the_file ]} (set_v_fds {[ 40 := disk_fd; 44 := open_file ]} no_files))
    (set_k_store {| nodes := {[ 32 := {| it_payload := 64; it_next := 0; it_prev := 0 |} ]};
                    heap := {| alloc := {| Bump.top := 96; Bump.live := {[32; 64]} |}; pages := demo_pages |} |}
    (start_with {| sy_blk := sys_blk; sy_ext2s := {[ 41 := demo_e ]}; sy_inodes := {[ 42 := demo_inode ]}; sy_user := [] |}))))).

Lemma running_fds : fds_ok running 5 fd_user [(32, 64)] [{| user_fd := 0; fd_ptr := 44 |}].
Proof.
  split; [done|done| | | |repeat constructor; simpl; lia|done|].
  - split; [apply (bool_decide_unpack _); vm_compute; exact I|apply (bool_decide_unpack _); vm_compute; exact I|done].
  - split; [done|done|done|done|done|apply (bool_decide_unpack _); vm_compute; exact I|repeat split].
  - repeat constructor.
  - intros x Hx. change (x ∈ [64]) in Hx. apply list_elem_of_singleton in Hx as ->.
    apply (bool_decide_unpack _). vm_compute. exact I.
Qed.

Lemma sys_apart : ∀ m (f : sys), blk (set_ext2s m f) = blk f.
Proof. done. Qed.

Lemma running_mounted :
  @mounted_on t sys (block_drivers no_others 1) _ (ramdisk_disks no_others 1 sys_apart) running 41 demo_e the_disk.
Proof.
  split; [reflexivity|reflexivity| |vm_compute; reflexivity|exists 1; split; [lia|reflexivity]].
  exists disk_fd. split; [reflexivity|]. split; [discriminate|]. vm_compute. reflexivity.
Qed.

Lemma running_file : file_of no_others 1 2 sys_apart running 0 open_file the_file demo_e demo_inode the_disk 2.
Proof.
  split; [|reflexivity|reflexivity|reflexivity|reflexivity|exact running_mounted|exact demo_file_ok|vm_compute; discriminate].
  exists user_task, fd_user, [(32, 64)], [{| user_fd := 0; fd_ptr := 44 |}], 44.
  split; [reflexivity|]. split; [discriminate|]. split; [discriminate|]. split; [exact running_fds|]. split; [reflexivity|]. split; [discriminate|reflexivity].
Qed.

